(* ===== verification/_CoqProject ===== *)
-Q . S2P
Prelude.v
RtpPacket.v
Post.v
SinkDispatcher.v
SinkDispatcherSpec.v
MediaStream.v
MediaPortPool.v
Registry.v
StunMessage.v
StunMessageSpec.v
RtpQueue.v
RtpQueueSpec.v
RtpPayload.v
RtpH264.v
RtpH264Spec.v
RtpH264Stream.v
RtpH264Safe.v
Avc.v
AvcSpec.v
AvcUpdateSpec.v
AvcStreamSpec.v
AvcRecordSpec.v
CodecUtils.v
MpegBits.v
Aac.v
AacSpec.v
FlvHeader.v
FlvHeaderSpec.v
FlvWriter.v
FlvParser.v
FlvParserSpec.v
HttpFlv.v
HttpFlvSpec.v
Doubles.v
RtcpMember.v
RtcpContext.v
RtcpRtpfb.v
RtcpPsfb.v
RtcpXr.v
RtcpSession.v
RtcpContextSpec.v
RtcpFeedbackSafe.v
RtcpSafe.v
RtcpReception.v
RtcpReportSpec.v
RtcpFaults.v
RtmpInternal.v
RtmpChunk.v
RtmpChunkRead.v
RtmpChunkWrite.v
RtmpSession.v
Amf0.v
Amf0Spec.v
RtmpCommand.v
RtmpCommandSpec.v
RtmpInvoke.v
RtmpInvokeSpec.v
RtmpHandler.v
RtmpHandlerSpec.v
RtmpControlSpec.v
RtmpHandshake.v
RtmpServer.v
RtmpServerSpec.v
RtmpServerSafe.v
RtmpClient.v
MpegCrc32.v
MpegPes.v
MpegTs.v
MpegTsSpec.v
MpegTsMux.v
MpegTsWf.v
MpegTsLossless.v
HlsSegmenter.v
HlsSpec.v
HlsRefine.v
HlsPublish.v
