(* ===== verification/Prelude.v ===== *)
(** A media server, verified.

    The repository is a media server: a C++ front end (src/media), a Go
    signaling service (src/signaling), a Qt client (src/desktop) and load tests
    (src/bench).  What they speak on the wire is mostly the work of the C library
    they are linked with, src/third/ireader.  This development models that library
    and the parts of src/media that have a logic of their own, built as the server
    builds them: on an LP64 machine, with NDEBUG (assertions do nothing) and without
    _FLASH_HANDSHAKE_.

    * Conventions

    A C integer is a [Z] with its conversions written out: [u8], [u16], [u32],
    [u64] reduce modulo the width, [s32] is the int with these bits, [int] and
    [int64] fail on overflow.  A buffer is a list of cells and a pointer into it an
    offset; every access is checked.  A function that can go wrong returns an
    [outcome]: [Ub] for undefined behaviour, [Fail r] for an early return with
    an error code, [Ok] otherwise.  A theorem that says a function returns
    [Ok] therefore also says that it is memory safe.  Callbacks, allocation, the
    clock, random numbers and HMACs are arguments of the definitions that use them.
    Objects shared by pointers live in a store where sharing matters.  What threads
    do is a step relation, with a step for what happens under a lock.
    Fuel makes loops structural.  The bound passed is one the loop cannot reach
    (below); running out is [Ub], or [None] where a loop may truly not end, so
    that the safety theorems say that it was enough.

    * Parts and files

    Prelude (this file): outcomes, integers, buffers, their lemmas and tactics.
    Post: postconditions of outcomes.  Doubles: binary64 and binary32.

    RTP, librtp/source.  RtpPacket is rtp-packet.c.  RtpQueue is rtp-queue.c, a
    ring of packets; RtpQueueSpec has the abstract queue it implements.
    RtpPayload is rtp-pack.c, rtp-unpack.c and rtp-payload-helper.c: a payload
    format is a record of operations over a state, and hands what it produces
    to a record of callbacks.  RtpH264 is the three rtp-h264 files; RtpH264Spec,
    RtpH264Stream and RtpH264Safe say what it does.

    RTCP, librtp/source.  RtcpMember is rtp-member.c and rtp-member-list.c:
    participants are shared by the lists and counted, so they live in a store,
    with the invariant of the lists.
    RtcpContext is the session of rtp-internal.h with the two functions that look
    participants up; RtcpRtpfb, RtcpPsfb and RtcpXr are the feedback messages and
    extended reports; RtcpSession is the rest: rtcp.c, reports, descriptions,
    goodbyes, rtp.c.  [rtcp_input_rtcp] takes a datagram apart and calls
    [rtcp_parse] on each packet, which calls the reader of its type.
    RtcpContextSpec has the invariant of the session, and the files after it the
    theorems.

    RTMP, librtmp/source and libflv/source/amf0.c.  RtmpInternal is the state
    shared by all; RtmpChunk is the chunk layer (rtmp-chunk-*.c), a push parser
    that calls a message handler and a writer that calls a send callback.  Amf0
    is amf0.c.  RtmpCommand writes commands, RtmpInvoke reads them and calls the
    application; RtmpHandler reads all messages (control, events, commands,
    media) and is what the chunk reader calls.  RtmpHandshake, RtmpServer and
    RtmpClient are the two ends: [rtmp_server_input] feeds the handshake, then
    the chunk reader, whose handler calls back into the server.

    H.264 and FLV, libflv/source.  Avc is mpeg4-avc.c with the conversions between
    byte streams and the length-prefixed form (mpeg4-annexbtomp4.c,
    mpeg4-mp4toannexb.c); the files Avc... after it are its theorems,
    AvcRecordSpec ends with the inputs that break it.  FlvHeader is flv-header.c, FlvWriter
    flv-writer.c and FlvParser flv-parser.c, a state machine fed with pieces;
    FlvParserSpec says what it makes of a stream of tags, and where that differs from
    the function for one tag.

    AAC, libflv.  MpegBits is include/mpeg4-bits.h, a cursor over the bits of a
    block, with the bits that each of its functions reads and writes.  Aac is
    mpeg4-aac.c and mpeg4-aac-asc.c on top of it: ADTS headers and the
    configurations of MPEG-4 and LATM; AacSpec has the postconditions of the loaders.

    MPEG transport streams, libmpeg/source.  MpegCrc32 is mpeg-crc32.c.  MpegPes
    has the headers of PES packets (mpeg-pes.c) and the delimiters of video
    (mpeg-ts-h264.c and the like); MpegTs is the muxer, mpeg-ts-enc.c with the
    tables of mpeg-pat.c, mpeg-pmt.c and mpeg-sdt.c: [mpeg_ts_write] stores the
    times of a frame in its stream, sends the tables when they are due and calls
    [ts_write_pes], which cuts the frame into packets for a callback.  MpegPes
    and MpegTsSpec say what is written, byte for byte; MpegTsMux has the invariant
    of a muxer and what a frame does to it, MpegTsWf that every operation keeps
    it, MpegTsLossless a receiver.

    The server, src/media.  SinkDispatcher is core/worker_sink_dispatcher.h, the
    fan-out of the frames of a stream to consumers on worker threads, as a
    transition system; MediaStream is core/media_stream.cpp on top of it.  Registry
    is core/session_registry.cpp and core/stream_registry.cpp, MediaPortPool
    net/media_port_pool.cpp, StunMessage webrtc/stun_message.cpp, CodecUtils
    codec/codec_utils.cpp and rtmp/rtmp_timestamp.h.  HttpFlv is
    http/http_flv_session.cpp, which calls FlvWriter and queues what comes out.
    HlsSegmenter is hls/hls_segmenter.cpp on top of MpegTs: it cuts the frames of a
    stream into segments and keeps the last of them; HlsSpec has the abstract
    segmenter, HlsRefine that each operation implements it, HlsPublish what can be
    fetched.

    * What is proved

    End to end: messages written as chunks are delivered unchanged whatever the
    chunk sizes, interleaving and fragmentation ([rtmp_session_delivers],
    [rtmp_chunk_read_fragments]); units given to the H.264 packer come out of the
    unpacker, whole and in order, or are known to be lost ([rtp_h264_lossless],
    [rtp_h264_losses], but for the units lost before the first one delivered); a
    command built by one side calls the callback of the other with what arrives of its
    arguments: strings that fit, and of a connect request not the fields whose names
    the two sides spell differently or that are not read ([rtmp_command_delivered]);
    control messages have the effect they stand for ([rtmp_control_delivered]);
    a report of one session is what the other learns ([rtcp_sr_roundtrip],
    [rtcp_reception_report]); packets are parsed to what was serialized
    ([rtp_packet_roundtrip], [stun_request_roundtrip]); frames written to a
    transport stream are read from its packets ([ts_mux_lossless]), and the segments
    of HLS hold the frames of their time ([hls_segmenter_refines]); the two forms
    of H.264 and its records carry the same units ([h264_stream_roundtrip],
    [h264_config_roundtrip], [length_prefixed_same_units]); a client of the
    HTTP-FLV session hears of the tags it sent ([http_flv_client_gets]).

    On any input: the RTP packet, chunk, AMF0, H.264, RTCP and STUN readers and the
    server return, stay inside their buffers and keep their invariant
    ([rtmp_chunk_read_safe], [amf_read_items_safe], [rtp_h264_unpack_safe],
    [rtcp_input_safe], [rtmp_server_input_safe], [stun_parse_safe]), and so do the
    loaders of AAC ([aac_load_safe]); a STUN request is accepted only with the expected
    user name, the HMAC of what precedes it under the password and the fingerprint of
    all before it ([stun_request_authentic]); what is
    excluded is named in the statement, and the input that makes the exclusion
    necessary is a theorem too ([rtmp_command_onstatus_overrun],
    [rtcp_xr_diverges], [rtp_h264_avcc_overflow], [avc_hostile_input],
    [flv_parser_faults], RtcpFaults).

    State: the reorder queue refines an abstract queue, with and without room and
    memory, delivers in order, delivers or frees no packet twice and loses none except
    in calls that are refused for want of room or memory ([rtp_queue_write_refinement],
    [rtp_queue_delivers_in_order], [rtp_queue_owns_packets]); the registries refine
    flat maps ([session_registry_refines]); the copies of parameter sets stay two
    lists in the order of their arrival ([mpeg4_avc_update_refines]); the server
    answers the handshake and acknowledges in time ([rtmp_server_handshake],
    [rtmp_server_acknowledges]); a participant that leaves is gone from both lists
    ([rtcp_bye_leaves]); a muxer is well formed after any
    calls within its limits, which the theorem lists ([ts_muxer_wf]); no
    port is given out twice ([port_pool_exclusive]); the queue of a client is
    bounded ([http_flv_stream]); at most six segments are kept, each from a key frame
    on ([hls_window]).

    Threads: whatever the interleaving, a consumer gets a run of the frames in
    order ([dispatcher_in_order], [stream_in_order]); the tasks come to an end, and
    then a consumer has been called with every frame published since it was added, or
    has been told of the end, of the stream or of its overflowing queue
    ([dispatcher_drains], [stream_ends]).

    Against a reference: the push parser of FLV and a reader of whole tags, with the
    tags of which the function for one tag says the same ([flv_parser_pieces]), the
    checksum of MPEG and its polynomial ([mpeg_crc32_standard]), times in 90 kHz and
    exact division ([ns_to_90khz_ok]), unwrapped and true time
    ([rtmp_timestamps_unwrap]).

    * Fuel

    The chunk reader runs its state machine for 5 steps a byte and 5 more: every
    chunk of at least one byte goes through at most five states; the recursion
    that rewinds an extended time stamp is at most 2 deep, and a header is filled
    in at most 18 steps.  The AMF0 reader has three steps a byte and three more,
    an aggregate message a step for the 15 bytes every part takes at least.  The
    binary search has as many steps as the queue has slots, the random part of
    the handshake 382 words.  The FLV parser has four steps a byte and four more: at
    most three in a row take no byte.  A unit of an Exp-Golomb code has eight steps
    a byte for its zeros.  All other loops over input have one step a byte,
    and every round takes at least one.  The blocks of an extended report have
    their own fuel and a [None], since that loop can run for ever; so has the loop
    over the units of a length-prefixed stream, whose lengths may wrap around.  A field
    of 64 bits has at most eight whole bytes.  A loop of the AAC configurations that
    reads on until a bit is not set has a step for every bit of the data, behind which
    bits read as 0; only the zeros of an Exp-Golomb code of AV1 are counted for ever
    there, and that is [Ub].

    * Not modelled

    amf3.c and the debug tests of every file; the digest handshake, which is not
    compiled; reading the system clock.  The table of rtp-payload.c, the other payload
    formats, rtp-demuxer.c, the text of mpeg4_aac_codecs, the demuxers of transport
    and program streams, the FLV muxer and demuxer and the other codecs of libflv,
    libhttp, librtsp, libmov and libmkv are left out: they are of the kinds above, or
    work on files.  The text of the HLS playlist is not modelled.  The sessions of
    src/media over sockets, TLS and SRTP are mostly calls of libraries; src/signaling
    is in Go, src/desktop and src/bench are a user interface and load tests. *)
From stdpp Require Export base tactics list numbers.

Declare Scope c_scope.
Delimit Scope c_scope with c.
Global Open Scope Z_scope.

(** * Outcomes of C functions

    [Ub] is undefined behaviour (an access outside an object, a division by
    zero): no theorem may rely on what follows it.  [Fail r] is an early
    return with the error code [r].  [Ok a] is the normal return. *)

Inductive outcome (A : Type) : Type :=
| Ub
| Fail (code : Z)
| Ok (a : A).
Arguments Ub {A}.
Arguments Fail {A} code.
Arguments Ok {A} a.

#[global] Instance outcome_ret : MRet outcome := λ A a, Ok a.
#[global] Instance outcome_bind : MBind outcome := λ A B f x,
  match x with Ub => Ub | Fail r => Fail r | Ok a => f a end.

#[global] Instance outcome_eq_dec `{EqDecision A} : EqDecision (outcome A).
Proof. solve_decision. Defined.

Lemma Ok_inj {A} (a b : A) : Ok a = Ok b → a = b.
Proof. congruence. Qed.

(** One step of a sequence whose head is already evaluated. *)
Ltac run := cbn [mbind outcome_bind].

(** A call is safe when it has no undefined behaviour. *)
Definition safe {A} (x : outcome A) : Prop := x ≠ Ub.

Lemma safe_ok {A} (a : A) : safe (Ok a).
Proof. by unfold safe. Qed.

Lemma safe_fail {A} r : safe (@Fail A r).
Proof. by unfold safe. Qed.

Lemma safe_bind {A B} (x : outcome A) (f : A → outcome B) :
  safe x → (∀ a, x = Ok a → safe (f a)) → safe (x ≫= f).
Proof. unfold safe. destruct x; naive_solver. Qed.

(** * Machine integers *)

Definition u8 (v : Z) : Z := v mod 2 ^ 8.
Definition u16 (v : Z) : Z := v mod 2 ^ 16.
Definition u32 (v : Z) : Z := v mod 2 ^ 32.
Definition u64 (v : Z) : Z := v mod 2 ^ 64.

(** Conversion to a signed type of the width: two's complement. *)
Definition s16 (v : Z) : Z := (v + 2 ^ 15) mod 2 ^ 16 - 2 ^ 15.
Definition s32 (v : Z) : Z := (v + 2 ^ 31) mod 2 ^ 32 - 2 ^ 31.

Definition is_uint (w v : Z) : Prop := 0 ≤ v < 2 ^ w.
Abbreviation is_byte := (is_uint 8).

#[global] Instance is_uint_dec w v : Decision (is_uint w v).
Proof. unfold is_uint. apply _. Defined.

(** A buffer is well formed when every cell is a byte. *)
Definition bytes_ok (l : list Z) : Prop := Forall is_byte l.

#[global] Instance bytes_ok_dec l : Decision (bytes_ok l).
Proof. unfold bytes_ok. apply _. Defined.

(** C's [x ? a : b] on an integer and the value of a comparison. *)
Definition truth (v : Z) : bool := negb (v =? 0).

(** A sum or difference in [int], which must not overflow. *)
Definition int (v : Z) : outcome Z := if (- 2 ^ 31 <=? v) && (v <? 2 ^ 31) then Ok v else Ub.

Lemma int_ok v : - 2 ^ 31 ≤ v < 2 ^ 31 → int v = Ok v.
Proof.
  intros. unfold int.
  by destruct (Z.leb_spec (- 2 ^ 31) v), (Z.ltb_spec v (2 ^ 31)); try lia.
Qed.

(** The same in [int64_t]. *)
Definition int64 (v : Z) : outcome Z := if (- 2 ^ 63 <=? v) && (v <? 2 ^ 63) then Ok v else Ub.

Lemma int64_ok v : - 2 ^ 63 ≤ v < 2 ^ 63 → int64 v = Ok v.
Proof. intros. unfold int64. destruct (Z.leb_spec (- 2 ^ 63) v), (Z.ltb_spec v (2 ^ 63)); done || lia. Qed.

(** <errno.h> *)
Definition EINVAL : Z := 22.
Definition ENOMEM : Z := 12.

(** Arithmetic with division and modulus by constants. *)
Ltac dlia := repeat match goal with
  | H : context [2 ^ ?n] |- _ => progress (let v := eval vm_compute in (2 ^ n) in change (2 ^ n) with v in H)
  | |- context [2 ^ ?n] => progress (let v := eval vm_compute in (2 ^ n) in change (2 ^ n) with v)
  end; Z.div_mod_to_equations; lia.

Ltac unfold_ints := unfold u8, u16, u32, u64, s16, s32, is_uint, truth in *.

Lemma u8_range v : is_byte (u8 v).
Proof. unfold_ints. dlia. Qed.
Lemma u16_range v : is_uint 16 (u16 v).
Proof. unfold_ints. dlia. Qed.
Lemma u32_range v : is_uint 32 (u32 v).
Proof. unfold_ints. dlia. Qed.
Lemma u8_id v : is_byte v → u8 v = v.
Proof. unfold_ints. dlia. Qed.
Lemma u16_id v : is_uint 16 v → u16 v = v.
Proof. unfold_ints. dlia. Qed.
Lemma u32_id v : is_uint 32 v → u32 v = v.
Proof. unfold_ints. dlia. Qed.
Lemma s32_small v : 0 ≤ v < 2 ^ 31 → s32 v = v.
Proof. unfold s32. dlia. Qed.

Create HintDb cint.
#[export] Hint Resolve u8_range u16_range u32_range : cint.

(** [a << n | b] with the low [n] bits free is an addition. *)
Lemma testbit_small b n i : 0 ≤ b < 2 ^ n → n ≤ i → Z.testbit b i = false.
Proof.
  intros Hb Hi. destruct (decide (n < 0)).
  { rewrite Z.pow_neg_r in Hb by done. lia. }
  rewrite <- (Z.mod_small b (2 ^ n)) by done. apply Z.mod_pow2_bits_high. lia.
Qed.

Lemma lor_shiftl_add a b n :
  0 ≤ n → 0 ≤ b < 2 ^ n → Z.lor (Z.shiftl a n) b = a * 2 ^ n + b.
Proof.
  intros Hn Hb. rewrite Z.shiftl_mul_pow2 by done.
  assert (Z.land (a * 2 ^ n) b = 0) as Hd.
  { apply Z.bits_inj'. intros i Hi. rewrite Z.land_spec, Z.bits_0.
    destruct (decide (i < n)).
    - by rewrite Z.mul_pow2_bits_low.
    - rewrite (testbit_small b n) by (done || lia). apply andb_false_r. }
  by rewrite <- Z.lxor_lor, <- Z.add_nocarry_lxor.
Qed.

Lemma land_ones_mod v n : 0 ≤ n → Z.land v (2 ^ n - 1) = v mod 2 ^ n.
Proof. intros. rewrite <- Z.land_ones, Z.ones_equiv by lia. f_equal. Qed.

Lemma land_mask v m n : m = 2 ^ n - 1 → 0 ≤ n → Z.land v m = v mod 2 ^ n.
Proof. intros ->. apply land_ones_mod. Qed.

(** Masks of low bits as remainders, shifts as quotients and products. *)
Ltac masks := repeat match goal with
  | |- context [Z.land ?v ?m] =>
      let n := eval vm_compute in (Z.log2 (m + 1)) in
      rewrite (land_mask v m n eq_refl ltac:(lia))
  | |- context [Z.shiftr ?v ?n] => rewrite (Z.shiftr_div_pow2 v n) by lia
  | |- context [Z.shiftl ?v ?n] => rewrite (Z.shiftl_mul_pow2 v n) by lia
  end.

Lemma shiftr_div v n : 0 ≤ n → Z.shiftr v n = v / 2 ^ n.
Proof. apply Z.shiftr_div_pow2. Qed.

(** * Byte buffers *)

Definition zlen {A} (l : list A) : Z := Z.of_nat (length l).

Lemma zlen_nonneg {A} (l : list A) : 0 ≤ zlen l.
Proof. unfold zlen. lia. Qed.
Lemma zlen_app {A} (l k : list A) : zlen (l ++ k) = zlen l + zlen k.
Proof. unfold zlen. rewrite length_app. lia. Qed.
Lemma zlen_cons {A} (x : A) l : zlen (x :: l) = 1 + zlen l.
Proof. unfold zlen. simpl. lia. Qed.
Lemma zlen_nil {A} : zlen (@nil A) = 0.
Proof. done. Qed.
Lemma zlen_drop {A} (n : nat) (l : list A) : (n ≤ length l)%nat → zlen (drop n l) = zlen l - Z.of_nat n.
Proof. intros. unfold zlen. rewrite length_drop. lia. Qed.
Lemma zlen_take {A} (n : nat) (l : list A) : (n ≤ length l)%nat → zlen (take n l) = Z.of_nat n.
Proof. intros. unfold zlen. by rewrite length_take_le. Qed.
Lemma zlen_replicate {A} (n : nat) (x : A) : zlen (replicate n x) = Z.of_nat n.
Proof. unfold zlen. by rewrite length_replicate. Qed.

(** [m[p]]: a load of one cell. *)
Definition ld {A} (m : list A) (p : Z) : outcome A :=
  if p <? 0 then Ub else match m !! Z.to_nat p with Some b => Ok b | None => Ub end.

(** The [n] cells at [p], as [memcpy] reads them. *)
Definition sub {A} (m : list A) (p n : Z) : list A := take (Z.to_nat n) (drop (Z.to_nat p) m).
Definition slice {A} (m : list A) (p n : Z) : outcome (list A) :=
  if (0 <=? p) && (0 <=? n) && (p + n <=? zlen m) then Ok (sub m p n) else Ub.

(** Stores of consecutive cells at [p], as assignments or [memcpy] make them. *)
Definition put {A} (m : list A) (p : Z) (bs : list A) : list A :=
  take (Z.to_nat p) m ++ bs ++ drop (Z.to_nat p + length bs) m.
Definition st {A} (m : list A) (p : Z) (bs : list A) : outcome (list A) :=
  if (0 <=? p) && (p + zlen bs <=? zlen m) then Ok (put m p bs) else Ub.

Section Buffers.
Context {A : Type}.
Implicit Types (m bs : list A) (p n : Z).

Lemma ld_ok `{Inhabited A} m p : 0 ≤ p < zlen m → ld m p = Ok (m !!! Z.to_nat p).
Proof.
  intros Hp. unfold ld. destruct (Z.ltb_spec p 0); [lia|].
  destruct (lookup_lt_is_Some_2 m (Z.to_nat p)) as [x Hx]; [unfold zlen in *; lia|].
  by rewrite Hx, (list_lookup_total_correct _ _ _ Hx).
Qed.

Lemma ld_safe m p : 0 ≤ p < zlen m → safe (ld m p).
Proof.
  intros Hp. unfold ld. destruct (Z.ltb_spec p 0); [lia|].
  destruct (lookup_lt_is_Some_2 m (Z.to_nat p)) as [x ->]; [unfold zlen in *; lia|done].
Qed.

Lemma ld_inv m p x : ld m p = Ok x → 0 ≤ p < zlen m ∧ m !! Z.to_nat p = Some x.
Proof.
  unfold ld. destruct (Z.ltb_spec p 0); [done|].
  destruct (m !! Z.to_nat p) eqn:E; [|done]. intros [= ->].
  apply lookup_lt_Some in E as ?. unfold zlen. split; [lia|done].
Qed.

Lemma slice_ok m p n : 0 ≤ p → 0 ≤ n → p + n ≤ zlen m → slice m p n = Ok (sub m p n).
Proof.
  intros. unfold slice.
  destruct (Z.leb_spec 0 p), (Z.leb_spec 0 n), (Z.leb_spec (p + n) (zlen m)); done || lia.
Qed.

Lemma slice_safe m p n : 0 ≤ p → 0 ≤ n → p + n ≤ zlen m → safe (slice m p n).
Proof. intros. by rewrite slice_ok. Qed.

Lemma st_ok m p bs : 0 ≤ p → p + zlen bs ≤ zlen m → st m p bs = Ok (put m p bs).
Proof.
  intros. unfold st.
  destruct (Z.leb_spec 0 p), (Z.leb_spec (p + zlen bs) (zlen m)); done || lia.
Qed.

Lemma zlen_sub m p n : 0 ≤ p → 0 ≤ n → p + n ≤ zlen m → zlen (sub m p n) = n.
Proof. intros. unfold zlen, sub in *. rewrite length_take, length_drop. lia. Qed.

Lemma zlen_put m p bs : 0 ≤ p → p + zlen bs ≤ zlen m → zlen (put m p bs) = zlen m.
Proof.
  intros. unfold zlen, put in *. rewrite !length_app, length_take, length_drop. lia.
Qed.

(** Two adjacent stores are one. *)
Lemma put_app m p bs cs :
  0 ≤ p → p + zlen bs ≤ zlen m →
  put (put m p bs) (p + zlen bs) cs = put m p (bs ++ cs).
Proof.
  intros. unfold put, zlen in *.
  replace (Z.to_nat (p + Z.of_nat (length bs))) with (Z.to_nat p + length bs)%nat by lia.
  rewrite (take_app_add' (take _ m)) by (rewrite length_take; lia).
  rewrite take_app_length.
  rewrite <- Nat.add_assoc, (drop_app_add' (take _ m)) by (rewrite length_take; lia).
  rewrite drop_app_add, drop_drop, length_app, <- !app_assoc.
  by rewrite Nat.add_assoc.
Qed.

Lemma put_app_at m p q bs cs :
  0 ≤ p → p + zlen bs ≤ zlen m → q = p + zlen bs →
  put (put m p bs) q cs = put m p (bs ++ cs).
Proof. intros ? ? ->. by apply put_app. Qed.

(** Reading back what was stored. *)
Lemma sub_put m p bs : 0 ≤ p → p + zlen bs ≤ zlen m → sub (put m p bs) p (zlen bs) = bs.
Proof.
  intros. unfold sub, put, zlen in *.
  rewrite drop_app_length' by (rewrite length_take; lia).
  apply take_app_length'. lia.
Qed.

Lemma sub_put_before m p bs n : 0 ≤ n ≤ p → p ≤ zlen m → sub (put m p bs) 0 n = sub m 0 n.
Proof.
  intros. unfold sub, put, zlen in *. change (Z.to_nat 0) with 0%nat. rewrite !drop_0.
  rewrite take_app_le by (rewrite length_take; lia). rewrite take_take. f_equal. lia.
Qed.

(** Cells outside the stored range keep their contents. *)
Lemma put_lookup_out m p bs (i : nat) :
  0 ≤ p → p + zlen bs ≤ zlen m →
  Z.of_nat i < p ∨ p + zlen bs ≤ Z.of_nat i → put m p bs !! i = m !! i.
Proof.
  intros ? ? Hi. unfold put, zlen in *. destruct Hi.
  - rewrite lookup_app_l by (rewrite length_take; lia).
    apply lookup_take_lt. lia.
  - rewrite lookup_app_r by (rewrite length_take; lia).
    rewrite lookup_app_r by (rewrite length_take; lia).
    rewrite lookup_drop. f_equal. rewrite length_take. lia.
Qed.

Lemma put_whole m bs : zlen m = zlen bs → put m 0 bs = bs.
Proof.
  unfold put, zlen. intros. simpl. rewrite drop_ge by lia. apply app_nil_r.
Qed.

Lemma sub_app_l m k p n :
  0 ≤ p → 0 ≤ n → p + n ≤ zlen m → sub (m ++ k) p n = sub m p n.
Proof.
  intros. unfold sub, zlen in *. rewrite drop_app_le by lia.
  rewrite take_app_le by (rewrite length_drop; lia). done.
Qed.

Lemma sub_app_r m k p n : zlen m ≤ p → sub (m ++ k) p n = sub k (p - zlen m) n.
Proof.
  intros. unfold sub, zlen in *. rewrite drop_app_ge by lia. do 2 f_equal. lia.
Qed.

Lemma sub_full m : sub m 0 (zlen m) = m.
Proof. unfold sub, zlen. rewrite Nat2Z.id. apply take_ge. simpl. lia. Qed.

Lemma sub_app_exact m k : sub (m ++ k) 0 (zlen m) = m.
Proof.
  rewrite sub_app_l by (pose proof (zlen_nonneg m); lia). apply sub_full.
Qed.

Lemma sub_head m k n : n = zlen m → sub (m ++ k) 0 n = m.
Proof. intros ->. apply sub_app_exact. Qed.

Lemma sub_mid (pre mid post : list A) p n :
  p = zlen pre → n = zlen mid → sub (pre ++ mid ++ post) p n = mid.
Proof.
  intros -> ->. rewrite sub_app_r, Z.sub_diag by lia. apply sub_app_exact.
Qed.

Lemma sub_sub_app m p n k :
  0 ≤ p → 0 ≤ n → 0 ≤ k → p + n + k ≤ zlen m →
  sub m p (n + k) = sub m p n ++ sub m (p + n) k.
Proof.
  intros. unfold sub, zlen in *. rewrite Z2Nat.inj_add by lia.
  rewrite <- (take_drop (Z.to_nat n) (drop (Z.to_nat p) m)) at 1.
  rewrite take_app_add' by (rewrite length_take, length_drop; lia).
  rewrite drop_drop. f_equal. do 2 f_equal. lia.
Qed.

Lemma sub_join m p q n k :
  0 ≤ p → 0 ≤ n → 0 ≤ k → q = p + n → q + k ≤ zlen m →
  sub m p n ++ sub m q k = sub m p (n + k).
Proof. intros. subst q. by rewrite sub_sub_app by lia. Qed.

Lemma lookup_sub m p n (i : nat) :
  0 ≤ p → Z.of_nat i < n → sub m p n !! i = m !! (Z.to_nat p + i)%nat.
Proof. intros. unfold sub. rewrite lookup_take_lt by lia. apply lookup_drop. Qed.
End Buffers.

Lemma bytes_ok_app l k : bytes_ok (l ++ k) ↔ bytes_ok l ∧ bytes_ok k.
Proof. apply Forall_app. Qed.

Lemma bytes_ok_sub m p n : bytes_ok m → bytes_ok (sub m p n).
Proof. intros. by apply Forall_take, Forall_drop. Qed.

Lemma bytes_ok_put m p bs : bytes_ok m → bytes_ok bs → bytes_ok (put m p bs).
Proof.
  intros. unfold put. rewrite !bytes_ok_app.
  split; [by apply Forall_take|split; [done|by apply Forall_drop]].
Qed.

Lemma bytes_ok_nil : bytes_ok [].
Proof. constructor. Qed.

Lemma bytes_ok_lookup m (i : nat) : bytes_ok m → is_byte (m !!! i).
Proof.
  intros Hm. destruct (m !! i) as [x|] eqn:E.
  - rewrite (list_lookup_total_correct _ _ _ E). by eapply Forall_lookup_1 in Hm.
  - rewrite list_lookup_total_alt, E. simpl. unfold is_uint. simpl. lia.
Qed.

Lemma ld_byte m p b : bytes_ok m → ld m p = Ok b → is_byte b.
Proof. intros Hm [_ H]%ld_inv. by eapply Forall_lookup_1 in Hm. Qed.

#[export] Hint Resolve bytes_ok_sub bytes_ok_lookup bytes_ok_put bytes_ok_nil : cint.

(** * Big-endian words *)

Fixpoint be_bytes (n : nat) (v : Z) : list Z :=
  match n with
  | O => []
  | S k => v / 256 ^ Z.of_nat k mod 256 :: be_bytes k v
  end.

Definition be_val (l : list Z) : Z := fold_left (λ a b, a * 256 + b) l 0.

Lemma length_be_bytes n v : length (be_bytes n v) = n.
Proof. induction n; simpl; congruence. Qed.

Lemma zlen_be_bytes n v : zlen (be_bytes n v) = Z.of_nat n.
Proof. unfold zlen. by rewrite length_be_bytes. Qed.

Lemma bytes_ok_be_bytes n v : bytes_ok (be_bytes n v).
Proof.
  unfold bytes_ok. induction n; simpl; constructor; [|done].
  unfold is_uint. apply Z.mod_pos_bound. lia.
Qed.

#[export] Hint Resolve bytes_ok_be_bytes : cint.

Create Rewrite HintDb zlen.
#[export] Hint Rewrite @zlen_app @zlen_cons @zlen_nil zlen_be_bytes : zlen.

(** Linear arithmetic over lengths. *)
Ltac llia := repeat rewrite zlen_put by llia; autorewrite with zlen in *; lia.

(** Equality of two explicit lists of cells, cell by cell. *)
Ltac by_cells tac := repeat match goal with
  | |- _ :: _ = _ :: _ => apply (f_equal2 cons); [solve [tac]|]
  | |- [] = [] => reflexivity
  end.

Lemma be_val_app_acc l a : fold_left (λ a b, a * 256 + b) l a = a * 256 ^ zlen l + be_val l.
Proof.
  unfold be_val. revert a. induction l as [|b l IH]; intros a; simpl.
  - rewrite zlen_nil. lia.
  - rewrite IH, (IH (0 * 256 + b)), zlen_cons, Z.pow_add_r by (try lia; apply zlen_nonneg). lia.
Qed.

Lemma be_val_cons b l : be_val (b :: l) = b * 256 ^ zlen l + be_val l.
Proof. unfold be_val at 1. cbn [fold_left]. rewrite be_val_app_acc. done. Qed.

Lemma be_val_bytes n v : 0 ≤ v < 256 ^ Z.of_nat n → be_val (be_bytes n v) = v.
Proof.
  assert (∀ n v, 0 ≤ v → be_val (be_bytes n v) = v mod 256 ^ Z.of_nat n) as H.
  { clear. intros n v Hv. induction n as [|n IH].
    - simpl. rewrite Z.mod_1_r. done.
    - cbn [be_bytes]. rewrite be_val_cons, IH, zlen_be_bytes.
      rewrite Nat2Z.inj_succ, Z.pow_succ_r by lia.
      rewrite (Z.mul_comm 256), Z.rem_mul_r by lia. lia. }
  intros. rewrite H by lia. apply Z.mod_small. lia.
Qed.

Lemma be_val_range l : bytes_ok l → 0 ≤ be_val l < 256 ^ zlen l.
Proof.
  induction 1 as [|b l Hb Hl IH]; [done|].
  rewrite be_val_cons, zlen_cons, Z.pow_add_r by (try lia; apply zlen_nonneg).
  unfold is_uint in Hb. change (256 ^ 1) with 256. change (2 ^ 8) with 256 in Hb. nia.
Qed.

Lemma be_bytes_high n v w k : Z.of_nat n ≤ k → be_bytes n (w * 256 ^ k + v) = be_bytes n v.
Proof.
  induction n as [|n IH]; intros Hk; [done|]. cbn [be_bytes].
  rewrite IH by lia. f_equal.
  replace (w * 256 ^ k) with (w * 256 ^ (k - Z.of_nat n - 1) * 256 * 256 ^ Z.of_nat n).
  - rewrite Z.div_add_l by lia. rewrite Z.add_comm, Z_mod_plus_full. done.
  - rewrite <- !Z.mul_assoc, <- Z.pow_succ_r, <- Z.pow_add_r by lia.
    do 2 f_equal. lia.
Qed.

Lemma be_bytes_val l : bytes_ok l → be_bytes (length l) (be_val l) = l.
Proof.
  intros Hl. induction Hl as [|b l Hb Hl IH]; [done|].
  pose proof (be_val_range l Hl) as Hr. unfold is_uint in Hb. change (2 ^ 8) with 256 in Hb.
  cbn [length be_bytes]. rewrite be_val_cons. fold (zlen l). f_equal.
  - rewrite Z.div_add_l, Z.div_small, Z.add_0_r by lia. by apply Z.mod_small.
  - rewrite be_bytes_high by (unfold zlen; lia). done.
Qed.

(** The byte-by-byte forms the sources use, as [be_bytes] and [be_val]. *)

Lemma be_bytes_2 v : be_bytes 2 v = [u8 (Z.shiftr v 8); u8 v].
Proof. unfold u8. rewrite shiftr_div by lia. cbn. by rewrite Z.div_1_r. Qed.

Lemma be_bytes_3 v : be_bytes 3 v = [u8 (Z.shiftr v 16); u8 (Z.shiftr v 8); u8 v].
Proof. unfold u8. rewrite !shiftr_div by lia. cbn. by rewrite Z.div_1_r. Qed.

Lemma be_bytes_4 v :
  be_bytes 4 v = [u8 (Z.shiftr v 24); u8 (Z.shiftr v 16); u8 (Z.shiftr v 8); u8 v].
Proof. unfold u8. rewrite !shiftr_div by lia. cbn. by rewrite Z.div_1_r. Qed.

Lemma be_val_2 b0 b1 : is_byte b1 → Z.lor (Z.shiftl b0 8) b1 = be_val [b0; b1].
Proof. intros. rewrite lor_shiftl_add by (done || lia). unfold be_val. cbn. lia. Qed.

Lemma be_val_3 b0 b1 b2 : is_byte b1 → is_byte b2 →
  Z.lor (Z.lor (Z.shiftl b0 16) (Z.shiftl b1 8)) b2 = be_val [b0; b1; b2].
Proof.
  intros H1 H2. unfold is_uint in *. rewrite <- Z.lor_assoc.
  rewrite (lor_shiftl_add b1 b2 8) by lia.
  rewrite lor_shiftl_add by dlia. unfold be_val. cbn. lia.
Qed.

Lemma be_val_4 b0 b1 b2 b3 : is_byte b1 → is_byte b2 → is_byte b3 →
  Z.lor (Z.lor (Z.lor (Z.shiftl b0 24) (Z.shiftl b1 16)) (Z.shiftl b2 8)) b3
  = be_val [b0; b1; b2; b3].
Proof.
  intros H1 H2 H3. unfold is_uint in *. rewrite <- !Z.lor_assoc.
  rewrite (lor_shiftl_add b2 b3 8) by lia.
  rewrite (lor_shiftl_add b1 _ 16) by dlia.
  rewrite lor_shiftl_add by dlia. unfold be_val. cbn. lia.
Qed.

(** The cells of a short window, one by one. *)
Lemma sub_step (m : list Z) p n :
  0 ≤ p → 0 < n → p + n ≤ zlen m → sub m p n = m !!! Z.to_nat p :: sub m (p + 1) (n - 1).
Proof.
  intros. replace n with (1 + (n - 1)) at 1 by lia.
  rewrite sub_sub_app by lia. f_equal.
  destruct (lookup_lt_is_Some_2 m (Z.to_nat p)) as [x Hx]; [unfold zlen in *; lia|].
  rewrite (list_lookup_total_correct _ _ _ Hx). unfold sub. change (Z.to_nat 1) with 1%nat.
  rewrite (drop_S _ _ _ Hx). done.
Qed.

Lemma sub_0 {A} (m : list A) p : sub m p 0 = [].
Proof. done. Qed.

Lemma sub_2 (m : list Z) p : 0 ≤ p → p + 2 ≤ zlen m →
  sub m p 2 = [m !!! Z.to_nat p; m !!! Z.to_nat (p + 1)].
Proof. intros. rewrite !sub_step by lia. f_equal. Qed.

Lemma sub_3 (m : list Z) p : 0 ≤ p → p + 3 ≤ zlen m →
  sub m p 3 = [m !!! Z.to_nat p; m !!! Z.to_nat (p + 1); m !!! Z.to_nat (p + 2)].
Proof. intros. rewrite !sub_step by lia. repeat (f_equal; try lia). Qed.

Lemma sub_4 (m : list Z) p : 0 ≤ p → p + 4 ≤ zlen m →
  sub m p 4 = [m !!! Z.to_nat p; m !!! Z.to_nat (p + 1);
               m !!! Z.to_nat (p + 2); m !!! Z.to_nat (p + 3)].
Proof. intros. rewrite !sub_step by lia. repeat (f_equal; try lia). Qed.

Lemma geb_false a b : (a >=? b) = false ↔ a < b.
Proof. rewrite Z.geb_leb. apply Z.leb_gt. Qed.

Lemma ld_lookup {A} (m : list A) i x : 0 ≤ i → m !! Z.to_nat i = Some x → ld m i = Ok x.
Proof. intros Hi Hx. unfold ld. destruct (Z.ltb_spec i 0); [lia|]. by rewrite Hx. Qed.

(** Closed decidable facts, by evaluation. *)
Ltac by_eval := apply (bool_decide_unpack _); vm_compute; exact I.

(** The cells of a block after realloc: the old ones, then unspecified ones. *)
Definition realloc_cells (n : Z) (old : list Z) : list Z :=
  take (Z.to_nat n) (old ++ replicate (Z.to_nat n - length old) 0).

Lemma zlen_realloc_cells n old : 0 ≤ n → zlen (realloc_cells n old) = n.
Proof.
  intros. unfold realloc_cells, zlen. rewrite length_take, length_app, length_replicate. lia.
Qed.

Lemma sub_realloc_cells n old k : 0 ≤ k → k ≤ zlen old → k ≤ n → sub (realloc_cells n old) 0 k = sub old 0 k.
Proof.
  intros. unfold realloc_cells, sub, zlen in *. change (Z.to_nat 0) with 0%nat. rewrite !drop_0, take_take.
  rewrite take_app_le by lia. f_equal. lia.
Qed.

(** A fact about bytes, by cases. *)
Lemma byte_cases (P : Z → bool) : forallb P (seqZ 0 256) = true → ∀ b, is_byte b → P b = true.
Proof.
  intros HP b Hb. rewrite forallb_forall in HP. apply HP, list_elem_of_In, elem_of_seqZ.
  unfold is_uint in Hb. dlia.
Qed.

(** * Regions of a buffer *)

(** The cells at [p] are [bs]. *)
Definition holds {A} (m : list A) (p : Z) (bs : list A) : Prop :=
  0 ≤ p ∧ p + zlen bs ≤ zlen m ∧ sub m p (zlen bs) = bs.

Section Holds.
Context {A : Type}.
Implicit Types (m bs cs : list A) (p : Z).

Lemma holds_app m p bs cs : holds m p (bs ++ cs) ↔ holds m p bs ∧ holds m (p + zlen bs) cs.
Proof.
  pose proof (zlen_nonneg bs). pose proof (zlen_nonneg cs).
  unfold holds. rewrite zlen_app. split.
  - intros (H1 & H2 & H3). rewrite sub_sub_app in H3 by lia.
    apply app_inj_1 in H3 as [Ha Hb]; [split_and!; done || lia|].
    pose proof (zlen_sub m p (zlen bs)) as H4. unfold zlen in *. lia.
  - intros [(? & ? & Ha) (? & ? & Hb)]. split_and!; [lia..|].
    rewrite sub_sub_app by lia. by rewrite Ha, Hb.
Qed.

Lemma holds_nil m p : 0 ≤ p ≤ zlen m → holds m p [].
Proof. intros. unfold holds. change (zlen (@nil A)) with 0. split_and!; done || lia. Qed.

Lemma holds_slice m p bs n : holds m p bs → n = zlen bs → slice m p n = Ok bs.
Proof.
  intros (? & ? & H) ->. rewrite slice_ok by (try lia; apply zlen_nonneg). by rewrite H.
Qed.

Lemma holds_ld m p b : holds m p [b] → ld m p = Ok b.
Proof.
  intros (H1 & H2 & H). change (zlen [b]) with 1 in *. apply ld_lookup; [done|].
  rewrite <- (Nat.add_0_r (Z.to_nat p)), <- (lookup_sub m p 1 0) by lia. by rewrite H.
Qed.

Lemma holds_cons m p b bs : holds m p (b :: bs) ↔ ld m p = Ok b ∧ holds m (p + 1) bs.
Proof.
  change (b :: bs) with ([b] ++ bs). rewrite holds_app. change (zlen [b]) with 1. split.
  - intros [?%holds_ld ?]. done.
  - intros [Hl Hr]. split; [|done]. apply ld_inv in Hl as [Hp Hl]. unfold holds.
    change (zlen [b]) with 1. split_and!; [lia..|]. unfold sub. change (Z.to_nat 1) with 1%nat.
    by rewrite (drop_S _ _ _ Hl).
Qed.

Lemma holds_ld2 m p b c bs : holds m p (b :: c :: bs) → ld m p = Ok b ∧ ld m (p + 1) = Ok c.
Proof. rewrite !holds_cons. naive_solver. Qed.

Lemma holds_put m p bs : 0 ≤ p → p + zlen bs ≤ zlen m → holds (put m p bs) p bs.
Proof. intros. unfold holds. rewrite zlen_put, sub_put by lia. done. Qed.

Lemma holds_whole bs : holds bs 0 bs.
Proof. unfold holds. rewrite sub_full. split_and!; done || lia. Qed.

Lemma holds_app_r m k p bs : holds m p bs → holds (m ++ k) p bs.
Proof.
  intros (? & ? & H). pose proof (zlen_nonneg bs). pose proof (zlen_nonneg k).
  unfold holds. rewrite zlen_app, sub_app_l by lia. split_and!; done || lia.
Qed.

Lemma holds_take m p bs cs : holds m p (bs ++ cs) → holds m p bs.
Proof. rewrite holds_app. by intros []. Qed.
End Holds.

(** A big-endian word read from its bytes. *)
Lemma be_bytes_range2 v : is_uint 16 v → be_val (be_bytes 2 v) = v.
Proof. intros. by apply be_val_bytes. Qed.
Lemma be_bytes_range4 v : is_uint 32 v → be_val (be_bytes 4 v) = v.
Proof. intros. by apply be_val_bytes. Qed.

(** Comparisons of constants. *)
Ltac eval_tests := repeat match goal with
  | |- context [?a =? ?b] =>
      let v := eval vm_compute in (a =? b) in
      match v with true => idtac | false => idtac end; change (a =? b) with v; cbv iota
  end.
