(* ===== verification/RtpPacket.v ===== *)
(** RTP packets on the wire: src/third/ireader/librtp/source/rtp-packet.c with
    the byte-order helpers of include/rtp-util.h and the header fields of
    include/rtp-header.h.

    A [const uint8_t*] with its length is a list of cells; [ptr + k] is the
    offset [k].  [rtp_packet_t.payload] and [.extension] are pointers into the
    received buffer: the model keeps the bytes they delimit, read with
    [slice], so a region that leaves the buffer is undefined behaviour. *)
From S2P Require Import Prelude.

(** * rtp-util.h *)

Definition rtp_read_uint16 (m : list Z) (ptr : Z) : outcome Z :=
  b0 ← ld m ptr; b1 ← ld m (ptr + 1);
  Ok (Z.lor (Z.shiftl b0 8) b1).

Definition rtp_read_uint32 (m : list Z) (ptr : Z) : outcome Z :=
  b0 ← ld m ptr; b1 ← ld m (ptr + 1); b2 ← ld m (ptr + 2); b3 ← ld m (ptr + 3);
  Ok (Z.lor (Z.lor (Z.lor (Z.shiftl b0 24) (Z.shiftl b1 16)) (Z.shiftl b2 8)) b3).

Definition rtp_write_uint16 (m : list Z) (ptr val : Z) : outcome (list Z) :=
  st m ptr [u8 (Z.shiftr val 8); u8 val].

Definition rtp_write_uint32 (m : list Z) (ptr val : Z) : outcome (list Z) :=
  st m ptr [u8 (Z.shiftr val 24); u8 (Z.shiftr val 16); u8 (Z.shiftr val 8); u8 val].

(** * rtp-header.h *)

Definition RTP_VERSION : Z := 2.
Definition RTP_FIXED_HEADER : Z := 12.

Record rtp_header_t := RtpHeader {
  rtp_v : Z; rtp_p : Z; rtp_x : Z; rtp_cc : Z; rtp_m : Z; rtp_pt : Z;
  rtp_seq : Z; rtp_timestamp : Z; rtp_ssrc : Z
}.

Definition RTP_V (v : Z) : Z := Z.land (Z.shiftr v 30) 3.
Definition RTP_P (v : Z) : Z := Z.land (Z.shiftr v 29) 1.
Definition RTP_X (v : Z) : Z := Z.land (Z.shiftr v 28) 1.
Definition RTP_CC (v : Z) : Z := Z.land (Z.shiftr v 24) 15.
Definition RTP_M (v : Z) : Z := Z.land (Z.shiftr v 23) 1.
Definition RTP_PT (v : Z) : Z := Z.land (Z.shiftr v 16) 127.
Definition RTP_SEQ (v : Z) : Z := Z.land (Z.shiftr v 0) 65535.

(** The widths of the bit-fields. *)
Record rtp_header_ok (h : rtp_header_t) : Prop := {
  ok_v : is_uint 2 (rtp_v h);
  ok_p : is_uint 1 (rtp_p h);
  ok_x : is_uint 1 (rtp_x h);
  ok_cc : is_uint 4 (rtp_cc h);
  ok_m : is_uint 1 (rtp_m h);
  ok_pt : is_uint 7 (rtp_pt h);
  ok_seq : is_uint 16 (rtp_seq h);
  ok_timestamp : is_uint 32 (rtp_timestamp h);
  ok_ssrc : is_uint 32 (rtp_ssrc h)
}.

Definition nbo_write_rtp_header (m : list Z) (ptr : Z) (h : rtp_header_t) : outcome (list Z) :=
  m ← st m ptr
    [u8 (Z.lor (Z.lor (Z.lor (Z.shiftl (rtp_v h) 6) (Z.shiftl (rtp_p h) 5))
                      (Z.shiftl (rtp_x h) 4)) (rtp_cc h));
     u8 (Z.lor (Z.shiftl (rtp_m h) 7) (rtp_pt h));
     u8 (Z.shiftr (rtp_seq h) 8);
     u8 (Z.land (rtp_seq h) 255)];
  m ← rtp_write_uint32 m (ptr + 4) (rtp_timestamp h);
  rtp_write_uint32 m (ptr + 8) (rtp_ssrc h).

(** * rtp-packet.h *)

Record rtp_packet_t := RtpPacket {
  rtp : rtp_header_t;
  csrc : list Z; (* uint32_t csrc[16] *)
  extension : list Z;
  extlen : Z;
  extprofile : Z;
  payload : list Z;
  payloadlen : Z
}.

(** * rtp-packet.c *)

(** The loop that loads the contributing sources: [n] iterations from [i]. *)
Fixpoint rtp_read_csrc (n : nat) (i : Z) (ptr csrc : list Z) : outcome (list Z) :=
  match n with
  | O => Ok csrc
  | S n =>
      v ← rtp_read_uint32 ptr (12 + i * 4);
      csrc ← st csrc i [v];
      rtp_read_csrc n (i + 1) ptr csrc
  end.

(** Header extension (lines 57-79): payload offset and length, extension
    bytes, extension length and profile. *)
Definition rtp_read_extension (data : list Z) (bytes hdrlen : Z) (h : rtp_header_t)
  : outcome (Z * Z * list Z * Z * Z) :=
  if rtp_x h =? 1 then
    let rtpext := hdrlen in
    profile ← rtp_read_uint16 data rtpext;
    words ← rtp_read_uint16 data (rtpext + 2);
    let elen := u16 (words * 4) in
    if bytes - hdrlen <? elen + 4 then Fail (-1) else
    ext ← slice data (rtpext + 4) elen;
    Ok (rtpext + elen + 4, bytes - hdrlen - (elen + 4), ext, elen, profile)
  else Ok (hdrlen, bytes - hdrlen, [], 0, 0).

(** Padding (lines 81-94): the payload length without it. *)
Definition rtp_read_padding (data : list Z) (bytes paylen : Z) (h : rtp_header_t) : outcome Z :=
  if rtp_p h =? 1 then
    padding ← ld data (bytes - 1);
    if paylen <? padding then Fail (-1) else Ok (paylen - padding)
  else Ok paylen.

Definition rtp_packet_deserialize (data : list Z) (bytes : Z) : outcome rtp_packet_t :=
  if bytes <? RTP_FIXED_HEADER then Fail (-1) else
  v ← rtp_read_uint32 data 0;
  timestamp ← rtp_read_uint32 data 4;
  ssrc ← rtp_read_uint32 data 8;
  let h := RtpHeader (RTP_V v) (RTP_P v) (RTP_X v) (RTP_CC v) (RTP_M v) (RTP_PT v)
                     (RTP_SEQ v) timestamp ssrc in
  let hdrlen := RTP_FIXED_HEADER + rtp_cc h * 4 in
  if negb (RTP_VERSION =? rtp_v h)
     || (bytes <? hdrlen + (if truth (rtp_x h) then 4 else 0) + (if truth (rtp_p h) then 1 else 0))
  then Fail (-1) else
  cs ← rtp_read_csrc (Z.to_nat (rtp_cc h)) 0 data (replicate 16 0);
  '(pay, paylen, ext, elen, eprofile) ← rtp_read_extension data bytes hdrlen h;
  paylen ← rtp_read_padding data bytes paylen h;
  p ← slice data pay paylen;
  Ok (RtpPacket h cs ext elen eprofile p paylen).

(** The loop that stores the contributing sources: [n] iterations from [i]. *)
Fixpoint rtp_write_csrc (n : nat) (i : Z) (csrc data : list Z) (ptr : Z) : outcome (list Z) :=
  match n with
  | O => Ok data
  | S n =>
      c ← ld csrc i;
      data ← rtp_write_uint32 data ptr c;
      rtp_write_csrc n (i + 1) csrc data (ptr + 4)
  end.

Definition rtp_packet_serialize_header (pkt : rtp_packet_t) (data : list Z) (bytes : Z)
  : outcome (Z * list Z) :=
  let h := rtp pkt in
  if negb (RTP_VERSION =? rtp_v h) || negb (0 =? Z.rem (extlen pkt) 4) then Fail (-1) else
  let hdrlen := RTP_FIXED_HEADER + rtp_cc h * 4 + (if truth (rtp_x h) then 4 else 0) in
  if bytes <? hdrlen + extlen pkt then Fail (-1) else
  data ← nbo_write_rtp_header data 0 h;
  data ← rtp_write_csrc (Z.to_nat (rtp_cc h)) 0 (csrc pkt) data RTP_FIXED_HEADER;
  let ptr := RTP_FIXED_HEADER + rtp_cc h * 4 in
  data ←
    (if rtp_x h =? 1 then
       data ← rtp_write_uint16 data ptr (extprofile pkt);
       data ← rtp_write_uint16 data (ptr + 2) (Z.quot (extlen pkt) 4);
       ext ← slice (extension pkt) 0 (extlen pkt);
       st data (ptr + 4) ext
     else Ok data);
  Ok (hdrlen + extlen pkt, data).

Definition rtp_packet_serialize (pkt : rtp_packet_t) (data : list Z) (bytes : Z)
  : outcome (Z * list Z) :=
  '(hdrlen, data) ← rtp_packet_serialize_header pkt data bytes;
  if (hdrlen <? RTP_FIXED_HEADER) || (bytes <? hdrlen + payloadlen pkt) then Fail (-1) else
  pay ← slice (payload pkt) 0 (payloadlen pkt);
  data ← st data hdrlen pay;
  Ok (hdrlen + payloadlen pkt, data).

(** * Byte-order helpers as big-endian words *)

Lemma rtp_read_uint16_be m p : bytes_ok m → 0 ≤ p → p + 2 ≤ zlen m →
  rtp_read_uint16 m p = Ok (be_val (sub m p 2)).
Proof.
  intros. unfold rtp_read_uint16. rewrite !ld_ok, sub_2 by lia. run.
  by rewrite be_val_2 by auto with cint.
Qed.

Lemma rtp_read_uint32_be m p : bytes_ok m → 0 ≤ p → p + 4 ≤ zlen m →
  rtp_read_uint32 m p = Ok (be_val (sub m p 4)).
Proof.
  intros. unfold rtp_read_uint32. rewrite !ld_ok, sub_4 by lia. run.
  by rewrite be_val_4 by auto with cint.
Qed.

Lemma rtp_write_uint16_be m p v : 0 ≤ p → p + 2 ≤ zlen m →
  rtp_write_uint16 m p v = Ok (put m p (be_bytes 2 v)).
Proof. intros. unfold rtp_write_uint16. rewrite be_bytes_2. apply st_ok; llia. Qed.

Lemma rtp_write_uint32_be m p v : 0 ≤ p → p + 4 ≤ zlen m →
  rtp_write_uint32 m p v = Ok (put m p (be_bytes 4 v)).
Proof. intros. unfold rtp_write_uint32. rewrite be_bytes_4. apply st_ok; llia. Qed.

(** * The wire format *)

Definition rtp_word (h : rtp_header_t) : Z :=
  rtp_v h * 2 ^ 30 + rtp_p h * 2 ^ 29 + rtp_x h * 2 ^ 28 + rtp_cc h * 2 ^ 24
  + rtp_m h * 2 ^ 23 + rtp_pt h * 2 ^ 16 + rtp_seq h.

Definition rtp_wire_header (h : rtp_header_t) : list Z :=
  be_bytes 4 (rtp_word h) ++ be_bytes 4 (rtp_timestamp h) ++ be_bytes 4 (rtp_ssrc h).

Definition words32 (l : list Z) : list Z := concat (map (be_bytes 4) l).

Definition rtp_wire_ext (pkt : rtp_packet_t) : list Z :=
  if rtp_x (rtp pkt) =? 1
  then be_bytes 2 (extprofile pkt) ++ be_bytes 2 (extlen pkt / 4) ++ extension pkt
  else [].

Definition rtp_wire (pkt : rtp_packet_t) : list Z :=
  rtp_wire_header (rtp pkt)
  ++ words32 (take (Z.to_nat (rtp_cc (rtp pkt))) (csrc pkt))
  ++ rtp_wire_ext pkt ++ payload pkt.

(** A packet the serializer may be given: fields within their C types, the
    regions as long as their length fields say. *)
Record rtp_packet_ok (pkt : rtp_packet_t) : Prop := {
  ok_header : rtp_header_ok (rtp pkt);
  ok_version : rtp_v (rtp pkt) = RTP_VERSION;
  ok_csrc : length (csrc pkt) = 16%nat;
  ok_csrc_words : Forall (is_uint 32) (csrc pkt);
  ok_extlen : is_uint 16 (extlen pkt);
  ok_extlen4 : extlen pkt mod 4 = 0;
  ok_extprofile : is_uint 16 (extprofile pkt);
  ok_noext : rtp_x (rtp pkt) = 0 → extlen pkt = 0;
  ok_ext : zlen (extension pkt) = extlen pkt;
  ok_payload : zlen (payload pkt) = payloadlen pkt;
  ok_ext_bytes : bytes_ok (extension pkt);
  ok_payload_bytes : bytes_ok (payload pkt)
}.

(** Fields the wire does not carry hold zero, as [memset] leaves them. *)
Record rtp_packet_canonical (pkt : rtp_packet_t) : Prop := {
  can_csrc : drop (Z.to_nat (rtp_cc (rtp pkt))) (csrc pkt)
             = replicate (16 - Z.to_nat (rtp_cc (rtp pkt))) 0;
  can_profile : rtp_x (rtp pkt) = 0 → extprofile pkt = 0
}.

Lemma length_words32 l : zlen (words32 l) = 4 * zlen l.
Proof.
  unfold words32. induction l as [|x l IH]; [done|]. cbn [map concat].
  rewrite zlen_app, IH. llia.
Qed.
#[export] Hint Rewrite length_words32 : zlen.

Lemma bytes_ok_words32 l : bytes_ok (words32 l).
Proof. apply Forall_concat, Forall_map, Forall_true. intros. apply bytes_ok_be_bytes. Qed.

Section Header.
Variable h : rtp_header_t.
Hypothesis Hok : rtp_header_ok h.

Ltac bounds := destruct Hok; unfold is_uint in *; repeat match goal with
  | H : context [2 ^ ?n] |- _ => let v := eval vm_compute in (2 ^ n) in change (2 ^ n) with v in H
  end.

Lemma rtp_word_range : is_uint 32 (rtp_word h).
Proof. unfold rtp_word, is_uint. bounds. dlia. Qed.

Lemma rtp_word_bytes :
  [u8 (Z.lor (Z.lor (Z.lor (Z.shiftl (rtp_v h) 6) (Z.shiftl (rtp_p h) 5))
                    (Z.shiftl (rtp_x h) 4)) (rtp_cc h));
   u8 (Z.lor (Z.shiftl (rtp_m h) 7) (rtp_pt h));
   u8 (Z.shiftr (rtp_seq h) 8);
   u8 (Z.land (rtp_seq h) 255)] = be_bytes 4 (rtp_word h).
Proof.
  bounds. rewrite be_bytes_4.
  rewrite <- !Z.lor_assoc.
  rewrite (lor_shiftl_add (rtp_x h) _ 4), (lor_shiftl_add (rtp_p h) _ 5),
    (lor_shiftl_add (rtp_v h) _ 6), (lor_shiftl_add (rtp_m h) _ 7) by dlia.
  masks. unfold rtp_word, u8.
  by_cells dlia.
Qed.

Lemma rtp_word_fields :
  RTP_V (rtp_word h) = rtp_v h ∧ RTP_P (rtp_word h) = rtp_p h ∧
  RTP_X (rtp_word h) = rtp_x h ∧ RTP_CC (rtp_word h) = rtp_cc h ∧
  RTP_M (rtp_word h) = rtp_m h ∧ RTP_PT (rtp_word h) = rtp_pt h ∧
  RTP_SEQ (rtp_word h) = rtp_seq h.
Proof.
  unfold RTP_V, RTP_P, RTP_X, RTP_CC, RTP_M, RTP_PT, RTP_SEQ.
  masks. unfold rtp_word. bounds. repeat split; dlia.
Qed.

Lemma nbo_write_rtp_header_be m p : 0 ≤ p → p + 12 ≤ zlen m →
  nbo_write_rtp_header m p h = Ok (put m p (rtp_wire_header h)).
Proof.
  intros. unfold nbo_write_rtp_header. rewrite rtp_word_bytes.
  rewrite st_ok by llia. run.
  rewrite rtp_write_uint32_be by llia.
  run.
  rewrite rtp_write_uint32_be by llia.
  by rewrite !put_app_at by llia.
Qed.
End Header.

(** * Serialization *)

Lemma take_snoc_total (l : list Z) (i : nat) :
  (i < length l)%nat → take (S i) l = take i l ++ [l !!! i].
Proof.
  intros Hi. destruct (lookup_lt_is_Some_2 l i Hi) as [x Hx].
  rewrite (take_S_r _ _ _ Hx). by rewrite (list_lookup_total_correct _ _ _ Hx).
Qed.

Lemma words32_app l k : words32 (l ++ k) = words32 l ++ words32 k.
Proof. unfold words32. by rewrite map_app, concat_app. Qed.

Lemma rtp_write_csrc_be n i cs data p :
  0 ≤ i → i + Z.of_nat n ≤ zlen cs → 0 ≤ p → p + 4 * Z.of_nat n ≤ zlen data →
  rtp_write_csrc n i cs data p = Ok (put data p (words32 (sub cs i (Z.of_nat n)))).
Proof.
  revert i data p. induction n as [|n IH]; intros i data p ? ? ? ?; cbn [rtp_write_csrc].
  - rewrite sub_0. unfold put. cbn. by rewrite Nat.add_0_r, take_drop.
  - rewrite ld_ok by lia. run.
    rewrite rtp_write_uint32_be by lia. run.
    rewrite IH by llia.
    rewrite put_app_at by llia. rewrite (sub_step cs i) by lia.
    by replace (Z.of_nat (S n) - 1) with (Z.of_nat n) by lia.
Qed.

Section Serialize.
Variables (pkt : rtp_packet_t) (data : list Z) (bytes : Z).
Hypothesis Hok : rtp_packet_ok pkt.
Hypothesis Hroom : bytes ≤ zlen data.

Let cc := rtp_cc (rtp pkt).

Lemma rtp_cc_range : 0 ≤ cc < 16.
Proof. destruct Hok as [[]]. done. Qed.

Lemma rtp_wire_csrc : take (Z.to_nat cc) (csrc pkt) = sub (csrc pkt) 0 (Z.of_nat (Z.to_nat cc)).
Proof. unfold sub. rewrite Nat2Z.id. done. Qed.

Lemma zlen_csrc : zlen (csrc pkt) = 16.
Proof. unfold zlen. by rewrite (ok_csrc _ Hok). Qed.

Lemma zlen_rtp_wire_ext :
  zlen (rtp_wire_ext pkt) = (if truth (rtp_x (rtp pkt)) then 4 else 0) + extlen pkt.
Proof.
  unfold rtp_wire_ext, truth. destruct Hok as [[? ? Hx]]. unfold is_uint in Hx. simpl in Hx.
  destruct (Z.eqb_spec (rtp_x (rtp pkt)) 1), (Z.eqb_spec (rtp_x (rtp pkt)) 0); try lia; cbn [negb];
    [llia|]. rewrite ok_noext0 by done. done.
Qed.

Lemma zlen_rtp_wire :
  zlen (rtp_wire pkt)
  = 12 + 4 * cc + (if truth (rtp_x (rtp pkt)) then 4 else 0) + extlen pkt + payloadlen pkt.
Proof.
  unfold rtp_wire, rtp_wire_header. fold cc. pose proof rtp_cc_range.
  rewrite !zlen_app, zlen_rtp_wire_ext, (ok_payload _ Hok), rtp_wire_csrc, length_words32,
    !zlen_be_bytes, zlen_sub by (rewrite ?zlen_csrc; lia). lia.
Qed.

Lemma rtp_packet_serialize_header_spec :
  rtp_packet_serialize_header pkt data bytes =
    let n := 12 + 4 * cc + (if truth (rtp_x (rtp pkt)) then 4 else 0) + extlen pkt in
    if bytes <? n then Fail (-1)
    else Ok (n, put data 0 (rtp_wire_header (rtp pkt)
                            ++ words32 (take (Z.to_nat cc) (csrc pkt)) ++ rtp_wire_ext pkt)).
Proof.
  pose proof rtp_cc_range as Hcc. pose proof zlen_csrc as Hcs.
  pose proof (ok_extlen _ Hok) as Hel. unfold is_uint in Hel.
  pose proof (ok_x _ (ok_header _ Hok)) as Hx. unfold is_uint in Hx. simpl in Hx.
  unfold rtp_packet_serialize_header. fold cc. rewrite (ok_version _ Hok).
  rewrite Z.rem_mod_nonneg, (ok_extlen4 _ Hok) by lia. cbn [negb orb Z.eqb].
  cbv zeta. unfold RTP_FIXED_HEADER.
  replace (12 + cc * 4) with (12 + 4 * cc) by lia.
  destruct (Z.ltb_spec bytes (12 + 4 * cc + (if truth (rtp_x (rtp pkt)) then 4 else 0) + extlen pkt));
    [done|].
  assert (0 ≤ (if truth (rtp_x (rtp pkt)) then 4 else 0)) by (destruct (truth _); lia).
  rewrite nbo_write_rtp_header_be by (apply Hok || lia). run.
  assert (zlen (rtp_wire_header (rtp pkt)) = 12) by (unfold rtp_wire_header; llia).
  rewrite rtp_write_csrc_be by llia. run.
  rewrite <- rtp_wire_csrc. rewrite put_app_at by llia.
  assert (zlen (take (Z.to_nat cc) (csrc pkt)) = cc).
  { rewrite rtp_wire_csrc, zlen_sub; lia. }
  unfold rtp_wire_ext, truth in *.
  destruct (Z.eqb_spec (rtp_x (rtp pkt)) 1), (Z.eqb_spec (rtp_x (rtp pkt)) 0);
    try lia; cbn [negb] in *.
  - rewrite rtp_write_uint16_be by llia. run.
    rewrite rtp_write_uint16_be by llia. run.
    rewrite slice_ok, <- (ok_ext _ Hok), sub_full by (rewrite ?(ok_ext _ Hok); lia).
    run. pose proof (ok_ext _ Hok).
    rewrite st_ok by llia. run. do 2 f_equal.
    rewrite Z.quot_div_nonneg by lia.
    rewrite !put_app_at by llia. by rewrite <- !app_assoc.
  - run. by rewrite app_nil_r.
Qed.

(** [rtp_packet_serialize] writes exactly the wire image and returns its
    length, or fails without room for it. *)
Lemma rtp_packet_serialize_spec :
  rtp_packet_serialize pkt data bytes =
    if bytes <? zlen (rtp_wire pkt) then Fail (-1)
    else Ok (zlen (rtp_wire pkt), put data 0 (rtp_wire pkt)).
Proof.
  unfold rtp_packet_serialize. rewrite rtp_packet_serialize_header_spec, zlen_rtp_wire.
  pose proof rtp_cc_range. pose proof zlen_rtp_wire_ext as Hext.
  pose proof (ok_payload _ Hok) as Hp. pose proof (zlen_nonneg (payload pkt)).
  pose proof (ok_extlen _ Hok) as Hel. unfold is_uint in Hel. cbv zeta.
  set (x4 := if truth _ then 4 else 0) in *.
  assert (0 ≤ x4) by (unfold x4; destruct (truth _); lia).
  destruct (Z.ltb_spec bytes (12 + 4 * cc + x4 + extlen pkt)).
  { destruct (Z.ltb_spec bytes (12 + 4 * cc + x4 + extlen pkt + payloadlen pkt)); [done|lia]. }
  run. unfold RTP_FIXED_HEADER.
  destruct (Z.ltb_spec (12 + 4 * cc + x4 + extlen pkt) 12); [lia|]. cbn [orb].
  destruct (Z.ltb_spec bytes (12 + 4 * cc + x4 + extlen pkt + payloadlen pkt)); [done|].
  rewrite slice_ok, <- Hp, sub_full by lia. run.
  assert (zlen (rtp_wire_header (rtp pkt)) = 12) by (unfold rtp_wire_header; llia).
  assert (zlen (take (Z.to_nat cc) (csrc pkt)) = cc).
  { rewrite rtp_wire_csrc, zlen_sub; rewrite ?zlen_csrc; lia. }
  rewrite st_ok by llia. run. do 2 f_equal.
  rewrite put_app_at by llia. unfold rtp_wire. by rewrite <- !app_assoc.
Qed.
End Serialize.

(** * Deserialization *)

(** [n] big-endian words from [p]. *)
Fixpoint be_words (n : nat) (p : Z) (m : list Z) : list Z :=
  match n with
  | O => []
  | S n => be_val (sub m p 4) :: be_words n (p + 4) m
  end.

Definition rtp_parse_header (data : list Z) : rtp_header_t :=
  let v := be_val (sub data 0 4) in
  RtpHeader (RTP_V v) (RTP_P v) (RTP_X v) (RTP_CC v) (RTP_M v) (RTP_PT v) (RTP_SEQ v)
            (be_val (sub data 4 4)) (be_val (sub data 8 4)).

Definition x4 (h : rtp_header_t) : Z := if rtp_x h =? 1 then 4 else 0.
Definition p1 (h : rtp_header_t) : Z := if rtp_p h =? 1 then 1 else 0.
Definition ext_len (h : rtp_header_t) (data : list Z) (hdrlen : Z) : Z :=
  if rtp_x h =? 1 then u16 (be_val (sub data (hdrlen + 2) 2) * 4) else 0.
Definition pad_len (h : rtp_header_t) (data : list Z) (bytes : Z) : Z :=
  if rtp_p h =? 1 then data !!! Z.to_nat (bytes - 1) else 0.

(** The parser without memory accesses: what a packet of [bytes] bytes means. *)
Definition rtp_parse (data : list Z) (bytes : Z) : outcome rtp_packet_t :=
  let h := rtp_parse_header data in
  let hdrlen := 12 + 4 * rtp_cc h in
  let elen := ext_len h data hdrlen in
  let paylen := bytes - hdrlen - x4 h - elen - pad_len h data bytes in
  if (bytes <? 12) || negb (rtp_v h =? 2) || (bytes <? hdrlen + x4 h + p1 h)
     || (bytes <? hdrlen + x4 h + elen) || (paylen <? 0)
  then Fail (-1)
  else Ok (RtpPacket h (put (replicate 16 0) 0 (be_words (Z.to_nat (rtp_cc h)) 12 data))
             (if rtp_x h =? 1 then sub data (hdrlen + 4) elen else []) elen
             (if rtp_x h =? 1 then be_val (sub data hdrlen 2) else 0)
             (sub data (hdrlen + x4 h + elen) paylen) paylen).

Lemma zlen_be_words n p m : zlen (be_words n p m) = Z.of_nat n.
Proof. revert p. induction n; intros; cbn [be_words]; [done|]. rewrite zlen_cons, IHn. lia. Qed.
#[export] Hint Rewrite zlen_be_words : zlen.

Lemma rtp_read_csrc_be n i data cs :
  bytes_ok data → 0 ≤ i → 12 + 4 * (i + Z.of_nat n) ≤ zlen data → i + Z.of_nat n ≤ zlen cs →
  rtp_read_csrc n i data cs = Ok (put cs i (be_words n (12 + 4 * i) data)).
Proof.
  intros Hb. revert i cs. induction n as [|n IH]; intros i cs ? ? ?; cbn [rtp_read_csrc].
  - unfold put. cbn. by rewrite Nat.add_0_r, take_drop.
  - rewrite rtp_read_uint32_be by (done || lia). run.
    rewrite st_ok by llia. run. rewrite IH by llia.
    rewrite put_app_at by llia. cbn [be_words app]. f_equal.
    replace (12 + i * 4) with (12 + 4 * i) by lia. do 3 f_equal. lia.
Qed.

Lemma rtp_header_fields_range v :
  is_uint 2 (RTP_V v) ∧ is_uint 1 (RTP_P v) ∧ is_uint 1 (RTP_X v) ∧ is_uint 4 (RTP_CC v) ∧
  is_uint 1 (RTP_M v) ∧ is_uint 7 (RTP_PT v) ∧ is_uint 16 (RTP_SEQ v).
Proof.
  unfold RTP_V, RTP_P, RTP_X, RTP_CC, RTP_M, RTP_PT, RTP_SEQ.
  masks. unfold is_uint. repeat split; dlia.
Qed.

Lemma be_val_sub_range m p n : bytes_ok m → 0 ≤ p → 0 ≤ n → p + n ≤ zlen m →
  0 ≤ be_val (sub m p n) < 256 ^ n.
Proof.
  intros. pose proof (be_val_range (sub m p n)) as Hr. rewrite zlen_sub in Hr by done.
  apply Hr. auto with cint.
Qed.

Section Deserialize.
Variables (data : list Z) (bytes : Z).
Hypothesis Hb : bytes_ok data.
Hypothesis Hlen : bytes ≤ zlen data.

Lemma rtp_parse_header_ok : 12 ≤ bytes → rtp_header_ok (rtp_parse_header data).
Proof.
  intros. destruct (rtp_header_fields_range (be_val (sub data 0 4))) as (?&?&?&?&?&?&?).
  pose proof (be_val_sub_range data 4 4 Hb). pose proof (be_val_sub_range data 8 4 Hb).
  constructor; try done; unfold is_uint; cbn; lia.
Qed.

Lemma pad_len_range h : 0 ≤ pad_len h data bytes < 256.
Proof.
  unfold pad_len. destruct (rtp_p h =? 1); [|lia].
  by apply (bytes_ok_lookup data (Z.to_nat (bytes - 1))) in Hb.
Qed.

Lemma ext_len_range h k : 0 ≤ ext_len h data k < 65536.
Proof. unfold ext_len. destruct (rtp_x h =? 1); [apply u16_range|lia]. Qed.

Lemma rtp_read_extension_spec h hdrlen :
  0 ≤ hdrlen → hdrlen + x4 h ≤ bytes →
  rtp_read_extension data bytes hdrlen h =
    let elen := ext_len h data hdrlen in
    if bytes <? hdrlen + x4 h + elen then Fail (-1)
    else Ok (hdrlen + x4 h + elen, bytes - hdrlen - x4 h - elen,
             (if rtp_x h =? 1 then sub data (hdrlen + 4) elen else []), elen,
             (if rtp_x h =? 1 then be_val (sub data hdrlen 2) else 0)).
Proof.
  intros Hh Hx. unfold rtp_read_extension. cbv zeta.
  pose proof (ext_len_range h hdrlen) as He.
  unfold x4, ext_len in *. destruct (rtp_x h =? 1).
  - rewrite !rtp_read_uint16_be by (done || lia). run.
    set (elen := u16 _) in *.
    destruct (Z.ltb_spec (bytes - hdrlen) (elen + 4)),
      (Z.ltb_spec bytes (hdrlen + 4 + elen)); try lia; [done|].
    rewrite slice_ok by lia. run. do 4 f_equal. f_equal; lia.
  - destruct (Z.ltb_spec bytes (hdrlen + 0 + 0)); [lia|]. do 4 f_equal. f_equal; lia.
Qed.

Lemma rtp_read_padding_spec h paylen :
  0 ≤ paylen → p1 h ≤ bytes →
  rtp_read_padding data bytes paylen h =
    if paylen - pad_len h data bytes <? 0 then Fail (-1) else Ok (paylen - pad_len h data bytes).
Proof.
  intros Hp H1. unfold rtp_read_padding, p1, pad_len in *. destruct (rtp_p h =? 1).
  - rewrite ld_ok by lia. run. set (padding := data !!! _).
    destruct (Z.ltb_spec paylen padding), (Z.ltb_spec (paylen - padding) 0); done || lia.
  - rewrite Z.sub_0_r. by destruct (Z.ltb_spec paylen 0); [lia|].
Qed.

(** The C parser computes [rtp_parse] on every buffer. *)
Lemma rtp_packet_deserialize_spec : rtp_packet_deserialize data bytes = rtp_parse data bytes.
Proof.
  unfold rtp_packet_deserialize, rtp_parse, RTP_FIXED_HEADER, RTP_VERSION. cbv zeta.
  destruct (Z.ltb_spec bytes 12); [done|]. cbn [orb].
  destruct (rtp_parse_header_ok ltac:(done)) as [_ Hp Hx Hcc _ _ _ _ _].
  rewrite !rtp_read_uint32_be by (done || lia). run.
  set (h := rtp_parse_header data) in *. change (RtpHeader _ _ _ _ _ _ _ _ _) with h.
  clearbody h. unfold is_uint in Hp, Hx, Hcc. simpl in Hp, Hx, Hcc.
  replace (12 + rtp_cc h * 4) with (12 + 4 * rtp_cc h) by lia.
  rewrite (Z.eqb_sym 2). destruct (rtp_v h =? 2); [|done]. cbn [negb orb].
  replace (if truth (rtp_x h) then 4 else 0) with (x4 h)
    by (unfold truth, x4; destruct (Z.eqb_spec (rtp_x h) 1), (Z.eqb_spec (rtp_x h) 0); done || lia).
  replace (if truth (rtp_p h) then 1 else 0) with (p1 h)
    by (unfold truth, p1; destruct (Z.eqb_spec (rtp_p h) 1), (Z.eqb_spec (rtp_p h) 0); done || lia).
  destruct (Z.ltb_spec bytes (12 + 4 * rtp_cc h + x4 h + p1 h)); [done|]. cbn [orb].
  assert (0 ≤ x4 h ∧ 0 ≤ p1 h) as [] by (unfold x4, p1; repeat case_match; lia).
  rewrite rtp_read_csrc_be by (try done; change (zlen (replicate 16 0)) with 16; lia). run.
  rewrite rtp_read_extension_spec by lia. cbv zeta.
  pose proof (ext_len_range h (12 + 4 * rtp_cc h)). pose proof (pad_len_range h).
  set (elen := ext_len h data (12 + 4 * rtp_cc h)) in *.
  destruct (Z.ltb_spec bytes (12 + 4 * rtp_cc h + x4 h + elen)); [done|]. run.
  rewrite rtp_read_padding_spec by lia.
  destruct (Z.ltb_spec (bytes - (12 + 4 * rtp_cc h) - x4 h - elen - pad_len h data bytes) 0);
    [done|]. run. by rewrite slice_ok by lia.
Qed.
End Deserialize.

Lemma be_words_words32 pre l post :
  Forall (is_uint 32) l → be_words (length l) (zlen pre) (pre ++ words32 l ++ post) = l.
Proof.
  intros Hl. revert pre. induction Hl as [|x l Hx Hl IH]; intros pre; [done|].
  cbn [length be_words]. unfold words32. cbn [map concat]. fold (words32 l).
  rewrite <- app_assoc, sub_mid by llia. rewrite be_val_bytes by exact Hx. f_equal.
  specialize (IH (pre ++ be_bytes 4 x)). rewrite zlen_app, zlen_be_bytes, <- app_assoc in IH.
  exact IH.
Qed.

Section Roundtrip.
Variables (pkt : rtp_packet_t) (rest : list Z).
Hypothesis Hok : rtp_packet_ok pkt.
Hypothesis Hcan : rtp_packet_canonical pkt.
Hypothesis Hnopad : rtp_p (rtp pkt) = 0.

Let h := rtp pkt.

Lemma rtp_parse_header_wire tail : rtp_parse_header (rtp_wire_header h ++ tail) = h.
Proof.
  destruct Hok as [Hh]. unfold rtp_parse_header, rtp_wire_header. rewrite <- !app_assoc.
  rewrite (sub_head (be_bytes 4 (rtp_word h))) by done.
  rewrite (sub_mid (be_bytes 4 (rtp_word h)) _ _ 4 4) by done.
  rewrite (app_assoc (be_bytes 4 (rtp_word h))), sub_mid by done.
  destruct (rtp_word_fields h Hh) as (Ev & Ep & Ex & Ecc & Em & Ept & Eseq).
  rewrite !be_val_bytes by (apply rtp_word_range, Hh || apply Hh).
  rewrite Ev, Ep, Ex, Ecc, Em, Ept, Eseq. by destruct h.
Qed.

Lemma rtp_csrc_wire tail :
  put (replicate 16 0) 0 (be_words (Z.to_nat (rtp_cc h)) 12
    (rtp_wire_header h ++ words32 (take (Z.to_nat (rtp_cc h)) (csrc pkt)) ++ tail)) = csrc pkt.
Proof.
  pose proof (rtp_cc_range pkt Hok) as Hcc. fold h in Hcc.
  assert (length (take (Z.to_nat (rtp_cc h)) (csrc pkt)) = Z.to_nat (rtp_cc h)) as Hl.
  { rewrite length_take, (ok_csrc _ Hok). lia. }
  rewrite <- Hl at 1. rewrite (be_words_words32 (rtp_wire_header h)).
  2:{ apply Forall_take, (ok_csrc_words _ Hok). }
  unfold put. change (take (Z.to_nat 0) _) with (@nil Z). cbn [app]. rewrite Hl.
  rewrite drop_replicate, Nat.add_0_l.
  pose proof (can_csrc _ Hcan) as Hd. fold h in Hd. rewrite <- Hd. apply take_drop.
Qed.

Lemma ext_len_wire pre tail : zlen pre = 12 + 4 * rtp_cc h →
  ext_len h (pre ++ rtp_wire_ext pkt ++ tail) (12 + 4 * rtp_cc h) = extlen pkt.
Proof.
  intros Hpre. unfold ext_len, rtp_wire_ext. fold h.
  pose proof (ok_extlen _ Hok) as He. pose proof (ok_extlen4 _ Hok). unfold is_uint in He.
  destruct (ok_x _ (ok_header _ Hok)) as [Hx0 Hx1]. fold h in Hx0, Hx1.
  destruct (Z.eqb_spec (rtp_x h) 1).
  - rewrite <- !app_assoc, (app_assoc pre), sub_mid by llia.
    rewrite be_val_bytes by dlia. unfold u16. dlia.
  - symmetry. apply (ok_noext _ Hok). fold h. change (2 ^ 1) with 2 in Hx1. lia.
Qed.

Lemma x4_truth : (if truth (rtp_x h) then 4 else 0) = x4 h.
Proof.
  destruct (ok_x _ (ok_header _ Hok)) as [Hx0 Hx1]. fold h in Hx0, Hx1.
  change (2 ^ 1) with 2 in Hx1. unfold truth, x4.
  destruct (Z.eqb_spec (rtp_x h) 1), (Z.eqb_spec (rtp_x h) 0); done || lia.
Qed.

(** The regions the parser delimits after a prefix of the right length. *)
Lemma rtp_wire_regions pre tail : zlen pre = 12 + 4 * rtp_cc h →
  let m := pre ++ rtp_wire_ext pkt ++ payload pkt ++ tail in
  sub m (12 + 4 * rtp_cc h + x4 h + extlen pkt) (payloadlen pkt) = payload pkt ∧
  (if rtp_x h =? 1 then sub m (12 + 4 * rtp_cc h + 4) (extlen pkt) else []) = extension pkt ∧
  (if rtp_x h =? 1 then be_val (sub m (12 + 4 * rtp_cc h) 2) else 0) = extprofile pkt.
Proof.
  intros Hpre m. pose proof (ok_payload _ Hok) as Hp. pose proof (ok_ext _ Hok) as Hext.
  pose proof (zlen_rtp_wire_ext pkt Hok) as Hwe. fold h in Hwe. rewrite x4_truth in Hwe.
  destruct (ok_x _ (ok_header _ Hok)) as [Hx0 Hx1]. fold h in Hx0, Hx1.
  change (2 ^ 1) with 2 in Hx1. split.
  { unfold m. rewrite app_assoc. apply sub_mid; llia. }
  unfold m, rtp_wire_ext. fold h. destruct (Z.eqb_spec (rtp_x h) 1).
  - split.
    + replace (pre ++ _) with ((pre ++ be_bytes 2 (extprofile pkt) ++ be_bytes 2 (extlen pkt / 4))
        ++ extension pkt ++ payload pkt ++ tail) by (by rewrite <- !app_assoc).
      apply sub_mid; llia.
    + rewrite <- !app_assoc, sub_mid by llia. apply be_val_bytes, (ok_extprofile _ Hok).
  - assert (rtp_x h = 0) as Ex by lia. split; [|by rewrite (can_profile _ Hcan Ex)].
    symmetry. apply length_zero_iff_nil. unfold zlen in Hext.
    rewrite (ok_noext _ Hok Ex) in Hext. lia.
Qed.

Lemma zlen_rtp_wire_prefix :
  zlen (rtp_wire_header h ++ words32 (take (Z.to_nat (rtp_cc h)) (csrc pkt)))
  = 12 + 4 * rtp_cc h.
Proof.
  pose proof (rtp_cc_range pkt Hok). unfold rtp_wire_header, h. rewrite (rtp_wire_csrc pkt).
  autorewrite with zlen. rewrite zlen_sub by (rewrite ?(zlen_csrc pkt Hok); lia). lia.
Qed.

Lemma rtp_parse_wire : rtp_parse (rtp_wire pkt ++ rest) (zlen (rtp_wire pkt)) = Ok pkt.
Proof.
  pose proof (zlen_rtp_wire pkt Hok) as Hz. pose proof (rtp_cc_range pkt Hok) as Hcc.
  pose proof (ok_payload _ Hok) as Hp. pose proof (ok_ext _ Hok) as Hext.
  pose proof (zlen_nonneg (payload pkt)). pose proof (zlen_nonneg (extension pkt)).
  fold h in Hcc, Hz. rewrite x4_truth in Hz.
  assert (0 ≤ x4 h) by (unfold x4; case_match; lia).
  unfold rtp_parse. rewrite Hz. unfold rtp_wire. fold h. rewrite <- !app_assoc.
  rewrite rtp_parse_header_wire. cbv zeta. rewrite rtp_csrc_wire.
  rewrite (app_assoc (rtp_wire_header h)).
  rewrite ext_len_wire by apply zlen_rtp_wire_prefix.
  destruct (rtp_wire_regions _ rest zlen_rtp_wire_prefix) as (Epay & Eext & Eprof).
  assert (∀ m n, pad_len h m n = 0) as Hpad by (intros; unfold pad_len, h; by rewrite Hnopad).
  rewrite Hpad.
  assert (p1 h = 0) as -> by (unfold p1, h; by rewrite Hnopad).
  pose proof (ok_version _ Hok) as Hv. unfold RTP_VERSION in Hv. fold h in Hv. rewrite Hv.
  rewrite !(proj2 (Z.ltb_ge _ _)) by lia. cbn [Z.eqb Pos.eqb negb orb].
  replace (12 + 4 * rtp_cc h + x4 h + extlen pkt + payloadlen pkt - (12 + 4 * rtp_cc h) - x4 h -
   extlen pkt - 0) with (payloadlen pkt) by lia.
  rewrite Epay, Eext, Eprof. unfold h. by destruct pkt.
Qed.
End Roundtrip.

(** * What a successful parse says about the bytes *)

Lemma be_bytes_sub m p (n : nat) k : k = Z.of_nat n → bytes_ok m → 0 ≤ p → p + k ≤ zlen m →
  be_bytes n (be_val (sub m p k)) = sub m p k.
Proof.
  intros -> Hm ? ?. rewrite <- (be_bytes_val (sub m p (Z.of_nat n))) at 2 by auto with cint.
  f_equal. pose proof (zlen_sub m p (Z.of_nat n)) as Hl. unfold zlen in *. lia.
Qed.

Lemma words32_be_words m p n : bytes_ok m → 0 ≤ p → p + 4 * Z.of_nat n ≤ zlen m →
  words32 (be_words n p m) = sub m p (4 * Z.of_nat n).
Proof.
  intros Hm. revert p. induction n as [|n IH]; intros p ? ?; [done|].
  unfold words32. cbn [be_words map concat]. fold (words32 (be_words n (p + 4) m)).
  rewrite IH by lia. rewrite (be_bytes_sub m p 4 4) by (done || lia).
  replace (4 * Z.of_nat (S n)) with (4 + 4 * Z.of_nat n) by lia.
  by rewrite sub_sub_app by lia.
Qed.

Lemma rtp_word_fields_inv v ts ssrc : is_uint 32 v →
  rtp_word (RtpHeader (RTP_V v) (RTP_P v) (RTP_X v) (RTP_CC v) (RTP_M v) (RTP_PT v)
                      (RTP_SEQ v) ts ssrc) = v.
Proof.
  intros Hv. unfold is_uint in Hv.
  unfold rtp_word, RTP_V, RTP_P, RTP_X, RTP_CC, RTP_M, RTP_PT, RTP_SEQ.
  cbn [rtp_v rtp_p rtp_x rtp_cc rtp_m rtp_pt rtp_seq]. masks. dlia.
Qed.

Section Sound.
Variables (data : list Z) (bytes : Z) (pkt : rtp_packet_t).
Hypothesis Hb : bytes_ok data.
Hypothesis Hlen : bytes ≤ zlen data.
Hypothesis Hparse : rtp_parse data bytes = Ok pkt.

Let h := rtp_parse_header data.
Let hdrlen := 12 + 4 * rtp_cc h.
Let elen := ext_len h data hdrlen.

Lemma rtp_parse_inv :
  12 ≤ bytes ∧ rtp_v h = 2 ∧ hdrlen + x4 h + elen + pad_len h data bytes ≤ bytes ∧
  pkt = RtpPacket h (put (replicate 16 0) 0 (be_words (Z.to_nat (rtp_cc h)) 12 data))
          (if rtp_x h =? 1 then sub data (hdrlen + 4) elen else []) elen
          (if rtp_x h =? 1 then be_val (sub data hdrlen 2) else 0)
          (sub data (hdrlen + x4 h + elen)
             (bytes - hdrlen - x4 h - elen - pad_len h data bytes))
          (bytes - hdrlen - x4 h - elen - pad_len h data bytes).
Proof.
  revert Hparse. unfold rtp_parse. fold h. cbv zeta. fold hdrlen elen.
  destruct (Z.ltb_spec bytes 12); [done|].
  destruct (Z.eqb_spec (rtp_v h) 2); [|done].
  destruct (Z.ltb_spec bytes (hdrlen + x4 h + p1 h)); [done|].
  destruct (Z.ltb_spec bytes (hdrlen + x4 h + elen)); [done|].
  destruct (Z.ltb_spec (bytes - hdrlen - x4 h - elen - pad_len h data bytes) 0); [done|].
  cbn [orb negb]. intros Heq%Ok_inj.
  split; [lia|]. split; [lia|]. split; [lia|by symmetry].
Qed.

Lemma rtp_parse_cc : 0 ≤ rtp_cc h < 16.
Proof.
  destruct rtp_parse_inv as (H12 & _).
  by destruct (ok_cc _ (rtp_parse_header_ok data bytes Hb Hlen H12)).
Qed.

Lemma x4_range : 0 ≤ x4 h ≤ 4.
Proof. unfold x4. case_match; lia. Qed.

(** A parsed packet is one the serializer accepts. *)
Lemma rtp_parse_packet_ok : rtp_packet_ok pkt.
Proof.
  pose proof rtp_parse_cc as Hcc. pose proof x4_range.
  destruct rtp_parse_inv as (H12 & Hv & Hfit & ->).
  pose proof (rtp_parse_header_ok data bytes Hb Hlen H12) as Hh. fold h in Hh.
  pose proof (ext_len_range data h hdrlen) as He. fold elen in He.
  pose proof (pad_len_range data bytes Hb h) as Hpad.
  destruct (ok_x _ Hh) as [Hx0 Hx1]. change (2 ^ 1) with 2 in Hx1.
  assert (∀ k, 0 ≤ k → k + 4 ≤ zlen data → is_uint 32 (be_val (sub data k 4))) as Hw.
  { intros k ? ?. by apply (be_val_sub_range data k 4). }
  constructor; cbn [rtp csrc extension extlen extprofile payload payloadlen]; try done.
  - unfold put. rewrite !length_app, length_take, length_drop, length_replicate.
    pose proof (zlen_be_words (Z.to_nat (rtp_cc h)) 12 data) as Hl. unfold zlen in Hl. lia.
  - unfold put. apply Forall_app. split; [by apply Forall_take, Forall_replicate|].
    apply Forall_app. split; [|by apply Forall_drop, Forall_replicate].
    assert (∀ n p, 0 ≤ p → p + 4 * Z.of_nat n ≤ zlen data →
      Forall (is_uint 32) (be_words n p data)) as Hall.
    { induction n; intros; cbn [be_words]; constructor; [apply Hw; lia|apply IHn; lia]. }
    apply Hall; lia.
  - unfold elen, ext_len. destruct (rtp_x h =? 1); [unfold u16; dlia|done].
  - unfold x4 in *. destruct (rtp_x h =? 1); [|done].
    apply (be_val_sub_range data hdrlen 2 Hb); lia.
  - intros ->%Z.eqb_eq || intros Hx. unfold elen, ext_len. by rewrite Hx.
  - unfold x4, elen, ext_len in *. destruct (rtp_x h =? 1); [apply zlen_sub; lia|done].
  - apply zlen_sub; lia.
  - case_match; [auto with cint|constructor].
  - auto with cint.
Qed.

(** The packet is its wire image followed by the padding. *)
Lemma rtp_parse_lossless :
  (rtp_x h = 1 → be_val (sub data (hdrlen + 2) 2) < 16384) →
  sub data 0 bytes
  = rtp_wire pkt ++ sub data (bytes - pad_len h data bytes) (pad_len h data bytes).
Proof.
  intros Hext. pose proof rtp_parse_cc as Hcc. pose proof x4_range.
  destruct rtp_parse_inv as (H12 & Hv & Hfit & ->).
  pose proof (ext_len_range data h hdrlen) as He. fold elen in He.
  pose proof (pad_len_range data bytes Hb h) as Hpad.
  set (pad := pad_len h data bytes) in *.
  unfold rtp_wire. cbn [rtp csrc payload].
  assert (rtp_wire_header h = sub data 0 12) as ->.
  { unfold rtp_wire_header, h, rtp_parse_header. cbn [rtp_timestamp rtp_ssrc].
    rewrite rtp_word_fields_inv by (apply (be_val_sub_range data 0 4); done || lia).
    rewrite (be_bytes_sub data 0 4 4), (be_bytes_sub data 4 4 4), (be_bytes_sub data 8 4 4)
      by (done || lia).
    by rewrite !sub_join by lia. }
  assert (words32 (take (Z.to_nat (rtp_cc h))
    (put (replicate 16 0) 0 (be_words (Z.to_nat (rtp_cc h)) 12 data))) = sub data 12 (4 * rtp_cc h)) as ->.
  { unfold put. change (take (Z.to_nat 0) _) with (@nil Z). cbn [app].
    rewrite take_app_length'.
    2:{ pose proof (zlen_be_words (Z.to_nat (rtp_cc h)) 12 data) as Hl. unfold zlen in Hl. lia. }
    rewrite words32_be_words by (done || lia). f_equal. lia. }
  assert (rtp_wire_ext {| rtp := h; csrc := put (replicate 16 0) 0 (be_words (Z.to_nat (rtp_cc h)) 12 data);
      extension := if rtp_x h =? 1 then sub data (hdrlen + 4) elen else []; extlen := elen;
      extprofile := if rtp_x h =? 1 then be_val (sub data hdrlen 2) else 0;
      payload := sub data (hdrlen + x4 h + elen) (bytes - hdrlen - x4 h - elen - pad);
      payloadlen := bytes - hdrlen - x4 h - elen - pad |} = sub data hdrlen (x4 h + elen)) as ->.
  { unfold rtp_wire_ext. cbn [rtp extprofile extlen extension].
    unfold x4, elen, ext_len in *. destruct (Z.eqb_spec (rtp_x h) 1); [|done].
    pose proof (be_val_sub_range data (hdrlen + 2) 2 Hb) as Hw.
    assert (u16 (be_val (sub data (hdrlen + 2) 2) * 4) / 4 = be_val (sub data (hdrlen + 2) 2)) as ->
      by (unfold u16; specialize (Hext ltac:(done)); dlia).
    rewrite (be_bytes_sub data hdrlen 2 2), (be_bytes_sub data (hdrlen + 2) 2 2) by (done || lia).
    rewrite !sub_join by lia. f_equal. lia. }
  rewrite <- !app_assoc, !sub_join by lia. f_equal. lia.
Qed.
End Sound.

(** * Properties *)

(** A sender report of one contributing source, a four-byte extension and
    three payload bytes, used by the witnesses. *)
Definition demo_packet : rtp_packet_t :=
  RtpPacket (RtpHeader 2 0 1 1 1 96 65535 305419896 2596069104)
    (7 :: replicate 15 0) [1; 2; 3; 4] 4 48862 [171; 205; 239] 3.

Lemma demo_packet_ok : rtp_packet_ok demo_packet.
Proof. split; [split|..]; try reflexivity; try by_eval; discriminate. Qed.

Lemma demo_packet_canonical : rtp_packet_canonical demo_packet.
Proof. split; [reflexivity|discriminate]. Qed.

(** C25: a packet written by [rtp_packet_serialize] into any buffer with room
    for it is read back field for field by [rtp_packet_deserialize] (header,
    contributing sources, extension and payload; padding is the caller's). *)
Theorem rtp_packet_roundtrip pkt data bytes :
  rtp_packet_ok pkt → rtp_packet_canonical pkt → rtp_p (rtp pkt) = 0 →
  bytes_ok data → zlen (rtp_wire pkt) ≤ bytes ≤ zlen data →
  ∃ n out, rtp_packet_serialize pkt data bytes = Ok (n, out) ∧
           rtp_packet_deserialize out n = Ok pkt.
Proof.
  intros Hok Hcan Hp Hd Hlen. exists (zlen (rtp_wire pkt)), (put data 0 (rtp_wire pkt)).
  rewrite rtp_packet_serialize_spec by (done || lia).
  split; [by destruct (Z.ltb_spec bytes (zlen (rtp_wire pkt))); [lia|]|].
  assert (bytes_ok (rtp_wire pkt)) as Hw.
  { unfold rtp_wire, rtp_wire_header, rtp_wire_ext. destruct Hok.
    rewrite !bytes_ok_app. repeat split; auto using bytes_ok_words32 with cint.
    case_match; rewrite ?bytes_ok_app; auto with cint. }
  rewrite rtp_packet_deserialize_spec by (auto with cint || llia).
  by apply rtp_parse_wire.
Qed.

Lemma rtp_packet_roundtrip_witness :
  ∃ n out, rtp_packet_serialize demo_packet (replicate 64 0) 64 = Ok (n, out) ∧
           rtp_packet_deserialize out n = Ok demo_packet.
Proof.
  apply (rtp_packet_roundtrip demo_packet (replicate 64 0) 64);
    [apply demo_packet_ok|apply demo_packet_canonical|reflexivity
    |by_eval|vm_compute; split; discriminate].
Defined.

(** On every input the parser stays inside the received buffer, and a
    packet it accepts has every field within its C type, its regions inside
    the packet and as long as their length fields say. *)
Theorem rtp_packet_deserialize_safe data bytes :
  bytes_ok data → bytes ≤ zlen data →
  safe (rtp_packet_deserialize data bytes) ∧
  (∀ pkt, rtp_packet_deserialize data bytes = Ok pkt → rtp_packet_ok pkt).
Proof.
  intros Hb Hlen. rewrite rtp_packet_deserialize_spec by done. split.
  - unfold rtp_parse. cbv zeta. by case_match.
  - intros pkt Hp. by eapply rtp_parse_packet_ok.
Qed.

Lemma rtp_packet_deserialize_safe_witness :
  safe (rtp_packet_deserialize (replicate 20 255) 20) ∧
  (∀ pkt, rtp_packet_deserialize (replicate 20 255) 20 = Ok pkt → rtp_packet_ok pkt).
Proof. apply rtp_packet_deserialize_safe; [by_eval|by vm_compute]. Defined.

(** Parsing loses nothing: an accepted packet is, byte for byte, the wire
    image of the parsed fields followed by the padding it announces, provided
    the extension announces fewer than 2^14 words. *)
Theorem rtp_packet_deserialize_lossless data bytes pkt :
  bytes_ok data → bytes ≤ zlen data → rtp_packet_deserialize data bytes = Ok pkt →
  (rtp_x (rtp pkt) = 1 → be_val (sub data (12 + 4 * rtp_cc (rtp pkt) + 2) 2) < 16384) →
  ∃ padding, sub data 0 bytes = rtp_wire pkt ++ padding ∧
             zlen padding = (if rtp_p (rtp pkt) =? 1 then data !!! Z.to_nat (bytes - 1) else 0).
Proof.
  intros Hb Hlen Hd. rewrite rtp_packet_deserialize_spec in Hd by done.
  destruct (rtp_parse_inv data bytes pkt Hd) as (H12 & _ & Hfit & Epkt).
  assert (rtp pkt = rtp_parse_header data) as -> by (by rewrite Epkt).
  intros Hx. pose proof (pad_len_range data bytes Hb (rtp_parse_header data)) as Hpad.
  exists (sub data (bytes - pad_len (rtp_parse_header data) data bytes)
            (pad_len (rtp_parse_header data) data bytes)).
  split; [by apply rtp_parse_lossless|].
  destruct (ok_cc _ (rtp_parse_header_ok data bytes Hb Hlen H12)) as [Hcc _].
  pose proof (x4_range data). pose proof (ext_len_range data (rtp_parse_header data)
    (12 + 4 * rtp_cc (rtp_parse_header data))).
  rewrite zlen_sub by lia. done.
Qed.

Lemma rtp_packet_deserialize_lossless_witness :
  ∃ padding, sub (rtp_wire demo_packet) 0 27 = rtp_wire demo_packet ++ padding ∧
             zlen padding = 0.
Proof.
  apply (rtp_packet_deserialize_lossless (rtp_wire demo_packet) 27 demo_packet);
    [by_eval|by vm_compute|by vm_compute|by vm_compute].
Defined.

(** [rtp_packet_serialize] on a well-formed packet returns -1 exactly when
    the packet does not fit in [bytes], and otherwise returns the packet's
    length and stores its wire image at the start of the buffer, leaving the
    rest of the buffer alone. *)
Theorem rtp_packet_serialize_exact pkt data bytes :
  rtp_packet_ok pkt → bytes ≤ zlen data →
  rtp_packet_serialize pkt data bytes =
    if bytes <? 12 + 4 * rtp_cc (rtp pkt) + (if truth (rtp_x (rtp pkt)) then 4 else 0)
                + extlen pkt + payloadlen pkt
    then Fail (-1)
    else Ok (zlen (rtp_wire pkt), rtp_wire pkt ++ drop (length (rtp_wire pkt)) data).
Proof.
  intros Hok Hlen. rewrite rtp_packet_serialize_spec, zlen_rtp_wire by done.
  unfold put. by rewrite Nat.add_0_l.
Qed.

Lemma rtp_packet_serialize_exact_witness :
  rtp_packet_serialize demo_packet (replicate 30 9) 30 =
    Ok (27, rtp_wire demo_packet ++ [9; 9; 9]) ∧
  rtp_packet_serialize demo_packet (replicate 30 9) 26 = Fail (-1).
Proof.
  split; (rewrite rtp_packet_serialize_exact;
    [by vm_compute|apply demo_packet_ok|by vm_compute]).
Defined.

(** The length of an accepted header extension is four times the announced
    word count reduced modulo 2^16: [extlen] is a [uint16_t], so an extension
    announced as 2^14 words or more is accepted with a shorter length. *)
Theorem rtp_extlen_truncated data bytes pkt :
  bytes_ok data → bytes ≤ zlen data → rtp_packet_deserialize data bytes = Ok pkt →
  rtp_x (rtp pkt) = 1 →
  extlen pkt = (4 * be_val (sub data (12 + 4 * rtp_cc (rtp pkt) + 2) 2)) mod 65536.
Proof.
  intros Hb Hlen Hd. rewrite rtp_packet_deserialize_spec in Hd by done.
  destruct (rtp_parse_inv data bytes pkt Hd) as (_ & _ & _ & ->).
  cbn [rtp extlen]. intros Hx. unfold ext_len. rewrite Hx, Z.eqb_refl. unfold u16.
  f_equal. lia.
Qed.

(** Sixteen bytes that announce a 65536-byte extension are accepted. *)
Lemma rtp_extlen_truncated_witness :
  let data := [144; 96; 0; 1; 0; 0; 0; 0; 0; 0; 0; 0; 190; 222; 64; 0] in
  let pkt := RtpPacket (RtpHeader 2 0 1 0 0 96 1 0 0) (replicate 16 0) [] 0 48862 [] 0 in
  rtp_packet_deserialize data 16 = Ok pkt ∧ extlen pkt = (4 * 16384) mod 65536.
Proof.
  intros data pkt. assert (rtp_packet_deserialize data 16 = Ok pkt) as E by by vm_compute.
  split; [exact E|].
  apply (rtp_extlen_truncated data 16 pkt);
    [by_eval|by vm_compute|exact E|reflexivity].
Defined.
