(* ===== verification/Post.v ===== *)
(** Postconditions of outcomes: a call that returns normally with a value of a
    property, the rules for sequences of calls, and the rules for reading a
    buffer. *)
From S2P Require Import Prelude RtpPacket.
Open Scope Z_scope.

Definition post {A} (x : outcome A) (Q : A → Prop) : Prop :=
  match x with Ok a => Q a | _ => False end.

Section Rules.
Context {A B : Type}.
Implicit Types (x : outcome A) (P Q : A → Prop).

Lemma post_iff x Q : post x Q ↔ ∃ a, x = Ok a ∧ Q a.
Proof. unfold post. destruct x; naive_solver. Qed.

Lemma post_inv x Q a : post x Q → x = Ok a → Q a.
Proof. by intros H ->. Qed.

Lemma post_intro x Q a : x = Ok a → Q a → post x Q.
Proof. by intros ->. Qed.

Lemma post_mono x P Q : post x P → (∀ a, P a → Q a) → post x Q.
Proof. unfold post. destruct x; naive_solver. Qed.

Lemma post_bind x (f : A → outcome B) P R :
  post x P → (∀ a, P a → post (f a) R) → post (x ≫= f) R.
Proof. unfold post. destruct x; naive_solver. Qed.

Lemma post_safe x Q : post x Q → safe x.
Proof. unfold post, safe. by destruct x. Qed.
End Rules.

(** * Reading *)

Section Reads.
Variable m : list Z.
Hypothesis Hm : bytes_ok m.

Lemma post_ld p : 0 ≤ p < zlen m → post (ld m p) is_byte.
Proof.
  intros Hp. eapply post_intro; [by apply ld_ok|]. by apply bytes_ok_lookup.
Qed.

Lemma post_read_uint16 p : 0 ≤ p → p + 2 ≤ zlen m → post (rtp_read_uint16 m p) (is_uint 16).
Proof.
  intros. eapply post_intro; [by apply rtp_read_uint16_be|].
  unfold is_uint. by apply (be_val_sub_range m p 2).
Qed.

Lemma post_read_uint32 p : 0 ≤ p → p + 4 ≤ zlen m → post (rtp_read_uint32 m p) (is_uint 32).
Proof.
  intros. eapply post_intro; [by apply rtp_read_uint32_be|].
  unfold is_uint. by apply (be_val_sub_range m p 4).
Qed.

Lemma post_slice p n : 0 ≤ p → 0 ≤ n → p + n ≤ zlen m →
  post (slice m p n) (λ l, zlen l = n ∧ bytes_ok l).
Proof.
  intros. eapply post_intro; [by apply slice_ok|]. split; [by apply zlen_sub|auto with cint].
Qed.
End Reads.

(** A store keeps the length of a buffer. *)
Lemma post_st {A} (m : list A) p bs : 0 ≤ p → p + zlen bs ≤ zlen m →
  post (st m p bs) (λ m', zlen m' = zlen m).
Proof. intros. eapply post_intro; [by apply st_ok|]. by apply zlen_put. Qed.

Lemma is_uint_range w v : is_uint w v → 0 ≤ v < 2 ^ w.
Proof. done. Qed.

(** One read at the head of a sequence: the value and its range. *)
Ltac post_read :=
  eapply post_bind;
    [first [ apply post_ld; [assumption|lia]
           | apply post_read_uint16; [assumption|lia..]
           | apply post_read_uint32; [assumption|lia..]
           | apply post_slice; [assumption|lia..] ]
    | let v := fresh "v" in let H := fresh "Hv" in
      intros v H; cbv beta;
      first [ apply is_uint_range in H;
              match type of H with
              | context [2 ^ ?w] => let n := eval vm_compute in (2 ^ w) in change (2 ^ w) with n in H
              end
            | idtac ]].
Ltac post_reads := repeat post_read.
