(* ===== verification/SinkDispatcher.v ===== *)
(** The fan-out of a stream to its consumers, which run on other threads:
    src/media/core/worker_sink_dispatcher.h.

    A worker is an io_context with one thread, named by its address.  The owner's
    thread adds and removes consumers and publishes frames.  The consumers of
    another worker share a group: frames wait in it, and a task on the worker's
    queue, [drain], hands them out.  What a thread does under a group's lock is
    one step; the threads' steps interleave.  Groups are shared by the map and
    the tasks, so they live in [groups] and a [shared_ptr] is an index.  A
    [weak_ptr] to a sink can be locked while the sink is in [live]. *)
From stdpp Require Import gmap.
From S2P Require Import Prelude.

Definition max_pending_frames : nat := 2500.

Section Dispatcher.
Context {Frame : Type}.

(** * Groups *)

Record sink_group := SinkGroup {
  worker : Z;
  sinks : list Z;
  pending : list Frame;
  drain_queued : bool;
  pending_end : bool
}.

Definition with_sinks (g : sink_group) (l : list Z) : sink_group :=
  SinkGroup (worker g) l (pending g) (drain_queued g) (pending_end g).

(** The sinks that can be locked; the others are erased. *)
Definition snapshot_sinks (live : gset Z) (g : sink_group) : list Z * sink_group :=
  let l := filter (λ s, s ∈ live) (sinks g) in (l, with_sinks g l).

(** The locked part of [publish]: the group, whether it has overflowed and
    whether [drain] has to be posted. *)
Definition push (g : sink_group) (f : Frame) : sink_group * bool * bool :=
  if pending_end g then (g, false, false) else
  let over := Nat.leb max_pending_frames (length (pending g)) in
  (SinkGroup (worker g) (sinks g) (if over then [] else pending g ++ [f]) true over,
   over, negb (drain_queued g)).

(** The locked part of [end]. *)
Definition push_end (g : sink_group) : sink_group * bool :=
  (SinkGroup (worker g) (sinks g) (pending g) true true, negb (drain_queued g)).

(** Where the thread that runs [drain] is: before the first lock of the loop,
    before the snapshot, before the calls. *)
Inductive drain_pc :=
| AtLoop
| Taken (frame : option Frame)
| Snapshot (frame : option Frame) (l : list Z).

(** The first locked part of the loop; [None]: [drain] returns. *)
Definition drain_take (g : sink_group) : sink_group * option drain_pc :=
  match pending g with
  | f :: l => (SinkGroup (worker g) (sinks g) l (drain_queued g) (pending_end g), Some (Taken (Some f)))
  | [] =>
      if pending_end g then (SinkGroup (worker g) (sinks g) [] false false, Some (Taken None))
      else (SinkGroup (worker g) (sinks g) [] false false, None)
  end.

(** * The dispatcher and the threads *)

(** A group, and where its [drain] is when one is running. *)
Record cell := Cell { grp : sink_group; pc : option drain_pc }.

Record dispatcher := Dispatcher {
  owner : Z;
  (** [sink_groups_], in the order of the map *)
  sink_groups : list (Z * nat);
  (** the frame being published, the groups it has yet to reach and those that
      have overflowed *)
  publishing : option (Frame * list nat * list nat);
  groups : list cell;
  (** the [drain] tasks posted, in their order *)
  posted : list nat;
  live : gset Z;
  (** what has happened: sinks added, frames published, calls of [Deliver] and,
      with [None], of [on_end] *)
  added : list Z;
  published : list Frame;
  calls : list (Z * option Frame)
}.

Implicit Types (σ : dispatcher) (g : sink_group) (id : nat) (s : Z).

Definition empty_dispatcher (owner : Z) : dispatcher := Dispatcher owner [] None [] [] ∅ [] [] [].

Definition set_groups σ (gs : list cell) : dispatcher :=
  Dispatcher (owner σ) (sink_groups σ) (publishing σ) gs (posted σ) (live σ) (added σ) (published σ) (calls σ).
Definition set_map σ (l : list (Z * nat)) : dispatcher :=
  Dispatcher (owner σ) l (publishing σ) (groups σ) (posted σ) (live σ) (added σ) (published σ) (calls σ).
Definition set_publishing σ p : dispatcher :=
  Dispatcher (owner σ) (sink_groups σ) p (groups σ) (posted σ) (live σ) (added σ) (published σ) (calls σ).
Definition set_posted σ (l : list nat) : dispatcher :=
  Dispatcher (owner σ) (sink_groups σ) (publishing σ) (groups σ) l (live σ) (added σ) (published σ) (calls σ).
Definition set_live σ (l : gset Z) : dispatcher :=
  Dispatcher (owner σ) (sink_groups σ) (publishing σ) (groups σ) (posted σ) l (added σ) (published σ) (calls σ).
Definition set_history σ (a : list Z) (p : list Frame) (c : list (Z * option Frame)) : dispatcher :=
  Dispatcher (owner σ) (sink_groups σ) (publishing σ) (groups σ) (posted σ) (live σ) a p c.

Definition set_group σ id g (p : option drain_pc) : dispatcher :=
  set_groups σ (<[id := Cell g p]> (groups σ)).
Definition post σ id : dispatcher := set_posted σ (posted σ ++ [id]).
Definition post_if (b : bool) σ id : dispatcher := if b then post σ id else σ.
Definition call_sinks σ (l : list Z) (f : option Frame) : dispatcher :=
  set_history σ (added σ) (published σ) (calls σ ++ ((λ s, (s, f)) <$> l)).

(** * The owner's thread *)

Fixpoint find_group (l : list (Z * nat)) (target : Z) : option nat :=
  match l with
  | [] => None
  | (w, id) :: l => if w =? target then Some id else find_group l target
  end.

Fixpoint insert_group (l : list (Z * nat)) (target : Z) id : list (Z * nat) :=
  match l with
  | [] => [(target, id)]
  | (w, i) :: k => if target <? w then (target, id) :: l else (w, i) :: insert_group k target id
  end.

Definition new_group σ (target : Z) : dispatcher :=
  set_map (set_groups σ (groups σ ++ [Cell (SinkGroup target [] [] false false) None]))
    (insert_group (sink_groups σ) target (length (groups σ))).

Definition add_to σ s id : dispatcher :=
  match groups σ !! id with
  | Some c => set_group σ id (with_sinks (grp c) (sinks (grp c) ++ [s])) (pc c)
  | None => σ
  end.

(** The caller holds the sink, so it is alive. *)
Definition add σ s (target : Z) : dispatcher :=
  let σ := set_history (set_live σ (live σ ∪ {[s]})) (added σ ++ [s]) (published σ) (calls σ) in
  match find_group (sink_groups σ) target with
  | Some id => add_to σ s id
  | None => add_to (new_group σ target) s (length (groups σ))
  end.

Definition has_live_sinks σ : bool :=
  existsb (λ '(_, id), match groups σ !! id with
                       | Some c => existsb (λ s, bool_decide (s ∈ live σ)) (sinks (grp c))
                       | None => false
                       end) (sink_groups σ).

Definition remove_in (live : gset Z) s g : sink_group :=
  with_sinks g (filter (λ x, x ∈ live ∧ x ≠ s) (sinks g)).

(** One round of the loop of [remove]; an empty group leaves the map. *)
Definition remove_entry s σ id : dispatcher :=
  match groups σ !! id with
  | None => σ
  | Some c =>
      let g := remove_in (live σ) s (grp c) in
      let σ := set_group σ id g (pc c) in
      match sinks g with
      | [] => set_map σ (filter (λ e, snd e ≠ id) (sink_groups σ))
      | _ => σ
      end
  end.
(** The source locks the groups one after the other; the rounds are one step here.  A
    round reads and changes its own group only, so what a worker does between two
    rounds could as well come before or after them. *)
Definition remove σ s : dispatcher := fold_left (remove_entry s) (snd <$> sink_groups σ) σ.

(** One group of [publish], and whether it has overflowed. *)
Definition publish_group σ (f : Frame) id : dispatcher * bool :=
  match groups σ !! id with
  | None => (σ, false)
  | Some c =>
      if worker (grp c) =? owner σ then
        let '(l, g) := snapshot_sinks (live σ) (grp c) in
        (call_sinks (set_group σ id g (pc c)) l (Some f), false)
      else
        let '(g, over, schedule) := push (grp c) f in
        (post_if schedule (set_group σ id g (pc c)) id, over)
  end.

Definition publish_start σ (f : Frame) : dispatcher :=
  set_history (set_publishing σ (Some (f, snd <$> sink_groups σ, []))) (added σ) (published σ ++ [f]) (calls σ).
(** The next group, or the end of the function: the groups that have overflowed
    leave the map. *)
Definition publish_step σ : dispatcher :=
  match publishing σ with
  | None => σ
  | Some (f, id :: rest, over) =>
      let '(σ, o) := publish_group σ f id in
      set_publishing σ (Some (f, rest, if o then over ++ [id] else over))
  | Some (f, [], over) =>
      set_publishing (set_map σ (filter (λ e, snd e ∉ over) (sink_groups σ))) None
  end.
Definition publish σ (f : Frame) : dispatcher :=
  Nat.iter (S (length (sink_groups σ))) publish_step (publish_start σ f).

Definition end_group σ id : dispatcher :=
  match groups σ !! id with
  | None => σ
  | Some c =>
      if worker (grp c) =? owner σ then
        let '(l, g) := snapshot_sinks (live σ) (grp c) in
        call_sinks (set_group σ id g (pc c)) l None
      else
        let '(g, schedule) := push_end (grp c) in post_if schedule (set_group σ id g (pc c)) id
  end.
Definition end_ σ : dispatcher :=
  fold_left end_group (snd <$> sink_groups σ) (set_map σ []).

(** * The other workers *)

Definition drain_start σ id : dispatcher :=
  match groups σ !! id with
  | None => σ
  | Some c => set_group σ id (grp c) (Some AtLoop)
  end.

(** The next part of a running [drain]; [late]: the time slice is used up. *)
Definition drain_step σ id (late : bool) : dispatcher :=
  match groups σ !! id with
  | None => σ
  | Some c =>
      match pc c with
      | None => σ
      | Some AtLoop => let '(g, p) := drain_take (grp c) in set_group σ id g p
      | Some (Taken f) =>
          let '(l, g) := snapshot_sinks (live σ) (grp c) in set_group σ id g (Some (Snapshot f l))
      | Some (Snapshot f l) =>
          let σ := call_sinks σ l f in
          match f with
          | None => set_group σ id (grp c) None
          | Some _ => if late then post (set_group σ id (grp c) None) id else set_group σ id (grp c) (Some AtLoop)
          end
      end
  end.

(** * Interleavings *)

Definition on_worker σ id (w : Z) : Prop := ∃ c, groups σ !! id = Some c ∧ worker (grp c) = w.

(** What the owner's thread and the other owners of sinks do.  Between two
    groups of [publish] the sinks of its own thread are called, which may remove
    sinks; a sink is destroyed when no snapshot holds it. *)
Inductive owner_step : dispatcher → dispatcher → Prop :=
| step_add σ s target : publishing σ = None → owner_step σ (add σ s target)
| step_remove σ s : owner_step σ (remove σ s)
| step_publish σ f : publishing σ = None → owner_step σ (publish_start σ f)
| step_publishing σ p : publishing σ = Some p → owner_step σ (publish_step σ)
| step_end σ : publishing σ = None → owner_step σ (end_ σ)
| step_expire σ s :
    (∀ id c f l, groups σ !! id = Some c → pc c = Some (Snapshot f l) → s ∉ l) →
    owner_step σ (set_live σ (live σ ∖ {[s]})).

(** A worker runs its tasks in their order, one at a time. *)
Inductive worker_step : dispatcher → dispatcher → Prop :=
| step_start σ l id k w :
    posted σ = l ++ id :: k → on_worker σ id w → (∀ i, i ∈ l → ¬ on_worker σ i w) →
    (∀ i c, groups σ !! i = Some c → worker (grp c) = w → pc c = None) →
    worker_step σ (drain_start (set_posted σ (l ++ k)) id)
| step_drain σ id c p late :
    groups σ !! id = Some c → pc c = Some p → worker_step σ (drain_step σ id late).

Inductive step σ : dispatcher → Prop :=
| step_owner σ' : owner_step σ σ' → step σ σ'
| step_worker σ' : worker_step σ σ' → step σ σ'.

Definition reachable (w : Z) σ : Prop := rtc step (empty_dispatcher w) σ.
End Dispatcher.
Arguments sink_group : clear implicits. Arguments drain_pc : clear implicits.
Arguments cell : clear implicits. Arguments dispatcher : clear implicits.
