(* ===== verification/SinkDispatcherSpec.v ===== *)
(** What the fan-out promises: a consumer gets a run of the frames published,
    in order and without a gap, and the end of the stream last and once; no
    frame waits without a task that will deliver it; and the tasks end. *)
From stdpp Require Import gmap.
From S2P Require Import Prelude SinkDispatcher.

(** * Counting *)

Section Occ.
Context {A : Type} `{EqDecision A}.
Definition occ (x : A) (l : list A) : nat := length (filter (λ y, y = x) l).

Lemma occ_app x l k : occ x (l ++ k) = (occ x l + occ x k)%nat.
Proof. unfold occ. by rewrite list.filter_app, length_app. Qed.
Lemma occ_cons x y l : occ x (y :: l) = ((if decide (y = x) then 1 else 0) + occ x l)%nat.
Proof. unfold occ. rewrite filter_cons. by case_decide. Qed.
Lemma occ_snoc x y l : occ x (l ++ [y]) = (occ x l + (if decide (y = x) then 1 else 0))%nat.
Proof. rewrite occ_app, occ_cons. unfold occ. cbn. lia. Qed.
Lemma occ_0 x l : occ x l = 0%nat ↔ x ∉ l.
Proof.
  induction l as [|y l IH]; [split; [intros _; apply not_elem_of_nil|done]|].
  rewrite occ_cons, not_elem_of_cons. case_decide; naive_solver lia.
Qed.
Lemma occ_filter (P : A → Prop) `{∀ x, Decision (P x)} x l :
  occ x (filter P l) = if decide (P x) then occ x l else 0%nat.
Proof.
  induction l as [|y l IH]; [by case_decide|].
  rewrite filter_cons. repeat case_decide; rewrite ?occ_cons; repeat case_decide; simplify_eq; try done; lia.
Qed.
End Occ.

Section Spec.
Context {Frame : Type}.
Implicit Types (σ : dispatcher Frame) (g : sink_group Frame) (c : cell Frame) (id : nat) (s : Z).

(** * What a sink sees *)

(** The calls of a sink, in order: [None] is [on_end]. *)
Definition calls_of s (l : list (Z * option Frame)) : list (option Frame) :=
  omap (λ '(x, f), if decide (x = s) then Some f else None) l.

Lemma calls_of_app s l k : calls_of s (l ++ k) = calls_of s l ++ calls_of s k.
Proof. apply omap_app. Qed.
Lemma calls_of_sinks s (l : list Z) f : calls_of s ((λ x, (x, f)) <$> l) = replicate (occ s l) f.
Proof.
  induction l as [|x l IH]; [done|]. rewrite occ_cons. cbn. case_decide; [|done].
  cbn. by rewrite <- IH.
Qed.

(** How often a sink is among those a snapshot would take. *)
Definition held (live : gset Z) s g : nat := if decide (s ∈ live) then occ s (sinks g) else 0.

(** What a sink will be called with, if nothing but the group's [drain] runs. *)
Definition in_flight (live : gset Z) s c : list (option Frame) :=
  match pc c with
  | Some (Taken f) => replicate (held live s (grp c)) f
  | Some (Snapshot f l) => replicate (occ s l) f
  | _ => []
  end.
Definition waiting g : list (option Frame) := (Some <$> pending g) ++ (if pending_end g then [None] else []).
Definition todo (live : gset Z) s c : list (option Frame) :=
  in_flight live s c ++ (if decide (held live s (grp c) = 0%nat) then [] else waiting (grp c)).

(** What is known of a sink besides: [P], of the number of frames before its run;
    [q], when its group was closed with nothing dropped, the number of frames that
    its run reaches. *)
Definition reaches (q : option nat) (n : nat) : Prop := match q with Some k => n = k | None => True end.

(** [cs ++ todo] is a run of the frames seen, then perhaps the end; [h]: the
    sink will get what comes; [op]: the group is open. *)
Definition story (P : nat → Prop) (q : option nat) (cs todo : list (option Frame)) (seen : list Frame) (h op : bool) : Prop :=
  ∃ pre mid rest tail, cs ++ todo = (Some <$> mid) ++ tail ∧ (tail = [] ∨ tail = [None]) ∧
    seen = pre ++ mid ++ rest ∧ (h = true → op = true → rest = [] ∧ tail = [] ∧ q = None) ∧
    (h = true → op = false → tail = [None] ∧ reaches q (length pre + length mid)) ∧ P (length pre).

Lemma story_move {P q} cs t cs' t' seen h op :
  cs' ++ t' = cs ++ t → story P q cs t seen h op → story P q cs' t' seen h op.
Proof. unfold story. by intros ->. Qed.

(** A sink that will get nothing more keeps what it got. *)
Lemma story_cut {P q} cs t k seen h op op' : story P q cs (t ++ k) seen h op → story P q cs t seen false op'.
Proof.
  intros (pre & mid & rest & tail & E & Ht & -> & _ & _ & HP). rewrite app_assoc in E.
  apply app_eq_inv in E as [(u & E & Eu)|(u & Eu & ->)].
  - exists pre, mid, rest, u. split; [done|].
    split; [|naive_solver]. destruct u as [|o [|? ?]], Ht as [-> | ->]; simplify_eq/=; naive_solver.
  - destruct (fmap_app_inv _ _ _ _ Eu) as (m1 & m2 & E1 & E2 & ->).
    exists pre, m1, (m2 ++ rest), []. rewrite app_nil_r, <- !app_assoc. naive_solver.
Qed.

Lemma story_seen {P q} cs t seen f h op :
  (h = true → op = false) → story P q cs t seen h op → story P q cs t (seen ++ [f]) h op.
Proof.
  intros Hh (pre & mid & rest & tail & E & Ht & -> & Ho & Hc & HP). exists pre, mid, (rest ++ [f]), tail.
  rewrite <- !app_assoc. split_and!; try done. intros ? ?. naive_solver congruence.
Qed.

Lemma story_push {P q} cs t seen f : story P q cs t seen true true → story P q cs (t ++ [Some f]) (seen ++ [f]) true true.
Proof.
  intros (pre & mid & rest & tail & E & _ & -> & Ho & _ & HP). destruct Ho as (-> & -> & ->); [done..|].
  exists pre, (mid ++ [f]), [], []. rewrite !app_nil_r in *. rewrite app_assoc, E, fmap_app, <- app_assoc. naive_solver.
Qed.

Lemma story_close {P q} cs t k seen l : story P q cs (t ++ k) seen true true → story P q cs (t ++ [None]) (seen ++ l) true false.
Proof.
  intros (pre & mid & rest & tail & E & _ & -> & Ho & _ & HP). destruct Ho as (-> & -> & ->); [done..|].
  rewrite !app_nil_r, app_assoc in E. symmetry in E. destruct (fmap_app_inv _ _ _ _ E) as (m1 & m2 & E1 & _ & ->).
  exists pre, m1, (m2 ++ l), [None]. rewrite app_assoc, E1, app_nil_r, <- !app_assoc. naive_solver.
Qed.

(** * The invariant *)

(** What is known of each sink: [since], of the frames before its run, and [until],
    how far its run reaches. *)
Context (since : Z → nat → Prop) (until : Z → option nat).

Definition rest σ : list nat := match publishing σ with Some (_, r, _) => r | None => [] end.
Definition over σ : list nat := match publishing σ with Some (_, _, o) => o | None => [] end.

(** The groups that take frames: those of the map, less [closed]. *)
Definition is_open (closed : list nat) σ id : bool :=
  bool_decide (id ∈ snd <$> sink_groups σ) && bool_decide (id ∉ closed).
Definition to_reach σ id : bool := bool_decide (id ∈ rest σ).

(** The frames published that have reached a group. *)
Definition seen_by (b : bool) (l : list Frame) : list Frame := if b then take (pred (length l)) l else l.
Definition seen σ id : list Frame := seen_by (to_reach σ id) (published σ).

(** Whether a task holds the group's [drain_queued], is past taking the end, and
    the frame it holds. *)
Definition running (p : option (drain_pc Frame)) : nat :=
  match p with None | Some (Taken None) | Some (Snapshot None _) => 0 | _ => 1 end.
Definition ending (p : option (drain_pc Frame)) : bool :=
  match p with Some (Taken None) | Some (Snapshot None _) => true | _ => false end.
Definition in_hand (p : option (drain_pc Frame)) : list Frame :=
  match p with Some (Taken (Some f)) | Some (Snapshot (Some f) _) => [f] | _ => [] end.

Record group_ok (w : Z) (n : nat) (op reach : bool) (sn : list Frame) c : Prop := GroupOk {
  own_idle : worker (grp c) = w →
    pending (grp c) = [] ∧ drain_queued (grp c) = false ∧ pending_end (grp c) = false ∧ pc c = None;
  one_task : (n + running (pc c))%nat = if drain_queued (grp c) then 1%nat else 0%nat;
  woken : pending (grp c) ≠ [] ∨ pending_end (grp c) = true → drain_queued (grp c) = true;
  open_ok : op = true → pending_end (grp c) = false ∧ ending (pc c) = false ∧
    ∃ pre, sn = pre ++ in_hand (pc c) ++ pending (grp c);
  shut_ok : op = false → reach = true → sinks (grp c) = []
}.

Definition snap c : list Z := match pc c with Some (Snapshot _ l) => l | _ => [] end.
Definition mentions s c : Prop := s ∈ sinks (grp c) ∨ s ∈ snap c.
Definition receives (live : gset Z) s c : bool := negb (Nat.eqb (held live s (grp c)) 0).

(** The story of a sink in its group. *)
Definition told (closed : list nat) σ s id c : Prop :=
  (occ s (sinks (grp c)) ≤ 1)%nat ∧ (occ s (snap c) ≤ 1)%nat ∧
  story (since s) (until s) (calls_of s (calls σ)) (todo (live σ) s c) (seen σ id) (receives (live σ) s c) (is_open closed σ id).

Definition sink_ok (closed : list nat) σ s : Prop :=
  (s ∉ added σ ∧ calls_of s (calls σ) = [] ∧ ∀ id c, groups σ !! id = Some c → ¬ mentions s c) ∨
  (s ∈ added σ ∧ ∃ id c, groups σ !! id = Some c ∧
    (∀ i d, groups σ !! i = Some d → mentions s d → i = id) ∧ told closed σ s id c).

Record inv_with (closed : list nat) σ : Prop := Inv {
  map_nodup : NoDup (snd <$> sink_groups σ);
  map_worker : ∀ w id, (w, id) ∈ sink_groups σ → on_worker σ id w;
  rest_nodup : NoDup (rest σ);
  rest_over : ∀ id, id ∈ rest σ → id ∉ over σ;
  rest_valid : ∀ id, id ∈ rest σ → is_Some (groups σ !! id);
  posted_valid : ∀ id, id ∈ posted σ → is_Some (groups σ !! id);
  now_published : ∀ f r o, publishing σ = Some (f, r, o) → ∃ l, published σ = l ++ [f];
  groups_ok : ∀ id c, groups σ !! id = Some c →
    group_ok (owner σ) (occ id (posted σ)) (is_open closed σ id) (to_reach σ id) (seen σ id) c;
  sinks_ok : ∀ s, (occ s (added σ) ≤ 1)%nat → sink_ok closed σ s
}.
Definition inv σ : Prop := inv_with (over σ) σ.

(** A step that changes one group and calls some of its sinks. *)
Lemma update_ok cl cl' σ σ' id c c' l f :
  inv_with cl σ → groups σ !! id = Some c → groups σ' = <[id := c']> (groups σ) →
  owner σ' = owner σ → live σ' = live σ → added σ' = added σ → published σ' = published σ →
  calls σ' = calls σ ++ ((λ x, (x, f)) <$> l) →
  (∀ e, e ∈ sink_groups σ' → e ∈ sink_groups σ) → NoDup (snd <$> sink_groups σ') →
  NoDup (rest σ') → (∀ i, i ∈ rest σ' → i ∈ rest σ ∧ i ∉ over σ') →
  (∀ f r o, publishing σ' = Some (f, r, o) → ∃ k, published σ = k ++ [f]) →
  (∀ i, i ≠ id → is_open cl' σ' i = is_open cl σ i ∧ to_reach σ' i = to_reach σ i ∧
                 occ i (posted σ') = occ i (posted σ)) →
  worker (grp c') = worker (grp c) →
  group_ok (owner σ) (occ id (posted σ')) (is_open cl' σ' id) (to_reach σ' id) (seen σ' id) c' →
  (∀ s, s ∈ l → mentions s c) → (∀ s, mentions s c' → mentions s c) →
  (∀ s, told cl σ s id c → told cl' σ' s id c') →
  inv_with cl' σ'.
Proof.
  intros [Hmn Hmw Hrn Hro Hrv Hpv Hnp Hg Hs] Hc EG EO EL EA EP EC Hm Hmn' Hrn' Hro' Hnp' Hoth Hw Hok Hl Hmen Htold.
  assert (∀ i, i ≠ id → groups σ' !! i = groups σ !! i) as Hne by (intros i Hi; rewrite EG; by apply list_lookup_insert_ne).
  assert (groups σ' !! id = Some c') as Hc'
    by (rewrite EG; apply list_lookup_insert_eq; by eapply lookup_lt_Some).
  assert (∀ i, i ≠ id → seen σ' i = seen σ i) as Hseen.
  { intros i Hi. unfold seen. destruct (Hoth i Hi) as (_ & -> & _). by rewrite EP. }
  constructor; try done.
  - intros w i Hi%Hm%Hmw. destruct Hi as (d & Hd & <-). destruct (decide (i = id)) as [-> | Hi].
    + exists c'. by simplify_eq.
    + exists d. by rewrite Hne.
  - intros i Hi. by apply Hro'.
  - intros i [Hi _]%Hro'. destruct (decide (i = id)) as [-> | Hne']; [by exists c'|]. rewrite Hne by done. by apply Hrv.
  - intros i Hi. destruct (decide (i = id)) as [-> | Hne']; [by exists c'|]. rewrite Hne by done. apply Hpv.
    destruct (Hoth i Hne') as (_ & _ & E). destruct (decide (i ∈ posted σ)) as [|Hn]; [done|].
    apply occ_0 in Hn. rewrite <- E in Hn. by apply occ_0 in Hn.
  - rewrite EP. done.
  - intros i d Hd. rewrite EO. destruct (decide (i = id)) as [-> | Hi]; [by simplify_eq|].
    rewrite Hne in Hd by done. rewrite Hseen by done. destruct (Hoth i Hi) as (-> & -> & ->). by apply Hg.
  - intros s. rewrite EA. intros Hocc. destruct (Hs s Hocc) as [(Ha & Hcs & Hno)|(Ha & i & d & Hd & Huni & Ht)].
    + left. rewrite EA. split_and!; [done| |].
      * rewrite EC, calls_of_app, calls_of_sinks, Hcs. rewrite (proj2 (occ_0 s l)); [done|].
        intros [] % Hl % (Hno id c Hc).
      * intros i d Hd. destruct (decide (i = id)) as [-> | Hi].
        -- simplify_eq. intros ?%Hmen. by eapply Hno.
        -- rewrite Hne in Hd by done. by eapply Hno.
    + right. rewrite EA. split; [done|]. destruct (decide (i = id)) as [-> | Hi].
      * exists id, c'. simplify_eq. split_and!; [done| |by apply Htold].
        intros i d' Hd' Hm'. destruct (decide (i = id)) as [|Hi]; [done|].
        rewrite Hne in Hd' by done. by eapply Huni.
      * exists i, d. rewrite Hne by done. split_and!; [done| |].
        -- intros j e He Hme. destruct (decide (j = id)) as [-> | Hj].
           ++ simplify_eq. apply (Huni id c); [done|by apply Hmen].
           ++ rewrite Hne in He by done. by eapply Huni.
        -- destruct Ht as (H1 & H2 & Hst). unfold told. rewrite EL, Hseen by done.
           destruct (Hoth i Hi) as (-> & _). rewrite EC, calls_of_app, calls_of_sinks, (proj2 (occ_0 s l)).
           { by rewrite app_nil_r. }
           intros Hsl%Hl. apply Hi. symmetry. by apply (Huni id c).
Qed.
(** A step of a thread other than the owner's. *)
Lemma thread_ok cl σ σ' id c c' n l f :
  inv_with cl σ → σ' = call_sinks (set_posted (set_groups σ (<[id := c']> (groups σ))) n) l f → groups σ !! id = Some c → worker (grp c') = worker (grp c) →
  (∀ i, i ≠ id → occ i n = occ i (posted σ)) →
  group_ok (owner σ) (occ id n) (is_open cl σ id) (to_reach σ id) (seen σ id) c' →
  (∀ s, s ∈ l → mentions s c) → (∀ s, mentions s c' → mentions s c) →
  (∀ s, (occ s (sinks (grp c)) ≤ 1)%nat → (occ s (snap c) ≤ 1)%nat →
    (occ s (sinks (grp c')) ≤ 1)%nat ∧ (occ s (snap c') ≤ 1)%nat ∧
    replicate (occ s l) f ++ todo (live σ) s c' = todo (live σ) s c ∧
    receives (live σ) s c' = receives (live σ) s c) →
  inv_with cl σ'.
Proof.
  intros Hi -> Hc Hw Hn Hg Hl Hm Ht.
  eapply (update_ok cl cl σ _ id c c' l f Hi Hc); try done.
  - apply (map_nodup _ _ Hi).
  - apply (rest_nodup _ _ Hi).
  - intros i Hr. split; [done|]. by apply (rest_over _ _ Hi).
  - apply (now_published _ _ Hi).
  - intros i Hne. by rewrite <- (Hn i Hne).
  - intros s (H1 & H2 & H3). destruct (Ht s H1 H2) as (H4 & H5 & H6 & H7). split_and!; [done..|].
    change (story (since s) (until s) (calls_of s (calls σ ++ ((λ x, (x, f)) <$> l))) (todo (live σ) s c') (seen σ id)
      (receives (live σ) s c') (is_open cl σ id)).
    rewrite H7. refine (story_move _ _ _ _ _ _ _ _ H3).
    rewrite calls_of_app, calls_of_sinks, <- H6. by rewrite app_assoc.
Qed.
Lemma held_le live s g : (occ s (sinks g) ≤ 1)%nat → (held live s g ≤ 1)%nat.
Proof. unfold held. case_decide; lia. Qed.
Lemma held_snapshot live s g : held live s (snapshot_sinks live g).2 = held live s g.
Proof. unfold held, snapshot_sinks. cbn [snd sinks with_sinks]. rewrite occ_filter. by case_decide. Qed.
Lemma occ_snapshot live s g : occ s (snapshot_sinks live g).1 = held live s g.
Proof. unfold held, snapshot_sinks. cbn [fst]. by rewrite occ_filter. Qed.
Lemma held_mentions live s g : held live s g ≠ 0%nat → s ∈ sinks g.
Proof. unfold held. case_decide; [|done]. intros Ho. destruct (decide (s ∈ sinks g)) as [|Hn]; [done|]. by apply occ_0 in Hn. Qed.

Lemma call_no_sinks σ f : call_sinks σ [] f = σ.
Proof. destruct σ. unfold call_sinks, set_history. cbn. by rewrite app_nil_r. Qed.

Lemma drain_start_ok cl σ l id k c :
  inv_with cl σ → posted σ = l ++ id :: k → groups σ !! id = Some c → pc c = None →
  inv_with cl (drain_start (set_posted σ (l ++ k)) id).
Proof.
  intros Hi Hp Hc Hpc. pose proof (groups_ok _ _ Hi _ _ Hc) as [Hown Htask Hwake Hop Hsh].
  assert (∀ i, occ i (l ++ k) + (if decide (id = i) then 1 else 0) = occ i (posted σ))%nat as Hocc.
  { intros i. rewrite Hp, !occ_app, occ_cons. lia. }
  pose proof (Hocc id) as Hid. rewrite decide_True in Hid by done. rewrite Hpc in *. cbn [running ending in_hand] in *.
  assert (drain_queued (grp c) = true) as Hq by (destruct (drain_queued (grp c)); [done|lia]).
  rewrite Hq in *. unfold drain_start. cbn [groups set_posted]. rewrite Hc.
  apply (thread_ok cl σ _ id c (Cell (grp c) (Some AtLoop)) (l ++ k) [] None Hi);
    [by rewrite call_no_sinks|done|done| | | | |].
  - intros i Hne. specialize (Hocc i). rewrite decide_False in Hocc by done. lia.
  - constructor; cbn [grp pc running ending in_hand]; try done.
    + intros Hw. by destruct (Hown Hw) as (_ & ? & _).
    + rewrite Hq. lia.
  - intros s Hs. by apply elem_of_nil in Hs.
  - unfold mentions, snap. rewrite Hpc. done.
  - intros s H1 H2. unfold todo, in_flight, receives, snap. rewrite Hpc. cbn [grp pc]. unfold occ. cbn. split_and!; [done|lia|done|done].
Qed.
(** The parts of a running [drain]. *)
Section Drain.
Variables (cl : list nat) (σ : dispatcher Frame) (id : nat) (c : cell Frame).
Hypothesis Hi : inv_with cl σ.
Hypothesis Hc : groups σ !! id = Some c.

Lemma running_not_owner p : pc c = Some p → worker (grp c) ≠ owner σ.
Proof. intros Hp Hw. destruct (own_idle _ _ _ _ _ _ (groups_ok _ _ Hi _ _ Hc) Hw) as (_ & _ & _ & E). congruence. Qed.

Lemma drain_take_ok : pc c = Some AtLoop →
  inv_with cl (let '(g, p) := drain_take (grp c) in set_group σ id g p).
Proof.
  intros Hpc. pose proof (running_not_owner _ Hpc) as Hno.
  pose proof (groups_ok _ _ Hi _ _ Hc) as [_ Htask Hwake Hop Hsh]. rewrite Hpc in *. cbn [running ending in_hand] in *.
  assert (drain_queued (grp c) = true ∧ occ id (posted σ) = 0%nat) as [Hq Hn]
    by (destruct (drain_queued (grp c)); split; lia || done).
  rewrite Hq, Hn in *.
  assert (∀ g p, worker g = worker (grp c) → sinks g = sinks (grp c) → snap (Cell g p) = [] →
    group_ok (owner σ) 0 (is_open cl σ id) (to_reach σ id) (seen σ id) (Cell g p) →
    (∀ s, (occ s (sinks (grp c)) ≤ 1)%nat → todo (live σ) s (Cell g p) = todo (live σ) s c) →
    inv_with cl (set_group σ id g p)) as Hset.
  { intros g p Hw Hs Hp Hg Ht.
    apply (thread_ok cl σ _ id c (Cell g p) (posted σ) [] None Hi); [by rewrite call_no_sinks; destruct σ|done..| | | |].
    - by rewrite Hn.
    - intros s Hx. by apply elem_of_nil in Hx.
    - intros s. unfold mentions. rewrite Hp. cbn [grp]. rewrite Hs. intros [?|?%elem_of_nil]; [by left|done].
    - intros s H1 H2. rewrite Hp. cbn [grp]. rewrite Hs. unfold receives, held. cbn [grp]. rewrite Hs.
      rewrite <- Ht by done. unfold occ. cbn. split_and!; [done|lia|done|done]. }
  unfold drain_take. destruct (pending (grp c)) as [|f l] eqn:Hpend; [destruct (pending_end (grp c)) eqn:He|]; cbv zeta iota;
    apply Hset; try done.
  - constructor; cbn [grp pc running ending in_hand pending drain_queued pending_end worker sinks]; try done; [naive_solver|].
    intros Ho. destruct (Hop Ho) as (? & _). congruence.
  - intros s Hs. unfold todo, in_flight, waiting, held. rewrite Hpc. cbn [grp pc sinks pending pending_end]. rewrite Hpend, He.
    case_decide; [|done]. destruct (occ s (sinks (grp c))) as [|[|?]]; [done|done|lia].
  - constructor; cbn [grp pc running ending in_hand pending drain_queued pending_end worker sinks]; try done; naive_solver.
  - intros s Hs. unfold todo, in_flight, waiting, held. rewrite Hpc. cbn [grp pc sinks pending pending_end]. by rewrite Hpend, He.
  - constructor; cbn [grp pc running ending in_hand pending drain_queued pending_end worker sinks]; try done; rewrite Hq; done.
  - intros s Hs. unfold todo, in_flight, waiting, held. rewrite Hpc. cbn [grp pc sinks pending pending_end]. rewrite Hpend.
    case_decide; [|done]. destruct (occ s (sinks (grp c))) as [|[|?]]; [done|done|lia].
Qed.

Lemma drain_snapshot_ok f : pc c = Some (Taken f) →
  inv_with cl (let '(l, g) := snapshot_sinks (live σ) (grp c) in set_group σ id g (Some (Snapshot f l))).
Proof.
  intros Hpc. pose proof (running_not_owner _ Hpc) as Hno.
  pose proof (groups_ok _ _ Hi _ _ Hc) as [_ Htask Hwake Hop Hsh]. rewrite Hpc in *.
  rewrite (surjective_pairing (snapshot_sinks _ _)). set (l := (snapshot_sinks (live σ) (grp c)).1).
  set (g := (snapshot_sinks (live σ) (grp c)).2).
  assert (running (Some (Snapshot f l)) = running (Some (Taken f)) ∧ ending (Some (Snapshot f l)) = ending (Some (Taken f)) ∧
    in_hand (Some (Snapshot f l)) = in_hand (Some (Taken f))) as (E1 & E2 & E3) by (by destruct f).
  assert (∀ s, s ∈ l → s ∈ sinks (grp c)) as Hl by (intros s; unfold l, snapshot_sinks; cbn [fst]; by intros [_ ?]%list_elem_of_filter).
  apply (thread_ok cl σ _ id c (Cell g (Some (Snapshot f l))) (posted σ) [] None Hi);
    [by rewrite call_no_sinks; destruct σ|done..| | | |].
  - constructor; cbn [grp pc]; try done; rewrite ?E1, ?E2, ?E3; try done.
    intros Ho Hr. unfold g, snapshot_sinks. cbn [snd sinks with_sinks]. by rewrite (Hsh Ho Hr).
  - intros s Hx. by apply elem_of_nil in Hx.
  - intros s. unfold mentions, snap. cbn [grp pc]. intros [Hs|Hs%Hl]; left; [|done]. by apply Hl.
  - intros s H1 H2. unfold todo, in_flight, receives, snap. rewrite Hpc. cbn [grp pc].
    unfold g, l. rewrite held_snapshot, occ_snapshot. pose proof (held_le (live σ) s _ H1). split_and!; try done.
    unfold snapshot_sinks. cbn [snd sinks with_sinks]. rewrite occ_filter. case_decide; lia.
Qed.

Lemma drain_call_ok f l late : pc c = Some (Snapshot f l) →
  inv_with cl (drain_step σ id late).
Proof.
  intros Hpc. pose proof (running_not_owner _ Hpc) as Hno.
  pose proof (groups_ok _ _ Hi _ _ Hc) as [_ Htask Hwake Hop Hsh]. rewrite Hpc in *.
  unfold drain_step. rewrite Hc, Hpc.
  assert (∀ p n, snap (Cell (grp c) p) = [] → (∀ i, i ≠ id → occ i n = occ i (posted σ)) →
    group_ok (owner σ) (occ id n) (is_open cl σ id) (to_reach σ id) (seen σ id) (Cell (grp c) p) →
    (∀ s, in_flight (live σ) s (Cell (grp c) p) = []) →
    inv_with cl (set_posted (set_group (call_sinks σ l f) id (grp c) p) n)) as Hset.
  { intros p n Hp Hn Hg Hf.
    apply (thread_ok cl σ _ id c (Cell (grp c) p) n l f Hi); [by destruct σ|done..| | |].
    - intros s Hs. right. unfold snap. by rewrite Hpc.
    - intros s. unfold mentions. rewrite Hp. cbn [grp]. intros [?|?%elem_of_nil]; [by left|done].
    - intros s H1 H2. rewrite Hp. unfold todo, receives. rewrite Hf. unfold in_flight. rewrite Hpc. cbn [grp].
      unfold occ at 2. cbn. split_and!; [done|lia|done|done]. }
  destruct f as [f|]; [destruct late|].
  - apply (Hset None (posted σ ++ [id])); try done.
    + intros i Hne. rewrite occ_snoc, decide_False by done. lia.
    + cbn [running ending in_hand] in *. constructor; cbn [grp pc running ending in_hand]; try done.
      * rewrite occ_snoc, decide_True by done. lia.
      * intros Ho. destruct (Hop Ho) as (? & _ & pre & E). split_and!; [done..|]. exists (pre ++ [f]). by rewrite E, <- app_assoc.
  - apply (Hset (Some AtLoop) (posted σ)); try done. cbn [running ending in_hand] in *.
    constructor; cbn [grp pc running ending in_hand]; try done.
    intros Ho. destruct (Hop Ho) as (? & _ & pre & E). split_and!; [done..|]. exists (pre ++ [f]). by rewrite E, <- app_assoc.
  - apply (Hset None (posted σ)); try done. cbn [running ending in_hand] in *.
    constructor; cbn [grp pc running ending in_hand]; try done. intros Ho. by destruct (Hop Ho) as (_ & ? & _).
Qed.
End Drain.

Lemma worker_step_inv cl σ σ' : inv_with cl σ → worker_step σ σ' → inv_with cl σ'.
Proof.
  intros Hi Hs. revert Hi. destruct Hs as [? l id k w Hp (c & Hc & Hw) _ Hidle|? id c p late Hc Hp]; intros Hi.
  - eapply drain_start_ok; try done. by eapply Hidle.
  - destruct p as [|f|f l].
    + unfold drain_step. rewrite Hc, Hp. by apply drain_take_ok.
    + unfold drain_step. rewrite Hc, Hp. by eapply drain_snapshot_ok.
    + by eapply drain_call_ok.
Qed.
(** ** The owner's steps *)

Lemma is_open_true cl σ id : is_open cl σ id = true ↔ (id ∈ (sink_groups σ).*2) ∧ id ∉ cl.
Proof. unfold is_open. by rewrite andb_true_iff, !bool_decide_eq_true. Qed.

(** Nothing changes but what the groups are open to and have to see. *)
Lemma frame_ok cl cl' σ σ' l :
  inv_with cl σ → groups σ' = groups σ → owner σ' = owner σ → posted σ' = posted σ → added σ' = added σ →
  calls σ' = calls σ → live σ' ⊆ live σ → published σ' = published σ ++ l →
  (∀ e, e ∈ sink_groups σ' → e ∈ sink_groups σ) → NoDup (sink_groups σ').*2 →
  NoDup (rest σ') → (∀ i, i ∈ rest σ' → is_Some (groups σ !! i) ∧ i ∉ over σ') →
  (∀ f r o, publishing σ' = Some (f, r, o) → ∃ k, published σ' = k ++ [f]) →
  (∀ id c, groups σ !! id = Some c →
    (seen σ' id = seen σ id ∨ (is_open cl' σ' id = false ∧ to_reach σ' id = false ∧ ∃ k, seen σ' id = seen σ id ++ k)) ∧
    (is_open cl' σ' id = is_open cl σ id) ∧ (to_reach σ' id = true → is_open cl' σ' id = true ∨ to_reach σ id = true)) →
  (∀ s id c, groups σ !! id = Some c → s ∉ live σ' → s ∈ live σ → s ∉ snap c) →
  inv_with cl' σ'.
Proof.
  intros [Hmn Hmw Hrn Hro Hrv Hpv Hnp Hg Hs] EG EO EP EA EC EL EP' Hm Hmn' Hrn' Hr' Hnp' Hop Hlive.
  constructor; try done.
  - intros w id (c & Hc & Hw)%Hm%Hmw. exists c. by rewrite EG.
  - intros i Hi. by apply Hr'.
  - intros i Hi. rewrite EG. by apply Hr'.
  - rewrite EP, EG. apply Hpv.
  - rewrite EG, EO, EP. intros id c Hc. destruct (Hop id c Hc) as (Hsn & Eo & Hre).
    destruct (Hg id c Hc) as [H1 H2 H3 H4 H5]. rewrite Eo. constructor; try done.
    + intros Ho. destruct Hsn as [->|(Hf & _)]; [by apply H4|congruence].
    + intros Ho Hr. destruct (Hre Hr) as [|]; [congruence|by apply H5].
  - rewrite EA. intros s Hocc. destruct (Hs s Hocc) as [(Ha & Hcs & Hno)|(Ha & id & c & Hc & Huni & Ht)].
    + left. rewrite EA, EC, EG. done.
    + right. rewrite EA, EG. split; [done|]. exists id, c. split_and!; [done..|].
      destruct (Hop id c Hc) as (Hsn & Eo & _). destruct Ht as (H1 & H2 & H3). unfold told. rewrite EC, Eo.
      split_and!; [done..|].
      assert (story (since s) (until s) (calls_of s (calls σ)) (todo (live σ) s c) (seen σ' id) (receives (live σ) s c) (is_open cl σ id)) as H4.
      { destruct Hsn as [->|(Hf & _ & k & ->)]; [done|]. rewrite Eo in Hf. rewrite Hf in *. clear -H3.
        induction k as [|f k IH] using rev_ind; [by rewrite app_nil_r|]. rewrite app_assoc. by apply story_seen. }
      destruct (decide (s ∈ live σ')) as [Hin|Hout].
      * assert (s ∈ live σ) by set_solver.
        assert (held (live σ') s (grp c) = held (live σ) s (grp c)) as E by (unfold held; by rewrite !decide_True).
        unfold todo, in_flight, receives in *. by rewrite E.
      * assert (held (live σ') s (grp c) = 0%nat) as E by (unfold held; by rewrite decide_False).
        unfold todo, in_flight, receives in *. rewrite E. cbn [Nat.eqb negb replicate]. rewrite decide_True by done.
        rewrite app_nil_r. destruct (decide (s ∈ live σ)) as [Hin|Hnl].
        -- specialize (Hlive s id c Hc Hout Hin). unfold snap in Hlive.
           destruct (pc c) as [[|o|o k]|]; try (eapply (story_cut _ []); exact H4).
           rewrite (proj2 (occ_0 s k)) in * by done. eapply (story_cut _ []); exact H4.
        -- assert (held (live σ) s (grp c) = 0%nat) as E' by (unfold held; by rewrite decide_False).
           rewrite E' in H4. destruct (pc c) as [[|o|o k]|]; by eapply story_cut.
Qed.
Lemma in_map_valid cl σ id : inv_with cl σ → id ∈ (sink_groups σ).*2 → is_Some (groups σ !! id).
Proof. intros Hi ([w i] & -> & He)%list_elem_of_fmap. destruct (map_worker _ _ Hi _ _ He) as (c & Hc & _). by exists c. Qed.

Lemma rest_none σ : publishing σ = None → rest σ = [] ∧ over σ = [].
Proof. unfold rest, over. by intros ->. Qed.

Lemma expire_inv cl σ s :
  (∀ id c f l, groups σ !! id = Some c → pc c = Some (Snapshot f l) → s ∉ l) →
  inv_with cl σ → inv_with cl (set_live σ (live σ ∖ {[s]})).
Proof.
  intros Hs Hi. apply (frame_ok cl cl σ _ [] Hi); try done; cbn [live set_live]; try set_solver.
  - by rewrite app_nil_r.
  - apply (map_nodup _ _ Hi).
  - apply (rest_nodup _ _ Hi).
  - intros i Hr. split; [by apply (rest_valid _ _ Hi)|by apply (rest_over _ _ Hi)].
  - apply (now_published _ _ Hi).
  - intros x id c Hc Hout Hin. destruct (decide (x = s)) as [-> | Hne]; [|set_solver]. unfold snap.
    destruct (pc c) as [[|o|o l]|] eqn:E; [apply not_elem_of_nil..| |apply not_elem_of_nil]. by eapply Hs.
Qed.

Lemma publish_start_inv σ f : publishing σ = None → inv σ → inv (publish_start σ f).
Proof.
  intros Hp Hi. destruct (rest_none σ Hp) as [Er Eo]. unfold inv in *. rewrite Eo in Hi.
  change (over (publish_start σ f)) with (@nil nat).
  assert (∀ i, to_reach σ i = false) as Hto by (intros; unfold to_reach; rewrite Er; by apply bool_decide_eq_false, not_elem_of_nil).
  assert (∀ i, to_reach (publish_start σ f) i = is_open [] σ i) as Hto'.
  { intros i. unfold to_reach, is_open, rest. cbn. rewrite (bool_decide_eq_true_2 (i ∉ [])) by apply not_elem_of_nil. by rewrite andb_true_r. }
  apply (frame_ok [] [] σ _ [f] Hi); try done; cbn [publish_start set_history rest over publishing].
  - apply (map_nodup _ _ Hi).
  - apply (map_nodup _ _ Hi).
  - intros i Hr. split; [by eapply in_map_valid|]. apply not_elem_of_nil.
  - intros ? ? ? [= <- <- <-]. by exists (published σ).
  - intros id c Hc. unfold seen. rewrite Hto, Hto'. change (is_open [] (publish_start σ f) id) with (is_open [] σ id).
    cbn [published publish_start set_history seen_by]. destruct (is_open [] σ id) eqn:E; cbn [seen_by].
    + split_and!; [left|done|by left]. rewrite length_app. cbn. replace (pred (length (published σ) + 1)) with (length (published σ)) by lia.
      by rewrite take_app_length.
    + split_and!; [right|done|done]. split_and!; [done..|]. by exists [f].
Qed.

Lemma keys_nodup (P : Z * nat → Prop) `{∀ e, Decision (P e)} (l : list (Z * nat)) : NoDup l.*2 → NoDup (filter P l).*2.
Proof.
  induction l as [|e l IH]; [done|]. intros Hnd. rewrite filter_cons. rewrite fmap_cons in Hnd.
  apply list.NoDup_cons in Hnd as [Hn Hnd]. case_decide; [|by apply IH].
  rewrite fmap_cons. apply list.NoDup_cons. split; [|by apply IH].
  intros (x & Ex & [_ ?]%list_elem_of_filter)%list_elem_of_fmap. apply Hn. rewrite Ex. apply list_elem_of_fmap. by exists x.
Qed.

Lemma publish_finish_inv σ f o : publishing σ = Some (f, [], o) → inv σ → inv (publish_step σ).
Proof.
  intros Hp Hi. unfold publish_step. rewrite Hp. unfold inv in *.
  assert (over σ = o ∧ rest σ = []) as [Eo Er] by (unfold over, rest; by rewrite Hp). rewrite Eo in Hi.
  set (σ' := set_publishing _ _). change (over σ') with (@nil nat).
  assert (∀ i, is_open [] σ' i = is_open o σ i) as Hop.
  { intros i. apply eq_true_iff_eq. rewrite !is_open_true. cbn [σ' sink_groups set_publishing set_map].
    rewrite !list_elem_of_fmap. setoid_rewrite list_elem_of_filter. split.
    - intros [(e & -> & ? & ?) _]. split; [by exists e|done].
    - intros [(e & -> & ?) ?]. split; [by exists e|apply not_elem_of_nil]. }
  assert (∀ i, to_reach σ i = false) as Hto by (intros; unfold to_reach; rewrite Er; by apply bool_decide_eq_false, not_elem_of_nil).
  apply (frame_ok o [] σ _ [] Hi); try done; cbn [σ' set_publishing set_map sink_groups rest over publishing published].
  - by rewrite app_nil_r.
  - intros e [_ ?]%list_elem_of_filter. done.
  - apply keys_nodup, (map_nodup _ _ Hi).
  - constructor.
  - intros i []%elem_of_nil.
  - intros id c Hc. split_and!; [left|by apply Hop|done]. unfold seen. by rewrite Hto.
Qed.
(** A group that is not open has no sink the frame could reach. *)
Lemma reach_held σ cl id c s : inv_with cl σ → groups σ !! id = Some c → to_reach σ id = true →
  held (live σ) s (grp c) ≠ 0%nat → is_open cl σ id = true.
Proof.
  intros Hi Hc Hr Hh. destruct (is_open cl σ id) eqn:E; [done|].
  apply held_mentions in Hh. rewrite (shut_ok _ _ _ _ _ _ (groups_ok _ _ Hi _ _ Hc) E Hr) in Hh. by apply elem_of_nil in Hh.
Qed.

Section Publish.
Variables (σ : dispatcher Frame) (f : Frame) (id : nat) (r o : list nat) (c : cell Frame).
Hypothesis Hp : publishing σ = Some (f, id :: r, o).
Hypothesis Hi : inv σ.
Hypothesis Hc : groups σ !! id = Some c.

Lemma publish_facts : over σ = o ∧ to_reach σ id = true ∧ id ∉ r ∧ id ∉ o ∧ ∃ k, published σ = k ++ [f] ∧ seen σ id = k.
Proof.
  assert (over σ = o ∧ rest σ = id :: r) as [Eo Er] by (unfold over, rest; by rewrite Hp).
  assert (to_reach σ id = true) as Hr by (unfold to_reach; rewrite Er; by apply bool_decide_eq_true, list_elem_of_here).
  pose proof (rest_nodup _ _ Hi) as Hn. rewrite Er in Hn. apply list.NoDup_cons in Hn as [Hn _].
  pose proof (rest_over _ _ Hi id) as Ho. rewrite Er, Eo in Ho. specialize (Ho (list_elem_of_here _ _)).
  destruct (now_published _ _ Hi _ _ _ Hp) as [k Ek]. split_and!; try done. exists k. split; [done|].
  unfold seen, seen_by. rewrite Hr, Ek, length_app. cbn. replace (pred (length k + 1)) with (length k) by lia.
  by rewrite take_app_length.
Qed.

(** What is left to show of a group that has been given the frame. *)
Lemma published_to g b n l (x : option Frame) :
  let σ' := set_publishing (call_sinks (set_posted (set_group σ id g (pc c)) n) l x)
              (Some (f, r, if b : bool then o ++ [id] else o)) in
  worker g = worker (grp c) → sinks g ⊆ sinks (grp c) → (∀ s, s ∈ l → s ∈ sinks (grp c)) →
  (∀ s, (occ s (sinks g) ≤ occ s (sinks (grp c)))%nat) →
  (∀ i, i ≠ id → occ i n = occ i (posted σ)) →
  group_ok (owner σ) (occ id n) (is_open o σ id && negb b) false (published σ) (Cell g (pc c)) →
  (∀ s cs, (occ s (sinks (grp c)) ≤ 1)%nat →
    story (since s) (until s) cs (todo (live σ) s c) (seen σ id) (receives (live σ) s c) (is_open o σ id) →
    story (since s) (until s) (cs ++ replicate (occ s l) x) (todo (live σ) s (Cell g (pc c))) (published σ)
      (receives (live σ) s (Cell g (pc c))) (is_open o σ id && negb b)) →
  inv σ'.
Proof.
  intros σ' Hw Hsub Hl Hocc Hn Hg Hst. destruct publish_facts as (Eo & Hr & Hnr & Hno & k & Ek & Esn).
  assert (inv_with o σ) as Hi' by (unfold inv in Hi; by rewrite Eo in Hi).
  assert (Er : rest σ = id :: r) by (unfold rest; by rewrite Hp).
  pose proof (rest_nodup _ _ Hi') as Hnd. rewrite Er in Hnd. apply list.NoDup_cons in Hnd as [_ Hnd].
  set (o' := if b then o ++ [id] else o) in *. unfold inv. change (over σ') with o'.
  assert (is_open o' σ' id = is_open o σ id && negb b) as Eop.
  { apply eq_true_iff_eq. rewrite andb_true_iff, !is_open_true. cbn [σ' sink_groups set_publishing call_sinks set_history].
    unfold o'. destruct b; cbn [negb]; [|naive_solver]. rewrite not_elem_of_app, not_elem_of_cons. naive_solver. }
  assert (to_reach σ' id = false) as Hto by (apply bool_decide_eq_false; exact Hnr).
  assert (seen σ' id = published σ) as Esn' by (unfold seen; by rewrite Hto).
  apply (update_ok o o' σ σ' id c (Cell g (pc c)) l x Hi' Hc); try done.
  - apply (map_nodup _ _ Hi').
  - intros i Hx. assert (i ∈ rest σ) as Hir by (rewrite Er; by apply list_elem_of_further). split; [done|].
    change (over σ') with o'. pose proof (rest_over _ _ Hi' i Hir) as Hio. rewrite Eo in Hio. unfold o'. destruct b; [|done].
    rewrite not_elem_of_app, not_elem_of_cons. split_and!; [done|by intros ->|apply not_elem_of_nil].
  - intros ? ? ? [= <- <- <-]. by exists k.
  - intros i Hne. split_and!; [| |by apply Hn].
    + apply eq_true_iff_eq. rewrite !is_open_true. unfold o'. cbn [σ' sink_groups set_publishing call_sinks set_history].
      destruct b; [|done]. rewrite not_elem_of_app, not_elem_of_cons. pose proof (not_elem_of_nil i). naive_solver.
    + unfold to_reach. rewrite Er. change (rest σ') with r. apply bool_decide_ext. rewrite elem_of_cons. naive_solver.
  - rewrite Eop, Hto, Esn'. exact Hg.
  - intros s Hs. left. by apply Hl.
  - intros s [Hs|Hs]; [left; by apply Hsub|by right].
  - intros s (H1 & H2 & H3). split_and!; [cbn [grp]; specialize (Hocc s); lia|done|].
    rewrite Esn', Eop. change (calls σ') with (calls σ ++ ((λ y, (y, x)) <$> l)). rewrite calls_of_app, calls_of_sinks.
    by apply Hst.
Qed.

Lemma publish_own_ok : worker (grp c) = owner σ → inv (publish_step σ).
Proof.
  intros Hw. unfold publish_step. rewrite Hp. unfold publish_group. rewrite Hc, Hw, Z.eqb_refl.
  destruct publish_facts as (Eo & Hr & _ & _ & k & Ek & Esn).
  assert (inv_with o σ) as Hi' by (unfold inv in Hi; by rewrite Eo in Hi).
  pose proof (groups_ok _ _ Hi' _ _ Hc) as [Hown Htask Hwake Hop Hsh]. destruct (Hown Hw) as (E1 & E2 & E3 & E4).
  rewrite (surjective_pairing (snapshot_sinks _ _)). set (l := (snapshot_sinks (live σ) (grp c)).1).
  set (g := (snapshot_sinks (live σ) (grp c)).2).
  assert (∀ y, y ∈ filter (λ s, s ∈ live σ) (sinks (grp c)) → y ∈ sinks (grp c)) as Hf by (by intros y [_ ?]%list_elem_of_filter).
  apply (published_to g false (posted σ) l (Some f)); try done.
  - intros s. unfold g, snapshot_sinks. cbn [snd sinks with_sinks]. rewrite occ_filter. case_decide; lia.
  - assert (pending g = [] ∧ drain_queued g = false ∧ pending_end g = false) as (G1 & G2 & G3) by done.
    rewrite E2, E4 in Htask. constructor; cbn [grp pc]; rewrite ?E4, ?G1, ?G2, ?G3; try done; [naive_solver|].
    intros _. split_and!; [done..|]. exists (published σ). cbn [in_hand]. by rewrite !app_nil_r.
  - intros s cs H1 H2. unfold todo, in_flight, receives, waiting in *. cbn [grp pc] in *. rewrite E4 in *.
    unfold g, l. rewrite held_snapshot, occ_snapshot. pose proof (held_le (live σ) s _ H1) as Hh.
    unfold snapshot_sinks. cbn [snd pending pending_end with_sinks]. rewrite E1, E3 in *. cbn [fmap list_fmap app] in *.
    rewrite andb_true_r, Ek, <- Esn.
    destruct (held (live σ) s (grp c)) as [|[|?]] eqn:Eh; [| |lia].
    + cbn [decide replicate Nat.eqb negb] in *. rewrite app_nil_r. apply story_seen; [done|exact H2].
    + cbn [replicate Nat.eqb negb] in *. rewrite (reach_held σ o id c s Hi' Hc Hr) in * by (rewrite Eh; lia).
      eapply story_move; [|apply story_push; exact H2]. by destruct (decide _); rewrite !app_nil_r.
Qed.
(** A group that does not receive: nothing is to be shown of its sinks. *)
Lemma unheld_story P q s cs g op op' :
  held (live σ) s g = 0%nat → held (live σ) s (grp c) = 0%nat → (∃ k, published σ = k ++ [f] ∧ seen σ id = k) →
  story P q cs (todo (live σ) s c) (seen σ id) (receives (live σ) s c) op →
  story P q cs (todo (live σ) s (Cell g (pc c))) (published σ) (receives (live σ) s (Cell g (pc c))) op'.
Proof.
  intros E1 E2 (k & Ek & Esn). unfold todo, receives, in_flight. cbn [grp pc]. rewrite E1, E2. cbn [Nat.eqb negb].
  rewrite Ek, Esn. intros H. apply (story_seen _ _ _ f) in H; [|done]. rewrite <- (app_nil_r (_ ++ _)) in H.
  apply (story_cut _ _ _ _ _ _ op') in H. exact H.
Qed.

Lemma publish_other_ok : worker (grp c) ≠ owner σ → inv (publish_step σ).
Proof.
  intros Hw. unfold publish_step. rewrite Hp. unfold publish_group. rewrite Hc. rewrite (proj2 (Z.eqb_neq _ _) Hw).
  destruct publish_facts as (Eo & Hr & _ & _ & Hk). assert (inv_with o σ) as Hi' by (unfold inv in Hi; by rewrite Eo in Hi).
  pose proof (groups_ok _ _ Hi' _ _ Hc) as [_ Htask Hwake Hop Hsh].
  unfold push. destruct (pending_end (grp c)) eqn:He; cbv iota beta zeta.
  - assert (is_open o σ id = false) as Ho by (destruct (is_open o σ id); [by destruct (Hop eq_refl)|done]).
    pose proof (published_to (grp c) false (posted σ) [] None) as H. cbv zeta in H. rewrite call_no_sinks in H.
    apply H; clear H; try done.
    + intros s Hs. by apply elem_of_nil in Hs.
    + rewrite Ho. constructor; cbn [grp pc andb]; rewrite ?He; done.
    + intros s cs H1 H2. unfold occ at 1. cbn [filter list_filter length replicate]. rewrite app_nil_r.
      assert (held (live σ) s (grp c) = 0%nat) as E by (unfold held; rewrite (Hsh Ho Hr); by case_decide).
      by eapply unheld_story.
  - set (b := Nat.leb max_pending_frames (length (pending (grp c)))).
    set (g := SinkGroup _ _ (if b then [] else _) _ _).
    pose proof (published_to g b (if drain_queued (grp c) then posted σ else posted σ ++ [id]) [] None) as H.
    cbv zeta in H. rewrite call_no_sinks in H.
    assert (post_if (negb (drain_queued (grp c))) (set_group σ id g (pc c)) id =
      set_posted (set_group σ id g (pc c)) (if drain_queued (grp c) then posted σ else posted σ ++ [id])) as ->
      by (destruct (drain_queued (grp c)); [by destruct σ|done]).
    apply H; clear H; try done.
    + intros s Hs. by apply elem_of_nil in Hs.
    + intros i Hne. destruct (drain_queued (grp c)); [done|]. rewrite occ_snoc, decide_False by done. lia.
    + constructor; cbn [grp pc g worker sinks pending drain_queued pending_end]; try done.
      * destruct (drain_queued (grp c)); [done|]. rewrite occ_snoc, decide_True by done. lia.
      * intros [Ho Hb]%andb_true_iff. destruct b; [done|]. destruct (Hop Ho) as (_ & H1 & pre & H2). split_and!; [done..|].
        destruct Hk as (k & Ek & Esn). exists pre. by rewrite Ek, <- Esn, H2, !app_assoc.
    + intros s cs H1 H2. unfold occ at 1. cbn [filter list_filter length replicate]. rewrite app_nil_r.
      pose proof (held_le (live σ) s _ H1) as Hh.
      destruct (held (live σ) s (grp c)) as [|[|?]] eqn:E; [by eapply unheld_story| |lia].
      rewrite (reach_held σ o id c s Hi' Hc Hr) in * by (rewrite E; lia). destruct Hk as (k & Ek & Esn). rewrite Ek, <- Esn.
      unfold todo, in_flight, receives, waiting in *. cbn [grp pc] in *.
      change (held (live σ) s g) with (held (live σ) s (grp c)). rewrite E, He in *. cbn [Nat.eqb negb andb] in *.
      rewrite app_nil_r in H2. rewrite !decide_False in * by done. unfold g. cbn [pending pending_end].
      destruct b; cbn [negb].
      * cbn [fmap list_fmap app]. by eapply story_close.
      * rewrite fmap_app, app_nil_r, app_assoc. by apply story_push.
Qed.
End Publish.

Lemma publish_step_inv σ p : publishing σ = Some p → inv σ → inv (publish_step σ).
Proof.
  intros Hp Hi. destruct p as [[f [|id r]] o]; [by eapply publish_finish_inv|].
  destruct (rest_valid _ _ Hi id) as [c Hc]; [unfold rest; rewrite Hp; by apply list_elem_of_here|].
  destruct (decide (worker (grp c) = owner σ)); [by eapply publish_own_ok|by eapply publish_other_ok].
Qed.
Lemma held_remove live s x g :
  held live x (remove_in live s g) = if decide (x = s) then 0%nat else held live x g.
Proof.
  unfold held, remove_in. cbn [sinks with_sinks]. rewrite occ_filter. repeat case_decide; try done; naive_solver.
Qed.

Lemma remove_entry_inv o σ s id : over σ = o → inv_with o σ → inv_with o (remove_entry s σ id).
Proof.
  intros Eo Hi. unfold remove_entry. destruct (groups σ !! id) as [c|] eqn:Hc; [|done].
  set (g := remove_in (live σ) s (grp c)). set (m := match sinks g with [] => filter (λ e, e.2 ≠ id) (sink_groups σ) | _ => sink_groups σ end).
  assert (Hsub : ∀ e, e ∈ m → e ∈ sink_groups σ).
  { intros e. unfold m. destruct (sinks g); [|done]. by intros [_ ?]%list_elem_of_filter. }
  assert (NoDup m.*2) as Hnd.
  { unfold m. destruct (sinks g); [apply (keys_nodup (λ e, e.2 ≠ id))|]; apply (map_nodup _ _ Hi). }
  set (σ' := set_map (set_group σ id g (pc c)) m).
  replace (match sinks g with [] => _ | _ => _ end) with σ' by (unfold σ', m; by destruct (sinks g), σ).
  pose proof (groups_ok _ _ Hi _ _ Hc) as [Hown Htask Hwake Hop Hsh].
  assert (∀ i, i ≠ id → is_open o σ' i = is_open o σ i) as Hne.
  { intros i Hne. apply eq_true_iff_eq. rewrite !is_open_true. change (sink_groups σ') with m. unfold m.
    destruct (sinks g); [|done]. rewrite !list_elem_of_fmap. setoid_rewrite list_elem_of_filter. naive_solver. }
  assert (sinks g ≠ [] → is_open o σ' id = is_open o σ id) as Hsame.
  { intros Hs. unfold is_open. change (sink_groups σ') with m. unfold m. by destruct (sinks g). }
  assert (is_open o σ' id = true → is_open o σ id = true) as Himp.
  { rewrite !is_open_true. intros [(e & -> & ?%Hsub)%list_elem_of_fmap ?]. split; [|done]. apply list_elem_of_fmap. by exists e. }
  assert (∀ x, x ∈ sinks g → x ∈ sinks (grp c)) as Hin by (by intros x [_ ?]%list_elem_of_filter).
  apply (update_ok o o σ σ' id c (Cell g (pc c)) [] None Hi Hc); try done.
  - unfold σ'. cbn. by rewrite app_nil_r.
  - apply (rest_nodup _ _ Hi).
  - intros i Hr. split; [done|by apply (rest_over _ _ Hi)].
  - apply (now_published _ _ Hi).
  - intros i Hx. by rewrite Hne.
  - constructor; cbn [grp pc]; try done.
    + intros Ho. by apply Hop, Himp.
    + intros Ho Hr. destruct (decide (sinks g = [])) as [|Hs]; [done|]. rewrite Hsame in Ho by done.
      rewrite (Hsh Ho Hr) in Hin. destruct (sinks g) as [|x ?]; [done|]. exfalso. eapply not_elem_of_nil, Hin, list_elem_of_here.
  - intros x Hx. by apply elem_of_nil in Hx.
  - intros x [Hx|Hx]; [left; by apply Hin|by right].
  - intros x (H1 & H2 & H3). split_and!; [|done|].
    { unfold g, remove_in. cbn [grp sinks with_sinks]. rewrite occ_filter. case_decide; lia. }
    change (calls σ') with (calls σ). change (live σ') with (live σ). change (seen σ' id) with (seen σ id).
    unfold todo, in_flight, receives, waiting in *. cbn [grp pc] in *. unfold g. rewrite held_remove. fold g.
    change (pending g) with (pending (grp c)). change (pending_end g) with (pending_end (grp c)).
    destruct (decide (held (live σ) x (grp c) = 0%nat)) as [E|E].
    + assert ((if decide (x = s) then 0%nat else held (live σ) x (grp c)) = 0%nat) as E' by (by case_decide).
      rewrite E, E' in *. cbn [Nat.eqb negb] in *. rewrite <- (app_nil_r (_ ++ _)) in H3. by eapply story_cut.
    + case_decide as Hx.
      * cbn [Nat.eqb negb replicate]. rewrite decide_True, app_nil_r by done.
        destruct (pc c) as [[|f|f l]|]; try (by eapply (story_cut _ [])); by eapply story_cut.
      * rewrite decide_False by done. rewrite Hsame; [done|]. intros Hs.
        assert (held (live σ) x g = held (live σ) x (grp c)) as Eh by (unfold g; rewrite held_remove; by case_decide).
        apply E. rewrite <- Eh. unfold held. rewrite Hs. by case_decide.
Qed.

Lemma remove_inv σ s : inv σ → inv (remove σ s).
Proof.
  intros Hi. unfold remove. generalize (sink_groups σ).*2. intros l. revert σ Hi.
  induction l as [|id l IH]; intros σ Hi; [done|]. cbn [fold_left]. apply IH.
  assert (over (remove_entry s σ id) = over σ) as E.
  { unfold remove_entry. destruct (groups σ !! id); [|done]. by destruct (sinks _). }
  unfold inv. rewrite E. by apply remove_entry_inv.
Qed.

(** [end]: the groups closed so far are in [cl]. *)
Lemma end_group_map σ l id : end_group (set_map σ l) id = set_map (end_group σ id) l.
Proof.
  unfold end_group. cbn [groups set_map owner live]. destruct (groups σ !! id); [|done].
  destruct (_ =? _); [done|]. unfold push_end. by destruct (negb _).
Qed.

Lemma end_group_inv cl σ id :
  publishing σ = None → id ∈ (sink_groups σ).*2 → id ∉ cl → inv_with cl σ →
  inv_with (cl ++ [id]) (end_group σ id) ∧ publishing (end_group σ id) = None ∧ sink_groups (end_group σ id) = sink_groups σ.
Proof.
  intros Hp Hm Hcl Hi. destruct (in_map_valid _ _ _ Hi Hm) as [c Hc].
  pose proof (groups_ok _ _ Hi _ _ Hc) as [Hown Htask Hwake Hop Hsh].
  destruct (rest_none σ Hp) as [Er Eo].
  assert (is_open cl σ id = true) as Ho by (by apply is_open_true). destruct (Hop Ho) as (He & Hend & pre & Esn).
  assert (∀ σ', sink_groups σ' = sink_groups σ → is_open (cl ++ [id]) σ' id = false) as Hclosed.
  { intros σ' E. destruct (is_open _ σ' id) eqn:Ex; [|done]. apply is_open_true in Ex as [_ Hx]. exfalso. apply Hx.
    apply elem_of_app. right. apply list_elem_of_here. }
  assert (∀ σ', sink_groups σ' = sink_groups σ → ∀ i, i ≠ id → is_open (cl ++ [id]) σ' i = is_open cl σ i) as Hother.
  { intros σ' E i Hne. apply eq_true_iff_eq. rewrite !is_open_true, E, not_elem_of_app, not_elem_of_cons.
    pose proof (not_elem_of_nil i). naive_solver. }
  unfold end_group. rewrite Hc. destruct (Z.eqb_spec (worker (grp c)) (owner σ)) as [Hw|Hw].
  - destruct (Hown Hw) as (E1 & E2 & E3 & E4).
    rewrite (surjective_pairing (snapshot_sinks _ _)). set (l := (snapshot_sinks (live σ) (grp c)).1).
    set (g := (snapshot_sinks (live σ) (grp c)).2). split; [|done].
    assert (pending g = [] ∧ drain_queued g = false ∧ pending_end g = false) as (G1 & G2 & G3) by done.
    assert (∀ y, y ∈ filter (λ s, s ∈ live σ) (sinks (grp c)) → y ∈ sinks (grp c)) as Hf by (by intros y [_ ?]%list_elem_of_filter).
    rewrite E2, E4 in *.
    apply (update_ok cl (cl ++ [id]) σ _ id c (Cell g None) l None Hi Hc); try done.
    + apply (map_nodup _ _ Hi).
    + apply (rest_nodup _ _ Hi).
    + intros i Hr. split; [done|by apply (rest_over _ _ Hi)].
    + apply (now_published _ _ Hi).
    + intros i Hne. by rewrite Hother.
    + rewrite Hclosed by done. constructor; cbn [grp pc]; rewrite ?G1, ?G2, ?G3; try done; [naive_solver|].
      intros _ Hr. unfold to_reach, rest in Hr. cbn in Hr. rewrite Hp in Hr. by apply bool_decide_eq_true, elem_of_nil in Hr.
    + intros s Hs. left. by apply Hf.
    + intros s [Hs|Hs]; [left; by apply Hf|]. unfold snap in Hs. cbn in Hs. by apply elem_of_nil in Hs.
    + intros s (H1 & H2 & H3). unfold told. rewrite Hclosed by done. split_and!.
      * unfold g, snapshot_sinks. cbn [grp snd sinks with_sinks]. rewrite occ_filter. case_decide; lia.
      * unfold snap, occ. cbn. lia.
      * cbn [calls call_sinks set_history]. rewrite calls_of_app, calls_of_sinks. unfold l. rewrite occ_snapshot.
        unfold todo, in_flight, receives, waiting in *. cbn [grp pc] in *. rewrite E4 in *. unfold g. rewrite held_snapshot.
        fold g. rewrite G1, G3, E1, E3 in *. cbn [fmap list_fmap app] in *.
        pose proof (held_le (live σ) s _ H1). rewrite Ho in H3. cbn [live call_sinks set_history].
        change (live (set_group σ id g None)) with (live σ). change (calls (set_group σ id g None)) with (calls σ).
        match goal with |- story _ _ _ _ (seen ?τ id) _ _ => change (seen τ id) with (seen σ id) end.
        destruct (held (live σ) s (grp c)) as [|[|?]]; [| |lia]; cbn [replicate Nat.eqb negb decide] in *.
        -- rewrite app_nil_r. destruct (decide _) in H3; eapply (story_cut _ []); exact H3.
        -- eapply story_move; [|rewrite <- (app_nil_r (seen σ id)); apply (story_close _ [] []); by destruct (decide _) in H3].
           by destruct (decide _); rewrite !app_nil_r.
  - unfold push_end. set (g := SinkGroup _ _ _ _ _).
    set (n := if drain_queued (grp c) then posted σ else posted σ ++ [id]).
    assert (post_if (negb (drain_queued (grp c))) (set_group σ id g (pc c)) id = set_posted (set_group σ id g (pc c)) n) as ->
      by (unfold n; destruct (drain_queued (grp c)); [by destruct σ|done]).
    split; [|done].
    apply (update_ok cl (cl ++ [id]) σ _ id c (Cell g (pc c)) [] None Hi Hc); try done.
    + cbn. by rewrite app_nil_r.
    + apply (map_nodup _ _ Hi).
    + apply (rest_nodup _ _ Hi).
    + intros i Hr. split; [done|by apply (rest_over _ _ Hi)].
    + apply (now_published _ _ Hi).
    + intros i Hne. rewrite Hother by done. split_and!; [done|done|]. cbn [posted set_posted]. unfold n.
      destruct (drain_queued (grp c)); [done|]. rewrite occ_snoc, decide_False by done. lia.
    + rewrite Hclosed by done. constructor; cbn [grp pc g worker sinks pending drain_queued pending_end]; try done.
      * cbn [posted set_posted]. unfold n.
        destruct (drain_queued (grp c)); [done|]. rewrite occ_snoc, decide_True by done. lia.
      * intros _ Hr. unfold to_reach, rest in Hr. cbn in Hr. rewrite Hp in Hr. by apply bool_decide_eq_true, elem_of_nil in Hr.
    + intros s Hs. by apply elem_of_nil in Hs.
    + intros s (H1 & H2 & H3). unfold told. rewrite Hclosed by done. split_and!; [done..|].
      cbn [calls set_posted live set_group set_groups]. change (seen (set_posted (set_group σ id g (pc c)) n) id) with (seen σ id).
      unfold todo, in_flight, receives, waiting in *. cbn [grp pc] in *.
      change (held (live σ) s g) with (held (live σ) s (grp c)). rewrite Ho, He in *.
      change (pending g) with (pending (grp c)). change (pending_end g) with true. cbv iota.
      pose proof (held_le (live σ) s _ H1).
      destruct (held (live σ) s (grp c)) as [|[|?]]; [| |lia]; cbn [Nat.eqb negb] in *.
      * rewrite !decide_True in * by done. rewrite <- (app_nil_r (_ ++ _)) in H3. by eapply story_cut.
      * rewrite !decide_False in * by done. rewrite app_nil_r in H3. rewrite app_assoc, <- (app_nil_r (seen σ id)).
        apply (story_close _ _ []). by rewrite app_nil_r.
Qed.
Lemma end_inv σ : publishing σ = None → inv σ → inv (end_ σ).
Proof.
  intros Hp Hi. destruct (rest_none σ Hp) as [Er Eo]. unfold inv in Hi. rewrite Eo in Hi. unfold end_.
  assert (∀ l cl τ, publishing τ = None → inv_with cl τ → NoDup (cl ++ l) → (∀ i, i ∈ l → i ∈ (sink_groups τ).*2) →
    ∃ τ', fold_left end_group l (set_map τ []) = set_map τ' [] ∧ inv_with (cl ++ l) τ' ∧ publishing τ' = None ∧
      sink_groups τ' = sink_groups τ) as Hfold.
  { induction l as [|id l IH]; intros cl τ Hpt Hit Hnd Hm; cbn [fold_left].
    { exists τ. by rewrite app_nil_r. }
    assert (id ∉ cl) as Hid.
    { apply list.NoDup_app in Hnd as (_ & Hd & _). intros H. apply (Hd id H). apply list_elem_of_here. }
    destruct (end_group_inv cl τ id Hpt) as (Hi1 & Hp1 & Em); [apply Hm, list_elem_of_here|done|done|].
    rewrite end_group_map. destruct (IH (cl ++ [id]) (end_group τ id)) as (τ' & E & Hi2 & Hp2 & Em2); [done|done| | |].
    - by rewrite <- app_assoc.
    - intros i Hx. rewrite Em. by apply Hm, list_elem_of_further.
    - exists τ'. rewrite <- app_assoc in Hi2. by rewrite Em2, Em. }
  destruct (Hfold (sink_groups σ).*2 [] σ) as (τ & -> & Hτ & Hpt & Em); [done|done|apply (map_nodup _ _ Hi)|done|].
  cbn [app] in Hτ. unfold inv. destruct (rest_none τ Hpt) as [Ert Eot]. change (over (set_map τ [])) with (over τ). rewrite Eot.
  assert (∀ i, is_open [] (set_map τ []) i = is_open (sink_groups σ).*2 τ i) as Hop.
  { intros i. apply eq_true_iff_eq. rewrite !is_open_true, Em. cbn. split; [intros [[]%elem_of_nil _]|tauto]. }
  apply (frame_ok _ [] τ _ [] Hτ); try done; cbn [set_map sink_groups published].
  - by rewrite app_nil_r.
  - intros e []%elem_of_nil.
  - constructor.
  - change (rest (set_map τ [])) with (rest τ). rewrite Ert. constructor.
  - intros i. change (rest (set_map τ [])) with (rest τ). rewrite Ert. by intros []%elem_of_nil.
  - apply (now_published _ _ Hτ).
  - intros id c Hc. split_and!; [by left|by apply Hop|by right].
Qed.

Lemma find_group_in l target id : find_group l target = Some id → (target, id) ∈ l.
Proof.
  induction l as [|[w i] l IH]; [done|]. cbn. destruct (Z.eqb_spec w target) as [-> | _].
  - intros [= ->]. apply list_elem_of_here.
  - intros H. by apply list_elem_of_further, IH.
Qed.

Lemma insert_group_perm l target id : insert_group l target id ≡ₚ (target, id) :: l.
Proof.
  induction l as [|[w i] l IH]; [done|]. cbn. destruct (target <? w); [done|]. rewrite IH. apply Permutation_swap.
Qed.

Lemma new_group_inv σ target : publishing σ = None → inv_with [] σ →
  inv_with [] (new_group σ target) ∧ is_open [] (new_group σ target) (length (groups σ)) = true.
Proof.
  intros Hp Hi. destruct (rest_none σ Hp) as [Er Eo]. pose proof Hi as [Hmn Hmw Hrn Hro Hrv Hpv Hnp Hg Hs].
  set (n := length (groups σ)). set (σ' := new_group σ target).
  set (new := Cell (SinkGroup target [] [] false false) None : cell Frame).
  assert (sink_groups σ' ≡ₚ (target, n) :: sink_groups σ) as Em by apply insert_group_perm.
  assert (∀ i c, groups σ !! i = Some c → groups σ' !! i = Some c) as Hold.
  { intros i c Hc. change (groups σ') with (groups σ ++ [new]). rewrite lookup_app_l; [done|]. by eapply lookup_lt_Some. }
  assert (groups σ' !! n = Some new) as Hnew by (change (groups σ') with (groups σ ++ [new]); by apply list_lookup_middle).
  assert (∀ i c, groups σ' !! i = Some c → (i ≠ n ∧ groups σ !! i = Some c) ∨ (i = n ∧ c = new)) as Hinv.
  { intros i c. change (groups σ') with (groups σ ++ [new]). intros [H|[H1 H2]]%lookup_app_Some.
    - left. split; [|done]. apply lookup_lt_Some in H. unfold n. lia.
    - right. fold n in H1, H2. destruct (i - n)%nat eqn:E; [|done]. simplify_eq/=. split; [lia|done]. }
  assert (n ∉ (sink_groups σ).*2) as Hfresh.
  { intros [x Hx]%(in_map_valid _ _ _ Hi). apply lookup_lt_Some in Hx. unfold n in Hx. lia. }
  assert (∀ i, is_open [] σ' i = true ↔ i = n ∨ is_open [] σ i = true) as Hop.
  { intros i. rewrite !is_open_true, Em, fmap_cons, elem_of_cons. pose proof (not_elem_of_nil i). naive_solver. }
  assert (∀ i, to_reach σ' i = false) as Hto.
  { intros i. unfold to_reach. change (rest σ') with (rest σ). rewrite Er. by apply bool_decide_eq_false, not_elem_of_nil. }
  split; [|by apply Hop; left]. constructor; try done.
  - rewrite Em. apply list.NoDup_cons. done.
  - intros w i. rewrite Em, elem_of_cons. intros [[= -> ->]|(c & Hc & Hw)%Hmw].
    + by exists new.
    + exists c. split; [by apply Hold|done].
  - intros i [c Hc]%Hrv. exists c. by apply Hold.
  - intros i [c Hc]%Hpv. exists c. by apply Hold.
  - intros i c [[Hne Hc]|[-> ->]]%Hinv.
    + assert (is_open [] σ' i = is_open [] σ i) as -> by (apply eq_true_iff_eq; rewrite Hop; naive_solver).
      by apply Hg.
    + assert (occ n (posted σ) = 0%nat) as E.
      { apply occ_0. intros [x Hx]%Hpv. apply lookup_lt_Some in Hx. unfold n in Hx. lia. }
      rewrite Hto. change (posted σ') with (posted σ). rewrite E. constructor; try done; [by intros [?|?]|].
      intros _. split_and!; [done..|]. exists (seen σ' n). cbn. by rewrite app_nil_r.
  - intros s Hocc. destruct (Hs s Hocc) as [(Ha & Hcs & Hno)|(Ha & id & c & Hc & Huni & Ht)].
    + left. split_and!; [done..|]. intros i c [[_ Hc]|[_ ->]]%Hinv; [by eapply Hno|]. intros [Hx|Hx]; by apply elem_of_nil in Hx.
    + right. split; [done|]. exists id, c. split_and!; [by apply Hold| |].
      * intros i d [[_ Hd]|[_ ->]]%Hinv; [by apply Huni|]. intros [Hx|Hx]; by apply elem_of_nil in Hx.
      * unfold told. assert (is_open [] σ' id = is_open [] σ id) as ->; [|done].
        apply eq_true_iff_eq. rewrite Hop. apply lookup_lt_Some in Hc. unfold n. naive_solver lia.
Qed.

(** A sink that has not been added begins with the frames that are left. *)
Definition newcomer σ s : Prop := s ∈ added σ ∨ (until s = None ∧ ∀ n, (n ≤ length (published σ))%nat → since s n).

Lemma add_to_inv σ s id c :
  publishing σ = None → inv_with [] σ → is_open [] σ id = true → groups σ !! id = Some c → newcomer σ s →
  inv_with [] (add_to (set_history (set_live σ (live σ ∪ {[s]})) (added σ ++ [s]) (published σ) (calls σ)) s id).
Proof.
  intros Hp Hi Ho Hc Hnew. destruct (rest_none σ Hp) as [Er Eo]. pose proof Hi as [Hmn Hmw Hrn Hro Hrv Hpv Hnp Hg Hs].
  unfold add_to. cbn [groups set_history set_live]. rewrite Hc.
  set (c' := Cell (with_sinks (grp c) (sinks (grp c) ++ [s])) (pc c)). set (σ' := set_group _ _ _ _).
  assert (groups σ' !! id = Some c') as Hc' by (apply list_lookup_insert_eq; by eapply lookup_lt_Some).
  assert (∀ i, i ≠ id → groups σ' !! i = groups σ !! i) as Hne by (intros i Hx; by apply list_lookup_insert_ne).
  assert (∀ i d, groups σ' !! i = Some d → (i = id ∧ d = c') ∨ (i ≠ id ∧ groups σ !! i = Some d)) as Hinv.
  { intros i d Hd. destruct (decide (i = id)) as [-> | Hx]; [left; by simplify_eq|right]. by rewrite <- Hne. }
  assert (∀ i, is_Some (groups σ !! i) → is_Some (groups σ' !! i)) as Hsome.
  { intros i Hx. destruct (decide (i = id)) as [-> | Hx2]; [by exists c'|by rewrite Hne]. }
  destruct (Hg _ _ Hc) as [Hown Htask Hwake Hop Hsh]. destruct (Hop Ho) as (He & Hend & pre & Esn).
  constructor; try done.
  - intros w i (d & Hd & Hw)%Hmw. destruct (decide (i = id)) as [-> | Hx]; [|exists d; by rewrite Hne].
    exists c'. simplify_eq. done.
  - intros i Hx. by apply Hsome, Hrv.
  - intros i Hx. by apply Hsome, Hpv.
  - intros i d [[-> ->]|[Hx Hd]]%Hinv; [|by apply Hg]. constructor; try done. intros Hf. change (is_open [] σ' id) with (is_open [] σ id) in Hf. congruence.
  - change (added σ') with (added σ ++ [s]). intros x. rewrite occ_snoc. intros Hocc.
    destruct (decide (s = x)) as [<- | Hsx].
    + assert (s ∉ added σ) as Hna by (apply occ_0; lia).
      destruct (Hs s) as [(_ & Hcs & Hno)|(Ha & _)]; [lia| |done]. right.
      split; [apply elem_of_app; right; apply list_elem_of_here|]. exists id, c'. split_and!; [done| |].
      * intros i d [[-> _]|[Hx Hd]]%Hinv; [done|]. intros Hm. by destruct (Hno i d).
      * assert (s ∉ sinks (grp c) ∧ s ∉ snap c) as [N1 N2] by (split; intros Hx; apply (Hno _ _ Hc); (by left) || by right).
        assert (occ s (sinks (grp c')) = 1%nat) as E1.
        { change (sinks (grp c')) with (sinks (grp c) ++ [s]). by rewrite occ_snoc, decide_True, (proj2 (occ_0 s _) N1) by done. }
        assert (held (live σ') s (grp c') = 1%nat) as E2 by (unfold held; rewrite decide_True by set_solver; done).
        split_and!; [lia|change (snap c') with (snap c); rewrite (proj2 (occ_0 s _) N2); lia|].
        change (calls σ') with (calls σ). rewrite Hcs. change (is_open [] σ' id) with (is_open [] σ id).
        change (seen σ' id) with (seen σ id). rewrite Ho, Esn. unfold receives. rewrite E2. cbn [Nat.eqb negb].
        unfold todo, waiting. rewrite E2. cbn [decide]. change (pending (grp c')) with (pending (grp c)).
        change (pending_end (grp c')) with (pending_end (grp c)). rewrite He, decide_False, app_nil_r by done.
        assert (∃ a b, in_hand (pc c) = a ++ b ∧ in_flight (live σ') s c' = Some <$> b) as (a & b & Ea & ->).
        { unfold in_flight, snap in *. change (pc c') with (pc c). rewrite E2. destruct (pc c) as [[|[f|]|[f|] l]|]; try done; cbn.
          - by exists [], [].
          - by exists [], [f].
          - exists [f], []. by rewrite (proj2 (occ_0 s _) N2).
          - by exists [], []. }
        destruct Hnew as [|[-> Hn]]; [done|].
        assert (length (pre ++ a) ≤ length (published σ))%nat as Hle.
        { assert (seen σ id = published σ) as <- by (unfold seen, to_reach; rewrite Er; by rewrite bool_decide_eq_false_2 by apply not_elem_of_nil).
          rewrite Esn, Ea, !length_app. lia. }
        apply Hn in Hle. exists (pre ++ a), (b ++ pending (grp c)), [], []. rewrite Ea, fmap_app, !app_nil_r, <- !app_assoc. naive_solver.
    + assert (∀ d, todo (live σ') x d = todo (live σ) x d ∧ receives (live σ') x d = receives (live σ) x d) as Hlive.
      { intros d. assert (held (live σ') x (grp d) = held (live σ) x (grp d)) as E.
        { unfold held. change (live σ') with (live σ ∪ {[s]}). repeat case_decide; try done; set_solver. }
        unfold todo, in_flight, receives. by rewrite E. }
      destruct (Hs x) as [(Ha & Hcs & Hno)|(Ha & i & d & Hd & Huni & Ht)]; [lia| |].
      * left. split_and!; [|done|].
        -- intros [Hx|Hx]%elem_of_app; [done|]. apply elem_of_cons in Hx as [->|[]%elem_of_nil]; done.
        -- intros i d [[-> ->]|[_ Hd]]%Hinv; [|by eapply Hno]. intros [Hx|Hx]; apply (Hno _ _ Hc); [left|by right].
           apply elem_of_app in Hx as [|Hx]; [done|]. apply elem_of_cons in Hx as [->|[]%elem_of_nil]; done.
      * right. split; [apply elem_of_app; by left|].
        assert (∀ j e, groups σ' !! j = Some e → mentions x e → j = i) as Huni'.
        { intros j e [[-> ->]|[_ He']]%Hinv; [|by apply Huni]. intros Hm. apply (Huni id c Hc).
          destruct Hm as [Hx|Hx]; [left|by right]. apply elem_of_app in Hx as [|Hx]; [done|].
          apply elem_of_cons in Hx as [->|[]%elem_of_nil]; done. }
        destruct (decide (i = id)) as [-> | Hx].
        -- assert (d = c) as -> by congruence. exists id, c'. split_and!; [done..|].
           assert (occ x (sinks (grp c')) = occ x (sinks (grp c))) as E1.
           { change (sinks (grp c')) with (sinks (grp c) ++ [s]). rewrite occ_snoc, decide_False by done. lia. }
           destruct Ht as (H1 & H2 & H3). split_and!; [by rewrite E1|done|].
           change (calls σ') with (calls σ). change (seen σ' id) with (seen σ id). change (is_open [] σ' id) with (is_open [] σ id).
           destruct (Hlive c') as [-> ->]. unfold todo, in_flight, receives, held in *. rewrite E1. exact H3.
        -- exists i, d. rewrite Hne by done. split_and!; [done..|]. unfold told. destruct (Hlive d) as [-> ->]. exact Ht.
Qed.

Lemma add_inv σ s target : publishing σ = None → newcomer σ s → inv σ → inv (add σ s target).
Proof.
  intros Hp Hnew Hi. destruct (rest_none σ Hp) as [Er Eo]. unfold inv in Hi. rewrite Eo in Hi. unfold add. cbn [sink_groups set_history set_live].
  assert (∀ τ, over (add_to τ s (length (groups σ))) = over τ ∧ ∀ id, over (add_to τ s id) = over τ) as Hov.
  { intros τ. unfold add_to. split; intros; by destruct (groups τ !! _). }
  destruct (find_group (sink_groups σ) target) as [id|] eqn:Hf.
  - apply find_group_in in Hf. destruct (map_worker _ _ Hi _ _ Hf) as (c & Hc & _).
    unfold inv. rewrite (proj2 (Hov _)). change (over (set_history _ _ _ _)) with (over σ). rewrite Eo.
    eapply add_to_inv; try done. apply is_open_true. split; [|apply not_elem_of_nil]. apply list_elem_of_fmap. by eexists (_, _).
  - unfold inv. rewrite (proj1 (Hov _)). change (over (new_group _ _)) with (over σ). rewrite Eo.
    destruct (new_group_inv σ target Hp Hi) as [Hi' Ho'].
    change (new_group (set_history (set_live σ (live σ ∪ {[s]})) (added σ ++ [s]) (published σ) (calls σ)) target)
      with (set_history (set_live (new_group σ target) (live σ ∪ {[s]})) (added σ ++ [s]) (published σ) (calls σ)).
    eapply (add_to_inv (new_group σ target)); try done. by apply list_lookup_middle.
Qed.

Lemma empty_inv w : inv (empty_dispatcher w).
Proof.
  constructor; try done.
  - constructor.
  - intros ? ? []%elem_of_nil.
  - constructor.
  - intros ? []%elem_of_nil.
  - intros ? []%elem_of_nil.
  - intros ? []%elem_of_nil.
  - intros s _. left. split_and!; [apply not_elem_of_nil|done|done].
Qed.

Lemma worker_step_over σ σ' : worker_step σ σ' → over σ' = over σ.
Proof.
  intros [τ l id k w _ (c & Hc & _) _ _|τ id c p late Hc Hp].
  - unfold drain_start. cbn [groups set_posted]. by rewrite Hc.
  - unfold drain_step. rewrite Hc, Hp. destruct p as [|f|[f|] l]; [by destruct (drain_take _)|done|by destruct late|done].
Qed.

Lemma step_inv σ σ' : (∀ s, newcomer σ s) → step σ σ' → inv σ → inv σ'.
Proof.
  intros Hnew [? H|? Hw] Hi.
  - revert Hi. destruct H; intros Hi; eauto using add_inv, remove_inv, publish_start_inv, publish_step_inv, end_inv.
    by apply expire_inv.
  - unfold inv. rewrite (worker_step_over _ _ Hw). by eapply worker_step_inv.
Qed.

(** ** The tasks of the workers end *)

Definition pc_weight (p : option (drain_pc Frame)) : nat :=
  match p with None => 0 | Some AtLoop => 1 | Some (Snapshot _ _) => 3 | Some (Taken _) => 4 end.
Definition weight c : nat :=
  4 * length (pending (grp c)) + (if pending_end (grp c) then 4 else 0) + pc_weight (pc c).
Definition load σ : nat := 2 * length (posted σ) + sum_list_with weight (groups σ).

Lemma sum_insert (l : list (cell Frame)) id c d :
  l !! id = Some c → (sum_list_with weight (<[id := d]> l) + weight c = sum_list_with weight l + weight d)%nat.
Proof. revert id. induction l as [|x l IH]; intros [|id] Hc; simplify_eq/=; [lia|]. specialize (IH id Hc). lia. Qed.

Lemma worker_step_load σ σ' : worker_step σ σ' → (load σ' < load σ)%nat.
Proof.
  intros [τ l id k w Hp (c & Hc & Hw) _ Hidle|τ id c p late Hc Hp].
  - unfold drain_start. cbn [groups set_posted]. rewrite Hc. pose proof (sum_insert _ _ _ (Cell (grp c) (Some AtLoop)) Hc) as H.
    unfold load. cbn [posted groups set_group set_groups set_posted]. rewrite Hp, !length_app. cbn [length].
    unfold weight at 2 4 in H. cbn [grp pc pc_weight] in H. rewrite (Hidle _ _ Hc Hw) in H. cbn [pc_weight] in H. lia.
  - assert (∀ g p', (weight (Cell g p') < weight c)%nat → (load (set_group τ id g p') < load τ)%nat) as Hset.
    { intros g p' H. pose proof (sum_insert _ _ _ (Cell g p') Hc). unfold load. cbn [posted groups set_group set_groups]. lia. }
    unfold drain_step. rewrite Hc, Hp. unfold weight in *. cbn [grp pc] in *. rewrite Hp in *. destruct p as [|f|f l]; cbn [pc_weight] in *.
    + unfold drain_take. destruct (pending (grp c)) as [|f l]; [destruct (pending_end (grp c))|]; apply Hset; cbn; try lia.
    + apply Hset. unfold snapshot_sinks, with_sinks. cbn [snd pending pending_end pc_weight]. lia.
    + assert (∀ p', (pc_weight p' < 3)%nat → (load (set_group (call_sinks τ l f) id (grp c) p') < load τ)%nat) as Hcall.
      { intros p' H. apply (Hset (grp c) p'). lia. }
      destruct f as [f|]; [destruct late|]; try (apply Hcall; cbn; lia).
      pose proof (sum_insert _ _ _ (Cell (grp c) None) Hc) as H. unfold weight at 2 4 in H. cbn [grp pc pc_weight] in H. rewrite Hp in H.
      unfold load, post. cbn [posted groups set_group set_groups set_posted call_sinks set_history]. rewrite length_app. cbn [length pc_weight] in *. lia.
Qed.

Lemma worker_progress σ id c : inv σ → groups σ !! id = Some c → (∀ τ, ¬ worker_step σ τ) → posted σ = [] ∧ pc c = None.
Proof.
  intros Hi Hc Hq. assert (∀ i d, groups σ !! i = Some d → pc d = None) as Hidle.
  { intros i d Hd. destruct (pc d) as [p|] eqn:E; [|done]. exfalso. by eapply (Hq _ (step_drain _ _ _ _ false Hd E)). }
  split; [|by eapply Hidle]. destruct (posted σ) as [|i k] eqn:E; [done|]. exfalso.
  destruct (posted_valid _ _ Hi i) as [d Hd]; [rewrite E; apply list_elem_of_here|].
  eapply Hq, (step_start σ [] i k (worker (grp d))); [done|by exists d| |].
  - intros j []%elem_of_nil.
  - intros j e He _. by eapply Hidle.
Qed.

Lemma inv_in_order σ s : inv σ → (occ s (added σ) ≤ 1)%nat →
  ∃ pre mid rest tail, calls_of s (calls σ) = (Some <$> mid) ++ tail ∧ (tail = [] ∨ tail = [None]) ∧
    published σ = pre ++ mid ++ rest.
Proof.
  intros Hi Hs. destruct (sinks_ok _ _ Hi s Hs) as [(_ & -> & _)|(_ & id & c & _ & _ & _ & _ & H)].
  { exists [], [], (published σ), []. naive_solver. }
  destruct (story_cut _ [] _ _ _ _ false H) as (pre & mid & rest & tail & E & Ht & Esn & _ & _). rewrite app_nil_r in E.
  assert (∃ k, published σ = seen σ id ++ k) as [k Ek].
  { unfold seen, seen_by. destruct (to_reach σ id); [|exists []; by rewrite app_nil_r].
    exists (drop (pred (length (published σ))) (published σ)). by rewrite take_drop. }
  exists pre, mid, (rest ++ k), tail. rewrite Ek, Esn, <- !app_assoc. done.
Qed.

Lemma worker_steps_end σ : Acc (λ τ' τ, worker_step τ τ') σ.
Proof.
  generalize (Nat.lt_wf_0 (load σ)). intros Hacc. remember (load σ) as n eqn:E. revert σ E.
  induction Hacc as [n _ IH]. intros σ ->. constructor. intros τ H%worker_step_load. by eapply IH.
Qed.

(** No task left: a group is empty, and its sinks know all it has seen. *)
Lemma quiet_group σ id c : inv σ → (∀ τ, ¬ worker_step σ τ) → groups σ !! id = Some c →
  pc c = None ∧ pending (grp c) = [] ∧ pending_end (grp c) = false.
Proof.
  intros Hi Hq Hc. destruct (worker_progress _ _ _ Hi Hc Hq) as [E1 E2].
  destruct (groups_ok _ _ Hi _ _ Hc) as [_ Htask Hwake _ _]. rewrite E1, E2 in Htask. cbn in Htask. split; [done|].
  destruct (drain_queued (grp c)); [done|]. destruct (pending (grp c)), (pending_end (grp c)); naive_solver.
Qed.

Lemma quiet_drained σ s id c : inv σ → (∀ τ, ¬ worker_step σ τ) → publishing σ = None →
  (occ s (added σ) ≤ 1)%nat → groups σ !! id = Some c → s ∈ sinks (grp c) → s ∈ live σ →
  ∃ pre mid rest, published σ = pre ++ mid ++ rest ∧ since s (length pre) ∧
    (id ∈ (sink_groups σ).*2 → calls_of s (calls σ) = Some <$> mid ∧ rest = []) ∧
    (id ∉ (sink_groups σ).*2 → calls_of s (calls σ) = (Some <$> mid) ++ [None] ∧ reaches (until s) (length pre + length mid)).
Proof.
  intros Hi Hq Hp Hs Hc Hin Hlive. destruct (quiet_group _ _ _ Hi Hq Hc) as (E2 & E3 & E4).
  destruct (rest_none σ Hp) as [Er Eo]. unfold inv in Hi. rewrite Eo in Hi.
  assert (mentions s c) as Hm by by left.
  destruct (sinks_ok _ _ Hi s Hs) as [(_ & _ & Hno)|(_ & i & d & Hd & Huni & Ht)]; [by destruct (Hno id c Hc)|].
  specialize (Huni id c Hc Hm) as ->. assert (d = c) as -> by congruence. destruct Ht as (H1 & _ & H3).
  assert (held (live σ) s (grp c) ≠ 0%nat) as Hh.
  { unfold held. rewrite decide_True by done. intros Ho. by apply occ_0 in Ho. }
  assert (seen σ i = published σ) as Esn.
  { unfold seen, to_reach. rewrite Er. by rewrite bool_decide_eq_false_2 by apply not_elem_of_nil. }
  unfold todo, in_flight, waiting, receives in H3. rewrite E2, E3, E4, decide_False, Esn in H3 by done. cbn [fmap list_fmap app] in H3.
  destruct H3 as (pre & mid & rest & tail & E & Ht & Epub & Hopen & Hclosed & HP). rewrite app_nil_r in E.
  assert (negb (held (live σ) s (grp c) =? 0)%nat = true) as Hr by (by apply negb_true_iff, Nat.eqb_neq).
  exists pre, mid, rest. split_and!; [done|done| |]; intros Hmap.
  - destruct (Hopen Hr) as (-> & -> & _); [apply is_open_true; split; [done|apply not_elem_of_nil]|]. by rewrite app_nil_r in E.
  - destruct (Hclosed Hr) as [-> ?]; [|done]. destruct (is_open [] σ i) eqn:Ho; [|done]. by apply is_open_true in Ho as [? _].
Qed.
End Spec.

(** * From one state to another *)

Section Runs.
Context {Frame : Type}.
Implicit Types (σ : dispatcher Frame) (c : cell Frame) (id : nat) (s : Z).

(** The invariant, nothing more being known of any sink. *)
Definition dispatcher_inv σ : Prop := inv (λ _ _, True) (λ _, None) σ.

Lemma newcomer_any σ s : newcomer (λ _ _, True) (λ _, None) σ s.
Proof. by right. Qed.

Lemma reachable_inv w σ : reachable w σ → dispatcher_inv σ.
Proof.
  intros H. unfold reachable in H. revert H. generalize (empty_inv (Frame:=Frame) (λ _ _, True) (λ _, None) w).
  generalize (empty_dispatcher (Frame:=Frame) w). intros τ Hi H.
  induction H as [|τ τ' τ'' Hs _ IH]; [done|]. apply IH. eapply step_inv; [|done..]. apply newcomer_any.
Qed.

Definition grows σ σ' : Prop := added σ `prefix_of` added σ' ∧ published σ `prefix_of` published σ'.

Lemma same_history σ σ' : added σ' = added σ → published σ' = published σ → grows σ σ'.
Proof. intros E1 E2. unfold grows. by rewrite E1, E2. Qed.

Lemma end_group_history σ id : added (end_group σ id) = added σ ∧ published (end_group σ id) = published σ.
Proof. unfold end_group. destruct (groups σ !! id); [|done]. destruct (_ =? _); [done|]. unfold push_end. by destruct (negb _). Qed.
Lemma remove_entry_history s σ id : added (remove_entry s σ id) = added σ ∧ published (remove_entry s σ id) = published σ.
Proof. unfold remove_entry. destruct (groups σ !! id); [|done]. by destruct (sinks _). Qed.
Lemma fold_history (f : dispatcher Frame → nat → dispatcher Frame) l : (∀ σ id, added (f σ id) = added σ ∧ published (f σ id) = published σ) →
  ∀ σ, added (fold_left f l σ) = added σ ∧ published (fold_left f l σ) = published σ.
Proof.
  intros Hf. induction l as [|id l IH]; intros σ; [done|]. cbn [fold_left]. destruct (IH (f σ id)) as [-> ->]. apply Hf.
Qed.
Lemma publish_step_history σ : added (publish_step σ) = added σ ∧ published (publish_step σ) = published σ.
Proof.
  unfold publish_step. destruct (publishing σ) as [[[f [|id r]] o]|]; [done| |done]. unfold publish_group.
  destruct (groups σ !! id); [|done]. destruct (_ =? _); [done|]. unfold push. destruct (pending_end _); [done|]. by destruct (negb _).
Qed.

Lemma step_grows σ σ' : step σ σ' → grows σ σ'.
Proof.
  intros [? H|? H]; destruct H.
  - unfold grows, add, add_to, new_group. destruct (find_group _ _); destruct (groups _ !! _); cbn; split; try done; by eexists.
  - apply same_history; apply (fold_history (remove_entry s)), remove_entry_history.
  - split; [done|]. by exists [f].
  - apply same_history; apply publish_step_history.
  - destruct (fold_history end_group (sink_groups σ).*2 end_group_history (set_map σ [])). by apply same_history.
  - by apply same_history.
  - unfold drain_start. destruct (groups _ !! _); by apply same_history.
  - unfold drain_step. rewrite H, H0. destruct p as [|f|[f|] l]; [destruct (drain_take _)| |destruct late|]; by apply same_history.
Qed.

Lemma steps_grow σ σ' : rtc step σ σ' → grows σ σ'.
Proof.
  induction 1 as [|σ τ σ' Hs _ [? ?]]; [by apply same_history|]. apply step_grows in Hs as [? ?]. split; by etrans.
Qed.

(** Every sink of which something is known has been added. *)
Lemma steps_inv since until σ σ' : (∀ s, s ∉ added σ → until s = None ∧ ∀ n, since s n) →
  rtc step σ σ' → inv since until σ → inv since until σ'.
Proof.
  intros Hnew H. induction H as [|σ τ σ' Hs _ IH]; [done|]. intros Hi. apply IH.
  - intros s Hn. apply Hnew. intros Hs'. apply Hn. apply step_grows in Hs as [[k Ek] _]. rewrite Ek. apply elem_of_app. by left.
  - eapply step_inv; [|done..]. intros s. destruct (decide (s ∈ added σ)) as [|Hn]; [by left|right]. apply Hnew in Hn as [? ?]. done.
Qed.

(** What is known of the sinks changes with their stories. *)
Lemma inv_told since until since' until' σ : inv since until σ →
  (∀ s id c, s ∈ added σ → groups σ !! id = Some c → (∀ i d, groups σ !! i = Some d → mentions s d → i = id) →
    told since until (over σ) σ s id c → told since' until' (over σ) σ s id c) →
  inv since' until' σ.
Proof.
  intros [? ? ? ? ? ? ? ? Hk] H. constructor; try done. intros s Hs. destruct (Hk s Hs) as [|(Ha & id & c & Hc & Hu & Ht)]; [by left|right].
  split; [done|]. exists id, c. split_and!; [done..|]. by apply H.
Qed.

(** [s] has its run from among the first [n] frames on, and up to [q]. *)
Definition from (s : Z) (n : nat) : Z → nat → Prop := λ x k, x = s → (k ≤ n)%nat.
Definition upto (s : Z) (q : option nat) : Z → option nat := λ x, if decide (x = s) then q else None.

Lemma upto_none s x : upto s None x = None.
Proof. unfold upto. by case_decide. Qed.

Lemma joined_inv σ s target : dispatcher_inv σ → publishing σ = None → s ∉ added σ →
  inv (from s (length (published σ))) (upto s None) (add σ s target).
Proof.
  intros Hi Hp Hs. apply add_inv; [done|right; split; [apply upto_none|by intros n ? _]|].
  apply (inv_told _ _ _ _ _ Hi). intros x id c Hx Hc _ (H1 & H2 & H3). split_and!; [done..|]. rewrite upto_none.
  destruct H3 as (pre & mid & rest & tail & ?). exists pre, mid, rest, tail. unfold from. naive_solver.
Qed.

Lemma added_add σ s target : s ∈ added (add σ s target).
Proof.
  unfold add, add_to, new_group. destruct (find_group _ _); destruct (groups _ !! _); cbn; apply elem_of_app; right; apply list_elem_of_here.
Qed.

Lemma joined_steps σ0 s target σ : dispatcher_inv σ0 → publishing σ0 = None → s ∉ added σ0 → rtc step (add σ0 s target) σ →
  inv (from s (length (published σ0))) (upto s None) σ ∧ s ∈ added σ ∧ published σ0 `prefix_of` published σ.
Proof.
  intros Hi Hp Hs Hr. pose proof (joined_inv σ0 s target Hi Hp Hs) as Hj.
  pose proof (steps_grow _ _ Hr) as [[k Ek] Hpub]. pose proof (added_add σ0 s target) as Ha. split_and!.
  - refine (steps_inv _ _ _ _ _ Hr Hj). intros x Hx. unfold from. rewrite upto_none. split; [done|]. intros n ->. done.
  - rewrite Ek. apply elem_of_app. by left.
  - pose proof (step_grows σ0 (add σ0 s target)) as [_ H]; [by apply step_owner, step_add|]. by etrans.
Qed.

(** ** The end *)

(** What a sink has been and will be called with. *)
Definition whole σ s c : list (option Frame) := calls_of s (calls σ) ++ todo (live σ) s c.

Section Ending.
Context (s : Z) (id : nat).

(** Nobody else calls the sink. *)
Definition alone σ : Prop := ∀ i c, i ≠ id → groups σ !! i = Some c → s ∉ sinks (grp c).

Lemma snapshot_subset (live : gset Z) (g : sink_group Frame) x : x ∈ (snapshot_sinks live g).1 → x ∈ sinks g.
Proof. unfold snapshot_sinks. cbn [fst]. by intros [_ ?]%list_elem_of_filter. Qed.

Lemma end_group_other σ i : i ≠ id → alone σ →
  groups (end_group σ i) !! id = groups σ !! id ∧ live (end_group σ i) = live σ ∧ owner (end_group σ i) = owner σ ∧
  calls_of s (calls (end_group σ i)) = calls_of s (calls σ) ∧ alone (end_group σ i).
Proof.
  intros Hne Ha. unfold end_group. destruct (groups σ !! i) as [c|] eqn:Hc; [|done].
  assert (∀ g, (∀ x, x ∈ sinks g → x ∈ sinks (grp c)) →
    groups (set_group σ i g (pc c)) !! id = groups σ !! id ∧ alone (set_group σ i g (pc c))) as Hset.
  { intros g Hg. cbn [groups set_group set_groups]. split; [by apply list_lookup_insert_ne|]. intros j d Hj.
    cbn [groups set_group set_groups]. intros [(<- & <- & _)|[_ Hd]]%list_lookup_insert_Some; [|by eapply Ha].
    cbn [grp]. intros Hs%Hg. by eapply Ha. }
  destruct (_ =? _).
  - rewrite (surjective_pairing (snapshot_sinks _ _)). destruct (Hset (snapshot_sinks (live σ) (grp c)).2) as [H1 H2].
    { unfold snapshot_sinks. cbn [snd sinks with_sinks]. by intros x [_ ?]%list_elem_of_filter. }
    split_and!; [exact H1|done|done| |exact H2]. cbn [calls call_sinks set_history]. rewrite calls_of_app, calls_of_sinks.
    rewrite (proj2 (occ_0 s _)); [by rewrite app_nil_r|]. intros Hs%snapshot_subset. by eapply Ha.
  - unfold push_end. destruct (Hset (SinkGroup (worker (grp c)) (sinks (grp c)) (pending (grp c)) true true)) as [H1 H2]; [done|].
    by destruct (negb _).
Qed.

Lemma end_group_own σ c : groups σ !! id = Some c → (worker (grp c) = owner σ → pending (grp c) = [] ∧ pc c = None) → pending_end (grp c) = false →
  s ∈ sinks (grp c) → s ∈ live σ → (occ s (sinks (grp c)) ≤ 1)%nat →
  ∃ c', groups (end_group σ id) !! id = Some c' ∧ s ∈ sinks (grp c') ∧ live (end_group σ id) = live σ ∧
    whole (end_group σ id) s c' = whole σ s c ++ [None].
Proof.
  intros Hc Hown He Hs Hl Ho.
  assert (id < length (groups σ))%nat as Hid by by eapply lookup_lt_Some.
  assert (held (live σ) s (grp c) = 1%nat) as Hh.
  { unfold held. rewrite decide_True by done. destruct (decide (occ s (sinks (grp c)) = 0%nat)) as [E|]; [by apply occ_0 in E|lia]. }
  unfold end_group, whole. rewrite Hc. destruct (Z.eqb_spec (worker (grp c)) (owner σ)) as [Hw|Hw].
  - destruct (Hown Hw) as (E1 & E4). rewrite (surjective_pairing (snapshot_sinks _ _)).
    set (g := (snapshot_sinks (live σ) (grp c)).2). cbv iota beta. exists (Cell g (pc c)). split; [by apply list_lookup_insert_eq|].
    split; [by apply list_elem_of_filter|]. split; [done|].
    cbn [calls call_sinks set_history live]. rewrite calls_of_app, calls_of_sinks, occ_snapshot, Hh.
    change (live (set_group σ id g (pc c))) with (live σ). change (calls (set_group σ id g (pc c))) with (calls σ).
    assert (pending g = [] ∧ pending_end g = pending_end (grp c)) as [G1 G2] by done.
    assert (held (live σ) s g = 1%nat) as Hg by (unfold g; by rewrite held_snapshot).
    unfold todo, in_flight, waiting. cbn [grp pc]. rewrite E4, Hg, Hh, G1, G2, E1, He. cbn. by rewrite !app_nil_r.
  - unfold push_end. set (g := SinkGroup _ _ _ true true).
    exists (Cell g (pc c)). split; [destruct (negb _); by apply list_lookup_insert_eq|]. split; [done|]. split; [by destruct (negb _)|].
    assert (∀ τ : dispatcher Frame, calls τ = calls σ → live τ = live σ →
      calls_of s (calls τ) ++ todo (live τ) s (Cell g (pc c)) = (calls_of s (calls σ) ++ todo (live σ) s c) ++ [None]) as H.
    { intros τ -> ->. unfold todo, in_flight, waiting. cbn [grp pc]. change (held (live σ) s g) with (held (live σ) s (grp c)).
      rewrite Hh, He. cbn [decide]. rewrite !decide_False by done. cbn [pending pending_end g]. by rewrite app_nil_r, !app_assoc. }
    by destruct (negb _); apply H.
Qed.

Lemma end_group_elsewhere σ i j : j ≠ i → groups (end_group σ i) !! j = groups σ !! j.
Proof.
  intros Hj. unfold end_group. destruct (groups σ !! i) as [c|]; [|done].
  assert (∀ g, groups (set_group σ i g (pc c)) !! j = groups σ !! j) as H by (intros; by apply list_lookup_insert_ne).
  destruct (_ =? _); [apply H|]. unfold push_end. destruct (negb _); apply H.
Qed.

Lemma fold_other l : ∀ σ, id ∉ l → alone σ → let σ' := fold_left end_group l σ in
  groups σ' !! id = groups σ !! id ∧ live σ' = live σ ∧ owner σ' = owner σ ∧ calls_of s (calls σ') = calls_of s (calls σ) ∧ alone σ'.
Proof.
  induction l as [|i l IH]; intros σ Hi Ha; [done|]. cbn [fold_left]. apply not_elem_of_cons in Hi as [Hne Hi].
  destruct (end_group_other σ i) as (E1 & E2 & E3 & E4 & Ha'); [done|done|].
  destruct (IH (end_group σ i) Hi Ha') as (F1 & F2 & F3 & F4 & ?). split_and!; [congruence..|done].
Qed.

Lemma end_whole since until σ c : inv since until σ → publishing σ = None → (occ s (added σ) ≤ 1)%nat →
  groups σ !! id = Some c → s ∈ sinks (grp c) → s ∈ live σ → id ∈ (sink_groups σ).*2 →
  ∃ c', groups (end_ σ) !! id = Some c' ∧ s ∈ sinks (grp c') ∧ whole (end_ σ) s c' = whole σ s c ++ [None].
Proof.
  intros Hi Hp Hocc Hc Hs Hl Hm. destruct (rest_none σ Hp) as [Er Eo]. unfold inv in Hi. rewrite Eo in Hi.
  assert (is_open [] σ id = true) as Hopen by (apply is_open_true; split; [done|apply not_elem_of_nil]).
  destruct (groups_ok _ _ _ _ Hi _ _ Hc) as [Hown _ _ Hop _]. destruct (Hop Hopen) as (He & _).
  destruct (sinks_ok _ _ _ _ Hi s Hocc) as [(_ & _ & Hno)|(_ & i & d & Hd & Hu & H1 & _)].
  { destruct (Hno id c Hc). by left. }
  assert (id = i) as <- by (apply (Hu id c Hc); by left). assert (d = c) as -> by congruence.
  assert (alone (set_map σ [])) as Ha. { intros j e Hj He' Hin. apply Hj, (Hu j e He'). by left. }
  pose proof (map_nodup _ _ _ _ Hi) as Hnd. apply list_elem_of_split in Hm as (l1 & l2 & El).
  rewrite El in Hnd. apply list.NoDup_app in Hnd as (_ & Hd1 & Hd2%list.NoDup_cons).
  unfold end_. rewrite El, fold_left_app. cbn [fold_left].
  destruct (fold_other l1 (set_map σ [])) as (E1 & E2 & E3 & E4 & Ha1).
  { intros Hx. apply (Hd1 id Hx), list_elem_of_here. }
  { done. }
  set (τ := fold_left end_group l1 (set_map σ [])) in *. cbn [groups live owner calls set_map] in *.
  destruct (end_group_own τ c) as (c' & Hc' & Hs' & Hl' & Hw); [congruence|rewrite E3; intros Hw; destruct (Hown Hw) as (? & _ & _ & ?); done|done|done|congruence|done|].
  assert (alone (end_group τ id)) as Ha2 by (intros j e Hj; rewrite end_group_elsewhere by done; by apply Ha1).
  destruct (fold_other l2 (end_group τ id)) as (F1 & F2 & F3 & F4 & _); [apply Hd2|done|].
  exists c'. split; [congruence|]. split; [done|]. unfold whole in *. rewrite F4, F2, Hw. by rewrite E2, E4.
Qed.
End Ending.

Lemma end_frame σ : publishing σ = None → publishing (end_ σ) = None ∧ sink_groups (end_ σ) = [].
Proof.
  intros Hp. unfold end_. generalize (sink_groups σ).*2. intros l.
  assert (∀ (τ : dispatcher Frame) i, publishing (end_group τ i) = publishing τ ∧ sink_groups (end_group τ i) = sink_groups τ) as Hg.
  { intros τ i. unfold end_group. destruct (groups τ !! i); [|done]. destruct (_ =? _); [done|]. unfold push_end. by destruct (negb _). }
  enough (∀ τ : dispatcher Frame, publishing (fold_left end_group l τ) = publishing τ ∧ sink_groups (fold_left end_group l τ) = sink_groups τ) as H.
  { destruct (H (set_map σ [])) as [-> ->]. done. }
  induction l as [|i l IH]; intros τ; [done|]. cbn [fold_left]. destruct (IH (end_group τ i)) as [-> ->]. apply Hg.
Qed.

Lemma ended_inv σ s n id c : inv (from s n) (upto s None) σ → publishing σ = None → (occ s (added σ) ≤ 1)%nat → s ∈ added σ →
  groups σ !! id = Some c → s ∈ sinks (grp c) → s ∈ live σ → id ∈ (sink_groups σ).*2 →
  inv (from s n) (upto s (Some (length (published σ)))) (end_ σ).
Proof.
  intros Hi Hp Hocc Ha Hc Hs Hl Hm. destruct (end_whole s id _ _ σ c Hi Hp Hocc Hc Hs Hl Hm) as (c' & Hc' & Hs' & Hw).
  apply (inv_told _ _ _ _ _ (end_inv _ _ σ Hp Hi)). intros x i d Hx Hd Hu (H1 & H2 & H3). split_and!; [done..|].
  unfold upto in *. destruct (decide (x = s)) as [-> |]; [|exact H3]. clear H3.
  assert (id = i) as <- by (apply (Hu id c' Hc'); by left). assert (d = c') as -> by congruence.
  destruct (rest_none σ Hp) as [Er Eo]. unfold inv in Hi. rewrite Eo in Hi.
  destruct (sinks_ok _ _ _ _ Hi s Hocc) as [(Hna & _)|(_ & i & e & He & Hu' & _ & _ & H3)]; [done|].
  assert (id = i) as <- by (apply (Hu' id c Hc); by left). assert (e = c) as -> by congruence.
  destruct H3 as (pre & mid & rest & tail & Et & _ & Epub & Hopen & _ & HP).
  assert (receives (live σ) s c = true) as Hr.
  { unfold receives. apply negb_true_iff, Nat.eqb_neq. unfold held. rewrite decide_True by done. intros Ho. by apply occ_0 in Ho. }
  destruct Hopen as (-> & -> & _); [done|apply is_open_true; split; [done|apply not_elem_of_nil]|].
  assert (∀ τ : dispatcher Frame, publishing τ = None → seen τ id = published τ) as Hseen.
  { intros τ Hpt. unfold seen, to_reach. destruct (rest_none τ Hpt) as [-> _]. by rewrite bool_decide_eq_false_2 by apply not_elem_of_nil. }
  destruct (fold_history end_group (sink_groups σ).*2 end_group_history (set_map σ [])) as [_ Ep]. fold (end_ σ) in Ep.
  assert (publishing (end_ σ) = None ∧ sink_groups (end_ σ) = []) as [Hpe Hme] by (by apply end_frame).
  rewrite Hseen in Epub |- * by done. rewrite Ep. change (published (set_map σ [])) with (published σ).
  exists pre, mid, [], [None]. unfold whole in Hw. rewrite Hw, Et, Epub. unfold is_open. rewrite Hme, !app_nil_r.
  rewrite bool_decide_eq_false_2 by apply not_elem_of_nil. split_and!; [done|by right|done|done| |done].
  intros _ _. split; [done|]. cbn. by rewrite length_app.
Qed.
End Runs.

(** * Properties *)

Section Properties.
Context {Frame : Type}.
Implicit Types (σ : dispatcher Frame) (c : cell Frame) (id : nat) (s : Z).

(** C5: whatever the threads do and in whatever order, the frames a consumer is
    called with are a run of the frames published, in order, without a gap and
    without a repetition, and the end of the stream comes last and at most once. *)
Theorem dispatcher_in_order w σ s :
  reachable w σ → (occ s (added σ) ≤ 1)%nat →
  ∃ pre mid rest tail, calls_of s (calls σ) = (Some <$> mid) ++ tail ∧ (tail = [] ∨ tail = [None]) ∧
    published σ = pre ++ mid ++ rest.
Proof. intros Hi%reachable_inv. by apply (inv_in_order _ _ _ _ Hi). Qed.

(** [s] is alive in a group that frames are still published to. *)
Definition subscribed σ s : Prop :=
  ∃ id c, groups σ !! id = Some c ∧ s ∈ sinks (grp c) ∧ s ∈ live σ ∧ id ∈ (sink_groups σ).*2.

(** When the stream ends, at [σ1], with a consumer in an open group, and the
    tasks have run, this consumer has been called with every frame published between
    the moment it was added and the end, after some of the last frames before, and
    then told of the end. *)
Lemma dispatcher_ends w σ0 s target σ1 σ :
  reachable w σ0 → publishing σ0 = None → s ∉ added σ0 → rtc step (add σ0 s target) σ1 →
  publishing σ1 = None → subscribed σ1 s →
  rtc step (end_ σ1) σ → (∀ τ, ¬ worker_step σ τ) → publishing σ = None → (occ s (added σ) ≤ 1)%nat →
  ∀ id' c', groups σ !! id' = Some c' → s ∈ sinks (grp c') → s ∈ live σ → id' ∉ (sink_groups σ).*2 →
  ∃ early later, published σ1 = published σ0 ++ later ∧ early `suffix_of` published σ0 ∧
    calls_of s (calls σ) = (Some <$> early ++ later) ++ [None].
Proof.
  intros Hr Hp Hs Hsteps Hp1 (id & c & Hc & Hin & Hlive & Hm) Hsteps' Hq Hpub Hocc id' c' Hc' Hin' Hlive' Hm'. apply reachable_inv in Hr.
  destruct (joined_steps _ _ _ _ Hr Hp Hs Hsteps) as (Hi & Ha & later & El).
  assert (step σ1 (end_ σ1)) as Hend by (by apply step_owner, step_end).
  destruct (steps_grow _ _ (rtc_l _ _ _ _ Hend Hsteps')) as [[k Ek] Hg].
  assert ((occ s (added σ1) ≤ 1)%nat) as Hocc1 by (rewrite Ek, occ_app in Hocc; lia).
  pose proof (ended_inv _ _ _ _ _ Hi Hp1 Hocc1 Ha Hc Hin Hlive Hm) as Hi'.
  eapply steps_inv in Hi'; [| |exact Hsteps'].
  2: { intros x Hx. apply step_grows in Hend as [[j Ej] _]. unfold from, upto. rewrite Ej in Hx. apply not_elem_of_app in Hx as [Hx _].
       case_decide as Hxs; [by rewrite Hxs in Hx|]. done. }
  destruct (quiet_drained _ _ _ s id' c' Hi' Hq Hpub Hocc Hc' Hin' Hlive') as (pre & mid & rest & E & Hle & _ & Hclosed).
  destruct (Hclosed Hm') as [Hcalls Hreach]. specialize (Hle eq_refl). unfold upto in Hreach. rewrite decide_True in Hreach by done. cbn in Hreach.
  destruct Hg as [after Eafter]. rewrite Eafter, app_assoc in E.
  apply app_inj_1 in E as [E _]; [|by rewrite length_app]. rewrite El in E.
  exists (drop (length pre) (published σ0)), later. split_and!; [done| |].
  - exists (take (length pre) (published σ0)). by rewrite take_drop.
  - rewrite Hcalls. do 2 f_equal. assert (mid = drop (length pre) (pre ++ mid)) as -> by (by rewrite drop_app_length).
    rewrite <- E, drop_app_le by done. done.
Qed.

(** C22: nothing waits for ever.  The tasks of the workers come to an end by
    themselves, and when none is left a consumer that was added once, at [σ0], and
    is still there has been called with every frame published since it was added,
    after some of the last frames before.  If the stream has ended since, at [σ1], it
    has been called with every frame up to there and then told of the end; if its
    queue has overflowed, with a run of frames that begins no later than with the
    first one after it was added, and then told of the end. *)
Theorem dispatcher_drains w σ0 s target σ :
  reachable w σ0 → publishing σ0 = None → s ∉ added σ0 → rtc step (add σ0 s target) σ →
  Acc (λ τ' τ, worker_step τ τ') σ ∧
  ∃ later, published σ = published σ0 ++ later ∧
  ((∀ τ, ¬ worker_step σ τ) → publishing σ = None → (occ s (added σ) ≤ 1)%nat →
   ∀ id c, groups σ !! id = Some c → s ∈ sinks (grp c) → s ∈ live σ →
     (id ∈ (sink_groups σ).*2 → ∃ early, early `suffix_of` published σ0 ∧ calls_of s (calls σ) = Some <$> early ++ later) ∧
     (id ∉ (sink_groups σ).*2 →
        (∃ pre mid rest, published σ = pre ++ mid ++ rest ∧ pre `prefix_of` published σ0 ∧
           calls_of s (calls σ) = (Some <$> mid) ++ [None]) ∧
        ∀ σ1, rtc step (add σ0 s target) σ1 → publishing σ1 = None → subscribed σ1 s → rtc step (end_ σ1) σ →
          ∃ early till_end, published σ1 = published σ0 ++ till_end ∧ early `suffix_of` published σ0 ∧
            calls_of s (calls σ) = (Some <$> early ++ till_end) ++ [None])).
Proof.
  intros Hr Hp Hs Hsteps. pose proof Hr as Hr0. apply reachable_inv in Hr. split; [apply worker_steps_end|].
  destruct (joined_steps _ _ _ _ Hr Hp Hs Hsteps) as (Hi & _ & later & El). exists later. split; [done|].
  intros Hq Hpub Hocc id c Hc Hin Hlive.
  destruct (quiet_drained _ _ _ s id c Hi Hq Hpub Hocc Hc Hin Hlive) as (pre & mid & rest & E & Hle & Hopen & Hclosed).
  specialize (Hle eq_refl). rewrite El in E.
  assert (∃ early, published σ0 = pre ++ early ∧ early ++ later = mid ++ rest) as (early & Epre & Emid).
  { apply app_eq_inv in E as [(k & E1 & E2)|(k & E1 & E2)]; [by exists k|].
    rewrite E1, length_app in Hle. destruct k; [|cbn in Hle; lia]. exists []. rewrite app_nil_r in E1. by rewrite E1, app_nil_r. }
  split; intros Hm.
  - destruct (Hopen Hm) as [Hcalls ->]. exists early. rewrite app_nil_r in Emid. split; [by exists pre|]. by rewrite Hcalls, Emid.
  - split.
    + destruct (Hclosed Hm) as [Hcalls _]. exists pre, mid, rest. split_and!; [by rewrite El|by exists early|done].
    + intros σ1 Hsteps1 Hp1 Hsub Hend. by eapply (dispatcher_ends w σ0 s target σ1 σ).
Qed.
End Properties.

(** * An example: one consumer on another worker, one frame *)

Definition demo_published : dispatcher Z :=
  publish_step (publish_step (publish_start (add (empty_dispatcher 1) 7 2) 10)).
Definition demo : dispatcher Z :=
  Nat.iter 4 (λ σ, drain_step σ 0 false) (drain_start (set_posted demo_published []) 0).

Lemma demo_starts : worker_step demo_published (drain_start (set_posted demo_published []) 0).
Proof.
  apply (step_start demo_published [] 0 [] 2); [reflexivity| | |].
  - eexists. split; vm_compute; reflexivity.
  - intros i []%elem_of_nil.
  - intros [|i] c; [intros [= <-]; reflexivity|]. vm_compute. discriminate.
Qed.

Lemma drain_runs (σ0 σ : dispatcher Z) n :
  rtc step σ0 σ →
  (∀ k, (k < n)%nat → ∃ c p, groups (Nat.iter k (λ τ, drain_step τ 0 false) σ) !! 0%nat = Some c ∧ pc c = Some p) →
  rtc step σ0 (Nat.iter n (λ τ, drain_step τ 0 false) σ).
Proof.
  intros Hr. induction n as [|n IH]; intros H; [exact Hr|]. cbn [Nat.iter]. destruct (H n) as (c & p & Hc & Hp); [lia|].
  eapply rtc_r; [apply IH; intros k Hk; apply H; lia|]. apply step_worker. by eapply step_drain.
Qed.

Lemma demo_published_steps : rtc step (add (empty_dispatcher 1) 7 2) demo_published.
Proof.
  unfold demo_published. eapply rtc_r; [eapply rtc_r; [eapply rtc_r; [apply rtc_refl|]|]|].
  - apply step_owner, step_publish. reflexivity.
  - apply step_owner. eapply step_publishing. reflexivity.
  - apply step_owner. eapply step_publishing. vm_compute. reflexivity.
Qed.

Lemma demo_steps : rtc step (add (empty_dispatcher 1) 7 2) demo.
Proof.
  apply drain_runs.
  - exact (rtc_r _ _ _ demo_published_steps (step_worker _ _ demo_starts)).
  - intros k Hk. do 4 (destruct k as [|k]; [do 2 eexists; split; vm_compute; reflexivity|]). lia.
Qed.

Lemma demo_reachable : reachable 1 demo.
Proof. eapply rtc_l; [apply step_owner, (step_add _ 7 2); reflexivity|exact demo_steps]. Qed.

Lemma no_task (σ τ : dispatcher Z) : posted σ = [] → (∀ id c, groups σ !! id = Some c → pc c = None) → ¬ worker_step σ τ.
Proof.
  intros Hp Hpc H. destruct H as [σ l id k w E|σ id c p late Hc E].
  - rewrite Hp in E. by destruct l.
  - rewrite (Hpc _ _ Hc) in E. discriminate.
Qed.

Lemma demo_quiet (τ : dispatcher Z) : ¬ worker_step demo τ.
Proof. apply no_task; [vm_compute; reflexivity|]. intros [|id] c; vm_compute; [intros [= <-]; reflexivity|discriminate]. Qed.

Lemma dispatcher_in_order_witness :
  reachable 1 demo ∧ calls_of 7 (calls demo) = [Some 10] ∧
  ∃ pre mid rest tail, calls_of 7 (calls demo) = (Some <$> mid) ++ tail ∧ (tail = [] ∨ tail = [None]) ∧
    published demo = pre ++ mid ++ rest.
Proof.
  split; [exact demo_reachable|]. split; [vm_compute; reflexivity|].
  apply (dispatcher_in_order 1 demo 7 demo_reachable). vm_compute. lia.
Defined.

(** The stream ends. *)
Definition demo_ended : dispatcher Z :=
  Nat.iter 3 (λ σ, drain_step σ 0 false) (drain_start (set_posted (end_ demo) []) 0).

Lemma demo_ended_steps : rtc step (end_ demo) demo_ended.
Proof.
  apply drain_runs.
  - apply rtc_once, step_worker. apply (step_start (end_ demo) [] 0 [] 2); [vm_compute; reflexivity| | |].
    + eexists. split; vm_compute; reflexivity.
    + intros i []%elem_of_nil.
    + intros [|i] c; vm_compute; [intros [= <-]; reflexivity|discriminate].
  - intros k Hk. do 3 (destruct k as [|k]; [do 2 eexists; split; vm_compute; reflexivity|]). lia.
Qed.

Lemma demo_ended_quiet (τ : dispatcher Z) : ¬ worker_step demo_ended τ.
Proof. apply no_task; [vm_compute; reflexivity|]. intros [|id] c; vm_compute; [intros [= <-]; reflexivity|discriminate]. Qed.

Lemma demo_end_step : step demo (end_ demo).
Proof. apply step_owner, step_end. vm_compute. reflexivity. Qed.

Lemma dispatcher_drains_witness :
  calls_of 7 (calls demo) = [Some 10] ∧
  Acc (λ τ' τ, worker_step τ τ') demo ∧
  (∃ later, published demo = [] ++ later ∧ ∃ early, early `suffix_of` [] ∧ calls_of 7 (calls demo) = Some <$> early ++ later) ∧
  calls_of 7 (calls demo_ended) = [Some 10; None] ∧
  ∃ early later, published demo = [] ++ later ∧ early `suffix_of` [] ∧
    calls_of 7 (calls demo_ended) = (Some <$> early ++ later) ++ [None].
Proof.
  split; [vm_compute; reflexivity|].
  destruct (dispatcher_drains 1 (empty_dispatcher 1) 7 2 demo) as (Hacc & later & El & H);
    [apply rtc_refl|reflexivity|apply not_elem_of_nil|exact demo_steps|].
  split; [exact Hacc|]. split; [|split; [vm_compute; reflexivity|]].
  { exists later. split; [exact El|].
  destruct (H demo_quiet eq_refl) with (id := 0%nat) (c := Cell (SinkGroup 2 [7] ([] : list Z) false false) None) as [Hopen _].
  - vm_compute. lia.
  - vm_compute. reflexivity.
  - apply list_elem_of_here.
  - apply (bool_decide_unpack _). vm_compute. exact I.
  - apply Hopen. apply (bool_decide_unpack _). vm_compute. exact I. }
  destruct (dispatcher_drains 1 (empty_dispatcher 1) 7 2 demo_ended) as (_ & all & _ & H');
    [apply rtc_refl|reflexivity|apply not_elem_of_nil|exact (rtc_trans _ _ _ demo_steps (rtc_l _ _ _ _ demo_end_step demo_ended_steps))|].
  destruct (H' demo_ended_quiet eq_refl) with (id := 0%nat) (c := Cell (SinkGroup 2 [7] ([] : list Z) false false) None) as [_ Hclosed].
  - vm_compute. lia.
  - vm_compute. reflexivity.
  - apply list_elem_of_here.
  - apply (bool_decide_unpack _). vm_compute. exact I.
  - apply Hclosed; [apply (bool_decide_unpack _); vm_compute; exact I|exact demo_steps|vm_compute; reflexivity| |exact demo_ended_steps].
    exists 0%nat, (Cell (SinkGroup 2 [7] ([] : list Z) false false) None). split; [vm_compute; reflexivity|]. split; [apply list_elem_of_here|].
    split; apply (bool_decide_unpack _); vm_compute; exact I.
Defined.
