(* ===== verification/MediaStream.v ===== *)
(** A stream of media and its consumers: src/media/core/media_stream.cpp and
    media_types.h.

    The operations run on the stream's worker; [add_sink] and [remove_sink] are
    the functions they post there.  A null pointer is [None].  What the stream
    hands to its consumers goes through the fan-out of SinkDispatcher.

    What a stream promises its consumers: the fan-out's promises, for the frames
    of its tracks, until it ends. *)
From stdpp Require Import gmap.
From S2P Require Import Prelude SinkDispatcher SinkDispatcherSpec.
Open Scope Z_scope.

Inductive media_kind := audio | video.
Inductive codec_id := h264 | h265 | aac | opus | g711a | g711u.

#[global] Instance codec_id_eq_dec : EqDecision codec_id.
Proof. solve_decision. Defined.

Record media_track := MediaTrack {
  track_id : Z;
  kind : media_kind;
  codec : codec_id;
  clock_rate : Z;
  channel_count : Z;
  codec_config : list Z
}.

(** [length_prefixed]: the frame has a place for the length-prefixed form of its
    payload, which its consumers share. *)
Record media_frame := MediaFrame {
  track : Z;
  dts_ns : Z;
  pts_ns : Z;
  key_frame : bool;
  frame_payload : option (list Z);
  length_prefixed : bool
}.

Record media_stream := MediaStream {
  stream_id : list Z;
  tracks : list media_track;
  opus_stream : option Z;
  dispatcher_ : dispatcher media_frame;
  ps_output_ : option Z;
  flv_output_ : option Z;
  ended : bool;
  (** the sinks whose [on_end] was posted because the stream had ended *)
  refused : list Z
}.

Implicit Types (s : media_stream) (sink : option Z).

Definition create_stream (stream_id : list Z) (worker : Z) : media_stream :=
  MediaStream stream_id [] None (empty_dispatcher worker) None None false [].

Definition set_dispatcher s d := MediaStream (stream_id s) (tracks s) (opus_stream s) d (ps_output_ s) (flv_output_ s) (ended s) (refused s).
Definition set_outputs s ps flv := MediaStream (stream_id s) (tracks s) (opus_stream s) (dispatcher_ s) ps flv (ended s) (refused s).

(** The loop over the tracks: every number is new and not 0. *)
Fixpoint track_ids_ok (ids : list Z) (l : list media_track) : bool :=
  match l with
  | [] => true
  | t :: l => if (track_id t =? 0) || existsb (Z.eqb (track_id t)) ids then false else track_ids_ok (track_id t :: ids) l
  end.

Definition set_tracks s (l : list media_track) : bool * media_stream :=
  if ended s || negb (Nat.eqb (length (tracks s)) 0) || Nat.eqb (length l) 0 then (false, s) else
  if negb (track_ids_ok [] l) then (false, s) else
  (true, MediaStream (stream_id s) l (opus_stream s) (dispatcher_ s) (ps_output_ s) (flv_output_ s) (ended s) (refused s)).

Definition set_opus_stream s (stream : option Z) : media_stream :=
  MediaStream (stream_id s) (tracks s) stream (dispatcher_ s) (ps_output_ s) (flv_output_ s) (ended s) (refused s).

Definition add_sink s sink (target : Z) : media_stream :=
  match sink with
  | None => s
  | Some sink =>
      if ended s then
        MediaStream (stream_id s) (tracks s) (opus_stream s) (dispatcher_ s) (ps_output_ s) (flv_output_ s) (ended s) (refused s ++ [sink])
      else set_dispatcher s (add (dispatcher_ s) sink target)
  end.

Definition remove_sink s sink : media_stream :=
  match sink with None => s | Some sink => set_dispatcher s (remove (dispatcher_ s) sink) end.

Definition has_sinks s : bool := has_live_sinks (dispatcher_ s).

Definition find_track (l : list media_track) (id : Z) : option media_track := find (λ t, track_id t =? id) l.

Definition with_length_prefixed (f : media_frame) : media_frame :=
  MediaFrame (track f) (dts_ns f) (pts_ns f) (key_frame f) (frame_payload f) true.

(** What is handed to the fan-out, if anything. *)
Definition publish_frame s (f : media_frame) : option media_frame :=
  if ended s || match frame_payload f with None => true | Some l => Nat.eqb (length l) 0 end then None else
  match find_track (tracks s) (track f) with
  | None => None
  | Some t =>
      if (bool_decide (codec t = h264) || bool_decide (codec t = h265)) && negb (length_prefixed f)
      then Some (with_length_prefixed f) else Some f
  end.

(** [publish] begins here; the fan-out to the groups is [publish_step]. *)
Definition stream_publish s (f : media_frame) : media_stream :=
  match publish_frame s f with
  | None => s
  | Some f => set_dispatcher s (publish_start (dispatcher_ s) f)
  end.

Definition stream_end s : media_stream :=
  if ended s then s else
  MediaStream (stream_id s) (tracks s) (opus_stream s) (end_ (dispatcher_ s)) (ps_output_ s) (flv_output_ s) true (refused s).

(** The output shared by those that still hold it, or a new one, unless it cannot
    start. *)
Definition ps_output s (live : gset Z) (output : Z) (startup : bool) : option Z * media_stream :=
  match ps_output_ s with
  | Some o => if bool_decide (o ∈ live) then (Some o, s)
              else if startup then (Some output, set_outputs s (Some output) (flv_output_ s)) else (None, s)
  | None => if startup then (Some output, set_outputs s (Some output) (flv_output_ s)) else (None, s)
  end.
Definition flv_output s (live : gset Z) (output : Z) (startup : bool) : option Z * media_stream :=
  match flv_output_ s with
  | Some o => if bool_decide (o ∈ live) then (Some o, s)
              else if startup then (Some output, set_outputs s (ps_output_ s) (Some output)) else (None, s)
  | None => if startup then (Some output, set_outputs s (ps_output_ s) (Some output)) else (None, s)
  end.

(** * Runs *)

(** The steps of the fan-out between the operations of the stream: the groups of
    a frame being published, the death of a sink, the workers. *)
Inductive fan_out_step : dispatcher media_frame → dispatcher media_frame → Prop :=
| fan_out_publish σ p : publishing σ = Some p → fan_out_step σ (publish_step σ)
| fan_out_expire σ x :
    (∀ id c f l, groups σ !! id = Some c → pc c = Some (Snapshot f l) → x ∉ l) →
    fan_out_step σ (set_live σ (live σ ∖ {[x]}))
| fan_out_worker σ σ' : worker_step σ σ' → fan_out_step σ σ'.

Inductive stream_step : media_stream → media_stream → Prop :=
| do_set_tracks s l : stream_step s (set_tracks s l).2
| do_set_opus s o : stream_step s (set_opus_stream s o)
| do_add s sink target : publishing (dispatcher_ s) = None → stream_step s (add_sink s sink target)
| do_remove s sink : stream_step s (remove_sink s sink)
| do_publish s f : publishing (dispatcher_ s) = None → stream_step s (stream_publish s f)
| do_end s : publishing (dispatcher_ s) = None → stream_step s (stream_end s)
| do_ps s live o ok : stream_step s (ps_output s live o ok).2
| do_flv s live o ok : stream_step s (flv_output s live o ok).2
| do_fan_out s σ : fan_out_step (dispatcher_ s) σ → stream_step s (set_dispatcher s σ).

Definition stream_reachable (stream_id : list Z) (w : Z) s : Prop := rtc stream_step (create_stream stream_id w) s.

Implicit Types (x : Z) (σ : dispatcher media_frame).

(** Track numbers are distinct and not 0. *)
Definition tracks_ok (l : list media_track) : Prop := NoDup (track_id <$> l) ∧ Forall (λ t, track_id t ≠ 0) l.

Lemma track_ids_ok_spec ids l : track_ids_ok ids l = true →
  tracks_ok l ∧ ∀ t, t ∈ l → track_id t ∉ ids.
Proof.
  revert ids. induction l as [|t l IH]; intros ids H; cbn [track_ids_ok] in H.
  - split; [split; constructor|]. by intros t ?%elem_of_nil.
  - destruct (Z.eqb_spec (track_id t) 0); [done|]. cbn [orb] in H.
    destruct (existsb _ ids) eqn:E; [done|]. destruct (IH _ H) as [[Hn Hz] Hd].
    assert (track_id t ∉ ids) as Ht.
    { intros Hin. apply not_true_iff_false in E. apply E, existsb_exists. exists (track_id t). split; [by apply list_elem_of_In|].
      apply Z.eqb_refl. }
    split; [split|].
    + cbn [fmap list_fmap]. apply list.NoDup_cons. split; [|done]. rewrite list_elem_of_fmap. intros (u & Eu & Hu).
      apply (Hd u Hu). rewrite <- Eu. apply list_elem_of_here.
    + by constructor.
    + intros u [-> | Hu]%elem_of_cons; [done|]. intros Hi. apply (Hd u Hu). by apply list_elem_of_further.
Qed.

(** A frame the stream may hand out. *)
Definition acceptable (l : list media_track) (f : media_frame) : Prop :=
  ∃ t, t ∈ l ∧ track_id t = track f ∧ (∃ b p, frame_payload f = Some (b :: p)) ∧
    (codec t = h264 ∨ codec t = h265 → length_prefixed f = true).

Lemma publish_frame_ok s f g : publish_frame s f = Some g → ended s = false ∧ acceptable (tracks s) g.
Proof.
  unfold publish_frame. destruct (ended s); [done|]. destruct (frame_payload f) as [[|b p]|] eqn:Ep; try done. cbn [orb length Nat.eqb].
  destruct (find_track (tracks s) (track f)) as [t|] eqn:Et; [|done]. intros H. split; [done|].
  apply find_some in Et as [Hin%list_elem_of_In Ht%Z.eqb_eq]. exists t.
  destruct (_ && _) eqn:Ec; injection H as <-; split_and!; try done.
  - by exists b, p.
  - by exists b, p.
  - intros Hc. destruct (length_prefixed f); [done|]. rewrite andb_true_r in Ec. apply orb_false_iff in Ec as [H1 H2].
    apply bool_decide_eq_false in H1, H2. naive_solver.
Qed.

(** * The invariant *)

Record stream_inv s : Prop := StreamInv {
  si_dispatcher : dispatcher_inv (dispatcher_ s);
  si_tracks : tracks_ok (tracks s);
  si_frames : Forall (acceptable (tracks s)) (published (dispatcher_ s));
  si_map : ended s = true → sink_groups (dispatcher_ s) = [];
  si_refused : ended s = false → refused s = []
}.

Lemma fan_out_is_step σ σ' : fan_out_step σ σ' → step σ σ'.
Proof. intros []; [apply step_owner; by econstructor|apply step_owner; by constructor|by apply step_worker]. Qed.

(** What the other threads do leaves the frames alone and adds no group. *)
Lemma fan_out_frame σ σ' : fan_out_step σ σ' → published σ' = published σ ∧ (sink_groups σ = [] → sink_groups σ' = []).
Proof.
  intros [τ p Hp|τ x _|τ τ' Hw]; [| |].
  - unfold publish_step. rewrite Hp. destruct p as [[f [|id r]] o]; cbn [set_publishing set_map published sink_groups].
    + split; [done|]. by intros ->.
    + unfold publish_group. destruct (groups τ !! id) as [c|]; [|done].
      destruct (worker (grp c) =? owner τ); [done|]. destruct (push (grp c) f) as [[g ov] b]. by destruct b.
  - done.
  - destruct Hw as [τ l id k w _ (c & Hc & _) _ _|τ id c p late Hc Hp].
    + unfold drain_start. by destruct (groups _ !! id).
    + unfold drain_step. rewrite Hc, Hp. destruct p as [|f|[f|] l]; [by destruct (drain_take _)|done|by destruct late|done].
Qed.

Lemma remove_map_nil σ x : sink_groups σ = [] → remove σ x = σ.
Proof. intros H. unfold remove. by rewrite H. Qed.
Lemma remove_published σ x : published (remove σ x) = published σ.
Proof.
  unfold remove. generalize ((sink_groups σ).*2). intros l. revert σ. induction l as [|id l IH]; intros σ; cbn [fold_left]; [done|].
  rewrite IH. unfold remove_entry. destruct (groups σ !! id) as [c|]; [|done]. by destruct (sinks (remove_in _ _ _)).
Qed.
Lemma end_group_kept σ id : published (end_group σ id) = published σ ∧ sink_groups (end_group σ id) = sink_groups σ.
Proof.
  unfold end_group. destruct (groups σ !! id) as [c|]; [|done]. destruct (worker (grp c) =? owner σ); [done|].
  destruct (push_end (grp c)) as [g []]; done.
Qed.
Lemma end_kept σ : published (end_ σ) = published σ ∧ sink_groups (end_ σ) = [].
Proof.
  unfold end_. assert (∀ l (τ : dispatcher media_frame), published (fold_left end_group l τ) = published τ ∧ sink_groups (fold_left end_group l τ) = sink_groups τ) as H.
  { intros l. induction l as [|id l IH]; intros τ; cbn [fold_left]; [done|]. destruct (IH (end_group τ id)) as [-> ->]. apply end_group_kept. }
  destruct (H (sink_groups σ).*2 (set_map σ [])) as [-> ->]. done.
Qed.
Lemma add_published σ x w : published (add σ x w) = published σ.
Proof.
  unfold add. destruct (find_group _ w); unfold add_to; by case_match.
Qed.

Lemma stream_step_inv s s' : stream_step s s' → stream_inv s → stream_inv s'.
Proof.
  intros Hs [Hd Ht Hf Hm Hr]. assert (stream_inv s) as Hi by done.
  destruct Hs as [s l|s o|s [x|] w Hp|s [x|]|s f Hp|s Hp|s lv o ok|s lv o ok|s σ H]; try done; try by split.
  - unfold set_tracks. destruct (ended s) eqn:Ee; [done|]. destruct (Nat.eqb_spec (length (tracks s)) 0) as [E|]; [|done].
    destruct (Nat.eqb (length l) 0); [done|]. cbn [orb negb]. destruct (track_ids_ok [] l) eqn:Ek; [|done].
    destruct (track_ids_ok_spec _ _ Ek) as [Hl _]. destruct (tracks s); [|done]. split; cbn; try done; auto.
    eapply Forall_impl; [|exact Hf]. intros g (t & []%elem_of_nil & _).
  - unfold add_sink. destruct (ended s) eqn:Ee; split; cbn; try done; try (by rewrite Ee); auto.
    + apply add_inv; [done|apply newcomer_any|done].
    + by rewrite add_published.
  - unfold remove_sink. split; cbn; try done.
    + by apply remove_inv.
    + by rewrite remove_published.
    + intros He. rewrite remove_map_nil; auto.
  - unfold stream_publish. destruct (publish_frame s f) as [g|] eqn:Eg; [|done]. apply publish_frame_ok in Eg as [Ee Hg].
    split; cbn [tracks dispatcher_ ended refused set_dispatcher]; try done.
    + by apply publish_start_inv.
    + cbn. apply Forall_app. split; [done|]. by constructor.
  - unfold stream_end. destruct (ended s) eqn:Ee; [done|]. destruct (end_kept (dispatcher_ s)) as [E1 E2]. split; cbn; try done.
    + by apply end_inv.
    + by rewrite E1.
  - unfold ps_output. repeat case_match; by (done || split).
  - unfold flv_output. repeat case_match; by (done || split).
  - destruct (fan_out_frame _ _ H) as [E1 E2]. split; cbn; try done.
    + eapply step_inv; [apply newcomer_any|by apply fan_out_is_step|done].
    + by rewrite E1.
    + auto.
Qed.

Lemma stream_reachable_inv id w s : stream_reachable id w s → stream_inv s.
Proof.
  intros H. unfold stream_reachable in H.
  assert (stream_inv (create_stream id w)) as Hi.
  { split; cbn; try done; [apply empty_inv|split; constructor]. }
  revert Hi H. generalize (create_stream id w). intros t Hi H. induction H as [|? ? ? Hs _ IH]; [done|]. apply IH. by eapply stream_step_inv.
Qed.

(** * Properties *)

(** C39: the frames of a stream that a consumer is called with are a run, without
    gap or repetition and in order, of the frames handed out, each on a track of
    the stream and not empty, and the end comes last and at most once; the
    numbers of the tracks are distinct and not 0. *)
Theorem stream_in_order id w s x :
  stream_reachable id w s → (occ x (added (dispatcher_ s)) ≤ 1)%nat →
  tracks_ok (tracks s) ∧
  ∃ pre mid rest tail, calls_of x (calls (dispatcher_ s)) = (Some <$> mid) ++ tail ∧ (tail = [] ∨ tail = [None]) ∧
    published (dispatcher_ s) = pre ++ mid ++ rest ∧ Forall (acceptable (tracks s)) mid.
Proof.
  intros [Hd Ht Hf _ _]%stream_reachable_inv Hx. split; [done|].
  destruct (inv_in_order _ _ _ _ Hd Hx) as (pre & mid & rest & tail & Ec & Etl & Ep). exists pre, mid, rest, tail.
  split_and!; [done..|]. rewrite Ep in Hf. apply Forall_app in Hf as [_ Hf]. by apply Forall_app in Hf as [Hf _].
Qed.

(** A stream that has ended tells every consumer: when the workers have no
    task left, each one alive and not removed has been told of the end, after its
    frames, and later frames and consumers change nothing of this: a frame is
    dropped and a new consumer is told of the end alone. *)
Theorem stream_ends id w s :
  stream_reachable id w s → ended s = true →
  (∀ f, stream_publish s f = s) ∧
  (∀ x target, dispatcher_ (add_sink s (Some x) target) = dispatcher_ s ∧ refused (add_sink s (Some x) target) = refused s ++ [x]) ∧
  ((∀ τ, ¬ worker_step (dispatcher_ s) τ) → publishing (dispatcher_ s) = None →
   ∀ x i c, (occ x (added (dispatcher_ s)) ≤ 1)%nat → groups (dispatcher_ s) !! i = Some c → x ∈ sinks (grp c) →
   x ∈ live (dispatcher_ s) →
   ∃ mid, calls_of x (calls (dispatcher_ s)) = (Some <$> mid) ++ [None]).
Proof.
  intros [Hd Ht Hf Hm Hr]%stream_reachable_inv He. split; [|split].
  - intros f. unfold stream_publish, publish_frame. by rewrite He.
  - intros x target. cbn. by rewrite He.
  - intros Hq Hp x i c Hx Hc Hin Hl. destruct (quiet_drained _ _ _ x i c Hd Hq Hp Hx Hc Hin Hl) as (pre & mid & rest & _ & _ & _ & H).
    exists mid. apply H. rewrite (Hm He). apply not_elem_of_nil.
Qed.

(** * An example: a consumer on the stream's own worker, a frame and the end *)

Definition demo_track : media_track := MediaTrack 1 video h264 90000 0 [].
Definition demo_frame : media_frame := MediaFrame 1 0 0 true (Some [0; 0; 1; 101]) false.
Definition demo_added : media_stream := add_sink (set_tracks (create_stream [97] 1) [demo_track]).2 (Some 7) 1.
Definition demo_start : media_stream := stream_publish demo_added demo_frame.
Definition fan_out s : media_stream := set_dispatcher s (publish_step (dispatcher_ s)).
Definition demo_stream : media_stream := stream_end (fan_out (fan_out demo_start)).

Lemma fan_out_reachable id w s p : publishing (dispatcher_ s) = Some p → stream_reachable id w s → stream_reachable id w (fan_out s).
Proof. intros Hp Hs. eapply rtc_r; [exact Hs|]. by eapply do_fan_out, fan_out_publish. Qed.

Lemma demo_stream_reachable : stream_reachable [97] 1 demo_stream.
Proof.
  eapply rtc_r; [|apply do_end; vm_compute; reflexivity].
  do 2 (eapply fan_out_reachable; [vm_compute; reflexivity|]).
  eapply rtc_r; [|apply do_publish; vm_compute; reflexivity].
  eapply rtc_r; [|apply do_add; vm_compute; reflexivity].
  eapply rtc_r; [apply rtc_refl|apply do_set_tracks].
Qed.

Lemma demo_stream_quiet (τ : dispatcher media_frame) : ¬ worker_step (dispatcher_ demo_stream) τ.
Proof.
  assert (posted (dispatcher_ demo_stream) = []) as Hp by (vm_compute; reflexivity).
  assert (∀ id c, groups (dispatcher_ demo_stream) !! id = Some c → pc c = None) as Hpc.
  { intros [|id] c; vm_compute; [intros [= <-]; reflexivity|discriminate]. }
  intros H. inversion H as [? l id k w E|? id c p late Hc E]; subst.
  - rewrite Hp in E. by destruct l.
  - rewrite (Hpc _ _ Hc) in E. discriminate.
Qed.

Lemma stream_in_order_witness :
  stream_reachable [97] 1 demo_stream ∧
  calls_of 7 (calls (dispatcher_ demo_stream)) = [Some (with_length_prefixed demo_frame); None] ∧
  tracks_ok (tracks demo_stream) ∧
  ∃ pre mid rest tail, calls_of 7 (calls (dispatcher_ demo_stream)) = (Some <$> mid) ++ tail ∧ (tail = [] ∨ tail = [None]) ∧
    published (dispatcher_ demo_stream) = pre ++ mid ++ rest ∧ Forall (acceptable (tracks demo_stream)) mid.
Proof.
  split; [exact demo_stream_reachable|]. split; [vm_compute; reflexivity|].
  apply (stream_in_order [97] 1 demo_stream 7 demo_stream_reachable). vm_compute. lia.
Defined.

Lemma stream_ends_witness :
  stream_reachable [97] 1 demo_stream ∧ ended demo_stream = true ∧
  ∃ mid, calls_of 7 (calls (dispatcher_ demo_stream)) = (Some <$> mid) ++ [None].
Proof.
  split; [exact demo_stream_reachable|]. split; [vm_compute; reflexivity|].
  destruct (stream_ends [97] 1 demo_stream demo_stream_reachable eq_refl) as (_ & _ & H).
  apply (H demo_stream_quiet eq_refl 7 0%nat (Cell (SinkGroup 1 [7] [] false false) None)).
  - vm_compute. lia.
  - vm_compute. reflexivity.
  - apply list_elem_of_here.
  - apply (bool_decide_unpack _). vm_compute. exact I.
Defined.
