(* ===== verification/MediaPortPool.v ===== *)
(** The ports media is received on: src/media/net/media_port_pool.cpp.

    A port is even; its owner also uses the next one.  The pool is one object,
    made once, and every operation holds its lock. *)
From S2P Require Import Prelude.

Definition media_port_start : Z := 49152.
Definition media_port_end : Z := 65535.

Record media_port_pool := MediaPortPool { available_ports : list Z; used_ports : list Z }.

(** The loop of the constructor, from [port] down: one round a port. *)
Fixpoint fill_ports (fuel : nat) (port : Z) (ports : list Z) : list Z :=
  match fuel with
  | O => ports
  | S fuel => if port >=? media_port_start then fill_ports fuel (port - 2) (ports ++ [u16 port]) else ports
  end.
Definition port_pool : media_port_pool :=
  MediaPortPool (fill_ports (Z.to_nat (media_port_end - media_port_start + 1)) (Z.land (media_port_end - 1) (Z.lnot 1)) []) [].

(** [vector::back] and [pop_back]. *)
Definition pop_back {A} (l : list A) : option (A * list A) :=
  match rev l with [] => None | x :: k => Some (x, rev k) end.

Definition acquire (p : media_port_pool) : option Z * media_port_pool :=
  match pop_back (available_ports p) with
  | None => (None, p)
  | Some (port, available) => (Some port, MediaPortPool available (used_ports p ++ [port]))
  end.

(** [erase] of the first occurrence, if there is one. *)
Fixpoint erase_port (port : Z) (l : list Z) : option (list Z) :=
  match l with
  | [] => None
  | x :: k => if x =? port then Some k else cons x <$> erase_port port k
  end.

Definition release (p : media_port_pool) (port : Z) : media_port_pool :=
  match erase_port port (used_ports p) with
  | Some used => MediaPortPool (available_ports p ++ [port]) used
  | None => p
  end.

(** * What the pool promises *)

Inductive pool_op := Acquire | Release (port : Z).

(** A run of operations, with the ports handed out and not given back. *)
Definition pool_step (s : media_port_pool * list Z) (op : pool_op) : media_port_pool * list Z :=
  let '(p, out) := s in
  match op with
  | Acquire => let '(r, p) := acquire p in (p, match r with Some port => port :: out | None => out end)
  | Release port => (release p port, filter (λ x, x ≠ port) out)
  end.
Definition pool_run (ops : list pool_op) : media_port_pool * list Z := fold_left pool_step ops (port_pool, []).

Definition media_port (port : Z) : Prop := media_port_start ≤ port ∧ port + 1 ≤ media_port_end ∧ port mod 2 = 0.

Lemma pop_back_spec {A} (l : list A) :
  match pop_back l with None => l = [] | Some (x, k) => l = k ++ [x] end.
Proof.
  unfold pop_back. destruct (rev l) as [|x k] eqn:E; rewrite <- (rev_involutive l), E; [done|]. by cbn.
Qed.

Lemma erase_port_spec port l :
  match erase_port port l with None => port ∉ l | Some k => l ≡ₚ port :: k end.
Proof.
  induction l as [|x l IH]; cbn [erase_port]; [apply not_elem_of_nil|].
  destruct (Z.eqb_spec x port) as [->|Hx]; [done|]. destruct (erase_port port l) as [k|]; cbn.
  - rewrite IH. apply Permutation_swap.
  - apply not_elem_of_cons. by split; [congruence|].
Qed.

Lemma fill_ports_eq (n fuel : nat) port ports :
  (n < fuel)%nat → port = media_port_start - 2 + 2 * Z.of_nat n → port < 65536 →
  fill_ports fuel port ports = ports ++ ((λ i, port - 2 * i) <$> seqZ 0 (Z.of_nat n)).
Proof.
  revert fuel port ports. induction n as [|n IH]; intros [|fuel] port ports Hf Hp Hr; try lia; cbn [fill_ports];
    unfold media_port_start in *; rewrite Z.geb_leb; destruct (Z.leb_spec 49152 port); try lia.
  - by rewrite app_nil_r.
  - rewrite (IH fuel (port - 2)) by lia. rewrite Nat2Z.inj_succ, (seqZ_cons 0 (Z.succ (Z.of_nat n))) by lia. cbn [fmap list_fmap].
    rewrite <- app_assoc, u16_id by (unfold is_uint; dlia). replace (port - 2 * 0) with port by lia. cbn [app]. do 2 f_equal.
    rewrite <- (fmap_add_seqZ 1 0), <- list_fmap_compose. replace (Z.pred (Z.succ (Z.of_nat n))) with (Z.of_nat n) by lia.
    apply list_fmap_ext. intros _ i _. cbn. lia.
Qed.

Lemma initial_ports : NoDup (available_ports port_pool) ∧ Forall media_port (available_ports port_pool) ∧
  length (available_ports port_pool) = 8192%nat.
Proof.
  assert (available_ports port_pool = (λ i, 65534 - 2 * i) <$> seqZ 0 8192) as ->.
  { unfold port_pool. cbn [available_ports]. rewrite (fill_ports_eq (Z.to_nat 8192)); [by rewrite Z2Nat.id by done|..].
    - apply Z2Nat.inj_lt; done.
    - rewrite Z2Nat.id by done. reflexivity.
    - reflexivity. }
  rewrite length_fmap, length_seqZ. split; [|split; [|done]].
  - apply NoDup_fmap_2_strong; [intros x y _ _ H; lia|apply NoDup_seqZ].
  - apply Forall_fmap, list.Forall_forall. intros i Hi%elem_of_seqZ. unfold media_port, media_port_start, media_port_end. cbn.
    split_and!; [lia|lia|dlia].
Qed.

Record pool_ok (p : media_port_pool) (out : list Z) : Prop := PoolOk {
  po_ports : available_ports p ++ used_ports p ≡ₚ available_ports port_pool;
  po_used : used_ports p ≡ₚ out
}.

Lemma pool_ok_nodup p out : pool_ok p out → NoDup (available_ports p ++ used_ports p).
Proof. intros [H _]. rewrite H. apply initial_ports. Qed.

Lemma filter_not_in (x : Z) (l : list Z) : x ∉ l → filter (λ y, y ≠ x) l = l.
Proof.
  induction l as [|y l IH]; intros H; [done|]. apply not_elem_of_cons in H as [H1 H2].
  rewrite filter_cons_True by congruence. by rewrite IH.
Qed.

Lemma pool_step_ok p out op : pool_ok p out → let '(p', out') := pool_step (p, out) op in pool_ok p' out'.
Proof.
  intros Hok. pose proof (pool_ok_nodup _ _ Hok) as Hn. destruct Hok as [Hp Hu]. destruct op as [|port]; cbn [pool_step].
  - unfold acquire. pose proof (pop_back_spec (available_ports p)) as H. destruct (pop_back _) as [[port l]|]; [|by constructor].
    constructor; cbn [available_ports used_ports].
    + rewrite <- Hp, H, <- app_assoc. by rewrite (Permutation_app_comm (used_ports p)).
    + rewrite Hu. by rewrite Permutation_app_comm.
  - unfold release. pose proof (erase_port_spec port (used_ports p)) as H. destruct (erase_port port (used_ports p)) as [used|].
    + rewrite H in Hn. apply list.NoDup_app in Hn as (_ & _ & Hn). apply list.NoDup_cons in Hn as [Hn _].
      constructor; cbn [available_ports used_ports].
      * rewrite <- Hp, H, <- app_assoc. done.
      * rewrite <- Hu, H. rewrite filter_cons_False by (intros E; by apply E). by rewrite filter_not_in.
    + constructor; [done|]. rewrite filter_not_in; [done|]. by rewrite <- Hu.
Qed.

Lemma pool_run_ok ops : let '(p, out) := pool_run ops in pool_ok p out.
Proof.
  unfold pool_run. assert (pool_ok port_pool []) as H.
  { constructor; change (used_ports port_pool) with (@nil Z); [rewrite app_nil_r|]; apply Permutation_refl. }
  revert H. generalize port_pool, (@nil Z). induction ops as [|op ops IH]; intros p out H; cbn [fold_left]; [done|].
  pose proof (pool_step_ok p out op H) as H'. destruct (pool_step (p, out) op) as [p' out']. by apply IH.
Qed.

(** C40: whatever is acquired and released, in range or not, held or not: a port
    handed out is an even media port that nobody holds, and none is handed out
    only when all 8192 are held. *)
Theorem port_pool_exclusive ops :
  let '(p, out) := pool_run ops in
  NoDup out ∧ Forall media_port out ∧
  match acquire p with
  | (Some port, _) => port ∉ out ∧ media_port port
  | (None, _) => length out = 8192%nat
  end.
Proof.
  pose proof (pool_run_ok ops) as Hok. destruct (pool_run ops) as [p out]. pose proof (pool_ok_nodup _ _ Hok) as Hn.
  destruct Hok as [Hp Hu]. destruct initial_ports as (_ & Hm & Hl). rewrite <- Hp in Hm, Hl. rewrite Hu in Hn, Hm, Hl.
  apply list.NoDup_app in Hn as (_ & Hd & Hn). apply Forall_app in Hm as [Ha Hm]. split_and!; [done..|].
  unfold acquire. pose proof (pop_back_spec (available_ports p)) as H. destruct (pop_back _) as [[port l]|].
  - assert (port ∈ available_ports p) as Hin by (rewrite H; apply elem_of_app; right; apply list_elem_of_here).
    split; [by apply Hd|]. by eapply (proj1 (list.Forall_forall _ _)) in Ha.
  - rewrite H in Hl. done.
Qed.
