(* ===== verification/Registry.v ===== *)
(** The tables of what runs: src/media/core/session_registry.cpp and
    stream_registry.cpp.

    Every operation holds the lock of its registry, so it is one step.  A
    [std::map] is a finite map; what walks it does so in the order of the keys,
    strings as lists of bytes.  A [shared_ptr] to a session or a stream is the
    object's address; sessions that are added are not null.

    The registry of sessions is two tables, of receivers by stream and of senders
    by stream and sender, and loses no session. *)
From stdpp Require Import gmap sorting.
From S2P Require Import Prelude SinkDispatcher MediaStream.
Open Scope Z_scope.

Abbreviation str := (list Z).

(** [std::less] on strings. *)
Fixpoint str_leb (a b : str) : bool :=
  match a, b with
  | [], _ => true
  | _, [] => false
  | x :: a, y :: b => (x <? y) || ((x =? y) && str_leb a b)
  end.
Definition str_le (a b : str) : Prop := str_leb a b = true.
#[global] Instance str_le_dec a b : Decision (str_le a b).
Proof. unfold str_le. apply _. Defined.

Definition sorted_keys {A} (m : gmap str A) : list str := merge_sort str_le (map_to_list m).*1.

(** * Sessions *)

Module SessionRegistry.

Record session_entry := SessionEntry { receiver : option Z; sender_sessions : gmap str Z }.
Record session_registry := SessionRegistry { sessions : gmap str session_entry; stopping : bool }.

Implicit Types (r : session_registry) (stream_id sender_id : str) (session : Z).

Definition empty_entry : session_entry := SessionEntry None ∅.
Definition is_empty (e : session_entry) : bool :=
  match receiver e with Some _ => false | None => bool_decide (sender_sessions e = ∅) end.
Definition registry : session_registry := SessionRegistry ∅ false.

Definition set_entry r stream_id (e : session_entry) : session_registry :=
  SessionRegistry (<[stream_id := e]> (sessions r)) (stopping r).
(** The entry after something was taken from it: erased when it is empty. *)
Definition shrink_entry r stream_id (e : session_entry) : session_registry :=
  if is_empty e then SessionRegistry (delete stream_id (sessions r)) (stopping r) else set_entry r stream_id e.

(** [try_emplace]: the entry of the stream, made if there is none. *)
Definition emplaced r stream_id : session_entry := default empty_entry (sessions r !! stream_id).

Definition add_receiver_session r stream_id session : bool * session_registry :=
  if stopping r then (false, r) else
  let e := emplaced r stream_id in
  match receiver e with
  | Some _ => (false, set_entry r stream_id e)
  | None => (true, set_entry r stream_id (SessionEntry (Some session) (sender_sessions e)))
  end.

Definition take_receiver_session r stream_id : option Z * session_registry :=
  match sessions r !! stream_id with
  | None => (None, r)
  | Some e =>
      match receiver e with
      | None => (None, r)
      | Some session => (Some session, shrink_entry r stream_id (SessionEntry None (sender_sessions e)))
      end
  end.

Definition remove_receiver_session r stream_id (expected : Z) : session_registry :=
  match sessions r !! stream_id with
  | None => r
  | Some e =>
      match receiver e with
      | None => r
      | Some session =>
          if negb (session =? expected) then r
          else shrink_entry r stream_id (SessionEntry None (sender_sessions e))
      end
  end.

Definition find_receiver_session r stream_id : option Z :=
  match sessions r !! stream_id with None => None | Some e => receiver e end.

Definition receivers r : list str :=
  filter (λ k, is_Some (find_receiver_session r k)) (sorted_keys (sessions r)).

Definition add_sender_session r stream_id sender_id session : bool * session_registry :=
  if stopping r then (false, r) else
  let e := emplaced r stream_id in
  match sender_sessions e !! sender_id with
  | Some _ => (false, set_entry r stream_id e)
  | None => (true, set_entry r stream_id (SessionEntry (receiver e) (<[sender_id := session]> (sender_sessions e))))
  end.

Definition take_sender_session r stream_id sender_id : option Z * session_registry :=
  match sessions r !! stream_id with
  | None => (None, r)
  | Some e =>
      match sender_sessions e !! sender_id with
      | None => (None, r)
      | Some session =>
          (Some session, shrink_entry r stream_id (SessionEntry (receiver e) (delete sender_id (sender_sessions e))))
      end
  end.

Definition find_sender_session r stream_id sender_id : option Z :=
  match sessions r !! stream_id with None => None | Some e => sender_sessions e !! sender_id end.

Definition remove_sender_session r stream_id sender_id (expected : Z) : session_registry :=
  match sessions r !! stream_id with
  | None => r
  | Some e =>
      match sender_sessions e !! sender_id with
      | None => r
      | Some session =>
          if negb (session =? expected) then r
          else shrink_entry r stream_id (SessionEntry (receiver e) (delete sender_id (sender_sessions e)))
      end
  end.

(** The sessions of an entry, in the order they are shut down. *)
Definition entry_sessions (e : session_entry) : list Z :=
  match receiver e with Some session => [session] | None => [] end ++
  omap (λ k, sender_sessions e !! k) (sorted_keys (sender_sessions e)).

(** The sessions shut down, in their order, and what is left. *)
Definition shutdown_all r : list Z * session_registry :=
  (concat (omap (λ k, entry_sessions <$> sessions r !! k) (sorted_keys (sessions r))),
   SessionRegistry ∅ true).

End SessionRegistry.

(** * Streams *)

Module StreamRegistry.

Definition stream_registry := gmap str Z.
Implicit Types (r : stream_registry).

Definition add r (stream : option (Z * media_stream)) : bool * stream_registry :=
  match stream with
  | None => (false, r)
  | Some (p, s) =>
      if Nat.eqb (length (stream_id s)) 0 || Nat.eqb (length (tracks s)) 0 then (false, r) else
      match r !! stream_id s with
      | Some _ => (false, r)
      | None => (true, <[stream_id s := p]> r)
      end
  end.

Definition remove r (expected : Z) (s : media_stream) : stream_registry :=
  match r !! stream_id s with
  | None => r
  | Some p => if negb (p =? expected) then r else delete (stream_id s) r
  end.

Definition find r (stream_id : str) : option Z := r !! stream_id.

End StreamRegistry.

Import SessionRegistry.

(** * The abstract registry *)

(** Receivers have the key [(stream, None)], senders [(stream, Some sender)]. *)
Record table := Table { entries : gmap (str * option str) Z; closed : bool }.

Inductive registry_op :=
| AddReceiver (stream : str) (session : Z) | AddSender (stream sender : str) (session : Z)
| TakeReceiver (stream : str) | TakeSender (stream sender : str)
| RemoveReceiver (stream : str) (expected : Z) | RemoveSender (stream sender : str) (expected : Z)
| ShutdownAll.

(** What an operation says: whether a session was accepted, the one taken, those
    shut down. *)
Inductive answer := Accepted (ok : bool) | Taken (s : option Z) | Done | ShutDown (l : list Z).

Definition table_add (t : table) k (s : Z) : answer * table :=
  if closed t then (Accepted false, t) else
  match entries t !! k with
  | Some _ => (Accepted false, t)
  | None => (Accepted true, Table (<[k := s]> (entries t)) (closed t))
  end.
Definition table_take (t : table) k : answer * table :=
  match entries t !! k with
  | Some s => (Taken (Some s), Table (delete k (entries t)) (closed t))
  | None => (Taken None, t)
  end.
Definition table_remove (t : table) k (expected : Z) : answer * table :=
  (Done, if decide (entries t !! k = Some expected) then Table (delete k (entries t)) (closed t) else t).

Definition registry_step (r : session_registry) (op : registry_op) : answer * session_registry :=
  match op with
  | AddReceiver k s => let '(b, r) := add_receiver_session r k s in (Accepted b, r)
  | AddSender k i s => let '(b, r) := add_sender_session r k i s in (Accepted b, r)
  | TakeReceiver k => let '(o, r) := take_receiver_session r k in (Taken o, r)
  | TakeSender k i => let '(o, r) := take_sender_session r k i in (Taken o, r)
  | RemoveReceiver k e => (Done, remove_receiver_session r k e)
  | RemoveSender k i e => (Done, remove_sender_session r k i e)
  | ShutdownAll => let '(l, r) := shutdown_all r in (ShutDown l, r)
  end.

(** The answer to [ShutdownAll] may list the sessions in any order. *)
Definition table_step (t : table) (op : registry_op) (a : answer) (t' : table) : Prop :=
  match op with
  | AddReceiver k s => table_add t (k, None) s = (a, t')
  | AddSender k i s => table_add t (k, Some i) s = (a, t')
  | TakeReceiver k => table_take t (k, None) = (a, t')
  | TakeSender k i => table_take t (k, Some i) = (a, t')
  | RemoveReceiver k e => table_remove t (k, None) e = (a, t')
  | RemoveSender k i e => table_remove t (k, Some i) e = (a, t')
  | ShutdownAll => ∃ l, a = ShutDown l ∧ l ≡ₚ (map_to_list (entries t)).*2 ∧ t' = Table ∅ true
  end.

(** * The representation *)

Definition lookup_entry (r : session_registry) (k : str * option str) : option Z :=
  match k.2 with None => find_receiver_session r k.1 | Some i => find_sender_session r k.1 i end.

(** The registry stands for the table, and keeps no empty entry. *)
Record represents (r : session_registry) (t : table) : Prop := Represents {
  rep_entries : ∀ k, entries t !! k = lookup_entry r k;
  rep_closed : closed t = stopping r;
  rep_full : ∀ k e, sessions r !! k = Some e → is_empty e = false
}.

Lemma represents_init : represents registry (Table ∅ false).
Proof. split; try done. intros [k [i|]]; unfold lookup_entry, find_receiver_session, find_sender_session; cbn; by rewrite !lookup_empty. Qed.

Lemma lookup_set r k e i : lookup_entry (set_entry r k e) i =
  if decide (i.1 = k) then match i.2 with None => receiver e | Some j => sender_sessions e !! j end else lookup_entry r i.
Proof.
  unfold lookup_entry, find_receiver_session, find_sender_session, set_entry. cbn [sessions]. destruct i as [k' [j|]]; cbn [fst snd];
    (destruct (decide (k' = k)) as [->|]; [by rewrite lookup_insert_eq|by rewrite lookup_insert_ne by congruence]).
Qed.

Lemma is_empty_spec e : is_empty e = true ↔ e = empty_entry.
Proof.
  unfold is_empty. destruct e as [[x|] m]; cbn; split; try done.
  - by intros ->%bool_decide_eq_true.
  - intros [= ->]. by apply bool_decide_eq_true.
Qed.

Lemma lookup_shrink r k e i : lookup_entry (shrink_entry r k e) i =
  if decide (i.1 = k) then match i.2 with None => receiver e | Some j => sender_sessions e !! j end else lookup_entry r i.
Proof.
  unfold shrink_entry. destruct (is_empty e) eqn:E; [|apply lookup_set]. apply is_empty_spec in E as ->.
  unfold lookup_entry, find_receiver_session, find_sender_session. cbn [sessions]. destruct i as [k' [j|]]; cbn [fst snd];
    (destruct (decide (k' = k)) as [->|]; [rewrite lookup_delete_eq; cbn; by rewrite ?lookup_empty|by rewrite lookup_delete_ne by congruence]).
Qed.

Lemma full_set r k e : (∀ k' e', sessions r !! k' = Some e' → is_empty e' = false) → is_empty e = false →
  ∀ k' e', sessions (set_entry r k e) !! k' = Some e' → is_empty e' = false.
Proof.
  intros H He k' e'. cbn. destruct (decide (k' = k)) as [->|]; [by rewrite lookup_insert_eq; intros [= <-]|].
  rewrite lookup_insert_ne by congruence. apply H.
Qed.
Lemma full_shrink r k e : (∀ k' e', sessions r !! k' = Some e' → is_empty e' = false) →
  ∀ k' e', sessions (shrink_entry r k e) !! k' = Some e' → is_empty e' = false.
Proof.
  intros H. unfold shrink_entry. destruct (is_empty e) eqn:E; [|by apply full_set]. intros k' e'. cbn.
  intros Hk%lookup_delete_Some. naive_solver.
Qed.

Lemma emplaced_lookup r k : receiver (emplaced r k) = find_receiver_session r k ∧
  ∀ i, sender_sessions (emplaced r k) !! i = find_sender_session r k i.
Proof.
  unfold emplaced, find_receiver_session, find_sender_session. destruct (sessions r !! k); cbn; [done|]. split; [done|]. intros. apply lookup_empty.
Qed.

Definition entry_lookup (e : session_entry) (i : option str) : option Z :=
  match i with None => receiver e | Some j => sender_sessions e !! j end.

Lemma represents_set r t k e m : represents r t → is_empty e = false →
  (∀ i, m !! (k, i) = entry_lookup e i) → (∀ i, i.1 ≠ k → m !! i = entries t !! i) →
  represents (set_entry r k e) (Table m (closed t)).
Proof.
  intros [Ht Hc Hf] He Hk Ho. split; [|done|by apply full_set]. intros [k' i]. rewrite lookup_set. cbn [entries fst snd].
  destruct (decide (k' = k)) as [->|Hne]; [apply Hk|]. rewrite Ho by done. apply Ht.
Qed.

Lemma represents_shrink r t k e m : represents r t →
  (∀ i, m !! (k, i) = entry_lookup e i) → (∀ i, i.1 ≠ k → m !! i = entries t !! i) →
  represents (shrink_entry r k e) (Table m (closed t)).
Proof.
  intros [Ht Hc Hf] Hk Ho. split; [|unfold shrink_entry; by case_match|by apply full_shrink]. intros [k' i]. rewrite lookup_shrink. cbn [entries fst snd].
  destruct (decide (k' = k)) as [->|Hne]; [apply Hk|]. rewrite Ho by done. apply Ht.
Qed.

(** The table after a change at one key. *)
Lemma entries_entry r t k : represents r t → ∀ i, entries t !! (k, i) = entry_lookup (emplaced r k) i.
Proof.
  intros [Ht _ _] [j|]; rewrite Ht; unfold lookup_entry; cbn [fst snd]; destruct (emplaced_lookup r k) as [E1 E2]; cbn; by rewrite ?E1, ?E2.
Qed.

Lemma set_same r k : sessions r !! k = Some (emplaced r k) → set_entry r k (emplaced r k) = r.
Proof. intros H. unfold set_entry. rewrite insert_id by done. by destruct r. Qed.
Lemma emplaced_some r k i s : entry_lookup (emplaced r k) i = Some s → sessions r !! k = Some (emplaced r k).
Proof. unfold emplaced. destruct (sessions r !! k); [done|]. destruct i as [j|]; cbn; by rewrite ?lookup_empty. Qed.

(** An entry with one more session or one less. *)
Definition entry_with (e : session_entry) (i : option str) (s : option Z) : session_entry :=
  match i with
  | None => SessionEntry s (sender_sessions e)
  | Some j => SessionEntry (receiver e) (partial_alter (λ _, s) j (sender_sessions e))
  end.

Lemma entry_lookup_with e i s j : entry_lookup (entry_with e i s) j = if decide (j = i) then s else entry_lookup e j.
Proof.
  destruct (decide (j = i)) as [->|Hne]; destruct i as [i|]; cbn; [by rewrite lookup_partial_alter_eq|done|..].
  - destruct j as [j|]; cbn; [|done]. by rewrite lookup_partial_alter_ne by congruence.
  - by destruct j.
Qed.

Lemma entry_with_full e i s : is_empty (entry_with e i (Some s)) = false.
Proof.
  apply not_true_iff_false. intros E%is_empty_spec%(f_equal (λ e, entry_lookup e i)). cbn beta in E.
  rewrite entry_lookup_with, decide_True in E by done. destruct i; cbn in E; by rewrite ?lookup_empty in E.
Qed.

Lemma represents_change r t k i s : represents r t →
  let e := entry_with (emplaced r k) i s in let m := partial_alter (λ _, s) (k, i) (entries t) in
  (∀ j, m !! (k, j) = entry_lookup e j) ∧ (∀ j, j.1 ≠ k → m !! j = entries t !! j).
Proof.
  intros Hr e m. unfold m, e. split.
  - intros j. rewrite entry_lookup_with. destruct (decide (j = i)) as [->|]; [by rewrite lookup_partial_alter_eq|].
    rewrite lookup_partial_alter_ne by congruence. by apply entries_entry.
  - intros j Hj. rewrite lookup_partial_alter_ne; [done|]. by intros <-.
Qed.

Lemma represents_add r t k i s : represents r t → stopping r = false →
  match entry_lookup (emplaced r k) i with
  | Some _ => table_add t (k, i) s = (Accepted false, t) ∧ represents (set_entry r k (emplaced r k)) t
  | None => ∃ t', table_add t (k, i) s = (Accepted true, t') ∧ represents (set_entry r k (entry_with (emplaced r k) i (Some s))) t'
  end.
Proof.
  intros Hr Hs. pose proof (entries_entry r t k Hr i) as E. pose proof (rep_closed _ _ Hr) as Hc. rewrite Hs in Hc.
  unfold table_add. rewrite Hc, E. destruct (entry_lookup (emplaced r k) i) as [x|] eqn:Ex.
  - split; [done|]. by rewrite set_same by (by eapply emplaced_some).
  - eexists. split; [done|]. destruct (represents_change r t k i (Some s) Hr) as [H1 H2].
    rewrite <- Hc. by apply represents_set; [|apply entry_with_full|..].
Qed.

Lemma represents_erase r t k i x : represents r t → entry_lookup (emplaced r k) i = Some x →
  entries t !! (k, i) = Some x ∧
  represents (shrink_entry r k (entry_with (emplaced r k) i None)) (Table (delete (k, i) (entries t)) (closed t)).
Proof.
  intros Hr E. rewrite (entries_entry r t k Hr i). split; [done|].
  destruct (represents_change r t k i None Hr) as [H1 H2]. by apply represents_shrink.
Qed.

Lemma represents_absent r t k i : represents r t → entry_lookup (emplaced r k) i = None → entries t !! (k, i) = None.
Proof. intros Hr E. by rewrite (entries_entry r t k Hr i). Qed.

Lemma emplaced_eq r k e : sessions r !! k = Some e → emplaced r k = e.
Proof. unfold emplaced. by intros ->. Qed.
Lemma emplaced_none r k i : sessions r !! k = None → entry_lookup (emplaced r k) i = None.
Proof. unfold emplaced. intros ->. destruct i; cbn; by rewrite ?lookup_empty. Qed.

(** Taking a session that passes a test, or none. *)
Definition taken r k i (test : Z → bool) : option Z * session_registry :=
  match sessions r !! k with
  | None => (None, r)
  | Some e =>
      match entry_lookup e i with
      | None => (None, r)
      | Some y => if test y then (Some y, shrink_entry r k (entry_with e i None)) else (None, r)
      end
  end.

Lemma represents_taken r t k i (test : Z → bool) : represents r t →
  match entries t !! (k, i) with
  | Some y => if test y then (taken r k i test).1 = Some y ∧ represents (taken r k i test).2 (Table (delete (k, i) (entries t)) (closed t))
              else taken r k i test = (None, r)
  | None => taken r k i test = (None, r)
  end.
Proof.
  intros Hr. unfold taken. destruct (sessions r !! k) as [e|] eqn:Ek.
  - rewrite <- (emplaced_eq _ _ _ Ek). rewrite (entries_entry r t k Hr i). destruct (entry_lookup (emplaced r k) i) as [y|] eqn:Ey; [|done].
    destruct (represents_erase r t k i y Hr Ey) as [_ Hd]. by destruct (test y).
  - by rewrite (represents_absent r t k i Hr (emplaced_none r k i Ek)).
Qed.

Lemma take_receiver_eq r k : take_receiver_session r k = taken r k None (λ _, true).
Proof. unfold take_receiver_session, taken. destruct (sessions r !! k) as [e|]; [|done]. cbn. by destruct (receiver e). Qed.
Lemma take_sender_eq r k i : take_sender_session r k i = taken r k (Some i) (λ _, true).
Proof. unfold take_sender_session, taken. destruct (sessions r !! k) as [e|]; [|done]. cbn. by destruct (sender_sessions e !! i). Qed.
Lemma remove_receiver_eq r k x : remove_receiver_session r k x = (taken r k None (λ y, y =? x)).2.
Proof.
  unfold remove_receiver_session, taken. destruct (sessions r !! k) as [e|]; [|done]. cbn. destruct (receiver e) as [y|]; [|done]. by destruct (y =? x).
Qed.
Lemma remove_sender_eq r k i x : remove_sender_session r k i x = (taken r k (Some i) (λ y, y =? x)).2.
Proof.
  unfold remove_sender_session, taken. destruct (sessions r !! k) as [e|]; [|done]. cbn. destruct (sender_sessions e !! i) as [y|]; [|done]. by destruct (y =? x).
Qed.

Lemma step_take r t k i : represents r t →
  let '(o, r') := taken r k i (λ _, true) in ∃ t', table_take t (k, i) = (Taken o, t') ∧ represents r' t'.
Proof.
  intros Hr. pose proof (represents_taken r t k i (λ _, true) Hr) as H. unfold table_take.
  destruct (entries t !! (k, i)); [destruct (taken r k i _); destruct H as [H1 H2]; cbn in H1, H2; subst|rewrite H]; eauto.
Qed.

Lemma step_remove r t k i x : represents r t →
  ∃ t', table_remove t (k, i) x = (Done, t') ∧ represents (taken r k i (λ y, y =? x)).2 t'.
Proof.
  intros Hr. pose proof (represents_taken r t k i (λ y, y =? x) Hr) as H. unfold table_remove. eexists. split; [done|].
  destruct (entries t !! (k, i)) as [y|].
  - cbn beta in H. destruct (Z.eqb_spec y x) as [E|E].
    + rewrite decide_True by congruence. apply H.
    + rewrite decide_False by congruence. by rewrite H.
  - rewrite decide_False by done. by rewrite H.
Qed.

(** ** Shutting down *)

Lemma elem_of_sorted_keys {A} (m : gmap str A) k : k ∈ sorted_keys m ↔ is_Some (m !! k).
Proof.
  unfold sorted_keys. rewrite (merge_sort_Permutation str_le). rewrite list_elem_of_fmap. split.
  - intros ([k' x] & -> & H%elem_of_map_to_list). by exists x.
  - intros [x H%elem_of_map_to_list]. by exists (k, x).
Qed.
Lemma sorted_keys_nodup {A} (m : gmap str A) : NoDup (sorted_keys m).
Proof. unfold sorted_keys. rewrite (merge_sort_Permutation str_le). apply NoDup_fst_map_to_list. Qed.

Definition keyed (k : str) (e : session_entry) : list ((str * option str) * Z) :=
  match receiver e with Some s => [((k, None), s)] | None => [] end ++
  (sorted_keys (sender_sessions e) ≫= λ i, match sender_sessions e !! i with Some s => [((k, Some i), s)] | None => [] end).
Definition keyed_sessions r : list ((str * option str) * Z) :=
  sorted_keys (sessions r) ≫= λ k, match sessions r !! k with Some e => keyed k e | None => [] end.

Lemma omap_bind {A B C} (f : A → option B) (g : A → list C) (h : C → B) (l : list A) :
  (∀ x, fmap (M:=list) h (g x) = match f x with Some y => [y] | None => [] end) → omap (M:=list) f l = fmap (M:=list) h (l ≫= g).
Proof.
  intros Hg. induction l as [|x l IH]; [done|]. cbn [omap list_omap mbind list_bind]. rewrite fmap_app, Hg, IH. by destruct (f x).
Qed.

Lemma keyed_snd k e : (keyed k e).*2 = entry_sessions e.
Proof.
  unfold keyed, entry_sessions. rewrite fmap_app. f_equal; [by destruct (receiver e)|]. symmetry. apply omap_bind.
  intros i. by destruct (sender_sessions e !! i).
Qed.

Lemma keyed_sessions_snd r : (keyed_sessions r).*2 = (shutdown_all r).1.
Proof.
  unfold keyed_sessions, shutdown_all. cbn [fst]. generalize (sorted_keys (sessions r)). intros l.
  induction l as [|k l IH]; [done|]. cbn [mbind list_bind omap list_omap]. rewrite fmap_app, IH.
  destruct (sessions r !! k) as [e|]; cbn [fmap option_fmap option_map]; [|done]. by rewrite keyed_snd.
Qed.

Lemma elem_of_keyed k e x : x ∈ keyed k e ↔ x.1.1 = k ∧ entry_lookup e x.1.2 = Some x.2.
Proof.
  unfold keyed. rewrite elem_of_app, list_elem_of_bind. destruct x as [[k' i] s]. cbn [fst snd]. split.
  - intros [H|(j & H & _)].
    + destruct (receiver e) as [y|] eqn:Er; [|by apply elem_of_nil in H]. apply list_elem_of_singleton in H as [= -> -> ->]. done.
    + destruct (sender_sessions e !! j) as [y|] eqn:Ej; [|by apply elem_of_nil in H]. apply list_elem_of_singleton in H as [= -> -> ->]. done.
  - intros [-> H]. destruct i as [j|]; cbn in H.
    + right. exists j. rewrite H. split; [apply list_elem_of_here|]. apply elem_of_sorted_keys. by exists s.
    + left. rewrite H. apply list_elem_of_here.
Qed.

Lemma keyed_nodup k e : NoDup (keyed k e).
Proof.
  unfold keyed. apply list.NoDup_app. split_and!.
  - destruct (receiver e); [apply NoDup_singleton|constructor].
  - intros x Hx (j & Hj & _)%list_elem_of_bind. destruct (receiver e); [|by apply elem_of_nil in Hx].
    apply list_elem_of_singleton in Hx as ->. destruct (sender_sessions e !! j); [|by apply elem_of_nil in Hj]. by apply list_elem_of_singleton in Hj.
  - apply NoDup_bind.
    + intros i j x _ _ Hi Hj. destruct (sender_sessions e !! i); [|by apply elem_of_nil in Hi].
      destruct (sender_sessions e !! j); [|by apply elem_of_nil in Hj].
      apply list_elem_of_singleton in Hi, Hj. congruence.
    + intros i _. destruct (sender_sessions e !! i); [apply NoDup_singleton|constructor].
    + apply sorted_keys_nodup.
Qed.

Lemma keyed_sessions_entries r t : represents r t → keyed_sessions r ≡ₚ map_to_list (entries t).
Proof.
  intros Hr. apply NoDup_Permutation; [|apply NoDup_map_to_list|].
  - apply NoDup_bind; [| |apply sorted_keys_nodup].
    + intros k k' x _ _ H H'. destruct (sessions r !! k); [|by apply elem_of_nil in H]. destruct (sessions r !! k'); [|by apply elem_of_nil in H'].
      apply elem_of_keyed in H as [<- _], H' as [<- _]. done.
    + intros k _. destruct (sessions r !! k); [apply keyed_nodup|constructor].
  - intros [[k i] s]. rewrite elem_of_map_to_list, (entries_entry r t k Hr i). unfold keyed_sessions. rewrite list_elem_of_bind. split.
    + intros (k' & H & _). destruct (sessions r !! k') as [e|] eqn:Ek; [|by apply elem_of_nil in H].
      apply elem_of_keyed in H as [E H]. cbn in E, H. subst. by rewrite (emplaced_eq _ _ _ Ek).
    + intros H. pose proof (emplaced_some _ _ _ _ H) as Ek. exists k. rewrite Ek, elem_of_keyed. split; [done|].
      apply elem_of_sorted_keys. by eexists.
Qed.

(** * Refinement *)

Lemma step_table r t op : represents r t →
  let '(a, r') := registry_step r op in ∃ t', table_step t op a t' ∧ represents r' t'.
Proof.
  intros Hr. destruct op as [k s|k i s|k|k i|k e|k i e|]; cbn [registry_step table_step].
  - unfold add_receiver_session. destruct (stopping r) eqn:Es.
    + exists t. split; [|done]. unfold table_add. by rewrite (rep_closed _ _ Hr), Es.
    + pose proof (represents_add r t k None s Hr Es) as H. cbn [entry_lookup] in H.
      destruct (receiver (emplaced r k)); [by exists t|]. destruct H as (t' & H). by exists t'.
  - unfold add_sender_session. destruct (stopping r) eqn:Es.
    + exists t. split; [|done]. unfold table_add. by rewrite (rep_closed _ _ Hr), Es.
    + pose proof (represents_add r t k (Some i) s Hr Es) as H. cbn [entry_lookup] in H.
      destruct (sender_sessions (emplaced r k) !! i); [by exists t|]. destruct H as (t' & H). by exists t'.
  - pose proof (step_take r t k None Hr) as H. rewrite take_receiver_eq. by destruct (taken r k None _).
  - pose proof (step_take r t k (Some i) Hr) as H. rewrite take_sender_eq. by destruct (taken r k (Some i) _).
  - rewrite remove_receiver_eq. by apply step_remove.
  - rewrite remove_sender_eq. by apply step_remove.
  - exists (Table ∅ true). split.
    + eexists. split; [done|]. split; [|done]. change (concat _) with (shutdown_all r).1. rewrite <- keyed_sessions_snd.
      by rewrite (keyed_sessions_entries r t Hr).
    + split; try done. intros [k [i|]]; unfold lookup_entry, find_receiver_session, find_sender_session; cbn; by rewrite !lookup_empty.
Qed.

(** The answers of a run. *)
Fixpoint registry_run (r : session_registry) (ops : list registry_op) : list answer * session_registry :=
  match ops with
  | [] => ([], r)
  | op :: ops => let '(a, r) := registry_step r op in let '(l, r) := registry_run r ops in (a :: l, r)
  end.
Inductive table_run : table → list registry_op → list answer → table → Prop :=
| table_run_nil t : table_run t [] [] t
| table_run_cons t op a t' ops l t'' : table_step t op a t' → table_run t' ops l t'' → table_run t (op :: ops) (a :: l) t''.

Lemma registry_run_table r t ops : represents r t →
  let '(l, r') := registry_run r ops in ∃ t', table_run t ops l t' ∧ represents r' t'.
Proof.
  revert r t. induction ops as [|op ops IH]; intros r t Hr; cbn [registry_run].
  - exists t. split; [constructor|done].
  - pose proof (step_table r t op Hr) as H. destruct (registry_step r op) as [a r1]. destruct H as (t1 & Hs & Hr1).
    pose proof (IH r1 t1 Hr1) as H. destruct (registry_run r1 ops) as [l r2]. destruct H as (t2 & H & Hr2).
    exists t2. split; [by econstructor|done].
Qed.

(** C18: the registry, with its entries made and erased on the way, is one table
    from streams and senders to sessions: every run of operations answers as the
    table does (a session is accepted where there is none and nothing is
    accepted once all are shut down, what is taken is what was accepted, another
    session is never removed, all that are left are shut down, each once),
    lookups agree, and no empty entry is left behind. *)
Theorem session_registry_refines ops :
  let '(l, r) := registry_run registry ops in
  ∃ t, table_run (Table ∅ false) ops l t ∧
    (∀ k, find_receiver_session r k = entries t !! (k, None)) ∧
    (∀ k i, find_sender_session r k i = entries t !! (k, Some i)) ∧
    (∀ k, k ∈ receivers r ↔ is_Some (entries t !! (k, None))) ∧
    (∀ k, is_Some (sessions r !! k) → ∃ i, is_Some (entries t !! (k, i))).
Proof.
  pose proof (registry_run_table registry _ ops represents_init) as H. destruct (registry_run registry ops) as [l r].
  destruct H as (t & Hrun & [Ht Hc Hf]). exists t. split; [done|]. split_and!.
  - intros k. by rewrite Ht.
  - intros k i. by rewrite Ht.
  - intros k. rewrite Ht. unfold receivers, lookup_entry. cbn [fst snd]. rewrite list_elem_of_filter, elem_of_sorted_keys.
    split; [by intros []|]. intros H. split; [done|]. unfold find_receiver_session in H. destruct (sessions r !! k); [done|by destruct H].
  - intros k [e He]. pose proof (Hf k e He) as Hne. unfold is_empty in Hne. destruct (receiver e) as [s|] eqn:Er.
    + exists None, s. rewrite Ht. unfold lookup_entry, find_receiver_session. cbn. by rewrite He.
    + apply bool_decide_eq_false in Hne. apply map_choose in Hne as (i & s & Hi). exists (Some i), s. rewrite Ht.
      unfold lookup_entry, find_sender_session. cbn. by rewrite He.
Qed.
