(* ===== verification/StunMessage.v ===== *)
(** STUN messages of an ICE agent: src/media/webrtc/stun_message.cpp.

    A packet is a list of bytes.  [Fail 0] is [std::nullopt].  HMAC with SHA-1
    ([None]: OpenSSL fails) and the checksum of boost::crc_32_type are
    parameters.  Strings are lists of bytes.  Sizes are far below 2^64. *)
From S2P Require Import Prelude.

Definition stun_header_size : Z := 20.
Definition stun_magic_cookie : Z := 0x2112a442.
Definition stun_binding_request_type : Z := 0x0001.
Definition stun_binding_success_response_type : Z := 0x0101.
Definition stun_binding_error_response_type : Z := 0x0111.
Definition stun_attribute_username : Z := 0x0006.
Definition stun_attribute_message_integrity : Z := 0x0008.
Definition stun_attribute_error_code : Z := 0x0009.
Definition stun_attribute_unknown_attributes : Z := 0x000a.
Definition stun_attribute_xor_mapped_address : Z := 0x0020.
Definition stun_attribute_priority : Z := 0x0024.
Definition stun_attribute_use_candidate : Z := 0x0025.
Definition stun_attribute_fingerprint : Z := 0x8028.
Definition stun_attribute_ice_controlled : Z := 0x8029.
Definition stun_attribute_ice_controlling : Z := 0x802a.
Definition stun_message_integrity_size : Z := 20.
Definition stun_fingerprint_xor : Z := 0x5354554e.

Abbreviation nullopt := (Fail 0).

Record stun_binding_request := StunBindingRequest {
  transaction_id : list Z;
  unknown_required_attributes : list Z;
  priority : bool;
  use_candidate : bool;
  ice_controlling : bool;
  ice_controlled : bool
}.

(** * Words *)

Definition read_u16 (data : list Z) (p : Z) : outcome Z :=
  b0 ← ld data p; b1 ← ld data (p + 1);
  Ok (u16 (Z.lor (Z.shiftl b0 8) b1)).

Definition read_u32 (data : list Z) (p : Z) : outcome Z :=
  b0 ← ld data p; b1 ← ld data (p + 1); b2 ← ld data (p + 2); b3 ← ld data (p + 3);
  Ok (Z.lor (Z.lor (Z.lor (Z.shiftl b0 24) (Z.shiftl b1 16)) (Z.shiftl b2 8)) b3).

Definition write_u16 (data : list Z) (p value : Z) : outcome (list Z) :=
  st data p [u8 (Z.shiftr value 8); u8 (Z.land value 0xff)].

Definition append_u16 (output : list Z) (value : Z) : list Z :=
  output ++ [u8 (Z.shiftr value 8); u8 (Z.land value 0xff)].

Definition append_u32 (output : list Z) (value : Z) : list Z :=
  output ++ [u8 (Z.shiftr value 24); u8 (Z.land (Z.shiftr value 16) 0xff);
             u8 (Z.land (Z.shiftr value 8) 0xff); u8 (Z.land value 0xff)].

Definition set_message_length (packet : list Z) (body_size : Z) : outcome (list Z) :=
  if body_size <=? 65535 then write_u16 packet 2 (u16 body_size) else Ok packet.

(** The loop that pads to a word: at most three rounds. *)
Fixpoint pad_loop (fuel : nat) (packet : list Z) : list Z :=
  match fuel with
  | O => packet
  | S fuel => if zlen packet mod 4 =? 0 then packet else pad_loop fuel (packet ++ [0])
  end.

Definition append_attribute (packet : list Z) (type : Z) (value : list Z) : list Z :=
  let packet := append_u16 packet type in
  let packet := append_u16 packet (u16 (zlen value)) in
  pad_loop 3 (packet ++ value).

Definition make_header (type : Z) (transaction_id : list Z) : list Z :=
  let packet := append_u16 [] type in
  let packet := append_u16 packet 0 in
  let packet := append_u32 packet stun_magic_cookie in
  packet ++ transaction_id.

(** * The address of the peer *)

Inductive address := V4 (bytes : list Z) | V6 (bytes : list Z).
Record endpoint := Endpoint { ip : address; port : Z }.

Definition is_v4 (a : address) : bool := match a with V4 _ => true | V6 _ => false end.

Definition cookie_bytes : list Z := [0x21; 0x12; 0xa4; 0x42].

Fixpoint xor_bytes (mask : Z → outcome Z) (index : Z) (address : list Z) : outcome (list Z) :=
  match address with
  | [] => Ok []
  | a :: l => m ← mask index; k ← xor_bytes mask (index + 1) l; Ok (u8 (Z.lxor a m) :: k)
  end.

Definition v6_mask (transaction_id : list Z) (index : Z) : outcome Z :=
  if index <? zlen cookie_bytes then ld cookie_bytes index
  else ld transaction_id (index - zlen cookie_bytes).

Definition xor_mapped_address (endpoint : endpoint) (transaction_id : list Z) : outcome (list Z) :=
  let value := [0] ++ [if is_v4 (ip endpoint) then 0x01 else 0x02] in
  let value := append_u16 value (u16 (Z.lxor (port endpoint) (u16 (Z.shiftr stun_magic_cookie 16)))) in
  match ip endpoint with
  | V4 address => l ← xor_bytes (ld cookie_bytes) 0 address; Ok (value ++ l)
  | V6 address => l ← xor_bytes (v6_mask transaction_id) 0 address; Ok (value ++ l)
  end.

(** * The attributes of a message *)

Record stun_binding_attributes := StunBindingAttributes {
  a_username : option (list Z);
  message_integrity_offset : option Z;
  fingerprint_offset : option Z;
  a_unknown_required : list Z;
  a_priority : bool;
  a_ice_controlling : bool;
  a_ice_controlled : bool;
  a_use_candidate : bool
}.

Definition no_attributes : stun_binding_attributes :=
  StunBindingAttributes None None None [] false false false false.

Definition set_username (r : stun_binding_attributes) (v : list Z) : stun_binding_attributes :=
  StunBindingAttributes (Some v) (message_integrity_offset r) (fingerprint_offset r) (a_unknown_required r)
    (a_priority r) (a_ice_controlling r) (a_ice_controlled r) (a_use_candidate r).
Definition set_integrity (r : stun_binding_attributes) (o : Z) : stun_binding_attributes :=
  StunBindingAttributes (a_username r) (Some o) (fingerprint_offset r) (a_unknown_required r)
    (a_priority r) (a_ice_controlling r) (a_ice_controlled r) (a_use_candidate r).
Definition set_fingerprint (r : stun_binding_attributes) (o : Z) : stun_binding_attributes :=
  StunBindingAttributes (a_username r) (message_integrity_offset r) (Some o) (a_unknown_required r)
    (a_priority r) (a_ice_controlling r) (a_ice_controlled r) (a_use_candidate r).
Definition set_unknown (r : stun_binding_attributes) (t : Z) : stun_binding_attributes :=
  StunBindingAttributes (a_username r) (message_integrity_offset r) (fingerprint_offset r) (a_unknown_required r ++ [t])
    (a_priority r) (a_ice_controlling r) (a_ice_controlled r) (a_use_candidate r).
Definition set_seen (r : stun_binding_attributes) (p controlling controlled candidate : bool) : stun_binding_attributes :=
  StunBindingAttributes (a_username r) (message_integrity_offset r) (fingerprint_offset r) (a_unknown_required r)
    p controlling controlled candidate.

Definition has_value {A} (o : option A) : bool := match o with Some _ => true | None => false end.

(** The chain of conditions on the type, for the attribute at [offset]; its value
    is read when it is used. *)
Definition scan_attribute (value : outcome (list Z)) (result : stun_binding_attributes) (offset type length : Z)
  : outcome stun_binding_attributes :=
  if type =? stun_attribute_username then
    if has_value (a_username result) then nullopt
    else v ← value; Ok (set_username result v)
  else if type =? stun_attribute_message_integrity then
    if negb (length =? stun_message_integrity_size) || has_value (message_integrity_offset result) then nullopt
    else Ok (set_integrity result offset)
  else if type =? stun_attribute_priority then
    if negb (length =? 4) || a_priority result then nullopt
    else Ok (set_seen result true (a_ice_controlling result) (a_ice_controlled result) (a_use_candidate result))
  else if type =? stun_attribute_use_candidate then
    if negb (length =? 0) || a_use_candidate result then nullopt
    else Ok (set_seen result (a_priority result) (a_ice_controlling result) (a_ice_controlled result) true)
  else if type =? stun_attribute_fingerprint then
    if negb (length =? 4) || has_value (fingerprint_offset result) then nullopt
    else Ok (set_fingerprint result offset)
  else if type =? stun_attribute_ice_controlling then
    if negb (length =? 8) || a_ice_controlling result then nullopt
    else Ok (set_seen result (a_priority result) true (a_ice_controlled result) (a_use_candidate result))
  else if type =? stun_attribute_ice_controlled then
    if negb (length =? 8) || a_ice_controlled result then nullopt
    else Ok (set_seen result (a_priority result) (a_ice_controlling result) true (a_use_candidate result))
  else if (type <? 0x8000) && negb (has_value (message_integrity_offset result))
          && negb (type =? stun_attribute_error_code) && negb (type =? stun_attribute_unknown_attributes)
          && negb (type =? stun_attribute_xor_mapped_address) then
    Ok (set_unknown result type)
  else Ok result.

Definition next_attribute (offset length : Z) : Z :=
  let offset := offset + 4 + length in offset + (4 - offset mod 4) mod 4.

(** One round of the loop. *)
Definition scan_step (packet : list Z) (result : stun_binding_attributes) (offset : Z)
  : outcome (stun_binding_attributes * Z) :=
  type ← read_u16 packet offset;
  length ← read_u16 packet (offset + 2);
  if offset + 4 + length >? zlen packet then nullopt
  else if has_value (message_integrity_offset result) && negb (type =? stun_attribute_fingerprint) then
    Ok (result, next_attribute offset length)
  else
    result ← scan_attribute (slice packet (offset + 4) length) result offset type length;
    Ok (result, next_attribute offset length).

(** Every round moves at least four bytes on. *)
Fixpoint scan_loop (fuel : nat) (packet : list Z) (result : stun_binding_attributes) (offset : Z)
  : outcome (stun_binding_attributes * Z) :=
  if offset + 4 <=? zlen packet then
    match fuel with
    | O => Ub
    | S fuel => '(result, offset) ← scan_step packet result offset; scan_loop fuel packet result offset
    end
  else Ok (result, offset).

Definition scan_stun_attributes (packet : list Z) : outcome stun_binding_attributes :=
  '(result, offset) ← scan_loop (length packet) packet no_attributes stun_header_size;
  if negb (offset =? zlen packet) then nullopt else Ok result.

Definition is_stun_message (packet : list Z) : outcome bool :=
  if zlen packet <? stun_header_size then Ok false else
  b ← ld packet 0;
  if negb (Z.land b 0xc0 =? 0) then Ok false else
  v ← read_u32 packet 4;
  Ok (v =? stun_magic_cookie).

(** * Authentication *)

Section Authentication.
Variable HMAC : list Z → list Z → option (list Z).
Variable crc_32 : list Z → Z.

Definition hmac_sha1 (password data : list Z) : option (list Z) :=
  if zlen password >? 2 ^ 31 - 1 then None else
  match HMAC password data with
  | Some digest => if zlen digest =? stun_message_integrity_size then Some digest else None
  | None => None
  end.

Definition fingerprint (data : list Z) : Z := Z.lxor (u32 (crc_32 data)) stun_fingerprint_xor.

Definition verify_message_integrity (packet : list Z) (attribute_offset : Z) (password : list Z) : outcome bool :=
  if (attribute_offset <? stun_header_size) || (attribute_offset + 24 >? zlen packet) then Ok false else
  input ← slice packet 0 attribute_offset;
  let body_size := attribute_offset - stun_header_size + 24 in
  if body_size >? 65535 then Ok false else
  input ← set_message_length input body_size;
  match hmac_sha1 password input with
  | None => Ok false
  | Some digest => m ← slice packet (attribute_offset + 4) (zlen digest); Ok (bool_decide (digest = m))
  end.

Definition verify_fingerprint (packet : list Z) (attribute_offset : Z) : outcome bool :=
  if (attribute_offset <? stun_header_size) || (attribute_offset + 8 >? zlen packet) then Ok false else
  data ← slice packet 0 attribute_offset;
  v ← read_u32 packet (attribute_offset + 4);
  Ok (fingerprint data =? v).

(** The packet, or [None] when it cannot be signed. *)
Definition append_integrity_and_fingerprint (packet password : list Z) : outcome (option (list Z)) :=
  packet ← set_message_length packet (zlen packet - stun_header_size + 24);
  match hmac_sha1 password packet with
  | None => Ok None
  | Some digest =>
      let packet := append_attribute packet stun_attribute_message_integrity digest in
      packet ← set_message_length packet (zlen packet - stun_header_size + 8);
      let value := fingerprint packet in
      let bytes := [u8 (Z.shiftr value 24); u8 (Z.land (Z.shiftr value 16) 0xff);
                    u8 (Z.land (Z.shiftr value 8) 0xff); u8 (Z.land value 0xff)] in
      Ok (Some (append_attribute packet stun_attribute_fingerprint bytes))
  end.

(** An empty packet when it cannot be signed. *)
Definition signed (packet password : list Z) : outcome (list Z) :=
  r ← append_integrity_and_fingerprint packet password;
  Ok (match r with Some packet => packet | None => [] end).

Definition validate_stun_binding_authentication (packet : list Z) (attributes : stun_binding_attributes)
    (expected_username password : list Z) : outcome bool :=
  match a_username attributes with
  | None => Ok false
  | Some username =>
      if negb (bool_decide (username = expected_username)) then Ok false else
      match message_integrity_offset attributes with
      | None => Ok false
      | Some integrity =>
          ok ← verify_message_integrity packet integrity password;
          if negb ok then Ok false else
          match fingerprint_offset attributes with
          | None => Ok false
          | Some fp => if negb (fp + 8 =? zlen packet) then Ok false else verify_fingerprint packet fp
          end
      end
  end.

(** * Messages *)

Definition parse_stun_binding_request (packet expected_username password : list Z) : outcome stun_binding_request :=
  stun ← is_stun_message packet;
  if negb stun then nullopt else
  message_type ← read_u16 packet 0;
  if negb (message_type =? stun_binding_request_type) then nullopt else
  body_size ← read_u16 packet 2;
  if negb (body_size =? zlen packet - stun_header_size) then nullopt else
  attributes ← scan_stun_attributes packet;
  ok ← validate_stun_binding_authentication packet attributes expected_username password;
  if negb ok then nullopt else
  id ← slice packet 8 12;
  Ok (StunBindingRequest id (a_unknown_required attributes) (a_priority attributes) (a_use_candidate attributes)
        (a_ice_controlling attributes) (a_ice_controlled attributes)).

Definition make_stun_binding_success_response (request : stun_binding_request) (remote_endpoint : endpoint)
    (password : list Z) : outcome (list Z) :=
  let packet := make_header stun_binding_success_response_type (transaction_id request) in
  mapped_address ← xor_mapped_address remote_endpoint (transaction_id request);
  signed (append_attribute packet stun_attribute_xor_mapped_address mapped_address) password.

Definition make_stun_binding_request (transaction_id username password : list Z) (priority tie_breaker : Z)
  : outcome (list Z) :=
  let packet := make_header stun_binding_request_type transaction_id in
  let packet := append_attribute packet stun_attribute_username username in
  let value := append_u32 [] priority in
  let packet := append_attribute packet stun_attribute_priority value in
  let value := append_u32 [] (u32 (Z.shiftr tie_breaker 32)) in
  let value := append_u32 value (u32 (Z.land tie_breaker 0xffffffff)) in
  let packet := append_attribute packet stun_attribute_ice_controlling value in
  let packet := append_attribute packet stun_attribute_use_candidate [] in
  signed packet password.

Definition parse_stun_binding_success_response (packet password : list Z) : outcome (list Z) :=
  stun ← is_stun_message packet;
  if negb stun then nullopt else
  message_type ← read_u16 packet 0;
  if negb (message_type =? stun_binding_success_response_type) then nullopt else
  body_size ← read_u16 packet 2;
  if negb (body_size =? zlen packet - stun_header_size) then nullopt else
  attributes ← scan_stun_attributes packet;
  match message_integrity_offset attributes, fingerprint_offset attributes with
  | Some integrity, Some fp =>
      ok ← verify_message_integrity packet integrity password;
      if negb ok then nullopt else
      if negb (fp + 8 =? zlen packet) then nullopt else
      ok ← verify_fingerprint packet fp;
      if negb ok then nullopt else
      slice packet 8 12
  | _, _ => nullopt
  end.

Definition make_stun_binding_error_response (request : stun_binding_request) (error_code : Z)
    (reason unknown_attributes password : list Z) : outcome (list Z) :=
  let packet := make_header stun_binding_error_response_type (transaction_id request) in
  let error_value := [0; 0; u8 (Z.quot error_code 100); u8 (Z.rem error_code 100)] ++ reason in
  let packet := append_attribute packet stun_attribute_error_code error_value in
  let packet :=
    match unknown_attributes with
    | [] => packet
    | _ => append_attribute packet stun_attribute_unknown_attributes (fold_left append_u16 unknown_attributes [])
    end in
  signed packet password.
End Authentication.
