(* ===== verification/StunMessageSpec.v ===== *)
(** STUN: what is written is read back, what is accepted was authenticated, and
    no packet leads the reader astray. *)
From S2P Require Import Prelude StunMessage.

(** * Words *)

Lemma read_u16_ok m p : 0 ≤ p → p + 2 ≤ zlen m → ∃ v, read_u16 m p = Ok v ∧ is_uint 16 v.
Proof. intros. unfold read_u16. rewrite !ld_ok by lia. run. eauto with cint. Qed.

Lemma read_u32_ok m p : 0 ≤ p → p + 4 ≤ zlen m → ∃ v, read_u32 m p = Ok v.
Proof. intros. unfold read_u32. rewrite !ld_ok by lia. run. eauto. Qed.

Lemma read_u16_holds m p v : holds m p (be_bytes 2 v) → is_uint 16 v → read_u16 m p = Ok v.
Proof.
  intros H Hv. pose proof (bytes_ok_be_bytes 2 v) as Hb. pose proof (be_bytes_range2 v Hv) as E.
  destruct (be_bytes 2 v) as [|b0 [|b1 [|]]] eqn:Eb; try done.
  apply holds_ld2 in H as [H0 H1]. unfold read_u16. rewrite H0. run. rewrite H1. run.
  inversion_clear Hb as [|? ? _ Hb']. inversion_clear Hb'. rewrite be_val_2, E by done. by rewrite u16_id.
Qed.

Lemma read_u32_holds m p v : holds m p (be_bytes 4 v) → is_uint 32 v → read_u32 m p = Ok v.
Proof.
  intros H Hv. pose proof (bytes_ok_be_bytes 4 v) as Hb. pose proof (be_bytes_range4 v Hv) as E.
  destruct (be_bytes 4 v) as [|b0 [|b1 [|b2 [|b3 [|]]]]] eqn:Eb; try done.
  rewrite !holds_cons in H. destruct H as (H0 & H1 & H2 & H3 & _). unfold read_u32.
  replace (p + 2) with (p + 1 + 1) by lia. replace (p + 3) with (p + 1 + 1 + 1) by lia.
  rewrite H0. run. rewrite H1. run. rewrite H2. run. rewrite H3. run.
  repeat match goal with H : bytes_ok (_ :: _) |- _ => inversion_clear H | H : Forall _ (_ :: _) |- _ => inversion_clear H end.
  by rewrite be_val_4, E.
Qed.

Lemma word_bytes v : [u8 (Z.shiftr v 8); u8 (Z.land v 0xff)] = be_bytes 2 v.
Proof. rewrite be_bytes_2. by_cells ltac:(unfold u8; masks; dlia || reflexivity). Qed.
Lemma dword_bytes v :
  [u8 (Z.shiftr v 24); u8 (Z.land (Z.shiftr v 16) 0xff); u8 (Z.land (Z.shiftr v 8) 0xff); u8 (Z.land v 0xff)] = be_bytes 4 v.
Proof. rewrite be_bytes_4. by_cells ltac:(unfold u8; masks; dlia || reflexivity). Qed.

Lemma append_u16_eq l v : append_u16 l v = l ++ be_bytes 2 v.
Proof. unfold append_u16. by rewrite word_bytes. Qed.
Lemma append_u32_eq l v : append_u32 l v = l ++ be_bytes 4 v.
Proof. unfold append_u32. by rewrite dword_bytes. Qed.

Lemma lxor_range w a b : 0 ≤ w → is_uint w a → is_uint w b → is_uint w (Z.lxor a b).
Proof.
  unfold is_uint. intros Hw Ha Hb. assert (0 ≤ Z.lxor a b) as H0 by (apply Z.lxor_nonneg; lia). split; [done|].
  rewrite <- (Z.mod_small a (2 ^ w)), <- (Z.mod_small b (2 ^ w)) by done. rewrite <- !Z.land_ones by done.
  replace (Z.lxor (Z.land a (Z.ones w)) (Z.land b (Z.ones w))) with (Z.land (Z.lxor a b) (Z.ones w)).
  - rewrite Z.land_ones by done. apply Z.mod_pos_bound. lia.
  - apply Z.bits_inj'. intros i _. rewrite Z.lxor_spec, !Z.land_spec, Z.lxor_spec. by destruct (Z.testbit a i), (Z.testbit b i), (Z.testbit (Z.ones w) i).
Qed.

(** * The length in the header *)

Definition with_length (packet : list Z) (n : Z) : list Z := put packet 2 (be_bytes 2 n).

Lemma set_message_length_eq packet n : 4 ≤ zlen packet → 0 ≤ n ≤ 65535 →
  set_message_length packet n = Ok (with_length packet n).
Proof.
  intros Hp Hn. unfold set_message_length, with_length, write_u16. rewrite Zle_imp_le_bool by lia.
  rewrite u16_id by (unfold is_uint; dlia). rewrite word_bytes, st_ok by llia. done.
Qed.

Lemma zlen_with_length packet n : 4 ≤ zlen packet → zlen (with_length packet n) = zlen packet.
Proof. intros. unfold with_length. llia. Qed.

Lemma with_length_app pre post n : 4 ≤ zlen pre → with_length (pre ++ post) n = with_length pre n ++ post.
Proof.
  intros H. unfold with_length, put, zlen in *. rewrite length_be_bytes. change (Z.to_nat 2 + 2)%nat with 4%nat.
  rewrite take_app_le, drop_app_le by lia. by rewrite <- !app_assoc.
Qed.

Lemma with_length_twice packet n k : 4 ≤ zlen packet → with_length (with_length packet n) k = with_length packet k.
Proof.
  destruct packet as [|a [|b [|c [|d l]]]]; unfold zlen; cbn [length]; intros; try lia.
  unfold with_length, put. rewrite !length_be_bytes. reflexivity.
Qed.

Lemma with_length_holds packet n : 4 ≤ zlen packet → holds (with_length packet n) 2 (be_bytes 2 n).
Proof. intros. apply holds_put; llia. Qed.

Lemma with_length_type packet n l : zlen l = 2 → 4 ≤ zlen packet → holds packet 0 l → holds (with_length packet n) 0 l.
Proof.
  intros Hl Hp (_ & _ & H). unfold holds, with_length. rewrite sub_put_before by lia. split_and!; [lia|llia|done].
Qed.

Lemma with_length_rest packet n p l : 4 ≤ p → holds packet p l → holds (with_length packet n) p l.
Proof.
  intros Hp (H1 & H2 & H). pose proof (zlen_nonneg l). unfold holds, with_length. split_and!; [done|llia|].
  rewrite <- H at 2. unfold sub, put. rewrite length_be_bytes. change (Z.to_nat 2 + 2)%nat with 4%nat.
  unfold zlen in *. rewrite drop_app_ge by (rewrite length_take; lia). rewrite length_take, drop_app_ge by (rewrite length_be_bytes; lia).
  rewrite length_be_bytes, drop_drop. do 2 f_equal. lia.
Qed.

(** * Attributes as bytes *)

Definition padding (n : Z) : Z := (4 - n mod 4) mod 4.
Definition encode (a : Z * list Z) : list Z :=
  be_bytes 2 a.1 ++ be_bytes 2 (zlen a.2) ++ a.2 ++ replicate (Z.to_nat (padding (zlen a.2))) 0.
Definition attribute_ok (a : Z * list Z) : Prop := is_uint 16 a.1 ∧ zlen a.2 < 65536.

Lemma padding_range n : 0 ≤ padding n < 4.
Proof. unfold padding. dlia. Qed.
Lemma padding_aligned n : (n + padding n) mod 4 = 0.
Proof. unfold padding. dlia. Qed.

Lemma zlen_encode a : zlen (encode a) = 4 + zlen a.2 + padding (zlen a.2).
Proof.
  unfold encode. pose proof (padding_range (zlen a.2)). autorewrite with zlen. unfold zlen at 2. rewrite length_replicate. lia.
Qed.
Lemma zlen_encode_aligned a : zlen (encode a) mod 4 = 0.
Proof. rewrite zlen_encode. pose proof (padding_aligned (zlen a.2)). dlia. Qed.

Lemma pad_loop_eq packet fuel n : zlen packet = n → padding n ≤ Z.of_nat fuel →
  pad_loop fuel packet = packet ++ replicate (Z.to_nat (padding n)) 0.
Proof.
  revert packet n. induction fuel as [|fuel IH]; intros packet n Hn Hf; cbn [pad_loop].
  - replace (padding n) with 0 by (pose proof (padding_range n); lia). by rewrite app_nil_r.
  - rewrite Hn. destruct (Z.eqb_spec (n mod 4) 0) as [E|E].
    + unfold padding. rewrite E. by rewrite app_nil_r.
    + assert (padding n = 1 + padding (n + 1)) as Hs by (unfold padding in *; dlia).
      rewrite (IH _ (n + 1)) by llia. rewrite Hs, <- app_assoc.
      pose proof (padding_range (n + 1)). replace (Z.to_nat (1 + padding (n + 1))) with (S (Z.to_nat (padding (n + 1)))) by lia. done.
Qed.

Lemma append_attribute_eq packet t v : zlen packet mod 4 = 0 → attribute_ok (t, v) →
  append_attribute packet t v = packet ++ encode (t, v).
Proof.
  intros Hp [_ Hv]. unfold append_attribute, encode. cbn [fst snd] in *. pose proof (zlen_nonneg v).
  rewrite u16_id by (unfold is_uint; dlia). rewrite !append_u16_eq.
  rewrite (pad_loop_eq _ 3 (zlen packet + 4 + zlen v)) by (try llia; pose proof (padding_range (zlen packet + 4 + zlen v)); lia).
  replace (padding (zlen packet + 4 + zlen v)) with (padding (zlen v)) by (unfold padding; dlia). by rewrite <- !app_assoc.
Qed.

(** * The scan *)

Lemma bind_inv {A B} (x : outcome A) (f : A → outcome B) b : x ≫= f = Ok b → ∃ a, x = Ok a ∧ f a = Ok b.
Proof. destruct x; naive_solver. Qed.

Ltac next H := match type of H with
  | (if ?b then _ else _) = Ok _ => let E := fresh "E" in destruct b eqn:E; [discriminate H || idtac|discriminate H || idtac]
  | mbind _ _ = Ok _ => let a := fresh "a" in let E := fresh "E" in apply bind_inv in H as (a & E & H)
  end.

Lemma next_attribute_range offset n : offset + 4 + n ≤ next_attribute offset n < offset + 8 + n.
Proof. unfold next_attribute. dlia. Qed.
Lemma next_attribute_encode offset n : offset mod 4 = 0 → next_attribute offset n = offset + (4 + n + padding n).
Proof. intros. unfold next_attribute, padding. cbv zeta. dlia. Qed.

(** The round for an attribute with the value [v]. *)
Definition scan_value (result : stun_binding_attributes) (offset : Z) (a : Z * list Z) : outcome stun_binding_attributes :=
  if has_value (message_integrity_offset result) && negb (a.1 =? stun_attribute_fingerprint) then Ok result
  else scan_attribute (Ok a.2) result offset a.1 (zlen a.2).

Lemma scan_step_value packet r offset t n v :
  read_u16 packet offset = Ok t → read_u16 packet (offset + 2) = Ok n → offset + 4 + n ≤ zlen packet →
  slice packet (offset + 4) n = Ok v → zlen v = n →
  scan_step packet r offset = (r ← scan_value r offset (t, v); Ok (r, next_attribute offset n)).
Proof.
  intros Ht Hn Hb Hs Hv. unfold scan_step, scan_value. rewrite Ht. run. rewrite Hn. run. cbn [fst snd].
  rewrite Z.gtb_ltb. destruct (Z.ltb_spec (zlen packet) (offset + 4 + n)); [lia|]. rewrite Hs, Hv.
  by destruct (has_value _ && _).
Qed.

(** Every attribute is read in bounds, and moves the scan on. *)
Lemma scan_step_cases packet r offset : 0 ≤ offset → offset + 4 ≤ zlen packet →
  scan_step packet r offset = nullopt ∨
  ∃ t n v, read_u16 packet offset = Ok t ∧ read_u16 packet (offset + 2) = Ok n ∧ is_uint 16 n ∧
    offset + 4 + n ≤ zlen packet ∧ slice packet (offset + 4) n = Ok v ∧ zlen v = n.
Proof.
  intros Ho Hp. destruct (read_u16_ok packet offset) as (t & Ht & _); [lia..|].
  destruct (read_u16_ok packet (offset + 2)) as (n & Hn & Hr); [lia..|].
  destruct (decide (offset + 4 + n ≤ zlen packet)) as [Hle|Hgt].
  - right. exists t, n, (sub packet (offset + 4) n). unfold is_uint in Hr. rewrite slice_ok, zlen_sub by lia. done.
  - left. unfold scan_step. rewrite Ht. run. rewrite Hn. run.
    rewrite Z.gtb_ltb. destruct (Z.ltb_spec (zlen packet) (offset + 4 + n)); [done|lia].
Qed.

Lemma scan_value_cases r offset a : scan_value r offset a = nullopt ∨ ∃ r', scan_value r offset a = Ok r'.
Proof. unfold scan_value, scan_attribute. run. repeat case_match; eauto. Qed.

Lemma scan_loop_cases fuel packet r offset : 0 ≤ offset → zlen packet ≤ offset + 4 * Z.of_nat fuel →
  scan_loop fuel packet r offset = nullopt ∨ ∃ r' offset', scan_loop fuel packet r offset = Ok (r', offset').
Proof.
  revert r offset. induction fuel as [|fuel IH]; intros r offset Ho Hf; cbn [scan_loop];
    (destruct (Z.leb_spec (offset + 4) (zlen packet)); [|eauto]).
  - lia.
  - destruct (scan_step_cases packet r offset) as [-> | (t & n & v & Ht & Hn & Hr & Hb & Hs & Hv)]; [lia..|by left|].
    rewrite (scan_step_value _ _ _ _ _ _ Ht Hn Hb Hs Hv).
    destruct (scan_value_cases r offset (t, v)) as [-> | [r' ->]]; [by left|]. run. unfold is_uint in Hr.
    pose proof (next_attribute_range offset n). apply IH; lia.
Qed.

Lemma scan_cases packet : scan_stun_attributes packet = nullopt ∨ ∃ r, scan_stun_attributes packet = Ok r.
Proof.
  unfold scan_stun_attributes.
  destruct (scan_loop_cases (length packet) packet no_attributes stun_header_size) as [-> | (r & o & ->)];
    [done|unfold zlen, stun_header_size; lia|by left|]. run. case_match; eauto.
Qed.

(** ** A message as a list of attributes *)

Fixpoint scan_list (r : stun_binding_attributes) (offset : Z) (l : list (Z * list Z)) : outcome stun_binding_attributes :=
  match l with
  | [] => Ok r
  | a :: l => r ← scan_value r offset a; scan_list r (offset + zlen (encode a)) l
  end.

Lemma scan_step_encode packet r offset a : attribute_ok a → offset mod 4 = 0 → holds packet offset (encode a) →
  scan_step packet r offset = (r ← scan_value r offset a; Ok (r, offset + zlen (encode a))).
Proof.
  intros [Ht Hv] Ho H. destruct a as [t v]. unfold encode in H. cbn [fst snd] in *. pose proof (zlen_nonneg v).
  rewrite !holds_app, !zlen_be_bytes in H. change (Z.of_nat 2) with 2 in *.
  replace (offset + 2 + 2) with (offset + 4) in H by lia. destruct H as (H1 & H2 & H3 & H4).
  rewrite (scan_step_value packet r offset t (zlen v) v).
  - by rewrite next_attribute_encode, zlen_encode.
  - by apply read_u16_holds.
  - apply read_u16_holds; [done|unfold is_uint; dlia].
  - destruct H3; lia.
  - by apply holds_slice.
  - done.
Qed.

Lemma scan_loop_encode fuel packet r offset l : Forall attribute_ok l → offset mod 4 = 0 → (length l ≤ fuel)%nat →
  holds packet offset (concat (encode <$> l)) → zlen packet = offset + zlen (concat (encode <$> l)) →
  scan_loop fuel packet r offset = (r ← scan_list r offset l; Ok (r, zlen packet)).
Proof.
  intros Hl. revert fuel r offset. induction Hl as [|a l Ha Hl IH]; intros fuel r offset Ho Hf H Hz.
  - cbn in Hz. rewrite zlen_nil in Hz. destruct fuel; cbn [scan_loop scan_list];
      (destruct (Z.leb_spec (offset + 4) (zlen packet)); [lia|]); run; do 2 f_equal; lia.
  - destruct fuel as [|fuel]; [cbn in Hf; lia|]. cbn [fmap list_fmap concat] in *.
    apply holds_app in H as [H1 H2]. rewrite zlen_app in Hz. pose proof (zlen_encode a) as He.
    pose proof (padding_range (zlen a.2)). pose proof (zlen_nonneg a.2). pose proof (zlen_nonneg (concat (encode <$> l))).
    cbn [scan_loop scan_list]. destruct (Z.leb_spec (offset + 4) (zlen packet)); [|lia].
    rewrite (scan_step_encode _ _ _ _ Ha Ho H1). destruct (scan_value r offset a) as [| |r']; try done. run.
    apply IH; [|cbn in Hf; lia|done|lia]. pose proof (zlen_encode_aligned a). dlia.
Qed.

Lemma zlen_concat_encode l : 4 * Z.of_nat (length l) ≤ zlen (concat (encode <$> l)) ∧ zlen (concat (encode <$> l)) mod 4 = 0.
Proof.
  induction l as [|a l [IH IH']]; [done|]. cbn [fmap list_fmap concat length]. rewrite zlen_app, zlen_encode.
  pose proof (padding_range (zlen a.2)). pose proof (padding_aligned (zlen a.2)). pose proof (zlen_nonneg a.2). split; [lia|dlia].
Qed.

Lemma scan_encoded header l : zlen header = 20 → Forall attribute_ok l →
  scan_stun_attributes (header ++ concat (encode <$> l)) = scan_list no_attributes 20 l.
Proof.
  intros Hh Hl. destruct (zlen_concat_encode l) as [Hn _]. unfold scan_stun_attributes, stun_header_size.
  rewrite (scan_loop_encode _ _ _ _ l); [|done|done| | |by rewrite zlen_app, Hh].
  - destruct (scan_list no_attributes 20 l); [done..|]. run. by rewrite Z.eqb_refl.
  - rewrite length_app. unfold zlen in *. lia.
  - pose proof (holds_whole (header ++ concat (encode <$> l))) as H. apply holds_app in H as [_ H]. by rewrite Hh in H.
Qed.

(** * Signing *)

Section Signing.
Context (HMAC : list Z → list Z → option (list Z)) (crc_32 : list Z → Z).
Implicit Types (packet password : list Z).

Lemma hmac_size password data d : hmac_sha1 HMAC password data = Some d → zlen d = 20.
Proof. unfold hmac_sha1. repeat case_match; try done. intros [= <-]. by apply Z.eqb_eq. Qed.

Lemma fingerprint_range data : is_uint 32 (fingerprint crc_32 data).
Proof. apply lxor_range; [lia|apply u32_range|done]. Qed.

(** A packet [body], signed: [body] with a length, and the two attributes. *)
Definition integrity_of (body digest : list Z) : list Z :=
  with_length body (zlen body + 12) ++ encode (stun_attribute_message_integrity, digest).
Definition fingerprint_of (packet : list Z) : Z * list Z :=
  (stun_attribute_fingerprint, be_bytes 4 (fingerprint crc_32 packet)).

Lemma integrity_attribute_ok d : zlen d = 20 → attribute_ok (stun_attribute_message_integrity, d).
Proof. intros Hd. split; [by_eval|]. cbn [snd]. lia. Qed.
Lemma fingerprint_attribute_ok data : attribute_ok (fingerprint_of data).
Proof. split; [cbn [fst fingerprint_of]; by_eval|]. cbn [snd fingerprint_of]. by rewrite zlen_be_bytes. Qed.

Lemma signed_eq body password : 20 ≤ zlen body ≤ 65523 → zlen body mod 4 = 0 →
  signed HMAC crc_32 body password =
    Ok (match hmac_sha1 HMAC password (with_length body (zlen body + 4)) with
        | None => []
        | Some d => integrity_of body d ++ encode (fingerprint_of (integrity_of body d))
        end).
Proof.
  intros Hb Ha. unfold signed, append_integrity_and_fingerprint, stun_header_size.
  rewrite set_message_length_eq by lia. run. replace (zlen body - 20 + 24) with (zlen body + 4) by lia.
  destruct (hmac_sha1 _ _ _) as [d|] eqn:Ed; [|done]. apply hmac_size in Ed.
  pose proof (integrity_attribute_ok d Ed) as Hok.
  rewrite append_attribute_eq by (rewrite ?zlen_with_length by lia; done).
  assert (zlen (encode (stun_attribute_message_integrity, d)) = 24) as He by (rewrite zlen_encode; cbn [snd]; by rewrite Ed).
  rewrite zlen_app, He, zlen_with_length by lia. rewrite set_message_length_eq by (rewrite ?zlen_app, ?zlen_with_length by lia; lia). run.
  rewrite with_length_app, with_length_twice by (rewrite ?zlen_with_length by lia; lia).
  replace (zlen body + 24 - 20 + 8) with (zlen body + 12) by lia. fold (integrity_of body d).
  rewrite dword_bytes, append_attribute_eq; [done| |].
  - unfold integrity_of. rewrite zlen_app, He, zlen_with_length by lia. dlia.
  - apply fingerprint_attribute_ok.
Qed.

Lemma verify_message_integrity_ok body d post password : 20 ≤ zlen body ≤ 65523 →
  hmac_sha1 HMAC password (with_length body (zlen body + 4)) = Some d →
  verify_message_integrity HMAC (body ++ encode (stun_attribute_message_integrity, d) ++ post) (zlen body) password = Ok true.
Proof.
  intros Hb Hd. pose proof (hmac_size _ _ _ Hd) as Hz. pose proof (zlen_nonneg post).
  assert (zlen (encode (stun_attribute_message_integrity, d)) = 24) as He by (rewrite zlen_encode; cbn [snd]; by rewrite Hz).
  unfold verify_message_integrity, stun_header_size. rewrite !zlen_app, He.
  rewrite Z.gtb_ltb, (proj2 (Z.ltb_ge _ _)), (proj2 (Z.ltb_ge _ _)) by lia. cbn [orb].
  rewrite slice_ok, sub_app_exact by (rewrite ?zlen_app; lia). run.
  rewrite Z.gtb_ltb, (proj2 (Z.ltb_ge _ _)) by lia. rewrite set_message_length_eq by lia. run.
  replace (zlen body - 20 + 24) with (zlen body + 4) by lia. rewrite Hd.
  erewrite (holds_slice _ _ d); [run; by rewrite bool_decide_eq_true_2| |done].
  pose proof (holds_whole (body ++ encode (stun_attribute_message_integrity, d) ++ post)) as Hw.
  set (packet := body ++ _) in Hw at 1 |- *. apply holds_app in Hw as [_ Hw]. unfold encode in Hw. rewrite <- !app_assoc, !holds_app, !zlen_be_bytes in Hw. cbn [fst snd] in Hw.
  destruct Hw as (_ & _ & Hw & _). by replace (zlen body + 4) with (0 + zlen body + Z.of_nat 2 + Z.of_nat 2) by lia.
Qed.

Lemma verify_fingerprint_ok data : 20 ≤ zlen data →
  verify_fingerprint crc_32 (data ++ encode (fingerprint_of data)) (zlen data) = Ok true.
Proof.
  intros Hb. assert (zlen (encode (fingerprint_of data)) = 8) as He by done.
  unfold verify_fingerprint, stun_header_size. rewrite !zlen_app, He.
  rewrite Z.gtb_ltb, (proj2 (Z.ltb_ge _ _)), (proj2 (Z.ltb_ge _ _)) by lia. cbn [orb].
  rewrite slice_ok, sub_app_exact by (rewrite ?zlen_app; lia). run.
  rewrite (read_u32_holds _ _ (fingerprint crc_32 data)); [run; by rewrite Z.eqb_refl| |apply fingerprint_range].
  pose proof (holds_whole (data ++ encode (fingerprint_of data))) as H.
  set (packet := data ++ _) in H at 1 |- *. apply holds_app in H as [_ H].
  unfold encode, fingerprint_of in H. cbn [fst snd] in H. rewrite !holds_app, !zlen_be_bytes in H.
  destruct H as (_ & _ & H & _). by replace (zlen data + 4) with (0 + zlen data + Z.of_nat 2 + Z.of_nat 2) by lia.
Qed.

Lemma make_header_eq type id : make_header type id = be_bytes 2 type ++ be_bytes 2 0 ++ be_bytes 4 stun_magic_cookie ++ id.
Proof. unfold make_header. rewrite append_u32_eq, !append_u16_eq. by rewrite <- !app_assoc. Qed.

Lemma scan_list_app r offset l k :
  scan_list r offset (l ++ k) = (r ← scan_list r offset l; scan_list r (offset + zlen (concat (encode <$> l))) k).
Proof.
  revert r offset. induction l as [|a l IH]; intros r offset; cbn [app scan_list fmap list_fmap concat].
  - run. f_equal. change (zlen []) with 0. lia.
  - destruct (scan_value r offset a); [done..|]. run. rewrite IH, zlen_app. by rewrite Z.add_assoc.
Qed.

Definition message (type : Z) (id : list Z) (l : list (Z * list Z)) : list Z := make_header type id ++ concat (encode <$> l).

Lemma zlen_message type id l : zlen id = 12 → zlen (message type id l) = 20 + zlen (concat (encode <$> l)).
Proof. intros Hi. unfold message. rewrite make_header_eq. autorewrite with zlen. rewrite Hi. lia. Qed.

Lemma append_message type id l t v : zlen id = 12 → attribute_ok (t, v) →
  append_attribute (message type id l) t v = message type id (l ++ [(t, v)]).
Proof.
  intros Hi Ha. rewrite append_attribute_eq; [|rewrite zlen_message by done; destruct (zlen_concat_encode l); dlia|done].
  unfold message. rewrite fmap_app, concat_app. cbn [fmap list_fmap concat]. by rewrite app_nil_r, app_assoc.
Qed.

Definition request_attributes (username : list Z) (priority tie_breaker : Z) : list (Z * list Z) :=
  [(stun_attribute_username, username); (stun_attribute_priority, be_bytes 4 priority);
   (stun_attribute_ice_controlling, be_bytes 4 (u32 (Z.shiftr tie_breaker 32)) ++ be_bytes 4 (u32 (Z.land tie_breaker 0xffffffff)));
   (stun_attribute_use_candidate, [])].

(** What a reader finds in a signed message. *)
Record readable (type : Z) (id : list Z) (l : list (Z * list Z)) (password packet : list Z) (r : stun_binding_attributes) : Prop := Readable {
  r_body : holds packet 20 (concat (encode <$> l));
  r_stun : is_stun_message packet = Ok true;
  r_type : read_u16 packet 0 = Ok type;
  r_size : read_u16 packet 2 = Ok (zlen packet - stun_header_size);
  r_id : slice packet 8 12 = Ok id;
  r_scan : ∃ o, zlen packet = o + 32 ∧ scan_stun_attributes packet = Ok (set_fingerprint (set_integrity r o) (o + 24)) ∧
    verify_message_integrity HMAC packet o password = Ok true ∧ verify_fingerprint crc_32 packet (o + 24) = Ok true
}.

Lemma header_holds type id k n : zlen id = 12 →
  let packet := with_length (make_header type id ++ k) n in
  holds packet 0 (be_bytes 2 type) ∧ holds packet 2 (be_bytes 2 n) ∧ holds packet 4 (be_bytes 4 stun_magic_cookie) ∧ holds packet 8 id.
Proof.
  intros Hi. cbv zeta. pose proof (zlen_nonneg k). rewrite make_header_eq.
  assert (4 ≤ zlen ((be_bytes 2 type ++ be_bytes 2 0 ++ be_bytes 4 stun_magic_cookie ++ id) ++ k)) by llia.
  pose proof (holds_whole ((be_bytes 2 type ++ be_bytes 2 0 ++ be_bytes 4 stun_magic_cookie ++ id) ++ k)) as Hw.
  rewrite !holds_app, !zlen_be_bytes in Hw. destruct Hw as ((H1 & _ & H3 & H4) & _). split_and!.
  - by apply with_length_type.
  - by apply with_length_holds.
  - by apply with_length_rest.
  - by apply with_length_rest.
Qed.

(** The two top bits of a type are clear. *)
Lemma type_top_bits type : 0 ≤ type < 0x4000 → Z.land (type / 256 ^ Z.of_nat 1 mod 256) 0xc0 = 0.
Proof.
  intros Ht. apply Z.bits_inj'. intros i Hi'. rewrite Z.land_spec, Z.bits_0. destruct (decide (i < 6)).
  - replace (Z.testbit 0xc0 i) with false; [apply andb_false_r|].
    assert (i = 0 ∨ i = 1 ∨ i = 2 ∨ i = 3 ∨ i = 4 ∨ i = 5) as Hc by lia. by destruct_or! Hc; subst i.
  - rewrite (testbit_small _ 6); [done|dlia|lia].
Qed.

Lemma scan_signed l r digest data : scan_list no_attributes 20 l = Ok r → zlen digest = 20 →
  message_integrity_offset r = None → fingerprint_offset r = None →
  scan_list no_attributes 20 (l ++ [(stun_attribute_message_integrity, digest); fingerprint_of data]) =
  let o := 20 + zlen (concat (encode <$> l)) in Ok (set_fingerprint (set_integrity r o) (o + 24)).
Proof.
  intros Hscan Hz Hri Hrf. cbv zeta. set (o := 20 + _). set (mi := (stun_attribute_message_integrity, digest)).
  assert (zlen (encode mi) = 24) as Hmi by (rewrite zlen_encode; unfold mi; cbn [snd]; by rewrite Hz).
  rewrite scan_list_app, Hscan. run. fold o. cbn [scan_list]. unfold scan_value. rewrite Hri. cbn [has_value andb].
  assert (scan_attribute (Ok mi.2) r o mi.1 (zlen mi.2) = Ok (set_integrity r o)) as ->.
  { unfold scan_attribute, mi. cbn [fst snd]. rewrite Hz, Hri. eval_tests. done. }
  run. unfold scan_attribute. cbn [fst snd fingerprint_of]. eval_tests.
  cbn [has_value message_integrity_offset fingerprint_offset set_integrity andb negb]. rewrite Hrf, Hmi. eval_tests. done.
Qed.

Lemma signed_readable type id l password r packet :
  0 ≤ type < 0x4000 → zlen id = 12 → Forall attribute_ok l → zlen (concat (encode <$> l)) ≤ 65503 →
  scan_list no_attributes 20 l = Ok r → message_integrity_offset r = None → fingerprint_offset r = None →
  signed HMAC crc_32 (message type id l) password = Ok packet → packet ≠ [] →
  readable type id l password packet r.
Proof.
  intros Ht Hi Hl Hsz Hscan Hri Hrf Hs Hne. pose proof (zlen_message type id l Hi) as Hm.
  destruct (zlen_concat_encode l) as [Hlen Hal]. rewrite signed_eq in Hs by (rewrite Hm; dlia). apply Ok_inj in Hs.
  destruct (hmac_sha1 _ _ _) as [d|] eqn:Hd; [|by subst]. pose proof (hmac_size _ _ _ Hd) as Hz.
  set (o := zlen (message type id l)) in *. set (fp := fingerprint_of _) in Hs.
  set (mi := (stun_attribute_message_integrity, d)) in *.
  assert (zlen (encode mi) = 24) as Hmi by (rewrite zlen_encode; unfold mi; cbn [snd]; by rewrite Hz).
  assert (zlen (encode fp) = 8) as Hfp by done.
  assert (packet = with_length (make_header type id ++ concat (encode <$> (l ++ [mi; fp]))) (o + 12)) as Ep.
  { rewrite fmap_app, concat_app, app_assoc. cbn [fmap list_fmap concat]. rewrite app_nil_r. fold (message type id l).
    rewrite with_length_app by lia. rewrite <- Hs. unfold integrity_of. by rewrite <- app_assoc. }
  assert (zlen packet = o + 32) as Hpk by (rewrite <- Hs; unfold integrity_of; rewrite !zlen_app, zlen_with_length by lia; fold mi; lia).
  destruct (header_holds type id (concat (encode <$> (l ++ [mi; fp]))) (o + 12) Hi) as (H0 & H2 & H4 & H8). rewrite <- Ep in *.
  assert (zlen (make_header type id) = 20) as Hh by (rewrite make_header_eq; llia).
  split.
  - rewrite Ep. apply with_length_rest; [done|]. rewrite fmap_app, concat_app.
    pose proof (holds_whole (make_header type id ++ concat (encode <$> l) ++ concat (encode <$> [mi; fp]))) as Hw.
    apply holds_app in Hw as [_ Hw]. rewrite Hh in Hw. by apply holds_take in Hw.
  - unfold is_stun_message, stun_header_size. rewrite (proj2 (Z.ltb_ge _ _)) by lia. cbn [be_bytes] in H0.
    apply holds_cons in H0 as [-> _]. run. rewrite (read_u32_holds _ _ _ H4) by by_eval. run.
    by rewrite type_top_bits.
  - apply read_u16_holds; [done|unfold is_uint; dlia].
  - rewrite Hpk. unfold stun_header_size. replace (o + 32 - 20) with (o + 12) by lia. apply read_u16_holds; [done|unfold is_uint; dlia].
  - by apply holds_slice.
  - exists o. split; [done|]. split; [|split].
    + assert (Forall attribute_ok (l ++ [mi; fp])) as Hall.
      { apply Forall_app. split; [done|]. 
        constructor; [by apply integrity_attribute_ok|]. constructor; [apply fingerprint_attribute_ok|constructor]. }
      rewrite Ep, with_length_app, scan_encoded by (rewrite ?zlen_with_length by lia; done || lia).
      unfold mi, fp. rewrite (scan_signed _ _ _ _ Hscan Hz Hri Hrf). cbv zeta. by rewrite <- Hm.
    + rewrite <- Hs. unfold integrity_of. rewrite <- app_assoc. fold mi. replace o with (zlen (with_length (message type id l) (o + 12))) at 3
        by (rewrite zlen_with_length; lia).
      apply verify_message_integrity_ok; rewrite zlen_with_length by lia; [lia|]. by rewrite with_length_twice by lia.
    + rewrite <- Hs. assert (zlen (integrity_of (message type id l) d) = o + 24) as <-
        by (unfold integrity_of; rewrite zlen_app, zlen_with_length by lia; fold mi; lia).
      apply verify_fingerprint_ok. unfold integrity_of. rewrite zlen_app, zlen_with_length by lia. fold mi. lia.
Qed.

Lemma make_request_eq id username password priority tie_breaker : zlen id = 12 → zlen username < 65536 →
  make_stun_binding_request HMAC crc_32 id username password priority tie_breaker =
  signed HMAC crc_32 (message stun_binding_request_type id (request_attributes username priority tie_breaker)) password.
Proof.
  intros Hi Hu. unfold make_stun_binding_request. rewrite !append_u32_eq. cbn [app].
  replace (make_header stun_binding_request_type id) with (message stun_binding_request_type id []) by apply app_nil_r.
  rewrite !append_message; try done; split; try by_eval; cbn [snd]; autorewrite with zlen; lia.
Qed.

Definition request_result (id : list Z) : stun_binding_request := StunBindingRequest id [] true true true false.

Lemma request_attributes_ok username priority tie_breaker : zlen username < 65536 →
  Forall attribute_ok (request_attributes username priority tie_breaker) ∧
  zlen (concat (encode <$> request_attributes username priority tie_breaker)) = 28 + zlen username + padding (zlen username).
Proof.
  intros Hu. split.
  - repeat (constructor; [split; [by_eval|cbn [snd]; autorewrite with zlen; lia]|]). constructor.
  - unfold request_attributes. cbn [fmap list_fmap concat]. rewrite !zlen_app, !zlen_encode. cbn [snd]. autorewrite with zlen.
    replace (padding (Z.of_nat 4)) with 0 by reflexivity. replace (padding (Z.of_nat 4 + Z.of_nat 4)) with 0 by reflexivity.
    replace (padding 0) with 0 by reflexivity. lia.
Qed.

Lemma scan_request username priority tie_breaker : zlen username < 65536 →
  scan_list no_attributes 20 (request_attributes username priority tie_breaker) =
  Ok (StunBindingAttributes (Some username) None None [] true true false true).
Proof. intros Hu. unfold request_attributes, scan_list, scan_value, scan_attribute. cbn. reflexivity. Qed.

(** * The address of the peer *)

Definition endpoint_ok (e : endpoint) : Prop :=
  is_uint 16 (port e) ∧ match ip e with V4 a => zlen a = 4 ∧ bytes_ok a | V6 a => zlen a = 16 ∧ bytes_ok a end.

(** RFC 5389, 15.2. *)
Definition mapped_endpoint (id value : list Z) : option endpoint :=
  match value with
  | 0 :: family :: p1 :: p0 :: l =>
      let a := zip_with Z.lxor l (be_bytes 4 stun_magic_cookie ++ id) in
      let p := Z.lxor (be_val [p1; p0]) (stun_magic_cookie / 2 ^ 16) in
      if family =? 1 then Some (Endpoint (V4 a) p) else if family =? 2 then Some (Endpoint (V6 a) p) else None
  | _ => None
  end.

Lemma xor_bytes_eq mask key : bytes_ok key → ∀ index address, bytes_ok address → 0 ≤ index →
  (∀ i, index ≤ i < index + zlen address → mask i = ld key i) → index + zlen address ≤ zlen key →
  xor_bytes mask index address = Ok (zip_with Z.lxor address (drop (Z.to_nat index) key)).
Proof.
  intros Hk index address. revert index. induction address as [|a l IH]; intros index Ha Hi Hm Hz; cbn [xor_bytes].
  - by destruct (drop _ key).
  - rewrite zlen_cons in *. pose proof (zlen_nonneg l). inversion_clear Ha as [|? ? Hb Hl].
    rewrite Hm, ld_ok by lia. run. rewrite (IH (index + 1)) by (try done; try lia; intros; apply Hm; lia). run.
    destruct (lookup_lt_is_Some_2 key (Z.to_nat index)) as [x Hx]; [unfold zlen in *; lia|].
    rewrite (list_lookup_total_correct _ _ _ Hx), (drop_S _ _ _ Hx). cbn [zip_with].
    replace (Z.to_nat (index + 1)) with (S (Z.to_nat index)) by lia. rewrite u8_id; [done|].
    apply lxor_range; [lia|done|]. by eapply Forall_lookup_1 in Hk.
Qed.

Lemma zip_lxor_twice l key : (length l ≤ length key)%nat → zip_with Z.lxor (zip_with Z.lxor l key) key = l.
Proof.
  revert key. induction l as [|a l IH]; intros [|k key] H; cbn [zip_with] in *; cbn in H; try done; try lia.
  rewrite IH by lia. by rewrite Z.lxor_assoc, Z.lxor_nilpotent, Z.lxor_0_r.
Qed.

Lemma xor_mapped_address_ok e id : endpoint_ok e → zlen id = 12 → bytes_ok id →
  ∃ value, xor_mapped_address e id = Ok value ∧ zlen value ≤ 20 ∧ mapped_endpoint id value = Some e.
Proof.
  intros [Hp Ha] Hi Hb. destruct e as [a p]. cbn [ip port] in *. unfold xor_mapped_address. cbn [ip port].
  assert (is_uint 16 (Z.lxor p 0x2112)) as Hx by (apply lxor_range; [lia|done|by_eval]).
  change (u16 (Z.shiftr stun_magic_cookie 16)) with 0x2112. rewrite (u16_id _ Hx), !append_u16_eq.
  assert (bytes_ok (be_bytes 4 stun_magic_cookie ++ id)) as Hk by (apply bytes_ok_app; split; [apply bytes_ok_be_bytes|done]).
  assert (∀ f l, zlen l ≤ 16 → mapped_endpoint id (([0] ++ [f]) ++ be_bytes 2 (Z.lxor p 0x2112) ++ zip_with Z.lxor l (be_bytes 4 stun_magic_cookie ++ id)) =
    if f =? 1 then Some (Endpoint (V4 l) p) else if f =? 2 then Some (Endpoint (V6 l) p) else None) as Hd.
  { intros f l Hl. rewrite be_bytes_2. cbn [app mapped_endpoint]. rewrite <- be_bytes_2. change (stun_magic_cookie / 2 ^ 16) with 0x2112.
    rewrite (be_val_bytes 2) by done. rewrite Z.lxor_assoc, Z.lxor_nilpotent, Z.lxor_0_r.
    rewrite zip_lxor_twice; [done|]. unfold zlen in *. rewrite length_app, length_be_bytes. lia. }
  destruct a as [l|l]; destruct Ha as [Hl Hlb]; cbn [is_v4].
  - rewrite (xor_bytes_eq _ cookie_bytes); [|by_eval|done|lia|done|by rewrite Hl]. run. eexists. split; [done|].
    destruct l as [|a [|b [|c [|d [|]]]]]; try done; [|unfold zlen in Hl; cbn [length] in Hl; lia]. split; [done|]. rewrite <- app_assoc.
    refine (Hd 1 [a; b; c; d] _). by rewrite Hl.
  - rewrite (xor_bytes_eq _ (be_bytes 4 stun_magic_cookie ++ id)); [|done|done|lia| |rewrite zlen_app, Hl, Hi; done].
    + run. eexists. split; [done|]. split; [|rewrite <- app_assoc; refine (Hd 2 l _); lia].
      unfold zlen in *. rewrite !length_app, length_be_bytes, length_zip_with. cbn [length]. lia.
    + intros i Hr. rewrite Hl in Hr. unfold v6_mask. change (zlen cookie_bytes) with 4. destruct (Z.ltb_spec i 4).
      * unfold ld. destruct (Z.ltb_spec i 0); [lia|]. by rewrite lookup_app_l by (rewrite length_be_bytes; lia).
      * unfold ld. destruct (Z.ltb_spec i 0), (Z.ltb_spec (i - 4) 0); try lia.
        rewrite lookup_app_r, length_be_bytes by (rewrite length_be_bytes; lia). by replace (Z.to_nat (i - 4)) with (Z.to_nat i - 4)%nat by lia.
Qed.

Lemma signed_message type id l password r :
  0 ≤ type < 0x4000 → zlen id = 12 → Forall attribute_ok l → zlen (concat (encode <$> l)) ≤ 65503 →
  scan_list no_attributes 20 l = Ok r → message_integrity_offset r = None → fingerprint_offset r = None →
  ∃ packet, signed HMAC crc_32 (message type id l) password = Ok packet ∧
    ((packet = [] ∧ ∃ data, hmac_sha1 HMAC password data = None) ∨ readable type id l password packet r).
Proof.
  intros Ht Hi Hl Hsz Hs H1 H2. pose proof (zlen_message type id l Hi) as Hm. destruct (zlen_concat_encode l) as [Hlen Hal].
  assert (∃ packet, signed HMAC crc_32 (message type id l) password = Ok packet ∧
    (packet = [] → ∃ data, hmac_sha1 HMAC password data = None)) as (packet & E & Hn).
  { rewrite signed_eq by (rewrite Hm; dlia). eexists. split; [done|]. destruct (hmac_sha1 _ _ _) eqn:Hd; [|by eauto].
    intros Hz%(f_equal length). unfold integrity_of in Hz. rewrite !length_app in Hz. cbn in Hz. lia. }
  exists packet. split; [done|]. destruct (decide (packet = [])); [left; auto|right; by eapply signed_readable].
Qed.

Definition request_of (id : list Z) (r : stun_binding_attributes) : stun_binding_request :=
  StunBindingRequest id (a_unknown_required r) (a_priority r) (a_use_candidate r) (a_ice_controlling r) (a_ice_controlled r).

Lemma readable_request id l username password packet r : readable stun_binding_request_type id l password packet r →
  a_username r = Some username →
  parse_stun_binding_request HMAC crc_32 packet username password = Ok (request_of id r).
Proof.
  intros [_ H1 H2 H3 H4 (o & Ho & Hs & Hi & Hf)] Hu. unfold parse_stun_binding_request.
  rewrite H1. run. rewrite H2. run. rewrite H3. run. rewrite Hs. run.
  unfold validate_stun_binding_authentication. cbn [a_username set_fingerprint set_integrity message_integrity_offset fingerprint_offset].
  rewrite Hu, bool_decide_eq_true_2 by done. cbn [negb]. rewrite Hi. run. cbn [negb]. replace (o + 24 + 8) with (zlen packet) by lia.
  rewrite !Z.eqb_refl. cbn [negb]. rewrite Hf. run. cbn [negb]. rewrite H4. done.
Qed.

Lemma readable_success id l password packet r : readable stun_binding_success_response_type id l password packet r →
  parse_stun_binding_success_response HMAC crc_32 packet password = Ok id.
Proof.
  intros [_ H1 H2 H3 H4 (o & Ho & Hs & Hi & Hf)]. unfold parse_stun_binding_success_response.
  rewrite H1. run. rewrite H2. run. rewrite H3. run. rewrite Hs. run. rewrite !Z.eqb_refl.
  cbn [set_fingerprint set_integrity message_integrity_offset fingerprint_offset negb].
  rewrite Hi. run. cbn [negb]. replace (o + 24 + 8) with (zlen packet) by lia. rewrite !Z.eqb_refl. cbn [negb].
  rewrite Hf. run. cbn [negb]. by rewrite H4.
Qed.

(** * What a request depends on *)

Definition agree (p q : list Z) (a b : Z) : Prop := ∀ i, a ≤ i < b → ld p i = ld q i.

Lemma read_u16_agree p q a b o : agree p q a b → a ≤ o → o + 2 ≤ b → read_u16 p o = read_u16 q o.
Proof. intros H ? ?. unfold read_u16. by rewrite (H o), (H (o + 1)) by lia. Qed.

Lemma sub_agree p q a b o n : agree p q a b → a ≤ o → 0 ≤ o → 0 ≤ n → o + n ≤ b → b ≤ zlen p → b ≤ zlen q → sub p o n = sub q o n.
Proof.
  intros H Ha Ho Hn Hb Hp Hq. apply list_eq_same_length with (n := Z.to_nat n).
  - pose proof (zlen_sub q o n ltac:(lia) ltac:(lia) ltac:(lia)) as E. unfold zlen in E. lia.
  - pose proof (zlen_sub p o n ltac:(lia) ltac:(lia) ltac:(lia)) as E. unfold zlen in E. lia.
  - intros i x y Hi. rewrite !lookup_sub by lia. intros Hx Hy. specialize (H (o + Z.of_nat i) ltac:(lia)). unfold ld in H.
    replace (Z.to_nat (o + Z.of_nat i)) with (Z.to_nat o + i)%nat in H by lia. rewrite Hx, Hy in H.
    destruct (Z.ltb_spec (o + Z.of_nat i) 0); [lia|]. congruence.
Qed.

Lemma agree_sub p q a n : 0 ≤ a → sub p a n = sub q a n → agree p q a (a + n).
Proof.
  intros Ha H i Hi. unfold ld. destruct (Z.ltb_spec i 0); [lia|].
  assert (p !! Z.to_nat i = q !! Z.to_nat i) as ->; [|done].
  pose proof (f_equal (λ l, l !! Z.to_nat (i - a)) H) as E. cbn beta in E. rewrite !lookup_sub in E by lia.
  by replace (Z.to_nat a + Z.to_nat (i - a))%nat with (Z.to_nat i) in E by lia.
Qed.

(** All but the fingerprint. *)
Definition core (r : stun_binding_attributes) :=
  (a_username r, message_integrity_offset r, (a_unknown_required r, a_priority r, a_use_candidate r, a_ice_controlling r, a_ice_controlled r)).

Lemma scan_value_after r offset a r' : has_value (message_integrity_offset r) = true →
  scan_value r offset a = Ok r' → core r' = core r.
Proof.
  intros Hi. unfold scan_value. rewrite Hi. cbn [andb]. destruct (Z.eqb_spec (a.1) stun_attribute_fingerprint) as [E|]; cbn [negb].
  - unfold scan_attribute. rewrite E. eval_tests. destruct (_ || _); [done|]. by intros [= <-].
  - by intros [= <-].
Qed.

Lemma scan_value_before r offset a r' : message_integrity_offset r = None → scan_value r offset a = Ok r' →
  message_integrity_offset r' = None ∨ (r' = set_integrity r offset ∧ a.1 = stun_attribute_message_integrity ∧ zlen a.2 = 20).
Proof.
  intros Hi. unfold scan_value, scan_attribute. rewrite Hi. cbn [has_value andb]. run.
  destruct (a.1 =? stun_attribute_message_integrity) eqn:E.
  - apply Z.eqb_eq in E. rewrite E. eval_tests. destruct (Z.eqb_spec (zlen a.2) stun_message_integrity_size); [|done].
    cbn [negb orb]. intros [= <-]. by right.
  - intros H. left. repeat case_match; try done; apply Ok_inj in H; by subst.
Qed.

Lemma scan_loop_inv fuel p r o r' o' : scan_loop fuel p r o = Ok (r', o') → 0 ≤ o → o + 4 ≤ zlen p →
  ∃ fuel' t n v r1, fuel = S fuel' ∧ read_u16 p o = Ok t ∧ read_u16 p (o + 2) = Ok n ∧ 0 ≤ n ∧ o + 4 + n ≤ zlen p ∧
    slice p (o + 4) n = Ok v ∧ zlen v = n ∧ scan_value r o (t, v) = Ok r1 ∧ scan_loop fuel' p r1 (next_attribute o n) = Ok (r', o').
Proof.
  intros H Ho Hp. destruct fuel as [|fuel]; cbn [scan_loop] in H; (destruct (Z.leb_spec (o + 4) (zlen p)); [|lia]); [done|].
  destruct (scan_step_cases p r o) as [E | (t & n & v & Ht & Hn & Hr & Hb & Hs & Hv)]; [done..|by rewrite E in H|].
  rewrite (scan_step_value _ _ _ _ _ _ Ht Hn Hb Hs Hv) in H. destruct (scan_value r o (t, v)) as [| |r1] eqn:E1; try done.
  exists fuel, t, n, v, r1. destruct Hr. done.
Qed.

Lemma scan_loop_end fuel p r o : zlen p < o + 4 → scan_loop fuel p r o = Ok (r, o).
Proof. intros. destruct fuel; cbn [scan_loop]; by rewrite (proj2 (Z.leb_gt _ _)) by lia. Qed.

Lemma scan_loop_after fuel p r o r' o' : has_value (message_integrity_offset r) = true → 0 ≤ o →
  scan_loop fuel p r o = Ok (r', o') → core r' = core r.
Proof.
  revert r o. induction fuel as [|fuel IH]; intros r o Hi Ho H;
    (destruct (decide (o + 4 ≤ zlen p)); [|rewrite scan_loop_end in H by lia; by apply Ok_inj in H as [= -> ->]]);
    destruct (scan_loop_inv _ _ _ _ _ _ H Ho) as (fuel' & t & n & v & r1 & Ef & Ht & Hn & Hn0 & Hb & Hs & Hv & Hsv & Hl); try done; try lia.
  injection Ef as <-. pose proof (scan_value_after _ _ _ _ Hi Hsv) as Hc. pose proof (next_attribute_range o n).
  rewrite (IH r1 (next_attribute o n)); [done| |lia|done]. by injection Hc as _ -> _.
Qed.

Lemma scan_local fuel p r o r' o' m : scan_loop fuel p r o = Ok (r', o') → 0 ≤ o →
  message_integrity_offset r = None → message_integrity_offset r' = Some m →
  o ≤ m ∧ m + 24 ≤ zlen p ∧
  ∀ fuel' q r2 o2, agree p q o (m + 24) → m + 24 ≤ zlen q → scan_loop fuel' q r o = Ok (r2, o2) → core r2 = core r'.
Proof.
  revert r o. induction fuel as [|fuel IH]; intros r o H Ho Hr Hm;
    (destruct (decide (o + 4 ≤ zlen p)) as [Hp|]; [|rewrite scan_loop_end in H by lia; apply Ok_inj in H; congruence]);
    destruct (scan_loop_inv _ _ _ _ _ _ H Ho Hp) as (fuel' & t & n & v & r1 & Ef & Ht & Hn & Hn0 & Hb & Hs & Hv & Hsv & Hl); try done.
  injection Ef as <-. pose proof (next_attribute_range o n).
  assert (∀ fuel' q r2 o2, agree p q o (m + 24) → m + 24 ≤ zlen q → o + 4 + n ≤ m + 24 → scan_loop fuel' q r o = Ok (r2, o2) →
    ∃ fuel2, scan_loop fuel2 q r1 (next_attribute o n) = Ok (r2, o2)) as Hq.
  { intros f q r2 o2 Hag Hq Hle H2. destruct (scan_loop_inv _ _ _ _ _ _ H2 Ho ltac:(lia)) as (f2 & t2 & n2 & v2 & r3 & -> & Ht2 & Hn2 & _ & Hb2 & Hs2 & Hv2 & Hsv2 & Hl2).
    rewrite <- (read_u16_agree p q o (m + 24)) in Ht2, Hn2 by (done || lia). assert (t2 = t ∧ n2 = n) as [-> ->] by (split; congruence).
    rewrite slice_ok in Hs, Hs2 by lia.
    rewrite <- (sub_agree p q o (o + 4 + n)) in Hs2 by (lia || (intros i Hi; apply Hag; lia)).
    assert (v2 = v) as -> by congruence. assert (r3 = r1) as -> by congruence. by exists f2. }
  destruct (scan_value_before _ _ _ _ Hr Hsv) as [Hr1|(-> & Et & Ev)].
  - destruct (IH r1 (next_attribute o n) Hl) as (Hle & Hpm & Hrest); [lia|done..|]. split_and!; [lia|done|].
    intros f q r2 o2 Hag Hqz H2. destruct (Hq f q r2 o2) as [f2 Hf]; [done..|lia|done|].
    eapply Hrest; [|done|done]. intros i Hi. apply Hag. lia.
  - cbn [snd] in Ev. assert (n = 20) as -> by lia.
    pose proof (scan_loop_after _ _ (set_integrity r o) (next_attribute o 20) _ _ eq_refl ltac:(lia) Hl) as Hc.
    assert (m = o) as ->. { injection Hc as _ E _. cbn in E. congruence. }
    split_and!; [lia|lia|]. intros f q r2 o2 Hag Hqz H2. destruct (Hq f q r2 o2) as [f2 Hf]; [done..|lia|done|].
    rewrite Hc. eapply scan_loop_after; [| |exact Hf]; [done|lia].
Qed.

Lemma scan_authentic p q r r2 m :
  scan_stun_attributes p = Ok r → scan_stun_attributes q = Ok r2 → message_integrity_offset r = Some m →
  agree p q 20 (m + 24) → m + 24 ≤ zlen q → core r2 = core r.
Proof.
  unfold scan_stun_attributes. intros Hp Hq Hm Hag Hz.
  destruct (scan_loop (length p) p no_attributes stun_header_size) as [| |[r' o']] eqn:Ep; try done.
  destruct (scan_loop (length q) q no_attributes stun_header_size) as [| |[r2' o2']] eqn:Eq; try done.
  cbn [mbind outcome_bind] in *. repeat case_match; try done. simplify_eq.
  destruct (scan_local _ _ _ _ _ _ m Ep) as (_ & _ & Hall); [done..|]. by eapply Hall.
Qed.

(** ** Where the attributes stand *)

(** The offsets at which the attributes of a packet begin. *)
Inductive boundary (packet : list Z) : Z → Prop :=
  | boundary_first : boundary packet stun_header_size
  | boundary_next o n : boundary packet o → o + 4 ≤ zlen packet → read_u16 packet (o + 2) = Ok n → 0 ≤ n →
      boundary packet (next_attribute o n).

(** The attribute at [o] has this type and this value. *)
Record attribute_at (packet : list Z) (o type : Z) (value : list Z) : Prop := AttributeAt {
  aa_boundary : boundary packet o;
  aa_type : read_u16 packet o = Ok type;
  aa_length : read_u16 packet (o + 2) = Ok (zlen value);
  aa_fits : o + 4 + zlen value ≤ zlen packet;
  aa_value : sub packet (o + 4) (zlen value) = value
}.

(** What the scan has stored when it is at [o] is in the packet. *)
Record scanned (packet : list Z) (r : stun_binding_attributes) (o : Z) : Prop := Scanned {
  sd_boundary : boundary packet o;
  sd_username v : a_username r = Some v → ∃ u, attribute_at packet u stun_attribute_username v ∧ u + 4 + zlen v ≤ o ∧
    ∀ m, message_integrity_offset r = Some m → u + 4 + zlen v ≤ m;
  sd_integrity m : message_integrity_offset r = Some m → m < o ∧ ∃ v, attribute_at packet m stun_attribute_message_integrity v ∧ zlen v = 20;
  sd_fingerprint f : fingerprint_offset r = Some f → f < o ∧ ∃ v, attribute_at packet f stun_attribute_fingerprint v ∧ zlen v = 4
}.

Lemma boundary_range p o : boundary p o → 20 ≤ o.
Proof. induction 1 as [|o n _ IH _ _ Hn]; [done|]. pose proof (next_attribute_range o n). lia. Qed.

(** An attribute changes one thing that is told apart by its type. *)
Lemma scan_value_stored r o t v r1 : scan_value r o (t, v) = Ok r1 →
  (a_username r1 = a_username r ∨
   (a_username r1 = Some v ∧ t = stun_attribute_username ∧ message_integrity_offset r1 = None)) ∧
  (message_integrity_offset r1 = message_integrity_offset r ∨
   (message_integrity_offset r1 = Some o ∧ t = stun_attribute_message_integrity ∧ zlen v = 20)) ∧
  (fingerprint_offset r1 = fingerprint_offset r ∨
   (fingerprint_offset r1 = Some o ∧ t = stun_attribute_fingerprint ∧ zlen v = 4)).
Proof.
  unfold scan_value, scan_attribute. cbn [fst snd mbind outcome_bind].
  destruct (message_integrity_offset r) as [m|] eqn:Em; cbn [has_value andb].
  - destruct (Z.eqb_spec t stun_attribute_fingerprint) as [->|]; cbn [negb]; [|intros [= <-]; auto].
    eval_tests. destruct (Z.eqb_spec (zlen v) 4); [|done]. destruct (has_value _); [done|]. intros [= <-]. cbn. auto 6.
  - destruct (Z.eqb_spec t stun_attribute_username) as [->|]; [destruct (has_value _); [done|]; intros [= <-]; cbn; auto 6|].
    destruct (Z.eqb_spec t stun_attribute_message_integrity) as [->|].
    { destruct (Z.eqb_spec (zlen v) stun_message_integrity_size); [|done]. intros [= <-]. cbn. auto 6. }
    destruct (Z.eqb_spec t stun_attribute_fingerprint) as [->|].
    { eval_tests. destruct (Z.eqb_spec (zlen v) 4); [|done]. destruct (has_value _); [done|]. intros [= <-]. cbn. auto 6. }
    repeat case_match; try done; intros [= <-]; auto.
Qed.

Lemma scanned_step p r o t n v r1 : scanned p r o → o + 4 ≤ zlen p → read_u16 p o = Ok t → read_u16 p (o + 2) = Ok n → 0 ≤ n →
  o + 4 + n ≤ zlen p → slice p (o + 4) n = Ok v → zlen v = n → scan_value r o (t, v) = Ok r1 →
  scanned p r1 (next_attribute o n).
Proof.
  intros [Hb Hu Hi Hf] Hp Ht Hn H0 Hfit Hs Hv Hsv. pose proof (boundary_range _ _ Hb). pose proof (next_attribute_range o n).
  rewrite slice_ok in Hs by lia. apply Ok_inj in Hs.
  assert (attribute_at p o t v) as Hat by (split; congruence || (rewrite Hv; done)).
  destruct (scan_value_stored _ _ _ _ _ Hsv) as (Cu & Ci & Cf). split.
  - by eapply boundary_next.
  - intros w Hw. destruct Cu as [E|(E & -> & Em)].
    + rewrite E in Hw. destruct (Hu w Hw) as (u & ? & ? & Hlt). exists u. split_and!; [done|lia|]. intros m Hm.
      destruct Ci as [Ei|(Ei & _ & _)]; [apply Hlt; congruence|]. assert (m = o) as -> by congruence. lia.
    + exists o. assert (w = v) as -> by congruence. split_and!; [done|lia|]. intros m Hm. congruence.
  - intros m Hm. destruct Ci as [E|(E & -> & Ev)].
    + rewrite E in Hm. destruct (Hi m Hm) as [? ?]. split; [lia|done].
    + assert (m = o) as -> by congruence. split; [lia|]. by exists v.
  - intros f Hm. destruct Cf as [E|(E & -> & Ev)].
    + rewrite E in Hm. destruct (Hf f Hm) as [? ?]. split; [lia|done].
    + assert (f = o) as -> by congruence. split; [lia|]. by exists v.
Qed.

Lemma scan_loop_scanned fuel p r o r' o' : scanned p r o → scan_loop fuel p r o = Ok (r', o') → scanned p r' o'.
Proof.
  revert r o. induction fuel as [|fuel IH]; intros r o Hs H; pose proof (boundary_range _ _ (sd_boundary _ _ _ Hs));
    (destruct (decide (o + 4 ≤ zlen p)) as [Hp|]; [|rewrite scan_loop_end in H by lia; by apply Ok_inj in H as [= <- <-]]);
    destruct (scan_loop_inv _ _ _ _ _ _ H ltac:(lia) Hp) as (fuel' & t & n & v & r1 & Ef & Ht & Hn & Hn0 & Hb & Hv & Hz & Hsv & Hl); [done|].
  injection Ef as <-. eapply IH; [|exact Hl]. by eapply scanned_step.
Qed.

Lemma scan_scanned p r : scan_stun_attributes p = Ok r → scanned p r (zlen p).
Proof.
  unfold scan_stun_attributes. destruct (scan_loop _ _ _ _) as [| |[r' o']] eqn:E; try done. cbn [mbind outcome_bind].
  destruct (Z.eqb_spec o' (zlen p)) as [->|]; [|done]. intros [= <-]. eapply scan_loop_scanned; [|exact E]. split; try done. constructor.
Qed.

Lemma verify_message_integrity_inv packet m password : verify_message_integrity HMAC packet m password = Ok true →
  20 ≤ m ∧ m + 24 ≤ zlen packet ∧ ∃ digest, hmac_sha1 HMAC password (with_length (sub packet 0 m) (m + 4)) = Some digest ∧
    sub packet (m + 4) 20 = digest.
Proof.
  unfold verify_message_integrity, stun_header_size. destruct (Z.ltb_spec m 20); [done|]. rewrite Z.gtb_ltb.
  destruct (Z.ltb_spec (zlen packet) (m + 24)); [done|]. cbn [orb]. rewrite slice_ok by lia. run. rewrite Z.gtb_ltb.
  destruct (Z.ltb_spec 65535 (m - 20 + 24)); [done|]. rewrite set_message_length_eq by (rewrite ?zlen_sub; lia). run.
  replace (m - 20 + 24) with (m + 4) by lia. destruct (hmac_sha1 _ _ _) as [d|] eqn:Hd; [|done]. pose proof (hmac_size _ _ _ Hd) as Hz.
  rewrite Hz, slice_ok by lia. run. intros [= E%bool_decide_eq_true]. split_and!; [done..|]. by exists d.
Qed.

Lemma verify_fingerprint_inv packet f : 20 ≤ f → f + 8 ≤ zlen packet → verify_fingerprint crc_32 packet f = Ok true →
  read_u32 packet (f + 4) = Ok (fingerprint crc_32 (sub packet 0 f)).
Proof.
  intros Hf Hz. unfold verify_fingerprint, stun_header_size. destruct (Z.ltb_spec f 20); [lia|]. rewrite Z.gtb_ltb.
  destruct (Z.ltb_spec (zlen packet) (f + 8)); [lia|]. cbn [orb]. rewrite slice_ok by lia. run.
  destruct (read_u32_ok packet (f + 4)) as [v ->]; [lia..|]. run. intros [= E%Z.eqb_eq]. by rewrite E.
Qed.

Lemma verify_message_integrity_safe packet m password : safe (verify_message_integrity HMAC packet m password).
Proof.
  unfold verify_message_integrity, stun_header_size. destruct (Z.ltb_spec m 20); [done|]. rewrite Z.gtb_ltb.
  destruct (Z.ltb_spec (zlen packet) (m + 24)); [done|]. cbn [orb]. rewrite slice_ok by lia. run. rewrite Z.gtb_ltb.
  destruct (Z.ltb_spec 65535 (m - 20 + 24)); [done|]. rewrite set_message_length_eq by (rewrite ?zlen_sub; lia). run.
  destruct (hmac_sha1 _ _ _) as [d|] eqn:Hd; [|done]. rewrite (hmac_size _ _ _ Hd), slice_ok by lia. done.
Qed.

Lemma verify_fingerprint_safe packet fp : safe (verify_fingerprint crc_32 packet fp).
Proof.
  unfold verify_fingerprint, stun_header_size. destruct (Z.ltb_spec fp 20); [done|]. rewrite Z.gtb_ltb.
  destruct (Z.ltb_spec (zlen packet) (fp + 8)); [done|]. cbn [orb]. rewrite slice_ok by lia. run.
  destruct (read_u32_ok packet (fp + 4)) as [v ->]; [lia..|done].
Qed.

Lemma parse_request_inv packet username password req :
  parse_stun_binding_request HMAC crc_32 packet username password = Ok req →
  ∃ r m f, scan_stun_attributes packet = Ok r ∧ message_integrity_offset r = Some m ∧
    verify_message_integrity HMAC packet m password = Ok true ∧ req = request_of (sub packet 8 12) r ∧ 20 ≤ zlen packet ∧
    a_username r = Some username ∧ fingerprint_offset r = Some f ∧ f + 8 = zlen packet ∧ verify_fingerprint crc_32 packet f = Ok true.
Proof.
  unfold parse_stun_binding_request. intros H. apply bind_inv in H as (stun & Hstun & H).
  destruct stun; [|done]. cbn [negb] in H.
  assert (20 ≤ zlen packet) as Hz.
  { unfold is_stun_message, stun_header_size in Hstun. by destruct (Z.ltb_spec (zlen packet) 20). }
  apply bind_inv in H as (type & _ & H). destruct (negb _); [done|]. apply bind_inv in H as (size & _ & H). destruct (negb _); [done|].
  apply bind_inv in H as (r & Hr & H). apply bind_inv in H as (ok & Hok & H). destruct ok; [|done]. cbn [negb] in H.
  rewrite slice_ok in H by lia. apply Ok_inj in H as <-. unfold validate_stun_binding_authentication in Hok.
  destruct (a_username r) as [name|] eqn:Hn; [|done]. destruct (bool_decide (name = username)) eqn:Hu; [|done]. cbn [negb] in Hok.
  apply bool_decide_eq_true in Hu as ->. destruct (message_integrity_offset r) as [m|] eqn:Hm; [|done].
  apply bind_inv in Hok as (ok & Hi & Hk). destruct ok; [|discriminate Hk]. cbn [negb] in Hk.
  destruct (fingerprint_offset r) as [f|] eqn:Hf; [|done]. destruct (Z.eqb_spec (f + 8) (zlen packet)); [|done]. cbn [negb] in Hk.
  by exists r, m, f.
Qed.

(** * Properties *)

(** C31: a binding request made with a user name and a password is accepted by
    who expects this name and knows the password, with the transaction, the
    candidate and the role it was made for; no packet is made only when OpenSSL
    cannot compute the HMAC. *)
Theorem stun_request_roundtrip id username password priority tie_breaker :
  zlen id = 12 → zlen username ≤ 65472 →
  ∃ packet, make_stun_binding_request HMAC crc_32 id username password priority tie_breaker = Ok packet ∧
    ((packet = [] ∧ ∃ data, hmac_sha1 HMAC password data = None) ∨
     parse_stun_binding_request HMAC crc_32 packet username password = Ok (StunBindingRequest id [] true true true false)).
Proof.
  intros Hi Hu. destruct (request_attributes_ok username priority tie_breaker) as [Ha Hz]; [lia|].
  pose proof (padding_range (zlen username)). pose proof (padding_aligned (zlen username)).
  rewrite make_request_eq by lia.
  destruct (signed_message stun_binding_request_type id _ password _ ltac:(by_eval) Hi Ha ltac:(dlia)
    (scan_request username priority tie_breaker ltac:(lia)) eq_refl eq_refl) as (packet & E & Hp).
  exists packet. split; [done|]. destruct Hp as [Hp|Hp]; [by left|right]. by rewrite (readable_request _ _ _ _ _ _ Hp eq_refl).
Qed.

(** The response to a request is accepted by the agent that made the
    request, for its transaction, and tells it the address its packets come
    from. *)
Theorem stun_success_roundtrip request remote password :
  zlen (transaction_id request) = 12 → bytes_ok (transaction_id request) → endpoint_ok remote →
  ∃ packet, make_stun_binding_success_response HMAC crc_32 request remote password = Ok packet ∧
    ((packet = [] ∧ ∃ data, hmac_sha1 HMAC password data = None) ∨
     (parse_stun_binding_success_response HMAC crc_32 packet password = Ok (transaction_id request) ∧
      ∃ value, holds packet 20 (encode (stun_attribute_xor_mapped_address, value)) ∧
        mapped_endpoint (transaction_id request) value = Some remote)).
Proof.
  intros Hi Hb He. destruct (xor_mapped_address_ok remote _ He Hi Hb) as (value & Ev & Hv & Hm).
  unfold make_stun_binding_success_response. rewrite Ev. run. set (id := transaction_id request) in *.
  assert (attribute_ok (stun_attribute_xor_mapped_address, value)) as Ha by (split; [by_eval|cbn [snd]; lia]).
  replace (make_header stun_binding_success_response_type id) with (message stun_binding_success_response_type id []) by apply app_nil_r.
  rewrite append_message by done. cbn [app].
  destruct (signed_message stun_binding_success_response_type id [(stun_attribute_xor_mapped_address, value)] password no_attributes
    ltac:(by_eval) Hi) as (packet & E & Hp); try done.
  { by constructor. }
  { cbn [fmap list_fmap concat]. rewrite app_nil_r, zlen_encode. cbn [snd]. pose proof (padding_range (zlen value)). lia. }
  exists packet. split; [done|]. destruct Hp as [Hp|Hp]; [by left|right]. split; [by eapply readable_success|].
  exists value. split; [|done]. destruct Hp as [Hbody _ _ _ _ _]. cbn [fmap list_fmap concat] in Hbody. by rewrite app_nil_r in Hbody.
Qed.

(** C9: a request is accepted only if its user name is the expected one, its
    integrity attribute carries the HMAC, under the password, of the bytes before
    it, which the name is among, and its last attribute is the fingerprint of all
    bytes before.  What is accepted depends only on what the password has signed:
    any other accepted packet that agrees on the bytes before the integrity
    attribute and on this attribute gives the same request, whatever follows and
    whatever length its header has. *)
Theorem stun_request_authentic packet username password req :
  parse_stun_binding_request HMAC crc_32 packet username password = Ok req →
  ∃ u m f digest mark,
    attribute_at packet u stun_attribute_username username ∧ u + 4 + zlen username ≤ m ∧
    attribute_at packet m stun_attribute_message_integrity digest ∧
    hmac_sha1 HMAC password (with_length (sub packet 0 m) (m + 4)) = Some digest ∧
    attribute_at packet f stun_attribute_fingerprint mark ∧ f + 8 = zlen packet ∧
    read_u32 packet (f + 4) = Ok (fingerprint crc_32 (sub packet 0 f)) ∧
    ∀ packet' req', m + 24 ≤ zlen packet' →
      with_length (sub packet' 0 m) (m + 4) = with_length (sub packet 0 m) (m + 4) → sub packet' m 24 = sub packet m 24 →
      parse_stun_binding_request HMAC crc_32 packet' username password = Ok req' → req' = req.
Proof.
  intros (r & m & f & Hr & Hm & Hv & -> & Hz & Hu & Hf & Hfz & Hfp)%parse_request_inv.
  destruct (scan_scanned _ _ Hr) as [_ Su Si Sf].
  destruct (Su _ Hu) as (u & Hau & _ & Hum). destruct (Si _ Hm) as (_ & dg & Hai & Hdg). destruct (Sf _ Hf) as (_ & mark & Haf & _).
  destruct (verify_message_integrity_inv _ _ _ Hv) as (Hm20 & Hm24 & d & Hd & Hs).
  assert (d = dg) as ->. { rewrite <- Hs. pose proof (aa_value _ _ _ _ Hai) as E. by rewrite Hdg in E. }
  exists u, m, f, dg, mark. split_and!; [done|by apply Hum|done..| |].
  { apply verify_fingerprint_inv; [|lia|done]. apply (boundary_range packet). by destruct Haf. }
  intros q req' Hq Hag1 Hag2 (r2 & m2 & f2 & Hr2 & _ & _ & -> & _)%parse_request_inv.
  assert (agree packet q 4 m) as Hag.
  { intros i Hi. pose proof (f_equal (λ l, l !! Z.to_nat i) Hag1) as E. cbn beta in E. unfold with_length in E.
    rewrite !put_lookup_out, !lookup_sub in E by (rewrite ?zlen_sub, ?zlen_be_bytes; lia). change (Z.to_nat 0) with 0%nat in E. rewrite !Nat.add_0_l in E. unfold ld. by rewrite E. }
  assert (agree packet q 20 (m + 24)) as Hag'.
  { intros i Hi. destruct (decide (i < m)); [apply Hag; lia|]. by apply (agree_sub packet q m 24); [lia|done|lia]. }
  pose proof (scan_authentic packet q r r2 m Hr Hr2 Hm Hag' Hq) as Hc. injection Hc as _ _ Hc. unfold request_of.
  assert (agree packet q 8 20) as Hag8 by (intros i Hi; apply Hag; lia).
  rewrite (sub_agree packet q 8 20 8 12) by (done || lia). congruence.
Qed.

(** C36: no packet makes the readers fail: they return on any bytes without
    reading outside the packet. *)
Theorem stun_parse_safe packet username password :
  safe (parse_stun_binding_request HMAC crc_32 packet username password) ∧
  safe (parse_stun_binding_success_response HMAC crc_32 packet password).
Proof.
  assert (safe (is_stun_message packet) ∧ (is_stun_message packet = Ok true → 20 ≤ zlen packet)) as [Hs Hz].
  { unfold is_stun_message, stun_header_size. destruct (Z.ltb_spec (zlen packet) 20); [split; [done|by intros [=]]|].
    rewrite ld_ok by lia. run. destruct (negb _); [done|]. destruct (read_u32_ok packet 4) as [v ->]; [lia..|done]. }
  split; unfold parse_stun_binding_request, parse_stun_binding_success_response;
    (apply safe_bind; [done|]; intros stun Es; destruct stun; cbn [negb]; [|done]; specialize (Hz Es);
     destruct (read_u16_ok packet 0) as (t & -> & _); [lia..|]; run; destruct (negb _); [done|];
     destruct (read_u16_ok packet 2) as (n & -> & _); [lia..|]; run; destruct (negb _); [done|];
     destruct (scan_cases packet) as [-> | [r ->]]; [done|]; run).
  - apply safe_bind.
    + unfold validate_stun_binding_authentication. destruct (a_username r); [|done]. destruct (negb _); [done|].
      destruct (message_integrity_offset r); [|done]. apply safe_bind; [apply verify_message_integrity_safe|]. intros ok _.
      destruct (negb _); [done|]. destruct (fingerprint_offset r); [|done]. destruct (negb _); [done|]. apply verify_fingerprint_safe.
    + intros ok _. destruct (negb ok); [done|]. by rewrite slice_ok by lia.
  - destruct (message_integrity_offset r), (fingerprint_offset r); try done.
    apply safe_bind; [apply verify_message_integrity_safe|]. intros ok _. destruct (negb ok); [done|]. destruct (negb _); [done|].
    apply safe_bind; [apply verify_fingerprint_safe|]. intros ok' _. destruct (negb ok'); [done|]. apply slice_safe; lia.
Qed.
End Signing.

(** * Examples *)

Definition demo_hmac : list Z → list Z → option (list Z) := λ password data, Some (replicate 20 (zlen password + zlen data)).
Definition demo_crc : list Z → Z := λ data, fold_left Z.add data 0.
Definition demo_id : list Z := seqZ 1 12.
Definition demo_packet : outcome (list Z) := make_stun_binding_request demo_hmac demo_crc demo_id [97; 58; 98] [112; 119] 7 8.

Lemma stun_request_roundtrip_witness :
  (∃ packet, demo_packet = Ok packet ∧
    ((packet = [] ∧ ∃ data, hmac_sha1 demo_hmac [112; 119] data = None) ∨
     parse_stun_binding_request demo_hmac demo_crc packet [97; 58; 98] [112; 119] = Ok (StunBindingRequest demo_id [] true true true false))) ∧
  (packet ← demo_packet; Ok (zlen packet)) = Ok 84.
Proof.
  split; [|vm_compute; reflexivity].
  apply (stun_request_roundtrip demo_hmac demo_crc demo_id [97; 58; 98] [112; 119] 7 8); [reflexivity|by_eval].
Defined.

Lemma stun_success_roundtrip_witness :
  ∃ packet, make_stun_binding_success_response demo_hmac demo_crc (StunBindingRequest demo_id [] true true true false)
      (Endpoint (V4 [192; 168; 1; 9]) 5004) [112; 119] = Ok packet ∧
    ((packet = [] ∧ ∃ data, hmac_sha1 demo_hmac [112; 119] data = None) ∨
     (parse_stun_binding_success_response demo_hmac demo_crc packet [112; 119] = Ok demo_id ∧
      ∃ value, holds packet 20 (encode (stun_attribute_xor_mapped_address, value)) ∧
        mapped_endpoint demo_id value = Some (Endpoint (V4 [192; 168; 1; 9]) 5004))).
Proof.
  apply (stun_success_roundtrip demo_hmac demo_crc (StunBindingRequest demo_id [] true true true false)).
  - reflexivity.
  - by_eval.
  - split; [by_eval|split; [reflexivity|by_eval]].
Defined.

Definition demo_bytes : list Z := match demo_packet with Ok p => p | _ => [] end.

Lemma stun_request_authentic_witness :
  ∃ u m f digest mark,
    attribute_at demo_bytes u stun_attribute_username [97; 58; 98] ∧ u + 4 + zlen [97; 58; 98] ≤ m ∧
    attribute_at demo_bytes m stun_attribute_message_integrity digest ∧
    hmac_sha1 demo_hmac [112; 119] (with_length (sub demo_bytes 0 m) (m + 4)) = Some digest ∧
    attribute_at demo_bytes f stun_attribute_fingerprint mark ∧ f + 8 = zlen demo_bytes ∧
    read_u32 demo_bytes (f + 4) = Ok (fingerprint demo_crc (sub demo_bytes 0 f)) ∧
    ∀ packet' req', m + 24 ≤ zlen packet' →
      with_length (sub packet' 0 m) (m + 4) = with_length (sub demo_bytes 0 m) (m + 4) → sub packet' m 24 = sub demo_bytes m 24 →
      parse_stun_binding_request demo_hmac demo_crc packet' [97; 58; 98] [112; 119] = Ok req' →
      req' = StunBindingRequest demo_id [] true true true false.
Proof.
  apply (stun_request_authentic demo_hmac demo_crc demo_bytes). vm_compute. reflexivity.
Defined.
