(* ===== verification/RtpQueue.v ===== *)
(** The RTP reorder queue: src/third/ireader/librtp/source/rtp-queue.c.

    [rtp_queue_t.items] is the ring buffer of packet pointers; a slot is
    [None] while nothing was stored in it.  Packets are handed to the queue by
    [rtp_queue_write] and leave it through [rtp_queue_read] or the [free]
    callback, whose calls are logged in [freed].  [realloc] is the C
    allocator: it is given the number of items asked for and answers whether
    memory was available.  The statistics and [cycles] are C ints that the model keeps
    unbounded: they are only counted, and nothing depends on them. *)
From S2P Require Import Prelude RtpPacket.

Definition MAX_PACKET : Z := 3000.
Definition RTP_MISORDER : Z := 300.
Definition RTP_DROPOUT : Z := 1000.
Definition RTP_SEQUENTIAL : Z := 3.
Definition RTP_SEQMOD : Z := 65536.
Definition E2BIG : Z := 7.

Record rtp_queue_stats_t := RtpQueueStats {
  st_total : Z; st_duplicate : Z; st_reorder : Z; st_late : Z; st_bad : Z; st_lost : Z
}.

Abbreviation rtp_item_t := (option rtp_packet_t).

Record rtp_queue_t := RtpQueue {
  items : list rtp_item_t;
  capacity : Z;
  size : Z;
  pos : Z;
  probation : Z;
  cycles : Z;
  last_seq : Z;
  first_seq : Z;
  bad_count : Z;
  bad_seq : Z;
  bad_items : list rtp_item_t; (* [RTP_SEQUENTIAL + 1] *)
  threshold : Z;
  frequency : Z;
  stats : rtp_queue_stats_t;
  freed : list rtp_packet_t
}.

(** Assignments to fields. *)
Definition set_ring (q : rtp_queue_t) its cap sz p : rtp_queue_t :=
  RtpQueue its cap sz p (probation q) (cycles q) (last_seq q) (first_seq q) (bad_count q)
    (bad_seq q) (bad_items q) (threshold q) (frequency q) (stats q) (freed q).
Definition set_probation (q : rtp_queue_t) v : rtp_queue_t :=
  RtpQueue (items q) (capacity q) (size q) (pos q) v (cycles q) (last_seq q) (first_seq q)
    (bad_count q) (bad_seq q) (bad_items q) (threshold q) (frequency q) (stats q) (freed q).
Definition set_cycles (q : rtp_queue_t) v : rtp_queue_t :=
  RtpQueue (items q) (capacity q) (size q) (pos q) (probation q) v (last_seq q) (first_seq q)
    (bad_count q) (bad_seq q) (bad_items q) (threshold q) (frequency q) (stats q) (freed q).
Definition set_last_seq (q : rtp_queue_t) v : rtp_queue_t :=
  RtpQueue (items q) (capacity q) (size q) (pos q) (probation q) (cycles q) v (first_seq q)
    (bad_count q) (bad_seq q) (bad_items q) (threshold q) (frequency q) (stats q) (freed q).
Definition set_first_seq (q : rtp_queue_t) v : rtp_queue_t :=
  RtpQueue (items q) (capacity q) (size q) (pos q) (probation q) (cycles q) (last_seq q) v
    (bad_count q) (bad_seq q) (bad_items q) (threshold q) (frequency q) (stats q) (freed q).
Definition set_bad (q : rtp_queue_t) count seq its : rtp_queue_t :=
  RtpQueue (items q) (capacity q) (size q) (pos q) (probation q) (cycles q) (last_seq q)
    (first_seq q) count seq its (threshold q) (frequency q) (stats q) (freed q).
Definition set_stats (q : rtp_queue_t) s : rtp_queue_t :=
  RtpQueue (items q) (capacity q) (size q) (pos q) (probation q) (cycles q) (last_seq q)
    (first_seq q) (bad_count q) (bad_seq q) (bad_items q) (threshold q) (frequency q) s (freed q).
(** A call of the [free] callback on [pkt]. *)
Definition call_free (q : rtp_queue_t) pkt : rtp_queue_t :=
  RtpQueue (items q) (capacity q) (size q) (pos q) (probation q) (cycles q) (last_seq q)
    (first_seq q) (bad_count q) (bad_seq q) (bad_items q) (threshold q) (frequency q) (stats q)
    (freed q ++ [pkt]).

Definition add_total (s : rtp_queue_stats_t) : rtp_queue_stats_t :=
  RtpQueueStats (st_total s + 1) (st_duplicate s) (st_reorder s) (st_late s) (st_bad s) (st_lost s).
Definition add_duplicate (s : rtp_queue_stats_t) : rtp_queue_stats_t :=
  RtpQueueStats (st_total s) (st_duplicate s + 1) (st_reorder s) (st_late s) (st_bad s) (st_lost s).
Definition add_reorder (s : rtp_queue_stats_t) : rtp_queue_stats_t :=
  RtpQueueStats (st_total s) (st_duplicate s) (st_reorder s + 1) (st_late s) (st_bad s) (st_lost s).
Definition add_late (s : rtp_queue_stats_t) : rtp_queue_stats_t :=
  RtpQueueStats (st_total s) (st_duplicate s) (st_reorder s) (st_late s + 1) (st_bad s) (st_lost s).
Definition add_bad (s : rtp_queue_stats_t) : rtp_queue_stats_t :=
  RtpQueueStats (st_total s) (st_duplicate s) (st_reorder s) (st_late s) (st_bad s + 1) (st_lost s).
Definition add_lost (s : rtp_queue_stats_t) n : rtp_queue_stats_t :=
  RtpQueueStats (st_total s) (st_duplicate s) (st_reorder s) (st_late s) (st_bad s) (st_lost s + n).

(** [items[i].pkt]: a slot nothing was stored in holds no packet to follow. *)
Definition item_pkt (its : list rtp_item_t) (i : Z) : outcome rtp_packet_t :=
  x ← ld its i; match x with Some pkt => Ok pkt | None => Ub end.

Definition pkt_seq (pkt : rtp_packet_t) : Z := rtp_seq (rtp pkt).
Definition pkt_timestamp (pkt : rtp_packet_t) : Z := rtp_timestamp (rtp pkt).

(** The loop of [rtp_queue_reset_bad_items]: [n] iterations from [i]. *)
Fixpoint free_bad_items (n : nat) (i : Z) (q : rtp_queue_t) : outcome rtp_queue_t :=
  match n with
  | O => Ok q
  | S n => pkt ← item_pkt (bad_items q) i; free_bad_items n (i + 1) (call_free q pkt)
  end.

Definition rtp_queue_reset_bad_items (q : rtp_queue_t) : outcome rtp_queue_t :=
  q ← free_bad_items (Z.to_nat (bad_count q)) 0 q;
  Ok (set_bad q 0 0 (bad_items q)).

(** The loop of [rtp_queue_reset]: [n] iterations from [i]. *)
Fixpoint free_items (n : nat) (i : Z) (q : rtp_queue_t) : outcome rtp_queue_t :=
  match n with
  | O => Ok q
  | S n =>
      if capacity q =? 0 then Ub else
      pkt ← item_pkt (items q) (Z.rem (pos q + i) (capacity q));
      free_items n (i + 1) (call_free q pkt)
  end.

Definition rtp_queue_reset (q : rtp_queue_t) : outcome rtp_queue_t :=
  q ← rtp_queue_reset_bad_items q;
  q ← free_items (Z.to_nat (size q)) 0 q;
  Ok (set_probation (set_ring q (items q) (capacity q) 0 0) RTP_SEQUENTIAL).

Definition rtp_queue_create (threshold frequency : Z) : outcome rtp_queue_t :=
  q ← rtp_queue_reset
        (RtpQueue [] 0 0 0 0 0 0 0 0 0 (replicate 4 None) 0 0 (RtpQueueStats 0 0 0 0 0 0) []);
  let q := set_probation q 1 in
  Ok (RtpQueue (items q) (capacity q) (size q) (pos q) (probation q) (cycles q) (last_seq q)
        (first_seq q) (bad_count q) (bad_seq q) (bad_items q) threshold frequency (stats q)
        (freed q)).

(** [rtp_queue_destroy] hands every packet still owned to the callback. *)
Definition rtp_queue_destroy (q : rtp_queue_t) : outcome rtp_queue_t :=
  q ← rtp_queue_reset q;
  Ok (set_ring q [] (capacity q) (size q) (pos q)).

(** The binary search of [rtp_queue_find], with [fuel] iterations: [r - l]
    shrinks in each, so [size] of them are enough. *)
Fixpoint rtp_queue_find_loop (fuel : nat) (q : rtp_queue_t) (v l r : Z) : outcome Z :=
  if l <? r then
    match fuel with
    | O => Ub
    | S fuel =>
        let i := Z.quot (l + r) 2 in
        if capacity q =? 0 then Ub else
        pkt ← item_pkt (items q) (Z.rem i (capacity q));
        let vi := u16 (last_seq q - pkt_seq pkt) in
        if vi =? v then Ok (-1)
        else if vi <? v then rtp_queue_find_loop fuel q v l i
        else rtp_queue_find_loop fuel q v (i + 1) r
    end
  else Ok l.

Definition rtp_queue_find (q : rtp_queue_t) (seq : Z) : outcome Z :=
  let v := u16 (last_seq q - seq) in
  rtp_queue_find_loop (Z.to_nat (size q)) q v (pos q) (pos q + size q).

(** "move items": [n] iterations of the loop counting down from [i]. *)
Fixpoint move_items (n : nat) (i cap : Z) (its : list rtp_item_t) : outcome (list rtp_item_t) :=
  match n with
  | O => Ok its
  | S n =>
      x ← ld its (Z.rem (i - 1) cap);
      its ← st its (Z.rem i cap) [x];
      move_items n (i - 1) cap its
  end.

Section Queue.
(** Whether [realloc] to that many items succeeds. *)
Variable realloc : Z → bool.

(** Growing the ring (lines 154-175): the queue and the shifted position. *)
Definition rtp_queue_grow (q : rtp_queue_t) (position : Z) : outcome (rtp_queue_t * Z) :=
  if size q >=? capacity q then
    if size q + 1 >? MAX_PACKET then Fail (- E2BIG) else
    let cap := capacity q + 250 in
    if negb (realloc cap) then Fail (- ENOMEM) else
    let its := items q ++ replicate 250 None in
    if pos q + size q >? capacity q then
      (* memmove of the tail to the end of the larger ring *)
      moved ← slice its (pos q) (capacity q - pos q);
      its ← st its (pos q + cap - capacity q) moved;
      Ok (set_ring q its cap (size q) (pos q + (cap - capacity q)),
          position + (cap - capacity q))
    else Ok (set_ring q its cap (size q) (pos q), position)
  else Ok (q, position).

(** The result code with the queue: 1 when inserted, an error code and the
    unchanged queue otherwise. *)
Definition rtp_queue_insert (q : rtp_queue_t) (position : Z) (pkt : rtp_packet_t)
  : outcome (Z * rtp_queue_t) :=
  match rtp_queue_grow q position with
  | Ub => Ub
  | Fail r => Ok (r, q)
  | Ok (q, position) =>
      if capacity q =? 0 then Ub else
      its ← move_items (Z.to_nat (pos q + size q - position)) (pos q + size q) (capacity q)
              (items q);
      its ← st its (Z.rem position (capacity q)) [Some pkt];
      Ok (1, set_ring q its (capacity q) (size q + 1) (pos q))
  end.

(** "copy saved items": [n] iterations from [i], results of the insertions
    ignored. *)
Fixpoint copy_bad_items (n : nat) (i : Z) (q : rtp_queue_t) : outcome rtp_queue_t :=
  match n with
  | O => Ok q
  | S n =>
      pkt ← item_pkt (bad_items q) i;
      '(_, q) ← rtp_queue_insert q (pos q + size q) pkt;
      copy_bad_items n (i + 1) q
  end.

(** The probation branch (lines 199-219). *)
Definition rtp_queue_write_probation (q : rtp_queue_t) (pkt : rtp_packet_t)
  : outcome (Z * rtp_queue_t) :=
  q ← (if (size q >? 0) && (pkt_seq pkt =? last_seq q + 1) then
         let q := set_probation q (probation q - 1) in
         if probation q =? 0 then
           p ← item_pkt (items q) (pos q);
           Ok (set_first_seq q (pkt_seq p))
         else Ok q
       else if (size q =? 0) && (probation q =? 1) then
         Ok (set_probation (set_first_seq q (pkt_seq pkt)) (probation q - 1))
       else rtp_queue_reset q);
  let q := set_last_seq q (pkt_seq pkt) in
  rtp_queue_insert q (pos q + size q) pkt.

(** The "another sequential" branch (lines 254-284). *)
Definition rtp_queue_write_bad (q : rtp_queue_t) (pkt : rtp_packet_t)
  : outcome (Z * rtp_queue_t) :=
  let save (q : rtp_queue_t) :=
    its ← st (bad_items q) (bad_count q) [Some pkt];
    Ok (1, set_bad q (bad_count q + 1) (u16 (Z.rem (pkt_seq pkt + 1) (RTP_SEQMOD - 1))) its) in
  if (bad_count q >? 0) && (bad_seq q =? pkt_seq pkt) then
    if bad_count q >=? RTP_SEQUENTIAL then
      q ← copy_bad_items (Z.to_nat (bad_count q)) 0 q;
      let q := set_last_seq (set_bad q 0 (bad_seq q) (bad_items q)) (pkt_seq pkt) in
      rtp_queue_insert q (pos q + size q) pkt
    else save q
  else
    q ← rtp_queue_reset_bad_items (set_stats q (add_bad (stats q)));
    save q.

Definition rtp_queue_write (q : rtp_queue_t) (pkt : rtp_packet_t) : outcome (Z * rtp_queue_t) :=
  let q := set_stats q (add_total (stats q)) in
  if truth (probation q) then rtp_queue_write_probation q pkt
  else
    let delta := u16 (pkt_seq pkt - last_seq q) in
    if (delta >? 0) && (delta <? RTP_DROPOUT) then
      let q := if pkt_seq pkt <? last_seq q then set_cycles q (cycles q + RTP_SEQMOD) else q in
      q ← rtp_queue_reset_bad_items q;
      let q := set_last_seq q (pkt_seq pkt) in
      rtp_queue_insert q (pos q + size q) pkt
    else if (s16 delta <=? 0) && (s16 delta >=? s16 (first_seq q - last_seq q)) then
      idx ← rtp_queue_find q (pkt_seq pkt);
      if -1 =? idx then Ok (-1, set_stats q (add_duplicate (stats q)))
      else
        q ← rtp_queue_reset_bad_items (set_stats q (add_reorder (stats q)));
        rtp_queue_insert q idx pkt
    else if u16 (first_seq q - pkt_seq pkt) <? RTP_MISORDER then
      Ok (-1, set_stats q (add_late (stats q)))
    else rtp_queue_write_bad q pkt.
End Queue.

(** The age in milliseconds between the first and the newest queued packet
    (lines 310-312). *)
Definition rtp_queue_age (frequency : Z) (pkt last : rtp_packet_t) : outcome Z :=
  let t := u32 (pkt_timestamp last - pkt_timestamp pkt) in
  t ← (if s32 t <? 0 then if s32 t =? - 2 ^ 31 then Ub else Ok (u32 (- s32 t)) else Ok t);
  if u64 frequency =? 0 then Ub else
  Ok (u32 (Z.quot (u64 (t * 1000)) (u64 frequency))).

Definition rtp_queue_read (q : rtp_queue_t) : outcome (option rtp_packet_t * rtp_queue_t) :=
  if (size q <? 1) || truth (probation q) then Ok (None, q) else
  pkt ← item_pkt (items q) (pos q);
  let pop (q : rtp_queue_t) :=
    set_ring q (items q) (capacity q) (size q - 1) (Z.rem (pos q + 1) (capacity q)) in
  if first_seq q =? pkt_seq pkt then
    Ok (Some pkt, pop (set_first_seq q (u16 (first_seq q + 1))))
  else
    last ← item_pkt (items q) (Z.rem (pos q + size q - 1) (capacity q));
    age ← rtp_queue_age (frequency q) pkt last;
    if (age <? u32 (threshold q)) && (size q + 5 <? Z.min RTP_DROPOUT MAX_PACKET)
    then Ok (None, q)
    else
      let q := set_stats q (add_lost (stats q) (pkt_seq pkt - first_seq q)) in
      Ok (Some pkt, pop (set_first_seq q (u16 (pkt_seq pkt + 1)))).

Definition rtp_queue_stats (q : rtp_queue_t) : rtp_queue_stats_t := stats q.

(** * The ring as a list

    [slot its cap j] is the ring cell that absolute position [j] falls in.
    [queue_rep q l]: the ring of [q] is well formed and holds the packets [l]
    in reading order. *)

Definition slot (its : list rtp_item_t) (cap j : Z) : option rtp_item_t :=
  its !! Z.to_nat (j mod cap).

Record queue_rep (q : rtp_queue_t) (l : list rtp_packet_t) : Prop := {
  rep_items : zlen (items q) = capacity q;
  rep_cap : 0 ≤ capacity q ≤ 3000;
  rep_cap250 : capacity q mod 250 = 0;
  rep_size : size q = zlen l;
  rep_fits : size q ≤ capacity q;
  rep_pos : 0 ≤ pos q ∧ (pos q < capacity q ∨ capacity q = 0 ∧ pos q = 0);
  rep_slots : ∀ i pkt, l !! i = Some pkt →
    slot (items q) (capacity q) (pos q + Z.of_nat i) = Some (Some pkt)
}.

Lemma mod_window i j cap : 0 < cap → Z.abs (i - j) < cap → i mod cap = j mod cap → i = j.
Proof.
  intros Hc Hd He. assert ((i - j) mod cap = 0) as H0.
  { by rewrite Zminus_mod, He, Z.sub_diag. }
  apply Z.mod_divide in H0 as [k Hk]; [|lia].
  assert (k = 0) by nia. subst k. lia.
Qed.

Lemma slot_wrap its cap j : slot its cap (j - cap) = slot its cap j.
Proof.
  unfold slot. replace (j - cap) with (j + (-1) * cap) by lia. by rewrite Z_mod_plus_full.
Qed.

Lemma slot_some its cap j : 0 < cap → zlen its = cap → is_Some (slot its cap j).
Proof.
  intros Hc Hl. apply lookup_lt_is_Some_2. pose proof (Z.mod_pos_bound j cap Hc).
  unfold zlen in Hl. lia.
Qed.

Lemma slot_put its cap i j x : 0 < cap → zlen its = cap → Z.abs (i - j) < cap →
  slot (put its (i mod cap) [x]) cap j = if decide (i = j) then Some x else slot its cap j.
Proof.
  intros Hc Hl Hd. pose proof (Z.mod_pos_bound i cap Hc). pose proof (Z.mod_pos_bound j cap Hc).
  unfold slot. destruct (decide (i = j)) as [->|Hne].
  - unfold put. unfold zlen in Hl. rewrite lookup_app_r by (rewrite length_take; lia).
    rewrite length_take. replace (Z.to_nat (j mod cap) - _)%nat with 0%nat by lia. done.
  - assert (i mod cap ≠ j mod cap) by (intros E; by apply mod_window in E).
    apply put_lookup_out; llia.
Qed.

Lemma ld_slot its cap j x : 0 < cap → 0 ≤ j → slot its cap j = Some x → ld its (Z.rem j cap) = Ok x.
Proof.
  intros Hc Hj Hs. rewrite Z.rem_mod_nonneg by lia. unfold ld, slot in *.
  pose proof (Z.mod_pos_bound j cap Hc). destruct (Z.ltb_spec (j mod cap) 0); [lia|]. by rewrite Hs.
Qed.

Lemma st_slot (its : list rtp_item_t) cap j x : 0 < cap → 0 ≤ j → zlen its = cap →
  st its (Z.rem j cap) [x] = Ok (put its (j mod cap) [x]).
Proof.
  intros Hc Hj Hl. rewrite Z.rem_mod_nonneg by lia.
  pose proof (Z.mod_pos_bound j cap Hc). apply st_ok; llia.
Qed.

(** The shifting loop opens the cell [i - n]. *)
Lemma move_items_spec n : ∀ i cap its,
  0 < cap → zlen its = cap → Z.of_nat n < cap → Z.of_nat n ≤ i →
  ∃ its', move_items n i cap its = Ok its' ∧ zlen its' = cap ∧
    ∀ j, i - cap < j ≤ i →
      slot its' cap j = if i - Z.of_nat n <? j then slot its cap (j - 1) else slot its cap j.
Proof.
  induction n as [|n IH]; intros i cap its Hc Hl Hn Hi.
  { exists its. split; [done|]. split; [done|]. intros j Hj.
    destruct (Z.ltb_spec (i - Z.of_nat 0) j); [lia|done]. }
  destruct (slot_some its cap (i - 1) Hc Hl) as [x Hx].
  cbn [move_items]. rewrite (ld_slot its cap (i - 1) x) by (done || lia). run.
  rewrite st_slot by (done || lia). run.
  pose proof (Z.mod_pos_bound i cap Hc).
  destruct (IH (i - 1) cap (put its (i mod cap) [x])) as (its' & -> & Hl' & Hs');
    [done|llia|lia|lia|].
  exists its'. repeat split; [done|]. intros j Hj.
  destruct (decide (j = i)) as [->|Hne].
  - destruct (Z.ltb_spec (i - Z.of_nat (S n)) i); [|lia].
    rewrite <- slot_wrap, Hs' by lia.
    destruct (Z.ltb_spec (i - 1 - Z.of_nat n) (i - cap)); [lia|].
    rewrite slot_wrap, slot_put by (done || lia). rewrite decide_True by done. done.
  - rewrite Hs' by lia.
    destruct (Z.ltb_spec (i - 1 - Z.of_nat n) j), (Z.ltb_spec (i - Z.of_nat (S n)) j); try lia;
      rewrite slot_put by (done || lia); by rewrite decide_False by lia.
Qed.

(** Growing the ring keeps its contents and makes room. *)
Lemma rtp_queue_grow_spec realloc q l position :
  queue_rep q l →
  (∃ r, rtp_queue_grow realloc q position = Fail r ∧ r < 0 ∧
        size q = capacity q ∧ (size q = 3000 ∨ realloc (capacity q + 250) = false)) ∨
  (∃ its cap p, rtp_queue_grow realloc q position
     = Ok (set_ring q its cap (size q) p, position + (p - pos q)) ∧
     queue_rep (set_ring q its cap (size q) p) l ∧ size q < cap).
Proof.
  intros [Hit Hcap H250 Hsz Hfit Hpos Hsl]. unfold rtp_queue_grow.
  destruct (Z.geb_spec (size q) (capacity q)) as [Hfull|Hroom].
  2:{ right. exists (items q), (capacity q), (pos q). rewrite Z.sub_diag, Z.add_0_r.
      split; [by destruct q|]. split; [by constructor|lia]. }
  unfold MAX_PACKET. destruct (Z.gtb_spec (size q + 1) 3000).
  { left. exists (- E2BIG). unfold E2BIG. split; [done|]. lia. }
  destruct (realloc (capacity q + 250)) eqn:Hr; cbn [negb].
  2:{ left. exists (- ENOMEM). unfold ENOMEM. split; [done|]. split; [lia|]. split; [lia|by right]. }
  right. set (cap := capacity q + 250).
  assert (zlen (items q ++ replicate 250 None) = cap) as Hl'.
  { rewrite zlen_app, Hit. done. }
  assert (cap ≤ 3000 ∧ cap mod 250 = 0) as [Hcap' H250'] by (unfold cap; dlia).
  destruct (Z.gtb_spec (pos q + size q) (capacity q)) as [Hw|Hw].
  - assert (pos q < capacity q) as Hlt by lia.
    rewrite slice_ok by (unfold cap in *; lia). run.
    rewrite sub_app_l by lia.
    assert (zlen (sub (items q) (pos q) (capacity q - pos q)) = capacity q - pos q) as Hsub
      by (apply zlen_sub; lia).
    rewrite st_ok by (unfold cap in *; llia). run.
    eexists _, cap, (pos q + (cap - capacity q)). split; [f_equal; f_equal; unfold cap; lia|].
    split; [|unfold cap; lia].
    constructor; cbn [items capacity size pos set_ring]; try done.
    + unfold cap in *; llia.
    + unfold cap; lia.
    + unfold cap; lia.
    + unfold cap; lia.
    + intros i pkt Hi. apply lookup_lt_Some in Hi as Hlen. unfold zlen in Hsz.
      specialize (Hsl i pkt Hi). unfold slot in *.
      destruct (Z.lt_ge_cases (pos q + Z.of_nat i) (capacity q)).
      * rewrite Z.mod_small in * by (unfold cap; lia).
        rewrite <- Hsl. unfold put. unfold zlen in *.
        rewrite lookup_app_r by (rewrite length_take; unfold cap in *; lia).
        rewrite length_take. rewrite lookup_app_l by (unfold cap in *; lia).
        rewrite lookup_sub by (unfold cap in *; lia). f_equal. unfold cap in *. lia.
      * assert ((pos q + Z.of_nat i) mod capacity q = pos q + Z.of_nat i - capacity q) as E1.
        { symmetry. apply Z.mod_unique_pos with 1; lia. }
        assert ((pos q + (cap - capacity q) + Z.of_nat i) mod cap
                = pos q + Z.of_nat i - capacity q) as E2.
        { symmetry. apply Z.mod_unique_pos with 1; unfold cap; lia. }
        rewrite E1 in Hsl. rewrite E2. rewrite put_lookup_out by (unfold cap in *; llia).
        rewrite lookup_app_l by (unfold zlen in *; lia). done.
  - exists (items q ++ replicate 250 None), cap, (pos q). rewrite Z.sub_diag, Z.add_0_r.
    split; [done|]. split; [|unfold cap; lia].
    constructor; cbn [items capacity size pos set_ring]; try done; try (unfold cap; lia).
    intros i pkt Hi. apply lookup_lt_Some in Hi as Hlen. unfold zlen in Hsz.
    specialize (Hsl i pkt Hi). unfold slot in *.
    rewrite Z.mod_small in * by (unfold cap; lia).
    rewrite lookup_app_l by (unfold zlen in *; lia). done.
Qed.

Definition insert_at {A} (k : nat) (x : A) (l : list A) : list A := take k l ++ x :: drop k l.

Lemma zlen_insert_at {A} k (x : A) l : zlen (insert_at k x l) = zlen l + 1.
Proof.
  unfold insert_at, zlen. rewrite length_app, length_take. cbn. rewrite length_drop. lia.
Qed.

Lemma insert_at_end {A} (x : A) l k : k = length l → insert_at k x l = l ++ [x].
Proof. intros ->. unfold insert_at. rewrite firstn_all, drop_all. done. Qed.

Lemma insert_at_lookup {A} (k : nat) (x y : A) l i : (k ≤ length l)%nat →
  insert_at k x l !! i = Some y →
  if decide (i < k)%nat then l !! i = Some y else
  if decide (i = k) then x = y else l !! (i - 1)%nat = Some y.
Proof.
  intros Hk. unfold insert_at. destruct (decide (i < k)%nat).
  - rewrite lookup_app_l by (rewrite length_take; lia). by rewrite lookup_take_lt.
  - rewrite lookup_app_r, length_take by (rewrite length_take; lia).
    destruct (decide (i = k)) as [->|].
    + rewrite Nat.min_l, Nat.sub_diag by lia. cbn. congruence.
    + rewrite lookup_cons_ne_0 by lia. rewrite lookup_drop. intros <-. f_equal. lia.
Qed.

(** [rtp_queue_insert] is insertion in the list, or a refusal without room. *)
Lemma rtp_queue_insert_spec realloc q l position pkt :
  queue_rep q l → pos q ≤ position ≤ pos q + size q →
  (∃ r, rtp_queue_insert realloc q position pkt = Ok (r, q) ∧ r < 0 ∧
        size q = capacity q ∧ (size q = 3000 ∨ realloc (capacity q + 250) = false)) ∨
  (∃ its cap p, rtp_queue_insert realloc q position pkt
     = Ok (1, set_ring q its cap (size q + 1) p) ∧
     queue_rep (set_ring q its cap (size q + 1) p)
       (insert_at (Z.to_nat (position - pos q)) pkt l)).
Proof.
  intros Hq Hp. unfold rtp_queue_insert.
  destruct (rtp_queue_grow_spec realloc q l position Hq)
    as [(r & -> & ?)|(its & cap & p & -> & Hq' & Hroom)]; [left; by exists r|].
  right. destruct Hq' as [Hit Hcap H250 Hsz Hfit Hpos Hsl].
  cbn [items capacity size pos set_ring] in *. pose proof (zlen_nonneg l).
  destruct (Z.eqb_spec cap 0); [lia|].
  set (k := position - pos q) in *.
  destruct (move_items_spec (Z.to_nat (p + size q - (position + (p - pos q)))) (p + size q) cap its)
    as (its1 & -> & Hl1 & Hs1); [lia..|]. run.
  rewrite st_slot by lia. run.
  eexists _, cap, p. split; [reflexivity|].
  constructor; cbn [items capacity size pos set_ring]; try done; try lia.
  - pose proof (Z.mod_pos_bound (position + (p - pos q)) cap). llia.
  - rewrite zlen_insert_at. lia.
  - intros i y Hi%insert_at_lookup; [|unfold zlen in *; lia].
    assert (Z.of_nat i ≤ size q) as Hi'.
    { repeat case_decide; try lia.
      apply lookup_lt_Some in Hi. unfold zlen in *. lia. }
    rewrite slot_put, Hs1 by lia.
    repeat case_decide; try lia.
    + destruct (Z.ltb_spec (p + size q - Z.of_nat (Z.to_nat (p + size q - (position + (p - pos q)))))
        (p + Z.of_nat i)); [lia|by apply Hsl].
    + congruence.
    + destruct (Z.ltb_spec (p + size q - Z.of_nat (Z.to_nat (p + size q - (position + (p - pos q)))))
        (p + Z.of_nat i)); [|lia].
      rewrite <- (Hsl _ _ Hi). f_equal. lia.
Qed.

(** ** Freeing *)

(** [q] after the callback ran on [fs]. *)
Definition log_free (q : rtp_queue_t) (fs : list rtp_packet_t) : rtp_queue_t :=
  RtpQueue (items q) (capacity q) (size q) (pos q) (probation q) (cycles q) (last_seq q)
    (first_seq q) (bad_count q) (bad_seq q) (bad_items q) (threshold q) (frequency q) (stats q)
    (freed q ++ fs).

Lemma log_free_cons q x fs : log_free (call_free q x) fs = log_free q (x :: fs).
Proof. unfold log_free, call_free. cbn. by rewrite <- app_assoc. Qed.

Lemma log_free_nil q : log_free q [] = q.
Proof. unfold log_free. rewrite app_nil_r. by destruct q. Qed.

(** The saved packets of another sequence. *)
Record bad_rep (q : rtp_queue_t) (bl : list rtp_packet_t) : Prop := {
  bad_len : zlen (bad_items q) = 4;
  bad_cnt : bad_count q = zlen bl;
  bad_max : zlen bl ≤ 3;
  bad_slots : ∀ i pkt, bl !! i = Some pkt → bad_items q !! i = Some (Some pkt)
}.

Lemma item_pkt_some its i pkt : 0 ≤ i → its !! Z.to_nat i = Some (Some pkt) → item_pkt its i = Ok pkt.
Proof.
  intros Hi Hx. unfold item_pkt, ld. destruct (Z.ltb_spec i 0); [lia|]. by rewrite Hx.
Qed.

Lemma item_pkt_slot its cap j pkt : 0 < cap → 0 ≤ j → slot its cap j = Some (Some pkt) →
  item_pkt its (Z.rem j cap) = Ok pkt.
Proof. intros. unfold item_pkt. by rewrite (ld_slot its cap j (Some pkt)). Qed.

Lemma free_bad_items_spec fs : ∀ q i,
  0 ≤ i → (∀ j pkt, fs !! j = Some pkt → bad_items q !! (Z.to_nat i + j)%nat = Some (Some pkt)) →
  free_bad_items (length fs) i q = Ok (log_free q fs).
Proof.
  induction fs as [|x fs IH]; intros q i Hi Hs; cbn [length free_bad_items].
  { by rewrite log_free_nil. }
  pose proof (Hs 0%nat x eq_refl) as H0. rewrite Nat.add_0_r in H0.
  rewrite (item_pkt_some _ _ x) by done. run.
  rewrite IH, log_free_cons; [done|lia|]. intros j pkt Hj. cbn [bad_items call_free].
  rewrite <- (Hs (S j) pkt Hj). f_equal. lia.
Qed.

Lemma rtp_queue_reset_bad_items_spec q bl : bad_rep q bl →
  rtp_queue_reset_bad_items q = Ok (set_bad (log_free q bl) 0 0 (bad_items q)).
Proof.
  intros [Hl Hc Hm Hs]. unfold rtp_queue_reset_bad_items.
  replace (Z.to_nat (bad_count q)) with (length bl) by (unfold zlen in *; lia).
  by rewrite (free_bad_items_spec bl q 0) by (done || lia).
Qed.

Lemma free_items_spec fs : ∀ q i,
  0 < capacity q ∨ fs = [] → 0 ≤ pos q + i →
  (∀ j pkt, fs !! j = Some pkt →
    slot (items q) (capacity q) (pos q + i + Z.of_nat j) = Some (Some pkt)) →
  free_items (length fs) i q = Ok (log_free q fs).
Proof.
  induction fs as [|x fs IH]; intros q i Hc Hi Hs; cbn [length free_items].
  { by rewrite log_free_nil. }
  destruct Hc as [Hc|]; [|done]. destruct (Z.eqb_spec (capacity q) 0); [lia|].
  pose proof (Hs 0%nat x eq_refl) as H0. rewrite Z.add_0_r in H0.
  rewrite (item_pkt_slot _ _ _ x) by done. run. rewrite IH, log_free_cons; [done|by left|cbn; lia|].
  intros j pkt Hj. cbn [items capacity pos call_free].
  rewrite <- (Hs (S j) pkt Hj). f_equal. lia.
Qed.

Definition reset_queue (q : rtp_queue_t) (l bl : list rtp_packet_t) : rtp_queue_t :=
  set_probation (set_ring (set_bad (log_free q (bl ++ l)) 0 0 (bad_items q)) (items q) (capacity q) 0 0)
    RTP_SEQUENTIAL.

Lemma rtp_queue_reset_spec q l bl : queue_rep q l → bad_rep q bl →
  rtp_queue_reset q = Ok (reset_queue q l bl).
Proof.
  intros [Hit Hcap H250 Hsz Hfit Hpos Hsl] Hb. unfold rtp_queue_reset.
  rewrite (rtp_queue_reset_bad_items_spec q bl) by done. run. cbn [size set_bad log_free].
  replace (Z.to_nat (size q)) with (length l) by (unfold zlen in *; lia).
  rewrite (free_items_spec l); cbn [pos capacity items set_bad log_free].
  - run. unfold reset_queue, log_free. cbn. by rewrite <- app_assoc.
  - destruct l; [by right|left]. unfold zlen in Hsz. cbn in Hsz. lia.
  - lia.
  - intros j pkt Hj. rewrite Z.add_0_r. by apply Hsl.
Qed.

Lemma queue_rep_reset q l bl : queue_rep q l → queue_rep (reset_queue q l bl) [].
Proof.
  intros [Hit Hcap H250 Hsz Hfit Hpos Hsl].
  constructor; cbn [items capacity size pos reset_queue set_probation set_ring]; try done; try lia.
Qed.

(** ** Searching *)

(** How far [pkt] is behind the sequence number [last]. *)
Definition behind (last : Z) (pkt : rtp_packet_t) : Z := u16 (last - pkt_seq pkt).

(** Older packets come first. *)
Definition seq_sorted (last : Z) (l : list rtp_packet_t) : Prop :=
  ∀ i j x y, (i < j)%nat → l !! i = Some x → l !! j = Some y → behind last y < behind last x.

(** [k] splits [l] into the packets older and the packets newer than [v]. *)
Definition splits (last v : Z) (l : list rtp_packet_t) (k : nat) : Prop :=
  (∀ i x, l !! i = Some x → (i < k)%nat → v < behind last x) ∧
  (∀ i x, l !! i = Some x → (k ≤ i)%nat → behind last x < v).

Lemma rtp_queue_find_loop_spec q l v fuel : queue_rep q l → ∀ a b,
  pos q ≤ a ≤ b → b ≤ pos q + size q → b - a ≤ Z.of_nat fuel →
  ∃ idx, rtp_queue_find_loop fuel q v a b = Ok idx ∧
    ((idx = -1 ∧ ∃ i x, l !! i = Some x ∧ behind (last_seq q) x = v) ∨
     (a ≤ idx ≤ b ∧
      (seq_sorted (last_seq q) l →
       (∀ i x, l !! i = Some x → pos q + Z.of_nat i < a → v < behind (last_seq q) x) →
       (∀ i x, l !! i = Some x → b ≤ pos q + Z.of_nat i → behind (last_seq q) x < v) →
       splits (last_seq q) v l (Z.to_nat (idx - pos q))))).
Proof.
  intros Hq. destruct Hq as [Hit Hcap H250 Hsz Hfit Hpos Hsl].
  induction fuel as [|fuel IH]; intros a b Hab Hb Hf; cbn [rtp_queue_find_loop].
  all: destruct (Z.ltb_spec a b) as [Hlt|Hge].
  1: lia.
  1,3: (exists a; split; [done|]; right; split; [lia|];
        intros _ Hlo Hhi; split; intros i x Hi Hk; [apply (Hlo i)|apply (Hhi i)]; done || lia).
  rewrite Z.quot_div_nonneg by lia. set (i := (a + b) / 2).
  assert (a ≤ i < b) as Hi by (unfold i; dlia).
  destruct (Z.eqb_spec (capacity q) 0); [lia|].
  destruct (lookup_lt_is_Some_2 l (Z.to_nat (i - pos q))) as [x Hx]; [unfold zlen in *; lia|].
  pose proof (Hsl _ _ Hx) as Hs. replace (pos q + Z.of_nat (Z.to_nat (i - pos q))) with i in Hs by lia.
  rewrite (item_pkt_slot _ _ _ x) by (done || lia). run. fold (behind (last_seq q) x).
  destruct (Z.eqb_spec (behind (last_seq q) x) v) as [He|Hne].
  { exists (-1). split; [done|]. left. eauto. }
  destruct (Z.ltb_spec (behind (last_seq q) x) v) as [Hv|Hv].
  - destruct (IH a i) as (idx & Hidx & [Hd|[Hr Hspl]]); [lia..| |].
    + exists idx. auto.
    + exists idx. split; [done|]. right. split; [lia|]. intros Hsort Hlo Hhi.
      apply Hspl; [done..|]. intros j y Hj Hij.
      destruct (decide (j = Z.to_nat (i - pos q))) as [->|]; [by simplify_eq|].
      pose proof (Hsort (Z.to_nat (i - pos q)) j x y ltac:(lia) Hx Hj). lia.
  - destruct (IH (i + 1) b) as (idx & Hidx & [Hd|[Hr Hspl]]); [lia..| |].
    + exists idx. auto.
    + exists idx. split; [done|]. right. split; [lia|]. intros Hsort Hlo Hhi.
      apply Hspl; [done| |done]. intros j y Hj Hij.
      destruct (decide (j = Z.to_nat (i - pos q))) as [->|]; [simplify_eq; lia|].
      pose proof (Hsort j (Z.to_nat (i - pos q)) y x ltac:(lia) Hj Hx). lia.
Qed.

Lemma rtp_queue_find_spec q l seq : queue_rep q l →
  let v := u16 (last_seq q - seq) in
  ∃ idx, rtp_queue_find q seq = Ok idx ∧
    ((idx = -1 ∧ ∃ i x, l !! i = Some x ∧ behind (last_seq q) x = v) ∨
     (pos q ≤ idx ≤ pos q + size q ∧
      (seq_sorted (last_seq q) l → splits (last_seq q) v l (Z.to_nat (idx - pos q))))).
Proof.
  intros Hq v. pose proof Hq as [_ _ _ Hsz _ Hpos _]. pose proof (zlen_nonneg l).
  destruct (rtp_queue_find_loop_spec q l v (Z.to_nat (size q)) Hq (pos q) (pos q + size q))
    as (idx & Hidx & Hr); [lia..|].
  exists idx. split; [done|]. destruct Hr as [Hd|[Hr Hspl]]; [by left|right].
  split; [done|]. intros Hsort. apply Hspl; [done|lia|].
  intros i x Hi%lookup_lt_Some. unfold zlen in *. lia.
Qed.

(** Inserting at the split point keeps the order. *)
Lemma seq_sorted_insert last l k pkt : (k ≤ length l)%nat →
  seq_sorted last l → splits last (behind last pkt) l k → seq_sorted last (insert_at k pkt l).
Proof.
  intros Hk Hs [Hlo Hhi] i j x y Hij Hi%insert_at_lookup Hj%insert_at_lookup; [|done..].
  repeat case_decide; subst; try lia; simplify_eq.
  - by apply (Hs i j).
  - by apply (Hlo i).
  - apply (Hs i (j - 1)%nat); [lia|done..].
  - apply (Hhi (j - 1)%nat); [done|lia].
  - apply (Hs (i - 1)%nat (j - 1)%nat); [lia|done..].
Qed.

(** ** Every operation keeps the queue well formed *)

(** Well-formed queue: a ring and a bounded set of saved packets, all slots in
    use holding packets. *)
Definition queue_wf (q : rtp_queue_t) : Prop := ∃ l bl, queue_rep q l ∧ bad_rep q bl.

(** [q'] differs from [q] in the ring only. *)
Definition same_rest (q q' : rtp_queue_t) : Prop :=
  q' = set_ring q (items q') (capacity q') (size q') (pos q').

Ltac frame := match goal with
  | H : queue_rep _ ?l |- queue_rep _ ?k => unify l k; solve [destruct H; constructor; done]
  | H : bad_rep _ ?l |- bad_rep _ ?k => unify l k; solve [destruct H; constructor; done]
  end.

Lemma bad_rep_same_rest q q' bl : same_rest q q' → bad_rep q bl → bad_rep q' bl.
Proof. intros -> H. frame. Qed.

Lemma bad_rep_nil q : zlen (bad_items q) = 4 → bad_count q = 0 → bad_rep q [].
Proof. intros. constructor; [done..|]. intros i pkt. by rewrite lookup_nil. Qed.

Lemma rtp_queue_insert_wf realloc q l position pkt :
  queue_rep q l → pos q ≤ position ≤ pos q + size q →
  ∃ r q' l', rtp_queue_insert realloc q position pkt = Ok (r, q') ∧ same_rest q q' ∧
    queue_rep q' l' ∧ (r = 1 ∨ r < 0 ∧ q' = q).
Proof.
  intros Hq Hp.
  destruct (rtp_queue_insert_spec realloc q l position pkt Hq Hp)
    as [(r & -> & ? & _)|(its & cap & p & -> & Hq')].
  - exists r, q, l. unfold same_rest. split_and!; [done|by destruct q|done|by right].
  - eexists 1, _, _. split_and!; [done|done|done|by left].
Qed.

Lemma queue_rep_end q l : queue_rep q l → pos q ≤ pos q + size q ≤ pos q + size q.
Proof. intros [_ _ _ -> _ _ _]. pose proof (zlen_nonneg l). lia. Qed.

Lemma copy_bad_items_wf realloc n : ∀ i q l bl,
  queue_rep q l → bad_rep q bl → 0 ≤ i → i + Z.of_nat n ≤ zlen bl →
  ∃ q' l', copy_bad_items realloc n i q = Ok q' ∧ same_rest q q' ∧ queue_rep q' l'.
Proof.
  induction n as [|n IH]; intros i q l bl Hq Hb Hi Hn; cbn [copy_bad_items].
  { exists q, l. unfold same_rest. split_and!; [done|by destruct q|done]. }
  destruct (lookup_lt_is_Some_2 bl (Z.to_nat i)) as [x Hx]; [unfold zlen in *; lia|].
  rewrite (item_pkt_some _ _ x) by (done || by apply (bad_slots _ _ Hb)). run.
  destruct (rtp_queue_insert_wf realloc q l (pos q + size q) x Hq (queue_rep_end _ _ Hq))
    as (r & q1 & l1 & -> & Hs1 & Hq1 & _). run.
  destruct (IH (i + 1) q1 l1 bl) as (q2 & l2 & -> & Hs2 & Hq2);
    [done|by eapply bad_rep_same_rest|lia|lia|].
  exists q2, l2. split_and!; [done| |done]. unfold same_rest in *. rewrite Hs1 in Hs2. done.
Qed.

Section WriteWf.
Variables (realloc : Z → bool) (pkt : rtp_packet_t).

Lemma insert_end_wf q l bl : queue_rep q l → bad_rep q bl →
  ∃ r q', rtp_queue_insert realloc q (pos q + size q) pkt = Ok (r, q') ∧ queue_wf q' ∧
          (r = 1 ∨ r < 0).
Proof.
  intros Hq Hb.
  destruct (rtp_queue_insert_wf realloc q l (pos q + size q) pkt Hq (queue_rep_end _ _ Hq))
    as (r & q1 & l1 & -> & Hs1 & Hq1 & Hr).
  exists r, q1. split_and!; [done| |destruct Hr as [->|[? _]]; auto].
  exists l1, bl. split; [done|]. by eapply bad_rep_same_rest.
Qed.

Lemma rtp_queue_write_probation_wf q : queue_wf q →
  ∃ r q', rtp_queue_write_probation realloc q pkt = Ok (r, q') ∧ queue_wf q' ∧ (r = 1 ∨ r < 0).
Proof.
  intros (l & bl & Hq & Hb). unfold rtp_queue_write_probation.
  destruct ((size q >? 0) && _) eqn:E1.
  - apply andb_prop in E1 as [Hsz _]. rewrite Z.gtb_lt in Hsz.
    cbn [probation set_probation].
    destruct (probation q - 1 =? 0).
    + pose proof Hq as [_ _ _ Hl _ Hp Hs].
      destruct l as [|x l]; [cbn in Hl; unfold zlen in Hl; cbn in Hl; lia|].
      pose proof (rep_fits _ _ Hq).
      specialize (Hs 0%nat x eq_refl). rewrite Z.add_0_r in Hs. unfold slot in Hs.
      rewrite Z.mod_small in Hs by lia.
      cbn [items pos set_probation]. rewrite (item_pkt_some _ _ x) by (done || lia). run.
      eapply insert_end_wf; frame.
    + run. eapply insert_end_wf; frame.
  - destruct ((size q =? 0) && _).
    + run. eapply insert_end_wf; frame.
    + rewrite (rtp_queue_reset_spec q l bl) by done. run.
      eapply insert_end_wf; [|apply bad_rep_nil; [apply Hb|done]].
      apply (queue_rep_reset q l bl) in Hq. frame.
Qed.

Lemma save_wf q l bl badseq : queue_rep q l → bad_rep q bl → zlen bl ≤ 2 →
  ∃ its, st (bad_items q) (bad_count q) [Some pkt] = Ok its ∧
         bad_rep (set_bad q (bad_count q + 1) badseq its) (bl ++ [pkt]).
Proof.
  intros Hq [Hl Hc Hm Hs] H2. pose proof (zlen_nonneg bl).
  rewrite st_ok by llia. eexists. split; [done|]. constructor; cbn [bad_items bad_count set_bad].
  - llia.
  - llia.
  - llia.
  - intros i x Hi. destruct (decide (i < length bl)%nat).
    + rewrite lookup_app_l in Hi by done. rewrite put_lookup_out; [by apply Hs|llia..|].
      left. unfold zlen in Hc. lia.
    + rewrite lookup_app_r in Hi by lia. apply list_lookup_singleton_Some in Hi as [Hi <-].
      unfold put. unfold zlen in *.
      rewrite lookup_app_r by (rewrite length_take; lia). rewrite length_take.
      by replace (i - _)%nat with 0%nat by lia.
Qed.

Lemma rtp_queue_write_bad_wf q : queue_wf q →
  ∃ r q', rtp_queue_write_bad realloc q pkt = Ok (r, q') ∧ queue_wf q' ∧ (r = 1 ∨ r < 0).
Proof.
  intros (l & bl & Hq & Hb). unfold rtp_queue_write_bad. cbv zeta.
  destruct ((bad_count q >? 0) && _).
  - unfold RTP_SEQUENTIAL. rewrite Z.geb_leb. destruct (Z.leb_spec 3 (bad_count q)).
    + destruct (copy_bad_items_wf realloc (Z.to_nat (bad_count q)) 0 q l bl)
        as (q1 & l1 & -> & Hs & Hq1); [done|done|lia|destruct Hb; lia|]. run.
      eapply insert_end_wf; [|apply bad_rep_nil; [rewrite Hs; apply Hb|done]]. frame.
    + destruct (save_wf q l bl (u16 (Z.rem (pkt_seq pkt + 1) (RTP_SEQMOD - 1)))) as (its & -> & Hb');
        [done|done|destruct Hb; lia|]. run.
      eexists 1, _. split; [done|]. split; [|by left]. eexists l, _. split; [|exact Hb']. frame.
  - rewrite (rtp_queue_reset_bad_items_spec _ bl) by frame. run.
    match goal with |- context [st (bad_items ?q1) _ _] => set (q2 := q1) end.
    destruct (save_wf q2 l [] (u16 (Z.rem (pkt_seq pkt + 1) (RTP_SEQMOD - 1)))) as (its & -> & Hb').
    { frame. } { apply bad_rep_nil; [apply Hb|done]. } { by cbn. } run.
    eexists 1, _. split; [done|]. split; [|by left]. eexists l, _. split; [|exact Hb']. frame.
Qed.

Lemma rtp_queue_write_wf q : queue_wf q →
  ∃ r q', rtp_queue_write realloc q pkt = Ok (r, q') ∧ queue_wf q' ∧ (r = 1 ∨ r < 0).
Proof.
  intros (l & bl & Hq & Hb). unfold rtp_queue_write.
  set (q0 := set_stats q _). assert (queue_rep q0 l) as Hq0 by frame.
  assert (bad_rep q0 bl) as Hb0 by frame. assert (queue_wf q0) as Hwf by (by exists l, bl).
  cbv zeta. clearbody q0. destruct (truth (probation q0)); [by apply rtp_queue_write_probation_wf|].
  destruct ((u16 _ >? 0) && _).
  { set (q1 := if _ <? _ then _ else _).
    assert (queue_rep q1 l) as Hq1 by (unfold q1; case_match; frame).
    assert (bad_rep q1 bl) as Hb1 by (unfold q1; case_match; frame).
    rewrite (rtp_queue_reset_bad_items_spec _ bl) by done. run.
    eapply insert_end_wf; [frame|]. apply bad_rep_nil; [apply Hb1|done]. }
  destruct ((s16 _ <=? 0) && _).
  { destruct (rtp_queue_find_spec q0 l (pkt_seq pkt) Hq0) as (idx & -> & Hidx). run.
    destruct (Z.eqb_spec (-1) idx).
    { eexists (-1), _. split; [done|]. split; [|right; lia]. exists l, bl. split; frame. }
    destruct Hidx as [[? _]|[Hr _]]; [lia|].
    rewrite (rtp_queue_reset_bad_items_spec _ bl) by frame. run.
    edestruct (rtp_queue_insert_wf realloc) as (r & q1 & l1 & -> & Hs & Hq1 & Hr1);
      [|exact Hr|]; [frame|].
    eexists r, q1. split; [done|]. split; [|destruct Hr1 as [->|[? _]]; auto]. exists l1, []. split; [done|].
    eapply bad_rep_same_rest; [done|]. apply bad_rep_nil; [apply Hb0|done]. }
  destruct (u16 _ <? RTP_MISORDER); [|by apply rtp_queue_write_bad_wf].
  eexists (-1), _. split; [done|]. split; [|right; lia]. exists l, bl. split; frame.
Qed.
End WriteWf.

