(* ===== verification/RtpQueueSpec.v ===== *)
(** What the RTP reorder queue of [RtpQueue] promises: an abstract queue
    without ring or search, the refinement of [rtp_queue_write] and
    [rtp_queue_read] to it, and, over traces of calls, delivery in sequence
    order and the accounting of every packet handed to the queue. *)
From Stdlib Require Import Sorted.
From S2P Require Import Prelude RtpPacket RtpQueue.

(** * The abstract queue

    What the queue promises: an ordered list of packets, a short list of
    saved packets that may start another sequence, and counters.  No ring,
    no capacity, no binary search. *)

Record aqueue := AQueue {
  a_list : list rtp_packet_t;
  a_saved : list rtp_packet_t;
  a_probation : Z;
  a_first : Z;
  a_last : Z;
  a_next : Z; (* sequence number expected after the saved packets *)
  a_stats : rtp_queue_stats_t;
  a_freed : list rtp_packet_t
}.

(** Insertion in sequence order. *)
Fixpoint insert_seq (last : Z) (x : rtp_packet_t) (l : list rtp_packet_t) : list rtp_packet_t :=
  match l with
  | [] => [x]
  | y :: l => if behind last y <? behind last x then x :: y :: l else y :: insert_seq last x l
  end.

(** A packet of another sequence: saved until [RTP_SEQUENTIAL] of them followed
    each other, then appended with them. *)
Definition aq_write_other (a : aqueue) (pkt : rtp_packet_t) : Z * aqueue :=
  let next := u16 (Z.rem (pkt_seq pkt + 1) (RTP_SEQMOD - 1)) in
  if negb (zlen (a_saved a) =? 0) && (a_next a =? pkt_seq pkt) then
    if 3 <=? zlen (a_saved a)
    then (1, AQueue (a_list a ++ a_saved a ++ [pkt]) [] (a_probation a) (a_first a) (pkt_seq pkt)
               (a_next a) (a_stats a) (a_freed a))
    else (1, AQueue (a_list a) (a_saved a ++ [pkt]) (a_probation a) (a_first a) (a_last a) next
               (a_stats a) (a_freed a))
  else (1, AQueue (a_list a) [pkt] (a_probation a) (a_first a) (a_last a) next
             (add_bad (a_stats a)) (a_freed a ++ a_saved a)).

Definition aq_write_probation (a : aqueue) (pkt : rtp_packet_t) : Z * aqueue :=
  match a_list a with
  | x :: _ =>
      if pkt_seq pkt =? a_last a + 1
      then (1, AQueue (a_list a ++ [pkt]) (a_saved a) (a_probation a - 1)
                 (if a_probation a - 1 =? 0 then pkt_seq x else a_first a) (pkt_seq pkt)
                 (a_next a) (a_stats a) (a_freed a))
      else (1, AQueue [pkt] [] RTP_SEQUENTIAL (a_first a) (pkt_seq pkt) 0 (a_stats a)
                 (a_freed a ++ a_saved a ++ a_list a))
  | [] =>
      if a_probation a =? 1
      then (1, AQueue [pkt] (a_saved a) (a_probation a - 1) (pkt_seq pkt) (pkt_seq pkt)
                 (a_next a) (a_stats a) (a_freed a))
      else (1, AQueue [pkt] [] RTP_SEQUENTIAL (a_first a) (pkt_seq pkt) 0 (a_stats a)
                 (a_freed a ++ a_saved a))
  end.

(** The three windows of a packet once the source is trusted. *)
Definition is_next (last seq : Z) : bool :=
  let delta := u16 (seq - last) in (delta >? 0) && (delta <? RTP_DROPOUT).
Definition is_inside (first last seq : Z) : bool :=
  let delta := u16 (seq - last) in (s16 delta <=? 0) && (s16 delta >=? s16 (first - last)).
Definition is_late (first seq : Z) : bool := u16 (first - seq) <? RTP_MISORDER.

Definition aq_write (a : aqueue) (pkt : rtp_packet_t) : Z * aqueue :=
  let seq := pkt_seq pkt in
  let stats := add_total (a_stats a) in
  let a := AQueue (a_list a) (a_saved a) (a_probation a) (a_first a) (a_last a) (a_next a)
             stats (a_freed a) in
  if truth (a_probation a) then aq_write_probation a pkt
  else if is_next (a_last a) seq then
    (1, AQueue (a_list a ++ [pkt]) [] 0 (a_first a) seq 0 stats (a_freed a ++ a_saved a))
  else if is_inside (a_first a) (a_last a) seq then
    if existsb (λ x, behind (a_last a) x =? behind (a_last a) pkt) (a_list a)
    then (-1, AQueue (a_list a) (a_saved a) 0 (a_first a) (a_last a) (a_next a)
                (add_duplicate stats) (a_freed a))
    else (1, AQueue (insert_seq (a_last a) pkt (a_list a)) [] 0 (a_first a) (a_last a) 0
               (add_reorder stats) (a_freed a ++ a_saved a))
  else if is_late (a_first a) seq then
    (-1, AQueue (a_list a) (a_saved a) 0 (a_first a) (a_last a) (a_next a)
           (add_late stats) (a_freed a))
  else aq_write_other a pkt.

Definition aq_read (thr freq : Z) (a : aqueue) : outcome (option rtp_packet_t * aqueue) :=
  match a_list a with
  | [] => Ok (None, a)
  | pkt :: rest =>
      if truth (a_probation a) then Ok (None, a)
      else if a_first a =? pkt_seq pkt then
        Ok (Some pkt, AQueue rest (a_saved a) (a_probation a) (u16 (a_first a + 1)) (a_last a)
                        (a_next a) (a_stats a) (a_freed a))
      else
        age ← rtp_queue_age freq pkt (List.last rest pkt);
        if (age <? u32 thr) && (zlen (a_list a) + 5 <? 1000) then Ok (None, a)
        else Ok (Some pkt, AQueue rest (a_saved a) (a_probation a) (u16 (pkt_seq pkt + 1)) (a_last a)
                             (a_next a) (add_lost (a_stats a) (pkt_seq pkt - a_first a)) (a_freed a))
  end.

(** The abstraction relation. *)
Record queue_abs (q : rtp_queue_t) (a : aqueue) : Prop := {
  abs_rep : queue_rep q (a_list a);
  abs_bad : bad_rep q (a_saved a);
  abs_probation : probation q = a_probation a;
  abs_first : first_seq q = a_first a;
  abs_last : last_seq q = a_last a;
  abs_next : bad_seq q = a_next a;
  abs_stats : stats q = a_stats a;
  abs_freed : freed q = a_freed a
}.

Lemma splits_insert_seq last x l k : (k ≤ length l)%nat →
  splits last (behind last x) l k → insert_seq last x l = insert_at k x l.
Proof.
  revert k. induction l as [|y l IH]; intros k Hk [Hlo Hhi].
  { destruct k; [done|cbn in Hk; lia]. }
  cbn [insert_seq]. destruct k as [|k].
  - pose proof (Hhi 0%nat y eq_refl ltac:(lia)). by destruct (Z.ltb_spec (behind last y) (behind last x)); [|lia].
  - pose proof (Hlo 0%nat y eq_refl ltac:(lia)). destruct (Z.ltb_spec (behind last y) (behind last x)); [lia|].
    rewrite (IH k); [done|cbn in Hk; lia|]. split; intros i z Hi Hik.
    + apply (Hlo (S i)); [done|lia].
    + apply (Hhi (S i)); [done|lia].
Qed.

Lemma splits_fresh last v l k : splits last v l k → existsb (λ x, behind last x =? v) l = false.
Proof.
  intros [Hlo Hhi]. apply not_true_is_false. intros (x & Hin & He)%existsb_exists.
  apply list_elem_of_In, list_elem_of_lookup in Hin as [i Hi]. apply Z.eqb_eq in He.
  destruct (decide (i < k)%nat); [specialize (Hlo i x Hi ltac:(lia))|specialize (Hhi i x Hi ltac:(lia))]; lia.
Qed.

Lemma queue_rep_head q x l : queue_rep q (x :: l) →
  0 < capacity q ∧ item_pkt (items q) (pos q) = Ok x.
Proof.
  intros [_ _ _ Hsz Hfit Hpos Hs]. rewrite zlen_cons in Hsz. pose proof (zlen_nonneg l).
  split; [lia|]. specialize (Hs 0%nat x eq_refl). rewrite Z.add_0_r in Hs. unfold slot in Hs.
  rewrite Z.mod_small in Hs by lia. apply item_pkt_some; [lia|done].
Qed.

(** ** With limited room

    The same queue when the ring may have to grow: [cap] is the room it has, and
    a packet is refused when the ring cannot hold one more. *)

Section Bounded.
Variable realloc : Z → bool.

(** The room after making sure that there is one more place than [n], or the
    error. *)
Definition aq_grow (cap n : Z) : Z + Z :=
  if n <? cap then inr cap
  else if n + 1 >? MAX_PACKET then inl (- E2BIG)
  else if realloc (cap + 250) then inr (cap + 250) else inl (- ENOMEM).

Definition with_list (a : aqueue) (l : list rtp_packet_t) : aqueue :=
  AQueue l (a_saved a) (a_probation a) (a_first a) (a_last a) (a_next a) (a_stats a) (a_freed a).

(** [l]: the packets with one more among them. *)
Definition aq_insert (cap : Z) (a : aqueue) (l : list rtp_packet_t) : Z * (Z * aqueue) :=
  match aq_grow cap (zlen (a_list a)) with
  | inl r => (r, (cap, a))
  | inr cap => (1, (cap, with_list a l))
  end.
Definition aq_append (cap : Z) (a : aqueue) (x : rtp_packet_t) : Z * (Z * aqueue) :=
  aq_insert cap a (a_list a ++ [x]).

(** Saved packets are adopted as long as there is room; the others are in no list
    any more. *)
Fixpoint aq_adopt (cap : Z) (a : aqueue) (xs : list rtp_packet_t) : Z * aqueue :=
  match xs with
  | [] => (cap, a)
  | x :: xs => let '(_, (cap, a)) := aq_append cap a x in aq_adopt cap a xs
  end.

Definition aq_write_other_in (cap : Z) (a : aqueue) (pkt : rtp_packet_t) : Z * (Z * aqueue) :=
  let next := u16 (Z.rem (pkt_seq pkt + 1) (RTP_SEQMOD - 1)) in
  if negb (zlen (a_saved a) =? 0) && (a_next a =? pkt_seq pkt) then
    if 3 <=? zlen (a_saved a) then
      let '(cap, a) := aq_adopt cap a (a_saved a) in
      aq_append cap (AQueue (a_list a) [] (a_probation a) (a_first a) (pkt_seq pkt) (a_next a)
                       (a_stats a) (a_freed a)) pkt
    else (1, (cap, AQueue (a_list a) (a_saved a ++ [pkt]) (a_probation a) (a_first a) (a_last a) next
                     (a_stats a) (a_freed a)))
  else (1, (cap, AQueue (a_list a) [pkt] (a_probation a) (a_first a) (a_last a) next
                   (add_bad (a_stats a)) (a_freed a ++ a_saved a))).

(** Probation, before the packet is appended. *)
Definition aq_start (a : aqueue) (pkt : rtp_packet_t) : aqueue :=
  match a_list a with
  | x :: _ =>
      if pkt_seq pkt =? a_last a + 1
      then AQueue (a_list a) (a_saved a) (a_probation a - 1)
             (if a_probation a - 1 =? 0 then pkt_seq x else a_first a) (pkt_seq pkt)
             (a_next a) (a_stats a) (a_freed a)
      else AQueue [] [] RTP_SEQUENTIAL (a_first a) (pkt_seq pkt) 0 (a_stats a)
             (a_freed a ++ a_saved a ++ a_list a)
  | [] =>
      if a_probation a =? 1
      then AQueue [] (a_saved a) (a_probation a - 1) (pkt_seq pkt) (pkt_seq pkt)
             (a_next a) (a_stats a) (a_freed a)
      else AQueue [] [] RTP_SEQUENTIAL (a_first a) (pkt_seq pkt) 0 (a_stats a) (a_freed a ++ a_saved a)
  end.

Definition counted (a : aqueue) : aqueue :=
  AQueue (a_list a) (a_saved a) (a_probation a) (a_first a) (a_last a) (a_next a)
    (add_total (a_stats a)) (a_freed a).

Definition aq_write_in (cap : Z) (a : aqueue) (pkt : rtp_packet_t) : Z * (Z * aqueue) :=
  let seq := pkt_seq pkt in
  let a := counted a in
  if truth (a_probation a) then aq_append cap (aq_start a pkt) pkt
  else if is_next (a_last a) seq then
    aq_append cap (AQueue (a_list a) [] 0 (a_first a) seq 0 (a_stats a) (a_freed a ++ a_saved a)) pkt
  else if is_inside (a_first a) (a_last a) seq then
    if existsb (λ x, behind (a_last a) x =? behind (a_last a) pkt) (a_list a)
    then (-1, (cap, AQueue (a_list a) (a_saved a) 0 (a_first a) (a_last a) (a_next a)
                      (add_duplicate (a_stats a)) (a_freed a)))
    else aq_insert cap (AQueue (a_list a) [] 0 (a_first a) (a_last a) 0 (add_reorder (a_stats a))
                          (a_freed a ++ a_saved a))
           (insert_seq (a_last a) pkt (a_list a))
  else if is_late (a_first a) seq then
    (-1, (cap, AQueue (a_list a) (a_saved a) 0 (a_first a) (a_last a) (a_next a)
                 (add_late (a_stats a)) (a_freed a)))
  else aq_write_other_in cap a pkt.

(** With room for four more packets and memory, nothing is refused. *)
Lemma aq_insert_room cap a l : (∀ n, realloc n = true) → zlen (a_list a) < MAX_PACKET →
  ∃ cap', aq_insert cap a l = (1, (cap', with_list a l)).
Proof.
  intros Hr Hl. unfold aq_insert, aq_grow. destruct (_ <? cap); [eauto|]. rewrite Z.gtb_ltb.
  destruct (Z.ltb_spec MAX_PACKET (zlen (a_list a) + 1)); [lia|]. rewrite Hr. eauto.
Qed.

Lemma aq_adopt_room xs : (∀ n, realloc n = true) → ∀ cap a, zlen (a_list a) + zlen xs ≤ MAX_PACKET →
  ∃ cap', aq_adopt cap a xs = (cap', with_list a (a_list a ++ xs)).
Proof.
  intros Hr. induction xs as [|x xs IH]; intros cap a Hl; cbn [aq_adopt].
  { exists cap. rewrite app_nil_r. by destruct a. }
  rewrite zlen_cons in Hl. pose proof (zlen_nonneg xs).
  destruct (aq_insert_room cap a (a_list a ++ [x])) as [c E]; [done|lia|]. unfold aq_append. rewrite E.
  destruct (IH c (with_list a (a_list a ++ [x]))) as [c' ->]; [cbn [with_list a_list]; llia|].
  exists c'. unfold with_list. cbn. by rewrite <- app_assoc.
Qed.

Lemma aq_write_room cap a pkt : (∀ n, realloc n = true) → zlen (a_list a) + 4 ≤ MAX_PACKET → zlen (a_saved a) ≤ 3 →
  ∃ cap', aq_write_in cap a pkt = (fst (aq_write a pkt), (cap', snd (aq_write a pkt))).
Proof.
  intros Hr Hl Hs. unfold aq_write_in, aq_write, aq_append. pose proof (zlen_nonneg (a_list a)).
  cbn [counted a_list a_saved a_probation a_first a_last a_next a_stats a_freed].
  destruct (truth _).
  { destruct (aq_insert_room cap (aq_start (counted a) pkt) (a_list (aq_start (counted a) pkt) ++ [pkt])) as [c E]; [done| |].
    - unfold aq_start, counted. cbn. repeat case_match; cbn; simplify_eq; cbn; llia.
    - rewrite E. exists c. unfold aq_start, aq_write_probation, counted. cbn [a_list a_last a_probation].
      by repeat case_match; simplify_eq. }
  destruct (is_next _ _).
  { edestruct aq_insert_room as [c E]; [done| |rewrite E; by exists c]. cbn. lia. }
  destruct (is_inside _ _ _).
  { destruct (existsb _ _); [by exists cap|]. edestruct aq_insert_room as [c E]; [done| |rewrite E; by exists c]. cbn. lia. }
  destruct (is_late _ _); [by exists cap|].
  unfold aq_write_other_in, aq_write_other, aq_append. cbn [a_list a_saved a_next].
  destruct (_ && _); [|by exists cap]. destruct (3 <=? _); [|by exists cap].
  edestruct (aq_adopt_room (a_saved a) Hr) as [c E]; [|rewrite E]; [cbn; lia|]. clear E.
  edestruct aq_insert_room as [c' E]; [done| |rewrite E; exists c']; cbn [with_list counted a_list].
  - llia.
  - cbn. by rewrite <- app_assoc.
Qed.
End Bounded.

(** ** Refinement *)

Section Refinement.
Variable realloc : Z → bool.

Lemma aq_grow_ok q l position : queue_rep q l →
  match aq_grow realloc (capacity q) (zlen l) with
  | inl r => rtp_queue_grow realloc q position = Fail r
  | inr cap => ∃ q' position', rtp_queue_grow realloc q position = Ok (q', position') ∧ capacity q' = cap
  end.
Proof.
  intros Hq. pose proof (rep_size _ _ Hq) as Hs.
  destruct (rtp_queue_grow_spec realloc q l position Hq) as [(r & E & _ & Hf & Hno)|(its & cap & p & E & _)].
  all: unfold aq_grow; unfold rtp_queue_grow in *; rewrite Hs in *; rewrite Z.geb_leb in *.
  - destruct (Z.ltb_spec (zlen l) (capacity q)); [lia|]. destruct (Z.leb_spec (capacity q) (zlen l)); [|lia].
    destruct (_ >? MAX_PACKET) eqn:E3; [done|]. destruct Hno as [Hno|Hno]; [|by rewrite Hno].
    rewrite Z.gtb_ltb in E3. apply Z.ltb_ge in E3. unfold MAX_PACKET in E3. lia.
  - destruct (Z.ltb_spec (zlen l) (capacity q)), (Z.leb_spec (capacity q) (zlen l)); try lia; [by exists q, position|].
    destruct (_ >? MAX_PACKET); [done|]. destruct (realloc _); [|done]. cbn [negb] in E. rewrite E.
    eexists _, _. split; [done|]. cbn. destruct (_ >? capacity q) in E; [|by injection E].
    destruct (slice _ _ _); [done..|]. cbn [mbind outcome_bind] in E. destruct (st _ _ _); [done..|]. by injection E.
Qed.

(** Insertion, refused exactly when the abstract one is. *)
Lemma insert_refines q a position pkt :
  queue_abs q a → pos q ≤ position ≤ pos q + size q →
  let '(r, (cap, a')) := aq_insert realloc (capacity q) a (insert_at (Z.to_nat (position - pos q)) pkt (a_list a)) in
  ∃ q', rtp_queue_insert realloc q position pkt = Ok (r, q') ∧ queue_abs q' a' ∧ capacity q' = cap ∧ same_rest q q'.
Proof.
  intros Ha Hp. pose proof Ha as [Hq Hb Hpr Hf Hla Hn Hst Hfr].
  pose proof (aq_grow_ok q _ position Hq) as Hg. unfold aq_insert.
  destruct (aq_grow _ _ _) as [r|cap].
  - exists q. unfold rtp_queue_insert. rewrite Hg. split_and!; [done..|]. unfold same_rest. by destruct q.
  - destruct Hg as (q1 & p1 & Hg & Hc). unfold rtp_queue_insert. pose proof (rtp_queue_insert_spec realloc q _ position pkt Hq Hp) as Hi.
    unfold rtp_queue_insert in Hi. rewrite Hg in *. destruct Hi as [(r & E & Hneg & _)|(its & c & p & E & Hq')]; rewrite E.
    { exfalso. destruct (capacity q1 =? 0); [done|]. destruct (move_items _ _ _ _); [done..|]. cbn [mbind outcome_bind] in E.
      destruct (st _ _ _); [done..|]. cbn [mbind outcome_bind] in E. injection E. lia. }
    eexists. split_and!; [done| | |done].
    + constructor; try done. destruct Hb. by constructor.
    + cbn. destruct (capacity q1 =? 0); [done|]. destruct (move_items _ _ _ _); [done..|]. cbn [mbind outcome_bind] in E.
      destruct (st _ _ _); [done..|]. cbn [mbind outcome_bind] in E. injection E. congruence.
Qed.

Lemma append_refines q a pkt : queue_abs q a →
  let '(r, (cap, a')) := aq_append realloc (capacity q) a pkt in
  ∃ q', rtp_queue_insert realloc q (pos q + size q) pkt = Ok (r, q') ∧ queue_abs q' a' ∧ capacity q' = cap ∧ same_rest q q'.
Proof.
  intros Ha. pose proof (insert_refines q a (pos q + size q) pkt Ha (queue_rep_end _ _ (abs_rep _ _ Ha))) as H.
  rewrite insert_at_end in H; [done|]. rewrite (rep_size _ _ (abs_rep _ _ Ha)). unfold zlen. lia.
Qed.

Lemma adopt_refines bl : ∀ i q a,
  queue_abs q a → 0 ≤ i → (∀ j x, bl !! j = Some x → bad_items q !! (Z.to_nat i + j)%nat = Some (Some x)) →
  let '(cap, a') := aq_adopt realloc (capacity q) a bl in
  ∃ q', copy_bad_items realloc (length bl) i q = Ok q' ∧ queue_abs q' a' ∧ capacity q' = cap ∧ same_rest q q'.
Proof.
  induction bl as [|x bl IH]; intros i q a Ha Hi Hb; cbn [length copy_bad_items aq_adopt].
  { exists q. split_and!; [done..|]. unfold same_rest. by destruct q. }
  pose proof (Hb 0%nat x eq_refl) as H0. rewrite Nat.add_0_r in H0. rewrite (item_pkt_some _ _ x) by done. run.
  pose proof (append_refines q a x Ha) as H. destruct (aq_append _ _ _ _) as [r [c a1]]. destruct H as (q1 & -> & Ha1 & <- & Hs). run.
  pose proof (IH (i + 1) q1 a1 Ha1 ltac:(lia)) as H. destruct (aq_adopt _ _ _ _) as [c2 a2].
  destruct H as (q2 & -> & Ha2 & <- & Hs2).
  { intros j y Hj. rewrite Hs. cbn [bad_items set_ring]. rewrite <- (Hb (S j) y Hj). f_equal. lia. }
  exists q2. split_and!; [done..|]. unfold same_rest in *. rewrite Hs in Hs2. done.
Qed.

Variable pkt : rtp_packet_t.

(** Append [pkt] to the queue at hand, which stands for [a1]. *)
Ltac append a1 := match goal with
  | |- context [rtp_queue_insert realloc ?q1 _ _] =>
      let Ha := fresh "Ha" in let H := fresh "H" in
      assert (queue_abs q1 a1) as Ha;
      [constructor; cbn; try done; try frame; try congruence
      |pose proof (append_refines q1 a1 pkt Ha) as H; cbn [capacity set_last_seq set_first_seq set_probation set_bad set_stats
         log_free call_free reset_queue set_ring set_cycles] in H;
       destruct (aq_append _ _ _ _) as [? [? ?]]; destruct H as (? & -> & ? & ? & _); by eexists]
  end.

Lemma aq_probation_refines q a : queue_abs q a →
  let '(r, (cap, a')) := aq_append realloc (capacity q) (aq_start a pkt) pkt in
  ∃ q', rtp_queue_write_probation realloc q pkt = Ok (r, q') ∧ queue_abs q' a' ∧ capacity q' = cap.
Proof.
  intros Ha. pose proof Ha as [Hq Hb Hp Hf Hla Hn Hst Hfr].
  unfold rtp_queue_write_probation, aq_start.
  pose proof (rep_size _ _ Hq) as Hsz. rewrite Hsz, Hp, Hla.
  assert (bad_rep (set_bad q 0 0 (bad_items q)) []) by (apply bad_rep_nil; [apply Hb|done]).
  destruct (a_list a) as [|x l] eqn:El; rewrite ?zlen_cons, ?zlen_nil in *.
  - change (zlen (@nil rtp_packet_t)) with 0. cbn [Z.gtb Z.compare andb Z.eqb]. destruct (a_probation a =? 1).
    + run. append (AQueue [] (a_saved a) (a_probation a - 1) (pkt_seq pkt) (pkt_seq pkt) (a_next a) (a_stats a) (a_freed a)).
    + rewrite (rtp_queue_reset_spec q [] (a_saved a)) by done. run.
      apply (queue_rep_reset q [] (a_saved a)) in Hq.
      append (AQueue [] [] RTP_SEQUENTIAL (a_first a) (pkt_seq pkt) 0 (a_stats a) (a_freed a ++ a_saved a)).
      by rewrite Hfr, app_nil_r.
  - pose proof (zlen_nonneg l). destruct (Z.gtb_spec (1 + zlen l) 0); [|lia]. cbn [andb].
    destruct (Z.eqb_spec (1 + zlen l) 0); [lia|]. cbn [andb].
    destruct (pkt_seq pkt =? a_last a + 1).
    + cbn [probation set_probation]. destruct (queue_rep_head q x l Hq) as [_ Hx].
      destruct (a_probation a - 1 =? 0) eqn:E0.
      * cbn [items pos set_probation]. rewrite Hx. run.
        append (AQueue (x :: l) (a_saved a) (a_probation a - 1) (pkt_seq x) (pkt_seq pkt) (a_next a) (a_stats a) (a_freed a)).
      * run. append (AQueue (x :: l) (a_saved a) (a_probation a - 1) (a_first a) (pkt_seq pkt) (a_next a) (a_stats a) (a_freed a)).
    + rewrite (rtp_queue_reset_spec q (x :: l) (a_saved a)) by done. run.
      apply (queue_rep_reset q (x :: l) (a_saved a)) in Hq.
      append (AQueue [] [] RTP_SEQUENTIAL (a_first a) (pkt_seq pkt) 0 (a_stats a) (a_freed a ++ a_saved a ++ x :: l)).
Qed.

Lemma aq_other_refines q a : queue_abs q a →
  let '(r, (cap, a')) := aq_write_other_in realloc (capacity q) a pkt in
  ∃ q', rtp_queue_write_bad realloc q pkt = Ok (r, q') ∧ queue_abs q' a' ∧ capacity q' = cap.
Proof.
  intros Ha. pose proof Ha as [Hq Hb Hp Hf Hla Hn Hst Hfr].
  unfold rtp_queue_write_bad, aq_write_other_in. cbv zeta.
  pose proof (bad_cnt _ _ Hb) as Hc. pose proof (bad_max _ _ Hb) as Hm.
  pose proof (zlen_nonneg (a_saved a)).
  replace (bad_count q >? 0) with (negb (zlen (a_saved a) =? 0))
    by (rewrite Hc; destruct (Z.gtb_spec (zlen (a_saved a)) 0), (Z.eqb_spec (zlen (a_saved a)) 0); done || lia).
  rewrite Hn, Hc. unfold RTP_SEQUENTIAL. rewrite Z.geb_leb.
  set (next := u16 _).
  destruct (negb _ && _).
  - destruct (Z.leb_spec 3 (zlen (a_saved a))).
    + replace (Z.to_nat (zlen (a_saved a))) with (length (a_saved a)) by (unfold zlen; lia).
      pose proof (adopt_refines (a_saved a) 0 q a Ha ltac:(lia) (bad_slots _ _ Hb)) as Had.
      destruct (aq_adopt _ _ _ _) as [c a1]. destruct Had as (q1 & -> & [Hq1 Hb1 Hp1 Hf1 Hla1 Hn1 Hst1 Hfr1] & <- & _). run.
      append (AQueue (a_list a1) [] (a_probation a1) (a_first a1) (pkt_seq pkt) (a_next a1) (a_stats a1) (a_freed a1)).
      apply bad_rep_nil; [apply Hb1|done].
    + destruct (save_wf pkt q (a_list a) (a_saved a) next) as (its & Hits & Hb'); [done|done|lia|].
      rewrite Hc in Hits. rewrite Hits. run.
      eexists. split; [reflexivity|]. rewrite Hc in Hb'. split; [|done]. constructor; try done. frame.
  - rewrite (rtp_queue_reset_bad_items_spec _ (a_saved a)) by frame. run.
    match goal with |- context [st (bad_items ?q1) _ _] => set (q2 := q1) end.
    destruct (save_wf pkt q2 (a_list a) [] next) as (its & Hits & Hb').
    { frame. } { apply bad_rep_nil; [apply Hb|done]. } { by cbn. }
    rewrite Hits. run. eexists. split; [reflexivity|]. split; [|done].
    constructor; cbn [fst snd a_list a_saved]; try done; [frame|..].
    + cbn. by rewrite Hst.
    + cbn. by rewrite Hfr.
Qed.

Lemma counted_abs q a : queue_abs q a → queue_abs (set_stats q (add_total (stats q))) (counted a).
Proof. intros [Hq Hb ? ? ? ? Hst ?]. constructor; cbn; try done; [frame|frame|by rewrite Hst]. Qed.

(** [rtp_queue_write] does what the abstract queue does. *)
Lemma rtp_queue_write_in_refines q a :
  queue_abs q a → seq_sorted (a_last a) (a_list a) →
  let '(r, (cap, a')) := aq_write_in realloc (capacity q) a pkt in
  ∃ q', rtp_queue_write realloc q pkt = Ok (r, q') ∧ queue_abs q' a' ∧ capacity q' = cap.
Proof.
  intros Ha Hsort. pose proof (counted_abs _ _ Ha) as Ha0. pose proof Ha as [Hq Hb Hp Hf Hla Hn Hst Hfr].
  unfold rtp_queue_write, aq_write_in. cbv zeta.
  cbn [probation last_seq first_seq cycles set_stats]. rewrite Hp, Hf, Hla.
  destruct (truth (a_probation a)) eqn:Ep; cbn [counted a_list a_saved a_probation a_last a_first a_next a_stats a_freed]; rewrite Ep; [exact (aq_probation_refines _ _ Ha0)|].
  assert (a_probation a = 0) as Ep0.
  { unfold truth in Ep. by destruct (Z.eqb_spec (a_probation a) 0). }
  unfold is_next, is_inside, is_late. cbv zeta.
  destruct ((u16 _ >? 0) && _).
  { set (q1 := if _ <? _ then _ else _).
    assert (queue_abs q1 (counted a) ∧ capacity q1 = capacity q) as [H1 Ec].
    { unfold q1. case_match; (split; [|done]); [|done]. destruct Ha0. constructor; try done; frame. }
    pose proof H1 as [Hq1 Hb1 Hp1 Hf1 Hla1 Hn1 Hst1 Hfr1].
    rewrite (rtp_queue_reset_bad_items_spec _ (a_saved a)) by done. run. rewrite <- Ec. cbn in Hp1, Hf1, Hst1, Hfr1.
    append (AQueue (a_list a) [] 0 (a_first a) (pkt_seq pkt) 0 (add_total (a_stats a)) (a_freed a ++ a_saved a)).
    apply bad_rep_nil; [apply Hb1|done]. }
  destruct ((s16 _ <=? 0) && _).
  { destruct (rtp_queue_find_spec (set_stats q (add_total (stats q))) (a_list a) (pkt_seq pkt)
      (abs_rep _ _ Ha0)) as (idx & -> & Hidx). run. cbn [last_seq set_stats pos size] in Hidx.
    rewrite Hla in Hidx. fold (behind (a_last a) pkt) in Hidx. cbn [a_list].
    destruct (Z.eqb_spec (-1) idx) as [Hm1|Hm1].
    - destruct Hidx as [[_ (i & x & Hi & Hx)]|[Hr _]]; [|pose proof (rep_pos _ _ Hq); lia].
      replace (existsb _ _) with true.
      2:{ symmetry. apply existsb_exists. exists x. split; [|by apply Z.eqb_eq].
          apply list_elem_of_In, list_elem_of_lookup. eauto. }
      eexists. split; [reflexivity|]. split; [|done]. constructor; cbn; try done; [frame|frame|congruence..].
    - destruct Hidx as [[? _]|[Hr Hspl]]; [lia|]. specialize (Hspl Hsort).
      rewrite (splits_fresh _ _ _ _ Hspl).
      rewrite (rtp_queue_reset_bad_items_spec _ (a_saved a)) by frame. run.
      match goal with |- context [rtp_queue_insert realloc ?q1 _ _] => set (q2 := q1) end.
      set (a2 := AQueue _ [] _ _ _ _ _ _).
      assert (queue_abs q2 a2) as Ha2.
      { unfold q2, a2. constructor; cbn; try done; try congruence; [frame|]. apply bad_rep_nil; [apply Hb|done]. }
      assert (Z.to_nat (idx - pos q) ≤ length (a_list a))%nat.
      { pose proof (rep_size _ _ Hq). unfold zlen in *. lia. }
      rewrite (splits_insert_seq _ _ _ (Z.to_nat (idx - pos q))) by done.
      pose proof (insert_refines q2 a2 idx pkt Ha2 Hr) as Hins. change (pos q2) with (pos q) in Hins. change (capacity q2) with (capacity q) in Hins.
      change (a_list a2) with (a_list a) in Hins. destruct (aq_insert _ _ _ _) as [? [? ?]]. destruct Hins as (? & -> & ? & ? & _). by eexists. }
  destruct (u16 _ <? RTP_MISORDER).
  { eexists. split; [reflexivity|]. split; [|done]. constructor; cbn; try done; [frame|frame|congruence..]. }
  exact (aq_other_refines _ _ Ha0).
Qed.

(** With room it does what the unbounded queue does. *)
Lemma rtp_queue_write_refines q a : (∀ n, realloc n = true) →
  queue_abs q a → seq_sorted (a_last a) (a_list a) → zlen (a_list a) + 4 ≤ MAX_PACKET →
  ∃ q', rtp_queue_write realloc q pkt = Ok (fst (aq_write a pkt), q') ∧
        queue_abs q' (snd (aq_write a pkt)).
Proof.
  intros Hr Ha Hs Hl. pose proof (rtp_queue_write_in_refines q a Ha Hs) as H.
  destruct (aq_write_room realloc (capacity q) a pkt Hr Hl (bad_max _ _ (abs_bad _ _ Ha))) as [c E]. rewrite E in H.
  destruct H as (q' & Hw & Ha' & _). by exists q'.
Qed.
End Refinement.

(** ** Reading *)

Lemma last_cons_default {A} (l : list A) : ∀ x y, List.last (y :: l) x = List.last l y.
Proof. induction l as [|z l IH]; intros x y; [done|].
  change (List.last (z :: l) x = List.last (z :: l) y). by rewrite !IH.
Qed.

Lemma queue_rep_last q x l : queue_rep q (x :: l) →
  item_pkt (items q) (Z.rem (pos q + size q - 1) (capacity q)) = Ok (List.last l x).
Proof.
  intros Hq. destruct (queue_rep_head q x l Hq) as [Hc _].
  destruct Hq as [_ _ _ Hsz Hfit Hpos Hs]. rewrite zlen_cons in Hsz. pose proof (zlen_nonneg l).
  apply item_pkt_slot; [done|lia|].
  rewrite <- (Hs (length l) (List.last l x)); [unfold zlen in *; f_equal; lia|].
  clear. revert x. induction l as [|y l IH]; intros x; [done|].
  change ((x :: y :: l) !! length (y :: l)) with ((y :: l) !! length l).
  by rewrite IH, last_cons_default.
Qed.

Lemma queue_rep_pop q x l fs s : queue_rep q (x :: l) →
  queue_rep (set_ring (set_first_seq (set_stats q s) fs) (items q) (capacity q) (size q - 1)
               (Z.rem (pos q + 1) (capacity q))) l.
Proof.
  intros Hq. destruct (queue_rep_head q x l Hq) as [Hc _].
  destruct Hq as [Hit Hcap H250 Hsz Hfit Hpos Hs]. rewrite zlen_cons in Hsz.
  pose proof (Z.mod_pos_bound (pos q + 1) (capacity q) Hc).
  constructor; cbn [items capacity size pos set_ring]; rewrite ?Z.rem_mod_nonneg by lia; try lia.
  intros i pkt Hi. specialize (Hs (S i) pkt Hi). rewrite <- Hs. unfold slot. f_equal. f_equal.
  rewrite Zplus_mod_idemp_l. f_equal. lia.
Qed.

Lemma rtp_queue_read_refines q a : queue_abs q a →
  match aq_read (threshold q) (frequency q) a with
  | Ok (p, a') => ∃ q', rtp_queue_read q = Ok (p, q') ∧ queue_abs q' a'
  | _ => rtp_queue_read q = Ub
  end.
Proof.
  intros Ha. pose proof Ha as [Hq Hb Hp Hf Hla Hn Hst Hfr].
  unfold rtp_queue_read, aq_read. rewrite (rep_size _ _ Hq), Hp.
  destruct (a_list a) as [|x l] eqn:El.
  { cbn. exists q. split; [done|]. by constructor; rewrite ?El. }
  pose proof (zlen_nonneg l). rewrite zlen_cons.
  destruct (Z.ltb_spec (1 + zlen l) 1); [lia|]. cbn [orb].
  destruct (truth (a_probation a)).
  { exists q. split; [done|]. by constructor; rewrite ?El. }
  destruct (queue_rep_head q x l Hq) as [Hc ->]. run. rewrite Hf.
  pose proof (queue_rep_pop q x l (u16 (first_seq q + 1)) (stats q) Hq) as Hpop1.
  pose proof (queue_rep_pop q x l (u16 (pkt_seq x + 1)) (add_lost (stats q) (pkt_seq x - a_first a)) Hq)
    as Hpop2.
  destruct (a_first a =? pkt_seq x).
  { eexists. split; [reflexivity|]. constructor; cbn; try done; [|frame].
    rewrite (rep_size _ _ Hq), zlen_cons in Hpop1. rewrite Hf in Hpop1. frame. }
  pose proof (queue_rep_last q x l Hq) as Hl. rewrite (rep_size _ _ Hq), zlen_cons in Hl.
  rewrite Hl. run. unfold RTP_DROPOUT, MAX_PACKET. change (1000 `min` 3000) with 1000.
  destruct (rtp_queue_age (frequency q) x (List.last l x)) as [| |age] eqn:Ea; run; [done| |].
  { exfalso. revert Ea. unfold rtp_queue_age. cbv zeta. clear.
    destruct (s32 _ <? 0); [destruct (s32 _ =? _)|]; run; try done; by case_match. }
  destruct ((age <? u32 (threshold q)) && _).
  { exists q. split; [done|]. by constructor; rewrite ?El. }
  rewrite (rep_size _ _ Hq), zlen_cons in Hpop2.
  eexists. split; [reflexivity|]. constructor; cbn; try frame; congruence.
Qed.

(** Reading a well-formed queue is defined unless the clock rate is zero or
    the timestamps are exactly half the range apart. *)
Lemma rtp_queue_age_ok freq pkt last :
  u64 freq ≠ 0 → u32 (pkt_timestamp last - pkt_timestamp pkt) ≠ 2 ^ 31 →
  ∃ age, rtp_queue_age freq pkt last = Ok age.
Proof.
  intros Hf Ht. unfold rtp_queue_age. set (t := u32 _) in *.
  assert (s32 t ≠ - 2 ^ 31) as Hn.
  { pose proof (u32_range (pkt_timestamp last - pkt_timestamp pkt)) as Hr. fold t in Hr.
    unfold s32, is_uint in *. dlia. }
  destruct (s32 t <? 0); [destruct (Z.eqb_spec (s32 t) (- 2 ^ 31)); [done|]|]; run;
    (destruct (Z.eqb_spec (u64 freq) 0); [done|]); eauto.
Qed.

(** * Order and ownership in the abstract queue *)

(** Consecutive saved packets follow each other.  The expected number is
    computed modulo 65535, so a step is 1 or, at the wrap, 2. *)
Definition chained (l : list rtp_packet_t) : Prop :=
  ∀ i x y, l !! i = Some x → l !! S i = Some y → 1 ≤ u16 (pkt_seq y - pkt_seq x) ≤ 2.

(** Distance from the next packet to read to the newest: -1 when everything
    received was read. *)
Definition window (last first : Z) : Z := u16 (last - first + 1) - 1.

Definition seq16 (pkt : rtp_packet_t) : Prop := is_uint 16 (pkt_seq pkt).

Record aq_inv (a : aqueue) : Prop := {
  inv_first : is_uint 16 (a_first a);
  inv_last : is_uint 16 (a_last a);
  inv_seqs : Forall seq16 (a_list a ++ a_saved a);
  inv_probation : 0 ≤ a_probation a ≤ 3;
  inv_sorted : seq_sorted (a_last a) (a_list a);
  inv_window : ∀ i x, a_list a !! i = Some x →
    behind (a_last a) x ≤ (if a_probation a =? 0 then window (a_last a) (a_first a) else 3 - a_probation a);
  inv_chain : chained (a_saved a);
  inv_saved : zlen (a_saved a) ≤ 3;
  inv_next : ∀ l x, a_saved a = l ++ [x] → a_next a = u16 (Z.rem (pkt_seq x + 1) 65535)
}.

Lemma window_range last first : -1 ≤ window last first < 65535.
Proof. unfold window. pose proof (u16_range (last - first + 1)) as [? ?]. lia. Qed.

Lemma behind_range last x : 0 ≤ behind last x < 65536.
Proof. apply u16_range. Qed.

(** Distances when the newest sequence number advances. *)
Lemma behind_advance last seq x : is_uint 16 last → is_uint 16 seq → seq16 x →
  behind last x + u16 (seq - last) < 65536 →
  behind seq x = behind last x + u16 (seq - last).
Proof. unfold behind, seq16, is_uint, u16. intros. dlia. Qed.

Lemma behind_self x : behind (pkt_seq x) x = 0.
Proof. unfold behind, u16. by rewrite Z.sub_diag. Qed.

Lemma seq_sorted_snoc last l x :
  seq_sorted last l → (∀ i y, l !! i = Some y → behind last x < behind last y) →
  seq_sorted last (l ++ [x]).
Proof.
  intros Hs Hx i j y z Hij Hi Hj.
  destruct (decide (j < length l)%nat).
  - rewrite lookup_app_l in Hi, Hj by lia. by apply (Hs i j).
  - rewrite lookup_app_r in Hj by lia. apply list_lookup_singleton_Some in Hj as [Hj <-].
    rewrite lookup_app_l in Hi by lia. by apply (Hx i).
Qed.

Lemma seq_sorted_app last l k :
  seq_sorted last l → seq_sorted last k →
  (∀ i j x y, l !! i = Some x → k !! j = Some y → behind last y < behind last x) →
  seq_sorted last (l ++ k).
Proof.
  intros Hl Hk Hlk i j x y Hij Hi Hj.
  destruct (decide (j < length l)%nat).
  { rewrite lookup_app_l in Hi, Hj by lia. by apply (Hl i j). }
  rewrite lookup_app_r in Hj by lia. destruct (decide (i < length l)%nat).
  - rewrite lookup_app_l in Hi by lia. by apply (Hlk i (j - length l)%nat).
  - rewrite lookup_app_r in Hi by lia. apply (Hk (i - length l)%nat (j - length l)%nat); [lia|done..].
Qed.

Lemma seq_sorted_advance last seq l :
  is_uint 16 last → is_uint 16 seq → Forall seq16 l → seq_sorted last l →
  (∀ i x, l !! i = Some x → behind last x + u16 (seq - last) < 65536) → seq_sorted seq l.
Proof.
  intros Hl Hs Hf Hsort Hb i j x y Hij Hi Hj.
  pose proof (Forall_lookup_1 _ _ _ _ Hf Hi). pose proof (Forall_lookup_1 _ _ _ _ Hf Hj).
  rewrite (behind_advance last seq x), (behind_advance last seq y) by (done || by (eapply Hb)).
  pose proof (Hsort i j x y Hij Hi Hj). lia.
Qed.

Lemma sorted_splits last v l :
  seq_sorted last l → existsb (λ x, behind last x =? v) l = false →
  ∃ k, (k ≤ length l)%nat ∧ splits last v l k.
Proof.
  intros Hs Hf. induction l as [|x l IH].
  { exists 0%nat. split; [done|]. by split; intros i y; rewrite lookup_nil. }
  cbn in Hf. apply orb_false_elim in Hf as [Hx Hf]. apply Z.eqb_neq in Hx.
  destruct (decide (behind last x < v)).
  - exists 0%nat. split; [lia|]. split; intros i y Hi Hk; [lia|].
    destruct i as [|i]; [by simplify_eq/=|]. pose proof (Hs 0%nat (S i) x y ltac:(lia) eq_refl Hi). lia.
  - destruct IH as (k & Hk & Hlo & Hhi); [|done|].
    + intros i j y z Hij Hi Hj. apply (Hs (S i) (S j)); [lia|done..].
    + exists (S k). split; [cbn; lia|]. split; intros [|i] y Hi Hik; simplify_eq/=; try lia.
      * apply (Hlo i); [done|lia].
      * apply (Hhi i); [done|lia].
Qed.

Lemma Forall_insert_seq P last x l : P x → Forall P l → Forall P (insert_seq last x l).
Proof. intros Hx. induction 1; cbn [insert_seq]; [auto|]. case_match; auto. Qed.

Lemma insert_seq_perm last x l : insert_seq last x l ≡ₚ x :: l.
Proof.
  induction l as [|y l IH]; cbn [insert_seq]; [done|]. case_match; [done|].
  rewrite IH. constructor.
Qed.

(** A chain of at most four packets is sorted seen from its last one. *)
Lemma chained_behind l x : Forall seq16 (l ++ [x]) → chained (l ++ [x]) → zlen l ≤ 3 →
  ∀ i y, l !! i = Some y → 1 ≤ behind (pkt_seq x) y ≤ 2 * (zlen l - Z.of_nat i) ∧
    (∀ j z, (i < j)%nat → l !! j = Some z → behind (pkt_seq x) z < behind (pkt_seq x) y).
Proof.
  intros Hf Hc Hl. remember (rev l) as r eqn:Er. apply (f_equal (@rev _)) in Er.
  rewrite rev_involutive in Er. subst l. revert x Hf Hc Hl.
  assert (∀ p y x d, seq16 p → seq16 y → seq16 x → 1 ≤ u16 (pkt_seq x - pkt_seq p) ≤ 2 →
    behind (pkt_seq p) y = d → d ≤ 4 → behind (pkt_seq x) y = d + u16 (pkt_seq x - pkt_seq p)) as Hstep.
  { intros p y x d Hp Hy Hx Hs Hd Hd4. rewrite <- Hd. apply behind_advance; try done. lia. }
  induction r as [|p r IH]; intros x Hf Hc Hl i y Hi; cbn [rev] in *.
  { by rewrite lookup_nil in Hi. }
  rewrite <- app_assoc in Hf, Hc. cbn [app] in Hf, Hc.
  apply Forall_app in Hf as [Hfr Hf]. inversion_clear Hf as [|? ? Hp Hf']. inversion_clear Hf' as [|? ? Hx _].
  assert (1 ≤ u16 (pkt_seq x - pkt_seq p) ≤ 2) as Hpx.
  { apply (Hc (length (rev r))); [by rewrite lookup_app_r, Nat.sub_diag by lia|].
    rewrite lookup_app_r by lia. by replace (S (length (rev r)) - length (rev r))%nat with 1%nat by lia. }
  assert (chained (rev r ++ [p])) as Hc'.
  { intros j u v Hu Hv. apply (Hc j).
    - assert (j < length (rev r ++ [p]))%nat by (by eapply lookup_lt_Some).
      rewrite <- Hu. change (p :: [x]) with ([p] ++ [x]). rewrite app_assoc. by apply lookup_app_l.
    - assert (S j < length (rev r ++ [p]))%nat by (by eapply lookup_lt_Some).
      rewrite <- Hv. change (p :: [x]) with ([p] ++ [x]). rewrite app_assoc. by apply lookup_app_l. }
  rewrite zlen_app in Hl |- *. change (zlen [p]) with 1 in *.
  specialize (IH p ltac:(apply Forall_app; auto) Hc' ltac:(lia)).
  assert (∀ j z, rev r !! j = Some z →
     behind (pkt_seq x) z = behind (pkt_seq p) z + u16 (pkt_seq x - pkt_seq p)) as Hadv.
  { intros j z Hz. destruct (IH j z Hz) as [Hb _].
    apply (Hstep p z x); try done; [by eapply Forall_lookup_1|lia]. }
  assert (behind (pkt_seq x) p = u16 (pkt_seq x - pkt_seq p)) as Hbp by done.
  destruct (decide (i < length (rev r))%nat) as [Hir|Hir].
  - rewrite lookup_app_l in Hi by done. destruct (IH i y Hi) as [Hb Hord].
    rewrite (Hadv i y Hi). split; [lia|]. intros j z Hij Hj.
    destruct (decide (j < length (rev r))%nat).
    + rewrite lookup_app_l in Hj by done. rewrite (Hadv j z Hj). pose proof (Hord j z Hij Hj). lia.
    + rewrite lookup_app_r in Hj by lia. apply list_lookup_singleton_Some in Hj as [_ <-]. lia.
  - rewrite lookup_app_r in Hi by lia. apply list_lookup_singleton_Some in Hi as [Hi <-].
    unfold zlen. split; [lia|]. intros j z Hij Hj. apply lookup_lt_Some in Hj.
    rewrite length_app in Hj. cbn in Hj. lia.
Qed.

Lemma aq_next_step s t : is_uint 16 s → t = u16 (Z.rem (s + 1) 65535) → 1 ≤ u16 (t - s) ≤ 2.
Proof.
  unfold is_uint. intros Hs ->. rewrite Z.rem_mod_nonneg by lia. unfold u16.
  destruct (decide (s + 1 < 65535)).
  - rewrite (Z.mod_small (s + 1)) by lia. dlia.
  - assert ((s + 1) mod 65535 = s + 1 - 65535) as ->
      by (symmetry; apply Z.mod_unique_pos with 1; lia). dlia.
Qed.

Lemma chained_snoc l x y : Forall seq16 (l ++ [x]) → chained (l ++ [x]) →
  pkt_seq y = u16 (Z.rem (pkt_seq x + 1) 65535) → chained ((l ++ [x]) ++ [y]).
Proof.
  intros Hf Hc Hy i u v Hu Hv.
  apply lookup_lt_Some in Hv as Hlt. rewrite length_app in Hlt. cbn in Hlt.
  rewrite lookup_app_l in Hu by lia.
  destruct (decide (S i < length (l ++ [x]))%nat).
  - rewrite lookup_app_l in Hv by done. by apply (Hc i).
  - rewrite lookup_app_r in Hv by lia. apply list_lookup_singleton_Some in Hv as [_ <-].
    rewrite length_app in *. cbn in *. rewrite lookup_app_r in Hu by lia.
    apply list_lookup_singleton_Some in Hu as [_ <-].
    apply Forall_app in Hf as [_ Hx]. inversion_clear Hx. by apply aq_next_step.
Qed.

Lemma chained_nil : chained [].
Proof. intros i x y. by rewrite lookup_nil. Qed.

Lemma chained_one x : chained [x].
Proof. intros i y z _ Hz. by apply list_lookup_singleton_Some in Hz as [? _]. Qed.

Lemma seq_sorted_one last x : seq_sorted last [x].
Proof.
  intros i j y z Hij Hi Hj. apply list_lookup_singleton_Some in Hi as [-> _], Hj as [-> _]. lia.
Qed.

Lemma zlen_snoc {A} (l : list A) : zlen l ≠ 0 → ∃ k x, l = k ++ [x].
Proof. destruct l as [|x k] using rev_ind; [done|eauto]. Qed.

Section AqWrite.
Variables (a : aqueue) (pkt : rtp_packet_t).
Hypothesis Hinv : aq_inv a.
Hypothesis Hpkt : seq16 pkt.

Let seq := pkt_seq pkt.

Lemma Forall_snoc_seqs l : Forall seq16 l → Forall seq16 (l ++ [pkt]).
Proof. intros. apply Forall_app. auto. Qed.

Lemma saved_next_nil nx : ∀ l x, ([] : list rtp_packet_t) = l ++ [x] →
  nx = u16 (Z.rem (pkt_seq x + 1) 65535).
Proof. intros l x H. by apply app_cons_not_nil in H. Qed.

Lemma inv_list_seqs : Forall seq16 (a_list a) ∧ Forall seq16 (a_saved a).
Proof. apply Forall_app, (inv_seqs _ Hinv). Qed.

(** Packets already queued move back by the advance of the newest one. *)
Lemma advance_window w : (∀ i x, a_list a !! i = Some x → behind (a_last a) x ≤ w) →
  w + u16 (seq - a_last a) < 65536 →
  seq_sorted seq (a_list a) ∧
  (∀ i x, a_list a !! i = Some x →
     behind seq x = behind (a_last a) x + u16 (seq - a_last a)).
Proof.
  intros Hw Hlt. destruct inv_list_seqs as [Hf _]. split.
  - apply (seq_sorted_advance (a_last a)); try apply Hinv; try done.
    intros i x Hi. specialize (Hw i x Hi). lia.
  - intros i x Hi. apply behind_advance; [apply Hinv|done|by eapply Forall_lookup_1|].
    specialize (Hw i x Hi). lia.
Qed.

Lemma append_sorted w : (∀ i x, a_list a !! i = Some x → behind (a_last a) x ≤ w) →
  w + u16 (seq - a_last a) < 65536 → 0 < u16 (seq - a_last a) →
  seq_sorted seq (a_list a ++ [pkt]) ∧
  (∀ i x, (a_list a ++ [pkt]) !! i = Some x → behind seq x ≤ Z.max 0 (w + u16 (seq - a_last a))).
Proof.
  intros Hw Hlt Hpos. destruct (advance_window w Hw Hlt) as [Hs Hadv]. split.
  - apply seq_sorted_snoc; [done|]. intros i x Hi. unfold seq at 1. rewrite behind_self, (Hadv i) by done.
    pose proof (behind_range (a_last a) x). lia.
  - intros i x Hi. destruct (decide (i < length (a_list a))%nat).
    + rewrite lookup_app_l in Hi by done. rewrite (Hadv i x Hi). specialize (Hw i x Hi). lia.
    + rewrite lookup_app_r in Hi by lia. apply list_lookup_singleton_Some in Hi as [_ <-].
      unfold seq. rewrite behind_self. lia.
Qed.

Lemma aq_write_probation_inv :
  truth (a_probation a) = true → aq_inv (snd (aq_write_probation a pkt)).
Proof.
  intros Hp. assert (a_probation a ≠ 0) as Hp0.
  { unfold truth in Hp. by destruct (Z.eqb_spec (a_probation a) 0). }
  pose proof (inv_probation _ Hinv) as Hpr. pose proof (inv_window _ Hinv) as Hw.
  rewrite (proj2 (Z.eqb_neq _ _) Hp0) in Hw. destruct inv_list_seqs as [Hf Hfs].
  assert (∀ first freed, is_uint 16 first →
    aq_inv (AQueue [pkt] [] RTP_SEQUENTIAL first seq 0 (a_stats a) freed)) as Hfresh.
  { intros first fr Hfi. constructor; cbn; try done; try apply saved_next_nil;
      try apply seq_sorted_one; try apply chained_nil; [by constructor|].
    intros i x [_ <-]%list_lookup_singleton_Some. unfold seq. by rewrite behind_self. }
  unfold aq_write_probation. fold seq. destruct (a_list a) as [|x l] eqn:El.
  - destruct (Z.eqb_spec (a_probation a) 1); [|apply Hfresh, Hinv].
    constructor; cbn [fst snd a_list a_saved a_probation a_first a_last a_next a_stats a_freed];
      try apply Hinv; try done; try lia.
    + constructor; [done|]. by destruct inv_list_seqs.
    + apply seq_sorted_one.
    + intros i x [_ <-]%list_lookup_singleton_Some. unfold seq. rewrite behind_self.
      case_match; [|lia]. unfold window. by rewrite Z.sub_diag.
  - destruct (Z.eqb_spec seq (a_last a + 1)) as [E|E]; [|apply Hfresh, Hinv].
    pose proof (inv_last _ Hinv) as Hl. unfold is_uint in Hl.
    assert (u16 (seq - a_last a) = 1) as E1 by (rewrite E; unfold u16; dlia).
    assert (∀ i y, a_list a !! i = Some y → behind (a_last a) y ≤ 3 - a_probation a) as Hw'
      by (by rewrite El).
    destruct (append_sorted _ Hw' ltac:(lia) ltac:(lia)) as [Hs Hwin].
    rewrite E1, El in *.
    constructor; cbn [fst snd a_list a_saved a_probation a_first a_last a_next a_stats a_freed];
      try apply Hinv; try done; try lia.
    + case_match; [by inversion_clear Hf|apply Hinv].
    + apply Forall_app. auto using Forall_snoc_seqs.
    + intros i y Hi. pose proof (Hwin i y Hi). pose proof (Hwin 0%nat x eq_refl) as Hx.
      destruct (Z.eqb_spec (a_probation a - 1) 0); [|lia].
      assert (behind seq y ≤ behind seq x) as Hyx.
      { destruct i as [|i]; [cbn in Hi; by simplify_eq|].
        pose proof (Hs 0%nat (S i) x y ltac:(lia) eq_refl Hi). lia. }
      assert (window seq (pkt_seq x) = behind seq x) as ->; [|done].
      inversion_clear Hf as [|? ? Hx16]. pose proof Hpkt as Hp16. fold seq in Hp16.
      unfold seq16, window, behind, is_uint in *. fold seq in Hp16. unfold u16 in *. dlia.
Qed.

(** ** Outside probation, with a window below half the sequence space *)

Hypothesis Hp0 : a_probation a = 0.
Hypothesis Hhalf : window (a_last a) (a_first a) < 32768.

Lemma steady_window i x : a_list a !! i = Some x →
  behind (a_last a) x ≤ window (a_last a) (a_first a).
Proof. intros Hi. pose proof (inv_window _ Hinv i x Hi) as H. by rewrite Hp0 in H. Qed.

Lemma u16_window_advance w : w = window (a_last a) (a_first a) →
  w + u16 (seq - a_last a) < 65535 → window seq (a_first a) = w + u16 (seq - a_last a).
Proof.
  intros -> Hlt. pose proof (inv_first _ Hinv) as Hf. pose proof (inv_last _ Hinv) as Hl.
  pose proof Hpkt as Hs. unfold seq16, is_uint in *. fold seq in Hs. unfold window, u16 in *. dlia.
Qed.

(** A packet inside the window is behind the newest one by at most the window. *)
Lemma inside_window : is_inside (a_first a) (a_last a) seq = true →
  behind (a_last a) pkt ≤ window (a_last a) (a_first a).
Proof.
  unfold is_inside, behind. fold seq. intros [H1 H2]%andb_prop.
  apply Z.leb_le in H1. rewrite Z.geb_leb in H2. apply Z.leb_le in H2.
  pose proof (inv_first _ Hinv). pose proof (inv_last _ Hinv). pose proof Hpkt as Hs.
  unfold seq16, is_uint in *. fold seq in Hs. unfold window, u16, s16 in *. dlia.
Qed.

(** A packet neither next nor inside is at least [RTP_DROPOUT] ahead and does
    not wrap past the window. *)
Lemma outside_window :
  is_next (a_last a) seq = false → is_inside (a_first a) (a_last a) seq = false →
  is_late (a_first a) seq = false →
  1000 ≤ u16 (seq - a_last a) ∧ window (a_last a) (a_first a) + u16 (seq - a_last a) < 65535.
Proof.
  unfold is_next, is_inside, is_late, RTP_DROPOUT, RTP_MISORDER. cbv zeta. intros Hn Hi Hlate.
  apply Z.ltb_ge in Hlate.
  pose proof (inv_first _ Hinv). pose proof (inv_last _ Hinv). pose proof Hpkt as Hs.
  unfold seq16, is_uint in *. fold seq in Hs.
  destruct (Z.gtb_spec (u16 (seq - a_last a)) 0), (Z.ltb_spec (u16 (seq - a_last a)) 1000);
    try discriminate Hn;
    destruct (Z.leb_spec (s16 (u16 (seq - a_last a))) 0);
    rewrite ?Z.geb_leb in Hi;
    destruct (Z.leb_spec (s16 (a_first a - a_last a)) (s16 (u16 (seq - a_last a))));
    try discriminate Hi; unfold window, u16, s16 in *; dlia.
Qed.

(** Saving the packet behind others it follows. *)
Lemma aq_inv_save sv stats freed : Forall seq16 sv → chained sv → zlen sv ≤ 2 →
  (∀ l x, sv = l ++ [x] → seq = u16 (Z.rem (pkt_seq x + 1) 65535)) →
  aq_inv (AQueue (a_list a) (sv ++ [pkt]) (a_probation a) (a_first a) (a_last a)
            (u16 (Z.rem (seq + 1) 65535)) stats freed).
Proof.
  intros Hf Hc Hl Hn. destruct inv_list_seqs as [Hfl _].
  constructor; cbn [a_list a_saved a_probation a_first a_last a_next]; try apply Hinv.
  - apply Forall_app. split; [done|]. by apply Forall_snoc_seqs.
  - destruct sv as [|y k _] using rev_ind; [apply chained_one|].
    apply chained_snoc; [done..|]. by apply (Hn k).
  - llia.
  - intros l x [_ <-]%app_inj_tail. done.
Qed.

Lemma aq_write_other_inv :
  is_next (a_last a) seq = false → is_inside (a_first a) (a_last a) seq = false →
  is_late (a_first a) seq = false → aq_inv (snd (aq_write_other a pkt)).
Proof.
  intros Hn Hi Hlate. destruct (outside_window Hn Hi Hlate) as [Hd Hnw].
  destruct inv_list_seqs as [Hf Hfs]. pose proof steady_window as Hsw.
  unfold aq_write_other. cbv zeta. fold seq. change (RTP_SEQMOD - 1) with 65535.
  assert (aq_inv (AQueue (a_list a) [pkt] (a_probation a) (a_first a) (a_last a)
    (u16 (Z.rem (seq + 1) 65535)) (add_bad (a_stats a)) (a_freed a ++ a_saved a))) as Hsolo.
  { apply (aq_inv_save []); [done|apply chained_nil|done|]. intros l x. apply saved_next_nil. }
  destruct (Z.eqb_spec (zlen (a_saved a)) 0) as [E0|E0]; cbn [negb andb].
  2: destruct (Z.eqb_spec (a_next a) seq) as [Enext|].
  2: destruct (Z.leb_spec 3 (zlen (a_saved a))) as [H3|H3].
  - exact Hsolo.
  - (* re-synchronization *)
    pose proof (inv_saved _ Hinv) as Hm.
    destruct (zlen_snoc (a_saved a) E0) as (sl & s0 & Es).
    pose proof (inv_next _ Hinv _ _ Es) as Hnx.
    assert (chained (a_saved a ++ [pkt])) as Hch.
    { rewrite Es. apply chained_snoc; [by rewrite <- Es|rewrite <- Es; apply Hinv|]. fold seq. congruence. }
    assert (Forall seq16 (a_saved a ++ [pkt])) as Hfp by (by apply Forall_snoc_seqs).
    pose proof (chained_behind (a_saved a) pkt Hfp Hch Hm) as Hcb. fold seq in Hcb.
    destruct (advance_window (window (a_last a) (a_first a)) ltac:(by intros; eapply Hsw) ltac:(lia))
      as [Hsort Hadv].
    assert (seq_sorted seq (a_saved a ++ [pkt])) as Hss.
    { apply seq_sorted_snoc.
      - intros i j x y Hij Hx Hy. by apply (proj2 (Hcb i x Hx) j).
      - intros i y Hy. unfold seq at 1. rewrite behind_self. destruct (Hcb i y Hy). lia. }
    assert (∀ i y, (a_saved a ++ [pkt]) !! i = Some y → behind seq y ≤ 6) as Hsmall.
    { intros i y Hy. destruct (decide (i < length (a_saved a))%nat).
      - rewrite lookup_app_l in Hy by done. destruct (Hcb i y Hy). lia.
      - rewrite lookup_app_r in Hy by lia. apply list_lookup_singleton_Some in Hy as [_ <-].
        unfold seq. rewrite behind_self. lia. }
    constructor; cbn [fst snd a_list a_saved a_probation a_first a_last a_next a_stats a_freed];
      try apply Hinv; try done; try apply saved_next_nil; try apply chained_nil.
    + rewrite app_nil_r. apply Forall_app. auto.
    + apply seq_sorted_app; [done..|]. intros i j x y Hx Hy.
      rewrite (Hadv i x Hx). pose proof (Hsmall j y Hy). pose proof (behind_range (a_last a) x). lia.
    + rewrite Hp0. cbn [Z.eqb]. rewrite (u16_window_advance _ eq_refl) by done. intros i x Hx.
      destruct (decide (i < length (a_list a))%nat).
      * rewrite lookup_app_l in Hx by done. rewrite (Hadv i x Hx). pose proof (Hsw i x Hx). lia.
      * rewrite lookup_app_r in Hx by lia. pose proof (Hsmall _ _ Hx).
        pose proof (window_range (a_last a) (a_first a)) as [? _]. lia.
  - (* one more saved packet *)
    destruct (zlen_snoc (a_saved a) E0) as (sl & s0 & Es).
    pose proof (inv_next _ Hinv _ _ Es) as Hnx.
    apply aq_inv_save; [done|apply Hinv|lia|]. intros l x Hx. fold seq.
    rewrite <- (inv_next _ Hinv _ _ Hx). done.
  - exact Hsolo.
Qed.
End AqWrite.

Lemma aq_write_inv a pkt : aq_inv a → seq16 pkt →
  (a_probation a = 0 → window (a_last a) (a_first a) < 32768) → aq_inv (snd (aq_write a pkt)).
Proof.
  intros Hinv Hpkt Hhalf. unfold aq_write. cbv zeta.
  set (a0 := AQueue (a_list a) (a_saved a) (a_probation a) (a_first a) (a_last a) (a_next a)
               (add_total (a_stats a)) (a_freed a)).
  assert (aq_inv a0) as H0 by (destruct Hinv; by constructor).
  destruct (truth (a_probation a0)) eqn:Ep; [by apply aq_write_probation_inv|].
  assert (a_probation a = 0) as Hp0.
  { unfold truth in Ep. by destruct (Z.eqb_spec (a_probation a0) 0). }
  specialize (Hhalf Hp0). destruct (inv_list_seqs a Hinv) as [Hf Hfs].
  pose proof (steady_window a Hinv Hp0) as Hsw.
  destruct (is_next (a_last a0) (pkt_seq pkt)) eqn:En.
  { unfold is_next, RTP_DROPOUT in En. cbv zeta in En. cbn [a_last a0] in En.
    apply andb_prop in En as [E1 E2]. rewrite Z.gtb_ltb in E1. apply Z.ltb_lt in E1, E2.
    destruct (append_sorted a pkt Hinv Hpkt _ ltac:(by intros; eapply Hsw) ltac:(lia) E1) as [Hs Hw].
    constructor; cbn [fst snd a_list a_saved a_probation a_first a_last a_next a0]; try done;
      try apply Hinv; try apply saved_next_nil; try apply chained_nil.
    - rewrite app_nil_r. by apply Forall_snoc_seqs.
    - intros i x Hi. specialize (Hw i x Hi). cbn [Z.eqb].
      rewrite (u16_window_advance a pkt Hinv Hpkt _ eq_refl) by lia.
      pose proof (window_range (a_last a) (a_first a)) as [? _]. lia. }
  destruct (is_inside (a_first a0) (a_last a0) (pkt_seq pkt)) eqn:Ei.
  { assert (∀ s, aq_inv (AQueue (a_list a) (a_saved a) 0 (a_first a) (a_last a) (a_next a) s (a_freed a)))
      as Hsame by (intros s; destruct Hinv as []; rewrite Hp0 in *; by constructor).
    destruct (existsb _ _) eqn:Ex; [apply Hsame|].
    destruct (sorted_splits (a_last a) (behind (a_last a) pkt) (a_list a) (inv_sorted _ Hinv) Ex)
      as (k & Hk & Hspl).
    constructor; cbn [fst snd a_list a_saved a_probation a_first a_last a_next a0]; try done;
      try apply Hinv; try apply saved_next_nil; try apply chained_nil.
    - rewrite app_nil_r. by apply Forall_insert_seq.
    - rewrite (splits_insert_seq _ _ _ k) by done. apply seq_sorted_insert; [done|apply Hinv|done].
    - cbn [Z.eqb].
      assert (Forall (λ x, behind (a_last a) x ≤ window (a_last a) (a_first a)) (a_list a)) as Hall.
      { apply Forall_lookup. intros i x Hi. by eapply Hsw. }
      intros i x Hi. revert i x Hi. apply (proj1 (Forall_lookup _ _)).
      apply Forall_insert_seq; [|done]. by apply (inside_window a pkt). }
  destruct (is_late (a_first a0) (pkt_seq pkt)) eqn:El.
  { destruct Hinv as []. rewrite Hp0 in *. by constructor. }
  by apply aq_write_other_inv.
Qed.

Lemma aq_write_steady a pkt : a_probation a = 0 →
  a_probation (snd (aq_write a pkt)) = 0 ∧ a_first (snd (aq_write a pkt)) = a_first a.
Proof.
  intros Hp. unfold aq_write, aq_write_other. rewrite Hp. cbn.
  repeat case_match; done.
Qed.

(** Reading takes the oldest packet and moves the window past it. *)
Lemma aq_read_spec thr freq a p a' : aq_inv a → aq_read thr freq a = Ok (p, a') →
  aq_inv a' ∧ a_saved a' = a_saved a ∧ a_freed a' = a_freed a ∧
  match p with
  | None => a' = a
  | Some x => a_list a = x :: a_list a' ∧ a_probation a = 0 ∧ a_probation a' = 0 ∧
      a_first a' = u16 (pkt_seq x + 1) ∧ u16 (pkt_seq x - a_first a) ≤ window (a_last a) (a_first a)
  end.
Proof.
  intros Hinv. unfold aq_read. destruct (a_list a) as [|x l] eqn:El.
  { intros [= <- <-]. done. }
  destruct (truth (a_probation a)) eqn:Ep; [by intros [= <- <-]|].
  assert (a_probation a = 0) as Hp0.
  { unfold truth in Ep. by destruct (Z.eqb_spec (a_probation a) 0). }
  pose proof (steady_window a Hinv Hp0) as Hsw. rewrite El in Hsw.
  destruct (inv_list_seqs a Hinv) as [Hf _]. rewrite El in Hf.
  inversion_clear Hf as [|? ? Hx Hfl]. pose proof (Hsw 0%nat x eq_refl) as Hx0.
  pose proof (inv_first _ Hinv) as Hfi. pose proof (inv_last _ Hinv) as Hla.
  assert (u16 (pkt_seq x - a_first a) ≤ window (a_last a) (a_first a)) as Hin.
  { unfold seq16, behind, window, is_uint in *. unfold u16 in *. dlia. }
  pose proof (inv_sorted _ Hinv) as Hs. rewrite El in Hs.
  assert (∀ s fr, aq_inv (AQueue l (a_saved a) (a_probation a) (u16 (pkt_seq x + 1)) (a_last a)
    (a_next a) s fr)) as Hpop.
  { intros s fr. pose proof (inv_seqs _ Hinv) as Hfs. rewrite El in Hfs.
    constructor; cbn [a_list a_saved a_probation a_first a_last a_next]; try apply Hinv.
    - apply u16_range.
    - by inversion_clear Hfs.
    - intros i j y z Hij Hi Hj. apply (Hs (S i) (S j)); [lia|done..].
    - rewrite Hp0. cbn [Z.eqb]. intros i y Hi.
      pose proof (Hs 0%nat (S i) x y ltac:(lia) eq_refl Hi) as Hlt.
      apply (Forall_lookup_1 _ _ _ _ Hfl) in Hi.
      unfold seq16, behind, window, is_uint in *. unfold u16 in *. dlia. }
  destruct (Z.eqb_spec (a_first a) (pkt_seq x)) as [E|E].
  { intros [= <- <-]. rewrite E in Hin |- *. by split_and!. }
  destruct (rtp_queue_age _ _ _) as [| |age]; run; try done.
  destruct (_ && _); intros [= <- <-]; by split_and!.
Qed.

(** Ownership: an accepted packet is in the queue or was given to [free]; a
    refused one leaves everything as it was. *)
Lemma aq_write_owns a pkt :
  let '(r, a') := aq_write a pkt in
  (r = 1 ∧ a_list a' ++ a_saved a' ++ a_freed a' ≡ₚ pkt :: a_list a ++ a_saved a ++ a_freed a) ∨
  (r = -1 ∧ a_list a' ++ a_saved a' ++ a_freed a' = a_list a ++ a_saved a ++ a_freed a).
Proof.
  unfold aq_write, aq_write_other, aq_write_probation. cbv zeta. cbn [a_list a_saved a_freed a_probation].
  repeat case_match; simplify_eq; cbn [a_list a_saved a_freed]; try (by right);
    left; (split; [done|]); rewrite ?insert_seq_perm; try done; solve_Permutation.
Qed.

(** * Traces of calls

    The demuxer calls [rtp_queue_write] for each packet received and then
    [rtp_queue_read] until it gives none (rtp-demuxer.c).  A trace is any
    sequence of such calls on a queue with [realloc] succeeding, fewer than
    [MAX_PACKET - 4] packets queued and, once out of probation, a window below
    half the sequence space. *)

Inductive queue_event :=
  | Written (pkt : rtp_packet_t) (r : Z)
  | Read (pkt : option rtp_packet_t).

Definition writable (q : rtp_queue_t) : Prop :=
  size q + 4 ≤ MAX_PACKET ∧ (probation q = 0 → window (last_seq q) (first_seq q) < 32768).

Inductive queue_step : rtp_queue_t → queue_event → rtp_queue_t → Prop :=
  | step_write q pkt r q' : seq16 pkt → writable q →
      rtp_queue_write (λ _, true) q pkt = Ok (r, q') → queue_step q (Written pkt r) q'
  | step_read q p q' : rtp_queue_read q = Ok (p, q') → queue_step q (Read p) q'.

(** Traces from a fresh queue, the last call at the head of the list. *)
Inductive queue_trace (thr freq : Z) : list queue_event → rtp_queue_t → Prop :=
  | trace_create q : rtp_queue_create thr freq = Ok q → queue_trace thr freq [] q
  | trace_step evs q ev q' : queue_trace thr freq evs q → queue_step q ev q' →
      queue_trace thr freq (ev :: evs) q'.

(** The packets the queue took over, and those it handed out, newest first. *)
Definition accepted (evs : list queue_event) : list rtp_packet_t :=
  omap (λ ev, match ev with Written pkt 1 => Some pkt | _ => None end) evs.
Definition delivered (evs : list queue_event) : list rtp_packet_t :=
  omap (λ ev, match ev with Read p => p | _ => None end) evs.

(** The packets in the ring, in reading order, and the saved ones. *)
Definition queued (q : rtp_queue_t) : list rtp_packet_t :=
  omap (λ i, its ← items q !! Z.to_nat (Z.rem (pos q + Z.of_nat i) (capacity q)); its)
    (seq 0 (Z.to_nat (size q))).
Definition saved (q : rtp_queue_t) : list rtp_packet_t :=
  omap id (take (Z.to_nat (bad_count q)) (bad_items q)).

Lemma omap_seq {A} (f : nat → option A) l : ∀ n,
  (∀ i x, l !! i = Some x → f (n + i)%nat = Some x) → omap f (seq n (length l)) = l.
Proof.
  induction l as [|x l IH]; intros n H; cbn; [done|].
  rewrite <- (Nat.add_0_r n) at 1. rewrite (H 0%nat x eq_refl). f_equal.
  apply IH. intros i y Hi. specialize (H (S i) y Hi). by rewrite Nat.add_succ_r in H.
Qed.

Lemma queue_rep_queued q l : queue_rep q l → queued q = l.
Proof.
  intros Hq. unfold queued. rewrite (rep_size _ _ Hq). replace (Z.to_nat (zlen l)) with (length l)
    by (unfold zlen; lia).
  apply omap_seq. intros i x Hi. cbn [Nat.add]. pose proof (rep_slots _ _ Hq i x Hi) as Hs.
  pose proof (lookup_lt_Some _ _ _ Hi). pose proof (rep_fits _ _ Hq). pose proof (rep_size _ _ Hq).
  unfold slot in Hs. unfold zlen in *. rewrite Z.rem_mod_nonneg by (pose proof (rep_pos _ _ Hq); lia).
  by rewrite Hs.
Qed.

Lemma bad_rep_saved q bl : bad_rep q bl → saved q = bl.
Proof.
  intros [Hl Hc Hm Hs]. unfold saved. rewrite Hc.
  replace (take (Z.to_nat (zlen bl)) (bad_items q)) with (Some <$> bl).
  { clear. induction bl as [|x bl IH]; cbn; [done|]. by rewrite IH. }
  apply list_eq. intros i. rewrite list_lookup_fmap. unfold zlen in *.
  destruct (decide (i < length bl)%nat).
  - rewrite lookup_take_lt by lia. destruct (bl !! i) as [x|] eqn:E; [by rewrite (Hs i x E)|].
    apply lookup_ge_None in E. lia.
  - rewrite lookup_take_ge by lia. by rewrite (lookup_ge_None_2 bl) by lia.
Qed.

(** The invariant of traces. *)
Record trace_inv (evs : list queue_event) (q : rtp_queue_t) (a : aqueue) : Prop := {
  tr_abs : queue_abs q a;
  tr_inv : aq_inv a;
  tr_owned : accepted evs ≡ₚ delivered evs ++ a_list a ++ a_saved a ++ a_freed a;
  tr_first : ∀ x l, delivered evs = x :: l →
    a_probation a = 0 ∧ a_first a = u16 (pkt_seq x + 1) ∧ seq16 x
}.

Lemma queue_create_abs thr freq q : rtp_queue_create thr freq = Ok q →
  queue_abs q (AQueue [] [] 1 0 0 0 (RtpQueueStats 0 0 0 0 0 0) []).
Proof.
  intros Hc. apply Ok_inj in Hc. subst q.
  constructor; try done; constructor; cbn; try done; lia.
Qed.

Lemma aq_create_inv s : aq_inv (AQueue [] [] 1 0 0 0 s []).
Proof.
  constructor; cbn; try done; try lia; try by_eval.
  all: intros l x H; by destruct l.
Qed.

Lemma step_write_abs q a pkt r q' : queue_abs q a → aq_inv a → size q + 4 ≤ MAX_PACKET →
  rtp_queue_write (λ _, true) q pkt = Ok (r, q') →
  r = fst (aq_write a pkt) ∧ queue_abs q' (snd (aq_write a pkt)).
Proof.
  intros Ha Hi Hs Hw. rewrite (rep_size _ _ (abs_rep _ _ Ha)) in Hs.
  destruct (rtp_queue_write_refines (λ _, true) pkt q a (λ _, eq_refl) Ha (inv_sorted _ Hi) Hs)
    as (q1 & Hw1 & Ha1).
  rewrite Hw in Hw1. apply Ok_inj in Hw1. by simplify_eq.
Qed.

Lemma step_read_abs q a p q' : queue_abs q a → rtp_queue_read q = Ok (p, q') →
  ∃ a', aq_read (threshold q) (frequency q) a = Ok (p, a') ∧ queue_abs q' a'.
Proof.
  intros Ha Hr. pose proof (rtp_queue_read_refines q a Ha) as H. rewrite Hr in H.
  destruct (aq_read _ _ a) as [| |[p1 a1]]; [done..|]. destruct H as (q1 & Hq & Ha1).
  apply Ok_inj in Hq. simplify_eq. eauto.
Qed.

Lemma queue_trace_inv thr freq evs q : queue_trace thr freq evs q → ∃ a, trace_inv evs q a.
Proof.
  induction 1 as [q Hc|evs q ev q' _ (a & [Ha Hi Ho Hf]) Hstep].
  { eexists. split; [by eapply queue_create_abs|apply aq_create_inv|done|done]. }
  destruct Hstep as [q pkt r q' H16 [Hs Hwin] Hw|q p q' Hr].
  - destruct (step_write_abs q a pkt r q' Ha Hi Hs Hw) as [-> Ha'].
    rewrite (abs_probation _ _ Ha), (abs_first _ _ Ha), (abs_last _ _ Ha) in Hwin.
    pose proof (aq_write_owns a pkt) as Hown. pose proof (aq_write_steady a pkt) as Hst.
    pose proof (aq_write_inv a pkt Hi H16 Hwin) as Hi'.
    destruct (aq_write a pkt) as [r a']. cbn [fst snd] in *. exists a'. split; [done..| |].
    + destruct Hown as [[-> Hp]|[-> Hp]]; cbn; [|by rewrite Hp].
      rewrite Hp. fold (accepted evs) (delivered evs). rewrite Ho. solve_Permutation.
    + intros x l Hd. destruct (Hf x l Hd) as (Hp0 & Hfi & Hx).
      destruct (Hst Hp0) as [? ->]. done.
  - destruct (step_read_abs q a p q' Ha Hr) as (a' & Hr' & Ha').
    destruct (aq_read_spec _ _ _ _ _ Hi Hr') as (Hi' & Hsv & Hfr & Hp).
    exists a'. destruct p as [x|].
    + destruct Hp as (Hl & Hp0 & Hp0' & Hfi & _). split; [done..| |].
      * cbn. fold (accepted evs) (delivered evs). rewrite Ho, Hsv, Hfr, Hl. solve_Permutation.
      * intros y l [= <- _]. split_and!; [done..|].
        destruct (inv_list_seqs a Hi) as [Hl16 _]. rewrite Hl in Hl16. by inversion_clear Hl16.
    + subst a'. by split.
Qed.

(** * Who owns the packets

    This holds of every call, whatever the packet, the state of the ring and the
    answer of [realloc]. *)

(** The answer to a packet for which there was no room. *)
Definition no_room (r : Z) : bool := (r =? - E2BIG) || (r =? - ENOMEM).

Lemma insert_at_perm {A} k (x : A) l : insert_at k x l ≡ₚ x :: l.
Proof. unfold insert_at. rewrite <- Permutation_middle. by rewrite take_drop. Qed.

Section Owns.
Variable realloc : Z → bool.

Lemma aq_grow_no_room cap n r : aq_grow realloc cap n = inl r → no_room r = true.
Proof. unfold aq_grow. repeat case_match; by intros [= <-]. Qed.

Lemma insert_owns q l position pkt : queue_rep q l → pos q ≤ position ≤ pos q + size q →
  match aq_grow realloc (capacity q) (size q) with
  | inl r => rtp_queue_insert realloc q position pkt = Ok (r, q)
  | inr _ => ∃ q' l', rtp_queue_insert realloc q position pkt = Ok (1, q') ∧ same_rest q q' ∧ queue_rep q' l' ∧ l' ≡ₚ pkt :: l
  end.
Proof.
  intros Hq Hp. pose proof (aq_grow_ok realloc q l position Hq) as Hg. rewrite <- (rep_size _ _ Hq) in Hg.
  destruct (aq_grow _ _ _) as [r|cap] eqn:Eg.
  - unfold rtp_queue_insert. by rewrite Hg.
  - destruct (rtp_queue_insert_spec realloc q l position pkt Hq Hp) as [(r & _ & _ & Hf & Hno)|(its & c & p & E & Hq')].
    + unfold aq_grow in Eg. rewrite Hf, Z.ltb_irrefl, Z.gtb_ltb in Eg. unfold MAX_PACKET in Eg.
      destruct (Z.ltb_spec 3000 (capacity q + 1)); [done|]. destruct (realloc _) eqn:Er; [|done]. destruct Hno; [lia|done].
    + eexists _, _. split_and!; [exact E|done|exact Hq'|apply insert_at_perm].
Qed.

Lemma append_owns q l pkt : queue_rep q l →
  match aq_grow realloc (capacity q) (size q) with
  | inl r => rtp_queue_insert realloc q (pos q + size q) pkt = Ok (r, q)
  | inr _ => ∃ q' l', rtp_queue_insert realloc q (pos q + size q) pkt = Ok (1, q') ∧ same_rest q q' ∧ queue_rep q' l' ∧ l' ≡ₚ pkt :: l
  end.
Proof. intros Hq. apply (insert_owns q l _ pkt Hq (queue_rep_end _ _ Hq)). Qed.

(** Once there is no room for a saved packet there is none for the next. *)
Lemma copy_owns n : ∀ i q l bl, queue_rep q l → bad_rep q bl → 0 ≤ i → i + Z.of_nat n = zlen bl →
  ∃ q' l' lost, copy_bad_items realloc n i q = Ok q' ∧ same_rest q q' ∧ queue_rep q' l' ∧
    drop (Z.to_nat i) bl ++ l ≡ₚ l' ++ lost ∧ (length lost ≤ n)%nat ∧
    (lost = [] ∨ ∃ r, aq_grow realloc (capacity q') (size q') = inl r).
Proof.
  induction n as [|n IH]; intros i q l bl Hq Hb Hi Hn; cbn [copy_bad_items].
  { exists q, l, []. split_and!; [done|by destruct q|done| |done|by left]. rewrite app_nil_r, drop_ge; [done|]. unfold zlen in Hn. lia. }
  destruct (lookup_lt_is_Some_2 bl (Z.to_nat i)) as [x Hx]; [unfold zlen in *; lia|].
  rewrite (item_pkt_some _ _ x) by (done || by apply (bad_slots _ _ Hb)). run. rewrite (drop_S _ _ _ Hx).
  replace (S (Z.to_nat i)) with (Z.to_nat (i + 1)) by lia.
  pose proof (append_owns q l x Hq) as Hins. destruct (aq_grow _ _ _) as [r|c] eqn:Eg.
  - rewrite Hins. run. destruct (IH (i + 1) q l bl) as (q2 & l2 & lost & E2 & Hs2 & Hq2 & Hp & Hlen & Hfull); [done|done|lia|lia|].
    exists q2, l2, (x :: lost). split_and!; [done..| |cbn; lia|right].
    + by rewrite <- Permutation_middle, <- Hp.
    + enough (q2 = q) as -> by by exists r. clear IH Hx Hp Hlen Hfull Hq2 Hs2 Hins. revert i Hi Hn E2. induction n as [|n IH]; intros i Hi Hn E2; [by injection E2|].
      cbn [copy_bad_items] in E2. destruct (lookup_lt_is_Some_2 bl (Z.to_nat (i + 1))) as [y Hy]; [unfold zlen in *; lia|].
      rewrite (item_pkt_some _ _ y) in E2 by (lia || by apply (bad_slots _ _ Hb)).
      pose proof (append_owns q l y Hq) as Hins. rewrite Eg in Hins. cbn [mbind outcome_bind] in E2. rewrite Hins in E2. cbn [mbind outcome_bind] in E2.
      apply (IH (i + 1)); [lia..|done].
  - destruct Hins as (q1 & l1 & E & Hs1 & Hq1 & Hl1). rewrite E. run.
    destruct (IH (i + 1) q1 l1 bl) as (q2 & l2 & lost & E2 & Hs2 & Hq2 & Hp & Hlen & Hfull); [done|by eapply bad_rep_same_rest|lia|lia|].
    exists q2, l2, lost. split_and!; [done| |done| |lia|done].
    + unfold same_rest in *. by rewrite Hs1 in Hs2.
    + rewrite <- Hp, Hl1. solve_Permutation.
Qed.

(** What a call does with the packets: [all] are those the queue has or has given
    to [free]. *)
Definition owns (pkt : rtp_packet_t) (all : list rtp_packet_t) (r : Z) (q' : rtp_queue_t) : Prop :=
  ∃ l' bl' lost, queue_rep q' l' ∧ bad_rep q' bl' ∧
    (if r =? 1 then pkt :: all else all) ≡ₚ l' ++ bl' ++ freed q' ++ lost ∧
    (length lost ≤ if no_room r then 3 else 0)%nat.

Variable pkt : rtp_packet_t.

(** The last step of most branches. *)
Lemma append_ends q l bl all lost : queue_rep q l → bad_rep q bl → all ≡ₚ l ++ bl ++ freed q ++ lost → (length lost ≤ 3)%nat →
  (lost = [] ∨ ∃ r, aq_grow realloc (capacity q) (size q) = inl r) →
  ∃ r q', rtp_queue_insert realloc q (pos q + size q) pkt = Ok (r, q') ∧ owns pkt all r q'.
Proof.
  intros Hq Hb Hall H3 Hlost. pose proof (append_owns q l pkt Hq) as Hins. destruct (aq_grow _ _ _) as [r|c] eqn:Eg.
  - exists r, q. split; [done|]. exists l, bl, lost. pose proof (aq_grow_no_room _ _ _ Eg) as Hno. rewrite Hno. split_and!; [done..| |done].
    destruct (Z.eqb_spec r 1) as [->|]; done.
  - destruct Hlost as [->|[? ?]]; [|done]. destruct Hins as (q' & l' & E & Hs & Hq' & Hl'). exists 1, q'. split; [done|].
    exists l', bl, []. split_and!; [done|by eapply bad_rep_same_rest| |done]. change (1 =? 1) with true. cbv iota.
    assert (freed q' = freed q) as -> by (by rewrite Hs). rewrite Hall, Hl'. done.
Qed.

Lemma write_probation_owns q l bl : queue_rep q l → bad_rep q bl →
  ∃ r q', rtp_queue_write_probation realloc q pkt = Ok (r, q') ∧ owns pkt (l ++ bl ++ freed q) r q'.
Proof.
  intros Hq Hb. unfold rtp_queue_write_probation.
  destruct ((size q >? 0) && _) eqn:E1.
  - apply andb_prop in E1 as [Hsz _]. rewrite Z.gtb_lt, (rep_size _ _ Hq) in Hsz. cbn [probation set_probation].
    destruct (probation q - 1 =? 0).
    + destruct l as [|x l]; [done|]. destruct (queue_rep_head q x l Hq) as [_ Hx]. cbn [items pos set_probation]. rewrite Hx. run.
      eapply (append_ends _ (x :: l) bl _ []); [frame|frame|by rewrite app_nil_r|cbn; lia|by left].
    + run. eapply (append_ends _ l bl _ []); [frame|frame|by rewrite app_nil_r|cbn; lia|by left].
  - destruct ((size q =? 0) && _).
    + run. eapply (append_ends _ l bl _ []); [frame|frame|by rewrite app_nil_r|cbn; lia|by left].
    + rewrite (rtp_queue_reset_spec q l bl) by done. run. assert (bad_rep (set_bad q 0 0 (bad_items q)) []) by (apply bad_rep_nil; [apply Hb|done]).
      apply (queue_rep_reset q l bl) in Hq. eapply (append_ends _ [] [] _ []); [frame|frame| |cbn; lia|by left].
      cbn. rewrite app_nil_r. solve_Permutation.
Qed.

Lemma write_bad_owns q l bl : queue_rep q l → bad_rep q bl →
  ∃ r q', rtp_queue_write_bad realloc q pkt = Ok (r, q') ∧ owns pkt (l ++ bl ++ freed q) r q'.
Proof.
  intros Hq Hb. unfold rtp_queue_write_bad. cbv zeta. pose proof (bad_cnt _ _ Hb) as Hc. pose proof (bad_max _ _ Hb) as Hm.
  set (next := u16 _). destruct ((bad_count q >? 0) && _).
  - unfold RTP_SEQUENTIAL. rewrite Z.geb_leb. destruct (Z.leb_spec 3 (bad_count q)).
    + destruct (copy_owns (Z.to_nat (bad_count q)) 0 q l bl) as (q1 & l1 & lost & -> & Hs & Hq1 & Hp & Hlen & Hfull); [done|done|lia|lia|]. run.
      cbn [drop Z.to_nat] in Hp. eapply (append_ends _ l1 [] _ lost); [frame| | |lia|exact Hfull].
      * apply bad_rep_nil; [rewrite Hs; apply Hb|done].
      * cbn. assert (freed q1 = freed q) as -> by (by rewrite Hs). transitivity ((l1 ++ lost) ++ freed q); [rewrite <- Hp|]; solve_Permutation.
    + destruct (save_wf pkt q l bl next) as (its & -> & Hb'); [done|done|lia|]. run. eexists _, _. split; [done|].
      eexists l, _, []. split_and!; [frame|exact Hb'| |done]. cbn. rewrite app_nil_r. solve_Permutation.
  - rewrite (rtp_queue_reset_bad_items_spec _ bl) by frame. run.
    match goal with |- context [st (bad_items ?q1) _ _] => set (q2 := q1) end.
    destruct (save_wf pkt q2 l [] next) as (its & -> & Hb'); [frame|apply bad_rep_nil; [apply Hb|done]|done|]. run.
    eexists _, _. split; [done|]. eexists l, _, []. split_and!; [frame|exact Hb'| |done]. cbn. rewrite app_nil_r. solve_Permutation.
Qed.

Lemma write_owns q l bl : queue_rep q l → bad_rep q bl →
  ∃ r q', rtp_queue_write realloc q pkt = Ok (r, q') ∧ owns pkt (l ++ bl ++ freed q) r q'.
Proof.
  intros Hq Hb. unfold rtp_queue_write. set (q0 := set_stats q _). assert (queue_rep q0 l) as Hq0 by frame.
  assert (bad_rep q0 bl) as Hb0 by frame. change (freed q) with (freed q0). cbv zeta. clearbody q0. clear Hq Hb q.
  destruct (truth (probation q0)); [by apply write_probation_owns|].
  destruct ((u16 _ >? 0) && _).
  { set (q1 := if _ <? _ then _ else _). assert (queue_rep q1 l ∧ bad_rep q1 bl ∧ freed q1 = freed q0) as (Hq1 & Hb1 & <-).
    { unfold q1. case_match; (split_and!; [frame|frame|done]). }
    rewrite (rtp_queue_reset_bad_items_spec _ bl) by done. run.
    eapply (append_ends _ l [] _ []); [frame|apply bad_rep_nil; [apply Hb1|done]| |cbn; lia|by left]. cbn. rewrite app_nil_r. solve_Permutation. }
  assert (∀ q', queue_rep q' l → bad_rep q' bl → freed q' = freed q0 → owns pkt (l ++ bl ++ freed q0) (-1) q') as Hsame.
  { intros q' Hq' Hb' <-. exists l, bl, []. by rewrite app_nil_r. }
  destruct ((s16 _ <=? 0) && _).
  { destruct (rtp_queue_find_spec q0 l (pkt_seq pkt) Hq0) as (idx & -> & Hidx). run.
    destruct (Z.eqb_spec (-1) idx); [eexists _, _; split; [done|]; apply Hsame; [frame|frame|done]|].
    destruct Hidx as [[? _]|[Hr _]]; [lia|].
    rewrite (rtp_queue_reset_bad_items_spec _ bl) by frame. run.
    match goal with |- context [rtp_queue_insert realloc ?q _ _] => set (q2 := q) end.
    assert (queue_rep q2 l) as Hq2 by frame. assert (bad_rep q2 []) as Hb2 by (apply bad_rep_nil; [apply Hb0|done]).
    pose proof (insert_owns q2 l idx pkt Hq2 Hr) as Hins. destruct (aq_grow _ _ _) as [r|c] eqn:Eg.
    - exists r, q2. split; [done|]. exists l, [], []. pose proof (aq_grow_no_room _ _ _ Eg) as Hno. rewrite Hno. split_and!; [done..| |cbn; lia].
      destruct (Z.eqb_spec r 1) as [->|]; [done|]. cbn. rewrite app_nil_r. solve_Permutation.
    - destruct Hins as (q' & l' & E & Hs & Hq' & Hl'). exists 1, q'. split; [done|]. exists l', [], [].
      split_and!; [done|by eapply bad_rep_same_rest| |done]. change (1 =? 1) with true. cbv iota. rewrite Hl', app_nil_r. assert (freed q' = freed q2) as -> by (by rewrite Hs). cbn. solve_Permutation. }
  destruct (u16 _ <? RTP_MISORDER); [|by apply write_bad_owns]. eexists _, _. split; [done|]. apply Hsame; [frame|frame|done].
Qed.
End Owns.

(** Reading takes the first packet out, or leaves all. *)
Lemma read_owns q l bl p q' : queue_rep q l → bad_rep q bl → rtp_queue_read q = Ok (p, q') →
  ∃ l', queue_rep q' l' ∧ bad_rep q' bl ∧ freed q' = freed q ∧ l = (match p with Some x => [x] | None => [] end) ++ l'.
Proof.
  intros Hq Hb. unfold rtp_queue_read. destruct (_ || _) eqn:E0; [intros [= <- <-]; by exists l|].
  apply orb_false_iff in E0 as [Hsz _]. rewrite (rep_size _ _ Hq) in Hsz. destruct l as [|x l]; [done|].
  destruct (queue_rep_head q x l Hq) as [_ ->]. run.
  assert (∀ fs s, queue_rep (set_ring (set_stats (set_first_seq q fs) s) (items q) (capacity q) (size q - 1) (Z.rem (pos q + 1) (capacity q))) l ∧
    bad_rep (set_ring (set_stats (set_first_seq q fs) s) (items q) (capacity q) (size q - 1) (Z.rem (pos q + 1) (capacity q))) bl) as Hpop.
  { intros fs s. split; [by eapply queue_rep_pop|frame]. }
  destruct (_ =? _); [intros [= <- <-]; exists l; destruct (Hpop (u16 (first_seq q + 1)) (stats q)) as [? ?]; split_and!; [frame|frame|done|done]|].
  destruct (item_pkt _ _); [done..|]. run. destruct (rtp_queue_age _ _ _); [done..|]. run.
  destruct (_ && _); intros [= <- <-]; [by exists (x :: l)|]. exists l.
  destruct (Hpop (u16 (pkt_seq x + 1)) (add_lost (stats q) (pkt_seq x - first_seq q))) as [? ?]. split_and!; [frame|frame|done|done].
Qed.

(** Any calls from the creation on, the last one first. *)
Inductive queue_calls (thr freq : Z) : list queue_event → rtp_queue_t → Prop :=
  | calls_create q : rtp_queue_create thr freq = Ok q → queue_calls thr freq [] q
  | calls_write realloc evs q pkt r q' : queue_calls thr freq evs q → rtp_queue_write realloc q pkt = Ok (r, q') →
      queue_calls thr freq (Written pkt r :: evs) q'
  | calls_read evs q p q' : queue_calls thr freq evs q → rtp_queue_read q = Ok (p, q') →
      queue_calls thr freq (Read p :: evs) q'.

(** How many packets were refused for want of room. *)
Definition refusals (evs : list queue_event) : nat :=
  length (omap (λ ev, match ev with Written pkt r => if no_room r then Some pkt else None | _ => None end) evs).

Lemma queue_calls_own thr freq evs q : queue_calls thr freq evs q →
  ∃ l bl lost, queue_rep q l ∧ bad_rep q bl ∧ accepted evs ≡ₚ delivered evs ++ l ++ bl ++ freed q ++ lost ∧
    (length lost ≤ 3 * refusals evs)%nat.
Proof.
  induction 1 as [q Hc|realloc evs q pkt r q' _ (l & bl & lost & Hq & Hb & Hp & Hn) Hw|evs q p q' _ (l & bl & lost & Hq & Hb & Hp & Hn) Hr].
  - destruct (queue_create_abs _ _ _ Hc) as [Hq Hb _ _ _ _ _ Hf]. exists [], [], []. by rewrite Hf.
  - destruct (write_owns realloc pkt q l bl Hq Hb) as (r1 & q1 & Hw1 & l' & bl' & lost' & Hq' & Hb' & Hp' & Hn').
    rewrite Hw in Hw1. injection Hw1 as <- <-. exists l', bl', (lost' ++ lost). split_and!; [done..| |].
    + assert (accepted (Written pkt r :: evs) ≡ₚ (if r =? 1 then [pkt] else []) ++ accepted evs) as ->.
      { cbn. fold (accepted evs). destruct (Z.eqb_spec r 1) as [->|]; [done|]. by destruct r as [|[]|]. }
      change (delivered (Written pkt r :: evs)) with (delivered evs). rewrite Hp.
      assert ((if r =? 1 then [pkt] else []) ++ (l ++ bl ++ freed q) ≡ₚ l' ++ bl' ++ freed q' ++ lost') as E by (rewrite <- Hp'; by destruct (r =? 1)).
      transitivity (delivered evs ++ ((if r =? 1 then [pkt] else []) ++ (l ++ bl ++ freed q)) ++ lost); [solve_Permutation|]. rewrite E. solve_Permutation.
    + rewrite length_app. unfold refusals in *. cbn. destruct (no_room r); cbn; lia.
  - destruct (read_owns q l bl p q' Hq Hb Hr) as (l' & Hq' & Hb' & Hf & El). exists l', bl, lost. split_and!; [done..| |done].
    change (accepted (Read p :: evs)) with (accepted evs). rewrite Hp, Hf, El. cbn. fold (delivered evs). destruct p; [|done]. cbn. solve_Permutation.
Qed.

(** * Delivery order of a numbered stream

    [index pkt] is the position of a packet in the sender's stream, of which
    the sequence number is the low 16 bits.  A stream trace records the next
    index to deliver and the newest one received; its packets are late by
    less than [RTP_MISORDER], skip less than [RTP_DROPOUT] and the window is
    less than half the sequence space. *)

Section Stream.
Variable index : rtp_packet_t → Z.
Hypothesis index_seq : ∀ pkt, seq16 pkt → pkt_seq pkt = u16 (index pkt).
Variables thr freq : Z.

(** Packets delivered, newest first; next index; newest index; queue. *)
Inductive stream_trace : list rtp_packet_t → Z → Z → rtp_queue_t → Prop :=
  | stream_first q pkt r q' :
      seq16 pkt → rtp_queue_create thr freq = Ok q →
      rtp_queue_write (λ _, true) q pkt = Ok (r, q') →
      stream_trace [] (index pkt) (index pkt) q'
  | stream_write ds next newest q pkt r q' :
      stream_trace ds next newest q → seq16 pkt →
      next - RTP_MISORDER < index pkt < newest + RTP_DROPOUT →
      newest - next < 32768 - RTP_MISORDER → size q + 4 ≤ MAX_PACKET →
      rtp_queue_write (λ _, true) q pkt = Ok (r, q') →
      stream_trace ds next (Z.max newest (index pkt)) q'
  | stream_wait ds next newest q q' :
      stream_trace ds next newest q → rtp_queue_read q = Ok (None, q') →
      stream_trace ds next newest q'
  | stream_read ds next newest q pkt q' :
      stream_trace ds next newest q → rtp_queue_read q = Ok (Some pkt, q') →
      stream_trace (pkt :: ds) (index pkt + 1) newest q'.

Record stream_inv (next newest : Z) (a : aqueue) : Prop := {
  si_inv : aq_inv a;
  si_steady : a_probation a = 0;
  si_last : a_last a = u16 newest;
  si_first : a_first a = u16 next;
  si_bound : next ≤ newest + 1 ∧ newest - next < 34000;
  si_list : Forall (λ x, next ≤ index x ≤ newest) (a_list a)
}.

Lemma stream_window next newest a : stream_inv next newest a →
  window (a_last a) (a_first a) = newest - next.
Proof.
  intros [_ _ Hl Hf [? ?] _]. rewrite Hl, Hf. unfold window, u16. dlia.
Qed.

Lemma stream_write_inv next newest a pkt : stream_inv next newest a → seq16 pkt →
  next - RTP_MISORDER < index pkt < newest + RTP_DROPOUT →
  newest - next < 32768 - RTP_MISORDER →
  stream_inv next (Z.max newest (index pkt)) (snd (aq_write a pkt)).
Proof.
  unfold RTP_MISORDER, RTP_DROPOUT. intros Hsi H16 Hidx Hwin.
  pose proof (stream_window _ _ _ Hsi) as Hw. destruct Hsi as [Hi Hp Hl Hf Hb Hall].
  pose proof (aq_write_inv a pkt Hi H16 ltac:(lia)) as Hi'.
  destruct (aq_write_steady a pkt Hp) as [Hp' Hf'].
  revert Hi' Hp' Hf'. unfold aq_write. rewrite Hp. cbv zeta.
  cbn [truth Z.eqb negb a_probation a_list a_saved a_first a_last a_next a_stats a_freed].
  destruct (is_next _ _) eqn:En.
  { intros Hi' Hp' Hf'. assert (newest < index pkt).
    { unfold is_next, RTP_DROPOUT in En. apply andb_prop in En as [E1 E2].
      rewrite Z.gtb_ltb in E1. apply Z.ltb_lt in E1, E2. rewrite Hl, (index_seq _ H16) in E1, E2.
      unfold u16 in *. dlia. }
    constructor; cbn in *; try done; try lia.
    - rewrite (index_seq _ H16). unfold u16. f_equal. lia.
    - apply Forall_app. split; [eapply Forall_impl; [|exact Hall]; cbn; lia|]. constructor; [lia|done]. }
  assert (index pkt ≤ newest).
  { destruct (decide (index pkt ≤ newest)); [done|]. exfalso. revert En.
    unfold is_next, RTP_DROPOUT. rewrite Hl, (index_seq _ H16).
    destruct (Z.gtb_spec (u16 (u16 (index pkt) - u16 newest)) 0),
      (Z.ltb_spec (u16 (u16 (index pkt) - u16 newest)) 1000); cbn; try done;
      unfold u16 in *; dlia. }
  rewrite Z.max_l by done.
  destruct (is_inside _ _ _) eqn:Ei.
  { assert (next ≤ index pkt).
    { unfold is_inside in Ei. apply andb_prop in Ei as [E1 E2].
      rewrite Z.geb_leb in E2. apply Z.leb_le in E1, E2. rewrite Hl, Hf, (index_seq _ H16) in *.
      unfold u16, s16 in *. dlia. }
    destruct (existsb _ _); intros; constructor; cbn in *; try done.
    apply Forall_insert_seq; [lia|done]. }
  assert (is_late (a_first a) (pkt_seq pkt) = true) as ->.
  { unfold is_inside in Ei. unfold is_late, RTP_MISORDER. rewrite Hl, Hf, (index_seq _ H16) in *. apply Z.ltb_lt.
    rewrite Z.geb_leb in Ei.
    destruct (Z.leb_spec (s16 (u16 (u16 (index pkt) - u16 newest))) 0),
      (Z.leb_spec (s16 (u16 next - u16 newest)) (s16 (u16 (u16 (index pkt) - u16 newest))));
      cbn in Ei; try done; unfold u16, s16 in *; dlia. }
  intros. by constructor.
Qed.

Lemma stream_read_inv th fr next newest a p a' : stream_inv next newest a →
  aq_read th fr a = Ok (p, a') →
  match p with
  | None => stream_inv next newest a'
  | Some x => next ≤ index x ∧ stream_inv (index x + 1) newest a'
  end.
Proof.
  intros [Hi Hp Hl Hf Hb Hall] Hr. destruct (aq_read_spec _ _ _ _ _ Hi Hr) as (Hi' & _ & _ & Hx).
  destruct p as [x|]; [|by subst a'].
  destruct Hx as (Hlist & _ & Hp' & Hf' & _). pose proof (inv_sorted _ Hi) as Hs.
  destruct (inv_list_seqs a Hi) as [H16 _].
  rewrite Hlist in Hall, Hs, H16. inversion_clear H16 as [|? ? Hx16 Hl16]. inversion_clear Hall as [|? ? Hx Hall']. split; [lia|].
  assert (a_last a' = a_last a) as Hl'.
  { revert Hr. unfold aq_read. rewrite Hlist, Hp. cbn [truth Z.eqb negb].
    case_match; [intros [= <-]; done|]. destruct (rtp_queue_age _ _ _); cbn; try done.
    case_match; intros [= <-]; done. }
  constructor; try done; try lia; try congruence.
  - rewrite Hf', (index_seq _ Hx16). unfold u16. dlia.
  - apply Forall_lookup. intros i y Hy.
    pose proof (Hs 0%nat (S i) x y ltac:(lia) eq_refl Hy) as Hlt.
    pose proof (Forall_lookup_1 _ _ _ _ Hall' Hy) as Hy'. cbn in Hy'.
    pose proof (Forall_lookup_1 _ _ _ _ Hl16 Hy) as Hy16.
    unfold behind in Hlt. rewrite Hl, (index_seq _ Hx16), (index_seq _ Hy16) in Hlt. unfold u16 in Hlt. dlia.
Qed.

Lemma stream_trace_inv ds next newest q : stream_trace ds next newest q →
  (∃ a, queue_abs q a ∧ stream_inv next newest a) ∧
  StronglySorted (λ x y, index y < index x) ds ∧ Forall (λ x, index x < next) ds.
Proof.
  induction 1 as [q pkt r q' H16 Hc Hw|ds next newest q pkt r q' _ ((a & Ha & Hsi) & Hds) H16 Hidx Hwin Hsz Hw
                 |ds next newest q q' _ ((a & Ha & Hsi) & Hds) Hr
                 |ds next newest q pkt q' _ ((a & Ha & Hsi) & Hds) Hr].
  - split; [|by split; constructor]. pose proof (queue_create_abs _ _ _ Hc) as Ha.
    pose proof (aq_create_inv (RtpQueueStats 0 0 0 0 0 0)) as Hi.
    assert (size q + 4 ≤ MAX_PACKET) as Hsz by (apply Ok_inj in Hc; by subst q).
    destruct (step_write_abs q _ pkt r q' Ha Hi Hsz Hw) as [_ Ha'].
    eexists. split; [exact Ha'|].
    pose proof (aq_write_inv _ pkt Hi H16 ltac:(done)) as Hi'.
    constructor; cbn; try done; try (by apply index_seq); try lia. constructor; [lia|done].
  - split; [|done]. destruct (step_write_abs q a pkt r q' Ha (si_inv _ _ _ Hsi) Hsz Hw) as [_ Ha'].
    eexists. split; [exact Ha'|]. by apply stream_write_inv.
  - split; [|done]. destruct (step_read_abs q a None q' Ha Hr) as (a' & Hr' & Ha').
    exists a'. split; [done|]. apply (stream_read_inv _ _ _ _ _ _ _ Hsi Hr').
  - destruct (step_read_abs q a (Some pkt) q' Ha Hr) as (a' & Hr' & Ha').
    destruct (stream_read_inv _ _ _ _ _ _ _ Hsi Hr') as [Hn Hsi'].
    destruct Hds as [Hss Hlt]. split; [by exists a'|]. split; constructor; try done; try lia;
      (eapply Forall_impl; [|exact Hlt]); cbn; lia.
Qed.
End Stream.

(** * Properties *)

(** A packet with the given sequence number and timestamp, and the queue after
    writing a list of them to a fresh one. *)
Definition demo_pkt (s t : Z) : rtp_packet_t :=
  RtpPacket (RtpHeader 2 0 0 0 0 96 s t 0) (replicate 16 0) [] 0 0 [] 0.
Definition demo_write (q : outcome rtp_queue_t) (s : Z) : outcome rtp_queue_t :=
  q ← q; '(_, q) ← rtp_queue_write (λ _, true) q (demo_pkt s 0); Ok q.
Definition demo_queue (seqs : list Z) : outcome rtp_queue_t :=
  fold_left demo_write seqs (rtp_queue_create 100 90000).

(** Write then read, as the tests of rtp-queue.c do: the sequence numbers read,
    with the counters. *)
Fixpoint demo_drive (seqs got : list Z) (q : rtp_queue_t)
  : outcome (list Z * rtp_queue_stats_t) :=
  match seqs with
  | [] => Ok (got, rtp_queue_stats q)
  | s :: seqs =>
      '(_, q) ← rtp_queue_write (λ _, true) q (demo_pkt s 0);
      '(p, q) ← rtp_queue_read q;
      demo_drive seqs (match p with Some x => got ++ [pkt_seq x] | None => got end) q
  end.
Definition demo_run (seqs : list Z) : outcome (list Z * rtp_queue_stats_t) :=
  q ← rtp_queue_create 100 90000; demo_drive seqs [] q.

(** The sequences of [rtp_queue_test3], [rtp_queue_test4] and
    [rtp_queue_test], with the counters they assert. *)
Example rtp_queue_test3_ok :
  demo_run ((Z.of_nat <$> seq 1 22) ++ (Z.of_nat <$> seq 31 15) ++ (Z.of_nat <$> seq 23 8) ++
            (Z.of_nat <$> seq 46 5)) = Ok (Z.of_nat <$> seq 1 35, RtpQueueStats 50 0 8 0 0 0).
Proof. vm_compute. reflexivity. Qed.
Example rtp_queue_test4_ok :
  demo_run ([1] ++ (Z.of_nat <$> seq 17 6) ++ (Z.of_nat <$> seq 2 15) ++ (Z.of_nat <$> seq 23 28))
  = Ok (Z.of_nat <$> seq 1 44, RtpQueueStats 50 0 15 0 0 0).
Proof. vm_compute. reflexivity. Qed.
Example rtp_queue_test_ok :
  snd <$> (match demo_run [836; 837; 859; 860; 822; 823; 824; 825; 826; 822; 830; 827; 831; 828; 829;
                   830; 832; 833; 834; 6000; 840; 841; 842; 843; 835; 836; 837; 838; 838; 844;
                   859; 811] with Ok r => Some r | _ => None end)
  = Some (RtpQueueStats 32 1 6 20 1 0).
Proof. vm_compute. reflexivity. Qed.

(** Writing any packet to a well-formed queue, whether or not memory can be
    had, is defined, leaves a well-formed queue (every slot in use holds a
    packet, indices stay inside the ring, at most three packets are saved) and
    answers 1 or a negative code. *)
Theorem rtp_queue_write_safe realloc q pkt : queue_wf q →
  ∃ r q', rtp_queue_write realloc q pkt = Ok (r, q') ∧ queue_wf q' ∧ (r = 1 ∨ r < 0).
Proof. apply rtp_queue_write_wf. Qed.

Lemma demo_queue_wf : ∃ q, rtp_queue_create 100 90000 = Ok q ∧ queue_wf q.
Proof.
  eexists. split; [reflexivity|]. exists [], []. split; constructor; cbn; try done; lia.
Qed.

Lemma rtp_queue_write_safe_witness :
  ∃ q r q', rtp_queue_create 100 90000 = Ok q ∧
    rtp_queue_write (λ _, false) q (demo_pkt 7 0) = Ok (r, q') ∧ queue_wf q' ∧ (r = 1 ∨ r < 0).
Proof.
  destruct demo_queue_wf as (q & Hc & Hq).
  destruct (rtp_queue_write_safe (λ _, false) q (demo_pkt 7 0) Hq) as (r & q' & H).
  exists q, r, q'. auto.
Defined.

(** The binary search of [rtp_queue_find] terminates within [size] steps on
    a queue in sequence order; it answers -1 exactly when a packet with that
    sequence number is queued, and otherwise the position at which inserting
    the packet keeps the order. *)
Theorem rtp_queue_find_correct q l pkt :
  queue_rep q l → seq_sorted (last_seq q) l →
  ∃ idx, rtp_queue_find q (pkt_seq pkt) = Ok idx ∧
    (idx = -1 ↔ ∃ i x, l !! i = Some x ∧ behind (last_seq q) x = behind (last_seq q) pkt) ∧
    (idx ≠ -1 → pos q ≤ idx ≤ pos q + size q ∧
       seq_sorted (last_seq q) (insert_at (Z.to_nat (idx - pos q)) pkt l)).
Proof.
  intros Hq Hs. destruct (rtp_queue_find_spec q l (pkt_seq pkt) Hq) as (idx & Hf & Hr).
  fold (behind (last_seq q) pkt) in Hr. exists idx. split; [done|].
  pose proof (rep_pos _ _ Hq) as [? _]. pose proof (rep_size _ _ Hq).
  destruct Hr as [[-> Hdup]|[Hr Hspl]]; [done|].
  specialize (Hspl Hs). split; [split; [lia|]|].
  - intros (i & x & Hi & Hx). destruct Hspl as [Hlo Hhi].
    destruct (decide (i < Z.to_nat (idx - pos q))%nat);
      [pose proof (Hlo i x Hi ltac:(lia))|pose proof (Hhi i x Hi ltac:(lia))]; lia.
  - intros _. split; [done|]. apply seq_sorted_insert; [|done..]. unfold zlen in *. lia.
Qed.

(** Packets 5, 7 and 9 received in the order 5, 9, 7. *)
Definition demo_579 : rtp_queue_t :=
  match demo_queue [5; 9; 7] with Ok q => q | _ => set_ring (RtpQueue [] 0 0 0 0 0 0 0 0 0 [] 0 0
    (RtpQueueStats 0 0 0 0 0 0) []) [] 0 0 0 end.

Lemma demo_579_rep : queue_rep demo_579 [demo_pkt 5 0; demo_pkt 7 0; demo_pkt 9 0].
Proof.
  constructor; try by vm_compute.
  - vm_compute. split; [done|by left].
  - intros i pkt Hi. destruct i as [|[|[|i]]]; [..|discriminate Hi];
      injection Hi as <-; vm_compute; reflexivity.
Qed.

Lemma demo_579_sorted : seq_sorted (last_seq demo_579) [demo_pkt 5 0; demo_pkt 7 0; demo_pkt 9 0].
Proof.
  intros i j x y Hij Hi Hj. destruct i as [|[|[|i]]], j as [|[|[|j]]]; try lia; try discriminate Hi;
    try discriminate Hj; injection Hi as <-; injection Hj as <-; vm_compute; reflexivity.
Qed.

Lemma rtp_queue_find_correct_witness :
  ∃ idx, rtp_queue_find demo_579 6 = Ok idx ∧ idx ≠ -1 ∧
    seq_sorted 9 (insert_at (Z.to_nat (idx - pos demo_579)) (demo_pkt 6 0)
                    [demo_pkt 5 0; demo_pkt 7 0; demo_pkt 9 0]).
Proof.
  destruct (rtp_queue_find_correct demo_579 _ (demo_pkt 6 0) demo_579_rep demo_579_sorted)
    as (idx & Hf & _ & Hidx).
  assert (rtp_queue_find demo_579 (pkt_seq (demo_pkt 6 0)) = Ok 1) as Hv
    by (vm_compute; reflexivity).
  assert (idx = 1) as E by (rewrite Hv in Hf; apply Ok_inj in Hf; exact (eq_sym Hf)).
  rewrite E in Hidx. exists 1. split; [exact Hv|]. split; [discriminate|].
  apply (Hidx ltac:(discriminate)).
Defined.

(** C27: on a queue in sequence order, whatever it holds and whatever [realloc]
    answers, [rtp_queue_write] does exactly what the abstract queue does: append
    the next packet, insert an earlier one at its place, refuse duplicates and late
    packets, save packets of another sequence and adopt them when four follow each
    other, with the same result code, counters, saved and freed packets; and refuse
    a packet with [-E2BIG] or [-ENOMEM] exactly when the ring is full and may or
    can not grow, after the same changes to the rest of the state.  With room for
    four more packets and memory this is the queue without bounds. *)
Theorem rtp_queue_write_refinement realloc q a pkt :
  queue_abs q a → seq_sorted (a_last a) (a_list a) →
  let '(r, (cap, a')) := aq_write_in realloc (capacity q) a pkt in
  ∃ q', rtp_queue_write realloc q pkt = Ok (r, q') ∧ queue_abs q' a' ∧ capacity q' = cap ∧
    ((∀ n, realloc n = true) → zlen (a_list a) + 4 ≤ MAX_PACKET → aq_write a pkt = (r, a')).
Proof.
  intros Ha Hs. pose proof (rtp_queue_write_in_refines realloc pkt q a Ha Hs) as H.
  pose proof (λ Hr Hl, aq_write_room realloc (capacity q) a pkt Hr Hl (bad_max _ _ (abs_bad _ _ Ha))) as Hroom.
  destruct (aq_write_in _ _ _ _) as [r [cap a']]. destruct H as (q' & Hw & Ha' & Hc). exists q'. split_and!; [done..|].
  intros Hr Hl. destruct (Hroom Hr Hl) as [c [= -> _ ->]]. by destruct (aq_write a pkt).
Qed.

(** A first packet, with memory and without. *)
Lemma rtp_queue_write_refinement_witness :
  ∃ q q' q'', rtp_queue_create 100 90000 = Ok q ∧
    rtp_queue_write (λ _, true) q (demo_pkt 7 0) = Ok (1, q') ∧
    queue_abs q' (AQueue [demo_pkt 7 0] [] 0 7 7 0 (RtpQueueStats 1 0 0 0 0 0) []) ∧
    rtp_queue_write (λ _, false) q (demo_pkt 7 0) = Ok (- ENOMEM, q'') ∧
    queue_abs q'' (AQueue [] [] 0 7 7 0 (RtpQueueStats 1 0 0 0 0 0) []).
Proof.
  assert (∃ q, rtp_queue_create 100 90000 = Ok q) as [q Hq] by (eexists; reflexivity).
  pose proof (queue_create_abs _ _ _ Hq) as Ha. assert (capacity q = 0) as Hc by (apply Ok_inj in Hq; by rewrite <- Hq).
  pose proof (rtp_queue_write_refinement (λ _, true) q _ (demo_pkt 7 0) Ha ltac:(by apply aq_create_inv)) as H1.
  pose proof (rtp_queue_write_refinement (λ _, false) q _ (demo_pkt 7 0) Ha ltac:(by apply aq_create_inv)) as H2.
  rewrite Hc in H1, H2. destruct H1 as (q' & Hw & Ha' & _), H2 as (q'' & Hw' & Ha'' & _).
  exists q, q', q''. split_and!; [exact Hq|exact Hw|exact Ha'|exact Hw'|exact Ha''].
Defined.

(** [rtp_queue_read] does what the abstract queue does: nothing during
    probation or on an empty queue; the head of the list when it is the next
    expected one, when the queue spans more than the threshold or when it is
    nearly full; and it is undefined exactly when the abstract read is, in the
    computation of the age (clock rate 0, or timestamps 2^31 apart). *)
Theorem rtp_queue_read_refinement q a : queue_abs q a →
  match aq_read (threshold q) (frequency q) a with
  | Ok (p, a') => ∃ q', rtp_queue_read q = Ok (p, q') ∧ queue_abs q' a'
  | _ => rtp_queue_read q = Ub
  end.
Proof. apply rtp_queue_read_refines. Qed.

Lemma demo_579_abs : queue_abs demo_579 (AQueue [demo_pkt 5 0; demo_pkt 7 0; demo_pkt 9 0] [] 0
  5 9 0 (RtpQueueStats 3 0 1 0 0 0) []).
Proof.
  constructor; [apply demo_579_rep|apply bad_rep_nil; by vm_compute|by vm_compute..].
Qed.

Lemma rtp_queue_read_refinement_witness :
  ∃ q', rtp_queue_read demo_579 = Ok (Some (demo_pkt 5 0), q') ∧
    queue_abs q' (AQueue [demo_pkt 7 0; demo_pkt 9 0] [] 0 6 9 0 (RtpQueueStats 3 0 1 0 0 0) []).
Proof. exact (rtp_queue_read_refinement demo_579 _ demo_579_abs). Defined.

(** With a clock rate of 0 reading a queue whose head is not the next
    expected packet divides by zero. *)
Theorem rtp_queue_read_zero_frequency q a x l :
  queue_abs q a → a_list a = x :: l → a_probation a = 0 → a_first a ≠ pkt_seq x →
  frequency q = 0 → rtp_queue_read q = Ub.
Proof.
  intros Ha Hl Hp Hf Hz. pose proof (rtp_queue_read_refines q a Ha) as H.
  unfold aq_read in H. rewrite Hl, Hp, Hz in H. cbn [truth Z.eqb negb] in H.
  destruct (Z.eqb_spec (a_first a) (pkt_seq x)); [done|].
  replace (rtp_queue_age 0 x (List.last l x)) with (@Ub Z) in H; [done|].
  unfold rtp_queue_age. cbv zeta. destruct (s32 _ <? 0); [destruct (s32 _ =? _)|]; done.
Qed.

(** The same three packets with the first one read, at clock rate 0. *)
Definition demo_79_freq0 : rtp_queue_t :=
  match rtp_queue_read demo_579 with
  | Ok (_, q) => RtpQueue (items q) (capacity q) (size q) (pos q) (probation q) (cycles q)
      (last_seq q) (first_seq q) (bad_count q) (bad_seq q) (bad_items q) (threshold q) 0 (stats q)
      (freed q)
  | _ => demo_579
  end.

Lemma demo_79_abs : queue_abs demo_79_freq0 (AQueue [demo_pkt 7 0; demo_pkt 9 0] [] 0 6 9 0
  (RtpQueueStats 3 0 1 0 0 0) []).
Proof.
  constructor; [|apply bad_rep_nil; by vm_compute|by vm_compute..].
  constructor; [by vm_compute..|vm_compute; split; [done|by left]|].
  intros i pkt Hi. destruct i as [|[|i]]; [..|discriminate Hi]; injection Hi as <-;
    vm_compute; reflexivity.
Qed.

Lemma rtp_queue_read_zero_frequency_witness : rtp_queue_read demo_79_freq0 = Ub.
Proof.
  apply (rtp_queue_read_zero_frequency demo_79_freq0 _ (demo_pkt 7 0) [demo_pkt 9 0] demo_79_abs);
    [reflexivity|reflexivity|discriminate|reflexivity].
Defined.

(** C7: packets of a numbered stream that arrive late by less than
    [RTP_MISORDER] and skip less than [RTP_DROPOUT] are delivered in strictly
    increasing order of the sender's numbering, across wraps of the 16-bit
    sequence number, each at most once and never behind the read position. *)
Theorem rtp_queue_delivers_in_order index thr freq ds next newest q :
  (∀ pkt, seq16 pkt → pkt_seq pkt = u16 (index pkt)) →
  stream_trace index thr freq ds next newest q →
  StronglySorted (λ x y, index y < index x) ds ∧ Forall (λ x, index x < next) ds ∧
  Forall (λ x, next ≤ index x ≤ newest) (queued q).
Proof.
  intros Hidx Ht. destruct (stream_trace_inv index Hidx thr freq ds next newest q Ht)
    as ((a & Ha & Hsi) & Hs & Hf).
  rewrite (queue_rep_queued _ _ (abs_rep _ _ Ha)). split_and!; [done..|]. apply Hsi.
Qed.

(** 65535 and 0 arrive swapped: the numbering crosses the wrap. *)
Definition demo_index (pkt : rtp_packet_t) : Z :=
  if pkt_seq pkt <? 100 then pkt_seq pkt + 65536 else pkt_seq pkt.

Definition demo_get (q : outcome rtp_queue_t) : rtp_queue_t :=
  match q with Ok q => q | _ => demo_579 end.
Definition demo_read (q : rtp_queue_t) : rtp_queue_t :=
  match rtp_queue_read q with Ok (_, q) => q | _ => q end.
Definition demo_w (n : nat) : rtp_queue_t := demo_get (demo_queue (take n [65534; 0; 65535])).

Lemma demo_stream : stream_trace demo_index 100 90000
  [demo_pkt 0 0; demo_pkt 65535 0; demo_pkt 65534 0] 65537 65536
  (demo_read (demo_read (demo_read (demo_w 3)))).
Proof.
  apply (stream_read demo_index 100 90000 _ 65536 65536 (demo_read (demo_read (demo_w 3))));
    [|vm_compute; reflexivity].
  apply (stream_read demo_index 100 90000 _ 65535 65536 (demo_read (demo_w 3)));
    [|vm_compute; reflexivity].
  apply (stream_read demo_index 100 90000 _ 65534 65536 (demo_w 3)); [|vm_compute; reflexivity].
  apply (stream_write demo_index 100 90000 _ 65534 65536 (demo_w 2) (demo_pkt 65535 0) 1);
    [|by vm_compute..|vm_compute; reflexivity].
  apply (stream_write demo_index 100 90000 _ 65534 65534 (demo_w 1) (demo_pkt 0 0) 1);
    [|by vm_compute..|vm_compute; reflexivity].
  apply (stream_first demo_index 100 90000 (demo_w 0) (demo_pkt 65534 0) 1);
    [by vm_compute|vm_compute; reflexivity..].
Qed.

Lemma rtp_queue_delivers_in_order_witness :
  StronglySorted (λ x y, demo_index y < demo_index x)
    [demo_pkt 0 0; demo_pkt 65535 0; demo_pkt 65534 0].
Proof.
  apply (rtp_queue_delivers_in_order demo_index 100 90000 _ 65537 65536
           (demo_read (demo_read (demo_read (demo_w 3))))); [|exact demo_stream].
  intros pkt H. unfold demo_index, seq16, is_uint, u16 in *. destruct (pkt_seq pkt <? 100); dlia.
Defined.

(** C30: over any sequence of calls, with any packets and whatever [realloc]
    answers, the packets the queue accepted are, as a multiset, those it delivered,
    those it still holds in the ring or among the saved ones, those it passed to
    the [free] callback, and some it has lost: no packet is ever delivered or freed
    twice, or delivered and freed.  Packets are lost only by calls that are refused
    with [-E2BIG] or [-ENOMEM], at most three by each, so none is lost while there
    is room; and destroying the queue frees all it still holds. *)
Theorem rtp_queue_owns_packets thr freq evs q : queue_calls thr freq evs q →
  ∃ lost, accepted evs ≡ₚ delivered evs ++ queued q ++ saved q ++ freed q ++ lost ∧
    (length lost ≤ 3 * refusals evs)%nat ∧
    ∃ q', rtp_queue_destroy q = Ok q' ∧ accepted evs ≡ₚ delivered evs ++ freed q' ++ lost.
Proof.
  intros Hc. destruct (queue_calls_own _ _ _ _ Hc) as (l & bl & lost & Hq & Hb & Hp & Hn). exists lost.
  rewrite (queue_rep_queued _ _ Hq), (bad_rep_saved _ _ Hb). split_and!; [done..|]. unfold rtp_queue_destroy.
  rewrite (rtp_queue_reset_spec q l bl) by done. run. eexists. split; [reflexivity|]. cbn. rewrite Hp. solve_Permutation.
Qed.

(** A packet written and read, and a second refused for want of memory. *)
Definition demo_refused : rtp_queue_t :=
  match rtp_queue_write (λ _, false) (demo_w 0) (demo_pkt 65534 0) with Ok (_, q) => q | _ => demo_579 end.

Lemma rtp_queue_owns_packets_witness :
  ∃ lost, accepted [Written (demo_pkt 65534 0) (- ENOMEM)] ≡ₚ
    delivered [Written (demo_pkt 65534 0) (- ENOMEM)] ++ queued demo_refused ++ saved demo_refused ++ freed demo_refused ++ lost ∧
    (length lost ≤ 3)%nat ∧
    ∃ q', rtp_queue_destroy demo_refused = Ok q' ∧
      accepted [Written (demo_pkt 65534 0) (- ENOMEM)] ≡ₚ delivered [Written (demo_pkt 65534 0) (- ENOMEM)] ++ freed q' ++ lost.
Proof.
  apply (rtp_queue_owns_packets 100 90000).
  apply (calls_write 100 90000 (λ _, false) [] (demo_w 0)).
  - apply calls_create. vm_compute. reflexivity.
  - vm_compute. reflexivity.
Defined.

(** Over any sequence of calls the ring stays in sequence order, also when
    packets of another sequence are adopted. *)
Theorem rtp_queue_stays_sorted thr freq evs q : queue_trace thr freq evs q →
  seq_sorted (last_seq q) (queued q).
Proof.
  intros Ht. destruct (queue_trace_inv thr freq evs q Ht) as (a & [Ha Hi _ _]).
  rewrite (queue_rep_queued _ _ (abs_rep _ _ Ha)), (abs_last _ _ Ha). apply Hi.
Qed.

Lemma rtp_queue_stays_sorted_witness :
  seq_sorted (last_seq (demo_w 1)) (queued (demo_w 1)).
Proof.
  apply (rtp_queue_stays_sorted 100 90000 [Written (demo_pkt 65534 0) 1]).
  apply (trace_step 100 90000 [] (demo_w 0)).
  - apply trace_create. vm_compute. reflexivity.
  - apply step_write; [by vm_compute|split; [by vm_compute|discriminate]|vm_compute; reflexivity].
Defined.

(** Destroying a well-formed queue passes every packet it still holds to
    the [free] callback, the saved ones first, each once. *)
Theorem rtp_queue_destroy_frees_all q : queue_wf q →
  ∃ q', rtp_queue_destroy q = Ok q' ∧ freed q' = freed q ++ saved q ++ queued q ∧ items q' = [].
Proof.
  intros (l & bl & Hq & Hb). unfold rtp_queue_destroy.
  rewrite (rtp_queue_reset_spec q l bl) by done. run. eexists. split; [reflexivity|].
  rewrite (queue_rep_queued _ _ Hq), (bad_rep_saved _ _ Hb). split; [|done].
  cbn. by rewrite ?app_assoc.
Qed.

Lemma rtp_queue_destroy_frees_all_witness :
  ∃ q', rtp_queue_destroy demo_579 = Ok q' ∧
    freed q' = [] ++ [] ++ [demo_pkt 5 0; demo_pkt 7 0; demo_pkt 9 0] ∧ items q' = [].
Proof.
  destruct (rtp_queue_destroy_frees_all demo_579) as (q' & Hd & Hf & Hi).
  { exists [demo_pkt 5 0; demo_pkt 7 0; demo_pkt 9 0], []. split; [apply demo_579_rep|].
    apply bad_rep_nil; by vm_compute. }
  exists q'. split; [exact Hd|]. split; [|exact Hi]. rewrite Hf. vm_compute. reflexivity.
Defined.

(** The sequence number expected to continue another sequence is the
    successor only up to 65533: it is computed modulo 65535, so after 65534 the
    queue expects 0 (not 65535) and after 65535 it expects 1 (not 0). *)
Theorem rtp_queue_expected_after_saving q l bl pkt q' realloc :
  queue_rep q l → bad_rep q bl → seq16 pkt → bl = [] →
  rtp_queue_write_bad realloc q pkt = Ok (1, q') →
  bad_seq q' = if pkt_seq pkt <? 65534 then pkt_seq pkt + 1 else pkt_seq pkt - 65534.
Proof.
  intros Hq Hb H16 ->. unfold rtp_queue_write_bad. cbv zeta. rewrite (bad_cnt _ _ Hb).
  cbn [zlen length Z.of_nat Z.gtb Z.compare andb].
  rewrite (rtp_queue_reset_bad_items_spec _ []) by frame. run.
  match goal with |- context [st (bad_items ?q1) _ _] => set (q2 := q1) end.
  destruct (st _ _ _); run; [done..|]. intros E. apply Ok_inj in E.
  apply (f_equal snd) in E. cbn [snd] in E. subst q'. cbn [bad_seq set_bad].
  unfold seq16, is_uint, RTP_SEQMOD, u16 in *. rewrite Z.rem_mod_nonneg by lia.
  destruct (Z.ltb_spec (pkt_seq pkt) 65534); dlia.
Qed.

Definition demo_saved : rtp_queue_t :=
  match rtp_queue_write_bad (λ _, true) demo_579 (demo_pkt 65535 0) with
  | Ok (_, q) => q | _ => demo_579 end.

Lemma rtp_queue_expected_after_saving_witness : bad_seq demo_saved = 65535 - 65534.
Proof.
  apply (rtp_queue_expected_after_saving demo_579 [demo_pkt 5 0; demo_pkt 7 0; demo_pkt 9 0] []
    (demo_pkt 65535 0) demo_saved (λ _, true)).
  - apply demo_579_rep.
  - apply bad_rep_nil; by vm_compute.
  - by vm_compute.
  - reflexivity.
  - vm_compute. reflexivity.
Defined.
