(* ===== verification/RtpPayload.v ===== *)
(** The payload layer of librtp: the packers and unpackers of the payload
    formats behind one interface, with the general-purpose pair rtp-pack.c and
    rtp-unpack.c and the frame assembly of rtp-payload-helper.c.

    What the payload formats share: packets with the fixed header only, the
    application that keeps what it is given, and streams from which packets are
    lost. *)
From S2P Require Import Prelude RtpPacket.

(** * rtp-payload.h *)

Definition RTP_PAYLOAD_FLAG_PACKET_LOST : Z := 256.
Definition RTP_PAYLOAD_FLAG_PACKET_CORRUPT : Z := 512.
Definition RTP_PAYLOAD_MAX_SIZE : Z := 10 * 1024 * 1024.

(** The callbacks and the object behind [cbparam]: [alloc] gives a block of
    unspecified contents or a null pointer, [packet] gets the bytes it is
    pointed at. *)
Record rtp_payload_t (V : Type) := RtpPayloadHandler {
  alloc : V → Z → option (list Z) * V;
  free : V → list Z → V;
  packet : V → list Z → Z → Z → Z * V
}.
Arguments alloc {V}. Arguments free {V}. Arguments packet {V}.

(** [++] on the 16 bits of [rtp.seq]. *)
Definition next_seq (h : rtp_header_t) : rtp_header_t :=
  RtpHeader (rtp_v h) (rtp_p h) (rtp_x h) (rtp_cc h) (rtp_m h) (rtp_pt h) (u16 (rtp_seq h + 1))
    (rtp_timestamp h) (rtp_ssrc h).
Definition with_marker (h : rtp_header_t) (m : Z) : rtp_header_t :=
  RtpHeader (rtp_v h) (rtp_p h) (rtp_x h) (rtp_cc h) m (rtp_pt h) (rtp_seq h)
    (rtp_timestamp h) (rtp_ssrc h).
Definition with_timestamp (h : rtp_header_t) (ts : Z) : rtp_header_t :=
  RtpHeader (rtp_v h) (rtp_p h) (rtp_x h) (rtp_cc h) (rtp_m h) (rtp_pt h) (rtp_seq h) ts (rtp_ssrc h).

(** A packet with another header, or another payload of [len] bytes. *)
Definition with_rtp (pkt : rtp_packet_t) (h : rtp_header_t) : rtp_packet_t :=
  RtpPacket h (csrc pkt) (extension pkt) (extlen pkt) (extprofile pkt) (payload pkt) (payloadlen pkt).
Definition with_payload (pkt : rtp_packet_t) (p : list Z) (len : Z) : rtp_packet_t :=
  RtpPacket (rtp pkt) (csrc pkt) (extension pkt) (extlen pkt) (extprofile pkt) p len.

(** The packet of a fresh packer: [calloc], then four fields. *)
Definition fresh_packet (pt seq ssrc : Z) : rtp_packet_t :=
  RtpPacket (RtpHeader RTP_VERSION 0 0 0 0 pt seq 0 ssrc) (replicate 16 0) [] 0 0 [] 0.

(** The code of a call that reports failure through its value. *)
Definition code_of (x : outcome (Z * list Z)) (m : list Z) : outcome (Z * list Z) :=
  match x with Fail e => Ok (e, m) | _ => x end.

(** * The general-purpose packer: rtp-pack.c *)

Record rtp_packer_t (V : Type) := RtpPacker {
  pk_cbparam : V;
  pk_pkt : rtp_packet_t;
  pk_size : Z
}.
Arguments RtpPacker {V}. Arguments pk_cbparam {V}. Arguments pk_pkt {V}. Arguments pk_size {V}.

Section Pack.
Context {V : Type}.
Variable handler : rtp_payload_t V.

Definition rtp_pack_create (size pt seq ssrc : Z) (cbparam : V) : rtp_packer_t V :=
  RtpPacker cbparam (fresh_packet pt seq ssrc) size.

Definition rtp_pack_get_info (p : rtp_packer_t V) : Z * Z :=
  (rtp_seq (rtp (pk_pkt p)), rtp_timestamp (rtp (pk_pkt p))).

(** The body of the loop for [len] bytes at [ptr]: whether it returns from the
    function, the code, and the packer before the increment of the [for]. *)
Definition rtp_pack_packet (p : rtp_packer_t V) (data : list Z) (ptr len : Z)
  : outcome (bool * Z * rtp_packer_t V) :=
  b ← slice data ptr len;
  let pkt := with_payload (pk_pkt p) b len in
  let n := RTP_FIXED_HEADER + len in
  let '(block, v) := alloc handler (pk_cbparam p) n in
  match block with
  | None => Ok (true, - ENOMEM, RtpPacker v pkt (pk_size p))
  | Some m =>
      '(k, m) ← code_of (rtp_packet_serialize pkt m n) m;
      if negb (k =? n) then Ok (true, -1, RtpPacker v pkt (pk_size p)) else
      b ← slice m 0 k;
      let '(r, v) := packet handler v b (rtp_timestamp (rtp pkt)) 0 in
      Ok (false, r, RtpPacker (free handler v m) pkt (pk_size p))
  end.

Fixpoint rtp_pack_loop (fuel : nat) (p : rtp_packer_t V) (data : list Z) (ptr bytes r : Z)
  : outcome (Z * rtp_packer_t V) :=
  if (0 =? r) && (bytes >? 0) then
    match fuel with
    | O => Ub
    | S fuel =>
        let len := if bytes + RTP_FIXED_HEADER <=? pk_size p then bytes else pk_size p - RTP_FIXED_HEADER in
        '(returns, r, p) ← rtp_pack_packet p data ptr len;
        if (returns : bool) then Ok (r, p) else
        let p := RtpPacker (pk_cbparam p) (with_rtp (pk_pkt p) (next_seq (rtp (pk_pkt p)))) (pk_size p) in
        rtp_pack_loop fuel p data (ptr + len) (bytes - len) r
    end
  else Ok (r, p).

Definition rtp_pack_input (p : rtp_packer_t V) (data : list Z) (bytes timestamp : Z)
  : outcome (Z * rtp_packer_t V) :=
  let p := RtpPacker (pk_cbparam p)
    (with_rtp (pk_pkt p) (with_marker (with_timestamp (rtp (pk_pkt p)) timestamp) 0)) (pk_size p) in
  rtp_pack_loop (Z.to_nat bytes) p data 0 bytes 0.
End Pack.

(** * Frame assembly: rtp-payload-helper.c *)

Record rtp_payload_helper_t (V : Type) := RtpPayloadHelper {
  hp_cbparam : V;
  hp_lost : Z;
  hp_seq : Z;
  hp_timestamp : Z;
  hp_ptr : option (list Z);
  hp_size : Z;
  hp_capacity : Z;
  hp_maxsize : Z;
  hp_flags : Z
}.
Arguments RtpPayloadHelper {V}. Arguments hp_cbparam {V}. Arguments hp_lost {V}. Arguments hp_seq {V}.
Arguments hp_timestamp {V}. Arguments hp_ptr {V}. Arguments hp_size {V}. Arguments hp_capacity {V}.
Arguments hp_maxsize {V}. Arguments hp_flags {V}.

Section Helper.
Context {V : Type}.
Variable realloc : Z → bool.
Variable handler : rtp_payload_t V.
Implicit Types h : rtp_payload_helper_t V.

Definition rtp_payload_helper_create (cbparam : V) : rtp_payload_helper_t V :=
  RtpPayloadHelper cbparam 0 0 0 None 0 0 RTP_PAYLOAD_MAX_SIZE (-1).

(** The block passed to free, besides the helper itself. *)
Definition rtp_payload_helper_destroy h : option (list Z) := hp_ptr h.

(** [helper->lost = lost; helper->size = size] *)
Definition set_frame h (lost size : Z) : rtp_payload_helper_t V :=
  RtpPayloadHelper (hp_cbparam h) lost (hp_seq h) (hp_timestamp h) (hp_ptr h) size (hp_capacity h)
    (hp_maxsize h) (hp_flags h).
Definition set_order h (seq timestamp : Z) : rtp_payload_helper_t V :=
  RtpPayloadHelper (hp_cbparam h) (hp_lost h) seq timestamp (hp_ptr h) (hp_size h) (hp_capacity h)
    (hp_maxsize h) (hp_flags h).
Definition set_flags h (v : V) (flags : Z) : rtp_payload_helper_t V :=
  RtpPayloadHelper v (hp_lost h) (hp_seq h) (hp_timestamp h) (hp_ptr h) (hp_size h) (hp_capacity h)
    (hp_maxsize h) flags.
Definition set_block h (ptr : option (list Z)) (capacity : Z) : rtp_payload_helper_t V :=
  RtpPayloadHelper (hp_cbparam h) (hp_lost h) (hp_seq h) (hp_timestamp h) ptr (hp_size h) capacity
    (hp_maxsize h) (hp_flags h).

(** The bytes of the frame: [helper->ptr], [helper->size]. *)
Definition frame_bytes (ptr : option (list Z)) (size : Z) : outcome (list Z) :=
  match ptr with Some m => slice m 0 size | None => Ub end.

Definition rtp_payload_onframe h : outcome (Z * rtp_payload_helper_t V) :=
  '(r, h) ← (if (hp_size h >? 0) && (0 =? hp_lost h) then
      b ← frame_bytes (hp_ptr h) (hp_size h);
      let '(r, v) := packet handler (hp_cbparam h) b (hp_timestamp h)
        (Z.lor (hp_flags h) (if truth (hp_lost h) then RTP_PAYLOAD_FLAG_PACKET_CORRUPT else 0)) in
      Ok (r, set_flags h v (Z.land (hp_flags h) (Z.lnot RTP_PAYLOAD_FLAG_PACKET_LOST)))
    else Ok (0, h));
  let h := if truth (hp_lost h)
           then set_flags h (hp_cbparam h) (Z.lor (hp_flags h) RTP_PAYLOAD_FLAG_PACKET_LOST) else h in
  Ok (r, set_frame h 0 0).

Definition rtp_payload_check h (pkt : rtp_packet_t) : outcome (Z * rtp_payload_helper_t V) :=
  let seq := u16 (rtp_seq (rtp pkt)) in
  let timestamp := rtp_timestamp (rtp pkt) in
  let h := if -1 =? hp_flags h
           then set_order (set_flags h (hp_cbparam h) 0) (u16 (rtp_seq (rtp pkt) - 1)) (u32 (timestamp + 1))
           else h in
  let lost := negb (seq =? u16 (hp_seq h + 1)) in
  let h := if lost then set_frame h 1 (hp_size h) else h in
  let h := set_order h seq (hp_timestamp h) in
  '(r, h) ← (if negb (timestamp =? hp_timestamp h) then
      '(r, h) ← rtp_payload_onframe h;
      Ok (r, if lost then set_frame h 1 (hp_size h) else h)
    else Ok (0, h));
  Ok (r, set_order h (hp_seq h) timestamp).

Definition rtp_payload_write h (pkt : rtp_packet_t) : outcome (Z * rtp_payload_helper_t V) :=
  size ← int (hp_size h + payloadlen pkt);
  if (size >? hp_maxsize h) || (size <? 0) then Ok (- EINVAL, h) else
  let store h :=
    match hp_ptr h with
    | Some m =>
        b ← slice (payload pkt) 0 (payloadlen pkt);
        m ← st m (hp_size h) b;
        Ok (0, set_frame (set_block h (Some m) (hp_capacity h)) (hp_lost h) (hp_size h + payloadlen pkt))
    | None => if payloadlen pkt =? 0 then Ok (0, h) else Ub
    end in
  if size >? hp_capacity h then
    let n := size + (if Z.quot size 4 >? 16000 then Z.quot size 4 else 16000) in
    if negb (realloc n) then Ok (- ENOMEM, set_frame h 1 (hp_size h))
    else store (set_block h (Some (realloc_cells n (default [] (hp_ptr h)))) n)
  else store h.

(** * The general-purpose unpacker: rtp-unpack.c *)

Definition rtp_decode_rfc2250 h (data : list Z) (bytes : Z) : outcome (Z * rtp_payload_helper_t V) :=
  match rtp_packet_deserialize data bytes with
  | Ub => Ub
  | Fail _ => Ok (- EINVAL, h)
  | Ok pkt =>
      if payloadlen pkt >? 0 then
        let '(r, v) := packet handler (hp_cbparam h) (payload pkt) (rtp_timestamp (rtp pkt)) 0 in
        Ok (if 0 =? r then 1 else r, set_flags h v (hp_flags h))
      else Ok (1, h)
  end.
End Helper.

(** * Packets with the fixed header *)

Record plain (h : rtp_header_t) : Prop := {
  pl_ok : rtp_header_ok h;
  pl_v : rtp_v h = RTP_VERSION;
  pl_p : rtp_p h = 0;
  pl_x : rtp_x h = 0;
  pl_cc : rtp_cc h = 0
}.

Definition plain_packet (h : rtp_header_t) (p : list Z) : rtp_packet_t :=
  RtpPacket h (replicate 16 0) [] 0 0 p (zlen p).
Definition plain_bytes (h : rtp_header_t) (p : list Z) : list Z := rtp_wire_header h ++ p.

Lemma zlen_wire_header h : zlen (rtp_wire_header h) = 12.
Proof. unfold rtp_wire_header. by rewrite !zlen_app, !zlen_be_bytes. Qed.
#[export] Hint Rewrite zlen_wire_header : zlen.

Lemma zlen_plain_bytes h p : zlen (plain_bytes h p) = 12 + zlen p.
Proof. unfold plain_bytes. llia. Qed.
#[export] Hint Rewrite zlen_plain_bytes : zlen.

Lemma bytes_ok_plain h p : bytes_ok p → bytes_ok (plain_bytes h p).
Proof. intros. unfold plain_bytes, rtp_wire_header. rewrite !bytes_ok_app. auto with cint. Qed.

Lemma plain_next h : plain h → plain (next_seq h).
Proof.
  intros [[] ? ? ? ?]. constructor; [|done..]. constructor; cbn; try done. apply u16_range.
Qed.
Lemma plain_marker h m : plain h → is_uint 1 m → plain (with_marker h m).
Proof. intros [[] ? ? ? ?] ?. constructor; [|done..]. by constructor. Qed.
Lemma plain_timestamp h ts : plain h → is_uint 32 ts → plain (with_timestamp h ts).
Proof. intros [[] ? ? ? ?] ?. constructor; [|done..]. by constructor. Qed.

Section Plain.
Variables (h : rtp_header_t) (p : list Z).
Hypothesis Hh : plain h.

Lemma plain_packet_ok : bytes_ok p → rtp_packet_ok (plain_packet h p).
Proof. intros. destruct Hh. by constructor; cbn; try done; by_eval. Qed.

Lemma plain_wire : rtp_wire (plain_packet h p) = plain_bytes h p.
Proof.
  unfold rtp_wire, rtp_wire_ext. cbn [plain_packet rtp]. rewrite (pl_x _ Hh), (pl_cc _ Hh). done.
Qed.

Lemma deserialize_plain : bytes_ok p →
  rtp_packet_deserialize (plain_bytes h p) (12 + zlen p) = Ok (plain_packet h p).
Proof.
  intros Hp. rewrite rtp_packet_deserialize_spec; [|by apply bytes_ok_plain|llia].
  pose proof (rtp_parse_wire (plain_packet h p) [] (plain_packet_ok Hp)) as H.
  rewrite plain_wire, app_nil_r, zlen_plain_bytes in H. apply H; [|apply (pl_p _ Hh)].
  constructor; [|done]. cbn [plain_packet rtp csrc]. by rewrite (pl_cc _ Hh).
Qed.

Lemma serialize_plain m n : bytes_ok p → n = 12 + zlen p → zlen m = n →
  rtp_packet_serialize (plain_packet h p) m n = Ok (n, plain_bytes h p).
Proof.
  intros Hp -> Hm. rewrite rtp_packet_serialize_spec; [|by apply plain_packet_ok|lia].
  rewrite plain_wire, zlen_plain_bytes, put_whole by llia.
  by destruct (Z.ltb_spec (12 + zlen p) (12 + zlen p)); [lia|].
Qed.

Lemma serialize_header_plain m n : bytes_ok p → 12 ≤ n ≤ zlen m →
  rtp_packet_serialize_header (plain_packet h p) m n = Ok (12, put m 0 (rtp_wire_header h)).
Proof.
  intros Hp Hm. rewrite rtp_packet_serialize_header_spec; [|by apply plain_packet_ok|lia].
  unfold rtp_wire_ext. cbn [plain_packet rtp extlen csrc]. rewrite (pl_cc _ Hh), (pl_x _ Hh).
  cbn [Z.eqb truth negb]. change (12 + 4 * 0 + 0 + 0) with 12.
  destruct (Z.ltb_spec n 12); [lia|]. by rewrite app_nil_r.
Qed.
End Plain.

(** * Applications *)

(** Takes every packet: [sent] is what it makes of the bytes, the time and the
    flags. *)
Class Takes {V} (handler : rtp_payload_t V) (sent : V → list Z → Z → Z → V) :=
  takes : ∀ v b ts flags, packet handler v b ts flags = (0, sent v b ts flags).

(** Has a block for every packet, and takes it back. *)
Class HasBlocks {V} (handler : rtp_payload_t V) := {
  has_block : ∀ v n, ∃ m, alloc handler v n = (Some m, v) ∧ (0 ≤ n → zlen m = n);
  has_free : ∀ v m, free handler v m = v
}.

(** Keeps a list of what it is given. *)
Definition collector : rtp_payload_t (list (list Z * Z * Z)) :=
  RtpPayloadHandler _ (λ v n, (Some (replicate (Z.to_nat n) 170), v)) (λ v _, v)
    (λ v b ts flags, (0, v ++ [(b, ts, flags)])).

#[export] Instance collector_takes : Takes collector (λ v b ts flags, v ++ [(b, ts, flags)]).
Proof. done. Qed.
#[export] Instance collector_blocks : HasBlocks collector.
Proof.
  split; [|done]. intros v n. eexists. split; [reflexivity|]. intros.
  unfold zlen. rewrite length_replicate. lia.
Qed.

(** * Streams that lose packets *)

(** [k] is what arrives of [l]: fewer than 65536 packets are lost in a row, [n]
    of them just before [l]. *)
Inductive arrives {A} : Z → list A → list A → Prop :=
  | arrives_end n l : arrives n l []
  | arrives_take n x l k : arrives 0 l k → arrives n (x :: l) (x :: k)
  | arrives_lose n x l k : n + 1 < 65536 → arrives (n + 1) l k → arrives n (x :: l) k.

Lemma arrives_all {A} (l : list A) : ∀ n, arrives n l l.
Proof. induction l as [|x l IH]; intros n; constructor. apply IH. Qed.

(** The distance of two sequence numbers tells whether packets are missing. *)
Lemma seq_gap s n : 0 ≤ n < 65536 →
  (u16 s =? u16 (u16 (s - 1 - n) + 1)) = (n =? 0).
Proof.
  intros Hn. unfold u16. destruct (Z.eqb_spec n 0) as [->|].
  - apply Z.eqb_eq. dlia.
  - apply Z.eqb_neq. dlia.
Qed.
