(* ===== verification/RtpH264.v ===== *)
(** H.264 over RTP (RFC 6184): rtp-h264-bitstream.c, rtp-h264-pack.c and
    rtp-h264-unpack.c of librtp/source/payload, completely.  Pointers into the
    stream or the payload are offsets. *)
From S2P Require Import Prelude RtpPacket RtpPayload.

(** * Splitting a stream into NAL units: rtp-h264-bitstream.c *)

(** The offset behind the first start code of the [bytes] bytes at [p]; [n]
    iterations from [i]. *)
Fixpoint h264_startcode_from (n : nat) (i : Z) (m : list Z) (p bytes : Z) : outcome (option Z) :=
  match n with
  | O => Ok None
  | S n =>
      if i + 1 <? bytes then
        b2 ← ld m (p + i);
        hit ← (if 1 =? b2 then
                 b1 ← ld m (p + i - 1);
                 if 0 =? b1 then b0 ← ld m (p + i - 2); Ok (0 =? b0) else Ok false
               else Ok false);
        if (hit : bool) then Ok (Some (p + i + 1)) else h264_startcode_from n (i + 1) m p bytes
      else Ok None
  end.
Definition h264_startcode (m : list Z) (p bytes : Z) : outcome (option Z) :=
  h264_startcode_from (Z.to_nat bytes) 2 m p bytes.

(** [n = (n << 8) | h264[i]] for the bytes from [i]. *)
Fixpoint h264_length_bytes (k : nat) (i : Z) (m : list Z) (p bytes n : Z) : outcome Z :=
  match k with
  | O => Ok n
  | S k =>
      if i <? bytes then
        b ← ld m (p + i);
        h264_length_bytes k (i + 1) m p bytes (Z.lor (u32 (Z.shiftl n 8)) b)
      else Ok n
  end.
Definition h264_avcc_length (m : list Z) (p bytes avcc : Z) : outcome Z :=
  n ← h264_length_bytes (Z.to_nat avcc) 0 m p bytes 0;
  Ok (if avcc >=? bytes then -1 else s32 n).

(** Every iteration takes [avcc] bytes and the unit, or stops. *)
Fixpoint h264_avcc_valid_loop (fuel : nat) (m : list Z) (p bytes avcc : Z) : outcome Z :=
  if avcc + 1 <? bytes then
    match fuel with
    | O => Ub
    | S fuel =>
        n ← h264_avcc_length m p bytes avcc;
        if n <? 0 then Ok 0 else
        k ← int (n + avcc);
        if k >? bytes then Ok 0 else h264_avcc_valid_loop fuel m (p + k) (bytes - k) avcc
    end
  else Ok (if 0 =? bytes then 1 else 0).
Definition h264_avcc_bitstream_valid (m : list Z) (bytes avcc : Z) : outcome Z :=
  h264_avcc_valid_loop (Z.to_nat bytes) m 0 bytes avcc.

(** 0 for annex B, the length size for avcc, negative for neither. *)
Definition h264_bitstream_format (m : list Z) (bytes : Z) : outcome Z :=
  if bytes <? 4 then Ok (-1) else
  b0 ← ld m 0; b1 ← ld m 1; b2 ← ld m 2; b3 ← ld m 3;
  let n := Z.lor (Z.lor (Z.shiftl b0 16) (Z.shiftl b1 8)) b2 in
  if (0 =? n) && (b3 <=? 1) then Ok 0
  else if 1 =? n then
    v ← h264_avcc_bitstream_valid m bytes 4; Ok (if truth v then 4 else 0)
  else
    v ← h264_avcc_bitstream_valid m bytes 4;
    if truth v then Ok 4 else
    v ← h264_avcc_bitstream_valid m bytes 3; Ok (if truth v then 3 else -1).

Section Split.
Context {A : Type}.
(** The callback gets the bytes of the unit, their number and whether it is
    the last. *)
Variable handler : A → list Z → Z → Z → outcome (Z * A).

(** [n] is the unsigned value of the length read. *)
Fixpoint h264_avcc_loop (fuel : nat) (a : A) (m : list Z) (p endp avcc n r : Z) : outcome (Z * A) :=
  if (0 =? r) && (p + n + avcc <=? endp) then
    match fuel with
    | O => Ub
    | S fuel =>
        '(r, a) ← (if n >? 0 then
                     nalu ← slice m (p + avcc) n;
                     handler a nalu (s32 n) (if p + avcc + n <? endp then 0 else 1)
                   else Ok (r, a));
        let p := p + (n + avcc) in
        k ← h264_avcc_length m p (endp - p) avcc;
        h264_avcc_loop fuel a m p endp avcc (u32 k) r
    end
  else Ok (r, a).
Definition h264_avcc_nalu (a : A) (m : list Z) (bytes avcc : Z) : outcome (Z * A) :=
  k ← h264_avcc_length m 0 bytes avcc;
  h264_avcc_loop (Z.to_nat (bytes + 1)) a m 0 bytes avcc (u32 k) 0.

(** [while (n > 0 && 0 == p[n - 1]) n--] *)
Fixpoint trim_zeros (fuel : nat) (m : list Z) (p n : Z) : outcome Z :=
  match fuel with
  | O => Ok n
  | S fuel =>
      if n >? 0 then b ← ld m (p + n - 1); if 0 =? b then trim_zeros fuel m p (n - 1) else Ok n
      else Ok n
  end.

Fixpoint annexb_loop (fuel : nat) (a : A) (m : list Z) (p : option Z) (endp r : Z) : outcome (Z * A) :=
  match p with
  | Some p =>
      if 0 =? r then
        match fuel with
        | O => Ub
        | S fuel =>
            next ← h264_startcode m p (endp - p);
            let n := match next with Some q => q - p - 3 | None => endp - p end in
            n ← trim_zeros (Z.to_nat n) m p n;
            '(r, a) ← (if n >? 0 then
                         nalu ← slice m p n;
                         handler a nalu n (if next then 0 else 1)
                       else Ok (r, a));
            annexb_loop fuel a m next endp r
        end
      else Ok (r, a)
  | None => Ok (r, a)
  end.

Definition rtp_h264_annexb_nalu (a : A) (m : list Z) (bytes : Z) : outcome (Z * A) :=
  avcc ← h264_bitstream_format m bytes;
  if avcc >? 0 then h264_avcc_nalu a m bytes avcc else
  p ← h264_startcode m 0 bytes;
  annexb_loop (Z.to_nat bytes) a m p bytes 0.
End Split.

(** * Packing: rtp-h264-pack.c *)

Definition FU_START : Z := 128.
Definition FU_END : Z := 64.
Definition N_FU_HEADER : Z := 2.

Record rtp_encode_h264_t (V : Type) := RtpEncodeH264 {
  en_pkt : rtp_packet_t;
  en_cbparam : V;
  en_size : Z
}.
Arguments RtpEncodeH264 {V}. Arguments en_pkt {V}. Arguments en_cbparam {V}. Arguments en_size {V}.

Section Pack.
Context {V : Type}.
Variable handler : rtp_payload_t V.
Implicit Types packer : rtp_encode_h264_t V.

Definition rtp_h264_pack_create (size pt seq ssrc : Z) (cbparam : V) : rtp_encode_h264_t V :=
  RtpEncodeH264 (fresh_packet pt seq ssrc) cbparam size.

Definition rtp_h264_pack_get_info packer : Z * Z :=
  (rtp_seq (rtp (en_pkt packer)), rtp_timestamp (rtp (en_pkt packer))).

(** [packer->pkt = pkt] and the state of the application. *)
Definition en_with packer (pkt : rtp_packet_t) (v : V) : rtp_encode_h264_t V :=
  RtpEncodeH264 pkt v (en_size packer).
Definition en_next_seq packer : rtp_encode_h264_t V :=
  en_with packer (with_rtp (en_pkt packer) (next_seq (rtp (en_pkt packer)))) (en_cbparam packer).

Definition rtp_h264_pack_nalu packer (nalu : list Z) (bytes mark : Z)
  : outcome (Z * rtp_encode_h264_t V) :=
  let pkt := with_payload (en_pkt packer) nalu bytes in
  let n := RTP_FIXED_HEADER + bytes in
  let '(block, v) := alloc handler (en_cbparam packer) n in
  match block with
  | None => Ok (- ENOMEM, en_with packer pkt v)
  | Some m =>
      let pkt := with_rtp pkt (with_marker (rtp pkt) mark) in
      '(k, m) ← code_of (rtp_packet_serialize pkt m n) m;
      if negb (k =? n) then Ok (-1, en_with packer pkt v) else
      let packer := en_next_seq (en_with packer pkt v) in
      b ← slice m 0 k;
      let '(r, v) := packet handler v b (rtp_timestamp (rtp pkt)) 0 in
      Ok (r, en_with packer (en_pkt packer) (free handler v m))
  end.

(** One fragment of [len] bytes at [ptr]: whether it returns from the function,
    the code, and the packer before the increment of the [for] statement. *)
Definition rtp_h264_pack_fragment packer (nalu : list Z) (ptr len fu_indicator fu_header mark : Z)
  : outcome (bool * Z * rtp_encode_h264_t V) :=
  b ← slice nalu ptr len;
  let pkt := with_payload (en_pkt packer) b len in
  let n := RTP_FIXED_HEADER + N_FU_HEADER + len in
  let '(block, v) := alloc handler (en_cbparam packer) n in
  match block with
  | None => Ok (true, - ENOMEM, en_with packer pkt v)
  | Some m =>
      let pkt := with_rtp pkt (with_marker (rtp pkt) (if truth (Z.land FU_END fu_header) then mark else 0)) in
      '(n, m) ← code_of (rtp_packet_serialize_header pkt m n) m;
      if negb (n =? RTP_FIXED_HEADER) then Ok (true, -1, en_with packer pkt v) else
      m ← st m n [fu_indicator; fu_header];
      m ← st m (n + N_FU_HEADER) b;
      out ← slice m 0 (n + N_FU_HEADER + len);
      let '(r, v) := packet handler v out (rtp_timestamp (rtp pkt)) 0 in
      Ok (false, r, en_with packer pkt (free handler v m))
  end.

Fixpoint rtp_h264_pack_fu_loop (fuel : nat) packer (nalu : list Z) (ptr bytes fu_indicator fu_header mark r : Z)
  : outcome (Z * rtp_encode_h264_t V) :=
  if (0 =? r) && (bytes >? 0) then
    match fuel with
    | O => Ub
    | S fuel =>
        let last := bytes + RTP_FIXED_HEADER <=? en_size packer - N_FU_HEADER in
        let fu_header := if last then Z.lor FU_END (Z.land fu_header 31) else fu_header in
        let len := if last then bytes else en_size packer - RTP_FIXED_HEADER - N_FU_HEADER in
        '(returns, r, packer) ← rtp_h264_pack_fragment packer nalu ptr len fu_indicator fu_header mark;
        if (returns : bool) then Ok (r, packer) else
        rtp_h264_pack_fu_loop fuel (en_next_seq packer) nalu (ptr + len) (bytes - len) fu_indicator
          (Z.land fu_header 31) mark r
    end
  else Ok (r, packer).

Definition rtp_h264_pack_fu_a packer (nalu : list Z) (bytes mark : Z) : outcome (Z * rtp_encode_h264_t V) :=
  b ← ld nalu 0;
  let fu_indicator := Z.lor (Z.land b 224) 28 in
  let fu_header := Z.land b 31 in
  rtp_h264_pack_fu_loop (Z.to_nat bytes) packer nalu 1 (bytes - 1) fu_indicator (Z.lor fu_header FU_START) mark 0.

Definition rtp_h264_pack_handler packer (nalu : list Z) (bytes last : Z) : outcome (Z * rtp_encode_h264_t V) :=
  let mark := if truth last then 1 else 0 in
  if bytes + RTP_FIXED_HEADER <=? en_size packer then rtp_h264_pack_nalu packer nalu bytes mark
  else rtp_h264_pack_fu_a packer nalu bytes mark.

Definition rtp_h264_pack_input packer (h264 : list Z) (bytes timestamp : Z)
  : outcome (Z * rtp_encode_h264_t V) :=
  let packer := en_with packer (with_rtp (en_pkt packer) (with_timestamp (rtp (en_pkt packer)) timestamp))
                  (en_cbparam packer) in
  rtp_h264_annexb_nalu rtp_h264_pack_handler packer h264 bytes.
End Pack.

(** * Unpacking: rtp-h264-unpack.c *)

Record rtp_decode_h264_t (V : Type) := RtpDecodeH264 {
  de_cbparam : V;
  de_seq : Z;
  de_timestamp : Z;
  de_ptr : option (list Z);
  de_size : Z;
  de_capacity : Z;
  de_flags : Z
}.
Arguments RtpDecodeH264 {V}. Arguments de_cbparam {V}. Arguments de_seq {V}. Arguments de_timestamp {V}.
Arguments de_ptr {V}. Arguments de_size {V}. Arguments de_capacity {V}. Arguments de_flags {V}.

Section Unpack.
Context {V : Type}.
Variable realloc : Z → bool.
Variable handler : rtp_payload_t V.
Implicit Types u : rtp_decode_h264_t V.

Definition rtp_h264_unpack_create (cbparam : V) : rtp_decode_h264_t V :=
  RtpDecodeH264 cbparam 0 0 None 0 0 (-1).

(** The block passed to free, besides the unpacker itself. *)
Definition rtp_h264_unpack_destroy u : option (list Z) := de_ptr u.

(** [unpacker->flags = flags; unpacker->size = size] *)
Definition de_reset u (flags size : Z) : rtp_decode_h264_t V :=
  RtpDecodeH264 (de_cbparam u) (de_seq u) (de_timestamp u) (de_ptr u) size (de_capacity u) flags.
Definition de_set_seq u (seq : Z) : rtp_decode_h264_t V :=
  RtpDecodeH264 (de_cbparam u) seq (de_timestamp u) (de_ptr u) (de_size u) (de_capacity u) (de_flags u).
Definition de_set_block u (ptr : option (list Z)) (size capacity : Z) : rtp_decode_h264_t V :=
  RtpDecodeH264 (de_cbparam u) (de_seq u) (de_timestamp u) ptr size capacity (de_flags u).
Definition de_set_timestamp u (ts : Z) : rtp_decode_h264_t V :=
  RtpDecodeH264 (de_cbparam u) (de_seq u) ts (de_ptr u) (de_size u) (de_capacity u) (de_flags u).

(** [r = handler.packet(...); unpacker->flags = 0; unpacker->size = 0] *)
Definition de_deliver u (b : list Z) (timestamp : Z) : Z * rtp_decode_h264_t V :=
  let '(r, v) := packet handler (de_cbparam u) b timestamp (de_flags u) in
  (r, RtpDecodeH264 v (de_seq u) (de_timestamp u) (de_ptr u) 0 (de_capacity u) 0).

(** [0 == r ? 1 : r] *)
Definition handled_code (r : Z) : Z := if 0 =? r then 1 else r.

Fixpoint rtp_h264_stap_loop (fuel : nat) u (m : list Z) (ptr bytes timestamp r : Z)
  : outcome (Z * rtp_decode_h264_t V) :=
  if (0 =? r) && (bytes >? 2) then
    match fuel with
    | O => Ub
    | S fuel =>
        len ← rtp_read_uint16 m ptr;
        if (len + 2 >? bytes) || (len <? 2) then
          Ok (- EINVAL, de_reset u RTP_PAYLOAD_FLAG_PACKET_LOST 0)
        else
          b ← slice m (ptr + 2) len;
          let '(r, u) := de_deliver u b timestamp in
          rtp_h264_stap_loop fuel u m (ptr + (len + 2)) (bytes - (len + 2)) timestamp r
    end
  else Ok (handled_code r, u).

Definition rtp_h264_unpack_stap u (m : list Z) (bytes timestamp : Z) (stap_b : bool)
  : outcome (Z * rtp_decode_h264_t V) :=
  let n := if stap_b then 3 else 1 in
  if bytes <? n then Ok (- EINVAL, u) else
  don ← (if stap_b then rtp_read_uint16 m 1 else Ok 0);
  rtp_h264_stap_loop (Z.to_nat bytes) u m n (bytes - n) timestamp 0.

Fixpoint rtp_h264_mtap_loop (fuel : nat) u (m : list Z) (ptr bytes timestamp n r : Z)
  : outcome (Z * rtp_decode_h264_t V) :=
  if (0 =? r) && (n + 3 <? bytes) then
    match fuel with
    | O => Ub
    | S fuel =>
        len ← rtp_read_uint16 m ptr;
        if (len + 2 >? bytes) || (len <? 1 + n + 1) then
          Ok (- EINVAL, de_reset u RTP_PAYLOAD_FLAG_PACKET_LOST 0)
        else
          ts ← rtp_read_uint16 m (ptr + 3);
          ts ← (if 3 =? n then b ← ld m (ptr + 5); Ok (Z.lor (Z.shiftl ts 8) b) else Ok ts);
          let ts := u32 (ts + timestamp) in
          b ← slice m (ptr + 2 + 1 + n) (len - 1 - n);
          let '(r, u) := de_deliver u b ts in
          rtp_h264_mtap_loop fuel u m (ptr + (len + 2)) (bytes - (len + 2)) timestamp n r
    end
  else Ok (handled_code r, u).

Definition rtp_h264_unpack_mtap u (m : list Z) (bytes timestamp n : Z)
  : outcome (Z * rtp_decode_h264_t V) :=
  if bytes <? 3 then Ok (- EINVAL, u) else
  donb ← rtp_read_uint16 m 1;
  rtp_h264_mtap_loop (Z.to_nat bytes) u m 3 (bytes - 3) timestamp n 0.

(** Room for the fragment: the code and the unpacker. *)
Definition rtp_h264_fu_alloc u (bytes n : Z) : Z * rtp_decode_h264_t V :=
  if de_size u + bytes - n + 1 >? de_capacity u then
    let size := de_size u + bytes + 1 in
    let size := size + (if Z.quot size 4 >? 128000 then Z.quot size 4 else 128000) in
    if negb (realloc size) then (- ENOMEM, de_reset u RTP_PAYLOAD_FLAG_PACKET_LOST 0)
    else (0, de_set_block u (Some (realloc_cells size (default [] (de_ptr u)))) (de_size u) size)
  else (0, u).

(** The bytes of the fragment behind those of the unit, and delivery of the unit
    with its last fragment. *)
Definition rtp_h264_fu_store u (m : list Z) (bytes timestamp n fuheader : Z)
  : outcome (Z * rtp_decode_h264_t V) :=
  let u := de_set_timestamp u timestamp in
  u ← (if bytes >? n then
         b ← slice m n (bytes - n);
         ptr ← (match de_ptr u with Some p => st p (de_size u) b | None => Ub end);
         Ok (de_set_block u (Some ptr) (de_size u + (bytes - n)) (de_capacity u))
       else Ok u);
  if truth (Z.land fuheader 64) then
    if de_size u >? 0 then
      b ← frame_bytes (de_ptr u) (de_size u);
      let '(r, u) := de_deliver u b timestamp in
      Ok (handled_code r, u)
    else Ok (1, de_reset u 0 0)
  else Ok (1, u).

Definition rtp_h264_unpack_fu u (m : list Z) (bytes timestamp : Z) (fu_b : bool)
  : outcome (Z * rtp_decode_h264_t V) :=
  let n := if fu_b then 4 else 2 in
  if bytes <? n then Ok (- EINVAL, u) else
  sum ← int (de_size u + bytes);
  if sum - n >? RTP_PAYLOAD_MAX_SIZE then Ok (- EINVAL, u) else
  let '(r, u) := rtp_h264_fu_alloc u bytes n in
  if negb (r =? 0) then Ok (r, u) else
  fuheader ← ld m 1;
  if truth (Z.land fuheader 128) then
    indicator ← ld m 0;
    ptr ← (match de_ptr u with
           | Some p => st p 0 [Z.lor (Z.land indicator 224) (Z.land fuheader 31)]
           | None => Ub
           end);
    rtp_h264_fu_store (de_set_block u (Some ptr) 1 (de_capacity u)) m bytes timestamp n fuheader
  else if 0 =? de_size u then Ok (0, de_reset u RTP_PAYLOAD_FLAG_PACKET_LOST 0)
  else rtp_h264_fu_store u m bytes timestamp n fuheader.

Definition rtp_h264_unpack_payload u (pkt : rtp_packet_t) : outcome (Z * rtp_decode_h264_t V) :=
  let m := payload pkt in
  let bytes := payloadlen pkt in
  let timestamp := rtp_timestamp (rtp pkt) in
  b ← ld m 0;
  let nalt := Z.land b 31 in
  if (nalt =? 0) || (nalt =? 31) then Ok (0, u)
  else if nalt =? 24 then rtp_h264_unpack_stap u m bytes timestamp false
  else if nalt =? 25 then rtp_h264_unpack_stap u m bytes timestamp true
  else if nalt =? 26 then rtp_h264_unpack_mtap u m bytes timestamp 2
  else if nalt =? 27 then rtp_h264_unpack_mtap u m bytes timestamp 3
  else if nalt =? 28 then rtp_h264_unpack_fu u m bytes timestamp false
  else if nalt =? 29 then rtp_h264_unpack_fu u m bytes timestamp true
  else
    b ← slice m 0 bytes;
    let '(r, u) := de_deliver u b timestamp in
    Ok (handled_code r, u).

(** The unpacker after the packet's number has been compared. *)
Definition rtp_h264_check_seq u (seq : Z) : rtp_decode_h264_t V :=
  let u := if -1 =? de_flags u then de_set_seq (de_reset u 0 (de_size u)) (u16 (seq - 1)) else u in
  let u := if negb (u16 seq =? u16 (de_seq u + 1)) then de_reset u RTP_PAYLOAD_FLAG_PACKET_LOST 0 else u in
  de_set_seq u (u16 seq).

Definition rtp_h264_unpack_input u (data : list Z) (bytes : Z) : outcome (Z * rtp_decode_h264_t V) :=
  match rtp_packet_deserialize data bytes with
  | Ub => Ub
  | Fail _ => Ok (- EINVAL, u)
  | Ok pkt =>
      if payloadlen pkt <? 1 then Ok (- EINVAL, u)
      else rtp_h264_unpack_payload (rtp_h264_check_seq u (rtp_seq (rtp pkt))) pkt
  end.
End Unpack.
