(* ===== verification/RtpH264Spec.v ===== *)
(** H.264 over RTP end to end: what the packer sends for a stream of NAL units,
    what the unpacker makes of the packets that arrive, and so that units are
    delivered whole and in order, and never damaged when packets are lost. *)
From Stdlib Require Import Bool.
From S2P Require Import Prelude RtpPacket RtpPayload RtpH264.

(** * Fragments of NAL units *)

(** A packet carries a whole unit, or bytes of a unit with first byte [b0] that
    come after [before]. *)
Inductive fragment :=
  | Whole (nalu : list Z)
  | Part (b0 : Z) (before piece : list Z) (last : bool).

Definition fu_header (b0 : Z) (start last : bool) : Z :=
  Z.land b0 31 + (if start then 128 else 0) + (if last then 64 else 0).

Definition is_nil {A} (l : list A) : bool := match l with [] => true | _ => false end.

Definition fragment_payload (f : fragment) : list Z :=
  match f with
  | Whole nalu => nalu
  | Part b0 before piece last =>
      [Z.lor (Z.land b0 224) 28; fu_header b0 (is_nil before) last] ++ piece
  end.

(** The unit the fragment completes. *)
Definition completes (f : fragment) : option (list Z) :=
  match f with
  | Whole nalu => Some nalu
  | Part b0 before piece true => Some (b0 :: before ++ piece)
  | Part _ _ _ false => None
  end.
Definition units (fs : list fragment) : list (list Z) := omap completes fs.

(** Bytes [body] after [before] in pieces of [c]. *)
Fixpoint parts (fuel : nat) (c b0 : Z) (before body : list Z) : list fragment :=
  match fuel with
  | O => []
  | S fuel =>
      if zlen body <=? c then [Part b0 before body true]
      else Part b0 before (sub body 0 c) false
           :: parts fuel c b0 (before ++ sub body 0 c) (drop (Z.to_nat c) body)
  end.

Definition fragments (size : Z) (nalu : list Z) : list fragment :=
  if zlen nalu + 12 <=? size then [Whole nalu] else
  match nalu with
  | [] => []
  | b0 :: body => parts (length body) (size - 14) b0 [] body
  end.

Definition nalu_type (nalu : list Z) : Z := Z.land (nalu !!! 0%nat) 31.

(** A unit that can be sent. *)
Record unit_ok (nalu : list Z) : Prop := {
  uo_bytes : bytes_ok nalu;
  uo_length : 0 < zlen nalu < RTP_PAYLOAD_MAX_SIZE;
  uo_type : 1 ≤ nalu_type nalu ≤ 23
}.

(** The bytes of a unit that has begun, after the fragment. *)
Definition held_of (prev : option fragment) : list Z :=
  match prev with Some (Part b0 before piece false) => b0 :: before ++ piece | _ => [] end.

(** A fragment goes on with the unit that has begun, or begins one. *)
Definition follows (prev : option fragment) (f : fragment) : Prop :=
  held_of prev = match f with
                 | Whole _ | Part _ [] _ _ => []
                 | Part b0 before _ _ => b0 :: before
                 end.
Fixpoint chained (prev : option fragment) (fs : list fragment) : Prop :=
  match fs with
  | [] => True
  | f :: fs => follows prev f ∧ chained (Some f) fs
  end.

(** A fragment the unpacker can take. *)
Definition fragment_ok (f : fragment) : Prop :=
  bytes_ok (fragment_payload f) ∧
  match f with
  | Whole nalu => unit_ok nalu
  | Part b0 before piece last =>
      is_byte b0 ∧ 0 < zlen piece ∧ 1 + zlen before + zlen piece ≤ RTP_PAYLOAD_MAX_SIZE ∧
      (last = true → before ≠ [])
  end.

Lemma drop_sub (l : list Z) c : 0 ≤ c → sub l 0 c ++ drop (Z.to_nat c) l = l.
Proof. intros. unfold sub. change (Z.to_nat 0) with 0%nat. by rewrite drop_0, take_drop. Qed.

Lemma zlen_sub_le (l : list Z) c : 0 ≤ c → zlen (sub l 0 c) = Z.min c (zlen l).
Proof. intros. unfold sub, zlen. rewrite length_take, length_drop. lia. Qed.

Lemma zlen_drop_sub (l : list Z) c : 0 ≤ c → c < zlen l → zlen (drop (Z.to_nat c) l) = zlen l - c.
Proof. intros. unfold zlen in *. rewrite length_drop. lia. Qed.

Lemma zlen_pos {A} (l : list A) : l ≠ [] → 0 < zlen l.
Proof. destruct l as [|x l]; [done|]. intros _. rewrite zlen_cons. pose proof (zlen_nonneg l). lia. Qed.

Section Parts.
Variables (c b0 : Z).
Hypothesis Hc : 0 < c.

Lemma units_parts fuel : ∀ before body, zlen body ≤ Z.of_nat fuel → 0 < zlen body →
  units (parts fuel c b0 before body) = [b0 :: before ++ body].
Proof.
  induction fuel as [|fuel IH]; intros before body Hf Hb; cbn [parts]; [lia|].
  destruct (Z.leb_spec (zlen body) c); [done|].
  cbn [units omap list_omap completes]. fold (units (parts fuel c b0 (before ++ sub body 0 c) (drop (Z.to_nat c) body))).
  pose proof (zlen_drop_sub body c ltac:(lia) ltac:(lia)).
  rewrite IH by lia. rewrite <- app_assoc, drop_sub by lia. done.
Qed.

Lemma chained_parts fuel : ∀ prev before body, 0 < zlen body →
  held_of prev = match before with [] => [] | _ => b0 :: before end →
  chained prev (parts fuel c b0 before body).
Proof.
  induction fuel as [|fuel IH]; intros prev before body Hb Hp; cbn [parts]; [done|].
  destruct (Z.leb_spec (zlen body) c); cbn [chained]; (split; [exact Hp|]); [done|].
  pose proof (zlen_drop_sub body c ltac:(lia) ltac:(lia)). pose proof (zlen_sub_le body c ltac:(lia)).
  apply IH; [lia|]. cbn [held_of]. destruct (before ++ sub body 0 c) eqn:E; [|done].
  apply app_nil in E as [_ E]. rewrite E in *. change (zlen (@nil Z)) with 0 in *. lia.
Qed.

Lemma fragment_bytes before piece last : is_byte b0 → bytes_ok piece →
  bytes_ok (fragment_payload (Part b0 before piece last)).
Proof.
  intros Hb Hp. cbn [fragment_payload app]. constructor; [|constructor; [|done]].
  - apply (byte_cases (λ b, bool_decide (is_byte (Z.lor (Z.land b 224) 28)))) in Hb; [|by vm_compute].
    by apply bool_decide_eq_true in Hb.
  - unfold fu_header. masks. unfold is_uint. destruct (is_nil before), last; dlia.
Qed.

Lemma parts_ok fuel : ∀ before body, bytes_ok body → 0 < zlen body →
  is_byte b0 → (before = [] → c < zlen body) → 1 + zlen before + zlen body ≤ RTP_PAYLOAD_MAX_SIZE →
  Forall fragment_ok (parts fuel c b0 before body).
Proof.
  induction fuel as [|fuel IH]; intros before body Hb Hl Hb0 Hs Hm; cbn [parts]; [constructor|].
  destruct (Z.leb_spec (zlen body) c).
  - apply Forall_singleton. split; [by apply fragment_bytes|]. split_and!; [done|lia|lia|].
    intros _ E. specialize (Hs E). lia.
  - pose proof (zlen_sub_le body c ltac:(lia)). pose proof (zlen_drop_sub body c ltac:(lia) ltac:(lia)).
    pose proof (zlen_nonneg before).
    assert (bytes_ok (sub body 0 c)) by by apply bytes_ok_sub.
    constructor.
    + split; [by apply fragment_bytes|]. split_and!; [done|lia|lia|done].
    + apply IH; [by apply Forall_drop|lia|done| |llia].
      intros [_ E]%app_nil. apply (f_equal zlen) in E. change (zlen (@nil Z)) with 0 in E. lia.
Qed.
End Parts.

(** The fragments of a unit are those of the format. *)
Lemma fragments_spec size nalu prev : 14 < size → unit_ok nalu → held_of prev = [] →
  units (fragments size nalu) = [nalu] ∧ chained prev (fragments size nalu) ∧
  Forall fragment_ok (fragments size nalu).
Proof.
  intros Hs Hok Hprev. pose proof Hok as [Hb Hl Ht]. unfold fragments.
  destruct (Z.leb_spec (zlen nalu + 12) size).
  { split_and!; [done|done|]. by apply Forall_singleton. }
  destruct nalu as [|b0 body]; [by destruct Hl|]. rewrite zlen_cons in *.
  inversion Hb as [|? ? Hb0 Hbody]; subst. unfold zlen in *. split_and!.
  - apply units_parts; unfold zlen; lia.
  - apply chained_parts; [lia|unfold zlen; lia|done].
  - apply parts_ok; try done; unfold zlen; cbn [length]; lia.
Qed.

(** * The unpacker as an abstract receiver *)

(** The number of the last packet, the bytes held of the unit being received
    (none while its packets are discarded), and whether packets were lost since
    the last delivery. *)
Record receiver := Receiver {
  rc_last : option Z;
  rc_held : list Z;
  rc_lost : bool
}.

(** The state in which a packet's payload is looked at. *)
Definition arrived (s : receiver) (seq : Z) : receiver :=
  let gap := match rc_last s with Some l => negb (seq =? u16 (l + 1)) | None => false end in
  Receiver (Some seq) (if gap then [] else rc_held s) (gap || rc_lost s).

(** The unit a fragment completes, and whether it is marked as following a loss. *)
Definition take_fragment (s : receiver) (f : fragment) : receiver * option (list Z * bool) :=
  match f with
  | Whole nalu => (Receiver (rc_last s) [] false, Some (nalu, rc_lost s))
  | Part b0 before piece last =>
      if is_nil (rc_held s) && negb (is_nil before) then (Receiver (rc_last s) [] true, None) else
      let held := (if is_nil before then [b0] else rc_held s) ++ piece in
      if last then (Receiver (rc_last s) [] false, Some (held, rc_lost s))
      else (Receiver (rc_last s) held (rc_lost s), None)
  end.
Definition accept (s : receiver) (seq : Z) (f : fragment) : receiver * option (list Z * bool) :=
  take_fragment (arrived s seq) f.

(** The unpacker is in a state of the receiver. *)
Record holds_state {V} (u : rtp_decode_h264_t V) (s : receiver) : Prop := {
  hs_flags : de_flags u = match rc_last s with None => -1 | Some _ => if rc_lost s then 256 else 0 end;
  hs_fresh : rc_last s = None → rc_held s = [] ∧ rc_lost s = false;
  hs_seq : ∀ l, rc_last s = Some l → de_seq u = l ∧ is_uint 16 l;
  hs_size : de_size u = zlen (rc_held s);
  hs_capacity : 0 ≤ de_capacity u;
  hs_ptr : match de_ptr u with
           | None => de_capacity u = 0 ∧ rc_held s = []
           | Some p => zlen p = de_capacity u ∧ sub p 0 (zlen (rc_held s)) = rc_held s ∧
                       zlen (rc_held s) ≤ zlen p
           end
}.

(** The length check of the unpacker, which adds to the bytes held so far. *)
Definition piece_fits (s : receiver) (f : fragment) : Prop :=
  match f with
  | Whole _ => True
  | Part _ _ piece _ => zlen (rc_held s) + zlen piece ≤ RTP_PAYLOAD_MAX_SIZE
  end.

Definition lost_flag (lost : bool) : Z := if lost then 256 else 0.

Section Unpack.
Context {V : Type} (realloc : Z → bool) (Halloc : ∀ n, realloc n = true).
Context (handler : rtp_payload_t V) (sent : V → list Z → Z → Z → V) `{!Takes handler sent}.
Implicit Types u : rtp_decode_h264_t V.

Lemma check_seq_ok u s seq : holds_state u s → is_uint 16 seq →
  holds_state (rtp_h264_check_seq u seq) (arrived s seq) ∧
  de_cbparam (rtp_h264_check_seq u seq) = de_cbparam u.
Proof.
  intros [Hfl Hfr Hsq Hsz Hcap Hptr] Hseq. unfold rtp_h264_check_seq, arrived.
  rewrite (u16_id seq) by done. destruct (rc_last s) as [l|] eqn:El.
  - destruct (Hsq l eq_refl) as [Hs Hl]. rewrite Hfl.
    assert ((-1 =? (if rc_lost s then 256 else 0)) = false) as -> by (by destruct (rc_lost s)).
    rewrite Hs. destruct (seq =? u16 (l + 1)) eqn:E; cbn [negb orb]; (split; [|done]).
    + constructor; cbn; try done. by intros ? [= <-].
    + constructor; cbn; try done; [by intros ? [= <-]|].
      destruct (de_ptr u) as [p|]; [|by destruct Hptr].
      split_and!; [by destruct Hptr|done|apply zlen_nonneg].
  - rewrite Hfl. cbn [Z.eqb Pos.eqb]. destruct (Hfr eq_refl) as [Hh Hlost].
    change (de_seq (de_set_seq ?x ?y)) with y.
    assert (u16 (u16 (seq - 1) + 1) = seq) as -> by (unfold u16, is_uint in *; dlia).
    rewrite Z.eqb_refl. cbn [negb orb]. split; [|done]. rewrite Hh, Hlost in *.
    constructor; cbn; try done. by intros ? [= <-].
Qed.

(** The two bytes in front of a fragment. *)
Lemma fu_bytes b0 start last : is_byte b0 →
  let ind := Z.lor (Z.land b0 224) 28 in let fh := fu_header b0 start last in
  Z.land ind 31 = 28 ∧ Z.lor (Z.land ind 224) (Z.land fh 31) = b0 ∧
  truth (Z.land fh 128) = start ∧ truth (Z.land fh 64) = last.
Proof.
  intros Hb ind fh.
  apply (byte_cases (λ b, let i := Z.lor (Z.land b 224) 28 in let f := fu_header b start last in
    bool_decide (Z.land i 31 = 28) && bool_decide (Z.lor (Z.land i 224) (Z.land f 31) = b) &&
    eqb (truth (Z.land f 128)) start && eqb (truth (Z.land f 64)) last)) in Hb;
    [|by destruct start, last; vm_compute].
  apply andb_prop in Hb as [[[H1 H2]%andb_prop H3]%andb_prop H4].
  apply bool_decide_eq_true in H1. apply bool_decide_eq_true in H2.
  by apply eqb_prop in H3; apply eqb_prop in H4.
Qed.

Lemma fu_alloc_ok u s (piece : list Z) : holds_state u s →
  ∃ u' p, rtp_h264_fu_alloc realloc u (2 + zlen piece) 2 = (0, u') ∧ holds_state u' s ∧
    de_cbparam u' = de_cbparam u ∧ de_ptr u' = Some p ∧ zlen (rc_held s) + zlen piece + 1 ≤ zlen p.
Proof.
  intros [Hfl Hfr Hsq Hsz Hcap Hptr]. unfold rtp_h264_fu_alloc. rewrite Halloc.
  pose proof (zlen_nonneg (rc_held s)). pose proof (zlen_nonneg piece).
  destruct (Z.gtb_spec (de_size u + (2 + zlen piece) - 2 + 1) (de_capacity u)) as [Hg|Hg].
  - cbn [negb]. set (sz := de_size u + (2 + zlen piece) + 1).
    set (n := sz + _). assert (sz + 128000 ≤ n) as Hn.
    { unfold n. destruct (Z.gtb_spec (Z.quot sz 4) 128000); lia. }
    assert (zlen (rc_held s) + zlen piece + 1 ≤ n) as Hroom by (unfold sz in Hn; lia). clearbody n.
    exists (de_set_block u (Some (realloc_cells n (default [] (de_ptr u)))) (de_size u) n),
      (realloc_cells n (default [] (de_ptr u))).
    split; [done|]. assert (zlen (realloc_cells n (default [] (de_ptr u))) = n) as Hz
      by (apply zlen_realloc_cells; lia).
    split; [|split_and!; [done|done|lia]].
    constructor; cbn; try done; [lia|]. split_and!; [done| |lia].
    destruct (de_ptr u) as [p|]; cbn [default].
    + destruct Hptr as (Hp & Hs & Hle). cbn. by rewrite sub_realloc_cells by lia.
    + destruct Hptr as [_ ->]. done.
  - destruct (de_ptr u) as [p|] eqn:Ep; [|destruct Hptr; lia]. destruct Hptr as (Hp & Hs & Hle).
    exists u, p. split_and!; try done; [|lia]. constructor; try done. by rewrite Ep.
Qed.

Lemma fu_store_ok u b0 b1 held piece p lost last seq ts :
  held ≠ [] → de_flags u = lost_flag lost → de_seq u = seq → is_uint 16 seq → de_size u = zlen held →
  de_capacity u = zlen p → de_ptr u = Some p → sub p 0 (zlen held) = held →
  zlen held + zlen piece ≤ zlen p → truth (Z.land b1 64) = last →
  ∃ r u', rtp_h264_fu_store handler u ([b0; b1] ++ piece) (2 + zlen piece) ts 2 b1 = Ok (r, u') ∧
    holds_state u' (if last then Receiver (Some seq) [] false else Receiver (Some seq) (held ++ piece) lost) ∧
    de_cbparam u' = if last then sent (de_cbparam u) (held ++ piece) ts (lost_flag lost) else de_cbparam u.
Proof.
  intros Hne Hfl Hsq Hseq Hsz Hcap Hptr Hsub Hle Hlast. unfold rtp_h264_fu_store.
  pose proof (zlen_nonneg piece). pose proof (zlen_nonneg held).
  assert (0 < zlen held) as Hh by by apply zlen_pos.
  set (u1 := if _ >? 2 then _ else _).
  assert (u1 = Ok (de_set_block (de_set_timestamp u ts) (Some (put p (zlen held) piece))
    (zlen held + zlen piece) (zlen p))) as ->.
  { unfold u1. clear u1. destruct (Z.gtb_spec (2 + zlen piece) 2).
    - rewrite slice_ok by (rewrite ?zlen_app; change (zlen [b0; b1]) with 2; lia).
      run. rewrite (sub_app_r [b0; b1]) by done.
      replace (2 - zlen [b0; b1]) with 0 by done. replace (2 + zlen piece - 2) with (zlen piece) by lia.
      rewrite sub_full. cbn [de_ptr de_set_timestamp de_size]. rewrite Hptr, Hsz, st_ok by lia. run.
      cbn [de_set_timestamp de_capacity]. by rewrite Hcap.
    - assert (piece = []) as -> by (destruct piece; [done|]; rewrite zlen_cons in *; pose proof (zlen_nonneg piece); lia).
      f_equal. unfold de_set_block, de_set_timestamp. cbn. rewrite Hsz, Hcap, Z.add_0_r. do 2 f_equal.
      rewrite Hptr. f_equal. unfold put. cbn [app length]. by rewrite Nat.add_0_r, take_drop. }
  run. rewrite Hlast. cbn [de_set_block de_set_timestamp de_size de_ptr].
  assert (sub (put p (zlen held) piece) 0 (zlen held + zlen piece) = held ++ piece) as Hb.
  { rewrite (sub_sub_app _ 0 (zlen held) (zlen piece)) by (rewrite ?zlen_put by lia; lia).
    rewrite Z.add_0_l, sub_put by lia. f_equal.
    rewrite sub_put_before by lia. done. }
  assert (zlen (put p (zlen held) piece) = zlen p) as Hz by (rewrite zlen_put; lia).
  pose proof (zlen_nonneg p). destruct last.
  - destruct (Z.gtb_spec (zlen held + zlen piece) 0); [|lia]. unfold frame_bytes.
    rewrite slice_ok by lia. run. rewrite Hb. unfold de_deliver. rewrite takes. cbn.
    eexists _, _. split; [reflexivity|]. cbn. rewrite Hfl. split; [|done].
    constructor; cbn; try done; [by intros ? [= <-]|]. rewrite Hz. split_and!; [done|done|].
    change (zlen (@nil Z)) with 0. lia.
  - eexists _, _. split; [reflexivity|]. split; [|done].
    constructor; cbn; try done; [by intros ? [= <-]|by rewrite zlen_app|].
    rewrite zlen_app, Hz, Hb. split_and!; [done|done|lia].
Qed.

Definition delivered (v : V) (ts : Z) (out : option (list Z * bool)) : V :=
  match out with Some (nalu, lost) => sent v nalu ts (lost_flag lost) | None => v end.

Lemma fu_step u s seq h b0 before piece last : let f := Part b0 before piece last in
  holds_state u s → rc_last s = Some seq → fragment_ok f → piece_fits s f →
  ∃ r u', rtp_h264_unpack_fu realloc handler u (fragment_payload f) (zlen (fragment_payload f))
            (rtp_timestamp h) false = Ok (r, u') ∧
    holds_state u' (take_fragment s f).1 ∧
    de_cbparam u' = delivered (de_cbparam u) (rtp_timestamp h) (take_fragment s f).2.
Proof.
  intros f Hs Hlast [Hfb (Hb0 & Hpiece & Hmax & _)] Hfit.
  destruct (fu_bytes b0 (is_nil before) last Hb0) as (_ & Hor & Hstart & Hend).
  subst f. cbn [fragment_payload take_fragment piece_fits] in *.
  set (ind := Z.lor (Z.land b0 224) 28) in *. set (fh := fu_header b0 (is_nil before) last) in *.
  pose proof Hs as [Hfl _ Hsq Hsz _ _]. destruct (Hsq seq Hlast) as [Hseq Hu]. rewrite Hlast in Hfl.
  unfold rtp_h264_unpack_fu. rewrite zlen_app. change (zlen [ind; fh]) with 2.
  destruct (Z.ltb_spec (2 + zlen piece) 2); [lia|].
  rewrite int_ok by (rewrite Hsz; pose proof (zlen_nonneg (rc_held s)); unfold RTP_PAYLOAD_MAX_SIZE in *; lia). run.
  destruct (Z.gtb_spec (de_size u + (2 + zlen piece) - 2) RTP_PAYLOAD_MAX_SIZE); [lia|].
  destruct (fu_alloc_ok u s piece Hs) as (u1 & p & E & Hs1 & Hcb & Hp & Hroom). rewrite E.
  pose proof Hs1 as [Hfl1 _ Hsq1 Hsz1 _ Hptr1]. rewrite Hp in Hptr1. rewrite Hlast in Hfl1.
  destruct Hptr1 as (Hcap1 & Hsub1 & Hle1). destruct (Hsq1 seq Hlast) as [Hseq1 _].
  change (negb (0 =? 0)) with false. cbv iota. rewrite (ld_lookup _ 1 fh) by done. run. rewrite Hstart.
  pose proof (zlen_nonneg (rc_held s)).
  destruct (is_nil before) eqn:Eb.
  - rewrite (ld_lookup _ 0 ind) by done. run. rewrite Hp, Hor, st_ok by (change (zlen [b0]) with 1; lia).
    run. rewrite andb_false_r.
    edestruct (fu_store_ok (de_set_block u1 (Some (put p 0 [b0])) 1 (de_capacity u1)) ind fh [b0] piece
      (put p 0 [b0]) (rc_lost s) last seq (rtp_timestamp h)) as (r & u' & E' & Hs' & Hcb');
      try done; cbn [de_set_block de_flags de_seq de_size de_capacity de_ptr].
    + rewrite zlen_put; change (zlen [b0]) with 1; lia.
    + rewrite zlen_put; change (zlen [b0]) with 1; lia.
    + exists r, u'. split; [exact E'|]. rewrite Hlast. destruct last; (split; [done|]); rewrite Hcb'; cbn; by rewrite Hcb.
  - destruct (rc_held s) as [|x held] eqn:Eh.
    + rewrite Hsz1. change (zlen (@nil Z)) with 0. cbn [is_nil negb andb].
      eexists _, _. split; [reflexivity|]. split; [|done].
      constructor; cbn; try done; [by rewrite Hlast|by rewrite Hlast|lia|].
      rewrite Hp. split_and!; [done|done|]. change (zlen (@nil Z)) with 0. lia.
    + rewrite <- Eh in *. assert (rc_held s ≠ []) as Hne by by rewrite Eh.
      assert (is_nil (rc_held s) = false) as -> by by rewrite Eh. cbn [andb].
      rewrite Hsz1. pose proof (zlen_pos _ Hne). destruct (Z.eqb_spec 0 (zlen (rc_held s))); [lia|].
      destruct (fu_store_ok u1 ind fh (rc_held s) piece p (rc_lost s) last seq (rtp_timestamp h))
        as (r & u' & E' & Hs' & Hcb'); try done; [lia|].
      exists r, u'. split; [exact E'|]. rewrite Hlast. destruct last; (split; [done|]); rewrite Hcb'; cbn; by rewrite Hcb.
Qed.

Lemma payload_step u s seq h f : holds_state u s → rc_last s = Some seq → fragment_ok f → piece_fits s f →
  ∃ r u', rtp_h264_unpack_payload realloc handler u (plain_packet h (fragment_payload f)) = Ok (r, u') ∧
    holds_state u' (take_fragment s f).1 ∧
    de_cbparam u' = delivered (de_cbparam u) (rtp_timestamp h) (take_fragment s f).2.
Proof.
  intros Hs Hlast Hok Hfit. unfold rtp_h264_unpack_payload. cbn [plain_packet payload payloadlen rtp].
  destruct f as [nalu|b0 before piece last].
  - destruct Hok as [_ [Hb Hl Ht]]. cbn [fragment_payload]. unfold nalu_type in Ht.
    rewrite ld_ok by lia. run. change (Z.to_nat 0) with 0%nat. set (t := Z.land _ 31) in *.
    repeat match goal with |- context [t =? ?c] => destruct (Z.eqb_spec t c); [lia|] end. cbn [orb].
    rewrite slice_ok by lia. run. rewrite sub_full. unfold de_deliver. rewrite takes.
    destruct Hs as [Hfl _ Hsq Hsz Hcap Hptr]. rewrite Hlast in Hfl.
    eexists _, _. split; [reflexivity|]. cbn. rewrite Hfl. split; [|done].
    constructor; cbn; rewrite ?Hlast; try done.
    + intros l [= <-]. by apply Hsq.
    + destruct (de_ptr u) as [p|]; [|by destruct Hptr].
      split_and!; [by destruct Hptr|done|apply zlen_nonneg].
  - pose proof Hok as [_ (Hb0 & _)]. destruct (fu_bytes b0 (is_nil before) last Hb0) as (Hty & _).
    cbn [fragment_payload]. rewrite (ld_lookup _ 0 (Z.lor (Z.land b0 224) 28)) by done. run. rewrite Hty.
    change ((28 =? 0) || (28 =? 31)) with false. eval_tests.
    by apply (fu_step u s seq h b0 before piece last).
Qed.

(** The unpacker does what the receiver does. *)
Lemma unpack_step u s h f : holds_state u s → plain h → fragment_ok f →
  piece_fits (arrived s (rtp_seq h)) f →
  ∃ r u', rtp_h264_unpack_input realloc handler u (plain_bytes h (fragment_payload f))
            (zlen (plain_bytes h (fragment_payload f))) = Ok (r, u') ∧
    holds_state u' (accept s (rtp_seq h) f).1 ∧
    de_cbparam u' = delivered (de_cbparam u) (rtp_timestamp h) (accept s (rtp_seq h) f).2.
Proof.
  intros Hs Hh Hok Hfit. pose proof (proj1 Hok) as Hb. unfold rtp_h264_unpack_input.
  rewrite zlen_plain_bytes, deserialize_plain by done. cbn [plain_packet payloadlen rtp].
  destruct (Z.ltb_spec (zlen (fragment_payload f)) 1) as [Hl|_].
  { destruct Hok as [_ Hok]. destruct f as [nalu|b0 before piece last]; cbn [fragment_payload] in Hl.
    - destruct Hok. lia.
    - destruct Hok as (_ & Hp & _). rewrite zlen_app, !zlen_cons in Hl. pose proof (zlen_nonneg (@nil Z)). lia. }
  destruct Hh as [[]]. destruct (check_seq_ok u s (rtp_seq h)) as [Hs1 Hcb]; [done..|].
  rewrite <- Hcb. by apply payload_step with (rtp_seq h).
Qed.
End Unpack.

(** * Streams of packets *)

Abbreviation packet_of := (rtp_header_t * fragment)%type.

(** Consecutive packets, the first of them number [n]. *)
Fixpoint in_order (n : Z) (l : list packet_of) : Prop :=
  match l with
  | [] => True
  | (h, f) :: l => plain h ∧ rtp_seq h = u16 n ∧ in_order (n + 1) l
  end.

(** The units the packets complete, with their times. *)
Definition timed_unit (p : packet_of) : option (list Z * Z) := (., rtp_timestamp p.1) <$> completes p.2.
Definition units_of (l : list packet_of) : list (list Z * Z) := omap timed_unit l.

(** What the receiver delivers: units, times, and marks of loss. *)
Fixpoint receive (s : receiver) (l : list packet_of) : list (list Z * Z * bool) :=
  match l with
  | [] => []
  | (h, f) :: l =>
      let '(s', out) := accept s (rtp_seq h) f in
      match out with Some (nalu, lost) => [(nalu, rtp_timestamp h, lost)] | None => [] end ++ receive s' l
  end.

(** What is delivered of what was sent: after the first delivery, a unit is
    missing only where the next one is marked; [miss] before that. *)
Definition marked {A} (outs : list (A * bool)) : Prop :=
  match outs with (_, false) :: _ => False | _ => True end.
Inductive delivers {A} : bool → list A → list (A * bool) → Prop :=
  | delivers_end miss l : delivers miss l []
  | delivers_unit miss x lost l outs : delivers false l outs → delivers miss (x :: l) ((x, lost) :: outs)
  | delivers_miss miss x l outs : miss = true ∨ marked outs → delivers miss l outs →
      delivers miss (x :: l) outs.

Lemma delivers_sublist {A} miss (l : list A) outs : delivers miss l outs → outs.*1 `sublist_of` l.
Proof.
  induction 1 as [|miss x lost l outs _ IH|miss x l outs _ _ IH]; cbn.
  - apply sublist_nil_l.
  - by apply sublist_skip.
  - by apply sublist_cons.
Qed.

Lemma delivers_weaken {A} (l : list A) outs : delivers false l outs → ∀ miss, delivers miss l outs.
Proof.
  intros H. remember false as m. induction H as [|m x lost l outs H IH|m x l outs Hm H IH]; intros miss'.
  - constructor.
  - by constructor.
  - constructor; [|by apply IH]. right. by destruct Hm as [->|].
Qed.

(** The receiver before packet [n0], when the [n] packets before it are lost and
    [prev] is the fragment before it. *)
Record synced (s : receiver) (n0 n : Z) (prev : option fragment) : Prop := {
  sy_last : match rc_last s with Some l => l = u16 (n0 - 1 - n) | None => rc_held s = [] end;
  sy_lost : 0 ≤ n < 65536;
  sy_held : n = 0 → rc_held s = held_of prev ∨
    rc_held s = [] ∧ (rc_last s = None ∨ rc_lost s = true)
}.

Lemma synced_miss s n0 n prev prev' : synced s n0 n prev → n + 1 < 65536 → synced s (n0 + 1) (n + 1) prev'.
Proof.
  intros [Hl Hn Hh] Hlt. constructor; [|lia|lia].
  destruct (rc_last s); [|done]. by replace (n0 + 1 - 1 - (n + 1)) with (n0 - 1 - n) by lia.
Qed.

(** The state in which the packet is looked at. *)
Lemma arrived_synced s n0 n prev : synced s n0 n prev → let s' := arrived s (u16 n0) in
  rc_last s' = Some (u16 n0) ∧
  (rc_held s' = held_of prev ∨ rc_held s' = [] ∧ (rc_last s = None ∨ rc_lost s' = true)) ∧
  (rc_last s ≠ None → 0 < n ∨ rc_lost s = true → rc_lost s' = true).
Proof.
  intros [Hl Hn Hh]. unfold arrived. destruct (rc_last s) as [l|]; cbn.
  - rewrite Hl. replace (u16 n0 =? u16 (u16 (n0 - 1 - n) + 1)) with (n =? 0) by (by rewrite seq_gap).
    destruct (Z.eqb_spec n 0) as [->|]; cbn; (split; [done|split]).
    + destruct (Hh eq_refl) as [H|[H [?|?]]]; [by left|done|right; auto].
    + intros _ [?|?]; [lia|done].
    + right. auto.
    + done.
  - rewrite Hl in *. split_and!; [done|right; auto|done].
Qed.

(** One fragment: it completes a unit that was sent, or the loss is known. *)
Lemma take_synced s prev seq f : rc_last s = Some seq → follows prev f →
  rc_held s = held_of prev ∨ rc_held s = [] →
  let '(s', out) := take_fragment s f in
  rc_last s' = Some seq ∧
  match out with
  | Some (nalu, lost) => completes f = Some nalu ∧ lost = rc_lost s ∧ rc_held s' = held_of (Some f)
  | None => (completes f = None ∧ rc_held s' = held_of (Some f) ∧ rc_lost s' = rc_lost s) ∨
            (rc_held s' = [] ∧ rc_lost s' = true ∧ rc_held s ≠ held_of prev)
  end.
Proof.
  intros Hl Hf Hh. destruct f as [nalu|b0 before piece last]; cbn; [done|].
  destruct before as [|x before].
  - rewrite andb_false_r. destruct last; cbn; [done|]. split; [done|]. by left.
  - red in Hf. rewrite Hf in Hh. cbn [is_nil negb]. rewrite andb_true_r.
    destruct Hh as [-> | ->]; cbn.
    + destruct last; cbn; [done|]. split; [done|]. by left.
    + split; [done|]. right. by rewrite Hf.
Qed.

(** A loss that is known is marked on the next delivery. *)
Lemma take_lost s f : rc_lost s = true →
  match take_fragment s f with (_, Some (_, lost)) => lost = true | (s', None) => rc_lost s' = true end.
Proof. intros Hs. destruct f as [|? ? ? []]; cbn; [done|..]; by destruct (is_nil _ && _). Qed.

Lemma receive_lost_step k : ∀ s h f, rc_lost (arrived s (rtp_seq h)) = true → marked (receive s ((h, f) :: k)).
Proof.
  induction k as [|[h' f'] k IH]; intros s h f Hs; cbn [receive]; unfold accept at 1;
    pose proof (take_lost _ f Hs) as Ht; destruct (take_fragment _ f) as [s' [[nalu lost]|]]; [by rewrite Ht|done|by rewrite Ht|].
  apply IH. cbn [arrived rc_lost]. rewrite Ht. apply orb_true_r.
Qed.

Lemma receive_gap n l k : arrives n l k → ∀ s n0, in_order n0 l →
  rc_last s = Some (u16 (n0 - 1 - n)) → 0 < n < 65536 → marked (receive s k).
Proof.
  induction 1 as [n l|n [h f] l k _ _|n [h f] l k Hlt _ IH]; intros s n0 Ho Hl Hn; [done| |].
  - destruct Ho as (_ & Hseq & _). apply receive_lost_step. unfold arrived. rewrite Hl, Hseq, seq_gap by lia.
    cbn. by destruct (Z.eqb_spec n 0); [lia|].
  - destruct Ho as (_ & _ & Ho). apply IH with (n0 + 1); [done| |lia]. rewrite Hl. do 2 f_equal. lia.
Qed.

Lemma receive_marked s k : rc_lost s = true → marked (receive s k).
Proof.
  destruct k as [|[h f] k]; intros Hs; [done|]. apply receive_lost_step. cbn. by rewrite Hs, orb_true_r.
Qed.

Lemma units_of_cons h f (l : list packet_of) : units_of ((h, f) :: l) =
  match completes f with Some nalu => (nalu, rtp_timestamp h) :: units_of l | None => units_of l end.
Proof. unfold units_of, timed_unit. cbn. by destruct (completes f). Qed.

(** Whatever is lost, what is delivered was sent, in order, and what is missing
    is marked. *)
Lemma receive_delivers n l k : arrives n l k → ∀ s n0 prev miss, in_order n0 l → chained prev l.*2 →
  synced s n0 n prev → (rc_last s = None → miss = true) → delivers miss (units_of l) (receive s k).
Proof.
  induction 1 as [n l|n [h f] l k _ IH|n [h f] l k Hlt Ha IH]; intros s n0 prev miss Ho Hch Hs Hm.
  - constructor.
  - destruct Ho as (_ & Hseq & Ho). destruct Hch as [Hf Hch]. rewrite units_of_cons. cbn [receive].
    unfold accept. rewrite Hseq. destruct (arrived_synced s n0 n prev Hs) as (Hl' & Hh' & _).
    assert (rc_held (arrived s (u16 n0)) = held_of prev ∨ rc_held (arrived s (u16 n0)) = []) as Hh by naive_solver.
    pose proof (take_synced _ prev _ f Hl' Hf Hh) as Ht.
    destruct (take_fragment (arrived s (u16 n0)) f) as [s' out]. destruct Ht as [Hls Ht].
    assert (∀ p, rc_held s' = held_of p ∨ rc_held s' = [] ∧ rc_lost s' = true → synced s' (n0 + 1) 0 p) as Hs'.
    { intros p Hp. constructor; [|lia|naive_solver]. rewrite Hls. f_equal. lia. }
    assert (rc_last s' = None → False) as Hnone by by rewrite Hls.
    destruct out as [[nalu lost]|]; cbn [app].
    + destruct Ht as (-> & _ & Hheld). constructor. eapply IH; [done..|by apply Hs'; left|done].
    + destruct Ht as [(-> & Hheld & _)|(Hheld & Hlost & _)].
      * eapply IH; [done..|by apply Hs'; left|done].
      * assert (delivers miss (units_of l) (receive s' k)) as Hd by (eapply IH; [done..|apply Hs'; auto|done]).
        destruct (completes f); [|done]. constructor; [|done]. right. by apply receive_marked.
  - destruct Ho as (_ & _ & Ho). destruct Hch as [_ Hch].
    assert (delivers miss (units_of l) (receive s k)) as Hd
      by (eapply IH; [done..|by apply synced_miss with prev|done]).
    rewrite units_of_cons. destruct (completes f); [|done]. constructor; [|done].
    destruct (rc_last s) as [x|] eqn:E; [right|left; by apply Hm].
    apply receive_gap with (n + 1) l (n0 + 1); [done..| |]; destruct Hs as [Hl ? ?]; [|lia].
    rewrite E in *. rewrite Hl. do 2 f_equal. lia.
Qed.

(** Without losses everything is delivered, unmarked. *)
Lemma receive_all l : ∀ s n0 prev, in_order n0 l → chained prev l.*2 → rc_lost s = false →
  rc_held s = held_of prev → match rc_last s with Some x => x = u16 (n0 - 1) | None => True end →
  receive s l = map (., false) (units_of l).
Proof.
  induction l as [|[h f] l IH]; intros s n0 prev Ho Hch Hlost Hh Hl; [done|].
  destruct Ho as (_ & Hseq & Ho). destruct Hch as [Hf Hch]. rewrite units_of_cons. cbn [receive].
  unfold accept. rewrite Hseq.
  assert (arrived s (u16 n0) = Receiver (Some (u16 n0)) (held_of prev) false) as ->.
  { unfold arrived. rewrite Hlost, Hh. destruct (rc_last s) as [x|]; [|done].
    subst x. replace (n0 - 1) with (n0 - 1 - 0) by lia. by rewrite seq_gap. }
  pose proof (take_synced (Receiver (Some (u16 n0)) (held_of prev) false) prev _ f eq_refl Hf (or_introl eq_refl)) as Ht.
  destruct (take_fragment _ f) as [s' out] eqn:E. destruct Ht as [Hls Ht].
  assert (rc_last s' = Some (u16 (n0 + 1 - 1))) as Hls' by (rewrite Hls; do 2 f_equal; lia).
  destruct out as [[nalu lost]|]; cbn [app].
  - destruct Ht as (-> & -> & Hheld). cbn [map]. f_equal.
    apply IH with (n0 + 1) (Some f); try done; [|by rewrite Hls'].
    destruct f as [|? ? ? []]; cbn in E; [by injection E as <-| |]; destruct (is_nil _ && _); by simplify_eq.
  - destruct Ht as [(-> & Hheld & Hlost')|(_ & _ & Hne)]; [|done].
    apply IH with (n0 + 1) (Some f); try done. by rewrite Hls'.
Qed.

(** * The unpacker on a stream *)

Lemma accept_synced s n0 n prev f : synced s n0 n prev → follows prev f → fragment_ok f →
  synced (accept s (u16 n0) f).1 (n0 + 1) 0 (Some f) ∧ piece_fits (arrived s (u16 n0)) f.
Proof.
  intros Hs Hf [_ Hok]. destruct (arrived_synced s n0 n prev Hs) as (Hl & Hh & _).
  assert (rc_held (arrived s (u16 n0)) = held_of prev ∨ rc_held (arrived s (u16 n0)) = []) as Hh' by naive_solver.
  pose proof (take_synced _ prev _ f Hl Hf Hh') as Ht. unfold accept.
  destruct (take_fragment _ f) as [s' out]. destruct Ht as [Hls Ht]. cbn. split.
  - constructor; [by rewrite Hls; f_equal; lia|lia|]. intros _. rewrite Hls.
    destruct out as [[nalu lost]|]; naive_solver.
  - destruct f as [nalu|b0 before piece last]; cbn; [done|]. destruct Hok as (_ & Hp & Hmax & _). red in Hf.
    pose proof (zlen_nonneg before).
    assert (zlen (rc_held (arrived s (u16 n0))) ≤ 1 + zlen before); [|cbn in *; lia].
    destruct Hh' as [-> | ->]; [rewrite Hf; destruct before; rewrite ?zlen_cons|]; change (zlen (@nil Z)) with 0; lia.
Qed.

Section Stream.
Context {V : Type} (realloc : Z → bool) (Halloc : ∀ n, realloc n = true).
Context (handler : rtp_payload_t V) (sent : V → list Z → Z → Z → V) `{!Takes handler sent}.

(** The application passes every packet to the unpacker. *)
Fixpoint unpack_all (u : rtp_decode_h264_t V) (packets : list (list Z)) : outcome (rtp_decode_h264_t V) :=
  match packets with
  | [] => Ok u
  | p :: packets =>
      '(_, u) ← rtp_h264_unpack_input realloc handler u p (zlen p);
      unpack_all u packets
  end.

Definition wire (p : packet_of) : list Z := plain_bytes p.1 (fragment_payload p.2).

Lemma unpack_all_receive n l k : arrives n l k → ∀ u s n0 prev, holds_state u s → in_order n0 l →
  chained prev l.*2 → Forall fragment_ok l.*2 → synced s n0 n prev →
  ∃ u', unpack_all u (map wire k) = Ok u' ∧
    de_cbparam u' = foldl (λ v '(nalu, ts, lost), sent v nalu ts (lost_flag lost)) (de_cbparam u) (receive s k).
Proof.
  induction 1 as [n l|n [h f] l k _ IH|n [h f] l k Hlt Ha IH]; intros u s n0 prev Hu Ho Hch Hok Hs.
  - by exists u.
  - destruct Ho as (Hh & Hseq & Ho). destruct Hch as [Hf Hch]. inversion Hok as [|? ? Hf' Hok']; subst.
    destruct (accept_synced s n0 n prev f Hs Hf Hf') as [Hs' Hfit]. rewrite <- Hseq in Hs', Hfit.
    destruct (unpack_step realloc Halloc handler sent u s h f Hu Hh Hf' Hfit) as (r & u1 & E & Hu1 & Hcb).
    destruct (IH u1 _ (n0 + 1) (Some f) Hu1 Ho Hch Hok' Hs') as (u' & E' & Hcb').
    exists u'. cbn [map unpack_all receive]. change (wire (h, f)) with (plain_bytes h (fragment_payload f)). rewrite E. run.
    split; [done|]. rewrite Hcb', Hcb. destruct (accept s (rtp_seq h) f) as [s1 [[nalu lost]|]]; done.
  - destruct Ho as (_ & _ & Ho). destruct Hch as [_ Hch]. inversion Hok; subst.
    eapply IH; [done..|by apply synced_miss with prev].
Qed.
End Stream.

Definition fresh_receiver : receiver := Receiver None [] false.
Lemma fresh_synced n0 prev : synced fresh_receiver n0 0 prev.
Proof. constructor; cbn; try done. auto. Qed.

Lemma fresh_holds {V} (v : V) : holds_state (rtp_h264_unpack_create v) fresh_receiver.
Proof. by constructor. Qed.
