(* ===== verification/RtpH264Stream.v ===== *)
(** H.264 over RTP from stream to stream: the splitter of rtp-h264-bitstream.c
    finds the units of a byte stream, the packer sends them as fragments, and
    the unpacker delivers them. *)
From S2P Require Import Prelude RtpPacket RtpPayload RtpH264 RtpH264Spec.

(** * Byte streams *)

(** Every unit behind a start code: [z] zeros and a one. *)
Definition start_code (z : nat) : list Z := replicate z 0 ++ [1].
Fixpoint annexb (l : list (nat * list Z)) : list Z :=
  match l with [] => [] | (z, nalu) :: l => start_code z ++ nalu ++ annexb l end.

(** No start code within the unit. *)
Fixpoint no_start (nalu : list Z) : bool :=
  match nalu with
  | b0 :: ((b1 :: b2 :: _) as rest) => negb ((b0 =? 0) && (b1 =? 0) && (b2 =? 1)) && no_start rest
  | _ => true
  end.

Record nal_ok (nalu : list Z) : Prop := {
  nal_nonempty : nalu ≠ [];
  nal_inside : no_start nalu = true;
  nal_end : nalu !!! pred (length nalu) ≠ 0
}.

(** A stream: its first start code has three zeros at least, the others two. *)
Definition stream_ok (l : list (nat * list Z)) : Prop :=
  match l with [] => False | (z, _) :: _ => (3 ≤ z)%nat end ∧
  Forall (λ p, (2 ≤ p.1)%nat ∧ nal_ok p.2) l.

(** * Searching start codes *)

Definition hit (m : list Z) (q : Z) : bool :=
  (m !!! Z.to_nat q =? 1) && (m !!! Z.to_nat (q - 1) =? 0) && (m !!! Z.to_nat (q - 2) =? 0).

Section Search.
Variables (m : list Z) (p bytes : Z).
Hypotheses (Hp : 0 ≤ p) (Hm : p + bytes ≤ zlen m).

Lemma startcode_step n i : 2 ≤ i → i + 1 < bytes →
  h264_startcode_from (S n) i m p bytes =
  if hit m (p + i) then Ok (Some (p + i + 1)) else h264_startcode_from n (i + 1) m p bytes.
Proof.
  intros Hi Hb. cbn [h264_startcode_from]. destruct (Z.ltb_spec (i + 1) bytes); [|lia].
  unfold hit. rewrite !ld_ok by lia. run. rewrite (Z.eqb_sym 1).
  destruct (_ =? 1); run; [|done]. rewrite (Z.eqb_sym 0).
  destruct (_ =? 0); run; [|done]. by rewrite (Z.eqb_sym 0).
Qed.

Lemma startcode_found n : ∀ i q, 2 ≤ i → (∀ j, i ≤ j < q → hit m (p + j) = false) →
  hit m (p + q) = true → i ≤ q → q + 1 < bytes → q - i < Z.of_nat n →
  h264_startcode_from n i m p bytes = Ok (Some (p + q + 1)).
Proof.
  induction n as [|n IH]; intros i q Hi Hno Hhit Hq Hb Hn; [lia|]. rewrite startcode_step by lia.
  destruct (decide (i = q)) as [->|]; [by rewrite Hhit|]. rewrite Hno by lia.
  apply IH; try done; try lia. intros j Hj. apply Hno. lia.
Qed.

Lemma startcode_none n : ∀ i, 2 ≤ i → (∀ j, i ≤ j → j + 1 < bytes → hit m (p + j) = false) →
  h264_startcode_from n i m p bytes = Ok None.
Proof.
  induction n as [|n IH]; intros i Hi Hno; [done|].
  destruct (decide (i + 1 < bytes)).
  - rewrite startcode_step by lia. rewrite Hno by lia. apply IH; [lia|]. intros. apply Hno; lia.
  - cbn [h264_startcode_from]. by destruct (Z.ltb_spec (i + 1) bytes); [lia|].
Qed.

(** Trailing zeros. *)
Lemma trim_zeros_ok fuel : ∀ n k, 0 < k ≤ n → n ≤ bytes → n - k ≤ Z.of_nat fuel →
  (∀ j, k ≤ j < n → m !!! Z.to_nat (p + j) = 0) → m !!! Z.to_nat (p + k - 1) ≠ 0 →
  trim_zeros fuel m p n = Ok k.
Proof.
  induction fuel as [|fuel IH]; intros n k Hk Hn Hf Hz Hnz; cbn [trim_zeros].
  { f_equal. lia. }
  destruct (Z.gtb_spec n 0); [|lia]. rewrite ld_ok by lia. run.
  destruct (decide (n = k)) as [->|].
  - by destruct (Z.eqb_spec 0 (m !!! Z.to_nat (p + k - 1))).
  - replace (p + n - 1) with (p + (n - 1)) by lia. rewrite Hz by lia. cbn [Z.eqb].
    apply IH; try done; try lia. intros j Hj. apply Hz. lia.
Qed.
End Search.

Lemma no_start_spec nalu : ∀ i : nat, no_start nalu = true →
  nalu !! i = Some 0 → nalu !! S i = Some 0 → nalu !! S (S i) = Some 1 → False.
Proof.
  induction nalu as [|b0 nalu IH]; intros i Hn H0 H1 H2; [done|].
  destruct nalu as [|b1 nalu]; [by destruct i|]. destruct nalu as [|b2 nalu]; [by destruct i|].
  cbn [no_start] in Hn. apply andb_prop in Hn as [Hh Hn]. destruct i as [|i].
  - cbn in H0, H1, H2. by simplify_eq.
  - by apply (IH i).
Qed.

(** * Splitting *)

Lemma behind (pre k : list Z) (j : nat) : (pre ++ k) !!! Z.to_nat (zlen pre + Z.of_nat j) = k !!! j.
Proof.
  rewrite !list_lookup_total_alt. unfold zlen. rewrite lookup_app_r by lia. do 2 f_equal. lia.
Qed.

Section Unit.
Variables (pre nalu : list Z) (z : nat) (rest : list Z).
Hypothesis Hno : no_start nalu = true.
Hypothesis Hend : nalu = [] ∨ nalu !!! pred (length nalu) ≠ 0.
Let m := pre ++ nalu ++ start_code z ++ rest.
Let p := zlen pre.

Lemma unit_cell (j : nat) : m !!! Z.to_nat (p + Z.of_nat j) = (nalu ++ start_code z ++ rest) !!! j.
Proof.
  apply behind.
Qed.

Lemma unit_cell_in (j : nat) : (j < length nalu)%nat → m !!! Z.to_nat (p + Z.of_nat j) = nalu !!! j.
Proof. intros. by rewrite unit_cell, !list_lookup_total_alt, lookup_app_l. Qed.

Lemma unit_cell_zero (j : nat) : (length nalu ≤ j < length nalu + z)%nat →
  m !!! Z.to_nat (p + Z.of_nat j) = 0.
Proof.
  intros. rewrite unit_cell, list_lookup_total_alt, lookup_app_r by lia. unfold start_code.
  rewrite <- app_assoc, lookup_app_l by (rewrite length_replicate; lia).
  by rewrite lookup_replicate_2 by lia.
Qed.

Lemma unit_cell_one : m !!! Z.to_nat (p + Z.of_nat (length nalu + z)) = 1.
Proof.
  rewrite unit_cell, list_lookup_total_alt, lookup_app_r by lia. unfold start_code.
  rewrite <- app_assoc, lookup_app_r by (rewrite length_replicate; lia).
  rewrite length_replicate. by replace (length nalu + z - length nalu - z)%nat with 0%nat by lia.
Qed.

(** Before the start code that follows there is no other. *)
Lemma unit_no_hit j : 2 ≤ j < zlen nalu + Z.of_nat z → hit m (p + j) = false.
Proof.
  intros Hj. unfold hit, zlen in *. apply not_true_is_false. intros H.
  apply andb_prop in H as [[H1 H2]%andb_prop H3].
  apply Z.eqb_eq in H1. apply Z.eqb_eq in H2. apply Z.eqb_eq in H3.
  replace (p + j) with (p + Z.of_nat (Z.to_nat j)) in * by lia.
  destruct (decide (Z.to_nat j < length nalu)%nat) as [Hlt|Hge].
  - rewrite unit_cell_in in H1 by done.
    replace (p + Z.of_nat (Z.to_nat j) - 1) with (p + Z.of_nat (Z.to_nat j - 1)) in H2 by lia.
    replace (p + Z.of_nat (Z.to_nat j) - 2) with (p + Z.of_nat (Z.to_nat j - 2)) in H3 by lia.
    rewrite unit_cell_in in H2, H3 by lia.
    apply (no_start_spec nalu (Z.to_nat j - 2)); [done|..].
    + apply list_lookup_alt. split; [lia|done].
    + apply list_lookup_alt. split; [lia|]. rewrite <- H2. f_equal. lia.
    + apply list_lookup_alt. split; [lia|]. rewrite <- H1. f_equal. lia.
  - rewrite unit_cell_zero in H1 by lia. done.
Qed.

Lemma unit_next bytes : p + bytes = zlen m → (2 ≤ z)%nat → rest ≠ [] →
  h264_startcode m p bytes = Ok (Some (zlen (pre ++ nalu ++ start_code z))).
Proof.
  intros Hb Hz Hr. pose proof (zlen_pos _ Hr). unfold h264_startcode. pose proof (zlen_nonneg pre).
  assert (bytes = zlen nalu + Z.of_nat z + 1 + zlen rest) as Hbytes.
  { unfold m, start_code, p in Hb. rewrite !zlen_app in Hb. change (zlen [1]) with 1 in Hb.
    unfold zlen in *. rewrite length_replicate in Hb. lia. }
  pose proof (zlen_nonneg nalu).
  rewrite (startcode_found m p bytes (zlen_nonneg pre) ltac:(lia) _ 2 (zlen nalu + Z.of_nat z)); try lia.
  - do 2 f_equal. unfold start_code. rewrite !zlen_app. change (zlen [1]) with 1.
    unfold p, zlen. rewrite length_replicate. lia.
  - intros j Hj. apply unit_no_hit. lia.
  - replace (zlen nalu + Z.of_nat z) with (Z.of_nat (length nalu + z)) by (unfold zlen; lia).
    unfold hit. rewrite unit_cell_one.
    replace (p + Z.of_nat (length nalu + z) - 1) with (p + Z.of_nat (length nalu + z - 1)) by lia.
    replace (p + Z.of_nat (length nalu + z) - 2) with (p + Z.of_nat (length nalu + z - 2)) by lia.
    by rewrite !unit_cell_zero by lia.
Qed.

Lemma unit_trim : nalu ≠ [] → (2 ≤ z)%nat →
  let n := zlen nalu + Z.of_nat z - 2 in trim_zeros (Z.to_nat n) m p n = Ok (zlen nalu).
Proof.
  intros Hne Hz n. pose proof (zlen_pos _ Hne). destruct Hend as [|Hlast]; [done|].
  apply (trim_zeros_ok m p (zlen nalu + Z.of_nat z)); try lia; try apply zlen_nonneg.
  - unfold m, start_code. rewrite !zlen_app. pose proof (zlen_nonneg rest). change (zlen [1]) with 1.
    unfold p, zlen in *. rewrite length_replicate. lia.
  - intros j Hj. replace j with (Z.of_nat (Z.to_nat j)) by lia. apply unit_cell_zero. unfold zlen in *. lia.
  - replace (p + zlen nalu - 1) with (p + Z.of_nat (pred (length nalu))) by (unfold zlen in *; lia).
    rewrite unit_cell_in; [done|]. unfold zlen in *. lia.
Qed.
End Unit.

(** The last unit ends with the stream. *)
Lemma last_unit pre nalu : nal_ok nalu → let m := pre ++ nalu in let n := zlen nalu in
  h264_startcode m (zlen pre) n = Ok None ∧ trim_zeros (Z.to_nat n) m (zlen pre) n = Ok n.
Proof.
  intros [Hne Hno Hend] m n. pose proof (zlen_pos _ Hne). pose proof (zlen_nonneg pre).
  assert (∀ j : nat, (j < length nalu)%nat → m !!! Z.to_nat (zlen pre + Z.of_nat j) = nalu !!! j) as Hc.
  { intros j _. apply behind. }
  split.
  - apply startcode_none; [done|unfold m; rewrite zlen_app; lia|lia|]. intros j H1 H2.
    pose proof (unit_no_hit pre nalu 0 [] Hno j) as Hh. unfold hit in *.
    replace (zlen pre + j) with (zlen pre + Z.of_nat (Z.to_nat j)) in * by lia.
    replace (zlen pre + Z.of_nat (Z.to_nat j) - 1) with (zlen pre + Z.of_nat (Z.to_nat j - 1)) in * by lia.
    replace (zlen pre + Z.of_nat (Z.to_nat j) - 2) with (zlen pre + Z.of_nat (Z.to_nat j - 2)) in * by lia.
    unfold n, zlen in H2. rewrite !unit_cell_in in Hh by lia. rewrite !Hc by lia. apply Hh.
    unfold zlen. lia.
  - apply (trim_zeros_ok m (zlen pre) n); try lia; [unfold m; rewrite zlen_app; lia|].
    replace (zlen pre + n - 1) with (zlen pre + Z.of_nat (pred (length nalu))) by (unfold n, zlen in *; lia).
    rewrite Hc; [done|]. unfold n, zlen in *. lia.
Qed.

(** What the splitter is for: the handler gets every unit, the last one with
    the mark, until it fails. *)
Section Handler.
Context {A : Type} (handler : A → list Z → Z → Z → outcome (Z * A)).

Fixpoint run_units (a : A) (us : list (list Z)) : outcome (Z * A) :=
  match us with
  | [] => Ok (0, a)
  | nalu :: us =>
      '(r, a) ← handler a nalu (zlen nalu) (match us with [] => 1 | _ => 0 end);
      if 0 =? r then run_units a us else Ok (r, a)
  end.

Lemma annexb_nonempty z nalu l : annexb ((z, nalu) :: l) ≠ [].
Proof. cbn [annexb]. unfold start_code. intros E. apply (f_equal length) in E. rewrite !length_app in E. cbn in E. lia. Qed.

(** A stream begins with three zeros and a byte of at most 1. *)
Lemma annexb_head l : stream_ok l → ∃ b k, annexb l = 0 :: 0 :: 0 :: b :: k ∧ (b = 0 ∨ b = 1).
Proof.
  intros [Hfirst _]. destruct l as [|[z nalu] l]; [done|]. cbn [annexb]. unfold start_code.
  destruct z as [|[|[|z]]]; [lia..|]. rewrite <- app_assoc. cbn [replicate app].
  destruct z; cbn; eauto 6.
Qed.

Lemma annexb_loop_ok l : ∀ fuel a pre z nalu, Forall (λ p, (2 ≤ p.1)%nat ∧ nal_ok p.2) ((z, nalu) :: l) →
  (length l < fuel)%nat → let m := pre ++ nalu ++ annexb l in
  annexb_loop handler fuel a m (Some (zlen pre)) (zlen m) 0 = run_units a (nalu :: l.*2).
Proof.
  induction l as [|[z' nalu'] l IH]; intros fuel a pre z nalu Hok Hf m;
    (destruct fuel as [|fuel]; [cbn in Hf; lia|]);
    apply Forall_cons_1 in Hok as [[_ Hn] Hok]; cbn [snd] in Hn; pose proof Hn as [Hne Hno Hend];
    pose proof (zlen_pos _ Hne);
    cbn [annexb_loop run_units fmap list_fmap]; change (0 =? 0) with true; cbv iota.
  - unfold m. cbn [annexb]. rewrite app_nil_r. destruct (last_unit pre nalu Hn) as [E1 E2].
    replace (zlen (pre ++ nalu) - zlen pre) with (zlen nalu) by (rewrite zlen_app; lia).
    rewrite E1. run. rewrite E2. run. destruct (Z.gtb_spec (zlen nalu) 0); [|lia].
    pose proof (zlen_nonneg pre). rewrite slice_ok by (rewrite ?zlen_app; lia). run.
    rewrite (sub_app_r pre) by lia. rewrite Z.sub_diag, sub_full.
    destruct (handler a nalu (zlen nalu) 1) as [|e|[r a']]; run; try done.
    destruct fuel; cbn [annexb_loop]; destruct (Z.eqb_spec 0 r); by subst.
  - pose proof Hok as [[Hz Hn'] _]%Forall_cons_1. cbn [fst snd] in *.
    assert (nalu' ++ annexb l ≠ []) as Hr by (intros [E _]%app_nil; by destruct Hn').
    unfold m. cbn [annexb]. set (rest := nalu' ++ annexb l) in *.
    set (b := zlen (pre ++ nalu ++ start_code z' ++ rest) - zlen pre).
    assert (zlen pre + b = zlen (pre ++ nalu ++ start_code z' ++ rest)) as Hb by lia.
    rewrite (unit_next pre nalu z' rest Hno b Hb Hz Hr). run.
    assert (zlen (pre ++ nalu ++ start_code z') - zlen pre - 3 = zlen nalu + Z.of_nat z' - 2) as ->.
    { unfold start_code. rewrite !zlen_app. change (zlen [1]) with 1. unfold zlen. rewrite length_replicate. lia. }
    rewrite (unit_trim pre nalu z' rest) by (done || by right). run.
    destruct (Z.gtb_spec (zlen nalu) 0); [|lia].
    rewrite slice_ok by (rewrite ?zlen_app; pose proof (zlen_nonneg pre);
      pose proof (zlen_nonneg (start_code z')); pose proof (zlen_nonneg rest); lia). run.
    rewrite (sub_mid pre nalu) by done.
    destruct (handler a nalu (zlen nalu) 0) as [|e|[r a']]; run; try done.
    destruct (Z.eqb_spec 0 r) as [<-|]; [|destruct fuel; cbn [annexb_loop]; destruct (Z.eqb_spec 0 r); by subst].
    specialize (IH fuel a' (pre ++ nalu ++ start_code z') z' nalu' Hok). rewrite <- !app_assoc in IH.
    fold rest in IH. rewrite (IH ltac:(cbn in Hf; lia)). done.
Qed.

Lemma length_annexb l : (length l ≤ length (annexb l))%nat.
Proof.
  induction l as [|[z nalu] l IH]; [done|]. cbn [annexb length]. unfold start_code. rewrite !length_app. cbn. lia.
Qed.

Lemma annexb_units l a : stream_ok l →
  rtp_h264_annexb_nalu handler a (annexb l) (zlen (annexb l)) = run_units a l.*2.
Proof.
  intros [Hfirst Hok]. destruct l as [|[z nalu] l]; [done|].
  pose proof Hok as [[Hz Hn] _]%Forall_cons_1. cbn [fst snd] in *.
  unfold rtp_h264_annexb_nalu.
  assert (h264_bitstream_format (annexb ((z, nalu) :: l)) (zlen (annexb ((z, nalu) :: l))) = Ok 0) as ->.
  { destruct (annexb_head ((z, nalu) :: l)) as (b & k & -> & Hb); [by split|]. unfold h264_bitstream_format.
    pose proof (zlen_nonneg k). rewrite !zlen_cons. destruct (Z.ltb_spec (1 + (1 + (1 + (1 + zlen k)))) 4); [lia|].
    rewrite (ld_lookup _ 0 0), (ld_lookup _ 1 0), (ld_lookup _ 2 0), (ld_lookup _ 3 b) by done. run.
    by destruct Hb as [-> | ->]. }
  run. change (0 >? 0) with false. cbv iota.
  assert (nalu ++ annexb l ≠ []) as Hr by (intros [E _]%app_nil; by destruct Hn).
  assert (h264_startcode (annexb ((z, nalu) :: l)) 0 (zlen (annexb ((z, nalu) :: l))) =
    Ok (Some (zlen (start_code z)))) as ->.
  { apply (unit_next [] [] z (nalu ++ annexb l)); done || lia. }
  run. pose proof (annexb_loop_ok l (Z.to_nat (zlen (annexb ((z, nalu) :: l)))) a (start_code z) z nalu Hok) as Hl.
  apply Hl. pose proof (length_annexb ((z, nalu) :: l)) as Hle. cbn [length] in Hle. unfold zlen. lia.
Qed.
End Handler.

(** * Packing *)

(** The packets of the fragments: consecutive numbers, the marker on the end of
    the unit. *)
Definition marked_header (h : rtp_header_t) (mark : Z) (f : fragment) : rtp_header_t :=
  with_marker h (match completes f with Some _ => mark | None => 0 end).
Fixpoint stamp (h : rtp_header_t) (mark : Z) (fs : list fragment) : list packet_of :=
  match fs with
  | [] => []
  | f :: fs => (marked_header h mark f, f) :: stamp (next_seq (marked_header h mark f)) mark fs
  end.
Fixpoint stamp_end (h : rtp_header_t) (mark : Z) (fs : list fragment) : rtp_header_t :=
  match fs with
  | [] => h
  | f :: fs => stamp_end (next_seq (marked_header h mark f)) mark fs
  end.

Lemma stamp_fragments h mark fs : (stamp h mark fs).*2 = fs.
Proof. revert h. induction fs as [|f fs IH]; intros h; cbn; [done|]. by rewrite IH. Qed.

Lemma plain_marked h mark f : plain h → is_uint 1 mark → plain (marked_header h mark f).
Proof. intros. apply plain_marker; [done|]. by destruct (completes f). Qed.

Lemma stamp_timestamp mark fs : ∀ h, Forall (λ p, rtp_timestamp p.1 = rtp_timestamp h) (stamp h mark fs).
Proof. induction fs as [|f fs IH]; intros h; constructor; [done|]. exact (IH (next_seq (marked_header h mark f))). Qed.

Lemma stamp_in_order mark fs : ∀ h n, plain h → is_uint 1 mark → rtp_seq h = u16 n →
  in_order n (stamp h mark fs) ∧ plain (stamp_end h mark fs) ∧
  rtp_seq (stamp_end h mark fs) = u16 (n + zlen fs) ∧
  rtp_timestamp (stamp_end h mark fs) = rtp_timestamp h.
Proof.
  induction fs as [|f fs IH]; intros h n Hh Hm Hn.
  { cbn. change (zlen (@nil fragment)) with 0. by rewrite Z.add_0_r. }
  cbn [stamp stamp_end in_order].
  destruct (IH (next_seq (marked_header h mark f)) (n + 1)) as (H1 & H2 & H3 & H4);
    [by apply plain_next, plain_marked|done|cbn; rewrite Hn; unfold u16; dlia|].
  split_and!; try done; [by apply plain_marked|rewrite H3, zlen_cons; f_equal; lia].
Qed.

Section Packer.
Context {V : Type} (handler : rtp_payload_t V) (sent : V → list Z → Z → Z → V).
Context `{!Takes handler sent, !HasBlocks handler}.
Implicit Types packer : rtp_encode_h264_t V.

(** What the application has after the packets. *)
Definition send_all (v : V) (l : list packet_of) : V :=
  foldl (λ v p, sent v (wire p) (rtp_timestamp p.1) 0) v l.

(** A packer between two packets. *)
Record packer_at packer (h : rtp_header_t) (size : Z) (v : V) : Prop := {
  pa_pkt : ∃ p len, en_pkt packer = RtpPacket h (replicate 16 0) [] 0 0 p len;
  pa_size : en_size packer = size;
  pa_cbparam : en_cbparam packer = v
}.

Lemma pack_nalu_ok packer h size v nalu mark : packer_at packer h size v → plain h → is_uint 1 mark →
  bytes_ok nalu →
  ∃ packer', rtp_h264_pack_nalu handler packer nalu (zlen nalu) mark = Ok (0, packer') ∧
    packer_at packer' (stamp_end h mark [Whole nalu]) size (send_all v (stamp h mark [Whole nalu])).
Proof.
  intros [(p & len & Hp) Hsz Hv] Hh Hm Hb. unfold rtp_h264_pack_nalu.
  destruct (has_block (en_cbparam packer) (RTP_FIXED_HEADER + zlen nalu)) as (m & E & Hmz). rewrite E.
  rewrite Hp. unfold with_payload, with_rtp. cbn [rtp csrc extension extlen extprofile payload payloadlen].
  pose proof (zlen_nonneg nalu). specialize (Hmz ltac:(unfold RTP_FIXED_HEADER; lia)).
  pose proof (serialize_plain (with_marker h mark) nalu (plain_marker _ _ Hh Hm) m
    (RTP_FIXED_HEADER + zlen nalu) Hb eq_refl Hmz) as Es.
  unfold plain_packet in Es. rewrite Es. cbn [code_of]. run. rewrite Z.eqb_refl. cbn [negb].
  rewrite slice_ok by (rewrite ?zlen_plain_bytes; unfold RTP_FIXED_HEADER; lia). run.
  assert (RTP_FIXED_HEADER + zlen nalu = zlen (plain_bytes (with_marker h mark) nalu)) as -> by (by rewrite zlen_plain_bytes).
  rewrite sub_full, takes. eexists. split; [reflexivity|].
  constructor; cbn; [by eexists _, _|done|]. rewrite has_free, Hv. done.
Qed.

Lemma pack_fragment_ok packer h size v nalu ptr b0 before piece last mark : let f := Part b0 before piece last in
  packer_at packer h size v → plain h → is_uint 1 mark → holds nalu ptr piece → is_byte b0 → bytes_ok piece →
  ∃ packer', rtp_h264_pack_fragment handler packer nalu ptr (zlen piece) (Z.lor (Z.land b0 224) 28)
               (fu_header b0 (is_nil before) last) mark = Ok (false, 0, packer') ∧
    packer_at (en_next_seq packer') (next_seq (marked_header h mark f)) size (send_all v (stamp h mark [f])).
Proof.
  intros f [(p & len & Hp) Hsz Hv] Hh Hm Hpiece Hb0 Hb. unfold rtp_h264_pack_fragment.
  rewrite (holds_slice _ _ _ _ Hpiece) by done. run.
  destruct (fu_bytes b0 (is_nil before) last Hb0) as (_ & _ & _ & Hend).
  set (ind := Z.lor (Z.land b0 224) 28) in *. set (fh := fu_header b0 (is_nil before) last) in *.
  destruct (has_block (en_cbparam packer) (RTP_FIXED_HEADER + N_FU_HEADER + zlen piece)) as (m & E & Hmz). rewrite E.
  rewrite Hp, (Z.land_comm FU_END fh). change FU_END with 64. rewrite Hend.
  unfold with_payload, with_rtp. cbn [rtp csrc extension extlen extprofile payload payloadlen].
  pose proof (zlen_nonneg piece). change (RTP_FIXED_HEADER + N_FU_HEADER) with 14 in *. specialize (Hmz ltac:(lia)).
  set (h' := with_marker h (if last then mark else 0)).
  assert (plain h') as Hh' by (apply plain_marker; [done|by destruct last]).
  pose proof (serialize_header_plain h' piece Hh' m (14 + zlen piece) Hb ltac:(lia)) as Es.
  unfold plain_packet in Es. rewrite Es. cbn [code_of]. run. change (12 =? RTP_FIXED_HEADER) with true. cbn [negb].
  pose proof (zlen_wire_header h') as Hw. change N_FU_HEADER with 2.
  rewrite (st_ok (put m 0 _)) by (rewrite ?zlen_put by lia; change (zlen [ind; fh]) with 2; lia). run.
  rewrite put_app_at by lia.
  assert (zlen (rtp_wire_header h' ++ [ind; fh]) = 14) as Hw2 by (rewrite zlen_app, Hw; done).
  rewrite (st_ok (put m 0 _)) by (rewrite ?zlen_put by lia; lia). run.
  rewrite put_app_at, put_whole by (rewrite ?zlen_app in *; lia).
  assert (zlen ((rtp_wire_header h' ++ [ind; fh]) ++ piece) = 14 + zlen piece) as Hw3 by (rewrite zlen_app; lia).
  rewrite slice_ok by lia. run. change (12 + 2) with 14. rewrite <- Hw3, sub_full, takes, has_free, Hv.
  eexists. split; [reflexivity|].
  assert (h' = marked_header h mark f) as Eh by (unfold h', f, marked_header; by destruct last).
  constructor; [|done|].
  - eexists _, _. cbn. by rewrite Eh.
  - unfold send_all. cbn [stamp foldl en_next_seq en_with en_cbparam wire fst snd fragment_payload].
    unfold wire. cbn [fst snd]. rewrite <- Eh. unfold plain_bytes. by rewrite <- app_assoc.
Qed.

Lemma fu_header_bytes b0 : is_byte b0 →
  Z.lor (Z.land b0 31) FU_START = fu_header b0 true false ∧
  (∀ start, Z.land (fu_header b0 start false) 31 = fu_header b0 false false ∧
   Z.lor FU_END (Z.land (fu_header b0 start false) 31) = fu_header b0 false true).
Proof.
  intros Hb. apply (byte_cases (λ b,
    bool_decide (Z.lor (Z.land b 31) FU_START = fu_header b true false) &&
    forallb (λ start, bool_decide (Z.land (fu_header b start false) 31 = fu_header b false false) &&
      bool_decide (Z.lor FU_END (Z.land (fu_header b start false) 31) = fu_header b false true)) [true; false])) in Hb;
    [|by vm_compute].
  cbn [forallb] in Hb. rewrite !andb_true_iff, !bool_decide_eq_true in Hb.
  destruct Hb as (H1 & (H2 & H3) & (H4 & H5) & _). split; [done|]. by intros [].
Qed.

Lemma pack_fu_loop_ok fuel : ∀ fuel' packer h size v nalu ptr b0 before body mark,
  packer_at packer h size v → plain h → is_uint 1 mark → holds nalu ptr body → is_byte b0 → bytes_ok body →
  14 < size → 0 < zlen body ≤ Z.of_nat fuel → zlen body ≤ Z.of_nat fuel' → (before = [] → size - 14 < zlen body) →
  let fs := parts fuel' (size - 14) b0 before body in
  ∃ packer', rtp_h264_pack_fu_loop handler fuel packer nalu ptr (zlen body) (Z.lor (Z.land b0 224) 28)
               (fu_header b0 (is_nil before) false) mark 0 = Ok (0, packer') ∧
    packer_at packer' (stamp_end h mark fs) size (send_all v (stamp h mark fs)).
Proof.
  induction fuel as [|fuel IH]; intros fuel' packer h size v nalu ptr b0 before body mark Hpk Hh Hm Hbody Hb0 Hb Hs Hl Hl' Hfirst;
    [lia|]. destruct fuel' as [|fuel']; [lia|].
  destruct (fu_header_bytes b0 Hb0) as (_ & Hfh). destruct (Hfh (is_nil before)) as [Hnext Hlast].
  cbn [rtp_h264_pack_fu_loop parts]. change (0 =? 0) with true. destruct (Z.gtb_spec (zlen body) 0); [|lia]. cbn [andb].
  pose proof Hpk as [_ Hsz _]. rewrite Hsz, Hlast. change RTP_FIXED_HEADER with 12. change N_FU_HEADER with 2.
  replace (zlen body + 12 <=? size - 2) with (zlen body <=? size - 14)
    by (destruct (Z.leb_spec (zlen body) (size - 14)), (Z.leb_spec (zlen body + 12) (size - 2)); lia).
  destruct (Z.leb_spec (zlen body) (size - 14)) as [Hle|Hgt].
  - destruct before as [|x before]; [specialize (Hfirst eq_refl); lia|].
    destruct (pack_fragment_ok packer h size v nalu ptr b0 (x :: before) body true mark Hpk Hh Hm Hbody Hb0 Hb)
      as (p' & E & Hp'). cbn [is_nil] in E. rewrite E. run. rewrite Z.sub_diag.
    exists (en_next_seq p'). split; [by destruct fuel|done].
  - replace (size - 12 - 2) with (size - 14) by lia.
    assert (Hbody' := Hbody). rewrite <- (drop_sub body (size - 14)) in Hbody' by lia.
    rewrite holds_app in Hbody'. destruct Hbody' as [H1 H2].
    assert (zlen (sub body 0 (size - 14)) = size - 14) as Hz by (rewrite zlen_sub_le by lia; lia).
    destruct (pack_fragment_ok packer h size v nalu ptr b0 before (sub body 0 (size - 14)) false mark Hpk Hh Hm H1 Hb0)
      as (p' & E & Hp'); [by apply bytes_ok_sub|]. rewrite Hz in E. rewrite E. run. rewrite Hz in H2.
    pose proof (zlen_drop_sub body (size - 14) ltac:(lia) ltac:(lia)) as Hd. rewrite <- Hd.
    rewrite Hnext.
    set (f := Part b0 before (sub body 0 (size - 14)) false) in *.
    assert (is_nil (before ++ sub body 0 (size - 14)) = false) as Hne.
    { destruct (before ++ sub body 0 (size - 14)) eqn:En; [|done]. apply app_nil in En as [_ En].
      rewrite En in Hz. change (zlen (@nil Z)) with 0 in Hz. lia. }
    destruct (IH fuel' (en_next_seq p') (next_seq (marked_header h mark f)) size (send_all v (stamp h mark [f])) nalu
      (ptr + (size - 14)) b0 (before ++ sub body 0 (size - 14)) (drop (Z.to_nat (size - 14)) body) mark)
      as (p'' & E' & Hp''); try done; try lia; [by apply plain_next, plain_marked|by apply Forall_drop| |].
    { intros En. by rewrite En in Hne. }
    rewrite Hne in E'. exists p''. split; [exact E'|done].
Qed.

Lemma pack_handler_ok packer h size v nalu last : let mark := if truth last then 1 else 0 in
  let fs := fragments size nalu in
  packer_at packer h size v → plain h → unit_ok nalu → 14 < size →
  ∃ packer', rtp_h264_pack_handler handler packer nalu (zlen nalu) last = Ok (0, packer') ∧
    packer_at packer' (stamp_end h mark fs) size (send_all v (stamp h mark fs)).
Proof.
  intros mark fs Hpk Hh [Hb Hl Ht] Hs. unfold rtp_h264_pack_handler, fs, fragments.
  assert (is_uint 1 mark) as Hm by (unfold mark; by destruct (truth last)). fold mark.
  pose proof Hpk as [_ Hsz _]. rewrite Hsz. change RTP_FIXED_HEADER with 12.
  destruct (Z.leb_spec (zlen nalu + 12) size); [by apply pack_nalu_ok|].
  destruct nalu as [|b0 body]; [by destruct Hl|]. inversion Hb as [|? ? Hb0 Hbody]; subst.
  rewrite zlen_cons in *. unfold rtp_h264_pack_fu_a. rewrite (ld_lookup _ 0 b0) by done. run.
  destruct (fu_header_bytes b0 Hb0) as (-> & _).
  replace (1 + zlen body - 1) with (zlen body) by lia.
  apply (pack_fu_loop_ok (Z.to_nat (1 + zlen body)) (length body) packer h (en_size packer) v (b0 :: body) 1 b0 [] body mark);
    try done; try lia.
  apply (holds_cons (b0 :: body) 0 b0 body), holds_whole.
Qed.
End Packer.

(** * Sequences of fragments *)

Definition last_or (prev : option fragment) (fs : list fragment) : option fragment :=
  fold_left (λ _ f, Some f) fs prev.

Lemma chained_app fs : ∀ prev gs, chained prev (fs ++ gs) ↔ chained prev fs ∧ chained (last_or prev fs) gs.
Proof. induction fs as [|f fs IH]; intros prev gs; cbn; [tauto|]. rewrite IH. tauto. Qed.

Lemma last_or_app fs gs prev : last_or prev (fs ++ gs) = last_or (last_or prev fs) gs.
Proof. apply fold_left_app. Qed.

Lemma in_order_app l : ∀ n k, in_order n (l ++ k) ↔ in_order n l ∧ in_order (n + zlen l) k.
Proof.
  induction l as [|[h f] l IH]; intros n k; cbn [app in_order].
  - change (zlen (@nil packet_of)) with 0. rewrite Z.add_0_r. tauto.
  - rewrite IH, zlen_cons, Z.add_assoc. tauto.
Qed.

(** From header [h] to header [h'] the packets [l] carry the units [us]. *)
Record sends (h h' : rtp_header_t) (l : list packet_of) (us : list (list Z * Z)) : Prop := {
  sn_plain : plain h → plain h';
  sn_order : ∀ n, plain h → rtp_seq h = u16 n → in_order n l ∧ rtp_seq h' = u16 (n + zlen l);
  sn_chained : ∀ prev, held_of prev = [] → chained prev l.*2 ∧ held_of (last_or prev l.*2) = [];
  sn_ok : Forall fragment_ok l.*2;
  sn_units : units_of l = us
}.

Lemma sends_nil h : sends h h [] [].
Proof. constructor; try done. intros n _ Hn. split; [done|]. by rewrite Z.add_0_r. Qed.

Lemma sends_app h h' h'' l k us vs : sends h h' l us → sends h' h'' k vs → sends h h'' (l ++ k) (us ++ vs).
Proof.
  intros [P1 O1 C1 K1 U1] [P2 O2 C2 K2 U2]. constructor.
  - auto.
  - intros n Hh Hn. destruct (O1 n Hh Hn) as [Ho Hs]. destruct (O2 _ (P1 Hh) Hs) as [Ho' Hs'].
    rewrite in_order_app, zlen_app, Z.add_assoc. done.
  - intros prev Hp. rewrite fmap_app, chained_app, last_or_app.
    destruct (C1 prev Hp) as [? Hl]. destruct (C2 _ Hl). done.
  - by rewrite fmap_app, Forall_app.
  - unfold units_of in *. by rewrite omap_app, U1, U2.
Qed.

Lemma last_parts c b0 fuel : ∀ prev before body, 0 < c → 0 < zlen body ≤ Z.of_nat fuel →
  held_of (last_or prev (parts fuel c b0 before body)) = [].
Proof.
  induction fuel as [|fuel IH]; intros prev before body Hc Hb; [lia|]. cbn [parts].
  destruct (Z.leb_spec (zlen body) c); [done|].
  pose proof (zlen_drop_sub body c ltac:(lia) ltac:(lia)). apply IH; lia.
Qed.

Lemma stamp_units_of h mark fs : units_of (stamp h mark fs) = map (., rtp_timestamp h) (units fs).
Proof.
  revert h. induction fs as [|f fs IH]; intros h; [done|]. cbn [stamp]. rewrite units_of_cons, IH.
  unfold units. cbn [omap list_omap]. by destruct (completes f).
Qed.

Lemma unit_sends size nalu h mark : 14 < size → unit_ok nalu → is_uint 1 mark →
  let fs := fragments size nalu in
  sends h (stamp_end h mark fs) (stamp h mark fs) [(nalu, rtp_timestamp h)] ∧
  rtp_timestamp (stamp_end h mark fs) = rtp_timestamp h.
Proof.
  intros Hs Hok Hm fs.
  assert (rtp_timestamp (stamp_end h mark fs) = rtp_timestamp h) as Hts.
  { generalize fs. clear. intros fs. revert h. induction fs as [|f fs IH]; intros h; [done|]. cbn. by rewrite IH. }
  split; [|done]. pose proof (stamp_fragments h mark fs) as Hf. constructor.
  - intros Hh. destruct (stamp_in_order mark fs h (rtp_seq h) Hh Hm) as (_ & ? & _); [|done].
    destruct Hh as [[]]. by rewrite u16_id.
  - intros n Hh Hn. destruct (stamp_in_order mark fs h n Hh Hm Hn) as (? & _ & Hq & _).
    split; [done|]. rewrite Hq, <- Hf at 1. unfold zlen. by rewrite length_fmap.
  - intros prev Hp. rewrite Hf. split; [by apply fragments_spec|]. unfold fs, fragments.
    destruct (zlen nalu + 12 <=? size) eqn:E; [done|]. destruct nalu as [|b0 body]; [done|].
    destruct Hok as [_ Hl _]. rewrite zlen_cons in *. apply Z.leb_gt in E.
    apply last_parts; unfold zlen in *; lia.
  - rewrite Hf. by apply (fragments_spec size nalu None).
  - rewrite stamp_units_of. f_equal. destruct (fragments_spec size nalu None Hs Hok eq_refl) as (Hu & _). exact (f_equal _ Hu).
Qed.

(** * From stream to stream *)

(** An access unit as the packer gets it: its time and its byte stream. *)
Abbreviation frame := (Z * list (nat * list Z))%type.
Definition frame_ok (f : frame) : Prop :=
  is_uint 32 f.1 ∧ stream_ok f.2 ∧ Forall (λ p, unit_ok p.2) f.2.
Definition frame_units (f : frame) : list (list Z * Z) := map (λ p, (p.2, f.1)) f.2.
Definition frames_units (fs : list frame) : list (list Z * Z) := concat (map frame_units fs).

Section Frames.
Context {V : Type} (handler : rtp_payload_t V) (sent : V → list Z → Z → Z → V).
Context `{!Takes handler sent, !HasBlocks handler}.
Implicit Types packer : rtp_encode_h264_t V.

Fixpoint pack_all packer (fs : list frame) : outcome (rtp_encode_h264_t V) :=
  match fs with
  | [] => Ok packer
  | (ts, l) :: fs =>
      '(_, packer) ← rtp_h264_pack_input handler packer (annexb l) (zlen (annexb l)) ts;
      pack_all packer fs
  end.

Lemma run_units_ok us : ∀ packer h size v, packer_at packer h size v → plain h → 14 < size →
  Forall unit_ok us →
  ∃ packer' h' l, run_units (rtp_h264_pack_handler handler) packer us = Ok (0, packer') ∧
    packer_at packer' h' size (send_all sent v l) ∧
    sends h h' l (map (., rtp_timestamp h) us) ∧ rtp_timestamp h' = rtp_timestamp h.
Proof.
  induction us as [|nalu us IH]; intros packer h size v Hpk Hh Hs Hok.
  { exists packer, h, []. split_and!; try done. apply sends_nil. }
  inversion Hok as [|? ? Hn Hok']; subst. cbn [run_units].
  set (last := match us with [] => 1 | _ => 0 end).
  destruct (pack_handler_ok handler sent packer h size v nalu last Hpk Hh Hn Hs) as (p1 & E & Hp1).
  rewrite E. run. change (0 =? 0) with true. cbv iota.
  set (mark := if truth last then 1 else 0) in *.
  destruct (unit_sends size nalu h mark Hs Hn) as [Hsend Hts]; [unfold mark; by destruct (truth last)|].
  destruct (IH p1 _ size _ Hp1 (sn_plain _ _ _ _ Hsend Hh) Hs Hok') as (p2 & h2 & l & E2 & Hp2 & Hsend2 & Hts2).
  exists p2, h2, (stamp h mark (fragments size nalu) ++ l). split_and!.
  - done.
  - unfold send_all in *. by rewrite foldl_app.
  - cbn [map]. rewrite Hts in Hsend2. by apply (sends_app _ _ _ _ _ [_] _ Hsend).
  - by rewrite Hts2.
Qed.

Lemma sends_timestamp h ts h' l us : sends (with_timestamp h ts) h' l us → plain (with_timestamp h ts) → sends h h' l us.
Proof. intros [P O C K U] Hp. constructor; try done; [auto|]. intros n _ Hn. by apply O. Qed.

Lemma pack_all_ok fs : ∀ packer h size v, packer_at packer h size v → plain h → 14 < size →
  Forall frame_ok fs →
  ∃ packer' h' l, pack_all packer fs = Ok packer' ∧
    packer_at packer' h' size (send_all sent v l) ∧ sends h h' l (frames_units fs).
Proof.
  induction fs as [|[ts us] fs IH]; intros packer h size v Hpk Hh Hs Hok.
  { exists packer, h, []. split_and!; try done. apply sends_nil. }
  inversion Hok as [|? ? (Hts & Hst & Hus) Hok']; subst. cbn [pack_all fst snd] in *.
  unfold rtp_h264_pack_input. rewrite annexb_units by done.
  destruct Hpk as [(p & len & Hp) Hsz Hv].
  pose proof (plain_timestamp h ts Hh Hts) as Hh1.
  set (packer1 := en_with packer _ _).
  assert (packer_at packer1 (with_timestamp h ts) size v) as Hpk1.
  { constructor; [|done|done]. exists p, len. cbn. by rewrite Hp. }
  destruct (run_units_ok us.*2 packer1 _ size v Hpk1 Hh1 Hs) as (p1 & h1 & l1 & E & Hp1 & Hsend & _).
  { by apply Forall_fmap. }
  rewrite E. run.
  destruct (IH p1 h1 size _ Hp1 (sn_plain _ _ _ _ Hsend Hh1) Hs Hok') as (p2 & h2 & l2 & E2 & Hp2 & Hsend2).
  exists p2, h2, (l1 ++ l2). split_and!.
  - done.
  - unfold send_all in *. by rewrite foldl_app.
  - apply sends_timestamp in Hsend; [|done]. pose proof (sends_app _ _ _ _ _ _ _ Hsend Hsend2) as Hall.
    replace (map (., rtp_timestamp (with_timestamp h ts)) us.*2) with (frame_units (ts, us)) in Hall; [done|].
    unfold frame_units. cbn. clear. induction us as [|[z u] us IH]; [done|]. cbn. by rewrite IH.
Qed.
End Frames.

(** What the collecting application has. *)
Definition packets_of (l : list packet_of) : list (list Z * Z * Z) := map (λ p, (wire p, rtp_timestamp p.1, 0)) l.

Lemma send_all_collect l : ∀ v, send_all (λ v b ts flags, v ++ [(b, ts, flags)]) v l = v ++ packets_of l.
Proof.
  unfold send_all. induction l as [|p l IH]; intros v; cbn; [by rewrite app_nil_r|].
  by rewrite IH, <- app_assoc.
Qed.

Lemma arrives_map {A B} (f : A → B) l : ∀ n k, arrives n (map f l) k → ∃ k', k = map f k' ∧ arrives n l k'.
Proof.
  induction l as [|x l IH]; intros n k Ha; cbn in Ha.
  - inversion Ha; subst. exists []. split; [done|constructor].
  - inversion Ha as [|? ? ? k' Hk|? ? ? ? Hn Hk]; subst.
    + exists []. split; [done|constructor].
    + destruct (IH _ _ Hk) as (k'' & -> & Hk''). exists (x :: k''). split; [done|by constructor].
    + destruct (IH _ _ Hk) as (k'' & -> & Hk''). exists k''. split; [done|by constructor].
Qed.

(** A delivery as the application sees it. *)
Definition delivery (o : list Z * Z * bool) : list Z * Z * Z := (o.1.1, o.1.2, lost_flag o.2).

Lemma collect_deliveries outs : ∀ v,
  foldl (λ v '(nalu, ts, lost), v ++ [(nalu, ts, lost_flag lost)]) v outs = v ++ map delivery outs.
Proof.
  induction outs as [|[[nalu ts] lost] outs IH]; intros v; cbn; [by rewrite app_nil_r|].
  by rewrite IH, <- app_assoc.
Qed.

Section Through.
Context (realloc : Z → bool) (Halloc : ∀ n, realloc n = true).
Variables (size pt seq ssrc : Z) (fs : list frame).
Hypotheses (Hsize : 14 < size) (Hpt : is_uint 7 pt) (Hseq : is_uint 16 seq) (Hssrc : is_uint 32 ssrc).
Hypothesis Hfs : Forall frame_ok fs.

(** The packets of the frames, and the unpacker on those that arrive. *)
Lemma through : ∃ packer l,
  pack_all collector (rtp_h264_pack_create size pt seq ssrc []) fs = Ok packer ∧
  en_cbparam packer = packets_of l ∧
  ∀ k, arrives 0 l k → ∃ u outs,
    unpack_all realloc collector (rtp_h264_unpack_create []) (map wire k) = Ok u ∧
    de_cbparam u = map delivery outs ∧ delivers true (frames_units fs) outs ∧
    (k = l → outs = map (., false) (frames_units fs)).
Proof.
  set (h := RtpHeader RTP_VERSION 0 0 0 0 pt seq 0 ssrc).
  assert (plain h) as Hh by (constructor; [by constructor|done..]).
  destruct (pack_all_ok collector _ fs (rtp_h264_pack_create size pt seq ssrc []) h size [])
    as (packer & h' & l & E & [_ _ Hv] & [_ Ho Hch Hok Hu]); try done.
  { constructor; try done. by eexists _, _. }
  rewrite send_all_collect in Hv.
  exists packer, l. split_and!; [done|done|]. intros k Hk.
  destruct (Ho seq Hh) as [Hord _]; [cbn; by rewrite u16_id|].
  destruct (Hch None eq_refl) as [Hc _].
  destruct (unpack_all_receive realloc Halloc collector _ 0 l k Hk (rtp_h264_unpack_create []) fresh_receiver seq None
    (fresh_holds []) Hord Hc Hok (fresh_synced _ _)) as (u & Eu & Hcb).
  exists u, (receive fresh_receiver k). split_and!; [done|..].
  - rewrite Hcb. apply collect_deliveries.
  - rewrite <- Hu. eapply receive_delivers; [done..|apply fresh_synced|done].
  - intros ->. rewrite <- Hu. by apply receive_all with seq None.
Qed.
End Through.

(** The bytes of the packets the collecting application has. *)
Abbreviation sent_bytes v := (map (λ p : list Z * Z * Z, p.1.1) v).

Lemma sent_bytes_packets l : sent_bytes (packets_of l) = map wire l.
Proof. unfold packets_of. by rewrite map_map. Qed.

(** C2: when every packet arrives, the units of the streams given to
    rtp_h264_pack_input come out of rtp_h264_unpack_input whole, in order, each
    with its time and without a mark of loss, whatever the packet size. *)
Theorem rtp_h264_lossless realloc size pt seq ssrc fs :
  (∀ n, realloc n = true) → 14 < size → is_uint 7 pt → is_uint 16 seq → is_uint 32 ssrc →
  Forall frame_ok fs →
  ∃ packer u,
    pack_all collector (rtp_h264_pack_create size pt seq ssrc []) fs = Ok packer ∧
    unpack_all realloc collector (rtp_h264_unpack_create []) (sent_bytes (en_cbparam packer)) = Ok u ∧
    de_cbparam u = map (λ p, (p.1, p.2, 0)) (frames_units fs).
Proof.
  intros Ha Hs Hp Hq Hc Hf.
  destruct (through realloc Ha size pt seq ssrc fs Hs Hp Hq Hc Hf) as (packer & l & E & Hl & Hk).
  destruct (Hk l (arrives_all l 0)) as (u & outs & Eu & Hu & _ & Houts).
  exists packer, u. rewrite Hl, sent_bytes_packets. split_and!; [done|done|].
  rewrite Hu, (Houts eq_refl), map_map. done.
Qed.

(** C10: whatever packets are lost, provided that fewer than 65536 are lost in a
    row and memory is available, every unit delivered is one that was sent, in order and with its time; and
    from the first delivery on a unit is missing only where the next one delivered
    carries RTP_PAYLOAD_FLAG_PACKET_LOST.  Of the units lost before the first
    delivery nothing is marked: the unpacker takes the first packet it sees for the
    beginning. *)
Theorem rtp_h264_losses realloc size pt seq ssrc fs packer arrived :
  (∀ n, realloc n = true) → 14 < size → is_uint 7 pt → is_uint 16 seq → is_uint 32 ssrc →
  Forall frame_ok fs →
  pack_all collector (rtp_h264_pack_create size pt seq ssrc []) fs = Ok packer →
  arrives 0 (sent_bytes (en_cbparam packer)) arrived →
  ∃ u outs,
    unpack_all realloc collector (rtp_h264_unpack_create []) arrived = Ok u ∧
    de_cbparam u = map delivery outs ∧ delivers true (frames_units fs) outs ∧
    outs.*1 `sublist_of` frames_units fs.
Proof.
  intros Ha Hs Hp Hq Hc Hf Epk Harr.
  destruct (through realloc Ha size pt seq ssrc fs Hs Hp Hq Hc Hf) as (packer' & l & E & Hl & Hk).
  rewrite E in Epk. injection Epk as <-. rewrite Hl, sent_bytes_packets in Harr.
  apply arrives_map in Harr as (k & -> & Harr).
  destruct (Hk k Harr) as (u & outs & Eu & Hu & Hd & _).
  exists u, outs. split_and!; [done..|]. by eapply delivers_sublist.
Qed.

(** Rtp_h264_annexb_nalu finds the units of a stream of start codes of any
    length: the handler gets each of them, without the zeros behind it, the
    last one with the mark, until it fails. *)
Theorem rtp_h264_annexb_split {A} (handler : A → list Z → Z → Z → outcome (Z * A)) a l :
  stream_ok l →
  rtp_h264_annexb_nalu handler a (annexb l) (zlen (annexb l)) = run_units handler a l.*2.
Proof. apply annexb_units. Qed.

(** Concrete input: two frames, one unit of them in three fragments. *)
Definition demo_frames : list frame :=
  [(3000, [(3%nat, [103; 1; 2; 3]); (2%nat, [104; 7; 0; 0; 9])]);
   (6000, [(3%nat, [101; 0; 0; 2; 4; 5; 6; 7; 8; 9; 10; 11; 12; 13; 14; 15; 16; 17; 18; 19])])].

Lemma demo_frames_ok : Forall frame_ok demo_frames.
Proof.
  assert (∀ nalu, bool_decide (bytes_ok nalu ∧ 0 < zlen nalu < RTP_PAYLOAD_MAX_SIZE ∧ 1 ≤ nalu_type nalu ≤ 23 ∧
    nalu ≠ [] ∧ no_start nalu = true ∧ nalu !!! pred (length nalu) ≠ 0) = true → unit_ok nalu ∧ nal_ok nalu) as H.
  { intros nalu (? & ? & ? & ? & ? & ?)%bool_decide_eq_true. by split. }
  unfold demo_frames, frame_ok, stream_ok. cbn [fst snd].
  repeat first [apply Forall_cons_2 | apply Forall_nil_2 | split]; cbn [fst snd]; try done; try lia;
    by apply H; vm_compute.
Qed.

Lemma rtp_h264_lossless_witness : ∃ packer u,
  pack_all collector (rtp_h264_pack_create 24 96 65534 7 []) demo_frames = Ok packer ∧
  unpack_all (λ _, true) collector (rtp_h264_unpack_create []) (sent_bytes (en_cbparam packer)) = Ok u ∧
  de_cbparam u = [([103; 1; 2; 3], 3000, 0); ([104; 7; 0; 0; 9], 3000, 0);
    ([101; 0; 0; 2; 4; 5; 6; 7; 8; 9; 10; 11; 12; 13; 14; 15; 16; 17; 18; 19], 6000, 0)].
Proof. apply (rtp_h264_lossless _ 24 96 65534 7 demo_frames); [done|lia|done..|apply demo_frames_ok]. Defined.

(** The same with the second fragment lost. *)
Definition demo_packer : rtp_encode_h264_t (list (list Z * Z * Z)) :=
  match pack_all collector (rtp_h264_pack_create 24 96 65534 7 []) demo_frames with
  | Ok packer => packer
  | _ => rtp_h264_pack_create 24 96 65534 7 []
  end.
Definition demo_arrived : list (list Z) :=
  let l := sent_bytes (en_cbparam demo_packer) in take 3 l ++ drop 4 l.

Lemma rtp_h264_losses_witness : ∃ u outs,
  unpack_all (λ _, true) collector (rtp_h264_unpack_create []) demo_arrived = Ok u ∧
  de_cbparam u = map delivery outs ∧ delivers true (frames_units demo_frames) outs ∧
  outs.*1 `sublist_of` frames_units demo_frames.
Proof.
  apply (rtp_h264_losses _ 24 96 65534 7 demo_frames demo_packer); [done|lia|done..|apply demo_frames_ok|by vm_compute|].
  vm_compute. repeat (apply arrives_take || apply arrives_end || (apply arrives_lose; [done|])).
Defined.

Lemma rtp_h264_annexb_split_witness :
  let collect (a : list (list Z)) nalu (n last : Z) := Ok (0, a ++ [nalu]) in
  rtp_h264_annexb_nalu collect [] (annexb [(3%nat, [103; 1; 2; 3]); (2%nat, [104; 7; 0; 0; 9])]) 16
  = Ok (0, [[103; 1; 2; 3]; [104; 7; 0; 0; 9]]).
Proof.
  intros collect.
  apply (rtp_h264_annexb_split collect [] [(3%nat, [103; 1; 2; 3]); (2%nat, [104; 7; 0; 0; 9])]).
  pose proof demo_frames_ok as H. inversion H as [|? ? (_ & Hs & _)]; subst. exact Hs.
Defined.
