(* ===== verification/RtpH264Safe.v ===== *)
(** The H.264 unpacker on whatever the network delivers, and the splitter on a
    stream that makes it overflow. *)
From S2P Require Import Prelude RtpPacket RtpPayload RtpH264.

(** * Any packets *)

(** The block of the unpacker holds what [size] and [capacity] say. *)
Record de_wf {V} (u : rtp_decode_h264_t V) : Prop := {
  dw_size : 0 ≤ de_size u ≤ de_capacity u;
  dw_bound : de_size u ≤ RTP_PAYLOAD_MAX_SIZE + 1;
  dw_ptr : match de_ptr u with Some p => zlen p = de_capacity u | None => de_capacity u = 0 end
}.

(** The call returns a well-formed unpacker. *)
Definition returns {V} (x : outcome (Z * rtp_decode_h264_t V)) : Prop := ∃ r u, x = Ok (r, u) ∧ de_wf u.

Section Safe.
Context {V : Type} (realloc : Z → bool) (handler : rtp_payload_t V).
Implicit Types u : rtp_decode_h264_t V.

Lemma wf_reset u flags : de_wf u → de_wf (de_reset u flags 0).
Proof. intros [? ? ?]. constructor; cbn; [lia|unfold RTP_PAYLOAD_MAX_SIZE; lia|done]. Qed.

Lemma wf_deliver u b ts : de_wf u → de_wf (de_deliver handler u b ts).2.
Proof.
  intros [? ? ?]. unfold de_deliver. destruct (packet _ _ _ _ _).
  constructor; cbn; [lia|unfold RTP_PAYLOAD_MAX_SIZE; lia|done].
Qed.

Lemma wf_check_seq u seq : de_wf u → de_wf (rtp_h264_check_seq u seq).
Proof.
  assert (∀ u s, de_wf u → de_wf (de_set_seq u s)) as Hset by by intros ? ? []; constructor.
  intros Hu. unfold rtp_h264_check_seq. apply Hset. set (u1 := if -1 =? _ then _ else _).
  assert (de_wf u1) as H1.
  { unfold u1. destruct (-1 =? _); [|done]. apply Hset. destruct Hu; by constructor. }
  clearbody u1. destruct (negb _); [by apply wf_reset|done].
Qed.

Lemma returns_ok r u : de_wf u → returns (Ok (r, u)).
Proof. by exists r, u. Qed.
Hint Resolve returns_ok wf_reset : core.

Section Payload.
Variable m : list Z.

Lemma stap_safe fuel : ∀ u ptr bytes ts r, de_wf u → 0 ≤ ptr → ptr + bytes ≤ zlen m → bytes ≤ Z.of_nat fuel →
  returns (rtp_h264_stap_loop handler fuel u m ptr bytes ts r).
Proof.
  induction fuel as [|fuel IH]; intros u ptr bytes ts r Hu Hp Hm Hf; cbn [rtp_h264_stap_loop];
    destruct (0 =? r), (Z.gtb_spec bytes 2); cbn [andb]; auto; [lia|].
  unfold rtp_read_uint16. rewrite !ld_ok by lia. run. set (len := Z.lor _ _).
  destruct (Z.gtb_spec (len + 2) bytes); cbn [orb]; [auto|]. destruct (Z.ltb_spec len 2); [auto|].
  rewrite slice_ok by lia. run. pose proof (wf_deliver u (sub m (ptr + 2) len) ts Hu) as Hd.
  destruct (de_deliver _ _ _ _) as [r' u']. apply IH; [done|lia..].
Qed.

Lemma mtap_safe fuel : ∀ u ptr bytes ts n r, n = 2 ∨ n = 3 → de_wf u → 0 ≤ ptr → ptr + bytes ≤ zlen m →
  bytes ≤ Z.of_nat fuel → returns (rtp_h264_mtap_loop handler fuel u m ptr bytes ts n r).
Proof.
  induction fuel as [|fuel IH]; intros u ptr bytes ts n r Hn Hu Hp Hm Hf; cbn [rtp_h264_mtap_loop];
    destruct (0 =? r), (Z.ltb_spec (n + 3) bytes); cbn [andb]; auto; [lia|].
  unfold rtp_read_uint16. rewrite (ld_ok m ptr), (ld_ok m (ptr + 1)) by lia. run. set (len := Z.lor _ _).
  destruct (Z.gtb_spec (len + 2) bytes); cbn [orb]; [auto|]. destruct (Z.ltb_spec len (1 + n + 1)); [auto|].
  rewrite (ld_ok m (ptr + 3)), (ld_ok m (ptr + 3 + 1)) by lia. run.
  assert (∃ ts', (if 3 =? n then b ← ld m (ptr + 5); Ok (Z.lor (Z.shiftl (Z.lor (Z.shiftl (m !!! Z.to_nat (ptr + 3)) 8)
    (m !!! Z.to_nat (ptr + 3 + 1))) 8) b) else Ok (Z.lor (Z.shiftl (m !!! Z.to_nat (ptr + 3)) 8)
    (m !!! Z.to_nat (ptr + 3 + 1)))) = Ok ts') as [ts' ->].
  { destruct Hn as [-> | ->]; cbn [Z.eqb Pos.eqb]; [by eexists|]. rewrite ld_ok by lia. by eexists. }
  run. rewrite slice_ok by lia. run.
  set (b := sub m _ _). pose proof (wf_deliver u b (u32 (ts' + ts)) Hu) as Hd.
  destruct (de_deliver _ _ _ _) as [r' u']. apply IH; [done|done|lia..].
Qed.

Lemma fu_alloc_safe u bytes n : de_wf u → 0 < n ≤ 4 → n ≤ bytes → de_size u + bytes - n ≤ RTP_PAYLOAD_MAX_SIZE →
  let '(r, u') := rtp_h264_fu_alloc realloc u bytes n in
  de_wf u' ∧ (r = 0 → de_size u' = de_size u ∧ de_size u + bytes - n + 1 ≤ de_capacity u').
Proof.
  intros Hu Hn Hb Hm. pose proof Hu as [Hsz Hbd Hptr]. unfold rtp_h264_fu_alloc.
  destruct (Z.gtb_spec (de_size u + bytes - n + 1) (de_capacity u)); [|split; [done|lia]].
  set (k := (de_size u + bytes + 1) + _). assert (de_size u + bytes + 1 + 128000 ≤ k) as Hk
    by (unfold k; destruct (Z.gtb_spec (Z.quot (de_size u + bytes + 1) 4) 128000); lia). clearbody k.
  destruct (realloc k); cbn [negb]; [|split; [auto|done]].
  split; [|cbn; lia]. constructor; cbn; [lia|lia|]. apply zlen_realloc_cells. lia.
Qed.

Lemma fu_store_safe u bytes ts n fh : de_wf u → 0 < n ≤ bytes → bytes ≤ zlen m →
  de_size u + bytes - n ≤ de_capacity u → de_size u + bytes - n ≤ RTP_PAYLOAD_MAX_SIZE + 1 →
  returns (rtp_h264_fu_store handler u m bytes ts n fh).
Proof.
  intros [Hsz Hbd Hptr] Hn Hm Hc Hmax. unfold rtp_h264_fu_store.
  assert (∃ u1, (if bytes >? n then
         b ← slice m n (bytes - n);
         ptr ← (match de_ptr (de_set_timestamp u ts) with Some p => st p (de_size (de_set_timestamp u ts)) b | None => Ub end);
         Ok (de_set_block (de_set_timestamp u ts) (Some ptr) (de_size (de_set_timestamp u ts) + (bytes - n))
           (de_capacity (de_set_timestamp u ts)))
       else Ok (de_set_timestamp u ts)) = Ok u1 ∧ de_wf u1) as (u1 & -> & Hu1).
  { cbn [de_set_timestamp de_ptr de_size de_capacity]. destruct (Z.gtb_spec bytes n); [|by eexists; split; [done|constructor]].
    rewrite slice_ok by lia. run. destruct (de_ptr u) as [p|]; [|lia].
    assert (zlen (sub m n (bytes - n)) = bytes - n) as Hz by (apply zlen_sub; lia).
    rewrite st_ok by lia. run. eexists. split; [done|].
    constructor; cbn; [lia|lia|]. rewrite zlen_put; lia. }
  run. destruct (truth _); [|auto]. destruct (Z.gtb_spec (de_size u1) 0); [|auto].
  pose proof Hu1 as [? ? Hp1]. unfold frame_bytes. destruct (de_ptr u1) as [p|] eqn:E; [|lia].
  rewrite slice_ok by lia. run. pose proof (wf_deliver u1 (sub p 0 (de_size u1)) ts Hu1) as Hd.
  destruct (de_deliver _ _ _ _) as [r' u']. auto.
Qed.

Lemma fu_safe u bytes ts fu_b : de_wf u → 1 ≤ bytes ≤ zlen m → bytes < 2 ^ 30 →
  returns (rtp_h264_unpack_fu realloc handler u m bytes ts fu_b).
Proof.
  intros Hu Hb Hmax. pose proof Hu as [Hsz Hbd Hptr]. unfold rtp_h264_unpack_fu.
  set (n := if fu_b then 4 else 2). assert (n = 2 ∨ n = 4) as Hn by (unfold n; destruct fu_b; auto). clearbody n.
  destruct (Z.ltb_spec bytes n); [auto|].
  rewrite int_ok by (unfold RTP_PAYLOAD_MAX_SIZE in *; dlia). run.
  destruct (Z.gtb_spec (de_size u + bytes - n) RTP_PAYLOAD_MAX_SIZE); [auto|].
  pose proof (fu_alloc_safe u bytes n Hu ltac:(lia) ltac:(lia) ltac:(lia)) as Ha.
  destruct (rtp_h264_fu_alloc realloc u bytes n) as [r u1]. destruct Ha as [Hu1 Hr].
  destruct (Z.eqb_spec r 0) as [->|]; cbn [negb]; [|auto]. destruct (Hr eq_refl) as [Hs Hc].
  pose proof Hu1 as [Hsz1 Hbd1 Hptr1]. rewrite (ld_ok m 1) by lia. run.
  destruct (truth _).
  - rewrite (ld_ok m 0) by lia. run. destruct (de_ptr u1) as [p|]; [|lia].
    set (b := Z.lor _ _). rewrite st_ok by (change (zlen [b]) with 1; lia). run.
    apply fu_store_safe; cbn; [|lia|lia|lia|lia].
    constructor; cbn; [lia|unfold RTP_PAYLOAD_MAX_SIZE; lia|].
    rewrite zlen_put; [done|lia|]. change (zlen [b]) with 1. lia.
  - destruct (0 =? de_size u1); [auto|]. apply fu_store_safe; try done; lia.
Qed.
End Payload.

Lemma payload_safe u pkt : de_wf u → rtp_packet_ok pkt → 1 ≤ payloadlen pkt < 2 ^ 30 →
  returns (rtp_h264_unpack_payload realloc handler u pkt).
Proof.
  intros Hu Hok Hl. pose proof (ok_payload _ Hok) as Hp. unfold rtp_h264_unpack_payload.
  set (m := payload pkt) in *. rewrite ld_ok by lia. run.
  destruct (_ || _); [auto|].
  assert (∀ stap_b, returns (rtp_h264_unpack_stap handler u m (payloadlen pkt) (rtp_timestamp (rtp pkt)) stap_b)) as Hstap.
  { intros b. unfold rtp_h264_unpack_stap. set (n := if b then 3 else 1).
    assert (1 ≤ n) by (unfold n; destruct b; lia).
    destruct (Z.ltb_spec (payloadlen pkt) n); [auto|].
    assert (∃ don, (if b then rtp_read_uint16 m 1 else Ok 0) = Ok don) as [don ->].
    { destruct b; [|eauto]. unfold rtp_read_uint16, n in *. rewrite !ld_ok by lia. by eexists. }
    run. apply stap_safe; [done|lia..]. }
  assert (∀ n, n = 2 ∨ n = 3 → returns (rtp_h264_unpack_mtap handler u m (payloadlen pkt) (rtp_timestamp (rtp pkt)) n)) as Hmtap.
  { intros n Hn. unfold rtp_h264_unpack_mtap. destruct (Z.ltb_spec (payloadlen pkt) 3); [auto|].
    unfold rtp_read_uint16. rewrite !ld_ok by lia. run. apply mtap_safe; [done|done|lia..]. }
  repeat match goal with |- returns (if ?b then _ else _) => destruct b end; auto using fu_safe;
    try (apply fu_safe; [done|lia|lia]).
  rewrite slice_ok by lia. run. pose proof (wf_deliver u (sub m 0 (payloadlen pkt)) (rtp_timestamp (rtp pkt)) Hu).
  destruct (de_deliver _ _ _ _). auto.
Qed.
End Safe.

(** C38: for any bytes, of fewer than 2^30, any handler and any allocator,
    rtp_h264_unpack_input returns: it reads only the packet, stores only in its
    block, and leaves the unpacker well formed. *)
Theorem rtp_h264_unpack_safe {V} realloc (handler : rtp_payload_t V) u data bytes :
  de_wf u → bytes_ok data → bytes ≤ zlen data → zlen data < 2 ^ 30 →
  ∃ r u', rtp_h264_unpack_input realloc handler u data bytes = Ok (r, u') ∧ de_wf u'.
Proof.
  intros Hu Hb Hl Hmax. unfold rtp_h264_unpack_input.
  rewrite rtp_packet_deserialize_spec by done.
  destruct (rtp_parse data bytes) as [|e|pkt] eqn:E.
  - exfalso. revert E. unfold rtp_parse. cbv zeta. repeat case_match; done.
  - by apply returns_ok.
  - pose proof (rtp_parse_packet_ok data bytes pkt Hb Hl E) as Hok.
    assert (payloadlen pkt ≤ zlen data) as Hp.
    { rewrite <- (ok_payload _ Hok). destruct (rtp_parse_inv data bytes pkt E) as (_ & _ & _ & ->).
      cbn [payload]. unfold sub, zlen. rewrite length_take, length_drop. lia. }
    destruct (Z.ltb_spec (payloadlen pkt) 1); [by apply returns_ok|].
    apply payload_safe; [by apply wf_check_seq|done|lia].
Qed.

Lemma rtp_h264_unpack_safe_witness : ∃ r u',
  rtp_h264_unpack_input (λ _, true) collector (rtp_h264_unpack_create []) (replicate 40 155) 40 = Ok (r, u') ∧ de_wf u'.
Proof. apply rtp_h264_unpack_safe; [by constructor|by_eval|by vm_compute|by vm_compute]. Defined.

(** * A stream that overflows *)

(** A stream of at least six bytes whose first four are a big-endian length
    of 2^31 - 4 or more overflows [n + avcc] in h264_avcc_bitstream_valid, which
    every stream that is not annex B reaches: the behaviour is undefined. *)
Theorem rtp_h264_avcc_overflow {A} (handler : A → list Z → Z → Z → outcome (Z * A)) a x rest :
  252 ≤ x ≤ 255 → 2 ≤ zlen rest →
  rtp_h264_annexb_nalu handler a ([127; 255; 255; x] ++ rest) (4 + zlen rest) = Ub.
Proof.
  intros Hx Hr. unfold rtp_h264_annexb_nalu, h264_bitstream_format.
  destruct (Z.ltb_spec (4 + zlen rest) 4); [lia|].
  rewrite (ld_lookup _ 0 127), (ld_lookup _ 1 255), (ld_lookup _ 2 255), (ld_lookup _ 3 x) by done. run.
  change (Z.lor (Z.lor (Z.shiftl 127 16) (Z.shiftl 255 8)) 255) with 8388607.
  change ((0 =? 8388607) && (x <=? 1)) with false. change (1 =? 8388607) with false. cbv iota.
  unfold h264_avcc_bitstream_valid. destruct (Z.to_nat (4 + zlen rest)) as [|fuel] eqn:E; [lia|].
  cbn [h264_avcc_valid_loop]. destruct (Z.ltb_spec (4 + 1) (4 + zlen rest)); [|lia].
  assert (h264_avcc_length ([127; 255; 255; x] ++ rest) 0 (4 + zlen rest) 4 = Ok (2147483392 + x)) as ->.
  { unfold h264_avcc_length. change (Z.to_nat 4) with 4%nat. cbn [h264_length_bytes].
    repeat match goal with |- context [?i <? 4 + zlen rest] => destruct (Z.ltb_spec i (4 + zlen rest)); [|lia] end.
    rewrite (ld_lookup _ (0 + 0) 127), (ld_lookup _ (0 + (0 + 1)) 255), (ld_lookup _ (0 + (0 + 1 + 1)) 255),
      (ld_lookup _ (0 + (0 + 1 + 1 + 1)) x) by done. run.
    destruct (Z.geb_spec 4 (4 + zlen rest)); [lia|].
    change (Z.lor (u32 (Z.shiftl 0 8)) 127) with 127. change (Z.lor (u32 (Z.shiftl 127 8)) 255) with 32767.
    change (Z.lor (u32 (Z.shiftl 32767 8)) 255) with 8388607.
    change (u32 (Z.shiftl 8388607 8)) with (Z.shiftl 8388607 8). rewrite lor_shiftl_add by lia.
    unfold s32. f_equal. dlia. }
  run. destruct (Z.ltb_spec (2147483392 + x) 0); [lia|].
  unfold int. destruct (Z.ltb_spec (2147483392 + x + 4) (2 ^ 31)); [lia|]. by rewrite andb_false_r.
Qed.

Lemma rtp_h264_avcc_overflow_witness :
  rtp_h264_annexb_nalu (λ (a : unit) _ _ _, Ok (0, a)) () ([127; 255; 255; 255] ++ [0; 0]) 6 = Ub.
Proof. apply (rtp_h264_avcc_overflow _ () 255 [0; 0]); [lia|done]. Defined.
