(* ===== verification/Avc.v ===== *)
(** H.264 parameter sets and the two stream formats: mpeg4-avc.c,
    mpeg4-annexbtomp4.c and mpeg4-mp4toannexb.c of libflv/source.

    A [struct mpeg4_avc_t] holds copies of the parameter sets in one block of
    4096 bytes; the tables of sets point into it, a pointer being an offset and
    NULL [None].  The input is a list of bytes and a pointer into it an offset;
    [size_t] sums wrap at 2^64.  A copy of no bytes from NULL does nothing.  The
    functions that fill a structure keep what they had done when they fail: they
    return the code and the structure. *)
From S2P Require Import Prelude RtpH264.

Definition E2BIG : Z := 7.

Record avc_set := AvcSet { set_bytes : Z; set_data : option Z }.
Definition no_set : avc_set := AvcSet 0 None.
#[global] Instance avc_set_inhabited : Inhabited avc_set := populate no_set.

Record mpeg4_avc_t := Avc {
  profile : Z; compatibility : Z; level : Z; nalu : Z;
  nb_sps : Z; nb_pps : Z;
  sps : list avc_set; pps : list avc_set;
  chroma_format_idc : Z; bit_depth_luma_minus8 : Z; bit_depth_chroma_minus8 : Z;
  data : list Z; off : Z
}.

Definition AVC_DATA : Z := 4096.
Definition AVC_SPS : Z := 32.
Definition AVC_PPS : Z := 256.

(** All bytes 0. *)
Definition avc_zero : mpeg4_avc_t :=
  Avc 0 0 0 0 0 0 (replicate (Z.to_nat AVC_SPS) no_set) (replicate (Z.to_nat AVC_PPS) no_set) 0 0 0 (replicate (Z.to_nat AVC_DATA) 0) 0.

Implicit Types (a : mpeg4_avc_t).

Definition set_header a p c l := Avc p c l (nalu a) (nb_sps a) (nb_pps a) (sps a) (pps a) (chroma_format_idc a) (bit_depth_luma_minus8 a) (bit_depth_chroma_minus8 a) (data a) (off a).
Definition set_nalu a n := Avc (profile a) (compatibility a) (level a) n (nb_sps a) (nb_pps a) (sps a) (pps a) (chroma_format_idc a) (bit_depth_luma_minus8 a) (bit_depth_chroma_minus8 a) (data a) (off a).
Definition set_sps a n l := Avc (profile a) (compatibility a) (level a) (nalu a) n (nb_pps a) l (pps a) (chroma_format_idc a) (bit_depth_luma_minus8 a) (bit_depth_chroma_minus8 a) (data a) (off a).
Definition set_pps a n l := Avc (profile a) (compatibility a) (level a) (nalu a) (nb_sps a) n (sps a) l (chroma_format_idc a) (bit_depth_luma_minus8 a) (bit_depth_chroma_minus8 a) (data a) (off a).
Definition set_block a d o := Avc (profile a) (compatibility a) (level a) (nalu a) (nb_sps a) (nb_pps a) (sps a) (pps a) (chroma_format_idc a) (bit_depth_luma_minus8 a) (bit_depth_chroma_minus8 a) d o.

(** The bytes of a set. *)
Definition set_slice a (s : avc_set) : outcome (list Z) :=
  match set_data s with Some p => slice (data a) p (set_bytes s) | None => if set_bytes s =? 0 then Ok [] else Ub end.

(** * Units of a stream: mpeg4-annexbtomp4.c *)

(** The functions of rtp-h264-bitstream.c, on sizes below 2^31. *)
Definition avc_startcode (m : list Z) (p bytes : Z) : outcome (option Z) := h264_startcode m p bytes.
Definition avc_length (m : list Z) (p bytes avcc : Z) : outcome Z := h264_avcc_length m p bytes avcc.

(** The length is an int taken for a size_t, so it is never negative and the sum
    wraps.  The loop may not end: no amount of fuel is enough then. *)
Fixpoint avc_valid_loop (fuel : nat) (m : list Z) (p bytes avcc : Z) : outcome Z :=
  if avcc + 1 <? bytes then
    match fuel with
    | O => Ub
    | S fuel =>
        n ← avc_length m p bytes avcc;
        let n := u64 n in
        if u64 (n + avcc) >? bytes then Ok 0 else
        avc_valid_loop fuel m (p + u64 (n + avcc)) (bytes - u64 (n + avcc)) avcc
    end
  else Ok (if 0 =? bytes then 1 else 0).
Definition mpeg4_h264_avcc_bitstream_valid (m : list Z) (p bytes avcc : Z) : outcome Z :=
  avc_valid_loop (Z.to_nat bytes) m p bytes avcc.

Definition mpeg4_h264_bitstream_format (m : list Z) (p bytes : Z) : outcome Z :=
  if bytes <? 4 then Ok (-1) else
  b0 ← ld m p; b1 ← ld m (p + 1); b2 ← ld m (p + 2); b3 ← ld m (p + 3);
  let n := Z.lor (Z.lor (Z.shiftl b0 16) (Z.shiftl b1 8)) b2 in
  if (0 =? n) && (b3 <=? 1) then Ok 0
  else if 1 =? n then
    v ← mpeg4_h264_avcc_bitstream_valid m p bytes 4; Ok (if truth v then 4 else 0)
  else
    v ← mpeg4_h264_avcc_bitstream_valid m p bytes 4;
    if truth v then Ok 4 else
    v ← mpeg4_h264_avcc_bitstream_valid m p bytes 3; Ok (if truth v then 3 else -1).

Section Units.
Context {A : Type}.
(** The callback gets the offset of the unit and its size. *)
Variable handler : A → Z → Z → outcome A.

(** Every round takes [avcc] bytes and the unit, or stops. *)
Fixpoint avc_nalu_loop (fuel : nat) (x : A) (m : list Z) (p endp avcc n : Z) : outcome A :=
  if p + n + avcc <=? endp then
    match fuel with
    | O => Ub
    | S fuel =>
        x ← (if n >? 0 then handler x (p + avcc) (s32 n) else Ok x);
        let p := p + (n + avcc) in
        k ← avc_length m p (endp - p) avcc;
        avc_nalu_loop fuel x m p endp avcc (u32 k)
    end
  else Ok x.
Definition mpeg4_h264_avcc_nalu (x : A) (m : list Z) (p bytes avcc : Z) : outcome A :=
  k ← avc_length m p bytes avcc;
  avc_nalu_loop (Z.to_nat (bytes + 1)) x m p (p + bytes) avcc (u32 k).

Fixpoint avc_annexb_loop (fuel : nat) (x : A) (m : list Z) (p : option Z) (endp : Z) : outcome A :=
  match p with
  | Some p =>
      match fuel with
      | O => Ub
      | S fuel =>
          next ← avc_startcode m p (endp - p);
          let n := match next with Some q => q - p - 3 | None => endp - p end in
          n ← trim_zeros (Z.to_nat n) m p n;
          x ← (if n >? 0 then handler x p (s32 n) else Ok x);
          avc_annexb_loop fuel x m next endp
      end
  | None => Ok x
  end.

Definition mpeg4_h264_annexb_nalu (x : A) (m : list Z) (p bytes : Z) : outcome A :=
  avcc ← mpeg4_h264_bitstream_format m p bytes;
  if avcc >? 0 then mpeg4_h264_avcc_nalu x m p bytes avcc else
  q ← avc_startcode m p bytes;
  avc_annexb_loop (Z.to_nat bytes) x m q (p + bytes).
End Units.

(** * Copying parameter sets *)

(** [data[*offset / 8] >> (7 - ( *offset % 8)) & 1] *)
Definition ue_bit (m : list Z) (p offset : Z) : outcome Z :=
  b ← ld m (p + offset / 8); Ok (Z.land (Z.shiftr b (7 - offset mod 8)) 1).

(** The leading zeros, from the -1 of the source, and where they end. *)
Fixpoint ue_zeros (fuel : nat) (m : list Z) (p bytes zeros offset : Z) : outcome (Z * Z) :=
  match fuel with
  | O => Ub
  | S fuel =>
      if offset / 8 <? bytes then
        bit ← ue_bit m p offset;
        if truth bit then Ok (zeros + 1, offset + 1) else ue_zeros fuel m p bytes (zeros + 1) (offset + 1)
      else Ok (zeros, offset)
  end.

(** [n] more bits. *)
Fixpoint ue_suffix (n : nat) (m : list Z) (p bytes bit offset : Z) : outcome (Z * Z) :=
  match n with
  | O => Ok (bit, offset)
  | S n =>
      if offset / 8 <? bytes then
        b ← ue_bit m p offset;
        bit ← int (bit * 2);
        ue_suffix n m p bytes (Z.lor bit b) (offset + 1)
      else Ok (bit, offset)
  end.

Definition mpeg4_h264_read_ue (m : list Z) (p bytes offset : Z) : outcome (Z * Z) :=
  '(zeros, offset) ← ue_zeros (S (Z.to_nat (8 * bytes))) m p bytes (-1) offset;
  '(bit, offset) ← ue_suffix (Z.to_nat zeros) m p bytes 0 offset;
  (* the shift is undefined for a negative count and for 31 or more *)
  if (zeros <? 0) || (31 <=? zeros) then Ub else
  v ← int (2 ^ zeros - 1 + bit);
  Ok (u8 v, offset).

Definition move_set (ptr bytes : Z) (s : avc_set) : avc_set :=
  match set_data s with
  | Some q => if q >? ptr then AvcSet (set_bytes s) (Some (q - bytes)) else s
  | None => s
  end.

(** [endp]: the end of the block in use. *)
Definition mpeg4_avc_remove a (ptr bytes endp : Z) : outcome mpeg4_avc_t :=
  l ← slice (data a) (ptr + bytes) (endp - ptr - bytes);
  d ← st (data a) ptr l;
  Ok (Avc (profile a) (compatibility a) (level a) (nalu a) (nb_sps a) (nb_pps a)
        (map (move_set ptr bytes) (take (Z.to_nat (nb_sps a)) (sps a)) ++ drop (Z.to_nat (nb_sps a)) (sps a))
        (map (move_set ptr bytes) (take (Z.to_nat (nb_pps a)) (pps a)) ++ drop (Z.to_nat (nb_pps a)) (pps a))
        (chroma_format_idc a) (bit_depth_luma_minus8 a) (bit_depth_chroma_minus8 a) d (off a)).

(** [memcpy] to the end of the block, which grows. *)
Definition append_set a (m : list Z) (p bytes : Z) : outcome (avc_set * mpeg4_avc_t) :=
  l ← slice m p bytes;
  d ← st (data a) (off a) l;
  Ok (AvcSet (u16 bytes) (Some (off a)), set_block a d (off a + bytes)).

(** Are the bytes of a set those at [p]? *)
Definition same_set a (s : avc_set) (m : list Z) (p bytes : Z) : outcome bool :=
  if bytes =? set_bytes s then
    l ← set_slice a s; k ← slice m p bytes; Ok (bool_decide (l = k))
  else Ok false.

(** The set takes a new place at the end of the block. *)
Definition replace_sps a (i : Z) (m : list Z) (p bytes : Z) : outcome (Z * mpeg4_avc_t) :=
  s ← ld (sps a) i;
  ptr ← (match set_data s with Some q => Ok q | None => Ub end);
  a ← mpeg4_avc_remove a ptr (set_bytes s) (off a);
  let a := set_block a (data a) (off a - set_bytes s) in
  '(s, a) ← append_set a m p bytes;
  l ← st (sps a) i [s];
  Ok (1, set_sps a (nb_sps a) l).
Definition replace_pps a (i : Z) (m : list Z) (p bytes : Z) : outcome (Z * mpeg4_avc_t) :=
  s ← ld (pps a) i;
  ptr ← (match set_data s with Some q => Ok q | None => Ub end);
  a ← mpeg4_avc_remove a ptr (set_bytes s) (off a);
  let a := set_block a (data a) (off a - set_bytes s) in
  '(s, a) ← append_set a m p bytes;
  l ← st (pps a) i [s];
  Ok (1, set_pps a (nb_pps a) l).

(** [read_ue] on a set of the table. *)
Definition set_read_ue a (s : avc_set) (offset : Z) : outcome (Z * Z) :=
  match set_data s with
  | Some q => mpeg4_h264_read_ue (data a) q (set_bytes s) offset
  | None => mpeg4_h264_read_ue [] 0 (set_bytes s) offset
  end.

(** The loop over the sets from [i], [n] of them left. *)
Fixpoint sps_loop (n : nat) (i : Z) a (spsid : Z) (m : list Z) (p bytes : Z) : outcome (Z * mpeg4_avc_t) :=
  match n with
  | O =>
      if (nb_sps a >=? AVC_SPS) || (off a + bytes >? AVC_DATA) then Ok (-1, a) else
      '(s, a) ← append_set a m p bytes;
      l ← st (sps a) (nb_sps a) [s];
      Ok (1, set_sps a (u8 (nb_sps a + 1)) l)
  | S n =>
      s ← ld (sps a) i;
      '(id, _) ← set_read_ue a s 32;
      if spsid =? id then
        same ← same_set a s m p bytes;
        if (same : bool) then Ok (0, a)
        else if (bytes >? set_bytes s) && (off a + (bytes - set_bytes s) >? AVC_DATA) then Ok (-1, a)
        else replace_sps a i m p bytes
      else sps_loop n (i + 1) a spsid m p bytes
  end.
Definition h264_sps_copy a (m : list Z) (p bytes : Z) : outcome (Z * mpeg4_avc_t) :=
  if bytes <? 5 then Ok (-1, a) else
  '(spsid, _) ← mpeg4_h264_read_ue m p bytes 32;
  sps_loop (Z.to_nat (nb_sps a)) 0 a spsid m p bytes.

Fixpoint pps_loop (n : nat) (i : Z) a (ppsid spsid : Z) (m : list Z) (p bytes : Z) : outcome (Z * mpeg4_avc_t) :=
  match n with
  | O =>
      (* the oldest set makes room; its size is not compared *)
      if (nb_pps a + 1 >=? AVC_PPS) && (nb_sps a >? 16) then replace_pps a 0 m p bytes
      else if (nb_pps a + 1 >=? AVC_PPS) || (off a + bytes >? AVC_DATA) then Ok (-1, a) else
      '(s, a) ← append_set a m p bytes;
      l ← st (pps a) (nb_pps a) [s];
      Ok (1, set_pps a (u8 (nb_pps a + 1)) l)
  | S n =>
      s ← ld (pps a) i;
      '(id, o) ← set_read_ue a s 8;
      hit ← (if ppsid =? id then '(sid, _) ← set_read_ue a s o; Ok (spsid =? sid) else Ok false);
      if (hit : bool) then
        same ← same_set a s m p bytes;
        if (same : bool) then Ok (0, a)
        else if (bytes >? set_bytes s) && (off a + (bytes - set_bytes s) >? AVC_DATA) then Ok (-1, a)
        else replace_pps a i m p bytes
      else pps_loop n (i + 1) a ppsid spsid m p bytes
  end.
Definition h264_pps_copy a (m : list Z) (p bytes : Z) : outcome (Z * mpeg4_avc_t) :=
  if bytes <? 2 then Ok (-1, a) else
  '(ppsid, o) ← mpeg4_h264_read_ue m p bytes 8;
  '(spsid, _) ← mpeg4_h264_read_ue m p bytes o;
  pps_loop (Z.to_nat (nb_pps a)) 0 a ppsid spsid m p bytes.

Definition H264_NAL_IDR : Z := 5.
Definition H264_NAL_SPS : Z := 7.
Definition H264_NAL_PPS : Z := 8.

Definition mpeg4_avc_update a (m : list Z) (p bytes : Z) : outcome (Z * mpeg4_avc_t) :=
  b ← ld m p;
  let type := Z.land b 0x1f in
  if type =? H264_NAL_SPS then
    '(r, a) ← h264_sps_copy a m p bytes;
    if (1 =? r) || (1 =? nb_sps a) then
      b1 ← ld m (p + 1); b2 ← ld m (p + 2); b3 ← ld m (p + 3);
      Ok (r, set_header a b1 b2 b3)
    else Ok (r, a)
  else if type =? H264_NAL_PPS then h264_pps_copy a m p bytes
  else Ok (0, a).

(** * Length-prefixed units: h264_annexbtomp4 *)

Record h264_annexbtomp4_handle_t := AnnexbToMp4 {
  h_avc : mpeg4_avc_t;
  errcode : Z;
  update : option Z;
  vcl : option Z;
  out : list Z;
  bytes_out : Z;
  capacity : Z
}.

Definition h264_handler (m : list Z) (h : h264_annexbtomp4_handle_t) (p bytes : Z) : outcome h264_annexbtomp4_handle_t :=
  if bytes <? 1 then Ok h else
  b ← ld m p;
  let nalutype := Z.land b 0x1f in
  '(r, a) ← mpeg4_avc_update (h_avc h) m p bytes;
  let upd := match update h with Some u => Some (if 1 =? r then 1 else u) | None => None end in
  let err := if (1 =? r) && (if update h then true else false) then errcode h else if r <? 0 then r else errcode h in
  let vcl := match vcl h with
             | Some v => Some (if (1 <=? nalutype) && (nalutype <=? H264_NAL_IDR) then if nalutype =? H264_NAL_IDR then 1 else 2 else v)
             | None => None
             end in
  if capacity h >=? bytes_out h + bytes + 4 then
    l ← slice m p bytes;
    o ← st (out h) (bytes_out h) ([u8 (Z.shiftr bytes 24); u8 (Z.shiftr bytes 16); u8 (Z.shiftr bytes 8); u8 bytes] ++ l);
    Ok (AnnexbToMp4 a err upd vcl o (bytes_out h + bytes + 4) (capacity h))
  else Ok (AnnexbToMp4 a (- E2BIG) upd vcl (out h) (bytes_out h) (capacity h)).

(** The code, and the structure with what was written. *)
Definition h264_annexbtomp4 a (m : list Z) (p bytes : Z) (out : list Z) (size : Z) (vcl update : option Z)
  : outcome (Z * h264_annexbtomp4_handle_t) :=
  let zero := λ o : option Z, match o with Some _ => Some 0 | None => None end in
  h ← mpeg4_h264_annexb_nalu (h264_handler m) (AnnexbToMp4 a 0 (zero update) (zero vcl) out 0 size) m p bytes;
  let h := AnnexbToMp4 (set_nalu (h_avc h) 4) (errcode h) (Avc.update h) (Avc.vcl h) (Avc.out h) (bytes_out h) (capacity h) in
  Ok (if 0 =? errcode h then s32 (bytes_out h) else 0, h).

(** The test of the first byte of an access unit. *)
Definition h264_is_new_access_unit (m : list Z) (p bytes : Z) : outcome Z :=
  if bytes <? 2 then Ok 0 else
  b ← ld m p;
  let t := Z.land b 0x1f in
  if (9 =? t) || (7 =? t) || (8 =? t) || (6 =? t) || ((14 <=? t) && (t <=? 18)) then Ok 1
  else if (1 =? t) || (2 =? t) || (5 =? t) then b1 ← ld m (p + 1); Ok (if truth (Z.land b1 0x80) then 1 else 0)
  else Ok 0.

(** * The configuration record: mpeg4-avc.c *)

(** The rounds of a loop over the sets of a record; [strict]: a byte must follow
    the set.  [Fail] is the return of -1. *)
Fixpoint load_sets (n : nat) (i : Z) (m : list Z) (bytes : Z) (strict : bool) (j p : Z) (d : list Z) (sets : list avc_set)
  : outcome (Z * Z * list Z * list avc_set) :=
  match n with
  | O => Ok (j, p, d, sets)
  | S n =>
      if j + 2 <? bytes then
        b0 ← ld m j; b1 ← ld m (j + 1);
        let len := u16 (Z.lor (Z.shiftl b0 8) b1) in
        if (if strict then j + 2 + len >=? bytes else j + 2 + len >? bytes) || (p + len >? AVC_DATA) then Fail (-1) else
        l ← slice m (j + 2) len;
        d ← st d p l;
        sets ← st sets i [AvcSet len (Some p)];
        load_sets n (i + 1) m bytes strict (j + len + 2) (p + len) d sets
      else Ok (j, p, d, sets)
  end.

Definition avc_record_load a (m : list Z) (bytes : Z) : outcome (Z * mpeg4_avc_t) :=
  if bytes <? 7 then Fail (-1) else
  b1 ← ld m 1; b2 ← ld m 2; b3 ← ld m 3; b4 ← ld m 4; b5 ← ld m 5;
  let nb_sps := Z.land b5 0x1f in
  if nb_sps >? AVC_SPS then Fail (-1) else
  '(j, p, d, s) ← load_sets (Z.to_nat nb_sps) 0 m bytes true 6 0 (data a) (sps a);
  if j >=? bytes then Fail (-1) else
  nb_pps ← ld m j;
  if nb_pps >? AVC_PPS then Fail (-1) else
  '(j, p, d, q) ← load_sets (Z.to_nat nb_pps) 0 m bytes false (j + 1) p d (pps a);
  Ok (j, Avc b1 b2 b3 (Z.land b4 3 + 1) nb_sps nb_pps s q
           (chroma_format_idc a) (bit_depth_luma_minus8 a) (bit_depth_chroma_minus8 a) d p).

(** A loop of the writer: [None] when a set does not fit. *)
Fixpoint save_sets (n : nat) (i : Z) a (sets : list avc_set) (m : list Z) (p bytes : Z) : outcome (option (list Z * Z * Z)) :=
  match n with
  | O => Ok (Some (m, p, bytes))
  | S n =>
      s ← ld sets i;
      if bytes >=? set_bytes s + 2 then
        m ← st m p [u8 (Z.land (Z.shiftr (set_bytes s) 8) 0xff); u8 (Z.land (set_bytes s) 0xff)];
        l ← set_slice a s;
        m ← st m (p + 2) l;
        save_sets n (i + 1) a sets m (p + 2 + set_bytes s) (bytes - (set_bytes s + 2))
      else Ok None
  end.

Definition extended_profile (profile : Z) : bool :=
  bool_decide (profile ∈ [100; 110; 122; 244; 44; 83; 86; 118; 128; 138; 139; 134]).

Definition mpeg4_avc_decoder_configuration_record_save a (m : list Z) (bytes : Z) : outcome (Z * list Z) :=
  if (bytes <? 7) || (nb_sps a >? 32) then Ok (-1, m) else
  m ← st m 0 [1; profile a; compatibility a; level a; u8 (Z.lor 0xfc (nalu a - 1)); u8 (Z.lor 0xe0 (nb_sps a))];
  r ← save_sets (Z.to_nat (nb_sps a)) 0 a (sps a) m 6 (bytes - 7);
  match r with
  | None => Ok (-1, m)
  | Some (m, p, bytes) =>
      m ← st m p [nb_pps a];
      r ← save_sets (Z.to_nat (nb_pps a)) 0 a (pps a) m (p + 1) bytes;
      match r with
      | None => Ok (-1, m)
      | Some (m, p, bytes) =>
          if (bytes >=? 4) && extended_profile (profile a) then
            m ← st m p [u8 (Z.lor 0xfc (chroma_format_idc a)); u8 (Z.lor 0xf8 (bit_depth_luma_minus8 a));
                        u8 (Z.lor 0xf8 (bit_depth_chroma_minus8 a)); 0];
            Ok (s32 (p + 4), m)
          else Ok (s32 p, m)
      end
  end.

Definition mpeg4_avc_from_nalu (m : list Z) (p bytes : Z) a : outcome (Z * mpeg4_avc_t) :=
  '(r, h) ← h264_annexbtomp4 a m p bytes [] 0 None None;
  let a := h_avc h in
  Ok (if (nb_sps a >? 0) && (nb_pps a >? 0) then s32 bytes else r, a).

(** The macro: does the set begin with a start code? *)
Definition H264_STARTCODE a (s : avc_set) : outcome bool :=
  q ← (match set_data s with Some q => Ok q | None => Ub end);
  b0 ← ld (data a) q; if negb (b0 =? 0) then Ok false else
  b1 ← ld (data a) (q + 1); if negb (b1 =? 0) then Ok false else
  b2 ← ld (data a) (q + 2); if b2 =? 1 then Ok true else if negb (b2 =? 0) then Ok false else
  b3 ← ld (data a) (q + 3); Ok (b3 =? 1).

(** A loop of [mpeg4_avc_to_nalu]; [room]: what a set needs besides its bytes. *)
Fixpoint nalu_sets (n : nat) (i : Z) a (sets : list avc_set) (room : Z) (m : list Z) (k bytes : Z) : outcome (option (list Z * Z)) :=
  match n with
  | O => Ok (Some (m, k))
  | S n =>
      s ← ld sets i;
      if bytes >=? k + set_bytes s + room then
        code ← (if set_bytes s <? 4 then Ok false else H264_STARTCODE a s);
        '(m, k) ← (if (code : bool) then Ok (m, k) else m ← st m k [0; 0; 0; 1]; Ok (m, k + 4));
        l ← set_slice a s;
        m ← st m k l;
        nalu_sets n (i + 1) a sets room m (k + set_bytes s) bytes
      else Ok None
  end.
Definition mpeg4_avc_to_nalu a (m : list Z) (bytes : Z) : outcome (Z * list Z) :=
  r ← nalu_sets (Z.to_nat (nb_sps a)) 0 a (sps a) 4 m 0 bytes;
  match r with
  | None => Ok (-1, m)
  | Some (m, k) =>
      r ← nalu_sets (Z.to_nat (nb_pps a)) 0 a (pps a) 2 m k bytes;
      match r with None => Ok (-1, m) | Some (m, k) => Ok (s32 k, m) end
  end.

Definition mpeg4_avc_decoder_configuration_record_load (m : list Z) (bytes : Z) a : outcome (Z * mpeg4_avc_t) :=
  match avc_record_load a m bytes with
  | Ub => Ub
  | Fail _ => mpeg4_avc_from_nalu m 0 bytes avc_zero
  | Ok (r, b) => if (r >? 0) && (nb_sps b >? 0) && (nb_pps b >? 0) then Ok (r, b) else mpeg4_avc_from_nalu m 0 bytes avc_zero
  end.

(** * Back to start codes: mpeg4-mp4toannexb.c *)

Record h264_mp4toannexb_handle_t := Mp4ToAnnexb {
  sps_pps_flag : Z;
  m_errcode : Z;
  m_out : list Z;
  m_bytes : Z;
  m_capacity : Z
}.

Definition h264_sps_pps_size a : Z :=
  foldr (λ s n, set_bytes s + 4 + n) 0 (take (Z.to_nat (nb_sps a)) (sps a) ++ take (Z.to_nat (nb_pps a)) (pps a)).

(** The parameter sets go before the first IDR picture; [None]: an error was
    recorded and the handler returns. *)
Definition insert_sets a (h : h264_mp4toannexb_handle_t) : outcome (bool * h264_mp4toannexb_handle_t) :=
  let error := λ e, Ok (false, Mp4ToAnnexb (sps_pps_flag h) e (m_out h) (m_bytes h) (m_capacity h)) in
  let n := h264_sps_pps_size a in
  if (m_bytes h >? 0) && (n + m_bytes h >? m_capacity h) then error (- E2BIG) else
  o ← (if m_bytes h >? 0 then l ← slice (m_out h) 0 (m_bytes h); st (m_out h) n l else Ok (m_out h));
  '(n, o) ← mpeg4_avc_to_nalu a o (m_capacity h);
  if n <=? 0 then Ok (false, Mp4ToAnnexb (sps_pps_flag h) (if 0 =? n then - EINVAL else n) o (m_bytes h) (m_capacity h))
  else Ok (true, Mp4ToAnnexb 1 (m_errcode h) o (m_bytes h + n) (m_capacity h)).

Definition h264_mp4toannexb_handler a (m : list Z) (h : h264_mp4toannexb_handle_t) (p bytes : Z) : outcome h264_mp4toannexb_handle_t :=
  if bytes <? 1 then Ok (Mp4ToAnnexb (sps_pps_flag h) (- EINVAL) (m_out h) (m_bytes h) (m_capacity h)) else
  b ← ld m p;
  let t := Z.land b 0x1f in
  '(ok, h) ← (if (t =? H264_NAL_SPS) || (t =? H264_NAL_PPS) then Ok (true, Mp4ToAnnexb 1 (m_errcode h) (m_out h) (m_bytes h) (m_capacity h))
              else if (t =? H264_NAL_IDR) && (0 =? sps_pps_flag h) then insert_sets a h
              else Ok (true, h));
  if negb ok then Ok h else
  if m_bytes h + bytes + 4 >? m_capacity h then Ok (Mp4ToAnnexb (sps_pps_flag h) (- E2BIG) (m_out h) (m_bytes h) (m_capacity h)) else
  l ← slice m p bytes;
  o ← st (m_out h) (m_bytes h) ([0; 0; 0; 1] ++ l);
  Ok (Mp4ToAnnexb (sps_pps_flag h) (m_errcode h) o (m_bytes h + 4 + bytes) (m_capacity h)).

(** [n = (n << 8) + src[i]] on an int. *)
Fixpoint read_length (k : nat) (i : Z) (m : list Z) (p n : Z) : outcome Z :=
  match k with
  | O => Ok n
  | S k => b ← ld m (p + i); n ← int (n * 256); n ← int (n + b); read_length k (i + 1) m p n
  end.

(** Every round takes a length and at least one byte, or is the last. *)
Fixpoint mp4toannexb_loop (fuel : nat) a (h : h264_mp4toannexb_handle_t) (m : list Z) (src endp : Z) : outcome h264_mp4toannexb_handle_t :=
  if src + nalu a <? endp then
    match fuel with
    | O => Ub
    | S fuel =>
        n ← read_length (Z.to_nat (nalu a)) 0 m src 0;
        if (0 =? nalu a) || ((1 =? n) && ((3 =? nalu a) || (4 =? nalu a))) then
          mpeg4_h264_annexb_nalu (h264_mp4toannexb_handler a m) h m src (endp - src)
        else if (n <=? 0) || (src + n + nalu a >? endp) then Fail (- EINVAL)
        else
          h ← h264_mp4toannexb_handler a m h (src + nalu a) n;
          mp4toannexb_loop fuel a h m (src + (n + nalu a)) endp
    end
  else Ok h.

(** The number of bytes and the buffer. *)
Definition h264_mp4toannexb a (m : list Z) (bytes : Z) (out : list Z) (size : Z) : outcome (Z * list Z) :=
  h ← mp4toannexb_loop (Z.to_nat bytes) a (Mp4ToAnnexb 0 0 out 0 size) m 0 bytes;
  Ok (if 0 =? m_errcode h then s32 (m_bytes h) else 0, m_out h).
