(* ===== verification/AvcSpec.v ===== *)
(** What the parameter sets of a [struct mpeg4_avc_t] are: two lists of byte
    strings, of which copying a set replaces the one with its numbers or adds
    one, however the copies are laid out and moved in the block. *)
From S2P Require Import Prelude RtpH264 Avc.

Implicit Types (m c : list Z) (p q offset : Z) (a : mpeg4_avc_t).

(** * Exp-Golomb numbers *)

(** Reading depends only on the bytes of the set. *)
Lemma holds_ld_in m p c k : holds m p c → 0 ≤ k < zlen c → ld m (p + k) = ld c k.
Proof.
  intros (Hp & Hz & H) Hk. rewrite <- H. unfold ld. destruct (Z.ltb_spec (p + k) 0), (Z.ltb_spec k 0); try lia.
  rewrite lookup_sub by lia. by rewrite Z2Nat.inj_add by lia.
Qed.

Lemma ue_bit_local m p c offset : holds m p c → 0 ≤ offset → offset / 8 < zlen c → ue_bit m p offset = ue_bit c 0 offset.
Proof. intros H Ho Hb. unfold ue_bit. rewrite (holds_ld_in m p c) by (done || dlia). by rewrite Z.add_0_l. Qed.

Lemma ue_zeros_local m p c fuel z offset : holds m p c → 0 ≤ offset →
  ue_zeros fuel m p (zlen c) z offset = ue_zeros fuel c 0 (zlen c) z offset.
Proof.
  intros H. revert z offset. induction fuel as [|fuel IH]; intros z offset Ho; cbn [ue_zeros]; [done|].
  destruct (Z.ltb_spec (offset / 8) (zlen c)); [|done]. rewrite (ue_bit_local m p c) by done.
  destruct (ue_bit c 0 offset) as [| |b]; run; try done. destruct (truth b); [done|]. apply IH. lia.
Qed.

Lemma ue_suffix_local m p c n bit offset : holds m p c → 0 ≤ offset →
  ue_suffix n m p (zlen c) bit offset = ue_suffix n c 0 (zlen c) bit offset.
Proof.
  intros H. revert bit offset. induction n as [|n IH]; intros bit offset Ho; cbn [ue_suffix]; [done|].
  destruct (Z.ltb_spec (offset / 8) (zlen c)); [|done]. rewrite (ue_bit_local m p c) by done.
  destruct (ue_bit c 0 offset); run; try done. destruct (int (bit * 2)); run; try done. apply IH. lia.
Qed.

Lemma ue_zeros_offset m p bytes fuel z offset z' offset' : ue_zeros fuel m p bytes z offset = Ok (z', offset') → offset ≤ offset'.
Proof.
  revert z offset. induction fuel as [|fuel IH]; intros z offset; cbn [ue_zeros]; [done|].
  destruct (offset / 8 <? bytes); [|intros [= _ ->]; lia]. destruct (ue_bit m p offset); run; try done.
  destruct (truth a); [intros [= _ <-]; lia|]. intros ?%IH. lia.
Qed.

Lemma read_ue_local m p c offset : holds m p c → 0 ≤ offset →
  mpeg4_h264_read_ue m p (zlen c) offset = mpeg4_h264_read_ue c 0 (zlen c) offset.
Proof.
  intros H Ho. unfold mpeg4_h264_read_ue. rewrite (ue_zeros_local m p c) by done.
  destruct (ue_zeros _ c _ _ _ _) as [| |[z o]] eqn:E; run; try done. apply ue_zeros_offset in E.
  by rewrite (ue_suffix_local m p c) by (done || lia).
Qed.

Lemma ue_suffix_offset m p bytes n bit offset b' offset' : ue_suffix n m p bytes bit offset = Ok (b', offset') → offset ≤ offset'.
Proof.
  revert bit offset. induction n as [|n IH]; intros bit offset; cbn [ue_suffix]; [intros [= _ ->]; lia|].
  destruct (offset / 8 <? bytes); [|intros [= _ ->]; lia]. destruct (ue_bit m p offset); run; try done.
  destruct (int (bit * 2)); run; try done. intros ?%IH. lia.
Qed.
Lemma read_ue_offset m p bytes offset v o : mpeg4_h264_read_ue m p bytes offset = Ok (v, o) → offset ≤ o.
Proof.
  unfold mpeg4_h264_read_ue. destruct (ue_zeros _ _ _ _ _ _) as [| |[z o1]] eqn:E1; run; try done.
  destruct (ue_suffix _ _ _ _ _ _) as [| |[b o2]] eqn:E2; run; try done. destruct (_ || _); [done|].
  destruct (int _); run; try done. intros [= _ <-]. apply ue_zeros_offset in E1. apply ue_suffix_offset in E2. lia.
Qed.

(** The numbers in a set; [None]: reading them is undefined. *)
Definition ue_at (c : list Z) (offset : Z) : option (Z * Z) :=
  match mpeg4_h264_read_ue c 0 (zlen c) offset with Ok r => Some r | _ => None end.
Definition sps_id (c : list Z) : option Z := fst <$> ue_at c 32.
Definition pps_id (c : list Z) : option (Z * Z) :=
  match ue_at c 8 with Some (p, o) => match ue_at c o with Some (s, _) => Some (p, s) | None => None end | None => None end.

Lemma ue_at_holds m p c offset v o : holds m p c → 0 ≤ offset → ue_at c offset = Some (v, o) →
  mpeg4_h264_read_ue m p (zlen c) offset = Ok (v, o).
Proof.
  intros H Ho. rewrite (read_ue_local m p c) by done. unfold ue_at. destruct (mpeg4_h264_read_ue c _ _ _); try done. by intros [= ->].
Qed.

(** * The block *)

(** The sets in the order of their copies. *)
Fixpoint laid (p : Z) (e : list (avc_set * list Z)) : Prop :=
  match e with
  | [] => True
  | (s, c) :: e => s = AvcSet (zlen c) (Some p) ∧ laid (p + zlen c) e
  end.

Definition contents (e : list (avc_set * list Z)) : list Z := concat e.*2.
Definition used {A} (n : Z) (l : list A) : list A := take (Z.to_nat n) l.
Definition set_ok (c : list Z) : Prop := 0 < zlen c ≤ AVC_DATA.

Record avc_repr a (S P : list (list Z)) : Prop := AvcRepr {
  ar_sps : length (sps a) = Z.to_nat AVC_SPS; ar_pps : length (pps a) = Z.to_nat AVC_PPS;
  ar_nb_sps : nb_sps a = zlen S; ar_nb_pps : nb_pps a = zlen P;
  ar_max_sps : zlen S ≤ AVC_SPS; ar_max_pps : zlen P < AVC_PPS;
  ar_sets : Forall set_ok (S ++ P);
  ar_block : ∃ e rest, laid 0 e ∧ e ≡ₚ zip (used (nb_sps a) (sps a)) S ++ zip (used (nb_pps a) (pps a)) P ∧
    data a = contents e ++ rest ∧ off a = zlen (contents e) ∧ zlen (data a) = AVC_DATA
}.

Lemma contents_app e f : contents (e ++ f) = contents e ++ contents f.
Proof. unfold contents. by rewrite fmap_app, concat_app. Qed.

Lemma laid_app p e f : laid p (e ++ f) ↔ laid p e ∧ laid (p + zlen (contents e)) f.
Proof.
  revert p. induction e as [|[s c] e IH]; intros p; cbn [app laid].
  - change (zlen (contents [])) with 0. rewrite Z.add_0_r. tauto.
  - rewrite IH. change (contents ((s, c) :: e)) with (c ++ contents e). rewrite zlen_app, Z.add_assoc. tauto.
Qed.

Lemma laid_holds p e pre rest s c : laid p e → (s, c) ∈ e → zlen pre = p →
  ∃ q, s = AvcSet (zlen c) (Some q) ∧ p ≤ q ∧ q + zlen c ≤ p + zlen (contents e) ∧ holds (pre ++ contents e ++ rest) q c.
Proof.
  revert p pre. induction e as [|[s' c'] e IH]; intros p pre Hl Hin Hp; [by apply elem_of_nil in Hin|]. destruct Hl as [-> Hl].
  change (contents ((_, c') :: e)) with (c' ++ contents e). rewrite zlen_app.
  pose proof (zlen_nonneg (contents e)). pose proof (zlen_nonneg c').
  apply elem_of_cons in Hin as [[= -> ->]|Hin].
  - exists p. split_and!; [done|lia|lia|]. pose proof (holds_whole (pre ++ (c' ++ contents e) ++ rest)) as Hw.
    rewrite <- app_assoc in *. rewrite !holds_app in Hw. destruct Hw as (_ & Hw & _). by rewrite Z.add_0_l, Hp in Hw.
  - destruct (IH (p + zlen c') (pre ++ c') Hl Hin) as (q & -> & H1 & H2 & H3); [rewrite zlen_app; lia|].
    exists q. split_and!; [done|lia|lia|]. by rewrite <- !app_assoc in *.
Qed.

Record block a (e : list (avc_set * list Z)) : Prop := Block {
  bk_laid : laid 0 e;
  bk_data : ∃ rest, data a = contents e ++ rest;
  bk_off : off a = zlen (contents e);
  bk_size : zlen (data a) = AVC_DATA
}.

Lemma block_holds a e s c : block a e → (s, c) ∈ e →
  ∃ q, s = AvcSet (zlen c) (Some q) ∧ 0 ≤ q ∧ q + zlen c ≤ off a ∧ holds (data a) q c.
Proof.
  intros [Hl [rest Hd] Ho _] Hin. destruct (laid_holds 0 e [] rest s c Hl Hin eq_refl) as (q & -> & H1 & H2 & H3).
  exists q. rewrite Hd, Ho. done.
Qed.

Lemma block_bound a e : block a e → off a ≤ AVC_DATA.
Proof. intros [_ [rest Hd] -> <-]. rewrite Hd, zlen_app. pose proof (zlen_nonneg rest). lia. Qed.

Lemma append_set_ok a e m p c : block a e → holds m p c → off a + zlen c ≤ AVC_DATA →
  let s := AvcSet (zlen c) (Some (off a)) in
  append_set a m p (zlen c) = Ok (s, set_block a (put (data a) (off a) c) (off a + zlen c)) ∧
  block (set_block a (put (data a) (off a) c) (off a + zlen c)) (e ++ [(s, c)]).
Proof.
  intros [Hl [rest Hd] Ho Hs] Hc Hb s. pose proof (zlen_nonneg c). pose proof (zlen_nonneg (contents e)). unfold append_set.
  rewrite (holds_slice m p c) by done. run. rewrite st_ok by lia. run.
  rewrite u16_id by (unfold is_uint, AVC_DATA in *; dlia). split; [done|]. split; cbn [data off set_block].
  - apply laid_app. split; [done|]. cbn. by rewrite Z.add_0_l, <- Ho.
  - exists (drop (length c) rest). rewrite Hd, Ho, contents_app. unfold put, zlen. rewrite Nat2Z.id.
    rewrite take_app_length, drop_app_add, <- app_assoc. unfold contents at 3. cbn. by rewrite app_nil_r.
  - rewrite contents_app, zlen_app, Ho. change (contents [(s, c)]) with (c ++ []). by rewrite app_nil_r.
  - rewrite zlen_put by lia. done.
Qed.

Definition shift_set (q n : Z) (x : avc_set * list Z) : avc_set * list Z := (move_set q n x.1, x.2).

Lemma laid_shift q n p e : laid p e → q + n ≤ p → 0 < n → laid (p - n) (map (shift_set q n) e).
Proof.
  revert p. induction e as [|[s c] e IH]; intros p Hl Hp Hn; cbn [map laid]; [done|]. destruct Hl as [-> Hl].
  unfold shift_set at 1. cbn [fst snd move_set set_data set_bytes]. rewrite Z.gtb_ltb. destruct (Z.ltb_spec q p); [|lia].
  split; [done|]. pose proof (zlen_nonneg c). replace (p - n + zlen c) with (p + zlen c - n) by lia. apply IH; [done|lia|done].
Qed.
Lemma laid_unshifted q n p e : laid p e → p + zlen (contents e) ≤ q → map (shift_set q n) e = e.
Proof.
  revert p. induction e as [|[s c] e IH]; intros p Hl Hp; cbn [map]; [done|]. destruct Hl as [-> Hl].
  change (contents ((_, c) :: e)) with (c ++ contents e) in Hp. rewrite zlen_app in Hp. pose proof (zlen_nonneg c). pose proof (zlen_nonneg (contents e)).
  rewrite (IH (p + zlen c)) by (done || lia). f_equal. unfold shift_set. cbn [fst snd move_set set_data set_bytes].
  rewrite Z.gtb_ltb. by destruct (Z.ltb_spec q p); [lia|].
Qed.
Lemma contents_shift q n e : contents (map (shift_set q n) e) = contents e.
Proof. unfold contents. f_equal. induction e as [|x e IH]; [done|]. cbn [map fmap list_fmap] in *. by rewrite IH. Qed.

Definition moved (q n k : Z) (l : list avc_set) : list avc_set := map (move_set q n) (used k l) ++ drop (Z.to_nat k) l.

Lemma replace_core a e s c0 q m p c : block a e → (s, c0) ∈ e → s = AvcSet (zlen c0) (Some q) → 0 < zlen c0 →
  holds m p c → off a + (zlen c - zlen c0) ≤ AVC_DATA →
  let t := AvcSet (zlen c) (Some (off a - zlen c0)) in
  ∃ a1 a2 e', mpeg4_avc_remove a q (zlen c0) (off a) = Ok a1 ∧
    append_set (set_block a1 (data a1) (off a1 - zlen c0)) m p (zlen c) = Ok (t, a2) ∧
    a2 = Avc (profile a) (compatibility a) (level a) (nalu a) (nb_sps a) (nb_pps a) (moved q (zlen c0) (nb_sps a) (sps a))
           (moved q (zlen c0) (nb_pps a) (pps a)) (chroma_format_idc a) (bit_depth_luma_minus8 a) (bit_depth_chroma_minus8 a) (data a2)
           (off a - zlen c0 + zlen c) ∧
    block a2 e' ∧ ∀ r, e ≡ₚ (s, c0) :: r → e' ≡ₚ (t, c) :: map (shift_set q (zlen c0)) r.
Proof.
  intros Hbk Hin Hs H0 Hm Hroom t. pose proof (zlen_nonneg c). pose proof (block_bound a e Hbk) as Hbound.
  destruct Hbk as [Hl [rest Hd] Ho Hsz]. apply list_elem_of_split in Hin as (e1 & e2 & ->).
  apply laid_app in Hl as [Hl1 [Hs' Hl2]]. rewrite Z.add_0_l in Hs', Hl2. rewrite Hs in Hs'. injection Hs' as ->.
  set (q := zlen (contents e1)) in *. pose proof (zlen_nonneg (contents e1)). pose proof (zlen_nonneg (contents e2)). pose proof (zlen_nonneg rest).
  rewrite contents_app in Hd, Ho. change (contents ((s, c0) :: e2)) with (c0 ++ contents e2) in Hd, Ho. rewrite !zlen_app in Ho.
  assert (slice (data a) (q + zlen c0) (off a - q - zlen c0) = Ok (contents e2)) as Hsl.
  { rewrite Hd. apply holds_slice; [|lia]. pose proof (holds_whole ((contents e1 ++ c0 ++ contents e2) ++ rest)) as Hw.
    set (k := ((contents e1 ++ _) ++ rest)) in Hw at 1 |- *. rewrite !holds_app in Hw. destruct Hw as ((_ & _ & Hw) & _).
    by rewrite Z.add_0_l in Hw. }
  set (d := put (data a) q (contents e2)).
  assert (st (data a) q (contents e2) = Ok d) as Hst by (apply st_ok; lia).
  assert (∃ tail, d = (contents e1 ++ contents e2) ++ tail) as [tail Htail].
  { exists (drop (Z.to_nat q + length (contents e2)) (data a)). unfold d, put. rewrite Hd at 1. rewrite <- !app_assoc.
    unfold q, zlen. by rewrite Nat2Z.id, take_app_length. }
  eexists. unfold mpeg4_avc_remove. rewrite Hsl. run. rewrite Hst. run.
  set (a1 := Avc _ _ _ _ _ _ _ _ _ _ _ _ _).
  set (b1 := set_block a1 (data a1) (off a1 - zlen c0)).
  assert (block b1 (e1 ++ map (shift_set q (zlen c0)) e2)) as Hb1.
  { split; cbn [data off set_block b1 a1].
    - apply laid_app. split; [done|]. rewrite Z.add_0_l. replace (zlen (contents e1)) with (q + zlen c0 - zlen c0) by lia.
      apply laid_shift; [done|lia|done].
    - exists tail. by rewrite contents_app, contents_shift.
    - rewrite contents_app, contents_shift, zlen_app. lia.
    - unfold d. rewrite zlen_put by lia. done. }
  destruct (append_set_ok b1 _ m p c Hb1 Hm) as [Ea Hb2]; [cbn [off set_block b1 a1]; lia|].
  eexists _, _. split; [done|]. split; [exact Ea|]. split; [done|]. split; [exact Hb2|].
  intros r Hr. change (off b1) with (off a - zlen c0). fold t.
  assert (e1 ++ e2 ≡ₚ r) as <-.
  { apply (Permutation_cons_inv (a := (s, c0))). rewrite <- Hr. apply Permutation_middle. }
  rewrite map_app, (laid_unshifted q (zlen c0) 0 e1) by (done || lia). by rewrite Permutation_app_comm.
Qed.

(** * The tables *)

Implicit Types (S P : list (list Z)).

Definition table (n : Z) (l : list avc_set) S : list (avc_set * list Z) := zip (used n l) S.

Lemma table_lookup n l S (i : nat) c : n = zlen S → (length S ≤ length l)%nat → S !! i = Some c →
  ∃ s, l !! i = Some s ∧ table n l S !! i = Some (s, c).
Proof.
  intros -> Hl Hc. pose proof (lookup_lt_Some _ _ _ Hc) as Hi.
  destruct (lookup_lt_is_Some_2 l i) as [s Hs]; [lia|]. exists s. split; [done|].
  unfold table, used, zlen. rewrite Nat2Z.id. rewrite lookup_zip_with. rewrite lookup_take_lt by done. rewrite Hs. cbn. by rewrite Hc.
Qed.

Lemma table_moved q k n l S : table n (moved q k n l) S = map (shift_set q k) (table n l S).
Proof.
  unfold table, moved, used.
  assert (take (Z.to_nat n) (map (move_set q k) (take (Z.to_nat n) l) ++ drop (Z.to_nat n) l) = map (move_set q k) (take (Z.to_nat n) l)) as ->.
  { destruct (decide (Z.to_nat n ≤ length l)%nat).
    - apply take_app_length'. rewrite length_map, length_take. lia.
    - rewrite (drop_ge l), app_nil_r by lia. apply take_ge. rewrite length_map, length_take. lia. }
  generalize (take (Z.to_nat n) l). intros x. revert S. induction x as [|y x IH]; intros [|c S]; cbn; try done. by rewrite IH.
Qed.

Lemma length_moved q k n l : length (moved q k n l) = length l.
Proof. unfold moved, used. rewrite length_app, length_map, length_take, length_drop. lia. Qed.

Lemma table_insert n l S (i : nat) s c : n = zlen S → (length S ≤ length l)%nat → (i < length S)%nat →
  table n (<[i := s]> l) (<[i := c]> S) = <[i := (s, c)]> (table n l S).
Proof.
  intros -> Hl Hi. unfold table, used, zlen. rewrite Nat2Z.id, take_insert_lt by done. by rewrite insert_zip_with.
Qed.

Lemma table_snoc n l S s c : n = zlen S → (length S < length l)%nat →
  table (n + 1) (<[length S := s]> l) (S ++ [c]) = table n l S ++ [(s, c)].
Proof.
  intros -> Hl. unfold table, used, zlen. replace (Z.to_nat (Z.of_nat (length S) + 1)) with (Datatypes.S (length S)) by lia. rewrite Nat2Z.id.
  rewrite (take_S_r _ _ s) by (by rewrite list_lookup_insert_eq). rewrite take_insert_ge by lia.
  rewrite zip_with_app by (rewrite length_take; lia). done.
Qed.

Lemma st_insert {A} (l : list A) (i : Z) x : 0 ≤ i < zlen l → st l i [x] = Ok (<[Z.to_nat i := x]> l).
Proof.
  intros Hi. rewrite st_ok by (change (zlen [x]) with 1; lia). f_equal. unfold put. change (length [x]) with 1%nat.
  unfold zlen in *. rewrite insert_take_drop by lia. cbn. do 3 f_equal. lia.
Qed.

Lemma insert_permutation {A} (l : list A) (i : nat) x : l !! i = Some x → ∃ r, l ≡ₚ x :: r ∧ ∀ y, <[i := y]> l ≡ₚ y :: r.
Proof.
  intros Hx. pose proof (lookup_lt_Some _ _ _ Hx). exists (take i l ++ drop (Datatypes.S i) l). split.
  - rewrite <- (take_drop_middle l i x) at 1 by done. by rewrite Permutation_middle.
  - intros z. rewrite insert_take_drop by done. by rewrite Permutation_middle.
Qed.

Lemma repr_block a S P : avc_repr a S P →
  ∃ e, block a e ∧ e ≡ₚ table (nb_sps a) (sps a) S ++ table (nb_pps a) (pps a) P.
Proof. intros [? ? ? ? ? ? ? (e & rest & Hl & He & Hd & Ho & Hs)]. exists e. split; [split; eauto|done]. Qed.

(** The bytes in use. *)
Definition total S P : Z := zlen (concat (S ++ P)).

Lemma zip_contents n l S : n = zlen S → (length S ≤ length l)%nat → (table n l S).*2 = S.
Proof. intros -> Hl. unfold table, used, zlen. rewrite Nat2Z.id. apply snd_zip. rewrite length_take. lia. Qed.

Lemma concat_permutation (l k : list (list Z)) : l ≡ₚ k → zlen (concat l) = zlen (concat k).
Proof.
  intros H. unfold zlen. f_equal. induction H; cbn; rewrite ?length_app; lia.
Qed.

Lemma repr_total a S P : avc_repr a S P → off a = total S P.
Proof.
  intros Hr. destruct (repr_block a S P Hr) as (e & [_ _ Ho _] & He). destruct Hr. rewrite Ho. unfold contents, total.
  apply concat_permutation. rewrite He, fmap_app, !zip_contents; try done; unfold zlen, AVC_SPS, AVC_PPS in *; lia.
Qed.

(** A set of a table. *)
Lemma repr_sps a S P (i : nat) c : avc_repr a S P → S !! i = Some c →
  ∃ q, ld (sps a) (Z.of_nat i) = Ok (AvcSet (zlen c) (Some q)) ∧ holds (data a) q c ∧ 0 ≤ q ∧ q + zlen c ≤ off a ∧
    table (nb_sps a) (sps a) S !! i = Some (AvcSet (zlen c) (Some q), c).
Proof.
  intros Hr Hc. destruct (repr_block a S P Hr) as (e & Hb & He).
  destruct (table_lookup (nb_sps a) (sps a) S i c) as (s & Hs & Ht); [apply Hr|destruct Hr; unfold zlen, AVC_SPS in *; lia|done|].
  assert ((s, c) ∈ e) as Hin by (rewrite He; apply elem_of_app; left; by eapply list_elem_of_lookup_2).
  destruct (block_holds a e s c Hb Hin) as (q & -> & ? & ? & ?). exists q. split; [apply ld_lookup; [lia|by rewrite Nat2Z.id]|done].
Qed.
Lemma repr_pps a S P (i : nat) c : avc_repr a S P → P !! i = Some c →
  ∃ q, ld (pps a) (Z.of_nat i) = Ok (AvcSet (zlen c) (Some q)) ∧ holds (data a) q c ∧ 0 ≤ q ∧ q + zlen c ≤ off a ∧
    table (nb_pps a) (pps a) P !! i = Some (AvcSet (zlen c) (Some q), c).
Proof.
  intros Hr Hc. destruct (repr_block a S P Hr) as (e & Hb & He).
  destruct (table_lookup (nb_pps a) (pps a) P i c) as (s & Hs & Ht); [apply Hr|destruct Hr; unfold zlen, AVC_PPS in *; lia|done|].
  assert ((s, c) ∈ e) as Hin by (rewrite He; apply elem_of_app; right; by eapply list_elem_of_lookup_2).
  destruct (block_holds a e s c Hb Hin) as (q & -> & ? & ? & ?). exists q. split; [apply ld_lookup; [lia|by rewrite Nat2Z.id]|done].
Qed.

Definition header a := (profile a, compatibility a, level a, nalu a, (chroma_format_idc a, bit_depth_luma_minus8 a, bit_depth_chroma_minus8 a)).

Lemma set_ok_insert S P (i : nat) c : Forall set_ok (S ++ P) → set_ok c → Forall set_ok (<[i := c]> S ++ P).
Proof. intros [H1 H2]%Forall_app Hc. apply Forall_app. split; [by apply Forall_insert|done]. Qed.

Lemma insert_map_permutation {A} (f : A → A) (l r : list A) (i : nat) x y : l !! i = Some x → l ≡ₚ x :: r →
  <[i := y]> (map f l) ≡ₚ y :: map f r.
Proof.
  intros Hx Hr. destruct (insert_permutation (map f l) i (f x)) as (r' & H1 & H2).
  { change (map f l) with (f <$> l). by rewrite list_lookup_fmap, Hx. }
  rewrite H2. f_equiv. apply (Permutation_cons_inv (a := f x)). rewrite <- H1. by rewrite Hr.
Qed.

(** A set replaced by a new copy: the new structure, and what is left to store,
    the entry of the table. *)
Lemma replace_ok a S P s c0 q m p c : avc_repr a S P → set_ok c0 → set_ok c → holds m p c →
  off a + (zlen c - zlen c0) ≤ AVC_DATA → s = AvcSet (zlen c0) (Some q) →
  (s, c0) ∈ table (nb_sps a) (sps a) S ++ table (nb_pps a) (pps a) P →
  ∃ a1 a2 t e' rest, mpeg4_avc_remove a q (zlen c0) (off a) = Ok a1 ∧
    append_set (set_block a1 (data a1) (off a1 - zlen c0)) m p (zlen c) = Ok (t, a2) ∧ header a2 = header a ∧
    nb_sps a2 = nb_sps a ∧ nb_pps a2 = nb_pps a ∧
    sps a2 = moved q (zlen c0) (nb_sps a) (sps a) ∧ pps a2 = moved q (zlen c0) (nb_pps a) (pps a) ∧
    laid 0 e' ∧ data a2 = contents e' ++ rest ∧ off a2 = zlen (contents e') ∧ zlen (data a2) = AVC_DATA ∧
    ∀ r, table (nb_sps a) (sps a) S ++ table (nb_pps a) (pps a) P ≡ₚ (s, c0) :: r → e' ≡ₚ (t, c) :: map (shift_set q (zlen c0)) r.
Proof.
  intros Hr Hc0 Hc Hm Hroom Hs Hin. destruct (repr_block a S P Hr) as (e & Hb & He). rewrite <- He in Hin.
  destruct (replace_core a e s c0 q m p c Hb Hin Hs ltac:(apply Hc0) Hm Hroom) as (a1 & a2 & e' & Erm & Eap & Ea2 & [B1 [rest B2] B3 B4] & Hperm).
  exists a1, a2, (AvcSet (zlen c) (Some (off a - zlen c0))), e', rest. split; [exact Erm|]. split; [exact Eap|].
  assert (∀ r, table (nb_sps a) (sps a) S ++ table (nb_pps a) (pps a) P ≡ₚ (s, c0) :: r → e ≡ₚ (s, c0) :: r) as Hper by (intros r <-; exact He).
  pose proof (f_equal header Ea2) as F1. pose proof (f_equal nb_sps Ea2) as F2. pose proof (f_equal nb_pps Ea2) as F3.
  pose proof (f_equal sps Ea2) as F4. pose proof (f_equal pps Ea2) as F5.
  repeat (split; [assumption|]). intros r Hr'. by apply Hperm, Hper.
Qed.

Lemma replace_sps_ok a S P (i : nat) c0 m p c : avc_repr a S P → S !! i = Some c0 → set_ok c → holds m p c →
  off a + (zlen c - zlen c0) ≤ AVC_DATA →
  ∃ b, replace_sps a (Z.of_nat i) m p (zlen c) = Ok (1, b) ∧ avc_repr b (<[i := c]> S) P ∧ header b = header a.
Proof.
  intros Hr Hi Hc Hm Hroom. destruct (repr_sps a S P i c0 Hr Hi) as (q & Hld & _ & Hq & Hqo & Ht).
  pose proof (lookup_lt_Some _ _ _ Hi) as Hlt. pose proof (list_elem_of_lookup_2 _ _ _ Ht) as Hin. pose proof Hr as [R1 R2 R3 R4 R5 R6 R7 _].
  assert (set_ok c0) as Hc0. { apply Forall_app in R7 as [R7 _]. by eapply Forall_lookup_1 in R7. }
  destruct (replace_ok a S P _ c0 q m p c Hr Hc0 Hc Hm Hroom eq_refl) as (a1 & a2 & t & e' & rest & Erm & Eap & Eh & E1 & E2 & E3 & E4 & B1 & B2 & B3 & B4 & Hperm);
    [apply elem_of_app; by left|].
  unfold replace_sps. rewrite Hld. run. cbn [set_data set_bytes]. run. rewrite Erm. run. rewrite Eap. run.
  rewrite E3, st_insert, Nat2Z.id by (unfold zlen; rewrite length_moved; unfold zlen, AVC_SPS in *; lia). run.
  eexists. split; [done|]. split; [|done]. split; cbn [sps pps nb_sps nb_pps set_sps data off].
  - by rewrite length_insert, length_moved.
  - by rewrite E4, length_moved.
  - rewrite E1, R3. unfold zlen. by rewrite length_insert.
  - by rewrite E2.
  - unfold zlen. by rewrite length_insert.
  - done.
  - by apply set_ok_insert.
  - exists e', rest. split_and!; try done. rewrite E1, E2, E4.
    fold (table (nb_sps a) (<[i := t]> (moved q (zlen c0) (nb_sps a) (sps a))) (<[i := c]> S)).
    fold (table (nb_pps a) (moved q (zlen c0) (nb_pps a) (pps a)) P).
    rewrite table_insert, !table_moved by (try done; rewrite ?length_moved; unfold zlen, AVC_SPS in *; lia).
    destruct (insert_permutation _ _ _ Ht) as (r & Hr1 & _). rewrite (Hperm (r ++ table (nb_pps a) (pps a) P)) by (by rewrite Hr1).
    by rewrite (insert_map_permutation _ _ r i _ (t, c) Ht Hr1), map_app.
Qed.

Lemma replace_pps_ok a S P (i : nat) c0 m p c : avc_repr a S P → P !! i = Some c0 → set_ok c → holds m p c →
  off a + (zlen c - zlen c0) ≤ AVC_DATA →
  ∃ b, replace_pps a (Z.of_nat i) m p (zlen c) = Ok (1, b) ∧ avc_repr b S (<[i := c]> P) ∧ header b = header a.
Proof.
  intros Hr Hi Hc Hm Hroom. destruct (repr_pps a S P i c0 Hr Hi) as (q & Hld & _ & Hq & Hqo & Ht).
  pose proof (lookup_lt_Some _ _ _ Hi) as Hlt. pose proof (list_elem_of_lookup_2 _ _ _ Ht) as Hin. pose proof Hr as [R1 R2 R3 R4 R5 R6 R7 _].
  assert (set_ok c0) as Hc0. { apply Forall_app in R7 as [_ R7]. by eapply Forall_lookup_1 in R7. }
  destruct (replace_ok a S P _ c0 q m p c Hr Hc0 Hc Hm Hroom eq_refl) as (a1 & a2 & t & e' & rest & Erm & Eap & Eh & E1 & E2 & E3 & E4 & B1 & B2 & B3 & B4 & Hperm);
    [apply elem_of_app; by right|].
  unfold replace_pps. rewrite Hld. run. cbn [set_data set_bytes]. run. rewrite Erm. run. rewrite Eap. run.
  rewrite E4, st_insert, Nat2Z.id by (unfold zlen; rewrite length_moved; unfold zlen, AVC_PPS in *; lia). run.
  eexists. split; [done|]. split; [|done]. split; cbn [sps pps nb_sps nb_pps set_pps data off].
  - by rewrite E3, length_moved.
  - by rewrite length_insert, length_moved.
  - by rewrite E1.
  - rewrite E2, R4. unfold zlen. by rewrite length_insert.
  - done.
  - unfold zlen. by rewrite length_insert.
  - apply Forall_app in R7 as [R7 R8]. apply Forall_app. split; [done|by apply Forall_insert].
  - exists e', rest. split_and!; try done. rewrite E1, E2, E3.
    fold (table (nb_sps a) (moved q (zlen c0) (nb_sps a) (sps a)) S).
    fold (table (nb_pps a) (<[i := t]> (moved q (zlen c0) (nb_pps a) (pps a))) (<[i := c]> P)).
    rewrite table_insert, !table_moved by (try done; rewrite ?length_moved; unfold zlen, AVC_PPS in *; lia).
    destruct (insert_permutation _ _ _ Ht) as (r & Hr1 & _).
    rewrite (Hperm (table (nb_sps a) (sps a) S ++ r)) by (rewrite Hr1; by rewrite Permutation_middle).
    rewrite (insert_map_permutation _ _ r i _ (t, c) Ht Hr1), map_app. apply Permutation_middle.
Qed.

(** A new copy. *)
Lemma add_sps_ok a S P m p c : avc_repr a S P → set_ok c → holds m p c → zlen S < AVC_SPS → off a + zlen c ≤ AVC_DATA →
  ∃ b, ('(s, a) ← append_set a m p (zlen c); l ← st (sps a) (nb_sps a) [s]; Ok (1, set_sps a (u8 (nb_sps a + 1)) l)) = Ok (1, b) ∧
    avc_repr b (S ++ [c]) P ∧ header b = header a.
Proof.
  intros Hr Hc Hm Hn Hroom. destruct (repr_block a S P Hr) as (e & Hb & He). pose proof Hr as [R1 R2 R3 R4 R5 R6 R7 _].
  destruct (append_set_ok a e m p c Hb Hm Hroom) as [-> [B1 [rest B2] B3 B4]]. run. cbn [sps nb_sps set_block].
  pose proof (zlen_nonneg S). rewrite st_insert by (unfold zlen, AVC_SPS in *; lia). run. eexists. split; [done|]. split; [|done].
  rewrite u8_id by (unfold is_uint, AVC_SPS in *; dlia).
  split; cbn [sps pps nb_sps nb_pps set_sps set_block data off]; try done.
  - by rewrite length_insert.
  - rewrite R3. by llia.
  - llia.
  - apply Forall_app in R7 as [R7 R8]. apply Forall_app. split; [|done]. apply Forall_app. split; [done|]. by constructor.
  - eexists _, rest. split_and!; [exact B1| |done|done|done]. rewrite He.
    fold (table (nb_sps a + 1) (<[Z.to_nat (nb_sps a) := AvcSet (zlen c) (Some (off a))]> (sps a)) (S ++ [c])). fold (table (nb_pps a) (pps a) P).
    replace (Z.to_nat (nb_sps a)) with (length S) by (rewrite R3; unfold zlen; lia).
    rewrite table_snoc by (try done; unfold zlen, AVC_SPS in *; lia). rewrite <- !app_assoc. f_equiv. by rewrite Permutation_app_comm.
Qed.

Lemma add_pps_ok a S P m p c : avc_repr a S P → set_ok c → holds m p c → zlen P + 1 < AVC_PPS → off a + zlen c ≤ AVC_DATA →
  ∃ b, ('(s, a) ← append_set a m p (zlen c); l ← st (pps a) (nb_pps a) [s]; Ok (1, set_pps a (u8 (nb_pps a + 1)) l)) = Ok (1, b) ∧
    avc_repr b S (P ++ [c]) ∧ header b = header a.
Proof.
  intros Hr Hc Hm Hn Hroom. destruct (repr_block a S P Hr) as (e & Hb & He). pose proof Hr as [R1 R2 R3 R4 R5 R6 R7 _].
  destruct (append_set_ok a e m p c Hb Hm Hroom) as [-> [B1 [rest B2] B3 B4]]. run. cbn [pps nb_pps set_block].
  pose proof (zlen_nonneg P). rewrite st_insert by (unfold zlen, AVC_PPS in *; lia). run. eexists. split; [done|]. split; [|done].
  rewrite u8_id by (unfold is_uint, AVC_PPS in *; dlia).
  split; cbn [sps pps nb_sps nb_pps set_pps set_block data off]; try done.
  - by rewrite length_insert.
  - rewrite R4. by llia.
  - llia.
  - rewrite app_assoc. apply Forall_app. split; [done|]. by constructor.
  - eexists _, rest. split_and!; [exact B1| |done|done|done]. rewrite He.
    fold (table (nb_pps a + 1) (<[Z.to_nat (nb_pps a) := AvcSet (zlen c) (Some (off a))]> (pps a)) (P ++ [c])). fold (table (nb_sps a) (sps a) S).
    replace (Z.to_nat (nb_pps a)) with (length P) by (rewrite R4; unfold zlen; lia).
    rewrite table_snoc by (try done; unfold zlen, AVC_PPS in *; lia). by rewrite <- !app_assoc.
Qed.
