(* ===== verification/AvcUpdateSpec.v ===== *)
(** Copying a parameter set, [mpeg4_avc_update]: what it does to the two lists
    of sets, whatever the block looks like. *)
From S2P Require Import Prelude RtpH264 Avc AvcSpec.

Implicit Types (m c s : list Z) (p : Z) (a b : mpeg4_avc_t) (S P : list (list Z)).

(** * The specification *)

(** Replacing the set [s] at [i]; [tot]: the bytes in use. *)
Definition set_replaced (tot : Z) (l : list (list Z)) (i : nat) s c : Z * list (list Z) :=
  if decide (s = c) then (0, l)
  else if (zlen c >? zlen s) && (tot + (zlen c - zlen s) >? AVC_DATA) then (-1, l)
  else (1, <[i := c]> l).

Definition sps_updated S P c : Z * list (list Z) :=
  if zlen c <? 5 then (-1, S) else
  match list_find (λ s, sps_id s = sps_id c) S with
  | Some (i, s) => set_replaced (total S P) S i s c
  | None => if (zlen S >=? AVC_SPS) || (total S P + zlen c >? AVC_DATA) then (-1, S) else (1, S ++ [c])
  end.

(** With more than 16 SPS the first PPS gives way to a new one. *)
Definition pps_updated S P c : Z * list (list Z) :=
  if zlen c <? 2 then (-1, P) else
  match list_find (λ s, pps_id s = pps_id c) P with
  | Some (i, s) => set_replaced (total S P) P i s c
  | None =>
      if (zlen P + 1 >=? AVC_PPS) && (zlen S >? 16) then (1, <[0%nat := c]> P)
      else if (zlen P + 1 >=? AVC_PPS) || (total S P + zlen c >? AVC_DATA) then (-1, P) else (1, P ++ [c])
  end.

Definition unit_kind c : Z := Z.land (c !!! 0%nat) 0x1f.

Definition sets_updated S P c : Z * list (list Z) * list (list Z) :=
  if unit_kind c =? H264_NAL_SPS then let r := sps_updated S P c in (r.1, r.2, P)
  else if unit_kind c =? H264_NAL_PPS then let r := pps_updated S P c in (r.1, S, r.2)
  else (0, S, P).

(** Every number the search reads is defined. *)
Definition numbered S P : Prop := Forall (λ s, is_Some (sps_id s)) S ∧ Forall (λ s, is_Some (pps_id s)) P.

(** What the code relies on for a unit: numbers that can be read, an SPS with
    its three header bytes, and room where a PPS replaces the first one. *)
Record unit_fits S P c : Prop := UnitFits {
  uf_size : 0 < zlen c;
  uf_sps : unit_kind c = H264_NAL_SPS → 4 ≤ zlen c ≤ AVC_DATA ∧ (5 ≤ zlen c → is_Some (sps_id c));
  uf_pps : unit_kind c = H264_NAL_PPS → zlen c ≤ AVC_DATA ∧ (2 ≤ zlen c → is_Some (pps_id c) ∧
    (AVC_PPS ≤ zlen P + 1 → 16 < zlen S → ∀ s, head P = Some s → total S P + (zlen c - zlen s) ≤ AVC_DATA))
}.

(** * The searches *)

Lemma same_set_ok a q s m p c : holds (data a) q s → holds m p c →
  same_set a (AvcSet (zlen s) (Some q)) m p (zlen c) = Ok (bool_decide (s = c)).
Proof.
  intros Hs Hc. unfold same_set. cbn [set_bytes]. destruct (Z.eqb_spec (zlen c) (zlen s)) as [E|E].
  - unfold set_slice. cbn [set_data set_bytes]. rewrite (holds_slice (data a) q s) by done. run. rewrite (holds_slice m p c) by done. done.
  - by rewrite bool_decide_eq_false_2 by congruence.
Qed.

Lemma total_room S P : total S P ≤ AVC_DATA → ∀ s c, (zlen c >? zlen s) && (total S P + (zlen c - zlen s) >? AVC_DATA) = false →
  total S P + (zlen c - zlen s) ≤ AVC_DATA.
Proof.
  intros Ht s c. rewrite !Z.gtb_ltb. destruct (Z.ltb_spec (zlen s) (zlen c)), (Z.ltb_spec AVC_DATA (total S P + (zlen c - zlen s))); cbn; (done || lia).
Qed.

Lemma repr_bound a S P : avc_repr a S P → total S P ≤ AVC_DATA.
Proof. intros Hr. destruct (repr_block a S P Hr) as (e & Hb & _). rewrite <- (repr_total a S P Hr). by eapply block_bound. Qed.

(** A set with the same numbers, in the table of SPS and in that of PPS. *)
Lemma sps_hit a S P (i : nat) s m p c : avc_repr a S P → S !! i = Some s → holds m p c → set_ok c →
  ∃ x b, ld (sps a) (Z.of_nat i) = Ok x ∧ set_bytes x = zlen s ∧ (∀ v o k, 0 ≤ o → ue_at s o = Some (v, k) → set_read_ue a x o = Ok (v, k)) ∧
    (same ← same_set a x m p (zlen c);
     if (same : bool) then Ok (0, a)
     else if (zlen c >? set_bytes x) && (off a + (zlen c - set_bytes x) >? AVC_DATA) then Ok (-1, a)
     else replace_sps a (Z.of_nat i) m p (zlen c)) = Ok ((set_replaced (total S P) S i s c).1, b) ∧
    avc_repr b (set_replaced (total S P) S i s c).2 P ∧ header b = header a.
Proof.
  intros Hr Hi Hc Hok. destruct (repr_sps a S P i s Hr Hi) as (q & Hld & Hq & _ & _ & _).
  assert (∀ v o k, 0 ≤ o → ue_at s o = Some (v, k) → set_read_ue a (AvcSet (zlen s) (Some q)) o = Ok (v, k)) as Hue.
  { intros v o k Ho E. by apply ue_at_holds. }
  exists (AvcSet (zlen s) (Some q)). rewrite (same_set_ok a q s m p c) by done. run. cbn [set_bytes]. rewrite (repr_total a S P Hr).
  unfold set_replaced. destruct (decide (s = c)) as [->|Hne]; [rewrite bool_decide_eq_true_2 by done; by exists a|].
  rewrite bool_decide_eq_false_2 by done. destruct (_ && _) eqn:E; [by exists a|].
  destruct (replace_sps_ok a S P i s m p c Hr Hi Hok Hc) as (b & Eb & Hb & Hh).
  { rewrite (repr_total a S P Hr). apply total_room; [by eapply repr_bound|done]. }
  by exists b.
Qed.
Lemma pps_hit a S P (i : nat) s m p c : avc_repr a S P → P !! i = Some s → holds m p c → set_ok c →
  ∃ x b, ld (pps a) (Z.of_nat i) = Ok x ∧ set_bytes x = zlen s ∧ (∀ v o k, 0 ≤ o → ue_at s o = Some (v, k) → set_read_ue a x o = Ok (v, k)) ∧
    (same ← same_set a x m p (zlen c);
     if (same : bool) then Ok (0, a)
     else if (zlen c >? set_bytes x) && (off a + (zlen c - set_bytes x) >? AVC_DATA) then Ok (-1, a)
     else replace_pps a (Z.of_nat i) m p (zlen c)) = Ok ((set_replaced (total S P) P i s c).1, b) ∧
    avc_repr b S (set_replaced (total S P) P i s c).2 ∧ header b = header a.
Proof.
  intros Hr Hi Hc Hok. destruct (repr_pps a S P i s Hr Hi) as (q & Hld & Hq & _ & _ & _).
  assert (∀ v o k, 0 ≤ o → ue_at s o = Some (v, k) → set_read_ue a (AvcSet (zlen s) (Some q)) o = Ok (v, k)) as Hue.
  { intros v o k Ho E. by apply ue_at_holds. }
  exists (AvcSet (zlen s) (Some q)). rewrite (same_set_ok a q s m p c) by done. run. cbn [set_bytes]. rewrite (repr_total a S P Hr).
  unfold set_replaced. destruct (decide (s = c)) as [->|Hne]; [rewrite bool_decide_eq_true_2 by done; by exists a|].
  rewrite bool_decide_eq_false_2 by done. destruct (_ && _) eqn:E; [by exists a|].
  destruct (replace_pps_ok a S P i s m p c Hr Hi Hok Hc) as (b & Eb & Hb & Hh).
  { rewrite (repr_total a S P Hr). apply total_room; [by eapply repr_bound|done]. }
  by exists b.
Qed.

Lemma gtb_room x y : (x >? y) = false → x ≤ y.
Proof. rewrite Z.gtb_ltb. by intros ?%Z.ltb_ge. Qed.

(** The rest [T] of the table. *)
Lemma sps_loop_ok a S P m p c id : avc_repr a S P → Forall (λ s, is_Some (sps_id s)) S → holds m p c → set_ok c → sps_id c = Some id →
  ∀ T D, S = D ++ T →
  let r := match list_find (λ s, sps_id s = sps_id c) T with
           | Some (i, s) => set_replaced (total S P) S (length D + i) s c
           | None => if (zlen S >=? AVC_SPS) || (total S P + zlen c >? AVC_DATA) then (-1, S) else (1, S ++ [c])
           end in
  ∃ b, sps_loop (length T) (zlen D) a id m p (zlen c) = Ok (r.1, b) ∧ avc_repr b r.2 P ∧ header b = header a.
Proof.
  intros Hr Hn Hc Hok Hid T. induction T as [|s T IH]; intros D HS; cbn [length sps_loop list_find].
  - rewrite (repr_total a S P Hr), (ar_nb_sps a S P Hr). destruct (_ || _) eqn:E; [by exists a|].
    apply orb_false_elim in E as [E1 E2%gtb_room]. rewrite Z.geb_leb in E1. apply Z.leb_gt in E1.
    apply add_sps_ok; try done. by rewrite (repr_total a S P Hr).
  - assert (S !! length D = Some s) as Hs by (rewrite HS; by apply list_lookup_middle).
    destruct (sps_hit a S P (length D) s m p c Hr Hs Hc Hok) as (x & b & Hld & Hx & Hue & Eb & Hb & Hh).
    fold (zlen D) in *. change (Z.of_nat (length D)) with (zlen D) in *. rewrite Hld. run.
    apply (Forall_lookup_1 _ _ _ _ Hn) in Hs as [id' Hid']. unfold sps_id in Hid' |- *.
    destruct (ue_at s 32) as [[v k]|] eqn:Ev; [|done]. cbn in Hid'. injection Hid' as ->.
    rewrite (Hue id' 32 k) by done. run. fold (sps_id c). rewrite Hid. cbn [fmap option_fmap option_map fst].
    destruct (Z.eqb_spec id id') as [<-|Hne].
    + rewrite decide_True by done. rewrite Nat.add_0_r. by exists b.
    + rewrite decide_False by congruence. specialize (IH (D ++ [s])). rewrite <- app_assoc in IH. specialize (IH HS).
      unfold sps_id in IH. fold (sps_id c) in IH. rewrite Hid in IH.
      rewrite zlen_app in IH. change (zlen [s]) with 1 in IH. rewrite length_app in IH. cbn [length] in IH.
      destruct (list_find _ T) as [[i s']|]; cbn [fmap option_fmap option_map prod_map fst snd] in *; [|exact IH].
      by replace (length D + Datatypes.S i)%nat with (length D + 1 + i)%nat by lia.
Qed.

Lemma pps_numbers s a (x : avc_set) id o sid k : (∀ v o k, 0 ≤ o → ue_at s o = Some (v, k) → set_read_ue a x o = Ok (v, k)) →
  ue_at s 8 = Some (id, o) → ue_at s o = Some (sid, k) → ∀ id' sid',
  (if id' =? id then '(w, _) ← set_read_ue a x o; Ok (sid' =? w) else Ok false)
  = Ok (bool_decide (pps_id s = Some (id', sid'))).
Proof.
  intros Hue E1 E2 id' sid'. unfold pps_id. rewrite E1, E2.
  destruct (Z.eqb_spec id' id) as [->|Hne]; [|by rewrite bool_decide_eq_false_2 by congruence].
  assert (8 ≤ o) as Ho by (unfold ue_at in E1; destruct (mpeg4_h264_read_ue s 0 (zlen s) 8) eqn:E; try done; injection E1 as ->; by eapply read_ue_offset).
  rewrite (Hue sid o k) by (done || lia). run. f_equal. destruct (Z.eqb_spec sid' sid) as [->|Hne].
  - by rewrite bool_decide_eq_true_2.
  - by rewrite bool_decide_eq_false_2 by congruence.
Qed.

(** The branch of [pps_loop] behind the sets. *)
Definition pps_added S P c : Z * list (list Z) :=
  if (zlen P + 1 >=? AVC_PPS) && (zlen S >? 16) then (1, <[0%nat := c]> P)
  else if (zlen P + 1 >=? AVC_PPS) || (total S P + zlen c >? AVC_DATA) then (-1, P) else (1, P ++ [c]).

Lemma pps_added_ok a S P m p c id sid : avc_repr a S P → holds m p c → set_ok c →
  (AVC_PPS ≤ zlen P + 1 → 16 < zlen S → ∀ s, head P = Some s → total S P + (zlen c - zlen s) ≤ AVC_DATA) →
  ∃ b, pps_loop 0 (zlen P) a id sid m p (zlen c) = Ok ((pps_added S P c).1, b) ∧ avc_repr b S (pps_added S P c).2 ∧ header b = header a.
Proof.
  intros Hr Hc Hok Hroom. cbn [pps_loop]. unfold pps_added. rewrite (repr_total a S P Hr), (ar_nb_pps a S P Hr), (ar_nb_sps a S P Hr).
  pose proof (ar_max_pps a S P Hr) as Hmax. destruct (_ && _) eqn:E.
  - apply andb_prop in E as [E1 E2]. rewrite Z.geb_leb in E1. apply Z.leb_le in E1. rewrite Z.gtb_ltb in E2. apply Z.ltb_lt in E2.
    destruct P as [|s P]; [by vm_compute in E1|]. apply (replace_pps_ok a S (s :: P) 0 s m p c Hr eq_refl Hok Hc).
    rewrite (repr_total a _ _ Hr). by apply (Hroom E1 E2 s).
  - destruct (_ || _) eqn:E'; [by exists a|]. apply orb_false_elim in E' as [E1 E2%gtb_room]. rewrite Z.geb_leb in E1. apply Z.leb_gt in E1.
    apply add_pps_ok; try done. by rewrite (repr_total a S P Hr).
Qed.

Lemma pps_loop_ok a S P m p c id sid : avc_repr a S P → Forall (λ s, is_Some (pps_id s)) P → holds m p c → set_ok c →
  pps_id c = Some (id, sid) →
  (AVC_PPS ≤ zlen P + 1 → 16 < zlen S → ∀ s, head P = Some s → total S P + (zlen c - zlen s) ≤ AVC_DATA) →
  ∀ T D, P = D ++ T →
  let r := match list_find (λ s, pps_id s = pps_id c) T with
           | Some (i, s) => set_replaced (total S P) P (length D + i) s c
           | None => pps_added S P c
           end in
  ∃ b, pps_loop (length T) (zlen D) a id sid m p (zlen c) = Ok (r.1, b) ∧ avc_repr b S r.2 ∧ header b = header a.
Proof.
  intros Hr Hn Hc Hok Hid Hroom T. induction T as [|s T IH]; intros D HP; cbn [length list_find].
  { rewrite app_nil_r in HP. subst D. by apply pps_added_ok. }
  assert (P !! length D = Some s) as Hs by (rewrite HP; by apply list_lookup_middle).
  destruct (pps_hit a S P (length D) s m p c Hr Hs Hc Hok) as (x & b & Hld & Hx & Hue & Eb & Hb & Hh).
  change (Z.of_nat (length D)) with (zlen D) in *. cbn [pps_loop]. rewrite Hld. run.
  apply (Forall_lookup_1 _ _ _ _ Hn) in Hs as [[id' sid'] Hid']. unfold pps_id in Hid'.
  destruct (ue_at s 8) as [[v o]|] eqn:E1; [|done]. destruct (ue_at s o) as [[w k]|] eqn:E2; [|done].
  rewrite (Hue v 8 o) by done. run. rewrite (pps_numbers s a x v o w k Hue E1 E2 id sid), Hid. run. destruct (decide (pps_id s = Some (id, sid))) as [Heq|Hne].
  - rewrite bool_decide_eq_true_2 by done. cbn. rewrite Nat.add_0_r. by exists b.
  - rewrite bool_decide_eq_false_2 by done. specialize (IH (D ++ [s])). rewrite <- app_assoc in IH. specialize (IH HP). rewrite Hid in IH.
    rewrite zlen_app in IH. change (zlen [s]) with 1 in IH. rewrite length_app in IH. cbn [length] in IH.
    destruct (list_find _ T) as [[i s']|]; cbn [fmap option_fmap option_map prod_map fst snd] in *; [|exact IH].
    by replace (length D + Datatypes.S i)%nat with (length D + 1 + i)%nat by lia.
Qed.

(** * Copying *)

Lemma sps_copy_ok a S P m p c : avc_repr a S P → numbered S P → holds m p c → zlen c ≤ AVC_DATA → (5 ≤ zlen c → is_Some (sps_id c)) →
  ∃ b, h264_sps_copy a m p (zlen c) = Ok ((sps_updated S P c).1, b) ∧ avc_repr b (sps_updated S P c).2 P ∧ header b = header a.
Proof.
  intros Hr [Hn _] Hc Hmax Hid. unfold h264_sps_copy, sps_updated. destruct (Z.ltb_spec (zlen c) 5); [by exists a|].
  destruct Hid as [id Hid]; [done|]. pose proof Hid as Hid'. unfold sps_id in Hid'. destruct (ue_at c 32) as [[v k]|] eqn:E; [|done].
  injection Hid' as ->. rewrite (ue_at_holds m p c 32 id k) by done. run.
  destruct (sps_loop_ok a S P m p c id Hr Hn Hc ltac:(unfold set_ok; lia) Hid S [] eq_refl) as (b & Eb & Hb).
  exists b. rewrite (ar_nb_sps a S P Hr). change (zlen []) with 0 in Eb. unfold zlen at 1. rewrite Nat2Z.id.
  destruct (list_find _ S) as [[i s]|]; by split.
Qed.

Lemma pps_copy_ok a S P m p c : avc_repr a S P → numbered S P → holds m p c → zlen c ≤ AVC_DATA →
  (2 ≤ zlen c → is_Some (pps_id c) ∧
    (AVC_PPS ≤ zlen P + 1 → 16 < zlen S → ∀ s, head P = Some s → total S P + (zlen c - zlen s) ≤ AVC_DATA)) →
  ∃ b, h264_pps_copy a m p (zlen c) = Ok ((pps_updated S P c).1, b) ∧ avc_repr b S (pps_updated S P c).2 ∧ header b = header a.
Proof.
  intros Hr [_ Hn] Hc Hmax Hid. unfold h264_pps_copy, pps_updated. destruct (Z.ltb_spec (zlen c) 2); [by exists a|].
  destruct Hid as [[[id sid] Hid] Hroom]; [done|]. pose proof Hid as Hid'. unfold pps_id in Hid'.
  destruct (ue_at c 8) as [[v o]|] eqn:E1; [|done]. destruct (ue_at c o) as [[w k]|] eqn:E2; [|done]. injection Hid' as -> ->.
  rewrite (ue_at_holds m p c 8 id o) by done. run.
  assert (8 ≤ o) as Ho by (unfold ue_at in E1; destruct (mpeg4_h264_read_ue c 0 (zlen c) 8) eqn:E; try done; injection E1 as ->; by eapply read_ue_offset).
  rewrite (ue_at_holds m p c o sid k) by (done || lia). run.
  destruct (pps_loop_ok a S P m p c id sid Hr Hn Hc ltac:(unfold set_ok; lia) Hid Hroom P [] eq_refl) as (b & Eb & Hb).
  exists b. rewrite (ar_nb_pps a S P Hr). change (zlen []) with 0 in Eb. unfold zlen at 1. rewrite Nat2Z.id.
  fold (pps_added S P c). destruct (list_find _ P) as [[i s]|]; by split.
Qed.

Lemma repr_set_header a S P x y z : avc_repr a S P → avc_repr (set_header a x y z) S P.
Proof. intros []. by split. Qed.

Lemma ld_holds m p c k : holds m p c → 0 ≤ k < zlen c → ld m (p + k) = Ok (c !!! Z.to_nat k).
Proof. intros Hc Hk. rewrite (holds_ld_in m p c) by done. apply ld_ok. lia. Qed.

(** What [mpeg4_avc_update] stores of an SPS. *)
Definition profile_bytes c : Z * Z * Z := (c !!! 1%nat, c !!! 2%nat, c !!! 3%nat).

(** The state after a unit, and the code: the structure represents the updated
    lists; the profile is that of the SPS when it was copied or is the only one. *)
Lemma avc_update_ok a S P m p c : avc_repr a S P → numbered S P → holds m p c → unit_fits S P c →
  ∃ b, mpeg4_avc_update a m p (zlen c) = Ok ((sets_updated S P c).1.1, b) ∧
    avc_repr b (sets_updated S P c).1.2 (sets_updated S P c).2 ∧ nalu b = nalu a ∧
    (profile b, compatibility b, level b) =
      (if (unit_kind c =? H264_NAL_SPS) && ((1 =? (sets_updated S P c).1.1) || (zlen (sets_updated S P c).1.2 =? 1))
       then profile_bytes c else (profile a, compatibility a, level a)).
Proof.
  intros Hr Hn Hc [Hpos Hsps Hpps]. unfold mpeg4_avc_update, sets_updated.
  pose proof (ld_holds m p c 0 Hc ltac:(lia)) as H0. rewrite Z.add_0_r in H0. rewrite H0. run. change (Z.land _ 0x1f) with (unit_kind c).
  destruct (Z.eqb_spec (unit_kind c) H264_NAL_SPS) as [Ek|_].
  - destruct (Hsps Ek) as [[H4 Hmax] Hid]. destruct (sps_copy_ok a S P m p c Hr Hn Hc Hmax Hid) as (b & Eb & Hb & Hh).
    rewrite Eb. run. cbn [fst snd]. rewrite (ar_nb_sps b _ P Hb), (Z.eqb_sym 1 (zlen _)). injection Hh as E1 E2 E3 E4 _ _ _.
    destruct (_ || _); run; cbn [andb]; [|by exists b; rewrite E1, E2, E3].
    rewrite !(ld_holds m p c) by (done || lia). run. eexists. split; [done|]. split; [by apply repr_set_header|done].
  - destruct (Z.eqb_spec (unit_kind c) H264_NAL_PPS) as [Ek|_]; [|by exists a].
    destruct (Hpps Ek) as [Hmax Hid]. destruct (pps_copy_ok a S P m p c Hr Hn Hc Hmax Hid) as (b & Eb & Hb & Hh).
    exists b. rewrite Eb. injection Hh as E1 E2 E3 E4 _ _ _. cbn [fst snd andb]. by rewrite E1, E2, E3.
Qed.

(** * The numbers stay distinct *)

Definition distinct S P : Prop := NoDup (map sps_id S) ∧ NoDup (map pps_id P).

Section Distinct.
Context {A : Type} `{EqDecision A} (num : list Z → option A).
Implicit Type l : list (list Z).

Lemma replaced_numbers l i s c : num s = num c → l !! i = Some s → map num (<[i := c]> l) = map num l.
Proof.
  intros E Hi. change (map num) with (fmap (M := list) num). rewrite list_fmap_insert. apply list_insert_id.
  by rewrite list_lookup_fmap, Hi, <- E.
Qed.

Lemma replaced_elem tot l i s c : l !! i = Some s → 0 ≤ (set_replaced tot l i s c).1 → c ∈ (set_replaced tot l i s c).2.
Proof.
  intros Hi. unfold set_replaced. destruct (decide (s = c)) as [->|]; [intros _; by eapply list_elem_of_lookup_2|].
  destruct (_ && _); cbn; [lia|]. intros _. apply lookup_lt_Some in Hi. by eapply list_elem_of_lookup_2, list_lookup_insert_eq.
Qed.

Lemma replaced_distinct tot l i s c : l !! i = Some s → num s = num c → NoDup (map num l) → NoDup (map num (set_replaced tot l i s c).2).
Proof. intros Hi E Hd. unfold set_replaced. destruct (decide _); [done|]. destruct (_ && _); [done|]. cbn. by rewrite (replaced_numbers l i s c). Qed.

Lemma not_found l c : list_find (λ s, num s = num c) l = None → num c ∉ map num l.
Proof.
  intros Hf%list_find_None (s & E & Hs)%list_elem_of_fmap. rewrite list.Forall_forall in Hf. by apply (Hf s Hs).
Qed.

Lemma inserted_distinct l i c : num c ∉ map num l → NoDup (map num l) → NoDup (map num (<[i := c]> l)).
Proof.
  intros Hc Hd. destruct (decide (i < length l)%nat) as [Hi|]; [|by rewrite list_insert_ge by lia].
  destruct (lookup_lt_is_Some_2 l i Hi) as [s Hs]. destruct (insert_permutation l i s Hs) as (r & H1 & H2).
  rewrite (H2 c). rewrite H1 in Hc, Hd. cbn [map] in *. apply list.NoDup_cons in Hd as [_ Hd]. apply list.NoDup_cons. split; [|done].
  intros Hin. apply Hc. by right.
Qed.

Lemma added_distinct l c : num c ∉ map num l → NoDup (map num l) → NoDup (map num (l ++ [c])).
Proof. intros Hc Hd. rewrite map_app. cbn. rewrite <- Permutation_cons_append. by apply list.NoDup_cons. Qed.
End Distinct.

Lemma found_set {A} `{EqDecision A} (num : list Z → option A) l c i s :
  list_find (λ s, num s = num c) l = Some (i, s) → l !! i = Some s ∧ num s = num c.
Proof. by intros (Hi & E & _)%list_find_Some. Qed.

(** The lists after a unit: the numbers stay distinct, and a set that was not
    refused is in them. *)
Lemma sps_updated_ok S P c : NoDup (map sps_id S) →
  NoDup (map sps_id (sps_updated S P c).2) ∧ (0 ≤ (sps_updated S P c).1 → c ∈ (sps_updated S P c).2).
Proof.
  intros Hd. unfold sps_updated. destruct (_ <? 5); [by split|]. destruct (list_find _ S) as [[i s]|] eqn:E.
  - apply found_set in E as [Hi E]. split; [by apply replaced_distinct|by apply replaced_elem].
  - apply not_found in E. destruct (_ || _); [by split|]. split; [by apply added_distinct|]. intros _. apply elem_of_app. right. by constructor.
Qed.
Lemma pps_updated_ok S P c : NoDup (map pps_id P) →
  NoDup (map pps_id (pps_updated S P c).2) ∧ (0 ≤ (pps_updated S P c).1 → c ∈ (pps_updated S P c).2).
Proof.
  intros Hd. unfold pps_updated. destruct (_ <? 2); [by split|]. destruct (list_find _ P) as [[i s]|] eqn:E.
  - apply found_set in E as [Hi E]. split; [by apply replaced_distinct|by apply replaced_elem].
  - apply not_found in E. destruct (_ && _) eqn:Ef.
    + split; [by apply inserted_distinct|]. intros _. cbn [snd]. apply andb_prop in Ef as [Ef _].
      destruct P as [|s P]; [by vm_compute in Ef|]. by left.
    + destruct (_ || _); [by split|]. split; [by apply added_distinct|]. intros _. apply elem_of_app. right. by constructor.
Qed.

Lemma replaced_Forall (Q : list Z → Prop) tot l i s c : Forall Q l → Q c → Forall Q (set_replaced tot l i s c).2.
Proof. intros Hl Hc. unfold set_replaced. destruct (decide _); [done|]. destruct (_ && _); [done|]. by apply Forall_insert. Qed.

Lemma snoc_Forall (Q : list Z → Prop) l c : Forall Q l → Q c → Forall Q (l ++ [c]).
Proof. intros Hl Hc. apply Forall_app. split; [done|]. by constructor. Qed.

Lemma sets_updated_numbered S P c : numbered S P → unit_fits S P c →
  numbered (sets_updated S P c).1.2 (sets_updated S P c).2.
Proof.
  intros [HS HP] [_ Hs Hp]. unfold sets_updated. destruct (Z.eqb_spec (unit_kind c) H264_NAL_SPS) as [Ek|_].
  { destruct (Hs Ek) as [_ Hid]. split; [|done]. cbn. unfold sps_updated. destruct (Z.ltb_spec (zlen c) 5); [done|].
    destruct (list_find _ S) as [[i s]|]; [apply replaced_Forall; auto|]. destruct (_ || _); [done|]. apply snoc_Forall; auto. }
  destruct (Z.eqb_spec (unit_kind c) H264_NAL_PPS) as [Ek|_]; [|by split].
  destruct (Hp Ek) as [_ Hid]. split; [done|]. cbn. unfold pps_updated. destruct (Z.ltb_spec (zlen c) 2); [done|].
  destruct Hid as [Hid _]; [done|]. destruct (list_find _ P) as [[i s]|]; [by apply replaced_Forall|].
  destruct (_ && _); [by apply Forall_insert|]. destruct (_ || _); [done|]. by apply snoc_Forall.
Qed.

Lemma sets_updated_distinct S P c : distinct S P → distinct (sets_updated S P c).1.2 (sets_updated S P c).2.
Proof.
  intros [HS HP]. unfold sets_updated. destruct (_ =? H264_NAL_SPS); [split; [by apply sps_updated_ok|done]|].
  destruct (_ =? H264_NAL_PPS); [split; [done|by apply pps_updated_ok]|by split].
Qed.

Lemma zero_repr : avc_repr avc_zero [] [].
Proof.
  split; try done. exists [], (replicate (Z.to_nat AVC_DATA) 0). split_and!; try done.
Qed.

(** C11: mpeg4_avc_update keeps two lists of parameter sets, whatever their
    copies in the block of 4096 bytes: a set with the numbers of one held
    replaces it, moving the copies behind, one with new numbers is added, a set
    without room is refused and nothing changes; numbers stay distinct, a set
    that was not refused is held, and the profile is that of the SPS copied. *)
Theorem mpeg4_avc_update_refines a S P m p c :
  avc_repr a S P → numbered S P → distinct S P → holds m p c → unit_fits S P c →
  let '(r, S', P') := sets_updated S P c in
  ∃ b, mpeg4_avc_update a m p (zlen c) = Ok (r, b) ∧
    avc_repr b S' P' ∧ numbered S' P' ∧ distinct S' P' ∧
    (0 ≤ r → unit_kind c = H264_NAL_SPS → c ∈ S') ∧ (0 ≤ r → unit_kind c = H264_NAL_PPS → c ∈ P') ∧
    nalu b = nalu a ∧
    (profile b, compatibility b, level b) =
      (if (unit_kind c =? H264_NAL_SPS) && ((1 =? r) || (zlen S' =? 1)) then profile_bytes c
       else (profile a, compatibility a, level a)).
Proof.
  intros Hr Hn Hd Hc Hf. pose proof (sets_updated_numbered S P c Hn Hf) as Hn'. pose proof (sets_updated_distinct S P c Hd) as Hd'.
  destruct (avc_update_ok a S P m p c Hr Hn Hc Hf) as (b & Eb & Hb & Hna & Hpr).
  assert (∀ r S' P', sets_updated S P c = (r, S', P') →
    (0 ≤ r → unit_kind c = H264_NAL_SPS → c ∈ S') ∧ (0 ≤ r → unit_kind c = H264_NAL_PPS → c ∈ P')) as Hin.
  { intros r S' P' E. unfold sets_updated in E. split; intros H0 Ek; rewrite Ek in E; simplify_eq/=.
    - by apply sps_updated_ok; [apply Hd|].
    - by apply pps_updated_ok; [apply Hd|]. }
  destruct (sets_updated S P c) as [[r S'] P'] eqn:E. destruct (Hin r S' P' eq_refl) as [H1 H2]. exists b. by split_and!.
Qed.

(** Concrete input: a second SPS with number 0 for the one held. *)
Lemma mpeg4_avc_update_refines_witness : ∃ b1 b2,
  mpeg4_avc_update avc_zero [103; 66; 0; 30; 240] 0 5 = Ok (1, b1) ∧
  mpeg4_avc_update b1 [103; 100; 0; 31; 248; 7] 0 6 = Ok (1, b2) ∧
  avc_repr b2 [[103; 100; 0; 31; 248; 7]] [] ∧ (profile b2, compatibility b2, level b2) = (100, 0, 31).
Proof.
  destruct (mpeg4_avc_update_refines avc_zero [] [] [103; 66; 0; 30; 240] 0 [103; 66; 0; 30; 240] zero_repr)
    as (b1 & E1 & R1 & N1 & D1 & _); [done|by split; constructor|apply holds_whole| |].
  { split; [done| |done]. intros _. split; [done|]. intros _. by eexists. }
  destruct (mpeg4_avc_update_refines b1 [[103; 66; 0; 30; 240]] [] [103; 100; 0; 31; 248; 7] 0 [103; 100; 0; 31; 248; 7] R1 N1 D1)
    as (b2 & E2 & R2 & _ & _ & _ & _ & _ & H2); [apply holds_whole| |].
  { split; [done| |done]. intros _. split; [done|]. intros _. by eexists. }
  exists b1, b2. split; [exact E1|]. split; [exact E2|]. split; [exact R2|exact H2].
Defined.
