(* ===== verification/AvcStreamSpec.v ===== *)
(** Streams of units with parameter sets: from start codes to length prefixes
    and back. *)
From S2P Require Import Prelude RtpPacket RtpPayload RtpH264 RtpH264Spec RtpH264Stream Avc AvcSpec AvcUpdateSpec.

Implicit Types (m c : list Z) (p : Z) (a b : mpeg4_avc_t) (S P us : list (list Z)).

(** * The splitter with a handler on states *)

Lemma slice_inv {A} (m : list A) p n (c : list A) : slice m p n = Ok c → holds m p c ∧ zlen c = n.
Proof.
  unfold slice. destruct (Z.leb_spec 0 p), (Z.leb_spec 0 n), (Z.leb_spec (p + n) (zlen m)); try done. intros [= <-].
  assert (zlen (sub m p n) = n) as E by (by apply zlen_sub). split; [|done]. unfold holds. by rewrite E.
Qed.

Section Simulation.
Context {A B : Type} (handler : A → Z → Z → outcome A) (m : list Z) (Hm : zlen m < 2 ^ 31).
(** The handler implements [step] on what [R] says its state stands for. *)
Context (R : A → B → Prop) (ok : B → list Z → Prop) (step : B → list Z → B).
Hypothesis Hhandler : ∀ x s c p, R x s → ok s c → c ≠ [] → holds m p c → ∃ x', handler x p (zlen c) = Ok x' ∧ R x' (step s c).

Fixpoint all_ok (s : B) us : Prop := match us with [] => True | c :: us => ok s c ∧ all_ok (step s c) us end.

Definition collect (us : list (list Z)) c (n last : Z) : outcome (Z * list (list Z)) := Ok (0, us ++ [c]).

Lemma run_collect us vs : run_units collect us vs = Ok (0, us ++ vs).
Proof.
  revert us. induction vs as [|c vs IH]; intros us; cbn; [by rewrite app_nil_r|]. by rewrite IH, <- app_assoc.
Qed.

Lemma collect_loop_ok fuel : ∀ us (o : option Z) endp w, annexb_loop collect fuel us m o endp 0 = Ok (0, w) →
  ∃ vs, w = us ++ vs ∧ ∀ x s, R x s → all_ok s vs → ∃ x', avc_annexb_loop handler fuel x m o endp = Ok x' ∧ R x' (foldl step s vs).
Proof.
  induction fuel as [|fuel IH]; intros us [p|] endp w; cbn [annexb_loop avc_annexb_loop]; change (0 =? 0) with true; cbv iota; try done.
  1, 3: intros [= <-]; exists []; split; [by rewrite app_nil_r|]; intros x s Hx _; by exists x.
  unfold avc_startcode. destruct (h264_startcode m p (endp - p)) as [| |next]; run; try done.
  destruct (trim_zeros _ _ _ _) as [| |n]; run; try done. destruct (Z.gtb_spec n 0) as [Hn|_].
  - destruct (slice m p n) as [| |c] eqn:Es; run; try done. intros E.
    apply slice_inv in Es as [Hc Hl]. pose proof Hc as (Hp & Hpn & _). destruct (IH _ _ _ _ E) as (vs & -> & Hvs).
    exists (c :: vs). rewrite <- app_assoc. split; [done|]. intros x s Hx [Hok Hall].
    rewrite s32_small by lia.
    destruct (Hhandler x s c p Hx Hok) as (x' & Ex & Hx'); [intros ->; by subst|done|]. rewrite Hl in Ex. rewrite Ex. run. by apply Hvs.
  - run. intros E. destruct (IH _ _ _ _ E) as (vs & -> & Hvs). exists vs. split; [done|]. intros x s Hx Hall. run. by apply Hvs.
Qed.

(** A stream behind start codes, with any handler. *)
Lemma annexb_nalu_ok l x s : m = annexb l → stream_ok l → R x s → all_ok s l.*2 →
  ∃ x', mpeg4_h264_annexb_nalu handler x m 0 (zlen m) = Ok x' ∧ R x' (foldl step s l.*2).
Proof.
  intros Em Hl Hx Hall. pose proof (annexb_units collect l [] Hl) as E. rewrite run_collect in E.
  unfold rtp_h264_annexb_nalu in E. unfold mpeg4_h264_annexb_nalu.
  destruct (annexb_head l Hl) as (b & k & Ek & Hb). rewrite <- Em in E, Ek.
  assert (h264_bitstream_format m (zlen m) = Ok 0 ∧ mpeg4_h264_bitstream_format m 0 (zlen m) = Ok 0) as [E1 E2].
  { rewrite Ek. unfold h264_bitstream_format, mpeg4_h264_bitstream_format. pose proof (zlen_nonneg k). rewrite !zlen_cons.
    destruct (Z.ltb_spec (1 + (1 + (1 + (1 + zlen k)))) 4); [lia|].
    change (0 + 1) with 1. change (0 + 2) with 2. change (0 + 3) with 3.
    rewrite (ld_lookup _ 0 0), (ld_lookup _ 1 0), (ld_lookup _ 2 0), (ld_lookup _ 3 b) by done. run. by destruct Hb as [-> | ->]. }
  rewrite E1 in E. rewrite E2. run. change (0 >? 0) with false in *. cbv iota in *. unfold avc_startcode. rewrite Z.add_0_l.
  cbn [mbind outcome_bind] in E. change (0 >? 0) with false in E. cbv iota in E.
  destruct (h264_startcode _ 0 _) as [| |q]; run; try done. cbn [mbind outcome_bind] in E.
  destruct (collect_loop_ok _ _ _ _ _ E) as (vs & Evs & Hvs). cbn [app] in Evs. subst vs. by apply Hvs.
Qed.
End Simulation.

(** * To length prefixes *)

Definition prefixed us : list Z := concat (map (λ c, be_bytes 4 (zlen c) ++ c) us).

(** The sets after some units, and what the code relies on for each: none is
    refused. *)
Definition sets_after S P us : list (list Z) * list (list Z) :=
  foldl (λ x c, ((sets_updated x.1 x.2 c).1.2, (sets_updated x.1 x.2 c).2)) (S, P) us.
Fixpoint units_fit S P us : Prop :=
  match us with
  | [] => True
  | c :: us => unit_fits S P c ∧ 0 ≤ (sets_updated S P c).1.1 ∧ units_fit (sets_updated S P c).1.2 (sets_updated S P c).2 us
  end.

Lemma prefixed_app us vs : prefixed (us ++ vs) = prefixed us ++ prefixed vs.
Proof. unfold prefixed. by rewrite map_app, concat_app. Qed.
Lemma zlen_prefixed c us : zlen (prefixed (c :: us)) = 4 + zlen c + zlen (prefixed us).
Proof. unfold prefixed. cbn [map concat]. llia. Qed.

Lemma put_tail (w k bs : list Z) : zlen w + zlen bs ≤ zlen k → put (w ++ drop (length w) k) (zlen w) bs = (w ++ bs) ++ drop (length (w ++ bs)) k.
Proof.
  intros. unfold put, zlen in *. rewrite Nat2Z.id, take_app_length, drop_app_add, drop_drop, <- app_assoc, length_app. done.
Qed.
Lemma st_tail (w k bs : list Z) : zlen w + zlen bs ≤ zlen k →
  st (w ++ drop (length w) k) (zlen w) bs = Ok ((w ++ bs) ++ drop (length (w ++ bs)) k).
Proof.
  intros H. pose proof (zlen_nonneg w). pose proof (zlen_nonneg bs). rewrite st_ok, put_tail; [done|done|done|]. unfold zlen in *. rewrite length_app, length_drop. lia.
Qed.

Section ToMp4.
Context (m out0 : list Z) (size : Z) (Hm : zlen m < 2 ^ 31) (Hsize : size ≤ zlen out0).

Definition tomp4_state : Type := list (list Z) * list (list Z) * list (list Z).
Definition tomp4_step (x : tomp4_state) c : tomp4_state :=
  ((sets_updated x.1.1 x.1.2 c).1.2, (sets_updated x.1.1 x.1.2 c).2, x.2 ++ [c]).
Definition tomp4_ok (x : tomp4_state) c : Prop :=
  unit_fits x.1.1 x.1.2 c ∧ 0 ≤ (sets_updated x.1.1 x.1.2 c).1.1 ∧ zlen (prefixed (x.2 ++ [c])) ≤ size.
Record tomp4_holds (h : h264_annexbtomp4_handle_t) (x : tomp4_state) : Prop := ToMp4 {
  tm_repr : avc_repr (h_avc h) x.1.1 x.1.2; tm_numbered : numbered x.1.1 x.1.2;
  tm_err : errcode h = 0; tm_size : capacity h = size;
  tm_bytes : bytes_out h = zlen (prefixed x.2); tm_out : out h = prefixed x.2 ++ drop (length (prefixed x.2)) out0
}.

Lemma h264_handler_ok h x c p : tomp4_holds h x → tomp4_ok x c → c ≠ [] → holds m p c →
  ∃ h', h264_handler m h p (zlen c) = Ok h' ∧ tomp4_holds h' (tomp4_step x c).
Proof.
  intros [Hr Hn Her Hcap Hby Hout] (Hf & Hpos & Hroom) Hne Hc. destruct x as [[S P] us]. cbn [fst snd] in *.
  pose proof (zlen_pos _ Hne). destruct (avc_update_ok (h_avc h) S P m p c Hr Hn Hc Hf) as (b & Eb & Hb & _).
  rewrite prefixed_app in Hroom. unfold prefixed at 2 in Hroom. cbn in Hroom. rewrite app_nil_r in Hroom.
  unfold h264_handler. destruct (Z.ltb_spec (zlen c) 1); [lia|].
  pose proof (ld_holds m p c 0 Hc ltac:(lia)) as Hld. rewrite Z.add_0_r in Hld. rewrite Hld. run. rewrite Eb. run.
  rewrite Hcap, Hby, Z.geb_leb. autorewrite with zlen in Hroom.
  destruct (Z.leb_spec (zlen (prefixed us) + zlen c + 4) size); [|lia].
  rewrite (holds_slice m p c) by done. run. rewrite Hout, <- be_bytes_4, st_tail by llia. run.
  eexists. split; [done|].
  assert (prefixed (us ++ [c]) = prefixed us ++ be_bytes 4 (zlen c) ++ c) as E.
  { rewrite prefixed_app. f_equal. unfold prefixed. cbn. by rewrite app_nil_r. }
  split; cbn [h_avc errcode capacity bytes_out out tomp4_step fst snd]; rewrite ?E; [done|by apply sets_updated_numbered|..|done|llia|done].
  destruct (Z.ltb_spec (sets_updated S P c).1.1 0); [lia|]. by destruct (_ && _).
Qed.

Lemma tomp4_all_ok us : ∀ S P vs, units_fit S P us → zlen (prefixed (vs ++ us)) ≤ size →
  all_ok tomp4_ok tomp4_step (S, P, vs) us.
Proof.
  induction us as [|c us IH]; intros S P vs; cbn [units_fit all_ok]; [done|]. intros (Hf & Hp & Hus) Hs.
  change (c :: us) with ([c] ++ us) in Hs. rewrite app_assoc in Hs. split; [|by apply IH].
  split_and!; [done|done|]. rewrite prefixed_app, zlen_app in Hs. pose proof (zlen_nonneg (prefixed us)). cbn [snd]. lia.
Qed.

Lemma tomp4_fold us : ∀ S P vs, foldl tomp4_step (S, P, vs) us = (sets_after S P us, vs ++ us).
Proof.
  induction us as [|c us IH]; intros S P vs; cbn; [by rewrite app_nil_r|]. unfold tomp4_step at 2. rewrite IH. cbn [fst snd].
  by rewrite <- app_assoc.
Qed.
End ToMp4.

Lemma annexbtomp4_ok a S P l out size vcl update : zlen (annexb l) < 2 ^ 31 → size ≤ zlen out → stream_ok l →
  avc_repr a S P → numbered S P → units_fit S P l.*2 → zlen (prefixed l.*2) ≤ size → zlen (prefixed l.*2) < 2 ^ 31 →
  ∃ h, h264_annexbtomp4 a (annexb l) 0 (zlen (annexb l)) out size vcl update = Ok (zlen (prefixed l.*2), h) ∧
    avc_repr (h_avc h) (sets_after S P l.*2).1 (sets_after S P l.*2).2 ∧ nalu (h_avc h) = 4 ∧
    Avc.out h = prefixed l.*2 ++ drop (length (prefixed l.*2)) out.
Proof.
  intros Hm Hs Hl Hr Hn Hf Hroom Hint. unfold h264_annexbtomp4.
  set (h0 := AnnexbToMp4 _ _ _ _ _ _ _).
  destruct (annexb_nalu_ok (h264_handler (annexb l)) (annexb l) Hm (tomp4_holds out size) (tomp4_ok size) tomp4_step
    (λ h x c p, h264_handler_ok (annexb l) out size Hs h x c p) l h0 (S, P, [])) as (h & E & Hh); [done|done| |by apply tomp4_all_ok|].
  { by split. }
  rewrite E. run. rewrite tomp4_fold in Hh. destruct Hh as [H1 H2 H3 H4 H5 H6]. cbn [fst snd app] in *.
  eexists. rewrite H3. change (0 =? 0) with true. cbv iota. rewrite H5, s32_small by (split; [apply zlen_nonneg|done]).
  split; [done|]. cbn [h_avc Avc.out nalu set_nalu]. split_and!; [|done|by rewrite H6]. destruct H1. by split.
Qed.

(** * Back to start codes *)

(** Units behind start codes of four bytes. *)
Definition annexb4 us : list Z := annexb (map (3%nat,.) us).

Lemma annexb4_cons c us : annexb4 (c :: us) = [0; 0; 0; 1] ++ c ++ annexb4 us.
Proof. done. Qed.
Lemma annexb4_app us vs : annexb4 (us ++ vs) = annexb4 us ++ annexb4 vs.
Proof. induction us as [|c us IH]; [done|]. cbn [app]. rewrite !annexb4_cons, IH. by rewrite <- !app_assoc. Qed.
Lemma zlen_annexb4_cons c us : zlen (annexb4 (c :: us)) = 4 + zlen c + zlen (annexb4 us).
Proof. rewrite annexb4_cons. llia. Qed.
Lemma zlen_annexb4_snoc c us : zlen (annexb4 (us ++ [c])) = zlen (annexb4 us) + 4 + zlen c.
Proof. rewrite annexb4_app, zlen_app, zlen_annexb4_cons. change (zlen (annexb4 [])) with 0. lia. Qed.

(** A set that can stand behind a start code. *)
Definition bare c : Prop := c ≠ [] ∧ c !!! 0%nat ≠ 0.

Lemma bare_no_code a q c : bare c → holds (data a) q c →
  (if zlen c <? 4 then Ok false else H264_STARTCODE a (AvcSet (zlen c) (Some q))) = Ok false.
Proof.
  intros [Hne Hc] H. pose proof (zlen_pos _ Hne). destruct (_ <? 4); [done|]. unfold H264_STARTCODE. cbn [set_data]. run.
  pose proof (ld_holds _ q c 0 H ltac:(lia)) as Hld. rewrite Z.add_0_r in Hld. rewrite Hld. run.
  by destruct (Z.eqb_spec (c !!! Z.to_nat 0) 0).
Qed.

(** A table whose entries are the copies of the sets. *)
Definition copies a (sets : list avc_set) S : Prop :=
  ∀ i s, S !! i = Some s → ∃ q, ld sets (Z.of_nat i) = Ok (AvcSet (zlen s) (Some q)) ∧ holds (data a) q s.

Lemma nalu_sets_ok a sets S room bytes : copies a sets S → Forall bare S → room ≤ 4 →
  ∀ T D m k, S = D ++ T → 0 ≤ k → k + zlen (annexb4 T) ≤ bytes ≤ zlen m →
  nalu_sets (length T) (zlen D) a sets room m k bytes = Ok (Some (put m k (annexb4 T), k + zlen (annexb4 T))).
Proof.
  intros Hcp Hb Hroom. induction T as [|s T IH]; intros D m k HS Hk Hfit; cbn [length nalu_sets].
  { change (annexb4 []) with (@nil Z) in *. rewrite zlen_nil, Z.add_0_r. unfold put. cbn [app length]. by rewrite Nat.add_0_r, take_drop. }
  assert (S !! length D = Some s) as Hs by (rewrite HS; by apply list_lookup_middle).
  destruct (Hcp _ _ Hs) as (q & Hld & Hq). change (Z.of_nat (length D)) with (zlen D) in Hld. rewrite Hld. run. cbn [set_bytes].
  rewrite zlen_annexb4_cons in Hfit |- *. pose proof (zlen_nonneg (annexb4 T)). pose proof (zlen_nonneg s).
  rewrite Z.geb_leb. destruct (Z.leb_spec (k + zlen s + room) bytes); [|lia].
  eapply Forall_lookup_1 in Hs; [|exact Hb]. rewrite (bare_no_code a q s) by done. run. rewrite st_ok by llia. run.
  unfold set_slice. cbn [set_data set_bytes]. rewrite (holds_slice (data a) q s) by done. run. rewrite st_ok by llia. run.
  rewrite annexb4_cons. change (put (put m k [0; 0; 0; 1]) (k + 4) s) with (put (put m k [0; 0; 0; 1]) (k + zlen [0; 0; 0; 1]) s).
  rewrite put_app by llia.
  specialize (IH (D ++ [s]) (put m k ([0; 0; 0; 1] ++ s)) (k + zlen ([0; 0; 0; 1] ++ s))). rewrite <- app_assoc in IH.
  replace (zlen (D ++ [s])) with (zlen D + 1) in IH by llia.
  replace (k + 4 + zlen s) with (k + zlen ([0; 0; 0; 1] ++ s)) by llia. rewrite IH by (done || llia).
  rewrite put_app, <- app_assoc by llia. do 3 f_equal. llia.
Qed.

Lemma repr_copies a S P : avc_repr a S P → copies a (sps a) S ∧ copies a (pps a) P.
Proof.
  intros Hr. split; intros i s Hs.
  - destruct (repr_sps a S P i s Hr Hs) as (q & Hld & Hq & _). by exists q.
  - destruct (repr_pps a S P i s Hr Hs) as (q & Hld & Hq & _). by exists q.
Qed.

(** The sets as units. *)
Lemma to_nalu_ok a S P m bytes : avc_repr a S P → Forall bare (S ++ P) → zlen (annexb4 (S ++ P)) ≤ bytes ≤ zlen m →
  zlen (annexb4 (S ++ P)) < 2 ^ 31 →
  mpeg4_avc_to_nalu a m bytes = Ok (zlen (annexb4 (S ++ P)), put m 0 (annexb4 (S ++ P))).
Proof.
  intros Hr [HS HP]%Forall_app Hfit Hint. destruct (repr_copies a S P Hr) as [C1 C2]. unfold mpeg4_avc_to_nalu.
  rewrite annexb4_app, zlen_app in *. pose proof (zlen_nonneg (annexb4 S)). pose proof (zlen_nonneg (annexb4 P)).
  rewrite (ar_nb_sps a S P Hr), (ar_nb_pps a S P Hr).
  assert (∀ T : list (list Z), Z.to_nat (zlen T) = length T) as Hlen by (intros; unfold zlen; lia). rewrite !Hlen.
  pose proof (nalu_sets_ok a (sps a) S 4 bytes C1 HS ltac:(lia) S [] m 0 eq_refl ltac:(lia) ltac:(lia)) as E. change (zlen (@nil (list Z))) with 0 in E. rewrite E. run.
  pose proof (nalu_sets_ok a (pps a) P 2 bytes C2 HP ltac:(lia) P [] (put m 0 (annexb4 S)) (0 + zlen (annexb4 S)) eq_refl ltac:(lia)) as E2.
  change (zlen (@nil (list Z))) with 0 in E2. rewrite E2 by llia. run. rewrite put_app by llia. by rewrite Z.add_0_l, s32_small by lia.
Qed.

Lemma copies_sizes a sets S n : copies a sets S → n = zlen S → map set_bytes (take (Z.to_nat n) sets) = map zlen S.
Proof.
  intros Hc ->. unfold zlen at 1. rewrite Nat2Z.id. change (map set_bytes) with (fmap (M := list) set_bytes). change (map zlen) with (fmap (M := list) (@zlen Z)).
  apply list_eq. intros i. rewrite !list_lookup_fmap. destruct (S !! i) as [s|] eqn:E.
  - destruct (Hc i s E) as (q & Hld%ld_inv & _). rewrite Nat2Z.id in Hld. rewrite lookup_take_lt by (by eapply lookup_lt_Some).
    by destruct Hld as [_ ->].
  - apply lookup_ge_None in E. by rewrite lookup_take_ge.
Qed.

Lemma sps_pps_size_ok a S P : avc_repr a S P → h264_sps_pps_size a = zlen (annexb4 (S ++ P)).
Proof.
  intros Hr. destruct (repr_copies a S P Hr) as [C1 C2]. unfold h264_sps_pps_size.
  assert (∀ l, foldr (λ s n, set_bytes s + 4 + n) 0 l = foldr (λ x n, x + 4 + n) 0 (map set_bytes l)) as ->
    by (induction l as [|x l IH]; [done|]; cbn; by rewrite IH).
  rewrite map_app, (copies_sizes a _ S), (copies_sizes a _ P), <- map_app by (done || apply Hr).
  generalize (S ++ P). intros T. induction T as [|s T IH]; [done|]. rewrite zlen_annexb4_cons. cbn [map foldr]. lia.
Qed.

Lemma read_length_ok l : ∀ k i m p n, holds m (p + i) l → k = length l → bytes_ok l → 0 ≤ n → n * 256 ^ zlen l + be_val l < 2 ^ 31 →
  read_length k i m p n = Ok (n * 256 ^ zlen l + be_val l).
Proof.
  induction l as [|x l IH]; intros k i m p n Hl -> Hb Hn Hmax; cbn [length read_length].
  { change (be_val []) with 0. change (256 ^ zlen []) with 1. f_equal. lia. }
  apply holds_cons in Hl as [-> Hl]. run. apply Forall_cons_1 in Hb as [Hx Hb]. unfold is_uint in Hx.
  rewrite be_val_cons, zlen_cons, Z.pow_add_r in * by (apply zlen_nonneg || lia). pose proof (be_val_range l Hb) as Hr.
  assert (0 < 256 ^ zlen l) by (apply Z.pow_pos_nonneg; [lia|apply zlen_nonneg]).
  assert (n * 256 + x < 2 ^ 31) by (change (256 ^ 1) with 256 in Hmax; nia).
  rewrite int_ok by lia. run. rewrite int_ok by lia. run. rewrite IH; [|by rewrite Z.add_assoc|done|done|lia|].
  - f_equal. change (256 ^ 1) with 256. lia.
  - change (256 ^ 1) with 256 in Hmax. lia.
Qed.

(** The units that come out: before the first picture that can be decoded
    alone the sets, unless one came. *)
Definition has_sets c : bool := (unit_kind c =? H264_NAL_SPS) || (unit_kind c =? H264_NAL_PPS).
Definition toannexb_step (T : list (list Z)) (x : bool * list (list Z)) c : bool * list (list Z) :=
  if has_sets c then (true, x.2 ++ [c])
  else if (unit_kind c =? H264_NAL_IDR) && negb x.1 then (true, T ++ x.2 ++ [c])
  else (x.1, x.2 ++ [c]).
Definition with_sets (T : list (list Z)) us : list (list Z) := (foldl (toannexb_step T) (false, []) us).2.

Lemma put_front (w k x : list Z) : zlen w + zlen x ≤ zlen k →
  put (put (w ++ drop (length w) k) (zlen x) w) 0 x = (x ++ w) ++ drop (length (x ++ w)) k.
Proof.
  intros H. unfold put, zlen in *. rewrite Nat2Z.id. change (Z.to_nat 0) with 0%nat. cbn [take app Nat.add].
  rewrite (drop_app_length' (take (length x) (w ++ drop (length w) k))) by (rewrite length_take, length_app, length_drop; lia).
  rewrite (Nat.add_comm (length x) (length w)), drop_app_add, drop_drop, <- app_assoc, length_app. by rewrite (Nat.add_comm (length x)).
Qed.

Lemma slice_front (w k : list Z) n : n = zlen w → slice (w ++ k) 0 n = Ok w.
Proof. intros ->. apply holds_slice; [|done]. apply holds_app_r, holds_whole. Qed.

Section ToAnnexb.
Context (a : mpeg4_avc_t) (S P : list (list Z)) (Hr : avc_repr a S P) (Hbare : Forall bare (S ++ P)) (Hsome : S ++ P ≠ []).
Context (m out0 : list Z) (size : Z) (Hsize : size ≤ zlen out0) (Hint : size < 2 ^ 31).
Let T := S ++ P.

Record toannexb_holds (h : h264_mp4toannexb_handle_t) (x : bool * list (list Z)) : Prop := ToAnnexb {
  ta_flag : sps_pps_flag h = if x.1 then 1 else 0; ta_err : m_errcode h = 0; ta_size : m_capacity h = size;
  ta_bytes : m_bytes h = zlen (annexb4 x.2); ta_out : m_out h = annexb4 x.2 ++ drop (length (annexb4 x.2)) out0
}.
Definition toannexb_ok (x : bool * list (list Z)) c : Prop := c ≠ [] ∧ zlen (annexb4 (toannexb_step T x c).2) ≤ size.

Lemma insert_sets_ok h vs : toannexb_holds h (false, vs) → zlen (annexb4 (T ++ vs)) ≤ size →
  ∃ h', insert_sets a h = Ok (true, h') ∧ toannexb_holds h' (true, T ++ vs).
Proof.
  intros [Hf He Hc Hb Ho] Hfit. cbn [fst snd] in *. unfold insert_sets. rewrite (sps_pps_size_ok a S P Hr), Hc, Hb. fold T.
  rewrite annexb4_app, zlen_app in Hfit. pose proof (zlen_nonneg (annexb4 vs)). pose proof (zlen_nonneg (annexb4 T)).
  assert (0 < zlen (annexb4 T)) as Hpos.
  { unfold T in *. destruct (S ++ P) as [|s l]; [done|]. rewrite zlen_annexb4_cons. pose proof (zlen_nonneg s). pose proof (zlen_nonneg (annexb4 l)). lia. }
  rewrite (Z.gtb_ltb (_ + _)). destruct (Z.ltb_spec size (zlen (annexb4 T) + zlen (annexb4 vs))); [lia|]. rewrite andb_false_r.
  set (o := if zlen (annexb4 vs) >? 0 then _ else _).
  assert (o = Ok (put (m_out h) (zlen (annexb4 T)) (annexb4 vs)) ∨ (o = Ok (m_out h) ∧ annexb4 vs = [])) as Hcase.
  { unfold o. rewrite Z.gtb_ltb. destruct (Z.ltb_spec 0 (zlen (annexb4 vs))).
    - left. rewrite Ho, slice_front by done. run. apply st_ok; [lia|]. rewrite zlen_app. unfold zlen in *. rewrite length_drop. lia.
    - right. split; [done|]. destruct (annexb4 vs) as [|y l]; [done|]. rewrite zlen_cons in *. pose proof (zlen_nonneg l). lia. }
  assert (zlen (m_out h) = zlen out0) as Hz by (rewrite Ho; unfold zlen in *; rewrite length_app, length_drop; lia).
  assert (∃ k, o = Ok k ∧ zlen k = zlen out0 ∧ put k 0 (annexb4 T) = annexb4 (T ++ vs) ++ drop (length (annexb4 (T ++ vs))) out0) as (k & -> & Hk & Hput).
  { rewrite annexb4_app. destruct Hcase as [-> | [-> E]]; (eexists; split; [done|]).
    - rewrite zlen_put, Hz, Ho, put_front by lia. done.
    - rewrite Hz, Ho, E, app_nil_r. split; [done|]. unfold put. done. }
  run. rewrite (to_nalu_ok a S P k size Hr Hbare) by (fold T; lia). fold T. run.
  destruct (Z.leb_spec (zlen (annexb4 T)) 0); [lia|]. rewrite Hput. eexists. split; [done|].
  split; cbn [sps_pps_flag m_errcode m_out m_bytes m_capacity fst snd]; try done. rewrite annexb4_app, zlen_app. lia.
Qed.

Lemma toannexb_handler_ok h x c p : toannexb_holds h x → toannexb_ok x c → c ≠ [] → holds m p c →
  ∃ h', h264_mp4toannexb_handler a m h p (zlen c) = Ok h' ∧ toannexb_holds h' (toannexb_step T x c).
Proof.
  intros Hh [Hne Hfit] _ Hc. pose proof (zlen_pos _ Hne). destruct x as [flag vs].
  unfold h264_mp4toannexb_handler. destruct (Z.ltb_spec (zlen c) 1); [lia|].
  pose proof (ld_holds m p c 0 Hc ltac:(lia)) as Hld. rewrite Z.add_0_r in Hld. rewrite Hld. run.
  change (Z.land (c !!! Z.to_nat 0) 0x1f) with (unit_kind c). fold (has_sets c).
  assert (∃ f' ws h1, toannexb_step T (flag, vs) c = (f', ws ++ [c]) ∧ toannexb_holds h1 (f', ws) ∧
    (if has_sets c then Ok (true, Mp4ToAnnexb 1 (m_errcode h) (m_out h) (m_bytes h) (m_capacity h))
     else if (unit_kind c =? H264_NAL_IDR) && (0 =? sps_pps_flag h) then insert_sets a h else Ok (true, h)) = Ok (true, h1)) as
    (f' & ws & h1 & Es & Hh1 & ->).
  { unfold toannexb_step in *. cbn [fst snd] in *. pose proof Hh as [Hf He Hcap Hb Ho]. cbn [fst snd] in *.
    destruct (has_sets c); [eexists true, vs, _; split; [done|]; split; [|done]; by split|]. rewrite Hf.
    destruct (unit_kind c =? H264_NAL_IDR); [|by exists flag, vs, h].
    destruct flag; cbn [Z.eqb andb negb] in *; [by exists true, vs, h|]. cbn [snd] in Hfit.
    destruct (insert_sets_ok h vs Hh) as (h1 & E1 & H1).
    { rewrite app_assoc, zlen_annexb4_snoc in Hfit. lia. }
    eexists _, _, h1. rewrite app_assoc. done. }
  run. cbn [negb]. rewrite Es in Hfit |- *. cbn [snd] in Hfit. rewrite zlen_annexb4_snoc in Hfit.
  destruct Hh1 as [Hf He Hcap Hb Ho]. cbn [fst snd] in *. rewrite Hb, Hcap, Z.gtb_ltb.
  destruct (Z.ltb_spec size (zlen (annexb4 ws) + zlen c + 4)); [lia|]. rewrite (holds_slice m p c) by done. run.
  rewrite Ho, st_tail by llia. run. eexists. split; [done|].
  assert (annexb4 (ws ++ [c]) = annexb4 ws ++ [0; 0; 0; 1] ++ c) as E by (rewrite annexb4_app, annexb4_cons; by rewrite app_nil_r).
  split; cbn [sps_pps_flag m_errcode m_out m_bytes m_capacity fst snd]; rewrite ?E; (done || llia).
Qed.
End ToAnnexb.

(** The units of a length-prefixed input; one of a single byte would be taken
    for a start code. *)
Definition long_unit c : Prop := 2 ≤ zlen c < 2 ^ 31.

Lemma mp4toannexb_loop_ok a S P out0 size : avc_repr a S P → Forall bare (S ++ P) → S ++ P ≠ [] → nalu a = 4 →
  size ≤ zlen out0 → size < 2 ^ 31 →
  ∀ us fuel pre h x, Forall long_unit us → (length us ≤ fuel)%nat → toannexb_holds out0 size h x →
  all_ok (toannexb_ok S P size) (toannexb_step (S ++ P)) x us → let m := pre ++ prefixed us in
  ∃ h', mp4toannexb_loop fuel a h m (zlen pre) (zlen m) = Ok h' ∧ toannexb_holds out0 size h' (foldl (toannexb_step (S ++ P)) x us).
Proof.
  intros Hr Hb Hs Hn Hsize Hint us. induction us as [|c us IH]; intros fuel pre h x Hus Hf Hh Hok m.
  { exists h. split; [|done]. unfold m. change (prefixed []) with (@nil Z). rewrite app_nil_r.
    destruct fuel; cbn [mp4toannexb_loop]; rewrite Hn; by destruct (Z.ltb_spec (zlen pre + 4) (zlen pre)); [lia|]. }
  apply Forall_cons_1 in Hus as [Hc Hus]. unfold long_unit in Hc. destruct Hok as [Hok1 Hok]. cbn [length] in Hf.
  destruct fuel as [|fuel]; [lia|].
  assert (prefixed (c :: us) = be_bytes 4 (zlen c) ++ c ++ prefixed us) as Epre by (unfold prefixed; cbn [map concat]; by rewrite <- app_assoc).
  pose proof (zlen_nonneg pre). pose proof (zlen_nonneg (prefixed us)). assert (zlen m = zlen pre + 4 + zlen c + zlen (prefixed us)) as Hz by (unfold m; rewrite Epre; llia).
  assert (holds m (zlen pre) (be_bytes 4 (zlen c)) ∧ holds m (zlen pre + 4) c) as [H1 H2].
  { pose proof (holds_whole m) as Hw. unfold m in Hw at 2. rewrite Epre, !holds_app, zlen_be_bytes in Hw. rewrite Z.add_0_l in Hw.
    change (Z.of_nat 4) with 4 in Hw. tauto. }
  cbn [mp4toannexb_loop]. rewrite Hn. destruct (Z.ltb_spec (zlen pre + 4) (zlen m)); [|lia].
  rewrite (read_length_ok (be_bytes 4 (zlen c))); [|by rewrite Z.add_0_r|by rewrite length_be_bytes|apply bytes_ok_be_bytes|lia|rewrite be_val_bytes by (change (256 ^ Z.of_nat 4) with (2 ^ 32); lia); lia].
  rewrite be_val_bytes by (change (256 ^ Z.of_nat 4) with (2 ^ 32); lia). rewrite Z.mul_0_l, Z.add_0_l. run.
  destruct (Z.eqb_spec 0 4); [lia|]. destruct (Z.eqb_spec 1 (zlen c)); [lia|]. cbn [orb andb].
  rewrite Z.gtb_ltb. destruct (Z.leb_spec (zlen c) 0), (Z.ltb_spec (zlen m) (zlen pre + zlen c + 4)); try lia. cbn [orb].
  destruct (toannexb_handler_ok a S P Hr Hb Hs m out0 size Hsize Hint h x c (zlen pre + 4) Hh Hok1) as (h1 & -> & Hh1); [apply Hok1|done|]. run.
  destruct (IH fuel (pre ++ be_bytes 4 (zlen c) ++ c) h1 _ Hus ltac:(lia) Hh1 Hok) as (h' & E & Hh').
  assert ((pre ++ be_bytes 4 (zlen c) ++ c) ++ prefixed us = m) as Em by (unfold m; rewrite Epre; by rewrite <- !app_assoc).
  cbv zeta in E. rewrite Em in E. exists h'. split; [|done]. rewrite <- E. f_equal. llia.
Qed.

Lemma all_ok_sizes S P size us : ∀ x, Forall (λ c, c ≠ []) us →
  zlen (annexb4 (foldl (toannexb_step (S ++ P)) x us).2) ≤ size → all_ok (toannexb_ok S P size) (toannexb_step (S ++ P)) x us.
Proof.
  assert (∀ us x, zlen (annexb4 x.2) ≤ zlen (annexb4 (foldl (toannexb_step (S ++ P)) x us).2)) as Hmono.
  { intros vs. induction vs as [|c vs IH]; intros x; cbn [foldl]; [done|]. etrans; [|apply IH]. unfold toannexb_step.
    pose proof (zlen_nonneg c). pose proof (zlen_nonneg (annexb4 (S ++ P))).
    destruct (has_sets c); [cbn [snd]; rewrite zlen_annexb4_snoc; lia|]. destruct (_ && _); cbn [snd].
    - rewrite app_assoc, zlen_annexb4_snoc, annexb4_app, zlen_app. lia.
    - rewrite zlen_annexb4_snoc. lia. }
  induction us as [|c us IH]; intros x Hne Hfit; cbn [all_ok foldl] in *; [done|]. apply Forall_cons_1 in Hne as [Hc Hne].
  split; [|by apply IH]. split; [done|]. etrans; [apply Hmono|exact Hfit].
Qed.

Lemma mp4toannexb_ok a S P us out size : avc_repr a S P → Forall bare (S ++ P) → S ++ P ≠ [] → nalu a = 4 →
  size ≤ zlen out → size < 2 ^ 31 → Forall long_unit us → zlen (annexb4 (with_sets (S ++ P) us)) ≤ size →
  h264_mp4toannexb a (prefixed us) (zlen (prefixed us)) out size =
  Ok (zlen (annexb4 (with_sets (S ++ P) us)), annexb4 (with_sets (S ++ P) us) ++ drop (length (annexb4 (with_sets (S ++ P) us))) out).
Proof.
  intros Hr Hb Hs Hn Hsize Hint Hus Hfit. unfold h264_mp4toannexb.
  destruct (mp4toannexb_loop_ok a S P out size Hr Hb Hs Hn Hsize Hint us (Z.to_nat (zlen (prefixed us))) [] (Mp4ToAnnexb 0 0 out 0 size) (false, []) Hus)
    as (h & E & [_ He _ Hby Ho]).
  - unfold zlen. rewrite Nat2Z.id. clear. induction us as [|c us IH]; [done|]. unfold prefixed in *. cbn [map concat length]. rewrite !length_app, length_be_bytes. lia.
  - by split.
  - apply all_ok_sizes; [|done]. eapply list.Forall_impl; [exact Hus|]. intros c Hc ->. unfold long_unit in Hc. change (zlen (@nil Z)) with 0 in Hc. lia.
  - cbv zeta in E. cbn [app] in E. change (zlen (@nil Z)) with 0 in E. rewrite E. run. rewrite He, Hby, Ho. change (0 =? 0) with true. cbv iota.
    fold (with_sets (S ++ P) us). by rewrite s32_small by (split; [apply zlen_nonneg|lia]).
Qed.

Lemma sets_updated_Forall (Q : list Z → Prop) S P c : Forall Q (S ++ P) → (has_sets c = true → Q c) →
  Forall Q ((sets_updated S P c).1.2 ++ (sets_updated S P c).2).
Proof.
  intros [HS HP]%Forall_app Hc. unfold sets_updated, has_sets in *. apply Forall_app.
  destruct (_ =? H264_NAL_SPS); [specialize (Hc eq_refl)|destruct (_ =? H264_NAL_PPS); [specialize (Hc eq_refl)|by split]]; (split; [|done] || (split; [done|])); cbn [fst snd].
  - unfold sps_updated. destruct (_ <? 5); [done|]. destruct (list_find _ S) as [[i s]|]; [by apply replaced_Forall|]. destruct (_ || _); [done|]. by apply snoc_Forall.
  - unfold pps_updated. destruct (_ <? 2); [done|]. destruct (list_find _ P) as [[i s]|]; [by apply replaced_Forall|].
    destruct (_ && _); [by apply Forall_insert|]. destruct (_ || _); [done|]. by apply snoc_Forall.
Qed.

Lemma bare_set c : c ≠ [] → has_sets c = true → bare c.
Proof. intros Hne Hs. split; [done|]. intros E. unfold has_sets, unit_kind in Hs. by rewrite E in Hs. Qed.

Lemma sets_after_bare us : ∀ S P, Forall (λ c, c ≠ []) us → Forall bare (S ++ P) →
  Forall bare ((sets_after S P us).1 ++ (sets_after S P us).2).
Proof.
  induction us as [|c us IH]; intros S P Hne Hb; [done|]. apply Forall_cons_1 in Hne as [Hc Hne].
  apply (IH _ _ Hne). apply sets_updated_Forall; [done|]. by apply bare_set.
Qed.

(** C13: the units of a byte stream survive the way through length prefixes.
    h264_annexbtomp4 writes each behind its length and collects the parameter
    sets; h264_mp4toannexb writes each behind a start code of four bytes, with
    the sets in front of everything when a picture that can be decoded alone
    comes before any set. *)
Theorem h264_stream_roundtrip a S P l out size out' size' :
  avc_repr a S P → numbered S P → Forall bare (S ++ P) →
  stream_ok l → zlen (annexb l) < 2 ^ 31 → units_fit S P l.*2 → Forall long_unit l.*2 →
  zlen (prefixed l.*2) ≤ size ≤ zlen out → zlen (prefixed l.*2) < 2 ^ 31 →
  let T := (sets_after S P l.*2).1 ++ (sets_after S P l.*2).2 in
  T ≠ [] → zlen (annexb4 (with_sets T l.*2)) ≤ size' ≤ zlen out' → size' < 2 ^ 31 →
  ∃ h n mp4, h264_annexbtomp4 a (annexb l) 0 (zlen (annexb l)) out size None None = Ok (n, h) ∧
    sub (Avc.out h) 0 n = mp4 ∧ mp4 = prefixed l.*2 ∧
    ∃ k back, h264_mp4toannexb (h_avc h) mp4 n out' size' = Ok (k, back) ∧ sub back 0 k = annexb4 (with_sets T l.*2).
Proof.
  intros Hr Hn Hb Hl Hm Hf Hus Hroom Hint T HT Hroom' Hint'.
  destruct (annexbtomp4_ok a S P l out size None None Hm ltac:(lia) Hl Hr Hn Hf ltac:(lia) Hint) as (h & E & Hr' & Hnal & Ho).
  assert (∀ x k : list Z, sub (x ++ k) 0 (zlen x) = x) as Hsub.
  { intros x k. unfold sub, zlen. rewrite Nat2Z.id. change (Z.to_nat 0) with 0%nat. by rewrite drop_0, take_app_length. }
  exists h, (zlen (prefixed l.*2)), (prefixed l.*2). split; [done|]. split; [by rewrite Ho, Hsub|]. split; [done|].
  eexists _, _. split.
  - destruct Hroom' as [Hfit Hmax]. apply (mp4toannexb_ok (h_avc h) _ _ l.*2 out' size' Hr'); try done; try lia. apply sets_after_bare; [|done].
    eapply list.Forall_impl; [exact Hus|]. intros c Hc ->. unfold long_unit in Hc. change (zlen (@nil Z)) with 0 in Hc. lia.
  - apply Hsub.
Qed.

(** Concrete input: two sets and a picture behind start codes of five, three
    and four bytes. *)
Definition demo_sps : list Z := [103; 66; 0; 30; 240].
Definition demo_pps : list Z := [104; 206; 60].
Definition demo_idr : list Z := [101; 136; 0; 0; 3; 7].

Lemma demo_stream_ok : stream_ok [(4%nat, demo_sps); (2%nat, demo_pps); (3%nat, demo_idr)].
Proof. split; [cbn; lia|]. repeat constructor; cbn; (lia || done). Qed.

Lemma h264_stream_roundtrip_witness : ∃ h n mp4,
  h264_annexbtomp4 avc_zero (annexb [(4%nat, demo_sps); (2%nat, demo_pps); (3%nat, demo_idr)]) 0 26 (replicate 64 0) 64 None None = Ok (n, h) ∧
  sub (Avc.out h) 0 n = mp4 ∧ mp4 = prefixed [demo_sps; demo_pps; demo_idr] ∧
  ∃ k back, h264_mp4toannexb (h_avc h) mp4 n (replicate 64 0) 64 = Ok (k, back) ∧
    sub back 0 k = annexb4 [demo_sps; demo_pps; demo_idr].
Proof.
  apply (h264_stream_roundtrip avc_zero [] [] [(4%nat, demo_sps); (2%nat, demo_pps); (3%nat, demo_idr)] (replicate 64 0) 64 (replicate 64 0) 64 zero_repr).
  - by split; constructor.
  - by constructor.
  - apply demo_stream_ok.
  - done.
  - cbn [fmap list_fmap snd units_fit]. split_and!; try done.
  - repeat (apply Forall_cons_2; [by split|]). by constructor.
  - by split.
  - done.
  - done.
  - by split.
  - done.
Defined.
