(* ===== verification/AvcRecordSpec.v ===== *)
(** The configuration record of mpeg4-avc.c: what is saved is loaded.

    Inputs on which the parameter set and stream functions of libflv loop
    forever, leave their buffers or change the units. *)
From S2P Require Import Prelude RtpPacket RtpPayload RtpH264 RtpH264Spec RtpH264Stream Avc AvcSpec AvcUpdateSpec AvcStreamSpec.

Implicit Types (m c : list Z) (p : Z) (a b : mpeg4_avc_t) (S P T us : list (list Z)).

(** * Sets behind their lengths *)

Definition sized T : list Z := concat (map (λ c, be_bytes 2 (zlen c) ++ c) T).
Lemma sized_cons c T : sized (c :: T) = be_bytes 2 (zlen c) ++ c ++ sized T.
Proof. unfold sized. cbn [map concat]. by rewrite <- app_assoc. Qed.
Lemma zlen_sized_cons c T : zlen (sized (c :: T)) = 2 + zlen c + zlen (sized T).
Proof. rewrite sized_cons. llia. Qed.

Lemma length_field c : zlen c < 2 ^ 16 → [u8 (Z.land (Z.shiftr (zlen c) 8) 0xff); u8 (Z.land (zlen c) 0xff)] = be_bytes 2 (zlen c).
Proof. intros. pose proof (zlen_nonneg c). rewrite be_bytes_2. masks. unfold u8. f_equal; [|f_equal]; by rewrite Zmod_mod. Qed.

Lemma save_sets_ok a sets S : copies a sets S → Forall (λ c, zlen c < 2 ^ 16) S →
  ∀ T D m p bytes, S = D ++ T → 0 ≤ p → p + zlen (sized T) ≤ zlen m → zlen (sized T) ≤ bytes →
  save_sets (length T) (zlen D) a sets m p bytes = Ok (Some (put m p (sized T), p + zlen (sized T), bytes - zlen (sized T))).
Proof.
  intros Hcp Hmax T. induction T as [|s T IH]; intros D m p bytes HS Hp Hm Hb; cbn [length save_sets].
  { change (sized []) with (@nil Z) in *. rewrite zlen_nil, Z.add_0_r, Z.sub_0_r. unfold put. cbn [app length]. by rewrite Nat.add_0_r, take_drop. }
  assert (S !! length D = Some s) as Hs by (rewrite HS; by apply list_lookup_middle).
  destruct (Hcp _ _ Hs) as (q & Hld & Hq). change (Z.of_nat (length D)) with (zlen D) in Hld. rewrite Hld. run. cbn [set_bytes].
  eapply Forall_lookup_1 in Hs; [|exact Hmax]. rewrite zlen_sized_cons in *. pose proof (zlen_nonneg (sized T)). pose proof (zlen_nonneg s).
  rewrite Z.geb_leb. destruct (Z.leb_spec (zlen s + 2) bytes); [|lia]. cbv beta in Hs. rewrite length_field, st_ok by llia. run.
  unfold set_slice. cbn [set_data set_bytes]. rewrite (holds_slice (data a) q s) by done. run. rewrite st_ok by llia. run.
  change (p + 2) with (p + zlen (be_bytes 2 (zlen s))). rewrite put_app by llia.
  specialize (IH (D ++ [s]) (put m p (be_bytes 2 (zlen s) ++ s)) (p + zlen (be_bytes 2 (zlen s)) + zlen s) (bytes - (zlen s + 2))). rewrite <- app_assoc in IH.
  replace (zlen (D ++ [s])) with (zlen D + 1) in IH by llia. rewrite IH by (done || llia).
  replace (p + zlen (be_bytes 2 (zlen s)) + zlen s) with (p + zlen (be_bytes 2 (zlen s) ++ s)) by llia.
  rewrite put_app, sized_cons, <- app_assoc by llia. do 2 f_equal. f_equal; [f_equal|]; llia.
Qed.

(** The entries of sets copied one behind the other. *)
Fixpoint entries (p : Z) T : list avc_set :=
  match T with [] => [] | c :: T => AvcSet (zlen c) (Some p) :: entries (p + zlen c) T end.

Lemma length_entries T : ∀ p, length (entries p T) = length T.
Proof. induction T as [|c T IH]; intros p; [done|]. cbn. by rewrite IH. Qed.
Lemma entries_laid T : ∀ p, laid p (zip (entries p T) T).
Proof. induction T as [|c T IH]; intros p; [done|]. by split. Qed.

Lemma load_sets_ok m bytes (strict : bool) d0 T : ∀ i j w sets, Forall set_ok T →
  holds m j (sized T) → (if strict then j + zlen (sized T) < bytes else j + zlen (sized T) ≤ bytes) →
  zlen w + zlen (concat T) ≤ AVC_DATA → AVC_DATA ≤ zlen d0 → 0 ≤ i → i + zlen T ≤ zlen sets →
  load_sets (length T) i m bytes strict j (zlen w) (w ++ drop (length w) d0) sets =
  Ok (j + zlen (sized T), zlen (w ++ concat T), (w ++ concat T) ++ drop (length (w ++ concat T)) d0, put sets i (entries (zlen w) T)).
Proof.
  induction T as [|c T IH]; intros i j w sets Hok Hj Hb Hw Hd Hi Hs; cbn [length load_sets entries concat].
  { change (sized []) with (@nil Z). rewrite zlen_nil, Z.add_0_r, app_nil_r. unfold put. cbn [app length]. by rewrite Nat.add_0_r, take_drop. }
  apply Forall_cons_1 in Hok as [[Hc Hc'] Hok]. rewrite zlen_sized_cons in *. cbn [concat] in Hw. rewrite zlen_app in Hw. rewrite zlen_cons in Hs.
  pose proof (zlen_nonneg (sized T)). pose proof (zlen_nonneg (concat T)). pose proof (zlen_nonneg w). pose proof (zlen_nonneg T). unfold AVC_DATA in *.
  assert (j + 2 + zlen c + (if strict then 1 else 0) ≤ bytes) as Hfit by (destruct strict; lia).
  rewrite sized_cons, !holds_app, be_bytes_2 in Hj. destruct Hj as (Hlen & Hhc & Hj). apply holds_ld2 in Hlen as [-> ->].
  destruct (Z.ltb_spec (j + 2) bytes); [|destruct strict; lia]. run.
  assert (u16 (Z.lor (Z.shiftl (u8 (Z.shiftr (zlen c) 8)) 8) (u8 (zlen c))) = zlen c) as ->.
  { rewrite be_val_2 by (unfold u8, is_uint; dlia). rewrite <- be_bytes_2, be_val_bytes by (change (256 ^ Z.of_nat 2) with (2 ^ 16); lia).
    apply u16_id. unfold is_uint. lia. }
  assert ((if strict then j + 2 + zlen c >=? bytes else j + 2 + zlen c >? bytes) = false) as ->.
  { destruct strict; [rewrite Z.geb_leb; by apply Z.leb_gt; lia|rewrite Z.gtb_ltb; by apply Z.ltb_ge; lia]. }
  rewrite Z.gtb_ltb. destruct (Z.ltb_spec 4096 (zlen w + zlen c)); [lia|]. cbn [orb].
  change (j + zlen [u8 (Z.shiftr (zlen c) 8); u8 (zlen c)]) with (j + 2) in *.
  rewrite (holds_slice m (j + 2) c) by done. run. rewrite st_tail by lia. run. rewrite st_ok by llia. run.
  rewrite <- zlen_app. replace (j + 2 + zlen c) with (j + zlen c + 2) in Hj by lia.
  rewrite (IH (i + 1) (j + zlen c + 2) (w ++ c)) by (done || llia || (destruct strict; llia)).
  change (i + 1) with (i + zlen [AvcSet (zlen c) (Some (zlen w))]). rewrite put_app, <- !app_assoc by llia. rewrite zlen_app.
  do 4 f_equal. lia.
Qed.

(** * The record *)

Definition record_bytes a S P : list Z :=
  [1; profile a; compatibility a; level a; u8 (Z.lor 0xfc (nalu a - 1)); u8 (Z.lor 0xe0 (zlen S))] ++ sized S ++ [zlen P] ++ sized P.

(** The fields of the high profiles, where there is room. *)
Definition record_tail a (room : Z) : list Z :=
  if (room >=? 4) && extended_profile (profile a) then
    [u8 (Z.lor 0xfc (chroma_format_idc a)); u8 (Z.lor 0xf8 (bit_depth_luma_minus8 a)); u8 (Z.lor 0xf8 (bit_depth_chroma_minus8 a)); 0]
  else [].

Lemma repr_small a S P : avc_repr a S P → Forall (λ c, zlen c < 2 ^ 16) S ∧ Forall (λ c, zlen c < 2 ^ 16) P.
Proof.
  intros Hr. pose proof (ar_sets a S P Hr) as H. apply Forall_app. eapply list.Forall_impl; [exact H|].
  unfold set_ok, AVC_DATA. intros c Hc. lia.
Qed.

Lemma zlen_record a S P : zlen (record_bytes a S P) = 7 + zlen (sized S) + zlen (sized P).
Proof. unfold record_bytes. llia. Qed.

Lemma put_put m p x y q : 0 ≤ p → q = p + zlen x → q ≤ zlen m → put (put m p x) q y = put m p (x ++ y).
Proof. intros Hp -> Hm. by apply put_app. Qed.

Lemma record_save_ok a S P m bytes : avc_repr a S P → zlen (record_bytes a S P) ≤ bytes ≤ zlen m → bytes < 2 ^ 31 →
  let r := record_bytes a S P ++ record_tail a (bytes - zlen (record_bytes a S P)) in
  mpeg4_avc_decoder_configuration_record_save a m bytes = Ok (zlen r, put m 0 r).
Proof.
  intros Hr Hb Hint r. pose proof (ar_max_sps a S P Hr) as Hmax. destruct (repr_copies a S P Hr) as [C1 C2].
  destruct (repr_small a S P Hr) as [M1 M2]. pose proof (zlen_nonneg (sized S)). pose proof (zlen_nonneg (sized P)).
  unfold r. clear r. rewrite zlen_record in *. unfold record_bytes.
  set (x := [1; profile a; compatibility a; level a; _; _]). assert (zlen x = 6) as Hx by done.
  unfold mpeg4_avc_decoder_configuration_record_save. rewrite (ar_nb_sps a S P Hr), (ar_nb_pps a S P Hr). fold x. unfold AVC_SPS in *.
  assert (∀ T : list (list Z), Z.to_nat (zlen T) = length T) as Hlen by (intros; unfold zlen; lia). rewrite !Hlen.
  destruct (Z.ltb_spec bytes 7); [lia|]. rewrite Z.gtb_ltb. destruct (Z.ltb_spec 32 (zlen S)); [lia|]. cbn [orb].
  rewrite st_ok by (change (zlen x) with 6; lia). run.
  pose proof (save_sets_ok a (sps a) S C1 M1 S [] (put m 0 x) 6 (bytes - 7) eq_refl) as E. change (zlen (@nil (list Z))) with 0 in E.
  assert (zlen (put m 0 x) = zlen m) as Hpx by (apply zlen_put; change (zlen x) with 6; lia).
  rewrite E by lia. run. rewrite (put_put m 0 x) by (done || lia). rewrite st_ok by llia. run.
  rewrite put_put by llia.
  pose proof (save_sets_ok a (pps a) P C2 M2 P [] (put m 0 ((x ++ sized S) ++ [zlen P])) (6 + zlen (sized S) + 1) (bytes - 7 - zlen (sized S)) eq_refl) as E2.
  change (zlen (@nil (list Z))) with 0 in E2. rewrite E2 by llia. run. rewrite put_put by llia.
  replace (bytes - 7 - zlen (sized S) - zlen (sized P)) with (bytes - (7 + zlen (sized S) + zlen (sized P))) by lia.
  unfold record_tail. destruct (_ && extended_profile (profile a)) eqn:Et.
  - apply andb_prop in Et as [Et _]. rewrite Z.geb_leb in Et. apply Z.leb_le in Et. rewrite st_ok by llia. run. rewrite put_put by llia.
    rewrite <- !app_assoc. f_equal. f_equal. rewrite s32_small by llia. llia.
  - rewrite app_nil_r, <- !app_assoc. f_equal. f_equal. rewrite s32_small by llia. llia.
Qed.

Lemma sps_count_field n : 0 ≤ n < 32 → Z.land (u8 (Z.lor 0xe0 n)) 0x1f = n.
Proof.
  intros Hn. assert (Forall (λ n, Z.land (u8 (Z.lor 0xe0 n)) 0x1f = n) (seqZ 0 32)) as H by by_eval.
  rewrite list.Forall_forall in H. apply H, elem_of_seqZ. lia.
Qed.
Lemma nalu_field n : 1 ≤ n ≤ 4 → Z.land (u8 (Z.lor 0xfc (n - 1))) 3 + 1 = n.
Proof. intros Hn. assert (n = 1 ∨ n = 2 ∨ n = 3 ∨ n = 4) as [-> | [-> | [-> | ->]]] by lia; done. Qed.

Lemma entries_table S n sets : n = zlen S → zlen S ≤ zlen sets → ∀ p, zip (used n (put sets 0 (entries p S))) S = zip (entries p S) S.
Proof.
  intros -> Hs p. unfold used, zlen. rewrite Nat2Z.id. unfold put. change (take (Z.to_nat 0) sets) with (@nil avc_set). cbn [app].
  by rewrite take_app_length' by (by rewrite length_entries).
Qed.

Lemma contents_entries T p : contents (zip (entries p T) T) = concat T.
Proof. unfold contents. by rewrite snd_zip by (rewrite length_entries; lia). Qed.

Lemma record_load_ok b0 S0 P0 a S P m bytes : avc_repr b0 S0 P0 → avc_repr a S P → zlen S < AVC_SPS → 1 ≤ nalu a ≤ 4 →
  holds m 0 (record_bytes a S P) → zlen (record_bytes a S P) ≤ bytes →
  ∃ b, avc_record_load b0 m bytes = Ok (zlen (record_bytes a S P), b) ∧ avc_repr b S P ∧
    (profile b, compatibility b, level b, nalu b) = (profile a, compatibility a, level a, nalu a).
Proof.
  intros Hr0 Hr Hmax Hn Hm Hb. rewrite zlen_record in *. pose proof (zlen_nonneg (sized S)). pose proof (zlen_nonneg (sized P)).
  unfold avc_record_load. destruct (Z.ltb_spec bytes 7); [lia|]. unfold record_bytes in Hm. cbn [app] in Hm.
  rewrite !holds_cons in Hm. change (0 + 1) with 1 in Hm. change (1 + 1) with 2 in Hm. change (2 + 1) with 3 in Hm.
  change (3 + 1) with 4 in Hm. change (4 + 1) with 5 in Hm. change (5 + 1) with 6 in Hm.
  destruct Hm as (_ & -> & -> & -> & -> & -> & Hm). run. unfold AVC_SPS in *. pose proof (zlen_nonneg S). pose proof (zlen_nonneg P).
  rewrite sps_count_field, nalu_field by lia. rewrite Z.gtb_ltb. destruct (Z.ltb_spec 32 (zlen S)); [lia|].
  assert (∀ T : list (list Z), Z.to_nat (zlen T) = length T) as Hlen by (intros; unfold zlen; lia). rewrite !Hlen.
  rewrite !holds_app, !holds_cons in Hm. destruct Hm as (HmS & HnP & HmP).
  pose proof (ar_sets a S P Hr) as [HS HP]%Forall_app. pose proof (repr_bound a S P Hr) as Htot. unfold total in Htot. rewrite concat_app, zlen_app in Htot.
  destruct (repr_block b0 S0 P0 Hr0) as (e0 & [_ _ _ Hd0] & _). pose proof (zlen_nonneg (concat S)). pose proof (zlen_nonneg (concat P)).
  pose proof (ar_sps b0 S0 P0 Hr0) as Ls. pose proof (ar_pps b0 S0 P0 Hr0) as Lp. pose proof (ar_max_pps a S P Hr) as HPmax. unfold AVC_SPS, AVC_PPS in *.
  pose proof (load_sets_ok m bytes true (data b0) S 0 6 [] (sps b0) HS HmS ltac:(cbn; lia) ltac:(change (zlen (@nil Z)) with 0; lia) ltac:(lia) ltac:(lia) ltac:(unfold zlen in *; lia)) as E.
  change (zlen (@nil Z)) with 0 in E. cbn [length drop app] in E. rewrite drop_0 in E. rewrite E. run.
  destruct (Z.geb_spec (6 + zlen (sized S)) bytes); [lia|]. rewrite HnP. run. rewrite Z.gtb_ltb. destruct (Z.ltb_spec 256 (zlen P)); [lia|]. rewrite Hlen.
  pose proof (load_sets_ok m bytes false (data b0) P 0 (6 + zlen (sized S) + 1) (concat S) (pps b0) HP HmP ltac:(cbn; lia) ltac:(lia) ltac:(lia) ltac:(lia) ltac:(unfold zlen in *; lia)) as E2.
  rewrite E2. run. replace (6 + zlen (sized S) + 1 + zlen (sized P)) with (7 + zlen (sized S) + zlen (sized P)) by lia.
  eexists. split; [done|]. split; [|done]. split; cbn [sps pps nb_sps nb_pps data off]; try done.
  - unfold put. rewrite !length_app, length_take, length_drop, length_entries. unfold zlen, AVC_SPS, AVC_PPS in *. lia.
  - unfold put. rewrite !length_app, length_take, length_drop, length_entries. unfold zlen, AVC_SPS, AVC_PPS in *. lia.
  - by apply Forall_app.
  - exists (zip (entries 0 S) S ++ zip (entries (zlen (concat S)) P) P). eexists. split_and!.
    + apply laid_app. split; [apply entries_laid|]. rewrite contents_entries. apply entries_laid.
    + by rewrite !entries_table by (done || (unfold zlen in *; lia)).
    + by rewrite contents_app, !contents_entries.
    + by rewrite contents_app, !contents_entries.
    + rewrite zlen_app. unfold zlen in *. rewrite length_drop, length_app. lia.
Qed.


(** A length of -4 as a size_t and the four bytes of the length are a step of
    nothing: no number of rounds is enough. *)
Lemma valid_loop_stuck fuel m p bytes : holds m p [255; 255; 255; 252] → 6 ≤ bytes → avc_valid_loop fuel m p bytes 4 = Ub.
Proof.
  intros Hm Hb.
  assert (avc_length m p bytes 4 = Ok (-4)) as E.
  { unfold avc_length, h264_avcc_length. rewrite !holds_cons in Hm. destruct Hm as (H0 & H1 & H2 & H3 & _).
    change (Z.to_nat 4) with 4%nat. cbn [h264_length_bytes].
    destruct (Z.ltb_spec 0 bytes), (Z.ltb_spec (0 + 1) bytes), (Z.ltb_spec (0 + 1 + 1) bytes), (Z.ltb_spec (0 + 1 + 1 + 1) bytes); try lia.
    rewrite Z.add_0_r, H0. run. change (0 + 1) with 1. rewrite H1. run. replace (p + (1 + 1)) with (p + 1 + 1) by lia. rewrite H2. run.
    replace (p + (1 + 1 + 1)) with (p + 1 + 1 + 1) by lia. rewrite H3. run. rewrite Z.geb_leb. by destruct (Z.leb_spec bytes 4); [lia|]. }
  induction fuel as [|fuel IH]; cbn [avc_valid_loop]; destruct (Z.ltb_spec (4 + 1) bytes); try lia; [done|].
  rewrite E. run. change (u64 (u64 (-4) + 4)) with 0. rewrite Z.gtb_ltb. destruct (Z.ltb_spec bytes 0); [lia|].
  by rewrite Z.add_0_r, Z.sub_0_r.
Qed.

Lemma st_overrun {A} (m : list A) p bs : zlen m < p + zlen bs → st m p bs = Ub.
Proof. intros. unfold st. destruct (Z.leb_spec (p + zlen bs) (zlen m)); [lia|]. by rewrite andb_false_r. Qed.

(** A set with new numbers: the search passes every set. *)
Lemma pps_loop_miss a S P m p c id sid n : avc_repr a S P → Forall (λ s, is_Some (pps_id s)) P → pps_id c = Some (id, sid) →
  ∀ T D, P = D ++ T → list_find (λ s, pps_id s = pps_id c) T = None →
  pps_loop (length T) (zlen D) a id sid m p n = pps_loop 0 (zlen P) a id sid m p n.
Proof.
  intros Hr Hn Hid T. induction T as [|s T IH]; intros D HP Hf; [by rewrite app_nil_r in HP; subst|].
  assert (P !! length D = Some s) as Hs by (rewrite HP; by apply list_lookup_middle).
  destruct (repr_pps a S P _ s Hr Hs) as (q & Hld & Hq & _). change (Z.of_nat (length D)) with (zlen D) in Hld.
  cbn [length]. change (pps_loop (Datatypes.S (length T)) (zlen D) a id sid m p n) with
    (s ← ld (pps a) (zlen D); '(v, o) ← set_read_ue a s 8;
     hit ← (if id =? v then '(w, _) ← set_read_ue a s o; Ok (sid =? w) else Ok false);
     if (hit : bool) then
       same ← same_set a s m p n;
       if (same : bool) then Ok (0, a)
       else if (n >? set_bytes s) && (off a + (n - set_bytes s) >? AVC_DATA) then Ok (-1, a)
       else replace_pps a (zlen D) m p n
     else pps_loop (length T) (zlen D + 1) a id sid m p n).
  rewrite Hld. run. apply (Forall_lookup_1 _ _ _ _ Hn) in Hs as [[id' sid'] Hid']. unfold pps_id in Hid'.
  destruct (ue_at s 8) as [[v o]|] eqn:E1; [|done]. destruct (ue_at s o) as [[w k]|] eqn:E2; [|done].
  assert (∀ v o k, 0 ≤ o → ue_at s o = Some (v, k) → set_read_ue a (AvcSet (zlen s) (Some q)) o = Ok (v, k)) as Hue by (intros; by apply ue_at_holds).
  rewrite (Hue v 8 o) by done. run. rewrite (pps_numbers s a _ v o w k Hue E1 E2 id sid), <- Hid. run.
  apply list_find_None, Forall_cons_1 in Hf as [Hne Hf]. rewrite bool_decide_eq_false_2 by done.
  specialize (IH (D ++ [s])). rewrite <- app_assoc in IH. replace (zlen (D ++ [s])) with (zlen D + 1) in IH by llia.
  apply IH; [done|]. by apply list_find_None.
Qed.

(** A PPS that replaces the first one without room. *)
Lemma pps_overflow a S P m p c s id sid : avc_repr a S P → Forall (λ s, is_Some (pps_id s)) P → holds m p c →
  pps_id c = Some (id, sid) → list_find (λ s, pps_id s = pps_id c) P = None → 2 ≤ zlen c →
  AVC_PPS ≤ zlen P + 1 → 16 < zlen S → head P = Some s → AVC_DATA < total S P + (zlen c - zlen s) →
  h264_pps_copy a m p (zlen c) = Ub.
Proof.
  intros Hr Hn Hc Hid Hf H2 HP HS Hh Hover. unfold h264_pps_copy. destruct (Z.ltb_spec (zlen c) 2); [lia|].
  pose proof Hid as Hid'. unfold pps_id in Hid'. destruct (ue_at c 8) as [[v o]|] eqn:E1; [|done]. destruct (ue_at c o) as [[w k]|] eqn:E2; [|done].
  injection Hid' as -> ->. rewrite (ue_at_holds m p c 8 id o) by done. run.
  assert (8 ≤ o) as Ho by (unfold ue_at in E1; destruct (mpeg4_h264_read_ue c 0 (zlen c) 8) eqn:E; try done; injection E1 as ->; by eapply read_ue_offset).
  rewrite (ue_at_holds m p c o sid k) by (done || lia). run.
  pose proof (pps_loop_miss a S P m p c id sid (zlen c) Hr Hn Hid P [] eq_refl Hf) as E. change (zlen (@nil (list Z))) with 0 in E.
  rewrite (ar_nb_pps a S P Hr). replace (Z.to_nat (zlen P)) with (length P) by (unfold zlen; lia). rewrite E. cbn [pps_loop].
  rewrite (ar_nb_pps a S P Hr), (ar_nb_sps a S P Hr), Z.geb_leb, Z.gtb_ltb.
  destruct (Z.leb_spec AVC_PPS (zlen P + 1)), (Z.ltb_spec 16 (zlen S)); try lia. cbn [andb].
  assert (P !! 0%nat = Some s) as Hs by (by destruct P). destruct (repr_pps a S P 0 s Hr Hs) as (q & Hld & Hq & Hq0 & Hqo & _). change (Z.of_nat 0) with 0 in Hld.
  destruct (repr_block a S P Hr) as (e & Hb & _). pose proof (block_bound a e Hb) as Hbound. pose proof (bk_size a e Hb) as Hsz.
  pose proof (zlen_nonneg s). unfold replace_pps, mpeg4_avc_remove, append_set. rewrite Hld. run. cbn [set_data set_bytes]. run. unfold AVC_DATA in *.
  rewrite (slice_ok (data a)) by lia. run.
  assert (zlen (sub (data a) (q + zlen s) (off a - q - zlen s)) = off a - q - zlen s) as Hsub by (apply zlen_sub; lia).
  rewrite (st_ok (data a)) by lia. run. cbn [data off set_block]. rewrite (holds_slice m p c) by done. run.
  rewrite st_overrun; [done|]. rewrite zlen_put by lia. rewrite Hsz, (repr_total a S P Hr). lia.
Qed.

Lemma pps_update_overflow a S P m p c s id sid : avc_repr a S P → Forall (λ s, is_Some (pps_id s)) P → holds m p c →
  pps_id c = Some (id, sid) → list_find (λ s, pps_id s = pps_id c) P = None → unit_kind c = H264_NAL_PPS → 2 ≤ zlen c →
  AVC_PPS ≤ zlen P + 1 → 16 < zlen S → head P = Some s → AVC_DATA < total S P + (zlen c - zlen s) →
  mpeg4_avc_update a m p (zlen c) = Ub.
Proof.
  intros Hr Hn Hc Hid Hf Hk H2 HP HS Hh Hov. unfold mpeg4_avc_update.
  pose proof (ld_holds m p c 0 Hc ltac:(lia)) as Hld. rewrite Z.add_0_r in Hld. rewrite Hld. run. change (Z.land _ 0x1f) with (unit_kind c).
  rewrite Hk. change (H264_NAL_PPS =? H264_NAL_SPS) with false. change (H264_NAL_PPS =? H264_NAL_PPS) with true. cbv iota.
  by eapply pps_overflow.
Qed.

(** One SPS, and one PPS besides. *)
Definition held_sps : mpeg4_avc_t := match mpeg4_avc_update avc_zero demo_sps 0 5 with Ok (_, b) => b | _ => avc_zero end.
Definition held_both : mpeg4_avc_t := match mpeg4_avc_update held_sps demo_pps 0 3 with Ok (_, b) => b | _ => avc_zero end.

(** What hostile input does: a payload that begins FF FF FF FC keeps
    mpeg4_h264_avcc_bitstream_valid busy for ever, from a configuration record
    too; a short SPS behind the one held is read past its end; the PPS in
    mpeg4_avc_to_nalu get two bytes less room than they need; and the length of
    a unit of one byte is taken for a start code, so that h264_mp4toannexb
    joins the units behind it. *)
Theorem avc_hostile_input :
  (∀ fuel x y rest, let m := 255 :: 255 :: 255 :: 252 :: x :: y :: rest in avc_valid_loop fuel m 0 (zlen m) 4 = Ub) ∧
  (∀ a, mpeg4_avc_decoder_configuration_record_load [255; 255; 255; 252; 0; 0; 0] 7 a =
        mpeg4_avc_from_nalu [255; 255; 255; 252; 0; 0; 0] 0 7 avc_zero) ∧
  mpeg4_avc_update held_sps [103] 0 1 = Ub ∧
  mpeg4_avc_to_nalu held_both (replicate 14 0) 14 = Ub ∧
  (∃ k back, h264_mp4toannexb (set_nalu avc_zero 4) (prefixed [[10]; [65; 1; 2]]) 12 (replicate 32 0) 32 = Ok (k, back) ∧
    sub back 0 k = annexb4 [[10; 0; 0; 0; 3; 65; 1; 2]]).
Proof.
  split; [|split; [|split; [|split]]].
  - intros fuel x y rest m. apply valid_loop_stuck.
    + change m with ([255; 255; 255; 252] ++ x :: y :: rest). apply holds_app_r, holds_whole.
    + pose proof (zlen_nonneg rest). unfold m. llia.
  - done.
  - vm_compute. reflexivity.
  - vm_compute. reflexivity.
  - eexists _, _. split; vm_compute; reflexivity.
Qed.
