(* ===== verification/CodecUtils.v ===== *)
(** Conversions between the forms of a payload and between units of time:
    src/media/codec/codec_utils.cpp (the functions on H.264 and on time) and
    src/media/rtmp/rtmp_timestamp.h.

    A span is the list of its bytes.  A signed 64-bit result out of range is
    undefined ([int64]).

    The converted payload has the units of the stream, the configuration
    record its parameter sets, and a converted time is the time. *)
From S2P Require Import Prelude RtpPacket RtpPayload RtpH264 RtpH264Spec RtpH264Stream Avc AvcSpec AvcUpdateSpec AvcStreamSpec AvcRecordSpec.

(** * The length-prefixed form of a payload *)

Definition min_length_prefixed_nalu_bytes : Z := 2.

Record length_prefixed_payload := LengthPrefixed { converted_ : bool; data_ : list Z; short_nalu_ : bool }.
Definition fresh_payload : length_prefixed_payload := LengthPrefixed false [] false.

(** The callback of the splitter. *)
Definition prefix_nalu (annex_b : list Z) (self : length_prefixed_payload) (nalu bytes : Z) : outcome length_prefixed_payload :=
  l ← slice annex_b nalu bytes;
  let length := u32 bytes in
  Ok (LengthPrefixed (converted_ self)
        (data_ self ++ [u8 (Z.shiftr length 24); u8 (Z.shiftr length 16); u8 (Z.shiftr length 8); u8 length] ++ l)
        (short_nalu_ self || (bytes <? min_length_prefixed_nalu_bytes))).

(** [call_once]: the first call converts. *)
Definition get (self : length_prefixed_payload) (annex_b : list Z) : outcome (list Z * length_prefixed_payload) :=
  self ← (if converted_ self then Ok self
          else
            self ← mpeg4_h264_annexb_nalu (prefix_nalu annex_b) self annex_b 0 (zlen annex_b);
            Ok (LengthPrefixed true (data_ self) (short_nalu_ self)));
  Ok (if short_nalu_ self then annex_b else data_ self, self).

(** * Configuration records; the empty vector is the failure *)

Definition h264_avcc_to_annex_b (avcc : list Z) : outcome (list Z) :=
  '(r, configuration) ← mpeg4_avc_decoder_configuration_record_load avcc (zlen avcc) avc_zero;
  if r <=? 0 then Ok [] else
  let result := replicate (Z.to_nat (AVC_DATA + 4096)) 0 in
  '(bytes, result) ← mpeg4_avc_to_nalu configuration result (zlen result);
  if bytes <=? 0 then Ok [] else Ok (take (Z.to_nat bytes) result).

Definition h264_annex_b_to_avcc (annex_b : list Z) : outcome (list Z) :=
  '(r, configuration) ← mpeg4_avc_from_nalu annex_b 0 (zlen annex_b) avc_zero;
  if (r <? 0) || (nb_sps configuration =? 0) || (nb_pps configuration =? 0) then Ok [] else
  let result := replicate (Z.to_nat (AVC_DATA + 256)) 0 in
  '(bytes, result) ← mpeg4_avc_decoder_configuration_record_save configuration result (zlen result);
  if bytes <=? 0 then Ok [] else Ok (take (Z.to_nat bytes) result).

(** * Units of time *)

Definition ns_per_second : Z := 1000000000.
Definition ns_per_millisecond : Z := 1000000.

Definition milliseconds_to_ns (value : Z) : outcome Z := int64 (value * ns_per_millisecond).
Definition ns_to_milliseconds (value : Z) : Z := Z.quot value ns_per_millisecond.
Definition ns_to_flv_milliseconds (value : Z) : Z := u32 (ns_to_milliseconds value).
Definition ns_to_90khz (value : Z) : outcome Z :=
  let seconds := Z.quot value ns_per_second in
  let nanoseconds := Z.rem value ns_per_second in
  a ← int64 (seconds * 90000);
  b ← int64 (nanoseconds * 90000);
  int64 (a + Z.quot b ns_per_second).

(** * RTMP timestamps, which wrap: rtmp_timestamp.h *)

Record rtmp_timestamp_state := TimestampState { last : Z; milliseconds : Z; started : bool }.

Definition rtmp_timestamp_delta (current previous : Z) : Z :=
  let delta := u32 (current - previous) in
  if delta <? 2 ^ 31 then delta else delta - 2 ^ 32.

Definition unwrap_rtmp_timestamp (timestamp : Z) (state : rtmp_timestamp_state) : outcome (Z * rtmp_timestamp_state) :=
  if negb (started state) then Ok (timestamp, TimestampState timestamp timestamp true) else
  ms ← int64 (milliseconds state + rtmp_timestamp_delta timestamp (last state));
  Ok (ms, TimestampState timestamp ms true).

Implicit Types (m c : list Z) (p : Z) (a b : mpeg4_avc_t) (S P T us : list (list Z)).

(** * Time *)

(** [ns_to_90khz] divides before it multiplies, so that no int64 overflows,
    and still gives the time in 90 kHz, rounded to 0. *)
Lemma ns_to_90khz_ok v : - 2 ^ 63 ≤ v < 2 ^ 63 →
  ns_to_90khz v = Ok (Z.quot (v * 90000) ns_per_second).
Proof.
  intros Hv. unfold ns_to_90khz, ns_per_second.
  pose proof (Z.quot_rem' v 1000000000) as E. pose proof (Z.rem_bound_abs v 1000000000 ltac:(lia)) as Hr.
  set (q := Z.quot v 1000000000) in *. set (r := Z.rem v 1000000000) in *. rewrite !int64_ok by lia. run.
  assert (Z.quot (v * 90000) 1000000000 = q * 90000 + Z.quot (r * 90000) 1000000000) as ->.
  { assert (v * 90000 = r * 90000 + q * 90000 * 1000000000) as E' by lia.
    rewrite E', Z.quot_add; [lia|lia|]. rewrite <- E'. unfold r. destruct (Z.le_gt_cases 0 v).
    - pose proof (Z.rem_nonneg v 1000000000 ltac:(lia) ltac:(lia)). nia.
    - pose proof (Z.rem_nonpos v 1000000000 ltac:(lia) ltac:(lia)). nia. }
  pose proof (Z.quot_rem' (r * 90000) 1000000000). pose proof (Z.rem_bound_abs (r * 90000) 1000000000 ltac:(lia)). apply int64_ok. lia.
Qed.

(** The times of a sequence of timestamps. *)
Fixpoint unwrap_all (timestamps : list Z) (state : rtmp_timestamp_state) : outcome (list Z) :=
  match timestamps with
  | [] => Ok []
  | t :: ts => '(ms, state) ← unwrap_rtmp_timestamp t state; l ← unwrap_all ts state; Ok (ms :: l)
  end.

(** Every time is within 2^31 ms of the one before. *)
Fixpoint close (t : Z) (ts : list Z) : Prop :=
  match ts with [] => True | u :: ts => - 2 ^ 31 ≤ u - t < 2 ^ 31 ∧ close u ts end.

Lemma rtmp_timestamp_delta_ok t u : - 2 ^ 31 ≤ u - t < 2 ^ 31 → rtmp_timestamp_delta (u32 u) (u32 t) = u - t.
Proof.
  intros H. unfold rtmp_timestamp_delta, u32. replace ((u mod 2 ^ 32 - t mod 2 ^ 32) mod 2 ^ 32) with ((u - t) mod 2 ^ 32) by (by rewrite Zminus_mod).
  destruct (Z.le_gt_cases 0 (u - t)).
  - rewrite Z.mod_small by lia. destruct (Z.ltb_spec (u - t) (2 ^ 31)); lia.
  - rewrite <- (Z.mod_add _ 1) by lia. rewrite Z.mod_small by lia. destruct (Z.ltb_spec (u - t + 1 * 2 ^ 32) (2 ^ 31)); lia.
Qed.

Lemma unwrap_started ts : ∀ t, close t ts → Forall (λ u, - 2 ^ 63 ≤ u < 2 ^ 63) ts →
  unwrap_all (map u32 ts) (TimestampState (u32 t) t true) = Ok ts.
Proof.
  induction ts as [|u ts IH]; intros t Hc Hr; cbn [map unwrap_all]; [done|]. destruct Hc as [Hd Hc]. apply Forall_cons_1 in Hr as [Hu Hr].
  unfold unwrap_rtmp_timestamp. cbn [started negb last milliseconds]. rewrite rtmp_timestamp_delta_ok by done.
  replace (t + (u - t)) with u by lia. rewrite int64_ok by done. run. rewrite IH by done. done.
Qed.

(** The 32-bit timestamps of an RTMP stream are unwrapped to the times they
    stand for, however often they wrap and though they go back, as long as a
    step is less than 2^31 ms. *)
Theorem rtmp_timestamps_unwrap t ts last ms : is_uint 32 t → close t ts → Forall (λ u, - 2 ^ 63 ≤ u < 2 ^ 63) ts →
  unwrap_all (map u32 (t :: ts)) (TimestampState last ms false) = Ok (t :: ts).
Proof.
  intros Ht Hc Hr. cbn [map unwrap_all unwrap_rtmp_timestamp started negb]. run.
  assert (u32 t = t) as Et by (by apply u32_id). pose proof (unwrap_started ts t Hc Hr) as E. rewrite Et in *. rewrite E. done.
Qed.

(** Twice over the wrap, once back over it. *)
Lemma rtmp_timestamps_unwrap_witness :
  unwrap_all [4294967290; 5; 4294967295; 10; 2147483600; 4294967000; 20] (TimestampState 0 0 false) =
  Ok [4294967290; 4294967301; 4294967295; 4294967306; 6442450896; 8589934296; 8589934612].
Proof.
  apply (rtmp_timestamps_unwrap 4294967290 [4294967301; 4294967295; 4294967306; 6442450896; 8589934296; 8589934612] 0 0).
  - by split.
  - repeat (split; [by split|]). done.
  - repeat (apply Forall_cons_2; [by split|]). by constructor.
Defined.

(** * The length-prefixed form *)

Lemma length_bytes_ok l : ∀ k i m p bytes n, holds m (p + i) l → k = length l → bytes_ok l → i + zlen l ≤ bytes →
  0 ≤ n → n * 256 ^ zlen l + be_val l < 2 ^ 32 →
  h264_length_bytes k i m p bytes n = Ok (n * 256 ^ zlen l + be_val l).
Proof.
  induction l as [|x l IH]; intros k i m p bytes n Hl -> Hb Hi Hn Hmax; cbn [length h264_length_bytes].
  { change (be_val []) with 0. change (256 ^ zlen []) with 1. f_equal. lia. }
  apply holds_cons in Hl as [-> Hl]. run. apply Forall_cons_1 in Hb as [Hx Hb]. pose proof Hx as Hx'. unfold is_uint in Hx'.
  rewrite be_val_cons, zlen_cons, Z.pow_add_r in * by (apply zlen_nonneg || lia). pose proof (be_val_range l Hb) as Hr. pose proof (zlen_nonneg l).
  assert (0 < 256 ^ zlen l) by (apply Z.pow_pos_nonneg; lia). change (256 ^ 1) with 256 in *.
  destruct (Z.ltb_spec i bytes); [|lia]. assert (n * 256 + x < 2 ^ 32) by nia.
  assert (Z.lor (u32 (Z.shiftl n 8)) x = n * 256 + x) as ->.
  { rewrite u32_id by (rewrite Z.shiftl_mul_pow2 by lia; unfold is_uint; change (2 ^ 8) with 256; lia). by rewrite lor_shiftl_add by (done || lia). }
  rewrite IH; [f_equal; lia|by rewrite Z.add_assoc|done|done|lia|lia|lia].
Qed.

Section Prefixed.
Context (pre us : list Z) (c : list Z) (rest : list (list Z)).
Let m := pre ++ prefixed (c :: rest).
Hypothesis Hc : long_unit c.

Lemma unit_parts : holds m (zlen pre) (be_bytes 4 (zlen c)) ∧ holds m (zlen pre + 4) c ∧ zlen m = zlen pre + 4 + zlen c + zlen (prefixed rest) ∧
  m = (pre ++ be_bytes 4 (zlen c) ++ c) ++ prefixed rest.
Proof.
  assert (prefixed (c :: rest) = be_bytes 4 (zlen c) ++ c ++ prefixed rest) as E by (unfold prefixed; cbn [map concat]; by rewrite <- app_assoc).
  pose proof (holds_whole m) as Hw. unfold m in Hw at 2. rewrite E, !holds_app, zlen_be_bytes, Z.add_0_l in Hw.
  change (Z.of_nat 4) with 4 in Hw. unfold m. rewrite E. split; [tauto|]. split; [tauto|]. split; [llia|by rewrite <- !app_assoc].
Qed.

Lemma unit_length bytes : 4 < bytes → h264_avcc_length m (zlen pre) bytes 4 = Ok (zlen c).
Proof.
  intros Hb. destruct unit_parts as (H1 & _). unfold long_unit in Hc. unfold h264_avcc_length.
  rewrite (length_bytes_ok (be_bytes 4 (zlen c))); [|by rewrite Z.add_0_r|by rewrite length_be_bytes|apply bytes_ok_be_bytes|rewrite zlen_be_bytes; lia|lia|
    rewrite be_val_bytes by (change (256 ^ Z.of_nat 4) with (2 ^ 32); lia); lia].
  rewrite be_val_bytes by (change (256 ^ Z.of_nat 4) with (2 ^ 32); lia). run. rewrite Z.geb_leb.
  destruct (Z.leb_spec bytes 4); [lia|]. by rewrite Z.mul_0_l, Z.add_0_l, s32_small by lia.
Qed.
End Prefixed.

Lemma prefixed_valid us : ∀ fuel pre, Forall long_unit us → zlen (prefixed us) < 2 ^ 31 → (length us ≤ fuel)%nat →
  h264_avcc_valid_loop fuel (pre ++ prefixed us) (zlen pre) (zlen (prefixed us)) 4 = Ok 1.
Proof.
  induction us as [|c us IH]; intros fuel pre Hus Hmax Hf.
  { change (prefixed []) with (@nil Z). by destruct fuel. }
  apply Forall_cons_1 in Hus as [Hc Hus]. destruct (unit_parts pre c us) as (_ & _ & _ & Em). pose proof Hc as Hc'. unfold long_unit in Hc'.
  pose proof (zlen_nonneg (prefixed us)). rewrite zlen_prefixed in *. cbn [length] in Hf. destruct fuel as [|fuel]; [lia|].
  cbn [h264_avcc_valid_loop]. destruct (Z.ltb_spec (4 + 1) (4 + zlen c + zlen (prefixed us))); [|lia].
  rewrite unit_length by (done || lia). run. destruct (Z.ltb_spec (zlen c) 0); [lia|]. rewrite int_ok by lia. run.
  rewrite Z.gtb_ltb. destruct (Z.ltb_spec (4 + zlen c + zlen (prefixed us)) (zlen c + 4)); [lia|].
  rewrite Em. specialize (IH fuel (pre ++ be_bytes 4 (zlen c) ++ c) Hus ltac:(lia) ltac:(lia)). rewrite <- IH. f_equal; llia.
Qed.

Lemma length_prefixed us : (length us ≤ Z.to_nat (zlen (prefixed us)))%nat.
Proof. induction us as [|c us IH]; [done|]. rewrite zlen_prefixed. cbn [length]. pose proof (zlen_nonneg c). pose proof (zlen_nonneg (prefixed us)). lia. Qed.

Lemma prefixed_format us : us ≠ [] → Forall long_unit us → zlen (prefixed us) < 2 ^ 31 →
  h264_bitstream_format (prefixed us) (zlen (prefixed us)) = Ok 4.
Proof.
  intros Hne Hus Hmax. destruct us as [|c us]; [done|]. pose proof Hus as [Hc _]%Forall_cons_1. unfold long_unit in Hc.
  pose proof (prefixed_valid (c :: us) _ [] Hus Hmax (length_prefixed _)) as Hv. cbn [app] in Hv. change (zlen (@nil Z)) with 0 in Hv.
  destruct (unit_parts [] c us) as (Hl & _ & Hz & _). cbn [app] in Hl, Hz. change (zlen (@nil Z)) with 0 in Hl, Hz.
  pose proof (be_val_bytes 4 (zlen c) ltac:(change (256 ^ Z.of_nat 4) with (2 ^ 32); lia)) as Hval. rewrite be_bytes_4 in Hl, Hval.
  pose proof (zlen_nonneg (prefixed us)). unfold h264_bitstream_format. destruct (Z.ltb_spec (zlen (prefixed (c :: us))) 4); [lia|].
  rewrite !holds_cons in Hl. change (0 + 1) with 1 in Hl. change (1 + 1) with 2 in Hl. change (2 + 1) with 3 in Hl.
  destruct Hl as (-> & -> & -> & -> & _). run. unfold h264_avcc_bitstream_valid. rewrite Hv. run.
  rewrite be_val_3 by (unfold u8, is_uint; dlia). set (b0 := u8 (Z.shiftr (zlen c) 24)) in *. set (b1 := u8 (Z.shiftr (zlen c) 16)) in *.
  set (b2 := u8 (Z.shiftr (zlen c) 8)) in *. set (b3 := u8 (zlen c)) in *. change (be_val [b0; b1; b2; b3]) with (be_val [b0; b1; b2] * 256 + b3) in Hval.
  destruct (Z.eqb_spec 0 (be_val [b0; b1; b2])) as [E|]; cbn [andb].
  - destruct (Z.leb_spec b3 1); [lia|]. by destruct (1 =? _).
  - by destruct (1 =? _).
Qed.

Lemma end_length pre : h264_avcc_length pre (zlen pre) 0 4 = Ok (-1).
Proof. unfold h264_avcc_length. change (Z.to_nat 4) with 4%nat. by cbn [h264_length_bytes]. Qed.

Lemma next_length us pre : Forall long_unit us → ∃ k, h264_avcc_length (pre ++ prefixed us) (zlen pre) (zlen (prefixed us)) 4 = Ok k.
Proof.
  intros Hus. destruct us as [|c us].
  - change (prefixed []) with (@nil Z). rewrite app_nil_r. eexists. apply end_length.
  - apply Forall_cons_1 in Hus as [Hc _]. exists (zlen c). apply unit_length; [done|]. rewrite zlen_prefixed. unfold long_unit in Hc.
    pose proof (zlen_nonneg (prefixed us)). lia.
Qed.

Section Handler.
Context {A : Type} (handler : A → list Z → Z → Z → outcome (Z * A)).

Lemma prefixed_loop us : ∀ fuel pre x, Forall long_unit us → zlen (prefixed us) < 2 ^ 31 → (length us < fuel)%nat →
  let m := pre ++ prefixed us in
  (k ← h264_avcc_length m (zlen pre) (zlen (prefixed us)) 4;
   h264_avcc_loop handler fuel x m (zlen pre) (zlen m) 4 (u32 k) 0) = run_units handler x us.
Proof.
  induction us as [|c us IH]; intros fuel pre x Hus Hmax Hf m.
  { unfold m. change (prefixed []) with (@nil Z). rewrite app_nil_r. change (zlen (@nil Z)) with 0.
    rewrite end_length. run. change (u32 (-1)) with (2 ^ 32 - 1). destruct fuel; cbn [h264_avcc_loop run_units]; by destruct (Z.leb_spec (zlen pre + (2 ^ 32 - 1) + 4) (zlen pre)); [lia|]. }
  apply Forall_cons_1 in Hus as [Hc Hus]. destruct (unit_parts pre c us) as (_ & Hhc & Hz & Em). fold m in Hhc, Hz, Em. pose proof Hc as Hc'. unfold long_unit in Hc'.
  pose proof (zlen_nonneg (prefixed us)). pose proof (zlen_nonneg pre). rewrite zlen_prefixed in Hmax |- *. cbn [length] in Hf. destruct fuel as [|fuel]; [lia|].
  unfold m at 1. rewrite (unit_length pre c us) by (done || lia). run. rewrite u32_id by (unfold is_uint; lia).
  cbn [h264_avcc_loop run_units]. change (0 =? 0) with true. cbn [andb]. destruct (Z.leb_spec (zlen pre + zlen c + 4) (zlen m)); [|lia].
  rewrite Z.gtb_ltb. destruct (Z.ltb_spec 0 (zlen c)); [|lia]. rewrite (holds_slice m (zlen pre + 4) c) by done. run. rewrite s32_small by lia.
  assert ((if zlen pre + 4 + zlen c <? zlen m then 0 else 1) = match us with [] => 1 | _ :: _ => 0 end) as ->.
  { rewrite Hz. destruct us as [|d us]; [change (prefixed []) with (@nil Z); by destruct (Z.ltb_spec (zlen pre + 4 + zlen c) (zlen pre + 4 + zlen c + zlen (@nil Z))); [rewrite zlen_nil in *; lia|]|].
    rewrite zlen_prefixed. pose proof (zlen_nonneg d). pose proof (zlen_nonneg (prefixed us)).
    by destruct (Z.ltb_spec (zlen pre + 4 + zlen c) (zlen pre + 4 + zlen c + (4 + zlen d + zlen (prefixed us)))); [|lia]. }
  destruct (handler x c (zlen c) _) as [| |[r y]]; run; try done.
  specialize (IH fuel (pre ++ be_bytes 4 (zlen c) ++ c) y Hus ltac:(lia) ltac:(lia)). cbv zeta in IH. rewrite <- Em in IH.
  replace (zlen (pre ++ be_bytes 4 (zlen c) ++ c)) with (zlen pre + (zlen c + 4)) in IH by llia.
  replace (zlen m - (zlen pre + (zlen c + 4))) with (zlen (prefixed us)) by lia.
  destruct (Z.eqb_spec 0 r) as [<-|Hr]; [exact IH|].
  destruct (next_length us (pre ++ be_bytes 4 (zlen c) ++ c) Hus) as [k Ek]. rewrite <- Em in Ek.
  replace (zlen (pre ++ be_bytes 4 (zlen c) ++ c)) with (zlen pre + (zlen c + 4)) in Ek by llia. fold m. rewrite Ek. run.
  by destruct fuel; cbn [h264_avcc_loop]; destruct (Z.eqb_spec 0 r).
Qed.

Lemma prefixed_units us x : us ≠ [] → Forall long_unit us → zlen (prefixed us) < 2 ^ 31 →
  rtp_h264_annexb_nalu handler x (prefixed us) (zlen (prefixed us)) = run_units handler x us.
Proof.
  intros Hne Hus Hmax. unfold rtp_h264_annexb_nalu. rewrite prefixed_format by done. run. change (4 >? 0) with true. cbv iota.
  apply (prefixed_loop us (Z.to_nat (zlen (prefixed us) + 1)) [] x Hus Hmax).
  pose proof (length_prefixed us). pose proof (zlen_nonneg (prefixed us)). lia.
Qed.
End Handler.

(** * The conversion *)

Definition is_short c : bool := zlen c <? min_length_prefixed_nalu_bytes.

Lemma prefix_nalu_ok m x c p : c ≠ [] → holds m p c → zlen c < 2 ^ 32 →
  prefix_nalu m x p (zlen c) = Ok (LengthPrefixed (converted_ x) (data_ x ++ be_bytes 4 (zlen c) ++ c) (short_nalu_ x || is_short c)).
Proof.
  intros Hne Hc Hmax. pose proof (zlen_nonneg c). unfold prefix_nalu. rewrite (holds_slice m p c) by done. run.
  by rewrite u32_id, <- be_bytes_4 by (unfold is_uint; lia).
Qed.

Lemma get_ok l : stream_ok l → zlen (annexb l) < 2 ^ 31 →
  get fresh_payload (annexb l) =
  let data := prefixed l.*2 in let short := existsb is_short l.*2 in
  Ok (if short then annexb l else data, LengthPrefixed true data short).
Proof.
  intros Hl Hm. unfold get. cbn [converted_ fresh_payload].
  set (R := λ (x : length_prefixed_payload) (us : list (list Z)), x = LengthPrefixed false (prefixed us) (existsb is_short us)).
  destruct (annexb_nalu_ok (prefix_nalu (annexb l)) (annexb l) Hm R (λ _ c, zlen c < 2 ^ 32) (λ us c, us ++ [c])) with (l := l) (x := fresh_payload) (s := @nil (list Z))
    as (x & E & Hx); try done.
  - intros x us c p -> Hmax Hne Hc. eexists. split; [by apply prefix_nalu_ok|]. unfold R. cbn [converted_ data_ short_nalu_].
    rewrite prefixed_app, existsb_app. unfold prefixed at 3. cbn. by rewrite app_nil_r, orb_false_r.
  - assert (∀ l : list (nat * list Z), Forall (λ c, zlen c ≤ zlen (annexb l)) l.*2) as Hle.
    { clear. induction l as [|[z c] l IH]; [constructor|]. cbn [fmap list_fmap annexb]. pose proof (zlen_nonneg (annexb l)). pose proof (zlen_nonneg (start_code z)).
      pose proof (zlen_nonneg c). constructor; [cbn [snd]; llia|]. eapply list.Forall_impl; [exact IH|]. cbn [snd]. intros d Hd. llia. }
    assert (∀ us, Forall (λ c, zlen c < 2 ^ 32) us → ∀ vs, all_ok (λ (_ : list (list Z)) c, zlen c < 2 ^ 32) (λ us c, us ++ [c]) vs us) as H.
    { intros us H. induction H; intros vs; by split. }
    apply H. eapply list.Forall_impl; [apply Hle|]. intros c Hc. cbv beta in Hc. lia.
  - rewrite E. run. assert (∀ us vs : list (list Z), foldl (λ us c, us ++ [c]) vs us = vs ++ us) as Hf.
    { clear. induction us as [|c us IH]; intros vs; cbn; [by rewrite app_nil_r|]. by rewrite IH, <- app_assoc. }
    rewrite Hf in Hx. unfold R in Hx. by subst x.
Qed.

(** C20: length_prefixed_payload::get keeps the units of a frame: the RTP packer
    finds in what it returns the units it would find in the byte stream, the
    last one marked, whatever their lengths; one of a single byte, whose length
    would be taken for a start code, makes it return the byte stream.  Later
    calls return the same. *)
Theorem length_prefixed_same_units {A} (handler : A → list Z → Z → Z → outcome (Z * A)) x l :
  stream_ok l → zlen (annexb l) < 2 ^ 31 → zlen (prefixed l.*2) < 2 ^ 31 →
  ∃ bytes self, get fresh_payload (annexb l) = Ok (bytes, self) ∧ get self (annexb l) = Ok (bytes, self) ∧
    rtp_h264_annexb_nalu handler x bytes (zlen bytes) = rtp_h264_annexb_nalu handler x (annexb l) (zlen (annexb l)) ∧
    rtp_h264_annexb_nalu handler x bytes (zlen bytes) = run_units handler x l.*2.
Proof.
  intros Hl Hm Hp. rewrite get_ok by done. eexists _, _. split; [done|]. split; [done|]. cbv zeta.
  assert (rtp_h264_annexb_nalu handler x (annexb l) (zlen (annexb l)) = run_units handler x l.*2) as E by (by apply annexb_units).
  destruct (existsb is_short l.*2) eqn:Es; [done|].
  assert (rtp_h264_annexb_nalu handler x (prefixed l.*2) (zlen (prefixed l.*2)) = run_units handler x l.*2) as E2; [|by rewrite E, E2].
  apply prefixed_units; [|..|done].
  - destruct Hl as [Hl _]. by destruct l as [|[z c] l].
  - rewrite list.Forall_forall. intros c Hc. unfold long_unit. assert (is_short c = false) as Hs.
    { apply not_true_is_false. intros Ht. rewrite <- not_true_iff_false in Es. apply Es, existsb_exists. exists c. split; [by apply list_elem_of_In|done]. }
    unfold is_short, min_length_prefixed_nalu_bytes in Hs. apply Z.ltb_ge in Hs. split; [done|].
    apply list_elem_of_split in Hc as (u & v & Euv). rewrite Euv, prefixed_app, zlen_app, zlen_prefixed in Hp.
    pose proof (zlen_nonneg (prefixed u)). pose proof (zlen_nonneg (prefixed v)). lia.
Qed.

(** An end-of-sequence unit, of one byte, behind a picture. *)
Lemma length_prefixed_same_units_witness :
  let collect (us : list (list Z)) c (n last : Z) := Ok (0, us ++ [c]) in
  ∃ bytes self, get fresh_payload (annexb [(3%nat, [101; 1; 2]); (2%nat, [10])]) = Ok (bytes, self) ∧
    get self (annexb [(3%nat, [101; 1; 2]); (2%nat, [10])]) = Ok (bytes, self) ∧
    rtp_h264_annexb_nalu collect [] bytes (zlen bytes) = rtp_h264_annexb_nalu collect [] (annexb [(3%nat, [101; 1; 2]); (2%nat, [10])]) 11 ∧
    rtp_h264_annexb_nalu collect [] bytes (zlen bytes) = Ok (0, [[101; 1; 2]; [10]]).
Proof.
  intros collect. apply (length_prefixed_same_units collect [] [(3%nat, [101; 1; 2]); (2%nat, [10])]); [|done|done].
  split; [cbn; lia|]. repeat constructor; cbn; (lia || done).
Defined.

(** * Configuration records *)

(** Every unit can be read: its sets may be refused. *)
Fixpoint units_readable S P us : Prop :=
  match us with
  | [] => True
  | c :: us => unit_fits S P c ∧ units_readable (sets_updated S P c).1.2 (sets_updated S P c).2 us
  end.

Definition sets_step (x : list (list Z) * list (list Z)) c := ((sets_updated x.1 x.2 c).1.2, (sets_updated x.1 x.2 c).2).

Lemma readable_ok us : ∀ S P, units_readable S P us → all_ok (λ x c, unit_fits x.1 x.2 c) sets_step (S, P) us.
Proof. induction us as [|c us IH]; intros S P; [done|]. intros [Hf Hus]. split; [done|by apply IH]. Qed.

(** The converter with no room only collects the sets. *)
Record collecting (h : h264_annexbtomp4_handle_t) (x : list (list Z) * list (list Z)) : Prop := Collecting {
  cl_repr : avc_repr (h_avc h) x.1 x.2; cl_numbered : numbered x.1 x.2; cl_bytes : bytes_out h = 0; cl_size : capacity h = 0
}.

Lemma h264_handler_collects m h x c p : collecting h x → unit_fits x.1 x.2 c → c ≠ [] → holds m p c →
  ∃ h', h264_handler m h p (zlen c) = Ok h' ∧ collecting h' (sets_step x c).
Proof.
  intros [Hr Hn Hb Hs] Hf Hne Hc. destruct x as [S P]. cbn [fst snd] in *. pose proof (zlen_pos _ Hne).
  destruct (avc_update_ok (h_avc h) S P m p c Hr Hn Hc Hf) as (b & Eb & Hrb & _). unfold h264_handler.
  destruct (Z.ltb_spec (zlen c) 1); [lia|]. pose proof (ld_holds m p c 0 Hc ltac:(lia)) as Hld. rewrite Z.add_0_r in Hld. rewrite Hld. run.
  rewrite Eb. run. rewrite Hs, Hb, Z.geb_leb. destruct (Z.leb_spec (0 + zlen c + 4) 0); [lia|]. eexists. split; [done|].
  split; cbn [h_avc bytes_out capacity sets_step fst snd]; try done. by apply sets_updated_numbered.
Qed.

Lemma from_nalu_ok l : stream_ok l → zlen (annexb l) < 2 ^ 31 → units_readable [] [] l.*2 →
  let x := sets_after [] [] l.*2 in x.1 ≠ [] → x.2 ≠ [] →
  ∃ a, mpeg4_avc_from_nalu (annexb l) 0 (zlen (annexb l)) avc_zero = Ok (zlen (annexb l), a) ∧ avc_repr a x.1 x.2 ∧ nalu a = 4.
Proof.
  intros Hl Hm Hus x HS HP. unfold mpeg4_avc_from_nalu, h264_annexbtomp4. set (h0 := AnnexbToMp4 _ _ _ _ _ _ _).
  destruct (annexb_nalu_ok (h264_handler (annexb l)) (annexb l) Hm collecting (λ x c, unit_fits x.1 x.2 c) sets_step
    (λ h x c p, h264_handler_collects (annexb l) h x c p) l h0 ([], [])) as (h & E & [Hr _ _ _]); [done|done| |by apply readable_ok|].
  { split; [apply zero_repr|by split; constructor|done|done]. }
  rewrite E. run. cbn [h_avc nb_sps nb_pps set_nalu]. change (foldl sets_step ([], []) l.*2) with x in Hr.
  rewrite (ar_nb_sps _ _ _ Hr), (ar_nb_pps _ _ _ Hr), !Z.gtb_ltb. pose proof (zlen_pos _ HS). pose proof (zlen_pos _ HP).
  destruct (Z.ltb_spec 0 (zlen x.1)), (Z.ltb_spec 0 (zlen x.2)); try lia. cbn [andb]. rewrite s32_small by (split; [apply zlen_nonneg|done]).
  eexists. split; [done|]. split; [|done]. destruct Hr. by split.
Qed.

Lemma take_put_front (m x : list Z) : zlen x ≤ zlen m → take (Z.to_nat (zlen x)) (put m 0 x) = x.
Proof. intros. unfold put, zlen. rewrite Nat2Z.id. change (take (Z.to_nat 0) m) with (@nil Z). cbn [app]. by rewrite take_app_length. Qed.

(** C32: the sets of a stream go through a configuration record unchanged:
    h264_avcc_to_annex_b of what h264_annex_b_to_avcc makes of a stream is the
    SPS and then the PPS of the stream, each behind a start code of four bytes. *)
Theorem h264_config_roundtrip l S P :
  stream_ok l → zlen (annexb l) < 2 ^ 31 → units_readable [] [] l.*2 → sets_after [] [] l.*2 = (S, P) →
  S ≠ [] → P ≠ [] → zlen S < AVC_SPS →
  7 + zlen (sized S) + zlen (sized P) ≤ AVC_DATA + 256 → zlen (annexb4 (S ++ P)) ≤ AVC_DATA + 4096 →
  ∃ avcc, h264_annex_b_to_avcc (annexb l) = Ok avcc ∧ h264_avcc_to_annex_b avcc = Ok (annexb4 (S ++ P)).
Proof.
  intros Hl Hm Hus. pose proof (from_nalu_ok l Hl Hm Hus) as Hfrom. cbv zeta in Hfrom.
  assert (Forall bare ((sets_after [] [] l.*2).1 ++ (sets_after [] [] l.*2).2)) as Hbare.
  { apply sets_after_bare; [|constructor]. destruct Hl as [_ Hl]. apply Forall_fmap. eapply list.Forall_impl; [exact Hl|]. intros [z c] [_ Hn]. apply Hn. }
  intros Ex. rewrite Ex in Hfrom, Hbare. cbn [fst snd] in *. intros HS HP Hmax Hrec Hann.
  destruct (Hfrom HS HP) as (a & Ea & Hr & Hn). clear Hfrom. pose proof (zlen_pos _ HS). pose proof (zlen_pos _ HP). pose proof (zlen_nonneg (annexb l)).
  set (buf := replicate (Z.to_nat (AVC_DATA + 256)) 0). assert (zlen buf = AVC_DATA + 256) as Hbuf by (unfold buf, zlen; by rewrite length_replicate).
  set (buf2 := replicate (Z.to_nat (AVC_DATA + 4096)) 0). assert (zlen buf2 = AVC_DATA + 4096) as Hbuf2 by (unfold buf2, zlen; by rewrite length_replicate).
  pose proof (zlen_record a S P) as Hz. unfold AVC_DATA in Hbuf, Hbuf2, Hrec, Hann.
  pose proof (record_save_ok a S P buf (zlen buf) Hr ltac:(lia) ltac:(lia)) as Es. cbv zeta in Es.
  set (r := record_bytes a S P ++ record_tail a _) in Es.
  assert (zlen (record_bytes a S P) ≤ zlen r ≤ zlen buf) as Hr2.
  { unfold r. rewrite zlen_app. unfold record_tail. destruct (zlen buf - zlen (record_bytes a S P) >=? 4) eqn:E; [|cbn [andb]; llia].
    rewrite Z.geb_leb in E. apply Z.leb_le in E. destruct (extended_profile _); cbn [andb]; rewrite ?zlen_cons, zlen_nil; lia. }
  exists r. split.
  - unfold h264_annex_b_to_avcc. rewrite Ea. run. rewrite (ar_nb_sps _ _ _ Hr), (ar_nb_pps _ _ _ Hr).
    destruct (Z.ltb_spec (zlen (annexb l)) 0), (Z.eqb_spec (zlen S) 0), (Z.eqb_spec (zlen P) 0); try lia. cbn [orb].
    fold buf. rewrite Es. run. pose proof (zlen_nonneg (sized S)). pose proof (zlen_nonneg (sized P)).
    destruct (Z.leb_spec (zlen r) 0); [lia|]. by rewrite take_put_front by lia.
  - destruct (record_load_ok avc_zero [] [] a S P r (zlen r) zero_repr Hr Hmax ltac:(lia)) as (b & Eb & Hb & _); [apply holds_app_r, holds_whole|lia|].
    unfold h264_avcc_to_annex_b, mpeg4_avc_decoder_configuration_record_load. rewrite Eb, (ar_nb_sps _ _ _ Hb), (ar_nb_pps _ _ _ Hb), !Z.gtb_ltb.
    pose proof (zlen_nonneg (sized S)). pose proof (zlen_nonneg (sized P)).
    destruct (Z.ltb_spec 0 (zlen (record_bytes a S P))), (Z.ltb_spec 0 (zlen S)), (Z.ltb_spec 0 (zlen P)); try lia. cbn [andb]. run.
    destruct (Z.leb_spec (zlen (record_bytes a S P)) 0); [lia|]. fold buf2. rewrite (to_nalu_ok b S P buf2 (zlen buf2) Hb Hbare) by lia. run.
    assert (0 < zlen (annexb4 (S ++ P))) as Hpos.
    { destruct S as [|s S]; [done|]. cbn [app]. rewrite zlen_annexb4_cons. pose proof (zlen_nonneg s). pose proof (zlen_nonneg (annexb4 (S ++ P))). lia. }
    destruct (Z.leb_spec (zlen (annexb4 (S ++ P))) 0); [lia|]. by rewrite take_put_front by lia.
Qed.

Lemma h264_config_roundtrip_witness : ∃ avcc,
  h264_annex_b_to_avcc (annexb [(4%nat, demo_sps); (2%nat, demo_pps); (3%nat, demo_idr)]) = Ok avcc ∧
  h264_avcc_to_annex_b avcc = Ok (annexb4 [demo_sps; demo_pps]).
Proof.
  apply (h264_config_roundtrip [(4%nat, demo_sps); (2%nat, demo_pps); (3%nat, demo_idr)] [demo_sps] [demo_pps]); try done. apply demo_stream_ok.
Defined.
