(* ===== verification/MpegBits.v ===== *)
(** Reading and writing fields of bits: mpeg4-bits.h of libflv/include.

    A cursor is a block of memory, where its data begin in it and their size, the
    position in bits and the flag of an error; the block is part of the cursor, so
    a write returns it.  The position is a [size_t] and wraps.  A shift by the width
    of its operand or more, or by a negative count, is undefined.

    The theorems say what a cursor does in terms of the bits of its data: [bit] and
    [word]. *)
From S2P Require Import Prelude Post.
Open Scope Z_scope.

Record mpeg4_bits_t := Mpeg4Bits { bs_data : list Z; bs_base : Z; bs_size : Z; bs_bits : Z; bs_error : Z }.
Implicit Types (b : mpeg4_bits_t).

Definition mpeg4_bits_init (data : list Z) (base size : Z) : mpeg4_bits_t := Mpeg4Bits data base size 0 0.
Definition mpeg4_bits_error b : Z := bs_error b.

Definition set_pos b (bits : Z) : mpeg4_bits_t := Mpeg4Bits (bs_data b) (bs_base b) (bs_size b) bits (bs_error b).
Definition set_fault b : mpeg4_bits_t := Mpeg4Bits (bs_data b) (bs_base b) (bs_size b) (bs_bits b) (-1).
Definition set_data b (m : list Z) : mpeg4_bits_t := Mpeg4Bits m (bs_base b) (bs_size b) (bs_bits b) (bs_error b).

(** The bits of the data, [bits->size * 8]. *)
Definition bit_size b : Z := u64 (bs_size b * 8).

Definition mpeg4_bits_aligment b (n : Z) : mpeg4_bits_t := set_pos b (u64 (u64 (bs_bits b + n - 1) / n * n)).
Definition mpeg4_bits_remain b : Z := if truth (bs_error b) then 0 else u64 (bit_size b - bs_bits b).
Definition mpeg4_bits_skip b (n : Z) : mpeg4_bits_t :=
  let b := set_pos b (u64 (bs_bits b + n)) in
  if bs_bits b >? bit_size b then set_fault b else b.

(** The shifts of an unsigned [int] and of a [uint64_t]. *)
Definition shr32 (v n : Z) : outcome Z := if (0 <=? n) && (n <? 32) then Ok (Z.shiftr v n) else Ub.
Definition shr64 (v n : Z) : outcome Z := if (0 <=? n) && (n <? 64) then Ok (Z.shiftr v n) else Ub.
Definition shl64 (v n : Z) : outcome Z := if (0 <=? n) && (n <? 64) then Ok (u64 (Z.shiftl v n)) else Ub.

(** [bits->data[i]] *)
Definition cell b (i : Z) : outcome Z := ld (bs_data b) (bs_base b + i).
Definition set_cell b (i v : Z) : outcome mpeg4_bits_t := m ← st (bs_data b) (bs_base b + i) [v]; Ok (set_data b m).

Definition mpeg4_bits_read b : outcome (Z * mpeg4_bits_t) :=
  if bs_bits b >=? bit_size b then Ok (0, set_fault b) else
  x ← cell b (bs_bits b / 8);
  mask ← shr32 0x80 (bs_bits b mod 8);
  Ok (if truth (Z.land x mask) then 1 else 0, set_pos b (u64 (bs_bits b + 1))).

(** The whole bytes of a field, from the [i]th on; [n]: the bits left. *)
Fixpoint read_bytes (fuel : nat) b (v n i : Z) : outcome (Z * Z * Z) :=
  match fuel with
  | O => Ok (v, n, i)
  | S fuel =>
      if n >=? 8 then
        v ← shl64 v 8;
        x ← cell b (bs_bits b / 8 + i);
        read_bytes fuel b (u64 (v + x)) (n - 8) (i + 1)
      else Ok (v, n, i)
  end.

Definition mpeg4_bits_read_n b (n : Z) : outcome (Z * mpeg4_bits_t) :=
  if (u64 (bs_bits b + n) >? bit_size b) || (n >? 64) || (n <? 0) then Ok (0, set_fault b) else
  x ← cell b (bs_bits b / 8);
  mask ← shr32 0xff (bs_bits b mod 8);
  let v := Z.land x mask in
  let free := 8 - bs_bits b mod 8 in
  let next := set_pos b (u64 (bs_bits b + n)) in
  if n <=? free then v ← shr64 v (free - n); Ok (v, next) else
  '(v, r, i) ← read_bytes 8 b v (n - free) 1;
  if r >? 0 then
    v ← shl64 v r;
    x ← cell b (bs_bits b / 8 + i);
    Ok (u64 (v + Z.shiftr x (8 - r)), next)
  else Ok (v, next).

Definition mpeg4_bits_read_latm b : outcome (Z * mpeg4_bits_t) :=
  '(len, b) ← mpeg4_bits_read_n b 2;
  mpeg4_bits_read_n b ((len + 1) * 8).

(** Behind the last bit the loop of the source counts zeros until the count
    overflows. *)
Fixpoint uvlc_zeros (fuel : nat) b (zeros : Z) : outcome (Z * mpeg4_bits_t) :=
  match fuel with
  | O => Ub
  | S fuel =>
      '(bit, b) ← mpeg4_bits_read b;
      if truth bit then Ok (zeros, b) else zeros ← int (zeros + 1); uvlc_zeros fuel b zeros
  end.
Definition mpeg4_bits_read_uvlc b : outcome (Z * mpeg4_bits_t) :=
  '(zeros, b) ← uvlc_zeros (S (Z.to_nat (bit_size b - bs_bits b))) b 0;
  if zeros >=? 32 then Ok (2 ^ 32 - 1, b) else
  '(value, b) ← mpeg4_bits_read_n b zeros;
  Ok (u64 (2 ^ zeros - 1 + value), b).

Definition mpeg4_bits_write b (v : Z) : outcome (Z * mpeg4_bits_t) :=
  if bs_bits b >=? bit_size b then Ok (-1, set_fault b) else
  b ← (if truth v then
         x ← cell b (bs_bits b / 8);
         mask ← shr32 0x80 (bs_bits b mod 8);
         set_cell b (bs_bits b / 8) (u8 (Z.lor x mask))
       else Ok b);
  Ok (0, set_pos b (u64 (bs_bits b + 1))).

(** The bytes behind the first one of a field: the next one is the top of [v]. *)
Fixpoint write_bytes (fuel : nat) b (v n i : Z) : outcome mpeg4_bits_t :=
  match fuel with
  | O => Ok b
  | S fuel =>
      if n >? 0 then
        x ← shr64 v 56;
        b ← set_cell b (bs_bits b / 8 + i) (u8 x);
        v ← shl64 v 8;
        write_bytes fuel b v (n - 8) (i + 1)
      else Ok b
  end.

Definition mpeg4_bits_write_n b (v n : Z) : outcome (Z * mpeg4_bits_t) :=
  if (u64 (bs_bits b + n) >? bit_size b) || (n >? 64) || (n <? 0) then Ok (-1, set_fault b) else
  v ← shl64 v (64 - n);
  x ← cell b (bs_bits b / 8);
  top ← shr64 v (56 + bs_bits b mod 8);
  b ← set_cell b (bs_bits b / 8) (u8 (Z.lor x top));
  v ← shl64 v (8 - bs_bits b mod 8);
  b ← write_bytes 8 b v (n - (8 - bs_bits b mod 8)) 1;
  Ok (0, set_pos b (u64 (bs_bits b + n))).

(** * Bits *)

(** The [i]th bit of a block, the first one of a byte being its highest; the number
    that [n] bits at [i] make. *)
Definition bit (m : list Z) (i : Z) : bool := Z.testbit (m !!! Z.to_nat (i / 8)) (7 - i mod 8).
Fixpoint word (m : list Z) (i : Z) (n : nat) : Z :=
  match n with O => 0 | S n => 2 * word m i n + Z.b2z (bit m (i + Z.of_nat n)) end.

Lemma word_range m i n : 0 ≤ word m i n < 2 ^ Z.of_nat n.
Proof.
  induction n as [|n IH]; [cbn; lia|]. cbn [word]. rewrite Nat2Z.inj_succ, Z.pow_succ_r by lia.
  destruct (bit m (i + Z.of_nat n)); cbn [Z.b2z]; lia.
Qed.

Lemma word_app m i a n : word m i (a + n) = word m i a * 2 ^ Z.of_nat n + word m (i + Z.of_nat a) n.
Proof.
  induction n as [|n IH].
  - rewrite Nat.add_0_r. cbn. lia.
  - rewrite Nat.add_succ_r. cbn [word]. rewrite IH, Nat2Z.inj_succ, Z.pow_succ_r by lia.
    replace (i + Z.of_nat (a + n)) with (i + Z.of_nat a + Z.of_nat n) by lia. lia.
Qed.

Lemma word_ext m k i j n : (∀ d, 0 ≤ d < Z.of_nat n → bit m (i + d) = bit k (j + d)) → word m i n = word k j n.
Proof.
  induction n as [|n IH]; intros H; [done|]. cbn [word]. rewrite IH by (intros; apply H; lia).
  by rewrite H by lia.
Qed.

Lemma word_testbit m i n d : 0 ≤ d < Z.of_nat n → Z.testbit (word m i n) d = bit m (i + Z.of_nat n - 1 - d).
Proof.
  revert d. induction n as [|n IH]; intros d Hd; [lia|]. cbn [word]. destruct (decide (d = 0)) as [->|].
  - rewrite Z.testbit_0_r. f_equal. lia.
  - replace d with (Z.succ (Z.pred d)) by lia. rewrite Z.testbit_succ_r, IH by lia. f_equal. lia.
Qed.

Lemma word_eq m i n v : 0 ≤ v < 2 ^ Z.of_nat n →
  (∀ d, 0 ≤ d < Z.of_nat n → bit m (i + d) = Z.testbit v (Z.of_nat n - 1 - d)) → word m i n = v.
Proof.
  intros Hv H. apply Z.bits_inj'. intros d Hd. destruct (decide (d < Z.of_nat n)).
  - rewrite word_testbit by lia. replace (i + Z.of_nat n - 1 - d) with (i + (Z.of_nat n - 1 - d)) by lia.
    rewrite H by lia. f_equal. lia.
  - by rewrite !(testbit_small _ (Z.of_nat n)) by (first [apply word_range | lia]).
Qed.

(** A field inside one byte. *)
Lemma word_byte m i n : 0 ≤ i → is_byte (m !!! Z.to_nat (i / 8)) → i mod 8 + Z.of_nat n ≤ 8 →
  word m i n = Z.shiftr (m !!! Z.to_nat (i / 8)) (8 - i mod 8 - Z.of_nat n) mod 2 ^ Z.of_nat n.
Proof.
  intros Hi Hb Hn. set (x := m !!! _) in *. pose proof (Z.mod_pos_bound i 8 ltac:(lia)).
  apply word_eq; [apply Z.mod_pos_bound; lia|]. intros d Hd.
  rewrite Z.mod_pow2_bits_low, Z.shiftr_spec by lia. unfold bit.
  replace ((i + d) / 8) with (i / 8) by dlia. fold x. f_equal. dlia.
Qed.

(** * What the cursor reads *)

(** A cursor over bytes of its block; its position may be behind their end. *)
Record cursor_ok b : Prop := {
  ok_bytes : bytes_ok (bs_data b);
  ok_base : 0 ≤ bs_base b;
  ok_block : bs_base b + bs_size b ≤ zlen (bs_data b);
  ok_size : 0 ≤ bs_size b < 2 ^ 56;
  ok_bits : 0 ≤ bs_bits b ≤ 2 ^ 60
}.

(** Where its position is in the block. *)
Definition place b : Z := 8 * bs_base b + bs_bits b.
(** The cursor [n] bits further on. *)
Definition advance b (n : Z) : mpeg4_bits_t := set_pos b (bs_bits b + n).

Lemma bit_size_ok b : cursor_ok b → bit_size b = 8 * bs_size b.
Proof. intros [? ? ? ? ?]. unfold bit_size. unfold_ints. dlia. Qed.

Lemma advance_ok b n : cursor_ok b → 0 ≤ bs_bits b + n ≤ 8 * bs_size b → cursor_ok (advance b n).
Proof. intros [? ? ? ? ?] ?; split; cbn; dlia || done. Qed.

Lemma advance_wrap b n : cursor_ok b → 0 ≤ bs_bits b + n ≤ 8 * bs_size b → set_pos b (u64 (bs_bits b + n)) = advance b n.
Proof. intros [? ? ? ? ?] ?. unfold advance, u64. f_equal. apply Z.mod_small. dlia. Qed.

Lemma bits_div i : 8 * i / 8 = i.
Proof. dlia. Qed.
Lemma bits_mod i : 8 * i mod 8 = 0.
Proof. dlia. Qed.

Section Reading.
Context (b : mpeg4_bits_t) (Hb : cursor_ok b).

Lemma cell_ok i : 0 ≤ i < bs_size b → cell b i = Ok (bs_data b !!! Z.to_nat (bs_base b + i)) ∧ is_byte (bs_data b !!! Z.to_nat (bs_base b + i)).
Proof.
  destruct Hb. intros. unfold cell. rewrite ld_ok by lia. split; [done|]. by apply bytes_ok_lookup.
Qed.

(** Bytes and bits of the data. *)
Lemma data_byte i n : 0 ≤ i → bs_base b + i / 8 < zlen (bs_data b) → i mod 8 + Z.of_nat n ≤ 8 →
  word (bs_data b) (8 * bs_base b + i) n =
  Z.shiftr (bs_data b !!! Z.to_nat (bs_base b + i / 8)) (8 - i mod 8 - Z.of_nat n) mod 2 ^ Z.of_nat n.
Proof.
  destruct Hb. intros. assert ((8 * bs_base b + i) / 8 = bs_base b + i / 8) as Hq by dlia.
  rewrite word_byte, Hq by (rewrite ?Hq; first [lia | by apply bytes_ok_lookup | dlia]).
  do 2 f_equal. dlia.
Qed.

Lemma whole_byte i : 0 ≤ i → bs_base b + i < zlen (bs_data b) →
  word (bs_data b) (8 * (bs_base b + i)) 8 = bs_data b !!! Z.to_nat (bs_base b + i).
Proof.
  intros. pose proof (data_byte (8 * i) 8). rewrite Z.mul_add_distr_l.
  rewrite bits_div, bits_mod in *.
  rewrite H1 by (lia || done). change (8 - 0 - Z.of_nat 8) with 0. rewrite Z.shiftr_0_r.
  apply Z.mod_small. destruct Hb. by apply bytes_ok_lookup.
Qed.

Lemma pow_split n k : 0 ≤ k ≤ n → 2 ^ n = 2 ^ (n - k) * 2 ^ k.
Proof. intros. rewrite <- Z.pow_add_r by lia. f_equal. lia. Qed.

Lemma shl64_ok v n : 0 ≤ n < 64 → 0 ≤ v < 2 ^ (64 - n) → shl64 v n = Ok (v * 2 ^ n).
Proof.
  intros. unfold shl64. destruct (Z.leb_spec 0 n), (Z.ltb_spec n 64); try lia. cbn [andb].
  rewrite Z.shiftl_mul_pow2 by lia. unfold u64. rewrite Z.mod_small; [done|].
  rewrite (pow_split 64 n) by lia. split; [lia|]. apply Z.mul_lt_mono_pos_r; lia.
Qed.

Lemma shr64_ok v n : 0 ≤ n < 64 → shr64 v n = Ok (Z.shiftr v n).
Proof. intros. unfold shr64. by destruct (Z.leb_spec 0 n), (Z.ltb_spec n 64); try lia. Qed.
Lemma shr32_ok v n : 0 ≤ n < 32 → shr32 v n = Ok (Z.shiftr v n).
Proof. intros. unfold shr32. by destruct (Z.leb_spec 0 n), (Z.ltb_spec n 32); try lia. Qed.

Lemma read_bytes_ok fuel : ∀ v n i, 0 ≤ n ≤ 64 → n / 8 ≤ Z.of_nat fuel → 0 ≤ v < 2 ^ (64 - n) → 0 ≤ i →
  bs_bits b / 8 + i + n / 8 ≤ bs_size b →
  read_bytes fuel b v n i =
    Ok (v * 2 ^ (8 * (n / 8)) + word (bs_data b) (8 * (bs_base b + (bs_bits b / 8 + i))) (Z.to_nat (8 * (n / 8))), n mod 8, i + n / 8).
Proof.
  pose proof (ok_bits _ Hb). pose proof (ok_block _ Hb).
  assert (∀ v n i, n < 8 → 0 ≤ n → Ok (v, n, i) = Ok (v * 2 ^ (8 * (n / 8)) + word (bs_data b) (8 * (bs_base b + (bs_bits b / 8 + i))) (Z.to_nat (8 * (n / 8))), n mod 8, i + n / 8)) as Hstop.
  { intros v n i ??. replace (n / 8) with 0 by dlia. replace (n mod 8) with n by dlia.
    change (Z.to_nat (8 * 0)) with 0%nat. change (2 ^ (8 * 0)) with 1. cbn [word]. by rewrite Z.mul_1_r, !Z.add_0_r. }
  induction fuel as [|fuel IH]; intros v n i Hn Hf Hv Hi Hs; cbn [read_bytes].
  { apply Hstop; dlia. }
  rewrite Z.geb_leb. destruct (Z.leb_spec 8 n); [|apply Hstop; lia].
  destruct (cell_ok (bs_bits b / 8 + i)) as [-> Hx]; [dlia|].
  set (x := _ !!! _) in *. pose proof (Hx : 0 ≤ x < 2 ^ 8) as Hx'.
  assert (2 ^ (64 - n) ≤ 2 ^ 56) by (apply Z.pow_le_mono_r; lia).
  rewrite shl64_ok by (change (64 - 8) with 56; lia). run.
  assert (0 ≤ v * 2 ^ 8 + x < 2 ^ (64 - (n - 8))) as Hvx.
  { replace (64 - (n - 8)) with (64 - n + 8) by lia. rewrite Z.pow_add_r by lia.
    change (2 ^ 8) with 256 in *. lia. }
  unfold u64. rewrite Z.mod_small by (pose proof (Z.pow_le_mono_r 2 (64 - (n - 8)) 64); lia).
  rewrite IH by (first [lia | dlia]).
  replace ((n - 8) / 8) with (n / 8 - 1) by dlia. replace ((n - 8) mod 8) with (n mod 8) by dlia.
  replace (Z.to_nat (8 * (n / 8))) with (8 + Z.to_nat (8 * (n / 8 - 1)))%nat by dlia.
  rewrite word_app, whole_byte by (done || dlia). fold x.
  replace (8 * (n / 8)) with (8 + 8 * (n / 8 - 1)) by lia. rewrite Z.pow_add_r by dlia.
  rewrite Z2Nat.id by dlia. replace (i + 1 + (n / 8 - 1)) with (i + n / 8) by lia.
  replace (8 * (bs_base b + (bs_bits b / 8 + i)) + Z.of_nat 8) with (8 * (bs_base b + (bs_bits b / 8 + (i + 1)))) by lia.
  do 3 f_equal. rewrite Z.mul_assoc. lia.
Qed.

Lemma read_n_ok n : 0 < n ≤ 64 → bs_bits b + n ≤ 8 * bs_size b →
  mpeg4_bits_read_n b n = Ok (word (bs_data b) (place b) (Z.to_nat n), advance b n).
Proof.
  intros Hn Hs. pose proof (ok_bits _ Hb) as Hbits. pose proof (ok_size _ Hb) as Hsize. pose proof (ok_block _ Hb).
  unfold mpeg4_bits_read_n. rewrite bit_size_ok, advance_wrap by (done || lia).
  assert (u64 (bs_bits b + n) = bs_bits b + n) as -> by (unfold u64; apply Z.mod_small; dlia).
  destruct (Z.gtb_spec (bs_bits b + n) (8 * bs_size b)); [lia|].
  destruct (Z.gtb_spec n 64); [lia|]. destruct (Z.ltb_spec n 0); [lia|]. cbn [orb].
  set (k := bs_bits b / 8). set (o := bs_bits b mod 8).
  assert (0 ≤ o < 8 ∧ bs_bits b = 8 * k + o) as [Ho Hko] by (unfold o, k; dlia).
  destruct (cell_ok k) as [-> Hx]; [lia|]. rewrite shr32_ok by lia. run.
  set (x := bs_data b !!! Z.to_nat (bs_base b + k)) in *.
  assert (∀ c : nat, o + Z.of_nat c ≤ 8 → word (bs_data b) (place b) c = Z.shiftr x (8 - o - Z.of_nat c) mod 2 ^ Z.of_nat c) as Hfield.
  { intros c Hc. unfold place. rewrite data_byte by (fold k; try fold o; lia). done. }
  assert (Z.land x (Z.shiftr 255 o) = x mod 2 ^ (8 - o)) as ->.
  { apply land_mask; [|lia]. assert (o ∈ seqZ 0 8) as Hin by (rewrite elem_of_seqZ; lia).
    revert Hin. generalize o. apply (proj1 (list.Forall_forall _ _)). by_eval. }
  destruct (Z.leb_spec n (8 - o)).
  - rewrite shr64_ok by lia. run. do 2 f_equal. rewrite Hfield by lia. rewrite Z2Nat.id by lia.
    apply Z.bits_inj'. intros d Hd. rewrite Z.shiftr_spec by lia. destruct (decide (d < n)).
    + rewrite !Z.mod_pow2_bits_low, Z.shiftr_spec by lia. done.
    + by rewrite !Z.mod_pow2_bits_high by lia.
  - assert (word (bs_data b) (place b) (Z.to_nat (8 - o)) = x mod 2 ^ (8 - o)) as Hhead.
    { rewrite Hfield, Z2Nat.id by lia. replace (8 - o - (8 - o)) with 0 by lia. by rewrite Z.shiftr_0_r. }
    set (h := 8 - o) in *. set (q := (n - h) / 8). set (r := (n - h) mod 8).
    assert (0 ≤ r < 8 ∧ n = h + 8 * q + r ∧ 0 ≤ q) as (Hr & Hnq & Hq) by (unfold q, r; dlia).
    rewrite read_bytes_ok; fold k; try (fold q; fold r); [|lia|lia| |lia|lia].
    2: { rewrite <- Hhead. pose proof (word_range (bs_data b) (place b) (Z.to_nat h)) as Hw. rewrite Z2Nat.id in Hw by lia.
         pose proof (Z.pow_le_mono_r 2 h (64 - (n - h))). lia. }
    run. rewrite <- Hhead.
    assert (word (bs_data b) (place b) (Z.to_nat h) * 2 ^ (8 * q) + word (bs_data b) (8 * (bs_base b + (k + 1))) (Z.to_nat (8 * q))
            = word (bs_data b) (place b) (Z.to_nat (h + 8 * q))) as ->.
    { rewrite Z2Nat.inj_add, word_app by lia. rewrite !Z2Nat.id by lia. do 2 f_equal. unfold place. lia. }
    destruct (Z.gtb_spec r 0).
    + assert (0 ≤ word (bs_data b) (place b) (Z.to_nat (h + 8 * q)) < 2 ^ (64 - r)) as Hw.
      { pose proof (word_range (bs_data b) (place b) (Z.to_nat (h + 8 * q))) as Hw. rewrite Z2Nat.id in Hw by lia.
        pose proof (Z.pow_le_mono_r 2 (h + 8 * q) (64 - r)). lia. }
      rewrite shl64_ok by lia. run. replace (k + (1 + q)) with (k + 1 + q) by lia.
      destruct (cell_ok (k + 1 + q)) as [-> Hy]; [lia|]. run.
      set (y := bs_data b !!! Z.to_nat (bs_base b + (k + 1 + q))) in *.
      assert (word (bs_data b) (8 * (bs_base b + (k + 1 + q))) (Z.to_nat r) = Z.shiftr y (8 - r)) as Hlast.
      { pose proof (data_byte (8 * (k + 1 + q)) (Z.to_nat r)) as Hd. rewrite Z.mul_add_distr_l.
        rewrite bits_div, bits_mod in Hd.
        rewrite Hd, Z2Nat.id by lia. fold y. replace (8 - 0 - r) with (8 - r) by lia. apply Z.mod_small.
        rewrite Z.shiftr_div_pow2 by lia. pose proof (Hy : 0 ≤ y < 2 ^ 8). split; [apply Z.div_pos; lia|].
        apply Z.div_lt_upper_bound; [lia|]. rewrite <- Z.pow_add_r by lia. replace (8 - r + r) with 8 by lia. lia. }
      rewrite <- Hlast.
      replace (Z.to_nat n) with (Z.to_nat (h + 8 * q) + Z.to_nat r)%nat by lia. rewrite (word_app _ _ (Z.to_nat (h + 8 * q))).
      replace (place b + Z.of_nat (Z.to_nat (h + 8 * q))) with (8 * (bs_base b + (k + 1 + q))) by (unfold place; lia).
      rewrite Z2Nat.id by lia. do 2 f_equal. unfold u64. apply Z.mod_small.
      pose proof (word_range (bs_data b) (8 * (bs_base b + (k + 1 + q))) (Z.to_nat r)) as Hl. rewrite Z2Nat.id in Hl by lia.
      pose proof (pow_split 64 r). nia.
    + do 3 f_equal. lia.
Qed.
End Reading.

(** Behind the end nothing is read. *)
Lemma read_n_end b n : cursor_ok b → 0 < n ≤ 64 → 8 * bs_size b < bs_bits b + n → mpeg4_bits_read_n b n = Ok (0, set_fault b).
Proof.
  intros Hb Hn Hs. pose proof (ok_bits _ Hb). pose proof (ok_size _ Hb).
  unfold mpeg4_bits_read_n. rewrite bit_size_ok by done. unfold u64. rewrite Z.mod_small by dlia.
  by destruct (Z.gtb_spec (bs_bits b + n) (8 * bs_size b)); [|lia].
Qed.

Lemma word_1 m i : word m i 1 = Z.b2z (bit m i).
Proof. cbn [word]. change (Z.of_nat 0) with 0. by rewrite Z.add_0_r. Qed.

Lemma read_as_n b : cursor_ok b → mpeg4_bits_read b = mpeg4_bits_read_n b 1.
Proof.
  intros Hb. pose proof (ok_bits _ Hb). pose proof (ok_size _ Hb). pose proof (ok_block _ Hb).
  unfold mpeg4_bits_read. rewrite bit_size_ok, Z.geb_leb by done. destruct (Z.leb_spec (8 * bs_size b) (bs_bits b)).
  { by rewrite read_n_end by (done || lia). }
  rewrite read_n_ok, advance_wrap by (done || lia). change (Z.to_nat 1) with 1%nat. rewrite word_1.
  destruct (cell_ok b Hb (bs_bits b / 8)) as [-> Hx]; [dlia|].
  set (x := _ !!! _) in *. run. set (o := bs_bits b mod 8). assert (0 ≤ o < 8) by (unfold o; dlia).
  rewrite shr32_ok by lia. run. do 2 f_equal.
  pose proof (data_byte b Hb (bs_bits b) 1 ltac:(lia) ltac:(dlia) ltac:(dlia)) as Hd. fold x o in Hd.
  rewrite word_1 in Hd. fold (place b) in Hd. rewrite Hd. change (Z.of_nat 1) with 1.
  assert (o ∈ seqZ 0 8) as Hin by (rewrite elem_of_seqZ; lia). revert Hin. clear -Hx.
  intros Hin. assert (forallb (λ o, (if truth (Z.land x (Z.shiftr 128 o)) then 1 else 0) =? Z.shiftr x (8 - o - 1) mod 2 ^ 1) (seqZ 0 8) = true) as HP.
  { revert Hx. apply (byte_cases (λ x, forallb (λ o, (if truth (Z.land x (Z.shiftr 128 o)) then 1 else 0) =? Z.shiftr x (8 - o - 1) mod 2 ^ 1) (seqZ 0 8))). by vm_compute. }
  rewrite forallb_forall in HP. apply Z.eqb_eq, HP. by apply list_elem_of_In.
Qed.

(** * What the cursor writes *)

(** No bit at the position or behind it is set, so that the bits of a field can be
    joined to those of the byte it begins in. *)
Definition clean b : Prop := ∀ i, bs_bits b ≤ i < 8 * bs_size b → bit (bs_data b) (8 * bs_base b + i) = false.

Lemma bit_put m p x i : 0 ≤ p < zlen m → 0 ≤ i → bit (put m p [x]) i = if decide (i / 8 = p) then Z.testbit x (7 - i mod 8) else bit m i.
Proof.
  intros Hp Hi. unfold bit. destruct (decide (i / 8 = p)) as [Hq|Hq].
  - f_equal. rewrite Hq. apply list_lookup_total_correct. pose proof (holds_put m p [x]) as Hh.
    change (zlen [x]) with 1 in Hh. pose proof (holds_ld _ _ _ (Hh ltac:(lia) ltac:(lia))) as Hl. by apply ld_inv in Hl as [_ Hl].
  - f_equal. rewrite !list_lookup_total_alt, put_lookup_out by (change (zlen [x]) with 1; first [lia | dlia]). done.
Qed.

Lemma set_cell_ok b i v : cursor_ok b → 0 ≤ i < bs_size b → is_byte v →
  set_cell b i v = Ok (set_data b (put (bs_data b) (bs_base b + i) [v])) ∧
  cursor_ok (set_data b (put (bs_data b) (bs_base b + i) [v])) ∧
  zlen (put (bs_data b) (bs_base b + i) [v]) = zlen (bs_data b) ∧
  (∀ j, 0 ≤ j → bit (put (bs_data b) (bs_base b + i) [v]) j =
     if decide (j / 8 = bs_base b + i) then Z.testbit v (7 - j mod 8) else bit (bs_data b) j).
Proof.
  intros [? ? ? ? ?] Hi Hv. unfold set_cell.
  rewrite st_ok by (change (zlen [v]) with 1; lia). split; [done|].
  assert (zlen (put (bs_data b) (bs_base b + i) [v]) = zlen (bs_data b)) as Hl by (apply zlen_put; change (zlen [v]) with 1; lia).
  split_and!; [split; cbn; rewrite ?Hl; try done|done|intros; apply bit_put; lia].
  apply bytes_ok_put; [done|]. by apply list.Forall_singleton.
Qed.

Lemma shl_testbit v n d : 0 ≤ n → 0 ≤ d < 64 → Z.testbit (u64 (Z.shiftl v n)) d = Z.testbit v (d - n).
Proof. intros. unfold u64. rewrite Z.mod_pow2_bits_low by lia. apply Z.shiftl_spec. lia. Qed.

(** The cursor with the data [m], of which [f] says what the bits are. *)
Definition wrote b (m : list Z) (f : Z → bool) : Prop :=
  cursor_ok (set_data b m) ∧ zlen m = zlen (bs_data b) ∧ ∀ j, 0 ≤ j → bit m j = f j.

Lemma write_bytes_ok fuel : ∀ b v n i, cursor_ok b → n ≤ 64 → n ≤ 8 * Z.of_nat fuel → 0 ≤ v → 0 ≤ i →
  8 * (bs_bits b / 8 + i) + n ≤ 8 * bs_size b →
  ∃ m, write_bytes fuel b v n i = Ok (set_data b m) ∧
    wrote b m (λ j, let e := j - 8 * (bs_base b + (bs_bits b / 8 + i)) in
                    if decide (0 ≤ e < 8 * ((n + 7) / 8)) then Z.testbit v (63 - e) else bit (bs_data b) j).
Proof.
  assert (∀ b v n i, cursor_ok b → n ≤ 0 →
    ∃ m, Ok b = Ok (set_data b m) ∧
    wrote b m (λ j, let e := j - 8 * (bs_base b + (bs_bits b / 8 + i)) in
                    if decide (0 ≤ e < 8 * ((n + 7) / 8)) then Z.testbit v (63 - e) else bit (bs_data b) j)) as Hstop.
  { intros b v n i Hb Hn. exists (bs_data b). assert (set_data b (bs_data b) = b) as Hid by (by destruct b).
    unfold wrote. rewrite Hid. split_and!; try done. intros j _. cbn. rewrite decide_False by dlia. done. }
  induction fuel as [|fuel IH]; intros b v n i Hb H64 Hf Hv Hi Hs; cbn [write_bytes].
  { apply Hstop; [done|lia]. }
  destruct (Z.gtb_spec n 0); [|by apply Hstop].
  rewrite shr64_ok by lia. run. pose proof (ok_bits _ Hb).
  destruct (set_cell_ok b (bs_bits b / 8 + i) (u8 (Z.shiftr v 56)) Hb) as (-> & Hb' & Hl & Hbit); [dlia|auto with cint|].
  run. set (m := put _ _ _) in *. set (k := bs_bits b / 8) in *.
  assert (shl64 v 8 = Ok (u64 (Z.shiftl v 8))) as -> by done. run.
  destruct (IH (set_data b m) (u64 (Z.shiftl v 8)) (n - 8) (i + 1)) as (m' & -> & Hb'' & Hl' & Hbit'); cbn in *; fold k; try done; try lia.
  { unfold u64. dlia. }
  exists m'. split; [done|]. split; [done|]. split; [congruence|].
  intros j Hj. rewrite Hbit' by done. cbn. fold k.
  set (e := j - 8 * (bs_base b + (k + i))).
  replace (j - 8 * (bs_base b + (k + (i + 1)))) with (e - 8) by (unfold e; lia).
  destruct (decide (0 ≤ e - 8 < _)) as [He|He].
  - rewrite decide_True by dlia. rewrite shl_testbit by dlia. f_equal. lia.
  - rewrite Hbit by done. destruct (decide (j / 8 = _)) as [Hq|Hq].
    + rewrite decide_True by (unfold e in *; dlia). unfold u8. rewrite Z.mod_pow2_bits_low, Z.shiftr_spec by dlia.
      f_equal. unfold e. dlia.
    + rewrite decide_False; [done|]. unfold e in *. dlia.
Qed.

Lemma write_n_ok b v n : cursor_ok b → clean b → 0 < n ≤ 64 → bs_bits b + n ≤ 8 * bs_size b → 0 ≤ v < 2 ^ n →
  ∃ m, mpeg4_bits_write_n b v n = Ok (0, advance (set_data b m) n) ∧
    wrote b m (λ j, if decide (place b ≤ j < place b + n) then Z.testbit v (place b + n - 1 - j) else bit (bs_data b) j).
Proof.
  intros Hb Hc Hn Hs Hv. pose proof (ok_bits _ Hb). pose proof (ok_size _ Hb). pose proof (ok_block _ Hb).
  unfold mpeg4_bits_write_n. rewrite bit_size_ok by done.
  assert (u64 (bs_bits b + n) = bs_bits b + n) as Hu by (unfold u64; apply Z.mod_small; dlia).
  rewrite Hu. destruct (Z.gtb_spec (bs_bits b + n) (8 * bs_size b)); [lia|].
  destruct (Z.gtb_spec n 64); [lia|]. destruct (Z.ltb_spec n 0); [lia|]. cbn [orb].
  rewrite shl64_ok by (rewrite ?Z.sub_sub_distr; replace (64 - 64 + n) with n; lia). run.
  set (w := v * 2 ^ (64 - n)).
  assert (∀ d, Z.testbit w d = Z.testbit v (d - (64 - n))) as Hw by (intros; apply Z.mul_pow2_bits; lia).
  assert (0 ≤ w < 2 ^ 64) as Hw64.
  { unfold w. rewrite (pow_split 64 (64 - n)) by lia. replace (64 - (64 - n)) with n by lia.
    split; [lia|]. apply Z.mul_lt_mono_pos_r; lia. }
  set (k := bs_bits b / 8). set (o := bs_bits b mod 8).
  assert (0 ≤ o < 8 ∧ bs_bits b = 8 * k + o) as [Ho Hko] by (unfold o, k; dlia).
  destruct (cell_ok b Hb k) as [-> Hx]; [lia|]. set (x := bs_data b !!! _) in *. run. rewrite shr64_ok by lia. run.
  destruct (set_cell_ok b k (u8 (Z.lor x (Z.shiftr w (56 + o)))) Hb) as (-> & Hb' & Hl & Hbit); [lia|auto with cint|].
  run. set (m := put _ _ _) in *. cbn [bs_bits set_data]. fold o.
  assert (shl64 w (8 - o) = Ok (u64 (Z.shiftl w (8 - o)))) as ->.
  { unfold shl64. by destruct (Z.leb_spec 0 (8 - o)), (Z.ltb_spec (8 - o) 64); try lia. }
  run. destruct (write_bytes_ok 8 (set_data b m) (u64 (Z.shiftl w (8 - o))) (n - (8 - o)) 1) as (m' & -> & Hb'' & Hl' & Hbit');
    cbn [bs_bits bs_size set_data]; fold k; try done; try lia.
  { unfold u64. dlia. }
  run. exists m'. cbn [bs_bits bs_size set_data set_pos]. rewrite Hu. split; [done|].
  split; [done|]. split; [cbn in *; congruence|]. intros j Hj. rewrite Hbit' by done. cbn [bs_bits bs_base bs_data set_data]. fold k.
  set (e := j - place b). replace (place b + n - 1 - j) with (n - 1 - e) by (unfold e; lia).
  assert (j = 8 * (bs_base b + k) + (e + o)) as Hje by (unfold e, place; lia).
  replace (j - 8 * (bs_base b + (k + 1))) with (e + o - 8) by lia.
  destruct (decide (0 ≤ e + o - 8 < _)) as [He|He].
  - rewrite shl_testbit, Hw by dlia. replace (63 - (e + o - 8) - (8 - o) - (64 - n)) with (n - 1 - e) by lia.
    destruct (decide (place b ≤ j < place b + n)) as [|Hout]; [done|].
    rewrite Z.testbit_neg_r by (unfold e in *; lia). symmetry.
    replace j with (8 * bs_base b + (bs_bits b + e)) by (unfold e, place; lia). apply Hc. unfold e in *. dlia.
  - rewrite Hbit by done. destruct (decide (j / 8 = bs_base b + k)) as [Hq|Hq].
    + assert (j mod 8 = e + o ∧ e + o < 8) as [-> Heo] by dlia.
      unfold u8. rewrite Z.mod_pow2_bits_low, Z.lor_spec, Z.shiftr_spec, Hw by dlia.
      replace (7 - (e + o) + (56 + o) - (64 - n)) with (n - 1 - e) by lia.
      assert (Z.testbit x (7 - (e + o)) = bit (bs_data b) j) as ->.
      { unfold bit. rewrite Hq. unfold x. do 2 f_equal. dlia. }
      destruct (decide (place b ≤ j < place b + n)) as [Hin|Hout].
      * replace j with (8 * bs_base b + (bs_bits b + e)) by (unfold e, place; lia). rewrite Hc; [done|]. unfold e in *. dlia.
      * destruct (decide (0 ≤ e)).
        -- rewrite (Z.testbit_neg_r v) by (unfold e in *; lia). apply orb_false_r.
        -- rewrite (testbit_small v n) by (done || lia). apply orb_false_r.
    + rewrite decide_False; [done|]. intros Hin. apply Hq. unfold e in *. dlia.
Qed.

(** * Any position *)

(** [b] is [b0] after some reads: the same bytes, and not behind their end if [b0]
    was not, up to alignment. *)
Record read_from b0 b : Prop := {
  rf_data : bs_data b = bs_data b0;
  rf_base : bs_base b = bs_base b0;
  rf_size : bs_size b = bs_size b0;
  rf_bits : bs_bits b0 ≤ bs_bits b ≤ Z.max (8 * bs_size b0) ((bs_bits b0 + 7) / 8 * 8);
  rf_ok : cursor_ok b
}.

Lemma read_from_refl b : cursor_ok b → read_from b b.
Proof. intros Hb. split; try done. dlia. Qed.

(** An operation that keeps the data and moves the position that far. *)
Lemma read_from_step b0 b b' : read_from b0 b →
  bs_data b' = bs_data b → bs_base b' = bs_base b → bs_size b' = bs_size b →
  bs_bits b ≤ bs_bits b' ≤ Z.max (8 * bs_size b) ((bs_bits b + 7) / 8 * 8) → read_from b0 b'.
Proof.
  intros [? ? Hs ? Hok] ? ? ? ?. pose proof (ok_bits _ Hok). pose proof (ok_size _ Hok). split; [congruence..|rewrite Hs in *; dlia|].
  destruct Hok. split; rewrite ?H, ?H0, ?H1; try done. dlia.
Qed.

Lemma read_n_from b0 b n : read_from b0 b → 0 < n ≤ 64 → post (mpeg4_bits_read_n b n) (λ r, 0 ≤ r.1 < 2 ^ n ∧ read_from b0 r.2).
Proof.
  intros H Hn. pose proof (rf_ok _ _ H) as Hok. destruct (decide (bs_bits b + n ≤ 8 * bs_size b)).
  - rewrite read_n_ok by (done || lia). cbn. pose proof (word_range (bs_data b) (place b) (Z.to_nat n)) as Hw.
    rewrite Z2Nat.id in Hw by lia. split; [done|]. eapply read_from_step; [done..|]. cbn. lia.
  - rewrite read_n_end by (done || lia). cbn. split; [lia|]. eapply read_from_step; [done..|]. cbn. dlia.
Qed.

Lemma read_from_bit b0 b : read_from b0 b → post (mpeg4_bits_read b) (λ r, 0 ≤ r.1 < 2 ∧ read_from b0 r.2).
Proof. intros H. rewrite read_as_n by apply H. by apply (read_n_from b0 b 1). Qed.

Lemma aligned_from b0 b : read_from b0 b → read_from b0 (mpeg4_bits_aligment b 8).
Proof.
  intros H. pose proof (ok_bits _ (rf_ok _ _ H)). eapply read_from_step; [done..|]. cbn. unfold u64. dlia.
Qed.

(** [b] is [b0] after some writes: the block has its size, and what is not in the
    data is unchanged. *)
Record written_from b0 b : Prop := {
  wf_block : zlen (bs_data b) = zlen (bs_data b0);
  wf_base : bs_base b = bs_base b0;
  wf_size : bs_size b = bs_size b0;
  wf_bits : bs_bits b0 ≤ bs_bits b ≤ Z.max (8 * bs_size b0) ((bs_bits b0 + 7) / 8 * 8);
  wf_ok : cursor_ok b
}.

Lemma written_from_refl b : cursor_ok b → written_from b b.
Proof. intros Hb. split; try done. dlia. Qed.

Lemma written_from_step b0 b b' : written_from b0 b →
  zlen (bs_data b') = zlen (bs_data b) → bytes_ok (bs_data b') → bs_base b' = bs_base b → bs_size b' = bs_size b →
  bs_bits b ≤ bs_bits b' ≤ Z.max (8 * bs_size b) ((bs_bits b + 7) / 8 * 8) → written_from b0 b'.
Proof.
  intros [? ? Hs ? Hok] Hl Hm Hb Hz ?. pose proof (ok_bits _ Hok). pose proof (ok_size _ Hok). split; [congruence..|rewrite Hs in *; dlia|].
  destruct Hok. split; rewrite ?Hl, ?Hb, ?Hz; try done. dlia.
Qed.

Lemma aligned_written b0 b : written_from b0 b → written_from b0 (mpeg4_bits_aligment b 8).
Proof.
  intros H. pose proof (wf_ok _ _ H) as Hok. destruct Hok. eapply written_from_step; [done..|]. cbn. unfold u64. dlia.
Qed.

Lemma shl64_post v n : 0 ≤ n < 64 → post (shl64 v n) (λ w, 0 ≤ w).
Proof.
  intros. unfold shl64. destruct (Z.leb_spec 0 n), (Z.ltb_spec n 64); try lia. cbn. unfold u64. dlia.
Qed.

Lemma write_n_from b0 b v n : written_from b0 b → 0 < n ≤ 64 → post (mpeg4_bits_write_n b v n) (λ r, written_from b0 r.2).
Proof.
  intros H Hn. pose proof (wf_ok _ _ H) as Hok. pose proof (ok_bits _ Hok). pose proof (ok_size _ Hok). pose proof (ok_bytes _ Hok).
  unfold mpeg4_bits_write_n. rewrite bit_size_ok by done.
  assert (u64 (bs_bits b + n) = bs_bits b + n) as -> by (unfold u64; apply Z.mod_small; dlia).
  destruct (Z.gtb_spec (bs_bits b + n) (8 * bs_size b)); destruct (Z.gtb_spec n 64); try lia; destruct (Z.ltb_spec n 0); try lia; cbn [orb post].
  { eapply written_from_step; [done..|]. cbn. dlia. }
  eapply post_bind; [apply shl64_post; lia|]. intros w Hw.
  destruct (cell_ok b Hok (bs_bits b / 8)) as [-> _]; [dlia|]. run. rewrite shr64_ok by dlia. run.
  edestruct (set_cell_ok b (bs_bits b / 8)) as (-> & Hok' & Hl & _); [done|dlia|auto with cint|]. run.
  set (m := put _ _ _) in *. eapply post_bind; [apply shl64_post; cbn; dlia|]. intros w' Hw'. cbn [bs_bits set_data].
  destruct (write_bytes_ok 8 (set_data b m) w' (n - (8 - bs_bits b mod 8)) 1) as (m' & -> & Hok'' & Hl' & _);
    cbn [bs_bits bs_size set_data]; try done; try dlia.
  run. cbn. pose proof (ok_bytes _ Hok''). cbn in *. eapply written_from_step; cbn; try done; [congruence|].
  unfold u64. rewrite Z.mod_small by dlia. lia.
Qed.
