(* ===== verification/Aac.v ===== *)
(** The configuration of AAC: mpeg4-aac.c and mpeg4-aac-asc.c of libflv/source, without
    the text of [mpeg4_aac_codecs].

    ADTS headers, audio specific configurations and the multiplex configurations of
    LATM are three forms of one structure.  A configuration of channels that has no
    number is a program config element, which the structure keeps as it is: it is
    copied bit by bit while it is read.  The shift of a negative int is undefined
    ([shl_int]).  The functions return what they return and the structure or the
    block they fill. *)
From S2P Require Import Prelude MpegBits.
Open Scope Z_scope.

Record mpeg4_aac_t := Aac {
  profile : Z; sampling_frequency_index : Z; channel_configuration : Z;
  sampling_frequency : Z; extension_frequency : Z;
  extension_audio_object_type : Z; extension_channel_configuration : Z;
  channels : Z; sbr : Z; ps : Z;
  pce : list Z; npce : Z
}.
Definition PCE_BYTES : Z := 64.
(** All bytes 0. *)
Definition aac_zero : mpeg4_aac_t := Aac 0 0 0 0 0 0 0 0 0 0 (replicate (Z.to_nat PCE_BYTES) 0) 0.

Implicit Types (a : mpeg4_aac_t) (b : mpeg4_bits_t).

Definition set_config a (p i c : Z) := Aac p i c (sampling_frequency a) (extension_frequency a) (extension_audio_object_type a) (extension_channel_configuration a) (channels a) (sbr a) (ps a) (pce a) (npce a).
Definition set_profile a (p : Z) := set_config a p (sampling_frequency_index a) (channel_configuration a).
Definition set_frequency a (f e : Z) := Aac (profile a) (sampling_frequency_index a) (channel_configuration a) f e (extension_audio_object_type a) (extension_channel_configuration a) (channels a) (sbr a) (ps a) (pce a) (npce a).
Definition set_extension a (t c : Z) := Aac (profile a) (sampling_frequency_index a) (channel_configuration a) (sampling_frequency a) (extension_frequency a) t c (channels a) (sbr a) (ps a) (pce a) (npce a).
Definition set_channels a (n : Z) := Aac (profile a) (sampling_frequency_index a) (channel_configuration a) (sampling_frequency a) (extension_frequency a) (extension_audio_object_type a) (extension_channel_configuration a) n (sbr a) (ps a) (pce a) (npce a).
Definition set_flags a (s p : Z) := Aac (profile a) (sampling_frequency_index a) (channel_configuration a) (sampling_frequency a) (extension_frequency a) (extension_audio_object_type a) (extension_channel_configuration a) (channels a) s p (pce a) (npce a).
Definition set_pce a (m : list Z) (n : Z) := Aac (profile a) (sampling_frequency_index a) (channel_configuration a) (sampling_frequency a) (extension_frequency a) (extension_audio_object_type a) (extension_channel_configuration a) (channels a) (sbr a) (ps a) m n.

(** * Tables *)

Definition s_frequency : list Z := [96000; 88200; 64000; 48000; 44100; 32000; 24000; 22050; 16000; 12000; 11025; 8000; 7350].
Definition mpeg4_aac_audio_frequency_to (index : Z) : Z := if (index <? 0) || (index >=? 13) then 0 else s_frequency !!! Z.to_nat index.
Fixpoint frequency_index (l : list Z) (i frequence : Z) : Z :=
  match l with [] => -1 | f :: l => if f =? frequence then i else frequency_index l (i + 1) frequence end.
Definition mpeg4_aac_audio_frequency_from (frequence : Z) : Z := frequency_index s_frequency 0 frequence.

Definition s_channels : list Z := [0; 1; 2; 3; 4; 5; 6; 8].
Definition mpeg4_aac_channel_count (c : Z) : Z := if c >=? 8 then 0 else s_channels !!! Z.to_nat c.

(** The frequencies and the channels that the numbers say. *)
Definition derive a : mpeg4_aac_t :=
  let f := mpeg4_aac_audio_frequency_to (sampling_frequency_index a) in
  set_frequency (set_channels a (mpeg4_aac_channel_count (channel_configuration a))) f f.

(** * Program config elements *)

(** The readers copy from one cursor to another: both are the state. *)
Definition cursors : Type := (mpeg4_bits_t * mpeg4_bits_t).
Definition mpeg4_bits_copy (s : cursors) (n : Z) : outcome (Z * cursors) :=
  let '(src, dst) := s in
  '(v, src) ← mpeg4_bits_read_n src n;
  '(_, dst) ← mpeg4_bits_write_n dst v n;
  Ok (v, (src, dst)).

Fixpoint copy_channels (n : nat) a (s : cursors) : outcome (mpeg4_aac_t * cursors) :=
  match n with
  | O => Ok (a, s)
  | S n =>
      '(cpe, s) ← mpeg4_bits_copy s 1;
      '(_, s) ← mpeg4_bits_copy s 4;
      copy_channels n (set_channels a (u8 (channels a + (if truth cpe || truth (ps a) then 2 else 1)))) s
  end.
Fixpoint copy_lfe (n : nat) a (s : cursors) : outcome (mpeg4_aac_t * cursors) :=
  match n with
  | O => Ok (a, s)
  | S n => '(_, s) ← mpeg4_bits_copy s 4; copy_lfe n (set_channels a (u8 (channels a + 1))) s
  end.
Fixpoint copy_fields (n : nat) (widths : list Z) (s : cursors) : outcome cursors :=
  match n with
  | O => Ok s
  | S n =>
      s ← foldl (λ s w, s ← s; '(_, s) ← mpeg4_bits_copy s w; Ok s) (Ok s) widths;
      copy_fields n widths s
  end.
(** A field behind a flag. *)
Definition copy_optional (s : cursors) (w : Z) : outcome cursors :=
  '(flag, s) ← mpeg4_bits_copy s 1;
  if truth flag then '(_, s) ← mpeg4_bits_copy s w; Ok s else Ok s.

(** The number of bytes copied, the structure and the cursors of the source and of
    the copy. *)
Definition mpeg4_aac_pce_load b a (pce : mpeg4_bits_t) : outcome (Z * mpeg4_aac_t * cursors) :=
  let a := set_channels a 0 in
  '(_, s) ← mpeg4_bits_copy (b, pce) 4;
  '(_, s) ← mpeg4_bits_copy s 2;
  '(_, s) ← mpeg4_bits_copy s 4;
  '(front, s) ← mpeg4_bits_copy s 4;
  '(side, s) ← mpeg4_bits_copy s 4;
  '(back, s) ← mpeg4_bits_copy s 4;
  '(lfe, s) ← mpeg4_bits_copy s 2;
  '(assoc, s) ← mpeg4_bits_copy s 3;
  '(cc, s) ← mpeg4_bits_copy s 4;
  s ← copy_optional s 4;
  s ← copy_optional s 4;
  s ← copy_optional s 3;
  '(a, s) ← copy_channels (Z.to_nat front) a s;
  '(a, s) ← copy_channels (Z.to_nat side) a s;
  '(a, s) ← copy_channels (Z.to_nat back) a s;
  '(a, s) ← copy_lfe (Z.to_nat lfe) a s;
  s ← copy_fields (Z.to_nat assoc) [4] s;
  s ← copy_fields (Z.to_nat cc) [1; 4] s;
  let s := (mpeg4_bits_aligment s.1 8, mpeg4_bits_aligment s.2 8) in
  '(comment, s) ← mpeg4_bits_copy s 8;
  s ← copy_fields (Z.to_nat comment) [8] s;
  Ok (s32 (u64 (bs_bits s.2 + 7) / 8), a, s).

(** * Audio specific configurations *)

Definition skip_n b (n : Z) : outcome mpeg4_bits_t := '(_, b) ← mpeg4_bits_read_n b n; Ok b.
Definition skip_1 b : outcome mpeg4_bits_t := '(_, b) ← mpeg4_bits_read b; Ok b.

Definition mpeg4_aac_ga_specific_config_load b a : outcome (mpeg4_bits_t * mpeg4_aac_t) :=
  b ← skip_1 b;
  '(core, b) ← mpeg4_bits_read b;
  b ← (if truth core then skip_n b 14 else Ok b);
  '(extension, b) ← mpeg4_bits_read b;
  '(b, a) ← (if 0 =? channel_configuration a then
               '(n, a, (b, d)) ← mpeg4_aac_pce_load b a (mpeg4_bits_init (pce a) 0 PCE_BYTES);
               Ok (b, set_pce a (bs_data d) n)
             else Ok (b, a));
  b ← (if (6 =? profile a) || (20 =? profile a) then skip_n b 3 else Ok b);
  if negb (truth extension) then Ok (b, a) else
  b ← (if 22 =? profile a then b ← skip_n b 5; skip_n b 11 else Ok b);
  b ← (if bool_decide (profile a ∈ [17; 19; 20; 23]) then b ← skip_1 b; b ← skip_1 b; skip_1 b else Ok b);
  b ← skip_1 b;
  Ok (b, a).

Definition mpeg4_aac_celp_specific_config_load b : outcome mpeg4_bits_t :=
  '(base, b) ← mpeg4_bits_read b;
  if truth base then
    '(mode, b) ← mpeg4_bits_read b;
    b ← skip_1 b;
    b ← skip_1 b;
    if mode =? 1 then skip_n b 3 else
    if mode =? 0 then b ← skip_n b 5; b ← skip_n b 2; skip_1 b else Ok b
  else
    b ← skip_1 b;
    skip_n b 2.

Definition mpeg4_aac_get_audio_object_type b : outcome (Z * mpeg4_bits_t) :=
  '(t, b) ← mpeg4_bits_read_n b 5;
  if 31 =? t then '(t, b) ← mpeg4_bits_read_n b 6; Ok (u8 (32 + t), b) else Ok (t, b).
Definition mpeg4_aac_get_sampling_frequency b : outcome (Z * mpeg4_bits_t) :=
  '(i, b) ← mpeg4_bits_read_n b 4;
  b ← (if 0x0f =? i then skip_n b 24 else Ok b);
  Ok (i, b).

(** The object type behind an explicit one of SBR or PS. *)
Definition load_hierarchy b a : outcome (mpeg4_bits_t * mpeg4_aac_t) :=
  if (5 =? profile a) || (29 =? profile a) then
    let a := set_flags (set_extension a 5 (extension_channel_configuration a)) 1 (if 29 =? profile a then 1 else ps a) in
    '(i, b) ← mpeg4_aac_get_sampling_frequency b;
    let a := set_frequency a (sampling_frequency a) (mpeg4_aac_audio_frequency_to i) in
    '(t, b) ← mpeg4_aac_get_audio_object_type b;
    let a := set_profile a t in
    if 22 =? profile a then '(c, b) ← mpeg4_bits_read_n b 4; Ok (b, set_extension a (extension_audio_object_type a) c)
    else Ok (b, a)
  else Ok (b, set_extension a 0 (extension_channel_configuration a)).

(** Backward compatible signalling at the end. *)
Definition load_sync_extension b a : outcome (mpeg4_bits_t * mpeg4_aac_t) :=
  if (5 =? extension_audio_object_type a) || (mpeg4_bits_remain b <? 16) then Ok (b, a) else
  '(sync, b) ← mpeg4_bits_read_n b 11;
  if negb (0x2b7 =? sync) then Ok (b, a) else
  '(t, b) ← mpeg4_aac_get_audio_object_type b;
  let a := set_extension a t (extension_channel_configuration a) in
  if 5 =? t then
    '(s, b) ← mpeg4_bits_read b;
    let a := set_flags a s (ps a) in
    if negb (truth s) then Ok (b, a) else
    '(i, b) ← mpeg4_aac_get_sampling_frequency b;
    let a := set_frequency a (sampling_frequency a) (mpeg4_aac_audio_frequency_to i) in
    if mpeg4_bits_remain b <? 12 then Ok (b, a) else
    '(sync, b) ← mpeg4_bits_read_n b 11;
    if 0x548 =? sync then '(p, b) ← mpeg4_bits_read b; Ok (b, set_flags a (sbr a) p) else Ok (b, a)
  else if 22 =? t then
    '(s, b) ← mpeg4_bits_read b;
    let a := set_flags a s (ps a) in
    '(b, a) ← (if truth s then
                 '(i, b) ← mpeg4_aac_get_sampling_frequency b;
                 Ok (b, set_frequency a (sampling_frequency a) (mpeg4_aac_audio_frequency_to i))
               else Ok (b, a));
    '(c, b) ← mpeg4_bits_read_n b 4;
    Ok (b, set_extension a (extension_audio_object_type a) c)
  else Ok (b, a).

(** The error protection configuration. *)
Definition load_protection b a : outcome mpeg4_bits_t :=
  if bool_decide (profile a ∈ [17; 19; 20; 21; 22; 23; 24; 25; 26; 27; 39]) then
    '(ep, b) ← mpeg4_bits_read_n b 2;
    if 3 =? ep then skip_1 b else Ok b
  else Ok b.

Definition mpeg4_aac_audio_specific_config_load3 b a : outcome (Z * mpeg4_bits_t * mpeg4_aac_t) :=
  let offset := bs_bits b in
  '(t, b) ← mpeg4_aac_get_audio_object_type b;
  '(i, b) ← mpeg4_aac_get_sampling_frequency b;
  '(c, b) ← mpeg4_bits_read_n b 4;
  let a := derive (set_config a t i c) in
  let a := set_extension a (extension_audio_object_type a) c in
  '(b, a) ← load_hierarchy b a;
  if bool_decide (profile a ∈ [1; 2; 3; 4; 6; 7; 17; 19; 20; 21; 22; 23; 8; 30]) then
    '(b, a) ← (if 8 =? profile a then b ← mpeg4_aac_celp_specific_config_load b; Ok (b, a)
               else if 30 =? profile a then b ← skip_1 b; Ok (b, a)
               else mpeg4_aac_ga_specific_config_load b a);
    b ← load_protection b a;
    '(b, a) ← load_sync_extension b a;
    Ok (u64 (bs_bits b - offset), b, a)
  else Ok (u64 (bs_bits b - offset), b, a).

(** The bytes read, at the end of a configuration. *)
Definition load_result b : Z :=
  let b := mpeg4_bits_aligment b 8 in if truth (mpeg4_bits_error b) then -1 else s32 (bs_bits b / 8).

Definition mpeg4_aac_audio_specific_config_load2 (m : list Z) (p bytes : Z) a : outcome (Z * mpeg4_aac_t) :=
  '(_, b, a) ← mpeg4_aac_audio_specific_config_load3 (mpeg4_bits_init m p bytes) a;
  Ok (load_result b, a).

Definition mpeg4_aac_audio_specific_config_load (m : list Z) (p bytes : Z) a : outcome (Z * mpeg4_aac_t) :=
  if bytes <? 2 then Ok (-1, a) else
  b0 ← ld m p; b1 ← ld m (p + 1);
  let a := derive (set_config aac_zero (Z.land (Z.shiftr b0 3) 0x1f) (Z.lor (Z.shiftl (Z.land b0 7) 1) (Z.land (Z.shiftr b1 7) 1)) (Z.land (Z.shiftr b1 3) 0x0f)) in
  if bytes >? 2 then mpeg4_aac_audio_specific_config_load2 m p bytes a else Ok (2, a).

Definition mpeg4_aac_audio_specific_config_save2 a (m : list Z) (p bytes : Z) : outcome (Z * list Z) :=
  if bytes <? 2 + u64 (npce a) then Ok (-1, m) else
  l ← slice (pce a) 0 (npce a);
  m ← st m (p + 2) l;
  Ok (2 + npce a, m).

Definition mpeg4_aac_audio_specific_config_save a (m : list Z) (p bytes : Z) : outcome (Z * list Z) :=
  if bytes <? 2 + u64 (npce a) then Ok (-1, m) else
  let c := if npce a >? 0 then 0 else channel_configuration a in
  m ← st m p [u8 (Z.lor (Z.shiftl (profile a) 3) (Z.land (Z.shiftr (sampling_frequency_index a) 1) 7));
              u8 (Z.lor (Z.shiftl (Z.land (sampling_frequency_index a) 1) 7) (Z.shiftl (Z.land c 0xf) 3))];
  if (0 =? channel_configuration a) && (npce a >? 0) then mpeg4_aac_audio_specific_config_save2 a m p bytes else Ok (2, m).

(** * ADTS headers *)

Definition ID_PCE : Z := 5.

Definition shl_int (v n : Z) : outcome Z := if v <? 0 then Ub else int (Z.shiftl v n).

Definition mpeg4_aac_adts_pce_load (m : list Z) (p bytes : Z) a : outcome (Z * mpeg4_aac_t) :=
  b1 ← ld m (p + 1);
  offset ← (if 0 =? Z.land b1 1 then b6 ← ld m (p + 6); Ok (7 + 2 * Z.land b6 3 + 2) else Ok 7);
  if bytes <=? offset then Ok (offset, a) else
  '(id, b) ← mpeg4_bits_read_n (mpeg4_bits_init m (p + offset) (bytes - offset)) 3;
  if ID_PCE =? id then
    '(n, a, (b, d)) ← mpeg4_aac_pce_load b a (mpeg4_bits_init (pce a) 0 PCE_BYTES);
    Ok (if truth (mpeg4_bits_error b) then -1 else s32 (7 + u64 (bs_bits d + 7) / 8), set_pce a (bs_data d) n)
  else Ok (7, a).

Definition mpeg4_aac_adts_load (m : list Z) (p bytes : Z) a : outcome (Z * mpeg4_aac_t) :=
  if bytes <? 7 then Ok (-1, a) else
  b2 ← ld m (p + 2); b3 ← ld m (p + 3);
  let a := derive (set_config aac_zero (Z.land (Z.shiftr b2 6) 3 + 1) (Z.land (Z.shiftr b2 2) 0x0f)
                     (Z.lor (Z.shiftl (Z.land b2 1) 2) (Z.land (Z.shiftr b3 6) 3))) in
  if 0 =? channel_configuration a then mpeg4_aac_adts_pce_load m p bytes a else Ok (7, a).

(** What is copied is the element of the structure, not the structure: its channels
    are counted in a copy. *)
Definition mpeg4_aac_adts_pce_save (m : list Z) (p bytes : Z) a : outcome (Z * list Z) :=
  if u64 (u64 (npce a) + 7) >? bytes then Ok (0, m) else
  '(_, d) ← mpeg4_bits_write_n (mpeg4_bits_init m (p + 7) (bytes - 7)) ID_PCE 3;
  '(_, _, (b, d)) ← mpeg4_aac_pce_load (mpeg4_bits_init (pce a) 0 (npce a)) a d;
  Ok (if truth (mpeg4_bits_error b) then 0 else s32 (u64 (bs_bits d + 7) / 8), bs_data d).

Definition mpeg4_aac_adts_save a (payload : Z) (m : list Z) (p bytes : Z) : outcome (Z * list Z) :=
  let len := u64 (payload + 7) in
  if (bytes <? 7) || (len >=? Z.shiftl 1 12) then Ok (-1, m) else
  '(n, m) ← (if (0 =? channel_configuration a) && (npce a >? 0) then mpeg4_aac_adts_pce_save m p bytes a else Ok (0, m));
  let len := u64 (len + n) in
  profile ← shl_int (profile a - 1) 6;
  m ← st m p [0xff; 0xf1;
              u8 (Z.lor (Z.lor profile (Z.shiftl (Z.land (sampling_frequency_index a) 0x0f) 2)) (Z.land (Z.shiftr (channel_configuration a) 2) 1));
              u8 (Z.lor (Z.shiftl (Z.land (channel_configuration a) 3) 6) (Z.land (Z.shiftr len 11) 3));
              u8 (Z.shiftr len 3);
              u8 (Z.lor (Z.shiftl (Z.land len 7) 5) 0x1f);
              0xfc];
  Ok (s32 (u64 (len - payload)), m).

Definition mpeg4_aac_adts_frame_length (m : list Z) (p bytes : Z) : outcome Z :=
  if bytes <? 7 then Ok (-1) else
  b3 ← ld m (p + 3); b4 ← ld m (p + 4); b5 ← ld m (p + 5);
  Ok (u16 (Z.lor (Z.lor (Z.shiftl (Z.land b3 3) 11) (Z.shiftl b4 3)) (Z.land (Z.shiftr b5 5) 7))).

(** * Multiplex configurations of LATM *)

(** The data of a frame length type. *)
Definition skip_frame_length b a (previous all_same type : Z) : outcome mpeg4_bits_t :=
  if type =? 0 then
    b ← skip_n b 8;
    if negb (truth all_same) && ((profile a =? 6) || (profile a =? 20)) && ((previous =? 8) || (previous =? 24)) then skip_n b 6 else Ok b
  else if type =? 1 then skip_n b 9
  else if (3 <=? type) && (type <=? 5) then skip_n b 6
  else if (6 <=? type) && (type <=? 7) then skip_n b 1
  else Ok b.

(** One layer: its configuration, if it is not that of the layer before, and the
    length of its frames.  [previous]: the object type before. *)
Definition load_layer b a (version all_same previous prog lay : Z) : outcome (mpeg4_bits_t * mpeg4_aac_t * Z) :=
  '(own, b) ← (if (prog =? 0) && (lay =? 0) then Ok (true, b) else '(same, b) ← mpeg4_bits_read b; Ok (0 =? same, b));
  '(b, a, previous) ←
     (if (own : bool) then
        let previous := profile a in
        if version =? 0 then
          '(_, b, a) ← mpeg4_aac_audio_specific_config_load3 b a;
          Ok (b, a, previous)
        else
          '(len, b) ← mpeg4_bits_read_latm b;
          '(used, b, a) ← mpeg4_aac_audio_specific_config_load3 b a;
          Ok (mpeg4_bits_skip b (u64 (len - used)), a, previous)
      else Ok (b, a, previous));
  '(type, b) ← mpeg4_bits_read_n b 3;
  b ← skip_frame_length b a previous all_same type;
  Ok (b, a, previous).

(** Layers from [lay] on, programs from [prog] on. *)
Fixpoint load_layers (n : nat) b a (version all_same previous prog lay : Z) : outcome (mpeg4_bits_t * mpeg4_aac_t * Z) :=
  match n with
  | O => Ok (b, a, previous)
  | S n =>
      '(b, a, previous) ← load_layer b a version all_same previous prog lay;
      load_layers n b a version all_same previous prog (lay + 1)
  end.
Fixpoint load_programs (n : nat) b a (version all_same previous prog : Z) : outcome (mpeg4_bits_t * mpeg4_aac_t * Z) :=
  match n with
  | O => Ok (b, a, previous)
  | S n =>
      '(layers, b) ← mpeg4_bits_read_n b 3;
      '(b, a, previous) ← load_layers (S (Z.to_nat layers)) b a version all_same previous prog 0;
      load_programs n b a version all_same previous (prog + 1)
  end.

(** Groups of a flag and eight bits, until a flag is not set. *)
Fixpoint skip_escapes (fuel : nat) b : outcome mpeg4_bits_t :=
  match fuel with
  | O => Ub
  | S fuel =>
      '(more, b) ← mpeg4_bits_read b;
      if truth more then b ← skip_n b 8; skip_escapes fuel b else Ok b
  end.

Definition mpeg4_aac_stream_mux_config_load3 b a : outcome (mpeg4_bits_t * mpeg4_aac_t) :=
  '(version, b) ← mpeg4_bits_read b;
  '(known, b) ← (if negb (truth version) then Ok (true, b) else '(v, b) ← mpeg4_bits_read b; Ok (0 =? v, b));
  if negb (known : bool) then Ok (b, a) else
  b ← (if 1 =? version then '(_, b) ← mpeg4_bits_read_latm b; Ok b else Ok b);
  '(all_same, b) ← mpeg4_bits_read b;
  b ← skip_n b 6;
  '(programs, b) ← mpeg4_bits_read_n b 4;
  '(b, a, _) ← load_programs (S (Z.to_nat programs)) b a version all_same 0 0;
  '(other, b) ← mpeg4_bits_read b;
  b ← (if truth other then
         if version =? 1 then '(_, b) ← mpeg4_bits_read_latm b; Ok b
         else b ← skip_n b 8; skip_escapes (S (Z.to_nat (bit_size b))) b
       else Ok b);
  '(crc, b) ← mpeg4_bits_read b;
  b ← (if truth crc then skip_n b 8 else Ok b);
  Ok (b, a).

Definition mpeg4_aac_stream_mux_config_load2 (m : list Z) (p bytes : Z) a : outcome (Z * mpeg4_aac_t) :=
  '(b, a) ← mpeg4_aac_stream_mux_config_load3 (mpeg4_bits_init m p bytes) a;
  Ok (load_result b, a).

Definition mpeg4_aac_stream_mux_config_load (m : list Z) (p bytes : Z) a : outcome (Z * mpeg4_aac_t) :=
  if bytes <? 6 then Ok (-1, a) else
  b0 ← ld m p; b1 ← ld m (p + 1); b2 ← ld m (p + 2); b3 ← ld m (p + 3);
  if (6 =? bytes) && (0x40 =? b0) && (0 =? Z.land b1 0xfe) then
    Ok (6, derive (set_config aac_zero (Z.lor (Z.shiftl (Z.land b1 1) 4) (Z.shiftr b2 4)) (Z.land b2 0x0f) (Z.shiftr b3 4)))
  else mpeg4_aac_stream_mux_config_load2 m p bytes aac_zero.

Definition mpeg4_aac_stream_mux_config_save a (m : list Z) (p bytes : Z) : outcome (Z * list Z) :=
  if bytes <? 6 then Ok (-1, m) else
  let t := if truth (sbr a) then extension_audio_object_type a else profile a in
  let f := mpeg4_aac_audio_frequency_from (s32 (extension_frequency a)) in
  let f := if (truth (sbr a) || truth (ps a)) && negb (-1 =? f) then f else 0 in
  m ← st m p [0x40; Z.land (Z.shiftr t 4) 1; u8 (Z.lor (Z.shiftl (Z.land t 0x0f) 4) (Z.land (sampling_frequency_index a) 0x0f));
              u8 (Z.lor (Z.shiftl (Z.land (channel_configuration a) 0x0f) 4) (Z.land f 0x0f)); 0x3f; 0xc0];
  Ok (6, m).

(** * Levels *)

Definition mpeg4_aac_high_quality_level a : Z :=
  if sampling_frequency a <=? 22050 then if channel_configuration a <=? 2 then 1 else 8
  else if sampling_frequency a <=? 48000 then
    if channel_configuration a <=? 2 then 2 else if channel_configuration a <=? 5 then 3 else 8
  else 8.
Definition mpeg4_aac_level a : Z :=
  if sampling_frequency a <=? 24000 then if channel_configuration a <=? 2 then 1 else 5
  else if sampling_frequency a <=? 48000 then
    if channel_configuration a <=? 2 then 2 else if channel_configuration a <=? 5 then 4 else 5
  else 5.
Definition mpeg4_aac_he_level a : Z :=
  if sampling_frequency a <=? 48000 then
    if channel_configuration a <=? 2 then (if truth (sbr a) then 3 else 2) else if channel_configuration a <=? 5 then 4 else 5
  else 5.
Definition mpeg4_aac_profile_level a : Z :=
  if profile a =? 2 then mpeg4_aac_level a - 1 + 0x28
  else if profile a =? 5 then mpeg4_aac_he_level a - 2 + 0x2c
  else if profile a =? 29 then mpeg4_aac_he_level a - 2 + 0x30
  else if profile a =? 8 then mpeg4_aac_high_quality_level a - 1 + 0x0e
  else 1.
