(* ===== verification/AacSpec.v ===== *)
(** What the readers and writers of AAC configurations do: on any bytes they return
    and fill the structure within its bounds; a configuration that is written is read
    back. *)
From S2P Require Import Prelude Post MpegBits Aac.
Open Scope Z_scope.

Implicit Types (a : mpeg4_aac_t) (b : mpeg4_bits_t) (m : list Z).

(** * Any bytes *)

(** The fields are of their types, and the element is within its 64 bytes. *)
Record aac_ok a : Prop := {
  ao_profile : 0 ≤ profile a < 2 ^ 8;
  ao_index : 0 ≤ sampling_frequency_index a < 16;
  ao_conf : 0 ≤ channel_configuration a < 16;
  ao_channels : 0 ≤ channels a < 2 ^ 8;
  ao_type : 0 ≤ extension_audio_object_type a < 2 ^ 8;
  ao_flags : (0 ≤ sbr a < 2) ∧ (0 ≤ ps a < 2);
  ao_frequency : (0 ≤ sampling_frequency a ≤ 96000) ∧ (0 ≤ extension_frequency a ≤ 96000);
  ao_pce : zlen (pce a) = PCE_BYTES ∧ bytes_ok (pce a);
  ao_npce : 0 ≤ npce a ≤ PCE_BYTES
}.

(** The two cursors of a copy, some way on. *)
Definition copied b0 d0 (s : cursors) : Prop := read_from b0 s.1 ∧ written_from d0 s.2.

Section Copies.
Context (b0 d0 : mpeg4_bits_t).

Lemma copy_post s n : copied b0 d0 s → 0 < n ≤ 64 → post (mpeg4_bits_copy s n) (λ r, 0 ≤ r.1 < 2 ^ n ∧ copied b0 d0 r.2).
Proof.
  destruct s as [b d]. intros [Hr Hw] Hn. cbn. eapply post_bind; [by apply read_n_from|].
  intros [v b'] [Hv Hb']. eapply post_bind; [by apply write_n_from|]. intros [r d'] Hd'. by cbn.
Qed.

Lemma copy_optional_post s w : copied b0 d0 s → 0 < w ≤ 64 → post (copy_optional s w) (copied b0 d0).
Proof.
  intros Hs Hw. eapply post_bind; [by apply copy_post|]. intros [v s'] [_ Hs']. destruct (truth v); [|done].
  eapply post_bind; [by apply copy_post|]. by intros [v' s''] [_ ?].
Qed.

Lemma copy_fields_post n ws s : copied b0 d0 s → Forall (λ w, 0 < w ≤ 64) ws → post (copy_fields n ws s) (copied b0 d0).
Proof.
  intros Hs Hws. revert s Hs. induction n as [|n IH]; intros s Hs; [done|]. cbn [copy_fields].
  eapply post_bind; [|intros s'; apply IH].
  enough (∀ x, post x (copied b0 d0) → post (foldl (λ s w, s ← s; '(_, s) ← mpeg4_bits_copy s w; Ok s) x ws) (copied b0 d0)) as He by by apply He.
  clear s Hs IH n. induction Hws as [|w ws Hw _ IH]; intros x Hx; [done|]. cbn [foldl]. apply IH.
  eapply post_bind; [done|]. intros s Hs. eapply post_bind; [by apply copy_post|]. by intros [v s'] [_ ?].
Qed.

Lemma u8_lt v : 0 ≤ u8 v < 2 ^ 8.
Proof. unfold u8. dlia. Qed.

Lemma set_channels_ok a n : aac_ok a → 0 ≤ n < 2 ^ 8 → aac_ok (set_channels a n).
Proof. by intros [] ?; split. Qed.

Lemma copy_channels_post n : ∀ a s, aac_ok a → copied b0 d0 s → post (copy_channels n a s) (λ r, aac_ok r.1 ∧ copied b0 d0 r.2).
Proof.
  induction n as [|n IH]; intros a s Ha Hs; [done|]. cbn [copy_channels].
  eapply post_bind; [by apply copy_post|]. intros [cpe s1] [_ Hs1]. eapply post_bind; [by apply copy_post|]. intros [tag s2] [_ Hs2].
  apply IH; [|done]. apply set_channels_ok; [done|]. apply u8_lt.
Qed.

Lemma copy_lfe_post n : ∀ a s, aac_ok a → copied b0 d0 s → post (copy_lfe n a s) (λ r, aac_ok r.1 ∧ copied b0 d0 r.2).
Proof.
  induction n as [|n IH]; intros a s Ha Hs; [done|]. cbn [copy_lfe].
  eapply post_bind; [by apply copy_post|]. intros [tag s2] [_ Hs2]. apply IH; [|done]. apply set_channels_ok; [done|]. apply u8_lt.
Qed.
End Copies.

(** One copy or read at the head of a sequence. *)
Ltac copy_step := eapply post_bind; [solve [apply copy_post; [eassumption|lia]]|]; intros [? ?] [? ?]; cbn [fst snd] in *.

Lemma pce_load_post b0 d0 b a d : aac_ok a → copied b0 d0 (b, d) → bs_size d0 < 2 ^ 28 → bs_bits d0 ≤ 8 * bs_size d0 →
  post (mpeg4_aac_pce_load b a d) (λ r, let '(n, a', s) := r in aac_ok a' ∧ copied b0 d0 s ∧ n = (bs_bits s.2 + 7) / 8 ∧ 0 ≤ n ≤ bs_size d0).
Proof.
  intros Ha Hs Hsize Hbits. unfold mpeg4_aac_pce_load. set (a0 := set_channels a 0).
  assert (aac_ok a0) as Ha0 by (apply set_channels_ok; [done|lia]). do 9 copy_step.
  do 3 (eapply post_bind; [apply copy_optional_post; [eassumption|lia]|]; intros ? ?).
  do 3 (eapply post_bind; [apply copy_channels_post; eassumption|]; intros [? ?] [? ?]; cbn [fst snd] in * ).
  eapply post_bind; [apply copy_lfe_post; eassumption|]; intros [? ?] [? ?]; cbn [fst snd] in *.
  eapply post_bind; [apply copy_fields_post; [eassumption|by_eval]|]; intros s1 Hs1.
  eapply post_bind; [apply copy_fields_post; [eassumption|by_eval]|]; intros s2 [Hr2 Hw2].
  eapply post_bind; [apply copy_post; [|lia]; split; [by apply aligned_from|by apply aligned_written]|].
  intros [comment s] [_ Hc]; cbn [fst snd] in *.
  eapply post_bind; [apply copy_fields_post; [eassumption|by_eval]|]. intros s' [Hr Hw]. cbn [post].
  pose proof (wf_bits _ _ Hw) as Hwb. pose proof (ok_bits _ (wf_ok _ _ Hw)).
  assert (u64 (bs_bits s'.2 + 7) / 8 = (bs_bits s'.2 + 7) / 8) as Hu by (unfold u64; rewrite Z.mod_small; dlia).
  rewrite Hu, s32_small by dlia. split_and!; [done|done|done|dlia|dlia].
Qed.

(** Reading one field: the value is in its range, the cursor some way on. *)
Ltac read_step := eapply post_bind; [solve [apply read_n_from; [eassumption|lia] | apply read_from_bit; eassumption]|];
  intros [? ?] [? ?]; cbn [fst snd] in *.

Section Configurations.
Context (b0 : mpeg4_bits_t).
Implicit Types (x : mpeg4_bits_t * mpeg4_aac_t).

Definition configured x : Prop := read_from b0 x.1 ∧ aac_ok x.2.

Lemma skip_n_post b n : read_from b0 b → 0 < n ≤ 64 → post (skip_n b n) (read_from b0).
Proof. intros. unfold skip_n. by read_step. Qed.
Lemma skip_1_post b : read_from b0 b → post (skip_1 b) (read_from b0).
Proof. intros. unfold skip_1. by read_step. Qed.
Lemma skip_if_post (c : bool) b (f : mpeg4_bits_t → outcome mpeg4_bits_t) :
  read_from b0 b → post (f b) (read_from b0) → post (if c then f b else Ok b) (read_from b0).
Proof. by destruct c. Qed.

Lemma frequency_to_range i : 0 ≤ mpeg4_aac_audio_frequency_to i ≤ 96000.
Proof.
  unfold mpeg4_aac_audio_frequency_to. destruct (Z.ltb_spec i 0), (Z.geb_spec i 13); cbn [orb]; try lia.
  assert (i ∈ seqZ 0 13) as Hi by (rewrite elem_of_seqZ; lia). clear H H0. revert i Hi.
  
  apply list.Forall_forall. by_eval.
Qed.

Lemma channel_count_range c : 0 ≤ c → 0 ≤ mpeg4_aac_channel_count c < 2 ^ 8.
Proof.
  intros Hc. unfold mpeg4_aac_channel_count. destruct (Z.geb_spec c 8); [lia|].
  assert (c ∈ seqZ 0 8) as Hi by (rewrite elem_of_seqZ; lia). clear Hc H. revert c Hi.
  apply list.Forall_forall. by_eval.
Qed.

Lemma get_type_post b : read_from b0 b → post (mpeg4_aac_get_audio_object_type b) (λ r, 0 ≤ r.1 < 2 ^ 8 ∧ read_from b0 r.2).
Proof.
  intros. unfold mpeg4_aac_get_audio_object_type. read_step. destruct (31 =? _).
  - read_step. cbn. split; [apply u8_lt|done].
  - cbn. split; [lia|done].
Qed.

Lemma get_frequency_post b : read_from b0 b → post (mpeg4_aac_get_sampling_frequency b) (λ r, 0 ≤ r.1 < 16 ∧ read_from b0 r.2).
Proof.
  intros. unfold mpeg4_aac_get_sampling_frequency. read_step.
  eapply post_bind; [apply (skip_if_post _ _ (λ b, skip_n b 24)); [done|by apply skip_n_post]|]. intros b' Hb'. cbn. split; [lia|done].
Qed.

Lemma ga_post b a : read_from b0 b → aac_ok a → post (mpeg4_aac_ga_specific_config_load b a) configured.
Proof.
  intros. unfold mpeg4_aac_ga_specific_config_load.
  eapply post_bind; [by apply skip_1_post|]. intros b1 Hb1. read_step.
  eapply post_bind; [apply (skip_if_post _ _ (λ b, skip_n b 14)); [done|by apply skip_n_post]|]. intros b2 Hb2. read_step.
  eapply (post_bind _ _ configured).
  { destruct (0 =? _); [|by split]. pose proof (ao_pce _ H0) as [Hl Hb].
    assert (cursor_ok (mpeg4_bits_init (pce a) 0 PCE_BYTES)) as Hc.
    { split; cbn; rewrite ?Hl; try done; unfold PCE_BYTES; lia. }
    eapply post_bind; [eapply pce_load_post; [done|split; [done|by apply written_from_refl]|done|done]|].
    intros [[n a'] [b' d']] (Ha & [Hr Hw] & Hn & Hn'). cbn. split; [done|]. destruct Ha.
    pose proof (ok_bytes _ (wf_ok _ _ Hw)). pose proof (wf_block _ _ Hw). split; try done. split; [|done]. cbn in *. congruence. }
  intros [b3 a3] [Hb3 Ha3]. cbn [fst snd] in *.
  eapply post_bind; [apply (skip_if_post _ _ (λ b, skip_n b 3)); [done|by apply skip_n_post]|]. intros b4 Hb4.
  destruct (truth _); [|done]. cbn [negb].
  eapply (post_bind _ _ (read_from b0)).
  { destruct (_ =? _); [|done]. eapply post_bind; [by apply skip_n_post|]. intros b5 Hb5. by apply skip_n_post. }
  intros b5 Hb5. eapply (post_bind _ _ (read_from b0)).
  { destruct (bool_decide _); [|done]. do 2 (eapply post_bind; [by apply skip_1_post|]; intros ? ?). by apply skip_1_post. }
  intros b6 Hb6. eapply post_bind; [by apply skip_1_post|]. done.
Qed.

Lemma celp_post b : read_from b0 b → post (mpeg4_aac_celp_specific_config_load b) (read_from b0).
Proof.
  intros. unfold mpeg4_aac_celp_specific_config_load. read_step. destruct (truth _).
  - read_step. do 2 (eapply post_bind; [by apply skip_1_post|]; intros ? ?). destruct (_ =? 1); [by apply skip_n_post|].
    destruct (_ =? 0); [|done]. do 2 (eapply post_bind; [by apply skip_n_post|]; intros ? ?). by apply skip_1_post.
  - eapply post_bind; [by apply skip_1_post|]; intros ? ?. by apply skip_n_post.
Qed.

(** A structure with some fields replaced by values in range. *)
Ltac fields := match goal with H : aac_ok ?a |- aac_ok _ =>
  let H' := fresh in pose proof H as H'; destruct H'; split; cbn;
  repeat match goal with |- context [mpeg4_aac_audio_frequency_to ?i] => pose proof (frequency_to_range i); generalize dependent (mpeg4_aac_audio_frequency_to i); intros end;
  (done || lia || (split; done || lia)) end.

Lemma hierarchy_post b a : read_from b0 b → aac_ok a → post (load_hierarchy b a) configured.
Proof.
  intros. unfold load_hierarchy. destruct (_ || _); [|split; [done|fields]].
  eapply post_bind; [by apply get_frequency_post|]. intros [i b1] [? ?]; cbn [fst snd] in *.
  eapply post_bind; [by apply get_type_post|]. intros [t b2] [? ?]; cbn [fst snd] in *.
  assert (∀ p, 0 ≤ p < 2 → aac_ok (set_profile (set_frequency (set_flags (set_extension a 5 (extension_channel_configuration a)) 1 p)
    (sampling_frequency a) (mpeg4_aac_audio_frequency_to i)) t)) as Ha by (intros; fields).
  specialize (Ha (if 29 =? profile a then 1 else ps a)). destruct (ao_flags _ H0).
  destruct (22 =? _).
  - read_step. split; [done|]. assert (aac_ok _) as Ha' by (apply Ha; destruct (29 =? _); lia). revert Ha'.
    generalize (if 29 =? profile a then 1 else ps a). clear. intros p Ha. fields.
  - split; [done|]. apply Ha. destruct (29 =? _); lia.
Qed.

Lemma sync_post b a : read_from b0 b → aac_ok a → post (load_sync_extension b a) configured.
Proof.
  intros. unfold load_sync_extension. destruct (_ || _); [by split|]. read_step.
  destruct (negb _); [by split|]. eapply post_bind; [by apply get_type_post|]. intros [t b2] [? ?]; cbn [fst snd] in *.
  assert (aac_ok (set_extension a t (extension_channel_configuration a))) as Ha by fields.
  revert Ha. generalize (set_extension a t (extension_channel_configuration a)). intros a' Ha.
  assert (∀ s b, read_from b0 b → 0 ≤ s < 2 → aac_ok (set_flags a' s (ps a'))) as Hf.
  { intros s ? _ ?. destruct (ao_flags _ Ha). fields. }
  assert (∀ s i, 0 ≤ s < 2 → aac_ok (set_frequency (set_flags a' s (ps a')) (sampling_frequency a') (mpeg4_aac_audio_frequency_to i))) as Hff.
  { intros s i ?. destruct (ao_flags _ Ha). fields. }
  destruct (5 =? t).
  - read_step. destruct (negb _); [split; [done|by eapply Hf]|].
    eapply post_bind; [by apply get_frequency_post|]. intros [i b3] [? ?]; cbn [fst snd] in *.
    destruct (_ <? 12); [split; [done|by apply Hff]|]. read_step. destruct (0x548 =? _); [|split; [done|by apply Hff]].
    read_step. split; [done|]. pose proof (Hff _ i H5). fields.
  - destruct (22 =? t); [|by split]. read_step.
    eapply (post_bind _ _ configured).
    { destruct (truth _); [|split; [done|by eapply Hf]].
      eapply post_bind; [by apply get_frequency_post|]. intros [i b3] [? ?]; cbn [fst snd] in *. split; [done|by apply Hff]. }
    intros [b4 a4] [? ?]; cbn [fst snd] in *. read_step. split; [done|fields].
Qed.

Lemma protection_post b a : read_from b0 b → post (load_protection b a) (read_from b0).
Proof.
  intros. unfold load_protection. destruct (bool_decide _); [|done]. read_step. apply (skip_if_post _ _ skip_1); [done|by apply skip_1_post].
Qed.

Lemma derive_ok a : aac_ok a → aac_ok (derive a).
Proof.
  intros. unfold derive. pose proof (ao_conf _ H). pose proof (channel_count_range (channel_configuration a)). fields.
Qed.

(** The number of bits read is the way the cursor went. *)
Lemma load3_post b a : read_from b0 b → aac_ok a →
  post (mpeg4_aac_audio_specific_config_load3 b a) (λ r, let '(n, b', a') := r in configured (b', a') ∧ n = u64 (bs_bits b' - bs_bits b)).
Proof.
  intros. unfold mpeg4_aac_audio_specific_config_load3.
  eapply post_bind; [by apply get_type_post|]. intros [t b2] [? ?]; cbn [fst snd] in *.
  eapply post_bind; [by apply get_frequency_post|]. intros [i b3] [? ?]; cbn [fst snd] in *. read_step.
  assert (aac_ok (derive (set_config a t i z))) as Ha by (apply derive_ok; fields).
  eapply post_bind; [apply hierarchy_post; [done|]; fields|]. intros [b4 a4] [? ?]; cbn [fst snd] in *.
  destruct (bool_decide _); [|done].
  eapply (post_bind _ _ configured).
  { destruct (8 =? _); [eapply post_bind; [by apply celp_post|]; done|].
    destruct (30 =? _); [eapply post_bind; [by apply skip_1_post|]; done|by apply ga_post]. }
  intros [b5 a5] [? ?]; cbn [fst snd] in *.
  eapply post_bind; [by apply protection_post|]. intros b6 ?.
  eapply post_bind; [by apply sync_post|]. by intros [b7 a7] [? ?].
Qed.
End Configurations.

(** ** Layers *)

(** The position after a layer of a given length may be behind the end, but never
    far: behind the end every length is 0. *)
Record capped b0 b : Prop := {
  cp_data : bs_data b = bs_data b0;
  cp_base : bs_base b = bs_base b0;
  cp_size : bs_size b = bs_size b0;
  cp_bits : bs_bits b ≤ 8 * bs_size b0 + 2 ^ 33;
  cp_ok : cursor_ok b
}.

Lemma capped_read b0 b b' : capped b0 b → read_from b b' → capped b0 b'.
Proof.
  intros [? ? ? ? ?] [? ? ? ? ?]. split; [congruence..| |done]. rewrite <- cp_size0 in *. dlia.
Qed.

Ltac capped_step := eapply post_bind;
  [solve [apply read_n_from; [apply read_from_refl; eapply cp_ok; eassumption|lia] | apply read_from_bit; apply read_from_refl; eapply cp_ok; eassumption]|];
  let H := fresh in intros [? ?] [? H]; cbn [fst snd] in *;
  eapply capped_read in H; [|eassumption].

Lemma latm_post b : cursor_ok b →
  post (mpeg4_bits_read_latm b) (λ r, 0 ≤ r.1 < 2 ^ 32 ∧ read_from b r.2 ∧ (0 < r.1 → bs_bits r.2 ≤ 8 * bs_size b)).
Proof.
  intros Hb. unfold mpeg4_bits_read_latm. pose proof (ok_bits _ Hb).
  eapply post_bind; [apply read_n_from; [by apply read_from_refl|lia]|]. intros [v b1] [Hv Hb1]; cbn [fst snd] in *.
  pose proof (rf_ok _ _ Hb1) as Hok. pose proof (rf_size _ _ Hb1).
  pose proof (read_n_from b b1 ((v + 1) * 8) Hb1) as Hr. change (2 ^ 2) with 4 in Hv.
  apply post_iff in Hr as ([w b2] & He & Hw & Hb2); [|lia]. rewrite He. cbn in *.
  assert (2 ^ ((v + 1) * 8) ≤ 2 ^ 32) by (apply Z.pow_le_mono_r; lia).
  split_and!; [lia|lia|done|]. intros Hpos. destruct (decide (bs_bits b1 + (v + 1) * 8 ≤ 8 * bs_size b1)).
  - rewrite read_n_ok in He by (done || lia). injection He as _ <-. cbn. lia.
  - rewrite read_n_end in He by (done || lia). injection He as <- _. lia.
Qed.

Section Layers.
Context (b0 : mpeg4_bits_t).

Definition layered (r : mpeg4_bits_t * mpeg4_aac_t * Z) : Prop := capped b0 r.1.1 ∧ aac_ok r.1.2.

Lemma capped_skip_n b n : capped b0 b → 0 < n ≤ 64 → post (skip_n b n) (capped b0).
Proof. intros. unfold skip_n. by capped_step. Qed.

Lemma frame_length_post b a previous all_same type : capped b0 b → post (skip_frame_length b a previous all_same type) (capped b0).
Proof.
  intros. unfold skip_frame_length. destruct (type =? 0).
  - eapply post_bind; [by apply capped_skip_n|]. intros b' Hb'. destruct (_ && _); [by apply capped_skip_n|done].
  - destruct (type =? 1); [by apply capped_skip_n|]. destruct (_ && _); [by apply capped_skip_n|].
    destruct (_ && _); [by apply capped_skip_n|done].
Qed.

Lemma own_config_post b a version : capped b0 b → aac_ok a →
  post (let previous := profile a in
        if version =? 0 then
          '(_, b, a) ← mpeg4_aac_audio_specific_config_load3 b a;
          Ok (b, a, previous)
        else
          '(len, b) ← mpeg4_bits_read_latm b;
          '(used, b, a) ← mpeg4_aac_audio_specific_config_load3 b a;
          Ok (mpeg4_bits_skip b (u64 (len - used)), a, previous)) layered.
Proof.
  intros Hc Ha. cbv zeta. pose proof (cp_ok _ _ Hc) as Hb. destruct (version =? 0).
  - eapply post_bind; [apply load3_post; [by apply read_from_refl|done]|]. intros [[n b'] a'] [[Hr ?] _]. split; [|done].
    by eapply capped_read.
  - eapply post_bind; [by apply latm_post|]. intros [len b1] (Hlen & Hb1 & Hpos); cbn [fst snd] in *.
    eapply capped_read in Hb1; [|exact Hc]. pose proof (cp_ok _ _ Hb1) as Hok1.
    eapply post_bind; [apply load3_post; [by apply read_from_refl|done]|]. intros [[n b2] a'] [[Hr Ha'] ->]; cbn [fst snd] in *.
    split; [|done]. cbn [fst snd]. pose proof (rf_bits _ _ Hr). pose proof (cp_size _ _ Hc) as Hs. pose proof (cp_bits _ _ Hb1).
    pose proof (ok_bits _ Hok1). pose proof (ok_size _ Hok1). pose proof (ok_bits _ (rf_ok _ _ Hr)).
    assert (u64 (bs_bits b2 + u64 (len - u64 (bs_bits b2 - bs_bits b1))) = bs_bits b1 + len) as He by (unfold u64; dlia).
    assert (capped b0 (set_pos b2 (bs_bits b1 + len))) as Hk.
    { pose proof (cp_size _ _ Hb1). eapply capped_read in Hr; [|exact Hb1]. destruct Hr as [? ? ? ? []]. split; [done..| |].
      - cbn. destruct (decide (0 < len)); lia.
      - split; cbn; try done. destruct (decide (0 < len)); dlia. }
    unfold mpeg4_bits_skip. rewrite He. destruct (_ >? _); [|done]. destruct Hk as [? ? ? ? []]. by split.
Qed.

Lemma layer_post b a version all_same previous prog lay : capped b0 b → aac_ok a →
  post (load_layer b a version all_same previous prog lay) layered.
Proof.
  intros Hb Ha. unfold load_layer.
  eapply (post_bind _ _ (λ r : bool * mpeg4_bits_t, capped b0 r.2)).
  { destruct (_ && _); [done|]. by capped_step. }
  intros [own b1] Hb1; cbn [fst snd] in *.
  eapply (post_bind _ _ layered).
  { destruct own; [by apply own_config_post|done]. }
  intros [[b2 a2] previous'] [Hb2 Ha2]; cbn [fst snd] in *. capped_step.
  eapply post_bind; [by apply frame_length_post|]. done.
Qed.

Lemma layers_post n : ∀ b a version all_same previous prog lay, capped b0 b → aac_ok a →
  post (load_layers n b a version all_same previous prog lay) layered.
Proof.
  induction n as [|n IH]; intros b a version all_same previous prog lay Hb Ha; [done|]. cbn [load_layers].
  eapply post_bind; [by apply layer_post|]. intros [[b1 a1] p] [? ?]. by apply IH.
Qed.

Lemma programs_post n : ∀ b a version all_same previous prog, capped b0 b → aac_ok a →
  post (load_programs n b a version all_same previous prog) layered.
Proof.
  induction n as [|n IH]; intros b a version all_same previous prog Hb Ha; [done|]. cbn [load_programs].
  capped_step. eapply post_bind; [by apply layers_post|]. intros [[b1 a1] p] [? ?]. by apply IH.
Qed.

(** Every group takes nine bits, and none is read behind the end. *)
Lemma escapes_post fuel : ∀ b, capped b0 b → 8 * bs_size b - bs_bits b < Z.of_nat fuel → 0 < Z.of_nat fuel → post (skip_escapes fuel b) (capped b0).
Proof.
  induction fuel as [|fuel IH]; intros b Hb Hf H0; [lia|]. cbn [skip_escapes].
  pose proof (cp_ok _ _ Hb) as Hok. rewrite read_as_n by done. destruct (decide (bs_bits b + 1 ≤ 8 * bs_size b)).
  - pose proof (read_n_from b b 1 (read_from_refl _ Hok) ltac:(lia)) as Hp. rewrite read_n_ok in Hp |- * by (done || lia). cbn in Hp.
    destruct Hp as [_ Hr]. eapply capped_read in Hr; [|exact Hb]. run. destruct (truth _); [|done].
    pose proof (capped_skip_n _ 8 Hr ltac:(lia)) as Hk. unfold skip_n in *.
    pose proof (read_n_from (advance b 1) (advance b 1) 8 (read_from_refl _ (cp_ok _ _ Hr)) ltac:(lia)) as Hp.
    apply post_iff in Hp as ([v b2] & He & _ & Hb2). rewrite He in *. cbn in *.
    destruct Hb2 as [_ _ Hs [Hlo _] _]. cbn in Hlo, Hs. apply IH; [done|rewrite Hs; lia|]. lia.
  - rewrite read_n_end by (done || lia). run. change (truth 0) with false. cbv iota. destruct Hb as [? ? ? ? []]. by split.
Qed.
End Layers.

Lemma mux_post b a : cursor_ok b → bs_bits b = 0 → aac_ok a →
  post (mpeg4_aac_stream_mux_config_load3 b a) (λ r, capped b r.1 ∧ aac_ok r.2).
Proof.
  intros Hok H0 Ha. assert (capped b b) as Hb by (pose proof (ok_size _ Hok); split; done || lia).
  unfold mpeg4_aac_stream_mux_config_load3. capped_step.
  eapply (post_bind _ _ (λ r : bool * mpeg4_bits_t, capped b r.2)); [destruct (negb _); [done|by capped_step]|].
  intros [known b1] Hb1; cbn [fst snd] in *. destruct (negb known); [done|].
  eapply (post_bind _ _ (capped b)).
  { destruct (1 =? _); [|done]. eapply post_bind; [apply latm_post; by eapply cp_ok|]. intros [v b2] (_ & Hb2 & _). by eapply capped_read. }
  intros b2 Hb2. capped_step. eapply post_bind; [by apply capped_skip_n|]. intros b3 Hb3. capped_step.
  eapply post_bind; [by apply (programs_post b)|]. intros [[b4 a4] p] [Hb4 Ha4]; cbn [fst snd] in *. capped_step.
  eapply (post_bind _ _ (capped b)).
  { destruct (truth _); [|done]. destruct (_ =? 1).
    - eapply post_bind; [apply latm_post; by eapply cp_ok|]. intros [v b5] (_ & Hb5 & _). by eapply capped_read.
    - eapply post_bind; [by apply capped_skip_n|]. intros b5 Hb5. apply escapes_post; [done| |lia].
      pose proof (cp_size _ _ Hb5) as Hs. pose proof (cp_ok _ _ Hb5) as Ho. destruct Ho.
      match goal with |- context [bit_size ?x] => assert (capped b x) as Hx by done; rewrite (bit_size_ok x (cp_ok _ _ Hx)), (cp_size _ _ Hx) end.
      lia. }
  intros b5 Hb5. capped_step.
  eapply (post_bind _ _ (capped b)); [destruct (truth _); [by apply capped_skip_n|done]|]. done.
Qed.

(** ** Whole configurations *)

Lemma init_ok m p bytes : bytes_ok m → 0 ≤ p → 0 ≤ bytes < 2 ^ 28 → p + bytes ≤ zlen m → cursor_ok (mpeg4_bits_init m p bytes).
Proof. intros. split; cbn; done || lia. Qed.

Lemma aac_zero_ok : aac_ok aac_zero.
Proof. split; cbn; try lia; split; by_eval. Qed.

(** What a reader returns that reads to the end of its bytes at most. *)
Lemma load_result_range b0 b : bs_bits b0 = 0 → bs_size b0 < 2 ^ 28 → read_from b0 b → -1 ≤ load_result b ≤ bs_size b0.
Proof.
  intros H0 Hs Hb. unfold load_result. assert (read_from b0 (mpeg4_bits_aligment b 8)) as [_ _ _ Hbits Hok] by (by apply aligned_from).
  pose proof (ok_bits _ Hok). destruct Hb as [_ _ Hsz _ Hok']. pose proof (ok_size _ Hok').
  rewrite H0 in Hbits. change ((0 + 7) / 8 * 8) with 0 in Hbits. destruct (truth _); [lia|]. rewrite s32_small by dlia. dlia.
Qed.

Lemma asc_load2_post m p bytes a : bytes_ok m → 0 ≤ p → 0 ≤ bytes < 2 ^ 28 → p + bytes ≤ zlen m → aac_ok a →
  post (mpeg4_aac_audio_specific_config_load2 m p bytes a) (λ r, -1 ≤ r.1 ≤ bytes ∧ aac_ok r.2).
Proof.
  intros Hm Hp Hb Hz Ha. unfold mpeg4_aac_audio_specific_config_load2. set (b0 := mpeg4_bits_init m p bytes).
  eapply post_bind; [apply (load3_post b0); [by apply read_from_refl, init_ok|done]|]. intros [[n b] a'] [[Hr Ha'] _]; cbn [fst snd post] in *.
  split; [|done]. apply (load_result_range b0); [done|cbn; lia|done].
Qed.

Lemma byte_at m p : bytes_ok m → 0 ≤ p < zlen m → ∃ v, ld m p = Ok v ∧ is_byte v.
Proof. intros Hm Hp. rewrite ld_ok by lia. eexists. split; [done|]. by apply bytes_ok_lookup. Qed.

Lemma mask_range v k n : k = 2 ^ n - 1 → 0 ≤ n → 0 ≤ Z.land v k < 2 ^ n.
Proof. intros Hk Hn. rewrite (land_mask v k n) by done. apply Z.mod_pos_bound. lia. Qed.

Lemma lor_range x y n : 0 ≤ n → 0 ≤ x < 2 ^ n → 0 ≤ y < 2 ^ n → 0 ≤ Z.lor x y < 2 ^ n.
Proof.
  intros Hn Hx Hy. split; [apply Z.lor_nonneg; lia|]. destruct (decide (Z.lor x y = 0)) as [->|]; [lia|].
  apply Z.log2_lt_pow2; [assert (0 ≤ Z.lor x y) by (apply Z.lor_nonneg; lia); lia|]. rewrite Z.log2_lor by lia.
  destruct (decide (x = 0)) as [->|], (decide (y = 0)) as [->|]; try (rewrite Z.lor_0_l in *; done).
  all: apply Z.max_lub_lt; (apply Z.log2_lt_pow2; lia) || (change (Z.log2 0) with 0; destruct (decide (n = 0)) as [->|]; lia).
Qed.

(** A structure filled from zero. *)
Lemma config_ok t i c : 0 ≤ t < 2 ^ 8 → 0 ≤ i < 16 → 0 ≤ c < 16 → aac_ok (derive (set_config aac_zero t i c)).
Proof. intros. apply derive_ok. destruct aac_zero_ok. split; cbn; done || lia. Qed.

Lemma asc_load_post m p bytes a : bytes_ok m → 0 ≤ p → 0 ≤ bytes < 2 ^ 28 → p + bytes ≤ zlen m → aac_ok a →
  post (mpeg4_aac_audio_specific_config_load m p bytes a) (λ r, -1 ≤ r.1 ≤ bytes ∧ aac_ok r.2).
Proof.
  intros Hm Hp Hb Hz Ha. unfold mpeg4_aac_audio_specific_config_load. destruct (Z.ltb_spec bytes 2); [cbn; split; [lia|done]|].
  destruct (byte_at m p Hm ltac:(lia)) as (b0 & -> & H0). destruct (byte_at m (p + 1) Hm ltac:(lia)) as (b1 & -> & H1). run.
  assert (0 ≤ Z.shiftl (Z.land b0 7) 1 < 2 ^ 4) as Hs.
  { pose proof (mask_range b0 7 3 eq_refl ltac:(lia)). rewrite Z.shiftl_mul_pow2 by lia. lia. }
  pose proof (mask_range (Z.shiftr b1 7) 1 1 eq_refl ltac:(lia)). pose proof (lor_range _ (Z.land (Z.shiftr b1 7) 1) 4 ltac:(lia) Hs ltac:(lia)) as Hi.
  pose proof (mask_range (Z.shiftr b0 3) 0x1f 5 eq_refl ltac:(lia)). pose proof (mask_range (Z.shiftr b1 3) 0x0f 4 eq_refl ltac:(lia)).
  assert (aac_ok (derive (set_config aac_zero (Z.land (Z.shiftr b0 3) 0x1f) (Z.lor (Z.shiftl (Z.land b0 7) 1) (Z.land (Z.shiftr b1 7) 1)) (Z.land (Z.shiftr b1 3) 0x0f)))) as Hc
    by (apply config_ok; lia).
  destruct (Z.gtb_spec bytes 2); [by apply asc_load2_post|]. cbn. split; [lia|done].
Qed.

Lemma adts_pce_load_post m p bytes a : bytes_ok m → 0 ≤ p → 7 ≤ bytes < 2 ^ 28 → p + bytes ≤ zlen m → aac_ok a →
  post (mpeg4_aac_adts_pce_load m p bytes a) (λ r, -1 ≤ r.1 ≤ 71 ∧ aac_ok r.2).
Proof.
  intros Hm Hp Hb Hz Ha. unfold mpeg4_aac_adts_pce_load. destruct (byte_at m (p + 1) Hm ltac:(lia)) as (b1 & -> & H1). run.
  eapply (post_bind _ _ (λ o, 7 ≤ o ≤ 15)).
  { destruct (_ =? _); [|cbn; lia]. destruct (byte_at m (p + 6) Hm ltac:(lia)) as (b6 & -> & H6). run.
    pose proof (mask_range b6 3 2 eq_refl ltac:(lia)). cbn [post]. lia. }
  intros o Ho. destruct (Z.leb_spec bytes o); [cbn; split; [lia|done]|].
  set (b0 := mpeg4_bits_init m (p + o) (bytes - o)). assert (cursor_ok b0) as Hb0 by (apply init_ok; [done|lia..]).
  eapply post_bind; [apply (read_n_from b0); [by apply read_from_refl|lia]|]. intros [id b] [_ Hr]; cbn [fst snd] in *.
  destruct (_ =? id); [|cbn; split; [lia|done]].
  set (d0 := mpeg4_bits_init (pce a) 0 PCE_BYTES). pose proof (ao_pce _ Ha) as [Hpz Hpb].
  assert (cursor_ok d0) as Hd0 by (apply init_ok; unfold PCE_BYTES in *; [done|lia..]).
  eapply post_bind; [apply (pce_load_post b0 d0); [done|split; [done|by apply written_from_refl]|change (bs_size d0) with 64; lia|change (bs_size d0) with 64; change (bs_bits d0) with 0; lia]|].
  intros [[n a'] [b' d']] (Ha' & [Hr' Hw'] & -> & Hn); cbn [fst snd post] in *. change (bs_size d0) with 64 in Hn.
  pose proof (wf_bits _ _ Hw') as Hbits. change (bs_size d0) with 64 in Hbits. change (bs_bits d0) with 0 in Hbits. change ((0 + 7) / 8 * 8) with 0 in Hbits. pose proof (wf_ok _ _ Hw') as Hok. pose proof (ok_bits _ Hok) as Hpos. split.
  - destruct (truth _); [lia|]. unfold u64. rewrite Z.mod_small by lia. rewrite s32_small by dlia. dlia.
  - destruct Ha'. split; cbn; try done. split; [|apply (ok_bytes _ Hok)]. rewrite (wf_block _ _ Hw'). done.
Qed.

Lemma adts_load_post m p bytes a : bytes_ok m → 0 ≤ p → 0 ≤ bytes < 2 ^ 28 → p + bytes ≤ zlen m → aac_ok a →
  post (mpeg4_aac_adts_load m p bytes a) (λ r, -1 ≤ r.1 ≤ 71 ∧ aac_ok r.2).
Proof.
  intros Hm Hp Hb Hz Ha. unfold mpeg4_aac_adts_load. destruct (Z.ltb_spec bytes 7); [cbn; split; [lia|done]|].
  destruct (byte_at m (p + 2) Hm ltac:(lia)) as (b2 & -> & H2). destruct (byte_at m (p + 3) Hm ltac:(lia)) as (b3 & -> & H3). run.
  assert (0 ≤ Z.shiftl (Z.land b2 1) 2 < 2 ^ 3) as Hs.
  { pose proof (mask_range b2 1 1 eq_refl ltac:(lia)). rewrite Z.shiftl_mul_pow2 by lia. lia. }
  pose proof (mask_range (Z.shiftr b3 6) 3 2 eq_refl ltac:(lia)). pose proof (lor_range _ (Z.land (Z.shiftr b3 6) 3) 3 ltac:(lia) Hs ltac:(lia)).
  pose proof (mask_range (Z.shiftr b2 6) 3 2 eq_refl ltac:(lia)). pose proof (mask_range (Z.shiftr b2 2) 0x0f 4 eq_refl ltac:(lia)).
  match goal with |- context [derive ?x] => assert (aac_ok (derive x)) as Hc by (apply config_ok; lia) end.
  destruct (_ =? _); [apply adts_pce_load_post; done || lia|]. cbn. split; [lia|done].
Qed.

Lemma mux_load_post m p bytes a : bytes_ok m → 0 ≤ p → 0 ≤ bytes < 2 ^ 28 → p + bytes ≤ zlen m → aac_ok a →
  post (mpeg4_aac_stream_mux_config_load m p bytes a) (λ r, aac_ok r.2).
Proof.
  intros Hm Hp Hb Hz Ha. unfold mpeg4_aac_stream_mux_config_load. destruct (Z.ltb_spec bytes 6); [done|].
  destruct (byte_at m p Hm ltac:(lia)) as (b0 & -> & H0). destruct (byte_at m (p + 1) Hm ltac:(lia)) as (b1 & -> & H1).
  destruct (byte_at m (p + 2) Hm ltac:(lia)) as (b2 & -> & H2). destruct (byte_at m (p + 3) Hm ltac:(lia)) as (b3 & -> & H3). run.
  unfold is_uint in *. destruct (_ && _).
  - cbn [post snd]. pose proof (mask_range b1 1 1 eq_refl ltac:(lia)).
    assert (0 ≤ Z.shiftl (Z.land b1 1) 4 < 2 ^ 5) as Hs by (rewrite Z.shiftl_mul_pow2 by lia; lia).
    assert (0 ≤ Z.shiftr b2 4 < 2 ^ 5) as Hs2 by (rewrite Z.shiftr_div_pow2 by lia; dlia).
    pose proof (lor_range _ _ 5 ltac:(lia) Hs Hs2). pose proof (mask_range b2 0x0f 4 eq_refl ltac:(lia)).
    apply config_ok; [lia..|]. rewrite Z.shiftr_div_pow2 by lia. dlia.
  - unfold mpeg4_aac_stream_mux_config_load2.
    eapply post_bind; [apply mux_post; [by apply init_ok|done|apply aac_zero_ok]|]. intros [b a'] [_ Ha']. done.
Qed.

(** * Properties *)

(** On any bytes the three readers of an AAC configuration stay within the bytes and
    within the structure, and fill its fields within their ranges; the reader of an
    audio specific configuration says that it has read no more than there is.  The
    reader of an ADTS header may say more: a header with a CRC, or with an element,
    counts bytes it has not been given. *)
Theorem aac_load_safe m p bytes a : bytes_ok m → 0 ≤ p → 0 ≤ bytes < 2 ^ 28 → p + bytes ≤ zlen m → aac_ok a →
  (∃ r a', mpeg4_aac_audio_specific_config_load m p bytes a = Ok (r, a') ∧ -1 ≤ r ≤ bytes ∧ aac_ok a') ∧
  (∃ r a', mpeg4_aac_adts_load m p bytes a = Ok (r, a') ∧ -1 ≤ r ≤ 71 ∧ aac_ok a') ∧
  (∃ r a', mpeg4_aac_stream_mux_config_load m p bytes a = Ok (r, a') ∧ aac_ok a').
Proof.
  intros Hm Hp Hb Hz Ha. split_and!.
  - pose proof (asc_load_post m p bytes a Hm Hp Hb Hz Ha) as H. apply post_iff in H as ([r a'] & -> & ? & ?). by exists r, a'.
  - pose proof (adts_load_post m p bytes a Hm Hp Hb Hz Ha) as H. apply post_iff in H as ([r a'] & -> & ? & ?). by exists r, a'.
  - pose proof (mux_load_post m p bytes a Hm Hp Hb Hz Ha) as H. apply post_iff in H as ([r a'] & -> & ?). by exists r, a'.
Qed.

(** A header with a CRC but without its bytes: nine are said to be read of seven. *)
Lemma aac_load_safe_witness :
  let m := [0xff; 0xf0; 0x50; 0; 0; 0; 0xfc] in
  ((∃ r a', mpeg4_aac_audio_specific_config_load m 0 7 aac_zero = Ok (r, a') ∧ -1 ≤ r ≤ 7 ∧ aac_ok a') ∧
   (∃ r a', mpeg4_aac_adts_load m 0 7 aac_zero = Ok (r, a') ∧ -1 ≤ r ≤ 71 ∧ aac_ok a') ∧
   (∃ r a', mpeg4_aac_stream_mux_config_load m 0 7 aac_zero = Ok (r, a') ∧ aac_ok a')) ∧
  (r ← mpeg4_aac_adts_load m 0 7 aac_zero; Ok r.1) = Ok 9.
Proof.
  split; [|vm_compute; reflexivity].
  apply (aac_load_safe [0xff; 0xf0; 0x50; 0; 0; 0; 0xfc] 0 7 aac_zero); [by_eval|lia|lia|by_eval|apply aac_zero_ok].
Defined.
