(* ===== verification/FlvHeader.v ===== *)
(** The headers of FLV files and tags: flv-header.c and flv-proto.h of libflv,
    completely.

    A buffer is a list of bytes, a pointer into it an offset.  [FLV_VIDEO_FOURCC]
    and [be_read_uint32] shift a byte promoted to int, which is undefined for a
    byte of 128 or more ([int]).  The functions that read the header of the data of
    a tag get the structure they fill and return it with their result, filled as far
    as they went when they fail; the others fill theirs only when they succeed. *)
From S2P Require Import Prelude.

Definition FLV_TYPE_AUDIO : Z := 8.
Definition FLV_TYPE_VIDEO : Z := 9.
Definition FLV_TYPE_SCRIPT : Z := 18.

Definition FLV_AUDIO_MP3 : Z := 32.
Definition FLV_AUDIO_FLAC : Z := 64.
Definition FLV_AUDIO_EAC3 : Z := 80.
Definition FLV_AUDIO_G711A : Z := 112.
Definition FLV_AUDIO_G711U : Z := 128.
Definition FLV_AUDIO_FOURCC : Z := 144.
Definition FLV_AUDIO_AAC : Z := 160.
Definition FLV_AUDIO_AC3 : Z := 192.
Definition FLV_AUDIO_OPUS : Z := 208.
Definition FLV_AUDIO_ASC : Z := Z.lor 0x1000 FLV_AUDIO_AAC.
Definition FLV_AUDIO_OPUS_HEAD : Z := Z.lor 0x1100 FLV_AUDIO_OPUS.

Definition FLV_VIDEO_H264 : Z := 7.
Definition FLV_VIDEO_H265 : Z := 12.
Definition FLV_VIDEO_AV1 : Z := 13.
Definition FLV_VIDEO_AVS3 : Z := 14.
Definition FLV_VIDEO_H266 : Z := 15.
Definition FLV_VIDEO_AVCC : Z := Z.lor 0x2000 FLV_VIDEO_H264.
Definition FLV_VIDEO_HVCC : Z := Z.lor 0x2100 FLV_VIDEO_H265.
Definition FLV_VIDEO_AV1C : Z := Z.lor 0x2200 FLV_VIDEO_AV1.
Definition FLV_VIDEO_VVCC : Z := Z.lor 0x2400 FLV_VIDEO_H266.

Definition FLV_SCRIPT_METADATA : Z := 0x4000.

Definition FLV_SEQUENCE_HEADER : Z := 0.
Definition FLV_AVPACKET : Z := 1.
Definition FLV_END_OF_SEQUENCE : Z := 2.
Definition FLV_PACKET_TYPE_CODED_FRAMES_X : Z := 3.
Definition FLV_AUDIO_PACKET_TYPE_MULTICHANNEL_CONFIG : Z := 4.
Definition FLV_AUDIO_PACKET_TYPE_MULTITRACK : Z := 5.

Definition FLV_VIDEO_KEY_FRAME : Z := 1.
Definition FLV_VIDEO_INTER_FRAME : Z := 2.
Definition FLV_AUDIO_MULTI_TRACK_NONE : Z := 255.

(** The macro on four characters. *)
Definition FLV_VIDEO_FOURCC (a b c d : Z) : outcome Z :=
  x ← int (a * 2 ^ 24);
  Ok (Z.lor (Z.lor (Z.lor x (Z.shiftl b 16)) (Z.shiftl c 8)) d).
Definition fourcc (a b c d : Z) : Z := be_val [a; b; c; d].
Definition FLV_VIDEO_FOURCC_AV1 : Z := fourcc 97 118 48 49.
Definition FLV_VIDEO_FOURCC_HEVC : Z := fourcc 104 118 99 49.
Definition FLV_VIDEO_FOURCC_VVC : Z := fourcc 118 118 99 49.
Definition FLV_AUDIO_FOURCC_AC3 : Z := fourcc 97 99 45 51.
Definition FLV_AUDIO_FOURCC_EAC3 : Z := fourcc 101 99 45 51.
Definition FLV_AUDIO_FOURCC_OPUS : Z := fourcc 79 112 117 115.
Definition FLV_AUDIO_FOURCC_MP3 : Z := fourcc 46 109 112 51.
Definition FLV_AUDIO_FOURCC_FLAC : Z := fourcc 102 76 97 67.
Definition FLV_AUDIO_FOURCC_AAC : Z := fourcc 109 112 52 97.

Definition N_TAG_SIZE : Z := 4.
Definition FLV_HEADER_SIZE : Z := 9.
Definition FLV_TAG_HEADER_SIZE : Z := 11.

Record flv_header_t := FlvHeader { FLV : list Z; version : Z; audio : Z; video : Z; offset : Z }.
Record flv_tag_header_t := FlvTagHeader { filter : Z; type : Z; size : Z; timestamp : Z; streamId : Z }.
Record flv_audio_tag_header_t := FlvAudioTagHeader {
  a_codecid : Z; rate : Z; bits : Z; channels : Z; a_avpacket : Z;
  multitrack : Z; channelorder : Z; channelflags : Z; channelmapping : list Z
}.
Record flv_video_tag_header_t := FlvVideoTagHeader { v_codecid : Z; keyframe : Z; v_avpacket : Z; cts : Z; enhanced_rtmp : Z }.

(** * Words *)

Definition flv_read_uint32 (m : list Z) (p : Z) : outcome Z :=
  b0 ← ld m p; b1 ← ld m (p + 1); b2 ← ld m (p + 2); b3 ← ld m (p + 3);
  x ← int (b0 * 2 ^ 24);
  Ok (u32 (Z.lor (Z.lor (Z.lor x (Z.shiftl b1 16)) (Z.shiftl b2 8)) b3)).
Definition flv_write_uint32 (m : list Z) (p val : Z) : outcome (list Z) :=
  st m p [u8 (Z.land (Z.shiftr val 24) 0xff); u8 (Z.land (Z.shiftr val 16) 0xff); u8 (Z.land (Z.shiftr val 8) 0xff); u8 (Z.land val 0xff)].

Definition flv_read_uint24 (m : list Z) (p : Z) : outcome Z :=
  b0 ← ld m p; b1 ← ld m (p + 1); b2 ← ld m (p + 2);
  Ok (Z.lor (Z.lor (Z.shiftl b0 16) (Z.shiftl b1 8)) b2).
Definition uint24 (val : Z) : list Z :=
  [u8 (Z.land (Z.shiftr val 16) 0xff); u8 (Z.land (Z.shiftr val 8) 0xff); u8 (Z.land val 0xff)].

(** * Files and tags *)

Definition flv_header_read (m : list Z) (p len : Z) : outcome (Z * flv_header_t) :=
  if len <? FLV_HEADER_SIZE then Fail (-1) else
  b0 ← ld m p; if negb (b0 =? 70) then Fail (-1) else
  b1 ← ld m (p + 1); if negb (b1 =? 76) then Fail (-1) else
  b2 ← ld m (p + 2); if negb (b2 =? 86) then Fail (-1) else
  b3 ← ld m (p + 3); b4 ← ld m (p + 4);
  o ← flv_read_uint32 m (p + 5);
  Ok (FLV_HEADER_SIZE, FlvHeader [b0; b1; b2] b3 (Z.land (Z.shiftr b4 2) 1) (Z.land b4 1) o).

Definition flv_header_write (audio video : Z) (m : list Z) (p len : Z) : outcome (Z * list Z) :=
  if len <? FLV_HEADER_SIZE then Fail (-1) else
  m ← st m p [70; 76; 86; 1; Z.lor (Z.shiftl (if truth audio then 1 else 0) 2) (if truth video then 1 else 0)];
  m ← flv_write_uint32 m (p + 5) FLV_HEADER_SIZE;
  Ok (FLV_HEADER_SIZE, m).

Definition flv_tag_header_read (m : list Z) (p len : Z) : outcome (Z * flv_tag_header_t) :=
  if len <? FLV_TAG_HEADER_SIZE then Fail (-1) else
  b0 ← ld m p;
  size ← flv_read_uint24 m (p + 1);
  low ← flv_read_uint24 m (p + 4);
  high ← ld m (p + 7);
  id ← flv_read_uint24 m (p + 8);
  Ok (FLV_TAG_HEADER_SIZE, FlvTagHeader (Z.land (Z.shiftr b0 5) 1) (Z.land b0 0x1f) size (Z.lor low (u32 (Z.shiftl high 24))) id).

Definition flv_tag_header_write (tag : flv_tag_header_t) (m : list Z) (p len : Z) : outcome (Z * list Z) :=
  if len <? FLV_TAG_HEADER_SIZE then Fail (-1) else
  m ← st m p ([u8 (Z.lor (Z.land (type tag) 0x1f) (Z.shiftl (Z.land (filter tag) 1) 5))] ++ uint24 (size tag)
              ++ uint24 (timestamp tag) ++ [u8 (Z.land (Z.shiftr (timestamp tag) 24) 0xff)] ++ uint24 (streamId tag));
  Ok (FLV_TAG_HEADER_SIZE, m).

Definition flv_tag_size_read (m : list Z) (p len : Z) : outcome (Z * Z) :=
  if len <? 4 then Fail (-1) else size ← flv_read_uint32 m p; Ok (4, size).
Definition flv_tag_size_write (m : list Z) (p len size : Z) : outcome (Z * list Z) :=
  if len <? 4 then Fail (-1) else m ← flv_write_uint32 m p size; Ok (4, m).

Definition flv_data_tag_header_read (len : Z) : Z := s32 len.

(** * Audio *)

Definition with_codecid (a : flv_audio_tag_header_t) (c : Z) : flv_audio_tag_header_t :=
  FlvAudioTagHeader c (rate a) (bits a) (channels a) (a_avpacket a) (multitrack a) (channelorder a) (channelflags a) (channelmapping a).
Definition with_packet (a : flv_audio_tag_header_t) (avpacket multitrack : Z) : flv_audio_tag_header_t :=
  FlvAudioTagHeader (a_codecid a) (rate a) (bits a) (channels a) avpacket multitrack (channelorder a) (channelflags a) (channelmapping a).
Definition with_channels (a : flv_audio_tag_header_t) (order channels flags : Z) (mapping : list Z) : flv_audio_tag_header_t :=
  FlvAudioTagHeader (a_codecid a) (rate a) (bits a) channels (a_avpacket a) (multitrack a) order flags mapping.

Definition flv_audio_tag_header_read_fourcc (a : flv_audio_tag_header_t) (m : list Z) (p len : Z) : outcome (Z * flv_audio_tag_header_t) :=
  if len <? 4 then Ok (-1, a) else
  b0 ← ld m p; b1 ← ld m (p + 1); b2 ← ld m (p + 2); b3 ← ld m (p + 3);
  c ← FLV_VIDEO_FOURCC b0 b1 b2 b3;
  Ok (if c =? FLV_AUDIO_FOURCC_AC3 then (0, with_codecid a FLV_AUDIO_AC3)
      else if c =? FLV_AUDIO_FOURCC_EAC3 then (0, with_codecid a FLV_AUDIO_EAC3)
      else if c =? FLV_AUDIO_FOURCC_OPUS then (0, with_codecid a FLV_AUDIO_OPUS)
      else if c =? FLV_AUDIO_FOURCC_MP3 then (0, with_codecid a FLV_AUDIO_MP3)
      else if c =? FLV_AUDIO_FOURCC_FLAC then (0, with_codecid a FLV_AUDIO_FLAC)
      else if c =? FLV_AUDIO_FOURCC_AAC then (0, with_codecid a FLV_AUDIO_AAC)
      else (-1, a)).

(** The layout of the channels, at [off].  The mapping is copied from the
    beginning of the header. *)
Definition read_channel_config (a : flv_audio_tag_header_t) (m : list Z) (p len off : Z) : outcome (Z * flv_audio_tag_header_t) :=
  if off + 2 >? len then Ok (-1, a) else
  order ← ld m (p + off); n ← ld m (p + off + 1);
  let off := off + 2 in
  let a := with_channels a order n (channelflags a) (channelmapping a) in
  if 1 =? order then
    if off + 4 >? len then Ok (-1, a) else
    b0 ← ld m (p + off); b1 ← ld m (p + off + 1); b2 ← ld m (p + off + 2); b3 ← ld m (p + off + 3);
    Ok (off + 4, with_channels a order n (u32 (Z.lor (Z.lor (Z.lor (Z.shiftl b0 24) (Z.shiftl b1 16)) (Z.shiftl b2 8)) b3)) (channelmapping a))
  else if 2 =? order then
    if off + n >? len then Ok (-1, a) else
    l ← slice m p (if n <=? 8 then n else 8);
    mapping ← st (channelmapping a) 0 l;
    Ok (off + n, with_channels a order n (channelflags a) mapping)
  else Ok (off, a).

(** What follows the first byte in the enhanced format; the codec is that of the
    first track. *)
Definition read_enhanced_audio (a : flv_audio_tag_header_t) (m : list Z) (p len : Z) : outcome (Z * flv_audio_tag_header_t) :=
  if (a_avpacket a =? FLV_AUDIO_PACKET_TYPE_MULTITRACK) && (len <? 2) then Ok (-1, a) else
  '(off, r, a) ← (if a_avpacket a =? FLV_AUDIO_PACKET_TYPE_MULTITRACK then
                    b1 ← ld m (p + 1);
                    '(r, a) ← flv_audio_tag_header_read_fourcc (with_packet a (Z.land b1 0x0f) (Z.shiftr (Z.land b1 0xf0) 4)) m (p + 2) (len - 2);
                    Ok (6, r, a)
                  else
                    '(r, a) ← flv_audio_tag_header_read_fourcc a m (p + 1) (len - 1);
                    Ok (5, r, a));
  if negb (0 =? r) then Ok (-1, a)
  else if a_avpacket a =? FLV_AUDIO_PACKET_TYPE_MULTICHANNEL_CONFIG then read_channel_config a m p len off
  else Ok (off, a).

Definition flv_audio_tag_header_read (a : flv_audio_tag_header_t) (m : list Z) (p len : Z) : outcome (Z * flv_audio_tag_header_t) :=
  b0 ← ld m p;
  let a := FlvAudioTagHeader (Z.land b0 0xf0) (Z.shiftr (Z.land b0 0x0c) 2) (Z.shiftr (Z.land b0 2) 1) (Z.land b0 1) FLV_AVPACKET
             FLV_AUDIO_MULTI_TRACK_NONE (channelorder a) (channelflags a) (channelmapping a) in
  if (FLV_AUDIO_AAC =? a_codecid a) || (FLV_AUDIO_OPUS =? a_codecid a) then
    if len <? 2 then Ok (-1, a) else b1 ← ld m (p + 1); Ok (2, with_packet a b1 (multitrack a))
  else if FLV_AUDIO_FOURCC =? a_codecid a then read_enhanced_audio (with_packet a (Z.land b0 0x0f) (multitrack a)) m p len
  else Ok (1, a).

Definition fourcc_bytes (c : Z) : list Z :=
  [u8 (Z.land (Z.shiftr c 24) 0xff); u8 (Z.land (Z.shiftr c 16) 0xff); u8 (Z.land (Z.shiftr c 8) 0xff); u8 (Z.land c 0xff)].

Definition flv_audio_tag_header_write (a : flv_audio_tag_header_t) (m : list Z) (p len : Z) : outcome (Z * list Z) :=
  if s32 len <? 1 + (if FLV_AUDIO_AAC =? a_codecid a then 1 else 0) then Fail (-1) else
  if FLV_AUDIO_AAC =? a_codecid a then
    m ← st m p [Z.lor (Z.lor (Z.lor (a_codecid a) (Z.shiftl 3 2)) (Z.shiftl 1 1)) 1; a_avpacket a];
    Ok (2, m)
  else if (FLV_AUDIO_OPUS =? a_codecid a) || (FLV_AUDIO_FLAC =? a_codecid a) || (FLV_AUDIO_AC3 =? a_codecid a) || (FLV_AUDIO_EAC3 =? a_codecid a) then
    if len <? 5 then Fail (-1) else
    m ← st m p ([Z.lor FLV_AUDIO_FOURCC (a_avpacket a)] ++
                fourcc_bytes (if a_codecid a =? FLV_AUDIO_FLAC then FLV_AUDIO_FOURCC_FLAC else if a_codecid a =? FLV_AUDIO_AC3 then FLV_AUDIO_FOURCC_AC3
                              else if a_codecid a =? FLV_AUDIO_EAC3 then FLV_AUDIO_FOURCC_EAC3 else FLV_AUDIO_FOURCC_OPUS));
    Ok (5, m)
  else
    m ← st m p [Z.lor (Z.lor (Z.lor (a_codecid a) (Z.shiftl (Z.land (rate a) 3) 2)) (Z.shiftl (Z.land (bits a) 1) 1)) (Z.land (channels a) 1)];
    Ok (1, m).

(** * Video *)

(** [(cts + 0xFF800000) ^ 0xFF800000] on an unsigned, taken for an int. *)
Definition signed24 (v : Z) : Z := s32 (Z.lxor (u32 (v + 0xFF800000)) 0xFF800000).

Definition flv_video_tag_header_read (v : flv_video_tag_header_t) (m : list Z) (p len : Z) : outcome (Z * flv_video_tag_header_t) :=
  b0 ← ld m p;
  if (5 <=? len) && negb (0 =? Z.land b0 0x80) then
    let key := Z.shiftr (Z.land b0 0x70) 4 in
    let avpacket := Z.land b0 0x0f in
    let coded := if FLV_PACKET_TYPE_CODED_FRAMES_X =? avpacket then FLV_AVPACKET else avpacket in
    b1 ← ld m (p + 1); b2 ← ld m (p + 2); b3 ← ld m (p + 3); b4 ← ld m (p + 4);
    c ← FLV_VIDEO_FOURCC b1 b2 b3 b4;
    if c =? FLV_VIDEO_FOURCC_AV1 then Ok (5, FlvVideoTagHeader FLV_VIDEO_AV1 key coded 0 (enhanced_rtmp v))
    else if (c =? FLV_VIDEO_FOURCC_HEVC) || (c =? FLV_VIDEO_FOURCC_VVC) then
      let codecid := if c =? FLV_VIDEO_FOURCC_HEVC then FLV_VIDEO_H265 else FLV_VIDEO_H266 in
      if (8 <=? len) && (FLV_AVPACKET =? avpacket) then
        t ← flv_read_uint24 m (p + 5);
        Ok (8, FlvVideoTagHeader codecid key avpacket (signed24 t) (enhanced_rtmp v))
      else Ok (5, FlvVideoTagHeader codecid key coded 0 (enhanced_rtmp v))
    else Ok (5, FlvVideoTagHeader 0 key avpacket 0 (enhanced_rtmp v))
  else
    let key := Z.shiftr (Z.land b0 0xf0) 4 in
    let codecid := Z.land b0 0x0f in
    if (FLV_VIDEO_H264 =? codecid) || (FLV_VIDEO_H265 =? codecid) || (FLV_VIDEO_H266 =? codecid) || (FLV_VIDEO_AV1 =? codecid) || (FLV_VIDEO_AVS3 =? codecid) then
      if len <? 5 then Ok (-1, FlvVideoTagHeader codecid key FLV_AVPACKET (cts v) (enhanced_rtmp v)) else
      b1 ← ld m (p + 1);
      t ← flv_read_uint24 m (p + 2);
      Ok (5, FlvVideoTagHeader codecid key b1 (signed24 t) (enhanced_rtmp v))
    else Ok (1, FlvVideoTagHeader codecid key FLV_AVPACKET (cts v) (enhanced_rtmp v)).

(** The header of the enhanced format, for the codecs that have one. *)
Definition enhanced_header (v : flv_video_tag_header_t) (len : Z) : option (list Z) :=
  let b0 := u8 (Z.lor 0x80 (Z.shiftl (keyframe v) 4)) in
  let b0 := u8 (Z.lor b0 (if (0 =? cts v) && (FLV_AVPACKET =? v_avpacket v) then FLV_PACKET_TYPE_CODED_FRAMES_X else v_avpacket v)) in
  let time := if (8 <=? len) && (FLV_AVPACKET =? v_avpacket v) && negb (cts v =? 0) then uint24 (cts v) else [] in
  if v_codecid v =? FLV_VIDEO_AV1 then Some (b0 :: fourcc_bytes FLV_VIDEO_FOURCC_AV1)
  else if v_codecid v =? FLV_VIDEO_H265 then Some (b0 :: fourcc_bytes FLV_VIDEO_FOURCC_HEVC ++ time)
  else if v_codecid v =? FLV_VIDEO_H266 then Some (b0 :: fourcc_bytes FLV_VIDEO_FOURCC_VVC ++ time)
  else None.

(** Where the enhanced format falls through, the first byte is written twice. *)
Definition flv_video_tag_header_write (v : flv_video_tag_header_t) (m : list Z) (p len : Z) : outcome (Z * list Z) :=
  if truth (enhanced_rtmp v) && (len <? 5) then Fail (-1) else
  match (if truth (enhanced_rtmp v) then enhanced_header v len else None) with
  | Some l => m ← st m p l; Ok (zlen l, m)
  | None =>
      if len <? 1 then Fail (-1) else
      m ← st m p [u8 (Z.lor (Z.shiftl (keyframe v) 4) (Z.land (v_codecid v) 0x0f))];
      if (FLV_VIDEO_H264 =? v_codecid v) || (FLV_VIDEO_H265 =? v_codecid v) || (FLV_VIDEO_H266 =? v_codecid v) || (FLV_VIDEO_AV1 =? v_codecid v)
         || (FLV_VIDEO_AVS3 =? v_codecid v) then
        if len <? 5 then Fail (-1) else
        m ← st m (p + 1) ([v_avpacket v] ++ uint24 (cts v));
        Ok (5, m)
      else Ok (1, m)
  end.
