(* ===== verification/FlvHeaderSpec.v ===== *)
(** What is written as a header of a file, of a tag or of its data is read
    back. *)
From S2P Require Import Prelude FlvHeader.

Implicit Types (m : list Z) (p len : Z).

(** * Words *)

Lemma uint24_bytes v : uint24 v = be_bytes 3 v.
Proof. unfold uint24. rewrite be_bytes_3. masks. unfold u8. f_equal; [|f_equal; [|f_equal]]; by rewrite Zmod_mod. Qed.
Lemma fourcc_bytes_4 v : fourcc_bytes v = be_bytes 4 v.
Proof. unfold fourcc_bytes. rewrite be_bytes_4. masks. unfold u8. f_equal; [|f_equal; [|f_equal; [|f_equal]]]; by rewrite Zmod_mod. Qed.

Lemma holds_3 m p v : holds m p (be_bytes 3 v) → flv_read_uint24 m p = Ok (v mod 2 ^ 24).
Proof.
  rewrite be_bytes_3, !holds_cons. intros (H0 & H1 & H2 & _). unfold flv_read_uint24. rewrite <- Z.add_assoc in H2. change (1 + 1) with 2 in H2.
  rewrite H0, H1, H2. run. f_equal. rewrite be_val_3 by (unfold u8, is_uint; dlia). unfold be_val, u8. cbn [fold_left].
  rewrite !Z.shiftr_div_pow2 by lia. dlia.
Qed.

Lemma holds_4 m p v : 0 ≤ v < 2 ^ 31 → holds m p (be_bytes 4 v) → flv_read_uint32 m p = Ok v.
Proof.
  intros Hv. rewrite be_bytes_4, !holds_cons. intros (H0 & H1 & H2 & H3 & _). unfold flv_read_uint32.
  replace (p + 1 + 1) with (p + 2) in * by lia. replace (p + 2 + 1) with (p + 3) in * by lia. rewrite H0, H1, H2, H3. run.
  rewrite int_ok by (unfold u8; rewrite Z.shiftr_div_pow2 by lia; dlia). run.
  rewrite <- (Z.shiftl_mul_pow2 _ 24) by lia. rewrite be_val_4 by (unfold u8, is_uint; dlia).
  rewrite <- be_bytes_4, be_val_bytes by (change (256 ^ Z.of_nat 4) with (2 ^ 32); lia). by rewrite u32_id by (unfold is_uint; lia).
Qed.

Lemma lxor_disjoint a b : Z.land a b = 0 → Z.lxor a b = a + b.
Proof. intros H. by rewrite Z.add_nocarry_lxor. Qed.

Lemma signed24_ok v : - 2 ^ 23 ≤ v < 2 ^ 23 → signed24 (v mod 2 ^ 24) = v.
Proof.
  intros Hv. unfold signed24.
  assert (∀ x, 0 ≤ x < 2 ^ 23 → Z.land x 0xFF800000 = 0) as Hd.
  { intros x Hx. change 0xFF800000 with (Z.shiftl 511 23). apply Z.bits_inj'. intros n Hn. rewrite Z.land_spec, Z.bits_0.
    destruct (decide (n < 23)).
    - rewrite Z.shiftl_spec_low by lia. apply andb_false_r.
    - rewrite (testbit_small x 23) by (done || lia). done. }
  assert (∀ x, 0 ≤ x < 2 ^ 23 → Z.lxor (x + 0xFF800000) 0xFF800000 = x) as Hx.
  { intros x Hx. rewrite <- lxor_disjoint by (by apply Hd). by rewrite Z.lxor_assoc, Z.lxor_nilpotent, Z.lxor_0_r. }
  destruct (Z.le_gt_cases 0 v).
  - rewrite Z.mod_small by lia. rewrite u32_id by (unfold is_uint; lia). rewrite Hx by lia. unfold s32. dlia.
  - replace (v mod 2 ^ 24) with (v + 2 ^ 24) by (rewrite <- (Z.mod_add v 1) by lia; rewrite Z.mod_small by lia; lia).
    assert (u32 (v + 2 ^ 24 + 0xFF800000) = v + 2 ^ 23) as -> by (unfold u32; dlia).
    rewrite lxor_disjoint by (apply Hd; lia). unfold s32. dlia.
Qed.

(** The fields of a byte. *)
Lemma nibbles b : is_byte b →
  Z.shiftr (Z.land b 0xf0) 4 = b / 16 ∧ Z.land b 0x0f = b mod 16 ∧ Z.shiftr (Z.land b 0x70) 4 = (b / 16) mod 8
  ∧ (0 =? Z.land b 0x80) = (b <? 128).
Proof.
  intros Hb.
  pose proof (byte_cases (λ b, (Z.shiftr (Z.land b 0xf0) 4 =? b / 16) && (Z.land b 0x0f =? b mod 16) && (Z.shiftr (Z.land b 0x70) 4 =? (b / 16) mod 8)
    && Bool.eqb (0 =? Z.land b 0x80) (b <? 128))%bool eq_refl b Hb) as H.
  rewrite !andb_true_iff, !Z.eqb_eq, Bool.eqb_true_iff in H. tauto.
Qed.

(** The four characters of a codec, none of which is above 127. *)
Lemma holds_fourcc m p f : 0 ≤ f < 2 ^ 31 → holds m p (be_bytes 4 f) →
  ∃ b0 b1 b2 b3, ld m p = Ok b0 ∧ ld m (p + 1) = Ok b1 ∧ ld m (p + 2) = Ok b2 ∧ ld m (p + 3) = Ok b3 ∧ FLV_VIDEO_FOURCC b0 b1 b2 b3 = Ok f.
Proof.
  intros Hf. rewrite be_bytes_4, !holds_cons. intros (H0 & H1 & H2 & H3 & _).
  replace (p + 1 + 1) with (p + 2) in * by lia. replace (p + 2 + 1) with (p + 3) in * by lia.
  do 4 eexists. do 4 (split; [eassumption|]). unfold FLV_VIDEO_FOURCC.
  rewrite int_ok by (unfold u8; rewrite Z.shiftr_div_pow2 by lia; dlia). run.
  rewrite <- (Z.shiftl_mul_pow2 _ 24) by lia. rewrite be_val_4 by (unfold u8, is_uint; dlia).
  by rewrite <- be_bytes_4, be_val_bytes by (change (256 ^ Z.of_nat 4) with (2 ^ 32); lia).
Qed.

(** * The header of a video tag *)

(** The codecs whose frames have a packet type and a composition time, and
    those the enhanced format has a name for. *)
Definition timed (c : Z) : bool := existsb (Z.eqb c) [FLV_VIDEO_H264; FLV_VIDEO_H265; FLV_VIDEO_H266; FLV_VIDEO_AV1; FLV_VIDEO_AVS3].
Definition fourcc_of (c : Z) : option Z :=
  if c =? FLV_VIDEO_AV1 then Some FLV_VIDEO_FOURCC_AV1 else if c =? FLV_VIDEO_H265 then Some FLV_VIDEO_FOURCC_HEVC
  else if c =? FLV_VIDEO_H266 then Some FLV_VIDEO_FOURCC_VVC else None.

(** The header, in the format the specifications describe. *)
Definition video_bytes (v : flv_video_tag_header_t) : list Z :=
  match (if truth (enhanced_rtmp v) then fourcc_of (v_codecid v) else None) with
  | Some f => [128 + 16 * keyframe v + (if (0 =? cts v) && (FLV_AVPACKET =? v_avpacket v) then FLV_PACKET_TYPE_CODED_FRAMES_X else v_avpacket v)]
              ++ be_bytes 4 f ++ (if (FLV_AVPACKET =? v_avpacket v) && negb (cts v =? 0) then be_bytes 3 (cts v) else [])
  | None => [16 * keyframe v + v_codecid v] ++ (if timed (v_codecid v) then [v_avpacket v] ++ be_bytes 3 (cts v) else [])
  end.

(** The headers a format can say: the enhanced one has a composition time for
    the frames of HEVC and VVC only, and the codecs of the other that are not
    timed have no packet type. *)
Definition video_ok (v : flv_video_tag_header_t) : Prop :=
  0 ≤ keyframe v < 8 ∧ 0 ≤ v_codecid v < 16 ∧ - 2 ^ 23 ≤ cts v < 2 ^ 23 ∧ is_byte (v_avpacket v)
  ∧ match (if truth (enhanced_rtmp v) then fourcc_of (v_codecid v) else None) with
    | Some f => v_avpacket v ≤ 2 ∧ (cts v ≠ 0 → v_avpacket v = FLV_AVPACKET ∧ v_codecid v ≠ FLV_VIDEO_AV1)
    | None => timed (v_codecid v) = false → v_avpacket v = FLV_AVPACKET
    end.

Lemma fourcc_of_ok c f : fourcc_of c = Some f → 0 ≤ f < 2 ^ 31.
Proof. unfold fourcc_of. repeat destruct (_ =? _); intros; simplify_eq; by_eval. Qed.

Lemma fourcc_cases c f : fourcc_of c = Some f →
  (c = FLV_VIDEO_AV1 ∧ f = FLV_VIDEO_FOURCC_AV1) ∨ (c = FLV_VIDEO_H265 ∧ f = FLV_VIDEO_FOURCC_HEVC) ∨ (c = FLV_VIDEO_H266 ∧ f = FLV_VIDEO_FOURCC_VVC).
Proof.
  unfold fourcc_of. destruct (c =? _) eqn:E1; [apply Z.eqb_eq in E1; intros; simplify_eq; auto|].
  destruct (c =? FLV_VIDEO_H265) eqn:E2; [apply Z.eqb_eq in E2; intros; simplify_eq; auto|].
  destruct (c =? FLV_VIDEO_H266) eqn:E3; [apply Z.eqb_eq in E3; intros; simplify_eq; auto|done].
Qed.

(** A nibble over another. *)
Lemma nibbles_join k c : 0 ≤ k → 0 ≤ c < 16 → Z.lor (Z.shiftl k 4) c = 16 * k + c.
Proof. intros. rewrite lor_shiftl_add by (lia || done). lia. Qed.

Lemma timed_cond c :
  (FLV_VIDEO_H264 =? c) || (FLV_VIDEO_H265 =? c) || (FLV_VIDEO_H266 =? c) || (FLV_VIDEO_AV1 =? c) || (FLV_VIDEO_AVS3 =? c) = timed c.
Proof. unfold timed. cbn [existsb]. rewrite orb_false_r, !(Z.eqb_sym c), !orb_assoc. done. Qed.

Lemma enhanced_first_byte key a : 0 ≤ key < 8 → 0 ≤ a < 16 → u8 (Z.lor (u8 (Z.lor 0x80 (Z.shiftl key 4))) a) = 128 + 16 * key + a.
Proof.
  intros. assert (Z.lor 0x80 (Z.shiftl key 4) = Z.shiftl (8 + key) 4) as ->.
  { change 0x80 with (Z.shiftl 8 4). rewrite <- Z.shiftl_lor. f_equal. change 8 with (Z.shiftl 1 3).
    rewrite lor_shiftl_add by lia. change (Z.shiftl 1 3) with 8. lia. }
  rewrite (u8_id (Z.shiftl _ _)) by (rewrite Z.shiftl_mul_pow2 by lia; unfold is_uint; lia).
  rewrite nibbles_join by lia. rewrite u8_id by (unfold is_uint; lia). lia.
Qed.

Lemma enhanced_header_ok v len f : video_ok v → truth (enhanced_rtmp v) = true → fourcc_of (v_codecid v) = Some f →
  zlen (video_bytes v) ≤ len → enhanced_header v len = Some (video_bytes v).
Proof.
  intros (Hk & Hc & Ht & Ha & Hv) He Hf. unfold enhanced_header, video_bytes. rewrite He, Hf in *. destruct Hv as [Ha2 Hcts].
  intros Hlen.
  rewrite enhanced_first_byte by (destruct (_ && _); unfold FLV_PACKET_TYPE_CODED_FRAMES_X, is_uint in *; lia).
  unfold fourcc_of in Hf.
  destruct (cts v =? 0) eqn:Ec; [|apply Z.eqb_neq in Ec; destruct (Hcts Ec) as [Eav Ecodec]; rewrite Eav in *; change (FLV_AVPACKET =? FLV_AVPACKET) with true in *].
  - rewrite (Z.eqb_sym 0), Ec, !andb_false_r in *. rewrite !fourcc_bytes_4, app_nil_r.
    repeat (destruct (v_codecid v =? _); [by simplify_eq|]). done.
  - rewrite (proj2 (Z.eqb_neq 0 (cts v))) in * by lia. cbn [andb negb] in *.
    rewrite (proj2 (Z.leb_le 8 len)) by (autorewrite with zlen in Hlen; lia).
    rewrite !fourcc_bytes_4, uint24_bytes. cbn [andb]. rewrite (proj2 (Z.eqb_neq (v_codecid v) FLV_VIDEO_AV1)) in * by done.
    repeat (destruct (v_codecid v =? _); [by simplify_eq|]). done.
Qed.

Lemma video_write_ok v m p len : video_ok v → 0 ≤ p → p + len ≤ zlen m → zlen (video_bytes v) ≤ len → (truth (enhanced_rtmp v) = true → 5 ≤ len) →
  flv_video_tag_header_write v m p len = Ok (zlen (video_bytes v), put m p (video_bytes v)).
Proof.
  intros Hv Hp Hm Hlen H5. unfold flv_video_tag_header_write.
  assert (truth (enhanced_rtmp v) && (len <? 5) = false) as ->.
  { destruct (truth _); [|done]. rewrite (proj2 (Z.ltb_ge len 5)) by auto. done. }
  destruct (if truth (enhanced_rtmp v) then fourcc_of (v_codecid v) else None) as [f|] eqn:Ef.
  - destruct (truth (enhanced_rtmp v)) eqn:Ee; [|done]. rewrite (enhanced_header_ok _ _ f) by done. by rewrite st_ok by lia.
  - assert ((if truth (enhanced_rtmp v) then enhanced_header v len else None) = None) as ->.
    { destruct (truth _); [|done]. unfold enhanced_header. unfold fourcc_of in Ef. repeat (destruct (v_codecid v =? _); [done|]). done. }
    unfold video_bytes in Hlen |- *. rewrite Ef in *. destruct Hv as (Hk & Hc & Ht & Ha & _).
    rewrite (land_mask _ _ 4) by done. rewrite (Z.mod_small (v_codecid v)), nibbles_join by lia. rewrite u8_id by (unfold is_uint; lia).
    rewrite timed_cond. rewrite (proj2 (Z.ltb_ge len 1)) by (destruct (timed _); llia). rewrite st_ok by (destruct (timed _); llia). run.
    destruct (timed _); [|by rewrite app_nil_r].
    rewrite (proj2 (Z.ltb_ge len 5)) by llia. rewrite uint24_bytes. rewrite st_ok by llia. run.
    by rewrite put_app_at by llia.
Qed.

Lemma video_read_ok v v0 m p len : video_ok v → holds m p (video_bytes v) → zlen (video_bytes v) ≤ len →
  flv_video_tag_header_read v0 m p len =
    Ok (zlen (video_bytes v), FlvVideoTagHeader (v_codecid v) (keyframe v) (v_avpacket v)
                                (if timed (v_codecid v) then cts v else cts v0) (enhanced_rtmp v0)).
Proof.
  intros (Hk & Hc & Ht & Ha & Hv). unfold video_bytes, flv_video_tag_header_read.
  destruct (if truth (enhanced_rtmp v) then fourcc_of (v_codecid v) else None) as [f|] eqn:Ef.
  - destruct (truth _); [|done]. destruct Hv as [Ha2 Hcts]. cbn [app]. rewrite holds_cons, holds_app, zlen_be_bytes. intros (H0 & H1 & H2) Hlen.
    destruct (holds_fourcc _ _ _ (fourcc_of_ok _ _ Ef) H1) as (b1 & b2 & b3 & b4 & L1 & L2 & L3 & L4 & Hf).
    replace (p + 1 + 1) with (p + 2) in * by lia. replace (p + 1 + 2) with (p + 3) in * by lia.
    replace (p + 1 + 3) with (p + 4) in * by lia. replace (p + 1 + Z.of_nat 4) with (p + 5) in * by lia.
    rewrite H0. run.
    set (a := if (0 =? cts v) && (FLV_AVPACKET =? v_avpacket v) then FLV_PACKET_TYPE_CODED_FRAMES_X else v_avpacket v) in *.
    assert (0 ≤ a < 16) as Ha16 by (unfold a; destruct (_ && _); unfold FLV_PACKET_TYPE_CODED_FRAMES_X, is_uint in *; lia).
    destruct (nibbles (128 + 16 * keyframe v + a)) as (N1 & N2 & N3 & N4); [unfold is_uint; lia|]. rewrite N2, N3, N4.
    rewrite (proj2 (Z.leb_le 5 len)) by (destruct ((FLV_AVPACKET =? v_avpacket v) && negb (cts v =? 0)); llia).
    rewrite (proj2 (Z.ltb_ge _ 128)) by lia. cbn [andb negb].
    replace ((128 + 16 * keyframe v + a) mod 16) with a by dlia. replace (((128 + 16 * keyframe v + a) / 16) mod 8) with (keyframe v) by dlia.
    rewrite L1, L2, L3, L4. run. rewrite Hf. run.
    destruct (Z.eq_dec (cts v) 0) as [Ez|Ez].
    + subst a. rewrite Ez in *. change (0 =? 0) with true. cbn [andb negb].
      assert (FLV_AVPACKET =? (if FLV_AVPACKET =? v_avpacket v then FLV_PACKET_TYPE_CODED_FRAMES_X else v_avpacket v) = false) as ->.
      { destruct (FLV_AVPACKET =? v_avpacket v) eqn:E; [done|exact E]. }
      assert ((if FLV_PACKET_TYPE_CODED_FRAMES_X =? (if FLV_AVPACKET =? v_avpacket v then FLV_PACKET_TYPE_CODED_FRAMES_X else v_avpacket v)
               then FLV_AVPACKET else if FLV_AVPACKET =? v_avpacket v then FLV_PACKET_TYPE_CODED_FRAMES_X else v_avpacket v) = v_avpacket v) as ->.
      { destruct (FLV_AVPACKET =? v_avpacket v) eqn:E; [by apply Z.eqb_eq in E|].
        rewrite (proj2 (Z.eqb_neq FLV_PACKET_TYPE_CODED_FRAMES_X _)) by (unfold FLV_PACKET_TYPE_CODED_FRAMES_X; lia). done. }
      rewrite !andb_false_r, app_nil_r. by destruct (fourcc_cases _ _ Ef) as [[-> ->]|[[-> ->]|[-> ->]]].
    + destruct (Hcts Ez) as [Eav Ecodec]. subst a. rewrite Eav in *. rewrite (proj2 (Z.eqb_neq _ _) Ez) in *. cbn [negb] in H2, Hlen |- *.
      change (FLV_AVPACKET =? FLV_AVPACKET) with true in *. cbn [andb] in H2, Hlen |- *. rewrite (proj2 (Z.leb_le 8 len)) by llia.
      rewrite (proj2 (Z.eqb_neq 0 (cts v))) by lia. cbn [andb]. change (FLV_AVPACKET =? FLV_AVPACKET) with true. cbn [andb]. rewrite (holds_3 _ _ _ H2). run. rewrite signed24_ok by done.
      destruct (fourcc_cases _ _ Ef) as [[? _]|[[-> ->]|[-> ->]]]; done.
  - cbn [app]. rewrite holds_cons. intros (H0 & H1) Hlen. rewrite H0. run.
    destruct (nibbles (16 * keyframe v + v_codecid v)) as (N1 & N2 & N3 & N4); [unfold is_uint; lia|]. rewrite N1, N2, N4.
    rewrite (proj2 (Z.ltb_lt _ 128)) by lia. rewrite andb_false_r.
    replace ((16 * keyframe v + v_codecid v) mod 16) with (v_codecid v) by dlia. replace ((16 * keyframe v + v_codecid v) / 16) with (keyframe v) by dlia.
    rewrite timed_cond. destruct (timed _) eqn:Et; [|by rewrite Hv].
    rewrite (proj2 (Z.ltb_ge len 5)) by llia. cbn [app] in H1. rewrite holds_cons, <- Z.add_assoc in H1. destruct H1 as [H1 H2].
    change (1 + 1) with 2 in H2. rewrite H1. run. rewrite (holds_3 _ _ _ H2). run. by rewrite signed24_ok.
Qed.

(** * The header of an audio tag *)

Definition audio_fourcc_of (c : Z) : option Z :=
  if c =? FLV_AUDIO_FLAC then Some FLV_AUDIO_FOURCC_FLAC else if c =? FLV_AUDIO_AC3 then Some FLV_AUDIO_FOURCC_AC3
  else if c =? FLV_AUDIO_EAC3 then Some FLV_AUDIO_FOURCC_EAC3 else if c =? FLV_AUDIO_OPUS then Some FLV_AUDIO_FOURCC_OPUS else None.

Definition audio_bytes (a : flv_audio_tag_header_t) : list Z :=
  match audio_fourcc_of (a_codecid a) with
  | Some f => [FLV_AUDIO_FOURCC + a_avpacket a] ++ be_bytes 4 f
  | None => if a_codecid a =? FLV_AUDIO_AAC then [0xaf; a_avpacket a]
            else [a_codecid a + 4 * rate a + 2 * bits a + channels a]
  end.

(** A codec is a nibble in the high half of its byte; only some have packet
    types. *)
Definition audio_ok (a : flv_audio_tag_header_t) : Prop :=
  is_byte (a_codecid a) ∧ a_codecid a mod 16 = 0 ∧ a_codecid a ≠ FLV_AUDIO_FOURCC
  ∧ 0 ≤ rate a < 4 ∧ 0 ≤ bits a < 2 ∧ 0 ≤ channels a < 2 ∧ is_byte (a_avpacket a)
  ∧ match audio_fourcc_of (a_codecid a) with
    | Some f => a_avpacket a ≤ 2
    | None => a_codecid a ≠ FLV_AUDIO_AAC → a_avpacket a = FLV_AVPACKET
    end.

(** What a reader has: the format of the samples is that of a tag only for the
    codecs without packet types. *)
Definition audio_same (a b : flv_audio_tag_header_t) : Prop :=
  a_codecid b = a_codecid a ∧ a_avpacket b = a_avpacket a
  ∧ (audio_fourcc_of (a_codecid a) = None → a_codecid a ≠ FLV_AUDIO_AAC → rate b = rate a ∧ bits b = bits a ∧ channels b = channels a).

Lemma audio_fourcc_cases c f : audio_fourcc_of c = Some f →
  (c = FLV_AUDIO_FLAC ∧ f = FLV_AUDIO_FOURCC_FLAC) ∨ (c = FLV_AUDIO_AC3 ∧ f = FLV_AUDIO_FOURCC_AC3)
  ∨ (c = FLV_AUDIO_EAC3 ∧ f = FLV_AUDIO_FOURCC_EAC3) ∨ (c = FLV_AUDIO_OPUS ∧ f = FLV_AUDIO_FOURCC_OPUS).
Proof.
  unfold audio_fourcc_of. destruct (c =? FLV_AUDIO_FLAC) eqn:E1; [apply Z.eqb_eq in E1; intros; simplify_eq; auto|].
  destruct (c =? FLV_AUDIO_AC3) eqn:E2; [apply Z.eqb_eq in E2; intros; simplify_eq; auto|].
  destruct (c =? FLV_AUDIO_EAC3) eqn:E3; [apply Z.eqb_eq in E3; intros; simplify_eq; auto|].
  destruct (c =? FLV_AUDIO_OPUS) eqn:E4; [apply Z.eqb_eq in E4; intros; simplify_eq; auto|done].
Qed.

Lemma samples_byte c r b n : is_byte c → c mod 16 = 0 → 0 ≤ r < 4 → 0 ≤ b < 2 → 0 ≤ n < 2 →
  Z.lor (Z.lor (Z.lor c (Z.shiftl (Z.land r 3) 2)) (Z.shiftl (Z.land b 1) 1)) (Z.land n 1) = c + 4 * r + 2 * b + n.
Proof.
  intros Hc Hm Hr Hb Hn. rewrite (land_mask r 3 2), (land_mask b 1 1), (land_mask n 1 1), !Z.mod_small by (done || lia).
  assert (c = Z.shiftl (c / 16) 4) as E by (rewrite Z.shiftl_mul_pow2 by lia; dlia). unfold is_uint in Hc.
  assert (∀ x y k, 0 ≤ k → 0 ≤ x → x mod 2 ^ k = 0 → 0 ≤ y < 2 ^ k → Z.lor x y = x + y) as Hadd.
  { intros x y k Hk Hx Hz Hy. replace x with (Z.shiftl (x / 2 ^ k) k) at 1 by (rewrite Z.shiftl_mul_pow2 by lia; pose proof (Z_div_exact_full_2 x (2 ^ k) ltac:(lia) Hz); lia).
    rewrite lor_shiftl_add by lia. pose proof (Z_div_exact_full_2 x (2 ^ k) ltac:(lia) Hz). lia. }
  rewrite !Z.shiftl_mul_pow2 by lia. change (2 ^ 2) with 4. change (2 ^ 1) with 2.
  rewrite (Hadd c (r * 4) 4) by (lia || (change (2 ^ 4) with 16; lia)).
  rewrite (Hadd _ (b * 2) 2) by (try (change (2 ^ 2) with 4); dlia). rewrite (Hadd _ n 1) by (try (change (2 ^ 1) with 2); dlia). lia.
Qed.

Lemma samples_read c r b n : is_byte c → c mod 16 = 0 → 0 ≤ r < 4 → 0 ≤ b < 2 → 0 ≤ n < 2 →
  let x := c + 4 * r + 2 * b + n in
  Z.land x 0xf0 = c ∧ Z.shiftr (Z.land x 0x0c) 2 = r ∧ Z.shiftr (Z.land x 2) 1 = b ∧ Z.land x 1 = n.
Proof.
  intros Hc Hm Hr Hb Hn x. unfold is_uint in *. assert (is_byte x) as Hx by (unfold x, is_uint; dlia).
  pose proof (byte_cases (λ x, (Z.land x 0xf0 =? 16 * (x / 16)) && (Z.shiftr (Z.land x 0x0c) 2 =? (x / 4) mod 4) && (Z.shiftr (Z.land x 2) 1 =? (x / 2) mod 2)
    && (Z.land x 1 =? x mod 2))%bool eq_refl x Hx) as H.
  rewrite !andb_true_iff, !Z.eqb_eq in H. destruct H as [[[-> ->] ->] ->]. unfold x. repeat split; dlia.
Qed.

Lemma fourcc_audio_byte a : 0 ≤ a < 16 → Z.lor FLV_AUDIO_FOURCC a = FLV_AUDIO_FOURCC + a.
Proof. intros. exact (nibbles_join 9 a ltac:(lia) H). Qed.

Lemma audio_write_ok a m p len : audio_ok a → 0 ≤ p → p + len ≤ zlen m → len < 2 ^ 31 → zlen (audio_bytes a) ≤ len →
  flv_audio_tag_header_write a m p len = Ok (zlen (audio_bytes a), put m p (audio_bytes a)).
Proof.
  intros (Hc & Hm & Hf & Hr & Hb & Hn & Ha & Hp) H0 Hlen Hs. unfold audio_bytes, flv_audio_tag_header_write, audio_fourcc_of in *.
  intros Hl. unfold is_uint in *.
  assert (1 ≤ len) as H1 by (repeat destruct (_ =? _); llia).
  rewrite (s32_small len) by lia.
  destruct (Z.eqb_spec (a_codecid a) FLV_AUDIO_AAC) as [E|E].
  - rewrite E in *. change (FLV_AUDIO_AAC =? FLV_AUDIO_AAC) with true. cbn -[zlen] in Hl. change (1 + (if true then 1 else 0)) with 2.
    rewrite (proj2 (Z.ltb_ge len 2)) by llia. by rewrite st_ok by llia.
  - rewrite (proj2 (Z.eqb_neq FLV_AUDIO_AAC _)) by done. rewrite (proj2 (Z.ltb_ge len _)) by lia. rewrite !(Z.eqb_sym _ (a_codecid a)).
    rewrite samples_byte by done. rewrite fourcc_bytes_4. revert Hp Hl.
    destruct (a_codecid a =? FLV_AUDIO_FLAC); [|destruct (a_codecid a =? FLV_AUDIO_AC3); [|destruct (a_codecid a =? FLV_AUDIO_EAC3);
      [|destruct (a_codecid a =? FLV_AUDIO_OPUS)]]]; cbn [orb]; intros Hp Hl.
    1-4: rewrite ?orb_true_r; cbn [orb]; rewrite (proj2 (Z.ltb_ge len 5)) by llia; rewrite fourcc_audio_byte by lia; by rewrite st_ok by llia.
    by rewrite st_ok by llia.
Qed.

Lemma read_fourcc_ok a m p len c f b0 b1 b2 b3 : audio_fourcc_of c = Some f → 4 ≤ len →
  ld m p = Ok b0 → ld m (p + 1) = Ok b1 → ld m (p + 2) = Ok b2 → ld m (p + 3) = Ok b3 → FLV_VIDEO_FOURCC b0 b1 b2 b3 = Ok f →
  flv_audio_tag_header_read_fourcc a m p len = Ok (0, with_codecid a c).
Proof.
  intros Hc Hlen L0 L1 L2 L3 HF. unfold flv_audio_tag_header_read_fourcc. rewrite (proj2 (Z.ltb_ge len 4)) by lia.
  rewrite L0, L1, L2, L3. run. rewrite HF. run.
  by destruct (audio_fourcc_cases _ _ Hc) as [[-> ->]|[[-> ->]|[[-> ->]|[-> ->]]]].
Qed.

Lemma audio_read_ok a a0 m p len : audio_ok a → holds m p (audio_bytes a) → zlen (audio_bytes a) ≤ len →
  ∃ b, flv_audio_tag_header_read a0 m p len = Ok (zlen (audio_bytes a), b) ∧ audio_same a b.
Proof.
  intros (Hc & Hm & Hf & Hr & Hb & Hn & Ha & Hp). unfold audio_bytes, flv_audio_tag_header_read, audio_same.
  destruct (audio_fourcc_of (a_codecid a)) as [f|] eqn:Ef.
  - cbn [app]. rewrite holds_cons. intros [H0 H1] Hlen. rewrite H0. run.
    destruct (nibbles (FLV_AUDIO_FOURCC + a_avpacket a)) as (_ & N2 & _); [unfold FLV_AUDIO_FOURCC, is_uint in *; lia|].
    assert (Z.land (FLV_AUDIO_FOURCC + a_avpacket a) 0xf0 = FLV_AUDIO_FOURCC) as ->.
    { rewrite <- fourcc_audio_byte by (unfold is_uint in *; lia). rewrite Z.land_lor_distr_l. unfold is_uint in *.
      by_cells idtac. assert (a_avpacket a = 0 ∨ a_avpacket a = 1 ∨ a_avpacket a = 2) as [->|[->| ->]] by lia; done. }
    rewrite N2. cbn [a_codecid]. change (FLV_AUDIO_AAC =? FLV_AUDIO_FOURCC) with false. change (FLV_AUDIO_OPUS =? FLV_AUDIO_FOURCC) with false.
    change (FLV_AUDIO_FOURCC =? FLV_AUDIO_FOURCC) with true. cbn [orb].
    replace ((FLV_AUDIO_FOURCC + a_avpacket a) mod 16) with (a_avpacket a) by (unfold FLV_AUDIO_FOURCC, is_uint in *; dlia).
    unfold with_packet, read_enhanced_audio. cbn [a_avpacket].
    rewrite (proj2 (Z.eqb_neq _ FLV_AUDIO_PACKET_TYPE_MULTITRACK)) by (unfold FLV_AUDIO_PACKET_TYPE_MULTITRACK; lia).
    assert (0 ≤ f < 2 ^ 31) as Hf31 by (destruct (audio_fourcc_cases _ _ Ef) as [[_ ->]|[[_ ->]|[[_ ->]|[_ ->]]]]; by_eval).
    destruct (holds_fourcc _ _ _ Hf31 H1) as (b1 & b2 & b3 & b4 & L1 & L2 & L3 & L4 & HF).
    rewrite (read_fourcc_ok _ _ _ _ (a_codecid a) f b1 b2 b3 b4) by (done || llia). run. change (negb (0 =? 0)) with false. cbn [a_avpacket with_codecid].
    rewrite (proj2 (Z.eqb_neq _ FLV_AUDIO_PACKET_TYPE_MULTICHANNEL_CONFIG)) by (unfold FLV_AUDIO_PACKET_TYPE_MULTICHANNEL_CONFIG; lia).
    eexists. split; [done|]. done.
  - destruct (Z.eqb_spec (a_codecid a) FLV_AUDIO_AAC) as [E|E].
    + rewrite holds_cons. intros [H0 H1] Hlen. rewrite H0. run. rewrite E in *. cbn -[ld zlen].
      rewrite (proj2 (Z.ltb_ge len 2)) by llia. rewrite (holds_ld _ _ _ H1). run. by eexists.
    + intros H0 Hlen. rewrite (holds_ld _ _ _ H0). run.
      destruct (samples_read (a_codecid a) (rate a) (bits a) (channels a)) as (-> & -> & -> & ->); try done. cbn [a_codecid].
      rewrite (proj2 (Z.eqb_neq FLV_AUDIO_AAC _)), (proj2 (Z.eqb_neq FLV_AUDIO_FOURCC _)) by done.
      rewrite (proj2 (Z.eqb_neq FLV_AUDIO_OPUS _)) by (intros E'; by rewrite <- E' in Ef). cbn [orb]. eexists. split; [done|].
      by rewrite Hp.
Qed.

(** * Files and tags *)

Definition file_bytes (audio video : Z) : list Z :=
  [70; 76; 86; 1; 4 * (if truth audio then 1 else 0) + (if truth video then 1 else 0)] ++ be_bytes 4 FLV_HEADER_SIZE.
Definition tag_bytes (t : flv_tag_header_t) : list Z :=
  [type t + 32 * filter t] ++ be_bytes 3 (size t) ++ be_bytes 3 (timestamp t) ++ [(timestamp t / 2 ^ 24)] ++ be_bytes 3 (streamId t).
Definition tag_ok (t : flv_tag_header_t) : Prop :=
  0 ≤ filter t < 2 ∧ 0 ≤ type t < 32 ∧ is_uint 24 (size t) ∧ is_uint 32 (timestamp t) ∧ is_uint 24 (streamId t).

Lemma zlen_tag_bytes t : zlen (tag_bytes t) = 11.
Proof. unfold tag_bytes. llia. Qed.
Lemma zlen_file_bytes a v : zlen (file_bytes a v) = 9.
Proof. unfold file_bytes. llia. Qed.

Lemma tag_write_ok t m p len : tag_ok t → 0 ≤ p → p + len ≤ zlen m → 11 ≤ len → flv_tag_header_write t m p len = Ok (11, put m p (tag_bytes t)).
Proof.
  intros (Hf & Ht & Hs & Hts & Hid) Hp Hm Hlen. unfold flv_tag_header_write. rewrite (proj2 (Z.ltb_ge len _)) by (unfold FLV_TAG_HEADER_SIZE; lia).
  rewrite !uint24_bytes. 
  assert ([u8 (Z.lor (Z.land (type t) 31) (Z.shiftl (Z.land (filter t) 1) 5))] = [type t + 32 * filter t]) as ->.
  { rewrite (land_mask (type t) 31 5), (land_mask (filter t) 1 1), !Z.mod_small by (done || lia). rewrite Z.lor_comm, lor_shiftl_add by lia.
    rewrite u8_id by (unfold is_uint; lia). f_equal. lia. }
  assert ([u8 (Z.land (Z.shiftr (timestamp t) 24) 255)] = [timestamp t / 2 ^ 24]) as ->.
  { masks. unfold is_uint in *. rewrite u8_id by (unfold is_uint; dlia). f_equal. dlia. }
  rewrite st_ok by llia. done.
Qed.

Lemma tag_read_ok t m p len : tag_ok t → holds m p (tag_bytes t) → 11 ≤ len → flv_tag_header_read m p len = Ok (11, t).
Proof.
  intros (Hf & Ht & Hs & Hts & Hid) Hh Hlen. unfold tag_bytes in Hh. unfold flv_tag_header_read.
  rewrite (proj2 (Z.ltb_ge len _)) by (unfold FLV_TAG_HEADER_SIZE; lia). rewrite !holds_app, !zlen_be_bytes in Hh. destruct Hh as (H0 & H1 & H2 & H3 & H4).
  replace (p + zlen [type t + 32 * filter t] + Z.of_nat 3 + Z.of_nat 3 + zlen [timestamp t / 2 ^ 24]) with (p + 8) in H4 by llia.
  replace (p + zlen [type t + 32 * filter t] + Z.of_nat 3 + Z.of_nat 3) with (p + 7) in H3 by llia.
  replace (p + zlen [type t + 32 * filter t] + Z.of_nat 3) with (p + 4) in H2 by llia. replace (p + zlen [type t + 32 * filter t]) with (p + 1) in H1 by llia.
  rewrite (holds_ld _ _ _ H0), (holds_ld _ _ _ H3), (holds_3 _ _ _ H1), (holds_3 _ _ _ H2), (holds_3 _ _ _ H4). run.
  unfold is_uint in *. rewrite (land_mask _ 1 1), (land_mask _ 0x1f 5), Z.shiftr_div_pow2 by (done || lia).
  rewrite (u32_id (Z.shiftl _ _)) by (rewrite Z.shiftl_mul_pow2 by lia; unfold is_uint; dlia). rewrite Z.lor_comm, lor_shiftl_add by dlia.
  rewrite !(Z.mod_small (size t)), !(Z.mod_small (streamId t)) by lia. destruct t as [fi ty si ts id]. cbn in *. do 2 f_equal. f_equal; dlia.
Qed.

Lemma file_write_ok a v m p len : 0 ≤ p → p + len ≤ zlen m → 9 ≤ len → flv_header_write a v m p len = Ok (9, put m p (file_bytes a v)).
Proof.
  intros Hp Hm Hlen. unfold flv_header_write, flv_write_uint32, file_bytes. rewrite (proj2 (Z.ltb_ge len _)) by (unfold FLV_HEADER_SIZE; lia).
  rewrite st_ok by llia. run. rewrite st_ok by llia. run. rewrite put_app_at by llia. destruct (truth a), (truth v); done.
Qed.

Lemma file_read_ok a v m p len : holds m p (file_bytes a v) → 9 ≤ len →
  flv_header_read m p len = Ok (9, FlvHeader [70; 76; 86] 1 (if truth a then 1 else 0) (if truth v then 1 else 0) 9).
Proof.
  intros Hh Hlen. unfold file_bytes in Hh. rewrite holds_app in Hh. destruct Hh as [Hh H5]. rewrite !holds_cons, <- !Z.add_assoc in Hh.
  destruct Hh as (H0 & H1 & H2 & H3 & H4 & _). change (zlen _) with 5 in H5.
  change (1 + (1 + (1 + 1))) with 4 in H4. change (1 + (1 + 1)) with 3 in H3. change (1 + 1) with 2 in H2.
  unfold flv_header_read. rewrite (proj2 (Z.ltb_ge len _)) by (unfold FLV_HEADER_SIZE; lia). rewrite H0, H1, H2, H3, H4. run. cbn [Z.eqb negb Pos.eqb].
  rewrite (holds_4 _ _ 9) by (done || lia). run. destruct (truth a), (truth v); done.
Qed.

Lemma size_write_ok m p len v : 0 ≤ p → p + len ≤ zlen m → 4 ≤ len → flv_tag_size_write m p len v = Ok (4, put m p (be_bytes 4 v)).
Proof.
  intros Hp Hm Hlen. unfold flv_tag_size_write, flv_write_uint32. rewrite (proj2 (Z.ltb_ge len 4)) by lia. fold (fourcc_bytes v). rewrite fourcc_bytes_4.
  by rewrite st_ok by llia.
Qed.
Lemma size_read_ok m p len v : 0 ≤ v < 2 ^ 31 → holds m p (be_bytes 4 v) → 4 ≤ len → flv_tag_size_read m p len = Ok (4, v).
Proof. intros Hv Hh Hlen. unfold flv_tag_size_read. rewrite (proj2 (Z.ltb_ge len 4)) by lia. by rewrite (holds_4 _ _ _ Hv Hh). Qed.

(** * Round trips *)

(** The header of a video tag, of either format, is written where it is told
    and read back from there, whatever follows it: the codec, the frame type, the
    packet type and the composition time, a signed 24-bit number (left alone for a
    codec that has none); what is returned is the number of bytes of the header. *)
Theorem flv_video_header_roundtrip v v0 m p room len :
  video_ok v → 0 ≤ p → p + room ≤ zlen m → zlen (video_bytes v) ≤ room → (truth (enhanced_rtmp v) = true → 5 ≤ room) → zlen (video_bytes v) ≤ len →
  ∃ m', flv_video_tag_header_write v m p room = Ok (zlen (video_bytes v), m') ∧ zlen m' = zlen m
    ∧ flv_video_tag_header_read v0 m' p len =
        Ok (zlen (video_bytes v), FlvVideoTagHeader (v_codecid v) (keyframe v) (v_avpacket v) (if timed (v_codecid v) then cts v else cts v0) (enhanced_rtmp v0)).
Proof.
  intros Hv Hp Hm Hr H5 Hl. eexists. rewrite video_write_ok by done. split_and!; [done|by rewrite zlen_put by lia|].
  apply video_read_ok; [done|apply holds_put; lia|done].
Qed.

(** An HEVC frame shown 3 units before its time, in the enhanced format. *)
Lemma flv_video_header_roundtrip_witness : ∃ m', flv_video_tag_header_write (FlvVideoTagHeader FLV_VIDEO_H265 1 1 (-3) 1) (replicate 10 0) 1 8 = Ok (8, m') ∧ zlen m' = 10
  ∧ flv_video_tag_header_read (FlvVideoTagHeader 0 0 0 0 0) m' 1 9 = Ok (8, FlvVideoTagHeader FLV_VIDEO_H265 1 1 (-3) 0).
Proof. apply (flv_video_header_roundtrip (FlvVideoTagHeader FLV_VIDEO_H265 1 1 (-3) 1)); by_eval || (intros; by_eval). Defined.

(** The header of an audio tag, AAC, plain or of a codec of the enhanced
    format, is written where it is told and read back from there, whatever
    follows. *)
Theorem flv_audio_header_roundtrip a a0 m p room len :
  audio_ok a → 0 ≤ p → p + room ≤ zlen m → room < 2 ^ 31 → zlen (audio_bytes a) ≤ room → zlen (audio_bytes a) ≤ len →
  ∃ m' b, flv_audio_tag_header_write a m p room = Ok (zlen (audio_bytes a), m') ∧ zlen m' = zlen m
    ∧ flv_audio_tag_header_read a0 m' p len = Ok (zlen (audio_bytes a), b) ∧ audio_same a b.
Proof.
  intros Ha Hp Hm H31 Hr Hl. destruct (audio_read_ok a a0 (put m p (audio_bytes a)) p len) as (b & Hb & Hs); [done|apply holds_put; lia|done|].
  eexists _, b. rewrite audio_write_ok by done. split_and!; [done|by rewrite zlen_put by lia|done|done].
Qed.

Lemma flv_audio_header_roundtrip_witness :
  let a := FlvAudioTagHeader FLV_AUDIO_OPUS 0 0 0 FLV_SEQUENCE_HEADER 0 0 0 [] in
  ∃ m' b, flv_audio_tag_header_write a (replicate 5 0) 0 5 = Ok (5, m') ∧ zlen m' = 5 ∧ flv_audio_tag_header_read a m' 0 5 = Ok (5, b) ∧ audio_same a b.
Proof. apply (flv_audio_header_roundtrip (FlvAudioTagHeader FLV_AUDIO_OPUS 0 0 0 FLV_SEQUENCE_HEADER 0 0 0 [])); by_eval || (split_and!; by_eval || done). Defined.
