(* ===== verification/FlvWriter.v ===== *)
(** The writer of FLV streams (flv-writer.c) and the session that sends one to an
    HTTP client (http_flv_session.cpp of src/media/http).

    The writer hands what it writes to a callback, as vectors.  The buffers on its
    stack are entirely written before they are read.  A file is a callback that
    appends, and is not modelled. *)
From S2P Require Import Prelude FlvHeader.

(** [struct flv_vec_t]; a null pointer is [None]. *)
Record flv_vec_t := FlvVec { ptr : option (list Z); len : Z }.
#[global] Instance flv_vec_inhabited : Inhabited flv_vec_t := populate (FlvVec None 0).

Section Writer.
Context {A : Type}.
(** [flv->write], with what its parameter points to. *)
Variable write : A → list flv_vec_t → outcome (Z * A).

Definition flv_write_header (audio video : Z) (x : A) : outcome (Z * A) :=
  let header := replicate 13 0 in
  '(_, header) ← flv_header_write audio video header 0 FLV_HEADER_SIZE;
  '(_, header) ← flv_tag_size_write header FLV_HEADER_SIZE 4 0;
  write x [FlvVec (Some header) 13].

(** The stream is refused when its header cannot be written; what is written when
    it is destroyed then is written all the same. *)
Definition flv_writer_input (x : A) (type : Z) (data : option (list Z)) (bytes timestamp : Z) : outcome (Z * A) :=
  let buf := replicate 15 0 in
  '(_, buf) ← flv_tag_header_write (FlvTagHeader 0 (u8 type) (u32 (s32 bytes)) timestamp 0) buf 0 FLV_TAG_HEADER_SIZE;
  '(_, buf) ← flv_tag_size_write buf FLV_TAG_HEADER_SIZE 4 (u32 (u32 bytes + FLV_TAG_HEADER_SIZE));
  write x [FlvVec (Some buf) FLV_TAG_HEADER_SIZE; FlvVec data (s32 bytes); FlvVec (Some (drop 11 buf)) 4].

Definition flv_write_eos (x : A) : outcome (Z * A) :=
  '(n, header) ← flv_video_tag_header_write (FlvVideoTagHeader FLV_VIDEO_H264 FLV_VIDEO_KEY_FRAME FLV_END_OF_SEQUENCE 0 0) (replicate 16 0) 0 16;
  if n >? 0 then flv_writer_input x FLV_TYPE_VIDEO (Some header) n 0 else Ok (-1, x).

Definition flv_writer_destroy (x : A) : outcome A :=
  '(_, x) ← flv_write_eos x; Ok x.
Definition flv_writer_create2 (audio video : Z) (x : A) : outcome (bool * A) :=
  '(r, x) ← flv_write_header audio video x;
  if negb (0 =? r) then x ← flv_writer_destroy x; Ok (false, x) else Ok (true, x).

(** The vectors are copied to a table of 8 with room for one before them and one
    after. *)
Fixpoint copy_vectors (v : list flv_vec_t) (i n size : Z) (vec : list flv_vec_t) (fuel : nat) : outcome (Z * list flv_vec_t) :=
  if (i <? n) && (i + 2 <? 8) then
    match fuel with
    | O => Ub
    | S fuel =>
        e ← ld v i;
        vec ← st vec (i + 1) [e];
        copy_vectors v (i + 1) n (u32 (size + len e)) vec fuel
    end
  else Ok (size, vec).
Definition flv_writer_input_v (x : A) (type : Z) (v : list flv_vec_t) (n timestamp : Z) : outcome (Z * A) :=
  '(size, vec) ← copy_vectors v 0 n 0 (replicate 8 inhabitant) 8;
  let buf := replicate 15 0 in
  '(_, buf) ← flv_tag_header_write (FlvTagHeader 0 (u8 type) size timestamp 0) buf 0 FLV_TAG_HEADER_SIZE;
  '(_, buf) ← flv_tag_size_write buf FLV_TAG_HEADER_SIZE 4 (u32 (size + FLV_TAG_HEADER_SIZE));
  vec ← st vec 0 [FlvVec (Some buf) FLV_TAG_HEADER_SIZE];
  vec ← st vec (n + 1) [FlvVec (Some (drop 11 buf)) 4];
  vec ← slice vec 0 (n + 2);
  write x vec.

End Writer.
