(* ===== verification/FlvParser.v ===== *)
(** The parser of FLV streams: flv-parser.c of libflv, completely.

    The handler gets the codec, the data, two timestamps and the flags, and answers
    0 to go on; it is a parameter, with what its parameter points to, and so is
    the allocation of the body of a tag. *)
From S2P Require Import Prelude FlvHeader.

Definition FLV_VIDEO_CODEC_NAME (codecid : Z) : Z :=
  if FLV_VIDEO_H264 =? codecid then FLV_VIDEO_AVCC else if FLV_VIDEO_H265 =? codecid then FLV_VIDEO_HVCC
  else if FLV_VIDEO_H266 =? codecid then FLV_VIDEO_VVCC else FLV_VIDEO_AV1C.

Variant flv_state := FLV_HEADER | FLV_HEADER_OFFSET | FLV_PREVIOUS_SIZE | FLV_TAG_HEADER | FLV_AVHEADER_CODEC | FLV_AVHEADER_EXTRA | FLV_TAG_BODY.

Record flv_parser_t := FlvParser {
  state : flv_state; bytes : Z; expect : Z; ptr : list Z;
  header : flv_header_t; tag : flv_tag_header_t; audio : flv_audio_tag_header_t; video : flv_video_tag_header_t;
  body : list Z
}.
Implicit Types (s : flv_parser_t).

(** All bytes 0. *)
Definition audio_zero : flv_audio_tag_header_t := FlvAudioTagHeader 0 0 0 0 0 0 0 0 (replicate 8 0).
Definition video_zero : flv_video_tag_header_t := FlvVideoTagHeader 0 0 0 0 0.
Definition flv_parser_zero : flv_parser_t :=
  FlvParser FLV_HEADER 0 0 (replicate 32 0) (FlvHeader [0; 0; 0] 0 0 0 0) (FlvTagHeader 0 0 0 0 0) audio_zero video_zero [].

Definition at_state s (k : flv_state) : flv_parser_t := FlvParser k (bytes s) (expect s) (ptr s) (header s) (tag s) (audio s) (video s) (body s).
Definition goto s (k : flv_state) : flv_parser_t := FlvParser k 0 (expect s) (ptr s) (header s) (tag s) (audio s) (video s) (body s).
Definition set_buffer s (n : Z) (m : list Z) : flv_parser_t := FlvParser (state s) n (expect s) m (header s) (tag s) (audio s) (video s) (body s).
Definition set_expect s (n : Z) : flv_parser_t := FlvParser (state s) (bytes s) n (ptr s) (header s) (tag s) (audio s) (video s) (body s).
Definition set_file s (h : flv_header_t) : flv_parser_t := FlvParser (state s) (bytes s) (expect s) (ptr s) h (tag s) (audio s) (video s) (body s).
Definition set_tag s (t : flv_tag_header_t) : flv_parser_t := FlvParser (state s) (bytes s) (expect s) (ptr s) (header s) t (audio s) (video s) (body s).
Definition set_audio s (a : flv_audio_tag_header_t) : flv_parser_t := FlvParser (state s) (bytes s) (expect s) (ptr s) (header s) (tag s) a (video s) (body s).
Definition set_video s (v : flv_video_tag_header_t) : flv_parser_t := FlvParser (state s) (bytes s) (expect s) (ptr s) (header s) (tag s) (audio s) v (body s).
Definition set_body s (n : Z) (m : list Z) : flv_parser_t := FlvParser (state s) n (expect s) (ptr s) (header s) (tag s) (audio s) (video s) m.

Section Parser.
Context {A : Type}.
Variable handler : A → Z → list Z → Z → Z → Z → Z * A.
(** The block the allocation of a number of bytes gives, if any. *)
Variable alloc : Z → option (list Z).

(** * One tag *)

Definition flv_parser_audio (a : flv_audio_tag_header_t) (data : list Z) (timestamp : Z) (x : A) : Z * A :=
  if FLV_SEQUENCE_HEADER =? a_avpacket a then
    handler x (if FLV_AUDIO_AAC =? a_codecid a then FLV_AUDIO_ASC else FLV_AUDIO_OPUS_HEAD) data timestamp timestamp 0
  else handler x (a_codecid a) data timestamp timestamp 0.

Definition flv_parser_video (v : flv_video_tag_header_t) (data : list Z) (timestamp : Z) (x : A) : Z * A :=
  let key := if FLV_VIDEO_KEY_FRAME =? keyframe v then 1 else 0 in
  if (FLV_VIDEO_H264 =? v_codecid v) || (FLV_VIDEO_H265 =? v_codecid v) || (FLV_VIDEO_H266 =? v_codecid v) || (FLV_VIDEO_AV1 =? v_codecid v) then
    if FLV_SEQUENCE_HEADER =? v_avpacket v then handler x (FLV_VIDEO_CODEC_NAME (v_codecid v)) data timestamp timestamp 0
    else if FLV_AVPACKET =? v_avpacket v then handler x (v_codecid v) data (u32 (timestamp + cts v)) timestamp key
    else if FLV_END_OF_SEQUENCE =? v_avpacket v then (0, x)
    else (- EINVAL, x)
  else handler x (v_codecid v) data timestamp timestamp key.

Definition flv_parser_script (data : list Z) (timestamp : Z) (x : A) : Z * A :=
  handler x FLV_SCRIPT_METADATA data timestamp timestamp 0.

(** The structures on the stack are the arguments [a] and [v]; the header of a
    script is all of its data. *)
Definition flv_parser_tag (a : flv_audio_tag_header_t) (v : flv_video_tag_header_t) (type : Z) (data : list Z) (bytes timestamp : Z) (x : A) : outcome (Z * A) :=
  if bytes <? 1 then Ok (- EINVAL, x) else
  if type =? FLV_TYPE_AUDIO then
    '(n, a) ← flv_audio_tag_header_read a data 0 bytes;
    if n <? 0 then Ok (n, x) else
    rest ← slice data n (u64 (s32 bytes - n));
    Ok (flv_parser_audio a rest timestamp x)
  else if type =? FLV_TYPE_VIDEO then
    '(n, v) ← flv_video_tag_header_read v data 0 bytes;
    if n <? 0 then Ok (n, x) else
    rest ← slice data n (u64 (s32 bytes - n));
    Ok (flv_parser_video v rest timestamp x)
  else if type =? FLV_TYPE_SCRIPT then
    let n := flv_data_tag_header_read bytes in
    if n <? 0 then Ok (n, x) else
    rest ← slice data n (u64 (s32 bytes - n));
    Ok (flv_parser_script rest timestamp x)
  else Ok (-1, x).

(** * A stream *)

Definition flv_parser_append s (m : list Z) (p n expect : Z) : outcome (Z * flv_parser_t) :=
  if (bytes s >? expect) || (expect >? 32) then Ok (n, set_buffer s expect (ptr s)) else
  let k := if u64 (bytes s + n) >=? expect then expect - bytes s else n in
  if k >? 0 then
    l ← slice m p k;
    buffer ← st (ptr s) (bytes s) l;
    Ok (k, set_buffer s (bytes s + k) buffer)
  else Ok (k, s).

(** What a case of the loop does: it goes on with [n] bytes consumed and the
    handler's answer, or the function returns. *)
Variant step := Continue (n r : Z) (s : flv_parser_t) (x : A) | Return (r : Z) (s : flv_parser_t) (x : A).

Definition on_header s (m : list Z) (p n : Z) (x : A) : outcome step :=
  '(k, s) ← flv_parser_append s m p n FLV_HEADER_SIZE;
  if FLV_HEADER_SIZE =? bytes s then
    h ← match flv_header_read (ptr s) 0 (bytes s) with Ok (_, h) => Ok h | Fail _ => Ok (header s) | Ub => Ub end;
    if (offset h <? 9) || (offset h >? 32) then Ok (Return (-1) (set_file s h) x) else
    let h := FlvHeader (FLV h) (version h) (FlvHeader.audio h) (FlvHeader.video h) (offset h - 9) in
    Ok (Continue k 0 (goto (set_file s h) (if offset h >? 0 then FLV_HEADER_OFFSET else FLV_PREVIOUS_SIZE)) x)
  else Ok (Continue k 0 s x).

Definition on_header_offset s (m : list Z) (p n : Z) (x : A) : outcome step :=
  '(k, s) ← flv_parser_append s m p n (offset (header s));
  Ok (Continue k 0 (if offset (header s) =? u32 (bytes s) then goto s FLV_PREVIOUS_SIZE else s) x).

Definition on_previous_size s (m : list Z) (p n : Z) (x : A) : outcome step :=
  '(k, s) ← flv_parser_append s m p n N_TAG_SIZE;
  if N_TAG_SIZE =? bytes s then
    _ ← flv_tag_size_read (ptr s) 0 (bytes s);
    Ok (Continue k 0 (goto s FLV_TAG_HEADER) x)
  else Ok (Continue k 0 s x).

Definition on_tag_header s (m : list Z) (p n : Z) (x : A) : outcome step :=
  '(k, s) ← flv_parser_append s m p n FLV_TAG_HEADER_SIZE;
  if FLV_TAG_HEADER_SIZE =? bytes s then
    '(_, t) ← flv_tag_header_read (ptr s) 0 (bytes s);
    Ok (Continue k 0 (set_expect (goto (set_tag s t) FLV_AVHEADER_CODEC) 0) x)
  else Ok (Continue k 0 s x).

Definition on_codec s (m : list Z) (p n : Z) (x : A) : outcome step :=
  if type (tag s) =? FLV_TYPE_AUDIO then
    '(k, s) ← flv_parser_append (set_expect s 1) m p n 1;
    b0 ← ld (ptr s) 0;
    let codec := Z.land b0 0xf0 in
    let s := if (FLV_AUDIO_AAC =? codec) || (FLV_AUDIO_OPUS =? codec) then set_expect s 2 else s in
    Ok (Continue k 0 (at_state s FLV_AVHEADER_EXTRA) x)
  else if type (tag s) =? FLV_TYPE_VIDEO then
    '(k, s) ← flv_parser_append (set_expect s 1) m p n 1;
    b0 ← ld (ptr s) 0;
    let codec := Z.land b0 0x0f in
    let s := if (FLV_VIDEO_H264 =? codec) || (FLV_VIDEO_H265 =? codec) || (FLV_VIDEO_H266 =? codec) || (FLV_VIDEO_AV1 =? codec) then set_expect s 5 else s in
    Ok (Continue k 0 (at_state s FLV_AVHEADER_EXTRA) x)
  else if type (tag s) =? FLV_TYPE_SCRIPT then Ok (Continue 0 0 (at_state (set_expect s 0) FLV_AVHEADER_EXTRA) x)
  else Ok (Return (-1) s x).

(** The number of bytes of the body is a size_t. *)
Definition on_extra s (m : list Z) (p n : Z) (x : A) : outcome step :=
  '(k, s) ← flv_parser_append s m p n (expect s);
  if expect s =? bytes s then
    s ← (if FLV_TYPE_AUDIO =? type (tag s) then '(_, a) ← flv_audio_tag_header_read (audio s) (ptr s) 0 (bytes s); Ok (set_audio s a)
         else if FLV_TYPE_VIDEO =? type (tag s) then '(_, v) ← flv_video_tag_header_read (video s) (ptr s) 0 (bytes s); Ok (set_video s v)
         else Ok s);
    let s := set_expect (goto s FLV_TAG_BODY) (u64 (size (tag s) - expect s)) in
    match alloc (expect s) with
    | None => Ok (Return (-1) (set_body s 0 []) x)
    | Some block => Ok (Continue k 0 (set_body s 0 block) x)
    end
  else Ok (Continue k 0 s x).

Definition on_body s (m : list Z) (p n : Z) (x : A) : outcome step :=
  let k := if u64 (bytes s + n) >=? expect s then expect s - bytes s else n in
  s ← (if k >? 0 then l ← slice m p k; b ← st (body s) (bytes s) l; Ok (set_body s (bytes s + k) b) else Ok s);
  if expect s =? bytes s then
    data ← slice (body s) 0 (expect s);
    let '(r, x) :=
      if type (tag s) =? FLV_TYPE_AUDIO then flv_parser_audio (audio s) data (timestamp (tag s)) x
      else if type (tag s) =? FLV_TYPE_VIDEO then flv_parser_video (video s) data (timestamp (tag s)) x
      else if type (tag s) =? FLV_TYPE_SCRIPT then flv_parser_script data (timestamp (tag s)) x
      else (-1, x) in
    Ok (Continue k r (set_body (goto s FLV_PREVIOUS_SIZE) 0 []) x)
  else Ok (Continue k 0 s x).

Definition flv_parser_step s (m : list Z) (p n : Z) (x : A) : outcome step :=
  match state s with
  | FLV_HEADER => on_header s m p n x
  | FLV_HEADER_OFFSET => on_header_offset s m p n x
  | FLV_PREVIOUS_SIZE => on_previous_size s m p n x
  | FLV_TAG_HEADER => on_tag_header s m p n x
  | FLV_AVHEADER_CODEC => on_codec s m p n x
  | FLV_AVHEADER_EXTRA => on_extra s m p n x
  | FLV_TAG_BODY => on_body s m p n x
  end.

(** A tag takes at most three rounds that consume nothing. *)
Fixpoint flv_parser_loop (fuel : nat) s (m : list Z) (p n r : Z) (x : A) : outcome (Z * flv_parser_t * A) :=
  if (n >? 0) && (0 =? r) then
    match fuel with
    | O => Ub
    | S fuel =>
        o ← flv_parser_step s m p n x;
        match o with
        | Continue k r s x => flv_parser_loop fuel s m (p + k) (u64 (n - k)) r x
        | Return r s x => Ok (r, s, x)
        end
    end
  else Ok (r, s, x).

Definition flv_parser_input s (m : list Z) (n : Z) (x : A) : outcome (Z * flv_parser_t * A) :=
  flv_parser_loop (Z.to_nat (4 * n + 4)) s m 0 n 0 x.

End Parser.
