(* ===== verification/FlvParserSpec.v ===== *)
(** The parser of streams says the same of a stream however it is cut into pieces:
    what a reader of whole tags says; and which tags the parser of one tag reads
    alike. *)
From S2P Require Import Prelude FlvHeader FlvHeaderSpec FlvParser.

Record flv_tag := Tag { t_type : Z; t_data : list Z; t_time : Z }.
Implicit Types (t : flv_tag) (s : flv_parser_t) (m c : list Z).

Definition tag_header t : flv_tag_header_t := FlvTagHeader 0 (t_type t) (zlen (t_data t)) (t_time t) 0.
Definition tag_body t : list Z := t_data t ++ be_bytes 4 (zlen (t_data t) + 11).
Definition tag_stream t : list Z := tag_bytes (tag_header t) ++ tag_body t.
Definition tags_stream (ts : list flv_tag) : list Z := concat (map tag_stream ts).
(** A whole stream: the header of the file, the size of no tag, the tags. *)
Definition flv_stream (audio video : Z) (ts : list flv_tag) : list Z := file_bytes audio video ++ be_bytes 4 0 ++ tags_stream ts.

(** The first byte after the header of the tag. *)
Definition first t : Z := tag_body t !!! 0%nat.

(** The bytes of the data before the frame. *)
Definition header_size t : Z :=
  if t_type t =? FLV_TYPE_AUDIO then
    if (FLV_AUDIO_AAC =? Z.land (first t) 0xf0) || (FLV_AUDIO_OPUS =? Z.land (first t) 0xf0) then 2 else 1
  else if t_type t =? FLV_TYPE_VIDEO then
    if (FLV_VIDEO_H264 =? Z.land (first t) 0x0f) || (FLV_VIDEO_H265 =? Z.land (first t) 0x0f) || (FLV_VIDEO_H266 =? Z.land (first t) 0x0f)
       || (FLV_VIDEO_AV1 =? Z.land (first t) 0x0f) then 5 else 1
  else 0.

(** The fields fit theirs. *)
Definition streamable t : Prop := bytes_ok (t_data t) ∧ zlen (t_data t) < 2 ^ 24 ∧ is_uint 32 (t_time t) ∧ 0 ≤ t_type t < 32.

#[global] Instance streamable_dec t : Decision (streamable t).
Proof. unfold streamable, bytes_ok, is_uint. apply _. Defined.

(** The tags that both parsers read alike: of the classic format, with their whole
    header, and no AVS3; a script has its data for one parser only. *)
Definition classic t : Prop :=
  1 ≤ zlen (t_data t) ∧ header_size t ≤ zlen (t_data t)
  ∧ ((t_type t = FLV_TYPE_AUDIO ∧ Z.land (first t) 0xf0 ≠ FLV_AUDIO_FOURCC)
     ∨ (t_type t = FLV_TYPE_VIDEO ∧ first t < 128 ∧ Z.land (first t) 0x0f ≠ FLV_VIDEO_AVS3)).

#[global] Instance classic_dec t : Decision (classic t).
Proof. unfold classic. apply _. Defined.

(** * The headers of the data *)

(** What the events need of a header: nothing that an earlier tag has left. *)
Definition same_audio a b : Prop := a_codecid a = a_codecid b ∧ a_avpacket a = a_avpacket b.
Definition same_video v w : Prop :=
  v_codecid v = v_codecid w ∧ keyframe v = keyframe w ∧ v_avpacket v = v_avpacket w
  ∧ (existsb (Z.eqb (v_codecid w)) [FLV_VIDEO_H264; FLV_VIDEO_H265; FLV_VIDEO_H266; FLV_VIDEO_AV1] = true → cts v = cts w).

Lemma audio_event {A} (handler : A → Z → list Z → Z → Z → Z → Z * A) a b l time x :
  same_audio a b → flv_parser_audio handler a l time x = flv_parser_audio handler b l time x.
Proof. unfold flv_parser_audio. by intros [-> ->]. Qed.

Lemma video_event {A} (handler : A → Z → list Z → Z → Z → Z → Z * A) v w l time x :
  same_video v w → flv_parser_video handler v l time x = flv_parser_video handler w l time x.
Proof.
  intros (Hc & Hk & Ha & Ht). unfold flv_parser_video. rewrite Hc, Hk, Ha. cbn [existsb] in Ht. rewrite orb_false_r, !orb_assoc in Ht.
  rewrite !(Z.eqb_sym _ (v_codecid w)). destruct ((v_codecid w =? FLV_VIDEO_H264) || _ || _ || _) eqn:E; [|done]. by rewrite Ht.
Qed.

(** Two readings agree. *)
Definition alike {X} (R : X → X → Prop) (o o' : outcome (Z * X)) : Prop :=
  match o, o' with Ok (n, x), Ok (n', x') => n = n' ∧ R x x' | Ub, Ub => True | _, _ => False end.

(** The header of an audio tag in the buffer of a parser, and by itself. *)
Lemma audio_alike a m h : holds m 0 h → zlen h = 1 ∨ zlen h = 2 →
  alike same_audio (flv_audio_tag_header_read a m 0 (zlen h)) (flv_audio_tag_header_read audio_zero h 0 (zlen h)).
Proof.
  intros Hh [E|E].
  - destruct h as [|b0 [|? l]]; try (unfold zlen in E; cbn in E; lia). rewrite E. apply holds_ld in Hh.
    unfold flv_audio_tag_header_read. rewrite Hh, (holds_ld [b0] 0 b0 (holds_whole _)). run. cbn [a_codecid].
    destruct (_ || _); [done|]. destruct (_ =? Z.land b0 0xf0); [|done].
    unfold read_enhanced_audio. cbn [a_avpacket with_packet multitrack]. change (1 <? 2) with true. rewrite andb_true_r.
    destruct (_ =? FLV_AUDIO_PACKET_TYPE_MULTITRACK); done.
  - destruct h as [|b0 [|b1 [|? l]]]; try (unfold zlen in E; cbn in E; lia). rewrite E. destruct (proj1 (holds_cons _ _ _ _) Hh) as [L0 L1%holds_ld].
    assert (ld [b0; b1] 0 = Ok b0) as K0 by done. assert (ld [b0; b1] 1 = Ok b1) as K1 by done. change (0 + 1) with 1 in L1.
    unfold flv_audio_tag_header_read. rewrite L0, K0. run. cbn [a_codecid]. change (0 + 1) with 1. rewrite L1, K1.
    change (2 <? 2) with false. cbv iota. destruct (_ || _); [done|]. destruct (_ =? Z.land b0 0xf0); [|done].
    unfold read_enhanced_audio. cbn [a_avpacket with_packet multitrack]. change (2 <? 2) with false. rewrite andb_false_r. cbn [andb]. change (0 + 1) with 1. rewrite L1, K1. run.
    destruct (_ =? FLV_AUDIO_PACKET_TYPE_MULTITRACK); done.
Qed.

Lemma video_alike1 v m b0 : ld m 0 = Ok b0 →
  existsb (Z.eqb (Z.land b0 0x0f)) [FLV_VIDEO_H264; FLV_VIDEO_H265; FLV_VIDEO_H266; FLV_VIDEO_AV1] = false →
  alike same_video (flv_video_tag_header_read v m 0 1) (flv_video_tag_header_read video_zero [b0] 0 1).
Proof.
  intros Hh Hc. unfold flv_video_tag_header_read. rewrite Hh, (holds_ld [b0] 0 b0 (holds_whole _)). run. change (5 <=? 1) with false. cbn [andb].
  change (1 <? 5) with true. cbv iota.
  assert (same_video (FlvVideoTagHeader (Z.land b0 0x0f) (Z.shiftr (Z.land b0 0xf0) 4) FLV_AVPACKET (cts v) (enhanced_rtmp v))
    (FlvVideoTagHeader (Z.land b0 0x0f) (Z.shiftr (Z.land b0 0xf0) 4) FLV_AVPACKET (cts video_zero) (enhanced_rtmp video_zero))) as Hsame.
  { unfold same_video. cbn [v_codecid keyframe v_avpacket cts]. split_and!; [done..|]. by rewrite Hc. }
  by destruct (_ || _ || _ || _ || _).
Qed.

Lemma video_alike5 v m h : holds m 0 h → zlen h = 5 →
  alike same_video (flv_video_tag_header_read v m 0 5) (flv_video_tag_header_read video_zero h 0 5).
Proof.
  intros Hh E. destruct h as [|b0 [|b1 [|b2 [|b3 [|b4 [|? l]]]]]]; try (unfold zlen in E; cbn in E; lia).
  pose proof (holds_whole [b0; b1; b2; b3; b4]) as Hk. rewrite !holds_cons in Hh, Hk.
  destruct Hh as (L0 & L1 & L2 & L3 & L4 & _), Hk as (K0 & K1 & K2 & K3 & K4 & _).
  change (0 + 1 + 1 + 1 + 1) with 4 in *. change (0 + 1 + 1 + 1) with 3 in *. change (0 + 1 + 1) with 2 in *. change (0 + 1) with 1 in *.
  unfold flv_video_tag_header_read, flv_read_uint24. change (8 <=? 5) with false. cbn [andb]. change (0 + 1) with 1. change (0 + 2 + 1) with 3. change (0 + 2 + 2) with 4.
  change (0 + 2) with 2. change (0 + 3) with 3. change (0 + 4) with 4. rewrite L0, K0, L1, K1, L2, K2, L3, K3, L4, K4. run.
  destruct ((5 <=? 5) && _).
  - destruct (FLV_VIDEO_FOURCC b1 b2 b3 b4) as [|e|c] eqn:Ec; run; [done| |by repeat case_match].
    exfalso. unfold FLV_VIDEO_FOURCC, int in Ec. by repeat case_match.
  - change (5 <? 5) with false. cbv iota. destruct (_ || _ || _ || _ || _) eqn:E5; [done|]. split; [done|]. unfold same_video. cbn [v_codecid keyframe v_avpacket cts existsb].
    split_and!; [done..|]. rewrite orb_false_r, !orb_assoc, !(Z.eqb_sym (Z.land b0 15)). rewrite !orb_false_iff in E5. destruct E5 as [[[[-> ->] ->] ->] _]. done.
Qed.

(** ** Tags both parsers read alike: the header wherever it is *)

Lemma audio_header t : bytes_ok (t_data t) → classic t → t_type t = FLV_TYPE_AUDIO → ∃ codecid avpacket, ∀ a m p len,
  holds m p (take (Z.to_nat (header_size t)) (t_data t)) → header_size t ≤ len →
  ∃ b, flv_audio_tag_header_read a m p len = Ok (header_size t, b) ∧ a_codecid b = codecid ∧ a_avpacket b = avpacket.
Proof.
  intros Hb (Hlen & Hs & Ht) Et. unfold header_size, first, tag_body in *. rewrite Et in *. change (FLV_TYPE_AUDIO =? FLV_TYPE_AUDIO) with true in *. cbv iota in *.
  destruct (t_data t) as [|b0 l]; [unfold zlen in Hlen; cbn in Hlen; lia|]. cbn [app lookup_total list_lookup_total] in *.
  destruct Ht as [[_ Hf]|[? _]]; [|done].
  exists (Z.land b0 0xf0), (if (FLV_AUDIO_AAC =? Z.land b0 0xf0) || (FLV_AUDIO_OPUS =? Z.land b0 0xf0) then l !!! 0%nat else FLV_AVPACKET).
  intros a m p len. unfold flv_audio_tag_header_read. destruct (_ || _) eqn:E.
  - destruct l as [|b1 l]; [llia|]. change (take _ _) with [b0; b1]. rewrite !holds_cons. intros (-> & H1 & _) H2. run. cbn [a_codecid]. rewrite E.
    rewrite (proj2 (Z.ltb_ge len 2)) by lia. rewrite H1. run. by eexists.
  - change (take _ _) with [b0]. intros ->%holds_ld H2. run. cbn [a_codecid]. rewrite E. rewrite (proj2 (Z.eqb_neq FLV_AUDIO_FOURCC _)) by done. by eexists.
Qed.

Lemma video_header t : bytes_ok (t_data t) → classic t → t_type t = FLV_TYPE_VIDEO → ∃ w, ∀ v m p len,
  holds m p (take (Z.to_nat (header_size t)) (t_data t)) → header_size t ≤ len →
  ∃ b, flv_video_tag_header_read v m p len = Ok (header_size t, b) ∧ v_codecid b = v_codecid w ∧ keyframe b = keyframe w ∧ v_avpacket b = v_avpacket w
    ∧ (timed (v_codecid w) = true → cts b = cts w).
Proof.
  intros Hb (Hlen & Hs & Ht) Et. unfold header_size, first, tag_body in *. rewrite Et in *. change (FLV_TYPE_VIDEO =? FLV_TYPE_AUDIO) with false in *.
  change (FLV_TYPE_VIDEO =? FLV_TYPE_VIDEO) with true in *. cbv iota in *.
  destruct (t_data t) as [|b0 l]; [unfold zlen in Hlen; cbn in Hlen; lia|]. cbn [app lookup_total list_lookup_total] in *.
  destruct Ht as [[? _]|(_ & Hf & Ha)]; [done|]. apply Forall_cons_1 in Hb as [Hb0 Hb].
  destruct (nibbles b0 Hb0) as (N1 & N2 & N3 & N4). rewrite N2 in *. rewrite (proj2 (Z.ltb_lt b0 128)) in N4 by lia.
  destruct ((FLV_VIDEO_H264 =? b0 mod 16) || (FLV_VIDEO_H265 =? b0 mod 16) || (FLV_VIDEO_H266 =? b0 mod 16) || (FLV_VIDEO_AV1 =? b0 mod 16)) eqn:E.
  - destruct l as [|b1 [|b2 [|b3 [|b4 l]]]]; try llia. change (take _ _) with [b0; b1; b2; b3; b4].
    exists (FlvVideoTagHeader (b0 mod 16) (b0 / 16) b1 (signed24 (be_val [b2; b3; b4])) 0). cbn [v_codecid keyframe v_avpacket cts].
    intros v m p len. rewrite !holds_cons. intros (L0 & L1 & L2 & L3 & L4 & _) Hl.
    assert (flv_read_uint24 m (p + 2) = Ok (be_val [b2; b3; b4])) as L24.
    { unfold flv_read_uint24. replace (p + 2) with (p + 1 + 1) by lia. rewrite L2, L3. replace (p + 1 + 1 + 2) with (p + 1 + 1 + 1 + 1) by lia.
      rewrite L4. run. rewrite be_val_3; [done|..]; [by apply (bytes_ok_lookup _ 2) in Hb|by apply (bytes_ok_lookup _ 3) in Hb]. }
    unfold flv_video_tag_header_read. rewrite L0. run. rewrite N1, N2, N4. rewrite andb_false_r, E. cbn [orb].
    rewrite (proj2 (Z.ltb_ge len 5)) by lia. rewrite L1. run. rewrite L24. run. eexists. by split_and!.
  - change (take _ _) with [b0]. exists (FlvVideoTagHeader (b0 mod 16) (b0 / 16) FLV_AVPACKET 0 0). cbn [v_codecid keyframe v_avpacket cts].
    intros v m p len L0%holds_ld Hl. unfold flv_video_tag_header_read. rewrite L0. run. rewrite N1, N2, N4, andb_false_r.
    assert (timed (b0 mod 16) = false) as Et'.
    { rewrite <- timed_cond, E. cbn [orb]. by apply Z.eqb_neq. }
    rewrite timed_cond, Et'. eexists. by split_and!.
Qed.

(** * Filling a buffer *)

(** More after what a buffer has. *)
Lemma holds_extend m w l : holds m 0 w → zlen w + zlen l ≤ zlen m →
  ∃ m', st m (zlen w) l = Ok m' ∧ holds m' 0 (w ++ l) ∧ zlen m' = zlen m.
Proof.
  intros (_ & H1 & H2) H. pose proof (zlen_nonneg w). pose proof (zlen_nonneg l). exists (put m (zlen w) l). rewrite st_ok, zlen_put by lia.
  split_and!; [done| |done]. rewrite holds_app, Z.add_0_l. split; [|by apply holds_put].
  unfold holds. rewrite zlen_put by lia. split_and!; [lia..|]. by rewrite sub_put_before by lia.
Qed.

(** A buffer has the beginning [w] of the next [pre ++ c ++ later = w ++ next] once
    the piece [c] is long enough. *)
Lemma taken (pre c later w next : list Z) : pre ++ c ++ later = w ++ next → zlen pre ≤ zlen w → zlen w ≤ zlen pre + zlen c →
  pre ++ take (Z.to_nat (zlen w - zlen pre)) c = w ∧ drop (Z.to_nat (zlen w - zlen pre)) c ++ later = next.
Proof.
  intros H H1 H2. unfold zlen in *. replace (Z.to_nat _) with (length w - length pre)%nat by lia.
  assert (pre ++ c ++ later = (pre ++ take (length w - length pre) c) ++ (drop (length w - length pre) c ++ later)) as E.
  { rewrite <- (take_drop (length w - length pre) c) at 1. by rewrite <- !app_assoc. }
  rewrite H in E. apply app_inj_1 in E as [E1 E2]; [by split|]. rewrite length_app, length_take. lia.
Qed.

Lemma slice_prefix m p c k : holds m p c → 0 ≤ k ≤ zlen c → slice m p k = Ok (take (Z.to_nat k) c).
Proof.
  intros Hc Hk. rewrite <- (take_drop (Z.to_nat k) c), holds_app in Hc. destruct Hc as [Hc _].
  apply (holds_slice _ _ _ _ Hc). unfold zlen in *. rewrite length_take. lia.
Qed.

(** Copying into a buffer with room for [n] bytes what is missing of them. *)
Definition copy (buffer : list Z) (have : Z) m (p k : Z) : outcome (list Z) :=
  if k >? 0 then l ← slice m p k; st buffer have l else Ok buffer.

Lemma copy_ok b pre m p c later w next : holds b 0 pre → holds m p c → pre ++ c ++ later = w ++ next → zlen pre ≤ zlen w ≤ zlen b → zlen w + zlen c < 2 ^ 64 →
  ∃ k b', k = (if u64 (zlen pre + zlen c) >=? zlen w then zlen w - zlen pre else zlen c) ∧ copy b (zlen pre) m p k = Ok b' ∧ zlen b' = zlen b ∧ 0 ≤ k ≤ zlen c
    ∧ ((zlen pre + k = zlen w ∧ holds b' 0 w ∧ drop (Z.to_nat k) c ++ later = next)
       ∨ (k = zlen c ∧ zlen pre + k < zlen w ∧ holds b' 0 (pre ++ c) ∧ (pre ++ c) ++ later = w ++ next)).
Proof.
  intros Hb Hc E Hw H64. pose proof (zlen_nonneg pre). pose proof (zlen_nonneg c).
  assert (∀ k, 0 ≤ k → k ≤ zlen c → zlen pre + k ≤ zlen w →
            ∃ b', copy b (zlen pre) m p k = Ok b' ∧ zlen b' = zlen b ∧ holds b' 0 (pre ++ take (Z.to_nat k) c)) as Hcopy.
  { intros k Hk0 Hk Hkw. unfold copy. destruct (Z.gtb_spec k 0).
    - rewrite (slice_prefix m p c) by (done || lia). run.
      destruct (holds_extend b pre (take (Z.to_nat k) c)) as (b' & -> & ? & ?); [done| |by eexists]. unfold zlen in *. rewrite length_take. lia.
    - assert (k = 0) as -> by lia. exists b. rewrite take_0, app_nil_r. by split_and!. }
  unfold u64. rewrite (Z.mod_small (zlen pre + zlen c)) by lia. rewrite Z.geb_leb.
  destruct (Z.leb_spec (zlen w) (zlen pre + zlen c)).
  - destruct (Hcopy (zlen w - zlen pre)) as (b' & C1 & C2 & C3); [lia..|]. destruct (taken pre c later w next) as [T1 T2]; [done|lia..|].
    rewrite T1 in C3. eexists _, b'. split_and!; [done|done|done|lia|lia|left]. split_and!; [lia|done|done].
  - destruct (Hcopy (zlen c)) as (b' & C1 & C2 & C3); [lia..|]. eexists _, b'. split_and!; [done|done|done|lia|lia|right].
    rewrite take_ge in C3 by (unfold zlen; lia). split_and!; [done|lia|done|by rewrite <- app_assoc].
Qed.

Lemma append_ok s pre m p c later w next : zlen (ptr s) = 32 → holds (ptr s) 0 pre → bytes s = zlen pre → holds m p c →
  pre ++ c ++ later = w ++ next → zlen pre ≤ zlen w ≤ 32 → zlen w + zlen c < 2 ^ 64 →
  ∃ k b', flv_parser_append s m p (zlen c) (zlen w) = Ok (k, set_buffer s (zlen pre + k) b') ∧ zlen b' = 32 ∧ 0 ≤ k ≤ zlen c
    ∧ ((zlen pre + k = zlen w ∧ holds b' 0 w ∧ drop (Z.to_nat k) c ++ later = next)
       ∨ (k = zlen c ∧ zlen pre + k < zlen w ∧ holds b' 0 (pre ++ c) ∧ (pre ++ c) ++ later = w ++ next)).
Proof.
  intros Hz Hb He Hc E Hw H64. destruct (copy_ok (ptr s) pre m p c later w next) as (k & b' & Ek & Hcopy & Hz' & Hk & Hd); [done..|lia|done|].
  exists k, b'. unfold flv_parser_append. rewrite He. rewrite <- Ek. destruct (Z.gtb_spec (zlen pre) (zlen w)); [lia|].
  destruct (Z.gtb_spec (zlen w) 32); [lia|]. cbn [orb]. split_and!; [|lia..|done]. unfold copy in Hcopy.
  destruct (k >? 0) eqn:Eg.
  - destruct (slice m p k); cbn [mbind outcome_bind] in Hcopy |- *; (by rewrite Hcopy) || done.
  - injection Hcopy as <-. assert (k = 0) as -> by (rewrite Z.gtb_ltb in Eg; lia). rewrite Z.add_0_r, <- He. by destruct s.
Qed.

(** * The stream *)

Section Stream.
Context {A : Type} (handler : A → Z → list Z → Z → Z → Z → Z * A) (alloc : Z → option (list Z)).
(** Blocks of the size of a tag can be had, and none of nearly 2^64 bytes. *)
Hypothesis allocates : ∀ n, 0 ≤ n < 2 ^ 24 → ∃ b, alloc n = Some b ∧ zlen b = n.
Hypothesis refuses : ∀ n, 2 ^ 63 ≤ n < 2 ^ 64 → alloc n = None.

(** What the handler is told of a frame. *)
Definition frame_event t (a : flv_audio_tag_header_t) (v : flv_video_tag_header_t) l (x : A) : Z * A :=
  if t_type t =? FLV_TYPE_AUDIO then flv_parser_audio handler a l (t_time t) x
  else if t_type t =? FLV_TYPE_VIDEO then flv_parser_video handler v l (t_time t) x
  else flv_parser_script handler l (t_time t) x.
Definition known t : bool := (t_type t =? FLV_TYPE_AUDIO) || (t_type t =? FLV_TYPE_VIDEO) || (t_type t =? FLV_TYPE_SCRIPT).
Definition head t : list Z := take (Z.to_nat (header_size t)) (tag_body t).
Definition rest t : list Z := drop (Z.to_nat (header_size t)) (t_data t).

(** A reader of whole tags: the header of the data by itself, with nothing left by
    an earlier one, then the frame.  A tag that has not its whole header is an
    error, and so is one of another type. *)
Definition listen_tag t (x : A) : outcome (Z * A) :=
  if negb (known t) then Ok (-1, x) else
  a ← (if t_type t =? FLV_TYPE_AUDIO then '(_, a) ← flv_audio_tag_header_read audio_zero (head t) 0 (header_size t); Ok a else Ok audio_zero);
  v ← (if t_type t =? FLV_TYPE_VIDEO then '(_, v) ← flv_video_tag_header_read video_zero (head t) 0 (header_size t); Ok v else Ok video_zero);
  if zlen (t_data t) <? header_size t then Ok (-1, x) else Ok (frame_event t a v (rest t) x).

(** Tag by tag until the handler or the parser refuses one. *)
Fixpoint listen (ts : list flv_tag) (x : A) : outcome (Z * A) :=
  match ts with
  | [] => Ok (0, x)
  | t :: ts => '(r, x) ← listen_tag t x; if 0 =? r then listen ts x else Ok (r, x)
  end.

Definition parsed t s : Prop := header_size t ≤ zlen (t_data t) ∧ known t = true ∧ ∀ x, listen_tag t x = Ok (frame_event t (audio s) (video s) (rest t) x).

(** Where in a stream the parser is: what it has of the current part, and what is
    to come. *)
Definition awaits s (later : list Z) (ts : list flv_tag) : Prop :=
  zlen (ptr s) = 32 ∧ Forall streamable ts ∧
  match state s with
  | FLV_HEADER => ∃ pre a v, holds (ptr s) 0 pre ∧ bytes s = zlen pre ∧ zlen pre < 9 ∧ pre ++ later = file_bytes a v ++ be_bytes 4 0 ++ tags_stream ts
  | FLV_HEADER_OFFSET => False
  | FLV_PREVIOUS_SIZE => ∃ pre n, holds (ptr s) 0 pre ∧ bytes s = zlen pre ∧ zlen pre < 4 ∧ 0 ≤ n < 2 ^ 31 ∧ pre ++ later = be_bytes 4 n ++ tags_stream ts
  | FLV_TAG_HEADER => ∃ pre, holds (ptr s) 0 pre ∧ bytes s = zlen pre ∧ zlen pre < 11 ∧ pre ++ later = tags_stream ts
  | FLV_AVHEADER_CODEC => ∃ t ts', ts = t :: ts' ∧ tag s = tag_header t ∧ bytes s = 0 ∧ later = tag_body t ++ tags_stream ts'
  | FLV_AVHEADER_EXTRA => ∃ t ts' pre, ts = t :: ts' ∧ tag s = tag_header t ∧ holds (ptr s) 0 pre ∧ bytes s = zlen pre ∧ zlen pre ≤ header_size t
      ∧ zlen pre < 4 + zlen (t_data t) ∧ known t = true ∧ expect s = header_size t ∧ pre ++ later = tag_body t ++ tags_stream ts'
  | FLV_TAG_BODY => ∃ t ts' pre, ts = t :: ts' ∧ tag s = tag_header t ∧ parsed t s ∧ holds (body s) 0 pre ∧ bytes s = zlen pre ∧ zlen pre ≤ zlen (rest t)
      ∧ expect s = zlen (rest t) ∧ zlen (body s) = zlen (rest t) ∧ pre ++ later = rest t ++ be_bytes 4 (zlen (t_data t) + 11) ++ tags_stream ts'
  end.

(** The rounds a state can take without consuming anything. *)
Definition rank s : Z :=
  match state s with FLV_AVHEADER_CODEC => 3 | FLV_AVHEADER_EXTRA => 2 | FLV_TAG_BODY => 1 | _ => 0 end.

(** A round on a piece [c] of what is to come: it goes on, or an answer that is not
    0 ends it, or a header cannot be read. *)
Definition goes_on (o : outcome (step (A := A))) s c (later : list Z) ts x : Prop :=
  ∃ k s' ts' x', o = Ok (Continue k 0 s' x') ∧ 0 ≤ k ≤ zlen c ∧ awaits s' (drop (Z.to_nat k) c ++ later) ts'
    ∧ listen ts x = listen ts' x' ∧ rank s' - 4 * k < rank s.
Definition stops (o : outcome (step (A := A))) ts x : Prop :=
  ∃ k r s' x', r ≠ 0 ∧ (o = Ok (Continue k r s' x') ∨ o = Ok (Return r s' x')) ∧ listen ts x = Ok (r, x').
Definition advances (o : outcome (step (A := A))) s c (later : list Z) ts x : Prop :=
  goes_on o s c later ts x ∨ stops o ts x ∨ (o = Ub ∧ listen ts x = Ub).

#[local] Ltac by_rank Es := unfold rank; cbn -[Z.mul]; rewrite ?Es; cbn -[Z.mul]; lia.

Lemma header_advances s m p c later ts x : state s = FLV_HEADER → awaits s (c ++ later) ts → holds m p c → 0 < zlen c < 2 ^ 62 →
  advances (on_header s m p (zlen c) x) s c later ts x.
Proof.
  unfold awaits. intros Es (Hz & Ht & H) Hc Hn. rewrite Es in H. destruct H as (pre & a & v & Hh & Hb & Hp & E).
  destruct (append_ok s pre m p c later (file_bytes a v) (be_bytes 4 0 ++ tags_stream ts)) as (k & b' & Ha & Hz' & Hk & Hd);
    [done..|rewrite zlen_file_bytes; lia|rewrite zlen_file_bytes; lia|].
  rewrite zlen_file_bytes in *. unfold on_header. change FLV_HEADER_SIZE with 9. rewrite Ha. run. cbn [bytes set_buffer ptr].
  destruct Hd as [(Hf & Hw & Hnext)|(-> & Hf & Hw & Hnext)].
  - rewrite Hf. change (9 =? 9) with true. cbv iota. rewrite (file_read_ok a v _ 0 9) by (done || lia). run.
    cbn [offset]. change ((9 <? 9) || (9 >? 32)) with false. change (9 - 9 >? 0) with false. cbv iota.
    left; eexists k, _, ts, x. split_and!; [done|lia..| | |]; [|done|by_rank Es].
    unfold awaits. cbn [state goto ptr set_file set_buffer bytes]. split_and!; [done|done|].
    exists [], 0. split_and!; [by apply holds_nil; lia|done|done|lia|lia|]. by rewrite Hnext.
  - rewrite (proj2 (Z.eqb_neq 9 _)) by lia. left; eexists (zlen c), _, ts, x. split_and!; [done|lia..| | |]; [|done|by_rank Es].
    unfold awaits. cbn [state ptr set_buffer bytes]. rewrite Es. split_and!; [done|done|]. exists (pre ++ c), a, v.
    rewrite zlen_app. split_and!; [done|done|lia|]. rewrite drop_ge by (unfold zlen; lia). done.
Qed.

Lemma previous_size_advances s m p c later ts x : state s = FLV_PREVIOUS_SIZE → awaits s (c ++ later) ts → holds m p c → 0 < zlen c < 2 ^ 62 →
  advances (on_previous_size s m p (zlen c) x) s c later ts x.
Proof.
  unfold awaits. intros Es (Hz & Ht & H) Hc Hn. rewrite Es in H. destruct H as (pre & n & Hh & Hb & Hp & Hr & E).
  destruct (append_ok s pre m p c later (be_bytes 4 n) (tags_stream ts)) as (k & b' & Ha & Hz' & Hk & Hd); [done..|llia|llia|].
  rewrite zlen_be_bytes in *. change (Z.of_nat 4) with 4 in *. unfold on_previous_size. change N_TAG_SIZE with 4. rewrite Ha. run. cbn [bytes set_buffer ptr].
  destruct Hd as [(Hf & Hw & Hnext)|(-> & Hf & Hw & Hnext)].
  - rewrite Hf. change (4 =? 4) with true. cbv iota. rewrite (size_read_ok _ 0 4 n) by (done || lia). run.
    left; eexists k, _, ts, x. split_and!; [done|lia..| | |]; [|done|by_rank Es].
    unfold awaits. cbn [state goto ptr set_buffer bytes]. split_and!; [done|done|]. exists []. split_and!; [by apply holds_nil; lia|done|done|done].
  - rewrite (proj2 (Z.eqb_neq 4 _)) by lia. left; eexists (zlen c), _, ts, x. split_and!; [done|lia..| | |]; [|done|by_rank Es].
    unfold awaits. cbn [state ptr set_buffer bytes]. rewrite Es. split_and!; [done|done|]. exists (pre ++ c), n.
    rewrite zlen_app. split_and!; [done|done|lia|lia|lia|]. rewrite drop_ge by (unfold zlen; lia). done.
Qed.

Lemma streamable_ok t : streamable t → tag_ok (tag_header t).
Proof. intros (_ & Hl & Hu & Ht). pose proof (zlen_nonneg (t_data t)). unfold tag_ok, tag_header. cbn. unfold is_uint in *. lia. Qed.

Lemma tag_header_advances s m p c later ts x : state s = FLV_TAG_HEADER → awaits s (c ++ later) ts → holds m p c → 0 < zlen c < 2 ^ 62 →
  advances (on_tag_header s m p (zlen c) x) s c later ts x.
Proof.
  unfold awaits. intros Es (Hz & Ht & H) Hc Hn. rewrite Es in H. destruct H as (pre & Hh & Hb & Hp & E).
  destruct ts as [|t ts].
  { apply (f_equal zlen) in E. unfold tags_stream in E. cbn [map concat] in E. rewrite !zlen_app in E. pose proof (zlen_nonneg pre). pose proof (zlen_nonneg later). llia. }
  unfold tags_stream in E. cbn [map concat] in E. fold (tags_stream ts) in E. unfold tag_stream in E. rewrite <- app_assoc in E.
  destruct (append_ok s pre m p c later (tag_bytes (tag_header t)) (tag_body t ++ tags_stream ts)) as (k & b' & Ha & Hz' & Hk & Hd);
    [done..|rewrite zlen_tag_bytes; lia|rewrite zlen_tag_bytes; lia|].
  rewrite zlen_tag_bytes in *. unfold on_tag_header. change FLV_TAG_HEADER_SIZE with 11. rewrite Ha. run. cbn [bytes set_buffer ptr].
  destruct Hd as [(Hf & Hw & Hnext)|(-> & Hf & Hw & Hnext)].
  - rewrite Hf. change (11 =? 11) with true. cbv iota. inversion Ht; subst.
    rewrite (tag_read_ok (tag_header t)) by (done || lia || by apply streamable_ok). run.
    left; eexists k, _, (t :: ts), x. split_and!; [done|lia..| | |]; [|done|by_rank Es].
    unfold awaits. cbn [state goto ptr set_buffer bytes set_expect set_tag tag]. split_and!; [done|done|]. by exists t, ts.
  - rewrite (proj2 (Z.eqb_neq 11 _)) by lia. left; eexists (zlen c), _, (t :: ts), x. split_and!; [done|lia..| | |]; [|done|by_rank Es].
    unfold awaits. cbn [state ptr set_buffer bytes]. rewrite Es. split_and!; [done|done|]. exists (pre ++ c).
    rewrite zlen_app. split_and!; [done|done|lia|]. rewrite drop_ge by (unfold zlen; lia). unfold tags_stream. cbn [map concat]. unfold tag_stream.
    by rewrite <- app_assoc.
Qed.

Lemma data_header_range t : 0 ≤ header_size t ≤ 5 ∧ (known t = true → header_size t ≤ zlen (t_data t) ∨ zlen (t_data t) < header_size t ≤ 4 + zlen (t_data t)).
Proof.
  assert (0 ≤ header_size t ≤ 5) as H by (unfold header_size; repeat case_match; lia). split; [done|]. intros _.
  pose proof (zlen_nonneg (t_data t)). destruct (decide (header_size t ≤ zlen (t_data t))); [by left|right]. split; [lia|].
  destruct (decide (zlen (t_data t) = 0)); [|lia]. assert (header_size t ≤ 1); [|lia].
  assert (t_data t = []) as E by (destruct (t_data t); [done|unfold zlen in *; cbn in *; lia]).
  unfold header_size, first, tag_body. rewrite E. change (([] ++ be_bytes 4 (zlen [] + 11)) !!! 0%nat) with 0. by repeat case_match.
Qed.

Lemma zlen_tag_body t : zlen (tag_body t) = zlen (t_data t) + 4.
Proof. unfold tag_body. llia. Qed.

(** A byte follows the header of every tag. *)
Lemma tag_body_first t : tag_body t = first t :: drop 1 (tag_body t).
Proof.
  pose proof (zlen_tag_body t) as H. pose proof (zlen_nonneg (t_data t)). unfold first. destruct (tag_body t); [|done].
  unfold zlen in *. cbn [length] in *. lia.
Qed.

Lemma codec_advances s m p c later ts x : state s = FLV_AVHEADER_CODEC → awaits s (c ++ later) ts → holds m p c → 0 < zlen c < 2 ^ 62 →
  advances (on_codec s m p (zlen c) x) s c later ts x.
Proof.
  unfold awaits. intros Es (Hz & Ht & H) Hc Hn. rewrite Es in H. destruct H as (t & ts' & -> & Et & Hb & E).
  destruct (decide (t_type t = FLV_TYPE_SCRIPT)) as [Ety|Ety].
  { left. unfold on_codec. rewrite Et. cbn [type tag_header]. rewrite Ety. change (FLV_TYPE_SCRIPT =? FLV_TYPE_AUDIO) with false. change (FLV_TYPE_SCRIPT =? FLV_TYPE_VIDEO) with false.
    change (FLV_TYPE_SCRIPT =? FLV_TYPE_SCRIPT) with true. cbv iota.
    eexists 0, _, (t :: ts'), x. split_and!; [done|lia..| | |]; [|done|by_rank Es].
    unfold awaits. cbn [state at_state ptr set_expect bytes tag expect]. split_and!; [done|done|]. exists t, ts', [].
    assert (header_size t = 0) as -> by (unfold header_size; by rewrite Ety). pose proof (zlen_nonneg (t_data t)).
    split_and!; [done|done|apply holds_nil; lia|done|done|change (zlen []) with 0; lia|unfold known; by rewrite Ety|done|done]. }
  destruct (known t) eqn:Ek.
  2: { right; left. unfold known in Ek. apply orb_false_iff in Ek as [[Ea Ev]%orb_false_iff Esc]. unfold on_codec. rewrite Et. cbn [type tag_header]. rewrite Ea, Ev, Esc.
       eexists 0, (-1), _, x. split_and!; [done|by right|]. cbn [listen]. unfold listen_tag, known. by rewrite Ea, Ev, Esc. }
  destruct (append_ok (set_expect s 1) [] m p c later [first t] (drop 1 (tag_body t) ++ tags_stream ts')) as (k & b' & Ha & Hz' & Hk & Hd);
    [done|apply holds_nil; cbn; lia|done|done|cbn [app]; by rewrite E, tag_body_first at 1|llia|llia|].
  change (zlen [first t]) with 1 in *. change (zlen []) with 0 in *. rewrite !Z.add_0_l in *.
  destruct Hd as [(-> & Hw & Hnext)|(? & ? & _)]; [|lia].
  assert (on_codec s m p (zlen c) x = Ok (Continue 1 0 (at_state (set_expect (set_buffer s 1 b') (header_size t)) FLV_AVHEADER_EXTRA) x) ∧ 1 ≤ header_size t) as [-> H1].
  { unfold on_codec. rewrite Et, Ha. cbn [type tag_header]. run. cbn [ptr set_buffer]. rewrite (holds_ld _ _ _ Hw). run. unfold header_size.
    unfold known in Ek. cbv zeta. destruct (t_type t =? FLV_TYPE_AUDIO); [clear Ek; destruct (_ || _); (split; [done|lia])|].
    destruct (t_type t =? FLV_TYPE_VIDEO); [clear Ek; destruct (_ || _ || _ || _); (split; [done|lia])|]. apply Z.eqb_neq in Ety. by rewrite Ety in Ek. }
  left. eexists 1, _, (t :: ts'), x. split_and!; [done|lia..| | |]; [|done|by_rank Es]. pose proof (zlen_nonneg (t_data t)).
  unfold awaits. cbn [state at_state ptr set_expect bytes tag expect set_buffer]. split_and!; [done|done|]. exists t, ts', [first t].
  split_and!; [done|done|done|done|change (zlen [first t]) with 1; lia|change (zlen [first t]) with 1; lia|done|done|].
  rewrite Hnext. rewrite tag_body_first at 2. done.
Qed.

Lemma zlen_rest t : header_size t ≤ zlen (t_data t) → zlen (rest t) = zlen (t_data t) - header_size t.
Proof. intros Hs. destruct (data_header_range t) as [? _]. unfold rest, zlen in *. rewrite length_drop. lia. Qed.
Lemma zlen_head t : known t = true → zlen (head t) = header_size t.
Proof.
  intros Ek. destruct (data_header_range t) as [? H]. specialize (H Ek). pose proof (zlen_tag_body t). unfold head, zlen in *. rewrite length_take. lia.
Qed.
Lemma tag_body_split t : header_size t ≤ zlen (t_data t) → tag_body t = head t ++ rest t ++ be_bytes 4 (zlen (t_data t) + 11).
Proof.
  intros Hs. destruct (data_header_range t) as [? _]. unfold head, rest, tag_body. rewrite take_app_le by (unfold zlen in *; lia).
  by rewrite app_assoc, take_drop.
Qed.

(** Reading the header from the buffer of the parser is reading it by itself. *)
Lemma header_parsed t s : known t = true → holds (ptr s) 0 (head t) → tag s = tag_header t → bytes s = header_size t →
  match (if FLV_TYPE_AUDIO =? type (tag s) then '(_, a) ← flv_audio_tag_header_read (audio s) (ptr s) 0 (bytes s); Ok (set_audio s a)
         else if FLV_TYPE_VIDEO =? type (tag s) then '(_, v) ← flv_video_tag_header_read (video s) (ptr s) 0 (bytes s); Ok (set_video s v)
         else Ok s) with
  | Ok s' => ptr s' = ptr s ∧ tag s' = tag s ∧ expect s' = expect s ∧
      ∀ x, listen_tag t x = if zlen (t_data t) <? header_size t then Ok (-1, x) else Ok (frame_event t (audio s') (video s') (rest t) x)
  | Ub => ∀ x, listen_tag t x = Ub
  | Fail _ => False
  end.
Proof.
  intros Ek Hh Et Hb. pose proof (zlen_head t Ek) as Hz. rewrite Et, Hb. cbn [type tag_header]. rewrite !(Z.eqb_sym _ (t_type t)). unfold listen_tag, frame_event. rewrite Ek. cbn [negb].
  destruct (t_type t =? FLV_TYPE_AUDIO) eqn:Ea.
  - assert (t_type t =? FLV_TYPE_VIDEO = false) as Ev by (apply Z.eqb_eq in Ea; by rewrite Ea). rewrite Ev.
    assert (zlen (head t) = 1 ∨ zlen (head t) = 2) as H12.
    { rewrite Hz. unfold header_size. rewrite Ea. destruct (_ || _); [by right|by left]. }
    pose proof (audio_alike (audio s) (ptr s) (head t) Hh H12) as Hal. rewrite Hz in Hal. unfold alike in Hal.
    destruct (flv_audio_tag_header_read (audio s) _ _ _) as [|e|[n a]], (flv_audio_tag_header_read audio_zero _ _ _) as [|e'|[n' a']]; try done.
    destruct Hal as [_ Hal]. split_and!; [done..|]. intros x. run. destruct (_ <? _); [done|]. by rewrite (audio_event _ _ _ _ _ _ Hal).
  - destruct (t_type t =? FLV_TYPE_VIDEO) eqn:Ev; [|by split_and!].
    assert (alike same_video (flv_video_tag_header_read (video s) (ptr s) 0 (header_size t)) (flv_video_tag_header_read video_zero (head t) 0 (header_size t))) as Hal.
    { rewrite <- Hz. pose proof Hz as Hz'. unfold header_size in Hz'. rewrite Ea, Ev in Hz'. destruct (_ || _ || _ || _) eqn:Ec in Hz'.
      - rewrite Hz'. by apply video_alike5.
      - assert (head t = [first t]) as Eh.
        { unfold head. rewrite <- Hz, Hz'. change (Z.to_nat 1) with 1%nat. by rewrite tag_body_first at 1. }
        rewrite Hz', Eh. rewrite Eh in Hh. apply video_alike1; [by apply holds_ld|]. cbn [existsb]. by rewrite orb_false_r, !orb_assoc, !(Z.eqb_sym (Z.land (first t) 15)). }
    unfold alike in Hal.
    destruct (flv_video_tag_header_read (video s) _ _ _) as [|e|[n a]], (flv_video_tag_header_read video_zero _ _ _) as [|e'|[n' a']]; try done.
    destruct Hal as [_ Hal]. split_and!; [done..|]. intros x. run. destruct (_ <? _); [done|]. by rewrite (video_event _ _ _ _ _ _ Hal).
Qed.

Lemma extra_advances s m p c later ts x : state s = FLV_AVHEADER_EXTRA → awaits s (c ++ later) ts → holds m p c → 0 < zlen c < 2 ^ 62 →
  advances (on_extra alloc s m p (zlen c) x) s c later ts x.
Proof.
  unfold awaits. intros Es (Hz & Ht & H) Hc Hn. rewrite Es in H. destruct H as (t & ts' & pre & -> & Et & Hh & Hb & Hp & Hp4 & Ek & He & E).
  inversion Ht as [|? ? Hfit]; subst. destruct (data_header_range t) as [H5 Hshort]. specialize (Hshort Ek). pose proof (zlen_head t Ek) as Hw. pose proof Hfit as (_ & Hlen & _ & _).
  destruct (append_ok s pre m p c later (head t) (drop (Z.to_nat (header_size t)) (tag_body t) ++ tags_stream ts')) as (k & b' & Ha & Hz' & Hk & Hd);
    [done..|by rewrite E, app_assoc; unfold head; rewrite take_drop|lia|lia|].
  rewrite Hw in *. unfold on_extra. rewrite He, Ha. run. cbn [bytes set_buffer expect]. rewrite He.
  destruct Hd as [(Hf & Hd & Hnext)|(-> & Hf & Hd & Hnext)].
  - rewrite Hf, Z.eqb_refl. pose proof (header_parsed t (set_buffer s (header_size t) b') Ek Hd Et eq_refl) as Hpar.
    destruct (if FLV_TYPE_AUDIO =? _ then _ else _) as [|e|s'] in Hpar |- *; [right; right; split; [done|]; cbn [listen]; by rewrite Hpar|done|].
    destruct Hpar as (P1 & P2 & P3 & Hev). run. cbn [tag goto expect set_expect]. rewrite P2, P3. cbn [tag set_buffer expect]. rewrite Et, He. cbn [size tag_header].
    destruct (Z.ltb_spec (zlen (t_data t)) (header_size t)) as [Hlt|Hge].
    + right; left. rewrite refuses; [|unfold u64; pose proof (zlen_nonneg (t_data t)); destruct Hshort; [lia|];
        rewrite <- (Z_mod_plus_full _ 1); rewrite Z.mod_small; lia].
      eexists 0, (-1), _, x. split_and!; [done|by right|]. cbn [listen]. by rewrite Hev.
    + left. pose proof (zlen_rest t Hge) as Hr. destruct (allocates (zlen (rest t))) as (block & Hblock & Hzb); [lia|].
      assert (u64 (zlen (t_data t) - header_size t) = zlen (rest t)) as -> by (rewrite Hr; unfold u64; rewrite Z.mod_small by lia; done).
      rewrite Hblock. eexists k, _, (t :: ts'), x. split_and!; [done|lia..| | |]; [|done|by_rank Es].
      unfold awaits. cbn [state goto set_expect set_body ptr bytes expect body tag]. rewrite P1, P2. cbn [tag set_buffer]. split_and!; [done|done|].
      exists t, ts', []. split_and!; [done|done|by split_and!|apply holds_nil; pose proof (zlen_nonneg block); lia|done|apply zlen_nonneg|done|done|]. rewrite Hnext.
      rewrite (tag_body_split t) by done. rewrite <- Hw. unfold zlen at 1. rewrite Nat2Z.id, drop_app_length. by rewrite <- app_assoc.
  - rewrite (proj2 (Z.eqb_neq (header_size t) _)) by lia. left. eexists (zlen c), _, (t :: ts'), x. split_and!; [done|lia..| | |]; [|done|by_rank Es].
    unfold awaits. cbn [state ptr set_buffer bytes tag expect]. rewrite Es. split_and!; [done|done|]. exists t, ts', (pre ++ c).
    rewrite zlen_app, drop_ge by (unfold zlen; lia). split_and!; [done|done|done|done|lia|lia|done|done|]. cbn [app]. rewrite Hnext.
    rewrite app_assoc. unfold head. by rewrite take_drop.
Qed.

Lemma body_advances s m p c later ts x : state s = FLV_TAG_BODY → awaits s (c ++ later) ts → holds m p c → 0 < zlen c < 2 ^ 62 →
  advances (on_body handler s m p (zlen c) x) s c later ts x.
Proof.
  unfold awaits. intros Es (Hz & Ht & H) Hc Hn. rewrite Es in H. destruct H as (t & ts' & pre & -> & Et & (Hge & Ek & Hev) & Hh & Hb & Hp & He & Hzb & E).
  inversion Ht as [|? ? Hfit]; subst. pose proof (zlen_rest t Hge) as Hr. destruct (data_header_range t) as [H5 _]. pose proof Hfit as (_ & Hlen & _ & _).
  destruct (copy_ok (body s) pre m p c later (rest t) (be_bytes 4 (zlen (t_data t) + 11) ++ tags_stream ts')) as (k & b' & Ek' & Ha & Hz' & Hk & Hd); [done..|lia|lia|].
  unfold on_body. rewrite Hb, He, <- Ek'.
  assert ((if k >? 0 then l ← slice m p k; b ← st (body s) (zlen pre) l; Ok (set_body s (zlen pre + k) b) else Ok s) = Ok (set_body s (zlen pre + k) b')) as ->.
  { unfold copy in Ha. destruct (k >? 0) eqn:Eg.
    - destruct (slice m p k); cbn [mbind outcome_bind] in Ha |- *; (by rewrite Ha) || done.
    - injection Ha as <-. assert (k = 0) as -> by (rewrite Z.gtb_ltb in Eg; lia). rewrite Z.add_0_r, <- Hb. by destruct s. }
  run. cbn [expect set_body bytes body tag timestamp audio video]. rewrite He, Et. cbn [type tag_header timestamp].
  destruct Hd as [(Hf & Hd & Hnext)|(-> & Hf & Hd & Hnext)].
  - rewrite Hf, Z.eqb_refl. rewrite (holds_slice _ _ _ _ Hd) by done. run. specialize (Hev x).
    assert ((if t_type t =? FLV_TYPE_AUDIO then flv_parser_audio handler (audio s) (rest t) (t_time t) x
             else if t_type t =? FLV_TYPE_VIDEO then flv_parser_video handler (video s) (rest t) (t_time t) x
             else if t_type t =? FLV_TYPE_SCRIPT then flv_parser_script handler (rest t) (t_time t) x else (-1, x))
            = frame_event t (audio s) (video s) (rest t) x) as ->.
    { unfold frame_event. unfold known in Ek. destruct (t_type t =? FLV_TYPE_AUDIO); [done|]. destruct (t_type t =? FLV_TYPE_VIDEO); [done|].
      by destruct (t_type t =? FLV_TYPE_SCRIPT). }
    destruct (frame_event _ _ _ _ _) as [r x'] eqn:Efr. destruct (decide (r = 0)) as [->|Hr0].
    + left. eexists k, _, ts', x'. split_and!; [done|lia..| | |by_rank Es]; [|cbn [listen]; by rewrite Hev].
      unfold awaits. cbn [state goto ptr set_body bytes]. split_and!; [done|done|]. exists [], (zlen (t_data t) + 11). pose proof (zlen_nonneg (t_data t)).
      split_and!; [apply holds_nil; lia|done|done|lia|lia|done].
    + right; left. eexists k, r, _, x'. split_and!; [done|by left|]. cbn [listen]. rewrite Hev. run. by rewrite (proj2 (Z.eqb_neq 0 r)) by done.
  - rewrite (proj2 (Z.eqb_neq (zlen (rest t)) _)) by lia. left. eexists (zlen c), _, (t :: ts'), x. split_and!; [done|lia..| | |]; [|done|by_rank Es].
    unfold awaits. cbn [state ptr set_body bytes tag expect body]. rewrite Es. split_and!; [done|done|]. exists t, ts', (pre ++ c).
    rewrite zlen_app, drop_ge by (unfold zlen; lia). split_and!; [done|done|done|done|done|lia|done|lia|done].
Qed.

Lemma step_advances s m p c later ts x : awaits s (c ++ later) ts → holds m p c → 0 < zlen c < 2 ^ 62 →
  advances (flv_parser_step handler alloc s m p (zlen c) x) s c later ts x.
Proof.
  intros Hs Hc Hn. unfold flv_parser_step. destruct (state s) eqn:Es;
    [apply header_advances|unfold awaits in Hs; rewrite Es in Hs; tauto|apply previous_size_advances|apply tag_header_advances|apply codec_advances
    |apply extra_advances|apply body_advances]; done.
Qed.

Lemma rank_range s : 0 ≤ rank s ≤ 3.
Proof. unfold rank. destruct (state s); lia. Qed.

(** What is left to say after some bytes: the parser waits for the rest, or has
    stopped. *)
Definition follows (o : outcome (Z * flv_parser_t * A)) (later : list Z) ts x : Prop :=
  (∃ s' ts' x', o = Ok (0, s', x') ∧ awaits s' later ts' ∧ listen ts x = listen ts' x')
  ∨ (∃ r s' x', r ≠ 0 ∧ o = Ok (r, s', x') ∧ listen ts x = Ok (r, x')) ∨ (o = Ub ∧ listen ts x = Ub).

Lemma loop_ok fuel : ∀ s m p c later ts x, awaits s (c ++ later) ts → holds m p c → zlen c < 2 ^ 62 → 4 * zlen c + rank s < Z.of_nat fuel →
  follows (flv_parser_loop handler alloc fuel s m p (zlen c) 0 x) later ts x.
Proof.
  induction fuel as [|fuel IH]; intros s m p c later ts x Hs Hc Hn Hf; pose proof (rank_range s); pose proof (zlen_nonneg c); [lia|].
  cbn [flv_parser_loop]. change (0 =? 0) with true. rewrite andb_true_r. destruct (Z.gtb_spec (zlen c) 0).
  2: { assert (c = []) as -> by (destruct c; [done|unfold zlen in *; cbn [length] in *; lia]). cbn [app] in Hs. left. by eexists _, _, _. }
  assert (∀ k r s' x', r ≠ 0 → flv_parser_loop handler alloc fuel s' m (p + k) (u64 (zlen c - k)) r x' = Ok (r, s', x')) as Hstop.
  { intros k r s' x' Hr. destruct fuel; cbn [flv_parser_loop]; by rewrite (proj2 (Z.eqb_neq 0 r)), andb_false_r by done. }
  destruct (step_advances s m p c later ts x) as [(k & s' & ts' & x' & -> & Hk & Hs' & Hd & Hrank)|[(k & r & s' & x' & Hr & Ho & Hd)|[-> Hd]]]; [done..|lia| | |].
  - run. assert (holds m (p + k) (drop (Z.to_nat k) c) ∧ u64 (zlen c - k) = zlen (drop (Z.to_nat k) c)) as [Hc' ->].
    { split; [|unfold u64; rewrite Z.mod_small by lia; unfold zlen in *; rewrite length_drop; lia].
      rewrite <- (take_drop (Z.to_nat k) c), holds_app in Hc. destruct Hc as [_ Hc]. replace (p + k) with (p + zlen (take (Z.to_nat k) c)); [done|].
      unfold zlen in *. rewrite length_take. lia. }
    assert (zlen (drop (Z.to_nat k) c) = zlen c - k) as Ez by (unfold zlen in *; rewrite length_drop; lia).
    pose proof (IH s' m (p + k) (drop (Z.to_nat k) c) later ts' x') as Hfol. unfold follows in *. rewrite Hd. apply Hfol; [done|done|lia|lia].
  - right; left. exists r, s', x'. destruct Ho as [-> | ->]; run; [rewrite Hstop by done|]; by split_and!.
  - right; right. by split.
Qed.

(** A client that gives the parser the pieces it receives until it refuses one. *)
Fixpoint feed s (pieces : list (list Z)) (x : A) : outcome (Z * flv_parser_t * A) :=
  match pieces with
  | [] => Ok (0, s, x)
  | c :: pieces =>
      '(r, s, x) ← flv_parser_input handler alloc s c (zlen c) x;
      if 0 =? r then feed s pieces x else Ok (r, s, x)
  end.

Lemma feed_ok pieces : ∀ s later ts x, awaits s (concat pieces ++ later) ts → Forall (λ c, zlen c < 2 ^ 62) pieces →
  follows (feed s pieces x) later ts x.
Proof.
  induction pieces as [|c pieces IH]; intros s later ts x Hs Hp; [left; by eexists _, _, _|].
  inversion Hp; subst. cbn [concat] in Hs. rewrite <- app_assoc in Hs. cbn [feed]. unfold flv_parser_input. pose proof (rank_range s). pose proof (zlen_nonneg c).
  destruct (loop_ok (Z.to_nat (4 * zlen c + 4)) s c 0 c (concat pieces ++ later) ts x) as [(s1 & ts1 & x1 & -> & E1 & E2)|[(r & s1 & x1 & Hr & -> & E2)|[-> E2]]];
    [done|apply holds_whole|done|lia| | |].
  - run. change (0 =? 0) with true. cbv iota. pose proof (IH s1 later ts1 x1 E1 ltac:(done)) as Hfol. unfold follows in *. by rewrite E2.
  - run. rewrite (proj2 (Z.eqb_neq 0 r)) by done. right; left. by exists r, s1, x1.
  - right; right. by split.
Qed.

(** At the end of a stream nothing is left of it. *)
Lemma awaits_nothing s ts : awaits s [] ts → state s = FLV_TAG_HEADER ∧ ts = [].
Proof.
  unfold awaits. intros (_ & Ht & H). destruct (state s) eqn:Es; try done.
  - destruct H as (pre & a & v & _ & _ & Hp & E). apply (f_equal zlen) in E. pose proof (zlen_nonneg (tags_stream ts)). rewrite !zlen_app, zlen_file_bytes in E. llia.
  - destruct H as (pre & n & _ & _ & Hp & _ & E). apply (f_equal zlen) in E. pose proof (zlen_nonneg (tags_stream ts)). llia.
  - split; [done|]. destruct H as (pre & _ & _ & Hp & E). destruct ts as [|t ts]; [done|]. apply (f_equal zlen) in E. unfold tags_stream in E. cbn [map concat] in E.
    fold (tags_stream ts) in E. unfold tag_stream in E. rewrite !zlen_app, zlen_tag_bytes in E. pose proof (zlen_nonneg (tags_stream ts)). pose proof (zlen_nonneg (tag_body t)). llia.
  - destruct H as (t & ts' & -> & _ & _ & E). apply (f_equal zlen) in E. rewrite zlen_app, zlen_tag_body in E. pose proof (zlen_nonneg (tags_stream ts')).
    pose proof (zlen_nonneg (t_data t)). llia.
  - destruct H as (t & ts' & pre & -> & _ & _ & _ & _ & Hp & _ & _ & E). apply (f_equal zlen) in E. rewrite !zlen_app, zlen_tag_body in E. pose proof (zlen_nonneg (tags_stream ts')). llia.
  - destruct H as (t & ts' & pre & -> & _ & _ & _ & _ & Hp & _ & _ & E). apply (f_equal zlen) in E. pose proof (zlen_nonneg (tags_stream ts')). llia.
Qed.

Lemma pieces_ok pieces audio video ts x :
  concat pieces = flv_stream audio video ts → Forall streamable ts → Forall (λ c, zlen c < 2 ^ 62) pieces →
  match listen ts x with
  | Ok (r, x') => ∃ s', feed flv_parser_zero pieces x = Ok (r, s', x') ∧ (r = 0 → state s' = FLV_TAG_HEADER ∧ bytes s' = 0)
  | Ub => feed flv_parser_zero pieces x = Ub
  | Fail _ => False
  end.
Proof.
  intros E Ht Hp. assert (awaits flv_parser_zero (concat pieces ++ []) ts) as Hs.
  { unfold awaits. cbn [state flv_parser_zero]. split_and!; [done|done|]. exists [], audio, video. split_and!; [|done|done|by rewrite app_nil_r].
    apply holds_nil. by_eval. }
  destruct (feed_ok pieces flv_parser_zero [] ts x Hs Hp) as [(s' & ts' & x' & -> & H1 & ->)|[(r & s' & x' & Hr & -> & ->)|[-> ->]]]; [| |done].
  - apply awaits_nothing in H1 as H3. destruct H3 as [H3 ->]. exists s'. split; [done|]. intros _. split; [done|].
    unfold awaits in H1. destruct H1 as (_ & _ & H1). rewrite H3 in H1. destruct H1 as (pre & _ & -> & _ & E'). rewrite app_nil_r in E'. by rewrite E'.
  - by exists s'.
Qed.

(** ** The parser of one tag *)

Lemma slice_rest t : streamable t → classic t → slice (t_data t) (header_size t) (u64 (s32 (zlen (t_data t)) - header_size t)) = Ok (rest t).
Proof.
  intros (_ & Hl & _) (_ & Hs & _). pose proof (zlen_rest t Hs) as Hr. destruct (data_header_range t) as [? _]. rewrite s32_small by lia.
  unfold u64. rewrite Z.mod_small by lia. apply holds_slice; [|lia]. unfold rest.
  pose proof (holds_whole (t_data t)) as Hw. rewrite <- (take_drop (Z.to_nat (header_size t)) (t_data t)) in Hw at 2.
  apply holds_app in Hw as [_ Hw]. replace (0 + zlen (take _ _)) with (header_size t) in Hw; [done|].
  unfold zlen in *. rewrite length_take. lia.
Qed.

Lemma classic_ok t x : streamable t → classic t →
  flv_parser_tag handler audio_zero video_zero (t_type t) (t_data t) (zlen (t_data t)) (t_time t) x = listen_tag t x.
Proof.
  intros Hst Hc. pose proof (slice_rest t Hst Hc) as Hr. pose proof Hst as (Hb & Hl & _). pose proof Hc as (H1 & Hs & Hty). destruct (data_header_range t) as [H0 _].
  pose proof (holds_whole (t_data t)) as Hw. rewrite <- (take_drop (Z.to_nat (header_size t)) (t_data t)) in Hw at 2. apply holds_take in Hw.
  assert (head t = take (Z.to_nat (header_size t)) (t_data t)) as Eh by (unfold head, tag_body; rewrite take_app_le; [done|unfold zlen in *; lia]).
  pose proof (holds_whole (head t)) as Hw'. rewrite Eh in Hw' at 2.
  unfold flv_parser_tag, listen_tag, known, frame_event. rewrite (proj2 (Z.ltb_ge (zlen (t_data t)) 1)) by lia. rewrite (proj2 (Z.ltb_ge (zlen (t_data t)) (header_size t))) by lia.
  destruct Hty as [[Ety _]|[Ety _]]; rewrite Ety.
  - change (FLV_TYPE_AUDIO =? FLV_TYPE_AUDIO) with true. change (FLV_TYPE_AUDIO =? FLV_TYPE_VIDEO) with false. cbn [orb negb]. cbv iota.
    destruct (audio_header t Hb Hc Ety) as (codec & packet & Hread). destruct (Hread audio_zero (head t) 0 (header_size t) Hw') as (a & -> & A1 & A2); [lia|].
    destruct (Hread audio_zero (t_data t) 0 (zlen (t_data t)) Hw) as (b & -> & B1 & B2); [lia|]. run. rewrite (proj2 (Z.ltb_ge _ 0)) by lia. rewrite Hr. run.
    by rewrite (audio_event _ b a) by (split; congruence).
  - change (FLV_TYPE_VIDEO =? FLV_TYPE_AUDIO) with false. change (FLV_TYPE_VIDEO =? FLV_TYPE_VIDEO) with true. cbn [orb negb]. cbv iota.
    destruct (video_header t Hb Hc Ety) as (w & Hread). destruct (Hread video_zero (head t) 0 (header_size t) Hw') as (a & -> & A1 & A2 & A3 & A4); [lia|].
    destruct (Hread video_zero (t_data t) 0 (zlen (t_data t)) Hw) as (b & -> & B1 & B2 & B3 & B4); [lia|]. run. rewrite (proj2 (Z.ltb_ge _ 0)) by lia. rewrite Hr. run.
    rewrite (video_event _ b a); [done|]. split_and!; [congruence..|]. rewrite A1. intros Ht.
    assert (timed (v_codecid w) = true) as Htm by (rewrite <- timed_cond; cbn [existsb] in Ht; rewrite orb_false_r, !orb_assoc, !(Z.eqb_sym (v_codecid w)) in Ht; by rewrite Ht).
    by rewrite A4, B4.
Qed.

(** What the parser of a stream makes of a tag in the enhanced format with one of
    the packet types in use (at most 6): the codec is the type of the packet, the
    rest of the header is part of the data. *)
Lemma enhanced_ok t b0 l x : t_type t = FLV_TYPE_VIDEO → t_data t = b0 :: l → 128 ≤ b0 < 256 → b0 mod 16 < 7 →
  listen_tag t x = Ok (handler x (b0 mod 16) l (t_time t) (t_time t) (if b0 / 16 =? FLV_VIDEO_KEY_FRAME then 1 else 0)).
Proof.
  intros Ety Ed Hb Hlow. destruct (nibbles b0) as (N1 & N2 & N3 & N4); [unfold is_byte; lia|]. unfold listen_tag, known, frame_event, header_size, head, rest, header_size, first, tag_body. rewrite Ety, Ed.
  change (FLV_TYPE_VIDEO =? FLV_TYPE_AUDIO) with false. change (FLV_TYPE_VIDEO =? FLV_TYPE_VIDEO) with true. cbn [orb negb app lookup_total list_lookup_total]. cbv iota. rewrite !N2.
  assert (∀ k : Z, 7 ≤ k → k =? b0 mod 16 = false) as Hne by (intros k Hk; apply Z.eqb_neq; lia).
  unfold FLV_VIDEO_H264, FLV_VIDEO_H265, FLV_VIDEO_H266, FLV_VIDEO_AV1. rewrite !Hne by lia. cbn [orb]. change (Z.to_nat 1) with 1%nat. cbn [take drop]. rewrite ?take_0, ?drop_0.
  unfold flv_video_tag_header_read. rewrite (holds_ld [b0] 0 b0 (holds_whole _)). change (5 <=? 1) with false. cbn [andb mbind outcome_bind]. rewrite N1, N2.
  unfold FLV_VIDEO_H264, FLV_VIDEO_H265, FLV_VIDEO_H266, FLV_VIDEO_AV1, FLV_VIDEO_AVS3. rewrite !Hne by lia. cbn [orb]. run.
  rewrite (proj2 (Z.ltb_ge _ 1)) by (rewrite zlen_cons; pose proof (zlen_nonneg l); lia). unfold flv_parser_video. cbn [v_codecid keyframe].
  unfold FLV_VIDEO_H264, FLV_VIDEO_H265, FLV_VIDEO_H266, FLV_VIDEO_AV1. rewrite !Hne by lia. cbn [orb]. by rewrite (Z.eqb_sym FLV_VIDEO_KEY_FRAME).
Qed.

(** Which tags the parser of one tag reads alike, and what comes of the others. *)
Lemma tags_read t y : streamable t →
  (classic t → flv_parser_tag handler audio_zero video_zero (t_type t) (t_data t) (zlen (t_data t)) (t_time t) y = listen_tag t y) ∧
  (t_type t = FLV_TYPE_SCRIPT → listen_tag t y = Ok (flv_parser_script handler (t_data t) (t_time t) y)) ∧
  (∀ b0 l, t_type t = FLV_TYPE_VIDEO → t_data t = b0 :: l → 128 ≤ b0 → b0 mod 16 < 7 →
     listen_tag t y = Ok (handler y (b0 mod 16) l (t_time t) (t_time t) (if b0 / 16 =? FLV_VIDEO_KEY_FRAME then 1 else 0))).
Proof.
  intros Hst. split_and!.
  - by apply classic_ok.
  - intros Ety. unfold listen_tag, known, frame_event, rest, header_size. rewrite Ety.
    change (FLV_TYPE_SCRIPT =? FLV_TYPE_AUDIO) with false. change (FLV_TYPE_SCRIPT =? FLV_TYPE_VIDEO) with false. change (FLV_TYPE_SCRIPT =? FLV_TYPE_SCRIPT) with true. cbn [orb negb]. run.
    by rewrite (proj2 (Z.ltb_ge _ 0)) by apply zlen_nonneg.
  - intros b0 l Ety Ed Hb Hlow. apply enhanced_ok; [done|done| |done]. destruct Hst as (Hok & _). rewrite Ed in Hok. by apply Forall_cons_1 in Hok as [[_ ?] _].
Qed.

(** C14: a client that gives [flv_parser_input] a stream of any tags, in any pieces
    (where [alloc] grants 16 MiB and refuses 2^63 bytes),
    gets what a reader of whole tags says of them, one after the other until the
    handler refuses one or one cannot be read, whatever the sizes of the pieces;
    the loop ends on each piece, and at the end of the stream the parser waits for
    a tag.  The parser of one tag says the same of every audio and video tag of the
    classic format that has its whole header and is not AVS3.  Of the other tags it
    does not: a script has its data here only, and of an enhanced video tag the
    handler gets the type of the packet for the codec and the rest of the header as
    data. *)
Theorem flv_parser_pieces pieces audio video ts x :
  concat pieces = flv_stream audio video ts → Forall streamable ts → Forall (λ c, zlen c < 2 ^ 62) pieces →
  match listen ts x with
  | Ok (r, x') => ∃ s', feed flv_parser_zero pieces x = Ok (r, s', x') ∧ (r = 0 → state s' = FLV_TAG_HEADER ∧ bytes s' = 0)
  | Ub => feed flv_parser_zero pieces x = Ub
  | Fail _ => False
  end ∧
  ∀ t y, t ∈ ts →
    (classic t → flv_parser_tag handler audio_zero video_zero (t_type t) (t_data t) (zlen (t_data t)) (t_time t) y = listen_tag t y) ∧
    (t_type t = FLV_TYPE_SCRIPT → listen_tag t y = Ok (flv_parser_script handler (t_data t) (t_time t) y)) ∧
    (∀ b0 l, t_type t = FLV_TYPE_VIDEO → t_data t = b0 :: l → 128 ≤ b0 → b0 mod 16 < 7 →
       listen_tag t y = Ok (handler y (b0 mod 16) l (t_time t) (t_time t) (if b0 / 16 =? FLV_VIDEO_KEY_FRAME then 1 else 0))).
Proof.
  intros E Ht Hp. split; [by apply (pieces_ok pieces audio video)|]. intros t y Hin. apply tags_read. by apply (proj1 (list.Forall_forall _ _) Ht t Hin).
Qed.

End Stream.

(** An AAC configuration, two H.264 frames, an enhanced HEVC frame and a script to a
    handler that keeps what it gets, in pieces of three bytes. *)
Definition demo_tags : list flv_tag :=
  [Tag FLV_TYPE_AUDIO [0xaf; 0; 0x12; 0x10] 0; Tag FLV_TYPE_VIDEO [0x17; 1; 255; 255; 255; 1; 2] 40; Tag FLV_TYPE_VIDEO [0x27; 1; 0; 0; 0] 80;
   Tag FLV_TYPE_VIDEO ([0x93] ++ be_bytes 4 FLV_VIDEO_FOURCC_HEVC ++ [9]) 90; Tag FLV_TYPE_SCRIPT [2; 0; 1; 65] 90].
Definition keeps (x : list (Z * list Z * Z * Z * Z)) (codec : Z) (l : list Z) (pts dts flags : Z) := (0, x ++ [(codec, l, pts, dts, flags)]).
(** A machine with 1 GiB. *)
Definition heap (n : Z) : option (list Z) := if n <? 2 ^ 30 then Some (replicate (Z.to_nat n) 0) else None.
Fixpoint cut (n : nat) (l : list Z) : list (list Z) := match n with O => [] | S n => take 3 l :: cut n (drop 3 l) end.

Lemma heap_allocates n : 0 ≤ n < 2 ^ 24 → ∃ b, heap n = Some b ∧ zlen b = n.
Proof. intros Hn. unfold heap. rewrite (proj2 (Z.ltb_lt n _)) by lia. eexists. split; [done|]. unfold zlen. rewrite length_replicate. lia. Qed.
Lemma heap_refuses n : 2 ^ 63 ≤ n < 2 ^ 64 → heap n = None.
Proof. intros Hn. unfold heap. by rewrite (proj2 (Z.ltb_ge n _)) by lia. Qed.

Definition demo_heard : list (Z * list Z * Z * Z * Z) :=
  [(FLV_AUDIO_ASC, [0x12; 0x10], 0, 0, 0); (FLV_VIDEO_H264, [1; 2], 39, 40, 1); (FLV_VIDEO_H264, [], 80, 80, 0);
   (3, be_bytes 4 FLV_VIDEO_FOURCC_HEVC ++ [9], 90, 90, 0); (FLV_SCRIPT_METADATA, [2; 0; 1; 65], 90, 90, 0)].

Lemma flv_parser_pieces_witness :
  listen keeps demo_tags [] = Ok (0, demo_heard) ∧
  (∃ s', feed keeps heap flv_parser_zero (cut 46 (flv_stream 1 1 demo_tags)) [] = Ok (0, s', demo_heard) ∧ (0 = 0 → state s' = FLV_TAG_HEADER ∧ bytes s' = 0)) ∧
  ∀ t y, t ∈ demo_tags →
    (classic t → flv_parser_tag keeps audio_zero video_zero (t_type t) (t_data t) (zlen (t_data t)) (t_time t) y = listen_tag keeps t y) ∧
    (t_type t = FLV_TYPE_SCRIPT → listen_tag keeps t y = Ok (flv_parser_script keeps (t_data t) (t_time t) y)) ∧
    (∀ b0 l, t_type t = FLV_TYPE_VIDEO → t_data t = b0 :: l → 128 ≤ b0 → b0 mod 16 < 7 →
       listen_tag keeps t y = Ok (keeps y (b0 mod 16) l (t_time t) (t_time t) (if b0 / 16 =? FLV_VIDEO_KEY_FRAME then 1 else 0))).
Proof.
  split; [reflexivity|].
  apply (flv_parser_pieces keeps heap heap_allocates heap_refuses (cut 46 (flv_stream 1 1 demo_tags)) 1 1 demo_tags []).
  - reflexivity.
  - by_eval.
  - by_eval.
Defined.

(** * What falls outside *)

(** Where the two parsers differ.  The parser of a stream takes an enhanced HEVC
    key frame for an inter frame of a codec 3 whose data begins with the rest of the
    header, and an AVS3 frame's header for its data; an AAC tag shorter than its
    header asks for 2^64 - 1 bytes, which no allocation gives; and the parser of one
    tag finds no data in a script. *)
Lemma flv_parser_faults :
  let one := λ t, flv_parser_tag keeps audio_zero video_zero (t_type t) (t_data t) (zlen (t_data t)) (t_time t) [] in
  let all := λ t, match flv_parser_input keeps heap flv_parser_zero (flv_stream 0 1 [t]) (zlen (flv_stream 0 1 [t])) [] with
                  | Ok (r, _, x) => Some (r, x) | _ => None end in
  let hevc := Tag FLV_TYPE_VIDEO ([0x93] ++ be_bytes 4 FLV_VIDEO_FOURCC_HEVC ++ [1; 2; 3]) 0 in
  let avs3 := Tag FLV_TYPE_VIDEO [0x1e; 1; 0; 0; 0; 9] 0 in
  let script := Tag FLV_TYPE_SCRIPT [2; 0; 1; 65] 0 in
  one hevc = Ok (0, [(FLV_VIDEO_H265, [1; 2; 3], 0, 0, 1)]) ∧ all hevc = Some (0, [(3, be_bytes 4 FLV_VIDEO_FOURCC_HEVC ++ [1; 2; 3], 0, 0, 0)])
  ∧ one avs3 = Ok (0, [(FLV_VIDEO_AVS3, [9], 0, 0, 1)]) ∧ all avs3 = Some (0, [(FLV_VIDEO_AVS3, [1; 0; 0; 0; 9], 0, 0, 1)])
  ∧ one script = Ok (0, [(FLV_SCRIPT_METADATA, [], 0, 0, 0)]) ∧ all script = Some (0, [(FLV_SCRIPT_METADATA, [2; 0; 1; 65], 0, 0, 0)])
  ∧ all (Tag FLV_TYPE_AUDIO [0xaf] 0) = Some (-1, []).
Proof. vm_compute. split_and!; reflexivity. Qed.
