(* ===== verification/HttpFlv.v ===== *)
(** The session that sends a stream to an HTTP client: http_flv_session.cpp of
    src/media/http, from the moment the request has been accepted.

    The connection is what the session has given it: [sent] is the body the client
    can have received (the chunks of the encoding are Beast's), and a write in
    progress has the first buffers of the queue.  The handlers posted to the worker
    run one at a time; [posted] counts those that shut the session down.  A tag
    shares its bytes and headers with the other sessions, and nobody changes
    them. *)
From S2P Require Import Prelude FlvHeader FlvWriter.

(** [struct flv_headers] and [struct flv_tag] of flv_tag_output.h. *)
Record flv_headers := FlvHeaders { hdr_video : option (list Z); hdr_audio : option (list Z) }.
Record flv_tag_t := FlvTag { type : Z; key_frame : bool; data : list Z; timestamp : Z; headers : flv_headers }.

Definition max_queued_output_bytes_ : Z := 4 * 1024 * 1024.

Record http_flv_session := Session {
  output_queue_ : list (list Z); queued_output_bytes_ : Z; output_buffer_ : list Z;
  writer_ : bool; output_ : bool; started_ : bool;
  in_flight : option nat; sent : list Z; broken : bool; posted : nat
}.
Implicit Types (s : http_flv_session) (t : flv_tag_t).

Definition set_queue s q n f := Session q n (output_buffer_ s) (writer_ s) (output_ s) (started_ s) f (sent s) (broken s) (posted s).
Definition set_output_buffer s b := Session (output_queue_ s) (queued_output_bytes_ s) b (writer_ s) (output_ s) (started_ s) (in_flight s) (sent s) (broken s) (posted s).
Definition set_writer s w := Session (output_queue_ s) (queued_output_bytes_ s) (output_buffer_ s) w (output_ s) (started_ s) (in_flight s) (sent s) (broken s) (posted s).
Definition set_output s o := Session (output_queue_ s) (queued_output_bytes_ s) (output_buffer_ s) (writer_ s) o (started_ s) (in_flight s) (sent s) (broken s) (posted s).
Definition set_started s := Session (output_queue_ s) (queued_output_bytes_ s) (output_buffer_ s) (writer_ s) (output_ s) true (in_flight s) (sent s) (broken s) (posted s).
Definition set_sent s l b := Session (output_queue_ s) (queued_output_bytes_ s) (output_buffer_ s) (writer_ s) (output_ s) (started_ s) (in_flight s) l b (posted s).
Definition set_posted s n := Session (output_queue_ s) (queued_output_bytes_ s) (output_buffer_ s) (writer_ s) (output_ s) (started_ s) (in_flight s) (sent s) (broken s) n.

(** All the queue is given to the connection at once. *)
Definition start_write s : http_flv_session := set_queue s (output_queue_ s) (queued_output_bytes_ s) (Some (length (output_queue_ s))).

Definition enqueue s (d : list Z) : bool * http_flv_session :=
  if zlen d =? 0 then (true, s) else
  if (queued_output_bytes_ s >? max_queued_output_bytes_) || (zlen d >? max_queued_output_bytes_ - queued_output_bytes_ s) then (false, s) else
  let start_writer := match output_queue_ s with [] => true | _ => false end in
  let s := set_queue s (output_queue_ s ++ [d]) (u64 (queued_output_bytes_ s + zlen d)) (in_flight s) in
  (true, if start_writer then start_write s else s).

Definition shutdown s : http_flv_session := set_posted s (S (posted s)).

Fixpoint copy_all (vectors : list flv_vec_t) (b : list Z) : outcome (list Z) :=
  match vectors with
  | [] => Ok b
  | v :: vectors =>
      match ptr v with
      | Some m => if len v <=? 0 then copy_all vectors b else l ← slice m 0 (len v); copy_all vectors (b ++ l)
      | None => copy_all vectors b
      end
  end.
Definition writer_callback s (vectors : list flv_vec_t) : outcome (Z * http_flv_session) :=
  match vectors with
  | [] => Ok (-1, s)
  | _ => b ← copy_all vectors (output_buffer_ s); Ok (0, set_output_buffer s b)
  end.

(** [flv_writer_input] on [writer_], which is not a writer once destroyed. *)
Definition input s (type : Z) (d : list Z) (time : Z) : outcome (Z * http_flv_session) :=
  if writer_ s then flv_writer_input writer_callback s type (Some d) (zlen d) time else Ub.

(** The end of [handle_request]: the writer is created, the header of the response
    written, and the stream begins when both succeed.  [has_output] is whether the
    stream has an output. *)
Definition fresh : http_flv_session := Session [] 0 [] false false false None [] false 0.
Definition handle_request (has_audio has_video has_output header_written : bool) : outcome http_flv_session :=
  '(created, s) ← flv_writer_create2 writer_callback (if has_audio then 1 else 0) (if has_video then 1 else 0) fresh;
  let s := set_writer s created in
  if negb created || negb has_output || negb header_written then Ok (shutdown s) else
  let '(queued, s) := enqueue (set_output_buffer s []) (output_buffer_ s) in
  Ok (if queued then set_output s true else shutdown s).

Definition write_header s (h : option (list Z)) (type time : Z) : outcome (bool * http_flv_session) :=
  match h with Some d => '(r, s) ← input s type d time; Ok (negb (r =? 0), s) | None => Ok (false, s) end.

(** The tag, with the sequence headers before the first. *)
Definition write_tag s t : outcome http_flv_session :=
  '(r, s) ← input s (type t) (data t) (timestamp t);
  if negb (r =? 0) then Ok (shutdown s) else
  let '(queued, s) := enqueue (set_output_buffer s []) (output_buffer_ s) in
  Ok (if queued then s else shutdown s).
Definition on_flv_tag s t : outcome http_flv_session :=
  if negb (output_ s) then Ok s else
  let s := set_output_buffer s [] in
  if started_ s then write_tag s t
  else if negb (key_frame t) then Ok s
  else
    let s := set_started s in
    '(failed, s) ← write_header s (hdr_video (headers t)) FLV_TYPE_VIDEO (timestamp t);
    if (failed : bool) then Ok (shutdown s) else
    '(failed, s) ← write_header s (hdr_audio (headers t)) FLV_TYPE_AUDIO (timestamp t);
    if (failed : bool) then Ok (shutdown s) else write_tag s t.

Definition on_end s : http_flv_session := if output_ s then shutdown s else s.

Definition safe_shutdown s : outcome http_flv_session :=
  let s := set_output s false in
  s ← (if writer_ s then s ← flv_writer_destroy writer_callback s; Ok (set_writer s false) else Ok s);
  Ok (set_sent (set_output_buffer s []) (sent s) true).

(** The handler of a write of the first [count] buffers. *)
Definition sizes (q : list (list Z)) : Z := foldr (λ d n, zlen d + n) 0 q.
Fixpoint pop (count : nat) (q : list (list Z)) (n : Z) : outcome (list (list Z) * Z) :=
  match count with
  | O => Ok (q, n)
  | S count => match q with [] => Ub | d :: q => pop count q (u64 (n - zlen d)) end
  end.
Definition write_done s (count : nat) : outcome http_flv_session :=
  '(q, n) ← pop count (output_queue_ s) (queued_output_bytes_ s);
  let s := set_queue s q n None in
  Ok (match q with [] => s | _ => start_write s end).
Definition write_failed s : http_flv_session := shutdown (set_queue s [] 0 None).

(** What can happen: a tag or the end is dispatched, a write completes or fails
    after [n] bytes, the client closes the connection (the loop of [handle_request]
    that reads it ends), a posted shutdown runs.  Nothing reaches the client once the
    connection is closed or has failed. *)
Variant event := Tagged (t : flv_tag_t) | Ended | Wrote | Failed (n : nat) | Closed | Shut.
Definition handle s (e : event) : outcome http_flv_session :=
  match e with
  | Tagged t => on_flv_tag s t
  | Ended => Ok (on_end s)
  | Wrote =>
      match in_flight s with
      | Some count => if broken s then Ok s else write_done (set_sent s (sent s ++ concat (take count (output_queue_ s))) false) count
      | None => Ok s
      end
  | Failed n =>
      match in_flight s with
      | Some count => Ok (write_failed (set_sent s (if broken s then sent s else sent s ++ take n (concat (take count (output_queue_ s)))) true))
      | None => Ok s
      end
  | Closed => Ok (shutdown s)
  | Shut => match posted s with O => Ok s | S n => safe_shutdown (set_posted s n) end
  end.
Fixpoint run s (l : list event) : outcome http_flv_session :=
  match l with [] => Ok s | e :: l => s ← handle s e; run s l end.
