(* ===== verification/HttpFlvSpec.v ===== *)
(** What an HTTP client receives: whole tags, in order, from a key frame on, after
    the sequence headers; and the bound on what is queued for it. *)
From S2P Require Import Prelude FlvHeader FlvHeaderSpec FlvWriter FlvParser FlvParserSpec HttpFlv.

Implicit Types (s : http_flv_session) (t : flv_tag_t) (d : list Z).

(** * What is written *)

Definition stream_tag t : flv_tag := Tag (HttpFlv.type t) (HttpFlv.data t) (HttpFlv.timestamp t).

(** A tag header is 11 bytes, those of the tag if its fields fit theirs. *)
Definition raw_tag (h : flv_tag_header_t) : list Z :=
  [u8 (Z.lor (Z.land (FlvHeader.type h) 0x1f) (Z.shiftl (Z.land (filter h) 1) 5))] ++ uint24 (size h)
  ++ uint24 (FlvHeader.timestamp h) ++ [u8 (Z.land (Z.shiftr (FlvHeader.timestamp h) 24) 0xff)] ++ uint24 (streamId h).
Lemma zlen_raw_tag h : zlen (raw_tag h) = 11.
Proof. done. Qed.

Lemma raw_tag_written h m p : 0 ≤ p → p + 11 ≤ zlen m → flv_tag_header_write h m p 11 = Ok (11, put m p (raw_tag h)).
Proof.
  intros Hp Hm. unfold flv_tag_header_write. change (11 <? FLV_TAG_HEADER_SIZE) with false. cbv iota. fold (raw_tag h).
  by rewrite st_ok by (rewrite ?zlen_raw_tag; lia).
Qed.

Lemma raw_tag_ok h : tag_ok h → raw_tag h = tag_bytes h.
Proof.
  intros Hh. pose proof (tag_write_ok h (replicate 11 0) 0 11 Hh ltac:(lia) ltac:(by_eval) ltac:(lia)) as H.
  rewrite raw_tag_written in H by (by_eval || lia). apply Ok_inj, (f_equal snd) in H. cbn [snd] in H. by rewrite !put_whole in H by (by rewrite ?zlen_tag_bytes).
Qed.

Lemma zlen_tag_stream t : zlen (tag_stream (stream_tag t)) = zlen (HttpFlv.data t) + 15.
Proof. unfold tag_stream, tag_body. rewrite !zlen_app, zlen_tag_bytes. cbn [t_data stream_tag]. llia. Qed.

(** What the writer appends to the buffer of the session. *)
Lemma input_ok s ty d time : writer_ s = true → zlen d < 2 ^ 31 →
  ∃ w, input s ty d time = Ok (0, set_output_buffer s (output_buffer_ s ++ w)) ∧ zlen w = zlen d + 15
    ∧ (0 ≤ ty < 32 → is_uint 32 time → zlen d < 2 ^ 24 → w = tag_stream (Tag ty d time)).
Proof.
  intros Hw Hd. unfold input, flv_writer_input. rewrite Hw. pose proof (zlen_nonneg d) as H0.
  pose proof (raw_tag_ok (FlvTagHeader 0 (u8 ty) (u32 (s32 (zlen d))) time 0)) as Hok.
  change FLV_TAG_HEADER_SIZE with 11. rewrite raw_tag_written by (by_eval || lia). run.
  pose proof (zlen_raw_tag (FlvTagHeader 0 (u8 ty) (u32 (s32 (zlen d))) time 0)) as Hz. set (h := raw_tag _) in *.
  assert (zlen (replicate 15 0) = 15) as H15 by done.
  rewrite size_write_ok by (rewrite ?zlen_put by (rewrite ?Hz, ?H15; lia); lia). run.
  rewrite put_app_at by (rewrite ?Hz, ?H15; lia). rewrite put_whole by llia.
  rewrite s32_small by lia. rewrite (u32_id (zlen d)), u32_id by (unfold is_uint; lia).
  exists (h ++ d ++ be_bytes 4 (zlen d + 11)). split_and!.
  - unfold writer_callback. cbn [copy_all FlvWriter.ptr len]. change (11 <=? 0) with false. change (4 <=? 0) with false. cbv iota.
    assert (drop 11 (h ++ be_bytes 4 (zlen d + 11)) = be_bytes 4 (zlen d + 11)) as -> by (apply drop_app_length'; unfold zlen in Hz; lia).
    rewrite (holds_slice (h ++ _) 0 h 11) by (done || apply holds_app_r, holds_whole). run.
    rewrite (holds_slice (be_bytes 4 _) 0 (be_bytes 4 (zlen d + 11)) 4) by (done || apply holds_whole). run.
    destruct (Z.leb_spec (zlen d) 0).
    + assert (d = []) as -> by (destruct d; [done|unfold zlen in *; cbn [length] in *; lia]). cbn [app]. by rewrite <- app_assoc.
    + rewrite (holds_slice d 0 d) by (done || apply holds_whole). run. by rewrite <- !app_assoc.
  - llia.
  - intros Hty Htime Hs. rewrite u8_id, s32_small, u32_id in Hok by (unfold is_uint; lia). rewrite Hok; [done|].
    unfold tag_ok. cbn. unfold is_uint in *. lia.
Qed.

(** * The queue *)

(** What is queued is counted and bounded, and something is being written exactly
    when something is queued. *)
Definition inv s : Prop :=
  queued_output_bytes_ s = sizes (output_queue_ s) ∧ queued_output_bytes_ s ≤ max_queued_output_bytes_
  ∧ match in_flight s with Some n => (0 < n ≤ length (output_queue_ s))%nat | None => output_queue_ s = [] end
  ∧ (output_ s = true → writer_ s = true).

(** What the client has or will have if nothing fails. *)
Definition content s : list Z := sent s ++ concat (output_queue_ s).

Lemma sizes_app q r : sizes (q ++ r) = sizes q + sizes r.
Proof. induction q as [|d q IH]; [done|]. unfold sizes in *. cbn [app foldr]. lia. Qed.
Lemma sizes_nonneg q : 0 ≤ sizes q.
Proof. induction q as [|d q IH]; [done|]. unfold sizes in *. cbn [foldr]. pose proof (zlen_nonneg d). lia. Qed.

Lemma enqueue_ok s d : inv s → ∃ b q n f, enqueue s d = (b, set_queue s q n f) ∧ inv (set_queue s q n f)
  ∧ concat q = concat (output_queue_ s) ++ (if b then d else []) ∧ (b = true → zlen d ≤ max_queued_output_bytes_).
Proof.
  intros (Hn & Hmax & Hf & Hw). pose proof (zlen_nonneg d). pose proof (sizes_nonneg (output_queue_ s)) as H0.
  assert (max_queued_output_bytes_ = 2 ^ 22) as Emax by done.
  assert (s = set_queue s (output_queue_ s) (queued_output_bytes_ s) (in_flight s)) as Es by (by destruct s).
  unfold enqueue. destruct (Z.eqb_spec (zlen d) 0).
  { exists true, (output_queue_ s), (queued_output_bytes_ s), (in_flight s). rewrite <- Es. assert (d = []) as -> by (destruct d; [done|unfold zlen in *; cbn [length] in *; lia]).
    rewrite app_nil_r. split_and!; done || lia. }
  destruct ((queued_output_bytes_ s >? _) || (zlen d >? _)) eqn:Efull.
  { exists false, (output_queue_ s), (queued_output_bytes_ s), (in_flight s). rewrite <- Es, app_nil_r. by split_and!. }
  apply orb_false_iff in Efull as [_ Efull]. rewrite Z.gtb_ltb, Z.ltb_ge in Efull.
  unfold u64. rewrite Z.mod_small by lia.
  assert (∀ f, match f with Some n => (0 < n ≤ length (output_queue_ s ++ [d]))%nat | None => output_queue_ s ++ [d] = [] end →
            inv (set_queue s (output_queue_ s ++ [d]) (queued_output_bytes_ s + zlen d) f)) as Hinv.
  { intros f Hf'. unfold inv. cbn [queued_output_bytes_ output_queue_ in_flight output_ writer_ set_queue]. rewrite sizes_app. unfold sizes at 2. cbn [foldr].
    split_and!; [lia|lia|done|done]. }
  assert (∀ q : list (list Z), concat (q ++ [d]) = concat q ++ d) as Hcat by (intros q; rewrite concat_app; cbn [concat]; by rewrite app_nil_r).
  destruct (match output_queue_ s with [] => true | _ => false end) eqn:Eq.
  - exists true, (output_queue_ s ++ [d]), (queued_output_bytes_ s + zlen d), (Some (length (output_queue_ s ++ [d]))).
    split_and!; [done| |by rewrite Hcat|lia]. apply Hinv. rewrite length_app. cbn [length]. lia.
  - destruct (in_flight s) as [k|] eqn:Ef; [|by rewrite Hf in Eq]. exists true, (output_queue_ s ++ [d]), (queued_output_bytes_ s + zlen d), (Some k).
    split_and!; [done| |by rewrite Hcat|lia]. apply Hinv. rewrite length_app. lia.
Qed.

(** * A tag *)

Definition sound t : Prop :=
  0 ≤ HttpFlv.type t < 32 ∧ is_uint 32 (HttpFlv.timestamp t) ∧ zlen (HttpFlv.data t) < 2 ^ 31
  ∧ (∀ d, hdr_video (headers t) = Some d → zlen d < 2 ^ 31) ∧ (∀ d, hdr_audio (headers t) = Some d → zlen d < 2 ^ 31).

(** The sequence headers before the first tag, with its time. *)
Definition header_tags t : list flv_tag :=
  match hdr_video (headers t) with Some d => [Tag FLV_TYPE_VIDEO d (HttpFlv.timestamp t)] | None => [] end
  ++ match hdr_audio (headers t) with Some d => [Tag FLV_TYPE_AUDIO d (HttpFlv.timestamp t)] | None => [] end.

(** What a client should get of what happens: everything from the first key frame
    on. *)
Fixpoint expected (started : bool) (l : list event) : list flv_tag :=
  match l with
  | [] => []
  | Tagged t :: l =>
      if started then stream_tag t :: expected true l
      else if key_frame t then header_tags t ++ stream_tag t :: expected true l else expected false l
  | _ :: l => expected started l
  end.
Fixpoint begun (started : bool) (l : list event) : bool :=
  match l with [] => started | Tagged t :: l => begun (started || key_frame t) l | _ :: l => begun started l end.

(** From a state to another, what happened being [l] and the tags accepted
    [acc]. *)
Record evolves s (l : list event) s' (acc : list flv_tag) : Prop := Evolves {
  ev_inv : inv s';
  ev_sub : acc `sublist_of` expected (started_ s) l;
  ev_content : broken s' = false → broken s = false ∧ content s' = content s ++ tags_stream acc;
  ev_prefix : broken s = false → sent s' `prefix_of` content s ++ tags_stream acc;
  ev_broken : broken s = true → broken s' = true ∧ sent s' = sent s;
  ev_ended : output_ s = false → output_ s' = false ∧ acc = [];
  ev_alive : output_ s' = true → output_ s = true ∧ (posted s ≤ posted s')%nat ∧ started_ s' = begun (started_ s) l
    ∧ (posted s' = posted s → broken s' = broken s ∧ acc = expected (started_ s) l)
}.

Lemma tags_stream_app ts us : tags_stream (ts ++ us) = tags_stream ts ++ tags_stream us.
Proof. unfold tags_stream. by rewrite map_app, concat_app. Qed.

Lemma begun_cons st e l : begun st (e :: l) = begun (begun st [e]) l.
Proof. by destruct e. Qed.
Lemma expected_cons st e l : expected st (e :: l) = expected st [e] ++ expected (begun st [e]) l.
Proof. destruct e; cbn; try done. destruct st; cbn; [done|]. destruct (key_frame t); [|done]. by rewrite <- app_assoc. Qed.

Lemma evolves_trans s e s1 acc1 l s2 acc2 : evolves s [e] s1 acc1 → evolves s1 l s2 acc2 → evolves s (e :: l) s2 (acc1 ++ acc2).
Proof.
  intros [I1 S1 C1 P1 B1 E1 A1] [I2 S2 C2 P2 B2 E2 A2]. split.
  - done.
  - rewrite expected_cons. destruct (output_ s1) eqn:Eo.
    + destruct A1 as (_ & _ & <- & _); [done|]. by apply sublist_app.
    + destruct E2 as [_ ->]; [done|]. rewrite app_nil_r. by apply sublist_inserts_r.
  - intros Hb. destruct (C2 Hb) as [Hb1 ->]. destruct (C1 Hb1) as [Hb0 ->]. split; [done|]. by rewrite tags_stream_app, app_assoc.
  - intros Hb. rewrite tags_stream_app, app_assoc. destruct (broken s1) eqn:Eb.
    + destruct (B2 eq_refl) as [_ ->]. apply prefix_app_r. by apply P1.
    + destruct (C1 eq_refl) as [_ <-]. by apply P2.
  - intros Hb. destruct (B1 Hb) as [Hb1 <-]. by apply B2.
  - intros Ho. destruct (E1 Ho) as [Ho1 ->]. destruct (E2 Ho1) as [Ho2 ->]. done.
  - intros Ho. destruct (A2 Ho) as (Ho1 & Hp2 & Hs2 & Hd2). destruct (A1 Ho1) as (Ho0 & Hp1 & Hs1 & Hd1). split_and!; [done|lia| |].
    + rewrite Hs2, Hs1. by rewrite (begun_cons _ _ l).
    + intros Hp. destruct Hd2 as [-> ->]; [lia|]. destruct Hd1 as [-> ->]; [lia|]. split; [done|]. by rewrite (expected_cons _ _ l), Hs1.
Qed.

(** The same but for the buffer and whether the stream has begun. *)
Definition alike s s1 : Prop :=
  output_queue_ s1 = output_queue_ s ∧ queued_output_bytes_ s1 = queued_output_bytes_ s ∧ in_flight s1 = in_flight s ∧ writer_ s1 = writer_ s
  ∧ output_ s1 = output_ s ∧ sent s1 = sent s ∧ broken s1 = broken s ∧ posted s1 = posted s.

(** A buffer is queued whole or the session is shut down. *)
Lemma queue_buffer s s1 b ts l : inv s → output_ s = true → alike s s1 → started_ s1 = begun (started_ s) l →
  (zlen b ≤ max_queued_output_bytes_ → b = tags_stream ts) → expected (started_ s) l = ts →
  ∃ acc, evolves s l (let '(queued, s) := enqueue (set_output_buffer s1 []) b in if queued then s else shutdown s) acc.
Proof.
  intros Hi Ho (A1 & A2 & A3 & A4 & A5 & A6 & A7 & A8) Hst Hb Hexp.
  assert (inv (set_output_buffer s1 [])) as Hi1 by (unfold inv in *; cbn; by rewrite A1, A2, A3, A4, A5).
  destruct (enqueue_ok (set_output_buffer s1 []) b Hi1) as (queued & q & n & f & -> & Hi' & Hq & Hle). cbn [output_queue_ set_output_buffer] in Hq. rewrite A1 in Hq.
  destruct queued.
  - specialize (Hb (Hle eq_refl)). subst b. exists ts. split; cbn [broken set_queue set_output_buffer output_ posted started_ sent]; try done.
    + by rewrite Hexp.
    + rewrite A7. intros Hbr. split; [done|]. unfold content. cbn [sent set_queue set_output_buffer output_queue_]. rewrite Hq, A6. by rewrite app_assoc.
    + intros _. unfold content. rewrite A6, <- app_assoc. by apply prefix_app_r.
    + rewrite A6, A7. done.
    + by rewrite Ho.
    + rewrite A5, A7, A8, Ho. intros _. split_and!; done.
  - exists []. rewrite app_nil_r in Hq. split; cbn [shutdown set_posted broken set_queue set_output_buffer output_ posted started_ sent]; try done.
    + apply sublist_nil_l.
    + rewrite A7. intros Hbr. split; [done|]. unfold content. cbn [sent set_queue set_output_buffer output_queue_ shutdown set_posted]. rewrite Hq, A6. by rewrite app_nil_r.
    + intros _. unfold content. rewrite A6, <- app_assoc. by apply prefix_app_r.
    + by rewrite A6, A7.
    + by rewrite Ho.
    + rewrite A5, A8, Ho. intros _. split_and!; [done|lia|done|lia].
Qed.

(** Nothing happens. *)
Lemma stays s s1 l : inv s → alike s s1 → started_ s1 = begun (started_ s) l → (output_ s = true → expected (started_ s) l = []) → evolves s l s1 [].
Proof.
  intros Hi (A1 & A2 & A3 & A4 & A5 & A6 & A7 & A8) Hst Hexp. unfold tags_stream. split; rewrite ?A5, ?A6, ?A7, ?A8; try done.
  - unfold inv in *. by rewrite A1, A2, A3, A4, A5.
  - apply sublist_nil_l.
  - intros Hb. split; [done|]. unfold content. by rewrite A1, A6, app_nil_r.
  - intros _. unfold content. rewrite <- app_assoc. by apply prefix_app_r.
  - intros Ho. split_and!; [done|lia|done|]. intros _. by rewrite Hexp.
Qed.

Lemma write_header_ok s h ty time : writer_ s = true → 0 ≤ ty < 32 → is_uint 32 time → (∀ d, h = Some d → zlen d < 2 ^ 31) →
  ∃ w, write_header s h ty time = Ok (false, set_output_buffer s (output_buffer_ s ++ w))
    ∧ (zlen w < 2 ^ 24 → w = tags_stream match h with Some d => [Tag ty d time] | None => [] end).
Proof.
  intros Hw Hty Ht Hd. unfold write_header. destruct h as [d|].
  - destruct (input_ok s ty d time) as (w & -> & Hz & Hok); [done|by apply Hd|]. exists w. split; [done|]. intros Hl.
    rewrite Hok by (done || lia). unfold tags_stream. cbn [map concat]. by rewrite app_nil_r.
  - exists []. rewrite app_nil_r. split; [by destruct s|done].
Qed.

Lemma write_tag_ok s s1 t ts l : inv s → output_ s = true → alike s s1 → started_ s1 = begun (started_ s) l → sound t →
  (zlen (output_buffer_ s1) < 2 ^ 24 → output_buffer_ s1 = tags_stream ts) → expected (started_ s) l = ts ++ [stream_tag t] →
  ∃ s' acc, write_tag s1 t = Ok s' ∧ evolves s l s' acc.
Proof.
  intros Hi Ho Ha Hst (Hty & Htime & Hd & _) Hb Hexp. pose proof Ha as (_ & _ & _ & A4 & _). pose proof Hi as (_ & _ & _ & Hw).
  unfold write_tag. destruct (input_ok s1 (HttpFlv.type t) (HttpFlv.data t) (HttpFlv.timestamp t)) as (w & -> & Hz & Hok); [rewrite A4; by apply Hw|done|].
  run. change (negb (0 =? 0)) with false. cbv iota. cbn [output_buffer_ set_output_buffer].
  change (set_output_buffer (set_output_buffer s1 (output_buffer_ s1 ++ w)) []) with (set_output_buffer s1 []).
  destruct (queue_buffer s s1 (output_buffer_ s1 ++ w) (ts ++ [stream_tag t]) l) as (acc & Hev); [done..| |done|].
  - rewrite zlen_app. change max_queued_output_bytes_ with (2 ^ 22). pose proof (zlen_nonneg (output_buffer_ s1)). pose proof (zlen_nonneg (HttpFlv.data t)). intros Hl.
    rewrite tags_stream_app, Hb, Hok by (done || lia). unfold tags_stream. cbn [map concat]. rewrite app_nil_r. done.
  - destruct (enqueue _ _) as [queued s2]. eexists _, acc. split; [done|exact Hev].
Qed.

Lemma tag_evolves s t : inv s → sound t → ∃ s' acc, on_flv_tag s t = Ok s' ∧ evolves s [Tagged t] s' acc.
Proof.
  intros Hi Ht. unfold on_flv_tag. destruct (output_ s) eqn:Ho; cbn [negb].
  - destruct (started_ s) eqn:Est; cbn [started_ set_output_buffer]; rewrite Est.
    + apply (write_tag_ok s (set_output_buffer s []) t []); try done; [by rewrite Est|by rewrite Est].
    + destruct (key_frame t) eqn:Ek; cbn [negb].
      * pose proof Hi as (_ & _ & _ & Hw). pose proof Ht as (_ & Htime & _ & Hv & Haud).
        destruct (write_header_ok (set_started (set_output_buffer s [])) (hdr_video (headers t)) FLV_TYPE_VIDEO (HttpFlv.timestamp t)) as (w & -> & Hok);
          [by apply Hw|by_eval|done|done|]. run.
        destruct (write_header_ok (set_output_buffer (set_started (set_output_buffer s [])) ([] ++ w)) (hdr_audio (headers t)) FLV_TYPE_AUDIO (HttpFlv.timestamp t))
          as (w' & E & Hok'); [by apply Hw|by_eval|done|done|]. cbn [output_buffer_ set_output_buffer set_started] in E |- *. rewrite E. run.
        apply (write_tag_ok s _ t (header_tags t)); try done.
        -- cbn [started_ set_output_buffer set_started begun]. by rewrite Est, Ek.
        -- cbn [output_buffer_ set_output_buffer set_started app]. rewrite zlen_app. intros Hl. pose proof (zlen_nonneg w). pose proof (zlen_nonneg w').
           unfold header_tags. rewrite tags_stream_app. by rewrite <- Hok, <- Hok' by lia.
        -- cbn [expected]. by rewrite Est, Ek.
      * eexists _, []. split; [done|]. apply stays; [done|done| |].
        -- cbn [begun started_ set_output_buffer]. by rewrite Ek, Est.
        -- intros _. cbn [expected]. by rewrite Est, Ek.
  - eexists _, []. split; [done|]. split; try done; rewrite ?Ho; try done; [apply sublist_nil_l| |].
    + intros Hb. split; [done|]. by rewrite app_nil_r.
    + intros _. unfold content. rewrite <- app_assoc. by apply prefix_app_r.
Qed.

(** * The other events *)

Lemma eos_ok s : ∃ b, flv_write_eos writer_callback s = Ok (0, set_output_buffer s b).
Proof. eexists. reflexivity. Qed.

Lemma pop_ok count : ∀ q n, (count ≤ length q)%nat → n = sizes q → n ≤ max_queued_output_bytes_ →
  pop count q n = Ok (drop count q, n - sizes (take count q)).
Proof.
  change max_queued_output_bytes_ with (2 ^ 22). induction count as [|count IH]; intros q n Hl -> Hn; [by rewrite drop_0, take_0, Z.sub_0_r|].
  destruct q as [|d q]; [cbn in Hl; lia|]. cbn [pop drop take]. unfold sizes in Hn |- *. cbn [foldr] in Hn |- *. fold (sizes q) in *. fold (sizes (take count q)).
  pose proof (zlen_nonneg d). pose proof (sizes_nonneg q). unfold u64. rewrite Z.mod_small by lia. rewrite IH; [|cbn in Hl; lia|lia|lia]. do 2 f_equal. lia.
Qed.

Lemma shutdown_evolves s e : inv s → (∀ st, begun st [e] = st) → (∀ st, expected st [e] = []) → evolves s [e] (shutdown s) [].
Proof.
  intros Hi Hb He. split; cbn [shutdown set_posted broken sent output_ posted started_]; try done.
  - apply sublist_nil_l.
  - intros Hbr. split; [done|]. by rewrite app_nil_r.
  - intros _. unfold content. rewrite <- app_assoc. by apply prefix_app_r.
  - intros Ho. split_and!; [done|lia|by rewrite Hb|lia].
Qed.

Lemma written_evolves s count : inv s → in_flight s = Some count → broken s = false →
  ∃ s', write_done (set_sent s (sent s ++ concat (take count (output_queue_ s))) false) count = Ok s' ∧ evolves s [Wrote] s' [].
Proof.
  intros (Hn & Hmax & Hf & Hw) Ef Eb. rewrite Ef in Hf. unfold write_done. cbn [output_queue_ queued_output_bytes_ set_sent].
  rewrite pop_ok by (done || lia). run.
  assert (sizes (output_queue_ s) = sizes (take count (output_queue_ s)) + sizes (drop count (output_queue_ s))) as Hs by (by rewrite <- sizes_app, take_drop).
  pose proof (sizes_nonneg (take count (output_queue_ s))).
  assert (∀ f, match f with Some n => (0 < n ≤ length (drop count (output_queue_ s)))%nat | None => drop count (output_queue_ s) = [] end →
     evolves s [Wrote] (set_queue (set_sent s (sent s ++ concat (take count (output_queue_ s))) false)
                          (drop count (output_queue_ s)) (queued_output_bytes_ s - sizes (take count (output_queue_ s))) f) []) as Hev.
  { intros f Hf'. split; cbn [set_queue set_sent broken sent output_ posted started_]; try done.
    - unfold inv. cbn [queued_output_bytes_ output_queue_ in_flight output_ writer_ set_queue set_sent]. split_and!; [lia|lia|done|done].
    - intros _. split; [done|]. unfold content. cbn [sent output_queue_ set_queue set_sent]. rewrite app_nil_r, <- app_assoc, <- concat_app. by rewrite take_drop.
    - intros _. unfold content, tags_stream. cbn [map concat]. rewrite app_nil_r. apply prefix_app. rewrite <- (take_drop count (output_queue_ s)) at 2.
      rewrite concat_app. by apply prefix_app_r.
    - by rewrite Eb. }
  destruct (drop count (output_queue_ s)) as [|x q] eqn:Eq; (eexists; split; [done|]); apply Hev; [done|]. cbn [output_queue_ set_queue length]. lia.
Qed.

Lemma failed_evolves s count n : inv s → in_flight s = Some count →
  evolves s [Failed n] (write_failed (set_sent s (if broken s then sent s else sent s ++ take n (concat (take count (output_queue_ s)))) true)) [].
Proof.
  intros Hi Ef. split; cbn [write_failed shutdown set_posted set_queue set_sent broken sent output_ posted started_]; try done.
  - unfold inv in *. cbn. by destruct Hi as (_ & _ & _ & Hw).
  - intros ->. unfold content, tags_stream. cbn [map concat]. rewrite app_nil_r. apply prefix_app.
    etrans; [apply prefix_take|]. rewrite <- (take_drop count (output_queue_ s)) at 2. rewrite concat_app. by apply prefix_app_r.
  - intros ->. done.
  - intros Ho. split_and!; [done|lia|done|lia].
Qed.

Lemma shut_evolves s n : inv s → posted s = S n → ∃ s', safe_shutdown (set_posted s n) = Ok s' ∧ evolves s [Shut] s' [].
Proof.
  intros Hi Ep. unfold safe_shutdown. cbn [writer_ set_output set_posted].
  assert (∀ b w, evolves s [Shut] (set_sent (set_output_buffer (set_writer (set_output_buffer (set_output (set_posted s n) false) b) w) []) (sent s) true) []) as Hev.
  { intros b w. split; cbn; try done.
    - unfold inv in *. cbn. destruct Hi as (? & ? & ? & _). by split_and!.
    - intros _. unfold content. rewrite <- app_assoc. by apply prefix_app_r. }
  destruct (writer_ s) eqn:Ew.
  - unfold flv_writer_destroy. destruct (eos_ok (set_output (set_posted s n) false)) as [b ->]. run. eexists. split; [done|]. apply (Hev b false).
  - run. eexists. split; [done|]. apply (Hev (output_buffer_ s) (writer_ s)).
Qed.

Lemma event_evolves s e : inv s → (∀ t, e = Tagged t → sound t) → ∃ s' acc, handle s e = Ok s' ∧ evolves s [e] s' acc.
Proof.
  intros Hi Ht. destruct e as [t| | |n| |]; cbn [handle].
  - by apply tag_evolves; [|apply Ht].
  - unfold on_end. destruct (output_ s) eqn:Eo; (eexists _, []; split; [done|]); [by apply shutdown_evolves|by apply stays].
  - destruct (in_flight s) as [count|] eqn:Ef; [|eexists _, []; split; [done|]; by apply stays].
    destruct (broken s) eqn:Eb; [eexists _, []; split; [done|]; by apply stays|]. rewrite <- Eb. destruct (written_evolves s count) as (s' & ? & ?); [done..|].
    exists s', []. by rewrite Eb.
  - destruct (in_flight s) as [count|] eqn:Ef; [|eexists _, []; split; [done|]; by apply stays]. eexists _, []. split; [done|]. by apply failed_evolves.
  - eexists _, []. split; [done|]. by apply shutdown_evolves.
  - destruct (posted s) as [|n] eqn:Ep; [eexists _, []; split; [done|]; by apply stays|]. destruct (shut_evolves s n) as (s' & ? & ?); [done..|]. by exists s', [].
Qed.

Lemma run_evolves l : ∀ s, inv s → (∀ t, Tagged t ∈ l → sound t) → ∃ s' acc, run s l = Ok s' ∧ evolves s l s' acc.
Proof.
  induction l as [|e l IH]; intros s Hi Ht.
  - exists s, []. split; [done|]. by apply stays.
  - destruct (event_evolves s e Hi) as (s1 & acc1 & E1 & H1). { intros t ->. apply Ht. by constructor. }
    destruct (IH s1 (ev_inv _ _ _ _ H1)) as (s2 & acc2 & E2 & H2). { intros t Hin. apply Ht. by constructor. }
    exists s2, (acc1 ++ acc2). cbn [run]. rewrite E1. run. split; [done|]. by eapply evolves_trans.
Qed.

(** * What the client receives *)

Definition flag (b : bool) : Z := if b then 1 else 0.

Lemma opened a v : ∃ s, handle_request a v true true = Ok s ∧ inv s ∧ content s = flv_stream (flag a) (flag v) [] ∧ sent s = [] ∧ broken s = false
  ∧ output_ s = true ∧ started_ s = false ∧ posted s = 0%nat.
Proof. destruct a, v; (eexists; split; [reflexivity|]); split_and!; try done; unfold inv; split_and!; try done; cbn; lia. Qed.

Lemma stream_snoc a v acc : flv_stream a v [] ++ tags_stream acc = flv_stream a v acc.
Proof. unfold flv_stream at 1. unfold tags_stream at 1. cbn [map concat]. by rewrite app_nil_r, <- app_assoc. Qed.

(** The session from its beginning. *)
Lemma session_ok a v l : (∀ t, Tagged t ∈ l → sound t) → ∃ s0 s acc, handle_request a v true true = Ok s0 ∧ run s0 l = Ok s ∧ inv s
  ∧ acc `sublist_of` expected false l ∧ sent s `prefix_of` flv_stream (flag a) (flag v) acc
  ∧ (output_ s = true → posted s = 0%nat → acc = expected false l ∧ content s = flv_stream (flag a) (flag v) (expected false l)).
Proof.
  intros Ht. destruct (opened a v) as (s0 & E0 & Hi & Hc & Hsent & Hb & Ho & Hst & Hp). destruct (run_evolves l s0 Hi Ht) as (s & acc & E & Hev).
  destruct Hev as [I S C P _ _ A]. rewrite Hst in *. rewrite Hc, stream_snoc in *. exists s0, s, acc. split_and!; [done..|by apply P|].
  intros Hos Hps. destruct (A Hos) as (_ & _ & _ & Hd). rewrite Hp in Hd. destruct (Hd Hps) as [Hbs Hacc]. rewrite Hb in Hbs. destruct (C Hbs) as [_ Hcs].
  split; [done|]. by rewrite Hcs, <- Hacc.
Qed.

(** C23: whatever tags are dispatched to an HTTP-FLV session, and whatever its
    writes and its client do, the session never goes wrong; at most 4 MiB are queued
    and counted as queued; and what the client has received is the beginning of a
    stream of whole tags, in order: the file header and tags of those from the first
    key frame on, the sequence headers before it.  While the session has not been shut
    down none is missing, and once nothing is being written the client has them
    all. *)
Theorem http_flv_stream a v l :
  (∀ t, Tagged t ∈ l → sound t) →
  ∃ s0 s acc, handle_request a v true true = Ok s0 ∧ run s0 l = Ok s
    ∧ queued_output_bytes_ s = sizes (output_queue_ s) ∧ queued_output_bytes_ s ≤ max_queued_output_bytes_
    ∧ acc `sublist_of` expected false l ∧ sent s `prefix_of` flv_stream (flag a) (flag v) acc
    ∧ (output_ s = true → posted s = 0%nat → acc = expected false l ∧ (in_flight s = None → sent s = flv_stream (flag a) (flag v) acc)).
Proof.
  intros Ht. destruct (session_ok a v l Ht) as (s0 & s & acc & E0 & E & (Hn & Hmax & Hf & _) & Hs & Hp & Hall).
  exists s0, s, acc. split_and!; [done..|]. intros Ho Hz. destruct (Hall Ho Hz) as [-> Hc]. split; [done|]. intros Hnone. rewrite Hnone in Hf.
  unfold content in Hc. by rewrite Hf, app_nil_r in Hc.
Qed.

(** An inter frame before the key frame, then a tag while the first is written. *)
Definition demo_flv_tag (key : bool) (d : list Z) (time : Z) : flv_tag_t := FlvTag FLV_TYPE_VIDEO key d time (FlvHeaders (Some [0x17; 0; 0; 0; 0; 1]) None).
Definition demo_events : list event :=
  [Tagged (demo_flv_tag false [0x27; 1; 0; 0; 0; 7] 0); Wrote; Tagged (demo_flv_tag true [0x17; 1; 0; 0; 0; 8] 40); Tagged (demo_flv_tag false [0x27; 1; 0; 0; 0; 9] 80); Wrote; Wrote].

Lemma demo_sound t : Tagged t ∈ demo_events → sound t.
Proof.
  unfold demo_events. rewrite !elem_of_cons, elem_of_nil. intros H.
  assert (∃ key d time, t = demo_flv_tag key d time ∧ zlen d < 100 ∧ is_uint 32 time) as (key & d & time & -> & Hd & Htime).
  { destruct H as [[= ->]|[?|[[= ->]|[[= ->]|[?|[?|[]]]]]]]; try done; do 3 eexists; (split; [reflexivity|]); by_eval. }
  unfold sound, demo_flv_tag, FLV_TYPE_VIDEO. cbn. split_and!; [lia|lia|done|lia| |done]. by intros ? [= <-].
Qed.

Lemma http_flv_stream_witness :
  expected false demo_events = [Tag 9 [0x17; 0; 0; 0; 0; 1] 40; Tag 9 [0x17; 1; 0; 0; 0; 8] 40; Tag 9 [0x27; 1; 0; 0; 0; 9] 80]
  ∧ ∃ s0 s acc, handle_request false true true true = Ok s0 ∧ run s0 demo_events = Ok s
    ∧ queued_output_bytes_ s = sizes (output_queue_ s) ∧ queued_output_bytes_ s ≤ max_queued_output_bytes_
    ∧ acc `sublist_of` expected false demo_events ∧ sent s `prefix_of` flv_stream (flag false) (flag true) acc
    ∧ (output_ s = true → posted s = 0%nat → acc = expected false demo_events ∧ (in_flight s = None → sent s = flv_stream (flag false) (flag true) acc)).
Proof. split; [reflexivity|]. apply (http_flv_stream false true demo_events). exact demo_sound. Defined.

(** C6: a client, with an [alloc] that grants 16 MiB and refuses 2^63 bytes, of an
    HTTP-FLV session that has not been shut down and has nothing
    left to write hears from [flv_parser_input], whatever the pieces it receives,
    of the sequence headers and of each tag dispatched from the first key frame on,
    one after the other until its handler refuses one: of every tag what a reader
    of whole tags says of it ([listen]), which for audio and video tags of the
    classic format is what [flv_parser_tag] says; scripts come with their data, and
    the handler of an enhanced video tag is told the type of the packet for the
    codec. *)
Theorem http_flv_client_gets {A} handler alloc a v l pieces (x : A) s0 s :
  (∀ n, 0 ≤ n < 2 ^ 24 → ∃ b, alloc n = Some b ∧ zlen b = n) → (∀ n, 2 ^ 63 ≤ n < 2 ^ 64 → alloc n = None) →
  (∀ t, Tagged t ∈ l → sound t) → Forall streamable (expected false l) →
  handle_request a v true true = Ok s0 → run s0 l = Ok s → output_ s = true → posted s = 0%nat → in_flight s = None →
  concat pieces = sent s → Forall (λ c, zlen c < 2 ^ 62) pieces →
  match listen handler (expected false l) x with
  | Ok (r, x') => ∃ p, feed handler alloc flv_parser_zero pieces x = Ok (r, p, x') ∧ (r = 0 → state p = FLV_TAG_HEADER)
  | Ub => feed handler alloc flv_parser_zero pieces x = Ub
  | Fail _ => False
  end ∧
  ∀ (t : flv_tag) y, t ∈ expected false l →
    (classic t → flv_parser_tag handler audio_zero video_zero (t_type t) (t_data t) (zlen (t_data t)) (t_time t) y = listen_tag handler t y) ∧
    (t_type t = FLV_TYPE_SCRIPT → listen_tag handler t y = Ok (flv_parser_script handler (t_data t) (t_time t) y)) ∧
    (∀ b0 d, t_type t = FLV_TYPE_VIDEO → t_data t = b0 :: d → 128 ≤ b0 → b0 mod 16 < 7 →
       listen_tag handler t y = Ok (handler y (b0 mod 16) d (t_time t) (t_time t) (if b0 / 16 =? FLV_VIDEO_KEY_FRAME then 1 else 0))).
Proof.
  intros Ha Hr Ht Hfit E0 E Ho Hp Hf Hcat Hpieces. destruct (session_ok a v l Ht) as (s0' & s' & acc & E0' & E' & (_ & _ & Hf' & _) & _ & _ & Hall).
  rewrite E0 in E0'. injection E0' as <-. rewrite E in E'. injection E' as <-. destruct (Hall Ho Hp) as [_ Hc]. rewrite Hf in Hf'.
  unfold content in Hc. rewrite Hf', app_nil_r, <- Hcat in Hc. split.
  - pose proof (pieces_ok handler alloc Ha Hr pieces (flag a) (flag v) (expected false l) x Hc Hfit Hpieces) as H.
    destruct (listen handler _ x) as [| |[r x']]; [done..|]. destruct H as (p & H1 & H2). exists p. split; [done|]. intros Hr0. by destruct (H2 Hr0).
  - intros t y Hin. apply (tags_read handler t y). by apply (proj1 (list.Forall_forall _ _) Hfit t Hin).
Qed.

Lemma http_flv_client_gets_witness :
  let bytes := flv_stream 0 1 (expected false demo_events) in
  let heard := [(FLV_VIDEO_AVCC, [1], 40, 40, 0); (FLV_VIDEO_H264, [8], 40, 40, 1); (FLV_VIDEO_H264, [9], 80, 80, 0)] in
  listen keeps (expected false demo_events) [] = Ok (0, heard) ∧
  (∃ p, feed keeps heap flv_parser_zero (cut 50 bytes) [] = Ok (0, p, heard) ∧ (0 = 0 → state p = FLV_TAG_HEADER)) ∧
  ∀ (t : flv_tag) y, t ∈ expected false demo_events →
    (classic t → flv_parser_tag keeps audio_zero video_zero (t_type t) (t_data t) (zlen (t_data t)) (t_time t) y = listen_tag keeps t y) ∧
    (t_type t = FLV_TYPE_SCRIPT → listen_tag keeps t y = Ok (flv_parser_script keeps (t_data t) (t_time t) y)) ∧
    (∀ b0 d, t_type t = FLV_TYPE_VIDEO → t_data t = b0 :: d → 128 ≤ b0 → b0 mod 16 < 7 →
       listen_tag keeps t y = Ok (keeps y (b0 mod 16) d (t_time t) (t_time t) (if b0 / 16 =? FLV_VIDEO_KEY_FRAME then 1 else 0))).
Proof.
  split; [reflexivity|].
  eapply (http_flv_client_gets keeps heap false true demo_events (cut 50 _) []);
    [exact heap_allocates|exact heap_refuses|exact demo_sound|by_eval|reflexivity|vm_compute; reflexivity|..]; [reflexivity..|by_eval].
Defined.
