(* ===== verification/Doubles.v ===== *)
(** The C types double and float: the IEEE 754 operations of the Standard
    Library at their precision, and the conversions from and to integers. *)
From Stdlib Require Export SpecFloat.
From S2P Require Import Prelude.

Abbreviation double := spec_float.

Definition double_of_Z (n : Z) : double := binary_normalize 53 1024 n 0 false.
Definition double_add (x y : double) : double := SFadd 53 1024 x y.
Definition double_sub (x y : double) : double := SFsub 53 1024 x y.
Definition double_mul (x y : double) : double := SFmul 53 1024 x y.
Definition double_div (x y : double) : double := SFdiv 53 1024 x y.

Definition float_of_Z (n : Z) : spec_float := binary_normalize 24 128 n 0 false.
Definition float_mul (x y : spec_float) : spec_float := SFmul 24 128 x y.
Definition float_div (x y : spec_float) : spec_float := SFdiv 24 128 x y.

(** The integer part. *)
Definition trunc (x : spec_float) : option Z :=
  match x with
  | S754_zero _ => Some 0
  | S754_finite s m e =>
      let v := if 0 <=? e then Z.pos m * 2 ^ e else Z.pos m / 2 ^ (- e) in
      Some (if s then - v else v)
  | S754_infinity _ | S754_nan => None
  end.

(** Conversion to an integer type whose values are [lo] to [hi] - 1: undefined
    outside them. *)
Definition to_range (lo hi : Z) (x : spec_float) : outcome Z :=
  match trunc x with
  | Some v => if (lo <=? v) && (v <? hi) then Ok v else Ub
  | None => Ub
  end.
Definition to_int (x : spec_float) : outcome Z := to_range (- 2 ^ 31) (2 ^ 31) x.
Definition to_uint32 (x : spec_float) : outcome Z := to_range 0 (2 ^ 32) x.
