(* ===== verification/RtcpMember.v ===== *)
(** The participants of an RTP session: rtp-member.c and rtp-member-list.c of
    librtp/source with their headers.  Participants are shared: the session and
    its two lists hold pointers to them and count the references, so they live
    in a store, and a pointer is the name of an object in it.  [None] is the
    null pointer; the store has no entry for what has been freed.

    What the lists of participants do: a list represents a sequence of
    pointers, the operations are those of sequences, and the reference counts
    in the store are the references held. *)
From stdpp Require Export gmap.
From S2P Require Import Prelude Doubles.

(** * Data *)

Definition RTP_PROBATION : Z := 2.

Record rtcp_sr_t := RtcpSr {
  sr_ssrc : Z; sr_ntpmsw : Z; sr_ntplsw : Z; sr_rtpts : Z; sr_spc : Z; sr_soc : Z
}.

(** A source description item; [sd_data] is the block behind [data]. *)
Record rtcp_sdes_item_t := RtcpSdesItem { sd_pt : Z; sd_len : Z; sd_data : option (list Z) }.

Record rtp_member := RtpMember {
  ref : Z;
  ssrc : Z;
  rtcp_sr : rtcp_sr_t;
  sdes : list rtcp_sdes_item_t;
  rtcp_clock : Z;
  rtp_seq : Z;
  rtp_timestamp : Z;
  rtp_clock : Z;
  rtp_packets : Z;
  rtp_bytes : Z;
  jitter : double;
  rtp_packets0 : Z;
  rtp_expected0 : Z;
  rtp_probation : Z;
  rtp_seq_base : Z;
  rtp_seq_bad : Z;
  rtp_seq_cycles : Z
}.

(** The store: the objects, and the allocations made so far, which name them. *)
Record store := Store { objects : gmap Z rtp_member; allocations : Z }.

Definition load (h : store) (p : Z) : outcome rtp_member :=
  match objects h !! p with Some m => Ok m | None => Ub end.
Definition save (h : store) (p : Z) (m : rtp_member) : store :=
  Store (<[p := m]> (objects h)) (allocations h).

(** * rtp-member.c *)

Definition with_ref (m : rtp_member) (r : Z) : rtp_member :=
  RtpMember r (ssrc m) (rtcp_sr m) (sdes m) (rtcp_clock m) (rtp_seq m) (rtp_timestamp m)
    (rtp_clock m) (rtp_packets m) (rtp_bytes m) (jitter m) (rtp_packets0 m) (rtp_expected0 m)
    (rtp_probation m) (rtp_seq_base m) (rtp_seq_bad m) (rtp_seq_cycles m).
Definition with_sdes (m : rtp_member) (s : list rtcp_sdes_item_t) : rtp_member :=
  RtpMember (ref m) (ssrc m) (rtcp_sr m) s (rtcp_clock m) (rtp_seq m) (rtp_timestamp m)
    (rtp_clock m) (rtp_packets m) (rtp_bytes m) (jitter m) (rtp_packets0 m) (rtp_expected0 m)
    (rtp_probation m) (rtp_seq_base m) (rtp_seq_bad m) (rtp_seq_cycles m).

Definition fresh_member (ssrc : Z) : rtp_member :=
  RtpMember 1 ssrc (RtcpSr ssrc 0 0 0 0 0) (replicate 9 (RtcpSdesItem 0 0 None)) 0 0 0 0 0 0
    (S754_zero false) 0 0 RTP_PROBATION 0 0 0.

Section Member.
(** Whether the allocation with this number succeeds. *)
Variable alloc : Z → bool.

Definition rtp_member_create (h : store) (ssrc : Z) : option Z * store :=
  let n := allocations h in
  if alloc n then (Some n, Store (<[n := fresh_member ssrc]> (objects h)) (n + 1))
  else (None, Store (objects h) (n + 1)).

Definition rtp_member_addref (h : store) (p : Z) : outcome store :=
  m ← load h p;
  Ok (save h p (with_ref m (ref m + 1))).

(** The descriptions are freed with the member. *)
Definition rtp_member_release (h : store) (p : Z) : outcome store :=
  m ← load h p;
  let r := ref m - 1 in
  if r =? 0 then Ok (Store (delete p (objects h)) (allocations h))
  else Ok (save h p (with_ref m r)).

(** The end of [rtp_member_setvalue]: the copy into the block, which is
    [block], and the item's type and length. *)
Definition store_value (h : store) (p : Z) (m : rtp_member) (item : Z) (data : list Z) (bytes : Z)
    (block : option (list Z)) : outcome (Z * store) :=
  block ← (if bytes >? 0 then
             v ← slice data 0 bytes;
             d ← (match block with Some d => st d 0 v | None => Ub end);
             Ok (Some d)
           else Ok block);
  l ← st (sdes m) item [RtcpSdesItem (u8 item) (u8 bytes) block];
  Ok (0, save h p (with_sdes m l)).

Definition rtp_member_setvalue (h : store) (p : Z) (item : Z) (data : list Z) (bytes : Z)
  : outcome (Z * store) :=
  if (item <? 0) || (item >=? 9) || (bytes >? 255) then Ok (-1, h) else
  m ← load h p;
  s ← ld (sdes m) item;
  if bytes >? sd_len s then
    let h := Store (objects h) (allocations h + 1) in
    if alloc (allocations h - 1)
    then store_value h p m item data bytes (Some (realloc_cells bytes (default [] (sd_data s))))
    else Ok (-1, h)
  else store_value h p m item data bytes (sd_data s).

(** * rtp-member-list.c *)

Definition N_SOURCE : Z := 2.

(** [ml_ptr] is the allocated block: it has [ml_capacity] cells. *)
Record rtp_member_list := RtpMemberList {
  ml_members : list (option Z);
  ml_ptr : list (option Z);
  ml_count : Z;
  ml_capacity : Z
}.

Definition empty_member_list : rtp_member_list := RtpMemberList [None; None] [] 0 0.
Definition rtp_member_list_create : rtp_member_list := empty_member_list.

(** The pointer in a cell, which the code dereferences. *)
Definition cell (p : option Z) : outcome Z := match p with Some p => Ok p | None => Ub end.
Definition list_cell (l : rtp_member_list) (i : Z) : outcome Z :=
  c ← (if i >=? N_SOURCE then ld (ml_ptr l) (i - N_SOURCE) else ld (ml_members l) i);
  cell c.

Fixpoint release_from (n : nat) (i : Z) (h : store) (l : rtp_member_list) : outcome store :=
  match n with
  | O => Ok h
  | S n => p ← list_cell l i; h ← rtp_member_release h p; release_from n (i + 1) h l
  end.
Definition rtp_member_list_destroy (h : store) (l : rtp_member_list) : outcome store :=
  release_from (Z.to_nat (ml_count l)) 0 h l.

Definition rtp_member_list_count (l : rtp_member_list) : Z := ml_count l.

Definition rtp_member_list_get (l : rtp_member_list) (index : Z) : outcome (option Z) :=
  if (index >=? ml_count l) || (index <? 0) then Ok None
  else p ← list_cell l index; Ok (Some p).

(** The index and the member with the source, from index [i]. *)
Fixpoint find_from (n : nat) (i : Z) (h : store) (l : rtp_member_list) (id : Z) : outcome (option (Z * Z)) :=
  match n with
  | O => Ok None
  | S n =>
      p ← list_cell l i;
      m ← load h p;
      if ssrc m =? id then Ok (Some (i, p)) else find_from n (i + 1) h l id
  end.
Definition rtp_member_list_find (h : store) (l : rtp_member_list) (id : Z) : outcome (option Z) :=
  r ← find_from (Z.to_nat (ml_count l)) 0 h l id;
  Ok (match r with Some (_, p) => Some p | None => None end).

Definition rtp_member_list_add (h : store) (l : rtp_member_list) (p : Z)
  : outcome (Z * store * rtp_member_list) :=
  let add_ref h l := h ← rtp_member_addref h p; Ok (0, h, l) in
  if ml_count l >=? N_SOURCE then
    let put_ptr h block capacity :=
      block ← st block (ml_count l - N_SOURCE) [Some p];
      add_ref h (RtpMemberList (ml_members l) block (ml_count l + 1) capacity) in
    if ml_count l - N_SOURCE >=? ml_capacity l then
      let h := Store (objects h) (allocations h + 1) in
      if alloc (allocations h - 1)
      then put_ptr h (ml_ptr l ++ replicate 8 None) (ml_capacity l + 8)
      else Ok (- ENOMEM, h, l)
    else put_ptr h (ml_ptr l) (ml_capacity l)
  else
    m ← st (ml_members l) (ml_count l) [Some p];
    add_ref h (RtpMemberList m (ml_ptr l) (ml_count l + 1) (ml_capacity l)).

(** [memmove(m + to, m + from, n * sizeof)] *)
Definition memmove (m : list (option Z)) (to from n : Z) : outcome (list (option Z)) :=
  b ← slice m from n; st m to b.

(** The cells after those behind entry [i] have moved up by one. *)
Definition remove_entry (l : rtp_member_list) (i : Z) : outcome (list (option Z) * list (option Z)) :=
  if i <? N_SOURCE then
    m ← (if i + 1 <? N_SOURCE then memmove (ml_members l) i (i + 1) (N_SOURCE - i - 1) else Ok (ml_members l));
    if ml_count l >? N_SOURCE then
      c ← ld (ml_ptr l) 0;
      m ← st m (N_SOURCE - 1) [c];
      ptr ← memmove (ml_ptr l) 0 1 (ml_count l - N_SOURCE - 1);
      Ok (m, ptr)
    else Ok (m, ml_ptr l)
  else
    ptr ← (if i + 1 <? ml_count l
           then memmove (ml_ptr l) (i - N_SOURCE) (i + 1 - N_SOURCE) (ml_count l - i - 1)
           else Ok (ml_ptr l));
    Ok (ml_members l, ptr).

Definition rtp_member_list_delete (h : store) (l : rtp_member_list) (id : Z)
  : outcome (Z * store * rtp_member_list) :=
  r ← find_from (Z.to_nat (ml_count l)) 0 h l id;
  match r with
  | None => Ok (-1, h, l)
  | Some (i, p) =>
      '(m, ptr) ← remove_entry l i;
      h ← rtp_member_release h p;
      Ok (0, h, RtpMemberList m ptr (ml_count l - 1) (ml_capacity l))
  end.
End Member.

Open Scope Z_scope.

(** * Reference counts *)

(** How often the pointer occurs. *)
Fixpoint uses (p : Z) (l : list Z) : Z :=
  match l with [] => 0 | x :: l => (if decide (p = x) then 1 else 0) + uses p l end.

Lemma uses_app p l k : uses p (l ++ k) = uses p l + uses p k.
Proof. induction l; simpl; lia. Qed.

Lemma uses_nonneg p l : 0 ≤ uses p l.
Proof. induction l; simpl; [done|]. case_decide; lia. Qed.

Lemma uses_pos p l : 0 < uses p l ↔ p ∈ l.
Proof.
  induction l as [|x l IH]; simpl.
  - split; [lia|by intros ?%elem_of_nil].
  - rewrite elem_of_cons. pose proof (uses_nonneg p l). case_decide; naive_solver lia.
Qed.

Lemma uses_out p l : p ∉ l → uses p l = 0.
Proof. rewrite <- uses_pos. pose proof (uses_nonneg p l). lia. Qed.

#[global] Instance uses_perm p : Proper ((≡ₚ) ==> (=)) (uses p).
Proof. induction 1; simpl; lia. Qed.

(** A description: the block behind it has room for its length. *)
Definition item_ok (i : rtcp_sdes_item_t) : Prop :=
  0 ≤ sd_len i ≤ 255 ∧ sd_len i ≤ zlen (default [] (sd_data i)).

Record member_ok (m : rtp_member) : Prop := {
  ok_sdes : zlen (sdes m) = 9;
  ok_items : Forall item_ok (sdes m)
}.

(** The store holds the objects the references name and no other, each counting
    its references. *)
Record refs_ok (h : store) (rs : list Z) : Prop := {
  ok_object p m : objects h !! p = Some m →
    member_ok m ∧ ref m = uses p rs ∧ p < allocations h ∧ p ∈ rs;
  ok_held p : p ∈ rs → is_Some (objects h !! p)
}.

#[global] Instance refs_ok_perm h : Proper ((≡ₚ) ==> iff) (refs_ok h).
Proof.
  assert (∀ rs rs', rs ≡ₚ rs' → refs_ok h rs → refs_ok h rs') as H.
  { intros rs rs' E [H1 H2]. split.
    - intros p m Hp. destruct (H1 p m Hp) as (? & Hu & ? & Hin).
      rewrite (uses_perm p _ _ E) in Hu. rewrite E in Hin. done.
    - intros p Hp. rewrite <- E in Hp. by apply H2. }
  intros rs rs' E. split; apply H; [done|by symmetry].
Qed.

Lemma member_ok_fresh id : member_ok (fresh_member id).
Proof.
  split; [reflexivity|]. unfold fresh_member. cbn [sdes]. apply Forall_replicate.
  unfold item_ok. vm_compute. repeat split; discriminate.
Qed.

(** ** The store *)

Section Store.
Implicit Types (h : store) (rs : list Z).

Lemma load_held h rs p : refs_ok h rs → p ∈ rs → ∃ m, load h p = Ok m ∧ objects h !! p = Some m.
Proof. intros H Hp. destruct (ok_held _ _ H p Hp) as [m E]. exists m. unfold load. by rewrite E. Qed.

Lemma load_inv h p m : load h p = Ok m → objects h !! p = Some m.
Proof. unfold load. destruct (objects h !! p); congruence. Qed.

Lemma refs_ok_save h rs p m m' :
  refs_ok h rs → objects h !! p = Some m → member_ok m' → ref m' = ref m →
  refs_ok (save h p m') rs.
Proof.
  intros H Hp Hm Hr. destruct (ok_object _ _ H p m Hp) as (_ & Hu & Ha & Hin). split.
  - intros q n. simpl. destruct (decide (q = p)) as [->|Hq].
    + rewrite lookup_insert_eq. intros [= <-]. split_and!; congruence || done.
    + rewrite lookup_insert_ne by congruence. apply (ok_object _ _ H).
  - intros q Hq. simpl. destruct (decide (q = p)) as [->|Hne].
    + rewrite lookup_insert_eq. eauto.
    + rewrite lookup_insert_ne by congruence. by apply (ok_held _ _ H).
Qed.

(** An allocation that is not an object of the store. *)
Lemma refs_ok_allocate h rs : refs_ok h rs → refs_ok (Store (objects h) (allocations h + 1)) rs.
Proof.
  intros H. split; simpl.
  - intros p m Hp. destruct (ok_object _ _ H p m Hp) as (? & ? & ? & ?). split_and!; done || lia.
  - apply (ok_held _ _ H).
Qed.

Lemma rtp_member_create_ok (alloc : Z → bool) h rs id :
  refs_ok h rs → alloc (allocations h) = true →
  rtp_member_create alloc h id =
    (Some (allocations h), Store (<[allocations h := fresh_member id]> (objects h)) (allocations h + 1)) ∧
  refs_ok (Store (<[allocations h := fresh_member id]> (objects h)) (allocations h + 1)) (allocations h :: rs) ∧
  objects h !! allocations h = None.
Proof.
  intros H Ha. unfold rtp_member_create. rewrite Ha.
  assert (objects h !! allocations h = None) as Hn.
  { destruct (objects h !! allocations h) eqn:E; [|done]. apply (ok_object _ _ H) in E. lia. }
  assert (allocations h ∉ rs) as Hout by (intros [? ?]%(ok_held _ _ H); congruence).
  split_and!; [done| |done]. split; simpl.
  - intros p m. destruct (decide (p = allocations h)) as [->|Hp].
    + rewrite lookup_insert_eq. intros [= <-]. rewrite uses_out by done. simpl.
      split_and!; [apply member_ok_fresh|done|lia|constructor].
    + rewrite lookup_insert_ne by congruence. intros Hm.
      destruct (ok_object _ _ H p m Hm) as (? & ? & ? & ?).
      split_and!; [done|lia|lia|by constructor].
  - intros p [->|Hp]%elem_of_cons; [rewrite lookup_insert_eq; eauto|].
    rewrite lookup_insert_ne by congruence. by apply (ok_held _ _ H).
Qed.

Lemma rtp_member_addref_ok h rs p m :
  refs_ok h rs → objects h !! p = Some m →
  rtp_member_addref h p = Ok (save h p (with_ref m (ref m + 1))) ∧
  refs_ok (save h p (with_ref m (ref m + 1))) (p :: rs).
Proof.
  intros H Hp. unfold rtp_member_addref, load. rewrite Hp. split; [done|].
  destruct (ok_object _ _ H p m Hp) as ([? ?] & Hu & Ha & Hin). split; simpl.
  - intros q n. destruct (decide (q = p)) as [->|Hq].
    + rewrite lookup_insert_eq. intros [= <-]. split_and!; [by split|simpl; lia|done|constructor].
    + rewrite lookup_insert_ne by congruence. intros Hn.
      destruct (ok_object _ _ H q n Hn) as (? & ? & ? & ?). split_and!; [done|lia|done|by constructor].
  - intros q [->|Hq]%elem_of_cons; [rewrite lookup_insert_eq; eauto|].
    destruct (decide (q = p)) as [->|]; [rewrite lookup_insert_eq; eauto|].
    rewrite lookup_insert_ne by congruence. by apply (ok_held _ _ H).
Qed.

(** The last reference frees the object. *)
Lemma rtp_member_release_ok h rs p :
  refs_ok h (p :: rs) →
  ∃ h', rtp_member_release h p = Ok h' ∧ refs_ok h' rs ∧ allocations h' = allocations h ∧
        (∀ q, q ∈ rs → ssrc <$> objects h' !! q = ssrc <$> objects h !! q).
Proof.
  intros H. destruct (ok_held _ _ H p ltac:(constructor)) as [m Hp].
  destruct (ok_object _ _ H p m Hp) as ([? ?] & Hu & Ha & _).
  unfold rtp_member_release, load. rewrite Hp. cbn [mbind outcome_bind]. simpl in Hu.
  rewrite decide_True in Hu by done.
  destruct (Z.eqb_spec (ref m - 1) 0) as [E|E].
  - assert (p ∉ rs) as Hout by (rewrite <- uses_pos; lia).
    eexists. split; [done|]. split_and!; [|done|].
    + split; simpl.
      * intros q n. destruct (decide (q = p)) as [->|Hq]; [by rewrite lookup_delete_eq|].
        rewrite lookup_delete_ne by congruence. intros Hn.
        destruct (ok_object _ _ H q n Hn) as (? & Hr & ? & [?|?]%elem_of_cons); [done|].
        simpl in Hr. rewrite decide_False in Hr by done. split_and!; done || lia.
      * intros q Hq. rewrite lookup_delete_ne by congruence.
        apply (ok_held _ _ H). by constructor.
    + intros q Hq. simpl. by rewrite lookup_delete_ne by congruence.
  - assert (p ∈ rs) as Hin by (rewrite <- uses_pos; pose proof (uses_nonneg p rs); lia).
    eexists. split; [done|]. split_and!; [|done|].
    + split; simpl.
      * intros q n. destruct (decide (q = p)) as [->|Hq].
        { rewrite lookup_insert_eq. intros [= <-]. split_and!; [by split|simpl; lia|done|done]. }
        rewrite lookup_insert_ne by congruence. intros Hn.
        destruct (ok_object _ _ H q n Hn) as (? & Hr & ? & [?|?]%elem_of_cons); [done|].
        simpl in Hr. rewrite decide_False in Hr by done. split_and!; done || lia.
      * intros q Hq. destruct (decide (q = p)) as [->|]; [rewrite lookup_insert_eq; eauto|].
        rewrite lookup_insert_ne by congruence. apply (ok_held _ _ H). by constructor.
    + intros q Hq. simpl. destruct (decide (q = p)) as [->|].
      * rewrite lookup_insert_eq, Hp. done.
      * by rewrite lookup_insert_ne by congruence.
Qed.

(** A reference that is not the last. *)
Lemma rtp_member_release_kept h rs p m :
  refs_ok h (p :: rs) → p ∈ rs → objects h !! p = Some m →
  rtp_member_release h p = Ok (save h p (with_ref m (ref m - 1))).
Proof.
  intros H Hin Hp. destruct (ok_object _ _ H p m Hp) as (_ & Hu & _). simpl in Hu.
  rewrite decide_True in Hu by done. apply uses_pos in Hin.
  unfold rtp_member_release, load. rewrite Hp. run.
  destruct (Z.eqb_spec (ref m - 1) 0); [lia|done].
Qed.
End Store.

(** ** Descriptions *)

Lemma item_ok_put l i v : Forall item_ok l → 0 ≤ i < zlen l → item_ok v → Forall item_ok (put l i [v]).
Proof.
  intros. unfold put. rewrite !Forall_app, Forall_singleton.
  split_and!; [by apply Forall_take|done|by apply Forall_drop].
Qed.

Lemma store_value_ok h rs p m item data bytes block :
  refs_ok h rs → objects h !! p = Some m → 0 ≤ item < 9 → 0 ≤ bytes ≤ 255 → bytes ≤ zlen data →
  bytes ≤ zlen (default [] block) →
  ∃ h', store_value h p m item data bytes block = Ok (0, h') ∧ refs_ok h' rs ∧
        ssrc <$> objects h' = ssrc <$> objects h.
Proof.
  intros H Hp Hi Hb Hd Hl. destruct (ok_object _ _ H p m Hp) as ([Hs Hf] & _).
  unfold store_value.
  assert (∃ b, (if bytes >? 0 then v ← slice data 0 bytes;
                  d ← (match block with Some d => st d 0 v | None => Ub end); Ok (Some d)
                else Ok block) = Ok b ∧ bytes ≤ zlen (default [] b)) as (b & -> & Hbl).
  { destruct (Z.gtb_spec bytes 0); [|eauto].
    destruct block as [d|]; simpl in Hl; [|rewrite zlen_nil in Hl; lia].
    rewrite slice_ok by lia. run. rewrite st_ok by (rewrite ?zlen_sub; lia). eexists. split; [done|]. simpl.
    rewrite zlen_put; rewrite ?zlen_sub; lia. }
  run. rewrite st_ok by (rewrite ?zlen_cons, ?zlen_nil; lia). run.
  eexists. split; [done|]. split.
  - eapply refs_ok_save; [done..| |done]. split; cbn [sdes with_sdes].
    + rewrite zlen_put; rewrite ?zlen_cons, ?zlen_nil; lia.
    + apply item_ok_put; [done|lia|]. split; cbn [sd_len sd_data]; rewrite u8_id by (unfold is_uint; lia); lia.
  - simpl. rewrite fmap_insert. apply insert_id. by rewrite lookup_fmap, Hp.
Qed.

(** Storing the value of a description fails for lack of memory only. *)
Lemma rtp_member_setvalue_ok alloc h rs p m item data bytes :
  refs_ok h rs → objects h !! p = Some m → 0 ≤ item < 9 → 0 ≤ bytes ≤ 255 → bytes ≤ zlen data →
  ∃ r h', rtp_member_setvalue alloc h p item data bytes = Ok (r, h') ∧ refs_ok h' rs ∧
          ssrc <$> objects h' = ssrc <$> objects h.
Proof.
  intros H Hp Hi Hb Hd. unfold rtp_member_setvalue, load.
  destruct (Z.ltb_spec item 0), (Z.geb_spec item 9), (Z.gtb_spec bytes 255); try lia.
  cbn [orb]. rewrite Hp. run.
  destruct (ok_object _ _ H p m Hp) as ([Hs Hf] & _).
  assert (Inhabited rtcp_sdes_item_t) by (constructor; exact (RtcpSdesItem 0 0 None)).
  rewrite ld_ok by lia. run. set (s := sdes m !!! Z.to_nat item).
  assert (item_ok s) as [Hs1 Hs2].
  { apply (Forall_lookup_total_1 _ _ (Z.to_nat item) Hf). unfold zlen in Hs. lia. }
  destruct (Z.gtb_spec bytes (sd_len s)); [destruct (alloc _)|].
  - destruct (store_value_ok (Store (objects h) (allocations h + 1)) rs p m item data bytes
      (Some (realloc_cells bytes (default [] (sd_data s))))) as (h' & ? & ?);
      [by apply refs_ok_allocate|done..| |by exists 0, h'].
    simpl. rewrite zlen_realloc_cells; lia.
  - do 2 eexists. split; [done|]. split; [by apply refs_ok_allocate|done].
  - destruct (store_value_ok h rs p m item data bytes (sd_data s)) as (h' & ? & ?); [done..|lia|].
    by exists 0, h'.
Qed.

(** * Lists *)

(** The list holds the pointers [ps]: the first two in its own cells, the rest
    in its block. *)
Record list_ok (l : rtp_member_list) (ps : list Z) : Prop := {
  ok_own : zlen (ml_members l) = N_SOURCE;
  ok_block : zlen (ml_ptr l) = ml_capacity l;
  ok_count : ml_count l = zlen ps;
  ok_cells (j : nat) p : ps !! j = Some p → (ml_members l ++ ml_ptr l) !! j = Some (Some p)
}.

Lemma list_ok_empty : list_ok empty_member_list [].
Proof. split; try reflexivity. intros ? ? ?. done. Qed.

Section Lists.
Implicit Types (l : rtp_member_list) (ps : list Z) (h : store).

Lemma list_ok_capacity l ps : list_ok l ps → zlen ps ≤ N_SOURCE + ml_capacity l.
Proof.
  intros [Ho Hb Hc Hl]. pose proof (zlen_nonneg (ml_ptr l)).
  destruct (decide (zlen ps = 0)) as [|Hn]; [unfold N_SOURCE in *; lia|].
  assert (is_Some (ps !! pred (length ps))) as [p Hp] by (apply lookup_lt_is_Some_2; unfold zlen in *; lia).
  specialize (Hl _ _ Hp). apply lookup_lt_Some in Hl. rewrite length_app in Hl.
  unfold zlen in *. lia.
Qed.

(** The two places of a cell are one sequence. *)
Lemma ld_cells l i : zlen (ml_members l) = N_SOURCE → 0 ≤ i →
  (if i >=? N_SOURCE then ld (ml_ptr l) (i - N_SOURCE) else ld (ml_members l) i)
  = ld (ml_members l ++ ml_ptr l) i.
Proof.
  intros Hm Hi. unfold ld, zlen, N_SOURCE in *.
  destruct (Z.geb_spec i 2), (Z.ltb_spec i 0); try lia.
  - destruct (Z.ltb_spec (i - 2) 0); [lia|].
    rewrite lookup_app_r by lia. by replace (Z.to_nat i - length (ml_members l))%nat with (Z.to_nat (i - 2)) by lia.
  - by rewrite lookup_app_l by lia.
Qed.

Lemma list_cell_ok l ps (j : nat) p : list_ok l ps → ps !! j = Some p → list_cell l (Z.of_nat j) = Ok p.
Proof.
  intros H Hj. unfold list_cell. rewrite ld_cells by (apply H || lia).
  unfold ld. destruct (Z.ltb_spec (Z.of_nat j) 0); [lia|].
  rewrite Nat2Z.id, (ok_cells _ _ H j p Hj). done.
Qed.

Lemma rtp_member_list_get_ok l ps (j : nat) p :
  list_ok l ps → ps !! j = Some p → rtp_member_list_get l (Z.of_nat j) = Ok (Some p).
Proof.
  intros H Hj. unfold rtp_member_list_get. apply lookup_lt_Some in Hj as Hlt.
  pose proof (ok_count _ _ H). unfold zlen in *.
  destruct (Z.geb_spec (Z.of_nat j) (ml_count l)), (Z.ltb_spec (Z.of_nat j) 0); try lia.
  cbn [orb]. by rewrite (list_cell_ok _ _ _ _ H Hj).
Qed.

(** ** Searching *)

(** The source of the object behind a pointer. *)
Definition source_of h (p : Z) : option Z := ssrc <$> objects h !! p.
Definition has_source h (id p : Z) : Prop := source_of h p = Some id.
#[global] Instance has_source_dec h id p : Decision (has_source h id p).
Proof. unfold has_source. apply _. Defined.

Lemma find_from_ok h l ps id k :
  list_ok l ps → (∀ p, p ∈ ps → is_Some (objects h !! p)) → (k ≤ length ps)%nat →
  find_from (length ps - k) (Z.of_nat k) h l id =
    Ok (prod_map (λ j, Z.of_nat (k + j)) (λ p, p) <$> list_find (has_source h id) (drop k ps)).
Proof.
  intros H Hh. remember (length ps - k)%nat as n eqn:En. revert k En.
  induction n as [|n IH]; intros k En Hk.
  - rewrite drop_ge by lia. done.
  - destruct (lookup_lt_is_Some_2 ps k) as [p Hp]; [lia|].
    rewrite (drop_S ps p k Hp). cbn [find_from list_find].
    rewrite (list_cell_ok _ _ _ _ H Hp). run.
    destruct (Hh p) as [m Hm]; [by eapply list_elem_of_lookup_2|].
    unfold load. rewrite Hm. run.
    destruct (Z.eqb_spec (ssrc m) id) as [E|E].
    + rewrite decide_True by (unfold has_source, source_of; rewrite Hm; simpl; congruence).
      simpl. by rewrite Nat.add_0_r.
    + rewrite decide_False by (unfold has_source, source_of; rewrite Hm; simpl; congruence).
      replace (Z.of_nat k + 1) with (Z.of_nat (S k)) by lia.
      rewrite IH by lia. f_equal.
      destruct (list_find _ _) as [[j q]|]; simpl; [|done]. do 3 f_equal. lia.
Qed.

Lemma find_entry_ok h l ps id :
  list_ok l ps → (∀ p, p ∈ ps → is_Some (objects h !! p)) →
  find_from (Z.to_nat (ml_count l)) 0 h l id =
    Ok (prod_map Z.of_nat (λ p, p) <$> list_find (has_source h id) ps).
Proof.
  intros H Hh. pose proof (find_from_ok h l ps id 0 H Hh ltac:(lia)) as E.
  rewrite Nat.sub_0_r in E. rewrite (ok_count _ _ H). unfold zlen. rewrite Nat2Z.id.
  exact E.
Qed.

Lemma rtp_member_list_find_ok h l ps id :
  list_ok l ps → (∀ p, p ∈ ps → is_Some (objects h !! p)) →
  rtp_member_list_find h l id = Ok (snd <$> list_find (has_source h id) ps).
Proof.
  intros H Hh. unfold rtp_member_list_find. rewrite find_entry_ok with (ps := ps) by done. run.
  by destruct (list_find _ _) as [[j q]|].
Qed.

(** ** Adding *)

Lemma put_single {A} (m : list A) i x : 0 ≤ i < zlen m → put m i [x] = <[Z.to_nat i := x]> m.
Proof.
  intros Hi. unfold put, zlen in *. rewrite insert_take_drop by lia. simpl. do 3 f_equal. lia.
Qed.

(** One pointer more, in the cell after the others. *)
Lemma list_ok_snoc l ps p m ptr c cells :
  list_ok l ps → zlen m = N_SOURCE → zlen ptr = c →
  m ++ ptr = <[length ps := Some p]> cells → (length ps < length cells)%nat →
  (∀ (j : nat) q, ps !! j = Some q → cells !! j = Some (Some q)) →
  list_ok (RtpMemberList m ptr (ml_count l + 1) c) (ps ++ [p]).
Proof.
  intros H Hm Hp E Hlt Hold. split; cbn [ml_members ml_ptr ml_count ml_capacity]; [done..| |].
  - rewrite (ok_count _ _ H). llia.
  - intros j q. rewrite E. intros [Hj|[Hle Hj]]%lookup_app_Some.
    + rewrite list_lookup_insert_ne by (apply lookup_lt_Some in Hj; lia). by apply Hold.
    + apply list_lookup_singleton_Some in Hj as [Ej <-].
      replace j with (length ps) by lia. by apply list_lookup_insert_eq.
Qed.

(** In the block, whose cells follow the two own ones. *)
Lemma list_ok_snoc_block l ps p ptr c :
  list_ok l ps → N_SOURCE ≤ zlen ps < N_SOURCE + zlen ptr → zlen ptr = c →
  (∀ (j : nat) q, ps !! j = Some q → (ml_members l ++ ptr) !! j = Some (Some q)) →
  list_ok (RtpMemberList (ml_members l) (put ptr (ml_count l - N_SOURCE) [Some p]) (ml_count l + 1) c) (ps ++ [p]).
Proof.
  intros H Hn Hc Hold. pose proof (ok_own _ _ H) as Ho. rewrite (ok_count _ _ H) at 1.
  unfold N_SOURCE in *. rewrite put_single by lia. unfold zlen in *.
  eapply list_ok_snoc; [done|done| | | |exact Hold].
  - unfold zlen. by rewrite length_insert.
  - rewrite insert_app_r_alt by lia. do 2 f_equal. lia.
  - rewrite length_app. lia.
Qed.

Lemma list_ok_snoc_own l ps p :
  list_ok l ps → zlen ps < N_SOURCE →
  list_ok (RtpMemberList (put (ml_members l) (ml_count l) [Some p]) (ml_ptr l) (ml_count l + 1) (ml_capacity l))
    (ps ++ [p]).
Proof.
  intros H Hn. pose proof (ok_own _ _ H) as Ho. pose proof (ok_count _ _ H) as Hc. pose proof (zlen_nonneg ps).
  unfold N_SOURCE in *. rewrite put_single by lia.
  eapply list_ok_snoc; [done| |apply H| | |apply (ok_cells _ _ H)]; unfold zlen, N_SOURCE in *.
  - by rewrite length_insert.
  - rewrite insert_app_l by lia. do 2 f_equal. lia.
  - rewrite length_app. lia.
Qed.

(** Adding a pointer, or a block that cannot grow. *)
Lemma rtp_member_list_add_ok alloc h l ps rs p m :
  list_ok l ps → refs_ok h rs → objects h !! p = Some m →
  (∃ h' l', rtp_member_list_add alloc h l p = Ok (0, h', l') ∧ list_ok l' (ps ++ [p]) ∧
            refs_ok h' (p :: rs) ∧ objects h' = <[p := with_ref m (ref m + 1)]> (objects h)) ∨
  (∃ n h', rtp_member_list_add alloc h l p = Ok (- ENOMEM, h', l) ∧ alloc n = false ∧
           refs_ok h' rs ∧ objects h' = objects h).
Proof.
  intros H Hr Hp. pose proof (list_ok_capacity _ _ H) as Hcap. pose proof (zlen_nonneg ps).
  pose proof (ok_own _ _ H) as Hown. pose proof (ok_block _ _ H) as Hblk.
  pose proof (ok_count _ _ H) as Hn. pose proof (ok_cells _ _ H) as Hc.
  assert (∀ k l', refs_ok k rs → objects k = objects h → list_ok l' (ps ++ [p]) →
    ∃ h' l0, (h ← rtp_member_addref k p; Ok (0, h, l')) = Ok (0, h', l0) ∧
      list_ok l0 (ps ++ [p]) ∧ refs_ok h' (p :: rs) ∧
      objects h' = <[p := with_ref m (ref m + 1)]> (objects h)) as Hadd.
  { intros k l' Hk Ek Hl. destruct (rtp_member_addref_ok k rs p m Hk) as [-> ?]; [by rewrite Ek|].
    run. do 2 eexists. split; [done|]. split_and!; [done..|]. simpl. by rewrite Ek. }
  assert (∀ A (x : A), zlen [x] = 1) as H1 by done.
  assert (zlen (ml_ptr l ++ replicate 8 None) = ml_capacity l + 8) as H8 by (rewrite zlen_app; unfold zlen at 2; simpl; lia).
  unfold rtp_member_list_add.
  destruct (Z.geb_spec (ml_count l) N_SOURCE) as [H2|H2]; [|left].
  - destruct (Z.geb_spec (ml_count l - N_SOURCE) (ml_capacity l)) as [H3|H3]; [destruct (alloc _) eqn:Ea|left].
    + left. rewrite st_ok by (rewrite ?H1; lia). run.
      apply Hadd; [by apply refs_ok_allocate|done|]. apply list_ok_snoc_block; [done|lia|lia|].
      intros j q Hj. rewrite app_assoc. apply lookup_app_l_Some. by apply Hc.
    + right. do 2 eexists. split; [done|]. split_and!; [done|by apply refs_ok_allocate|done].
    + rewrite st_ok by (rewrite ?H1; lia). run.
      apply Hadd; [done|done|]. apply list_ok_snoc_block; [done|lia|done|done].
  - rewrite st_ok by (rewrite ?H1; lia). run.
    apply Hadd; [done|done|]. apply list_ok_snoc_own; [done|lia].
Qed.

(** ** Deleting *)

Lemma memmove_ok (m : list (option Z)) k n : 0 ≤ k → 0 ≤ n → k + 1 + n ≤ zlen m →
  ∃ m', memmove m k (k + 1) n = Ok m' ∧ zlen m' = zlen m ∧
        ∀ j : nat, Z.of_nat j < k + n → m' !! j = m !! (if decide (Z.of_nat j < k) then j else S j).
Proof.
  intros Hk Hn Hl. unfold memmove. rewrite slice_ok by lia. run.
  pose proof (zlen_sub m (k + 1) n ltac:(lia) Hn Hl) as Hs.
  rewrite st_ok by lia. eexists. split; [done|]. split; [by rewrite zlen_put by lia|].
  intros j Hj. case_decide.
  - apply put_lookup_out; lia.
  - unfold put, zlen in *.
    rewrite lookup_app_r by (rewrite length_take; lia).
    rewrite lookup_app_l by (rewrite length_take; lia).
    rewrite length_take, lookup_sub by lia. f_equal. lia.
Qed.

Lemma list_ok_delete l ps (i : nat) m ptr :
  list_ok l ps → (i < length ps)%nat → zlen m = N_SOURCE → zlen ptr = ml_capacity l →
  (∀ j : nat, (S j < length ps)%nat →
     (m ++ ptr) !! j = (ml_members l ++ ml_ptr l) !! (if decide (j < i)%nat then j else S j)) →
  list_ok (RtpMemberList m ptr (ml_count l - 1) (ml_capacity l)) (delete i ps).
Proof.
  intros H Hi Hm Hp Hl.
  assert (S (length (delete i ps)) = length ps) as El.
  { rewrite length_delete by (by apply lookup_lt_is_Some_2). lia. }
  pose proof (ok_count _ _ H).
  split; cbn [ml_members ml_ptr ml_count ml_capacity]; [done|done|unfold zlen in *; lia|].
  intros j p Hj. apply lookup_lt_Some in Hj as Hlt. rewrite Hl by lia.
  rewrite list_lookup_delete in Hj. by apply (ok_cells _ _ H).
Qed.

Lemma length_2 {A} (m : list A) : zlen m = 2 → ∃ a b, m = [a; b].
Proof. unfold zlen. destruct m as [|a [|b [|]]]; simpl; intros; try lia. eauto. Qed.

Lemma remove_own_ok l ps (i : nat) :
  list_ok l ps → (i < length ps)%nat → (i < 2)%nat →
  ∃ m ptr, remove_entry l (Z.of_nat i) = Ok (m, ptr) ∧
           list_ok (RtpMemberList m ptr (ml_count l - 1) (ml_capacity l)) (delete i ps).
Proof.
  intros H Hi Hi2. pose proof (list_ok_capacity _ _ H) as Hcap.
  pose proof (ok_block _ _ H) as Hb. pose proof (ok_count _ _ H) as Hn.
  destruct (length_2 _ (ok_own _ _ H)) as (a & b & Em).
  unfold remove_entry, zlen, N_SOURCE in *. rewrite Em.
  destruct (Z.ltb_spec (Z.of_nat i) 2); [|lia].
  assert ((if Z.of_nat i + 1 <? 2 then memmove [a; b] (Z.of_nat i) (Z.of_nat i + 1) (2 - Z.of_nat i - 1)
           else Ok [a; b]) = Ok (if decide (i = 0)%nat then [b; b] else [a; b])) as ->.
  { destruct i as [|[|]]; [done|done|lia]. }
  run. destruct (Z.gtb_spec (ml_count l) 2) as [H2|H2].
  - destruct (ml_ptr l) as [|c ptr] eqn:Ep; [simpl in *; lia|].
    change (ld (c :: ptr) 0) with (Ok c). run.
    destruct (memmove_ok (c :: ptr) 0 (ml_count l - 2 - 1)) as (ptr' & E & El & Hl); [lia|lia|unfold zlen; simpl in *; lia|].
    assert (st (if decide (i = 0)%nat then [b; b] else [a; b]) (2 - 1) [c] =
            Ok (if decide (i = 0)%nat then [b; c] else [a; c])) as -> by (case_decide; done).
    run. change (0 + 1) with 1 in E. rewrite E. run. do 2 eexists. split; [done|].
    apply list_ok_delete; [done|done|by case_decide|unfold zlen in *; lia|].
    rewrite Em, Ep. intros j Hj. destruct j as [|[|j]].
    + by destruct i as [|[|]]; [..|lia].
    + by destruct i as [|[|]]; [..|lia].
    + specialize (Hl j ltac:(lia)). destruct (decide (S (S j) < i)%nat); [lia|].
      rewrite decide_False in Hl by lia. case_decide; simpl; exact Hl.
  - do 2 eexists. split; [done|]. apply list_ok_delete; [done|done|by case_decide|done|].
    rewrite Em. intros j Hj. destruct i as [|[|]], j as [|]; simpl; done || lia.
Qed.

Lemma remove_block_ok l ps (i : nat) :
  list_ok l ps → (i < length ps)%nat → (2 ≤ i)%nat →
  ∃ m ptr, remove_entry l (Z.of_nat i) = Ok (m, ptr) ∧
           list_ok (RtpMemberList m ptr (ml_count l - 1) (ml_capacity l)) (delete i ps).
Proof.
  intros H Hi Hi2. pose proof (list_ok_capacity _ _ H) as Hcap.
  pose proof (ok_own _ _ H) as Ho. pose proof (ok_block _ _ H) as Hb. pose proof (ok_count _ _ H) as Hn.
  unfold remove_entry, N_SOURCE in *. destruct (Z.ltb_spec (Z.of_nat i) 2); [lia|].
  assert (∃ ptr, (if Z.of_nat i + 1 <? ml_count l
      then memmove (ml_ptr l) (Z.of_nat i - 2) (Z.of_nat i + 1 - 2) (ml_count l - Z.of_nat i - 1)
      else Ok (ml_ptr l)) = Ok ptr ∧ zlen ptr = ml_capacity l ∧
    ∀ j : nat, (S (j + 2) < length ps)%nat → ptr !! j = ml_ptr l !! (if decide (j + 2 < i)%nat then j else S j))
    as (ptr & -> & Ec & Hl).
  { unfold zlen in *. destruct (Z.ltb_spec (Z.of_nat i + 1) (ml_count l)).
    - destruct (memmove_ok (ml_ptr l) (Z.of_nat i - 2) (ml_count l - Z.of_nat i - 1)) as (ptr & E & El & Hl);
        [lia|lia|unfold zlen; lia|].
      replace (Z.of_nat i + 1 - 2) with (Z.of_nat i - 2 + 1) by lia.
      exists ptr. split_and!; [done|unfold zlen in *; lia|]. intros j Hj. rewrite Hl by lia.
      repeat case_decide; done || lia.
    - exists (ml_ptr l). split_and!; [done|done|]. intros j Hj. by rewrite decide_True by lia. }
  run. do 2 eexists. split; [done|]. apply list_ok_delete; [done|done|done|done|].
  intros j Hj. unfold zlen in *. destruct (decide (j < 2)%nat).
  - rewrite decide_True by lia. by rewrite !lookup_app_l by lia.
  - rewrite lookup_app_r by lia. rewrite Hl by lia. repeat case_decide; try lia.
    + by rewrite lookup_app_r by lia.
    + rewrite lookup_app_r by lia. f_equal. lia.
Qed.

(** Deleting a source: its first entry goes, with its reference. *)
Lemma rtp_member_list_delete_ok h l ps rs id :
  list_ok l ps → refs_ok h (ps ++ rs) →
  ∃ r h' l', rtp_member_list_delete h l id = Ok (r, h', l') ∧
    match list_find (has_source h id) ps with
    | None => r = -1 ∧ h' = h ∧ l' = l
    | Some (i, p) => r = 0 ∧ list_ok l' (delete i ps) ∧ refs_ok h' (delete i ps ++ rs) ∧
        (∀ q, q ∈ delete i ps ++ rs → source_of h' q = source_of h q)
    end.
Proof.
  intros H Hr. unfold rtp_member_list_delete.
  rewrite find_entry_ok with (ps := ps); [|done|].
  2:{ intros p Hp. apply (ok_held _ _ Hr). set_solver. }
  run. destruct (list_find (has_source h id) ps) as [[i p]|] eqn:E; cbn [fmap option_fmap option_map prod_map].
  2:{ do 3 eexists. split; done. }
  apply list_find_Some in E as (Hi & _ & _). apply lookup_lt_Some in Hi as Hlt.
  assert (∃ m ptr, remove_entry l (Z.of_nat i) = Ok (m, ptr) ∧
    list_ok (RtpMemberList m ptr (ml_count l - 1) (ml_capacity l)) (delete i ps)) as (m & ptr & E & Hl).
  { destruct (decide (i < 2)%nat); [by apply remove_own_ok|apply remove_block_ok; done || lia]. }
  cbn [fst snd]. rewrite E. run.
  rewrite (delete_Permutation ps i p Hi) in Hr.
  destruct (rtp_member_release_ok h (delete i ps ++ rs) p Hr) as (h' & -> & Hr' & _ & Hs).
  run. do 3 eexists. split; [done|]. split_and!; done.
Qed.
End Lists.
