(* ===== verification/RtcpContext.v ===== *)
(** An RTP session: the context of rtp-internal.h, the messages of rtp.h and
    rtcp-header.h, and looking participants up (rtcp.c). *)
From S2P Require Import Prelude Doubles RtpPacket RtcpMember.
Open Scope Z_scope.

(** * rtcp-header.h *)

Definition RTCP_V (v : Z) : Z := Z.land (Z.shiftr v 30) 3.
Definition RTCP_P (v : Z) : Z := Z.land (Z.shiftr v 29) 1.
Definition RTCP_RC (v : Z) : Z := Z.land (Z.shiftr v 24) 31.
Definition RTCP_PT (v : Z) : Z := Z.land (Z.shiftr v 16) 255.
Definition RTCP_LEN (v : Z) : Z := Z.land v 65535.

Definition RTCP_SR : Z := 200.
Definition RTCP_RR : Z := 201.
Definition RTCP_SDES : Z := 202.
Definition RTCP_BYE : Z := 203.
Definition RTCP_APP : Z := 204.
Definition RTCP_RTPFB : Z := 205.
Definition RTCP_PSFB : Z := 206.
Definition RTCP_XR : Z := 207.

Definition RTCP_SDES_END : Z := 0.
Definition RTCP_SDES_CNAME : Z := 1.
Definition RTCP_SDES_NAME : Z := 2.
Definition RTCP_SDES_NOTE : Z := 7.
Definition RTCP_SDES_PRIVATE : Z := 8.

Record rtcp_header_t := RtcpHeader { rh_v : Z; rh_p : Z; rh_rc : Z; rh_pt : Z; rh_length : Z }.

Record rtcp_rb_t := RtcpRb {
  rb_ssrc : Z; rb_fraction : Z; rb_cumulative : Z; rb_exthsn : Z; rb_jitter : Z; rb_lsr : Z; rb_dlsr : Z
}.
Record rtcp_sli_t := RtcpSli { sli_first : Z; sli_number : Z; sli_picture_id : Z }.
Record rtcp_fir_t := RtcpFir { fir_ssrc : Z; fir_sn : Z; fir_index : Z }.
Record rtcp_vbcm_t := RtcpVbcm {
  vbcm_ssrc : Z; vbcm_sn : Z; vbcm_pt : Z; vbcm_len : Z; vbcm_payload : list Z
}.
Record rtcp_lrr_t := RtcpLrr {
  lrr_ssrc : Z; lrr_sn : Z; lrr_c : Z; lrr_payload : Z;
  lrr_ttid : Z; lrr_tlid : Z; lrr_ctid : Z; lrr_clid : Z
}.
Record rtcp_nack_t := RtcpNack { nack_pid : Z; nack_blp : Z }.
Record rtcp_tmmbr_t := RtcpTmmbr { tmmbr_ssrc : Z; tmmbr_exp : Z; tmmbr_mantissa : Z; tmmbr_overhead : Z }.
Record rtcp_ecn_t := RtcpEcn {
  ext_highest_seq : Z; ect0 : Z; ect1 : Z;
  ect_ce_counter : Z; not_ect_counter : Z; lost_packets_counter : Z; duplication_counter : Z
}.
Record rtcp_remb_t := RtcpRemb { remb_ssrc : Z; remb_exp : Z; remb_mantissa : Z }.
Record rtcp_ccfb_t := RtcpCcfb { ccfb_seq : Z; ccfb_received : Z; ccfb_ecn : Z; ccfb_ato : Z }.
Record rtcp_dlrr_t := RtcpDlrr { dlrr_ssrc : Z; dlrr_lrr : Z; dlrr_dlrr : Z }.

(** * rtp.h *)

(** The member of the union a message uses, with the fields the code assigns. *)
Inductive rtcp_msg_u :=
  | MsgReport (rb : rtcp_rb_t)
  | MsgSdes (pt len : Z) (data : list Z)
  | MsgBye (reason : option (list Z)) (bytes : Z)
  | MsgApp (subtype : Z) (name data : list Z) (bytes : Z)
  | MsgNack (media : Z) (nack : list rtcp_nack_t) (count : Z)
  | MsgTmmbr (media : Z) (tmmbr : list rtcp_tmmbr_t) (count : Z)
  | MsgEcnFeedback (media : Z) (ecn : rtcp_ecn_t)
  | MsgPs (media target cmd len id : Z) (payload : list Z)
  | MsgDbi (media delay s q : Z)
  | MsgCcfb (media timestamp ssrc begin : Z) (ccfb : list rtcp_ccfb_t) (count : Z)
  | MsgTcc01 (media timestamp begin cc : Z) (ccfb : list rtcp_ccfb_t) (count : Z)
  | MsgPli (media : Z)
  | MsgSli (media : Z) (sli : list rtcp_sli_t) (count : Z)
  | MsgRpsi (media pt len : Z) (payload : list Z)
  | MsgFir (media : Z) (fir : list rtcp_fir_t) (count : Z)
  | MsgVbcm (media : Z) (vbcm : rtcp_vbcm_t)
  | MsgPslei (media : Z) (ssrc : list Z) (count : Z)
  | MsgLrr (media : Z) (lrr : list rtcp_lrr_t) (count : Z)
  | MsgRemb (media : Z) (remb : list rtcp_remb_t) (count : Z)
  | MsgRle (source begin end_ : Z) (chunk : list Z) (count : Z)
  | MsgPrt (source begin end_ : Z) (timestamp : list Z) (count : Z)
  | MsgRrt (ntp : Z)
  | MsgDlrr (dlrr : list rtcp_dlrr_t) (count : Z)
  | MsgXrEcn (ecn : rtcp_ecn_t).

Record rtcp_msg_t := RtcpMsg { msg_type : Z; msg_ssrc : Z; msg_u : rtcp_msg_u }.

(** * rtp-internal.h *)

(** [app] is the object behind [cbparam]; [heap] holds the participants. *)
Record rtp_context (V : Type) := RtpContext {
  app : V;
  heap : store;
  members : rtp_member_list;
  senders : rtp_member_list;
  self : Z;
  avg_rtcp_size : Z;
  rtcp_bw : Z;
  rtcp_cycle : Z;
  frequence : Z;
  init : Z;
  role : Z
}.
Arguments RtpContext {V}. Arguments app {V}. Arguments heap {V}. Arguments members {V}.
Arguments senders {V}. Arguments self {V}. Arguments avg_rtcp_size {V}. Arguments rtcp_bw {V}.
Arguments rtcp_cycle {V}. Arguments frequence {V}. Arguments init {V}. Arguments role {V}.

(** [x[i] = f i] for [n] indices from [i], in an array of [cells]. *)
Section Fill.
Context {A : Type}.
Fixpoint fill (n : nat) (i cells : Z) (f : Z → outcome A) : outcome (list A) :=
  match n with
  | O => Ok []
  | S n =>
      if i <? cells then x ← f i; l ← fill n (i + 1) cells f; Ok (x :: l) else Ub
  end.
End Fill.

Section Context.
Context {V : Type}.
Implicit Types c : rtp_context V.

Definition set_app c (v : V) : rtp_context V :=
  RtpContext v (heap c) (members c) (senders c) (self c) (avg_rtcp_size c) (rtcp_bw c)
    (rtcp_cycle c) (frequence c) (init c) (role c).
Definition set_heap c (h : store) : rtp_context V :=
  RtpContext (app c) h (members c) (senders c) (self c) (avg_rtcp_size c) (rtcp_bw c)
    (rtcp_cycle c) (frequence c) (init c) (role c).
Definition set_members c (h : store) (m : rtp_member_list) : rtp_context V :=
  RtpContext (app c) h m (senders c) (self c) (avg_rtcp_size c) (rtcp_bw c)
    (rtcp_cycle c) (frequence c) (init c) (role c).
Definition set_senders c (h : store) (s : rtp_member_list) : rtp_context V :=
  RtpContext (app c) h (members c) s (self c) (avg_rtcp_size c) (rtcp_bw c)
    (rtcp_cycle c) (frequence c) (init c) (role c).
Definition set_avg_rtcp_size c (n : Z) : rtp_context V :=
  RtpContext (app c) (heap c) (members c) (senders c) (self c) n (rtcp_bw c)
    (rtcp_cycle c) (frequence c) (init c) (role c).
Definition set_cycle c (n : Z) : rtp_context V :=
  RtpContext (app c) (heap c) (members c) (senders c) (self c) (avg_rtcp_size c) (rtcp_bw c)
    n (frequence c) (init c) (role c).
Definition set_role c (init role : Z) : rtp_context V :=
  RtpContext (app c) (heap c) (members c) (senders c) (self c) (avg_rtcp_size c) (rtcp_bw c)
    (rtcp_cycle c) (frequence c) init role.

(** A participant, as the code sees it through a pointer. *)
Definition get_member c (p : Z) : outcome rtp_member := load (heap c) p.
Definition put_member c (p : Z) (m : rtp_member) : rtp_context V := set_heap c (save (heap c) p m).

(** * Looking participants up: rtcp.c *)

Variable alloc : Z → bool.

Definition rtp_member_fetch c (id : Z) : outcome (option Z * rtp_context V) :=
  p ← rtp_member_list_find (heap c) (members c) id;
  match p with
  | Some p => Ok (Some p, c)
  | None =>
      let '(p, h) := rtp_member_create alloc (heap c) id in
      match p with
      | None => Ok (None, set_heap c h)
      | Some p =>
          '(_, h, l) ← rtp_member_list_add alloc h (members c) p;
          h ← rtp_member_release h p;
          Ok (Some p, set_members c h l)
      end
  end.

Definition rtp_sender_fetch c (id : Z) : outcome (option Z * rtp_context V) :=
  p ← rtp_member_list_find (heap c) (senders c) id;
  match p with
  | Some p => Ok (Some p, c)
  | None =>
      '(p, c) ← rtp_member_fetch c id;
      match p with
      | None => Ok (None, c)
      | Some p =>
          '(_, h, l) ← rtp_member_list_add alloc (heap c) (senders c) p;
          Ok (Some p, set_senders c h l)
      end
  end.

(** * Feedback messages *)

Variable on_rtcp : V → rtcp_msg_t → V.

Definition call c (msg : rtcp_msg_t) : rtp_context V := set_app c (on_rtcp (app c) msg).

(** An array of [n] elements: on the stack up to [limit], else from [calloc]:
    its cells, or a failed allocation. *)
Definition array c (n limit cells : Z) : option Z * rtp_context V :=
  if n >? limit then
    let h := heap c in
    (if alloc (allocations h) then Some n else None, set_heap c (Store (objects h) (allocations h + 1)))
  else (Some cells, c).

(** The messages with an array of [n] elements of [size] bytes. *)
Definition with_array {A} c (n limit cells : Z) (f : Z → outcome A) (msg : list A → rtcp_msg_t)
  : outcome (Z * rtp_context V) :=
  let '(block, c) := array c n limit cells in
  match block with
  | None => Ok (- ENOMEM, c)
  | Some cells => l ← fill (Z.to_nat n) 0 cells f; Ok (0, call c (msg l))
  end.
End Context.

(** * Headers: rtp-util.h and rtcp_parse *)

Definition rtp_read_uint64 (m : list Z) (p : Z) : outcome Z :=
  a ← rtp_read_uint32 m p; b ← rtp_read_uint32 m (p + 4); Ok (Z.lor (Z.shiftl a 32) b).

Definition nbo_write_rtcp_header (m : list Z) (p : Z) (h : rtcp_header_t) : outcome (list Z) :=
  st m p [u8 (Z.lor (Z.lor (Z.shiftl (rh_v h) 6) (Z.shiftl (rh_p h) 5)) (rh_rc h)); u8 (rh_pt h);
          u8 (Z.shiftr (rh_length h) 8); Z.land (rh_length h) 255].
