(* ===== verification/RtcpRtpfb.v ===== *)
(** Transport feedback: rtcp-rtpfb.c of librtp/source, completely but for its
    debug tests.  Arrays handed to the application are lists; left shifts of
    signed values are those GCC documents. *)
From S2P Require Import Prelude RtpPacket RtcpMember RtcpContext.
Open Scope Z_scope.

Definition RTCP_RTPFB_NACK : Z := 1.
Definition RTCP_RTPFB_TMMBR : Z := 3.
Definition RTCP_RTPFB_TMMBN : Z := 4.
Definition RTCP_RTPFB_SRREQ : Z := 5.
Definition RTCP_RTPFB_RAMS : Z := 6.
Definition RTCP_RTPFB_TLLEI : Z := 7.
Definition RTCP_RTPFB_ECN : Z := 8.
Definition RTCP_RTPFB_PS : Z := 9.
Definition RTCP_RTPFB_DBI : Z := 10.
Definition RTCP_RTPFB_CCFB : Z := 11.
Definition RTCP_RTPFB_TCC01 : Z := 15.

(** * Reading *)

Section Elements.
Variables (m : list Z) (ptr : Z).

Definition read_nack (i : Z) : outcome rtcp_nack_t :=
  pid ← rtp_read_uint16 m (ptr + i * 4);
  blp ← rtp_read_uint16 m (ptr + i * 4 + 2);
  Ok (RtcpNack pid blp).

Definition read_tmmbr (i : Z) : outcome rtcp_tmmbr_t :=
  let p := ptr + i * 8 in
  id ← rtp_read_uint32 m p;
  b4 ← ld m (p + 4); b5 ← ld m (p + 5); b6 ← ld m (p + 6); b7 ← ld m (p + 7);
  Ok (RtcpTmmbr id (Z.land (Z.shiftr b4 2) 63)
    (Z.lor (Z.lor (Z.shiftl (Z.land b4 3) 15) (Z.shiftl b5 7)) (Z.land (Z.shiftr b6 1) 127))
    (Z.lor (Z.shiftl (Z.land b6 1) 8) b7)).

Definition read_ecn : outcome rtcp_ecn_t :=
  a ← rtp_read_uint32 m ptr; b ← rtp_read_uint32 m (ptr + 4); c ← rtp_read_uint32 m (ptr + 8);
  d ← rtp_read_uint16 m (ptr + 12); e ← rtp_read_uint16 m (ptr + 14);
  f ← rtp_read_uint16 m (ptr + 16); g ← rtp_read_uint16 m (ptr + 18);
  Ok (RtcpEcn a b c d e f g).

Definition read_ccfb (begin i : Z) : outcome rtcp_ccfb_t :=
  b0 ← ld m (ptr + i * 2); b1 ← ld m (ptr + i * 2 + 1);
  Ok (RtcpCcfb (u16 (begin + i)) (Z.land (Z.shiftr b0 7) 1) (Z.land (Z.shiftr b0 5) 3)
    (Z.lor (Z.shiftl (Z.land b0 31) 8) b1)).
End Elements.

Section Unpack.
Context {V : Type} (alloc : Z → bool) (on_rtcp : V → rtcp_msg_t → V).
Implicit Types c : rtp_context V.
(** The message before its union is filled in. *)
Variables (type id media : Z) (m : list Z).
Let msg := RtcpMsg type id.

Definition rtcp_rtpfb_nack_unpack c (ptr bytes : Z) : outcome (Z * rtp_context V) :=
  with_array alloc on_rtcp c (bytes / 4) 32 32 (read_nack m ptr)
    (λ l, msg (MsgNack media l (bytes / 4))).

Definition rtcp_rtpfb_tmmbr_unpack c (ptr bytes : Z) : outcome (Z * rtp_context V) :=
  with_array alloc on_rtcp c (bytes / 8) 4 4 (read_tmmbr m ptr)
    (λ l, msg (MsgTmmbr media l (bytes / 8))).

Definition rtcp_rtpfb_tmmbn_unpack c (ptr bytes : Z) : outcome (Z * rtp_context V) :=
  with_array alloc on_rtcp c (bytes / 8) 4 4 (read_tmmbr m ptr)
    (λ l, msg (MsgTmmbr media l (bytes / 8))).

Definition rtcp_rtpfb_srreq_unpack c : outcome (Z * rtp_context V) := Ok (0, c).

Definition rtcp_rtpfb_rams_unpack c (ptr bytes : Z) : outcome (Z * rtp_context V) :=
  if bytes <? 4 then Ok (-1, c) else
  sfmt ← ld m ptr;
  Ok (0, c).

Definition rtcp_rtpfb_tllei_unpack c (ptr bytes : Z) : outcome (Z * rtp_context V) :=
  with_array alloc on_rtcp c (bytes / 4) 32 32 (read_nack m ptr)
    (λ l, msg (MsgNack media l (bytes / 4))).

Definition rtcp_rtpfb_ecn_unpack c (ptr bytes : Z) : outcome (Z * rtp_context V) :=
  if bytes <? 20 then Ok (-1, c) else
  ecn ← read_ecn m ptr;
  Ok (0, call on_rtcp c (msg (MsgEcnFeedback media ecn))).

Fixpoint rtcp_rtpfb_ps_loop (fuel : nat) c (ptr bytes : Z) : outcome (Z * rtp_context V) :=
  if bytes >=? 8 then
    match fuel with
    | O => Ub
    | S fuel =>
        target ← rtp_read_uint32 m ptr;
        b4 ← ld m (ptr + 4);
        len ← ld m (ptr + 5);
        pid ← rtp_read_uint16 m (ptr + 6);
        if len * 4 + 8 >? bytes then Ok (-1, c) else
        payload ← slice m (ptr + 8) (len * 4);
        let c := call on_rtcp c (msg (MsgPs media target (Z.shiftr b4 4) len pid payload)) in
        rtcp_rtpfb_ps_loop fuel c (ptr + (8 + len * 4)) (bytes - (8 + len * 4))
    end
  else Ok (0, c).
Definition rtcp_rtpfb_ps_unpack c (ptr bytes : Z) : outcome (Z * rtp_context V) :=
  rtcp_rtpfb_ps_loop (Z.to_nat bytes) c ptr bytes.

Definition rtcp_rtpfb_dbi_unpack c (ptr bytes : Z) : outcome (Z * rtp_context V) :=
  if bytes <? 4 then Ok (-1, c) else
  delay ← rtp_read_uint16 m ptr;
  b2 ← ld m (ptr + 2);
  Ok (0, call on_rtcp c (msg (MsgDbi media delay (Z.land (Z.shiftr b2 7) 1) (Z.land (Z.shiftr b2 6) 1)))).

Fixpoint rtcp_rtpfb_ccfb_loop (fuel : nat) c (ptr bytes : Z) : outcome (Z * rtp_context V) :=
  if bytes >=? 8 then
    match fuel with
    | O => Ub
    | S fuel =>
        target ← rtp_read_uint32 m ptr;
        begin ← rtp_read_uint16 m (ptr + 4);
        num ← rtp_read_uint16 m (ptr + 6);
        let ptr := ptr + 8 in
        let bytes := bytes - 8 in
        if (num * 2 + 3) / 4 * 4 >? bytes then Ok (-1, c) else
        '(r, c) ← with_array alloc on_rtcp c num 32 32 (read_ccfb m ptr begin)
                    (λ l, msg (MsgCcfb media 0 target begin l num));
        if negb (r =? 0) then Ok (r, c) else
        let num := (num + 1) / 2 * 2 in
        rtcp_rtpfb_ccfb_loop fuel c (ptr + num * 2) (bytes - num * 2)
    end
  else
    timestamp ← (if bytes >=? 4 then rtp_read_uint32 m ptr else Ok 0);
    Ok (0, c).
Definition rtcp_rtpfb_ccfb_unpack c (ptr bytes : Z) : outcome (Z * rtp_context V) :=
  timestamp ← (if bytes >=? 4 then rtp_read_uint32 m (ptr + bytes - 4) else Ok 0);
  rtcp_rtpfb_ccfb_loop (Z.to_nat bytes) c ptr bytes.

(** [n] entries of the array at most, from [i]; [status j] is the symbol of the
    [j]-th of the chunk. *)
Fixpoint tcc01_statuses (n : nat) (j i num seq : Z) (status : Z → Z) (l : list rtcp_ccfb_t)
  : outcome (Z * Z * list rtcp_ccfb_t) :=
  match n with
  | O => Ok (i, seq, l)
  | S n =>
      if i <? num then
        let ecn := status j in
        l ← st l i [RtcpCcfb seq (if truth ecn then 1 else 0) ecn 0];
        tcc01_statuses n (j + 1) (i + 1) num (u16 (seq + 1)) status l
      else Ok (i, seq, l)
  end.

Definition tcc01_chunk (chunk i num seq : Z) (l : list rtcp_ccfb_t) : outcome (Z * Z * list rtcp_ccfb_t) :=
  if 0 =? Z.land 32768 chunk then
    tcc01_statuses (Z.to_nat (Z.land chunk 8191)) 0 i num seq (λ _, Z.land (Z.shiftr chunk 13) 3) l
  else if truth (Z.land 16384 chunk) then
    tcc01_statuses 7 0 i num seq (λ j, Z.land (Z.shiftr chunk (2 * (6 - j))) 3) l
  else
    tcc01_statuses 14 0 i num seq
      (λ j, if truth (Z.land chunk (Z.shiftl 1 (13 - j))) then 1 else 0) l.

Fixpoint tcc01_chunks (fuel : nat) (ptr bytes i num seq : Z) (l : list rtcp_ccfb_t)
  : outcome (Z * Z * list rtcp_ccfb_t) :=
  if (bytes >=? 2) && (i <? num) then
    match fuel with
    | O => Ub
    | S fuel =>
        chunk ← rtp_read_uint16 m ptr;
        '(i, seq, l) ← tcc01_chunk chunk i num seq l;
        tcc01_chunks fuel (ptr + 2) (bytes - 2) i num seq l
    end
  else Ok (ptr, bytes, l).

Fixpoint tcc01_deltas (n : nat) (i ptr bytes : Z) (l : list rtcp_ccfb_t) : outcome (Z * list rtcp_ccfb_t) :=
  match n with
  | O => Ok (0, l)
  | S n =>
      if bytes >? 0 then
        x ← ld l i;
        let set_ato a := st l i [RtcpCcfb (ccfb_seq x) (ccfb_received x) (ccfb_ecn x) a] in
        if negb (truth (ccfb_received x)) then tcc01_deltas n (i + 1) ptr bytes l
        else if ccfb_ecn x =? 1 then
          b ← ld m ptr;
          l ← set_ato (Z.shiftr b 2);
          tcc01_deltas n (i + 1) (ptr + 1) (bytes - 1) l
        else if bytes <? 2 then Ok (-1, l)
        else
          v ← rtp_read_uint16 m ptr;
          l ← set_ato (Z.shiftr (s16 v) 2);
          tcc01_deltas n (i + 1) (ptr + 2) (bytes - 2) l
      else Ok (0, l)
  end.

Definition rtcp_rtpfb_tcc01_unpack c (ptr bytes : Z) : outcome (Z * rtp_context V) :=
  if bytes <? 8 then Ok (-1, c) else
  seq ← rtp_read_uint16 m ptr;
  num ← rtp_read_uint16 m (ptr + 2);
  b4 ← ld m (ptr + 4); b5 ← ld m (ptr + 5); b6 ← ld m (ptr + 6);
  cc ← ld m (ptr + 7);
  let timestamp := Z.lor (Z.lor (Z.shiftl b4 16) (Z.shiftl b5 8)) b6 in
  let timestamp := s32 (Z.lor timestamp (if truth (Z.land timestamp 8388608) then 4278190080 else 0)) in
  let '(block, c) := array alloc c num 32 32 in
  match block with
  | None => Ok (- ENOMEM, c)
  | Some _ =>
      '(ptr, bytes, l) ← tcc01_chunks (Z.to_nat bytes) (ptr + 8) (bytes - 8) 0 num seq
                           (replicate (Z.to_nat num) (RtcpCcfb 0 0 0 0));
      '(r, l) ← tcc01_deltas (Z.to_nat num) 0 ptr bytes l;
      if r =? 0 then Ok (r, call on_rtcp c (msg (MsgTcc01 media timestamp seq cc l num)))
      else Ok (r, c)
  end.
End Unpack.

Definition rtcp_rtpfb_unpack {V} (alloc : Z → bool) (on_rtcp : V → rtcp_msg_t → V) (c : rtp_context V)
    (rc : Z) (m : list Z) (ptr bytes : Z) : outcome (rtp_context V) :=
  if bytes <? 8 then Ok c else
  let type := Z.lor RTCP_RTPFB (Z.shiftl rc 8) in
  id ← rtp_read_uint32 m ptr;
  media ← rtp_read_uint32 m (ptr + 4);
  '(sender, c) ← rtp_sender_fetch alloc c id;
  match sender with
  | None => Ok c
  | Some _ =>
      let p := ptr + 8 in
      let n := bytes - 8 in
      '(_, c) ←
        (if rc =? RTCP_RTPFB_NACK then rtcp_rtpfb_nack_unpack alloc on_rtcp type id media m c p n
         else if rc =? RTCP_RTPFB_TMMBR then rtcp_rtpfb_tmmbr_unpack alloc on_rtcp type id media m c p n
         else if rc =? RTCP_RTPFB_TMMBN then rtcp_rtpfb_tmmbn_unpack alloc on_rtcp type id media m c p n
         else if rc =? RTCP_RTPFB_SRREQ then rtcp_rtpfb_srreq_unpack c
         else if rc =? RTCP_RTPFB_RAMS then rtcp_rtpfb_rams_unpack m c p n
         else if rc =? RTCP_RTPFB_TLLEI then rtcp_rtpfb_tllei_unpack alloc on_rtcp type id media m c p n
         else if rc =? RTCP_RTPFB_ECN then rtcp_rtpfb_ecn_unpack on_rtcp type id media m c p n
         else if rc =? RTCP_RTPFB_PS then rtcp_rtpfb_ps_unpack on_rtcp type id media m c p n
         else if rc =? RTCP_RTPFB_DBI then rtcp_rtpfb_dbi_unpack on_rtcp type id media m c p n
         else if rc =? RTCP_RTPFB_CCFB then
           rtcp_rtpfb_ccfb_unpack alloc on_rtcp type id media m c (ptr + 4) (bytes - 4)
         else if rc =? RTCP_RTPFB_TCC01 then rtcp_rtpfb_tcc01_unpack alloc on_rtcp type id media m c p n
         else Ok (0, c));
      Ok c
  end.

(** * Writing: [m] is the buffer, [bytes] the room from [ptr] *)

Fixpoint nack_pack_loop (l : list rtcp_nack_t) (i : Z) (m : list Z) (ptr bytes : Z) : outcome (Z * list Z) :=
  match l with
  | [] => Ok (i * 4, m)
  | x :: l =>
      if bytes >=? 4 then
        m ← rtp_write_uint16 m ptr (nack_pid x);
        m ← rtp_write_uint16 m (ptr + 2) (nack_blp x);
        nack_pack_loop l (i + 1) m (ptr + 4) (bytes - 4)
      else Ok (i * 4, m)
  end.
Definition rtcp_rtpfb_nack_pack (l : list rtcp_nack_t) := nack_pack_loop l 0.

Fixpoint tmmbr_pack_loop (l : list rtcp_tmmbr_t) (i : Z) (m : list Z) (ptr bytes : Z) : outcome (Z * list Z) :=
  match l with
  | [] => Ok (i * 8, m)
  | x :: l =>
      if bytes >=? 8 then
        m ← rtp_write_uint32 m ptr (tmmbr_ssrc x);
        m ← rtp_write_uint32 m (ptr + 4)
          (u32 (Z.lor (Z.lor (Z.shiftl (Z.land (tmmbr_exp x) 63) 26)
             (Z.shiftl (Z.land (tmmbr_mantissa x) 131071) 9)) (Z.land (tmmbr_overhead x) 511)));
        tmmbr_pack_loop l (i + 1) m (ptr + 8) (bytes - 8)
      else Ok (i * 8, m)
  end.
Definition rtcp_rtpfb_tmmbr_pack (l : list rtcp_tmmbr_t) := tmmbr_pack_loop l 0.
Definition rtcp_rtpfb_tmmbn_pack (l : list rtcp_tmmbr_t) := rtcp_rtpfb_tmmbr_pack l.
Definition rtcp_rtpfb_tllei_pack (l : list rtcp_nack_t) := rtcp_rtpfb_nack_pack l.

Definition rtcp_rtpfb_ecn_pack (ecn : rtcp_ecn_t) (m : list Z) (ptr bytes : Z) : outcome (Z * list Z) :=
  if bytes <? 20 then Ok (-1, m) else
  m ← rtp_write_uint32 m ptr (ext_highest_seq ecn);
  m ← rtp_write_uint32 m (ptr + 4) (ect0 ecn);
  m ← rtp_write_uint32 m (ptr + 8) (ect1 ecn);
  m ← rtp_write_uint16 m (ptr + 12) (ect_ce_counter ecn);
  m ← rtp_write_uint16 m (ptr + 14) (not_ect_counter ecn);
  m ← rtp_write_uint16 m (ptr + 16) (lost_packets_counter ecn);
  m ← rtp_write_uint16 m (ptr + 18) (duplication_counter ecn);
  Ok (20, m).

Definition rtcp_rtpfb_ps_pack (target cmd len id : Z) (payload : list Z) (m : list Z) (ptr bytes : Z)
  : outcome (Z * list Z) :=
  if bytes <? 8 + len * 4 then Ok (-1, m) else
  m ← rtp_write_uint32 m ptr target;
  m ← rtp_write_uint32 m (ptr + 4)
    (u32 (Z.lor (Z.lor (Z.shiftl (Z.land cmd 15) 28) (Z.shiftl (Z.land len 255) 16)) id));
  m ← (if len >? 0 then b ← slice payload 0 (len * 4); st m (ptr + 8) b else Ok m);
  Ok (8 + len * 4, m).

(** Every report carries the arrival time of the first. *)
Fixpoint ccfb_pack_loop (l : list rtcp_ccfb_t) (ato : Z) (m : list Z) (ptr : Z) : outcome (Z * list Z) :=
  match l with
  | [] => Ok (ptr, m)
  | x :: l =>
      m ← rtp_write_uint16 m ptr
        (u16 (Z.lor (Z.lor (if truth (ccfb_received x) then 32768 else 0)
           (Z.shiftl (Z.land (ccfb_ecn x) 3) 13)) (Z.land ato 8191)));
      ccfb_pack_loop l ato m (ptr + 2)
  end.
Definition rtcp_rtpfb_ccfb_pack (id begin : Z) (l : list rtcp_ccfb_t) (timestamp : Z) (m : list Z) (ptr bytes : Z)
  : outcome (Z * list Z) :=
  let count := zlen l in
  if (bytes <? 8 + count * 2 + 4) || (count >? 65535) then Ok (-1, m) else
  m ← rtp_write_uint32 m ptr id;
  m ← rtp_write_uint16 m (ptr + 4) begin;
  m ← rtp_write_uint16 m (ptr + 6) (u16 count);
  '(p, m) ← ccfb_pack_loop l (match l with x :: _ => ccfb_ato x | [] => 0 end) m (ptr + 8);
  m ← rtp_write_uint32 m p timestamp;
  Ok (8 + count * 2 + 4, m).

Section Tcc01.
Variable l : list rtcp_ccfb_t.
Let count := zlen l.

(** In quarters of the time unit, in 16 bits. *)
Definition quarter_ato (x : rtcp_ccfb_t) : Z := s16 (Z.shiftl (ccfb_ato x) 2).
(** Whether the time of a received packet needs two bytes. *)
Definition large_delta (x : rtcp_ccfb_t) : bool := truth (ccfb_received x) && (u16 (quarter_ato x) >? 255).

(** How many of the following entries have the status of [x], and the width and
    status of the run: [k] entries so far. *)
Fixpoint tcc01_run (n : nat) (x : rtcp_ccfb_t) (i k two received : Z) : outcome (Z * Z * Z) :=
  match n with
  | O => Ok (k, two, received)
  | S n =>
      if i + k <? count then
        y ← ld l (i + k);
        if ccfb_received y =? ccfb_received x then
          tcc01_run n x i (k + 1) (if large_delta y then 2 else two) (Z.lor received (ccfb_received y))
        else Ok (k, two, received)
      else Ok (k, two, received)
  end.

(** The entries of a vector chunk, as long as all are narrow. *)
Fixpoint tcc01_detect (n : nat) (i k two : Z) : outcome (Z * Z) :=
  match n with
  | O => Ok (k, two)
  | S n =>
      if (k <? Z.quot 14 two) && (i + k <? count) then
        y ← ld l (i + k);
        tcc01_detect n i (k + 1) (if large_delta y then 2 else two)
      else Ok (k, two)
  end.

Fixpoint tcc01_vector (n : nat) (i k two ato chunk : Z) : outcome (Z * Z) :=
  match n with
  | O => Ok (k, chunk)
  | S n =>
      if (k <? Z.quot 14 two) && (i + k <? count) then
        y ← ld l (i + k);
        let chunk := if truth (ccfb_received y)
                     then u16 (Z.lor chunk (Z.shiftl (if u16 (Z.shiftl (ccfb_ato y) 2) >? 255 then 2 else 1)
                                                     (if truth ato then 12 - k * 2 else 13 - k)))
                     else chunk in
        tcc01_vector n i (k + 1) two ato chunk
      else Ok (k, chunk)
  end.

(** The chunk for the entries from [i] and how many it describes. *)
Definition tcc01_next_chunk (i : Z) : outcome (Z * Z) :=
  x ← ld l i;
  '(k, two, received) ← tcc01_run (length l) x i 1 (if large_delta x then 2 else 1) (ccfb_received x);
  if k >? Z.quot 14 two then
    Ok (k, u16 (Z.lor (if truth received then (if 2 =? two then 16384 else 8192) else 0) (u16 k)))
  else
    '(k, two) ← tcc01_detect 14 i 0 1;
    let ato := if (2 =? two) || (k <=? 7) then 1 else 0 in
    tcc01_vector 14 i 0 two ato (Z.lor 32768 (if truth ato then 16384 else 0)).

Fixpoint tcc01_write_chunks (fuel : nat) (m : list Z) (i ptr bytes n : Z) : outcome (list Z * Z * Z * Z) :=
  if (i <? count) && (bytes >=? 2) then
    match fuel with
    | O => Ub
    | S fuel =>
        '(k, chunk) ← tcc01_next_chunk i;
        m ← rtp_write_uint16 m ptr chunk;
        tcc01_write_chunks fuel m (i + k) (ptr + 2) (bytes - 2) (n + 2)
    end
  else Ok (m, ptr, bytes, n).

(** The deltas written so far: the buffer, the entry, the place, the room and the
    size; or the function returns. *)
Inductive deltas := Written (m : list Z) (i ptr bytes n : Z) | Returned (r : Z) (m : list Z).

Fixpoint tcc01_run_deltas (fuel : nat) (chunk seq k : Z) (m : list Z) (i ptr bytes n : Z) : outcome deltas :=
  match fuel with
  | O => Ok (Written m i ptr bytes n)
  | S fuel =>
      if i <? count then
        x ← ld l i;
        if negb (u32 (seq + k) =? ccfb_seq x) then tcc01_run_deltas fuel chunk seq (k + 1) m i ptr bytes n
        else if truth (Z.land chunk 16384) then
          if bytes <? 2 then Ok (Returned (-1) m) else
          m ← rtp_write_uint16 m ptr (u16 (quarter_ato x));
          tcc01_run_deltas fuel chunk seq (k + 1) m (i + 1) (ptr + 2) (bytes - 2) (n + 2)
        else if truth (Z.land chunk 8192) then
          if bytes <? 1 then Ok (Returned (-1) m) else
          m ← st m ptr [u8 (quarter_ato x)];
          tcc01_run_deltas fuel chunk seq (k + 1) m (i + 1) (ptr + 1) (bytes - 1) (n + 1)
        else tcc01_run_deltas fuel chunk seq (k + 1) m (i + 1) ptr bytes n
      else Ok (Written m i ptr bytes n)
  end.

(** [room] is what an entry of the chunk must have left; [narrow k] tells whether
    its [k]-th entry has one byte. *)
Fixpoint tcc01_vector_deltas (fuel : nat) (room : Z) (narrow : Z → bool) (k : Z)
    (m : list Z) (i ptr bytes n : Z) : outcome deltas :=
  match fuel with
  | O => Ok (Written m i ptr bytes n)
  | S fuel =>
      if (i <? count) && (bytes >=? room) then
        x ← ld l i;
        if negb (truth (ccfb_received x)) then tcc01_vector_deltas fuel room narrow (k + 1) m (i + 1) ptr bytes n
        else if narrow k then
          m ← st m ptr [u8 (quarter_ato x)];
          tcc01_vector_deltas fuel room narrow (k + 1) m (i + 1) (ptr + 1) (bytes - 1) (n + 1)
        else
          m ← rtp_write_uint16 m ptr (u16 (quarter_ato x));
          tcc01_vector_deltas fuel room narrow (k + 1) m (i + 1) (ptr + 2) (bytes - 2) (n + 2)
      else Ok (Written m i ptr bytes n)
  end.

(** [p] is the chunk read; it moves two bytes every time, so the buffer bounds
    the number of iterations. *)
Fixpoint tcc01_write_deltas (fuel : nat) (p : Z) (m : list Z) (i ptr bytes n : Z) : outcome deltas :=
  if (i <? count) && (bytes >=? 1) then
    match fuel with
    | O => Ub
    | S fuel =>
        chunk ← rtp_read_uint16 m p;
        d ← (if 0 =? Z.land 32768 chunk then
               x ← ld l i;
               tcc01_run_deltas (Z.to_nat (Z.land chunk 8191)) chunk (ccfb_seq x) 0 m i ptr bytes n
             else if truth (Z.land 16384 chunk) then
               tcc01_vector_deltas 7 2 (λ k, Z.land (Z.shiftr chunk (2 * (6 - k))) 3 =? 1) 0 m i ptr bytes n
             else tcc01_vector_deltas 14 1 (λ _, true) 0 m i ptr bytes n);
        match d with
        | Returned r m => Ok (Returned r m)
        | Written m i ptr bytes n => tcc01_write_deltas fuel (p + 2) m i ptr bytes n
        end
    end
  else Ok (Written m i ptr bytes n).

Fixpoint tcc01_padding (fuel : nat) (k : Z) (m : list Z) (ptr bytes n : Z) : outcome (Z * list Z) :=
  match fuel with
  | O => Ok (n, m)
  | S fuel =>
      if negb (Z.rem n 4 =? 0) && (bytes >? 0) then
        m ← st m ptr [if Z.rem (n + 1) 4 =? 0 then u8 k + 1 else 0];
        tcc01_padding fuel (k + 1) m (ptr + 1) (bytes - 1) (n + 1)
      else Ok (n, m)
  end.

(** The eight bytes of the head are not taken off [bytes]. *)
Definition rtcp_rtpfb_tcc01_pack (begin timestamp cc : Z) (m : list Z) (ptr bytes : Z) : outcome (Z * list Z) :=
  if (bytes <? 8) || (count <? 1) then Ok (-1, m) else
  m ← rtp_write_uint16 m ptr begin;
  m ← rtp_write_uint16 m (ptr + 2) (u16 count);
  m ← rtp_write_uint32 m (ptr + 4) (Z.lor (u32 (Z.shiftl (Z.land timestamp 16777215) 8)) cc);
  let p := ptr + 8 in
  '(m, ptr, bytes, n) ← tcc01_write_chunks (length l) m 0 p bytes 8;
  d ← tcc01_write_deltas (length m) p m 0 ptr bytes n;
  match d with
  | Returned r m => Ok (r, m)
  | Written m i ptr bytes n => tcc01_padding 4 0 m ptr bytes n
  end.
End Tcc01.

(** What is sent: the member of the union. *)
Inductive rtcp_rtpfb_t :=
  | FbNack (nack : list rtcp_nack_t)
  | FbTmmbr (tmmbr : list rtcp_tmmbr_t)
  | FbEcn (ecn : rtcp_ecn_t)
  | FbPs (target cmd len id : Z) (payload : list Z)
  | FbCcfb (id begin : Z) (ccfb : list rtcp_ccfb_t) (timestamp cc : Z).

Definition rtcp_rtpfb_fci (id : Z) (fb : rtcp_rtpfb_t) (m : list Z) (p n : Z) : outcome (option (Z * list Z)) :=
  let some x := r ← x; Ok (Some r) in
  match fb with
  | FbNack l =>
      if id =? RTCP_RTPFB_NACK then some (rtcp_rtpfb_nack_pack l m p n)
      else if id =? RTCP_RTPFB_TLLEI then some (rtcp_rtpfb_tllei_pack l m p n) else Ok None
  | FbTmmbr l =>
      if id =? RTCP_RTPFB_TMMBR then some (rtcp_rtpfb_tmmbr_pack l m p n)
      else if id =? RTCP_RTPFB_TMMBN then some (rtcp_rtpfb_tmmbn_pack l m p n) else Ok None
  | FbEcn e => if id =? RTCP_RTPFB_ECN then some (rtcp_rtpfb_ecn_pack e m p n) else Ok None
  | FbPs target cmd len pid payload =>
      if id =? RTCP_RTPFB_PS then some (rtcp_rtpfb_ps_pack target (u8 cmd) (u8 len) (u16 pid) payload m p n)
      else Ok None
  | FbCcfb source begin l timestamp cc =>
      if id =? RTCP_RTPFB_CCFB then some (rtcp_rtpfb_ccfb_pack source (u16 begin) l (u32 timestamp) m p n)
      else if id =? RTCP_RTPFB_TCC01 then some (rtcp_rtpfb_tcc01_pack l (u16 begin) (u32 timestamp) (u8 cc) m p n)
      else Ok None
  end.

Definition rtcp_rtpfb_pack {V} (c : rtp_context V) (m : list Z) (bytes id media : Z) (fb : rtcp_rtpfb_t)
  : outcome (Z * list Z) :=
  if bytes <? 12 then Ok (12, m) else
  r ← rtcp_rtpfb_fci id fb m 12 (bytes - 12);
  match r with
  | None => Ok (-1, m)
  | Some (r, m) =>
      let length := u16 (Z.quot (r + 8 + 3) 4) in
      m ← nbo_write_rtcp_header m 0 (RtcpHeader 2 0 id RTCP_RTPFB length);
      s ← get_member c (self c);
      m ← rtp_write_uint32 m 4 (ssrc s);
      m ← rtp_write_uint32 m 8 media;
      Ok (length * 4 + 4, m)
  end.
