(* ===== verification/RtcpPsfb.v ===== *)
(** Payload-specific feedback: rtcp-psfb.c of librtp/source, completely but for
    its debug tests. *)
From S2P Require Import Prelude RtpPacket RtcpMember RtcpContext.
Open Scope Z_scope.

Definition E2BIG : Z := 7.

Definition RTCP_PSFB_PLI : Z := 1.
Definition RTCP_PSFB_SLI : Z := 2.
Definition RTCP_PSFB_RPSI : Z := 3.
Definition RTCP_PSFB_FIR : Z := 4.
Definition RTCP_PSFB_TSTR : Z := 5.
Definition RTCP_PSFB_TSTN : Z := 6.
Definition RTCP_PSFB_VBCM : Z := 7.
Definition RTCP_PSFB_PSLEI : Z := 8.
Definition RTCP_PSFB_ROI : Z := 9.
Definition RTCP_PSFB_LRR : Z := 10.
Definition RTCP_PSFB_AFB : Z := 15.
Definition RTCP_PSFB_REMB : Z := 15.

(** * Reading *)

Section Elements.
Variables (m : list Z) (ptr : Z).

Definition read_sli (i : Z) : outcome rtcp_sli_t :=
  let p := ptr + i * 4 in
  b0 ← ld m p; b1 ← ld m (p + 1); b2 ← ld m (p + 2); b3 ← ld m (p + 3);
  Ok (RtcpSli (Z.lor (Z.shiftl b0 5) (Z.shiftr b1 3))
    (Z.lor (Z.lor (Z.shiftl (Z.land b1 7) 10) (Z.shiftl b2 2)) (Z.shiftr b3 6)) (Z.land b3 63)).

(** The index is only read for the trade-off messages. *)
Definition read_fir (index : bool) (i : Z) : outcome rtcp_fir_t :=
  let p := ptr + i * 8 in
  id ← rtp_read_uint32 m p;
  sn ← ld m (p + 4);
  ix ← (if index then b ← ld m (p + 7); Ok (Z.land b 31) else Ok 0);
  Ok (RtcpFir id sn ix).

Definition read_lrr (i : Z) : outcome rtcp_lrr_t :=
  let p := ptr + i * 12 in
  id ← rtp_read_uint32 m p;
  b4 ← ld m (p + 4); b5 ← ld m (p + 5);
  b8 ← ld m (p + 8); b9 ← ld m (p + 9); b10 ← ld m (p + 10); b11 ← ld m (p + 11);
  Ok (RtcpLrr id b4 (Z.land (Z.shiftr b5 7) 1) (Z.land b5 127) (Z.land b8 7) b9 (Z.land b10 7) b11).

Definition read_remb (exp mantissa i : Z) : outcome rtcp_remb_t :=
  id ← rtp_read_uint32 m (ptr + i * 4);
  Ok (RtcpRemb id exp mantissa).
End Elements.

Section Unpack.
Context {V : Type} (alloc : Z → bool) (on_rtcp : V → rtcp_msg_t → V).
Implicit Types c : rtp_context V.
Variables (type id media : Z) (m : list Z).
Let msg := RtcpMsg type id.

Definition rtcp_psfb_pli_unpack c : outcome (Z * rtp_context V) :=
  Ok (0, call on_rtcp c (msg (MsgPli media))).

Definition rtcp_psfb_sli_unpack c (ptr bytes : Z) : outcome (Z * rtp_context V) :=
  with_array alloc on_rtcp c (bytes / 4) 32 32 (read_sli m ptr)
    (λ l, msg (MsgSli media l (bytes / 4))).

(** The length handed over still counts the two bytes in front. *)
Definition rtcp_psfb_rpsi_unpack c (ptr bytes : Z) : outcome (Z * rtp_context V) :=
  if bytes <? 4 then Ok (-1, c) else
  pb ← ld m ptr;
  b1 ← ld m (ptr + 1);
  payload ← slice m (ptr + 2) (bytes - 2);
  Ok (0, call on_rtcp c (msg (MsgRpsi media (Z.land b1 127) (u32 (u32 bytes * 8 - pb)) payload))).

Definition rtcp_psfb_fir_unpack c (ptr bytes : Z) : outcome (Z * rtp_context V) :=
  with_array alloc on_rtcp c (bytes / 8) 32 32 (read_fir m ptr false)
    (λ l, msg (MsgFir media l (bytes / 8))).

Definition rtcp_psfb_tstr_unpack c (ptr bytes : Z) : outcome (Z * rtp_context V) :=
  with_array alloc on_rtcp c (bytes / 8) 32 32 (read_fir m ptr true)
    (λ l, msg (MsgFir media l (bytes / 8))).

Definition rtcp_psfb_tstn_unpack c (ptr bytes : Z) : outcome (Z * rtp_context V) :=
  with_array alloc on_rtcp c (bytes / 8) 32 32 (read_fir m ptr true)
    (λ l, msg (MsgFir media l (bytes / 8))).

(** [bytes] is a size_t: it wraps when the padded payload is longer than what is
    left.  Every iteration advances by eight at least, so the buffer bounds the
    iterations that read inside it. *)
Fixpoint rtcp_psfb_vbcm_loop (fuel : nat) c (ptr bytes : Z) : outcome (Z * rtp_context V) :=
  if bytes >? 8 then
    match fuel with
    | O => Ub
    | S fuel =>
        target ← rtp_read_uint32 m ptr;
        sn ← ld m (ptr + 4);
        pt ← ld m (ptr + 5);
        len ← rtp_read_uint16 m (ptr + 6);
        if len + 8 >? bytes then Ok (-1, c) else
        payload ← slice m (ptr + 8) len;
        let n := 8 + (len + 3) / 4 * 4 in
        let c := call on_rtcp c (msg (MsgVbcm media (RtcpVbcm target sn (Z.land pt 127) len payload))) in
        rtcp_psfb_vbcm_loop fuel c (ptr + n) (u64 (bytes - n))
    end
  else Ok (0, c).
Definition rtcp_psfb_vbcm_unpack c (ptr bytes : Z) : outcome (Z * rtp_context V) :=
  rtcp_psfb_vbcm_loop (length m) c ptr bytes.

Definition rtcp_psfb_pslei_unpack c (ptr bytes : Z) : outcome (Z * rtp_context V) :=
  with_array alloc on_rtcp c (bytes / 4) 32 32 (λ i, rtp_read_uint32 m (ptr + i * 4))
    (λ l, msg (MsgPslei media l (bytes / 4))).

Definition rtcp_psfb_lrr_unpack c (ptr bytes : Z) : outcome (Z * rtp_context V) :=
  with_array alloc on_rtcp c (bytes / 12) 32 32 (read_lrr m ptr)
    (λ l, msg (MsgLrr media l (bytes / 12))).

Definition rtcp_psfb_roi_unpack c : outcome (Z * rtp_context V) := Ok (0, c).

Definition rtcp_psfb_afb_unpack c (ptr bytes : Z) : outcome (Z * rtp_context V) :=
  if bytes >=? 8 then
    name ← slice m ptr 4;
    if bool_decide (name = [82; 69; 77; 66]) then
      n ← ld m (ptr + 4);
      b5 ← ld m (ptr + 5);
      v ← rtp_read_uint16 m (ptr + 6);
      let exp := Z.land (Z.shiftr b5 2) 63 in
      let mantissa := Z.lor (Z.shiftl (Z.land b5 3) 16) v in
      if n * 4 >? bytes - 8 then Ok (-1, c)
      else with_array alloc on_rtcp c n 4 4 (read_remb m (ptr + 8) exp mantissa)
             (λ l, msg (MsgRemb media l n))
    else Ok (0, c)
  else Ok (0, c).
End Unpack.

Definition rtcp_psfb_unpack {V} (alloc : Z → bool) (on_rtcp : V → rtcp_msg_t → V) (c : rtp_context V)
    (rc : Z) (m : list Z) (ptr bytes : Z) : outcome (rtp_context V) :=
  if bytes <? 8 then Ok c else
  let type := Z.lor RTCP_PSFB (Z.shiftl rc 8) in
  id ← rtp_read_uint32 m ptr;
  media ← rtp_read_uint32 m (ptr + 4);
  '(sender, c) ← rtp_sender_fetch alloc c id;
  match sender with
  | None => Ok c
  | Some _ =>
      let p := ptr + 8 in
      let n := bytes - 8 in
      '(_, c) ←
        (if rc =? RTCP_PSFB_PLI then rtcp_psfb_pli_unpack on_rtcp type id media c
         else if rc =? RTCP_PSFB_SLI then rtcp_psfb_sli_unpack alloc on_rtcp type id media m c p n
         else if rc =? RTCP_PSFB_RPSI then rtcp_psfb_rpsi_unpack on_rtcp type id media m c p n
         else if rc =? RTCP_PSFB_FIR then rtcp_psfb_fir_unpack alloc on_rtcp type id media m c p n
         else if rc =? RTCP_PSFB_TSTR then rtcp_psfb_tstr_unpack alloc on_rtcp type id media m c p n
         else if rc =? RTCP_PSFB_TSTN then rtcp_psfb_tstn_unpack alloc on_rtcp type id media m c p n
         else if rc =? RTCP_PSFB_VBCM then rtcp_psfb_vbcm_unpack on_rtcp type id media m c p n
         else if rc =? RTCP_PSFB_PSLEI then rtcp_psfb_pslei_unpack alloc on_rtcp type id media m c p n
         else if rc =? RTCP_PSFB_ROI then rtcp_psfb_roi_unpack c
         else if rc =? RTCP_PSFB_LRR then rtcp_psfb_lrr_unpack alloc on_rtcp type id media m c p n
         else if rc =? RTCP_PSFB_AFB then rtcp_psfb_afb_unpack alloc on_rtcp type id media m c p n
         else Ok (0, c));
      Ok c
  end.

(** * Writing *)

Definition rtcp_psfb_pli_pack (m : list Z) : outcome (Z * list Z) := Ok (0, m).

(** Every report is the first one: [x]. *)
Fixpoint sli_pack_loop (l : list rtcp_sli_t) (x : rtcp_sli_t) (i : Z) (m : list Z) (ptr bytes : Z)
  : outcome (Z * list Z) :=
  match l with
  | [] => Ok (i * 4, m)
  | _ :: l =>
      if bytes >=? 4 then
        m ← rtp_write_uint32 m ptr
          (u32 (Z.lor (Z.lor (Z.shiftl (Z.land (sli_first x) 131071) 19)
             (Z.shiftl (Z.land (sli_number x) 131071) 6)) (Z.land (sli_picture_id x) 63)));
        sli_pack_loop l x (i + 1) m (ptr + 4) (bytes - 4)
      else Ok (i * 4, m)
  end.
Definition rtcp_psfb_sli_pack (l : list rtcp_sli_t) (m : list Z) (ptr bytes : Z) : outcome (Z * list Z) :=
  match l with [] => Ok (0, m) | x :: _ => sli_pack_loop l x 0 m ptr bytes end.

Definition rtcp_psfb_rpsi_pack (pt : Z) (payload : list Z) (bits : Z) (m : list Z) (ptr bytes : Z)
  : outcome (Z * list Z) :=
  let len := u32 (bits + 7) / 8 in
  let size := (2 + len + 3) / 4 * 4 in
  if bytes <? size then Ok (-1, m) else
  m ← st m ptr [u8 (size * 8 - (2 * 8 + bits)); pt];
  b ← slice payload 0 len;
  m ← st m (ptr + 2) b;
  Ok (size, m).

Fixpoint fir_pack_loop (index : bool) (l : list rtcp_fir_t) (i : Z) (m : list Z) (ptr bytes : Z)
  : outcome (Z * list Z) :=
  match l with
  | [] => Ok (i * 8, m)
  | x :: l =>
      if bytes >=? 8 then
        m ← rtp_write_uint32 m ptr (fir_ssrc x);
        m ← rtp_write_uint32 m (ptr + 4)
          (u32 (if index then Z.lor (Z.shiftl (fir_sn x) 24) (fir_index x) else Z.shiftl (fir_sn x) 24));
        fir_pack_loop index l (i + 1) m (ptr + 8) (bytes - 8)
      else Ok (i * 8, m)
  end.
Definition rtcp_psfb_fir_pack (l : list rtcp_fir_t) := fir_pack_loop false l 0.
Definition rtcp_psfb_tstr_pack (l : list rtcp_fir_t) := fir_pack_loop true l 0.
Definition rtcp_psfb_tstn_pack (l : list rtcp_fir_t) := rtcp_psfb_tstr_pack l.

Definition rtcp_psfb_vbcm_pack (x : rtcp_vbcm_t) (m : list Z) (ptr bytes : Z) : outcome (Z * list Z) :=
  let size := 8 + (vbcm_len x + 3) / 4 * 4 in
  if bytes <? size then Ok (-1, m) else
  m ← rtp_write_uint32 m ptr (vbcm_ssrc x);
  m ← st m (ptr + 4) [u8 (vbcm_sn x)];
  m ← st m (ptr + 5) [u8 (vbcm_pt x)];
  m ← rtp_write_uint16 m (ptr + 6) (u16 (vbcm_len x));
  b ← slice (vbcm_payload x) 0 (vbcm_len x);
  m ← st m (ptr + 8) b;
  Ok (size, m).

Fixpoint pslei_pack_loop (l : list Z) (i : Z) (m : list Z) (ptr bytes : Z) : outcome (Z * list Z) :=
  match l with
  | [] => Ok (i * 4, m)
  | x :: l =>
      if bytes >=? 4 then
        m ← rtp_write_uint32 m ptr x;
        pslei_pack_loop l (i + 1) m (ptr + 4) (bytes - 4)
      else Ok (i * 4, m)
  end.
Definition rtcp_psfb_pslei_pack (l : list Z) := pslei_pack_loop l 0.

(** The three words of a request go to the same place. *)
Fixpoint lrr_pack_loop (l : list rtcp_lrr_t) (i : Z) (m : list Z) (ptr bytes : Z) : outcome (Z * list Z) :=
  match l with
  | [] => Ok (i * 12, m)
  | x :: l =>
      if bytes >=? 12 then
        m ← rtp_write_uint32 m ptr (lrr_ssrc x);
        m ← rtp_write_uint32 m ptr
          (u32 (Z.lor (Z.lor (Z.shiftl (lrr_sn x) 24) (Z.shiftl (Z.land (lrr_c x) 1) 23))
             (Z.shiftl (Z.land (lrr_payload x) 127) 16)));
        m ← rtp_write_uint32 m ptr
          (u32 (Z.lor (Z.lor (Z.lor (Z.shiftl (Z.land (lrr_ttid x) 7) 24)
             (Z.shiftl (Z.land (lrr_tlid x) 255) 16)) (Z.shiftl (Z.land (lrr_ctid x) 7) 8))
             (Z.land (lrr_clid x) 255)));
        lrr_pack_loop l (i + 1) m (ptr + 12) (bytes - 12)
      else Ok (i * 12, m)
  end.
Definition rtcp_psfb_lrr_pack (l : list rtcp_lrr_t) := lrr_pack_loop l 0.

Fixpoint remb_pack_loop (l : list rtcp_remb_t) (m : list Z) (ptr : Z) : outcome (list Z) :=
  match l with
  | [] => Ok m
  | x :: l => m ← rtp_write_uint32 m ptr (remb_ssrc x); remb_pack_loop l m (ptr + 4)
  end.
Definition rtcp_psfb_remb_pack (l : list rtcp_remb_t) (m : list Z) (ptr bytes : Z) : outcome (Z * list Z) :=
  let count := zlen l in
  match l with
  | [] => Ok (- E2BIG, m)
  | x :: _ =>
      if (count >? 255) || (s32 bytes <? 4 + 4 + count * 4) then Ok (- E2BIG, m) else
      m ← st m ptr [82; 69; 77; 66];
      m ← rtp_write_uint32 m (ptr + 4)
        (u32 (Z.lor (Z.lor (Z.shiftl count 24) (Z.shiftl (remb_exp x) 18)) (remb_mantissa x)));
      m ← remb_pack_loop l m (ptr + 8);
      Ok (4 + 4 + count * 4, m)
  end.

Inductive rtcp_psfb_t :=
  | PsPli
  | PsSli (sli : list rtcp_sli_t)
  | PsRpsi (pt len : Z) (payload : list Z)
  | PsFir (fir : list rtcp_fir_t)
  | PsVbcm (vbcm : rtcp_vbcm_t)
  | PsPslei (ssrc : list Z)
  | PsLrr (lrr : list rtcp_lrr_t)
  | PsAfb (remb : list rtcp_remb_t).

Definition rtcp_psfb_fci (id : Z) (fb : rtcp_psfb_t) (m : list Z) (p n : Z) : outcome (option (Z * list Z)) :=
  let some x := r ← x; Ok (Some r) in
  match fb with
  | PsPli => if id =? RTCP_PSFB_PLI then some (rtcp_psfb_pli_pack m) else Ok None
  | PsSli l => if id =? RTCP_PSFB_SLI then some (rtcp_psfb_sli_pack l m p n) else Ok None
  | PsRpsi pt len payload =>
      if id =? RTCP_PSFB_RPSI then some (rtcp_psfb_rpsi_pack pt payload len m p n) else Ok None
  | PsFir l =>
      if id =? RTCP_PSFB_FIR then some (rtcp_psfb_fir_pack l m p n)
      else if id =? RTCP_PSFB_TSTR then some (rtcp_psfb_tstr_pack l m p n)
      else if id =? RTCP_PSFB_TSTN then some (rtcp_psfb_tstn_pack l m p n) else Ok None
  | PsVbcm x => if id =? RTCP_PSFB_VBCM then some (rtcp_psfb_vbcm_pack x m p n) else Ok None
  | PsPslei l => if id =? RTCP_PSFB_PSLEI then some (rtcp_psfb_pslei_pack l m p n) else Ok None
  | PsLrr l => if id =? RTCP_PSFB_LRR then some (rtcp_psfb_lrr_pack l m p n) else Ok None
  | PsAfb l => if id =? RTCP_PSFB_REMB then some (rtcp_psfb_remb_pack l m p n) else Ok None
  end.

Definition rtcp_psfb_pack {V} (c : rtp_context V) (m : list Z) (bytes id media : Z) (fb : rtcp_psfb_t)
  : outcome (Z * list Z) :=
  if bytes <? 12 then Ok (12, m) else
  r ← rtcp_psfb_fci id fb m 12 (bytes - 12);
  match r with
  | None => Ok (-1, m)
  | Some (r, m) =>
      let length := u16 (Z.quot (r + 8 + 3) 4) in
      m ← nbo_write_rtcp_header m 0 (RtcpHeader 2 0 id RTCP_PSFB length);
      s ← get_member c (self c);
      m ← rtp_write_uint32 m 4 (ssrc s);
      m ← rtp_write_uint32 m 8 media;
      Ok (length * 4 + 4, m)
  end.
