(* ===== verification/RtcpXr.v ===== *)
(** Extended reports: rtcp-xr.c of librtp/source, completely but for its debug
    tests. *)
From S2P Require Import Prelude RtpPacket RtcpMember RtcpContext RtcpRtpfb.
Open Scope Z_scope.

Definition RTCP_XR_LRLE : Z := 1.
Definition RTCP_XR_DRLE : Z := 2.
Definition RTCP_XR_PRT : Z := 3.
Definition RTCP_XR_RRT : Z := 4.
Definition RTCP_XR_DLRR : Z := 5.
Definition RTCP_XR_ECN : Z := 13.

Section Unpack.
Context {V : Type} (alloc : Z → bool) (on_rtcp : V → rtcp_msg_t → V).
Implicit Types c : rtp_context V.
Variables (type id : Z) (m : list Z).
Let msg := RtcpMsg type id.

(** [v[i/8] |= 1 << (7-(i%8))] *)
Definition set_bit (v : list Z) (i : Z) : outcome (list Z) :=
  b ← ld v (i / 8);
  st v (i / 8) [Z.lor b (Z.shiftl 1 (7 - i mod 8))].

(** [n] packets at most, from [i]; [on j] tells whether the [j]-th of the chunk
    sets its bit. *)
Fixpoint rle_chunk (n : nat) (j i num : Z) (on : Z → bool) (v : list Z) : outcome (Z * list Z) :=
  match n with
  | O => Ok (i, v)
  | S n =>
      if i <? num then
        v ← (if on j then set_bit v i else Ok v);
        rle_chunk n (j + 1) (i + 1) num on v
      else Ok (i, v)
  end.

Fixpoint rle_chunks (fuel : nat) (ptr len i num : Z) (v : list Z) : outcome (list Z) :=
  if len >? 2 then
    match fuel with
    | O => Ub
    | S fuel =>
        chunk ← rtp_read_uint16 m ptr;
        '(i, v) ←
          (if 0 =? Z.land 32768 chunk
           then rle_chunk (Z.to_nat (Z.land chunk 16383)) 0 i num (λ _, truth (Z.land 16384 chunk)) v
           else rle_chunk 15 0 i num (λ j, truth (Z.land chunk (Z.shiftl 1 (14 - j)))) v);
        rle_chunks fuel (ptr + 2) (len - 2) i num v
    end
  else Ok v.

(** The bits of the block, whose [num + 7] may wrap: 32 bytes on the stack or an
    allocation. *)
Definition rle_unpack c (ptr bytes : Z) : outcome (Z * rtp_context V) :=
  len ← rtp_read_uint16 m (ptr + 2);
  if (bytes <? 8) || ((len + 1) * 4 >? bytes) then Ok (-1, c) else
  let len := len * 4 in
  if len <? 8 then Ok (0, c) else
  source ← rtp_read_uint32 m (ptr + 4);
  seq ← rtp_read_uint16 m (ptr + 8);
  last ← rtp_read_uint16 m (ptr + 10);
  let num := u32 (last - seq) in
  let '(block, c) := array alloc c (u32 (num + 7) / 8) 32 32 in
  match block with
  | None => Ok (- ENOMEM, c)
  | Some cells =>
      v ← rle_chunks (Z.to_nat len) (ptr + 8) (len - 8) 0 num (replicate (Z.to_nat cells) 0);
      Ok (0, call on_rtcp c (msg (MsgRle source seq last v (s32 num))))
  end.
Definition rtcp_xr_lrle_unpack := rle_unpack.
Definition rtcp_xr_drle_unpack := rle_unpack.

(** The index of the array stays 0. *)
Fixpoint prt_loop (fuel : nat) (ptr len : Z) (v : list Z) : outcome (list Z) :=
  if len >? 4 then
    match fuel with
    | O => Ub
    | S fuel => t ← rtp_read_uint32 m ptr; v ← st v 0 [t]; prt_loop fuel (ptr + 4) (len - 4) v
    end
  else Ok v.
Definition rtcp_xr_prt_unpack c (ptr bytes : Z) : outcome (Z * rtp_context V) :=
  len ← rtp_read_uint16 m (ptr + 2);
  if (bytes <? 8) || ((len + 1) * 4 >? bytes) then Ok (-1, c) else
  let len := len * 4 in
  if len <? 8 then Ok (0, c) else
  source ← rtp_read_uint32 m (ptr + 4);
  seq ← rtp_read_uint16 m (ptr + 8);
  last ← rtp_read_uint16 m (ptr + 10);
  let num := u32 (last - seq) in
  let '(block, c) := array alloc c num 32 32 in
  match block with
  | None => Ok (- ENOMEM, c)
  | Some cells =>
      v ← prt_loop (Z.to_nat len) (ptr + 8) (len - 8) (replicate (Z.to_nat cells) 0);
      Ok (0, call on_rtcp c (msg (MsgPrt source seq last v (s32 num))))
  end.

Definition rtcp_xr_rrt_unpack c (ptr bytes : Z) : outcome (Z * rtp_context V) :=
  len ← rtp_read_uint16 m (ptr + 2);
  if (bytes <? 12) || ((len + 1) * 4 >? bytes) then Ok (-1, c) else
  a ← rtp_read_uint32 m (ptr + 4);
  b ← rtp_read_uint32 m (ptr + 8);
  Ok (0, call on_rtcp c (msg (MsgRrt (Z.lor (u64 (Z.shiftl a 32)) b)))).

Definition read_dlrr (ptr i : Z) : outcome rtcp_dlrr_t :=
  let p := ptr + i * 12 in
  a ← rtp_read_uint32 m p; b ← rtp_read_uint32 m (p + 4); d ← rtp_read_uint32 m (p + 8);
  Ok (RtcpDlrr a b d).

(** The count is compared with the size of the array in bytes, 384, not with its
    32 elements. *)
Definition rtcp_xr_dlrr_unpack c (ptr bytes : Z) : outcome (Z * rtp_context V) :=
  len ← rtp_read_uint16 m (ptr + 2);
  if (bytes <? 8) || ((len + 1) * 4 >? bytes) then Ok (-1, c) else
  let num := len / 3 in
  with_array alloc on_rtcp c num 384 32 (read_dlrr (ptr + 4)) (λ l, msg (MsgDlrr l num)).

Definition rtcp_xr_ecn_unpack c (ptr bytes : Z) : outcome (Z * rtp_context V) :=
  len ← rtp_read_uint16 m (ptr + 2);
  if (bytes <? 24) || ((len + 1) * 4 >? bytes) then Ok (-1, c) else
  ecn ← read_ecn m ptr;
  Ok (0, call on_rtcp c (msg (MsgXrEcn ecn))).
End Unpack.

(** One block: the session after it and the [len] by which the code moves on. *)
Definition rtcp_xr_block {V} (alloc : Z → bool) (on_rtcp : V → rtcp_msg_t → V) (id : Z) (m : list Z)
    (c : rtp_context V) (ptr bytes len : Z) : outcome (rtp_context V) :=
  bt ← ld m ptr;
  let type := Z.lor RTCP_XR (Z.shiftl bt 8) in
  '(_, c) ←
    (if bt =? RTCP_XR_LRLE then rtcp_xr_lrle_unpack alloc on_rtcp type id m c ptr bytes
     else if bt =? RTCP_XR_DRLE then rtcp_xr_drle_unpack alloc on_rtcp type id m c ptr bytes
     else if bt =? RTCP_XR_PRT then rtcp_xr_prt_unpack alloc on_rtcp type id m c ptr bytes
     else if bt =? RTCP_XR_RRT then rtcp_xr_rrt_unpack on_rtcp type id m c ptr bytes
     else if bt =? RTCP_XR_DLRR then rtcp_xr_dlrr_unpack alloc on_rtcp type id m c ptr bytes
     else if bt =? RTCP_XR_ECN then rtcp_xr_ecn_unpack on_rtcp type id m c ptr bytes
     else Ok (0, c));
  Ok c.

(** [None] when the fuel runs out; the length of a block is in words, and the
    code adds it to the pointer as bytes. *)
Fixpoint rtcp_xr_loop {V} (alloc : Z → bool) (on_rtcp : V → rtcp_msg_t → V) (id : Z) (m : list Z)
    (fuel : nat) (c : rtp_context V) (ptr bytes : Z) : option (outcome (rtp_context V)) :=
  if bytes >=? 4 then
    match rtp_read_uint16 m (ptr + 2) with
    | Ok len =>
        if len * 4 >? bytes - 4 then Some (Ok c) else
        match fuel with
        | O => None
        | S fuel =>
            match rtcp_xr_block alloc on_rtcp id m c ptr bytes len with
            | Ok c => rtcp_xr_loop alloc on_rtcp id m fuel c (ptr + len) (bytes - len)
            | Fail e => Some (Fail e)
            | Ub => Some Ub
            end
        end
    | Fail e => Some (Fail e)
    | Ub => Some Ub
    end
  else Some (Ok c).

Definition rtcp_xr_unpack {V} (alloc : Z → bool) (on_rtcp : V → rtcp_msg_t → V) (fuel : nat)
    (c : rtp_context V) (m : list Z) (ptr bytes : Z) : option (outcome (rtp_context V)) :=
  if bytes <? 8 then Some (Ok c) else
  match (id ← rtp_read_uint32 m ptr; '(sender, c) ← rtp_sender_fetch alloc c id; Ok (id, sender, c)) with
  | Ok (id, Some _, c) => rtcp_xr_loop alloc on_rtcp id m fuel c (ptr + 4) (bytes - 4)
  | Ok (_, None, c) => Some (Ok c)
  | Fail e => Some (Fail e)
  | Ub => Some Ub
  end.

(** * Writing *)

Definition rtcp_xr_rrt_pack (ntp : Z) (m : list Z) (ptr bytes : Z) : outcome (Z * list Z) :=
  if bytes <? 12 then Ok (-1, m) else
  m ← rtp_write_uint32 m ptr (Z.lor (Z.shiftl RTCP_XR_RRT 24) 2);
  m ← rtp_write_uint32 m (ptr + 4) (u32 (Z.shiftr ntp 32));
  m ← rtp_write_uint32 m (ptr + 8) (u32 ntp);
  Ok (12, m).

Fixpoint dlrr_pack_loop (l : list rtcp_dlrr_t) (i : Z) (m : list Z) (ptr bytes : Z) : outcome (Z * list Z) :=
  match l with
  | [] => Ok (4 + i * 12, m)
  | x :: l =>
      if bytes >=? 12 then
        m ← rtp_write_uint32 m ptr (dlrr_ssrc x);
        m ← rtp_write_uint32 m (ptr + 4) (dlrr_lrr x);
        m ← rtp_write_uint32 m (ptr + 8) (dlrr_dlrr x);
        dlrr_pack_loop l (i + 1) m (ptr + 12) (bytes - 12)
      else Ok (4 + i * 12, m)
  end.
Definition rtcp_xr_dlrr_pack (l : list rtcp_dlrr_t) (m : list Z) (ptr bytes : Z) : outcome (Z * list Z) :=
  let count := zlen l in
  if s32 bytes <? 4 + count * 12 then Ok (-1, m) else
  m ← rtp_write_uint32 m ptr (u32 (Z.lor (Z.shiftl RTCP_XR_DLRR 24) (count * 3)));
  dlrr_pack_loop l 0 m (ptr + 4) (bytes - 4).

Definition rtcp_xr_ecn_pack (ecn : rtcp_ecn_t) (m : list Z) (ptr bytes : Z) : outcome (Z * list Z) :=
  if bytes <? 24 then Ok (-1, m) else
  m ← rtp_write_uint32 m ptr (Z.lor (Z.shiftl RTCP_XR_ECN 24) 5);
  m ← rtp_write_uint32 m (ptr + 4) (ext_highest_seq ecn);
  m ← rtp_write_uint32 m (ptr + 8) (ect0 ecn);
  m ← rtp_write_uint32 m (ptr + 12) (ect1 ecn);
  m ← rtp_write_uint16 m (ptr + 16) (ect_ce_counter ecn);
  m ← rtp_write_uint16 m (ptr + 18) (not_ect_counter ecn);
  m ← rtp_write_uint16 m (ptr + 20) (lost_packets_counter ecn);
  m ← rtp_write_uint16 m (ptr + 22) (duplication_counter ecn);
  Ok (24, m).

Inductive rtcp_xr_t :=
  | XrRrt (ntp : Z)
  | XrDlrr (dlrr : list rtcp_dlrr_t)
  | XrEcn (ecn : rtcp_ecn_t).

Definition rtcp_xr_pack {V} (c : rtp_context V) (m : list Z) (bytes id : Z) (xr : rtcp_xr_t)
  : outcome (Z * list Z) :=
  if bytes <? 8 then Ok (8, m) else
  r ← (let some x := r ← x; Ok (Some r) in
       match xr with
       | XrRrt ntp => if id =? RTCP_XR_RRT then some (rtcp_xr_rrt_pack ntp m 8 (bytes - 8)) else Ok None
       | XrDlrr l => if id =? RTCP_XR_DLRR then some (rtcp_xr_dlrr_pack l m 8 (bytes - 8)) else Ok None
       | XrEcn e => if id =? RTCP_XR_ECN then some (rtcp_xr_ecn_pack e m 8 (bytes - 8)) else Ok None
       end);
  match r with
  | None => Ok (-1, m)
  | Some (r, m) =>
      let length := u16 (Z.quot (r + 4 + 3) 4) in
      m ← nbo_write_rtcp_header m 0 (RtcpHeader 2 0 id RTCP_XR length);
      s ← get_member c (self c);
      m ← rtp_write_uint32 m 4 (ssrc s);
      Ok (length * 4 + 4, m)
  end.
