(* ===== verification/RtcpSession.v ===== *)
(** Compound RTCP packets and the session: rtcp.c, rtcp-sr.c, rtcp-rr.c,
    rtcp-sdec.c, rtcp-bye.c, rtcp-app.c, rtp-time.c, rtcp-interval.c and rtp.c of
    librtp/source.  The clock is an argument of what reads it. *)
From S2P Require Import Prelude Doubles RtpPacket RtcpMember RtcpContext RtcpRtpfb RtcpPsfb RtcpXr.
Open Scope Z_scope.

(** * rtp-time.c *)

Definition clock2ntp (clock : Z) : Z :=
  Z.lor (u64 (Z.shiftl (clock / 1000000 + 2208988800) 32))
        (u32 (Z.shiftl (clock mod 1000000) 26 / 15625)).
Definition ntp2clock (ntp : Z) : Z :=
  u64 (u64 (u32 (u32 (Z.shiftr ntp 32) - 2208988800) * 1000000)
       + Z.shiftr (u64 (Z.land ntp 4294967295 * 15625)) 26).

(** * The fields of a participant the session assigns *)

Definition RTP_DROPOUT : Z := 500.
Definition RTP_MISORDER : Z := 100.

Definition with_seq (m : rtp_member) (seq cycles : Z) : rtp_member :=
  RtpMember (ref m) (ssrc m) (rtcp_sr m) (sdes m) (rtcp_clock m) seq (rtp_timestamp m)
    (rtp_clock m) (rtp_packets m) (rtp_bytes m) (jitter m) (rtp_packets0 m) (rtp_expected0 m)
    (rtp_probation m) (rtp_seq_base m) (rtp_seq_bad m) cycles.
Definition with_probation (m : rtp_member) (seq probation : Z) : rtp_member :=
  RtpMember (ref m) (ssrc m) (rtcp_sr m) (sdes m) (rtcp_clock m) seq (rtp_timestamp m)
    (rtp_clock m) (rtp_packets m) (rtp_bytes m) (jitter m) (rtp_packets0 m) (rtp_expected0 m)
    probation (rtp_seq_base m) (rtp_seq_bad m) (rtp_seq_cycles m).
Definition with_seq_bad (m : rtp_member) (bad : Z) : rtp_member :=
  RtpMember (ref m) (ssrc m) (rtcp_sr m) (sdes m) (rtcp_clock m) (rtp_seq m) (rtp_timestamp m)
    (rtp_clock m) (rtp_packets m) (rtp_bytes m) (jitter m) (rtp_packets0 m) (rtp_expected0 m)
    (rtp_probation m) (rtp_seq_base m) bad (rtp_seq_cycles m).
Definition with_sr (m : rtp_member) (clock : Z) (sr : rtcp_sr_t) : rtp_member :=
  RtpMember (ref m) (ssrc m) sr (sdes m) clock (rtp_seq m) (rtp_timestamp m)
    (rtp_clock m) (rtp_packets m) (rtp_bytes m) (jitter m) (rtp_packets0 m) (rtp_expected0 m)
    (rtp_probation m) (rtp_seq_base m) (rtp_seq_bad m) (rtp_seq_cycles m).
Definition with_prior (m : rtp_member) (expected packets : Z) : rtp_member :=
  RtpMember (ref m) (ssrc m) (rtcp_sr m) (sdes m) (rtcp_clock m) (rtp_seq m) (rtp_timestamp m)
    (rtp_clock m) (rtp_packets m) (rtp_bytes m) (jitter m) packets expected
    (rtp_probation m) (rtp_seq_base m) (rtp_seq_bad m) (rtp_seq_cycles m).
Definition with_clock (m : rtp_member) (clock timestamp : Z) : rtp_member :=
  RtpMember (ref m) (ssrc m) (rtcp_sr m) (sdes m) (rtcp_clock m) (rtp_seq m) timestamp
    clock (rtp_packets m) (rtp_bytes m) (jitter m) (rtp_packets0 m) (rtp_expected0 m)
    (rtp_probation m) (rtp_seq_base m) (rtp_seq_bad m) (rtp_seq_cycles m).
(** One more packet of [len] payload bytes. *)
Definition with_packet (m : rtp_member) (len : Z) (j : double) : rtp_member :=
  RtpMember (ref m) (ssrc m) (rtcp_sr m) (sdes m) (rtcp_clock m) (rtp_seq m) (rtp_timestamp m)
    (rtp_clock m) (u32 (rtp_packets m + 1)) (u64 (rtp_bytes m + len)) j (rtp_packets0 m) (rtp_expected0 m)
    (rtp_probation m) (rtp_seq_base m) (rtp_seq_bad m) (rtp_seq_cycles m).

(** * Receiving RTP: rtcp.c *)

Definition rtp_seq_init (m : rtp_member) (seq : Z) : rtp_member :=
  RtpMember (ref m) (ssrc m) (rtcp_sr m) (sdes m) (rtcp_clock m) seq (rtp_timestamp m)
    (rtp_clock m) 0 0 (S754_zero false) 0 0 0 seq (65536 + 1) 0.

Definition rtp_seq_update (m : rtp_member) (seq : Z) : Z * rtp_member :=
  let delta := u16 (seq - RtcpMember.rtp_seq m) in
  if rtp_probation m >? 0 then
    if RtcpMember.rtp_seq m + 1 =? seq then
      let probation := u16 (rtp_probation m - 1) in
      let m := with_probation m seq probation in
      if 0 =? probation then (1, rtp_seq_init m seq) else (0, m)
    else (0, with_probation m seq RTP_PROBATION)
  else if delta <? RTP_DROPOUT then
    let cycles := if seq <? RtcpMember.rtp_seq m then u32 (rtp_seq_cycles m + 65536) else rtp_seq_cycles m in
    (1, with_seq m seq cycles)
  else if delta <=? 65536 - RTP_MISORDER then
    if u32 (rtp_seq_bad m + 1) =? seq then (1, rtp_seq_init m seq) else (0, with_seq_bad m seq)
  else (1, m).

(** The difference of the transit times of two packets, an [int]: what the
    clock moved by, in units of the time stamp, and what the time stamp did. *)
Definition transit_difference (clock timestamp frequence now ts : Z) : Z :=
  s32 (u32 (u32 (u64 (u64 (now - clock) * u64 frequence) / 1000000) - u32 (ts - timestamp))).

(** The estimate of RFC 3550 A.8 after a packet with the time stamp. *)
Definition next_jitter (m : rtp_member) (frequence now ts : Z) : outcome double :=
  if 0 =? rtp_packets m then Ok (S754_zero false) else
  let D := transit_difference (rtp_clock m) (RtcpMember.rtp_timestamp m) frequence now ts in
  D ← (if D <? 0 then int (- D) else Ok D);
  Ok (double_add (jitter m) (double_div (double_sub (double_of_Z D) (jitter m)) (double_of_Z 16))).

Section Input.
Context {V : Type} (alloc : Z → bool) (on_rtcp : V → rtcp_msg_t → V).
Implicit Types c : rtp_context V.

Definition rtcp_input_rtp c (now : Z) (data : list Z) (bytes : Z) : outcome (Z * rtp_context V) :=
  match rtp_packet_deserialize data bytes with
  | Ub => Ub
  | Fail _ => Ok (-1, c)
  | Ok pkt =>
      '(sender, c) ← rtp_sender_fetch alloc c (rtp_ssrc (rtp pkt));
      match sender with
      | None => Ok (-1, c)
      | Some p =>
          s ← get_member c p;
          let '(r, s) := rtp_seq_update s (RtpPacket.rtp_seq (rtp pkt)) in
          if 0 =? r then Ok (0, put_member c p s) else
          j ← next_jitter s (frequence c) now (RtpPacket.rtp_timestamp (rtp pkt));
          let s := with_clock s now (RtpPacket.rtp_timestamp (rtp pkt)) in
          Ok (1, put_member c p (with_packet s (payloadlen pkt) j))
      end
  end.

(** * Receiving reports: rtcp-sr.c, rtcp-rr.c *)

Definition read_report_block (m : list Z) (ptr : Z) : outcome rtcp_rb_t :=
  id ← rtp_read_uint32 m ptr;
  f ← ld m (ptr + 4);
  a ← ld m (ptr + 5); b ← ld m (ptr + 6); d ← ld m (ptr + 7);
  x ← rtp_read_uint32 m (ptr + 8); j ← rtp_read_uint32 m (ptr + 12);
  l ← rtp_read_uint32 m (ptr + 16); dl ← rtp_read_uint32 m (ptr + 20);
  Ok (RtcpRb id f (Z.lor (Z.lor (Z.shiftl a 16) (Z.shiftl b 8)) d) x j l dl).

(** [rc] report blocks from [ptr], each given to the handler. *)
Fixpoint report_blocks (rc : nat) c (type id : Z) (m : list Z) (ptr : Z) : outcome (rtp_context V) :=
  match rc with
  | O => Ok c
  | S rc =>
      rb ← read_report_block m ptr;
      report_blocks rc (call on_rtcp c (RtcpMsg type id (MsgReport rb))) type id m (ptr + 24)
  end.

Definition rtcp_sr_unpack c (now : Z) (h : rtcp_header_t) (m : list Z) (ptr bytes : Z)
  : outcome (rtp_context V) :=
  if bytes <? 24 + rh_rc h * 24 then Ok c else
  id ← rtp_read_uint32 m ptr;
  '(sender, c) ← rtp_sender_fetch alloc c id;
  match sender with
  | None => Ok c
  | Some p =>
      s ← get_member c p;
      msw ← rtp_read_uint32 m (ptr + 4); lsw ← rtp_read_uint32 m (ptr + 8);
      ts ← rtp_read_uint32 m (ptr + 12);
      spc ← rtp_read_uint32 m (ptr + 16); soc ← rtp_read_uint32 m (ptr + 20);
      let c := put_member c p (with_sr s now (RtcpSr (sr_ssrc (rtcp_sr s)) msw lsw ts spc soc)) in
      report_blocks (Z.to_nat (rh_rc h)) c RTCP_SR id m (ptr + 24)
  end.

Definition rtcp_rr_unpack c (now : Z) (h : rtcp_header_t) (m : list Z) (ptr bytes : Z)
  : outcome (rtp_context V) :=
  if bytes <? 4 + rh_rc h * 24 then Ok c else
  id ← rtp_read_uint32 m ptr;
  '(receiver, c) ← rtp_member_fetch alloc c id;
  match receiver with
  | None => Ok c
  | Some p =>
      s ← get_member c p;
      let c := put_member c p (with_sr s now (rtcp_sr s)) in
      report_blocks (Z.to_nat (rh_rc h)) c RTCP_RR id m (ptr + 4)
  end.

(** * Source descriptions: rtcp-sdec.c *)

(** The items of a chunk from [p]: whether the function returns there, the
    position after them and the session. *)
Fixpoint sdes_items (fuel : nat) c (id : Z) (member : option Z) (m : list Z) (p last : Z)
  : outcome (bool * Z * rtp_context V) :=
  if p + 2 <=? last then
    pt ← ld m p;
    if RTCP_SDES_END =? pt then Ok (false, p, c) else
    match fuel with
    | O => Ub
    | S fuel =>
        len ← ld m (p + 1);
        if p + 2 + len >? last then Ok (true, p, c) else
        data ← slice m (p + 2) len;
        let c := call on_rtcp c (RtcpMsg RTCP_SDES id (MsgSdes pt len data)) in
        c ← (if (RTCP_SDES_CNAME <=? pt) && (pt <=? RTCP_SDES_NOTE) then
               p ← cell member;
               '(_, h) ← rtp_member_setvalue alloc (heap c) p pt data len;
               Ok (set_heap c h)
             else Ok c);
        sdes_items fuel c id member m (p + 2 + len) last
    end
  else Ok (false, p, c).

(** The next chunk starts at the next address divisible by 4; [base] is the
    address of the datagram. *)
Definition sdes_align (base p : Z) : Z := (base + p + 3) / 4 * 4 - base.

Fixpoint sdes_chunks (rc : nat) c (base : Z) (m : list Z) (p last : Z) : outcome (rtp_context V) :=
  match rc with
  | O => Ok c
  | S rc =>
      if p + 8 <=? last then
        id ← rtp_read_uint32 m p;
        '(member, c) ← rtp_member_fetch alloc c id;
        '(returns, p, c) ← sdes_items (Z.to_nat (last - p)) c id member m (p + 4) last;
        if (returns : bool) then Ok c else sdes_chunks rc c base m (sdes_align base p) last
      else Ok c
  end.

Definition rtcp_sdes_unpack c (base : Z) (h : rtcp_header_t) (m : list Z) (ptr bytes : Z)
  : outcome (rtp_context V) :=
  sdes_chunks (Z.to_nat (rh_rc h)) c base m ptr (ptr + bytes).

(** * Goodbyes and application packets: rtcp-bye.c, rtcp-app.c *)

(** The participant leaves both lists. *)
Definition bye_member c (id : Z) : outcome (rtp_context V) :=
  '(_, h, l) ← rtp_member_list_delete (heap c) (members c) id;
  let c := set_members c h l in
  '(_, h, l) ← rtp_member_list_delete (heap c) (senders c) id;
  Ok (set_senders c h l).

Fixpoint bye_others (n : nat) (i : Z) c (u : rtcp_msg_u) (m : list Z) (ptr : Z) : outcome (rtp_context V) :=
  match n with
  | O => Ok c
  | S n =>
      id ← rtp_read_uint32 m (ptr + i * 4);
      c ← bye_member c id;
      bye_others n (i + 1) (call on_rtcp c (RtcpMsg RTCP_BYE id u)) u m ptr
  end.

Definition rtcp_bye_unpack c (h : rtcp_header_t) (m : list Z) (ptr bytes : Z) : outcome (rtp_context V) :=
  let rc := rh_rc h in
  if (rc <? 1) || (rc * 4 >? bytes) then Ok c else
  id ← rtp_read_uint32 m ptr;
  c ← bye_member c id;
  u ← (if bytes >? rc * 4 + 1 then
         n ← ld m (ptr + rc * 4);
         if 1 + n + rc * 4 >? bytes then Ok (MsgBye None 0)
         else reason ← slice m (ptr + rc * 4 + 1) n; Ok (MsgBye (Some reason) n)
       else Ok (MsgBye None 0));
  bye_others (Z.to_nat (rc - 1)) 1 (call on_rtcp c (RtcpMsg RTCP_BYE id u)) u m ptr.

Definition rtcp_app_unpack c (h : rtcp_header_t) (m : list Z) (ptr bytes : Z) : outcome (rtp_context V) :=
  if bytes <? 8 then Ok c else
  id ← rtp_read_uint32 m ptr;
  name ← slice m (ptr + 4) 4;
  data ← slice m (ptr + 8) (bytes - 8);
  Ok (call on_rtcp c (RtcpMsg RTCP_APP id (MsgApp (rh_rc h) name data (bytes - 8)))).

(** * Compound packets: rtcp.c *)

Definition rtcp_header (v : Z) : rtcp_header_t :=
  RtcpHeader (RTCP_V v) (RTCP_P v) (RTCP_RC v) (RTCP_PT v) (RTCP_LEN v).

(** The padding of the packet that ends at [ptr + n], or [None] when the
    packet is refused. *)
Definition rtcp_check (h : rtcp_header_t) (m : list Z) (ptr n bytes : Z) : outcome (option Z) :=
  if (n >? bytes) || negb (2 =? rh_v h) then Ok None else
  if truth (rh_p h) then
    if rh_length h <? 1 then Ok None else
    pad ← ld m (ptr + n - 1);
    Ok (if rh_length h * 4 <? pad then None else Some pad)
  else Ok (Some 0).

(** The handler of the packet type; [fuel] bounds the blocks of an extended
    report. *)
Definition rtcp_dispatch (fuel : nat) c (now base : Z) (h : rtcp_header_t) (m : list Z) (ptr bytes : Z)
  : option (outcome (rtp_context V)) :=
  let pt := rh_pt h in
  if pt =? RTCP_SR then Some (rtcp_sr_unpack c now h m ptr bytes)
  else if pt =? RTCP_RR then Some (rtcp_rr_unpack c now h m ptr bytes)
  else if pt =? RTCP_SDES then Some (rtcp_sdes_unpack c base h m ptr bytes)
  else if pt =? RTCP_BYE then Some (rtcp_bye_unpack c h m ptr bytes)
  else if pt =? RTCP_APP then Some (rtcp_app_unpack c h m ptr bytes)
  else if pt =? RTCP_RTPFB then Some (rtcp_rtpfb_unpack alloc on_rtcp c (rh_rc h) m ptr bytes)
  else if pt =? RTCP_PSFB then Some (rtcp_psfb_unpack alloc on_rtcp c (rh_rc h) m ptr bytes)
  else if pt =? RTCP_XR then rtcp_xr_unpack alloc on_rtcp fuel c m ptr bytes
  else Some (Ok c).

Definition rtcp_parse (fuel : nat) c (now base : Z) (m : list Z) (ptr bytes : Z)
  : option (outcome (Z * rtp_context V)) :=
  match (v ← rtp_read_uint32 m ptr;
         let h := rtcp_header v in
         pad ← rtcp_check h m ptr (rh_length h * 4 + 4) bytes;
         Ok (h, pad)) with
  | Ub => Some Ub
  | Fail e => Some (Fail e)
  | Ok (_, None) => Some (Ok (-1, c))
  | Ok (h, Some pad) =>
      match rtcp_dispatch fuel c now base h m (ptr + 4) (rh_length h * 4 - pad) with
      | None => None
      | Some x => Some (c ← x; Ok ((rh_length h + 1) * 4, c))
      end
  end.

(** [(int)(avg * 1.0 / 16 + r * 15.0 / 16)]: quotients and sum are exact in a
    double, so the conversion is the integer quotient. *)
Definition next_avg_rtcp_size (avg r : Z) : Z := Z.quot (avg + 15 * r) 16.

Fixpoint rtcp_input_loop (n fuel : nat) c (now base : Z) (m : list Z) (ptr bytes : Z)
  : option (outcome (rtp_context V)) :=
  if bytes >? 4 then
    match n with
    | O => None
    | S n =>
        match rtcp_parse fuel c now base m ptr bytes with
        | Some (Ok (r, c)) =>
            if r <=? 0 then Some (Ok c) else
            let c := set_avg_rtcp_size c (next_avg_rtcp_size (avg_rtcp_size c) r) in
            rtcp_input_loop n fuel c now base m (ptr + r) (bytes - r)
        | Some (Fail e) => Some (Fail e)
        | Some Ub => Some Ub
        | None => None
        end
    end
  else Some (Ok c).

(** It always returns 0. *)
Definition rtcp_input_rtcp (fuel : nat) c (now base : Z) (data : list Z) (bytes : Z)
  : option (outcome (rtp_context V)) :=
  rtcp_input_loop (Z.to_nat bytes) fuel c now base data 0 bytes.
End Input.

(** * Writing reports: rtcp-sr.c, rtcp-rr.c *)

(** 65536ths of a second in [delay] microseconds, computed in [float]. *)
Definition dlsr_of (delay : Z) : outcome Z :=
  to_uint32 (float_mul (float_div (float_of_Z delay) (float_of_Z 1000000)) (float_of_Z 65536)).

(** What the block is computed from. *)
Definition extended_seq (s : rtp_member) : Z := u32 (rtp_seq_cycles s + RtcpMember.rtp_seq s).
Definition expected (s : rtp_member) : Z := u32 (extended_seq s - rtp_seq_base s + 1).
Definition expected_interval (s : rtp_member) : Z := u32 (expected s - rtp_expected0 s).
Definition received_interval (s : rtp_member) : Z := u32 (rtp_packets s - rtp_packets0 s).
Definition lost_interval (s : rtp_member) : Z := s32 (u32 (expected_interval s - received_interval s)).
Definition fraction_lost (s : rtp_member) : outcome Z :=
  if (lost_interval s <? 0) || (0 =? expected_interval s) then Ok 0
  else n ← int (Z.shiftl (lost_interval s) 8); Ok (u32 n / expected_interval s).
Definition cumulative_lost (s : rtp_member) : Z :=
  let lost := s32 (u32 (expected s - rtp_packets s)) in
  if lost >? 8388607 then 8388607 else if lost <? 0 then 0 else lost.
Definition last_sr (s : rtp_member) : Z :=
  let sr := rtcp_sr s in
  Z.lor (Z.shiftl (Z.land (sr_ntpmsw sr) 65535) 16) (Z.land (Z.shiftr (sr_ntplsw sr) 16) 65535).

Definition rtcp_report_block (s : rtp_member) (now : Z) (m : list Z) (ptr bytes : Z)
  : outcome (Z * rtp_member * list Z) :=
  if bytes <? 24 then Ok (0, s, m) else
  fraction ← fraction_lost s;
  let lost := cumulative_lost s in
  dlsr ← dlsr_of (u64 (now - rtcp_clock s));
  m ← rtp_write_uint32 m ptr (ssrc s);
  m ← st m (ptr + 4) [u8 fraction; Z.land (Z.shiftr lost 16) 255; Z.land (Z.shiftr lost 8) 255; Z.land lost 255];
  m ← rtp_write_uint32 m (ptr + 8) (extended_seq s);
  j ← to_uint32 (jitter s);
  m ← rtp_write_uint32 m (ptr + 12) j;
  m ← rtp_write_uint32 m (ptr + 16) (last_sr s);
  m ← rtp_write_uint32 m (ptr + 20) (if 0 =? last_sr s then 0 else dlsr);
  Ok (24, with_prior s (expected s) (rtp_packets s), m).

Section Report.
Context {V : Type}.
Implicit Types c : rtp_context V.

(** The blocks of the first [rc] senders, from index [i]; a sender without a
    packet, and the session itself, write none. *)
Fixpoint sender_blocks (rc : nat) (i : Z) c (now : Z) (m : list Z) (ptr : Z)
  : outcome (list Z * rtp_context V) :=
  match rc with
  | O => Ok (m, c)
  | S rc =>
      p ← rtp_member_list_get (senders c) i;
      p ← cell p;
      s ← get_member c p;
      me ← get_member c (self c);
      if (0 =? rtp_packets s) || (ssrc s =? ssrc me) then sender_blocks rc (i + 1) c now m ptr
      else
        '(n, s, m) ← rtcp_report_block s now m ptr 24;
        sender_blocks rc (i + 1) (put_member c p s) now m (ptr + n)
  end.

Definition report_count c : Z := Z.min 31 (rtp_member_list_count (senders c)).

Definition rtcp_sr_pack c (now : Z) (m : list Z) (ptr bytes : Z) : outcome (Z * list Z * rtp_context V) :=
  let rc := report_count c in
  let length := (24 + rc * 24) / 4 in
  if u32 bytes <? (length + 1) * 4 then Ok ((length + 1) * 4, m, c) else
  m ← nbo_write_rtcp_header m ptr (RtcpHeader 2 0 rc RTCP_SR length);
  s ← get_member c (self c);
  let s := if 0 =? rtp_packets s then with_clock s now (RtcpMember.rtp_timestamp s) else s in
  let c := put_member c (self c) s in
  let timestamp := u32 (u32 (u64 (u64 (now - rtp_clock s) * u64 (frequence c)) / 1000000)
                        + RtcpMember.rtp_timestamp s) in
  let ntp := clock2ntp now in
  m ← rtp_write_uint32 m (ptr + 4) (ssrc s);
  m ← rtp_write_uint32 m (ptr + 8) (u32 (Z.shiftr ntp 32));
  m ← rtp_write_uint32 m (ptr + 12) (Z.land ntp 4294967295);
  m ← rtp_write_uint32 m (ptr + 16) timestamp;
  m ← rtp_write_uint32 m (ptr + 20) (rtp_packets s);
  m ← rtp_write_uint32 m (ptr + 24) (u32 (rtp_bytes s));
  '(m, c) ← sender_blocks (Z.to_nat rc) 0 c now m (ptr + 28);
  Ok ((length + 1) * 4, m, c).

Definition rtcp_rr_pack c (now : Z) (m : list Z) (ptr bytes : Z) : outcome (Z * list Z * rtp_context V) :=
  let rc := report_count c in
  let length := (4 + rc * 24) / 4 in
  if u32 bytes <? 4 + length * 4 then Ok (4 + length * 4, m, c) else
  m ← nbo_write_rtcp_header m ptr (RtcpHeader 2 0 rc RTCP_RR length);
  s ← get_member c (self c);
  m ← rtp_write_uint32 m (ptr + 4) (ssrc s);
  '(m, c) ← sender_blocks (Z.to_nat rc) 0 c now m (ptr + 8);
  Ok ((length + 1) * 4, m, c).

(** * rtcp-sdec.c, rtcp-bye.c, rtcp-app.c *)

(** [bytes] is a [size_t]. *)
Definition rtcp_sdes_append_item (m : list Z) (ptr bytes : Z) (s : rtcp_sdes_item_t)
  : outcome (Z * list Z) :=
  m ← (if bytes >=? sd_len s + 2 then
         m ← st m ptr [sd_pt s; sd_len s];
         data ← (match sd_data s with Some d => slice d 0 (sd_len s) | None => Ub end);
         st m (ptr + 2) data
       else Ok m);
  Ok (sd_len s + 2, m).

Definition rtcp_sdes_pack c (m : list Z) (ptr bytes : Z) : outcome (Z * list Z * rtp_context V) :=
  s ← get_member c (self c);
  cname ← ld (sdes s) RTCP_SDES_CNAME;
  match sd_data cname with
  | None => Ok (0, m, c)
  | Some _ =>
      '(n, m) ← rtcp_sdes_append_item m (ptr + 8) (u64 (bytes - 8)) cname;
      if bytes <? 8 + n then Ok (8 + n, m, c) else
      let k := Z.quot (rtcp_cycle c) 3 in
      '(n, m) ←
        (if (0 =? Z.rem (rtcp_cycle c) 3) && (k >? 0) then
           item ← ld (sdes s) (k + 1);
           match sd_data item with
           | Some _ =>
               '(n', m) ← rtcp_sdes_append_item m (ptr + 8 + n) (u64 (bytes - n - 8)) item;
               Ok (n + n', m)
           | None => Ok (n, m)
           end
         else Ok (n, m));
      if n + 8 >? bytes then Ok (n + 8, m, c) else
      let c := set_cycle c (Z.rem (rtcp_cycle c + 1) 24) in
      let length := u16 ((n + 4 + 3) / 4) in
      m ← nbo_write_rtcp_header m ptr (RtcpHeader 2 0 1 RTCP_SDES length);
      m ← rtp_write_uint32 m (ptr + 4) (ssrc s);
      Ok ((length + 1) * 4, m, c)
  end.

Definition rtcp_bye_pack c (m : list Z) (bytes : Z) : outcome (Z * list Z) :=
  if bytes <? 8 then Ok (8, m) else
  m ← nbo_write_rtcp_header m 0 (RtcpHeader 2 0 1 RTCP_BYE 1);
  s ← get_member c (self c);
  m ← rtp_write_uint32 m 4 (ssrc s);
  Ok (8, m).

Definition rtcp_app_pack c (m : list Z) (bytes : Z) (name app : list Z) (len : Z) : outcome (Z * list Z) :=
  n ← int (len + 3);
  let words := Z.quot n 4 in
  n ← int (12 + words * 4);
  if bytes >=? n then
    m ← nbo_write_rtcp_header m 0 (RtcpHeader 2 0 0 RTCP_APP (u16 (2 + words)));
    s ← get_member c (self c);
    m ← rtp_write_uint32 m 4 (ssrc s);
    name ← slice name 0 4;
    m ← st m 8 name;
    m ← (if len >? 0 then
           data ← slice app 0 len;
           m ← st m 12 data;
           (if truth (Z.rem len 4)
            then st m (12 + len) (replicate (Z.to_nat (4 - Z.rem len 4)) 0)
            else Ok m)
         else Ok m);
    Ok (n, m)
  else Ok (n, m).
End Report.

(** * rtcp-interval.c *)

(** The decimal constants of the source are correctly rounded quotients. *)
Definition RTCP_BANDWIDTH_FRACTION : double := double_div (double_of_Z 5) (double_of_Z 100).
Definition RTCP_SENDER_BW_FRACTION : double := double_div (double_of_Z 25) (double_of_Z 100).
Definition RTCP_RCVR_BW_FRACTION : double := double_sub (double_of_Z 1) RTCP_SENDER_BW_FRACTION.
Definition COMPENSATION : double :=
  double_sub (double_div (double_of_Z 271828) (double_of_Z 100000)) (double_div (double_of_Z 15) (double_of_Z 10)).

(** [random] is the value of [drand48]. *)
Definition rtcp_interval (random : double) (members senders : Z) (rtcp_bw : double) (we_sent : Z)
    (avg_rtcp_size : double) (initial : Z) : outcome double :=
  let rtcp_min_time := double_of_Z 5 in
  let rtcp_min_time := if truth initial then double_div rtcp_min_time (double_of_Z 2) else rtcp_min_time in
  '(n, bw) ←
    (if SFleb (double_of_Z senders) (double_mul (double_of_Z members) RTCP_SENDER_BW_FRACTION) then
       if truth we_sent then Ok (senders, double_mul rtcp_bw RTCP_SENDER_BW_FRACTION)
       else n ← int (members - senders); Ok (n, double_mul rtcp_bw RTCP_RCVR_BW_FRACTION)
     else Ok (members, rtcp_bw));
  let t := double_div (double_mul avg_rtcp_size (double_of_Z n)) bw in
  let t := if SFltb t rtcp_min_time then rtcp_min_time else t in
  let t := double_mul t (double_add random (double_div (double_of_Z 5) (double_of_Z 10))) in
  Ok (double_div t COMPENSATION).

(** * rtp.c *)

Definition RTP_SENDER : Z := 1.
Definition RTP_RECEIVER : Z := 2.
Definition RTCP_REPORT_INTERVAL : Z := 5000.

Section Session.
Context {V : Type} (alloc : Z → bool) (on_rtcp : V → rtcp_msg_t → V).
Implicit Types c : rtp_context V.

(** One allocation whose block is not in the store. *)
Definition calloc (h : store) : bool * store :=
  (alloc (allocations h), Store (objects h) (allocations h + 1)).

(** What [rtp_destroy] releases of a session whose parts exist or not. *)
Definition rtp_destroy (h : store) (members senders : option rtp_member_list) (self : option Z)
  : outcome store :=
  let destroy l h := match l with Some l => rtp_member_list_destroy h l | None => Ok h end in
  h ← destroy members h;
  h ← destroy senders h;
  match self with Some p => rtp_member_release h p | None => Ok h end.

Definition rtp_create (h : store) (v : V) (now id timestamp frequence bandwidth sender : Z)
  : outcome (option (rtp_context V) * store) :=
  let '(ok, h) := calloc h in
  if negb ok then Ok (None, h) else
  let '(me, h) := rtp_member_create alloc h id in
  let '(ok1, h) := calloc h in
  let '(ok2, h) := calloc h in
  let lists (ok : bool) := if ok then Some rtp_member_list_create else None in
  match me, lists ok1, lists ok2 with
  | Some p, Some l, Some k =>
      s ← load h p;
      let h := save h p (with_clock s now timestamp) in
      '(_, h, l) ← rtp_member_list_add alloc h l p;
      bw ← to_int (double_mul (double_of_Z bandwidth) RTCP_BANDWIDTH_FRACTION);
      Ok (Some (RtpContext v h l k p 0 bw 0 frequence 1 (if truth sender then RTP_SENDER else RTP_RECEIVER)), h)
  | me, l, k => h ← rtp_destroy h l k me; Ok (None, h)
  end.

Definition rtp_onsend c (now : Z) (data : list Z) (bytes : Z) : outcome (Z * rtp_context V) :=
  let c := set_role c (init c) RTP_SENDER in
  match rtp_packet_deserialize data bytes with
  | Ub => Ub
  | Fail _ => Ok (-1, c)
  | Ok pkt =>
      s ← get_member c (self c);
      let s := with_clock s now (RtpPacket.rtp_timestamp (rtp pkt)) in
      Ok (0, put_member c (self c) (with_packet s (payloadlen pkt) (jitter s)))
  end.

Definition rtp_onreceived := rtcp_input_rtp (V := V) alloc.
Definition rtp_onreceived_rtcp := rtcp_input_rtcp alloc on_rtcp.

Definition rtp_rtcp_report c (now : Z) (m : list Z) (bytes : Z) : outcome (Z * list Z * rtp_context V) :=
  '(n, m, c) ← (if RTP_SENDER =? role c then rtcp_sr_pack c now m 0 bytes else rtcp_rr_pack c now m 0 bytes);
  '(n, m, c) ← (if n <? bytes
                then '(k, m, c) ← rtcp_sdes_pack c m n (bytes - n); Ok (n + k, m, c)
                else Ok (n, m, c));
  Ok (n, m, set_role c 0 (role c)).

Definition rtp_rtcp_bye c := rtcp_bye_pack c.
Definition rtp_rtcp_app c := rtcp_app_pack c.
Definition rtp_rtcp_rtpfb c := rtcp_rtpfb_pack c.
Definition rtp_rtcp_psfb c := rtcp_psfb_pack c.
Definition rtp_rtcp_xr c := rtcp_xr_pack c.

(** The interval in milliseconds. *)
Definition rtp_rtcp_interval c (now : Z) (random : double) : outcome Z :=
  s ← get_member c (self c);
  t ← rtcp_interval random (rtp_member_list_count (members c))
        (rtp_member_list_count (senders c) + (if RTP_SENDER =? role c then 1 else 0))
        (double_of_Z (rtcp_bw c))
        (if u64 (rtp_clock s + 2 * RTCP_REPORT_INTERVAL * 1000) >? now then 1 else 0)
        (double_of_Z (avg_rtcp_size c)) (init c);
  to_int (double_mul t (double_of_Z 1000)).

(** The data of a description, which is not null-terminated. *)
Definition get_sdes c (id item : Z) : outcome (option (list Z)) :=
  p ← rtp_member_list_find (heap c) (members c) id;
  match p with
  | None => Ok None
  | Some p => s ← get_member c p; i ← ld (sdes s) item; Ok (sd_data i)
  end.
Definition rtp_get_cname c (id : Z) := get_sdes c id RTCP_SDES_CNAME.
Definition rtp_get_name c (id : Z) := get_sdes c id RTCP_SDES_NAME.

(** The characters of the strings. *)
Definition rtp_set_info c (cname name : list Z) : outcome (rtp_context V) :=
  '(_, h) ← rtp_member_setvalue alloc (heap c) (self c) RTCP_SDES_CNAME cname (zlen cname);
  '(_, h) ← rtp_member_setvalue alloc h (self c) RTCP_SDES_NAME name (zlen name);
  Ok (set_heap c h).
End Session.
