(* ===== verification/RtcpContextSpec.v ===== *)
(** The invariant of a session: its lists are well formed, every reference is
    counted, and participants are known by one source.  The functions that look
    participants up and give messages to the handler keep it. *)
From S2P Require Import Prelude Doubles RtpPacket RtcpMember RtcpContext RtcpSession.
Open Scope Z_scope.

(** The references of a session: its own participant and the two lists. *)
Record session_ok {V} (c : rtp_context V) (ms ss : list Z) : Prop := {
  ok_members : list_ok (members c) ms;
  ok_senders : list_ok (senders c) ss;
  ok_refs : refs_ok (heap c) (self c :: ms ++ ss);
  ok_sources : NoDup (source_of (heap c) <$> ms);
  ok_subset p : p ∈ ss → p ∈ ms;
  ok_nodup : NoDup ss
}.

Definition session {V} (c : rtp_context V) : Prop := ∃ ms ss, session_ok c ms ss.

Section Spec.
Context {V : Type}.
Implicit Types c : rtp_context V.

Lemma session_held c ms ss p : session_ok c ms ss → p ∈ self c :: ms ++ ss → is_Some (objects (heap c) !! p).
Proof. intros H. apply (ok_held _ _ (ok_refs _ _ _ H)). Qed.

Lemma member_held c ms ss p : session_ok c ms ss → p ∈ ms → is_Some (objects (heap c) !! p).
Proof. intros H Hp. eapply session_held; [done|]. set_solver. Qed.

(** Pointers to different participants have different sources. *)
Lemma member_unique c ms ss p q : session_ok c ms ss → p ∈ ms → q ∈ ms →
  source_of (heap c) p = source_of (heap c) q → p = q.
Proof.
  intros H [i Hi]%list_elem_of_lookup_1 [j Hj]%list_elem_of_lookup_1 E.
  assert (i = j); [|congruence].
  eapply (NoDup_lookup (source_of (heap c) <$> ms)); [apply H| |];
    rewrite list_lookup_fmap; [rewrite Hi; done|rewrite Hj; simpl; congruence].
Qed.

(** A session whose store changed but for the sources. *)
Lemma session_set_heap c ms ss h :
  session_ok c ms ss → refs_ok h (self c :: ms ++ ss) →
  (∀ p, p ∈ ms → source_of h p = source_of (heap c) p) → session_ok (set_heap c h) ms ss.
Proof.
  intros H Hr Hs. split; cbn; try apply H; [done|].
  rewrite (list_fmap_ext (source_of h) (source_of (heap c)) ms); [apply H|].
  intros i p Hp. apply Hs. by eapply list_elem_of_lookup_2.
Qed.

Lemma source_of_eq h h' p : ssrc <$> objects h' = ssrc <$> objects h → source_of h' p = source_of h p.
Proof. intros E. unfold source_of. by rewrite <- !lookup_fmap, E. Qed.

(** Assigning to the fields of a participant. *)
Lemma session_put c ms ss p m m' :
  session_ok c ms ss → objects (heap c) !! p = Some m →
  member_ok m' → ref m' = ref m → ssrc m' = ssrc m → session_ok (put_member c p m') ms ss.
Proof.
  intros H Hp Hm Hr Hs. apply session_set_heap; [done| |].
  - eapply refs_ok_save; [apply H|done..].
  - intros q _. apply source_of_eq. simpl. rewrite fmap_insert, Hs.
    apply insert_id. by rewrite lookup_fmap, Hp.
Qed.

Lemma session_call c ms ss on_rtcp msg : session_ok c ms ss → session_ok (call on_rtcp c msg) ms ss.
Proof. intros []. by split. Qed.

Lemma session_role c ms ss i r : session_ok c ms ss → session_ok (set_role c i r) ms ss.
Proof. intros []. by split. Qed.

Lemma session_avg c ms ss n : session_ok c ms ss → session_ok (set_avg_rtcp_size c n) ms ss.
Proof. intros []. by split. Qed.

Lemma session_cycle c ms ss n : session_ok c ms ss → session_ok (set_cycle c n) ms ss.
Proof. intros []. by split. Qed.

Lemma session_allocate c ms ss : session_ok c ms ss →
  session_ok (set_heap c (Store (objects (heap c)) (allocations (heap c) + 1))) ms ss.
Proof. intros H. apply session_set_heap; [done|by apply refs_ok_allocate, H|done]. Qed.
End Spec.

Create HintDb session.
#[export] Hint Resolve session_call session_role session_avg session_cycle session_allocate : session.

(** * Looking participants up *)

Section Fetch.
Context {V : Type} (alloc : Z → bool) (on_rtcp : V → rtcp_msg_t → V).
Hypothesis alloc_ok : ∀ n, alloc n = true.
Implicit Types c : rtp_context V.

(** The pointer is one of those of a session [c'], the participant with the
    source; everything else of [c] is as it was. *)
Record fetched c c' (p id : Z) (ps : list Z) : Prop := {
  fetched_in : p ∈ ps;
  fetched_source : source_of (heap c') p = Some id;
  fetched_self : self c' = self c;
  fetched_app : app c' = app c;
  fetched_frequence : frequence c' = frequence c;
  fetched_old q m : objects (heap c) !! q = Some m → ∃ r, objects (heap c') !! q = Some (with_ref m r)
}.

Lemma has_source_fresh h id p : p ∈ @nil Z → has_source h id p → False.
Proof. by intros ?%elem_of_nil. Qed.

Lemma with_ref_id m : with_ref m (ref m) = m.
Proof. by destruct m. Qed.

Lemma fetched_refl c p id ps : p ∈ ps → source_of (heap c) p = Some id → fetched c c p id ps.
Proof. split; try done. intros q m Hq. exists (ref m). by rewrite with_ref_id. Qed.

(** The participant is found, or is new and last. *)
Lemma rtp_member_fetch_ok c ms ss id : session_ok c ms ss →
  ∃ p c' ms', rtp_member_fetch alloc c id = Ok (Some p, c') ∧ session_ok c' ms' ss ∧
    fetched c c' p id ms' ∧ senders c' = senders c ∧
    (ms' = ms ∨ ms' = ms ++ [p] ∧ objects (heap c) !! p = None ∧ Forall (λ q, ¬ has_source (heap c) id q) ms).
Proof.
  intros H. unfold rtp_member_fetch.
  rewrite rtp_member_list_find_ok with (ps := ms); [|apply H|intros; by eapply member_held].
  run. destruct (list_find (has_source (heap c) id) ms) as [[i p]|] eqn:E; cbn [fmap option_fmap option_map snd].
  { apply list_find_Some in E as (Hi & Hs & _).
    exists p, c, ms. split_and!; [done|done| |done|by left].
    apply fetched_refl; [by eapply list_elem_of_lookup_2|done]. }
  apply list_find_None in E.
  destruct (rtp_member_create_ok alloc (heap c) _ id (ok_refs _ _ _ H) (alloc_ok _)) as (-> & Hr & Hnew).
  set (p := allocations (heap c)) in *.
  set (h1 := Store (<[p := fresh_member id]> (objects (heap c))) (p + 1)) in *.
  destruct (rtp_member_list_add_ok alloc h1 (members c) ms _ p (fresh_member id) (ok_members _ _ _ H) Hr)
    as [(h2 & l & Ea & Hl & Hr2 & Hs2)|(n & ? & _ & Hf & _)]; [apply lookup_insert_eq| |by rewrite alloc_ok in Hf].
  run. rewrite Ea. run. simpl in Hs2. rewrite insert_insert_eq in Hs2.
  rewrite (rtp_member_release_kept h2 _ p _ Hr2 ltac:(constructor) ltac:(rewrite Hs2; apply lookup_insert_eq)).
  assert (p ∉ self c :: ms ++ ss) as Hout by (intros [? ?]%(session_held _ _ _ _ H); congruence).
  assert (∀ q, q ≠ p → source_of (save h2 p (with_ref (fresh_member id) 1)) q = source_of (heap c) q) as Hsame.
  { intros q Hq. unfold source_of, save. cbn [objects]. rewrite Hs2.
    by rewrite !lookup_insert_ne by congruence. }
  run. eexists p, _, (ms ++ [p]). split; [done|]. split_and!; [| |done|by right].
  - split; cbn [set_members members senders heap self]; [done|apply H| | | |apply H].
    + eapply (refs_ok_perm _ (p :: self c :: ms ++ ss)); [rewrite <- app_assoc; simpl; rewrite <- Permutation_middle; apply perm_swap|].
      (* the reference of the creation is given back *)
      destruct (rtp_member_release_ok h2 _ p Hr2) as (h3 & E3 & Hr3 & _).
      rewrite (rtp_member_release_kept h2 _ p _ Hr2 ltac:(constructor) ltac:(rewrite Hs2; apply lookup_insert_eq)) in E3.
      by injection E3 as <-.
    + rewrite fmap_app. apply NoDup_app. split_and!.
      * rewrite (list_fmap_ext _ (source_of (heap c)) ms); [apply H|].
        intros i q Hq. apply Hsame. intros ->. apply Hout. apply list_elem_of_lookup_2 in Hq. set_solver.
      * intros x (q & -> & Hq)%list_elem_of_fmap. rewrite Hsame by (intros ->; apply Hout; set_solver).
        simpl. rewrite list_elem_of_singleton. intros Ex. rewrite Forall_forall in E. apply (E q Hq).
        unfold has_source. rewrite Ex. unfold source_of, save. cbn [objects]. by rewrite lookup_insert_eq.
      * simpl. apply NoDup_singleton.
    + intros q Hq%(ok_subset _ _ _ H). set_solver.
  - split; cbn [set_members heap self app frequence]; try done; [set_solver| |].
    + unfold source_of, save. cbn [objects]. by rewrite lookup_insert_eq.
    + intros q m Hq. exists (ref m). rewrite with_ref_id. unfold save. cbn [objects]. rewrite Hs2.
      rewrite !lookup_insert_ne; [done|congruence..].
Qed.

(** A sender is a member that is in the second list too. *)
Lemma rtp_sender_fetch_ok c ms ss id : session_ok c ms ss →
  ∃ p c' ms' ss', rtp_sender_fetch alloc c id = Ok (Some p, c') ∧ session_ok c' ms' ss' ∧
    fetched c c' p id ss' ∧ p ∈ ms'.
Proof.
  intros H. unfold rtp_sender_fetch.
  rewrite rtp_member_list_find_ok with (ps := ss); [|apply H|].
  2:{ intros p Hp. eapply member_held; [done|]. by apply (ok_subset _ _ _ H). }
  run. destruct (list_find (has_source (heap c) id) ss) as [[i p]|] eqn:E; cbn [fmap option_fmap option_map snd].
  { apply list_find_Some in E as (Hi & Hs & _). apply list_elem_of_lookup_2 in Hi.
    exists p, c, ms, ss. split_and!; [done|done| |by apply (ok_subset _ _ _ H)].
    by apply fetched_refl. }
  apply list_find_None in E.
  destruct (rtp_member_fetch_ok c ms ss id H) as (p & c1 & ms' & -> & H1 & [Hin Hsrc Hself Happ Hfr Hold] & Esnd & _).
  run. destruct (member_held _ _ _ p H1 Hin) as [m Hm].
  destruct (rtp_member_list_add_ok alloc (heap c1) (senders c1) ss _ p m (ok_senders _ _ _ H1) (ok_refs _ _ _ H1) Hm)
    as [(h2 & l & Ea & Hl & Hr2 & Hs2)|(n & ? & _ & Hf & _)]; [|by rewrite alloc_ok in Hf].
  rewrite Ea. run.
  assert (∀ q, source_of h2 q = source_of (heap c1) q) as Hsame.
  { intros q. unfold source_of. rewrite Hs2. destruct (decide (q = p)) as [->|Hq].
    - by rewrite lookup_insert_eq, Hm.
    - by rewrite lookup_insert_ne by congruence. }
  eexists p, _, ms', (ss ++ [p]). split; [done|]. split_and!; [| |done].
  - split; cbn [set_senders members senders heap self]; [apply H1|done| | | |].
    + eapply (refs_ok_perm _ (p :: self c1 :: ms' ++ ss)); [|done].
      rewrite app_assoc, <- Permutation_cons_append. by apply perm_swap.
    + rewrite (list_fmap_ext _ (source_of (heap c1)) ms'); [apply H1|done].
    + intros q [Hq|Hq]%elem_of_app; [by apply (ok_subset _ _ _ H1)|].
      apply list_elem_of_singleton in Hq as ->. done.
    + apply NoDup_app. split_and!; [apply H| |apply NoDup_singleton].
      intros q Hq Hp. apply list_elem_of_singleton in Hp as ->.
      rewrite Forall_forall in E. apply (E p Hq). unfold has_source.
      destruct (session_held _ _ _ p H) as [m0 Hm0]; [set_solver|].
      destruct (Hold p m0 Hm0) as [r Hr]. unfold source_of in *. rewrite Hr in Hsrc. rewrite Hm0.
      simpl in *. congruence.
  - split; cbn [set_senders heap self app frequence]; try done; [set_solver|by rewrite Hsame|].
    intros q m0 Hq. destruct (Hold q m0 Hq) as [r Hr]. rewrite Hs2. destruct (decide (q = p)) as [->|Hq'].
    + rewrite Hm in Hr. injection Hr as ->. eexists. by rewrite lookup_insert_eq.
    + exists r. by rewrite lookup_insert_ne by congruence.
Qed.
End Fetch.

(** * Leaving *)

Section Bye.
Context {V : Type}.
Implicit Types c : rtp_context V.

(** The pointers to participants with another source. *)
Definition others h (id : Z) (ps : list Z) : list Z := filter (λ q, ¬ has_source h id q) ps.

Lemma filter_ext_in {A} (P Q : A → Prop) `{∀ x, Decision (P x), ∀ x, Decision (Q x)} (l : list A) :
  (∀ x, x ∈ l → P x ↔ Q x) → filter P l = filter Q l.
Proof.
  intros E. induction l as [|x l IH]; [done|]. rewrite !filter_cons.
  rewrite IH by (intros; apply E; set_solver).
  assert (P x ↔ Q x) by (apply E; set_solver). repeat case_decide; tauto.
Qed.

Lemma filter_all {A} (P : A → Prop) `{∀ x, Decision (P x)} (l : list A) :
  (∀ x, x ∈ l → P x) → filter P l = l.
Proof.
  intros HP. induction l as [|x l IH]; [done|]. rewrite filter_cons_True by (apply HP; set_solver).
  f_equal. apply IH. intros; apply HP; set_solver.
Qed.

Lemma others_delete h id ps i p :
  NoDup ps → list_find (has_source h id) ps = Some (i, p) →
  (∀ q, q ∈ ps → has_source h id q → q = p) → delete i ps = others h id ps.
Proof.
  intros Hn Hf Hu. apply list_find_Some in Hf as (Hi & Hp & _). unfold others.
  revert i Hi. induction ps as [|x ps IH]; intros i Hi; [done|]. apply NoDup_cons in Hn as [Hx Hn].
  destruct i as [|i].
  - injection Hi as ->. rewrite filter_cons_False by naive_solver. simpl. symmetry.
    apply filter_all. intros q Hq Hs. apply Hx. rewrite <- (Hu q) by (done || set_solver). done.
  - simpl in Hi. assert (x ≠ p) by (intros ->; apply Hx; by eapply list_elem_of_lookup_2).
    rewrite filter_cons_True by (intros Hs; apply H, Hu; set_solver). simpl. f_equal.
    apply IH; [done| |done]. intros q Hq. apply Hu. set_solver.
Qed.

Lemma others_all h id ps : list_find (has_source h id) ps = None → others h id ps = ps.
Proof.
  intros Hf%list_find_None. apply filter_all. by rewrite Forall_forall in Hf.
Qed.

(** Deleting a source that one participant has at most. *)
Lemma delete_source_ok h l ps rs id :
  list_ok l ps → refs_ok h (ps ++ rs) → NoDup ps →
  (∀ p q, p ∈ ps → q ∈ ps → has_source h id p → has_source h id q → q = p) →
  ∃ r h' l', rtp_member_list_delete h l id = Ok (r, h', l') ∧
    list_ok l' (others h id ps) ∧ refs_ok h' (others h id ps ++ rs) ∧
    (∀ q, q ∈ others h id ps ++ rs → source_of h' q = source_of h q).
Proof.
  intros Hl Hr Hn Hu. destruct (rtp_member_list_delete_ok h l ps rs id Hl Hr) as (r & h' & l' & -> & Hd).
  do 3 eexists. split; [done|].
  destruct (list_find (has_source h id) ps) as [[i p]|] eqn:E.
  - rewrite <- (others_delete h id ps i p Hn E); [by destruct Hd as (_ & ? & ? & ?)|].
    apply list_find_Some in E as (Hi%list_elem_of_lookup_2 & Hp & _). eauto.
  - rewrite others_all by done. by destruct Hd as (_ & -> & ->).
Qed.

Lemma others_ext h h' id ps : (∀ q, q ∈ ps → source_of h' q = source_of h q) → others h' id ps = others h id ps.
Proof.
  intros Hs. apply filter_ext_in. intros q Hq. unfold has_source. by rewrite Hs.
Qed.

(** The session without the participant of the source. *)
Record left_by c c' (id : Z) (ms : list Z) : Prop := {
  left_source q : q ∈ others (heap c) id ms → source_of (heap c') q = source_of (heap c) q;
  left_self : self c' = self c;
  left_app : app c' = app c
}.

Lemma bye_member_ok c ms ss id : session_ok c ms ss →
  ∃ c', bye_member c id = Ok c' ∧
        session_ok c' (others (heap c) id ms) (others (heap c) id ss) ∧ left_by c c' id ms.
Proof.
  intros H. unfold bye_member. pose proof (ok_refs _ _ _ H) as Hr.
  assert (∀ p q, p ∈ ms → q ∈ ms → has_source (heap c) id p → has_source (heap c) id q → q = p) as Hu.
  { intros p q Hp Hq Hsp Hsq. eapply member_unique; [done..|]. unfold has_source in *. congruence. }
  destruct (delete_source_ok (heap c) (members c) ms (self c :: ss) id)
    as (r & h1 & l & -> & Hl & Hr1 & Hs1); [apply H|by rewrite <- Permutation_middle|by eapply NoDup_fmap_1, H|done|].
  run. cbn [set_members heap senders].
  assert (∀ q, q ∈ ss → source_of h1 q = source_of (heap c) q) as Hss by (intros q Hq; apply Hs1; set_solver).
  destruct (delete_source_ok h1 (senders c) ss (self c :: others (heap c) id ms) id)
    as (r2 & h2 & k & -> & Hk & Hr2 & Hs2).
  { apply H. }
  { revert Hr1. apply refs_ok_perm. rewrite <- !Permutation_middle. by rewrite Permutation_app_comm. }
  { apply H. }
  { intros p q Hp Hq Hsp Hsq. unfold has_source in Hsp, Hsq. rewrite Hss in Hsp, Hsq by done.
    apply Hu; [by apply (ok_subset _ _ _ H)..|done|done]. }
  rewrite (others_ext _ _ _ _ Hss) in Hk, Hr2, Hs2. run. eexists. split; [done|].
  assert (∀ q, q ∈ others (heap c) id ms → source_of h2 q = source_of (heap c) q) as Hsame.
  { intros q Hq. rewrite Hs2 by set_solver. apply Hs1. set_solver. }
  split; [|by split]. split; cbn [set_senders set_members members senders heap self]; try done.
  - revert Hr2. apply refs_ok_perm. rewrite <- Permutation_middle. by rewrite Permutation_app_comm.
  - rewrite (list_fmap_ext _ (source_of (heap c))).
    + eapply sublist_NoDup; [apply (ok_sources _ _ _ H)|]. apply fmap_sublist, sublist_filter.
    + intros j q Hq%list_elem_of_lookup_2. by apply Hsame.
  - intros q. unfold others. rewrite !list_elem_of_filter. pose proof (ok_subset _ _ _ H q). naive_solver.
  - apply NoDup_filter, H.
Qed.
End Bye.
