(* ===== verification/RtcpFeedbackSafe.v ===== *)
(** The feedback messages, on any bytes: rtcp_rtpfb_unpack and rtcp_psfb_unpack
    stay inside the packet and keep the session's invariant. *)
From S2P Require Import Prelude Post Doubles RtpPacket RtcpMember RtcpContext RtcpContextSpec RtcpRtpfb RtcpPsfb.
Open Scope Z_scope.

(** * Arrays *)

Section Arrays.
Context {A : Type}.

Lemma fill_array_ok n i cells (f : Z → outcome A) :
  i + Z.of_nat n ≤ cells → (∀ j, i ≤ j < i + Z.of_nat n → post (f j) (λ _, True)) →
  post (fill n i cells f) (λ l, length l = n).
Proof.
  revert i. induction n as [|n IH]; intros i Hc Hf; cbn [fill]; [done|].
  destruct (Z.ltb_spec i cells); [|lia].
  eapply post_bind; [apply Hf; lia|]. intros x _.
  eapply post_bind; [apply IH; [lia|intros; apply Hf; lia]|]. intros l Hl. simpl. by rewrite Hl.
Qed.
End Arrays.

Section Session.
Context {V : Type} (alloc : Z → bool) (on_rtcp : V → rtcp_msg_t → V).
Hypothesis alloc_ok : ∀ n, alloc n = true.
Implicit Types c : rtp_context V.

(** A code and a session in its invariant with the same participants. *)
Definition same_session (ms ss : list Z) (r : Z * rtp_context V) : Prop := session_ok r.2 ms ss.

Lemma array_ok c ms ss n limit cells : session_ok c ms ss →
  ∃ k c', array alloc c n limit cells = (Some k, c') ∧ session_ok c' ms ss ∧
          (limit ≤ cells → n ≤ k).
Proof.
  intros H. unfold array. rewrite alloc_ok. destruct (Z.gtb_spec n limit).
  - do 2 eexists. split; [done|]. split; [by apply session_allocate|lia].
  - do 2 eexists. split; [done|]. split; [done|lia].
Qed.

Lemma with_array_ok {A} c ms ss n limit cells (f : Z → outcome A) msg :
  session_ok c ms ss → 0 ≤ n → limit ≤ cells → (∀ i, 0 ≤ i < n → post (f i) (λ _, True)) →
  post (with_array alloc on_rtcp c n limit cells f msg) (same_session ms ss).
Proof.
  intros H Hn Hl Hf. unfold with_array.
  destruct (array_ok c ms ss n limit cells H) as (k & c' & -> & Hc & Hk).
  eapply post_bind; [apply fill_array_ok; [lia|intros; apply Hf; lia]|].
  intros l _. by apply session_call.
Qed.

Variables (type id media : Z) (m : list Z).
Hypothesis Hm : bytes_ok m.

(** ** Elements *)

Lemma read_nack_ok ptr i : 0 ≤ ptr + i * 4 → ptr + i * 4 + 4 ≤ zlen m → post (read_nack m ptr i) (λ _, True).
Proof. intros. unfold read_nack. post_reads. done. Qed.
Lemma read_tmmbr_ok ptr i : 0 ≤ ptr + i * 8 → ptr + i * 8 + 8 ≤ zlen m → post (read_tmmbr m ptr i) (λ _, True).
Proof. intros. unfold read_tmmbr. post_reads. done. Qed.
Lemma read_ecn_ok ptr : 0 ≤ ptr → ptr + 20 ≤ zlen m → post (read_ecn m ptr) (λ _, True).
Proof. intros. unfold read_ecn. post_reads. done. Qed.
Lemma read_ccfb_ok ptr b i : 0 ≤ ptr + i * 2 → ptr + i * 2 + 2 ≤ zlen m → post (read_ccfb m ptr b i) (λ _, True).
Proof. intros. unfold read_ccfb. post_reads. done. Qed.
Lemma read_sli_ok ptr i : 0 ≤ ptr + i * 4 → ptr + i * 4 + 4 ≤ zlen m → post (read_sli m ptr i) (λ _, True).
Proof. intros. unfold read_sli. post_reads. done. Qed.
Lemma read_fir_ok ptr b i : 0 ≤ ptr + i * 8 → ptr + i * 8 + 8 ≤ zlen m → post (read_fir m ptr b i) (λ _, True).
Proof. intros. unfold read_fir. post_reads.
  eapply (post_bind _ _ (λ _, True)); [destruct b; [post_reads|]; done|done].
Qed.
Lemma read_lrr_ok ptr i : 0 ≤ ptr + i * 12 → ptr + i * 12 + 12 ≤ zlen m → post (read_lrr m ptr i) (λ _, True).
Proof. intros. unfold read_lrr. post_reads. done. Qed.
Lemma read_remb_ok ptr e k i : 0 ≤ ptr + i * 4 → ptr + i * 4 + 4 ≤ zlen m → post (read_remb m ptr e k i) (λ _, True).
Proof. intros. unfold read_remb. post_reads. done. Qed.

(** ** rtcp-rtpfb.c *)

Section Rtpfb.
Variables (c : rtp_context V) (ms ss : list Z).
Hypothesis Hc : session_ok c ms ss.
Variables (ptr bytes : Z).
Hypothesis Hp : 0 ≤ ptr.
Hypothesis Hb : 0 ≤ bytes.
Hypothesis Hfit : ptr + bytes ≤ zlen m.

Lemma per_element k i : 0 < k → 0 ≤ i < bytes / k → 0 ≤ ptr + i * k ∧ ptr + i * k + k ≤ zlen m.
Proof.
  intros Hk Hi. assert (k * (bytes / k) ≤ bytes) by (by apply Z.mul_div_le). nia.
Qed.

Lemma quotient_nonneg k : 0 < k → 0 ≤ bytes / k.
Proof. intros. by apply Z.div_pos. Qed.

Lemma nack_unpack_ok : post (rtcp_rtpfb_nack_unpack alloc on_rtcp type id media m c ptr bytes) (same_session ms ss).
Proof.
  apply with_array_ok; [done|by apply quotient_nonneg|done|].
  intros i Hi. destruct (per_element 4 i); [done..|]. by apply read_nack_ok.
Qed.

Lemma tmmbr_unpack_ok : post (rtcp_rtpfb_tmmbr_unpack alloc on_rtcp type id media m c ptr bytes) (same_session ms ss).
Proof.
  apply with_array_ok; [done|by apply quotient_nonneg|done|].
  intros i Hi. destruct (per_element 8 i); [done..|]. by apply read_tmmbr_ok.
Qed.

Lemma rams_unpack_ok : post (rtcp_rtpfb_rams_unpack m c ptr bytes) (same_session ms ss).
Proof. unfold rtcp_rtpfb_rams_unpack. destruct (Z.ltb_spec bytes 4); [done|]. by post_reads. Qed.

Lemma ecn_unpack_ok : post (rtcp_rtpfb_ecn_unpack on_rtcp type id media m c ptr bytes) (same_session ms ss).
Proof.
  unfold rtcp_rtpfb_ecn_unpack. destruct (Z.ltb_spec bytes 20); [done|].
  eapply post_bind; [apply read_ecn_ok; lia|]. intros. by apply session_call.
Qed.

Lemma dbi_unpack_ok : post (rtcp_rtpfb_dbi_unpack on_rtcp type id media m c ptr bytes) (same_session ms ss).
Proof.
  unfold rtcp_rtpfb_dbi_unpack. destruct (Z.ltb_spec bytes 4); [done|]. post_reads. by apply session_call.
Qed.
End Rtpfb.

Lemma ps_unpack_ok c ms ss ptr bytes : session_ok c ms ss → 0 ≤ ptr → 0 ≤ bytes → ptr + bytes ≤ zlen m →
  post (rtcp_rtpfb_ps_unpack on_rtcp type id media m c ptr bytes) (same_session ms ss).
Proof.
  intros Hc Hp Hb Hfit. unfold rtcp_rtpfb_ps_unpack.
  assert (bytes ≤ Z.of_nat (Z.to_nat bytes)) as Hfuel by lia. revert Hfuel. generalize (Z.to_nat bytes) as fuel.
  intros fuel. revert c ptr bytes Hc Hp Hb Hfit.
  induction fuel as [|fuel IH]; intros c ptr bytes Hc Hp Hb Hfit Hfuel; cbn [rtcp_rtpfb_ps_loop];
    (destruct (Z.geb_spec bytes 8); [|done]); [lia|].
  post_reads. destruct (Z.gtb_spec (v1 * 4 + 8) bytes); [done|]. post_read.
  apply IH; [by apply session_call|lia..].
Qed.

Lemma ccfb_loop_ok fuel c ms ss ptr bytes : session_ok c ms ss → 0 ≤ ptr → 0 ≤ bytes → ptr + bytes ≤ zlen m →
  bytes ≤ Z.of_nat fuel →
  post (rtcp_rtpfb_ccfb_loop alloc on_rtcp type id media m fuel c ptr bytes) (same_session ms ss).
Proof.
  revert c ptr bytes. induction fuel as [|fuel IH]; intros c ptr bytes Hc Hp Hb Hfit Hfuel;
    cbn [rtcp_rtpfb_ccfb_loop]; (destruct (Z.geb_spec bytes 8);
      [|destruct (Z.geb_spec bytes 4); [by post_reads|done]]); [lia|].
  post_reads. set (num := v1) in *.
  destruct (Z.gtb_spec ((num * 2 + 3) / 4 * 4) (bytes - 8)); [done|].
  eapply post_bind.
  { eapply with_array_ok; [exact Hc|lia|done|]. intros i Hi. apply read_ccfb_ok; [lia|dlia]. }
  intros [r c'] Hc'. unfold same_session in Hc'. cbn [snd] in Hc'.
  destruct (negb (r =? 0)); [done|]. apply IH; [done|dlia..].
Qed.

Lemma ccfb_unpack_ok c ms ss ptr bytes : session_ok c ms ss → 0 ≤ ptr → 0 ≤ bytes → ptr + bytes ≤ zlen m →
  post (rtcp_rtpfb_ccfb_unpack alloc on_rtcp type id media m c ptr bytes) (same_session ms ss).
Proof.
  intros. unfold rtcp_rtpfb_ccfb_unpack.
  eapply (post_bind _ _ (λ _, True)); [destruct (Z.geb_spec bytes 4)|].
  - eapply post_mono; [apply post_read_uint32; [done|lia..]|done].
  - done.
  - intros _ _. apply ccfb_loop_ok; done || lia.
Qed.

(** Transport-wide congestion control: the array keeps its length, the position
    and what is left of the packet move together. *)
Lemma tcc01_statuses_ok n j i num seq status l :
  0 ≤ i → zlen l = num → post (tcc01_statuses n j i num seq status l) (λ '(i', _, l'), 0 ≤ i' ∧ zlen l' = num).
Proof.
  revert j i seq l. induction n as [|n IH]; intros j i seq l Hi Hl; cbn [tcc01_statuses]; [done|].
  destruct (Z.ltb_spec i num); [|done].
  eapply post_bind; [apply post_st; [lia|rewrite zlen_cons, zlen_nil; lia]|].
  intros l' Hl'. cbv beta in Hl'. apply IH; lia.
Qed.

Lemma tcc01_chunk_ok chunk i num seq l :
  0 ≤ i → zlen l = num → post (tcc01_chunk chunk i num seq l) (λ '(i', _, l'), 0 ≤ i' ∧ zlen l' = num).
Proof. intros. unfold tcc01_chunk. by repeat case_match; apply tcc01_statuses_ok. Qed.

Lemma tcc01_chunks_ok fuel ptr bytes i num seq l :
  0 ≤ ptr → 0 ≤ bytes → ptr + bytes ≤ zlen m → 0 ≤ i → zlen l = num → bytes ≤ Z.of_nat fuel →
  post (tcc01_chunks m fuel ptr bytes i num seq l)
    (λ '(ptr', bytes', l'), 0 ≤ ptr' ∧ 0 ≤ bytes' ∧ ptr' + bytes' ≤ zlen m ∧ zlen l' = num).
Proof.
  revert ptr bytes i seq l. induction fuel as [|fuel IH]; intros ptr bytes i seq l Hp Hb Hfit Hi Hl Hf;
    cbn [tcc01_chunks]; (destruct (Z.geb_spec bytes 2), (Z.ltb_spec i num); cbn [andb]; [|done..]); [lia|].
  post_read. eapply post_bind; [by apply tcc01_chunk_ok|]. intros [[i' s'] l'] [Hi' Hl'].
  apply IH; lia.
Qed.

Lemma tcc01_deltas_ok n i ptr bytes num l :
  0 ≤ ptr → ptr + bytes ≤ zlen m → 0 ≤ i → zlen l = num → i + Z.of_nat n ≤ num →
  post (tcc01_deltas m n i ptr bytes l) (λ _, True).
Proof.
  revert i ptr bytes l. induction n as [|n IH]; intros i ptr bytes l Hp Hfit Hi Hl Hn; cbn [tcc01_deltas]; [done|].
  destruct (Z.gtb_spec bytes 0); [|done].
  assert (Inhabited rtcp_ccfb_t) by (constructor; exact (RtcpCcfb 0 0 0 0)).
  rewrite (ld_ok l i) by lia. run. cbv zeta.
  case_match; [apply IH; lia|]. case_match.
  - post_read. eapply post_bind; [apply post_st; [lia|rewrite zlen_cons, zlen_nil; lia]|]. intros l' Hl'. cbv beta in Hl'. apply IH; lia.
  - destruct (Z.ltb_spec bytes 2); [done|]. post_read.
    eapply post_bind; [apply post_st; [lia|rewrite zlen_cons, zlen_nil; lia]|]. intros l' Hl'. cbv beta in Hl'. apply IH; lia.
Qed.

Lemma tcc01_unpack_ok c ms ss ptr bytes : session_ok c ms ss → 0 ≤ ptr → 0 ≤ bytes → ptr + bytes ≤ zlen m →
  post (rtcp_rtpfb_tcc01_unpack alloc on_rtcp type id media m c ptr bytes) (same_session ms ss).
Proof.
  intros Hc Hp Hb Hfit. unfold rtcp_rtpfb_tcc01_unpack. destruct (Z.ltb_spec bytes 8); [done|].
  post_reads. cbv zeta. destruct (array_ok c ms ss v0 32 32 Hc) as (k & c' & -> & Hc' & _).
  eapply post_bind.
  { apply tcc01_chunks_ok; [lia..| |lia]. unfold zlen. rewrite length_replicate. apply Z2Nat.id. lia. }
  intros [[p b] l] (Hp' & Hb' & Hfit' & Hl).
  eapply post_bind; [eapply tcc01_deltas_ok; [done|done|done|done|lia]|].
  intros [r l'] _. destruct (r =? 0); [by apply session_call|done].
Qed.

(** ** rtcp-psfb.c *)

Section Psfb.
Variables (c : rtp_context V) (ms ss : list Z).
Hypothesis Hc : session_ok c ms ss.
Variables (ptr bytes : Z).
Hypothesis Hp : 0 ≤ ptr.
Hypothesis Hb : 0 ≤ bytes.
Hypothesis Hfit : ptr + bytes ≤ zlen m.

(** The messages that are arrays of [k]-byte elements. *)
Lemma elements_ok {A} k (f : Z → outcome A) msg : 0 < k →
  (∀ i, 0 ≤ ptr + i * k → ptr + i * k + k ≤ zlen m → post (f i) (λ _, True)) →
  post (with_array alloc on_rtcp c (bytes / k) 32 32 f msg) (same_session ms ss).
Proof.
  intros Hk Hf. apply with_array_ok; [done|by apply quotient_nonneg|done|].
  intros i Hi. destruct (per_element ptr bytes Hp Hfit k i Hk Hi). by apply Hf.
Qed.

Lemma rpsi_unpack_ok : post (rtcp_psfb_rpsi_unpack on_rtcp type id media m c ptr bytes) (same_session ms ss).
Proof.
  unfold rtcp_psfb_rpsi_unpack. destruct (Z.ltb_spec bytes 4); [done|]. post_reads. by apply session_call.
Qed.

Lemma afb_unpack_ok : post (rtcp_psfb_afb_unpack alloc on_rtcp type id media m c ptr bytes) (same_session ms ss).
Proof.
  unfold rtcp_psfb_afb_unpack. destruct (Z.geb_spec bytes 8); [|done].
  post_read. case_bool_decide; [|done]. post_reads. cbv zeta.
  destruct (Z.gtb_spec (v0 * 4) (bytes - 8)); [done|].
  apply with_array_ok; [done|lia|done|]. intros i Hi. apply read_remb_ok; lia.
Qed.
End Psfb.

(** A message whose length is a multiple of four: what is left stays one, so the
    padded payload fits. *)
Lemma vbcm_loop_ok fuel c ms ss ptr bytes : session_ok c ms ss → 0 ≤ ptr → 0 ≤ bytes < 2 ^ 32 → bytes mod 4 = 0 →
  ptr + bytes ≤ zlen m → bytes ≤ Z.of_nat fuel →
  post (rtcp_psfb_vbcm_loop on_rtcp type id media m fuel c ptr bytes) (same_session ms ss).
Proof.
  revert c ptr bytes. induction fuel as [|fuel IH]; intros c ptr bytes Hc Hp Hb H4 Hfit Hf;
    cbn [rtcp_psfb_vbcm_loop]; (destruct (Z.gtb_spec bytes 8); [|done]); [lia|].
  post_reads. destruct (Z.gtb_spec (v2 + 8) bytes); [done|]. post_read.
  assert (8 + (v2 + 3) / 4 * 4 ≤ bytes) by dlia.
  assert (u64 (bytes - (8 + (v2 + 3) / 4 * 4)) = bytes - (8 + (v2 + 3) / 4 * 4)) as ->.
  { unfold u64. apply Z.mod_small. assert (0 ≤ (v2 + 3) / 4) by (apply Z.div_pos; lia). lia. }
  apply IH; [by apply session_call|dlia..].
Qed.

End Session.

(** * The two types *)

Section Types.
Context {V : Type} (alloc : Z → bool) (on_rtcp : V → rtcp_msg_t → V).
Hypothesis alloc_ok : ∀ n, alloc n = true.
Variables (c : rtp_context V) (ms ss : list Z) (m : list Z) (ptr bytes : Z).
Hypothesis Hc : session_ok c ms ss.
Hypothesis Hm : bytes_ok m.
Hypothesis Hp : 0 ≤ ptr.
Hypothesis Hfit : ptr + bytes ≤ zlen m.

(** The head of a feedback message, and the sender it makes known. *)
Lemma feedback_ok (f : Z → Z → rtp_context V → outcome (Z * rtp_context V)) :
  8 ≤ bytes →
  (∀ id media c ms ss, session_ok c ms ss → post (f id media c) (same_session ms ss)) →
  post (id ← rtp_read_uint32 m ptr;
        media ← rtp_read_uint32 m (ptr + 4);
        '(sender, c) ← rtp_sender_fetch alloc c id;
        match sender with
        | None => Ok c
        | Some _ => '(_, c) ← f id media c; Ok c
        end) session.
Proof.
  intros Hb Hf. post_reads.
  destruct (rtp_sender_fetch_ok alloc alloc_ok c ms ss v Hc) as (p & c' & ms' & ss' & -> & Hc' & _).
  run. eapply post_bind; [by apply Hf|]. intros [r c2] H2. by exists ms', ss'.
Qed.

Lemma rtcp_rtpfb_unpack_ok rc : post (rtcp_rtpfb_unpack alloc on_rtcp c rc m ptr bytes) session.
Proof.
  unfold rtcp_rtpfb_unpack. destruct (Z.ltb_spec bytes 8); [by exists ms, ss|].
  eapply feedback_ok; [done|]. intros id media c' ms' ss' Hc'. cbv zeta.
  repeat case_match; try done;
    first [ apply nack_unpack_ok | apply tmmbr_unpack_ok | apply rams_unpack_ok | apply ecn_unpack_ok
          | apply ps_unpack_ok | apply dbi_unpack_ok | apply ccfb_unpack_ok | apply tcc01_unpack_ok ];
    done || lia.
Qed.

Lemma rtcp_psfb_unpack_ok rc :
  (rc = RTCP_PSFB_VBCM → bytes mod 4 = 0 ∧ bytes < 2 ^ 32) →
  post (rtcp_psfb_unpack alloc on_rtcp c rc m ptr bytes) session.
Proof.
  intros Hv. unfold rtcp_psfb_unpack. destruct (Z.ltb_spec bytes 8); [by exists ms, ss|].
  eapply feedback_ok; [done|]. intros id media c' ms' ss' Hc'. cbv zeta.
  destruct (Z.eqb_spec rc RTCP_PSFB_PLI); [by apply session_call|].
  destruct (Z.eqb_spec rc RTCP_PSFB_VBCM) as [->|].
  - destruct (Hv eq_refl). apply vbcm_loop_ok; [done|done|lia|lia|dlia|lia|unfold zlen in *; lia].
  - unfold rtcp_psfb_sli_unpack, rtcp_psfb_fir_unpack, rtcp_psfb_tstr_unpack, rtcp_psfb_tstn_unpack,
      rtcp_psfb_pslei_unpack, rtcp_psfb_lrr_unpack. cbv zeta.
    repeat case_match; try done;
      first [ apply rpsi_unpack_ok | apply afb_unpack_ok | apply elements_ok with (m := m) (ptr := ptr + 8) ];
      try (done || lia);
      intros i Hi1 Hi2;
      first [ by apply read_sli_ok | by apply read_fir_ok | by apply read_lrr_ok
            | eapply post_mono; [apply post_read_uint32|]; done || lia ].
Qed.
End Types.
