(* ===== verification/RtcpSafe.v ===== *)
(** Compound packets on any bytes: rtcp_input_rtcp ends, stays inside the
    datagram and keeps the session's invariant; so do the RTP packets. *)
From S2P Require Import Prelude Post Doubles RtpPacket RtcpMember RtcpContext RtcpContextSpec RtcpRtpfb RtcpPsfb RtcpXr RtcpSession RtcpFeedbackSafe.
Open Scope Z_scope.

Section Safe.
Context {V : Type} (alloc : Z → bool) (on_rtcp : V → rtcp_msg_t → V).
Hypothesis alloc_ok : ∀ n, alloc n = true.
Implicit Types c : rtp_context V.
Variable m : list Z.
Hypothesis Hm : bytes_ok m.

Lemma session_intro c ms ss : session_ok c ms ss → session c.
Proof. by exists ms, ss. Qed.
Hint Resolve session_intro : session.

Lemma post_get_member c ms ss p : session_ok c ms ss → p ∈ ms →
  post (get_member c p) (λ s, objects (heap c) !! p = Some s ∧ member_ok s).
Proof.
  intros H Hp. destruct (member_held _ _ _ p H Hp) as [s Hs].
  eapply post_intro; [unfold get_member, load; by rewrite Hs|].
  split; [done|]. eapply ok_object; [apply (ok_refs _ _ _ H)|exact Hs].
Qed.

(** ** Reports *)

Lemma read_report_block_ok ptr : 0 ≤ ptr → ptr + 24 ≤ zlen m → post (read_report_block m ptr) (λ _, True).
Proof. intros. unfold read_report_block. post_reads. done. Qed.

Lemma report_blocks_ok n c ms ss type id ptr : session_ok c ms ss → 0 ≤ ptr → ptr + 24 * Z.of_nat n ≤ zlen m →
  post (report_blocks on_rtcp n c type id m ptr) session.
Proof.
  revert c ptr. induction n as [|n IH]; intros c ptr Hc Hp Hl; cbn [report_blocks]; [by exists ms, ss|].
  eapply post_bind; [apply read_report_block_ok; lia|]. intros rb _.
  apply IH; [by apply session_call|lia..].
Qed.

(** ** Source descriptions *)

Lemma sdes_items_ok fuel c ms ss id p ptr last :
  session_ok c ms ss → p ∈ ms → 0 ≤ ptr → last ≤ zlen m → last - ptr ≤ Z.of_nat fuel →
  post (sdes_items alloc on_rtcp fuel c id (Some p) m ptr last)
    (λ '(_, ptr', c'), session_ok c' ms ss ∧ ptr ≤ ptr').
Proof.
  revert c ptr. induction fuel as [|fuel IH]; intros c ptr Hc Hp H0 Hl Hf; cbn [sdes_items];
    (destruct (Z.leb_spec (ptr + 2) last); [|by split]); post_read;
    (destruct (RTCP_SDES_END =? v); [by split|]); [lia|].
  post_read. destruct (Z.gtb_spec (ptr + 2 + v0) last); [by split|]. post_read. destruct Hv1 as [Hlen _]. cbv zeta.
  assert (session_ok (call on_rtcp c (RtcpMsg RTCP_SDES id (MsgSdes v v0 v1))) ms ss) as Hc1 by (by apply session_call).
  set (c1 := call on_rtcp c _) in *.
  eapply (post_bind _ _ (λ c', session_ok c' ms ss)).
  - destruct (_ && _) eqn:E; [|done]. apply andb_true_iff in E as [E1%Z.leb_le E2%Z.leb_le].
    unfold RTCP_SDES_CNAME, RTCP_SDES_NOTE in *. cbn [cell]. run.
    destruct (member_held _ _ _ p Hc1 Hp) as [s Hs].
    destruct (rtp_member_setvalue_ok alloc (heap c1) _ p s v v1 v0 (ok_refs _ _ _ Hc1) Hs) as (r & h' & -> & Hr & Hsrc);
      [lia..|]. run. apply session_set_heap; [done|done|]. intros q _. by apply source_of_eq.
  - intros c2 Hc2. eapply post_mono; [apply IH; [done|done|lia..]|]. intros [[? ?] ?] [? ?]. split; [done|lia].
Qed.

Lemma sdes_align_ge base p : p ≤ sdes_align base p.
Proof. unfold sdes_align. dlia. Qed.

Lemma sdes_chunks_ok n c base ptr last : session c → 0 ≤ ptr → last ≤ zlen m →
  post (sdes_chunks alloc on_rtcp n c base m ptr last) session.
Proof.
  revert c ptr. induction n as [|n IH]; intros c ptr Hc H0 Hl; cbn [sdes_chunks]; [done|].
  destruct (Z.leb_spec (ptr + 8) last); [|done]. destruct Hc as (ms & ss & Hc).
  post_read. destruct (rtp_member_fetch_ok alloc alloc_ok c ms ss v Hc) as (p & c1 & ms1 & -> & Hc1 & Hf & _).
  run. eapply post_bind; [apply sdes_items_ok with (ms := ms1) (ss := ss); [done|apply Hf|lia..]|].
  intros [[b ptr'] c2] [Hc2 Hge]. destruct b; [by exists ms1, ss|].
  pose proof (sdes_align_ge base ptr'). apply IH; [by exists ms1, ss|lia|done].
Qed.

(** ** Goodbyes *)

Lemma bye_others_ok n i c u ptr : session c → 0 ≤ i → 0 ≤ ptr → ptr + 4 * (i + Z.of_nat n) ≤ zlen m →
  post (bye_others on_rtcp n i c u m ptr) session.
Proof.
  revert i c. induction n as [|n IH]; intros i c Hc Hi Hp Hl; cbn [bye_others]; [done|].
  destruct Hc as (ms & ss & Hc). post_read.
  destruct (bye_member_ok c ms ss v Hc) as (c1 & -> & H1 & _). run.
  apply IH; [eexists _, _; by apply session_call|lia..].
Qed.

(** ** One packet *)

Lemma rtcp_sr_unpack_ok c now h ptr bytes : session c → 0 ≤ rh_rc h → 0 ≤ ptr → ptr + bytes ≤ zlen m →
  post (rtcp_sr_unpack alloc on_rtcp c now h m ptr bytes) session.
Proof.
  intros Hc Hrc Hp Hl. unfold rtcp_sr_unpack. destruct (Z.ltb_spec bytes (24 + rh_rc h * 24)); [done|].
  destruct Hc as (ms & ss & Hc). post_read.
  destruct (rtp_sender_fetch_ok alloc alloc_ok c ms ss v Hc) as (p & c1 & ms1 & ss1 & -> & Hc1 & Hf & Hin). run.
  eapply post_bind; [by eapply post_get_member|]. intros s [Hs Hok]. post_reads.
  eapply report_blocks_ok; [|lia..]. eapply session_put; try done. split; apply Hok.
Qed.

Lemma rtcp_rr_unpack_ok c now h ptr bytes : session c → 0 ≤ rh_rc h → 0 ≤ ptr → ptr + bytes ≤ zlen m →
  post (rtcp_rr_unpack alloc on_rtcp c now h m ptr bytes) session.
Proof.
  intros Hc Hrc Hp Hl. unfold rtcp_rr_unpack. destruct (Z.ltb_spec bytes (4 + rh_rc h * 24)); [done|].
  destruct Hc as (ms & ss & Hc). post_read.
  destruct (rtp_member_fetch_ok alloc alloc_ok c ms ss v Hc) as (p & c1 & ms1 & -> & Hc1 & Hf & _). run.
  eapply post_bind; [eapply post_get_member; [done|apply Hf]|]. intros s [Hs Hok].
  eapply report_blocks_ok; [|lia..]. eapply session_put; try done. split; apply Hok.
Qed.

Lemma rtcp_bye_unpack_ok c h ptr bytes : session c → 0 ≤ ptr → ptr + bytes ≤ zlen m →
  post (rtcp_bye_unpack on_rtcp c h m ptr bytes) session.
Proof.
  intros Hc Hp Hl. unfold rtcp_bye_unpack. cbv zeta.
  destruct (Z.ltb_spec (rh_rc h) 1), (Z.gtb_spec (rh_rc h * 4) bytes); try done. cbn [orb].
  destruct Hc as (ms & ss & Hc). post_read.
  destruct (bye_member_ok c ms ss v Hc) as (c1 & -> & H1 & _). run.
  eapply (post_bind _ _ (λ _, True)).
  - destruct (Z.gtb_spec bytes (rh_rc h * 4 + 1)); [|done]. post_read. case_match; [done|]. by post_read.
  - intros u _. apply bye_others_ok; [eexists _, _; by apply session_call|lia..].
Qed.

Lemma rtcp_app_unpack_ok c h ptr bytes : session c → 0 ≤ ptr → ptr + bytes ≤ zlen m →
  post (rtcp_app_unpack on_rtcp c h m ptr bytes) session.
Proof.
  intros Hc Hp Hl. unfold rtcp_app_unpack. destruct (Z.ltb_spec bytes 8); [done|]. post_reads.
  destruct Hc as (ms & ss & Hc). exists ms, ss. by apply session_call.
Qed.

(** ** Compound packets *)

(** Neither an extended report nor a video back channel message behind odd
    padding: the two the code does not handle. *)
Definition plain_packet (h : rtcp_header_t) (pad : Z) : bool :=
  negb (rh_pt h =? RTCP_XR) &&
  (negb ((rh_pt h =? RTCP_PSFB) && (rh_rc h =? RTCP_PSFB_VBCM)) || (pad mod 4 =? 0)).

(** The packets of a datagram, found as [rtcp_input_rtcp] finds them. *)
Fixpoint plain (n : nat) (ptr bytes : Z) : bool :=
  if bytes >? 4 then
    match n with
    | O => true
    | S n =>
        match (v ← rtp_read_uint32 m ptr;
               let h := rtcp_header v in
               pad ← rtcp_check h m ptr (rh_length h * 4 + 4) bytes;
               Ok (h, pad)) with
        | Ok (h, Some pad) =>
            plain_packet h pad && plain n (ptr + (rh_length h + 1) * 4) (bytes - (rh_length h + 1) * 4)
        | _ => true
        end
    end
  else true.

Lemma rtcp_header_range v : is_uint 32 v →
  0 ≤ rh_rc (rtcp_header v) < 32 ∧ 0 ≤ rh_length (rtcp_header v) < 65536 ∧ 0 ≤ rh_p (rtcp_header v).
Proof.
  intros Hv. unfold rtcp_header, RTCP_RC, RTCP_LEN, RTCP_P. cbn [rh_rc rh_length rh_p]. masks. unfold is_uint in Hv. dlia.
Qed.

(** The padding of an accepted packet is in it. *)
Lemma rtcp_check_ok h ptr bytes : 0 ≤ rh_length h < 65536 → 0 ≤ ptr → ptr + bytes ≤ zlen m →
  post (rtcp_check h m ptr (rh_length h * 4 + 4) bytes)
    (λ r, match r with
          | Some pad => rh_length h * 4 + 4 ≤ bytes ∧ 0 ≤ pad ≤ rh_length h * 4
          | None => True
          end).
Proof.
  intros Hl Hp Hb. unfold rtcp_check.
  destruct (Z.gtb_spec (rh_length h * 4 + 4) bytes); [done|]. cbn [orb].
  destruct (negb (2 =? rh_v h)); [done|]. destruct (truth (rh_p h)); [|split; lia].
  destruct (Z.ltb_spec (rh_length h) 1); [done|]. post_read.
  destruct (Z.ltb_spec (rh_length h * 4) v); [done|]. split; lia.
Qed.

Lemma rtcp_dispatch_ok fuel c now base h ptr pad : session c →
  0 ≤ rh_rc h → 0 ≤ rh_length h < 65536 → 0 ≤ pad ≤ rh_length h * 4 → plain_packet h pad = true →
  0 ≤ ptr → ptr + rh_length h * 4 ≤ zlen m →
  ∃ x, rtcp_dispatch alloc on_rtcp fuel c now base h m ptr (rh_length h * 4 - pad) = Some x ∧ post x session.
Proof.
  intros Hc Hrc Hlen Hpad [Hx Hv]%andb_true_iff Hp Hl. unfold rtcp_dispatch. cbv zeta.
  set (bytes := rh_length h * 4 - pad). assert (0 ≤ bytes ∧ ptr + bytes ≤ zlen m) as [Hb Hfit] by lia.
  destruct (rh_pt h =? RTCP_SR); [eexists; split; [done|by apply rtcp_sr_unpack_ok]|].
  destruct (rh_pt h =? RTCP_RR); [eexists; split; [done|by apply rtcp_rr_unpack_ok]|].
  destruct (rh_pt h =? RTCP_SDES); [eexists; split; [done|by apply sdes_chunks_ok]|].
  destruct (rh_pt h =? RTCP_BYE); [eexists; split; [done|by apply rtcp_bye_unpack_ok]|].
  destruct (rh_pt h =? RTCP_APP); [eexists; split; [done|by apply rtcp_app_unpack_ok]|].
  destruct Hc as (ms & ss & Hc).
  destruct (rh_pt h =? RTCP_RTPFB); [eexists; split; [done|by eapply rtcp_rtpfb_unpack_ok]|].
  destruct (rh_pt h =? RTCP_PSFB).
  { eexists. split; [done|]. eapply rtcp_psfb_unpack_ok; [done..|]. intros E. rewrite E, Z.eqb_refl in Hv.
    cbn [andb negb orb] in Hv. apply Z.eqb_eq in Hv. unfold bytes. split; dlia. }
  destruct (rh_pt h =? RTCP_XR); [done|]. eexists. split; [done|]. by exists ms, ss.
Qed.

(** Every packet takes four bytes or more, so as many rounds as bytes are
    enough; the fuel of the extended reports is not used. *)
Lemma rtcp_input_loop_ok n fuel c now base ptr bytes : session c →
  0 ≤ ptr → ptr + bytes ≤ zlen m → bytes ≤ Z.of_nat n → plain n ptr bytes = true →
  ∃ c', rtcp_input_loop alloc on_rtcp n fuel c now base m ptr bytes = Some (Ok c') ∧ session c'.
Proof.
  revert c ptr bytes. induction n as [|n IH]; intros c ptr bytes Hc Hp Hb Hn;
    cbn [plain rtcp_input_loop]; (destruct (Z.gtb_spec bytes 4); [|eauto]); [lia|].
  unfold rtcp_parse. pose proof (post_read_uint32 m Hm ptr Hp ltac:(lia)) as (v & -> & Hv)%post_iff. run. cbv zeta.
  destruct (rtcp_header_range v Hv) as (Hrc & Hlen & _). set (h := rtcp_header v) in *.
  pose proof (rtcp_check_ok h ptr bytes Hlen Hp Hb) as (pad & -> & Hpad)%post_iff. run.
  destruct pad as [pad|]; [|eauto]. destruct Hpad as [Hle Hpad]. intros [Hpl Hrest]%andb_true_iff.
  destruct (rtcp_dispatch_ok fuel c now base h (ptr + 4) pad) as (x & -> & Hx); [done|lia..|done|lia|lia|].
  apply post_iff in Hx as (c' & -> & Hc'). run.
  destruct (Z.leb_spec ((rh_length h + 1) * 4) 0); [lia|].
  apply IH; [|lia..|done]. destruct Hc' as (ms & ss & Hc'). exists ms, ss. by apply session_avg.
Qed.
End Safe.

(** * Creating a session *)

(** A new session knows itself. *)
Lemma rtp_create_ok {V} (alloc : Z → bool) n (v : V) now id timestamp frequence bandwidth sender bw :
  (∀ n, alloc n = true) → to_int (double_mul (double_of_Z bandwidth) RTCP_BANDWIDTH_FRACTION) = Ok bw →
  ∃ c h, rtp_create alloc (Store ∅ n) v now id timestamp frequence bandwidth sender = Ok (Some c, h) ∧
    session c ∧ app c = v ∧ source_of (heap c) (self c) = Some id.
Proof.
  intros Ha Hbw. unfold rtp_create, calloc. rewrite Ha. cbn [negb objects allocations].
  assert (refs_ok (Store ∅ (n + 1)) []) as H0 by (split; [by intros ? ?|by intros ? ?%elem_of_nil]).
  destruct (rtp_member_create_ok alloc _ _ id H0 (Ha _)) as (-> & Hr & _). cbn [objects allocations] in *.
  rewrite !Ha. set (p := n + 1) in *. set (h1 := Store (<[p := fresh_member id]> ∅) (p + 1)) in *.
  set (h3 := Store (<[p := fresh_member id]> ∅) (p + 1 + 1 + 1)).
  assert (refs_ok h3 [p]) as Hr3 by (by do 2 apply refs_ok_allocate in Hr).
  assert (objects h3 !! p = Some (fresh_member id)) as Hp by apply lookup_insert_eq.
  unfold load at 1. rewrite Hp. run.
  change rtp_member_list_create with empty_member_list. set (s := with_clock (fresh_member id) now timestamp).
  assert (refs_ok (save h3 p s) [p]) as Hs.
  { eapply refs_ok_save; [done..| |done]. split; apply (member_ok_fresh id). }
  destruct (rtp_member_list_add_ok alloc (save h3 p s) empty_member_list [] _ p s list_ok_empty Hs)
    as [(h' & l & -> & Hl & Hr' & Ho)|(? & ? & _ & Hf & _)]; [apply lookup_insert_eq| |by rewrite Ha in Hf].
  run. rewrite Hbw. run. do 2 eexists. split; [done|].
  assert (source_of h' p = Some id) as Hsrc.
  { unfold source_of. rewrite Ho, lookup_insert_eq. done. }
  split_and!; [|done|exact Hsrc]. exists [p], []. split; cbn [members senders heap self].
  - exact Hl.
  - apply list_ok_empty.
  - exact Hr'.
  - apply NoDup_singleton.
  - by intros ? ?%elem_of_nil.
  - constructor.
Qed.

(** The session of the witnesses: source 77, its reports at 90 kHz. *)
Definition demo_alloc (n : Z) : bool := true.
Definition demo_on_rtcp (log : list rtcp_msg_t) (msg : rtcp_msg_t) : list rtcp_msg_t := log ++ [msg].
Definition demo_create : outcome (option (rtp_context (list rtcp_msg_t)) * store) :=
  rtp_create demo_alloc (Store ∅ 0) [] 1700000000000000 77 1000 90000 2097152 0.
Definition demo_session : rtp_context (list rtcp_msg_t) :=
  match demo_create with Ok (Some c, _) => c | _ => RtpContext [] (Store ∅ 0) empty_member_list empty_member_list 0 0 0 0 0 0 0 end.

Lemma demo_session_ok : session demo_session.
Proof.
  destruct (rtp_create_ok demo_alloc 0 (@nil rtcp_msg_t) 1700000000000000 77 1000 90000 2097152 0 104857)
    as (c & h & E & Hc & _); [done|by vm_compute|].
  unfold demo_session, demo_create. by rewrite E.
Qed.

(** A compound packet: a sender report with one block, a description of its
    source and a negative acknowledgement, then a goodbye of another source. *)
Definition demo_compound : list Z :=
  [129; 200; 0; 12; 0; 0; 0; 9] ++ be_bytes 8 (clock2ntp 1700000000000000) ++
  [0; 0; 0; 1; 0; 0; 0; 2; 0; 0; 0; 3] ++
  [0; 0; 0; 77; 10; 0; 0; 5; 0; 1; 0; 3; 0; 0; 0; 7; 0; 0; 0; 0; 0; 0; 0; 0] ++
  [129; 202; 0; 3; 0; 0; 0; 9; 1; 3; 65; 66; 67; 0; 0; 0] ++
  [129; 205; 0; 3; 0; 0; 0; 9; 0; 0; 0; 77; 0; 5; 0; 1] ++
  [129; 203; 0; 1; 0; 0; 0; 5].

(** * Properties *)

(** C8: on every datagram without extended reports (and without a video back
    channel message behind odd padding), [rtcp_input_rtcp] ends, reads nothing
    outside the datagram and leaves a session whose lists are well formed, whose
    participants are distinct and whose reference counts are exactly the
    references held, so that no freed participant is reached. *)
Theorem rtcp_input_safe {V} (alloc : Z → bool) (on_rtcp : V → rtcp_msg_t → V) fuel c now base data bytes :
  (∀ n, alloc n = true) → session c → bytes_ok data → bytes ≤ zlen data →
  plain data (Z.to_nat bytes) 0 bytes = true →
  ∃ c', rtcp_input_rtcp alloc on_rtcp fuel c now base data bytes = Some (Ok c') ∧ session c'.
Proof.
  intros Ha Hc Hm Hb Hp. unfold rtcp_input_rtcp. apply rtcp_input_loop_ok; try done; lia.
Qed.

Lemma rtcp_input_safe_witness :
  ∃ c', rtcp_input_rtcp demo_alloc demo_on_rtcp 0 demo_session 1700000000000100 4096 demo_compound 92 = Some (Ok c') ∧
        session c'.
Proof.
  apply (rtcp_input_safe demo_alloc demo_on_rtcp 0 demo_session 1700000000000100 4096 demo_compound 92);
    [done|apply demo_session_ok|by_eval|by vm_compute|by vm_compute].
Defined.
