(* ===== verification/RtcpReception.v ===== *)
(** Reception statistics and the reports made of them: what a receiver counts of
    a numbered stream, and what it tells the sender. *)
From S2P Require Import Prelude Post Doubles RtpPacket RtcpMember RtcpContext RtcpContextSpec RtcpRtpfb RtcpPsfb RtcpXr RtcpSession RtcpFeedbackSafe RtcpSafe.
Open Scope Z_scope.

(** * Clocks *)

Lemma clock2ntp_parts t : 0 ≤ t → t / 1000000 < 2 ^ 32 →
  clock2ntp t = (t / 1000000 + 2208988800) mod 2 ^ 32 * 2 ^ 32 + t mod 1000000 * 2 ^ 26 / 15625.
Proof.
  intros H0 Ht. unfold clock2ntp, u64, u32.
  rewrite !Z.shiftl_mul_pow2 by lia.
  rewrite (Z.mod_small (t mod 1000000 * 2 ^ 26 / 15625)) by dlia.
  replace ((t / 1000000 + 2208988800) * 2 ^ 32 mod 2 ^ 64)
    with ((t / 1000000 + 2208988800) mod 2 ^ 32 * 2 ^ 32).
  2:{ change (2 ^ 64) with (2 ^ 32 * 2 ^ 32). rewrite Z.mul_mod_distr_r by lia. done. }
  rewrite <- (Z.shiftl_mul_pow2 _ 32) by lia. rewrite lor_shiftl_add by (lia || dlia).
  by rewrite Z.shiftl_mul_pow2 by lia.
Qed.

(** A time in microseconds comes back from its NTP form at most a
    microsecond early, until the year 2106: the wrap of the NTP era in 2036 is
    undone by the wrap of the subtraction. *)
Theorem ntp2clock_clock2ntp t :
  0 ≤ t → t / 1000000 < 2 ^ 32 → t - 1 ≤ ntp2clock (clock2ntp t) ≤ t.
Proof.
  intros H0 Ht. rewrite clock2ntp_parts by done. unfold ntp2clock, u64, u32.
  set (s := t / 1000000) in *. set (f := t mod 1000000 * 2 ^ 26 / 15625).
  assert (0 ≤ f < 2 ^ 32) as Hf by (unfold f; dlia).
  assert (Z.shiftr ((s + 2208988800) mod 2 ^ 32 * 2 ^ 32 + f) 32 = (s + 2208988800) mod 2 ^ 32) as ->.
  { rewrite Z.shiftr_div_pow2, Z.div_add_l by lia. rewrite Z.div_small by lia. lia. }
  assert (Z.land ((s + 2208988800) mod 2 ^ 32 * 2 ^ 32 + f) 4294967295 = f) as ->.
  { rewrite (land_mask _ 4294967295 32 eq_refl) by lia. rewrite Z.add_comm, Z.mod_add by lia. apply Z.mod_small. lia. }
  rewrite Z.shiftr_div_pow2 by lia.
  assert ((((s + 2208988800) mod 2 ^ 32) mod 2 ^ 32 - 2208988800) mod 2 ^ 32 = s) as ->.
  { rewrite Z.mod_mod by lia. rewrite Zminus_mod_idemp_l. rewrite Z.add_simpl_r.
    apply Z.mod_small. unfold s. split; [by apply Z.div_pos|done]. }
  assert (0 ≤ s) by (by apply Z.div_pos). rewrite (Z.mod_small (f * 15625)) by dlia.
  assert (t mod 1000000 - 1 ≤ f * 15625 / 2 ^ 26 ≤ t mod 1000000) as Hus by (unfold f; dlia).
  rewrite (Z.mod_small (s * 1000000)) by dlia.
  assert (t = s * 1000000 + t mod 1000000) by (unfold s; dlia).
  rewrite Z.mod_small; dlia.
Qed.

Lemma ntp2clock_clock2ntp_witness :
  1700000000123457 - 1 ≤ ntp2clock (clock2ntp 1700000000123457) ≤ 1700000000123457.
Proof. apply (ntp2clock_clock2ntp 1700000000123457); [done|by vm_compute]. Defined.

(** * Sequence numbers *)

(** The participant has left probation; its stream is numbered from [b], [hi] is
    the highest number received and [n] packets were. *)
Record reception (s : rtp_member) (b hi n : Z) : Prop := {
  rc_probation : rtp_probation s = 0;
  rc_base : rtp_seq_base s = b;
  rc_range : 0 ≤ b < 65536 ∧ b ≤ hi;
  rc_seq : RtcpMember.rtp_seq s = hi mod 65536;
  rc_cycles : rtp_seq_cycles s = u32 (hi - hi mod 65536);
  rc_packets : rtp_packets s = u32 n
}.

(** Ahead by less than [RTP_DROPOUT] or behind by less than [RTP_MISORDER]. *)
Definition in_window (hi n : Z) : Prop := hi - RTP_MISORDER < n < hi + RTP_DROPOUT.

Lemma rtp_seq_update_in_window s b hi n k :
  reception s b hi n → in_window hi k → 0 ≤ k →
  ∃ s', rtp_seq_update s (k mod 65536) = (1, s') ∧ reception s' b (Z.max hi k) n ∧
        rtcp_sr s' = rtcp_sr s ∧ s' = with_seq s (RtcpMember.rtp_seq s') (rtp_seq_cycles s').
Proof.
  intros [Hp Hb Hr Hs Hc Hn] Hw Hk. unfold in_window, RTP_MISORDER, RTP_DROPOUT in Hw.
  unfold rtp_seq_update. rewrite Hp. change (0 >? 0) with false. cbv iota zeta.
  unfold RTP_MISORDER, RTP_DROPOUT, u16. rewrite Hs.
  destruct (Z.leb_spec hi k) as [Hle|Hgt].
  - destruct (Z.ltb_spec ((k mod 65536 - hi mod 65536) mod 2 ^ 16) 500); [|dlia].
    eexists. split; [done|]. rewrite Z.max_r by lia. split; [|done].
    split; cbn [with_seq rtp_probation rtp_seq_base RtcpMember.rtp_seq rtp_seq_cycles rtp_packets]; try done; [lia|].
    rewrite Hc. destruct (Z.ltb_spec (k mod 65536) (hi mod 65536)); unfold u32 in *; dlia.
  - destruct (Z.ltb_spec ((k mod 65536 - hi mod 65536) mod 2 ^ 16) 500); [dlia|].
    destruct (Z.leb_spec ((k mod 65536 - hi mod 65536) mod 2 ^ 16) (65536 - 100)); [dlia|].
    eexists. split; [done|]. rewrite Z.max_l by lia. split; [by split|].
    split; [done|]. by destruct s.
Qed.

(** The 32-bit number the report gives. *)
Lemma reception_extended s b hi n : reception s b hi n → extended_seq s = u32 hi.
Proof. intros [? ? ? Hs Hc ?]. unfold extended_seq. rewrite Hs, Hc. unfold u32. dlia. Qed.

(** A stream becomes one when its probation ends, with two packets in sequence. *)
Lemma reception_init s k : is_uint 16 k → reception (rtp_seq_init s k) k k 0.
Proof.
  unfold is_uint. intros Hk. split; cbn [rtp_seq_init rtp_probation rtp_seq_base RtcpMember.rtp_seq rtp_seq_cycles rtp_packets];
    try done; [dlia|unfold u32 in *; dlia..].
Qed.

(** * Streams *)

(** A packet of a numbered stream, when it arrives. *)
Record arrival := Arrival { a_now : Z; a_data : list Z; a_pkt : rtp_packet_t; a_number : Z }.

Definition arrival_ok (id : Z) (a : arrival) : Prop :=
  rtp_packet_deserialize (a_data a) (zlen (a_data a)) = Ok (a_pkt a) ∧
  rtp_ssrc (rtp (a_pkt a)) = id ∧ RtpPacket.rtp_seq (rtp (a_pkt a)) = a_number a mod 65536 ∧ 0 ≤ a_number a.

(** Every number is in the window of the highest before it. *)
Fixpoint windows (hi : Z) (l : list arrival) : Prop :=
  match l with
  | [] => True
  | a :: l => in_window hi (a_number a) ∧ windows (Z.max hi (a_number a)) l
  end.
Definition highest (hi : Z) (l : list arrival) : Z := fold_left (λ h a, Z.max h (a_number a)) l hi.

(** No difference of transit times is the least [int], whose absolute value does
    not exist. *)
Fixpoint steady (frequence clock timestamp : Z) (l : list arrival) : Prop :=
  match l with
  | [] => True
  | a :: l =>
      let ts := RtpPacket.rtp_timestamp (rtp (a_pkt a)) in
      transit_difference clock timestamp frequence (a_now a) ts ≠ - 2 ^ 31 ∧ steady frequence (a_now a) ts l
  end.

Fixpoint receive_all {V} (alloc : Z → bool) (c : rtp_context V) (l : list arrival) : outcome (rtp_context V) :=
  match l with
  | [] => Ok c
  | a :: l =>
      '(r, c) ← rtcp_input_rtp alloc c (a_now a) (a_data a) (zlen (a_data a));
      if r =? 1 then receive_all alloc c l else Fail r
  end.

Section Stream.
Context {V : Type} (alloc : Z → bool).
Implicit Types c : rtp_context V.

Lemma s32_range v : - 2 ^ 31 ≤ s32 v < 2 ^ 31.
Proof. unfold s32. dlia. Qed.

Lemma next_jitter_ok s f now ts :
  transit_difference (rtp_clock s) (RtcpMember.rtp_timestamp s) f now ts ≠ - 2 ^ 31 →
  ∃ j, next_jitter s f now ts = Ok j.
Proof.
  intros Hd. unfold next_jitter. destruct (0 =? rtp_packets s); [eauto|]. cbv zeta.
  pose proof (s32_range (u32 (u32 (u64 (u64 (now - rtp_clock s) * u64 f) / 1000000) - u32 (ts - RtcpMember.rtp_timestamp s)))).
  fold (transit_difference (rtp_clock s) (RtcpMember.rtp_timestamp s) f now ts) in *.
  set (D := transit_difference _ _ _ _ _) in *.
  destruct (Z.ltb_spec D 0); [rewrite int_ok by lia|]; run; eauto.
Qed.

(** The sender is in the session's list. *)
Lemma rtp_sender_fetch_known c ms ss p id :
  session_ok c ms ss → p ∈ ss → source_of (heap c) p = Some id →
  rtp_sender_fetch alloc c id = Ok (Some p, c).
Proof.
  intros H Hp Hs. unfold rtp_sender_fetch.
  rewrite rtp_member_list_find_ok with (ps := ss); [|apply H|].
  2:{ intros q Hq. eapply member_held; [done|]. by apply (ok_subset _ _ _ H). }
  run. destruct (list_find (has_source (heap c) id) ss) as [[i q]|] eqn:E; cbn [fmap option_fmap option_map snd].
  - apply list_find_Some in E as (Hi%list_elem_of_lookup_2 & Hq & _). do 2 f_equal. f_equal.
    eapply member_unique; [done|by apply (ok_subset _ _ _ H)..|]. unfold has_source in Hq. congruence.
  - apply list_find_None in E. rewrite Forall_forall in E. by destruct (E p Hp).
Qed.

Lemma receive_one c ms ss p s id b hi n a :
  session_ok c ms ss → p ∈ ss → objects (heap c) !! p = Some s → ssrc s = id → arrival_ok id a →
  reception s b hi n → in_window hi (a_number a) →
  transit_difference (rtp_clock s) (RtcpMember.rtp_timestamp s) (frequence c) (a_now a)
    (RtpPacket.rtp_timestamp (rtp (a_pkt a))) ≠ - 2 ^ 31 →
  ∃ s', rtcp_input_rtp alloc c (a_now a) (a_data a) (zlen (a_data a)) = Ok (1, put_member c p s') ∧
    session_ok (put_member c p s') ms ss ∧ reception s' b (Z.max hi (a_number a)) (n + 1) ∧ ssrc s' = id ∧
    rtp_clock s' = a_now a ∧ RtcpMember.rtp_timestamp s' = RtpPacket.rtp_timestamp (rtp (a_pkt a)).
Proof.
  intros Hc Hp Hs Hid (Hd & Hsrc & Hseq & H0) Hrec Hw Ht. unfold rtcp_input_rtp. rewrite Hd, Hsrc.
  rewrite (rtp_sender_fetch_known c ms ss p id) by (done || (unfold source_of; rewrite Hs; simpl; congruence)).
  run. unfold get_member, load. rewrite Hs. run. rewrite Hseq.
  destruct (rtp_seq_update_in_window s b hi n (a_number a) Hrec Hw H0) as (s1 & -> & Hrec1 & _ & E1).
  change (0 =? 1) with false. cbv iota.
  destruct (next_jitter_ok s1 (frequence c) (a_now a) (RtpPacket.rtp_timestamp (rtp (a_pkt a)))) as [j ->];
    [by rewrite E1|].
  run. eexists. split; [done|]. split.
  - eapply session_put; [done..| | |]; try (by rewrite E1).
    destruct (ok_object _ _ (ok_refs _ _ _ Hc) p s Hs) as ([? ?] & _). rewrite E1. by split.
  - split_and!; try (by rewrite E1).
    destruct Hrec1 as [? ? ? ? ? Hn]. split; try done.
    cbn [with_packet with_clock rtp_packets]. rewrite Hn. unfold u32. dlia.
Qed.

Lemma receive_all_ok l c ms ss p s id b hi n :
  session_ok c ms ss → p ∈ ss → objects (heap c) !! p = Some s → ssrc s = id → Forall (arrival_ok id) l →
  reception s b hi n → windows hi l → steady (frequence c) (rtp_clock s) (RtcpMember.rtp_timestamp s) l →
  ∃ c' s', receive_all alloc c l = Ok c' ∧ session_ok c' ms ss ∧ objects (heap c') !! p = Some s' ∧ ssrc s' = id ∧
    reception s' b (highest hi l) (n + zlen l).
Proof.
  revert c s hi n. induction l as [|a l IH]; intros c s hi n Hc Hp Hs Hid Hl Hrec; cbn [windows steady receive_all].
  { intros _ _. exists c, s. rewrite zlen_nil, Z.add_0_r. done. }
  apply Forall_cons in Hl as [Ha Hl]. intros [Hw Hws] [Ht Hts].
  destruct (receive_one c ms ss p s id b hi n a) as (s1 & -> & Hc1 & Hrec1 & Hid1 & E1 & E2); [done..|].
  run. change (1 =? 1) with true. cbv iota.
  destruct (IH (put_member c p s1) s1 (Z.max hi (a_number a)) (n + 1)) as (c' & s' & ? & ? & ? & ? & ?);
    [done|done|apply lookup_insert_eq|done..|by rewrite E1, E2|].
  exists c', s'. split_and!; [done..|]. rewrite zlen_cons. by replace (n + (1 + zlen l)) with (n + 1 + zlen l) by lia.
Qed.
End Stream.

(** * Writing one field after the other *)

Ltac zl := rewrite ?zlen_app, ?zlen_cons, ?zlen_nil, ?zlen_be_bytes; lia.

Lemma st_next {A} (m : list A) p q bs cs : 0 ≤ p → q = p + zlen bs → q + zlen cs ≤ zlen m →
  st (put m p bs) q cs = Ok (put m p (bs ++ cs)).
Proof.
  intros Hp -> Hl. pose proof (zlen_nonneg bs). pose proof (zlen_nonneg cs).
  rewrite st_ok by (rewrite ?zlen_put; lia). by rewrite put_app by lia.
Qed.

Lemma write_uint32_next m p q bs v : 0 ≤ p → q = p + zlen bs → q + 4 ≤ zlen m →
  rtp_write_uint32 (put m p bs) q v = Ok (put m p (bs ++ be_bytes 4 v)).
Proof. intros. unfold rtp_write_uint32. rewrite be_bytes_4. by apply st_next. Qed.

(** * Report blocks *)

(** What the block says, given the conversions of jitter and delay. *)
Definition fraction_of (s : rtp_member) : Z :=
  if (lost_interval s <? 0) || (0 =? expected_interval s) then 0
  else lost_interval s * 256 / expected_interval s.
Definition block_of (s : rtp_member) (j d : Z) : rtcp_rb_t :=
  RtcpRb (ssrc s) (u8 (fraction_of s)) (cumulative_lost s) (extended_seq s) j (last_sr s)
    (if 0 =? last_sr s then 0 else d).

(** The bytes of a report block. *)
Definition block_wire (rb : rtcp_rb_t) : list Z :=
  be_bytes 4 (rb_ssrc rb) ++ [rb_fraction rb] ++ be_bytes 3 (rb_cumulative rb) ++
  be_bytes 4 (rb_exthsn rb) ++ be_bytes 4 (rb_jitter rb) ++ be_bytes 4 (rb_lsr rb) ++ be_bytes 4 (rb_dlsr rb).

Lemma zlen_block_wire rb : zlen (block_wire rb) = 24.
Proof. done. Qed.

(** The conversions to integers that the block needs are defined. *)
Record reportable (s : rtp_member) (now j d : Z) : Prop := {
  rp_jitter : to_uint32 (jitter s) = Ok j;
  rp_delay : dlsr_of (u64 (now - rtcp_clock s)) = Ok d;
  rp_lost : lost_interval s < 2 ^ 23
}.

Lemma fraction_lost_ok s : lost_interval s < 2 ^ 23 → fraction_lost s = Ok (fraction_of s).
Proof.
  intros Hl. unfold fraction_lost, fraction_of. destruct (Z.ltb_spec (lost_interval s) 0); [done|]. cbn [orb].
  destruct (0 =? expected_interval s); [done|].
  rewrite Z.shiftl_mul_pow2 by lia. rewrite int_ok by lia. run.
  change (2 ^ 8) with 256. by rewrite u32_id by (unfold is_uint; lia).
Qed.

Lemma cumulative_lost_clamp s :
  cumulative_lost s = Z.max 0 (Z.min (s32 (u32 (expected s - rtp_packets s))) 8388607).
Proof. unfold cumulative_lost. cbv zeta. case_match; [|case_match]; lia. Qed.

Lemma be_bytes_3_masks v : 0 ≤ v < 2 ^ 24 →
  [Z.land (Z.shiftr v 16) 255; Z.land (Z.shiftr v 8) 255; Z.land v 255] = be_bytes 3 v.
Proof. intros. masks. cbn [be_bytes]. by_cells ltac:(dlia). Qed.

Lemma rtcp_report_block_ok s now j d m ptr : reportable s now j d → 0 ≤ ptr → ptr + 24 ≤ zlen m →
  rtcp_report_block s now m ptr 24 =
    Ok (24, with_prior s (expected s) (rtp_packets s), put m ptr (block_wire (block_of s j d))).
Proof.
  intros [Hj Hd Hl] Hp Hm. unfold rtcp_report_block. change (24 <? 24) with false. cbv iota zeta.
  rewrite fraction_lost_ok by done. run. rewrite Hd. run.
  assert (0 ≤ cumulative_lost s < 2 ^ 24) as Hc by (rewrite cumulative_lost_clamp; lia).
  rewrite rtp_write_uint32_be by lia. run.
  rewrite st_next by zl. run. rewrite write_uint32_next by zl. run. rewrite Hj. run.
  do 3 (rewrite write_uint32_next by zl; run).
  rewrite be_bytes_3_masks by done. unfold block_wire, block_of.
  cbn [rb_ssrc rb_fraction rb_cumulative rb_exthsn rb_jitter rb_lsr rb_dlsr].
  rewrite <- !app_assoc. reflexivity.
Qed.

(** The block read back. *)
Definition rb_ok (rb : rtcp_rb_t) : Prop :=
  is_uint 32 (rb_ssrc rb) ∧ is_byte (rb_fraction rb) ∧ is_uint 24 (rb_cumulative rb) ∧ is_uint 32 (rb_exthsn rb) ∧
  is_uint 32 (rb_jitter rb) ∧ is_uint 32 (rb_lsr rb) ∧ is_uint 32 (rb_dlsr rb).

Lemma read_uint32_holds m p v : bytes_ok m → holds m p (be_bytes 4 v) → is_uint 32 v → rtp_read_uint32 m p = Ok v.
Proof.
  intros Hm (Hp & Hl & Hs) Hv. rewrite zlen_be_bytes in *. rewrite rtp_read_uint32_be by (done || lia).
  change 4 with (Z.of_nat 4). rewrite Hs. by rewrite be_bytes_range4.
Qed.

Lemma read_report_block_wire m p rb : bytes_ok m → holds m p (block_wire rb) → rb_ok rb →
  read_report_block m p = Ok rb.
Proof.
  intros Hm Hh (H1 & H2 & H3 & H4 & H5 & H6 & H7). unfold block_wire in Hh. rewrite !holds_app in Hh.
  rewrite !zlen_be_bytes in Hh. change (zlen [rb_fraction rb]) with 1 in Hh. rewrite <- be_bytes_3_masks, !holds_cons in Hh by done.
  change (Z.of_nat 4) with 4 in Hh. change (Z.of_nat 3) with 3 in Hh.
  replace (p + 4 + 1) with (p + 5) in Hh by lia. replace (p + 5 + 1) with (p + 6) in Hh by lia.
  replace (p + 6 + 1) with (p + 7) in Hh by lia. replace (p + 5 + 3) with (p + 8) in Hh by lia.
  replace (p + 8 + 4) with (p + 12) in Hh by lia. replace (p + 12 + 4) with (p + 16) in Hh by lia.
  replace (p + 16 + 4) with (p + 20) in Hh by lia.
  destruct Hh as (Hs & (Hf & _) & (Ha & Hb & He & _) & Hx & Hj & Hl & Hd).
  unfold read_report_block. rewrite (read_uint32_holds m p (rb_ssrc rb)) by done. run.
  rewrite Hf. run. rewrite Ha. run. rewrite Hb. run. rewrite He. run.
  rewrite (read_uint32_holds m _ _ Hm Hx) by done. run. rewrite (read_uint32_holds m _ _ Hm Hj) by done. run.
  rewrite (read_uint32_holds m _ _ Hm Hl) by done. run. rewrite (read_uint32_holds m _ _ Hm Hd) by done. run.
  assert (Z.lor (Z.lor (Z.shiftl (Z.land (Z.shiftr (rb_cumulative rb) 16) 255) 16)
            (Z.shiftl (Z.land (Z.shiftr (rb_cumulative rb) 8) 255) 8)) (Z.land (rb_cumulative rb) 255) = rb_cumulative rb) as ->.
  { rewrite be_val_3 by (rewrite (land_mask _ 255 8 eq_refl) by lia; unfold is_uint; dlia).
    rewrite be_bytes_3_masks by done. by apply be_val_bytes. }
  by destruct rb.
Qed.

(** * From one side to the other *)

(** What a list of reports is to the handler. *)
Definition report_messages (type id : Z) (rbs : list rtcp_rb_t) : list rtcp_msg_t :=
  (λ rb, RtcpMsg type id (MsgReport rb)) <$> rbs.

Section Reading.
Context {V : Type} (alloc : Z → bool) (on_rtcp : V → rtcp_msg_t → V).
Hypothesis alloc_ok : ∀ n, alloc n = true.
Implicit Types c : rtp_context V.

Lemma report_blocks_wire rbs c type id m ptr :
  bytes_ok m → holds m ptr (concat (block_wire <$> rbs)) → Forall rb_ok rbs →
  report_blocks on_rtcp (length rbs) c type id m ptr =
    Ok (set_app c (fold_left on_rtcp (report_messages type id rbs) (app c))).
Proof.
  intros Hm. revert c ptr. induction rbs as [|rb rbs IH]; intros c ptr Hh Hok; cbn [length report_blocks].
  { by destruct c. }
  apply Forall_cons in Hok as [Hr Hok]. cbn [fmap list_fmap concat] in Hh. apply holds_app in Hh as [Hb Hh].
  rewrite (read_report_block_wire m ptr rb) by done. run.
  rewrite zlen_block_wire in Hh. rewrite IH by done. by destruct c.
Qed.

(** The first word of a packet. *)
Definition rtcp_word (rc pt length : Z) : list Z := [128 + rc; pt; length / 256; length mod 256].

Lemma nbo_write_rtcp_header_word m p rc pt length :
  0 ≤ rc < 32 → 0 ≤ pt < 256 → 0 ≤ length < 65536 → 0 ≤ p → p + 4 ≤ zlen m →
  nbo_write_rtcp_header m p (RtcpHeader 2 0 rc pt length) = Ok (put m p (rtcp_word rc pt length)).
Proof.
  intros Hr Ht Hl Hp Hm. unfold nbo_write_rtcp_header. cbn [rh_v rh_p rh_rc rh_pt rh_length].
  rewrite st_ok by zl. do 2 f_equal. unfold rtcp_word.
  change (Z.lor (Z.shiftl 2 6) (Z.shiftl 0 5)) with (Z.shiftl 4 5).
  rewrite lor_shiftl_add by (simpl; lia). masks. unfold u8. by_cells ltac:(dlia).
Qed.

Lemma rtcp_word_header m p rc pt length : bytes_ok m → holds m p (rtcp_word rc pt length) →
  0 ≤ rc < 32 → 0 ≤ pt < 256 → 0 ≤ length < 65536 →
  ∃ v, rtp_read_uint32 m p = Ok v ∧ rtcp_header v = RtcpHeader 2 0 rc pt length.
Proof.
  intros Hm (Hp & Hl & Hs) Hr Ht Hn. change (zlen (rtcp_word rc pt length)) with 4 in *.
  eexists. split; [by apply rtp_read_uint32_be|]. rewrite Hs.
  assert (be_val (rtcp_word rc pt length) = (128 + rc) * 16777216 + pt * 65536 + length) as ->.
  { unfold rtcp_word, be_val. cbn [fold_left]. dlia. }
  unfold rtcp_header, RTCP_V, RTCP_P, RTCP_RC, RTCP_PT, RTCP_LEN. masks. f_equal; dlia.
Qed.

(** A datagram of one packet without padding. *)
Lemma rtcp_input_single fuel c now base m rc pt length c' :
  bytes_ok m → 0 ≤ rc < 32 → 0 ≤ pt < 256 → 0 < length < 65536 → length * 4 + 4 ≤ zlen m →
  holds m 0 (rtcp_word rc pt length) →
  rtcp_dispatch alloc on_rtcp fuel c now base (RtcpHeader 2 0 rc pt length) m 4 (length * 4) = Some (Ok c') →
  rtcp_input_rtcp alloc on_rtcp fuel c now base m (length * 4 + 4) =
    Some (Ok (set_avg_rtcp_size c' (next_avg_rtcp_size (avg_rtcp_size c') (length * 4 + 4)))).
Proof.
  intros Hm Hr Ht Hl Hz Hh Hd. unfold rtcp_input_rtcp.
  destruct (Z.to_nat (length * 4 + 4)) as [|n] eqn:En; [lia|]. cbn [rtcp_input_loop].
  destruct (Z.gtb_spec (length * 4 + 4) 4); [|lia].
  unfold rtcp_parse. destruct (rtcp_word_header m 0 rc pt length) as (v & -> & Ev); [done..|lia|].
  run. cbv zeta. rewrite Ev. unfold rtcp_check. cbn [rh_length rh_v rh_p].
  destruct (Z.gtb_spec (length * 4 + 4) (length * 4 + 4)); [lia|]. cbn [orb Z.eqb Pos.eqb negb].
  change (truth 0) with false. cbv iota. run. cbn [rh_length]. rewrite Z.sub_0_r. change (0 + 4) with 4. rewrite Hd. run.
  destruct (Z.leb_spec ((length + 1) * 4) 0); [lia|].
  replace ((length + 1) * 4) with (length * 4 + 4) by lia. rewrite Z.sub_diag.
  by destruct n.
Qed.
End Reading.
