(* ===== verification/RtcpReportSpec.v ===== *)
(** Reports from one session to another: what rtcp_rr_pack and rtcp_sr_pack
    write, and what the peer's rtcp_input_rtcp makes of it.

    Goodbyes: what rtcp_bye_unpack does to the participants and tells the
    handler. *)
From S2P Require Import Prelude RtpPacket Doubles RtcpMember RtcpContext RtcpRtpfb RtcpPsfb RtcpXr RtcpSession Post RtcpContextSpec RtcpFeedbackSafe RtcpSafe RtcpReception.
Open Scope Z_scope.

(** * The blocks of the senders *)

Section Senders.
Context {V : Type}.
Implicit Types c : rtp_context V.

(** A sender that is reported on, and its block. *)
Definition reported c (now : Z) (p : Z) (rb : rtcp_rb_t) : Prop :=
  ∃ s j d me, objects (heap c) !! p = Some s ∧ objects (heap c) !! self c = Some me ∧
    rtp_packets s ≠ 0 ∧ ssrc s ≠ ssrc me ∧ is_uint 32 (ssrc s) ∧ reportable s now j d ∧ rb = block_of s j d.

Lemma trunc_range lo hi x v : to_range lo hi x = Ok v → lo ≤ v < hi.
Proof.
  unfold to_range. destruct (trunc x) as [w|]; [|done].
  destruct (Z.leb_spec lo w), (Z.ltb_spec w hi); cbn [andb]; congruence || (intros [= ->]; lia).
Qed.

Lemma reported_ok c now p rb : reported c now p rb → rb_ok rb.
Proof.
  intros (s & j & d & me & _ & _ & _ & _ & Hid & [Hj Hd _] & ->). unfold rb_ok, block_of.
  cbn [rb_ssrc rb_fraction rb_cumulative rb_exthsn rb_jitter rb_lsr rb_dlsr].
  apply trunc_range in Hj. unfold dlsr_of in Hd. apply trunc_range in Hd.
  rewrite cumulative_lost_clamp. unfold extended_seq.
  assert (is_uint 32 (last_sr s)).
  { unfold last_sr. cbv zeta. rewrite lor_shiftl_add; unfold is_uint; masks; dlia. }
  split_and!; try (by auto with cint); unfold is_uint in *; [lia..|]. case_match; lia.
Qed.

(** Writing a block changes what the sender's next block starts from only. *)
Lemma reported_put c now p q s rb x y :
  reported c now q rb → q ≠ p → objects (heap c) !! p = Some s →
  reported (put_member c p (with_prior s x y)) now q rb.
Proof.
  intros (t & j & d & me & Ht & Hme & H1 & H2 & H3 & H4 & H5) Hq Hp.
  unfold reported. cbn [put_member set_heap heap self save objects].
  rewrite lookup_insert_ne by congruence. destruct (decide (self c = p)) as [E|E].
  - exists t, j, d, (with_prior s x y). rewrite E, lookup_insert_eq.
    rewrite E in Hme. assert (me = s) as -> by congruence. by split_and!.
  - exists t, j, d, me. rewrite lookup_insert_ne by congruence. by split_and!.
Qed.

Lemma sender_blocks_ok c ms ss k now rbs m p bs :
  session_ok c ms ss → Forall2 (reported c now) (drop k ss) rbs →
  0 ≤ p → p + zlen bs + 24 * zlen rbs ≤ zlen m →
  ∃ c', sender_blocks (length rbs) (Z.of_nat k) c now (put m p bs) (p + zlen bs) =
          Ok (put m p (bs ++ concat (block_wire <$> rbs)), c') ∧ session_ok c' ms ss.
Proof.
  revert c k bs. induction rbs as [|rb rbs IH]; intros c k bs Hc Hrb Hp Hl; cbn [length sender_blocks].
  { exists c. by rewrite app_nil_r. }
  apply Forall2_cons_inv_r in Hrb as (q & l & (s & j & d & me & Hs & Hme & Hn & Hne & _ & Hr & ->) & Hrb & E).
  assert (ss !! k = Some q) as Hq by (by rewrite <- (Nat.add_0_r k), <- lookup_drop, E).
  rewrite (rtp_member_list_get_ok _ _ _ _ (ok_senders _ _ _ Hc) Hq). run. cbn [cell]. run.
  unfold get_member, load. rewrite Hs. run. rewrite Hme. run.
  destruct (Z.eqb_spec 0 (rtp_packets s)); [congruence|]. destruct (Z.eqb_spec (ssrc s) (ssrc me)); [done|]. cbn [orb].
  rewrite zlen_cons in Hl. pose proof (zlen_nonneg bs). pose proof (zlen_nonneg rbs).
  rewrite (rtcp_report_block_ok s now j d) by (done || (rewrite ?zlen_put; lia)). run.
  rewrite put_app by (rewrite ?zlen_block_wire; lia).
  set (c1 := put_member c q _).
  assert (session_ok c1 ms ss) as Hc1.
  { eapply session_put; [done|done| |done|done].
    destruct (ok_object _ _ (ok_refs _ _ _ Hc) q s Hs) as ([? ?] & _). by split. }
  replace (Z.of_nat k + 1) with (Z.of_nat (S k)) by lia.
  replace (p + zlen bs + 24) with (p + zlen (bs ++ block_wire (block_of s j d))) by (rewrite zlen_app, zlen_block_wire; lia).
  destruct (IH c1 (S k) (bs ++ block_wire (block_of s j d))) as (c' & -> & Hc').
  - done.
  - rewrite (drop_S _ _ _ Hq) in E. injection E as E. rewrite E.
    apply Forall2_same_length_lookup in Hrb as [HL Hlk]. apply Forall2_same_length_lookup. split; [done|].
    intros i x y Hx Hy. eapply reported_put; [by eapply Hlk| |done].
    intros ->. rewrite <- E, lookup_drop in Hx.
    pose proof (NoDup_lookup ss _ _ _ (ok_nodup _ _ _ Hc) Hq Hx). lia.
  - done.
  - rewrite zlen_app, zlen_block_wire. lia.
  - exists c'. split; [|done]. rewrite <- app_assoc. done.
Qed.
End Senders.

(** * Receiver reports *)

Lemma zlen_rtcp_word rc pt length : zlen (rtcp_word rc pt length) = 4.
Proof. done. Qed.

Ltac zw := rewrite ?zlen_app, ?zlen_rtcp_word, ?zlen_be_bytes; lia.

Definition rr_wire (id : Z) (rbs : list rtcp_rb_t) : list Z :=
  rtcp_word (zlen rbs) RTCP_RR (1 + 6 * zlen rbs) ++ be_bytes 4 id ++ concat (block_wire <$> rbs).

(** The words of a sender report before its blocks. *)
Definition sr_wire (id : Z) (sr : rtcp_sr_t) (rbs : list rtcp_rb_t) : list Z :=
  rtcp_word (zlen rbs) RTCP_SR (6 + 6 * zlen rbs) ++ be_bytes 4 id ++
  be_bytes 4 (sr_ntpmsw sr) ++ be_bytes 4 (sr_ntplsw sr) ++ be_bytes 4 (sr_rtpts sr) ++
  be_bytes 4 (sr_spc sr) ++ be_bytes 4 (sr_soc sr) ++ concat (block_wire <$> rbs).

Lemma zlen_blocks rbs : zlen (concat (block_wire <$> rbs)) = 24 * zlen rbs.
Proof.
  induction rbs as [|rb rbs IH]; [done|]. cbn [fmap list_fmap concat].
  rewrite zlen_app, zlen_block_wire, zlen_cons. fold (fmap (M := list) block_wire rbs). lia.
Qed.

Lemma zlen_rr_wire id rbs : zlen (rr_wire id rbs) = 8 + 24 * zlen rbs.
Proof. unfold rr_wire. rewrite !zlen_app, zlen_be_bytes, zlen_blocks. change (zlen (rtcp_word _ _ _)) with 4. lia. Qed.

Lemma bytes_ok_word rc pt length : 0 ≤ rc < 32 → 0 ≤ pt < 256 → 0 ≤ length < 65536 → bytes_ok (rtcp_word rc pt length).
Proof. intros. unfold rtcp_word, bytes_ok. repeat constructor; unfold is_uint; dlia. Qed.

Lemma bytes_ok_blocks rbs : Forall rb_ok rbs → bytes_ok (concat (block_wire <$> rbs)).
Proof.
  induction 1 as [|rb rbs (_ & H & _) _ IH]; [constructor|]. cbn [fmap list_fmap concat].
  rewrite bytes_ok_app. split; [|exact IH]. unfold block_wire. rewrite !bytes_ok_app.
  split_and!; auto with cint. by constructor.
Qed.

Section Reports.
Context {V : Type}.
Implicit Types c : rtp_context V.

Lemma report_count_ok c ms ss (rbs : list rtcp_rb_t) : session_ok c ms ss → length ss = length rbs → zlen rbs ≤ 31 →
  report_count c = zlen rbs.
Proof.
  intros Hc Hl Hn. unfold report_count, rtp_member_list_count. rewrite (ok_count _ _ (ok_senders _ _ _ Hc)).
  unfold zlen in *. lia.
Qed.

Lemma rtcp_rr_pack_ok c ms ss now rbs me m bytes :
  session_ok c ms ss → Forall2 (reported c now) ss rbs → zlen rbs ≤ 31 → objects (heap c) !! self c = Some me →
  8 + 24 * zlen rbs ≤ bytes < 2 ^ 31 → bytes ≤ zlen m →
  ∃ c', rtcp_rr_pack c now m 0 bytes = Ok (8 + 24 * zlen rbs, put m 0 (rr_wire (ssrc me) rbs), c') ∧
        session_ok c' ms ss.
Proof.
  intros Hc Hrb Hn Hme Hb Hm. pose proof (zlen_nonneg rbs). unfold rtcp_rr_pack.
  rewrite (report_count_ok c ms ss rbs Hc (Forall2_length _ _ _ Hrb) Hn). cbv zeta.
  replace ((4 + zlen rbs * 24) / 4) with (1 + 6 * zlen rbs) by dlia.
  unfold u32. rewrite (Z.mod_small bytes) by lia.
  destruct (Z.ltb_spec bytes (4 + (1 + 6 * zlen rbs) * 4)); [lia|].
  rewrite nbo_write_rtcp_header_word by (unfold RTCP_RR; lia). run.
  unfold get_member, load. rewrite Hme. run. rewrite write_uint32_next by zw. run.
  assert (Z.to_nat (zlen rbs) = length rbs) as -> by (unfold zlen; lia).
  destruct (sender_blocks_ok c ms ss 0 now rbs m 0 (rtcp_word (zlen rbs) RTCP_RR (1 + 6 * zlen rbs) ++ be_bytes 4 (ssrc me)))
    as (c' & E & Hc'); [done|done|done|zw|].
  rewrite zlen_app, zlen_be_bytes, zlen_rtcp_word in E.
  change (0 + (4 + Z.of_nat 4)) with 8 in E. change (Z.of_nat 0) with 0 in E. change (0 + 8) with 8. rewrite E. run.
  exists c'. split; [|done]. unfold rr_wire. rewrite <- app_assoc. do 3 f_equal. lia.
Qed.

(** What a sender report says of its sender. *)
Definition own_clock (me : rtp_member) (now : Z) : rtp_member :=
  if 0 =? rtp_packets me then with_clock me now (RtcpMember.rtp_timestamp me) else me.
Definition sr_of (me : rtp_member) (frequence now : Z) : rtcp_sr_t :=
  let ntp := clock2ntp now in
  RtcpSr (ssrc me) (u32 (Z.shiftr ntp 32)) (Z.land ntp 4294967295)
    (u32 (u32 (u64 (u64 (now - rtp_clock (own_clock me now)) * u64 frequence) / 1000000) + RtcpMember.rtp_timestamp me))
    (rtp_packets me) (u32 (rtp_bytes me)).

Lemma reported_own c now me p rb :
  reported c now p rb → objects (heap c) !! self c = Some me →
  reported (put_member c (self c) (own_clock me now)) now p rb.
Proof.
  intros (s & j & d & me' & Hs & Hme & H1 & H2 & H3 & H4 & H5) Hm.
  assert (me' = me) as -> by congruence. assert (self c ≠ p) by (intros E; rewrite E in Hme; congruence).
  exists s, j, d, (own_clock me now). cbn [put_member set_heap heap self save objects].
  rewrite lookup_insert_ne, lookup_insert_eq by congruence.
  split_and!; try done. unfold own_clock. by case_match.
Qed.

Lemma rtcp_sr_pack_ok c ms ss now rbs me m bytes :
  session_ok c ms ss → Forall2 (reported c now) ss rbs → zlen rbs ≤ 31 → objects (heap c) !! self c = Some me →
  28 + 24 * zlen rbs ≤ bytes < 2 ^ 31 → bytes ≤ zlen m →
  ∃ c', rtcp_sr_pack c now m 0 bytes =
          Ok (28 + 24 * zlen rbs, put m 0 (sr_wire (ssrc me) (sr_of me (frequence c) now) rbs), c') ∧
        session_ok c' ms ss.
Proof.
  intros Hc Hrb Hn Hme Hb Hm. pose proof (zlen_nonneg rbs). unfold rtcp_sr_pack.
  rewrite (report_count_ok c ms ss rbs Hc (Forall2_length _ _ _ Hrb) Hn). cbv zeta.
  replace ((24 + zlen rbs * 24) / 4) with (6 + 6 * zlen rbs) by dlia.
  unfold u32 at 1. rewrite (Z.mod_small bytes) by lia.
  destruct (Z.ltb_spec bytes ((6 + 6 * zlen rbs + 1) * 4)); [lia|].
  rewrite nbo_write_rtcp_header_word by (unfold RTCP_SR; lia). run.
  unfold get_member, load. rewrite Hme. run. fold (own_clock me now).
  assert (ssrc (own_clock me now) = ssrc me ∧ rtp_packets (own_clock me now) = rtp_packets me ∧
    rtp_bytes (own_clock me now) = rtp_bytes me ∧ RtcpMember.rtp_timestamp (own_clock me now) = RtcpMember.rtp_timestamp me)
    as (-> & -> & -> & ->) by (unfold own_clock; by case_match).
  do 6 (rewrite write_uint32_next by zw; run).
  assert (Z.to_nat (zlen rbs) = length rbs) as -> by (unfold zlen; lia).
  assert (session_ok (put_member c (self c) (own_clock me now)) ms ss) as Hc1.
  { destruct (ok_object _ _ (ok_refs _ _ _ Hc) _ me Hme) as ([? ?] & _).
    eapply session_put; [done|done|..]; unfold own_clock; case_match; done. }
  set (head := _ ++ be_bytes 4 (u32 (rtp_bytes me))).
  assert (zlen head = 28) as Hh by (unfold head; zw).
  destruct (sender_blocks_ok _ ms ss 0 now rbs m 0 head Hc1) as (c' & E & Hc'); [|done|zw|].
  { eapply Forall2_impl; [exact Hrb|]. intros q rb Hq. by apply reported_own. }
  rewrite Hh in E. change (0 + 28) with 28 in E. change (Z.of_nat 0) with 0 in E. change (0 + 28) with 28. rewrite E. run.
  exists c'. split; [|done]. unfold sr_wire, sr_of, head. cbv zeta. cbn [sr_ntpmsw sr_ntplsw sr_rtpts sr_spc sr_soc].
  rewrite <- !app_assoc. do 3 f_equal. lia.
Qed.
End Reports.

(** * The peer *)

Lemma sr_of_range me frequence now :
  let sr := sr_of me frequence now in
  is_uint 32 (sr_ntpmsw sr) ∧ is_uint 32 (sr_ntplsw sr) ∧ is_uint 32 (sr_rtpts sr) ∧ is_uint 32 (sr_soc sr).
Proof.
  unfold sr_of. cbv zeta. cbn [sr_ntpmsw sr_ntplsw sr_rtpts sr_soc].
  rewrite (land_mask _ 4294967295 32 eq_refl) by lia. split_and!; apply u32_range.
Qed.

Section Peer.
Context {V W : Type} (alloc : Z → bool) (on_rtcp : W → rtcp_msg_t → W).
Hypothesis alloc_ok : ∀ n, alloc n = true.
Implicit Types (c : rtp_context V) (d : rtp_context W).

Lemma fetched_object d d' p id ps : fetched d d' p id ps →
  ∃ s, objects (heap d') !! p = Some s ∧ ssrc s = id.
Proof.
  intros [_ Hs _ _ _ _]. unfold source_of in Hs. destruct (objects (heap d') !! p) as [s|]; [|done].
  exists s. split; [done|]. by injection Hs.
Qed.

Lemma rtcp_rr_unpack_wire d now m id rbs : session d → bytes_ok m → holds m 0 (rr_wire id rbs) →
  Forall rb_ok rbs → is_uint 32 id → zlen rbs ≤ 31 →
  ∃ d', rtcp_rr_unpack alloc on_rtcp d now (RtcpHeader 2 0 (zlen rbs) RTCP_RR (1 + 6 * zlen rbs)) m 4
          ((1 + 6 * zlen rbs) * 4) = Ok d' ∧
    session d' ∧ app d' = fold_left on_rtcp (report_messages RTCP_RR id rbs) (app d).
Proof.
  intros (ms & ss & Hd) Hm Hh Hrb Hid Hn. pose proof (zlen_nonneg rbs).
  unfold rr_wire in Hh. rewrite !holds_app, zlen_rtcp_word, zlen_be_bytes in Hh. destruct Hh as (_ & Hi & Hb).
  unfold rtcp_rr_unpack. cbn [rh_rc]. destruct (Z.ltb_spec ((1 + 6 * zlen rbs) * 4) (4 + zlen rbs * 24)); [lia|].
  rewrite (read_uint32_holds m 4 id) by done. run.
  destruct (rtp_member_fetch_ok alloc alloc_ok d ms ss id Hd) as (p & d1 & ms1 & -> & Hd1 & Hf & _). run.
  destruct (fetched_object _ _ _ _ _ Hf) as (s & Hs & _).
  unfold get_member, load. rewrite Hs. run.
  assert (Z.to_nat (zlen rbs) = length rbs) as -> by (unfold zlen; lia).
  rewrite report_blocks_wire by done. eexists. split; [done|]. split.
  - exists ms1, ss. assert (session_ok (put_member d1 p (with_sr s now (rtcp_sr s))) ms1 ss) as [] by
      (destruct (ok_object _ _ (ok_refs _ _ _ Hd1) p s Hs) as ([? ?] & _); by eapply session_put). by split.
  - cbn [app set_app put_member set_heap]. by rewrite (fetched_app _ _ _ _ _ Hf).
Qed.

(** The sender's clock and packet counts are kept with the participant. *)
Lemma rtcp_sr_unpack_wire d now m id sr rbs : session d → bytes_ok m → holds m 0 (sr_wire id sr rbs) →
  Forall rb_ok rbs → is_uint 32 id → is_uint 32 (sr_ntpmsw sr) → is_uint 32 (sr_ntplsw sr) →
  is_uint 32 (sr_rtpts sr) → is_uint 32 (sr_spc sr) → is_uint 32 (sr_soc sr) → zlen rbs ≤ 31 →
  ∃ d' p s x, rtcp_sr_unpack alloc on_rtcp d now (RtcpHeader 2 0 (zlen rbs) RTCP_SR (6 + 6 * zlen rbs)) m 4
          ((6 + 6 * zlen rbs) * 4) = Ok d' ∧
    session d' ∧ app d' = fold_left on_rtcp (report_messages RTCP_SR id rbs) (app d) ∧
    objects (heap d') !! p = Some s ∧ ssrc s = id ∧ rtcp_clock s = now ∧
    rtcp_sr s = RtcpSr x (sr_ntpmsw sr) (sr_ntplsw sr) (sr_rtpts sr) (sr_spc sr) (sr_soc sr).
Proof.
  intros (ms & ss & Hd) Hm Hh Hrb Hid H1 H2 H3 H4 H5 Hn. pose proof (zlen_nonneg rbs).
  unfold sr_wire in Hh. rewrite !holds_app, zlen_rtcp_word, !zlen_be_bytes in Hh.
  destruct Hh as (_ & Hi & Hmsw & Hlsw & Hts & Hspc & Hsoc & Hb).
  unfold rtcp_sr_unpack. cbn [rh_rc]. destruct (Z.ltb_spec ((6 + 6 * zlen rbs) * 4) (24 + zlen rbs * 24)); [lia|].
  rewrite (read_uint32_holds m 4 id) by done. run.
  destruct (rtp_sender_fetch_ok alloc alloc_ok d ms ss id Hd) as (p & d1 & ms1 & ss1 & -> & Hd1 & Hf & _). run.
  destruct (fetched_object _ _ _ _ _ Hf) as (s & Hs & Es).
  unfold get_member, load. rewrite Hs. run.
  change (0 + 4 + Z.of_nat 4) with (4 + 4) in *. change (4 + 4 + Z.of_nat 4) with (4 + 8) in *.
  change (4 + 8 + Z.of_nat 4) with (4 + 12) in *. change (4 + 12 + Z.of_nat 4) with (4 + 16) in *.
  change (4 + 16 + Z.of_nat 4) with (4 + 20) in *. change (4 + 20 + Z.of_nat 4) with (4 + 24) in *.
  rewrite (read_uint32_holds m _ _ Hm Hmsw H1). run. rewrite (read_uint32_holds m _ _ Hm Hlsw H2). run.
  rewrite (read_uint32_holds m _ _ Hm Hts H3). run. rewrite (read_uint32_holds m _ _ Hm Hspc H4). run.
  rewrite (read_uint32_holds m _ _ Hm Hsoc H5). run.
  assert (Z.to_nat (zlen rbs) = length rbs) as -> by (unfold zlen; lia).
  rewrite report_blocks_wire by done.
  eexists _, p, _, _. split; [done|]. split; [|split; [|split; [apply lookup_insert_eq|done]]].
  - exists ms1, ss1. set (s' := with_sr _ _ _). assert (session_ok (put_member d1 p s') ms1 ss1) as [] by
      (destruct (ok_object _ _ (ok_refs _ _ _ Hd1) p s Hs) as ([? ?] & _); by eapply session_put). by split.
  - cbn [app set_app put_member set_heap]. by rewrite (fetched_app _ _ _ _ _ Hf).
Qed.
End Peer.

(** * A session of two *)

(** The session with itself and one sender, as the witnesses use it. *)
Definition two_party {V} (v : V) (me s : rtp_member) : rtp_context V :=
  RtpContext v (Store {[1 := me; 2 := s]} 3) (RtpMemberList [Some 1; Some 2] [] 2 0)
    (RtpMemberList [Some 2; None] [] 1 0) 1 0 104857 0 90000 1 RTP_RECEIVER.

Lemma two_party_ok {V} (v : V) me s :
  member_ok me → member_ok s → ref me = 2 → ref s = 2 → ssrc me ≠ ssrc s → session_ok (two_party v me s) [1; 2] [2].
Proof.
  intros Hme Hs Rme Rs Hne. split; cbn [members senders heap self two_party].
  - split; try done. intros [|[|]] p; cbn; by intros [= <-] || done.
  - split; try done. intros [|] p; cbn; by intros [= <-] || done.
  - split; cbn [objects allocations].
    + intros p m [[<- <-]|[? [<- <-]%lookup_singleton_Some]]%lookup_insert_Some.
      * split_and!; try done. set_solver.
      * split_and!; try done. set_solver.
    + intros p Hp. rewrite !elem_of_cons in Hp. assert (p = 1 ∨ p = 2) as [-> | ->] by set_solver; vm_compute; eauto.
  - change (NoDup [Some (ssrc me); Some (ssrc s)]). apply NoDup_cons. split; [|apply NoDup_singleton].
    rewrite list_elem_of_singleton. congruence.
  - set_solver.
  - apply NoDup_singleton.
Qed.

Definition demo_me : rtp_member := with_ref (fresh_member 77) 2.
(** Eleven packets expected across a wrap, nine received. *)
Definition demo_sender : rtp_member :=
  RtpMember 2 9 (RtcpSr 9 3908988800 2147483648 5 6 7) (replicate 9 (RtcpSdesItem 0 0 None)) 1700000000000000 4 1000
    1700000000900000 9 900 (S754_zero false) 0 0 0 65530 65537 65536.

Lemma member_ok_empty m : sdes m = replicate 9 (RtcpSdesItem 0 0 None) → member_ok m.
Proof. intros E. destruct (member_ok_fresh 0) as [H1 H2]. split; rewrite E; done. Qed.

Lemma demo_two_party_ok {V} (v : V) : session_ok (two_party v demo_me demo_sender) [1; 2] [2].
Proof. by apply two_party_ok; try apply member_ok_empty. Qed.

Definition demo_block : rtcp_rb_t := RtcpRb 9 46 2 65540 0 1870692352 65536.

Lemma demo_reported {V} (v : V) : reported (two_party v demo_me demo_sender) 1700000001000000 2 demo_block.
Proof.
  exists demo_sender, 0, 65536, demo_me. split_and!; [done|done|done|done|by_eval| |by vm_compute].
  split; by vm_compute.
Qed.

(** * Properties *)

(** C12: a sender report written by one session is understood by the other: the
    handler gets the report blocks, each with the losses, the highest sequence
    number, the jitter and the delays of its sender, and the peer's entry of the
    reporting source holds the clock and the counts the report carried. *)
Theorem rtcp_sr_roundtrip {V W} (alloc : Z → bool) (on_rtcp : W → rtcp_msg_t → W) (c : rtp_context V)
    (d : rtp_context W) ms ss me rbs m bytes now now' base fuel :
  (∀ n, alloc n = true) → session_ok c ms ss → session d → objects (heap c) !! self c = Some me →
  Forall2 (reported c now) ss rbs → zlen rbs ≤ 31 → is_uint 32 (ssrc me) → is_uint 32 (rtp_packets me) →
  bytes_ok m → 28 + 24 * zlen rbs ≤ bytes < 2 ^ 31 → bytes ≤ zlen m →
  ∃ len m' c' d' p s x, rtcp_sr_pack c now m 0 bytes = Ok (len, m', c') ∧ session c' ∧
    rtcp_input_rtcp alloc on_rtcp fuel d now' base m' len = Some (Ok d') ∧ session d' ∧
    app d' = fold_left on_rtcp (report_messages RTCP_SR (ssrc me) rbs) (app d) ∧
    objects (heap d') !! p = Some s ∧ ssrc s = ssrc me ∧ rtcp_clock s = now' ∧
    rtcp_sr s = RtcpSr x (u32 (Z.shiftr (clock2ntp now) 32)) (Z.land (clock2ntp now) 4294967295)
      (sr_rtpts (sr_of me (frequence c) now)) (rtp_packets me) (u32 (rtp_bytes me)).
Proof.
  intros Ha Hc Hd Hme Hrb Hn Hid Hpk Hm Hb Hz. pose proof (zlen_nonneg rbs).
  destruct (rtcp_sr_pack_ok c ms ss now rbs me m bytes Hc Hrb Hn Hme Hb Hz) as (c' & E & Hc').
  set (sr := sr_of me (frequence c) now) in *. set (w := sr_wire (ssrc me) sr rbs) in *.
  assert (Forall rb_ok rbs) as Hok.
  { apply Forall2_length in Hrb as HL. eapply Forall2_Forall_r; [exact Hrb|].
    apply Forall_forall. intros p _ rb. apply reported_ok. }
  assert (zlen w = 28 + 24 * zlen rbs) as Hw.
  { unfold w, sr_wire. rewrite !zlen_app, !zlen_be_bytes, zlen_blocks, zlen_rtcp_word. lia. }
  assert (bytes_ok w) as Hwb.
  { unfold w, sr_wire. rewrite !bytes_ok_app. split_and!; auto using bytes_ok_blocks with cint.
    apply bytes_ok_word; unfold RTCP_SR; lia. }
  assert (holds (put m 0 w) 0 w) as Hh by (apply holds_put; lia).
  destruct (rtcp_sr_unpack_wire alloc on_rtcp Ha d now' (put m 0 w) (ssrc me) sr rbs)
    as (d' & p & s & x & Ed & Hd' & Happ & Hs & Es & Ec & Esr);
    [done|auto with cint|done|done|done|apply sr_of_range|apply sr_of_range|apply sr_of_range|done|apply sr_of_range|done|].
  eexists _, _, c', (set_avg_rtcp_size d' (next_avg_rtcp_size (avg_rtcp_size d') ((6 + 6 * zlen rbs) * 4 + 4))), p, s, x. split; [exact E|]. split; [by exists ms, ss|]. split.
  - replace (28 + 24 * zlen rbs) with ((6 + 6 * zlen rbs) * 4 + 4) by lia.
    eapply rtcp_input_single with (rc := zlen rbs) (pt := RTCP_SR); try (unfold RTCP_SR; lia).
    + by auto with cint.
    + rewrite zlen_put by lia. lia.
    + revert Hh. unfold w at 2, sr_wire. by intros [? _]%holds_app.
    + unfold rtcp_dispatch. cbn [rh_pt]. change (RTCP_SR =? RTCP_SR) with true. cbv iota. by rewrite Ed.
  - split_and!; try done. destruct Hd' as (ms' & ss' & Hd'). exists ms', ss'. by apply session_avg.
Qed.

Lemma rtcp_sr_roundtrip_witness :
  ∃ len m' c' d' p s x,
    rtcp_sr_pack (two_party tt demo_me demo_sender) 1700000001000000 (replicate 100 0) 0 100 = Ok (len, m', c') ∧ session c' ∧
    rtcp_input_rtcp demo_alloc demo_on_rtcp 0 demo_session 1700000001200000 0 m' len = Some (Ok d') ∧ session d' ∧
    app d' = fold_left demo_on_rtcp (report_messages RTCP_SR 77 [demo_block]) (app demo_session) ∧
    objects (heap d') !! p = Some s ∧ ssrc s = 77 ∧ rtcp_clock s = 1700000001200000 ∧
    rtcp_sr s = RtcpSr x (u32 (Z.shiftr (clock2ntp 1700000001000000) 32)) (Z.land (clock2ntp 1700000001000000) 4294967295)
      (sr_rtpts (sr_of demo_me 90000 1700000001000000)) 0 0.
Proof.
  apply (rtcp_sr_roundtrip demo_alloc demo_on_rtcp (two_party tt demo_me demo_sender) demo_session [1; 2] [2] demo_me
    [demo_block] (replicate 100 0) 100 1700000001000000 1700000001200000 0 0);
    [done|apply demo_two_party_ok|apply demo_session_ok|done|constructor; [apply demo_reported|constructor]
    |by_eval|by_eval|by_eval|by_eval|by_eval|by_eval].
Defined.

(** C24: of a numbered stream in which every packet is less than 500 ahead of the
    highest number before it, or less than 100 behind, [rtcp_input_rtp] accepts
    every packet, and the report block tells the sender the highest number, its
    wraps counted, and the packets lost: those between the first and the highest
    number that did not arrive, within 0 and 2^23 - 1. *)
Theorem rtcp_reception_report {V} (alloc : Z → bool) (c : rtp_context V) ms ss p s id b hi n l :
  session_ok c ms ss → p ∈ ss → objects (heap c) !! p = Some s → ssrc s = id → Forall (arrival_ok id) l →
  reception s b hi n → windows hi l → steady (frequence c) (rtp_clock s) (RtcpMember.rtp_timestamp s) l →
  - 2 ^ 31 ≤ highest hi l - b + 1 - (n + zlen l) < 2 ^ 31 →
  ∃ c' s', receive_all alloc c l = Ok c' ∧ session c' ∧ objects (heap c') !! p = Some s' ∧
    ∀ now j d m ptr, reportable s' now j d → 0 ≤ ptr → ptr + 24 ≤ zlen m →
      ∃ s'' rb, rtcp_report_block s' now m ptr 24 = Ok (24, s'', put m ptr (block_wire rb)) ∧
        rb_ssrc rb = id ∧ rb_exthsn rb = u32 (highest hi l) ∧
        rb_cumulative rb = Z.max 0 (Z.min (highest hi l - b + 1 - (n + zlen l)) (2 ^ 23 - 1)).
Proof.
  intros Hc Hp Hs Hid Hl Hrec Hw Hst Hrange.
  destruct (receive_all_ok alloc l c ms ss p s id b hi n) as (c' & s' & E & Hc' & Hs' & Hid' & Hrec'); [done..|].
  exists c', s'. split_and!; [done|by exists ms, ss|done|].
  intros now j d m ptr Hr H0 Hm. eexists _, (block_of s' j d). split; [by apply rtcp_report_block_ok|].
  pose proof (reception_extended _ _ _ _ Hrec') as Hx. destruct Hrec' as [_ Hb _ _ _ Hn].
  unfold block_of. cbn [rb_ssrc rb_exthsn rb_cumulative]. split_and!; [done|done|].
  rewrite cumulative_lost_clamp. unfold expected. rewrite Hx, Hb, Hn.
  assert (s32 (u32 (u32 (u32 (highest hi l) - b + 1) - u32 (n + zlen l))) = highest hi l - b + 1 - (n + zlen l)) as ->.
  { set (h := highest hi l) in *. set (k := n + zlen l) in *. unfold s32, u32. dlia. }
  done.
Qed.

(** Two packets of source 9: the second after the highest, and a late one. *)
Definition demo_arrival (now k : Z) : arrival :=
  let data := [128; 96] ++ be_bytes 2 k ++ be_bytes 4 (1000 + 10 * k) ++ [0; 0; 0; 9; 1; 2; 3] in
  Arrival now data
    (RtpPacket (RtpHeader 2 0 0 0 0 96 (k mod 65536) (1000 + 10 * k) 9) (replicate 16 0) [] 0 0 [1; 2; 3] 3) k.
Definition demo_arrivals : list arrival :=
  [demo_arrival 1700000000920000 65542; demo_arrival 1700000000940000 65539].

Lemma rtcp_reception_report_witness :
  ∃ c' s', receive_all demo_alloc (two_party tt demo_me demo_sender) demo_arrivals = Ok c' ∧ session c' ∧
    objects (heap c') !! 2 = Some s' ∧
    ∀ now j d m ptr, reportable s' now j d → 0 ≤ ptr → ptr + 24 ≤ zlen m →
      ∃ s'' rb, rtcp_report_block s' now m ptr 24 = Ok (24, s'', put m ptr (block_wire rb)) ∧
        rb_ssrc rb = 9 ∧ rb_exthsn rb = u32 (highest 65540 demo_arrivals) ∧
        rb_cumulative rb =
          Z.max 0 (Z.min (highest 65540 demo_arrivals - 65530 + 1 - (9 + zlen demo_arrivals)) (2 ^ 23 - 1)).
Proof.
  apply (rtcp_reception_report demo_alloc (two_party tt demo_me demo_sender) [1; 2] [2] 2 demo_sender 9 65530 65540 9
    demo_arrivals).
  - apply demo_two_party_ok.
  - constructor.
  - done.
  - done.
  - repeat constructor; by vm_compute.
  - by split.
  - by_eval || (repeat split; by vm_compute).
  - vm_compute. repeat split; discriminate.
  - by_eval.
Defined.

(** The reason in what follows the sources: its length and its text, when they
    are there. *)
Definition bye_reason (rest : list Z) : rtcp_msg_u :=
  match rest with
  | n :: text => if (0 <? zlen text) && (n <=? zlen text) then MsgBye (Some (sub text 0 n)) n else MsgBye None 0
  | [] => MsgBye None 0
  end.

Definition bye_messages (u : rtcp_msg_u) (ids : list Z) : list rtcp_msg_t := (λ id, RtcpMsg RTCP_BYE id u) <$> ids.

(** The sources behind pointers, and those that stay. *)
Definition sources (h : store) (ps : list Z) : list (option Z) := source_of h <$> ps.
Definition staying (ids : list Z) (l : list (option Z)) : list (option Z) := filter (λ o, o ∉ Some <$> ids) l.

Lemma staying_nil l : staying [] l = l.
Proof. apply filter_all. intros x _ Hx. by apply elem_of_nil in Hx. Qed.

Lemma staying_cons id ids l : staying ids (staying [id] l) = staying (id :: ids) l.
Proof.
  unfold staying. rewrite list_filter_filter. apply filter_ext_in. intros x _.
  rewrite !fmap_cons, !not_elem_of_cons, fmap_nil. pose proof (not_elem_of_nil x). tauto.
Qed.

Lemma sources_others h h' id ps :
  (∀ q, q ∈ others h id ps → source_of h' q = source_of h q) →
  sources h' (others h id ps) = staying [id] (sources h ps).
Proof.
  intros Hs. unfold sources. rewrite (list_fmap_ext _ (source_of h)).
  2:{ intros i q Hq%list_elem_of_lookup_2. by apply Hs. }
  unfold others, staying. clear Hs. induction ps as [|p ps IH]; [done|].
  change (source_of h <$> p :: ps) with (source_of h p :: (source_of h <$> ps)). rewrite !filter_cons.
  assert ((¬ has_source h id p) ↔ source_of h p ∉ Some <$> [id]) as E.
  { unfold has_source. rewrite fmap_cons, not_elem_of_cons, fmap_nil.
    pose proof (not_elem_of_nil (source_of h p)). tauto. }
  repeat case_decide; try tauto. rewrite <- IH. reflexivity.
Qed.

Lemma holds_prefix {A} (m : list A) p text n : holds m p text → 0 ≤ n ≤ zlen text → sub m p n = sub text 0 n.
Proof.
  intros (_ & _ & H) Hn. rewrite <- H. unfold sub. change (Z.to_nat 0) with 0%nat. rewrite drop_0, take_take.
  f_equal. unfold zlen in *. lia.
Qed.

Section Bye.
Context {V : Type} (on_rtcp : V → rtcp_msg_t → V).
Implicit Types c : rtp_context V.

(** The state after some sources have left. *)
Record gone c c' (ms ss : list Z) (ids : list Z) (msgs : list rtcp_msg_t) : Prop := {
  gone_app : app c' = fold_left on_rtcp msgs (app c);
  gone_session : ∃ ms' ss', session_ok c' ms' ss' ∧
    sources (heap c') ms' = staying ids (sources (heap c) ms) ∧
    sources (heap c') ss' = staying ids (sources (heap c) ss)
}.

Lemma bye_one c ms ss id u : session_ok c ms ss →
  ∃ c', bye_member c id = Ok c' ∧ gone c (call on_rtcp c' (RtcpMsg RTCP_BYE id u)) ms ss [id] (bye_messages u [id]).
Proof.
  intros Hc. destruct (bye_member_ok c ms ss id Hc) as (c' & E & Hc' & [Hs _ Ha]).
  exists c'. split; [done|]. split; [by cbn; rewrite Ha|].
  exists (others (heap c) id ms), (others (heap c) id ss). split; [by apply session_call|]. cbn [call set_app heap].
  split; apply sources_others; [done|]. intros q Hq. apply Hs. unfold others in *.
  rewrite list_elem_of_filter in *. pose proof (ok_subset _ _ _ Hc q). naive_solver.
Qed.

Lemma bye_others_wire ids i c ms ss u m ptr :
  session_ok c ms ss → bytes_ok m → holds m (ptr + i * 4) (words32 ids) → Forall (is_uint 32) ids →
  ∃ c', bye_others on_rtcp (length ids) i c u m ptr = Ok c' ∧ gone c c' ms ss ids (bye_messages u ids).
Proof.
  intros Hc Hm. revert i c ms ss Hc. induction ids as [|id ids IH]; intros i c ms ss Hc Hh Hi; cbn [length bye_others].
  { exists c. split; [done|]. split; [done|]. exists ms, ss. by rewrite !staying_nil. }
  apply Forall_cons in Hi as [Hid Hi]. cbn [words32 map concat] in Hh. apply holds_app in Hh as [H1 H2].
  rewrite (read_uint32_holds m _ id) by done. run.
  destruct (bye_one c ms ss id u Hc) as (c1 & -> & [Ha (ms1 & ss1 & Hc1 & Em & Es)]). run.
  rewrite zlen_be_bytes in H2. replace (ptr + i * 4 + Z.of_nat 4) with (ptr + (i + 1) * 4) in H2 by lia.
  destruct (IH (i + 1) _ ms1 ss1 Hc1 H2 Hi) as (c' & E & [Ha' (ms' & ss' & Hc' & Em' & Es')]).
  exists c'. split; [done|]. split; [by rewrite Ha', Ha|].
  exists ms', ss'. by rewrite Em', Es', Em, Es, !staying_cons.
Qed.
End Bye.

(** C33: a goodbye takes the sources it names, and no other, out of both lists of
    the session, and tells the handler of each of them with the reason, when the
    packet has one. *)
Theorem rtcp_bye_leaves {V} (on_rtcp : V → rtcp_msg_t → V) c ms ss h m ptr bytes ids rest :
  session_ok c ms ss → bytes_ok m → holds m ptr (words32 ids ++ rest) → bytes = 4 * zlen ids + zlen rest →
  Forall (is_uint 32) ids → rh_rc h = zlen ids → ids ≠ [] →
  ∃ c' ms' ss', rtcp_bye_unpack on_rtcp c h m ptr bytes = Ok c' ∧ session_ok c' ms' ss' ∧
    app c' = fold_left on_rtcp (bye_messages (bye_reason rest) ids) (app c) ∧
    sources (heap c') ms' = staying ids (sources (heap c) ms) ∧
    sources (heap c') ss' = staying ids (sources (heap c) ss).
Proof.
  intros Hc Hm Hh -> Hi Hrc Hne. destruct ids as [|id ids]; [done|]. clear Hne.
  pose proof (zlen_nonneg ids). pose proof (zlen_nonneg rest).
  apply Forall_cons in Hi as [Hid Hi]. rewrite holds_app in Hh. destruct Hh as [Hh Hrest].
  rewrite length_words32 in Hrest. cbn [words32 map concat] in Hh. apply holds_app in Hh as [H1 H2].
  unfold rtcp_bye_unpack. rewrite Hrc, zlen_cons in *. cbv zeta.
  destruct (Z.ltb_spec (1 + zlen ids) 1), (Z.gtb_spec ((1 + zlen ids) * 4) (4 * (1 + zlen ids) + zlen rest)); try lia.
  cbn [orb]. rewrite (read_uint32_holds m _ id) by done. run.
  destruct (bye_one on_rtcp c ms ss id (bye_reason rest) Hc) as (c1 & -> & [Ha (ms1 & ss1 & Hc1 & Em & Es)]). run.
  assert ((if 4 * (1 + zlen ids) + zlen rest >? (1 + zlen ids) * 4 + 1 then
     n ← ld m (ptr + (1 + zlen ids) * 4);
     if 1 + n + (1 + zlen ids) * 4 >? 4 * (1 + zlen ids) + zlen rest then Ok (MsgBye None 0)
     else reason ← slice m (ptr + (1 + zlen ids) * 4 + 1) n; Ok (MsgBye (Some reason) n)
   else Ok (MsgBye None 0)) = Ok (bye_reason rest)) as ->.
  { destruct (Z.gtb_spec (4 * (1 + zlen ids) + zlen rest) ((1 + zlen ids) * 4 + 1)) as [Hr|Hr].
    2:{ destruct rest as [|n [|x l]]; [done|done|]. rewrite !zlen_cons in Hr. pose proof (zlen_nonneg l). lia. }
    destruct rest as [|n text]; [rewrite zlen_nil in Hr; lia|]. rewrite zlen_cons in Hr.
    apply holds_cons in Hrest as [Hn Ht]. replace (ptr + (1 + zlen ids) * 4) with (ptr + 4 * (1 + zlen ids)) by lia.
    rewrite Hn. run. rewrite zlen_cons. pose proof (ld_byte _ _ _ Hm Hn) as Hbyte. unfold is_uint in Hbyte.
    cbn [bye_reason]. destruct (Z.ltb_spec 0 (zlen text)); [|lia]. cbn [andb].
    destruct (Z.gtb_spec (1 + n + (1 + zlen ids) * 4) (4 * (1 + zlen ids) + (1 + zlen text))),
      (Z.leb_spec n (zlen text)); try lia; [done|].
    destruct Ht as (Ht1 & Ht2 & Ht3). rewrite slice_ok by lia. run. do 3 f_equal.
    replace (ptr + 4 * (1 + zlen ids) + 1) with (ptr + 4 * (1 + zlen ids) + 1) in Ht3 by lia.
    apply holds_prefix; [by split_and!|lia]. }
  destruct (bye_others_wire on_rtcp ids 1 _ ms1 ss1 (bye_reason rest) m ptr Hc1 Hm) as (c' & E & [Ha' (ms' & ss' & Hc' & Em' & Es')]);
    [by rewrite zlen_be_bytes in H2|done|].
  replace (Z.to_nat (1 + zlen ids - 1)) with (length ids) by (unfold zlen; lia).
  exists c', ms', ss'. split; [exact E|]. split; [done|]. split; [by rewrite Ha', Ha|].
  by rewrite Em', Es', Em, Es, !staying_cons.
Qed.

Lemma rtcp_bye_leaves_witness :
  let c := two_party [] demo_me demo_sender in
  ∃ c' ms' ss', rtcp_bye_unpack demo_on_rtcp c (RtcpHeader 2 0 2 RTCP_BYE 3) [0; 0; 0; 9; 0; 0; 0; 5; 2; 98; 121; 0] 0 12 = Ok c' ∧
    session_ok c' ms' ss' ∧ app c' = fold_left demo_on_rtcp (bye_messages (bye_reason [2; 98; 121; 0]) [9; 5]) [] ∧
    sources (heap c') ms' = staying [9; 5] (sources (heap c) [1; 2]) ∧
    sources (heap c') ss' = staying [9; 5] (sources (heap c) [2]).
Proof.
  intros c. apply (rtcp_bye_leaves demo_on_rtcp c [1; 2] [2] (RtcpHeader 2 0 2 RTCP_BYE 3)
    [0; 0; 0; 9; 0; 0; 0; 5; 2; 98; 121; 0] 0 12 [9; 5] [2; 98; 121; 0]);
    [apply demo_two_party_ok|by_eval|apply holds_whole|done|by_eval|done|done].
Defined.
