(* ===== verification/RtcpFaults.v ===== *)
(** Where the RTCP code does not do what it means to: inputs on which it does
    not end, leaves a buffer or reaches a freed participant. *)
From S2P Require Import Prelude Post Doubles RtpPacket RtcpMember RtcpContext RtcpContextSpec RtcpRtpfb RtcpPsfb RtcpXr RtcpSession RtcpFeedbackSafe RtcpSafe RtcpReception RtcpReportSpec.
Open Scope Z_scope.

(** * Extended reports *)

(** An extended report whose only block has an unknown type and no words. *)
Definition empty_block_report (id bt : Z) : list Z := [128; 207; 0; 2] ++ be_bytes 4 id ++ [bt; 0; 0; 0].

Section Xr.
Context {V : Type} (alloc : Z → bool) (on_rtcp : V → rtcp_msg_t → V).
Hypothesis alloc_ok : ∀ n, alloc n = true.

(** The loop moves on by the length of the block, in words and without its
    head: by nothing. *)
Lemma rtcp_xr_loop_stuck id m c ptr bytes fuel bt :
  4 ≤ bytes → ld m ptr = Ok bt → rtp_read_uint16 m (ptr + 2) = Ok 0 → RTCP_XR_ECN < bt →
  rtcp_xr_loop alloc on_rtcp id m fuel c ptr bytes = None.
Proof.
  intros Hb Hbt Hl Ht. induction fuel as [|fuel IH]; cbn [rtcp_xr_loop];
    (destruct (Z.geb_spec bytes 4); [|lia]); rewrite Hl; (destruct (Z.gtb_spec (0 * 4) (bytes - 4)); [lia|]); [done|].
  unfold rtcp_xr_block. rewrite Hbt. run. cbv zeta.
  unfold RTCP_XR_ECN, RTCP_XR_LRLE, RTCP_XR_DRLE, RTCP_XR_PRT, RTCP_XR_RRT, RTCP_XR_DLRR in *.
  destruct (Z.eqb_spec bt 1), (Z.eqb_spec bt 2), (Z.eqb_spec bt 3), (Z.eqb_spec bt 4), (Z.eqb_spec bt 5), (Z.eqb_spec bt 13);
    try lia. run. rewrite Z.add_0_r, Z.sub_0_r. exact IH.
Qed.
End Xr.

(** * Reports into short buffers *)

Section Overrun.
Context {V : Type}.

(** [bytes - 8] is negative and becomes a [size_t]: the description is written
    whatever its length. *)
Lemma sdes_item_overruns m ptr bytes s d : bytes < 8 → - 2 ^ 31 ≤ bytes → sd_data s = Some d → item_ok s →
  zlen m = ptr + bytes → 0 ≤ ptr → rtcp_sdes_append_item m (ptr + 8) (u64 (bytes - 8)) s = Ub.
Proof.
  intros Hb Hlo Hd [Hl Hl2] Hm Hp. unfold rtcp_sdes_append_item.
  assert (u64 (bytes - 8) = bytes - 8 + 2 ^ 64) as -> by (unfold u64; dlia).
  destruct (Z.geb_spec (bytes - 8 + 2 ^ 64) (sd_len s + 2)); [|lia].
  unfold st. destruct (Z.leb_spec 0 (ptr + 8)), (Z.leb_spec (ptr + 8 + zlen [sd_pt s; sd_len s]) (zlen m)); try done.
  change (zlen [sd_pt s; sd_len s]) with 2 in *. lia.
Qed.
End Overrun.

(** An extended report with a block of an unknown type and length 0, twelve
    bytes in all, is never finished: the position moves on by the length in
    words without the block's head. *)
Theorem rtcp_xr_diverges {V} (alloc : Z → bool) (on_rtcp : V → rtcp_msg_t → V) c now base id bt :
  (∀ n, alloc n = true) → session c → is_uint 32 id → RTCP_XR_ECN < bt < 256 →
  ¬ ∃ fuel x, rtcp_input_rtcp alloc on_rtcp fuel c now base (empty_block_report id bt) 12 = Some x.
Proof.
  intros Ha (ms & ss & Hc) Hid Hbt (fuel & x & E). revert E. apply eq_None_ne_Some_1. set (m := empty_block_report id bt).
  assert (bytes_ok m) as Hm.
  { unfold m, empty_block_report, RTCP_XR_ECN in *. rewrite !bytes_ok_app. split_and!; [by_eval|auto with cint|].
    repeat constructor; unfold is_uint; lia. }
  unfold rtcp_input_rtcp. destruct (Z.to_nat 12) as [|n]; [done|]. cbn [rtcp_input_loop]. change (12 >? 4) with true. cbv iota.
  unfold rtcp_parse. change (rtp_read_uint32 m 0) with (Ok 2161049602). run. cbv zeta.
  change (rtcp_header 2161049602) with (RtcpHeader 2 0 0 207 2). unfold rtcp_check. cbn [rh_length rh_v rh_p].
  change ((2 * 4 + 4 >? 12) || negb (2 =? 2)) with false. change (truth 0) with false. cbv iota. run.
  unfold rtcp_dispatch. cbn [rh_pt rh_length]. change (0 + 4) with 4. change (2 * 4 - 0) with 8.
  change (207 =? RTCP_SR) with false. change (207 =? RTCP_RR) with false. change (207 =? RTCP_SDES) with false.
  change (207 =? RTCP_BYE) with false. change (207 =? RTCP_APP) with false. change (207 =? RTCP_RTPFB) with false.
  change (207 =? RTCP_PSFB) with false. change (207 =? RTCP_XR) with true. cbv iota.
  unfold rtcp_xr_unpack. change (8 <? 8) with false. cbv iota.
  assert (holds m 4 (be_bytes 4 id)) as Hh.
  { assert (holds m 0 m) as H by apply holds_whole. revert H. unfold m at 2, empty_block_report.
    by intros (_ & [? _]%holds_app)%holds_app. }
  rewrite (read_uint32_holds m 4 id) by done. run.
  destruct (rtp_sender_fetch_ok alloc Ha c ms ss id Hc) as (p & c1 & ms1 & ss1 & -> & Hc1 & _). run.
  change (4 + 4) with 8. change (8 - 4) with 4.
  rewrite (rtcp_xr_loop_stuck alloc on_rtcp id m c1 8 4 fuel bt); [done|lia|done|done|lia].
Qed.

Lemma rtcp_xr_diverges_witness :
  ¬ ∃ fuel x, rtcp_input_rtcp demo_alloc demo_on_rtcp fuel demo_session 1700000000000100 0
                (empty_block_report 9 255) 12 = Some x.
Proof. apply rtcp_xr_diverges; [done|apply demo_session_ok|by_eval|done]. Defined.

(** A session that only receives, knows its name and has heard no sender
    writes outside the buffer it is given for a report when the buffer has 9 to
    15 bytes: 8 hold the receiver report, and the length left for the
    description, less the 8 bytes of its head, wraps around. *)
Theorem rtcp_report_overruns {V} (c : rtp_context V) ms me name now m bytes :
  session_ok c ms [] → role c = RTP_RECEIVER → objects (heap c) !! self c = Some me →
  (sdes me !! 1%nat) = Some name → sd_data name ≠ None → 8 < bytes < 16 → zlen m = bytes →
  rtp_rtcp_report c now m bytes = Ub.
Proof.
  intros Hc Hrole Hme Hname Hdata Hb Hm. unfold rtp_rtcp_report. rewrite Hrole. change (RTP_SENDER =? RTP_RECEIVER) with false.
  cbv iota. unfold rtcp_rr_pack, report_count, rtp_member_list_count. rewrite (ok_count _ _ (ok_senders _ _ _ Hc)).
  change (Z.min 31 (zlen (@nil Z))) with 0. change ((4 + 0 * 24) / 4) with 1. cbv zeta.
  unfold u32. rewrite (Z.mod_small bytes) by lia. destruct (Z.ltb_spec bytes (4 + 1 * 4)); [lia|].
  rewrite nbo_write_rtcp_header_word by (unfold RTCP_RR; lia). run.
  unfold get_member, load. rewrite Hme. run. rewrite write_uint32_next by zw. run.
  change (Z.to_nat 0) with 0%nat. cbn [sender_blocks]. run. change ((1 + 1) * 4) with 8. destruct (Z.ltb_spec 8 bytes); [|lia].
  unfold rtcp_sdes_pack, get_member, load. rewrite Hme. run.
  rewrite (ld_lookup _ RTCP_SDES_CNAME name) by done. run.
  destruct (sd_data name) as [d|] eqn:Ed; [|done].
  destruct (ok_object _ _ (ok_refs _ _ _ Hc) _ me Hme) as ([_ Hitems] & _).
  rewrite (sdes_item_overruns _ 8 (bytes - 8) name d); [done|lia|lia|done| | |lia].
  - eapply Forall_lookup_1; [exact Hitems|exact Hname].
  - rewrite zlen_put by zw. lia.
Qed.

(** A session that knows its name. *)
Definition named_member : rtp_member :=
  with_sdes (with_ref (fresh_member 77) 2) (<[1%nat := RtcpSdesItem 1 3 (Some [65; 66; 67])]> (replicate 9 (RtcpSdesItem 0 0 None))).
Definition named_session : rtp_context unit :=
  RtpContext tt (Store {[1 := named_member]} 2) (RtpMemberList [Some 1; None] [] 1 0) empty_member_list
    1 0 104857 0 90000 1 RTP_RECEIVER.

Lemma named_session_ok : session_ok named_session [1] [].
Proof.
  split; cbn [members senders heap self named_session].
  - split; try done. intros [|] p; cbn; by intros [= <-] || done.
  - apply list_ok_empty.
  - split; cbn [objects allocations].
    + intros p m [<- <-]%lookup_singleton_Some. split_and!; try done; [|set_solver].
      split; [done|]. unfold named_member. cbn [sdes with_sdes]. repeat constructor; by_eval.
    + intros p Hp. assert (p = 1) as -> by set_solver. vm_compute. eauto.
  - apply NoDup_singleton.
  - set_solver.
  - constructor.
Qed.

Lemma rtcp_report_overruns_witness : rtp_rtcp_report named_session 0 (replicate 12 0) 12 = Ub.
Proof.
  apply (rtcp_report_overruns named_session [1] named_member (RtcpSdesItem 1 3 (Some [65; 66; 67])));
    [apply named_session_ok|done|done|done|done|done|done].
Defined.

(** * Single inputs *)

Definition demo_input (alloc : Z → bool) (c : rtp_context (list rtcp_msg_t)) (data : list Z) :=
  rtcp_input_rtcp alloc demo_on_rtcp 100 c 1700000000000100 0 data (zlen data).

(** Thirty-three sub-blocks of a DLRR block: the array on the stack has 32, the
    code compares their number with its size in bytes. *)
Example rtcp_dlrr_overflow :
  demo_input demo_alloc demo_session
    ([128; 207; 0; 101; 0; 0; 0; 9; 5; 0; 0; 99] ++ replicate 396 0) = Some Ub.
Proof. by vm_compute. Qed.

(** A loss report whose last sequence number precedes its first: the number of
    packets wraps, and so does what is added to round it up. *)
Example rtcp_rle_overflow :
  demo_input demo_alloc demo_session
    ([128; 207; 0; 6; 0; 0; 0; 9; 1; 0; 0; 4; 0; 0; 0; 7; 0; 5; 0; 4] ++ [127; 255; 127; 255; 127; 255; 127; 255]) = Some Ub.
Proof. by vm_compute. Qed.

(** A video back channel message of 13 bytes, its payload padded to 16, behind 3
    bytes of RTCP padding: the length left wraps around. *)
Example rtcp_vbcm_overread :
  demo_input demo_alloc demo_session
    [167; 206; 0; 6; 0; 0; 0; 9; 0; 0; 0; 77; 0; 0; 0; 1; 1; 0; 0; 5; 1; 2; 3; 4; 5; 0; 0; 3] = Some Ub.
Proof. by vm_compute. Qed.

(** The third participant, when the list cannot grow: it is freed and returned. *)
Example rtp_member_fetch_dangling :
  let alloc n := negb (n =? 6) in
  demo_input alloc demo_session ([128; 201; 0; 1; 0; 0; 0; 9] ++ [128; 201; 0; 1; 0; 0; 0; 10]) = Some Ub.
Proof. by vm_compute. Qed.

(** A report on a sender that has sent no report: the delay since its last one,
    which the block leaves out, does not fit the [uint32_t] it is converted to. *)
Example rtcp_report_before_sr :
  rtcp_report_block (with_sr demo_sender 0 (RtcpSr 9 0 0 0 0 0)) 1700000001000000 (replicate 24 0) 0 24 = Ub.
Proof. by vm_compute. Qed.

(** A sender that has sent nothing yet is counted in the head of the report but
    has no block: 24 bytes of the buffer are sent as they were. *)
Example rtcp_report_stale :
  let s := RtpMember 2 9 (RtcpSr 9 0 0 0 0 0) (replicate 9 (RtcpSdesItem 0 0 None)) 0 0 0 0 0 0 (S754_zero false) 0 0 2 0 0 0 in
  match rtcp_rr_pack (two_party tt demo_me s) 1700000001000000 (replicate 40 170) 0 40 with
  | Ok (len, m, _) => len = 32 ∧ sub m 0 len = [129; 201; 0; 7; 0; 0; 0; 77] ++ replicate 24 170
  | _ => False
  end.
Proof. by vm_compute. Qed.
