(* ===== verification/RtmpInternal.v ===== *)
(** The state of an RTMP session and its integer encodings:
    src/third/ireader/librtmp/include/rtmp-internal.h, rtmp-chunk-header.h and
    rtmp-util.h.

    [param] is the user's state ([void* param]), of any type [P]; the callbacks
    of [struct rtmp_t] are functions on it.  A pointer to one of the eight
    chunk streams is its index. *)
From S2P Require Import Prelude.

(** * rtmp-util.h *)

Definition be_write_uint16 (m : list Z) (ptr val : Z) : outcome (list Z) :=
  st m ptr [u8 (Z.land (Z.shiftr val 8) 255); u8 (Z.land val 255)].
Definition be_write_uint24 (m : list Z) (ptr val : Z) : outcome (list Z) :=
  st m ptr [u8 (Z.land (Z.shiftr val 16) 255); u8 (Z.land (Z.shiftr val 8) 255);
            u8 (Z.land val 255)].
Definition be_write_uint32 (m : list Z) (ptr val : Z) : outcome (list Z) :=
  st m ptr [u8 (Z.land (Z.shiftr val 24) 255); u8 (Z.land (Z.shiftr val 16) 255);
            u8 (Z.land (Z.shiftr val 8) 255); u8 (Z.land val 255)].
Definition be_read_uint16 (m : list Z) (ptr : Z) : outcome Z :=
  b0 ← ld m ptr; b1 ← ld m (ptr + 1); Ok (u16 (Z.lor (Z.shiftl b0 8) b1)).
Definition be_read_uint24 (m : list Z) (ptr : Z) : outcome Z :=
  b0 ← ld m ptr; b1 ← ld m (ptr + 1); b2 ← ld m (ptr + 2);
  Ok (u32 (Z.lor (Z.lor (Z.shiftl b0 16) (Z.shiftl b1 8)) b2)).
Definition be_read_uint32 (m : list Z) (ptr : Z) : outcome Z :=
  b0 ← ld m ptr; b1 ← ld m (ptr + 1); b2 ← ld m (ptr + 2); b3 ← ld m (ptr + 3);
  Ok (u32 (Z.lor (Z.lor (Z.lor (Z.shiftl b0 24) (Z.shiftl b1 16)) (Z.shiftl b2 8)) b3)).
Definition le_write_uint32 (m : list Z) (ptr val : Z) : outcome (list Z) :=
  st m ptr [u8 (Z.land val 255); u8 (Z.land (Z.shiftr val 8) 255);
            u8 (Z.land (Z.shiftr val 16) 255); u8 (Z.land (Z.shiftr val 24) 255)].
Definition le_read_uint32 (m : list Z) (ptr : Z) : outcome Z :=
  b0 ← ld m ptr; b1 ← ld m (ptr + 1); b2 ← ld m (ptr + 2); b3 ← ld m (ptr + 3);
  Ok (u32 (Z.lor (Z.lor (Z.lor b0 (Z.shiftl b1 8)) (Z.shiftl b2 16)) (Z.shiftl b3 24))).

(** * rtmp-chunk-header.h *)

Definition RTMP_CHUNK_TYPE_0 : Z := 0.
Definition RTMP_CHUNK_TYPE_1 : Z := 1.
Definition RTMP_CHUNK_TYPE_2 : Z := 2.
Definition RTMP_CHUNK_TYPE_3 : Z := 3.

Record rtmp_chunk_header_t := RtmpChunkHeader {
  h_fmt : Z; h_cid : Z; h_timestamp : Z; h_length : Z; h_type : Z; h_stream_id : Z
}.

(** * rtmp-internal.h *)

Definition N_CHUNK_STREAM : Z := 8.
Definition MAX_CHUNK_HEADER : Z := 18.
Definition RTMP_CHANNEL_PROTOCOL : Z := 2.
Definition RTMP_CHANNEL_INVOKE : Z := 3.
Definition RTMP_CHANNEL_AUDIO : Z := 4.
Definition RTMP_CHANNEL_VIDEO : Z := 5.
Definition RTMP_CHANNEL_DATA : Z := 6.


(** [payload] is [None] for a null pointer. *)
Record rtmp_packet_t := RtmpPacket {
  p_header : rtmp_chunk_header_t;
  p_delta : Z;
  p_clock : Z;
  p_payload : option (list Z);
  p_capacity : Z;
  p_bytes : Z
}.

Inductive rtmp_parser_state_t :=
  | RTMP_PARSE_INIT
  | RTMP_PARSE_BASIC_HEADER
  | RTMP_PARSE_MESSAGE_HEADER
  | RTMP_PARSE_EXTENDED_TIMESTAMP
  | RTMP_PARSE_PAYLOAD.

Record rtmp_parser_t := RtmpParser {
  ps_buffer : list Z; (* [MAX_CHUNK_HEADER] *)
  ps_basic_bytes : Z;
  ps_bytes : Z;
  ps_state : rtmp_parser_state_t;
  ps_pkt : option Z
}.

(** The header buffer of [rtmp_chunk_write]: the embedded one or the
    allocated one, whichever [ptr] points at. *)
Record rtmp_chunk_write_header_t := RtmpChunkWriteHeader {
  wh_ptr : list Z;
  wh_capacity : Z
}.

Record rtmp_t (P : Type) := Rtmp {
  in_chunk_size : Z;
  out_chunk_size : Z;
  sequence_number : Z;
  window_size : Z;
  peer_bandwidth : Z;
  buffer_length_ms : Z;
  limit_type : Z;
  in_packets : list rtmp_packet_t;  (* [N_CHUNK_STREAM] *)
  out_packets : list rtmp_packet_t; (* [N_CHUNK_STREAM] *)
  parser : rtmp_parser_t;
  chunk_write_header : rtmp_chunk_write_header_t;
  param : P
}.
Arguments Rtmp {P}.
Arguments in_chunk_size {P}. Arguments out_chunk_size {P}. Arguments sequence_number {P}.
Arguments window_size {P}. Arguments peer_bandwidth {P}. Arguments buffer_length_ms {P}.
Arguments limit_type {P}. Arguments in_packets {P}. Arguments out_packets {P}.
Arguments parser {P}. Arguments chunk_write_header {P}. Arguments param {P}.

Section Setters.
Context {P : Type}.
Implicit Types t : rtmp_t P.

(** Assignments to the reading half. *)
Definition set_reader t (pkts : list rtmp_packet_t) (ps : rtmp_parser_t) : rtmp_t P :=
  Rtmp (in_chunk_size t) (out_chunk_size t) (sequence_number t) (window_size t)
    (peer_bandwidth t) (buffer_length_ms t) (limit_type t) pkts (out_packets t) ps
    (chunk_write_header t) (param t).
(** Assignments to the writing half. *)
Definition set_writer t (pkts : list rtmp_packet_t) (wh : rtmp_chunk_write_header_t) : rtmp_t P :=
  Rtmp (in_chunk_size t) (out_chunk_size t) (sequence_number t) (window_size t)
    (peer_bandwidth t) (buffer_length_ms t) (limit_type t) (in_packets t) pkts (parser t)
    wh (param t).
Definition set_param t (p : P) : rtmp_t P :=
  Rtmp (in_chunk_size t) (out_chunk_size t) (sequence_number t) (window_size t)
    (peer_bandwidth t) (buffer_length_ms t) (limit_type t) (in_packets t) (out_packets t)
    (parser t) (chunk_write_header t) p.
(** Assignments made by the control and event messages. *)
Definition set_control t (ics sn ws pb bl lt : Z) : rtmp_t P :=
  Rtmp ics (out_chunk_size t) sn ws pb bl lt (in_packets t) (out_packets t)
    (parser t) (chunk_write_header t) (param t).
End Setters.

Definition zero_header : rtmp_chunk_header_t := RtmpChunkHeader 0 0 0 0 0 0.
Definition zero_packet : rtmp_packet_t := RtmpPacket zero_header 0 0 None 0 0.

(** The session as [rtmp_server_create] leaves it (rtmp-server.c:429-457; the
    callbacks are arguments of the operations that call them). *)
Definition RTMP_CHUNK_SIZE : Z := 128.
Definition rtmp_create {P} (param : P) : rtmp_t P :=
  let channel cid := RtmpPacket (RtmpChunkHeader 0 cid 0 0 0 0) 0 0 None 0 0 in
  Rtmp RTMP_CHUNK_SIZE RTMP_CHUNK_SIZE 0 5000000 5000000 30000 0
    (replicate (Z.to_nat N_CHUNK_STREAM) zero_packet)
    [zero_packet; zero_packet; channel RTMP_CHANNEL_PROTOCOL; channel RTMP_CHANNEL_INVOKE;
     channel RTMP_CHANNEL_AUDIO; channel RTMP_CHANNEL_VIDEO; channel RTMP_CHANNEL_DATA; zero_packet]
    (RtmpParser (replicate (Z.to_nat MAX_CHUNK_HEADER) 0) 0 0 RTMP_PARSE_INIT None)
    (RtmpChunkWriteHeader (replicate (Z.to_nat (MAX_CHUNK_HEADER + 5 * 20)) 0)
       (MAX_CHUNK_HEADER + 5 * 20))
    param.

(** * The encodings as byte lists *)

Definition le_bytes4 (v : Z) : list Z := rev (be_bytes 4 v).

Lemma be_write_uint16_spec m ptr v : be_write_uint16 m ptr v = st m ptr (be_bytes 2 v).
Proof. unfold be_write_uint16. rewrite be_bytes_2. f_equal. by_cells ltac:(masks; unfold u8; dlia). Qed.
Lemma be_write_uint24_spec m ptr v : be_write_uint24 m ptr v = st m ptr (be_bytes 3 v).
Proof. unfold be_write_uint24. rewrite be_bytes_3. f_equal. by_cells ltac:(masks; unfold u8; dlia). Qed.
Lemma be_write_uint32_spec m ptr v : be_write_uint32 m ptr v = st m ptr (be_bytes 4 v).
Proof. unfold be_write_uint32. rewrite be_bytes_4. f_equal. by_cells ltac:(masks; unfold u8; dlia). Qed.
Lemma zlen_le_bytes4 v : zlen (le_bytes4 v) = 4.
Proof. unfold le_bytes4, zlen. by rewrite length_rev. Qed.
#[export] Hint Rewrite zlen_le_bytes4 : zlen.

Lemma le_write_uint32_spec m ptr v : le_write_uint32 m ptr v = st m ptr (le_bytes4 v).
Proof.
  unfold le_write_uint32, le_bytes4. rewrite be_bytes_4. f_equal. cbn [rev app].
  by_cells ltac:(masks; unfold u8; dlia).
Qed.

Lemma be_read_uint16_spec m ptr : bytes_ok m → 0 ≤ ptr → ptr + 2 ≤ zlen m →
  be_read_uint16 m ptr = Ok (be_val (sub m ptr 2)).
Proof.
  intros Hm H1 H2. unfold be_read_uint16. rewrite !ld_ok by lia. run.
  rewrite be_val_2 by auto with cint. rewrite <- sub_2 by lia. f_equal. apply u16_id.
  pose proof (be_val_range _ (bytes_ok_sub m ptr 2 Hm)) as H. rewrite zlen_sub in H by lia. done.
Qed.
Lemma be_read_uint24_spec m ptr : bytes_ok m → 0 ≤ ptr → ptr + 3 ≤ zlen m →
  be_read_uint24 m ptr = Ok (be_val (sub m ptr 3)).
Proof.
  intros Hm H1 H2. unfold be_read_uint24. rewrite !ld_ok by lia. run.
  rewrite be_val_3 by auto with cint. rewrite <- sub_3 by lia. f_equal. apply u32_id.
  pose proof (be_val_range _ (bytes_ok_sub m ptr 3 Hm)) as H. rewrite zlen_sub in H by lia.
  unfold is_uint. change (256 ^ 3) with 16777216 in H. dlia.
Qed.
Lemma be_read_uint32_spec m ptr : bytes_ok m → 0 ≤ ptr → ptr + 4 ≤ zlen m →
  be_read_uint32 m ptr = Ok (be_val (sub m ptr 4)).
Proof.
  intros Hm H1 H2. unfold be_read_uint32. rewrite !ld_ok by lia. run.
  rewrite be_val_4 by auto with cint. rewrite <- sub_4 by lia. f_equal. apply u32_id.
  pose proof (be_val_range _ (bytes_ok_sub m ptr 4 Hm)) as H. rewrite zlen_sub in H by lia. done.
Qed.
Lemma le_read_uint32_spec m ptr : bytes_ok m → 0 ≤ ptr → ptr + 4 ≤ zlen m →
  le_read_uint32 m ptr = Ok (be_val (rev (sub m ptr 4))).
Proof.
  intros Hm H1 H2. unfold le_read_uint32. rewrite !ld_ok by lia. run.
  rewrite (sub_4 m ptr) by lia. cbn [rev app]. rewrite <- be_val_4 by auto with cint.
  f_equal. rewrite (Z.lor_comm (Z.lor (Z.lor (m !!! _) _) _)), (Z.lor_comm (Z.lor (m !!! _) _)),
    (Z.lor_comm (m !!! Z.to_nat ptr)), !Z.lor_assoc. apply u32_id.
  rewrite be_val_4 by auto with cint. unfold is_uint. change (2 ^ 32) with (256 ^ zlen [m !!! Z.to_nat (ptr + 3); m !!! Z.to_nat (ptr + 2); m !!! Z.to_nat (ptr + 1); m !!! Z.to_nat ptr]).
  apply be_val_range. repeat constructor; auto with cint; apply bytes_ok_lookup; done.
Qed.
