(* ===== verification/RtmpChunk.v ===== *)
(** RTMP chunking: src/third/ireader/librtmp/source/rtmp-chunk-header.c,
    rtmp-chunk-read.c and rtmp-chunk-write.c.

    [rtmp_chunk_read] is a push parser: it is called with whatever bytes
    arrived and keeps its progress in [rtmp_t].  Its loop is
    [rtmp_chunk_read_loop] over the body [rtmp_chunk_read_step]; a step
    either returns an error or continues (code 0).  It calls itself on the
    four bytes of an extended timestamp that turns out to be payload.
    [rtmp_handler] and [realloc] are arguments. *)
From S2P Require Import Prelude RtmpInternal.

(** * rtmp-chunk-header.c *)

Definition s_header_size (fmt : Z) : outcome Z := ld [11; 7; 3; 0] fmt.

(** [fmt], [cid] and the bytes read. *)
Definition rtmp_chunk_basic_header_read (data : list Z) : outcome (Z * Z * Z) :=
  b0 ← ld data 0;
  let fmt := Z.shiftr b0 6 in
  let cid := Z.land b0 63 in
  if 0 =? cid then
    b1 ← ld data 1;
    Ok (fmt, 64 + b1, 2)
  else if 1 =? cid then
    b1 ← ld data 1; b2 ← ld data 2;
    Ok (fmt, 64 + b1 + Z.shiftl b2 8, 3)
  else Ok (fmt, cid, 1).

Definition rtmp_chunk_basic_header_write (m : list Z) (out fmt id : Z) : outcome (list Z * Z) :=
  if id >=? 64 + 256 then
    m ← st m out [u8 (Z.lor (Z.shiftl fmt 6) 1); u8 (Z.land (u32 (id - 64)) 255);
                  u8 (Z.land (Z.shiftr (u32 (id - 64)) 8) 255)];
    Ok (m, 3)
  else if id >=? 64 then
    m ← st m out [u8 (Z.lor (Z.shiftl fmt 6) 0); u8 (id - 64)];
    Ok (m, 2)
  else
    m ← st m out [u8 (Z.lor (Z.shiftl fmt 6) (u8 id))];
    Ok (m, 1).

(** Reads at [ptr] of [data]; the header and the bytes read. *)
Definition rtmp_chunk_message_header_read (data : list Z) (ptr : Z) (header : rtmp_chunk_header_t)
  : outcome (rtmp_chunk_header_t * Z) :=
  let offset := 0 in
  '(header, offset) ←
    (if h_fmt header <=? RTMP_CHUNK_TYPE_2 then
       ts ← be_read_uint24 data (ptr + offset);
       Ok (RtmpChunkHeader (h_fmt header) (h_cid header) ts (h_length header) (h_type header)
             (h_stream_id header), offset + 3)
     else Ok (header, offset));
  '(header, offset) ←
    (if h_fmt header <=? RTMP_CHUNK_TYPE_1 then
       len ← be_read_uint24 data (ptr + offset);
       ty ← ld data (ptr + offset + 3);
       Ok (RtmpChunkHeader (h_fmt header) (h_cid header) (h_timestamp header) len ty
             (h_stream_id header), offset + 4)
     else Ok (header, offset));
  (if h_fmt header =? RTMP_CHUNK_TYPE_0 then
     sid ← le_read_uint32 data (ptr + offset);
     Ok (RtmpChunkHeader (h_fmt header) (h_cid header) (h_timestamp header) (h_length header)
           (h_type header) sid, offset + 4)
   else Ok (header, offset)).

Definition rtmp_chunk_message_header_write (m : list Z) (out : Z) (header : rtmp_chunk_header_t)
  : outcome (list Z * Z) :=
  '(m, out) ←
    (if h_fmt header <=? RTMP_CHUNK_TYPE_2 then
       m ← be_write_uint24 m out
             (if h_timestamp header >=? 16777215 then 16777215 else h_timestamp header);
       Ok (m, out + 3)
     else Ok (m, out));
  '(m, out) ←
    (if h_fmt header <=? RTMP_CHUNK_TYPE_1 then
       m ← be_write_uint24 m out (h_length header);
       m ← st m (out + 3) [h_type header];
       Ok (m, out + 4)
     else Ok (m, out));
  '(m, _) ←
    (if h_fmt header =? RTMP_CHUNK_TYPE_0 then
       m ← le_write_uint32 m out (h_stream_id header);
       Ok (m, out + 4)
     else Ok (m, out));
  n ← s_header_size (Z.rem (h_fmt header) 4);
  Ok (m, n).

Definition rtmp_chunk_extended_timestamp_read (out : list Z) (ptr : Z) : outcome (Z * Z) :=
  timestamp ← be_read_uint32 out ptr; Ok (timestamp, 4).

Definition rtmp_chunk_extended_timestamp_write (m : list Z) (out timestamp : Z)
  : outcome (list Z * Z) :=
  m ← be_write_uint32 m out timestamp; Ok (m, 4).

(** * Chunk streams

    [rtmp_packet_find] (the same in both files) and [rtmp_packet_create] probe
    the eight slots from [cid % 8] on: [n] probes from [i]. *)

Definition slot_of (i cid : Z) : Z := Z.rem (u32 (i + cid)) N_CHUNK_STREAM.

Fixpoint rtmp_packet_find_from (n : nat) (i : Z) (pkts : list rtmp_packet_t) (cid : Z)
  : outcome (option Z) :=
  match n with
  | O => Ok None
  | S n =>
      pkt ← ld pkts (slot_of i cid);
      if h_cid (p_header pkt) =? cid then Ok (Some (slot_of i cid))
      else rtmp_packet_find_from n (i + 1) pkts cid
  end.
Definition rtmp_packet_find (pkts : list rtmp_packet_t) (cid : Z) : outcome (option Z) :=
  rtmp_packet_find_from (Z.to_nat N_CHUNK_STREAM) 0 pkts cid.

Fixpoint rtmp_packet_create_from (n : nat) (i : Z) (pkts : list rtmp_packet_t) (cid : Z)
  : outcome (option Z) :=
  match n with
  | O => Ok None
  | S n =>
      pkt ← ld pkts (slot_of i cid);
      if 0 =? h_cid (p_header pkt) then Ok (Some (slot_of i cid))
      else rtmp_packet_create_from n (i + 1) pkts cid
  end.
Definition rtmp_packet_create (pkts : list rtmp_packet_t) (cid : Z) : outcome (option Z) :=
  rtmp_packet_create_from (Z.to_nat N_CHUNK_STREAM) 0 pkts cid.

Definition with_header (pkt : rtmp_packet_t) (h : rtmp_chunk_header_t) : rtmp_packet_t :=
  RtmpPacket h (p_delta pkt) (p_clock pkt) (p_payload pkt) (p_capacity pkt) (p_bytes pkt).

(** * rtmp-chunk-read.c *)

(** [rtmp_packet_parse]: the chunk streams and the one parsed, if any. *)
Definition rtmp_packet_parse (pkts : list rtmp_packet_t) (buffer : list Z)
  : outcome (list rtmp_packet_t * option Z) :=
  '(fmt, cid, n) ← rtmp_chunk_basic_header_read buffer;
  found ← rtmp_packet_find pkts cid;
  packet ← match found with
           | Some i => Ok (Some i)
           | None =>
               if negb (RTMP_CHUNK_TYPE_0 =? fmt) && negb (RTMP_CHUNK_TYPE_1 =? fmt) then Ok None
               else rtmp_packet_create pkts cid
           end;
  match packet with
  | None => Ok (pkts, None)
  | Some i =>
      pkt ← ld pkts i;
      let h := p_header pkt in
      '(h, _) ← rtmp_chunk_message_header_read buffer n
                  (RtmpChunkHeader fmt cid (h_timestamp h) (h_length h) (h_type h) (h_stream_id h));
      pkts ← st pkts i [with_header pkt h];
      Ok (pkts, Some i)
  end.

Section Read.
Context {P : Type}.
Variable realloc : Z → bool.
Variable rtmp_handler : rtmp_t P → rtmp_chunk_header_t → list Z → outcome (Z * rtmp_t P).

(** The code returned and the packet.  [realloc] keeps the old bytes; what it
    adds is indeterminate in C and 0 here, and is never read: a message is
    handed on when [length] bytes were stored. *)
Definition rtmp_packet_alloc (packet : rtmp_packet_t) : Z * rtmp_packet_t :=
  let h := p_header packet in
  if (0 =? p_capacity packet) || (p_capacity packet <? h_length h) then
    let n := u32 (h_length h + 1024) in
    if negb (realloc n) then (- ENOMEM, packet)
    else
      let old := match p_payload packet with Some m => m | None => [] end in
      let m := take (Z.to_nat n) (old ++ replicate (Z.to_nat n - length old) 0) in
      (0, RtmpPacket h (p_delta packet) (p_clock packet) (Some m) n (p_bytes packet))
  else (0, packet).

(** [while (parser->bytes < size && offset < bytes)
       parser->buffer[parser->bytes++] = data[offset++];]
    The buffer has [MAX_CHUNK_HEADER] bytes, which bounds the iterations. *)
Fixpoint parser_fill (fuel : nat) (size : Z) (data : list Z) (bytes : Z)
    (ps : rtmp_parser_t) (offset : Z) : outcome (rtmp_parser_t * Z) :=
  if (ps_bytes ps <? size) && (offset <? bytes) then
    match fuel with
    | O => Ub
    | S fuel =>
        b ← ld data offset;
        buf ← st (ps_buffer ps) (ps_bytes ps) [b];
        parser_fill fuel size data bytes
          (RtmpParser buf (ps_basic_bytes ps) (ps_bytes ps + 1) (ps_state ps) (ps_pkt ps))
          (offset + 1)
    end
  else Ok (ps, offset).
Definition FILL : nat := Z.to_nat MAX_CHUNK_HEADER.

Definition with_state (ps : rtmp_parser_t) (s : rtmp_parser_state_t) : rtmp_parser_t :=
  RtmpParser (ps_buffer ps) (ps_basic_bytes ps) (ps_bytes ps) s (ps_pkt ps).

(** case RTMP_PARSE_INIT *)
Definition read_init (t : rtmp_t P) (data : list Z) (offset : Z)
  : outcome (Z * rtmp_t P * Z) :=
  let ps := parser t in
  b ← ld data offset;
  buf ← st (ps_buffer ps) 0 [b];
  let basic := if 0 =? Z.land b 63 then 2 else if 1 =? Z.land b 63 then 3 else 1 in
  Ok (0, set_reader t (in_packets t) (RtmpParser buf basic 1 RTMP_PARSE_BASIC_HEADER None),
      offset + 1).

(** case RTMP_PARSE_BASIC_HEADER *)
Definition read_basic_header (t : rtmp_t P) (data : list Z) (bytes offset : Z)
  : outcome (Z * rtmp_t P * Z) :=
  '(ps, offset) ← parser_fill FILL (ps_basic_bytes (parser t)) data bytes (parser t) offset;
  let ps := if ps_bytes ps >=? ps_basic_bytes ps then with_state ps RTMP_PARSE_MESSAGE_HEADER
            else ps in
  Ok (0, set_reader t (in_packets t) ps, offset).

(** case RTMP_PARSE_MESSAGE_HEADER *)
Definition read_message_header (t : rtmp_t P) (data : list Z) (bytes offset : Z)
  : outcome (Z * rtmp_t P * Z) :=
  b0 ← ld (ps_buffer (parser t)) 0;
  hs ← s_header_size (Z.shiftr b0 6);
  let size := hs + ps_basic_bytes (parser t) in
  '(ps, offset) ← parser_fill FILL size data bytes (parser t) offset;
  if ps_bytes ps >=? size then
    '(pkts, pkt) ← rtmp_packet_parse (in_packets t) (ps_buffer ps);
    Ok (0, set_reader t pkts
             (RtmpParser (ps_buffer ps) (ps_basic_bytes ps) (ps_bytes ps)
                RTMP_PARSE_EXTENDED_TIMESTAMP pkt), offset)
  else Ok (0, set_reader t (in_packets t) ps, offset).

(** The complete header of a chunk of stream [i] (lines 171-210): the code,
    the session in state RTMP_PARSE_PAYLOAD, and the four bytes to rewind. *)
Definition read_chunk_start (t : rtmp_t P) (ps : rtmp_parser_t) (i : Z)
  : outcome (Z * rtmp_t P * option (list Z)) :=
  pkt ← ld (in_packets t) i;
  b0 ← ld (ps_buffer ps) 0;
  hs ← s_header_size (Z.shiftr b0 6);
  '(ext, rewind) ←
    (if h_timestamp (p_header pkt) =? 16777215 then
       '(ext, _) ← rtmp_chunk_extended_timestamp_read (ps_buffer ps) (hs + ps_basic_bytes ps);
       if (RTMP_CHUNK_TYPE_3 =? h_fmt (p_header pkt)) && negb (ext =? p_delta pkt) then
         four ← slice (ps_buffer ps) (hs + ps_basic_bytes ps) 4;
         Ok (p_delta pkt, Some four)
       else Ok (ext, None)
     else Ok (h_timestamp (p_header pkt), None));
  let '(r, pkt) :=
    if 0 =? p_bytes pkt then
      let clock := if RTMP_CHUNK_TYPE_0 =? h_fmt (p_header pkt) then ext
                   else u32 (p_clock pkt + ext) in
      rtmp_packet_alloc (RtmpPacket (p_header pkt) ext clock (p_payload pkt) (p_capacity pkt)
                           (p_bytes pkt))
    else (0, pkt) in
  pkts ← st (in_packets t) i [pkt];
  if negb (0 =? r) then Ok (- ENOMEM, set_reader t pkts ps, None)
  else Ok (0, set_reader t pkts (with_state ps RTMP_PARSE_PAYLOAD), rewind).

(** case RTMP_PARSE_EXTENDED_TIMESTAMP; [again] is the recursive call. *)
Definition read_extended_timestamp (again : rtmp_t P → list Z → Z → outcome (Z * rtmp_t P))
    (t : rtmp_t P) (data : list Z) (bytes offset : Z) : outcome (Z * rtmp_t P * Z) :=
  match ps_pkt (parser t) with
  | None => Ok (- ENOMEM, t, offset)
  | Some i =>
      pkt ← ld (in_packets t) i;
      hs ← s_header_size (h_fmt (p_header pkt));
      let size := hs + ps_basic_bytes (parser t) +
                  (if h_timestamp (p_header pkt) =? 16777215 then 4 else 0) in
      '(ps, offset) ← parser_fill FILL size data bytes (parser t) offset;
      if ps_bytes ps >=? size then
        '(r, t, rewind) ← read_chunk_start t ps i;
        if negb (0 =? r) then Ok (r, t, offset) else
        match rewind with
        | None => Ok (0, t, offset)
        | Some four => '(r, t) ← again t four 4; Ok (r, t, offset)
        end
      else Ok (0, set_reader t (in_packets t) ps, offset)
  end.

(** case RTMP_PARSE_PAYLOAD *)
Definition read_payload (t : rtmp_t P) (data : list Z) (bytes offset : Z)
  : outcome (Z * rtmp_t P * Z) :=
  match ps_pkt (parser t) with
  | None => Ok (- ENOMEM, t, offset)
  | Some i =>
      pkt ← ld (in_packets t) i;
      let h := p_header pkt in
      match p_payload pkt with
      | None => Ok (- ENOMEM, t, offset)
      | Some payload =>
          if (p_bytes pkt >? p_capacity pkt) || (p_bytes pkt >? h_length h)
             || (h_length h >? p_capacity pkt)
          then Ok (- ENOMEM, t, offset)
          else if in_chunk_size t =? 0 then Ub
          else
            let size := Z.min (in_chunk_size t - Z.rem (p_bytes pkt) (in_chunk_size t))
                              (h_length h - p_bytes pkt) in
            let size := Z.min size (bytes - offset) in
            piece ← slice data offset size;
            payload ← st payload (p_bytes pkt) piece;
            let n := p_bytes pkt + size in
            let offset := offset + size in
            let pkt' b := RtmpPacket h (p_delta pkt) (p_clock pkt) (Some payload)
                            (p_capacity pkt) b in
            if n >=? h_length h then
              pkts ← st (in_packets t) i [pkt' 0];
              message ← slice payload 0 (h_length h);
              '(r, t) ← rtmp_handler (set_reader t pkts (with_state (parser t) RTMP_PARSE_INIT))
                          (RtmpChunkHeader (h_fmt h) (h_cid h) (p_clock pkt) (h_length h)
                             (h_type h) (h_stream_id h)) message;
              Ok (r, t, offset)
            else
              pkts ← st (in_packets t) i [pkt' n];
              let ps := if 0 =? Z.rem n (in_chunk_size t)
                        then with_state (parser t) RTMP_PARSE_INIT else parser t in
              Ok (0, set_reader t pkts ps, offset)
      end
  end.

Definition rtmp_chunk_read_step (again : rtmp_t P → list Z → Z → outcome (Z * rtmp_t P))
    (t : rtmp_t P) (data : list Z) (bytes offset : Z) : outcome (Z * rtmp_t P * Z) :=
  match ps_state (parser t) with
  | RTMP_PARSE_INIT => read_init t data offset
  | RTMP_PARSE_BASIC_HEADER => read_basic_header t data bytes offset
  | RTMP_PARSE_MESSAGE_HEADER => read_message_header t data bytes offset
  | RTMP_PARSE_EXTENDED_TIMESTAMP => read_extended_timestamp again t data bytes offset
  | RTMP_PARSE_PAYLOAD => read_payload t data bytes offset
  end.

(** [while (offset < bytes)], with [fuel] iterations. *)
Fixpoint rtmp_chunk_read_loop (fuel : nat)
    (again : rtmp_t P → list Z → Z → outcome (Z * rtmp_t P))
    (t : rtmp_t P) (data : list Z) (bytes offset : Z) : outcome (Z * rtmp_t P) :=
  if offset <? bytes then
    match fuel with
    | O => Ub
    | S fuel =>
        '(r, t, offset) ← rtmp_chunk_read_step again t data bytes offset;
        if negb (0 =? r) then Ok (r, t)
        else rtmp_chunk_read_loop fuel again t data bytes offset
    end
  else Ok (0, t).

(** An iteration either consumes input or moves to the next of the five
    states, so five iterations a byte and five more are enough. *)
Definition read_fuel (bytes : Z) : nat := Z.to_nat (5 * bytes + 5).

(** [depth] bounds the nesting of the recursive call. *)
Fixpoint rtmp_chunk_read_depth (depth : nat) (t : rtmp_t P) (data : list Z) (bytes : Z)
  : outcome (Z * rtmp_t P) :=
  match depth with
  | O => Ub
  | S depth =>
      rtmp_chunk_read_loop (read_fuel bytes) (rtmp_chunk_read_depth depth) t data bytes 0
  end.

(** A rewound call has four bytes: too few for another extended timestamp,
    so two levels are enough. *)
Definition rtmp_chunk_read (t : rtmp_t P) (data : list Z) (bytes : Z) : outcome (Z * rtmp_t P) :=
  rtmp_chunk_read_depth 2 t data bytes.
End Read.

(** * rtmp-chunk-write.c *)

Definition MAX_CHECK_TYPE3_WITH_TIMESTAMP : Z := 7.

(** The chunk streams with the compressed header saved, and its index. *)
Definition rtmp_chunk_header_zip (pkts : list rtmp_packet_t) (header : rtmp_chunk_header_t)
  : outcome (list rtmp_packet_t * option Z) :=
  found ← rtmp_packet_find pkts (h_cid header);
  match found with
  | None => Ok (pkts, None)
  | Some i =>
      pkt ← ld pkts i;
      let prev := p_header pkt in
      let '(fmt, timestamp) :=
        if negb (RTMP_CHUNK_TYPE_0 =? h_fmt header) && (h_cid header =? h_cid prev)
           && (h_timestamp header >=? p_clock pkt)
           && (u32 (h_timestamp header - p_clock pkt) <? 16777215)
           && (h_stream_id header =? h_stream_id prev)
        then
          let delta := u32 (h_timestamp header - p_clock pkt) in
          if (h_type header =? h_type prev) && (h_length header =? h_length prev) then
            if delta =? h_timestamp prev then (RTMP_CHUNK_TYPE_3, delta)
            else (RTMP_CHUNK_TYPE_2, delta)
          else (RTMP_CHUNK_TYPE_1, delta)
        else (RTMP_CHUNK_TYPE_0, h_timestamp header) in
      let h := RtmpChunkHeader fmt (h_cid header) timestamp (h_length header) (h_type header)
                 (h_stream_id header) in
      pkts ← st pkts i
        [RtmpPacket h (p_delta pkt) (h_timestamp header) (p_payload pkt) (p_capacity pkt)
           (p_bytes pkt)];
      Ok (pkts, Some i)
  end.

Section Write.
Context {P : Type}.
Variable realloc : Z → bool.
(** The [send] callback: the header bytes and the payload bytes. *)
Variable send : P → list Z → list Z → Z * P.

(** [while (payloadSize > 0 && 0 == r)]: [fuel] iterations with the header of
    [headerSize] bytes at [p] of the buffer [m] and the payload at [pay]. *)
Fixpoint rtmp_chunk_write_loop (fuel : nat) (out_chunk_size : Z) (header : rtmp_chunk_header_t)
    (payload m : list Z) (p headerSize pay payloadSize r : Z) (u : P)
    : outcome (Z * list Z * P) :=
  if (payloadSize >? 0) && (0 =? r) then
    match fuel with
    | O => Ub
    | S fuel =>
        let chunkSize := if payloadSize <? out_chunk_size then payloadSize else out_chunk_size in
        hdr ← slice m p headerSize;
        body ← slice payload pay chunkSize;
        let '(r, u) := send u hdr body in
        let pay := pay + chunkSize in
        let payloadSize := payloadSize - chunkSize in
        if payloadSize >? 0 then
          let p := p + headerSize in
          '(m, n) ← rtmp_chunk_basic_header_write m p RTMP_CHUNK_TYPE_3 (h_cid header);
          '(m, n) ←
            (if h_timestamp header >=? 16777215 then
               '(m, k) ← rtmp_chunk_extended_timestamp_write m (p + n) (h_timestamp header);
               Ok (m, n + k)
             else Ok (m, n));
          rtmp_chunk_write_loop fuel out_chunk_size header payload m p n pay payloadSize r u
        else
          rtmp_chunk_write_loop fuel out_chunk_size header payload m p headerSize pay payloadSize r u
    end
  else Ok (r, m, u).

(** The result code with the session. *)
Definition rtmp_chunk_write (t : rtmp_t P) (h : rtmp_chunk_header_t) (payload : list Z)
  : outcome (Z * rtmp_t P) :=
  '(pkts, found) ← rtmp_chunk_header_zip (out_packets t) h;
  let t := set_writer t pkts (chunk_write_header t) in
  match found with
  | None => Ok (- EINVAL, t)
  | Some i =>
      pkt ← ld pkts i;
      let header := p_header pkt in
      if h_length header >=? 16777215 then Ok (- EINVAL, t) else
      let N := (if h_cid header <? 64 then 1 else if h_cid header <? 64 + 256 then 2 else 3)
               + (if h_timestamp header >=? 16777215 then 4 else 0) in
      if out_chunk_size t =? 0 then Ub else
      let chunks := Z.quot (h_length header) (out_chunk_size t) in
      let wh := chunk_write_header t in
      let grow := u32 (MAX_CHUNK_HEADER + chunks * N) >? wh_capacity wh in
      let cap := u32 (MAX_CHUNK_HEADER + chunks * MAX_CHECK_TYPE3_WITH_TIMESTAMP) in
      if grow && negb (realloc cap) then Ok (- ENOMEM, t) else
      let wh := if grow then RtmpChunkWriteHeader
                  (take (Z.to_nat cap)
                     (wh_ptr wh ++ replicate (Z.to_nat cap - length (wh_ptr wh)) 0)) cap
                else wh in
      let m := wh_ptr wh in
      '(m, headerSize) ← rtmp_chunk_basic_header_write m 0 (h_fmt header) (h_cid header);
      '(m, n) ← rtmp_chunk_message_header_write m headerSize header;
      let headerSize := headerSize + n in
      '(m, headerSize) ←
        (if h_timestamp header >=? 16777215 then
           '(m, n) ← rtmp_chunk_extended_timestamp_write m headerSize (h_timestamp header);
           Ok (m, headerSize + n)
         else Ok (m, headerSize));
      '(r, m, u) ← rtmp_chunk_write_loop (Z.to_nat (h_length header)) (out_chunk_size t) header
                     payload m 0 headerSize 0 (h_length header) 0 (param t);
      Ok (r, set_param (set_writer t pkts (RtmpChunkWriteHeader m (wh_capacity wh))) u)
  end.
End Write.
