(* ===== verification/RtmpChunkRead.v ===== *)
(** The RTMP chunk reader is memory safe, terminates, and does not care how its
    input is cut into calls. *)
From S2P Require Import Prelude RtmpInternal RtmpChunk.

(** * Filling the header buffer *)

Definition fill (ps : rtmp_parser_t) (bs : list Z) : rtmp_parser_t :=
  RtmpParser (put (ps_buffer ps) (ps_bytes ps) bs) (ps_basic_bytes ps) (ps_bytes ps + zlen bs)
    (ps_state ps) (ps_pkt ps).

(** How many bytes the copy loop takes. *)
Definition fill_len (ps : rtmp_parser_t) (size avail : Z) : Z :=
  Z.max 0 (Z.min (size - ps_bytes ps) avail).

Lemma fill_nil ps : fill ps [] = ps.
Proof.
  destruct ps as [buf bb n s p]. unfold fill, put. cbn [ps_buffer ps_basic_bytes ps_bytes ps_state ps_pkt].
  rewrite Nat.add_0_r, app_nil_l, take_drop, zlen_nil, Z.add_0_r. done.
Qed.

Lemma fill_app ps bs cs : 0 ≤ ps_bytes ps → ps_bytes ps + zlen bs ≤ zlen (ps_buffer ps) →
  fill (fill ps bs) cs = fill ps (bs ++ cs).
Proof.
  intros. unfold fill. cbn [ps_buffer ps_basic_bytes ps_bytes ps_state ps_pkt].
  rewrite put_app, zlen_app, Z.add_assoc by done. done.
Qed.

Lemma parser_fill_spec fuel size data bytes : ∀ ps offset,
  bytes = zlen data → 0 ≤ offset ≤ bytes → 0 ≤ ps_bytes ps → size ≤ zlen (ps_buffer ps) →
  size - ps_bytes ps ≤ Z.of_nat fuel →
  parser_fill fuel size data bytes ps offset =
    let k := fill_len ps size (bytes - offset) in
    Ok (fill ps (sub data offset k), offset + k).
Proof.
  induction fuel as [|fuel IH]; intros ps offset Hb Ho Hn Hs Hf; cbn [parser_fill]; cbv zeta.
  - unfold fill_len. rewrite Z.max_l, sub_0, fill_nil, Z.add_0_r by lia.
    destruct (Z.ltb_spec (ps_bytes ps) size); [lia|done].
  - destruct (Z.ltb_spec (ps_bytes ps) size), (Z.ltb_spec offset bytes); cbn [andb].
    2-4: unfold fill_len; rewrite Z.max_l, sub_0, fill_nil, Z.add_0_r by lia; done.
    assert (zlen [data !!! Z.to_nat offset] = 1) as H1 by done.
    rewrite ld_ok by lia. run. rewrite st_ok by lia. run.
    change (RtmpParser (put (ps_buffer ps) (ps_bytes ps) [data !!! Z.to_nat offset])
      (ps_basic_bytes ps) (ps_bytes ps + 1) (ps_state ps) (ps_pkt ps))
      with (fill ps [data !!! Z.to_nat offset]).
    rewrite IH; [|done|lia|cbn [fill ps_bytes]; lia|cbn [fill ps_buffer]; rewrite zlen_put; lia
                 |cbn [fill ps_bytes]; lia].
    cbv zeta. set (k := fill_len ps size (bytes - offset)).
    assert (fill_len (fill ps [data !!! Z.to_nat offset]) size (bytes - (offset + 1)) = k - 1) as ->.
    { unfold fill_len, k, fill_len. cbn [fill ps_bytes]. rewrite H1. lia. }
    assert (1 ≤ k ≤ bytes - offset) by (unfold k, fill_len; lia).
    rewrite fill_app by lia. cbn [app]. rewrite <- (sub_step data offset k) by lia.
    do 2 f_equal. lia.
Qed.

(** * Well-formed readers *)

Definition header_size (fmt : Z) : Z := [11; 7; 3; 0] !!! Z.to_nat fmt.

Lemma s_header_size_ok fmt : 0 ≤ fmt ≤ 3 → s_header_size fmt = Ok (header_size fmt).
Proof. intros. unfold s_header_size. rewrite ld_ok by (unfold zlen; cbn; lia). done. Qed.

Lemma header_size_range fmt : 0 ≤ fmt ≤ 3 → 0 ≤ header_size fmt ≤ 11.
Proof.
  intros. assert (fmt = 0 ∨ fmt = 1 ∨ fmt = 2 ∨ fmt = 3) as [->|[->|[->| ->]]] by lia; by vm_compute.
Qed.

(** The first byte of a chunk. *)
Definition basic_len (b : Z) : Z :=
  if 0 =? Z.land b 63 then 2 else if 1 =? Z.land b 63 then 3 else 1.
Definition first_byte (ps : rtmp_parser_t) : Z := ps_buffer ps !!! 0%nat.
Definition chunk_fmt (ps : rtmp_parser_t) : Z := Z.shiftr (first_byte ps) 6.
Definition header_end (ps : rtmp_parser_t) : Z := header_size (chunk_fmt ps) + ps_basic_bytes ps.

Record packet_wf (pkt : rtmp_packet_t) : Prop := {
  pw_fmt : 0 ≤ h_fmt (p_header pkt) ≤ 3;
  pw_timestamp : 0 ≤ h_timestamp (p_header pkt) < 2 ^ 24;
  pw_length : 0 ≤ h_length (p_header pkt) < 2 ^ 24;
  pw_bytes : 0 ≤ p_bytes pkt ≤ p_capacity pkt;
  pw_payload : ∀ m, p_payload pkt = Some m → zlen m = p_capacity pkt ∧ bytes_ok m;
  pw_null : p_payload pkt = None → p_capacity pkt = 0
}.

(** The parser in each of its states. *)
Definition parser_wf (pkts : list rtmp_packet_t) (ps : rtmp_parser_t) : Prop :=
  match ps_state ps with
  | RTMP_PARSE_INIT => True
  | RTMP_PARSE_BASIC_HEADER => 1 ≤ ps_bytes ps ≤ ps_basic_bytes ps
  | RTMP_PARSE_MESSAGE_HEADER => ps_basic_bytes ps ≤ ps_bytes ps ≤ header_end ps
  | RTMP_PARSE_EXTENDED_TIMESTAMP => header_end ps ≤ ps_bytes ps < header_end ps + 4 ∧
      ∀ i, ps_pkt ps = Some i → ∃ pkt, 0 ≤ i ∧ pkts !! Z.to_nat i = Some pkt ∧
        h_fmt (p_header pkt) = chunk_fmt ps
  | RTMP_PARSE_PAYLOAD => ∀ i, ps_pkt ps = Some i → 0 ≤ i < zlen pkts
  end.

Record reader_wf {P} (t : rtmp_t P) : Prop := {
  rw_packets : length (in_packets t) = 8%nat;
  rw_packet : Forall packet_wf (in_packets t);
  rw_buffer : zlen (ps_buffer (parser t)) = 18;
  rw_buffer_bytes : bytes_ok (ps_buffer (parser t));
  rw_basic : ps_state (parser t) ≠ RTMP_PARSE_INIT →
    ps_basic_bytes (parser t) = basic_len (first_byte (parser t));
  rw_parser : parser_wf (in_packets t) (parser t)
}.

Lemma chunk_fmt_range ps : bytes_ok (ps_buffer ps) → 0 ≤ chunk_fmt ps ≤ 3.
Proof.
  intros Hb. unfold chunk_fmt, first_byte. pose proof (bytes_ok_lookup (ps_buffer ps) 0 Hb) as H.
  unfold is_uint in H. masks. dlia.
Qed.

Lemma basic_len_range b : 1 ≤ basic_len b ≤ 3.
Proof. unfold basic_len. repeat case_match; lia. Qed.

Lemma first_byte_fill ps bs : 1 ≤ ps_bytes ps → ps_bytes ps + zlen bs ≤ zlen (ps_buffer ps) →
  first_byte (fill ps bs) = first_byte ps.
Proof.
  intros. unfold first_byte. rewrite !list_lookup_total_alt. f_equal. cbn [fill ps_buffer].
  apply put_lookup_out; [lia..|]. left. lia.
Qed.

(** * Looking up chunk streams *)

Lemma slot_of_range i cid : 0 ≤ slot_of i cid < 8.
Proof.
  unfold slot_of, N_CHUNK_STREAM. pose proof (u32_range (i + cid)) as [? _].
  rewrite Z.rem_mod_nonneg by lia. dlia.
Qed.

Lemma ld_packet (pkts : list rtmp_packet_t) i : length pkts = 8%nat → 0 ≤ i < 8 →
  ∃ pkt, ld pkts i = Ok pkt ∧ pkts !! Z.to_nat i = Some pkt.
Proof.
  intros Hl Hi. destruct (lookup_lt_is_Some_2 pkts (Z.to_nat i)) as [x Hx]; [lia|].
  exists x. unfold ld. destruct (Z.ltb_spec i 0); [lia|]. by rewrite Hx.
Qed.

Lemma rtmp_packet_find_ok pkts cid : length pkts = 8%nat →
  ∃ o, rtmp_packet_find pkts cid = Ok o ∧ ∀ i, o = Some i → 0 ≤ i < 8.
Proof.
  intros Hl. unfold rtmp_packet_find. generalize (Z.to_nat N_CHUNK_STREAM). intros n. generalize 0 at 1.
  induction n as [|n IH]; intros k; cbn [rtmp_packet_find_from]; [by eexists|].
  pose proof (slot_of_range k cid) as Hs. destruct (ld_packet pkts (slot_of k cid) Hl Hs) as (x & -> & _).
  run. case_match; [|apply IH]. eexists. split; [done|]. by intros i [= <-].
Qed.

Lemma rtmp_packet_create_ok pkts cid : length pkts = 8%nat →
  ∃ o, rtmp_packet_create pkts cid = Ok o ∧ ∀ i, o = Some i → 0 ≤ i < 8.
Proof.
  intros Hl. unfold rtmp_packet_create. generalize (Z.to_nat N_CHUNK_STREAM). intros n. generalize 0 at 1.
  induction n as [|n IH]; intros k; cbn [rtmp_packet_create_from]; [by eexists|].
  pose proof (slot_of_range k cid) as Hs. destruct (ld_packet pkts (slot_of k cid) Hl Hs) as (x & -> & _).
  run. case_match; [|apply IH]. eexists. split; [done|]. by intros i [= <-].
Qed.

Lemma be_val_sub_3 m p : bytes_ok m → 0 ≤ p → p + 3 ≤ zlen m → 0 ≤ be_val (sub m p 3) < 2 ^ 24.
Proof.
  intros Hm H1 H2. pose proof (be_val_range _ (bytes_ok_sub m p 3 Hm)) as H.
  by rewrite zlen_sub in H by lia.
Qed.

(** Evaluate one header field test. *)
Ltac hstep := cbn [mbind outcome_bind h_fmt h_cid h_timestamp h_length h_type h_stream_id Z.leb
  Z.compare Z.eqb Pos.compare Pos.compare_cont]; rewrite ?Z.add_0_r, ?Z.add_0_l.

(** The message header: which fields each format carries. *)
Lemma rtmp_chunk_message_header_read_spec buf ptr h :
  bytes_ok buf → 0 ≤ ptr → 0 ≤ h_fmt h ≤ 3 → ptr + header_size (h_fmt h) ≤ zlen buf →
  rtmp_chunk_message_header_read buf ptr h =
    let f := h_fmt h in
    Ok (RtmpChunkHeader f (h_cid h)
          (if f <=? 2 then be_val (sub buf ptr 3) else h_timestamp h)
          (if f <=? 1 then be_val (sub buf (ptr + 3) 3) else h_length h)
          (if f <=? 1 then buf !!! Z.to_nat (ptr + 6) else h_type h)
          (if f =? 0 then be_val (rev (sub buf (ptr + 7) 4)) else h_stream_id h),
        header_size f).
Proof.
  intros Hb Hp Hf Hl. destruct h as [f cid ts len ty sid]. cbn [h_fmt] in *.
  unfold rtmp_chunk_message_header_read, RTMP_CHUNK_TYPE_0, RTMP_CHUNK_TYPE_1, RTMP_CHUNK_TYPE_2.
  assert (f = 0 ∨ f = 1 ∨ f = 2 ∨ f = 3) as [->|[->|[->| ->]]] by lia;
    vm_compute (header_size _) in Hl; hstep;
    rewrite ?be_read_uint24_spec by (done || lia); hstep;
    rewrite ?be_read_uint24_spec by (done || lia); hstep;
    rewrite ?ld_ok by lia; hstep; rewrite ?le_read_uint32_spec by (done || lia); hstep;
    rewrite <- ?Z.add_assoc; done.
Qed.

Lemma rtmp_chunk_basic_header_read_spec buf : bytes_ok buf → 3 ≤ zlen buf →
  ∃ cid, rtmp_chunk_basic_header_read buf =
    Ok (Z.shiftr (buf !!! 0%nat) 6, cid, basic_len (buf !!! 0%nat)).
Proof.
  intros Hb Hl. unfold rtmp_chunk_basic_header_read, basic_len.
  rewrite (ld_ok buf 0) by lia. run. change (Z.to_nat 0) with 0%nat.
  destruct (0 =? Z.land _ 63); [|destruct (1 =? Z.land _ 63)];
    rewrite ?(ld_ok buf 1), ?(ld_ok buf 2) by lia; run; eauto.
Qed.

Lemma rtmp_packet_parse_ok pkts buf : length pkts = 8%nat → Forall packet_wf pkts →
  bytes_ok buf → zlen buf = 18 →
  ∃ pkts' o, rtmp_packet_parse pkts buf = Ok (pkts', o) ∧ length pkts' = 8%nat ∧
    Forall packet_wf pkts' ∧
    ∀ i, o = Some i → ∃ pkt, 0 ≤ i ∧ pkts' !! Z.to_nat i = Some pkt ∧
      h_fmt (p_header pkt) = Z.shiftr (buf !!! 0%nat) 6.
Proof.
  intros Hl Hw Hb Hz. unfold rtmp_packet_parse.
  destruct (rtmp_chunk_basic_header_read_spec buf Hb ltac:(lia)) as [cid ->]. run.
  pose proof (basic_len_range (buf !!! 0%nat)) as Hbl.
  pose proof (bytes_ok_lookup buf 0 Hb) as H0. unfold is_uint in H0.
  set (fmt := Z.shiftr (buf !!! 0%nat) 6). assert (0 ≤ fmt ≤ 3) as Hf by (unfold fmt; masks; dlia).
  destruct (rtmp_packet_find_ok pkts cid Hl) as (o & -> & Ho). run.
  assert (∃ o', (match o with
           | Some i => Ok (Some i)
           | None => if negb (RTMP_CHUNK_TYPE_0 =? fmt) && negb (RTMP_CHUNK_TYPE_1 =? fmt)
                     then Ok None else rtmp_packet_create pkts cid
           end) = Ok o' ∧ ∀ i, o' = Some i → 0 ≤ i < 8) as (o' & -> & Ho').
  { destruct o as [i|]; [by eexists|]. case_match; [by eexists|]. by apply rtmp_packet_create_ok. }
  run. destruct o' as [i|]; [|eexists _, None; by split_and!].
  specialize (Ho' i eq_refl). destruct (ld_packet pkts i Hl Ho') as (x & -> & Hx). run.
  pose proof (header_size_range fmt Hf).
  rewrite rtmp_chunk_message_header_read_spec by (cbn [h_fmt]; done || lia).
  cbv zeta. cbn [h_fmt h_cid h_timestamp h_length h_type h_stream_id]. run.
  assert (zlen pkts = 8) as Hz8 by (unfold zlen; lia).
  pose proof (Forall_lookup_1 _ _ _ _ Hw Hx) as [? ? ? ? ? ?].
  match goal with |- context [with_header x ?h] => set (h' := h) end.
  assert (packet_wf (with_header x h')) as Hx'.
  { assert (fmt = 0 ∨ fmt = 1 ∨ fmt = 2 ∨ fmt = 3) as Hcase by lia.
    constructor; cbn [with_header p_header p_bytes p_capacity p_payload]; try done.
    - unfold h'. cbn [h_timestamp]. case_match eqn:E; [|done]. apply Z.leb_le in E.
      apply be_val_sub_3; [done|lia|]. lia.
    - unfold h'. cbn [h_length]. case_match eqn:E; [|done]. apply Z.leb_le in E.
      apply be_val_sub_3; [done|lia|]. lia. }
  rewrite st_ok by llia. run. eexists _, (Some i). split_and!; [done| | |].
  - apply Nat2Z.inj. change (zlen (put pkts i [with_header x h']) = 8). rewrite zlen_put by llia. lia.
  - unfold put. apply Forall_app. split; [by apply Forall_take|]. constructor; [done|].
    by apply Forall_drop.
  - intros j [= <-]. exists (with_header x h'). split_and!; [lia| |done].
    unfold put. rewrite lookup_app_r by (rewrite length_take; lia).
    rewrite length_take. by replace (Z.to_nat i - _)%nat with 0%nat by lia.
Qed.

(** * What the reader relies on

    The message handler is called with the [length] bytes of a complete
    message.  It leaves the chunk streams and the parser alone and, when it
    succeeds, the chunk size positive.  It may rely on an invariant of the rest
    of the session, which it keeps. *)

Class SessionInvariant (P : Type) := {
  session_inv : rtmp_t P → Prop;
  session_inv_reader t pkts ps : session_inv t → session_inv (set_reader t pkts ps)
}.

#[global] Instance no_invariant P : SessionInvariant P | 100 :=
  {| session_inv := λ _, True; session_inv_reader := λ _ _ _ H, H |}.

Class MessageHandler {P} {Inv : SessionInvariant P}
    (handler : rtmp_t P → rtmp_chunk_header_t → list Z → outcome (Z * rtmp_t P)) :=
  handler_ok : ∀ t h m, 0 < in_chunk_size t → session_inv t → bytes_ok m → zlen m = h_length h →
    h_length h < 2 ^ 24 → ∃ r t', handler t h m = Ok (r, t') ∧
    in_packets t' = in_packets t ∧ parser t' = parser t ∧
    (r = 0 → 0 < in_chunk_size t' ∧ session_inv t').

Definition rank {P} (t : rtmp_t P) : Z :=
  match ps_state (parser t) with
  | RTMP_PARSE_INIT => 0
  | RTMP_PARSE_BASIC_HEADER => 4
  | RTMP_PARSE_MESSAGE_HEADER => 3
  | RTMP_PARSE_EXTENDED_TIMESTAMP => 2
  | RTMP_PARSE_PAYLOAD => 1
  end.

(** The header being parsed was read within the current call. *)
Definition header_within {P} (t : rtmp_t P) (offset : Z) : Prop :=
  match ps_state (parser t) with
  | RTMP_PARSE_INIT | RTMP_PARSE_PAYLOAD => True
  | _ => ps_bytes (parser t) ≤ offset
  end.

Definition running {P} {Inv : SessionInvariant P} (t : rtmp_t P) : Prop :=
  reader_wf t ∧ 0 < in_chunk_size t ∧ session_inv t.

Lemma running_rest {P} {Inv : SessionInvariant P} (t : rtmp_t P) pkts ps : running t →
  0 < in_chunk_size (set_reader t pkts ps) ∧ session_inv (set_reader t pkts ps).
Proof. intros (? & ? & ?). split; [done|by apply session_inv_reader]. Qed.

Definition step_post {P} {Inv : SessionInvariant P} (bytes : Z) (t : rtmp_t P) (offset : Z) (r : Z) (t' : rtmp_t P) (o : Z) : Prop :=
  r = 0 → running t' ∧ offset ≤ o ≤ bytes ∧ 5 * (bytes - o) + rank t' < 5 * (bytes - offset) + rank t ∧
    (bytes ≤ 4 → header_within t offset → header_within t' o).

Lemma reader_wf_parser {P} (t : rtmp_t P) ps : reader_wf t →
  zlen (ps_buffer ps) = 18 → bytes_ok (ps_buffer ps) →
  (ps_state ps ≠ RTMP_PARSE_INIT → ps_basic_bytes ps = basic_len (first_byte ps)) →
  parser_wf (in_packets t) ps → reader_wf (set_reader t (in_packets t) ps).
Proof. intros []. by constructor. Qed.

(** Case analysis on the next call of a sequence. *)
Ltac next := match goal with
  | |- context [?e ≫= _] => destruct e as [| |?]; run; try done
  end.

Section StepSafe.
Context {P : Type} (realloc : Z → bool).
Context (handler : rtmp_t P → rtmp_chunk_header_t → list Z → outcome (Z * rtmp_t P)).
Context {Inv : SessionInvariant P} {Hhandler : MessageHandler handler}.
Variables (t : rtmp_t P) (data : list Z) (offset : Z).
Hypothesis Hrun : running t.
Hypothesis Hdata : bytes_ok data.
Hypothesis Hoff : 0 ≤ offset < zlen data.

Let Hwf : reader_wf t := proj1 Hrun.

(** The copy loop on a well-formed reader. *)
Lemma fill_ok size : 1 ≤ ps_bytes (parser t) ≤ size → size ≤ 18 →
  ps_basic_bytes (parser t) = basic_len (first_byte (parser t)) →
  let k := fill_len (parser t) size (zlen data - offset) in
  let ps := fill (parser t) (sub data offset k) in
  parser_fill FILL size data (zlen data) (parser t) offset = Ok (ps, offset + k) ∧
  0 ≤ k ≤ zlen data - offset ∧ ps_bytes ps = ps_bytes (parser t) + k ∧ ps_bytes ps ≤ size ∧
  (ps_bytes (parser t) < size → 1 ≤ k) ∧
  zlen (ps_buffer ps) = 18 ∧ bytes_ok (ps_buffer ps) ∧ first_byte ps = first_byte (parser t).
Proof.
  intros Hb Hs Hbl k ps. destruct Hwf as [_ _ H18 Hbb _ _].
  assert (0 ≤ k ≤ zlen data - offset ∧ k ≤ size - ps_bytes (parser t) ∧
    (ps_bytes (parser t) < size → 1 ≤ k)) as (Hk & Hk2 & Hk3) by (unfold k, fill_len; lia).
  assert (zlen (sub data offset k) = k) as Hkl by (apply zlen_sub; lia).
  split_and!; try lia; try done.
  - rewrite parser_fill_spec; [done|done|lia..|]. unfold FILL, MAX_CHUNK_HEADER. lia.
  - unfold ps, fill. cbn [ps_bytes]. lia.
  - unfold ps, fill. cbn [ps_bytes]. lia.
  - unfold ps, fill. cbn [ps_buffer]. rewrite zlen_put; lia.
  - unfold ps, fill. cbn [ps_buffer]. auto with cint.
  - apply first_byte_fill; lia.
Qed.

Lemma read_init_ok : ps_state (parser t) = RTMP_PARSE_INIT →
  ∃ r t' o, read_init t data offset = Ok (r, t', o) ∧ step_post (zlen data) t offset r t' o.
Proof.
  intros Es. unfold read_init. rewrite ld_ok by lia. run.
  pose proof (rw_buffer _ Hwf) as H18.
  rewrite st_ok by (unfold zlen in *; cbn; lia). run. eexists _, _, _. split; [reflexivity|].
  intros _. set (b := data !!! Z.to_nat offset).
  assert (zlen (put (ps_buffer (parser t)) 0 [b]) = 18) as Hz
    by (rewrite zlen_put; [done|lia|change (zlen [b]) with 1; lia]).
  split; [|split; [lia|split]].
  - split; [|by apply running_rest]. apply reader_wf_parser; [done|done| | |].
    + cbn [ps_buffer]. apply bytes_ok_put; [apply Hwf|]. constructor; [|done].
      by apply bytes_ok_lookup.
    + intros _. cbn [ps_basic_bytes ps_buffer]. unfold first_byte. cbn [ps_buffer].
      fold (basic_len b). f_equal.
    + unfold parser_wf. cbn [ps_state ps_bytes ps_basic_bytes]. fold (basic_len b).
      pose proof (basic_len_range b). lia.
  - unfold rank. cbn [set_reader parser ps_state]. rewrite Es. lia.
  - intros _ _. unfold header_within. cbn. lia.
Qed.

Lemma read_basic_header_ok : ps_state (parser t) = RTMP_PARSE_BASIC_HEADER →
  ∃ r t' o, read_basic_header t data (zlen data) offset = Ok (r, t', o) ∧
    step_post (zlen data) t offset r t' o.
Proof.
  intros Es. unfold read_basic_header. pose proof (rw_parser _ Hwf) as Hp.
  unfold parser_wf in Hp. rewrite Es in Hp.
  pose proof (rw_basic _ Hwf ltac:(congruence)) as Hbl. pose proof (basic_len_range (first_byte (parser t))).
  destruct (fill_ok (ps_basic_bytes (parser t)) ltac:(lia) ltac:(lia) Hbl)
    as (-> & Hk & Hb & Hle & Hk1 & H18 & Hbb & Hfb). run.
  set (k := fill_len _ _ _) in *. set (ps := fill _ _) in *.
  assert (ps_basic_bytes ps = ps_basic_bytes (parser t)) as Hbe by done.
  assert (ps_state ps = RTMP_PARSE_BASIC_HEADER) as Hst by done.
  eexists _, _, _. split; [reflexivity|]. intros _. rewrite Z.geb_leb.
  split; [|split; [lia|]].
  - split; [|by apply running_rest]. apply reader_wf_parser; [done|case_match; done|case_match; done| |].
    + intros _. destruct (_ <=? _); unfold first_byte in *; cbn [with_state ps_buffer ps_basic_bytes];
        rewrite Hbe, Hfb; done.
    + destruct (Z.leb_spec (ps_basic_bytes ps) (ps_bytes ps)).
      * unfold parser_wf. cbn [with_state ps_state ps_bytes ps_basic_bytes].
        unfold header_end. cbn [with_state ps_basic_bytes].
        pose proof (header_size_range (chunk_fmt (with_state ps RTMP_PARSE_MESSAGE_HEADER))
          (chunk_fmt_range _ Hbb)). lia.
      * unfold parser_wf. rewrite Hst. lia.
  - destruct (Z.leb_spec (ps_basic_bytes ps) (ps_bytes ps)); split; unfold rank, header_within;
      cbn [set_reader parser with_state ps_state ps_bytes]; rewrite ?Hst, ?Es; lia.
Qed.

Lemma read_message_header_ok : ps_state (parser t) = RTMP_PARSE_MESSAGE_HEADER →
  ∃ r t' o, read_message_header t data (zlen data) offset = Ok (r, t', o) ∧
    step_post (zlen data) t offset r t' o.
Proof.
  intros Es. unfold read_message_header. pose proof (rw_parser _ Hwf) as Hp.
  unfold parser_wf in Hp. rewrite Es in Hp.
  pose proof (rw_basic _ Hwf ltac:(congruence)) as Hbl. pose proof (basic_len_range (first_byte (parser t))).
  pose proof (chunk_fmt_range (parser t) (rw_buffer_bytes _ Hwf)) as Hf.
  pose proof (header_size_range _ Hf) as Hhs. pose proof (rw_buffer _ Hwf) as H18'.
  rewrite ld_ok by lia. run. change (Z.shiftr _ 6) with (chunk_fmt (parser t)).
  rewrite s_header_size_ok by done. run. fold (header_end (parser t)).
  assert (header_end (parser t) ≤ 18) by (unfold header_end; lia).
  destruct (fill_ok (header_end (parser t)) ltac:(lia) ltac:(lia) Hbl)
    as (-> & Hk & Hb & Hle & Hk1 & H18 & Hbb & Hfb). run.
  set (k := fill_len _ _ _) in *. set (ps := fill _ _) in *.
  assert (ps_basic_bytes ps = ps_basic_bytes (parser t)) as Hbe by done.
  assert (ps_state ps = RTMP_PARSE_MESSAGE_HEADER) as Hst by done.
  assert (chunk_fmt ps = chunk_fmt (parser t)) as Hcf by (unfold chunk_fmt; congruence).
  assert (header_end ps = header_end (parser t)) as Hhe by (unfold header_end; congruence).
  rewrite Z.geb_leb. destruct (Z.leb_spec (header_end (parser t)) (ps_bytes ps)).
  - destruct (rtmp_packet_parse_ok (in_packets t) (ps_buffer ps)) as (pkts & o & -> & Hl & Hw & Ho);
      [apply Hwf|apply Hwf|done|done|]. run.
    eexists _, _, _. split; [reflexivity|]. intros _. split; [|split; [lia|split]].
    + split; [|by apply running_rest]. constructor; cbn [set_reader in_packets parser ps_buffer]; try done.
      * intros _. cbn [ps_basic_bytes]. rewrite Hbe. unfold first_byte in *. by cbn [ps_buffer] in *; rewrite Hfb.
      * unfold parser_wf. cbn [ps_state ps_bytes ps_pkt].
        change (header_end (RtmpParser _ _ _ _ _)) with (header_end ps). split; [lia|].
        intros i Hi. by apply Ho.
    + unfold rank. cbn [set_reader parser ps_state]. rewrite Es. lia.
    + unfold header_within. cbn [set_reader parser ps_state ps_bytes]. rewrite Es. lia.
  - eexists _, _, _. split; [reflexivity|]. intros _. split; [|split; [lia|split]].
    + split; [|by apply running_rest]. apply reader_wf_parser; [done..| |].
      * intros _. by rewrite Hbe, Hfb.
      * unfold parser_wf. rewrite Hst. lia.
    + unfold rank. cbn [set_reader parser]. rewrite Hst, Es. lia.
    + unfold header_within. cbn [set_reader parser]. rewrite Hst, Es. lia.
Qed.

(** Storing a packet back keeps the chunk streams well formed. *)
Lemma reader_wf_store i pkt ps : 0 ≤ i < 8 → packet_wf pkt →
  zlen (ps_buffer ps) = 18 → bytes_ok (ps_buffer ps) →
  (ps_state ps ≠ RTMP_PARSE_INIT → ps_basic_bytes ps = basic_len (first_byte ps)) →
  ps_state ps = RTMP_PARSE_INIT ∨ (ps_state ps = RTMP_PARSE_PAYLOAD ∧ ps_pkt ps = Some i) →
  reader_wf (set_reader t (put (in_packets t) i [pkt]) ps).
Proof.
  intros Hi Hpkt ? ? ? Hs. pose proof (rw_packets _ Hwf) as Hl.
  assert (zlen (put (in_packets t) i [pkt]) = 8) as Hz.
  { rewrite zlen_put by (unfold zlen; cbn; lia). unfold zlen. lia. }
  constructor; cbn [set_reader in_packets parser]; try done.
  - unfold zlen in Hz. lia.
  - unfold put. apply Forall_app. split; [apply Forall_take, Hwf|].
    constructor; [done|]. apply Forall_drop, Hwf.
  - unfold parser_wf. destruct Hs as [->|[-> Hp]]; [done|]. intros j Hj. rewrite Hp in Hj.
    rewrite Hz. simplify_eq. lia.
Qed.

Lemma rtmp_packet_alloc_ok pkt : packet_wf pkt →
  let '(r, pkt') := rtmp_packet_alloc realloc pkt in
  packet_wf pkt' ∧ (r = 0 ∨ r = - ENOMEM) ∧ p_header pkt' = p_header pkt.
Proof.
  intros Hp. unfold rtmp_packet_alloc. destruct (_ || _) eqn:E; [|by auto].
  destruct (negb _); [by auto|]. destruct Hp as [? ? Hlen Hb Hpay Hnull].
  split_and!; [|by left|done]. assert (u32 (h_length (p_header pkt) + 1024) = h_length (p_header pkt) + 1024)
    as Hn by (apply u32_id; unfold is_uint; dlia).
  constructor; cbn [p_header p_bytes p_capacity p_payload]; rewrite ?Hn; try done.
  - destruct (Z.eqb_spec 0 (p_capacity pkt)), (Z.ltb_spec (p_capacity pkt) (h_length (p_header pkt)));
      try done; lia.
  - intros m [= <-]. split.
    + unfold zlen. rewrite length_take, length_app, length_replicate. lia.
    + apply Forall_take, Forall_app. split; [|by apply Forall_replicate].
      destruct (p_payload pkt) eqn:Ep; [|by constructor]. by apply Hpay.
Qed.

Lemma read_chunk_start_ok ps i pkt :
  zlen (ps_buffer ps) = 18 → bytes_ok (ps_buffer ps) →
  ps_basic_bytes ps = basic_len (first_byte ps) → ps_pkt ps = Some i →
  0 ≤ i → in_packets t !! Z.to_nat i = Some pkt → h_fmt (p_header pkt) = chunk_fmt ps →
  ∃ r t' rw, read_chunk_start realloc t ps i = Ok (r, t', rw) ∧
    (r = 0 → running t' ∧ ps_state (parser t') = RTMP_PARSE_PAYLOAD ∧
      ∀ four, rw = Some four → zlen four = 4 ∧ bytes_ok four ∧
        h_timestamp (p_header pkt) = 16777215 ∧ h_fmt (p_header pkt) = 3).
Proof.
  intros H18 Hbb Hbl Hpk Hi Hx Hfm. unfold read_chunk_start.
  pose proof (rw_packets _ Hwf) as Hl. apply lookup_lt_Some in Hx as Hlt.
  assert (ld (in_packets t) i = Ok pkt) as ->.
  { unfold ld. destruct (Z.ltb_spec i 0); [lia|]. by rewrite Hx. }
  run. rewrite ld_ok by lia. run. change (Z.shiftr _ 6) with (chunk_fmt ps).
  pose proof (chunk_fmt_range ps Hbb) as Hf. pose proof (header_size_range _ Hf).
  pose proof (basic_len_range (first_byte ps)). rewrite s_header_size_ok by done. run.
  pose proof (Forall_lookup_1 _ _ _ _ (rw_packet _ Hwf) Hx) as Hpw.
  match goal with |- context [?e ≫= _] => set (e1 := e) end.
  assert (∃ ext rw, e1 = Ok (ext, rw) ∧ ∀ four, rw = Some four → zlen four = 4 ∧ bytes_ok four ∧
        h_timestamp (p_header pkt) = 16777215 ∧ h_fmt (p_header pkt) = 3) as (ext & rw & -> & Hrw).
  { unfold e1. destruct (Z.eqb_spec (h_timestamp (p_header pkt)) 16777215); [|by eexists _, None].
    unfold rtmp_chunk_extended_timestamp_read. rewrite be_read_uint32_spec by (done || lia). run.
    destruct (Z.eqb_spec RTMP_CHUNK_TYPE_3 (h_fmt (p_header pkt))) as [E3|]; cbn [andb]; [|by eexists _, None].
    destruct (negb _); [|by eexists _, None]. rewrite slice_ok by lia. run.
    eexists _, _. split; [done|]. intros four [= <-].
    split_and!; [apply zlen_sub; lia|by apply bytes_ok_sub|done|done]. }
  run. match goal with |- context [(let '(r, pkt) := ?e in _)] => set (e2 := e) end.
  assert (packet_wf (snd e2)) as Hpw2.
  { unfold e2. destruct (Z.eqb_spec 0 (p_bytes pkt)); [|done].
    match goal with |- context [rtmp_packet_alloc _ ?p] => pose proof (rtmp_packet_alloc_ok p) as Ha end.
    destruct (rtmp_packet_alloc _ _). apply Ha. destruct Hpw. by constructor. }
  destruct e2 as [r pkt2]. cbn [snd] in Hpw2.
  rewrite st_ok by (unfold zlen; cbn; lia). run.
  destruct (Z.eqb_spec 0 r) as [<-|]; cbn [negb].
  - eexists 0, _, rw. split; [done|]. intros _. split; [|done]. split; [|by apply running_rest].
    apply reader_wf_store; try done; [lia|by right].
  - eexists (- ENOMEM), _, None. split; [done|]. done.
Qed.

Lemma read_extended_timestamp_ok again : ps_state (parser t) = RTMP_PARSE_EXTENDED_TIMESTAMP →
  (∀ t4 four, ~ (zlen data ≤ 4 ∧ header_within t offset) → running t4 →
     ps_state (parser t4) = RTMP_PARSE_PAYLOAD → bytes_ok four → zlen four = 4 →
     ∃ r t', again t4 four 4 = Ok (r, t') ∧ (r = 0 → running t')) →
  ∃ r t' o, read_extended_timestamp realloc again t data (zlen data) offset = Ok (r, t', o) ∧
    step_post (zlen data) t offset r t' o.
Proof.
  intros Es Hagain. unfold read_extended_timestamp. pose proof (rw_parser _ Hwf) as Hp.
  unfold parser_wf in Hp. rewrite Es in Hp. destruct Hp as [Hbytes Hpk].
  destruct (ps_pkt (parser t)) as [i|] eqn:Epk; [|by eexists (- ENOMEM), _, _].
  destruct (Hpk i eq_refl) as (pkt & Hi & Hx & Hfm).
  assert (ld (in_packets t) i = Ok pkt) as ->.
  { unfold ld. destruct (Z.ltb_spec i 0); [lia|]. by rewrite Hx. }
  run. pose proof (chunk_fmt_range (parser t) (rw_buffer_bytes _ Hwf)) as Hf.
  pose proof (header_size_range _ Hf) as Hhs. rewrite Hfm, s_header_size_ok by done. run.
  pose proof (rw_basic _ Hwf ltac:(congruence)) as Hbl. pose proof (basic_len_range (first_byte (parser t))).
  fold (header_end (parser t)). set (ext4 := if _ =? _ then 4 else 0).
  assert (header_end (parser t) ≤ 14) by (unfold header_end; lia).
  assert (ps_basic_bytes (parser t) ≤ header_end (parser t)) by (unfold header_end; lia).
  assert (0 ≤ ext4 ≤ 4 ∧ (ext4 = 4 ∨ h_timestamp (p_header pkt) ≠ 16777215)) as [Hext Hext4].
  { unfold ext4. destruct (Z.eqb_spec (h_timestamp (p_header pkt)) 16777215); [split; [lia|by left]|].
    split; [lia|by right]. }
  set (size := Z.max (ps_bytes (parser t)) (header_end (parser t) + ext4)).
  assert (parser_fill FILL (header_end (parser t) + ext4) data (zlen data) (parser t) offset =
          parser_fill FILL size data (zlen data) (parser t) offset) as ->.
  { rewrite !parser_fill_spec; try done; try lia; try (rewrite (rw_buffer _ Hwf); lia).
    - cbv zeta. unfold fill_len, size.
      by replace (Z.max 0 (Z.min (header_end (parser t) + ext4 - ps_bytes (parser t)) (zlen data - offset)))
        with (Z.max 0 (Z.min (Z.max (ps_bytes (parser t)) (header_end (parser t) + ext4) - ps_bytes (parser t)) (zlen data - offset))) by lia.
    - unfold FILL, MAX_CHUNK_HEADER, size. lia.
    - unfold FILL, MAX_CHUNK_HEADER. lia. }
  destruct (fill_ok size ltac:(lia) ltac:(lia) Hbl) as (-> & Hk & Hb & Hle & Hk1 & H18 & Hbb & Hfb). run.
  set (k := fill_len _ _ _) in *. set (ps := fill _ _) in *.
  assert (ps_basic_bytes ps = ps_basic_bytes (parser t)) as Hbe by done.
  assert (ps_state ps = RTMP_PARSE_EXTENDED_TIMESTAMP) as Hst by done.
  assert (chunk_fmt ps = chunk_fmt (parser t)) as Hcf by (unfold chunk_fmt; congruence).
  assert (header_end ps = header_end (parser t)) as Hhe by (unfold header_end; congruence).
  rewrite Z.geb_leb. destruct (Z.leb_spec (header_end (parser t) + ext4) (ps_bytes ps)).
  - destruct (read_chunk_start_ok ps i pkt H18 Hbb ltac:(congruence) Epk Hi Hx ltac:(congruence))
      as (r & t1 & rw & -> & Hr). run.
    destruct (Z.eqb_spec 0 r) as [<-|]; cbn [negb]; [|by eexists r, _, _].
    destruct (Hr eq_refl) as (Hrun1 & Hst1 & Hrw). destruct rw as [four|].
    + destruct (Hrw four eq_refl) as (H4 & Hb4 & Hts & Hf3).
      destruct Hext4 as [He4|]; [|done].
      assert (header_size (chunk_fmt (parser t)) = 0) as Hh0 by (rewrite <- Hfm, Hf3; done).
      assert (ps_bytes ps = size) by lia.
      assert (¬ (zlen data ≤ 4 ∧ header_within t offset)) as Hdeep.
      { intros [Hz Hin]. unfold header_within in Hin. rewrite Es in Hin. unfold header_end in *. lia. }
      destruct (Hagain t1 four Hdeep Hrun1 Hst1 Hb4 H4) as (r' & t2 & -> & Hr'). run.
      eexists _, _, _. split; [reflexivity|]. intros Hr0. split; [by apply Hr'|split; [lia|split]].
      * unfold rank at 2. rewrite Es. assert (rank t2 ≤ 4) by (unfold rank; case_match; lia). lia.
      * intros Hz Hin. by destruct Hdeep.
    + eexists _, _, _. split; [reflexivity|]. intros _. split; [done|split; [lia|split]].
      * unfold rank. rewrite Hst1, Es. lia.
      * intros _ _. unfold header_within. by rewrite Hst1.
  - eexists _, _, _. split; [reflexivity|]. intros _. split; [|split; [lia|split]].
    + split; [|by apply running_rest]. apply reader_wf_parser; [done..| |].
      * intros _. by rewrite Hbe, Hfb.
      * unfold parser_wf. rewrite Hst. rewrite Hhe. split; [lia|]. intros j Hj.
        assert (ps_pkt ps = ps_pkt (parser t)) as Hpe by done.
        destruct (Hpk j) as (x & ? & ? & ?); [congruence|]. exists x. by rewrite Hcf.
    + unfold rank. cbn [set_reader parser]. rewrite Hst, Es. lia.
    + unfold header_within. cbn [set_reader parser]. rewrite Hst, Es. lia.
Qed.

Lemma read_payload_ok : ps_state (parser t) = RTMP_PARSE_PAYLOAD →
  ∃ r t' o, read_payload handler t data (zlen data) offset = Ok (r, t', o) ∧
    step_post (zlen data) t offset r t' o.
Proof.
  intros Es. unfold read_payload. pose proof (rw_parser _ Hwf) as Hp.
  unfold parser_wf in Hp. rewrite Es in Hp. pose proof (proj1 (proj2 Hrun)) as Hics.
  destruct (ps_pkt (parser t)) as [i|] eqn:Epk; [|by eexists (- ENOMEM), _, _].
  specialize (Hp i eq_refl). pose proof (rw_packets _ Hwf) as Hl.
  destruct (ld_packet (in_packets t) i Hl ltac:(unfold zlen in Hp; lia)) as (pkt & -> & Hx). run.
  pose proof (Forall_lookup_1 _ _ _ _ (rw_packet _ Hwf) Hx) as [Hpf Hpt Hpl Hpb Hpp Hpn].
  destruct (p_payload pkt) as [m|]; [|by eexists (- ENOMEM), _, _].
  destruct (Hpp m eq_refl) as [Hm Hmb].
  destruct (_ || _ || _) eqn:Eg; [by eexists (- ENOMEM), _, _|].
  apply orb_false_elim in Eg as [[_ Eg1]%orb_false_elim Eg2]. rewrite Z.gtb_ltb in Eg1, Eg2.
  apply Z.ltb_ge in Eg1, Eg2. destruct (Z.eqb_spec (in_chunk_size t) 0); [lia|].
  set (len := h_length (p_header pkt)) in *.
  pose proof (Z.rem_bound_pos (p_bytes pkt) (in_chunk_size t) ltac:(lia) Hics).
  set (size := Z.min _ (zlen data - offset)).
  assert (0 ≤ size ≤ zlen data - offset ∧ size ≤ len - p_bytes pkt ∧
    (p_bytes pkt < len → 1 ≤ size)) as (Hs1 & Hs2 & Hs3) by (unfold size; lia).
  rewrite slice_ok by lia. run. assert (zlen (sub data offset size) = size) by (apply zlen_sub; lia).
  rewrite st_ok by lia. run. set (m' := put m (p_bytes pkt) (sub data offset size)).
  assert (zlen m' = p_capacity pkt) as Hm' by (unfold m'; rewrite zlen_put; lia).
  assert (bytes_ok m') as Hmb' by (unfold m'; auto with cint).
  assert (∀ b, 0 ≤ b ≤ p_capacity pkt →
    packet_wf (RtmpPacket (p_header pkt) (p_delta pkt) (p_clock pkt) (Some m') (p_capacity pkt) b)) as Hpw.
  { intros b Hb. constructor; cbn [p_header p_bytes p_capacity p_payload]; try done. by intros ? [= <-]. }
  rewrite Z.geb_leb. destruct (Z.leb_spec len (p_bytes pkt + size)).
  - rewrite st_ok by llia. run. rewrite slice_ok by (fold len; lia). run.
    match goal with |- context [handler ?t1 ?h1 ?m1] =>
      destruct (handler_ok t1 h1 m1) as (r & t1' & -> & Hpk' & Hps' & Hics') end.
    { done. } { apply session_inv_reader, Hrun. } { by apply bytes_ok_sub. }
    { cbn [h_length]. fold len. apply zlen_sub; lia. } { cbn [h_length]. lia. }
    run. eexists _, _, _. split; [reflexivity|]. intros ->.
    assert (reader_wf (set_reader t (put (in_packets t) i
      [RtmpPacket (p_header pkt) (p_delta pkt) (p_clock pkt) (Some m') (p_capacity pkt) 0])
      (with_state (parser t) RTMP_PARSE_INIT))) as Hw1.
    { unfold zlen in Hp. apply reader_wf_store; try done; try apply Hwf; [lia|apply Hpw; lia|by left]. }
    split; [|split; [lia|split]].
    + split; [|by apply Hics']. destruct Hw1. by constructor; rewrite ?Hpk', ?Hps'.
    + unfold rank. rewrite Hps', Es. cbn. lia.
    + unfold header_within. rewrite Hps'. by cbn.
  - rewrite st_ok by llia. run.
    eexists _, _, _. split; [reflexivity|]. intros _. split; [|split; [lia|split]].
    + split; [|by apply running_rest]. unfold zlen in Hp. apply reader_wf_store; try (case_match; apply Hwf); [lia|apply Hpw; lia| |].
      * case_match; [by cbn|]. intros _. apply Hwf. congruence.
      * case_match; [by left|right; done].
    + unfold rank. cbn [set_reader parser]. rewrite Es. case_match; cbn [with_state ps_state]; rewrite ?Es; lia.
    + intros _ _. unfold header_within. cbn [set_reader parser].
      destruct (0 =? _); cbn [with_state ps_state]; rewrite ?Es; done.
Qed.
End StepSafe.

(** * The reader is safe and terminates *)

Section ReadSafe.
Context {P : Type} (realloc : Z → bool).
Context (handler : rtmp_t P → rtmp_chunk_header_t → list Z → outcome (Z * rtmp_t P)).
Context {Inv : SessionInvariant P} {Hhandler : MessageHandler handler}.

(** What a recursive call must give for the input [data] read from [t]. *)
Definition again_ok (again : rtmp_t P → list Z → Z → outcome (Z * rtmp_t P)) : Prop :=
  ∀ t4 four, running t4 → ps_state (parser t4) = RTMP_PARSE_PAYLOAD → bytes_ok four →
    zlen four = 4 → ∃ r t', again t4 four 4 = Ok (r, t') ∧ (r = 0 → running t').

Lemma rtmp_chunk_read_step_ok again t data offset : running t → bytes_ok data →
  0 ≤ offset < zlen data → again_ok again ∨ zlen data ≤ 4 ∧ header_within t offset →
  ∃ r t' o, rtmp_chunk_read_step realloc handler again t data (zlen data) offset = Ok (r, t', o) ∧
    step_post (zlen data) t offset r t' o.
Proof.
  intros Hrun Hd Ho Hag. unfold rtmp_chunk_read_step. destruct (ps_state (parser t)) eqn:Es.
  - by apply read_init_ok.
  - by apply read_basic_header_ok.
  - by apply read_message_header_ok.
  - apply read_extended_timestamp_ok; try done. intros t4 four Hdeep. destruct Hag; [|done]. auto.
  - by apply read_payload_ok.
Qed.

Lemma rtmp_chunk_read_loop_ok again data fuel : bytes_ok data → ∀ t offset,
  running t → 0 ≤ offset ≤ zlen data → again_ok again ∨ zlen data ≤ 4 ∧ header_within t offset →
  5 * (zlen data - offset) + rank t ≤ Z.of_nat fuel →
  ∃ r t', rtmp_chunk_read_loop realloc handler fuel again t data (zlen data) offset = Ok (r, t') ∧
    (r = 0 → running t').
Proof.
  intros Hd. induction fuel as [|fuel IH]; intros t offset Hrun Ho Hag Hf; cbn [rtmp_chunk_read_loop];
    (destruct (Z.ltb_spec offset (zlen data)); [|by eexists 0, t]).
  { assert (0 ≤ rank t) by (unfold rank; case_match; lia). lia. }
  destruct (rtmp_chunk_read_step_ok again t data offset Hrun Hd ltac:(lia) Hag)
    as (r & t1 & o & -> & Hpost). run.
  destruct (Z.eqb_spec 0 r) as [<-|]; cbn [negb]; [|by eexists r, t1].
  destruct (Hpost eq_refl) as (Hrun1 & Ho1 & Hm & Hhw). apply IH; [done|lia| |lia].
  destruct Hag as [|[? ?]]; [by left|right]. auto.
Qed.

Lemma read_fuel_enough (t : rtmp_t P) bytes : 0 ≤ bytes → 5 * (bytes - 0) + rank t ≤ Z.of_nat (read_fuel bytes).
Proof. unfold read_fuel, rank. case_match; lia. Qed.

(** The recursive call has four bytes and starts in the payload state. *)
Lemma again_ok_depth1 : again_ok (rtmp_chunk_read_depth realloc handler 1).
Proof.
  intros t4 four Hrun Hs Hb H4. cbn [rtmp_chunk_read_depth].
  replace 4 with (zlen four). apply rtmp_chunk_read_loop_ok; try done; [lia| |apply read_fuel_enough; lia].
  right. split; [lia|]. unfold header_within. by rewrite Hs.
Qed.

Lemma rtmp_chunk_read_ok t data : running t → bytes_ok data →
  ∃ r t', rtmp_chunk_read realloc handler t data (zlen data) = Ok (r, t') ∧ (r = 0 → running t').
Proof.
  intros Hrun Hd. unfold rtmp_chunk_read. cbn [rtmp_chunk_read_depth]. pose proof (zlen_nonneg data).
  apply rtmp_chunk_read_loop_ok; try done; [left; apply again_ok_depth1|].
  by apply read_fuel_enough.
Qed.
End ReadSafe.

(** * Input may be cut anywhere

    Reading [d1 ++ d2] is reading [d1] and then [d2]. *)

Definition shift {A} (n : Z) (x : outcome (A * Z)) : outcome (A * Z) :=
  match x with Ok (a, o) => Ok (a, n + o) | Fail r => Fail r | Ub => Ub end.

Lemma ld_app_r {A} (d1 d2 : list A) o : 0 ≤ o → ld (d1 ++ d2) (zlen d1 + o) = ld d2 o.
Proof.
  intros. unfold ld, zlen. destruct (Z.ltb_spec (Z.of_nat (length d1) + o) 0), (Z.ltb_spec o 0); try lia.
  rewrite lookup_app_r by lia.
  by replace (Z.to_nat (Z.of_nat (length d1) + o) - length d1)%nat with (Z.to_nat o) by lia.
Qed.

Lemma slice_app_r {A} (d1 d2 : list A) o n : 0 ≤ o → slice (d1 ++ d2) (zlen d1 + o) n = slice d2 o n.
Proof.
  intros. unfold slice. pose proof (zlen_nonneg d1). rewrite zlen_app.
  replace (zlen d1 + o + n <=? zlen d1 + zlen d2) with (o + n <=? zlen d2)
    by (destruct (Z.leb_spec (o + n) (zlen d2)), (Z.leb_spec (zlen d1 + o + n) (zlen d1 + zlen d2)); done || lia).
  replace (0 <=? zlen d1 + o) with (0 <=? o)
    by (destruct (Z.leb_spec 0 o), (Z.leb_spec 0 (zlen d1 + o)); done || lia).
  rewrite sub_app_r by lia. by replace (zlen d1 + o - zlen d1) with o by lia.
Qed.

Lemma ld_app_l {A} (d1 d2 : list A) o : 0 ≤ o < zlen d1 → ld (d1 ++ d2) o = ld d1 o.
Proof. intros. unfold ld, zlen in *. by rewrite lookup_app_l by lia. Qed.

Lemma parser_fill_shift d1 d2 size fuel : ∀ ps o, 0 ≤ o →
  parser_fill fuel size (d1 ++ d2) (zlen (d1 ++ d2)) ps (zlen d1 + o) =
  shift (zlen d1) (parser_fill fuel size d2 (zlen d2) ps o).
Proof.
  induction fuel as [|fuel IH]; intros ps o Ho; cbn [parser_fill]; rewrite zlen_app in *;
    replace (zlen d1 + o <? zlen d1 + zlen d2) with (o <? zlen d2)
      by (destruct (Z.ltb_spec o (zlen d2)), (Z.ltb_spec (zlen d1 + o) (zlen d1 + zlen d2)); done || lia);
    (destruct ((ps_bytes ps <? size) && (o <? zlen d2)); [|done]); [done|].
  rewrite ld_app_r by done. destruct (ld d2 o); run; try done.
  destruct (st _ _ _); run; try done. rewrite <- Z.add_assoc. rewrite IH by lia. done.
Qed.

(** A fill cut by the end of [d1] is resumed by [d2]. *)
Lemma parser_fill_app d1 d2 size ps o :
  0 ≤ o ≤ zlen d1 → 0 ≤ ps_bytes ps ≤ 18 → zlen (ps_buffer ps) = 18 → size ≤ 18 →
  ∃ bs o1, let ps1 := fill ps bs in
    parser_fill FILL size d1 (zlen d1) ps o = Ok (ps1, o1) ∧ ps_bytes ps + zlen bs ≤ 18 ∧
    (size ≤ ps_bytes ps1 ∧
       parser_fill FILL size (d1 ++ d2) (zlen (d1 ++ d2)) ps o = Ok (ps1, o1) ∨
     ps_bytes ps1 < size ∧ o1 = zlen d1 ∧
       parser_fill FILL size (d1 ++ d2) (zlen (d1 ++ d2)) ps o =
       shift (zlen d1) (parser_fill FILL size d2 (zlen d2) ps1 0)).
Proof.
  intros Ho Hb H18 Hs. pose proof (zlen_nonneg d2) as Hz2. assert (Z.of_nat FILL = 18) as HF by done.
  rewrite (parser_fill_spec FILL size d1 _ ps o) by (done || lia). cbv zeta.
  set (k1 := fill_len ps size (zlen d1 - o)).
  assert (0 ≤ k1 ≤ zlen d1 - o) by (unfold k1, fill_len; lia).
  assert (zlen (sub d1 o k1) = k1) as Hk1 by (apply zlen_sub; lia).
  assert (ps_bytes (fill ps (sub d1 o k1)) = ps_bytes ps + k1) as Hpb by (unfold fill; cbn [ps_bytes]; lia).
  eexists _, _. cbv zeta. split; [reflexivity|]. split; [unfold k1, fill_len in *; lia|].
  rewrite (parser_fill_spec FILL size (d1 ++ d2) _ ps o) by (rewrite ?zlen_app; done || lia). cbv zeta.
  rewrite zlen_app. set (k := fill_len ps size (zlen d1 + zlen d2 - o)).
  destruct (decide (size ≤ ps_bytes ps + k1)) as [Hc|Hc].
  - left. split; [lia|]. assert (k = k1) as -> by (unfold k, k1, fill_len in *; lia).
    rewrite sub_app_l by lia. done.
  - right. split; [lia|]. assert (k1 = zlen d1 - o) as Ek by (unfold k1, fill_len in *; lia).
    split; [lia|].
    assert (zlen (ps_buffer (fill ps (sub d1 o k1))) = 18) as H18'
      by (unfold fill; cbn [ps_buffer]; rewrite zlen_put; unfold k1, fill_len in *; lia).
    rewrite (parser_fill_spec FILL size d2) by (done || lia). cbv zeta. cbn [shift].
    set (k2 := fill_len (fill ps (sub d1 o k1)) size (zlen d2 - 0)).
    assert (k2 = Z.max 0 (Z.min (size - (ps_bytes ps + k1)) (zlen d2))) as Ek2
      by (unfold k2, fill_len; rewrite Hpb, Z.sub_0_r; done).
    assert (k = k1 + k2) as Hk by (unfold k, fill_len in *; lia).
    assert (0 ≤ k2 ≤ zlen d2) by lia.
    rewrite fill_app by (unfold k1, fill_len in *; lia). do 2 f_equal; [|lia].
    f_equal. rewrite Hk, sub_sub_app by (rewrite ?zlen_app; lia). f_equal.
    + by apply sub_app_l; lia.
    + rewrite sub_app_r by lia. f_equal. lia.
Qed.

Lemma Ok3_inj {A B C} (a a' : A) (b b' : B) (c c' : C) :
  Ok (a, b, c) = Ok (a', b', c') → a = a' ∧ b = b' ∧ c = c'.
Proof. intros E. apply Ok_inj in E. by simplify_eq. Qed.

Lemma put_twice {A} (m : list A) p x y : 0 ≤ p < zlen m → put (put m p [x]) p [y] = put m p [y].
Proof.
  intros. unfold put, zlen in *. cbn [length].
  rewrite take_app_length' by (rewrite length_take; lia). f_equal. f_equal.
  rewrite drop_app_ge by (rewrite length_take; lia). rewrite length_take.
  replace (Z.to_nat p + 1 - _)%nat with 1%nat by lia. done.
Qed.

Lemma ld_put {A} (m : list A) p x : 0 ≤ p < zlen m → ld (put m p [x]) p = Ok x.
Proof.
  intros. unfold ld, put, zlen in *. destruct (Z.ltb_spec p 0); [lia|].
  rewrite lookup_app_r by (rewrite length_take; lia). rewrite length_take.
  by replace (Z.to_nat p - _)%nat with 0%nat by lia.
Qed.

Lemma rem_add_small b c s : 0 ≤ b → 0 < c → 0 ≤ s < c - Z.rem b c → Z.rem (b + s) c = Z.rem b c + s.
Proof.
  intros Hb Hc Hs. pose proof (Z.rem_bound_pos b c Hb Hc). rewrite Z.rem_mod_nonneg in * by lia.
  rewrite Z.rem_mod_nonneg by lia. symmetry. apply Z.mod_unique_pos with (b / c); [lia|].
  pose proof (Z.div_mod b c). lia.
Qed.

Section Fragments.
Context {P : Type} (realloc : Z → bool).
Context (handler : rtmp_t P → rtmp_chunk_header_t → list Z → outcome (Z * rtmp_t P)).
Context {Inv : SessionInvariant P} {Hhandler : MessageHandler handler}.
Context (again : rtmp_t P → list Z → Z → outcome (Z * rtmp_t P)).
Variables d1 d2 : list Z.

Local Abbreviation step := (rtmp_chunk_read_step realloc handler again).
Local Abbreviation loop := (λ f, rtmp_chunk_read_loop realloc handler f again).

Lemma step_shift t o : 0 ≤ o →
  step t (d1 ++ d2) (zlen (d1 ++ d2)) (zlen d1 + o) = shift (zlen d1) (step t d2 (zlen d2) o).
Proof.
  intros Ho. unfold rtmp_chunk_read_step. destruct (ps_state (parser t)).
  - unfold read_init. rewrite ld_app_r by done. next. next. cbn [shift]; by rewrite Z.add_assoc.
  - unfold read_basic_header. rewrite parser_fill_shift by done.
    destruct (parser_fill _ _ d2 _ _ _) as [| |[ps o2]]; done.
  - unfold read_message_header. next. next. rewrite parser_fill_shift by done.
    destruct (parser_fill _ _ d2 _ _ _) as [| |[ps o2]]; cbn [shift]; run; try done.
    case_match; [|done]. destruct (rtmp_packet_parse _ _) as [| |[pkts o3]]; done.
  - unfold read_extended_timestamp. destruct (ps_pkt (parser t)) as [i|]; [|done].
    next. next. rewrite parser_fill_shift by done.
    destruct (parser_fill _ _ d2 _ _ _) as [| |[ps o2]]; cbn [shift]; run; try done.
    case_match; [|done]. destruct (read_chunk_start _ _ _ _) as [| |[[r t1] rw]]; run; try done.
    destruct (negb _); [done|]. destruct rw as [four|]; [|done].
    destruct (again _ _ _) as [| |[r2 t2]]; done.
  - unfold read_payload. destruct (ps_pkt (parser t)) as [i|]; [|done]. next.
    destruct (p_payload _) as [m|]; [|done]. destruct (_ || _ || _); [done|].
    destruct (_ =? 0); [done|]. rewrite zlen_app.
    replace (zlen d1 + zlen d2 - (zlen d1 + o)) with (zlen d2 - o) by lia.
    rewrite slice_app_r by done. next. next. case_match.
    + next. next. destruct (handler _ _ _) as [| |[r2 t2]]; run; try done. cbn [shift]; by rewrite Z.add_assoc.
    + next. cbn [shift]; by rewrite Z.add_assoc.
Qed.

Lemma loop_shift f : ∀ t o, 0 ≤ o → running t → again_ok again → bytes_ok d2 → o ≤ zlen d2 →
  loop f t (d1 ++ d2) (zlen (d1 ++ d2)) (zlen d1 + o) = loop f t d2 (zlen d2) o.
Proof.
  induction f as [|f IH]; intros t o Ho Hrun Hag Hd Hle; cbn [rtmp_chunk_read_loop];
    replace (zlen d1 + o <? zlen (d1 ++ d2)) with (o <? zlen d2)
      by (rewrite zlen_app; destruct (Z.ltb_spec o (zlen d2)), (Z.ltb_spec (zlen d1 + o) (zlen d1 + zlen d2)); done || lia);
    (destruct (Z.ltb_spec o (zlen d2)); [|done]); [done|].
  rewrite step_shift by done.
  destruct (rtmp_chunk_read_step_ok realloc handler again t d2 o Hrun Hd ltac:(lia) ltac:(by left))
    as (r & t1 & o1 & -> & Hpost). cbn [shift]. run.
  destruct (Z.eqb_spec 0 r) as [<-|]; cbn [negb]; [|done].
  destruct (Hpost eq_refl) as (? & ? & _). apply IH; try done; lia.
Qed.

(** A step within [d1], seen within [d1 ++ d2]: the same, or cut. *)
Definition cut_step (t : rtmp_t P) (o r : Z) (t' : rtmp_t P) (o' : Z) : Prop :=
  step t (d1 ++ d2) (zlen (d1 ++ d2)) o = Ok (r, t', o') ∨
  r = 0 ∧ o' = zlen d1 ∧
    step t (d1 ++ d2) (zlen (d1 ++ d2)) o = shift (zlen d1) (step t' d2 (zlen d2) 0).

Variables (t : rtmp_t P) (o : Z).
Hypothesis Hrun : running t.
Hypothesis Hag : again_ok again.
Hypothesis Hd1 : bytes_ok d1.
Hypothesis Hd2 : bytes_ok d2.
Hypothesis Ho : 0 ≤ o < zlen d1.
Hypothesis Hne : 0 < zlen d2.

Let Hwf : reader_wf t := proj1 Hrun.

(** The header states: what the fill found is independent of the cut. *)
Lemma fill_same bs : 1 ≤ ps_bytes (parser t) → ps_bytes (parser t) + zlen bs ≤ 18 →
  first_byte (fill (parser t) bs) = first_byte (parser t).
Proof. intros. apply first_byte_fill; [done|]. by rewrite (rw_buffer _ Hwf). Qed.

Lemma cut_basic_header r t' o' : ps_state (parser t) = RTMP_PARSE_BASIC_HEADER →
  step t d1 (zlen d1) o = Ok (r, t', o') → cut_step t o r t' o'.
Proof.
  intros Es. unfold cut_step, rtmp_chunk_read_step at 1 2 3. rewrite Es. unfold read_basic_header.
  pose proof (rw_parser _ Hwf) as Hp. unfold parser_wf in Hp. rewrite Es in Hp.
  pose proof (rw_basic _ Hwf ltac:(congruence)) as Hbl.
  pose proof (basic_len_range (first_byte (parser t))).
  destruct (parser_fill_app d1 d2 (ps_basic_bytes (parser t)) (parser t) o)
    as (bs & o1 & -> & Hbs & Hcase); [lia|lia|apply Hwf|lia|]. run. intros E.
  destruct Hcase as [[Hc ->]|(Hc & -> & ->)]; [by left|right].
  change (ps_basic_bytes (fill (parser t) bs)) with (ps_basic_bytes (parser t)) in *.
  rewrite (proj2 (geb_false _ _) Hc) in E. apply Ok3_inj in E as (<- & <- & <-).
  split_and!; [done..|]. unfold rtmp_chunk_read_step. cbn [set_reader parser].
  change (ps_state (fill (parser t) bs)) with (ps_state (parser t)). rewrite Es.
  unfold read_basic_header. cbn [set_reader parser].
  change (ps_basic_bytes (fill (parser t) bs)) with (ps_basic_bytes (parser t)).
  destruct (parser_fill _ _ d2 _ _ _) as [| |[ps2 o2]]; done.
Qed.

Lemma cut_message_header r t' o' : ps_state (parser t) = RTMP_PARSE_MESSAGE_HEADER →
  step t d1 (zlen d1) o = Ok (r, t', o') → cut_step t o r t' o'.
Proof.
  intros Es. unfold cut_step, rtmp_chunk_read_step at 1 2 3. rewrite Es. unfold read_message_header.
  pose proof (rw_parser _ Hwf) as Hp. unfold parser_wf in Hp. rewrite Es in Hp.
  pose proof (rw_basic _ Hwf ltac:(congruence)) as Hbl.
  pose proof (basic_len_range (first_byte (parser t))).
  pose proof (chunk_fmt_range (parser t) (rw_buffer_bytes _ Hwf)) as Hf.
  pose proof (header_size_range _ Hf) as Hhs. pose proof (rw_buffer _ Hwf) as H18.
  rewrite ld_ok by lia. run. change (Z.shiftr _ 6) with (chunk_fmt (parser t)).
  rewrite s_header_size_ok by done. run. fold (header_end (parser t)).
  assert (header_end (parser t) ≤ 18) by (unfold header_end; lia).
  destruct (parser_fill_app d1 d2 (header_end (parser t)) (parser t) o)
    as (bs & o1 & -> & Hbs & Hcase); [lia|lia|done|lia|]. run. intros E.
  destruct Hcase as [[Hc ->]|(Hc & -> & ->)]; [by left|right].
  rewrite (proj2 (geb_false _ _) Hc) in E. apply Ok3_inj in E as (<- & <- & <-).
  split_and!; [done..|]. unfold rtmp_chunk_read_step. cbn [set_reader parser].
  change (ps_state (fill (parser t) bs)) with (ps_state (parser t)). rewrite Es.
  unfold read_message_header. cbn [set_reader parser].
  rewrite (ld_ok (ps_buffer (fill _ _)) 0) by (unfold fill; cbn [ps_buffer]; rewrite zlen_put; lia).
  run. change (ps_buffer (fill (parser t) bs) !!! Z.to_nat 0) with (first_byte (fill (parser t) bs)).
  rewrite fill_same by lia. change (Z.shiftr _ 6) with (chunk_fmt (parser t)).
  rewrite s_header_size_ok by done. run.
  change (ps_basic_bytes (fill (parser t) bs)) with (ps_basic_bytes (parser t)).
  fold (header_end (parser t)).
  destruct (parser_fill _ _ d2 _ _ _) as [| |[ps2 o2]]; run; try done. cbn [shift]. run.
  case_match; [|done]. cbn [set_reader in_packets].
  destruct (rtmp_packet_parse _ _) as [| |[pkts pk]]; done.
Qed.

Lemma cut_extended_timestamp r t' o' : ps_state (parser t) = RTMP_PARSE_EXTENDED_TIMESTAMP →
  step t d1 (zlen d1) o = Ok (r, t', o') → cut_step t o r t' o'.
Proof.
  intros Es. unfold cut_step, rtmp_chunk_read_step at 1 2 3. rewrite Es. unfold read_extended_timestamp.
  pose proof (rw_parser _ Hwf) as Hp. unfold parser_wf in Hp. rewrite Es in Hp. destruct Hp as [Hb Hpk].
  destruct (ps_pkt (parser t)) as [i|] eqn:Epk; [|by left].
  destruct (Hpk i eq_refl) as (pkt & Hi & Hx & Hfm).
  assert (ld (in_packets t) i = Ok pkt) as Hld.
  { unfold ld. destruct (Z.ltb_spec i 0); [lia|]. by rewrite Hx. }
  rewrite Hld. run. pose proof (chunk_fmt_range (parser t) (rw_buffer_bytes _ Hwf)) as Hf.
  pose proof (header_size_range _ Hf) as Hhs. rewrite Hfm, s_header_size_ok by done. run.
  pose proof (rw_basic _ Hwf ltac:(congruence)) as Hbl.
  pose proof (basic_len_range (first_byte (parser t))). fold (header_end (parser t)) in *.
  set (ext4 := if _ =? _ then 4 else 0). assert (0 ≤ ext4 ≤ 4) by (unfold ext4; case_match; lia).
  assert (ps_basic_bytes (parser t) ≤ header_end (parser t) ≤ 14) by (unfold header_end; lia).
  destruct (parser_fill_app d1 d2 (header_end (parser t) + ext4) (parser t) o)
    as (bs & o1 & -> & Hbs & Hcase); [lia|lia|apply Hwf|lia|]. run. intros E.
  destruct Hcase as [[Hc ->]|(Hc & -> & ->)]; [by left|right].
  rewrite (proj2 (geb_false _ _) Hc) in E. apply Ok3_inj in E as (<- & <- & <-).
  split_and!; [done..|]. unfold rtmp_chunk_read_step. cbn [set_reader parser].
  change (ps_state (fill (parser t) bs)) with (ps_state (parser t)). rewrite Es.
  unfold read_extended_timestamp. cbn [set_reader parser in_packets].
  change (ps_pkt (fill (parser t) bs)) with (ps_pkt (parser t)). rewrite Epk, Hld. run.
  rewrite Hfm, s_header_size_ok by done. run.
  change (ps_basic_bytes (fill (parser t) bs)) with (ps_basic_bytes (parser t)).
  fold (header_end (parser t)) ext4.
  destruct (parser_fill _ _ d2 _ _ _) as [| |[ps2 o2]]; run; try done. cbn [shift]. run.
  case_match; [|done].
  change (read_chunk_start realloc (set_reader t (in_packets t) (fill (parser t) bs)) ps2 i)
    with (read_chunk_start realloc t ps2 i).
  destruct (read_chunk_start _ _ _ _) as [| |[[r t1] rw]]; run; try done.
  destruct (negb _); [done|]. destruct rw as [four|]; [|done].
  destruct (again _ _ _) as [| |[r2 t2]]; done.
Qed.

Lemma cut_init r t' o' : ps_state (parser t) = RTMP_PARSE_INIT →
  step t d1 (zlen d1) o = Ok (r, t', o') → cut_step t o r t' o'.
Proof.
  intros Es. unfold cut_step, rtmp_chunk_read_step at 1 2. rewrite Es. unfold read_init.
  rewrite ld_app_l by done. by left.
Qed.

Lemma cut_payload r t' o' : ps_state (parser t) = RTMP_PARSE_PAYLOAD →
  step t d1 (zlen d1) o = Ok (r, t', o') → cut_step t o r t' o'.
Proof.
  intros Es. unfold cut_step, rtmp_chunk_read_step at 1 2 3. rewrite Es. unfold read_payload.
  pose proof (rw_parser _ Hwf) as Hp. unfold parser_wf in Hp. rewrite Es in Hp.
  pose proof (proj1 (proj2 Hrun)) as Hics.
  destruct (ps_pkt (parser t)) as [i|] eqn:Epk; [|by left].
  specialize (Hp i eq_refl). pose proof (rw_packets _ Hwf) as Hl.
  destruct (ld_packet (in_packets t) i Hl ltac:(unfold zlen in Hp; lia)) as (pkt & -> & Hx). run.
  pose proof (Forall_lookup_1 _ _ _ _ (rw_packet _ Hwf) Hx) as [Hpf Hpt Hpl Hpb Hpp Hpn].
  destruct (p_payload pkt) as [m|]; [|by left]. destruct (Hpp m eq_refl) as [Hm _].
  destruct (_ || _ || _) eqn:Eg; [by left|].
  apply orb_false_elim in Eg as [[_ Eg1]%orb_false_elim Eg2]. rewrite Z.gtb_ltb in Eg1, Eg2.
  apply Z.ltb_ge in Eg1, Eg2. destruct (Z.eqb_spec (in_chunk_size t) 0); [lia|].
  set (c := in_chunk_size t) in *. set (b := p_bytes pkt) in *. set (len := h_length (p_header pkt)) in *.
  pose proof (Z.rem_bound_pos b c ltac:(lia) Hics). set (M := Z.min (c - Z.rem b c) (len - b)).
  rewrite zlen_app. destruct (decide (M ≤ zlen d1 - o)) as [HM|HM].
  { intros E. left. replace (Z.min M (zlen d1 + zlen d2 - o)) with (Z.min M (zlen d1 - o)) by lia.
    rewrite (slice_ok (d1 ++ d2)) by (rewrite ?zlen_app; lia).
    rewrite (slice_ok d1) in E by lia. rewrite sub_app_l by lia. done. }
  intros E. right.
  replace (Z.min M (zlen d1 - o)) with (zlen d1 - o) in E by lia.
  set (s1 := zlen d1 - o) in *. rewrite slice_ok in E by lia.
  assert (zlen (sub d1 o s1) = s1) as Hz1 by (apply zlen_sub; lia).
  cbn [mbind outcome_bind] in E. rewrite st_ok in E by lia. cbn [mbind outcome_bind] in E.
  rewrite (proj2 (geb_false (b + s1) len)) in E by lia.
  rewrite st_ok in E by llia. cbn [mbind outcome_bind] in E.
  assert (Z.rem (b + s1) c = Z.rem b c + s1) as Hrem by (apply rem_add_small; lia).
  rewrite Hrem in E. destruct (Z.eqb_spec 0 (Z.rem b c + s1)); [lia|].
  apply Ok3_inj in E as (<- & <- & <-). split; [done|]. split; [lia|].
  unfold rtmp_chunk_read_step. cbn [set_reader parser]. rewrite Es.
  unfold read_payload. cbn [set_reader parser in_packets in_chunk_size]. rewrite Epk.
  rewrite ld_put by done. run. cbn [p_payload p_bytes p_capacity p_header p_clock p_delta]. fold len c b.
  replace ((b + s1 >? p_capacity pkt) || (b + s1 >? len) || (len >? p_capacity pkt)) with false.
  2:{ rewrite !Z.gtb_ltb. destruct (Z.ltb_spec (p_capacity pkt) (b + s1)), (Z.ltb_spec len (b + s1)),
        (Z.ltb_spec (p_capacity pkt) len); done || lia. }
  destruct (Z.eqb_spec c 0); [lia|]. rewrite Hrem.
  set (s2 := Z.min (Z.min (c - (Z.rem b c + s1)) (len - (b + s1))) (zlen d2 - 0)).
  assert (0 ≤ s2 ≤ zlen d2) by (unfold s2; lia).
  replace (Z.min M (zlen d1 + zlen d2 - o)) with (s1 + s2) by (unfold s2; lia).
  rewrite (slice_ok (d1 ++ d2)) by (rewrite ?zlen_app; lia).
  rewrite (slice_ok d2) by lia. run.
  assert (sub (d1 ++ d2) o (s1 + s2) = sub d1 o s1 ++ sub d2 0 s2) as ->.
  { rewrite sub_sub_app by (rewrite ?zlen_app; lia). rewrite sub_app_l by lia. f_equal.
    rewrite sub_app_r by lia. f_equal. lia. }
  assert (zlen (sub d2 0 s2) = s2) as Hz2 by (apply zlen_sub; lia).
  assert (s2 ≤ len - (b + s1)) by (unfold s2; lia).
  rewrite (st_ok m b) by (rewrite ?zlen_app; lia).
  rewrite (st_ok (put m b _)) by (rewrite ?zlen_put; lia). run.
  rewrite put_app_at by lia. rewrite Z.add_assoc.
  destruct (b + s1 + s2 >=? len).
  - rewrite !st_ok by llia. run. rewrite put_twice by done.
    set (m2 := put m b _). destruct (slice m2 0 len) as [| |msg]; run; try done.
    destruct (handler _ _ _) as [| |[r2 t2]]; run; try done. cbn [shift]. do 2 f_equal. lia.
  - rewrite !st_ok by llia. run. rewrite put_twice by done. cbn [shift]. do 2 f_equal. lia.
Qed.

Lemma step_cut r t' o' : step t d1 (zlen d1) o = Ok (r, t', o') → cut_step t o r t' o'.
Proof.
  destruct (ps_state (parser t)) eqn:Es; eauto using cut_init, cut_basic_header, cut_message_header,
    cut_extended_timestamp, cut_payload.
Qed.
End Fragments.

Section Whole.
Context {P : Type} (realloc : Z → bool).
Context (handler : rtmp_t P → rtmp_chunk_header_t → list Z → outcome (Z * rtmp_t P)).
Context {Inv : SessionInvariant P} {Hhandler : MessageHandler handler}.
Context (again : rtmp_t P → list Z → Z → outcome (Z * rtmp_t P)).
Hypothesis Hag : again_ok again.

Local Abbreviation step := (rtmp_chunk_read_step realloc handler again).
Local Abbreviation loop := (λ f, rtmp_chunk_read_loop realloc handler f again).

Lemma loop_more f f' : ∀ t data o x, (f ≤ f')%nat → loop f t data (zlen data) o = Ok x →
  loop f' t data (zlen data) o = Ok x.
Proof.
  revert f'. induction f as [|f IH]; intros [|f'] t data o x Hf; cbn [rtmp_chunk_read_loop];
    try lia; try done; (destruct (o <? zlen data); [|done]); [done|].
  destruct (step t data (zlen data) o) as [| |[[r t1] o1]]; run; try done.
  destruct (negb _); [done|]. apply IH. lia.
Qed.

Lemma loop_cut d1 d2 f : bytes_ok d1 → bytes_ok d2 → 0 < zlen d2 → ∀ t o r1 t1,
  running t → 0 ≤ o ≤ zlen d1 → loop f t d1 (zlen d1) o = Ok (r1, t1) →
  (r1 ≠ 0 → ∃ f', loop f' t (d1 ++ d2) (zlen (d1 ++ d2)) o = Ok (r1, t1)) ∧
  (r1 = 0 → ∀ f2 x, loop f2 t1 d2 (zlen d2) 0 = Ok x →
     ∃ f', loop f' t (d1 ++ d2) (zlen (d1 ++ d2)) o = Ok x).
Proof.
  intros Hd1 Hd2 Hz2. induction f as [|f IH]; intros t o r1 t1 Hrun Ho;
    cbn [rtmp_chunk_read_loop]; destruct (Z.ltb_spec o (zlen d1)) as [Hlt|Hge]; try done.
  1,3: intros E; apply Ok_inj in E; simplify_eq; split; [done|]; intros _ f2 x Hx;
    exists f2; assert (o = zlen d1 + 0) as -> by lia; by rewrite (loop_shift realloc handler again) by done || lia.
  destruct (rtmp_chunk_read_step_ok realloc handler again t d1 o Hrun Hd1 ltac:(lia) ltac:(by left))
    as (r & t' & o' & Es & Hpost). rewrite Es. run. intros E.
  pose proof (step_cut realloc handler again d1 d2 t o Hrun ltac:(lia) ltac:(done) r t' o' Es) as Hcut.
  assert (o < zlen (d1 ++ d2)) as Hlt' by (rewrite zlen_app; lia).
  destruct (Z.eqb_spec 0 r) as [<-|Hr]; cbn [negb] in E.
  - destruct (Hpost eq_refl) as (Hrun' & Ho' & _).
    destruct Hcut as [Hc|(_ & -> & Hc)].
    + destruct (IH t' o' r1 t1 Hrun' ltac:(lia) E) as [IH1 IH2].
      split; [intros Hr1; destruct (IH1 Hr1) as [f' Hf']|intros Hr1 f2 x Hx; destruct (IH2 Hr1 f2 x Hx) as [f' Hf']];
        exists (S f'); cbn [rtmp_chunk_read_loop];
        (destruct (Z.ltb_spec o (zlen (d1 ++ d2))); [|lia]); rewrite Hc; run; done.
    + destruct f as [|f]; cbn [rtmp_chunk_read_loop] in E; rewrite Z.ltb_irrefl in E;
        apply Ok_inj in E; simplify_eq; (split; [done|]); intros _ f2 x Hx;
        exists f2; (destruct f2 as [|f2]; cbn [rtmp_chunk_read_loop] in *;
          (destruct (Z.ltb_spec 0 (zlen d2)); [|lia]); [done|]);
        (destruct (Z.ltb_spec o (zlen (d1 ++ d2))); [|lia]); rewrite Hc;
        (destruct (rtmp_chunk_read_step_ok realloc handler again t1 d2 0 Hrun' Hd2 ltac:(lia) ltac:(by left))
          as (r2 & t2 & o2 & E2 & Hpost2)); rewrite E2 in Hx |- *; cbn [shift] in *; cbn [mbind outcome_bind] in *;
        (destruct (Z.eqb_spec 0 r2) as [<-|]; cbn [negb] in *; [|done]);
        destruct (Hpost2 eq_refl) as (? & ? & _); by rewrite (loop_shift realloc handler again) by done || lia.
  - apply Ok_inj in E. simplify_eq. split; [|done]. intros _.
    destruct Hcut as [Hc|(-> & _)]; [|done]. exists 1%nat. cbn [rtmp_chunk_read_loop].
    destruct (Z.ltb_spec o (zlen (d1 ++ d2))); [|lia]. rewrite Hc. run.
    by destruct (Z.eqb_spec 0 r1).
Qed.
End Whole.

Section Fragmentation.
Context {P : Type} (realloc : Z → bool).
Context (handler : rtmp_t P → rtmp_chunk_header_t → list Z → outcome (Z * rtmp_t P)).
Context {Inv : SessionInvariant P} {Hhandler : MessageHandler handler}.

Local Abbreviation read := (rtmp_chunk_read realloc handler).

(** Reading two pieces one after the other, stopping at an error. *)
Definition read_both (t : rtmp_t P) (d1 d2 : list Z) : outcome (Z * rtmp_t P) :=
  '(r, t) ← read t d1 (zlen d1); if 0 =? r then read t d2 (zlen d2) else Ok (r, t).

(** Reading fragments one after the other, stopping at an error. *)
Fixpoint read_all (t : rtmp_t P) (frags : list (list Z)) : outcome (Z * rtmp_t P) :=
  match frags with
  | [] => Ok (0, t)
  | d :: frags => '(r, t) ← read t d (zlen d); if 0 =? r then read_all t frags else Ok (r, t)
  end.

Lemma read_nil (t : rtmp_t P) : read t [] 0 = Ok (0, t).
Proof. done. Qed.

Lemma read_is_loop (t : rtmp_t P) data bytes : read t data bytes =
  rtmp_chunk_read_loop realloc handler (read_fuel bytes) (rtmp_chunk_read_depth realloc handler 1)
    t data bytes 0.
Proof. done. Qed.

Lemma rtmp_chunk_read_app t d1 d2 : running t → bytes_ok d1 → bytes_ok d2 →
  read t (d1 ++ d2) (zlen (d1 ++ d2)) = read_both t d1 d2.
Proof.
  intros Hrun Hd1 Hd2. unfold read_both.
  destruct (rtmp_chunk_read_ok realloc handler t d1 Hrun Hd1) as (r1 & t1 & E1 & Hr1).
  rewrite E1. run. destruct d2 as [|x d2'].
  { rewrite app_nil_r, E1. destruct (Z.eqb_spec 0 r1) as [<-|]; [|done]. by rewrite read_nil. }
  set (d2 := x :: d2') in *. assert (0 < zlen d2) as Hz by (unfold d2; rewrite zlen_cons; pose proof (zlen_nonneg d2'); lia).
  destruct (rtmp_chunk_read_ok realloc handler t (d1 ++ d2) Hrun) as (r & t' & E & _).
  { by apply bytes_ok_app. }
  rewrite E. pose proof (again_ok_depth1 realloc handler) as Hag.
  rewrite read_is_loop in E, E1.
  destruct (loop_cut realloc handler _ Hag d1 d2 _ Hd1 Hd2 Hz t 0 r1 t1 Hrun ltac:(pose proof (zlen_nonneg d1); lia) E1)
    as [Hne Heq].
  assert (∀ f' x, rtmp_chunk_read_loop realloc handler f' (rtmp_chunk_read_depth realloc handler 1) t (d1 ++ d2)
    (zlen (d1 ++ d2)) 0 = Ok x → x = (r, t')) as Hdet.
  { intros f' y Hy. apply (loop_more _ _ _ _ (f' + read_fuel (zlen (d1 ++ d2)))) in Hy; [|lia].
    apply (loop_more _ _ _ _ (f' + read_fuel (zlen (d1 ++ d2)))) in E; [|lia]. rewrite E in Hy.
    by apply Ok_inj in Hy. }
  destruct (Z.eqb_spec 0 r1) as [<-|Hr].
  - destruct (rtmp_chunk_read_ok realloc handler t1 d2 (Hr1 eq_refl) Hd2) as (r2 & t2 & E2 & _).
    rewrite E2. rewrite read_is_loop in E2.
    destruct (Heq eq_refl _ _ E2) as [f' Hf']. by rewrite (Hdet f' _ Hf').
  - destruct (Hne ltac:(congruence)) as [f' Hf']. by rewrite (Hdet f' _ Hf').
Qed.
End Fragmentation.

(** * Two handlers that agree

    [H'] is [H] except that it may stop with the code [stop]: what it reads
    without stopping, [H] reads the same. *)
Section Agree.
Context {P : Type} (realloc : Z → bool).
Context (H H' : rtmp_t P → rtmp_chunk_header_t → list Z → outcome (Z * rtmp_t P)).
Variable stop : Z.
Hypothesis Hstop : stop ≠ 0.
Hypothesis Hagree : ∀ t h m r t', H' t h m = Ok (r, t') → r ≠ stop → H t h m = Ok (r, t').

Definition agree_again (again again' : rtmp_t P → list Z → Z → outcome (Z * rtmp_t P)) : Prop :=
  ∀ t d n r t', again' t d n = Ok (r, t') → r ≠ stop → again t d n = Ok (r, t').

Lemma step_agree again again' t data bytes o r t' o' : agree_again again again' →
  rtmp_chunk_read_step realloc H' again' t data bytes o = Ok (r, t', o') → r ≠ stop →
  rtmp_chunk_read_step realloc H again t data bytes o = Ok (r, t', o').
Proof.
  intros Hag. unfold rtmp_chunk_read_step. destruct (ps_state (parser t)); try done.
  - unfold read_extended_timestamp. destruct (ps_pkt (parser t)) as [i|]; [|done].
    next. next. next. destruct a1 as [ps o1]. case_match; [|done]. next. destruct a1 as [[r1 t1] rw].
    destruct (negb _); [done|]. destruct rw as [four|]; [|done].
    destruct (again' t1 four 4) as [| |[r2 t2]] eqn:E; run; try done. intros Eq Hr.
    apply Ok3_inj in Eq as (<- & <- & <-). by rewrite (Hag _ _ _ _ _ E Hr).
  - unfold read_payload. destruct (ps_pkt (parser t)) as [i|]; [|done]. next.
    destruct (p_payload _) as [m|]; [|done]. destruct (_ || _ || _); [done|].
    destruct (_ =? 0); [done|]. next. next. case_match; [|done]. next. next.
    match goal with |- context [H' ?a ?b ?c] => destruct (H' a b c) as [| |[r2 t2]] eqn:E end; run; try done.
    intros Eq Hr. apply Ok3_inj in Eq as (<- & <- & <-). by rewrite (Hagree _ _ _ _ _ E Hr).
Qed.

Lemma loop_agree again again' f : agree_again again again' → ∀ t data bytes o r t',
  rtmp_chunk_read_loop realloc H' f again' t data bytes o = Ok (r, t') → r ≠ stop →
  rtmp_chunk_read_loop realloc H f again t data bytes o = Ok (r, t').
Proof.
  intros Hag. induction f as [|f IH]; intros t data bytes o r t'; cbn [rtmp_chunk_read_loop];
    (destruct (o <? bytes); [|done]); [done|].
  destruct (rtmp_chunk_read_step realloc H' again' t data bytes o) as [| |[[r1 t1] o1]] eqn:E; run; try done.
  destruct (Z.eqb_spec 0 r1) as [<-|Hr1]; cbn [negb].
  - intros Hl Hr. rewrite (step_agree again again' t data bytes o 0 t1 o1) by done. run. by apply IH.
  - intros Eq Hr. apply Ok_inj in Eq. simplify_eq.
    rewrite (step_agree again again' t data bytes o r t' o1) by done. run.
    by destruct (Z.eqb_spec 0 r).
Qed.

Lemma depth_agree d :
  agree_again (rtmp_chunk_read_depth realloc H d) (rtmp_chunk_read_depth realloc H' d).
Proof.
  induction d as [|d IH]; intros t data n r t'; cbn [rtmp_chunk_read_depth]; [done|].
  by apply loop_agree.
Qed.

Lemma rtmp_chunk_read_agree t data n r t' :
  rtmp_chunk_read realloc H' t data n = Ok (r, t') → r ≠ stop →
  rtmp_chunk_read realloc H t data n = Ok (r, t').
Proof. apply depth_agree. Qed.
End Agree.
