(* ===== verification/RtmpChunkWrite.v ===== *)
(** The RTMP chunk writer: the bytes of the headers, and the chunks
    [rtmp_chunk_write] hands to the [send] callback. *)
From S2P Require Import Prelude RtmpInternal RtmpChunk.

(** * Headers as byte lists *)

Definition basic_header_bytes (fmt id : Z) : list Z :=
  if id >=? 320 then [fmt * 64 + 1; (id - 64) mod 256; (id - 64) / 256]
  else if id >=? 64 then [fmt * 64; id - 64]
  else [fmt * 64 + id].

Definition message_header_bytes (h : rtmp_chunk_header_t) : list Z :=
  (if h_fmt h <=? 2 then be_bytes 3 (Z.min 16777215 (h_timestamp h)) else []) ++
  (if h_fmt h <=? 1 then be_bytes 3 (h_length h) ++ [h_type h] else []) ++
  (if h_fmt h =? 0 then le_bytes4 (h_stream_id h) else []).

Definition extended_timestamp_bytes (h : rtmp_chunk_header_t) : list Z :=
  if h_timestamp h >=? 16777215 then be_bytes 4 (h_timestamp h) else [].

Definition first_header_bytes (h : rtmp_chunk_header_t) : list Z :=
  basic_header_bytes (h_fmt h) (h_cid h) ++ message_header_bytes h ++ extended_timestamp_bytes h.
Definition next_header_bytes (h : rtmp_chunk_header_t) : list Z :=
  basic_header_bytes 3 (h_cid h) ++ extended_timestamp_bytes h.

(** A header whose fields have their wire widths. *)
Record header_ok (h : rtmp_chunk_header_t) : Prop := {
  ho_fmt : 0 ≤ h_fmt h ≤ 3;
  ho_cid : 2 ≤ h_cid h ≤ 65599;
  ho_timestamp : is_uint 32 (h_timestamp h);
  ho_length : 0 ≤ h_length h < 16777215;
  ho_type : is_byte (h_type h);
  ho_stream_id : is_uint 32 (h_stream_id h)
}.

Lemma lor_add_small a b n : 0 ≤ n → 0 ≤ b < 2 ^ n → Z.lor (Z.shiftl a n) b = a * 2 ^ n + b.
Proof. apply lor_shiftl_add. Qed.

Lemma rtmp_chunk_basic_header_write_spec m p fmt id : 0 ≤ fmt ≤ 3 → 2 ≤ id ≤ 65599 →
  rtmp_chunk_basic_header_write m p fmt id =
  (m ← st m p (basic_header_bytes fmt id); Ok (m, zlen (basic_header_bytes fmt id))).
Proof.
  intros Hf Hi. unfold rtmp_chunk_basic_header_write, basic_header_bytes.
  change (64 + 256) with 320. rewrite !Z.geb_leb.
  destruct (Z.leb_spec 320 id); [|destruct (Z.leb_spec 64 id)].
  - rewrite lor_add_small by (lia || dlia). rewrite u32_id by (unfold is_uint; dlia).
    replace [u8 (fmt * 2 ^ 6 + 1); u8 (Z.land (id - 64) 255); u8 (Z.land (Z.shiftr (id - 64) 8) 255)]
      with [fmt * 64 + 1; (id - 64) mod 256; (id - 64) / 256]; [done|].
    by_cells ltac:(masks; unfold u8; dlia).
  - rewrite Z.lor_0_r.
    replace [u8 (Z.shiftl fmt 6); u8 (id - 64)] with [fmt * 64; id - 64]; [done|].
    by_cells ltac:(masks; unfold u8; dlia).
  - rewrite (u8_id id) by (unfold is_uint; dlia). rewrite lor_add_small by (lia || dlia).
    replace [u8 (fmt * 2 ^ 6 + id)] with [fmt * 64 + id]; [done|].
    by_cells ltac:(unfold u8; dlia).
Qed.

(** Two stores in a row as one. *)
Lemma st_bind_app {A} (m : list Z) p q bs cs (k : list Z → outcome A) :
  q = p + zlen bs →
  (m ← st m p bs; m ← st m q cs; k m) = (m ← st m p (bs ++ cs); k m).
Proof.
  intros ->. pose proof (zlen_nonneg bs). pose proof (zlen_nonneg cs).
  unfold st. rewrite zlen_app.
  destruct (Z.leb_spec 0 p); cbn [andb]; [|done].
  destruct (Z.leb_spec (p + zlen bs) (zlen m)); run.
  - rewrite zlen_put by lia. rewrite Z.add_assoc.
    destruct (Z.leb_spec 0 (p + zlen bs)); [|lia]. cbn [andb].
    destruct (Z.leb_spec (p + zlen bs + zlen cs) (zlen m)); [|done]. run. by rewrite put_app by lia.
  - destruct (Z.leb_spec (p + (zlen bs + zlen cs)) (zlen m)); [lia|done].
Qed.

Lemma st_nil (m : list Z) p : 0 ≤ p ≤ zlen m → st m p [] = Ok m.
Proof.
  intros. rewrite st_ok by (rewrite ?zlen_nil; lia). unfold put. cbn [length app].
  by rewrite Nat.add_0_r, take_drop.
Qed.


Lemma message_header_bytes_len h : 0 ≤ h_fmt h ≤ 3 →
  s_header_size (Z.rem (h_fmt h) 4) = Ok (zlen (message_header_bytes h)).
Proof.
  intros Hf. unfold message_header_bytes.
  assert (h_fmt h = 0 ∨ h_fmt h = 1 ∨ h_fmt h = 2 ∨ h_fmt h = 3) as [E|[E|[E|E]]] by lia;
    rewrite E; cbn [Z.leb Z.compare Z.eqb Pos.compare Pos.compare_cont];
    autorewrite with zlen; done.
Qed.

Lemma rtmp_chunk_message_header_write_spec m p h : 0 ≤ h_fmt h ≤ 3 → 0 ≤ p ≤ zlen m →
  0 ≤ h_timestamp h →
  rtmp_chunk_message_header_write m p h =
  (m ← st m p (message_header_bytes h); Ok (m, zlen (message_header_bytes h))).
Proof.
  intros Hf Hp Ht. pose proof (message_header_bytes_len h Hf) as Hlen.
  unfold rtmp_chunk_message_header_write. rewrite Hlen.
  unfold message_header_bytes, RTMP_CHUNK_TYPE_0, RTMP_CHUNK_TYPE_1, RTMP_CHUNK_TYPE_2.
  rewrite be_write_uint24_spec.
  replace (if h_timestamp h >=? 16777215 then 16777215 else h_timestamp h)
    with (Z.min 16777215 (h_timestamp h))
    by (rewrite Z.geb_leb; destruct (Z.leb_spec 16777215 (h_timestamp h)); lia).
  assert (∀ A B C (x : outcome A) (f : A → outcome B) (g : B → outcome C),
    (y ← (z ← x; f z); g y) = (z ← x; y ← f z; g y)) as Hassoc by (by intros ? ? ? []).
  assert (h_fmt h = 0 ∨ h_fmt h = 1 ∨ h_fmt h = 2 ∨ h_fmt h = 3) as [E|[E|[E|E]]] by lia;
    rewrite E; cbn [Z.leb Z.compare Z.eqb Pos.compare Pos.compare_cont]; rewrite ?app_nil_r, ?app_nil_l;
    rewrite ?Hassoc; cbn [mbind outcome_bind]; try done.
  - rewrite <- !app_assoc. rewrite <- (st_bind_app _ _ (p + 3)) by (by rewrite zlen_be_bytes).
    destruct (st m p _) as [| |m1]; [done..|]. run. rewrite Hassoc, be_write_uint24_spec.
    rewrite <- (st_bind_app _ _ (p + 3 + 3)) by (by rewrite zlen_be_bytes).
    destruct (st m1 _ _) as [| |m2]; [done..|]. run. rewrite Hassoc.
    rewrite <- (st_bind_app _ _ (p + 3 + 4)) by (change (zlen [h_type h]) with 1; lia).
    destruct (st m2 _ _) as [| |m3]; [done..|]. run. rewrite Hassoc, le_write_uint32_spec.
    destruct (st m3 _ _) as [| |m4]; done.
  - rewrite <- (st_bind_app _ _ (p + 3)) by (by rewrite zlen_be_bytes).
    destruct (st m p _) as [| |m1]; [done..|]. run. rewrite Hassoc, be_write_uint24_spec.
    rewrite <- (st_bind_app _ _ (p + 3 + 3)) by (by rewrite zlen_be_bytes).
    destruct (st m1 _ _) as [| |m2]; [done..|]. run. rewrite Hassoc.
    destruct (st m2 _ _) as [| |m3]; done.
  - rewrite st_nil by done. done.
Qed.

Lemma rtmp_chunk_extended_timestamp_write_spec m p ts :
  rtmp_chunk_extended_timestamp_write m p ts = (m ← st m p (be_bytes 4 ts); Ok (m, 4)).
Proof. unfold rtmp_chunk_extended_timestamp_write. by rewrite be_write_uint32_spec. Qed.

(** * The chunks of a message *)

(** The payload in chunks of [c] bytes, each but the first after the header
    [next]; [fuel] is at least the number of bytes. *)
Fixpoint chunks (fuel : nat) (c : Z) (next body : list Z) : list Z :=
  sub body 0 c ++
  match fuel with
  | O => []
  | S fuel => if zlen body <=? c then [] else next ++ chunks fuel c next (drop (Z.to_nat c) body)
  end.

Definition message_bytes (c : Z) (h : rtmp_chunk_header_t) (payload : list Z) : list Z :=
  first_header_bytes h ++ chunks (length payload) c (next_header_bytes h) payload.

(** A transport that takes everything: [out] is what it was given. *)
Class Transport {P} (send : P → list Z → list Z → Z * P) (out : P → list Z) :=
  send_ok : ∀ u hdr body, fst (send u hdr body) = 0 ∧
    out (snd (send u hdr body)) = out u ++ hdr ++ body.

(** The size of the header of every chunk but the first. *)
Definition next_size (h : rtmp_chunk_header_t) : Z := zlen (next_header_bytes h).

Lemma basic_header_bytes_len fmt id :
  zlen (basic_header_bytes fmt id) = if id >=? 320 then 3 else if id >=? 64 then 2 else 1.
Proof. unfold basic_header_bytes. repeat case_match; done. Qed.

Lemma next_header_write m p h : header_ok h → 0 ≤ p → p + next_size h ≤ zlen m →
  ('(m, n) ← rtmp_chunk_basic_header_write m p RTMP_CHUNK_TYPE_3 (h_cid h);
   (if h_timestamp h >=? 16777215 then
      '(m, k) ← rtmp_chunk_extended_timestamp_write m (p + n) (h_timestamp h); Ok (m, n + k)
    else Ok (m, n))) = Ok (put m p (next_header_bytes h), next_size h).
Proof.
  intros Hok Hp Hm. unfold next_size, next_header_bytes, extended_timestamp_bytes in *.
  rewrite rtmp_chunk_basic_header_write_spec by (unfold RTMP_CHUNK_TYPE_3; lia || apply Hok).
  change RTMP_CHUNK_TYPE_3 with 3. pose proof (zlen_nonneg (basic_header_bytes 3 (h_cid h))).
  destruct (h_timestamp h >=? 16777215).
  - rewrite zlen_app, zlen_be_bytes in Hm |- *. rewrite st_ok by lia. run.
    rewrite rtmp_chunk_extended_timestamp_write_spec, st_ok by llia. run.
    by rewrite put_app by lia.
  - rewrite app_nil_r in *. rewrite st_ok by lia. done.
Qed.

(** How many chunks follow one that starts with [n] bytes left. *)
Definition more_chunks (c n : Z) : Z := (n - 1) / c.

Section WriteLoop.
Context {P : Type} (send : P → list Z → list Z → Z * P) (out : P → list Z).
Context `{Transport P send out}.
Variables (h : rtmp_chunk_header_t) (c : Z) (payload : list Z).
Hypothesis Hok : header_ok h.
Hypothesis Hc : 0 < c.

Lemma rtmp_chunk_write_loop_spec fuel : ∀ m p hs pay n u,
  0 < n ≤ Z.of_nat fuel → 0 ≤ pay → pay + n = zlen payload → 0 ≤ p → 0 ≤ hs →
  p + hs + next_size h * more_chunks c n ≤ zlen m →
  ∃ m' u', rtmp_chunk_write_loop send fuel c h payload m p hs pay n 0 u = Ok (0, m', u') ∧
    zlen m' = zlen m ∧
    out u' = out u ++ sub m p hs ++ chunks fuel c (next_header_bytes h) (sub payload pay n).
Proof.
  induction fuel as [|fuel IH]; intros m p hs pay n u Hn Hpay Hend Hp Hhs Hroom; [lia|].
  cbn [rtmp_chunk_write_loop chunks]. destruct (Z.gtb_spec n 0); [|lia]. cbn [andb Z.eqb].
  assert (0 ≤ next_size h) as Hns by apply zlen_nonneg.
  assert (0 ≤ more_chunks c n) as Hmc by (unfold more_chunks; apply Z.div_pos; lia).
  rewrite (slice_ok m) by nia. run.
  set (k := if n <? c then n else c). assert (k = Z.min n c) as Hk
    by (unfold k; destruct (Z.ltb_spec n c); lia).
  rewrite slice_ok by lia. run.
  destruct (send_ok u (sub m p hs) (sub payload pay k)) as [Hr Ho].
  destruct (send u (sub m p hs) (sub payload pay k)) as [r u1]. cbn [fst snd] in Hr, Ho. subst r.
  assert (zlen (sub payload pay n) = n) as Hz by (apply zlen_sub; lia).
  assert (sub (sub payload pay n) 0 c = sub payload pay k) as Hhead.
  { unfold sub. change (Z.to_nat 0) with 0%nat. rewrite drop_0, take_take, Hk. f_equal. lia. }
  rewrite Hz, Hhead. destruct (Z.gtb_spec (n - k) 0), (Z.leb_spec n c); try lia.
  - assert (k = c) by lia.
    assert (more_chunks c n = 1 + more_chunks c (n - k)) as Hmore.
    { unfold more_chunks. replace (n - 1) with (n - k - 1 + 1 * c) by lia.
      rewrite Z.div_add by lia. lia. }
    assert (0 ≤ more_chunks c (n - k)) by (unfold more_chunks; apply Z.div_pos; lia).
    pose proof (next_header_write m (p + hs) h Hok ltac:(lia) ltac:(nia)) as Hnext.
    match goal with |- context [?e ≫= _] => destruct e as [| |[m1 n1]]; run end; try done.
    cbn [mbind outcome_bind] in Hnext. rewrite Hnext. run.
    assert (zlen (put m (p + hs) (next_header_bytes h)) = zlen m) as Hzm
      by (apply zlen_put; [lia|unfold next_size in *; nia]).
    destruct (IH (put m (p + hs) (next_header_bytes h)) (p + hs) (next_size h) (pay + k) (n - k) u1)
      as (m' & u' & -> & Hm' & Hu'); [lia|lia|lia|lia|lia|rewrite Hzm; nia|].
    exists m', u'. split_and!; [done|congruence|]. rewrite Hu', Ho, <- !app_assoc. do 3 f_equal.
    unfold next_size at 1. rewrite sub_put by (fold (next_size h); nia). f_equal.
    f_equal. unfold sub. rewrite skipn_firstn_comm, drop_drop. f_equal; [lia|]. f_equal. lia.
  - exists m, u1. rewrite app_nil_r. split_and!; [|done|by rewrite Ho].
    destruct fuel as [|fuel]; cbn [rtmp_chunk_write_loop];
      (destruct (Z.gtb_spec (n - k) 0); [lia|]; done).
Qed.
End WriteLoop.

(** The same loop for any transport: it stays inside its buffers, and what the
    callback keeps of its object is kept. *)
Section WriteLoopSafe.
Context {P : Type} (send : P → list Z → list Z → Z * P) (keep : P → Prop).
Hypothesis Hsend : ∀ u a b, keep u → keep (snd (send u a b)).
Variables (h : rtmp_chunk_header_t) (c : Z) (payload : list Z).
Hypothesis Hok : header_ok h.
Hypothesis Hc : 0 < c.

Lemma rtmp_chunk_write_loop_safe fuel : ∀ m p hs pay n r u,
  0 ≤ n ≤ Z.of_nat fuel → 0 ≤ pay → pay + n = zlen payload → 0 ≤ p → 0 ≤ hs →
  p + hs + (if n =? 0 then 0 else next_size h * more_chunks c n) ≤ zlen m → keep u →
  ∃ r' m' u', rtmp_chunk_write_loop send fuel c h payload m p hs pay n r u = Ok (r', m', u') ∧
    zlen m' = zlen m ∧ keep u'.
Proof.
  induction fuel as [|fuel IH]; intros m p hs pay n r u Hn Hpay Hend Hp Hhs Hroom Hk;
    cbn [rtmp_chunk_write_loop]; (destruct (Z.gtb_spec n 0); cbn [andb]; [|by eexists _, _, _]); [lia|].
  destruct (0 =? r); [|by eexists _, _, _]. destruct (Z.eqb_spec n 0); [lia|].
  assert (0 ≤ next_size h) as Hns by apply zlen_nonneg.
  assert (0 ≤ more_chunks c n) as Hmc by (unfold more_chunks; apply Z.div_pos; lia).
  rewrite (slice_ok m) by nia. run.
  set (k := if n <? c then n else c). assert (k = Z.min n c) as Hkc
    by (unfold k; destruct (Z.ltb_spec n c); lia).
  rewrite slice_ok by lia. run.
  pose proof (Hsend u (sub m p hs) (sub payload pay k) Hk) as Hk1.
  destruct (send u (sub m p hs) (sub payload pay k)) as [r1 u1]. cbn [snd] in Hk1.
  destruct (Z.gtb_spec (n - k) 0).
  - assert (k = c) by lia.
    assert (more_chunks c n = 1 + more_chunks c (n - k)) as Hmore.
    { unfold more_chunks. replace (n - 1) with (n - k - 1 + 1 * c) by lia.
      rewrite Z.div_add by lia. lia. }
    assert (0 ≤ more_chunks c (n - k)) by (unfold more_chunks; apply Z.div_pos; lia).
    pose proof (next_header_write m (p + hs) h Hok ltac:(lia) ltac:(nia)) as Hnext.
    match goal with |- context [?e ≫= _] => destruct e as [| |[m1 n1]]; run end; try done.
    cbn [mbind outcome_bind] in Hnext. rewrite Hnext. run.
    assert (zlen (put m (p + hs) (next_header_bytes h)) = zlen m) as Hzm
      by (apply zlen_put; [lia|unfold next_size in *; nia]).
    destruct (IH (put m (p + hs) (next_header_bytes h)) (p + hs) (next_size h) (pay + k) (n - k) r1 u1)
      as (r' & m' & u' & -> & Hm' & Hu'); [lia|lia|lia|lia|lia| |done|].
    { rewrite Hzm. destruct (Z.eqb_spec (n - k) 0); nia. }
    exists r', m', u'. by rewrite Hm'.
  - apply (IH m p hs (pay + k) (n - k) r1 u1); try done; try lia.
    destruct (Z.eqb_spec (n - k) 0); nia.
Qed.
End WriteLoopSafe.

(** * [rtmp_chunk_write] *)

(** The compressed header: what it needs to say after the previous one. *)
Definition zip_header (prev : rtmp_packet_t) (h : rtmp_chunk_header_t) : rtmp_chunk_header_t :=
  let p := p_header prev in
  let delta := u32 (h_timestamp h - p_clock prev) in
  let '(fmt, timestamp) :=
    if negb (0 =? h_fmt h) && (h_cid h =? h_cid p) && (h_timestamp h >=? p_clock prev)
       && (delta <? 16777215) && (h_stream_id h =? h_stream_id p)
    then if (h_type h =? h_type p) && (h_length h =? h_length p) then
           if delta =? h_timestamp p then (3, delta) else (2, delta)
         else (1, delta)
    else (0, h_timestamp h) in
  RtmpChunkHeader fmt (h_cid h) timestamp (h_length h) (h_type h) (h_stream_id h).

Definition zip_packet (prev : rtmp_packet_t) (h : rtmp_chunk_header_t) : rtmp_packet_t :=
  RtmpPacket (zip_header prev h) (p_delta prev) (h_timestamp h) (p_payload prev) (p_capacity prev)
    (p_bytes prev).

(** The channels a session writes on (rtmp_server_create, rtmp_client_create). *)
Definition is_channel (cid : Z) : Prop := RTMP_CHANNEL_PROTOCOL ≤ cid ≤ RTMP_CHANNEL_DATA.

Record writer_wf {P} (t : rtmp_t P) : Prop := {
  ww_packets : length (out_packets t) = 8%nat;
  ww_channel : ∀ cid, is_channel cid →
    ∃ pkt, out_packets t !! Z.to_nat cid = Some pkt ∧ h_cid (p_header pkt) = cid;
  ww_chunk : 0 < out_chunk_size t;
  ww_buffer : zlen (wh_ptr (chunk_write_header t)) = wh_capacity (chunk_write_header t);
  ww_capacity : 18 ≤ wh_capacity (chunk_write_header t)
}.

(** A message header given to the writer. *)
Record message_header_ok (h : rtmp_chunk_header_t) : Prop := {
  mo_cid : is_channel (h_cid h);
  mo_timestamp : is_uint 32 (h_timestamp h);
  mo_length : 0 ≤ h_length h < 16777215;
  mo_type : is_byte (h_type h);
  mo_stream_id : is_uint 32 (h_stream_id h)
}.

Lemma slot_of_0 cid : 0 ≤ cid < 8 → slot_of 0 cid = cid.
Proof.
  intros. unfold slot_of, N_CHUNK_STREAM. rewrite Z.add_0_l, u32_id by (unfold is_uint; dlia).
  rewrite Z.rem_mod_nonneg by lia. apply Z.mod_small. lia.
Qed.

Lemma rtmp_packet_find_first pkts cid pkt : 0 ≤ cid < 8 → pkts !! Z.to_nat cid = Some pkt →
  h_cid (p_header pkt) = cid → rtmp_packet_find pkts cid = Ok (Some cid).
Proof.
  intros Hc Hx He. unfold rtmp_packet_find. change (Z.to_nat N_CHUNK_STREAM) with 8%nat.
  cbn [rtmp_packet_find_from]. rewrite slot_of_0 by done. rewrite (ld_lookup pkts cid pkt) by (lia || done).
  run. by rewrite He, Z.eqb_refl.
Qed.

Lemma rtmp_chunk_header_zip_spec pkts h pkt : length pkts = 8%nat → 0 ≤ h_cid h < 8 →
  pkts !! Z.to_nat (h_cid h) = Some pkt → h_cid (p_header pkt) = h_cid h →
  rtmp_chunk_header_zip pkts h = Ok (put pkts (h_cid h) [zip_packet pkt h], Some (h_cid h)).
Proof.
  intros Hl Hc Hx He. unfold rtmp_chunk_header_zip.
  rewrite (rtmp_packet_find_first _ _ pkt) by done. run.
  rewrite (ld_lookup pkts (h_cid h) pkt) by (lia || done). run.
  unfold zip_packet, zip_header.
  change RTMP_CHUNK_TYPE_0 with 0. change RTMP_CHUNK_TYPE_1 with 1.
  change RTMP_CHUNK_TYPE_2 with 2. change RTMP_CHUNK_TYPE_3 with 3.
  destruct (_ && _ && _ && _ && _); [destruct (_ && _); [destruct (_ =? _)|]|];
    (rewrite st_ok; [done|lia|unfold zlen; cbn; lia]).
Qed.

Lemma zip_header_ok prev h : message_header_ok h → header_ok (zip_header prev h).
Proof.
  intros [Hc Ht Hl Hty Hs]. unfold is_channel, RTMP_CHANNEL_PROTOCOL, RTMP_CHANNEL_DATA in Hc.
  unfold zip_header. pose proof (u32_range (h_timestamp h - p_clock prev)).
  destruct (_ && _ && _ && _ && _); [destruct (_ && _); [destruct (_ =? _)|]|];
    constructor; cbn; try done; lia.
Qed.

Lemma basic_len_le fmt id : 1 ≤ zlen (basic_header_bytes fmt id) ≤ 3.
Proof. rewrite basic_header_bytes_len. repeat case_match; lia. Qed.

Lemma message_header_len_le h : 0 ≤ h_fmt h ≤ 3 → 0 ≤ zlen (message_header_bytes h) ≤ 11.
Proof.
  intros. unfold message_header_bytes.
  assert (h_fmt h = 0 ∨ h_fmt h = 1 ∨ h_fmt h = 2 ∨ h_fmt h = 3) as [E|[E|[E|E]]] by lia;
    rewrite E; cbn [Z.leb Z.compare Z.eqb Pos.compare Pos.compare_cont]; autorewrite with zlen; lia.
Qed.

Lemma more_chunks_le c n : 0 < c → 0 ≤ n → more_chunks c n ≤ n / c.
Proof. intros. unfold more_chunks. apply Z.div_le_mono; lia. Qed.

Lemma first_header_len h : header_ok h → 1 ≤ zlen (first_header_bytes h) ≤ 18.
Proof.
  intros Hok. unfold first_header_bytes, extended_timestamp_bytes. rewrite !zlen_app.
  pose proof (basic_len_le (h_fmt h) (h_cid h)).
  pose proof (message_header_len_le h (ho_fmt _ Hok)). case_match; llia.
Qed.

Lemma first_header_write m h : header_ok h → 18 ≤ zlen m →
  ('(m, headerSize) ← rtmp_chunk_basic_header_write m 0 (h_fmt h) (h_cid h);
   '(m, n) ← rtmp_chunk_message_header_write m headerSize h;
   let headerSize := headerSize + n in
   (if h_timestamp h >=? 16777215 then
      '(m, n) ← rtmp_chunk_extended_timestamp_write m headerSize (h_timestamp h);
      Ok (m, headerSize + n)
    else Ok (m, headerSize))) = Ok (put m 0 (first_header_bytes h), zlen (first_header_bytes h)).
Proof.
  intros Hok H18. pose proof (first_header_len h Hok) as Hlen. destruct Hok as [Hf Hcid Hts _ _ _].
  unfold first_header_bytes, extended_timestamp_bytes in *. rewrite !zlen_app in *.
  set (b := basic_header_bytes _ _) in *. set (e := message_header_bytes h) in *.
  pose proof (zlen_nonneg b). pose proof (zlen_nonneg e).
  rewrite rtmp_chunk_basic_header_write_spec by done. fold b.
  destruct (h_timestamp h >=? 16777215); rewrite ?zlen_be_bytes, ?zlen_nil, ?app_nil_r, ?Z.add_0_r in *.
  - rewrite st_ok by lia. run.
    rewrite rtmp_chunk_message_header_write_spec by (try apply Hts; rewrite ?zlen_put; lia). fold e.
    rewrite st_ok by (rewrite ?zlen_put; lia). run.
    rewrite rtmp_chunk_extended_timestamp_write_spec, st_ok by (rewrite ?zlen_be_bytes; llia). run.
    rewrite (put_app_at _ 0) by lia. rewrite put_app_at by (rewrite ?zlen_app; lia).
    rewrite <- app_assoc. do 2 f_equal. lia.
  - rewrite st_ok by lia. run.
    rewrite rtmp_chunk_message_header_write_spec by (try apply Hts; rewrite ?zlen_put; lia). fold e.
    rewrite st_ok by (rewrite ?zlen_put; lia). run. by rewrite (put_app_at _ 0) by lia.
Qed.

(** What a call changes: the chunk stream's last header, the header buffer
    and the transport. *)
Definition wrote {P} (t t' : rtmp_t P) (cid : Z) (pkt : rtmp_packet_t) : Prop :=
  writer_wf t' ∧ out_packets t' = put (out_packets t) cid [pkt] ∧
  out_chunk_size t' = out_chunk_size t ∧ in_packets t' = in_packets t ∧ parser t' = parser t ∧
  in_chunk_size t' = in_chunk_size t.

Lemma zip_packet_cid prev h : h_cid (p_header (zip_packet prev h)) = h_cid h.
Proof.
  cbn [p_header zip_packet]. unfold zip_header.
  destruct (_ && _ && _ && _ && _); [destruct (_ && _); [destruct (_ =? _)|]|]; done.
Qed.

Lemma writer_wf_store {P} (t : rtmp_t P) cid pkt wh u : writer_wf t → is_channel cid → h_cid (p_header pkt) = cid →
  zlen (wh_ptr wh) = wh_capacity wh → 18 ≤ wh_capacity wh →
  writer_wf (set_param (set_writer t (put (out_packets t) cid [pkt]) wh) u).
Proof.
  intros [Hl Hch Hc _ _] Hcid Hp Hb Hcap.
  unfold is_channel, RTMP_CHANNEL_PROTOCOL, RTMP_CHANNEL_DATA in Hcid.
  assert (zlen (out_packets t) = 8) as Hz by (unfold zlen; lia).
  assert (zlen [pkt] = 1) as H1 by done.
  constructor; cbn [set_param set_writer out_packets out_chunk_size chunk_write_header]; try done.
  - pose proof (zlen_put (out_packets t) cid [pkt] ltac:(lia) ltac:(lia)) as Hzz. unfold zlen in Hzz. lia.
  - intros c0 Hc0. destruct (decide (c0 = cid)) as [->|Hne].
    + exists pkt. split; [|done]. unfold put. rewrite lookup_app_r by (rewrite length_take; lia).
      rewrite length_take. by replace (Z.to_nat cid - _)%nat with 0%nat by lia.
    + destruct (Hch c0 Hc0) as (x & Hx & Ex). exists x. split; [|done].
      unfold is_channel, RTMP_CHANNEL_PROTOCOL, RTMP_CHANNEL_DATA in Hc0.
      rewrite put_lookup_out; [done|lia..].
Qed.

(** Up to the loop, for any transport: the header buffer is too small and
    cannot grow, or the loop starts with the first header in a large enough
    buffer. *)
Lemma rtmp_chunk_write_enters {P} realloc (send : P → list Z → list Z → Z * P) (t : rtmp_t P)
    h payload pkt : writer_wf t → message_header_ok h → 0 ≤ h_length h →
  out_packets t !! Z.to_nat (h_cid h) = Some pkt → h_cid (p_header pkt) = h_cid h →
  let z := zip_header pkt h in
  let pkts := put (out_packets t) (h_cid h) [zip_packet pkt h] in
  (∃ n, realloc n = false ∧ rtmp_chunk_write realloc send t h payload =
     Ok (- ENOMEM, set_writer t pkts (chunk_write_header t))) ∨
  ∃ m cap, zlen m = cap ∧ 18 + (h_length h / out_chunk_size t) * next_size z ≤ cap ∧
    sub m 0 (zlen (first_header_bytes z)) = first_header_bytes z ∧
    rtmp_chunk_write realloc send t h payload =
      '(r, m, u) ← rtmp_chunk_write_loop send (Z.to_nat (h_length h)) (out_chunk_size t) z payload m 0
                     (zlen (first_header_bytes z)) 0 (h_length h) 0 (param t);
      Ok (r, set_param (set_writer t pkts (RtmpChunkWriteHeader m cap)) u).
Proof.
  intros Hww Hmo Hlen Hx He zz pks. subst zz pks. unfold rtmp_chunk_write.
  pose proof (zip_header_ok pkt h Hmo) as Hzok. pose proof (mo_cid _ Hmo) as Hch.
  pose proof Hch as Hch'. unfold is_channel, RTMP_CHANNEL_PROTOCOL, RTMP_CHANNEL_DATA in Hch'.
  rewrite (rtmp_chunk_header_zip_spec _ _ pkt) by (apply Hww || done || lia). run.
  pose proof (ww_packets _ Hww) as Hl. assert (zlen (out_packets t) = 8) as Hz8 by (unfold zlen; lia).
  set (pkts := put (out_packets t) (h_cid h) [zip_packet pkt h]).
  assert (ld pkts (h_cid h) = Ok (zip_packet pkt h)) as ->.
  { apply ld_lookup; [lia|]. unfold pkts, put. rewrite lookup_app_r by (rewrite length_take; lia).
    rewrite length_take. by replace (Z.to_nat (h_cid h) - _)%nat with 0%nat by lia. }
  run. cbn [p_header zip_packet]. set (z := zip_header pkt h) in *.
  assert (h_length z = h_length h ∧ h_cid z = h_cid h) as [Hzl Hzc].
  { unfold z, zip_header. destruct (_ && _ && _ && _ && _); [destruct (_ && _); [destruct (_ =? _)|]|]; done. }
  rewrite Hzl, (proj2 (geb_false (h_length h) 16777215)) by apply Hmo.
  cbn [set_writer out_chunk_size chunk_write_header param]. set (c := out_chunk_size t).
  pose proof (ww_chunk _ Hww) as Hc. fold c in Hc. destruct (Z.eqb_spec c 0); [lia|].
  set (N := (if h_cid z <? 64 then 1 else if h_cid z <? 64 + 256 then 2 else 3)
            + (if h_timestamp z >=? 16777215 then 4 else 0)).
  assert (N = next_size z) as HN.
  { unfold N, next_size, next_header_bytes, extended_timestamp_bytes.
    rewrite zlen_app, basic_header_bytes_len, Hzc, !Z.geb_leb.
    replace (h_cid h <? 64) with true by (symmetry; apply Z.ltb_lt; lia).
    replace (320 <=? h_cid h) with false by (symmetry; apply Z.leb_gt; lia).
    replace (64 <=? h_cid h) with false by (symmetry; apply Z.leb_gt; lia).
    destruct (16777215 <=? h_timestamp z); cbv iota; by rewrite ?zlen_be_bytes. }
  assert (1 ≤ N ≤ 7) as HN7.
  { unfold N. repeat case_match; lia. }
  set (q := Z.quot (h_length h) c). pose proof (mo_length _ Hmo) as Hln.
  assert (q = h_length h / c) as Hq by (unfold q; apply Z.quot_div_nonneg; lia).
  assert (0 ≤ q ≤ h_length h) as Hq2.
  { rewrite Hq. split; [apply Z.div_pos; lia|]. apply Z.div_le_upper_bound; nia. }
  unfold MAX_CHUNK_HEADER, MAX_CHECK_TYPE3_WITH_TIMESTAMP.
  assert (0 ≤ q * N ≤ q * 7) as HqN by nia. rewrite <- Hq, <- HN. clearbody N q.
  rewrite !u32_id by (unfold is_uint; dlia).
  set (wh := chunk_write_header t). set (cap := 18 + q * 7).
  destruct ((18 + q * N >? wh_capacity wh) && negb (realloc cap)) eqn:Egrow.
  { apply andb_prop in Egrow as [_ Hre]. apply negb_true_iff in Hre.
    left. exists cap. split; [done|reflexivity]. }
  set (wh' := if 18 + q * N >? wh_capacity wh then _ else wh).
  assert (zlen (wh_ptr wh') = wh_capacity wh' ∧ 18 + q * N ≤ wh_capacity wh') as [Hwb Hroom].
  { unfold wh'. destruct (Z.gtb_spec (18 + q * N) (wh_capacity wh)).
    - cbn [wh_ptr wh_capacity]. unfold zlen, cap. rewrite length_take, length_app, length_replicate. nia.
    - split; [apply Hww|lia]. }
  clearbody wh'. clear Egrow.
  pose proof (first_header_write (wh_ptr wh') z Hzok ltac:(nia)) as Hhdr. cbv zeta in Hhdr.
  pose proof (first_header_len z Hzok) as Hhl.
  match goal with |- context [?e ≫= _] => destruct e as [| |[m1 n1]]; run end; try done.
  cbn [mbind outcome_bind] in Hhdr.
  match goal with |- context [?e ≫= _] => destruct e as [| |[m2 n2]]; run end; try done.
  cbn [mbind outcome_bind] in Hhdr. rewrite Hhdr. run.
  set (hdr := first_header_bytes z) in *. set (m3 := put (wh_ptr wh') 0 hdr).
  assert (zlen m3 = wh_capacity wh') as Hm3 by (unfold m3; rewrite zlen_put; nia).
  right. exists m3, (wh_capacity wh'). split_and!; [done|done| |reflexivity].
  unfold m3. apply sub_put; nia.
Qed.

Section ChunkWrite.
Context {P : Type} (realloc : Z → bool).
Context (send : P → list Z → list Z → Z * P) (out : P → list Z).
Context `{Transport P send out}.

Lemma rtmp_chunk_write_spec (t : rtmp_t P) h payload pkt :
  writer_wf t → message_header_ok h → h_length h = zlen payload → 0 < zlen payload →
  out_packets t !! Z.to_nat (h_cid h) = Some pkt → h_cid (p_header pkt) = h_cid h →
  ∃ r t', rtmp_chunk_write realloc send t h payload = Ok (r, t') ∧
    wrote t t' (h_cid h) (zip_packet pkt h) ∧
    (r = 0 ∧ out (param t') = out (param t) ++
               message_bytes (out_chunk_size t) (zip_header pkt h) payload ∨
     r = - ENOMEM ∧ param t' = param t ∧ ∃ n, realloc n = false).
Proof.
  intros Hww Hmo Hlen Hpos Hx He. pose proof (zip_header_ok pkt h Hmo) as Hzok.
  pose proof (mo_cid _ Hmo) as Hch. pose proof (ww_chunk _ Hww) as Hc.
  destruct (rtmp_chunk_write_enters realloc send t h payload pkt) as
    [(n & Hn & ->)|(m3 & cap & Hm3 & Hroom & Hhdr & ->)]; try done; [lia| |].
  - eexists (- ENOMEM), _. split; [reflexivity|]. split; [|right; eauto].
    split_and!; try done.
    apply (writer_wf_store t _ _ (chunk_write_header t) (param t)); try done;
      first [apply zip_packet_cid|apply Hww].
  - set (z := zip_header pkt h) in *. set (hdr := first_header_bytes z) in *. set (c := out_chunk_size t) in *.
    pose proof (zlen_nonneg hdr). pose proof (first_header_len z Hzok) as Hhl. fold hdr in Hhl.
    pose proof (more_chunks_le c (h_length h) Hc ltac:(lia)).
    assert (0 ≤ more_chunks c (h_length h)) by (unfold more_chunks; apply Z.div_pos; lia).
    assert (0 ≤ next_size z) by apply zlen_nonneg.
    destruct (rtmp_chunk_write_loop_spec send out z c payload Hzok Hc (Z.to_nat (h_length h)) m3 0
      (zlen hdr) 0 (h_length h) (param t)) as (m4 & u4 & -> & Hm4 & Hu4); try nia.
    run. eexists 0, _. split; [reflexivity|]. split.
    + split_and!; try done.
      apply (writer_wf_store t (h_cid h) (zip_packet pkt h) (RtmpChunkWriteHeader m4 cap) u4);
        try done; cbn [wh_ptr wh_capacity]; first [apply zip_packet_cid|nia].
    + left. split; [done|]. cbn [set_param param]. rewrite Hu4, Hhdr. unfold message_bytes. fold hdr c.
      do 2 f_equal. replace (Z.to_nat (h_length h)) with (length payload) by (unfold zlen in *; lia).
      f_equal. rewrite Hlen. apply sub_full.
Qed.
End ChunkWrite.

(** For any transport the writer returns and stays well formed. *)
Lemma rtmp_chunk_write_safe {P} realloc (send : P → list Z → list Z → Z * P) (keep : P → Prop)
    (t : rtmp_t P) h payload pkt :
  (∀ u a b, keep u → keep (snd (send u a b))) → keep (param t) →
  writer_wf t → message_header_ok h → h_length h = zlen payload →
  out_packets t !! Z.to_nat (h_cid h) = Some pkt → h_cid (p_header pkt) = h_cid h →
  ∃ r t', rtmp_chunk_write realloc send t h payload = Ok (r, t') ∧
    wrote t t' (h_cid h) (zip_packet pkt h) ∧ keep (param t').
Proof.
  intros Hsend Hk Hww Hmo Hlen Hx He. pose proof (zip_header_ok pkt h Hmo) as Hzok.
  pose proof (mo_cid _ Hmo) as Hch. pose proof (ww_chunk _ Hww) as Hc. pose proof (zlen_nonneg payload).
  destruct (rtmp_chunk_write_enters realloc send t h payload pkt) as
    [(n & Hn & ->)|(m3 & cap & Hm3 & Hroom & Hhdr & ->)]; try done; [lia| |].
  - eexists (- ENOMEM), _. split; [reflexivity|]. split; [|done]. split_and!; try done.
    apply (writer_wf_store t _ _ (chunk_write_header t) (param t)); try done;
      first [apply zip_packet_cid|apply Hww].
  - set (z := zip_header pkt h) in *. set (hdr := first_header_bytes z) in *. set (c := out_chunk_size t) in *.
    pose proof (zlen_nonneg hdr). pose proof (first_header_len z Hzok) as Hhl. fold hdr in Hhl.
    assert (0 ≤ next_size z) by apply zlen_nonneg.
    assert (0 ≤ h_length h / c) by (apply Z.div_pos; lia).
    destruct (rtmp_chunk_write_loop_safe send keep Hsend z c payload Hzok Hc (Z.to_nat (h_length h)) m3 0
      (zlen hdr) 0 (h_length h) 0 (param t)) as (r & m4 & u4 & -> & Hm4 & Hu4); try done; try nia.
    { destruct (Z.eqb_spec (h_length h) 0); [nia|].
      pose proof (more_chunks_le c (h_length h) Hc ltac:(lia)).
      assert (0 ≤ more_chunks c (h_length h)) by (unfold more_chunks; apply Z.div_pos; lia). nia. }
    run. eexists r, _. split; [reflexivity|]. split; [|done]. split_and!; try done.
    apply (writer_wf_store t (h_cid h) (zip_packet pkt h) (RtmpChunkWriteHeader m4 cap) u4);
      try done; cbn [wh_ptr wh_capacity]; first [apply zip_packet_cid|nia].
Qed.
