(* ===== verification/RtmpSession.v ===== *)
(** What the two halves of the chunk layer promise together: messages written
    by [rtmp_chunk_write] are delivered unchanged and in order by
    [rtmp_chunk_read] on the other side, however the bytes are cut on the
    way. *)
From S2P Require Import Prelude RtmpInternal RtmpChunk RtmpChunkRead RtmpChunkWrite.

(** * The chunk streams of a session *)

(** Channel [j] lives in slot [j]: slots are unused or hold their channel. *)
Definition slots_ok (pkts : list rtmp_packet_t) : Prop :=
  length pkts = 8%nat ∧
  ∀ j pkt, 0 ≤ j < 8 → pkts !! Z.to_nat j = Some pkt →
    h_cid (p_header pkt) = 0 ∨ h_cid (p_header pkt) = j.

Lemma find_from_none pkts cid n : ∀ i, length pkts = 8%nat →
  (∀ pkt, pkt ∈ pkts → h_cid (p_header pkt) ≠ cid) →
  rtmp_packet_find_from n i pkts cid = Ok None.
Proof.
  induction n as [|n IH]; intros i Hl Hno; cbn [rtmp_packet_find_from]; [done|].
  destruct (ld_packet pkts (slot_of i cid) Hl (slot_of_range i cid)) as (x & -> & Hx). run.
  destruct (Z.eqb_spec (h_cid (p_header x)) cid) as [E|]; [|by apply IH].
  exfalso. apply (Hno x); [|done]. by eapply list_elem_of_lookup_2.
Qed.

(** The slot a chunk of channel [cid] is parsed into. *)
Lemma channel_slot pkts cid pkt fmt : slots_ok pkts → 2 ≤ cid < 8 → pkts !! Z.to_nat cid = Some pkt →
  (h_cid (p_header pkt) = 0 → fmt = 0 ∨ fmt = 1) →
  (found ← rtmp_packet_find pkts cid;
   match found with
   | Some i => Ok (Some i)
   | None => if negb (RTMP_CHUNK_TYPE_0 =? fmt) && negb (RTMP_CHUNK_TYPE_1 =? fmt) then Ok None
             else rtmp_packet_create pkts cid
   end) = Ok (Some cid).
Proof.
  intros [Hl Hs] Hc Hx Hf. destruct (Hs cid pkt ltac:(lia) Hx) as [H0|Hcid].
  - assert (rtmp_packet_find pkts cid = Ok None) as ->.
    { apply find_from_none; [done|]. intros y [j Hj]%list_elem_of_lookup E.
      apply lookup_lt_Some in Hj as Hlt.
      destruct (Hs (Z.of_nat j) y ltac:(lia) ltac:(by rewrite Nat2Z.id)) as [?|E']; [lia|].
      assert (j = Z.to_nat cid) as -> by lia. simplify_eq. lia. }
    run. unfold RTMP_CHUNK_TYPE_0, RTMP_CHUNK_TYPE_1.
    replace (negb (0 =? fmt) && negb (1 =? fmt)) with false
      by (destruct (Hf H0) as [->| ->]; done).
    unfold rtmp_packet_create. change (Z.to_nat N_CHUNK_STREAM) with 8%nat.
    cbn [rtmp_packet_create_from]. rewrite slot_of_0 by lia.
    rewrite (ld_lookup pkts cid pkt) by (lia || done). run. by rewrite H0.
  - by rewrite (rtmp_packet_find_first pkts cid pkt) by (lia || done).
Qed.

(** * Parsing one chunk *)

(** The header as the reader keeps it: the timestamp field of the wire. *)
Definition wire_header (h : rtmp_chunk_header_t) : rtmp_chunk_header_t :=
  RtmpChunkHeader (h_fmt h) (h_cid h) (Z.min 16777215 (h_timestamp h)) (h_length h) (h_type h)
    (h_stream_id h).

(** The fields a chunk of format [h_fmt h] leaves out are those of [prev]. *)
Definition continues (prev h : rtmp_chunk_header_t) : Prop :=
  (h_fmt h = 3 → h_timestamp prev = Z.min 16777215 (h_timestamp h)) ∧
  (2 ≤ h_fmt h → h_length prev = h_length h ∧ h_type prev = h_type h) ∧
  (1 ≤ h_fmt h → h_stream_id prev = h_stream_id h).

Lemma message_header_size h : header_ok h → zlen (message_header_bytes h) = header_size (h_fmt h).
Proof.
  intros Hok. pose proof (ho_fmt _ Hok) as Hf. pose proof (message_header_bytes_len h Hf) as H.
  rewrite Z.rem_small, s_header_size_ok in H by lia. by apply Ok_inj in H.
Qed.

Lemma be_val_3_small v : 0 ≤ v < 2 ^ 24 → be_val (be_bytes 3 v) = v.
Proof. intros. apply be_val_bytes. done. Qed.

Lemma message_header_parse buf b0 rest prev h :
  header_ok h → continues prev h → bytes_ok buf →
  buf = b0 :: message_header_bytes h ++ rest →
  rtmp_chunk_message_header_read buf 1
    (RtmpChunkHeader (h_fmt h) (h_cid h) (h_timestamp prev) (h_length prev) (h_type prev)
       (h_stream_id prev)) = Ok (wire_header h, header_size (h_fmt h)).
Proof.
  intros Hok (Hc3 & Hc2 & Hc1) Hb Ebuf. pose proof Hok as [Hf _ Hts Hln Hty Hsi].
  rewrite rtmp_chunk_message_header_read_spec; cbn [h_fmt]; [|done|lia|done|].
  2:{ rewrite <- message_header_size by done. subst buf. rewrite zlen_cons, zlen_app.
      pose proof (zlen_nonneg rest). lia. }
  cbv zeta. cbn [h_fmt h_cid h_timestamp h_length h_type h_stream_id]. unfold wire_header.
  unfold is_uint in *. subst buf. unfold message_header_bytes. clear Hb Hok.
  assert (0 ≤ Z.min 16777215 (h_timestamp h) < 2 ^ 24) as Hmin by dlia.
  assert (0 ≤ h_length h < 2 ^ 24) as Hln' by dlia.
  set (T := be_bytes 3 (Z.min 16777215 (h_timestamp h))).
  set (L := be_bytes 3 (h_length h)). set (S := le_bytes4 (h_stream_id h)).
  assert (zlen T = 3) as HT by apply zlen_be_bytes. assert (zlen L = 3) as HL by apply zlen_be_bytes.
  assert (zlen S = 4) as HS by apply zlen_le_bytes4.
  assert (∀ X, be_val (sub (b0 :: T ++ X) 1 3) = Z.min 16777215 (h_timestamp h)) as FA.
  { intros X. rewrite (sub_mid [b0] T X) by done. by apply be_val_3_small. }
  assert (∀ X, be_val (sub (b0 :: T ++ L ++ X) (1 + 3) 3) = h_length h) as FB.
  { intros X. change (b0 :: T ++ L ++ X) with ([b0] ++ T ++ L ++ X). rewrite app_assoc.
    rewrite (sub_mid ([b0] ++ T) L X) by (done || (rewrite zlen_app, HT; done)). by apply be_val_3_small. }
  assert (∀ X, (b0 :: T ++ L ++ h_type h :: X) !!! Z.to_nat (1 + 6) = h_type h) as FC.
  { intros X. change (b0 :: T ++ L ++ h_type h :: X) with ([b0] ++ T ++ L ++ h_type h :: X).
    rewrite !app_assoc. rewrite list_lookup_total_alt, lookup_app_r
      by (rewrite !length_app; unfold zlen in *; cbn; lia).
    rewrite !length_app. unfold zlen in *. cbn [length].
    by replace (Z.to_nat (1 + 6) - _)%nat with 0%nat by lia. }
  assert (∀ X, be_val (rev (sub (b0 :: T ++ L ++ h_type h :: S ++ X) (1 + 7) 4)) = h_stream_id h) as FD.
  { intros X. replace (b0 :: T ++ L ++ h_type h :: S ++ X) with (([b0] ++ T ++ L ++ [h_type h]) ++ S ++ X)
      by (by rewrite <- !app_assoc).
    rewrite sub_mid by (done || (rewrite !zlen_app, HT, HL; done)).
    unfold S, le_bytes4. rewrite rev_involutive. by apply be_val_bytes. }
  assert (h_fmt h = 0 ∨ h_fmt h = 1 ∨ h_fmt h = 2 ∨ h_fmt h = 3) as [E|[E|[E|E]]] by lia;
    rewrite E in *; cbn [Z.leb Z.compare Z.eqb Pos.compare Pos.compare_cont app];
    rewrite <- ?app_assoc; cbn [app]; rewrite ?FA, ?FB, ?FC, ?FD, ?Hc1 by lia; try done.
  - destruct Hc2 as [-> ->]; [lia|done].
  - destruct Hc2 as [-> ->]; [lia|]. by rewrite Hc3.
Qed.

(** The first byte of a chunk on a channel. *)
Definition byte0 (h : rtmp_chunk_header_t) : Z := h_fmt h * 64 + h_cid h.

Lemma byte0_spec h : header_ok h → is_channel (h_cid h) →
  basic_header_bytes (h_fmt h) (h_cid h) = [byte0 h] ∧ is_byte (byte0 h) ∧
  Z.shiftr (byte0 h) 6 = h_fmt h ∧ Z.land (byte0 h) 63 = h_cid h ∧ basic_len (byte0 h) = 1.
Proof.
  intros [Hf _ _ _ _ _] Hc. unfold is_channel, RTMP_CHANNEL_PROTOCOL, RTMP_CHANNEL_DATA in Hc.
  assert (Z.land (byte0 h) 63 = h_cid h) as Hl by (unfold byte0; masks; dlia).
  split_and!; [|unfold is_uint, byte0; dlia|unfold byte0; masks; dlia|done|].
  - unfold basic_header_bytes, byte0. rewrite !Z.geb_leb.
    destruct (Z.leb_spec 320 (h_cid h)), (Z.leb_spec 64 (h_cid h)); done || lia.
  - unfold basic_len. rewrite Hl.
    destruct (Z.eqb_spec 0 (h_cid h)), (Z.eqb_spec 1 (h_cid h)); done || lia.
Qed.

Lemma rtmp_packet_parse_spec pkts buf rest prev h :
  header_ok h → is_channel (h_cid h) → slots_ok pkts → bytes_ok buf →
  buf = byte0 h :: message_header_bytes h ++ rest →
  pkts !! Z.to_nat (h_cid h) = Some prev → continues (p_header prev) h →
  (h_cid (p_header prev) = 0 → h_fmt h = 0 ∨ h_fmt h = 1) →
  rtmp_packet_parse pkts buf =
    Ok (put pkts (h_cid h) [with_header prev (wire_header h)], Some (h_cid h)).
Proof.
  intros Hok Hch Hs Hb Ebuf Hx Hcont Hnew.
  destruct (byte0_spec h Hok Hch) as (_ & _ & Hshift & Hland & Hbl).
  unfold is_channel, RTMP_CHANNEL_PROTOCOL, RTMP_CHANNEL_DATA in Hch.
  unfold rtmp_packet_parse, rtmp_chunk_basic_header_read.
  assert (ld buf 0 = Ok (byte0 h)) as -> by (by rewrite Ebuf).
  run. rewrite Hshift, Hland.
  destruct (Z.eqb_spec 0 (h_cid h)), (Z.eqb_spec 1 (h_cid h)); try lia. run.
  pose proof (channel_slot pkts (h_cid h) prev (h_fmt h) Hs ltac:(lia) Hx Hnew) as Hslot.
  destruct (rtmp_packet_find pkts (h_cid h)) as [| |found]; cbn [mbind outcome_bind] in Hslot |- *;
    try done. rewrite Hslot. run.
  rewrite (ld_lookup pkts (h_cid h) prev) by (lia || done). run.
  rewrite (message_header_parse buf (byte0 h) rest (p_header prev) h) by done. run.
  destruct Hs as [Hl _]. rewrite st_ok by (unfold zlen; cbn; lia). done.
Qed.

(** * Reading one chunk *)

Lemma put_0_app {A} (m bs : list A) : put m 0 bs = bs ++ drop (length bs) m.
Proof. done. Qed.

Section ReadChunk.
Context {P : Type} (realloc : Z → bool).
Context (handler : rtmp_t P → rtmp_chunk_header_t → list Z → outcome (Z * rtmp_t P)).
Context {Hhandler : MessageHandler handler}.
Variable again : rtmp_t P → list Z → Z → outcome (Z * rtmp_t P).
Variables (t : rtmp_t P) (h : rtmp_chunk_header_t) (piece : list Z) (prev : rtmp_packet_t).
Hypothesis Hrun : running t.
Hypothesis Hinit : ps_state (parser t) = RTMP_PARSE_INIT.
Hypothesis Hslots : slots_ok (in_packets t).
Hypothesis Hok : header_ok h.
Hypothesis Hch : is_channel (h_cid h).
Hypothesis Hprev : in_packets t !! Z.to_nat (h_cid h) = Some prev.
Hypothesis Hcont : continues (p_header prev) h.
Hypothesis Hnew : h_cid (p_header prev) = 0 → h_fmt h = 0 ∨ h_fmt h = 1.
Hypothesis Hpiece : bytes_ok piece.
Hypothesis Hne : 0 < zlen piece.

Let hdr := first_header_bytes h.
Let data := hdr ++ piece.
Let msg := message_header_bytes h.
Let ext := extended_timestamp_bytes h.
Let buf := ps_buffer (parser t).

Local Abbreviation step := (rtmp_chunk_read_step realloc handler again).

Lemma data_split : data = [byte0 h] ++ msg ++ ext ++ piece.
Proof.
  unfold data, hdr, first_header_bytes. destruct (byte0_spec h Hok Hch) as [-> _].
  by rewrite <- !app_assoc.
Qed.

Lemma bytes_ok_message_header : bytes_ok msg.
Proof.
  unfold msg, message_header_bytes. rewrite !bytes_ok_app. split_and!.
  - case_match; auto with cint.
  - case_match; [|constructor]. apply bytes_ok_app. split; [auto with cint|].
    constructor; [apply Hok|constructor].
  - case_match; [|constructor]. unfold le_bytes4. apply Forall_rev. apply bytes_ok_be_bytes.
Qed.

Lemma bytes_ok_ext : bytes_ok ext.
Proof. unfold ext, extended_timestamp_bytes. case_match; auto with cint. Qed.

Lemma data_bytes_ok : bytes_ok data.
Proof.
  rewrite data_split, !bytes_ok_app. split_and!; try done.
  - constructor; [|constructor]. by destruct (byte0_spec h Hok Hch) as (_ & ? & _).
  - apply bytes_ok_message_header.
  - apply bytes_ok_ext.
Qed.

Lemma msg_len : zlen msg = header_size (h_fmt h).
Proof. by apply message_header_size. Qed.

Lemma header_lens : 0 ≤ zlen msg ≤ 11 ∧ (zlen ext = if h_timestamp h >=? 16777215 then 4 else 0).
Proof.
  split; [by apply message_header_len_le, Hok|].
  unfold ext, extended_timestamp_bytes. by case_match.
Qed.

Lemma data_len : zlen data = 1 + zlen msg + zlen ext + zlen piece.
Proof. rewrite data_split, !zlen_app. change (zlen [byte0 h]) with 1. lia. Qed.

(** The parser after [bs] of the header were read. *)
Definition mid_parser (s : rtmp_parser_state_t) (bs : list Z) pkt : rtmp_parser_t :=
  RtmpParser (put buf 0 bs) 1 (zlen bs) s pkt.

Lemma step1 : step t data (zlen data) 0 =
  Ok (0, set_reader t (in_packets t) (mid_parser RTMP_PARSE_BASIC_HEADER [byte0 h] None), 1).
Proof.
  unfold rtmp_chunk_read_step. rewrite Hinit. unfold read_init.
  assert (ld data 0 = Ok (byte0 h)) as -> by (by rewrite data_split). run.
  pose proof (rw_buffer _ (proj1 Hrun)). rewrite st_ok by (unfold zlen in *; cbn; lia). run.
  destruct (byte0_spec h Hok Hch) as (_ & _ & _ & _ & Hbl). fold (basic_len (byte0 h)). by rewrite Hbl.
Qed.

Lemma fill_mid s bs cs pkt : zlen bs + zlen cs ≤ 18 →
  fill (mid_parser s bs pkt) cs = mid_parser s (bs ++ cs) pkt.
Proof.
  intros. pose proof (rw_buffer _ (proj1 Hrun)) as H18. fold buf in H18.
  unfold fill, mid_parser. cbn [ps_buffer ps_basic_bytes ps_bytes ps_state ps_pkt].
  rewrite zlen_app. pose proof (zlen_nonneg bs). pose proof (zlen_nonneg cs).
  rewrite (put_app_at buf 0) by lia. done.
Qed.

Lemma buf_mid bs : zlen bs ≤ 18 → zlen (put buf 0 bs) = 18.
Proof.
  intros. pose proof (rw_buffer _ (proj1 Hrun)) as H18. fold buf in H18. rewrite zlen_put; lia.
Qed.

Lemma step2 : step (set_reader t (in_packets t) (mid_parser RTMP_PARSE_BASIC_HEADER [byte0 h] None))
    data (zlen data) 1 =
  Ok (0, set_reader t (in_packets t) (mid_parser RTMP_PARSE_MESSAGE_HEADER [byte0 h] None), 1).
Proof.
  unfold rtmp_chunk_read_step. cbn [set_reader parser mid_parser ps_state]. unfold read_basic_header.
  cbn [set_reader parser]. rewrite parser_fill_spec;
    [|done|rewrite data_len; pose proof header_lens; case_match; lia|by cbn
     |cbn [mid_parser ps_basic_bytes ps_buffer]; rewrite buf_mid by done; lia|by cbn].
  cbv zeta. unfold fill_len. cbn [mid_parser ps_basic_bytes ps_bytes].
  change (1 - zlen [byte0 h]) with 0. rewrite Z.max_l by lia. rewrite sub_0, fill_nil. run. done.
Qed.

Let pkts1 := put (in_packets t) (h_cid h) [with_header prev (wire_header h)].

Lemma channel_range : 0 ≤ h_cid h < zlen (in_packets t).
Proof.
  destruct Hslots as [Hl _]. pose proof Hch as Hc.
  unfold is_channel, RTMP_CHANNEL_PROTOCOL, RTMP_CHANNEL_DATA in Hc. unfold zlen. lia.
Qed.

Lemma step3 : step (set_reader t (in_packets t) (mid_parser RTMP_PARSE_MESSAGE_HEADER [byte0 h] None))
    data (zlen data) 1 =
  Ok (0, set_reader t pkts1 (mid_parser RTMP_PARSE_EXTENDED_TIMESTAMP ([byte0 h] ++ msg) (Some (h_cid h))),
      1 + zlen msg).
Proof.
  destruct (byte0_spec h Hok Hch) as (_ & _ & Hshift & _ & _). pose proof header_lens as [Hm _].
  unfold rtmp_chunk_read_step. cbn [set_reader parser mid_parser ps_state]. unfold read_message_header.
  cbn [set_reader parser mid_parser ps_buffer].
  assert (ld (put buf 0 [byte0 h]) 0 = Ok (byte0 h)) as -> by done. run. rewrite Hshift.
  rewrite s_header_size_ok by apply Hok. run. cbn [ps_basic_bytes]. rewrite <- msg_len.
  change (RtmpParser (put buf 0 [byte0 h]) 1 (zlen [byte0 h]) RTMP_PARSE_MESSAGE_HEADER None)
    with (mid_parser RTMP_PARSE_MESSAGE_HEADER [byte0 h] None).
  assert (1 + zlen msg + zlen piece ≤ zlen data) as Hdl.
  { rewrite data_len. pose proof (zlen_nonneg ext). lia. }
  rewrite parser_fill_spec;
    [|done|lia|by cbn|cbn [mid_parser ps_basic_bytes ps_buffer]; rewrite buf_mid by done; lia
     |cbn [mid_parser ps_basic_bytes ps_bytes]; change (zlen [byte0 h]) with 1; unfold FILL, MAX_CHUNK_HEADER; lia].
  cbv zeta. unfold fill_len. cbn [mid_parser ps_basic_bytes ps_bytes]. change (zlen [byte0 h]) with 1.
  replace (Z.max 0 (Z.min (zlen msg + 1 - 1) (zlen data - 1))) with (zlen msg) by lia.
  assert (sub data 1 (zlen msg) = msg) as -> by (rewrite data_split; by apply sub_mid).
  run. change (RtmpParser (put buf 0 [byte0 h]) 1 1 RTMP_PARSE_MESSAGE_HEADER None)
    with (mid_parser RTMP_PARSE_MESSAGE_HEADER [byte0 h] None).
  rewrite fill_mid by (change (zlen [byte0 h]) with 1; lia). cbn [mid_parser ps_bytes ps_buffer ps_basic_bytes].
  rewrite zlen_app. change (zlen [byte0 h]) with 1.
  destruct (Z.geb_spec (1 + zlen msg) (zlen msg + 1)); [|lia].
  cbn [set_reader in_packets].
  rewrite (rtmp_packet_parse_spec _ _ (drop (length ([byte0 h] ++ msg)) buf) prev h); try done.
  - unfold mid_parser. by rewrite zlen_app.
  - apply bytes_ok_put; [apply (rw_buffer_bytes _ (proj1 Hrun))|]. apply bytes_ok_app. split.
    + constructor; [|constructor]. by destruct (byte0_spec h Hok Hch) as (_ & ? & _).
    + apply bytes_ok_message_header.
Qed.

Hypothesis Halloc : ∀ n, realloc n = true.
Hypothesis Hdelta : h_fmt h = 3 → 16777215 ≤ h_timestamp h → p_delta prev = h_timestamp h.

(** The packet when the payload of the chunk starts. *)
Definition started : rtmp_packet_t :=
  if 0 =? p_bytes prev then
    snd (rtmp_packet_alloc realloc (RtmpPacket (wire_header h) (h_timestamp h)
           (if 0 =? h_fmt h then h_timestamp h else u32 (p_clock prev + h_timestamp h))
           (p_payload prev) (p_capacity prev) (p_bytes prev)))
  else with_header prev (wire_header h).

Lemma rtmp_packet_alloc_0 pkt : fst (rtmp_packet_alloc realloc pkt) = 0.
Proof. unfold rtmp_packet_alloc. rewrite Halloc. by destruct (_ || _). Qed.

Lemma wire_ext : (h_timestamp (wire_header h) =? 16777215) = (h_timestamp h >=? 16777215).
Proof.
  cbn [wire_header h_timestamp]. rewrite Z.geb_leb.
  destruct (Z.eqb_spec (Z.min 16777215 (h_timestamp h)) 16777215), (Z.leb_spec 16777215 (h_timestamp h)); done || lia.
Qed.

Lemma chunk_start : read_chunk_start realloc (set_reader t pkts1
    (mid_parser RTMP_PARSE_EXTENDED_TIMESTAMP ([byte0 h] ++ msg) (Some (h_cid h))))
    (mid_parser RTMP_PARSE_EXTENDED_TIMESTAMP ([byte0 h] ++ msg ++ ext) (Some (h_cid h))) (h_cid h) =
  Ok (0, set_reader t (put (in_packets t) (h_cid h) [started])
           (mid_parser RTMP_PARSE_PAYLOAD ([byte0 h] ++ msg ++ ext) (Some (h_cid h))), None).
Proof.
  destruct (byte0_spec h Hok Hch) as (_ & Hb0 & Hshift & _ & _). pose proof header_lens as [Hm He].
  pose proof channel_range as Hcr.
  unfold read_chunk_start. cbn [set_reader in_packets]. unfold pkts1. rewrite ld_put by done. run.
  cbn [mid_parser ps_buffer ps_basic_bytes].
  assert (ld (put buf 0 ([byte0 h] ++ msg ++ ext)) 0 = Ok (byte0 h)) as -> by done. run.
  rewrite Hshift, s_header_size_ok by apply Hok. run. cbn [with_header p_header p_delta p_bytes p_clock p_payload p_capacity].
  rewrite wire_ext. cbn [wire_header h_fmt h_timestamp]. rewrite <- msg_len.
  assert (bytes_ok (put buf 0 ([byte0 h] ++ msg ++ ext))) as Hbok.
  { apply bytes_ok_put; [apply (rw_buffer_bytes _ (proj1 Hrun))|]. rewrite !bytes_ok_app.
    split_and!; [constructor; [done|constructor]|apply bytes_ok_message_header|apply bytes_ok_ext]. }
  match goal with |- context [?e ≫= _] => assert (e = Ok (h_timestamp h, None)) as -> end.
  { destruct (Z.geb_spec (h_timestamp h) 16777215) as [Hge|Hlt].
    - unfold rtmp_chunk_extended_timestamp_read.
      assert (ext = be_bytes 4 (h_timestamp h)) as Eext.
      { unfold ext, extended_timestamp_bytes. destruct (Z.geb_spec (h_timestamp h) 16777215); [done|lia]. }
      rewrite be_read_uint32_spec; [|done|lia|rewrite buf_mid by (rewrite !zlen_app; change (zlen [byte0 h]) with 1; lia); lia].
      run. rewrite put_0_app, <- !app_assoc, (app_assoc [byte0 h] msg).
      rewrite sub_mid; [|rewrite zlen_app; change (zlen [byte0 h]) with 1; lia|lia].
      rewrite Eext, be_val_bytes by (apply Hok).
      destruct (Z.eqb_spec RTMP_CHUNK_TYPE_3 (h_fmt h)) as [E3|]; cbn [andb]; [|done].
      rewrite Hdelta by (done || lia). by rewrite Z.eqb_refl.
    - by rewrite Z.min_r by lia. }
  run. unfold started.
  change (RTMP_CHUNK_TYPE_0 =? h_fmt h) with (0 =? h_fmt h).
  destruct (0 =? p_bytes prev).
  - match goal with |- context [rtmp_packet_alloc realloc ?p] =>
      pose proof (rtmp_packet_alloc_0 p); destruct (rtmp_packet_alloc realloc p) as [r pk] end.
    cbn [fst snd] in *. subst r. rewrite st_ok by llia. run. rewrite put_twice by done. done.
  - rewrite st_ok by llia. run. by rewrite put_twice by done.
Qed.

Lemma step4 : step (set_reader t pkts1
    (mid_parser RTMP_PARSE_EXTENDED_TIMESTAMP ([byte0 h] ++ msg) (Some (h_cid h)))) data (zlen data) (1 + zlen msg) =
  Ok (0, set_reader t (put (in_packets t) (h_cid h) [started])
           (mid_parser RTMP_PARSE_PAYLOAD ([byte0 h] ++ msg ++ ext) (Some (h_cid h))), zlen hdr).
Proof.
  pose proof header_lens as [Hm He]. pose proof channel_range as Hcr.
  assert (zlen hdr = 1 + zlen msg + zlen ext) as Hhdr.
  { pose proof data_len as Hd. unfold data in Hd. rewrite zlen_app in Hd. lia. }
  unfold rtmp_chunk_read_step. cbn [set_reader parser mid_parser ps_state]. unfold read_extended_timestamp.
  cbn [set_reader parser mid_parser ps_pkt in_packets].
  assert (ld pkts1 (h_cid h) = Ok (with_header prev (wire_header h))) as -> by (by apply ld_put). run.
  cbn [with_header p_header]. rewrite wire_ext. cbn [wire_header h_fmt].
  rewrite s_header_size_ok by apply Hok. run. cbn [ps_basic_bytes]. rewrite <- msg_len, <- He.
  change (RtmpParser (put buf 0 ([byte0 h] ++ msg)) 1 (zlen ([byte0 h] ++ msg)) RTMP_PARSE_EXTENDED_TIMESTAMP
    (Some (h_cid h))) with (mid_parser RTMP_PARSE_EXTENDED_TIMESTAMP ([byte0 h] ++ msg) (Some (h_cid h))).
  pose proof data_len as Hdl. pose proof (zlen_nonneg ext).
  assert (zlen ext ≤ 4) by (rewrite He; case_match; lia).
  assert (zlen ([byte0 h] ++ msg) = 1 + zlen msg) as Hbm by (rewrite zlen_app; done).
  rewrite parser_fill_spec;
    [|done|lia|cbn [mid_parser ps_bytes]; lia|cbn [mid_parser ps_basic_bytes ps_buffer]; rewrite buf_mid by lia; lia
     |cbn [mid_parser ps_basic_bytes ps_bytes]; rewrite Hbm; unfold FILL, MAX_CHUNK_HEADER; lia].
  cbv zeta. unfold fill_len. cbn [mid_parser ps_basic_bytes ps_bytes]. rewrite Hbm.
  replace (Z.max 0 _) with (zlen ext) by lia.
  assert (sub data (1 + zlen msg) (zlen ext) = ext) as ->.
  { rewrite data_split, (app_assoc [byte0 h] msg). by apply sub_mid. }
  run. fold (mid_parser RTMP_PARSE_EXTENDED_TIMESTAMP ([byte0 h] ++ msg) (Some (h_cid h))).
  change (RtmpParser (put buf 0 ([byte0 h] ++ msg)) 1 (1 + zlen msg) RTMP_PARSE_EXTENDED_TIMESTAMP
    (Some (h_cid h))) with (mid_parser RTMP_PARSE_EXTENDED_TIMESTAMP ([byte0 h] ++ msg) (Some (h_cid h))).
  rewrite fill_mid by lia. rewrite <- app_assoc.
  cbn [mid_parser ps_bytes].
  assert (zlen ([byte0 h] ++ msg ++ ext) = 1 + zlen msg + zlen ext) as Hbme
    by (rewrite !zlen_app; change (zlen [byte0 h]) with 1; lia).
  rewrite Hbme. destruct (Z.geb_spec (1 + zlen msg + zlen ext) (zlen msg + 1 + zlen ext)); [|lia].
  rewrite <- Hbme.
  fold (mid_parser RTMP_PARSE_EXTENDED_TIMESTAMP ([byte0 h] ++ msg ++ ext) (Some (h_cid h))).
  fold (mid_parser RTMP_PARSE_EXTENDED_TIMESTAMP ([byte0 h] ++ msg) (Some (h_cid h))).
  rewrite chunk_start. run. cbn [Z.eqb negb]. by rewrite ?Hbme, Hhdr.
Qed.

(** A packet of message [h], stamped [ts], of which [sent] has arrived. *)
Record receiving (ts : Z) (sent : list Z) (pkt : rtmp_packet_t) : Prop := {
  rc_cid : h_cid (p_header pkt) = h_cid h;
  rc_timestamp : h_timestamp (p_header pkt) = Z.min 16777215 (h_timestamp h);
  rc_length : h_length (p_header pkt) = h_length h;
  rc_type : h_type (p_header pkt) = h_type h;
  rc_stream_id : h_stream_id (p_header pkt) = h_stream_id h;
  rc_delta : p_delta pkt = h_timestamp h;
  rc_clock : p_clock pkt = ts;
  rc_bytes : p_bytes pkt = zlen sent;
  rc_capacity : h_length h ≤ p_capacity pkt;
  rc_payload : ∃ m, p_payload pkt = Some m ∧ zlen m = p_capacity pkt ∧ sub m 0 (zlen sent) = sent
}.

Variables (ts : Z) (sent : list Z).
Hypothesis Hrecv : receiving ts sent started.
Hypothesis Hsize : zlen piece = Z.min (in_chunk_size t - Z.rem (zlen sent) (in_chunk_size t))
                                      (h_length h - zlen sent).

(** The reader after a chunk: back to the start of a header. *)
Definition after_chunk (pkt : rtmp_packet_t) : rtmp_t P :=
  set_reader t (put (in_packets t) (h_cid h) [pkt])
    (mid_parser RTMP_PARSE_INIT ([byte0 h] ++ msg ++ ext) (Some (h_cid h))).

Lemma hdr_len : zlen hdr + zlen piece = zlen data.
Proof. unfold data. by rewrite zlen_app. Qed.

Lemma step5 : ∃ m', sub m' 0 (zlen (sent ++ piece)) = sent ++ piece ∧ zlen m' = p_capacity started ∧
  step (set_reader t (put (in_packets t) (h_cid h) [started])
          (mid_parser RTMP_PARSE_PAYLOAD ([byte0 h] ++ msg ++ ext) (Some (h_cid h)))) data (zlen data) (zlen hdr) =
  let pkt b := RtmpPacket (p_header started) (p_delta started) (p_clock started) (Some m')
                 (p_capacity started) b in
  if zlen (sent ++ piece) >=? h_length h then
    '(r, t') ← handler (after_chunk (pkt 0))
                 (RtmpChunkHeader (h_fmt (p_header started)) (h_cid h) ts (h_length h) (h_type h)
                    (h_stream_id h)) (sent ++ piece);
    Ok (r, t', zlen data)
  else if 0 =? Z.rem (zlen (sent ++ piece)) (in_chunk_size t)
       then Ok (0, after_chunk (pkt (zlen (sent ++ piece))), zlen data)
       else Ok (0, set_reader t (put (in_packets t) (h_cid h) [pkt (zlen (sent ++ piece))])
                     (mid_parser RTMP_PARSE_PAYLOAD ([byte0 h] ++ msg ++ ext) (Some (h_cid h))), zlen data).
Proof.
  destruct Hrecv as [Rc Rt Rl Rty Rs Rd Rk Rb Rcap (m & Rm & Rz & Rsub)].
  pose proof channel_range as Hcr. pose proof hdr_len as Hhl. pose proof (proj1 (proj2 Hrun)) as Hics.
  pose proof (zlen_nonneg sent) as Hsn. pose proof (zlen_nonneg hdr).
  exists (put m (zlen sent) piece).
  assert (zlen sent + zlen piece ≤ h_length h) as Hfit by lia.
  assert (sub (put m (zlen sent) piece) 0 (zlen sent + zlen piece) = sent ++ piece) as Hsub.
  { rewrite sub_sub_app by (rewrite ?zlen_put; lia). f_equal.
    - rewrite <- Rsub at 3. unfold sub, put. change (Z.to_nat 0) with 0%nat. rewrite !drop_0.
      rewrite take_app_le by (rewrite length_take; unfold zlen in *; lia).
      rewrite take_take. f_equal. lia.
    - rewrite Z.add_0_l. apply sub_put; lia. }
  split; [by rewrite zlen_app|].
  split; [rewrite zlen_put; lia|].
  unfold rtmp_chunk_read_step. cbn [set_reader parser mid_parser ps_state]. unfold read_payload.
  cbn [set_reader parser mid_parser ps_pkt in_packets in_chunk_size]. rewrite ld_put by done. run.
  rewrite Rm, Rb, Rl.
  replace ((zlen sent >? p_capacity started) || (zlen sent >? h_length h) || (h_length h >? p_capacity started))
    with false.
  2:{ rewrite !Z.gtb_ltb. destruct (Z.ltb_spec (p_capacity started) (zlen sent)),
        (Z.ltb_spec (h_length h) (zlen sent)), (Z.ltb_spec (p_capacity started) (h_length h)); done || lia. }
  destruct (Z.eqb_spec (in_chunk_size t) 0); [lia|]. rewrite <- Hsize.
  replace (Z.min (zlen piece) (zlen data - zlen hdr)) with (zlen piece) by lia.
  rewrite slice_ok by lia. run.
  assert (sub data (zlen hdr) (zlen piece) = piece) as ->.
  { unfold data. rewrite sub_app_r, Z.sub_diag by lia. apply sub_full. }
  rewrite st_ok by lia. run. rewrite zlen_app. cbv zeta. rewrite Hhl.
  destruct (Z.geb_spec (zlen sent + zlen piece) (h_length h)) as [Hdone|Hmore].
  - rewrite st_ok by llia. run. rewrite put_twice by done.
    assert (h_length h = zlen sent + zlen piece) as Elen by lia.
    rewrite slice_ok by (rewrite ?zlen_put; lia). run.
    rewrite Elen, Hsub, <- Elen.
    unfold after_chunk. rewrite Rc, Rty, Rs, Rk. done.
  - rewrite st_ok by llia. run. rewrite put_twice by done.
    destruct (0 =? _); done.
Qed.
End ReadChunk.

(** * Reading a message *)

Record message := Message {
  m_cid : Z; m_timestamp : Z; m_type : Z; m_stream_id : Z; m_payload : list Z
}.

(** A handler that hands every message to [deliver]. *)
Class Delivers {P} (handler : rtmp_t P → rtmp_chunk_header_t → list Z → outcome (Z * rtmp_t P))
    (deliver : P → message → P) :=
  delivers : ∀ t h m, handler t h m =
    Ok (0, set_param t (deliver (param t)
              (Message (h_cid h) (h_timestamp h) (h_type h) (h_stream_id h) m))).

#[global] Instance delivers_handler {P} handler (deliver : P → message → P) :
  Delivers handler deliver → MessageHandler handler.
Proof.
  intros Hd t h m Hics _ _ _ _. rewrite Hd. eexists 0, _. split; [reflexivity|]. by split_and!.
Qed.

Section ReadMessage.
Context {P : Type} (realloc : Z → bool).
Context (handler : rtmp_t P → rtmp_chunk_header_t → list Z → outcome (Z * rtmp_t P)).
Context (deliver : P → message → P) `{Hdeliver : !Delivers handler deliver}.
Hypothesis Halloc : ∀ n, realloc n = true.

Local Abbreviation read := (rtmp_chunk_read realloc handler).
Local Abbreviation again := (rtmp_chunk_read_depth realloc handler 1).

(** Between two chunks. *)
Definition idle (t : rtmp_t P) : Prop :=
  running t ∧ ps_state (parser t) = RTMP_PARSE_INIT ∧ slots_ok (in_packets t).

(** The last message of a stream was [z], stamped [ts]. *)
Record finished (z : rtmp_chunk_header_t) (ts : Z) (pkt : rtmp_packet_t) : Prop := {
  fn_cid : h_cid (p_header pkt) = h_cid z;
  fn_timestamp : h_timestamp (p_header pkt) = Z.min 16777215 (h_timestamp z);
  fn_length : h_length (p_header pkt) = h_length z;
  fn_type : h_type (p_header pkt) = h_type z;
  fn_stream_id : h_stream_id (p_header pkt) = h_stream_id z;
  fn_clock : p_clock pkt = ts;
  fn_bytes : p_bytes pkt = 0
}.

Lemma slots_ok_put pkts cid pkt : slots_ok pkts → 0 ≤ cid < 8 → h_cid (p_header pkt) = cid →
  slots_ok (put pkts cid [pkt]).
Proof.
  intros [Hl Hs] Hc Hp. assert (zlen [pkt] = 1) as H1 by done.
  assert (zlen pkts = 8) as Hz by (unfold zlen; lia). split.
  - pose proof (zlen_put pkts cid [pkt] ltac:(lia) ltac:(lia)) as Hzz. unfold zlen in *. lia.
  - intros j x Hj Hx. destruct (decide (j = cid)) as [->|Hne].
    + unfold put in Hx. rewrite lookup_app_r in Hx by (rewrite length_take; lia).
      rewrite length_take in Hx. replace (Z.to_nat cid - _)%nat with 0%nat in Hx by lia.
      cbn in Hx. simplify_eq. by right.
    + rewrite put_lookup_out in Hx by lia. by apply Hs.
Qed.

Section OneChunk.
Variables (t : rtmp_t P) (h : rtmp_chunk_header_t) (piece : list Z) (prev : rtmp_packet_t).
Variables (ts : Z) (sent : list Z).
Hypothesis Hidle : idle t.
Hypothesis Hok : header_ok h.
Hypothesis Hch : is_channel (h_cid h).
Hypothesis Hprev : in_packets t !! Z.to_nat (h_cid h) = Some prev.
Hypothesis Hcont : continues (p_header prev) h.
Hypothesis Hnew : h_cid (p_header prev) = 0 → h_fmt h = 0 ∨ h_fmt h = 1.
Hypothesis Hdelta : h_fmt h = 3 → 16777215 ≤ h_timestamp h → p_delta prev = h_timestamp h.
Hypothesis Hpiece : bytes_ok piece.
Hypothesis Hne : 0 < zlen piece.
Hypothesis Hrecv : receiving h ts sent (started realloc h prev).
Hypothesis Hsize : zlen piece = Z.min (in_chunk_size t - Z.rem (zlen sent) (in_chunk_size t))
                                      (h_length h - zlen sent).

(** What a chunk leaves behind. *)
Lemma read_chunk : ∃ r t', read t (first_header_bytes h ++ piece)
    (zlen (first_header_bytes h ++ piece)) = Ok (r, t') ∧ r = 0 ∧ idle t' ∧
  in_chunk_size t' = in_chunk_size t ∧
  ∃ pkt, in_packets t' = put (in_packets t) (h_cid h) [pkt] ∧
    if zlen (sent ++ piece) =? h_length h
    then finished h ts pkt ∧ param t' = deliver (param t)
           (Message (h_cid h) ts (h_type h) (h_stream_id h) (sent ++ piece))
    else (Z.rem (zlen (sent ++ piece)) (in_chunk_size t) = 0 →
           receiving h ts (sent ++ piece) pkt) ∧ param t' = param t.
Proof.
  destruct Hidle as (Hrun & Hinit & Hslots). pose proof (proj1 (proj2 Hrun)) as Hics.
  pose proof (channel_range t h Hslots Hch) as Hcr.
  assert (bytes_ok (first_header_bytes h ++ piece)) as Hdata by (by apply data_bytes_ok).
  destruct (rtmp_chunk_read_ok realloc handler t (first_header_bytes h ++ piece) Hrun Hdata) as (r & t' & E & Hrun').
  exists r, t'. split; [exact E|]. rewrite read_is_loop in E.
  pose proof (header_lens h Hok) as [Hm He]. pose proof (data_len h piece Hok Hch) as Hdl.
  pose proof (hdr_len h piece) as Hhl.
  assert (0 ≤ zlen (extended_timestamp_bytes h)) by apply zlen_nonneg.
  assert (∃ f, read_fuel (zlen (first_header_bytes h ++ piece)) = S (S (S (S (S (S f)))))) as [f Hf].
  { exists (read_fuel (zlen (first_header_bytes h ++ piece)) - 6)%nat. unfold read_fuel. lia. }
  rewrite Hf in E. cbn [rtmp_chunk_read_loop] in E.
  destruct (Z.ltb_spec 0 (zlen (first_header_bytes h ++ piece))); [|lia].
  rewrite (step1 realloc handler again t h piece) in E by done. cbn [mbind outcome_bind Z.eqb negb] in E.
  destruct (Z.ltb_spec 1 (zlen (first_header_bytes h ++ piece))); [|lia].
  rewrite (step2 realloc handler again t h piece) in E by done. cbn [mbind outcome_bind Z.eqb negb] in E.
  destruct (Z.ltb_spec 1 (zlen (first_header_bytes h ++ piece))); [|lia].
  rewrite (step3 realloc handler again t h piece prev) in E by done. cbn [mbind outcome_bind Z.eqb negb] in E.
  destruct (Z.ltb_spec (1 + zlen (message_header_bytes h)) (zlen (first_header_bytes h ++ piece))); [|lia].
  rewrite (step4 realloc handler again t h piece prev) in E by done. cbn [mbind outcome_bind Z.eqb negb] in E.
  destruct (Z.ltb_spec (zlen (first_header_bytes h)) (zlen (first_header_bytes h ++ piece))); [|lia].
  destruct (step5 realloc handler again t h piece prev Hrun Hslots Hch Hne ts sent Hrecv Hsize)
    as (m' & Hsub & Hzm & E5).
  rewrite E5 in E. clear E5. cbv zeta in E.
  destruct Hrecv as [Rc Rt Rl Rty Rs Rd Rk Rb Rcap _].
  rewrite (zlen_app sent piece) in *. pose proof (zlen_nonneg sent).
  pose proof (Z.rem_bound_pos (zlen sent) (in_chunk_size t) ltac:(lia) Hics).
  rewrite Z.geb_leb in E. destruct (Z.leb_spec (h_length h) (zlen sent + zlen piece)).
  - rewrite delivers in E. cbn [mbind outcome_bind Z.eqb negb] in E. rewrite Z.ltb_irrefl in E.
    apply Ok_inj in E. injection E as <- <-. split; [done|].
    split; [|split; [done|]].
    + split; [by apply Hrun'|]. split; [done|]. cbn [set_param after_chunk set_reader in_packets].
      apply slots_ok_put; [done| |done]. destruct Hslots as [Hl _]. unfold zlen in Hcr. lia.
    + eexists. split; [reflexivity|].
      destruct (Z.eqb_spec (zlen sent + zlen piece) (h_length h)); [|lia].
      split; [|done]. by constructor.
  - assert (Z.rem (zlen sent + zlen piece) (in_chunk_size t) = 0) as Hrem.
    { replace (zlen sent + zlen piece) with (zlen sent - Z.rem (zlen sent) (in_chunk_size t) + 1 * in_chunk_size t) by lia.
      rewrite Z.rem_mod_nonneg by (rewrite ?Z.rem_mod_nonneg in * by lia; lia).
      rewrite Z_mod_plus_full. rewrite Z.rem_mod_nonneg by lia.
      rewrite Zminus_mod_idemp_r, Z.sub_diag. done. }
    rewrite Hrem in E. cbn [mbind outcome_bind Z.eqb negb] in E. rewrite Z.ltb_irrefl in E.
    apply Ok_inj in E. injection E as <- <-. split; [done|].
    split; [|split; [done|]].
    + split; [by apply Hrun'|]. split; [done|]. cbn [set_param after_chunk set_reader in_packets].
      apply slots_ok_put; [done| |done]. destruct Hslots as [Hl _]. unfold zlen in Hcr. lia.
    + eexists. split; [reflexivity|].
      destruct (Z.eqb_spec (zlen sent + zlen piece) (h_length h)); [lia|].
      split; [|done]. intros _. constructor; try done; cbn [p_bytes p_capacity p_payload].
      * by rewrite zlen_app.
      * exists m'. split_and!; [done|done|]. by rewrite zlen_app.
Qed.
End OneChunk.

(** The reader after message [z] with [payload]. *)
Definition read_to (t : rtmp_t P) (z : rtmp_chunk_header_t) (ts : Z) (payload : list Z)
    (t' : rtmp_t P) : Prop :=
  idle t' ∧ in_chunk_size t' = in_chunk_size t ∧
  param t' = deliver (param t) (Message (h_cid z) ts (h_type z) (h_stream_id z) payload) ∧
  ∃ pkt, in_packets t' = put (in_packets t) (h_cid z) [pkt] ∧ finished z ts pkt.

(** The header of the chunks that follow. *)
Definition type3 (z : rtmp_chunk_header_t) : rtmp_chunk_header_t :=
  RtmpChunkHeader 3 (h_cid z) (h_timestamp z) (h_length z) (h_type z) (h_stream_id z).

Lemma type3_bytes z : first_header_bytes (type3 z) = next_header_bytes z.
Proof. done. Qed.

Lemma lookup_put_same pkts cid (pkt : rtmp_packet_t) : 0 ≤ cid < zlen pkts →
  put pkts cid [pkt] !! Z.to_nat cid = Some pkt.
Proof.
  intros. unfold put, zlen in *. rewrite lookup_app_r by (rewrite length_take; lia).
  rewrite length_take. by replace (Z.to_nat cid - _)%nat with 0%nat by lia.
Qed.

Lemma chunk_piece_len (body : list Z) c : 0 < c → zlen (sub body 0 c) = Z.min c (zlen body).
Proof.
  intros. unfold sub, zlen. change (Z.to_nat 0) with 0%nat. rewrite drop_0, length_take. lia.
Qed.

Lemma chunk_body_split (body : list Z) c : 0 ≤ c → body = sub body 0 c ++ drop (Z.to_nat c) body.
Proof. intros. unfold sub. change (Z.to_nat 0) with 0%nat. by rewrite drop_0, take_drop. Qed.

Lemma bytes_ok_basic fmt id : 0 ≤ fmt ≤ 3 → 2 ≤ id ≤ 65599 → bytes_ok (basic_header_bytes fmt id).
Proof.
  intros. unfold basic_header_bytes, bytes_ok. rewrite !Z.geb_leb.
  destruct (Z.leb_spec 320 id); [|destruct (Z.leb_spec 64 id)];
    repeat constructor; unfold is_uint; dlia.
Qed.

Lemma bytes_ok_next z : header_ok z → bytes_ok (next_header_bytes z).
Proof.
  intros Hok. unfold next_header_bytes. apply bytes_ok_app.
  split; [apply bytes_ok_basic; [lia|apply Hok]|apply bytes_ok_ext].
Qed.

Lemma bytes_ok_chunks fuel c next : ∀ body, bytes_ok next → bytes_ok body →
  bytes_ok (chunks fuel c next body).
Proof.
  induction fuel as [|fuel IH]; intros body Hn Hb; cbn [chunks]; apply bytes_ok_app;
    (split; [by apply bytes_ok_sub|]); [constructor|].
  case_match; [constructor|]. apply bytes_ok_app. split; [done|]. apply IH; [done|]. by apply Forall_drop.
Qed.

Lemma idle_lookup t cid : idle t → is_channel cid → 0 ≤ cid < zlen (in_packets t).
Proof.
  intros (_ & _ & Hl & _) Hc. unfold is_channel, RTMP_CHANNEL_PROTOCOL, RTMP_CHANNEL_DATA in Hc.
  unfold zlen. lia.
Qed.

(** The chunks after the first. *)
Lemma read_rest z ts fuel : header_ok z → is_channel (h_cid z) → ∀ t prev sent body,
  idle t → in_packets t !! Z.to_nat (h_cid z) = Some prev → receiving z ts sent prev →
  0 < zlen sent → Z.rem (zlen sent) (in_chunk_size t) = 0 → bytes_ok body →
  0 < zlen body ≤ Z.of_nat fuel → zlen sent + zlen body = h_length z →
  let data := next_header_bytes z ++ chunks fuel (in_chunk_size t) (next_header_bytes z) body in
  ∃ t', read t data (zlen data) = Ok (0, t') ∧ read_to t z ts (sent ++ body) t'.
Proof.
  intros Hok Hch. induction fuel as [|fuel IH]; intros t prev sent body Hidle Hprev Hrecv Hs Hrem Hb Hbl Hlen; [lia|].
  intros data. subst data. cbn [chunks]. set (c := in_chunk_size t) in *.
  pose proof (proj1 (proj2 (proj1 Hidle))) as Hc. fold c in Hc.
  set (piece := sub body 0 c). pose proof (chunk_piece_len body c Hc) as Hpl. fold piece in Hpl.
  set (tl := if zlen body <=? c then [] else _).
  assert (bytes_ok tl) as Htl.
  { unfold tl. case_match; [constructor|]. apply bytes_ok_app.
    split; [by apply bytes_ok_next|]. apply bytes_ok_chunks; [by apply bytes_ok_next|by apply Forall_drop]. }
  assert (bytes_ok piece) as Hpb by by apply bytes_ok_sub.
  rewrite (app_assoc (next_header_bytes z)).
  rewrite (rtmp_chunk_read_app realloc handler t (next_header_bytes z ++ piece) tl);
    [|apply Hidle|apply bytes_ok_app; split; [by apply bytes_ok_next|done]|done].
  destruct Hrecv as [Rc Rt Rl Rty Rs Rd Rk Rb Rcap Rpay].
  assert (receiving (type3 z) ts sent (started realloc (type3 z) prev)) as Hrecv3.
  { unfold started. rewrite Rb. destruct (Z.eqb_spec 0 (zlen sent)); [lia|]. by constructor. }
  destruct (read_chunk t (type3 z) piece prev ts sent Hidle) as (r & t1 & E & -> & Hidle1 & Hics1 & pkt & Hpk & Hres);
    try done.
  - destruct Hok. by constructor.
  - intros H0. rewrite Rc in H0. unfold is_channel, RTMP_CHANNEL_PROTOCOL in Hch. lia.
  - lia.
  - fold c. rewrite Hrem, Hpl. cbn [type3 h_length]. lia.
  - rewrite type3_bytes in E. unfold read_both. rewrite E. run. cbn [Z.eqb].
    rewrite zlen_app in Hres. cbn [type3 h_length h_cid h_type h_stream_id] in Hres, Hpk.
    destruct (Z.leb_spec (zlen body) c) as [Hlast|Hmore].
    + subst tl. exists t1. split; [done|].
      assert (piece = body) as Epb.
      { rewrite (chunk_body_split body c) by lia. fold piece. rewrite drop_ge by (unfold zlen in *; lia).
        by rewrite app_nil_r. }
      pose proof (f_equal zlen Epb) as Hzp.
      destruct (Z.eqb_spec (zlen sent + zlen piece) (h_length z)); [|lia].
      destruct Hres as [Hfin Hpar]. rewrite Epb in Hpar. unfold read_to. split_and!; try done.
      exists pkt. split; [done|]. destruct Hfin. by constructor.
    + assert (zlen piece = c) as Hpc by lia.
      destruct (Z.eqb_spec (zlen sent + zlen piece) (h_length z)); [lia|].
      assert (Z.rem (zlen sent + zlen piece) c = 0) as Hrem'.
      { rewrite Hpc. rewrite Z.rem_mod_nonneg in * by lia. replace (zlen sent + c) with (zlen sent + 1 * c) by lia.
        by rewrite Z_mod_plus_full. }
      destruct Hres as [Hrc Hpar]. specialize (Hrc Hrem').
      set (body' := drop (Z.to_nat c) body) in *.
      assert (body = piece ++ body') as Ebody by (apply chunk_body_split; lia).
      assert (zlen body = c + zlen body') as Hbl' by (rewrite Ebody, zlen_app; lia).
      subst tl. pose proof (IH t1 pkt (sent ++ piece) body') as IH'. rewrite Hics1 in IH'. fold c in IH'.
      destruct IH' as (t2 & E2 & Hid2 & Hics2 & Hpar2 & pkt2 & Hpk2 & Hfin2);
        try done.
      * rewrite Hpk. apply lookup_put_same. by apply idle_lookup.
      * destruct Hrc. by constructor.
      * rewrite zlen_app. lia.
      * by rewrite zlen_app.
      * by apply Forall_drop.
      * lia.
      * rewrite zlen_app. lia.
      * exists t2. split; [done|]. unfold read_to. split_and!; [done|congruence| |].
        -- rewrite Hpar2, Hpar. do 2 f_equal. by rewrite Ebody, app_assoc.
        -- exists pkt2. split; [|done]. rewrite Hpk2, Hpk. apply put_twice. by apply idle_lookup.
Qed.

Lemma alloc_ready pkt : (∀ m, p_payload pkt = Some m → zlen m = p_capacity pkt) →
  (p_payload pkt = None → p_capacity pkt = 0) → is_uint 24 (h_length (p_header pkt)) →
  let pkt' := snd (rtmp_packet_alloc realloc pkt) in
  p_header pkt' = p_header pkt ∧ p_delta pkt' = p_delta pkt ∧ p_clock pkt' = p_clock pkt ∧
  p_bytes pkt' = p_bytes pkt ∧ h_length (p_header pkt) ≤ p_capacity pkt' ∧
  ∃ m, p_payload pkt' = Some m ∧ zlen m = p_capacity pkt'.
Proof.
  intros Hsome Hnone Hl. unfold is_uint in Hl. unfold rtmp_packet_alloc. rewrite Halloc.
  assert (u32 (h_length (p_header pkt) + 1024) = h_length (p_header pkt) + 1024) as Hn
    by (apply u32_id; unfold is_uint; dlia).
  destruct ((0 =? p_capacity pkt) || (p_capacity pkt <? h_length (p_header pkt))) eqn:E;
    cbn [negb snd p_header p_delta p_clock p_bytes p_payload p_capacity].
  - rewrite Hn. split_and!; try done; [lia|]. eexists. split; [reflexivity|].
    unfold zlen. rewrite length_take, length_app, length_replicate. dlia.
  - apply orb_false_elim in E as [E1%Z.eqb_neq E2%Z.ltb_ge]. split_and!; try done.
    destruct (p_payload pkt) as [m|]; [|by rewrite Hnone in E1]. exists m. split; [done|by apply Hsome].
Qed.

(** A message written with header [z] on a stream it continues. *)
Lemma read_message t z ts payload prev :
  idle t → header_ok z → is_channel (h_cid z) → in_packets t !! Z.to_nat (h_cid z) = Some prev →
  p_bytes prev = 0 → continues (p_header prev) z →
  (h_cid (p_header prev) = 0 → h_fmt z = 0 ∨ h_fmt z = 1) →
  (h_fmt z ≠ 0 → h_timestamp z < 16777215) →
  (if 0 =? h_fmt z then h_timestamp z else u32 (p_clock prev + h_timestamp z)) = ts →
  h_length z = zlen payload → 0 < zlen payload → bytes_ok payload →
  ∃ t', read t (message_bytes (in_chunk_size t) z payload)
          (zlen (message_bytes (in_chunk_size t) z payload)) = Ok (0, t') ∧ read_to t z ts payload t'.
Proof.
  intros Hidle Hok Hch Hprev Hb0 Hcont Hnew Hext Hclock Hlen Hpos Hpay.
  set (c := in_chunk_size t). pose proof (proj1 (proj2 (proj1 Hidle))) as Hc. fold c in Hc.
  unfold message_bytes.
  assert (∃ n, length payload = S n) as [n En]
    by (destruct payload; [by vm_compute in Hpos|cbn; eauto]).
  rewrite En. cbn [chunks]. set (piece := sub payload 0 c).
  pose proof (chunk_piece_len payload c Hc) as Hpl. fold piece in Hpl.
  set (tl := if zlen payload <=? c then [] else _).
  assert (bytes_ok tl) as Htl.
  { unfold tl. destruct (_ <=? _); [constructor|]. apply bytes_ok_app.
    split; [by apply bytes_ok_next|]. apply bytes_ok_chunks; [by apply bytes_ok_next|by apply Forall_drop]. }
  assert (bytes_ok piece) as Hpb by by apply bytes_ok_sub.
  rewrite (app_assoc (first_header_bytes z)).
  rewrite (rtmp_chunk_read_app realloc handler t (first_header_bytes z ++ piece) tl);
    [|apply Hidle|by apply data_bytes_ok|done].
  assert (packet_wf prev) as [_ _ _ _ Hpp Hpn].
  { eapply Forall_lookup_1; [apply Hidle|exact Hprev]. }
  assert (receiving z ts [] (started realloc z prev)) as Hrecv.
  { unfold started. rewrite Hb0. cbn [Z.eqb].
    match goal with |- context [rtmp_packet_alloc realloc ?p] =>
      destruct (alloc_ready p) as (E1 & E2 & E3 & E4 & E5 & m & E6 & E7) end.
    - intros m Hm. by apply Hpp.
    - done.
    - destruct Hok as [_ _ _ Hl _ _]. cbn [p_header wire_header h_length]. unfold is_uint. dlia.
    - constructor; rewrite ?E1, ?E2, ?E3, ?E4; cbn [p_header p_delta p_clock p_bytes]; try done.
      exists m. by split_and!. }
  destruct (read_chunk t z piece prev ts [] Hidle) as (r & t1 & E & -> & Hidle1 & Hics1 & pkt & Hpk & Hres);
    try done.
  - intros H3 Hge. specialize (Hext ltac:(lia)). lia.
  - lia.
  - fold c. change (zlen (@nil Z)) with 0. rewrite Z.rem_0_l by lia. rewrite Hpl, Hlen. lia.
  - unfold read_both. rewrite E. run. cbn [Z.eqb]. cbn [app] in Hres.
    destruct (Z.leb_spec (zlen payload) c) as [Hlast|Hmore].
    + subst tl. exists t1. split; [done|].
      assert (piece = payload) as Epb.
      { rewrite (chunk_body_split payload c) by lia. fold piece.
        rewrite drop_ge by (unfold zlen in *; lia). by rewrite app_nil_r. }
      pose proof (f_equal zlen Epb) as Hzp. destruct (Z.eqb_spec (zlen piece) (h_length z)); [|lia].
      destruct Hres as [Hfin Hpar]. rewrite Epb in Hpar. unfold read_to. split_and!; try done. by exists pkt.
    + assert (zlen piece = c) as Hpc by lia. destruct (Z.eqb_spec (zlen piece) (h_length z)); [lia|].
      destruct Hres as [Hrc Hpar].
      assert (Z.rem (zlen piece) c = 0) as Hrem by (rewrite Hpc; by apply Z.rem_same; lia).
      specialize (Hrc Hrem). set (body' := drop (Z.to_nat c) payload) in *.
      assert (payload = piece ++ body') as Ebody by (apply chunk_body_split; lia).
      assert (zlen payload = c + zlen body') as Hbl' by (rewrite Ebody, zlen_app; lia).
      subst tl. pose proof (read_rest z ts n Hok Hch t1 pkt piece body') as IH.
      rewrite Hics1 in IH. fold c in IH.
      destruct IH as (t2 & E2 & Hid2 & Hics2 & Hpar2 & pkt2 & Hpk2 & Hfin2); try done.
      * rewrite Hpk. apply lookup_put_same. by apply idle_lookup.
      * lia.
      * by apply Forall_drop.
      * unfold zlen in *. lia.
      * lia.
      * exists t2. split; [done|]. unfold read_to. split_and!; [done|congruence| |].
        -- rewrite Hpar2, Hpar. by rewrite Ebody.
        -- exists pkt2. split; [|done]. rewrite Hpk2, Hpk. apply put_twice. by apply idle_lookup.
Qed.
End ReadMessage.

(** * A writer and a reader in step *)

Section Session.
Context {Pw Pr : Type}.
Context (realloc : Z → bool) (Halloc : ∀ n, realloc n = true).
Context (send : Pw → list Z → list Z → Z * Pw) (out : Pw → list Z) `{!Transport send out}.
Context (handler : rtmp_t Pr → rtmp_chunk_header_t → list Z → outcome (Z * rtmp_t Pr)).
Context (deliver : Pr → message → Pr) `{!Delivers handler deliver}.

(** Both sides remember the same last message of a channel. *)
Record synced (wp rp : rtmp_packet_t) (cid : Z) : Prop := {
  sy_cid : h_cid (p_header wp) = cid;
  sy_length : h_length (p_header rp) = h_length (p_header wp);
  sy_type : h_type (p_header rp) = h_type (p_header wp);
  sy_stream_id : h_stream_id (p_header rp) = h_stream_id (p_header wp);
  sy_timestamp : h_timestamp (p_header rp) = Z.min 16777215 (h_timestamp (p_header wp));
  sy_clock : p_clock rp = p_clock wp;
  sy_bytes : p_bytes rp = 0;
  sy_used : h_cid (p_header rp) = 0 → h_length (p_header wp) = 0
}.

Record in_step (w : rtmp_t Pw) (r : rtmp_t Pr) : Prop := {
  is_writer : writer_wf w;
  is_reader : idle r;
  is_chunk : out_chunk_size w = in_chunk_size r;
  is_synced : ∀ cid, is_channel cid → ∃ wp rp,
    out_packets w !! Z.to_nat cid = Some wp ∧ in_packets r !! Z.to_nat cid = Some rp ∧
    synced wp rp cid
}.

(** A message to send, and the header given to the writer for it; [fmt] is
    what the caller puts there: 0 or 1. *)
Definition request (fmt : Z) (m : message) : rtmp_chunk_header_t :=
  RtmpChunkHeader fmt (m_cid m) (m_timestamp m) (zlen (m_payload m)) (m_type m) (m_stream_id m).

Definition sendable (fmt : Z) (m : message) : Prop :=
  message_header_ok (request fmt m) ∧ 0 < zlen (m_payload m) ∧ bytes_ok (m_payload m).

Lemma zip_synced wp rp h : synced wp rp (h_cid h) → message_header_ok h → 0 < h_length h →
  let z := zip_header wp h in
  h_cid z = h_cid h ∧ h_length z = h_length h ∧ h_type z = h_type h ∧ h_stream_id z = h_stream_id h ∧
  continues (p_header rp) z ∧
  (h_cid (p_header rp) = 0 → h_fmt z = 0 ∨ h_fmt z = 1) ∧
  (h_fmt z ≠ 0 → h_timestamp z < 16777215) ∧
  (if 0 =? h_fmt z then h_timestamp z else u32 (p_clock rp + h_timestamp z)) = h_timestamp h.
Proof.
  intros [Sc Sl Sty Ss St Sk Sb Su] Hmo Hpos z. pose proof (mo_timestamp _ Hmo) as Hts.
  unfold z, zip_header, continues. set (delta := u32 (h_timestamp h - p_clock wp)).
  destruct (_ && _ && _ && _ && _) eqn:Ezip.
  2:{ cbn. split_and!; try done; try lia. }
  apply andb_prop in Ezip as [[[[_ _]%andb_prop Hge]%andb_prop Hlt]%andb_prop Hsi].
  rewrite Z.geb_leb in Hge. apply Z.leb_le in Hge. apply Z.ltb_lt in Hlt. apply Z.eqb_eq in Hsi.
  assert (u32 (p_clock rp + delta) = h_timestamp h) as Hclk.
  { rewrite Sk. unfold delta, u32, is_uint in *. dlia. }
  destruct (_ && _) eqn:Esame; [destruct (Z.eqb_spec delta (h_timestamp (p_header wp)))|];
    cbn; split_and!; try done; lia.
Qed.

(** One message. *)
Lemma one_message w r fmt m : in_step w r → sendable fmt m →
  ∃ w' bytes, rtmp_chunk_write realloc send w (request fmt m) (m_payload m) = Ok (0, w') ∧
    out (param w') = out (param w) ++ bytes ∧ bytes_ok bytes ∧
    ∃ r', rtmp_chunk_read realloc handler r bytes (zlen bytes) = Ok (0, r') ∧
      in_step w' r' ∧ param r' = deliver (param r) m.
Proof.
  intros [Hw Hr Hc Hsy] (Hmo & Hpos & Hb). pose proof (mo_cid _ Hmo) as Hch. cbn [request h_cid] in Hch.
  destruct (Hsy (m_cid m) Hch) as (wp & rp & Hwp & Hrp & Hs).
  destruct (zip_synced wp rp (request fmt m) Hs Hmo Hpos) as (Zc & Zl & Zt & Zs & Hcont & Hnew & Hext & Hclk).
  set (z := zip_header wp (request fmt m)) in *.
  pose proof (zip_header_ok wp _ Hmo) as Hzok. fold z in Hzok.
  destruct (rtmp_chunk_write_spec realloc send out w (request fmt m) (m_payload m) wp)
    as (rc & w' & Hwrite & (Hw' & Hout' & Hoc' & _) & Hres); try done; [apply Hs|].
  destruct Hres as [[-> Hbytes]|(_ & _ & n & Hn)]; [|by rewrite Halloc in Hn].
  fold z in Hbytes. rewrite Hc in Hbytes.
  exists w', (message_bytes (in_chunk_size r) z (m_payload m)). split_and!; [done|done| |].
  { unfold message_bytes. apply bytes_ok_app. split.
    - rewrite <- (app_nil_r (first_header_bytes z)).
      apply (data_bytes_ok z []); [done|by rewrite Zc|constructor].
    - apply bytes_ok_chunks; [by apply bytes_ok_next|done]. }
  destruct (read_message realloc handler deliver Halloc r z (m_timestamp m) (m_payload m) rp)
    as (r' & Hread & Hidle' & Hics' & Hpar' & pkt & Hpk & Hfin); try done; try apply Hs;
    try (by rewrite Zc).
  exists r'. split; [done|]. split.
  - constructor; [done|done|congruence|]. intros cid Hcid.
    pose proof (idle_lookup r cid Hr Hcid) as Hrange. pose proof (idle_lookup r _ Hr Hch) as Hrange0.
    assert (zlen (out_packets w) = 8) as Hw8 by (pose proof (ww_packets _ Hw); unfold zlen; lia).
    assert (zlen (in_packets r) = 8) as Hr8.
    { destruct Hr as (_ & _ & Hl & _). unfold zlen. lia. }
    rewrite Hout', Hpk, Zc. cbn [request h_cid].
    destruct (decide (cid = m_cid m)) as [->|Hne].
    + exists (zip_packet wp (request fmt m)), pkt. rewrite !lookup_put_same by lia.
      split_and!; [done..|]. destruct Hfin. constructor; cbn [zip_packet p_header p_clock]; fold z; try done.
      intros H0. rewrite fn_cid0, Zc in H0. cbn in H0.
      unfold is_channel, RTMP_CHANNEL_PROTOCOL in Hch. lia.
    + destruct (Hsy cid Hcid) as (wp' & rp' & Hwp' & Hrp' & Hs').
      exists wp', rp'. assert (∀ x : rtmp_packet_t, zlen [x] = 1) as H1 by done.
      rewrite !put_lookup_out by (rewrite ?H1; lia). done.
  - rewrite Hpar', Zc, Zt, Zs. by destruct m.
Qed.

(** * Many messages, any fragmentation *)

(** Write a list of messages, stopping at an error. *)
Fixpoint write_all (w : rtmp_t Pw) (ms : list (Z * message)) : outcome (Z * rtmp_t Pw) :=
  match ms with
  | [] => Ok (0, w)
  | (fmt, m) :: ms =>
      '(rc, w) ← rtmp_chunk_write realloc send w (request fmt m) (m_payload m);
      if 0 =? rc then write_all w ms else Ok (rc, w)
  end.

Lemma read_all_concat frags : ∀ r, running r → Forall bytes_ok frags →
  read_all realloc handler r frags =
  rtmp_chunk_read realloc handler r (concat frags) (zlen (concat frags)).
Proof.
  induction frags as [|d frags IH]; intros r Hr Hf; cbn [read_all concat]; [done|].
  inversion_clear Hf as [|? ? Hd Hfs].
  rewrite (rtmp_chunk_read_app realloc handler r d (concat frags)) by
    (done || (clear -Hfs; induction Hfs; [constructor|by apply bytes_ok_app])).
  unfold read_both.
  destruct (rtmp_chunk_read_ok realloc handler r d Hr Hd) as (rc & r1 & -> & Hrc). run.
  destruct (Z.eqb_spec 0 rc) as [<-|]; [|done]. by apply IH; [apply Hrc|].
Qed.
End Session.

(** * Properties *)

Lemma create_running {P} (u : P) : running (rtmp_create u).
Proof.
  split; [|done]. constructor; try by vm_compute.
  - cbn. repeat constructor; cbn; try lia; done.
  - cbn. repeat constructor; unfold is_uint; lia.
Qed.

Lemma create_idle {P} (u : P) : idle (rtmp_create u).
Proof.
  split; [apply create_running|]. split; [done|]. split; [done|].
  intros j pkt Hj Hp. left. cbn in Hp.
  apply list_elem_of_lookup_2 in Hp. repeat (apply elem_of_cons in Hp as [->|Hp]; [done|]).
  by apply elem_of_nil in Hp.
Qed.

Lemma channel_cases cid : is_channel cid → cid = 2 ∨ cid = 3 ∨ cid = 4 ∨ cid = 5 ∨ cid = 6.
Proof. unfold is_channel, RTMP_CHANNEL_PROTOCOL, RTMP_CHANNEL_DATA. lia. Qed.

Lemma create_writer_wf {P} (u : P) : writer_wf (rtmp_create u).
Proof.
  constructor; try done.
  intros cid Hc. destruct (channel_cases cid Hc) as [->|[->|[->|[->| ->]]]]; by eexists.
Qed.

Lemma create_in_step {Pw Pr} (u : Pw) (v : Pr) : in_step (rtmp_create u) (rtmp_create v).
Proof.
  constructor; [apply create_writer_wf|apply create_idle|done|].
  intros cid Hc. destruct (channel_cases cid Hc) as [->|[->|[->|[->| ->]]]];
    eexists _, _; (split; [reflexivity|]); (split; [reflexivity|]); by constructor.
Qed.

(** A transport that collects the bytes, and a handler that collects messages. *)
Definition demo_send (u hdr body : list Z) : Z * list Z := (0, u ++ hdr ++ body).
#[global] Instance demo_transport : Transport demo_send id.
Proof. intros u hdr body. done. Qed.
Definition demo_deliver (u : list message) (m : message) : list message := u ++ [m].
Definition demo_handler (t : rtmp_t (list message)) (h : rtmp_chunk_header_t) (m : list Z)
  : outcome (Z * rtmp_t (list message)) :=
  Ok (0, set_param t (demo_deliver (param t)
            (Message (h_cid h) (h_timestamp h) (h_type h) (h_stream_id h) m))).
#[global] Instance demo_delivers : Delivers demo_handler demo_deliver.
Proof. done. Qed.

(** C1: messages written by [rtmp_chunk_write] are delivered to the peer's
    message handler unchanged, in order and each once, whatever the chunk size,
    the header compression chosen, the interleaving of channels and the way the
    bytes are cut into calls of [rtmp_chunk_read]; and both ends stay in step. *)
Theorem rtmp_session_delivers {Pw Pr} realloc (send : Pw → list Z → list Z → Z * Pw) out
    (handler : rtmp_t Pr → rtmp_chunk_header_t → list Z → outcome (Z * rtmp_t Pr)) deliver w r ms :
  (∀ n, realloc n = true) → Transport send out → Delivers handler deliver → in_step w r →
  Forall (λ '(fmt, m), sendable fmt m) ms →
  ∃ w' bytes, write_all realloc send w ms = Ok (0, w') ∧ out (param w') = out (param w) ++ bytes ∧
    ∀ frags, concat frags = bytes →
      ∃ r', read_all realloc handler r frags = Ok (0, r') ∧ in_step w' r' ∧
        param r' = fold_left deliver (ms.*2) (param r).
Proof.
  intros Halloc Htr Hdel Hstep Hms.
  assert (∃ w' bytes, write_all realloc send w ms = Ok (0, w') ∧
    out (param w') = out (param w) ++ bytes ∧ bytes_ok bytes ∧
    ∃ r', rtmp_chunk_read realloc handler r bytes (zlen bytes) = Ok (0, r') ∧ in_step w' r' ∧
      param r' = fold_left deliver (ms.*2) (param r)) as (w' & bytes & Hw & Ho & Hb & r' & Hr & Hs' & Hp).
  { revert w r Hstep. induction Hms as [|[fmt m] ms Hm Hms IH]; intros w r Hstep.
    { exists w, []. rewrite app_nil_r. split_and!; [done..|by constructor|]. by exists r. }
    destruct (one_message realloc Halloc send out handler deliver w r fmt m Hstep Hm)
      as (w1 & b1 & Hw1 & Ho1 & Hb1 & r1 & Hr1 & Hs1 & Hp1).
    destruct (IH w1 r1 Hs1) as (w2 & b2 & Hw2 & Ho2 & Hb2 & r2 & Hr2 & Hs2 & Hp2).
    exists w2, (b1 ++ b2). cbn [write_all]. rewrite Hw1. run. cbn [Z.eqb].
    split_and!; [done|by rewrite Ho2, Ho1, app_assoc|by apply bytes_ok_app|].
    exists r2. rewrite (rtmp_chunk_read_app realloc handler r b1 b2)
      by (done || apply (is_reader _ _ Hstep)).
    unfold read_both. rewrite Hr1. run. cbn [Z.eqb]. split_and!; [done..|].
    rewrite Hp2, Hp1. done. }
  exists w', bytes. split_and!; [done..|]. intros frags Hf. exists r'.
  rewrite (read_all_concat realloc handler deliver); [by rewrite Hf|apply (is_reader _ _ Hstep)|].
  subst bytes. clear -Hb. induction frags as [|d frags IH]; [constructor|].
  cbn in Hb. apply bytes_ok_app in Hb as [? ?]. constructor; auto.
Qed.

(** Two messages, one longer than a chunk, read byte by byte. *)
Definition demo_messages : list (Z * message) :=
  [(0, Message 5 16777216 9 1 (replicate 130 7)); (1, Message 4 40 8 1 [1; 2; 3]);
   (1, Message 5 16777256 9 1 (replicate 130 8))].

Lemma rtmp_session_delivers_witness :
  ∃ w' bytes, write_all (λ _, true) demo_send (rtmp_create []) demo_messages = Ok (0, w') ∧
    param w' = [] ++ bytes ∧
    ∀ frags, concat frags = bytes →
      ∃ r', read_all (λ _, true) demo_handler (rtmp_create []) frags = Ok (0, r') ∧
        in_step w' r' ∧ param r' = demo_messages.*2.
Proof.
  apply (rtmp_session_delivers (λ _, true) demo_send id demo_handler demo_deliver
    (rtmp_create []) (rtmp_create []) demo_messages); [done|apply _|apply _|apply create_in_step|].
  unfold demo_messages. repeat apply Forall_cons_2; [..|apply Forall_nil_2];
    (split; [constructor; unfold is_channel; by_eval|split; by_eval]).
Defined.

(** C26: reading any bytes into a well-formed session terminates within five
    steps a byte and two levels of recursion, without undefined behaviour, and
    unless it reports an error leaves a well-formed session, for every
    allocator and every message handler that leaves the parser alone and keeps
    an invariant of the rest of the session. *)
Theorem rtmp_chunk_read_safe {P} {Inv : SessionInvariant P} realloc
    (handler : rtmp_t P → rtmp_chunk_header_t → list Z → outcome (Z * rtmp_t P)) t data :
  MessageHandler handler → running t → bytes_ok data →
  ∃ r t', rtmp_chunk_read realloc handler t data (zlen data) = Ok (r, t') ∧ (r = 0 → running t').
Proof. intros. by apply rtmp_chunk_read_ok. Qed.

Lemma rtmp_chunk_read_safe_witness :
  ∃ r t', rtmp_chunk_read (λ _, false) demo_handler (rtmp_create []) (replicate 40 255) 40 = Ok (r, t') ∧
    (r = 0 → running t').
Proof.
  apply (rtmp_chunk_read_safe (λ _, false) demo_handler (rtmp_create []) (replicate 40 255));
    [apply _|apply create_running|by_eval].
Defined.

(** C29: cutting the input makes no difference: reading the concatenation of two
    pieces gives the code and the session that reading the first and, if it
    reports no error, then the second gives. *)
Theorem rtmp_chunk_read_fragments {P} {Inv : SessionInvariant P} realloc
    (handler : rtmp_t P → rtmp_chunk_header_t → list Z → outcome (Z * rtmp_t P)) t d1 d2 :
  MessageHandler handler → running t → bytes_ok d1 → bytes_ok d2 →
  rtmp_chunk_read realloc handler t (d1 ++ d2) (zlen (d1 ++ d2)) =
  ('(r, t) ← rtmp_chunk_read realloc handler t d1 (zlen d1);
   if 0 =? r then rtmp_chunk_read realloc handler t d2 (zlen d2) else Ok (r, t)).
Proof. intros. by apply (rtmp_chunk_read_app realloc handler). Qed.

Lemma rtmp_chunk_read_fragments_witness :
  rtmp_chunk_read (λ _, true) demo_handler (rtmp_create []) ([3; 0; 0] ++ [1; 0; 0; 2]) 7 =
  ('(r, t) ← rtmp_chunk_read (λ _, true) demo_handler (rtmp_create []) [3; 0; 0] 3;
   if 0 =? r then rtmp_chunk_read (λ _, true) demo_handler t [1; 0; 0; 2] 4 else Ok (r, t)).
Proof.
  apply (rtmp_chunk_read_fragments (λ _, true) demo_handler (rtmp_create []) [3; 0; 0] [1; 0; 0; 2]);
    [apply _|apply create_running|by_eval|by_eval].
Defined.

(** On one of the session's channels [rtmp_chunk_write] hands the transport
    exactly the chunks of the message under its compressed header, staying
    inside its header buffer, or reports that the buffer could not grow and
    sends nothing; in both cases the writer stays well formed. *)
Theorem rtmp_chunk_write_emits {P} realloc (send : P → list Z → list Z → Z * P) out t h payload pkt :
  Transport send out → writer_wf t → message_header_ok h → h_length h = zlen payload →
  0 < zlen payload → out_packets t !! Z.to_nat (h_cid h) = Some pkt →
  h_cid (p_header pkt) = h_cid h →
  ∃ r t', rtmp_chunk_write realloc send t h payload = Ok (r, t') ∧ writer_wf t' ∧
    (r = 0 ∧ out (param t') = out (param t) ++
               message_bytes (out_chunk_size t) (zip_header pkt h) payload ∨
     r = - ENOMEM ∧ param t' = param t ∧ ∃ n, realloc n = false).
Proof.
  intros Htr Hw Hm Hl Hp Hx Hc.
  destruct (rtmp_chunk_write_spec realloc send out t h payload pkt Hw Hm Hl Hp Hx Hc)
    as (r & t' & E & (Hw' & _) & Hr).
  exists r, t'. auto.
Qed.

Lemma rtmp_chunk_write_emits_witness :
  ∃ r t', rtmp_chunk_write (λ _, true) demo_send (rtmp_create []) (RtmpChunkHeader 1 4 40 3 8 1) [1; 2; 3]
      = Ok (r, t') ∧ writer_wf t' ∧
    (r = 0 ∧ param t' = [] ++ [4; 0; 0; 40; 0; 0; 3; 8; 1; 0; 0; 0; 1; 2; 3] ∨
     r = - ENOMEM ∧ param t' = [] ∧ ∃ n, (λ _ : Z, true) n = false).
Proof.
  apply (rtmp_chunk_write_emits (λ _, true) demo_send id (rtmp_create []) (RtmpChunkHeader 1 4 40 3 8 1)
    [1; 2; 3] (RtmpPacket (RtmpChunkHeader 0 4 0 0 0 0) 0 0 None 0 0));
    [apply _|apply create_writer_wf|constructor; unfold is_channel; by_eval|reflexivity|by_eval
    |reflexivity|reflexivity].
Defined.

(** An empty message is not sent at all, but the writer's record of the
    channel moves on to it: what follows is compressed against a header the
    peer never received. *)
Theorem rtmp_chunk_write_empty {P} realloc (send : P → list Z → list Z → Z * P) t h pkt :
  writer_wf t → message_header_ok h → h_length h = 0 →
  out_packets t !! Z.to_nat (h_cid h) = Some pkt → h_cid (p_header pkt) = h_cid h →
  ∃ t', rtmp_chunk_write realloc send t h [] = Ok (0, t') ∧ param t' = param t ∧
    out_packets t' = put (out_packets t) (h_cid h) [zip_packet pkt h] ∧
    p_clock (zip_packet pkt h) = h_timestamp h.
Proof.
  intros Hw Hm Hl Hx Hc. pose proof (zip_header_ok pkt h Hm) as Hzok. pose proof (mo_cid _ Hm) as Hch.
  unfold is_channel, RTMP_CHANNEL_PROTOCOL, RTMP_CHANNEL_DATA in Hch.
  pose proof (ww_packets _ Hw) as Hl8. assert (zlen (out_packets t) = 8) as Hz8 by (unfold zlen; lia).
  unfold rtmp_chunk_write.
  rewrite (rtmp_chunk_header_zip_spec _ _ pkt) by (apply Hw || done || lia). run.
  rewrite ld_put by lia. run. cbn [p_header zip_packet set_writer out_chunk_size chunk_write_header param].
  set (z := zip_header pkt h) in *.
  assert (h_length z = 0) as Hzl.
  { unfold z, zip_header. destruct (_ && _ && _ && _ && _); [destruct (_ && _); [destruct (_ =? _)|]|]; done. }
  rewrite Hzl. cbn [Z.geb Z.compare]. pose proof (ww_chunk _ Hw).
  destruct (Z.eqb_spec (out_chunk_size t) 0); [lia|]. rewrite Z.quot_0_l by lia. rewrite !Z.mul_0_l.
  change (u32 (MAX_CHUNK_HEADER + 0)) with 18.
  destruct (Z.gtb_spec 18 (wh_capacity (chunk_write_header t))) as [Hgt|_].
  { pose proof (ww_capacity _ Hw). lia. }
  cbn [andb].
  pose proof (first_header_write (wh_ptr (chunk_write_header t)) z Hzok
    ltac:(rewrite (ww_buffer _ Hw); apply (ww_capacity _ Hw))) as Hhdr. cbv zeta in Hhdr.
  do 2 (match goal with |- context [?e ≫= _] => destruct e as [| |[? ?]]; run end; try done;
        cbn [mbind outcome_bind] in Hhdr).
  rewrite Hhdr. run. cbn [Z.to_nat rtmp_chunk_write_loop Z.gtb Z.compare andb]. run.
  eexists. split; [reflexivity|]. by split_and!.
Qed.

Lemma rtmp_chunk_write_empty_witness :
  ∃ t', rtmp_chunk_write (λ _, true) demo_send (rtmp_create []) (RtmpChunkHeader 1 4 40 0 8 1) [] = Ok (0, t') ∧
    param t' = [] ∧
    out_packets t' = put (out_packets (rtmp_create (@nil Z))) 4
      [zip_packet (RtmpPacket (RtmpChunkHeader 0 4 0 0 0 0) 0 0 None 0 0) (RtmpChunkHeader 1 4 40 0 8 1)] ∧
    p_clock (zip_packet (RtmpPacket (RtmpChunkHeader 0 4 0 0 0 0) 0 0 None 0 0)
               (RtmpChunkHeader 1 4 40 0 8 1)) = 40.
Proof.
  apply (rtmp_chunk_write_empty (λ _, true) demo_send (rtmp_create []) (RtmpChunkHeader 1 4 40 0 8 1));
    [apply create_writer_wf|constructor; unfold is_channel; by_eval|reflexivity|reflexivity|reflexivity].
Defined.
