(* ===== verification/Amf0.v ===== *)
(** AMF0 values: src/third/ireader/libflv/source/amf0.c.

    Output goes to a buffer [m]; [ptr] is an offset into it or [None] for the
    null pointer the writers return when the room before [end] is too short.
    Input is read from a buffer [m] between [ptr] and [end].

    A [double] is its 64-bit pattern; the host is little-endian.  The objects a
    reader stores into (the [value] pointers of its items) are the buffers of
    a store [σ], one for each variable of the caller.  A [const char*] is a
    buffer with its terminating zero. *)
From S2P Require Import Prelude.
From stdpp Require Import strings.
Open Scope Z_scope.

(** * C strings *)

(** A string literal with its terminating zero. *)
Fixpoint chars (s : string) : list Z :=
  match s with
  | EmptyString => []
  | String c s => Z.of_N (Ascii.N_of_ascii c) :: chars s
  end.
Definition lit (s : string) : list Z := chars s ++ [0].

Fixpoint strlen (s : list Z) : outcome Z :=
  match s with
  | [] => Ub
  | c :: s => if c =? 0 then Ok 0 else n ← strlen s; Ok (n + 1)
  end.

(** [0 == strcmp(a, b)] *)
Fixpoint streq (a b : list Z) : outcome bool :=
  match a, b with
  | x :: a, y :: b =>
      if x =? y then if x =? 0 then Ok true else streq a b else Ok false
  | _, _ => Ub
  end.

(** A pointer that is dereferenced. *)
Definition deref {A} (ptr : option A) : outcome A :=
  match ptr with Some p => Ok p | None => Ub end.

(** * amf0.h *)

Definition AMF_NUMBER : Z := 0.
Definition AMF_BOOLEAN : Z := 1.
Definition AMF_STRING : Z := 2.
Definition AMF_OBJECT : Z := 3.
Definition AMF_NULL : Z := 5.
Definition AMF_UNDEFINED : Z := 6.
Definition AMF_ECMA_ARRAY : Z := 8.
Definition AMF_OBJECT_END : Z := 9.
Definition AMF_STRICT_ARRAY : Z := 10.
Definition AMF_DATE : Z := 11.
Definition AMF_LONG_STRING : Z := 12.
Definition AMF_TYPED_OBJECT : Z := 16.

(** [value] is null, a variable of the store, or an array of items; an item
    that was declared but not assigned is [AmfUninit]. *)
Inductive amf_object_item_t :=
  | AmfItem (type : Z) (name : option (list Z)) (value : amf_value_t) (size : Z)
  | AmfUninit
with amf_value_t :=
  | ValueNull
  | ValueVar (k : Z)
  | ValueItems (items : list amf_object_item_t).

Definition item_type (it : amf_object_item_t) : outcome Z :=
  match it with AmfItem ty _ _ _ => Ok ty | AmfUninit => Ub end.
Definition item_name (it : amf_object_item_t) : outcome (list Z) :=
  match it with AmfItem _ name _ _ => deref name | AmfUninit => Ub end.

(** [item ? item->value : NULL] as a pointer to a variable and as an array,
    and [item ? item->size : 0]. *)
Definition item_var (it : option amf_object_item_t) : outcome (option Z) :=
  match it with
  | None | Some (AmfItem _ _ ValueNull _) => Ok None
  | Some (AmfItem _ _ (ValueVar k) _) => Ok (Some k)
  | _ => Ub
  end.
Definition item_items (it : option amf_object_item_t) : outcome (list amf_object_item_t) :=
  match it with
  | None | Some (AmfItem _ _ ValueNull _) => Ok []
  | Some (AmfItem _ _ (ValueItems l) _) => Ok l
  | _ => Ub
  end.
Definition item_size (it : option amf_object_item_t) : outcome Z :=
  match it with
  | None => Ok 0
  | Some (AmfItem _ _ _ size) => Ok size
  | Some AmfUninit => Ub
  end.

Abbreviation store := (list (list Z)).

(** Cells [bs] assigned at offset [o] of variable [k]. *)
Definition poke (σ : store) (k o : Z) (bs : list Z) : outcome store :=
  v ← ld σ k; v ← st v o bs; st σ k [v].

(** * Writers *)

Definition AMFWriteInt16 (m : list Z) (ptr : Z) (endp value : Z) : outcome (list Z * option Z) :=
  if ptr + 2 >? endp then Ok (m, None) else
  m ← st m ptr [u8 (Z.shiftr value 8); u8 (Z.land value 255)];
  Ok (m, Some (ptr + 2)).

Definition AMFWriteInt32 (m : list Z) (ptr : Z) (endp value : Z) : outcome (list Z * option Z) :=
  if ptr + 4 >? endp then Ok (m, None) else
  m ← st m ptr [u8 (Z.shiftr value 24); u8 (Z.shiftr value 16); u8 (Z.shiftr value 8);
                u8 (Z.land value 255)];
  Ok (m, Some (ptr + 4)).

(** There is no test for a null [ptr]. *)
Definition AMFWriteString16 (m : list Z) (ptr : option Z) (endp : Z) (string : list Z) (length : Z)
  : outcome (list Z * option Z) :=
  p ← deref ptr;
  if p + 2 + length >? endp then Ok (m, None) else
  '(m, ptr) ← AMFWriteInt16 m p endp (u16 length);
  p ← deref ptr;
  s ← slice string 0 length;
  m ← st m p s;
  Ok (m, Some (p + length)).

Definition AMFWriteString32 (m : list Z) (ptr : option Z) (endp : Z) (string : list Z) (length : Z)
  : outcome (list Z * option Z) :=
  p ← deref ptr;
  if p + 4 + length >? endp then Ok (m, None) else
  '(m, ptr) ← AMFWriteInt32 m p endp (u32 length);
  p ← deref ptr;
  s ← slice string 0 length;
  m ← st m p s;
  Ok (m, Some (p + length)).

(** [if (!ptr || ptr + n > end) return NULL], then the rest. *)
Definition with_room (m : list Z) (ptr : option Z) (endp n : Z)
    (k : Z → outcome (list Z * option Z)) : outcome (list Z * option Z) :=
  match ptr with
  | None => Ok (m, None)
  | Some p => if p + n >? endp then Ok (m, None) else k p
  end.

Definition AMFWriteNull (m : list Z) (ptr : option Z) (endp : Z) : outcome (list Z * option Z) :=
  with_room m ptr endp 1 (λ p, m ← st m p [AMF_NULL]; Ok (m, Some (p + 1))).
Definition AMFWriteUndefined (m : list Z) (ptr : option Z) (endp : Z) : outcome (list Z * option Z) :=
  with_room m ptr endp 1 (λ p, m ← st m p [AMF_UNDEFINED]; Ok (m, Some (p + 1))).
Definition AMFWriteObject (m : list Z) (ptr : option Z) (endp : Z) : outcome (list Z * option Z) :=
  with_room m ptr endp 1 (λ p, m ← st m p [AMF_OBJECT]; Ok (m, Some (p + 1))).
Definition AMFWriteObjectEnd (m : list Z) (ptr : option Z) (endp : Z) : outcome (list Z * option Z) :=
  with_room m ptr endp 3 (λ p, m ← st m p [0; 0; AMF_OBJECT_END]; Ok (m, Some (p + 3))).
Definition AMFWriteTypedObject (m : list Z) (ptr : option Z) (endp : Z)
  : outcome (list Z * option Z) :=
  with_room m ptr endp 1 (λ p, m ← st m p [AMF_TYPED_OBJECT]; Ok (m, Some (p + 1))).
Definition AMFWriteECMAArarry (m : list Z) (ptr : option Z) (endp : Z)
  : outcome (list Z * option Z) :=
  with_room m ptr endp 1 (λ p,
    m ← st m p [AMF_ECMA_ARRAY];
    AMFWriteInt32 m (p + 1) endp 0).

Definition AMFWriteBoolean (m : list Z) (ptr : option Z) (endp value : Z)
  : outcome (list Z * option Z) :=
  with_room m ptr endp 2 (λ p,
    m ← st m p [AMF_BOOLEAN; if 0 =? value then 0 else 1];
    Ok (m, Some (p + 2))).

(** Byte [i] of the representation of [value]. *)
Definition double_byte (value i : Z) : Z := u8 (Z.shiftr value (8 * i)).

Definition AMFWriteDouble (m : list Z) (ptr : option Z) (endp value : Z)
  : outcome (list Z * option Z) :=
  with_room m ptr endp 9 (λ p,
    m ← st m p [AMF_NUMBER];
    m ← st m (p + 1)
      [double_byte value 7; double_byte value 6; double_byte value 5; double_byte value 4;
       double_byte value 3; double_byte value 2; double_byte value 1; double_byte value 0];
    Ok (m, Some (p + 9))).

Definition UINT32_MAX : Z := 4294967295.

Definition AMFWriteString (m : list Z) (ptr : option Z) (endp : Z) (string : list Z) (length : Z)
  : outcome (list Z * option Z) :=
  with_room m ptr endp (1 + (if length <? 65536 then 2 else 4) + length) (λ p,
    if length >? UINT32_MAX then Ok (m, None) else
    if length <? 65536 then
      m ← st m p [AMF_STRING];
      '(m, _) ← AMFWriteString16 m (Some (p + 1)) endp string length;
      Ok (m, Some (p + 1 + 2 + length))
    else
      m ← st m p [AMF_LONG_STRING];
      '(m, _) ← AMFWriteString32 m (Some (p + 1)) endp string length;
      Ok (m, Some (p + 1 + 4 + length))).

Definition AMFWriteDate (m : list Z) (ptr : option Z) (endp milliseconds timezone : Z)
  : outcome (list Z * option Z) :=
  with_room m ptr endp 11 (λ p,
    '(m, _) ← AMFWriteDouble m ptr endp milliseconds;
    m ← st m p [AMF_DATE];
    AMFWriteInt16 m (p + 9) endp (u16 timezone)).

Definition AMFWriteNamed (m : list Z) (ptr : option Z) (endp : Z) (name : list Z) (length : Z)
  : outcome (list Z * option Z) :=
  AMFWriteString16 m ptr endp name length.

(** The [Named] writers add to [ptr] before they test it: a null pointer is
    not caught. *)
Definition AMFWriteNamedBoolean (m : list Z) (ptr : option Z) (endp : Z) (name : list Z)
    (length value : Z) : outcome (list Z * option Z) :=
  p ← deref ptr;
  if p + length + 2 + 2 >? endp then Ok (m, None) else
  '(m, ptr) ← AMFWriteString16 m ptr endp name length;
  match ptr with Some _ => AMFWriteBoolean m ptr endp value | None => Ok (m, None) end.

Definition AMFWriteNamedDouble (m : list Z) (ptr : option Z) (endp : Z) (name : list Z)
    (length value : Z) : outcome (list Z * option Z) :=
  p ← deref ptr;
  if p + length + 2 + 8 + 1 >? endp then Ok (m, None) else
  '(m, ptr) ← AMFWriteString16 m ptr endp name length;
  match ptr with Some _ => AMFWriteDouble m ptr endp value | None => Ok (m, None) end.

Definition AMFWriteNamedString (m : list Z) (ptr : option Z) (endp : Z) (name : list Z)
    (length : Z) (value : list Z) (length2 : Z) : outcome (list Z * option Z) :=
  p ← deref ptr;
  if p + length + 2 + length2 + 3 >? endp then Ok (m, None) else
  '(m, ptr) ← AMFWriteString16 m ptr endp name length;
  match ptr with Some _ => AMFWriteString m ptr endp value length2 | None => Ok (m, None) end.

(** * Readers *)

(** The test [!ptr || ptr + n > end]: the pointer when there is room. *)

Definition has_room (ptr : option Z) (n endp : Z) : option Z :=
  match ptr with Some p => if p + n >? endp then None else Some p | None => None end.

Definition AMFReadInt16 (m : list Z) (ptr : option Z) (endp : Z) : outcome (option Z * Z) :=
  match has_room ptr 2 endp with
  | None => Ok (None, 0)
  | Some p =>
      b0 ← ld m p; b1 ← ld m (p + 1);
      Ok (Some (p + 2), Z.lor (Z.shiftl b0 8) b1)
  end.

Definition AMFReadInt32 (m : list Z) (ptr : option Z) (endp : Z) : outcome (option Z * Z) :=
  match has_room ptr 4 endp with
  | None => Ok (None, 0)
  | Some p =>
      b0 ← ld m p; b1 ← ld m (p + 1); b2 ← ld m (p + 2); b3 ← ld m (p + 3);
      Ok (Some (p + 4),
          Z.lor (Z.lor (Z.lor (Z.shiftl b0 24) (Z.shiftl b1 16)) (Z.shiftl b2 8)) b3)
  end.

(** [if (value) *value = ...] *)
Definition assign (σ : store) (dst : option Z) (o : Z) (bs : list Z) : outcome store :=
  match dst with Some k => poke σ k o bs | None => Ok σ end.

Definition AMFReadBoolean (m : list Z) (ptr : option Z) (endp : Z) (value : option Z) (σ : store)
  : outcome (option Z * store) :=
  match has_room ptr 1 endp with
  | None => Ok (None, σ)
  | Some p => b ← ld m p; σ ← assign σ value 0 [b]; Ok (Some (p + 1), σ)
  end.

Definition AMFReadDouble (m : list Z) (ptr : option Z) (endp : Z) (value : option Z) (σ : store)
  : outcome (option Z * store) :=
  match has_room ptr 8 endp with
  | None => Ok (None, σ)
  | Some p => bs ← slice m p 8; σ ← assign σ value 0 (rev bs); Ok (Some (p + 8), σ)
  end.

Definition AMFReadString (m : list Z) (ptr : option Z) (endp : Z) (isLongString : bool)
    (string : option Z) (length : Z) (σ : store) : outcome (option Z * store) :=
  '(ptr, len) ← (if isLongString then AMFReadInt32 m ptr endp else AMFReadInt16 m ptr endp);
  match has_room ptr len endp with
  | None => Ok (None, σ)
  | Some p =>
      σ ← match string with
          | None => Ok σ
          | Some k =>
              if length >? len then
                s ← slice m p len; σ ← poke σ k 0 s; poke σ k len [0]
              else if length >? 0 then poke σ k 0 [0] else Ok σ
          end;
      Ok (Some (p + len), σ)
  end.

Section Read.
(** The value an uninitialized [uint32_t] happens to have. *)
Variable indeterminate : Z.

(** [timezone] is null or points at offset 8 of a variable; the address 8 that
    comes of a null [item->value] is [Some None]. *)
Definition AMFReadDate (m : list Z) (ptr : option Z) (endp : Z) (milliseconds : option Z)
    (timezone : option (option Z)) (σ : store) : outcome (option Z * store) :=
  '(ptr, σ) ← AMFReadDouble m ptr endp milliseconds σ;
  match ptr with
  | None => Ok (None, σ)
  | Some _ =>
      '(ptr, v) ← AMFReadInt16 m ptr endp;
      let v := match ptr with Some _ => v | None => indeterminate end in
      σ ← match timezone with
          | None => Ok σ
          | Some var => k ← deref var; poke σ k 8 [u8 v; u8 (Z.shiftr v 8)]
          end;
      Ok (ptr, σ)
  end.

Definition amf_read_item_type_check (type0 itemtype : Z) : bool :=
  (type0 =? itemtype)
  || ((AMF_OBJECT =? itemtype) && ((AMF_ECMA_ARRAY =? type0) || (AMF_NULL =? type0))).

(** The search of [amf_read_object] for the name of [len] bytes at [data] and
    a value of type [type]: [n] items from [i]. *)
Fixpoint amf_find_item (n : nat) (i : Z) (items : list amf_object_item_t) (m : list Z)
    (data len type : Z) : outcome (option amf_object_item_t) :=
  match n with
  | O => Ok None
  | S n =>
      it ← ld items i;
      name ← item_name it;
      k ← strlen name;
      same ← (if k =? len then
                a ← slice name 0 len; b ← slice m data len; Ok (bool_decide (a = b))
              else Ok false);
      ty ← (if same : bool then item_type it else Ok 0);
      if same && amf_read_item_type_check type ty then Ok (Some it)
      else amf_find_item n (i + 1) items m data len type
  end.

(** The readers call each other; a call and a loop iteration cost one [fuel].
    Every level consumes input, so three times the bytes left are enough. *)
Fixpoint amf_read_item (fuel : nat) (m : list Z) (data : option Z) (endp type : Z)
    (item : option amf_object_item_t) (σ : store) : outcome (option Z * store) :=
  match fuel with
  | O => Ub
  | S fuel =>
      if type =? AMF_BOOLEAN then dst ← item_var item; AMFReadBoolean m data endp dst σ
      else if type =? AMF_NUMBER then dst ← item_var item; AMFReadDouble m data endp dst σ
      else if type =? AMF_STRING then
        dst ← item_var item; n ← item_size item; AMFReadString m data endp false dst n σ
      else if type =? AMF_LONG_STRING then
        dst ← item_var item; n ← item_size item; AMFReadString m data endp true dst n σ
      else if type =? AMF_DATE then 
        dst ← item_var item;
        AMFReadDate m data endp dst (match item with Some _ => Some dst | None => None end) σ
      else if type =? AMF_OBJECT then
        l ← item_items item; n ← item_size item; amf_read_object fuel m data endp l n σ
      else if type =? AMF_NULL then Ok (data, σ)
      else if type =? AMF_UNDEFINED then Ok (data, σ)
      else if type =? AMF_ECMA_ARRAY then
        l ← item_items item; n ← item_size item; amf_read_ecma_array fuel m data endp l n σ
      else if type =? AMF_STRICT_ARRAY then
        l ← item_items item; n ← item_size item; amf_read_strict_array fuel m data endp l n σ
      else Ok (None, σ)
  end
with amf_read_strict_array (fuel : nat) (m : list Z) (ptr : option Z) (endp : Z)
    (items : list amf_object_item_t) (n : Z) (σ : store) : outcome (option Z * store) :=
  match fuel with
  | O => Ub
  | S fuel =>
      match has_room ptr 4 endp with
      | None => Ok (None, σ)
      | Some _ =>
          '(ptr, count) ← AMFReadInt32 m ptr endp;
          amf_read_strict_loop fuel 0 count m ptr endp items n σ
      end
  end
with amf_read_strict_loop (fuel : nat) (i count : Z) (m : list Z) (ptr : option Z) (endp : Z)
    (items : list amf_object_item_t) (n : Z) (σ : store) : outcome (option Z * store) :=
  match fuel with
  | O => Ub
  | S fuel =>
      match ptr with
      | None => Ok (None, σ)
      | Some p =>
          if (i <? count) && (p <? endp) then
            type ← ld m p;
            item ← (if i <? n then
                      it ← ld items i; ty ← item_type it;
                      Ok (if amf_read_item_type_check type ty then Some it else None)
                    else Ok None);
            '(ptr, σ) ← amf_read_item fuel m (Some (p + 1)) endp type item σ;
            amf_read_strict_loop fuel (i + 1) count m ptr endp items n σ
          else Ok (ptr, σ)
      end
  end
with amf_read_ecma_array (fuel : nat) (m : list Z) (ptr : option Z) (endp : Z)
    (items : list amf_object_item_t) (n : Z) (σ : store) : outcome (option Z * store) :=
  match fuel with
  | O => Ub
  | S fuel =>
      match has_room ptr 4 endp with
      | None => Ok (None, σ)
      | Some p => amf_read_object fuel m (Some (p + 4)) endp items n σ
      end
  end
with amf_read_object (fuel : nat) (m : list Z) (data : option Z) (endp : Z)
    (items : list amf_object_item_t) (n : Z) (σ : store) : outcome (option Z * store) :=
  match fuel with
  | O => Ub
  | S fuel =>
      let finish (data : option Z) (σ : store) :=
        match data with
        | Some p =>
            if p <? endp then
              b ← ld m p; Ok (if AMF_OBJECT_END =? b then Some (p + 1) else None, σ)
            else Ok (None, σ)
        | None => Ok (None, σ)
        end in
      match has_room data 2 endp with
      | Some p =>
          b0 ← ld m p; b1 ← ld m (p + 1);
          let len := Z.lor (Z.shiftl b0 8) b1 in
          let p := p + 2 in
          if 0 =? len then finish (Some p) σ
          else if p + len + 1 >? endp then Ok (None, σ)
          else
            type ← ld m (p + len);
            item ← amf_find_item (Z.to_nat n) 0 items m p len type;
            '(data, σ) ← amf_read_item fuel m (Some (p + len + 1)) endp type item σ;
            amf_read_object fuel m data endp items n σ
      | None => finish data σ
      end
  end.

Definition amf_fuel (data endp : Z) : nat := Z.to_nat (3 * (endp - data) + 3).

(** The loop of [amf_read_items]: [n] items from [i]. *)
Fixpoint amf_read_items_loop (n : nat) (i : Z) (m : list Z) (data : option Z) (endp : Z)
    (items : list amf_object_item_t) (σ : store) : outcome (option Z * store) :=
  match n, data with
  | S n, Some p =>
      if p <? endp then
        type ← ld m p;
        it ← ld items i;
        ty ← item_type it;
        if negb (amf_read_item_type_check type ty) then Ok (None, σ) else
        '(data, σ) ← amf_read_item (amf_fuel (p + 1) endp) m (Some (p + 1)) endp type (Some it) σ;
        amf_read_items_loop n (i + 1) m data endp items σ
      else Ok (data, σ)
  | _, _ => Ok (data, σ)
  end.

Definition amf_read_items (m : list Z) (data : Z) (endp : Z) (items : list amf_object_item_t)
    (count : Z) (σ : store) : outcome (option Z * store) :=
  amf_read_items_loop (Z.to_nat count) 0 m (Some data) endp items σ.
End Read.
