(* ===== verification/Amf0Spec.v ===== *)
(** AMF0 as a language: the values the wire format describes, their
    encoding, and what reading one stores through the caller's items.

    The writers of [Amf0] emit the encoding; its readers, given enough fuel,
    consume exactly the encoding and perform [amf_put].  On arbitrary input
    they stay inside the input and inside the variables the items name. *)
From stdpp Require Import strings.
From S2P Require Import Prelude Amf0.
Open Scope Z_scope.

(** * Values and their encoding *)

Inductive amf :=
  | ANumber (bits : Z)
  | ABoolean (b : Z)
  | AString (s : list Z)
  | ALongString (s : list Z)
  | AObject (props : list (list Z * amf))
  | ANull
  | AUndefined
  | AEcmaArray (count : Z) (props : list (list Z * amf))
  | AStrictArray (l : list amf)
  | ADate (bits timezone : Z).

Section AmfInd.
Variable P : amf → Prop.
Hypothesis HNumber : ∀ bits, P (ANumber bits).
Hypothesis HBoolean : ∀ b, P (ABoolean b).
Hypothesis HString : ∀ s, P (AString s).
Hypothesis HLongString : ∀ s, P (ALongString s).
Hypothesis HObject : ∀ props, Forall (λ kv, P (snd kv)) props → P (AObject props).
Hypothesis HNull : P ANull.
Hypothesis HUndefined : P AUndefined.
Hypothesis HEcmaArray : ∀ count props, Forall (λ kv, P (snd kv)) props → P (AEcmaArray count props).
Hypothesis HStrictArray : ∀ l, Forall P l → P (AStrictArray l).
Hypothesis HDate : ∀ bits tz, P (ADate bits tz).

(** Induction into the members of objects and arrays. *)
Fixpoint amf_nested_ind (v : amf) : P v :=
  let props_ind := fix go (l : list (list Z * amf)) : Forall (λ kv, P (snd kv)) l :=
    match l with
    | [] => Forall_nil_2 _
    | kv :: l => Forall_cons_2 _ kv l (amf_nested_ind (snd kv)) (go l)
    end in
  match v with
  | ANumber bits => HNumber bits
  | ABoolean b => HBoolean b
  | AString s => HString s
  | ALongString s => HLongString s
  | AObject props => HObject props (props_ind props)
  | ANull => HNull
  | AUndefined => HUndefined
  | AEcmaArray count props => HEcmaArray count props (props_ind props)
  | AStrictArray l => HStrictArray l
      ((fix go (l : list amf) : Forall P l :=
          match l with
          | [] => Forall_nil_2 _
          | x :: l => Forall_cons_2 _ x l (amf_nested_ind x) (go l)
          end) l)
  | ADate bits tz => HDate bits tz
  end.
End AmfInd.

Definition amf_type (v : amf) : Z :=
  match v with
  | ANumber _ => AMF_NUMBER
  | ABoolean _ => AMF_BOOLEAN
  | AString _ => AMF_STRING
  | ALongString _ => AMF_LONG_STRING
  | AObject _ => AMF_OBJECT
  | ANull => AMF_NULL
  | AUndefined => AMF_UNDEFINED
  | AEcmaArray _ _ => AMF_ECMA_ARRAY
  | AStrictArray _ => AMF_STRICT_ARRAY
  | ADate _ _ => AMF_DATE
  end.

(** A named member: name, type and body. *)
Definition prop_bytes (name : list Z) (type : Z) (body : list Z) : list Z :=
  be_bytes 2 (zlen name) ++ name ++ type :: body.

Fixpoint amf_body (v : amf) : list Z :=
  let props_bytes props :=
    concat (map (λ '(k, v), prop_bytes k (amf_type v) (amf_body v)) props) ++ [0; 0; AMF_OBJECT_END] in
  match v with
  | ANumber bits => be_bytes 8 bits
  | ABoolean b => [b]
  | AString s => be_bytes 2 (zlen s) ++ s
  | ALongString s => be_bytes 4 (zlen s) ++ s
  | AObject props => props_bytes props
  | ANull | AUndefined => []
  | AEcmaArray count props => be_bytes 4 count ++ props_bytes props
  | AStrictArray l => be_bytes 4 (zlen l) ++ concat (map (λ v, amf_type v :: amf_body v) l)
  | ADate bits tz => be_bytes 8 bits ++ be_bytes 2 tz
  end.

Definition amf_bytes (v : amf) : list Z := amf_type v :: amf_body v.

Definition props_bytes (props : list (list Z * amf)) : list Z :=
  concat (map (λ '(k, v), prop_bytes k (amf_type v) (amf_body v)) props) ++ [0; 0; AMF_OBJECT_END].

(** What the length fields and the byte and double types can hold. *)
Fixpoint amf_ok (v : amf) : Prop :=
  let props_ok props :=
    foldr (λ '(k, v) rest, (0 < zlen k < 65536 ∧ bytes_ok k ∧ amf_ok v) ∧ rest) True props in
  match v with
  | ANumber bits => is_uint 64 bits
  | ABoolean b => is_byte b
  | AString s => zlen s < 65536 ∧ bytes_ok s
  | ALongString s => zlen s < 2 ^ 32 ∧ bytes_ok s
  | AObject props => props_ok props
  | ANull | AUndefined => True
  | AEcmaArray count props => is_uint 32 count ∧ props_ok props
  | AStrictArray l => zlen l < 2 ^ 32 ∧ foldr (λ v rest, amf_ok v ∧ rest) True l
  | ADate bits tz => is_uint 64 bits ∧ is_uint 16 tz
  end.

Definition prop_ok (kv : list Z * amf) : Prop :=
  0 < zlen (fst kv) < 65536 ∧ bytes_ok (fst kv) ∧ amf_ok (snd kv).

(** * What reading a value stores *)

Definition put_string (σ : store) (dst : option Z) (n : Z) (s : list Z) : outcome store :=
  match dst with
  | None => Ok σ
  | Some k =>
      if n >? zlen s then σ ← poke σ k 0 s; poke σ k (zlen s) [0]
      else if n >? 0 then poke σ k 0 [0] else Ok σ
  end.

Section Put.
Variable put : amf → option amf_object_item_t → store → outcome store.

(** Members of an object go to the items of the same name and type. *)
Definition put_props (items : list amf_object_item_t) (n : Z)
  : list (list Z * amf) → store → outcome store :=
  fix go props σ :=
    match props with
    | [] => Ok σ
    | (k, v) :: props =>
        it ← amf_find_item (Z.to_nat n) 0 items k 0 (zlen k) (amf_type v);
        σ ← put v it σ;
        go props σ
    end.

(** Members of an array go to the items of the same position. *)
Definition put_array (items : list amf_object_item_t) (n : Z)
  : Z → list amf → store → outcome store :=
  fix go i l σ :=
    match l with
    | [] => Ok σ
    | v :: l =>
        it ← (if i <? n then
                it ← ld items i; ty ← item_type it;
                Ok (if amf_read_item_type_check (amf_type v) ty then Some it else None)
              else Ok None);
        σ ← put v it σ;
        go (i + 1) l σ
    end.
End Put.

Fixpoint amf_put (v : amf) (it : option amf_object_item_t) (σ : store) : outcome store :=
  match v with
  | ANumber bits => dst ← item_var it; assign σ dst 0 (rev (be_bytes 8 bits))
  | ABoolean b => dst ← item_var it; assign σ dst 0 [b]
  | AString s | ALongString s =>
      dst ← item_var it; n ← item_size it; put_string σ dst n s
  | AObject props | AEcmaArray _ props =>
      l ← item_items it; n ← item_size it; put_props amf_put l n props σ
  | ANull | AUndefined => Ok σ
  | AStrictArray l =>
      items ← item_items it; n ← item_size it; put_array amf_put items n 0 l σ
  | ADate bits tz =>
      dst ← item_var it;
      σ ← assign σ dst 0 (rev (be_bytes 8 bits));
      match it with
      | None => Ok σ
      | Some _ => k ← deref dst; poke σ k 8 (rev (be_bytes 2 tz))
      end
  end.

(** A sequence of values for a list of items, as [amf_read_items] matches
    them: the store, or [None] when a type does not match. *)
Fixpoint put_values (i : Z) (items : list amf_object_item_t) (count : nat) (vs : list amf)
    (σ : store) : outcome (bool * store) :=
  match count, vs with
  | S count, v :: vs =>
      it ← ld items i; ty ← item_type it;
      if negb (amf_read_item_type_check (amf_type v) ty) then Ok (false, σ) else
      σ ← amf_put v (Some it) σ;
      put_values (i + 1) items count vs σ
  | _, _ => Ok (true, σ)
  end.

(** * Reading an encoded value *)

Lemma has_room_some p n endp : p + n ≤ endp → has_room (Some p) n endp = Some p.
Proof. intros. unfold has_room. destruct (Z.gtb_spec (p + n) endp); done || lia. Qed.

Lemma has_room_inv ptr n endp q : has_room ptr n endp = Some q → ptr = Some q ∧ q + n ≤ endp.
Proof.
  unfold has_room. destruct ptr as [p|]; [|done].
  destruct (Z.gtb_spec (p + n) endp); [done|]. intros [= ->]. split; [done|lia].
Qed.

Lemma AMFReadInt16_holds m p endp v : holds m p (be_bytes 2 v) → is_uint 16 v → p + 2 ≤ endp →
  AMFReadInt16 m (Some p) endp = Ok (Some (p + 2), v).
Proof.
  intros Hm Hv Hp. unfold AMFReadInt16. rewrite has_room_some by done.
  pose proof (be_bytes_range2 v Hv) as He. rewrite be_bytes_2 in *.
  apply holds_ld2 in Hm as [-> ->]. run.
  by rewrite be_val_2, He by apply u8_range.
Qed.

Lemma AMFReadInt32_holds m p endp v : holds m p (be_bytes 4 v) → is_uint 32 v → p + 4 ≤ endp →
  AMFReadInt32 m (Some p) endp = Ok (Some (p + 4), v).
Proof.
  intros Hm Hv Hp. unfold AMFReadInt32. rewrite has_room_some by done.
  pose proof (be_bytes_range4 v Hv) as He. rewrite be_bytes_4 in *.
  rewrite !holds_cons in Hm. destruct Hm as (-> & -> & H2 & H3 & _).
  replace (p + 2) with (p + 1 + 1) by lia. rewrite H2. run.
  replace (p + 3) with (p + 1 + 1 + 1) by lia. rewrite H3. run.
  by rewrite be_val_4, He by apply u8_range.
Qed.

Lemma AMFReadDouble_holds m p endp bits dst σ : holds m p (be_bytes 8 bits) → p + 8 ≤ endp →
  AMFReadDouble m (Some p) endp dst σ =
    (σ ← assign σ dst 0 (rev (be_bytes 8 bits)); Ok (Some (p + 8), σ)).
Proof.
  intros Hm Hp. unfold AMFReadDouble. rewrite has_room_some by done.
  by rewrite (holds_slice m p _ 8 Hm).
Qed.

Lemma AMFReadString_holds m p endp (long : bool) s dst n σ :
  holds m p (be_bytes (if long then 4 else 2) (zlen s) ++ s) →
  zlen s < (if long then 2 ^ 32 else 65536) → p + (if long then 4 else 2) + zlen s ≤ endp →
  AMFReadString m (Some p) endp long dst n σ =
    (σ ← put_string σ dst n s; Ok (Some (p + (if long then 4 else 2) + zlen s), σ)).
Proof.
  intros Hm Hs Hp. apply holds_app in Hm as [Hl Hm]. rewrite zlen_be_bytes in Hm.
  pose proof (zlen_nonneg s). unfold AMFReadString, put_string.
  assert ((if long then AMFReadInt32 m (Some p) endp else AMFReadInt16 m (Some p) endp)
          = Ok (Some (p + (if long then 4 else 2)), zlen s)) as ->.
  { destruct long; [apply AMFReadInt32_holds|apply AMFReadInt16_holds];
      (done || lia || (unfold is_uint; dlia)). }
  run. rewrite has_room_some by lia.
  rewrite (holds_slice m _ s (zlen s)) by (done || by destruct long).
  done.
Qed.

Lemma amf_find_item_name n : ∀ i items m p k type, holds m p k →
  amf_find_item n i items m p (zlen k) type = amf_find_item n i items k 0 (zlen k) type.
Proof.
  induction n as [|n IH]; intros i items m p k type Hm; [done|]. cbn [amf_find_item].
  rewrite (holds_slice m p k) by done. rewrite (holds_slice k 0 k) by (done || apply holds_whole).
  by rewrite IH.
Qed.

Lemma bind_assoc {A B C} (x : outcome A) (f : A → outcome B) (g : B → outcome C) :
  (x ≫= f) ≫= g = x ≫= (λ a, f a ≫= g).
Proof. by destruct x. Qed.

Lemma bind_ext {A B} (x : outcome A) (f g : A → outcome B) :
  (∀ a, f a = g a) → x ≫= f = x ≫= g.
Proof. intros. destruct x; cbn; done || auto. Qed.

Lemma props_ok_forall props :
  foldr (λ '(k, v) rest, (0 < zlen k < 65536 ∧ bytes_ok k ∧ amf_ok v) ∧ rest) True props →
  Forall prop_ok props.
Proof.
  induction props as [|[k v] props IH]; cbn [foldr]; [constructor|].
  intros [? ?]. constructor; [done|auto].
Qed.

Lemma array_ok_forall l : foldr (λ v rest, amf_ok v ∧ rest) True l → Forall amf_ok l.
Proof. induction l; cbn [foldr]; [constructor|]. intros [? ?]. constructor; auto. Qed.

Definition props_bytes_cons k v props :
  props_bytes ((k, v) :: props) = prop_bytes k (amf_type v) (amf_body v) ++ props_bytes props.
Proof. unfold props_bytes. cbn [map concat]. by rewrite app_assoc. Qed.

Lemma zlen_prop_bytes k type body : zlen (prop_bytes k type body) = 3 + zlen k + zlen body.
Proof. unfold prop_bytes. llia. Qed.

Section ReadEncoded.
Variable indeterminate : Z.
Abbreviation read_item := (amf_read_item indeterminate).
Abbreviation read_object := (amf_read_object indeterminate).
Abbreviation read_strict_loop := (amf_read_strict_loop indeterminate).

Definition reads (v : amf) : Prop := ∀ fuel m p endp it σ,
  amf_ok v → holds m p (amf_body v) → p + zlen (amf_body v) ≤ endp →
  3 * (endp - p) + 3 ≤ Z.of_nat fuel →
  read_item fuel m (Some p) endp (amf_type v) it σ =
    (σ ← amf_put v it σ; Ok (Some (p + zlen (amf_body v)), σ)).

(** A nonempty member name is announced by its length. *)
Lemma read_name m p endp k (rest : list Z) :
  holds m p (be_bytes 2 (zlen k) ++ k ++ rest) → 0 < zlen k < 65536 → p + 2 ≤ endp →
  ∃ b0 b1, ld m p = Ok b0 ∧ ld m (p + 1) = Ok b1 ∧ Z.lor (Z.shiftl b0 8) b1 = zlen k ∧
  has_room (Some p) 2 endp = Some p ∧
  holds m (p + 2) k ∧ holds m (p + 2 + zlen k) rest.
Proof.
  intros Hm Hk Hp. apply holds_app in Hm as [Hl Hm]. apply holds_app in Hm as [Hn Hr].
  rewrite zlen_be_bytes in *. rewrite has_room_some by done.
  assert (is_uint 16 (zlen k)) as Hu by (unfold is_uint; dlia).
  pose proof (be_bytes_range2 _ Hu) as He. rewrite be_bytes_2 in *.
  apply holds_ld2 in Hl as [H0 H1]. eexists _, _.
  split_and!; [exact H0|exact H1| |done|done|done].
  by rewrite be_val_2, He by apply u8_range.
Qed.

Lemma read_object_end fuel m p endp l n σ : holds m p [0; 0; AMF_OBJECT_END] → p + 3 ≤ endp →
  (0 < fuel)%nat → read_object fuel m (Some p) endp l n σ = Ok (Some (p + 3), σ).
Proof.
  intros Hm Hp Hf. destruct fuel; [lia|]. cbn [amf_read_object].
  rewrite has_room_some by lia. apply holds_cons in Hm as [-> Hm].
  apply holds_ld2 in Hm as [-> H2]. run. cbn -[Z.add]. 
  destruct (Z.ltb_spec (p + 2) endp); [|lia]. replace (p + 2) with (p + 1 + 1) by lia.
  rewrite H2. run. cbn -[Z.add]. do 3 f_equal. lia.
Qed.

Lemma read_object_props props : Forall (λ kv, reads (snd kv)) props → Forall prop_ok props →
  ∀ fuel m p endp l n σ, holds m p (props_bytes props) → p + zlen (props_bytes props) ≤ endp →
  3 * (endp - p) + 2 ≤ Z.of_nat fuel →
  read_object fuel m (Some p) endp l n σ =
    (σ ← put_props amf_put l n props σ; Ok (Some (p + zlen (props_bytes props)), σ)).
Proof.
  induction props as [|[k v] props IH]; intros Hr Hok fuel m p endp l n σ Hm Hp Hf.
  { apply read_object_end; [done|done|]. change (zlen (props_bytes [])) with 3 in Hp. lia. }
  apply Forall_cons_1 in Hr as [Hv Hr]. apply Forall_cons_1 in Hok as [(Hk & Hkb & Hvok) Hok].
  cbn [fst snd] in *. rewrite props_bytes_cons in *.
  rewrite zlen_app, zlen_prop_bytes in *.
  pose proof (zlen_nonneg (props_bytes props)). pose proof (zlen_nonneg (amf_body v)).
  apply holds_app in Hm as [Hm Hrest]. rewrite zlen_prop_bytes in Hrest.
  unfold prop_bytes in Hm.
  destruct (read_name m p endp k _ Hm Hk ltac:(lia)) as (b0 & b1 & Hb0 & Hb1 & Hl & Hroom & Hn & Hb).
  apply holds_cons in Hb as [Hty Hb].
  destruct fuel as [|fuel]; [lia|]. cbn [amf_read_object put_props].
  rewrite Hroom, Hb0. run. rewrite Hb1. run. rewrite Hl.
  destruct (Z.eqb_spec 0 (zlen k)); [lia|].
  destruct (Z.gtb_spec (p + 2 + zlen k + 1) endp); [lia|].
  rewrite Hty. run. rewrite (amf_find_item_name _ _ _ _ _ _ _ Hn), bind_assoc.
  apply bind_ext. intros it. rewrite Hv by (done || lia). rewrite !bind_assoc.
  apply bind_ext. intros σ'. run. rewrite IH; [..|done|done| |lia|lia].
  - by replace (p + (3 + zlen k + zlen (amf_body v) + zlen (props_bytes props)))
      with (p + 2 + zlen k + 1 + zlen (amf_body v) + zlen (props_bytes props)) by lia.
  - by replace (p + 2 + zlen k + 1 + zlen (amf_body v))
      with (p + (3 + zlen k + zlen (amf_body v))) by lia.
Qed.

Definition array_bytes (l : list amf) : list Z := concat (map (λ v, amf_type v :: amf_body v) l).

Lemma read_strict_elements l : Forall reads l → Forall amf_ok l →
  ∀ fuel i m p endp items n σ, holds m p (array_bytes l) → p + zlen (array_bytes l) ≤ endp →
  3 * (endp - p) + 2 ≤ Z.of_nat fuel →
  read_strict_loop fuel i (i + zlen l) m (Some p) endp items n σ =
    (σ ← put_array amf_put items n i l σ; Ok (Some (p + zlen (array_bytes l)), σ)).
Proof.
  induction l as [|v l IH]; intros Hr Hok fuel i m p endp items n σ Hm Hp Hf.
  { destruct fuel; [cbn in Hp; unfold zlen in Hp; cbn in Hp; lia|]. cbn [amf_read_strict_loop].
    destruct (Z.ltb_spec i (i + zlen (@nil amf))); [cbn in *; unfold zlen in *; cbn in *; lia|].
    cbn. do 3 f_equal. unfold zlen. cbn. lia. }
  apply Forall_cons_1 in Hr as [Hv Hr]. apply Forall_cons_1 in Hok as [Hvok Hok].
  change (array_bytes (v :: l)) with (amf_type v :: amf_body v ++ array_bytes l) in *.
  rewrite (zlen_cons (amf_type v)), zlen_app in *. pose proof (zlen_nonneg (amf_body v)).
  pose proof (zlen_nonneg (array_bytes l)). pose proof (zlen_nonneg l).
  apply holds_cons in Hm as [Hty Hm]. apply holds_app in Hm as [Hm Hrest].
  destruct fuel as [|fuel]; [lia|]. cbn [amf_read_strict_loop put_array].
  destruct (Z.ltb_spec i (i + zlen (v :: l))); [|llia].
  destruct (Z.ltb_spec p endp); [|lia]. cbn [andb]. rewrite Hty. run. rewrite bind_assoc.
  apply bind_ext. intros it. rewrite Hv by (done || lia). rewrite !bind_assoc.
  apply bind_ext. intros σ'. run. rewrite zlen_cons.
  replace (i + (1 + zlen l)) with (i + 1 + zlen l) by lia.
  rewrite IH; [|done|done|done|lia|lia].
  by replace (p + (1 + (zlen (amf_body v) + zlen (array_bytes l))))
    with (p + 1 + zlen (amf_body v) + zlen (array_bytes l)) by lia.
Qed.

(** The reader consumes exactly the encoding of a value. *)
Lemma amf_read_item_encoded v : reads v.
Proof.
  induction v as [bits|b|s|s|props IH| | |count props IH|l IH|bits tz] using amf_nested_ind;
    intros fuel m p endp it σ Hok Hm Hp Hf;
    (destruct fuel as [|fuel]; [exfalso; revert Hp Hf; match goal with
       |- context [zlen ?x] => pose proof (zlen_nonneg x) end; lia|]);
    cbn [amf_type amf_read_item amf_put]; eval_tests; rewrite ?bind_assoc;
    try (apply bind_ext; intros dst); rewrite ?bind_assoc.
  - rewrite (AMFReadDouble_holds m p endp bits) by (done || llia). done.
  - unfold AMFReadBoolean. rewrite has_room_some by (cbn in Hp; llia).
    apply holds_ld in Hm as ->. run. done.
  - apply bind_ext. intros n. cbn [amf_body amf_ok] in *.
    rewrite (AMFReadString_holds m p endp false s) by (done || llia). by rewrite zlen_app, zlen_be_bytes, Z.add_assoc.
  - apply bind_ext. intros n. cbn [amf_body] in *.
    rewrite (AMFReadString_holds m p endp true s) by (done || llia || apply Hok).
    by rewrite zlen_app, zlen_be_bytes, Z.add_assoc.
  - apply bind_ext. intros n. rewrite (read_object_props props); [done|done| |done|done|lia].
    by apply props_ok_forall.
  - cbn. by rewrite Z.add_0_r.
  - cbn. by rewrite Z.add_0_r.
  - apply bind_ext. intros n. destruct Hok as [Hc Hok].
    change (amf_body (AEcmaArray count props)) with (be_bytes 4 count ++ props_bytes props) in *.
    rewrite zlen_app, zlen_be_bytes in *. apply holds_app in Hm as [_ Hm].
    rewrite zlen_be_bytes in Hm. pose proof (zlen_nonneg (props_bytes props)).
    destruct fuel as [|fuel]; [lia|]. cbn [amf_read_ecma_array]. rewrite has_room_some by lia.
    rewrite (read_object_props props); [|done|by apply props_ok_forall|done|lia|lia].
    by rewrite Z.add_assoc.
  - apply bind_ext. intros n. destruct Hok as [Hc Hok].
    change (amf_body (AStrictArray l)) with (be_bytes 4 (zlen l) ++ array_bytes l) in *.
    rewrite zlen_app, zlen_be_bytes in *. apply holds_app in Hm as [Hl Hm].
    rewrite zlen_be_bytes in Hm. pose proof (zlen_nonneg (array_bytes l)). pose proof (zlen_nonneg l).
    destruct fuel as [|fuel]; [lia|]. cbn [amf_read_strict_array]. rewrite has_room_some by lia.
    rewrite (AMFReadInt32_holds _ _ _ _ Hl) by (done || lia). run.
    rewrite (read_strict_elements l IH (array_ok_forall l Hok) fuel 0) by (done || lia).
    by rewrite Z.add_assoc.
  - destruct Hok as [Hb Htz]. cbn [amf_body] in *. rewrite zlen_app, !zlen_be_bytes in *.
    apply holds_app in Hm as [Hm Hz]. rewrite zlen_be_bytes in Hz.
    unfold AMFReadDate. rewrite (AMFReadDouble_holds m p endp bits), !bind_assoc by (done || lia).
    apply bind_ext. intros σ'. run. rewrite (AMFReadInt16_holds _ _ _ _ Hz) by (done || lia). run.
    replace (p + Z.of_nat 8 + 2) with (p + (Z.of_nat 8 + Z.of_nat 2)) by lia.
    rewrite be_bytes_2. by destruct it.
Qed.

(** * A sequence of values *)

Definition amf_seq (vs : list amf) : list Z := concat (map amf_bytes vs).

Lemma amf_seq_cons v vs : amf_seq (v :: vs) = amf_type v :: amf_body v ++ amf_seq vs.
Proof. done. Qed.

(** [amf_read_items] on a message that starts with the values [vs]: it takes
    as many of them as there are items. *)
Lemma read_items_loop_values items vs : ∀ count i m p endp σ,
  Forall amf_ok vs → holds m p (amf_seq vs) → p + zlen (amf_seq vs) ≤ endp →
  ((length vs < count)%nat → p + zlen (amf_seq vs) = endp) →
  amf_read_items_loop indeterminate count i m (Some p) endp items σ =
    ('(matched, σ) ← put_values i items count vs σ;
     Ok (if (matched : bool) then Some (p + zlen (amf_seq (take count vs))) else None, σ)).
Proof.
  induction vs as [|v vs IH]; intros count i m p endp σ Hok Hm Hp Hend.
  { destruct count; cbn [amf_read_items_loop put_values]; run; rewrite ?take_nil;
      change (zlen (amf_seq [])) with 0 in *; rewrite Z.add_0_r; [done|].
    destruct (Z.ltb_spec p endp); [|done]. specialize (Hend ltac:(cbn; lia)). lia. }
  destruct count as [|count].
  { cbn [amf_read_items_loop put_values]. run. by rewrite take_0, Z.add_0_r. }
  apply Forall_cons_1 in Hok as [Hv Hok]. rewrite amf_seq_cons in *.
  rewrite zlen_cons, zlen_app in *. apply holds_cons in Hm as [Hty Hm].
  apply holds_app in Hm as [Hm Hr]. cbn [amf_read_items_loop put_values take].
  pose proof (zlen_nonneg (amf_body v)). pose proof (zlen_nonneg (amf_seq vs)).
  destruct (Z.ltb_spec p endp); [|lia]. rewrite Hty. run. rewrite !bind_assoc.
  apply bind_ext. intros it. rewrite bind_assoc. apply bind_ext. intros ty.
  destruct (amf_read_item_type_check (amf_type v) ty); cbn [negb]; [|done].
  rewrite amf_read_item_encoded by (done || lia || (unfold amf_fuel; lia)).
  rewrite !bind_assoc. apply bind_ext. intros σ'. run.
  rewrite IH; [|done|done|lia|cbn in Hend; lia]. apply bind_ext. intros [[|] σ'']; [|done].
  rewrite amf_seq_cons, zlen_cons, zlen_app. do 3 f_equal. lia.
Qed.
End ReadEncoded.

(** * Arbitrary input

    [item_ok sh it]: the variables behind [it], of the sizes [sh], have room
    for what an item of its type may store. *)

Inductive item_ok (sh : list Z) : amf_object_item_t → Prop :=
  | item_ok_null type name size : size = 0 → type ≠ AMF_DATE →
      item_ok sh (AmfItem type name ValueNull size)
  | item_ok_boolean name k n size : sh !! Z.to_nat k = Some n → 0 ≤ k → 1 ≤ n →
      item_ok sh (AmfItem AMF_BOOLEAN name (ValueVar k) size)
  | item_ok_number name k n size : sh !! Z.to_nat k = Some n → 0 ≤ k → 8 ≤ n →
      item_ok sh (AmfItem AMF_NUMBER name (ValueVar k) size)
  | item_ok_string type name k n size : type = AMF_STRING ∨ type = AMF_LONG_STRING →
      sh !! Z.to_nat k = Some n → 0 ≤ k → size ≤ n →
      item_ok sh (AmfItem type name (ValueVar k) size)
  | item_ok_date name k n size : sh !! Z.to_nat k = Some n → 0 ≤ k → 10 ≤ n →
      item_ok sh (AmfItem AMF_DATE name (ValueVar k) size)
  | item_ok_members type name l size : type = AMF_OBJECT ∨ type = AMF_ECMA_ARRAY →
      size = zlen l → Forall (item_ok sh) l →
      Forall (λ it, ∃ ty k v n, it = AmfItem ty (Some k) v n ∧ 0 ∈ k) l →
      item_ok sh (AmfItem type name (ValueItems l) size)
  | item_ok_elements name l size : size = zlen l → Forall (item_ok sh) l →
      item_ok sh (AmfItem AMF_STRICT_ARRAY name (ValueItems l) size).

Abbreviation shape σ := (map zlen σ).

(** The last cell of a variable is zero, which makes a string of it, unless it has
    the size of a boolean, a number or a date. *)
Definition terminated (v : list Z) : Prop :=
  zlen v = 1 ∨ zlen v = 8 ∨ zlen v = 10 ∨ v !! Z.to_nat (zlen v - 1) = Some 0.

(** What reading does to the variables: they keep their sizes, and strings stay
    strings. *)
Definition same_vars (σ σ' : store) : Prop :=
  shape σ' = shape σ ∧ (Forall terminated σ → Forall terminated σ').

#[global] Instance same_vars_preorder : PreOrder same_vars.
Proof.
  split.
  - intros σ. by split.
  - intros σ1 σ2 σ3 [H1 H2] [H3 H4]. split; [congruence|]. auto.
Qed.

Lemma same_shape σ σ' : same_vars σ σ' → shape σ' = shape σ.
Proof. apply proj1. Qed.

(** A store that leaves the last cell of a variable, or zeroes it. *)
Definition keeps_end (o n : Z) (bs : list Z) : Prop :=
  n = 1 ∨ n = 8 ∨ n = 10 ∨ o + zlen bs < n ∨ bs = [0].

Lemma terminated_put v o bs : 0 ≤ o → o + zlen bs ≤ zlen v → keeps_end o (zlen v) bs →
  terminated v → terminated (put v o bs).
Proof.
  intros Ho Hr Hk Hv. unfold terminated in *. rewrite zlen_put by done.
  destruct Hk as [?|[?|[?|Hk]]]; [tauto..|]. destruct Hv as [?|[?|[?|Hv]]]; [tauto..|].
  do 3 right.
  destruct (decide (o + zlen bs < zlen v)); [rewrite put_lookup_out; (done || lia)|].
  destruct Hk as [|Hk]; [lia|]. subst bs. change (zlen [0]) with 1 in *. unfold put.
  assert (Z.to_nat (zlen v - 1) = Z.to_nat o) as -> by lia.
  rewrite lookup_app_r by (rewrite length_take; lia). rewrite length_take.
  replace (Z.to_nat o - _)%nat with 0%nat by (unfold zlen in *; lia). done.
Qed.

Lemma poke_ok (σ : store) k o bs n : 0 ≤ k → shape σ !! Z.to_nat k = Some n → 0 ≤ o →
  o + zlen bs ≤ n → keeps_end o n bs → ∃ σ', poke σ k o bs = Ok σ' ∧ same_vars σ σ'.
Proof.
  intros Hk Hn Ho Hb He. rewrite list_lookup_fmap in Hn.
  destruct (σ !! Z.to_nat k) as [v|] eqn:E; [|done]. apply Some_inj in Hn. subst n.
  unfold poke. rewrite (ld_lookup σ k v) by done. run. rewrite st_ok by done. run.
  pose proof (lookup_lt_Some _ _ _ E).
  assert (k + zlen [put v o bs] ≤ zlen σ) by (change (zlen [put v o bs]) with 1; unfold zlen; lia).
  rewrite st_ok by done. eexists. split; [done|].
  assert (put σ k [put v o bs] = <[Z.to_nat k := put v o bs]> σ) as ->.
  { unfold put at 1. by rewrite insert_take_drop, Nat.add_1_r by done. }
  split.
  - rewrite list_fmap_insert. apply list_insert_id. rewrite list_lookup_fmap, E. cbn.
    by rewrite zlen_put.
  - intros Hv. apply Forall_insert; [done|]. apply terminated_put; [done..|].
    by apply (Forall_lookup_1 _ _ _ _ Hv E).
Qed.

Lemma assign_ok (σ : store) dst o bs : 0 ≤ o →
  (∀ k, dst = Some k → 0 ≤ k ∧
     ∃ n, shape σ !! Z.to_nat k = Some n ∧ o + zlen bs ≤ n ∧ keeps_end o n bs) →
  ∃ σ', assign σ dst o bs = Ok σ' ∧ same_vars σ σ'.
Proof.
  intros Ho Hd. destruct dst as [k|]; [|by exists σ].
  destruct (Hd k eq_refl) as (Hk & n & Hn & Hb & He). by apply (poke_ok σ k o bs n).
Qed.

Lemma type_check_inv type ty : amf_read_item_type_check type ty = true →
  type = ty ∨ ty = AMF_OBJECT ∧ (type = AMF_ECMA_ARRAY ∨ type = AMF_NULL).
Proof.
  unfold amf_read_item_type_check. intros [H|H]%orb_true_iff; [left; lia|right].
  apply andb_true_iff in H as [? H]. apply orb_true_iff in H as [H|H]; (split; [lia|]); lia.
Qed.

(** The item a value of type [type] may be read through. *)
Definition fits (sh : list Z) (type : Z) (it : option amf_object_item_t) : Prop :=
  ∀ i, it = Some i → item_ok sh i ∧
    ∃ ty, item_type i = Ok ty ∧ amf_read_item_type_check type ty = true.

Definition need (type size : Z) : Z :=
  if type =? AMF_BOOLEAN then 1 else if type =? AMF_NUMBER then 8
  else if type =? AMF_DATE then 10 else size.

Definition var_ok (sh : list Z) (dst : option Z) (n : Z) : Prop :=
  ∀ k, dst = Some k → 0 ≤ k ∧ ∃ room, sh !! Z.to_nat k = Some room ∧ n ≤ room.

Ltac amf_const := unfold AMF_NUMBER, AMF_BOOLEAN, AMF_STRING, AMF_OBJECT, AMF_NULL, AMF_UNDEFINED,
  AMF_ECMA_ARRAY, AMF_OBJECT_END, AMF_STRICT_ARRAY, AMF_DATE, AMF_LONG_STRING in *.

Lemma fits_var sh type it : fits sh type it →
  type ∈ [AMF_BOOLEAN; AMF_NUMBER; AMF_STRING; AMF_LONG_STRING; AMF_DATE] →
  ∃ dst n, item_var it = Ok dst ∧ item_size it = Ok n ∧ var_ok sh dst (need type n) ∧
    (type = AMF_DATE → it ≠ None → ∃ k, dst = Some k).
Proof.
  intros Hf Hty. destruct it as [i|]; [|exists None, 0; by unfold var_ok].
  destruct (Hf i eq_refl) as (Hok & ty & Hity & Hc). apply type_check_inv in Hc.
  assert (ty = type) as ->.
  { rewrite !elem_of_cons, elem_of_nil in Hty. amf_const. lia. }
  clear Hc Hf. unfold var_ok, need.
  destruct Hok; cbn [item_type item_var item_size] in *; apply Ok_inj in Hity; subst;
    rewrite !elem_of_cons, elem_of_nil in Hty; amf_const;
    try (exfalso; lia); eexists _, _; (split; [reflexivity|]); (split; [reflexivity|]).
  all: split; [intros ? [= <-]; (split; [done|]); eexists; (split; [done|]); try done|try by eauto].
  destruct H as [->| ->]; done.
Qed.

Definition members (items : list amf_object_item_t) : Prop :=
  Forall (λ it, ∃ ty k v n, it = AmfItem ty (Some k) v n ∧ 0 ∈ k) items.

Lemma fits_items sh type it : fits sh type it →
  type ∈ [AMF_OBJECT; AMF_ECMA_ARRAY; AMF_STRICT_ARRAY] →
  ∃ l, item_items it = Ok l ∧ item_size it = Ok (zlen l) ∧ Forall (item_ok sh) l ∧
    (type ≠ AMF_STRICT_ARRAY → members l).
Proof.
  intros Hf Hty. unfold members. destruct it as [i|]; [|exists []; done].
  destruct (Hf i eq_refl) as (Hok & ty & Hity & Hc). apply type_check_inv in Hc. clear Hf.
  destruct Hok; cbn [item_type item_items item_size] in *; apply Ok_inj in Hity; subst;
    rewrite !elem_of_cons, elem_of_nil in Hty; amf_const; try (exfalso; lia).
  - by exists [].
  - by exists l.
  - exists l. split_and!; try done. lia.
Qed.

Lemma strlen_ok s : 0 ∈ s → ∃ n, strlen s = Ok n ∧ 0 ≤ n ∧ n < zlen s.
Proof.
  induction s as [|c s IH]; [by intros ?%elem_of_nil|]. intros Hs. cbn [strlen].
  rewrite zlen_cons. pose proof (zlen_nonneg s). destruct (Z.eqb_spec c 0); [exists 0; split; [done|lia]|].
  apply elem_of_cons in Hs as [?|Hs]; [done|]. destruct (IH Hs) as (n' & -> & ? & ?). run.
  exists (n' + 1). split; [done|lia].
Qed.

Lemma amf_find_item_ok sh n : ∀ i items m data len type,
  Forall (item_ok sh) items → members items → 0 ≤ i → i + Z.of_nat n ≤ zlen items →
  0 ≤ data → 0 ≤ len → data + len ≤ zlen m →
  ∃ it, amf_find_item n i items m data len type = Ok it ∧ fits sh type it.
Proof.
  induction n as [|n IH]; intros i items m data len type Hok Hm Hi Hn Hd Hl Hr.
  { exists None. split; [done|]. intros ? [=]. }
  destruct (lookup_lt_is_Some_2 items (Z.to_nat i)) as [it Hit]; [unfold zlen in Hn; lia|].
  pose proof (proj1 (Forall_lookup _ _) Hok _ _ Hit) as Hitok.
  destruct (proj1 (Forall_lookup _ _) Hm _ _ Hit) as (ty & k & v & sz & -> & Hk).
  cbn [amf_find_item]. rewrite (ld_lookup items i _ Hi Hit). run. cbn [item_name deref]. run.
  destruct (strlen_ok k Hk) as (kl & -> & ? & ?). run.
  destruct (Z.eqb_spec kl len) as [->|].
  - rewrite !slice_ok by lia. run. cbn [item_type].
    destruct (bool_decide _); run; cbn [andb]; [|by apply IH; (done || lia)].
    destruct (amf_read_item_type_check type ty) eqn:E; [|by apply IH; (done || lia)].
    eexists. split; [done|]. intros ? [= <-]. split; [done|]. by exists ty.
  - run. cbn [andb]. apply IH; done || lia.
Qed.

Section Safe.
Variables (indeterminate : Z) (m : list Z) (endp : Z).
Hypothesis Hend : endp ≤ zlen m.
Hypothesis Hm : bytes_ok m.

(** A reader that stays in bounds and keeps the variables' sizes. *)
Definition kept (p : Z) (σ : store) (x : outcome (option Z * store)) : Prop :=
  ∃ ptr σ', x = Ok (ptr, σ') ∧ same_vars σ σ' ∧ ∀ q, ptr = Some q → p ≤ q ≤ endp.

Lemma kept_ret p q σ σ' : same_vars σ σ' → p ≤ q ≤ endp → kept p σ (Ok (Some q, σ')).
Proof. intros. exists (Some q), σ'. split_and!; [done..|]. by intros ? [= <-]. Qed.

Lemma kept_null p σ σ' : same_vars σ σ' → kept p σ (Ok (None, σ')).
Proof. intros. exists None, σ'. split_and!; [done..|]. by intros ? [=]. Qed.

Lemma kept_weaken p q σ σ' x : kept q σ' x → p ≤ q → same_vars σ σ' → kept p σ x.
Proof.
  intros (ptr & σ'' & -> & Hs & Hq) Hp Hss. exists ptr, σ''. split_and!; [done|by etrans|].
  intros r Hr. specialize (Hq r Hr). lia.
Qed.

Hint Resolve kept_ret kept_null : core.
Hint Extern 0 (same_vars _ _) => reflexivity : core.

Lemma has_room_cases ptr n : (∃ p, ptr = Some p ∧ p + n ≤ endp ∧ has_room ptr n endp = Some p) ∨
  has_room ptr n endp = None.
Proof.
  destruct (has_room ptr n endp) as [q|] eqn:E; [|by right]. left.
  apply has_room_inv in E as E'. exists q. naive_solver.
Qed.

Lemma AMFReadBoolean_kept p dst σ : 0 ≤ p → var_ok (shape σ) dst 1 →
  kept p σ (AMFReadBoolean m (Some p) endp dst σ).
Proof.
  intros Hp Hd. unfold AMFReadBoolean.
  destruct (has_room_cases (Some p) 1) as [(? & [= <-] & ? & ->)| ->]; [|by auto].
  rewrite ld_ok by lia. run. destruct (assign_ok σ dst 0 [m !!! Z.to_nat p]) as (σ' & -> & ?);
    [lia| |run; apply kept_ret; [done|lia]].
  intros k Hk. destruct (Hd k Hk) as (? & n & ? & ?). split; [done|]. exists n.
  unfold keeps_end. change (zlen [m !!! Z.to_nat p]) with 1. split_and!; [done|lia..].
Qed.

Lemma AMFReadDouble_kept p dst σ : 0 ≤ p → var_ok (shape σ) dst 8 →
  kept p σ (AMFReadDouble m (Some p) endp dst σ).
Proof.
  intros Hp Hd. unfold AMFReadDouble.
  destruct (has_room_cases (Some p) 8) as [(? & [= <-] & ? & ->)| ->]; [|by auto].
  rewrite slice_ok by lia. run. destruct (assign_ok σ dst 0 (rev (sub m p 8))) as (σ' & -> & ?);
    [lia| |run; apply kept_ret; [done|lia]].
  assert (zlen (rev (sub m p 8)) = 8) as Hl.
  { unfold zlen. rewrite length_rev. by apply zlen_sub; lia. }
  intros k Hk. destruct (Hd k Hk) as (? & n & ? & ?). split; [done|]. exists n.
  unfold keeps_end. split_and!; [done|lia..].
Qed.

Lemma shiftl_lor_nonneg a b n : 0 ≤ a → 0 ≤ b → 0 ≤ Z.lor (Z.shiftl a n) b.
Proof. intros. apply Z.lor_nonneg. by rewrite Z.shiftl_nonneg. Qed.

Lemma byte_nonneg (i : nat) : 0 ≤ m !!! i.
Proof. apply (bytes_ok_lookup m i Hm). Qed.
Hint Resolve byte_nonneg shiftl_lor_nonneg : core.

Lemma AMFReadInt16_kept p : 0 ≤ p → ∃ ptr v, AMFReadInt16 m (Some p) endp = Ok (ptr, v) ∧ 0 ≤ v ∧
  ∀ q, ptr = Some q → q = p + 2 ∧ q ≤ endp.
Proof.
  intros Hp. unfold AMFReadInt16.
  destruct (has_room_cases (Some p) 2) as [(? & [= <-] & ? & ->)| ->].
  - rewrite !ld_ok by lia. run. eexists _, _. split_and!; [done|auto|]. intros ? [= <-]. lia.
  - exists None, 0. done.
Qed.

Lemma AMFReadInt32_kept p : 0 ≤ p → ∃ ptr v, AMFReadInt32 m (Some p) endp = Ok (ptr, v) ∧ 0 ≤ v ∧
  ∀ q, ptr = Some q → q = p + 4 ∧ q ≤ endp.
Proof.
  intros Hp. unfold AMFReadInt32.
  destruct (has_room_cases (Some p) 4) as [(? & [= <-] & ? & ->)| ->].
  - rewrite !ld_ok by lia. run. eexists _, _. split_and!; [done| |intros ? [= <-]; lia].
    rewrite !Z.lor_nonneg, !Z.shiftl_nonneg. auto.
  - exists None, 0. done.
Qed.

Lemma put_string_ok σ dst n s : var_ok (shape σ) dst n →
  ∃ σ', put_string σ dst n s = Ok σ' ∧ same_vars σ σ'.
Proof.
  intros Hd. unfold put_string. destruct dst as [k|]; [|by eexists].
  destruct (Hd k eq_refl) as (Hk & room & Hr & Hn). pose proof (zlen_nonneg s).
  destruct (Z.gtb_spec n (zlen s)).
  - destruct (poke_ok σ k 0 s room) as (σ1 & -> & H1); [done..|lia|unfold keeps_end; lia|]. run.
    destruct (poke_ok σ1 k (zlen s) [0] room) as (σ2 & -> & H2);
      [done|by rewrite (same_shape σ)|lia|change (zlen [0]) with 1; lia|unfold keeps_end; tauto|].
    exists σ2. split; [done|by etrans].
  - destruct (Z.gtb_spec n 0); [|by eexists].
    apply (poke_ok σ k 0 [0] room); [done..|change (zlen [0]) with 1; lia|unfold keeps_end; tauto].
Qed.

Lemma AMFReadString_kept p (long : bool) dst n σ : 0 ≤ p → var_ok (shape σ) dst n →
  kept p σ (AMFReadString m (Some p) endp long dst n σ).
Proof.
  intros Hp Hd. unfold AMFReadString.
  assert (∃ ptr v, (if long then AMFReadInt32 m (Some p) endp else AMFReadInt16 m (Some p) endp)
    = Ok (ptr, v) ∧ 0 ≤ v ∧ ∀ q, ptr = Some q → p ≤ q) as (ptr & v & -> & Hv & Hq).
  { destruct long; [destruct (AMFReadInt32_kept p Hp) as (ptr & v & H & ? & Hq)
                   |destruct (AMFReadInt16_kept p Hp) as (ptr & v & H & ? & Hq)];
      exists ptr, v; (split_and!; [done..|]); intros q Hqq; specialize (Hq q Hqq); lia. }
  run. destruct (has_room_cases ptr v) as [(q & -> & ? & ->)| ->]; [|by auto].
  specialize (Hq q eq_refl).
  destruct (put_string_ok σ dst n (sub m q v) Hd) as (σ' & Hs & Hsh).
  unfold put_string in Hs. rewrite zlen_sub in Hs by lia. rewrite slice_ok by lia. run.
  destruct dst as [k|]; [rewrite Hs|apply Ok_inj in Hs; subst]; run; (apply kept_ret; [done|lia]).
Qed.

Lemma AMFReadDate_kept p dst (it : option amf_object_item_t) σ : 0 ≤ p → var_ok (shape σ) dst 10 →
  (it ≠ None → ∃ k, dst = Some k) →
  kept p σ (AMFReadDate indeterminate m (Some p) endp dst
    (match it with Some _ => Some dst | None => None end) σ).
Proof.
  intros Hp Hd Hit. unfold AMFReadDate.
  destruct (AMFReadDouble_kept p dst σ Hp) as (ptr & σ1 & -> & Hs1 & Hq1).
  { intros k Hk. destruct (Hd k Hk) as (? & r & ? & ?). split; [done|]. exists r. split; [done|lia]. }
  run. destruct ptr as [q|]; [|by auto]. specialize (Hq1 q eq_refl).
  destruct (AMFReadInt16_kept q ltac:(lia)) as (ptr & v & -> & _ & Hq2). run.
  set (w := match ptr with Some _ => v | None => indeterminate end).
  assert (∃ σ2, match (match it with Some _ => Some dst | None => None end) with
     | Some var => k ← deref var; poke σ1 k 8 [u8 w; u8 (Z.shiftr w 8)]
     | None => Ok σ1 end = Ok σ2 ∧ same_vars σ1 σ2) as (σ2 & -> & Hs2).
  { destruct it; [|by eexists]. destruct (Hit ltac:(done)) as [k ->]. cbn [deref]. run.
    destruct (Hd k eq_refl) as (? & r & ? & ?).
    apply (poke_ok σ1 k 8 _ r); [done|by rewrite (same_shape σ)|lia|llia|].
    unfold keeps_end. rewrite !zlen_cons, zlen_nil. lia. }
  run. destruct ptr as [q2|]; [|by apply kept_null; etrans].
  specialize (Hq2 q2 eq_refl). apply kept_ret; [by etrans|lia].
Qed.

Definition budget (k : Z) (fuel : nat) (ptr : option Z) : Prop :=
  (0 < fuel)%nat ∧ ∀ p, ptr = Some p → 0 ≤ p ≤ endp ∧ 3 * (endp - p) + k ≤ Z.of_nat fuel.

(** From position [p] on, or nowhere after a null pointer. *)
Definition kept_from (ptr : option Z) (σ : store) (x : outcome (option Z * store)) : Prop :=
  match ptr with Some p => kept p σ x | None => kept 0 σ x end.

Definition item_safe (fuel : nat) : Prop := ∀ p type it σ, budget 3 fuel (Some p) →
  fits (shape σ) type it → kept p σ (amf_read_item indeterminate fuel m (Some p) endp type it σ).
Definition strict_safe (fuel : nat) : Prop := ∀ p items σ, budget 2 fuel (Some p) →
  Forall (item_ok (shape σ)) items →
  kept p σ (amf_read_strict_array indeterminate fuel m (Some p) endp items (zlen items) σ).
Definition loop_safe (fuel : nat) : Prop := ∀ ptr i count items σ, budget 2 fuel ptr → 0 ≤ i →
  Forall (item_ok (shape σ)) items →
  kept_from ptr σ (amf_read_strict_loop indeterminate fuel i count m ptr endp items (zlen items) σ).
Definition ecma_safe (fuel : nat) : Prop := ∀ p items σ, budget 2 fuel (Some p) →
  Forall (item_ok (shape σ)) items → members items →
  kept p σ (amf_read_ecma_array indeterminate fuel m (Some p) endp items (zlen items) σ).
Definition object_safe (fuel : nat) : Prop := ∀ ptr items σ, budget 2 fuel ptr →
  Forall (item_ok (shape σ)) items → members items →
  kept_from ptr σ (amf_read_object indeterminate fuel m ptr endp items (zlen items) σ).

Lemma item_step fuel : strict_safe fuel → ecma_safe fuel → object_safe fuel → item_safe (S fuel).
Proof.
  intros Hs He Ho p type it σ [_ Hb] Hf. destruct (Hb p eq_refl) as [Hp Hfu].
  cbn [amf_read_item].
  destruct (decide (type ∈ [AMF_BOOLEAN; AMF_NUMBER; AMF_STRING; AMF_LONG_STRING; AMF_DATE])) as [Hv|Hv].
  { destruct (fits_var (shape σ) type it Hf Hv) as (dst & n & -> & Hn & Hok & Hd).
    rewrite !elem_of_cons, elem_of_nil in Hv. unfold need in Hok.
    destruct Hv as [->|[->|[->|[->|[->|[]]]]]]; revert Hok; eval_tests; intros Hok; run.
    - apply AMFReadBoolean_kept; done || lia.
    - apply AMFReadDouble_kept; done || lia.
    - rewrite Hn. run. apply AMFReadString_kept; done || lia.
    - rewrite Hn. run. apply AMFReadString_kept; done || lia.
    - apply AMFReadDate_kept; [lia|done|]. by apply Hd. }
  destruct (decide (type ∈ [AMF_OBJECT; AMF_ECMA_ARRAY; AMF_STRICT_ARRAY])) as [Hl|Hl].
  { destruct (fits_items (shape σ) type it Hf Hl) as (l & -> & -> & Hok & Hmem).
    assert (budget 2 fuel (Some p)) as Hb2.
    { split; [lia|]. intros ? [= <-]. split; [done|lia]. }
    rewrite !elem_of_cons, elem_of_nil in Hl.
    destruct Hl as [->|[->|[->|[]]]]; eval_tests; run.
    - by apply (Ho (Some p)); [..|apply Hmem].
    - by apply He; [..|apply Hmem].
    - by apply Hs. }
  repeat rewrite elem_of_cons in Hv. repeat rewrite elem_of_cons in Hl.
  repeat match goal with
  | |- context [type =? ?c] =>
      destruct (Z.eqb_spec type c); [first [apply kept_ret; (done || lia) | exfalso; tauto]|]
  end.
  by apply kept_null.
Qed.

Lemma strict_step fuel : loop_safe fuel → strict_safe (S fuel).
Proof.
  intros Hl p items σ [_ Hb] Hok. destruct (Hb p eq_refl) as [Hp Hfu]. cbn [amf_read_strict_array].
  destruct (has_room_cases (Some p) 4) as [(? & [= <-] & ? & ->)| ->]; [|by apply kept_null].
  destruct (AMFReadInt32_kept p ltac:(lia)) as (ptr & count & -> & Hc & Hq). run.
  assert (budget 2 fuel ptr) as Hb2.
  { split; [lia|]. intros q Hqq. specialize (Hq q Hqq). lia. }
  specialize (Hl ptr 0 count items σ Hb2 ltac:(lia) Hok).
  destruct ptr as [q|]; cbn [kept_from] in Hl.
  - specialize (Hq q eq_refl). apply (kept_weaken p q σ σ); [done|lia|done].
  - destruct fuel as [|fuel]; [lia|]. cbn [amf_read_strict_loop]. by apply kept_null.
Qed.

Lemma loop_step fuel : item_safe fuel → loop_safe fuel → loop_safe (S fuel).
Proof.
  intros Hi Hl ptr i count items σ [_ Hb] Hi0 Hok. cbn [amf_read_strict_loop].
  destruct ptr as [p|]; [|by apply kept_null]. destruct (Hb p eq_refl) as [Hp Hfu]. cbn [kept_from].
  destruct ((i <? count) && (p <? endp)) eqn:E; [|apply kept_ret; [done|lia]].
  apply andb_true_iff in E as [_ E]. rewrite (ld_ok m p) by lia. run.
  set (type := m !!! Z.to_nat p).
  assert (∃ it, (if i <? zlen items then it ← ld items i; ty ← item_type it;
      Ok (if amf_read_item_type_check type ty then Some it else None) else Ok None) = Ok it ∧
      fits (shape σ) type it) as (it & -> & Hit).
  { destruct (Z.ltb_spec i (zlen items)); [|exists None; split; [done|by intros ? [=]]].
    destruct (lookup_lt_is_Some_2 items (Z.to_nat i)) as [it Hit]; [unfold zlen in *; lia|].
    pose proof (proj1 (Forall_lookup _ _) Hok _ _ Hit) as Hitok.
    rewrite (ld_lookup items i it) by done. run.
    assert (∃ ty, item_type it = Ok ty) as [ty Hty] by (destruct Hitok; eauto).
    rewrite Hty. run. eexists. split; [done|].
    destruct (amf_read_item_type_check type ty) eqn:E2; [|by intros ? [=]].
    intros ? [= <-]. split; [done|]. by exists ty. }
  run. destruct (Hi (p + 1) type it σ) as (ptr & σ' & -> & Hs & Hq); [|done|].
  { split; [lia|]. intros ? [= <-]. lia. }
  run. assert (budget 2 fuel ptr) as Hb2.
  { split; [lia|]. intros q Hqq. specialize (Hq q Hqq). lia. }
  specialize (Hl ptr (i + 1) count items σ' Hb2 ltac:(lia) ltac:(by rewrite (same_shape _ _ Hs))).
  destruct ptr as [q|]; cbn [kept_from] in Hl.
  - specialize (Hq q eq_refl). apply (kept_weaken p q σ σ'); [done|lia|done].
  - destruct fuel as [|fuel]; [lia|]. cbn [amf_read_strict_loop]. by apply kept_null.
Qed.

Lemma ecma_step fuel : object_safe fuel → ecma_safe (S fuel).
Proof.
  intros Ho p items σ [_ Hb] Hok Hmem. destruct (Hb p eq_refl) as [Hp Hfu].
  cbn [amf_read_ecma_array].
  destruct (has_room_cases (Some p) 4) as [(? & [= <-] & ? & ->)| ->]; [|by apply kept_null].
  apply (kept_weaken p (p + 4) σ σ); [|lia|done]. apply (Ho (Some (p + 4))); [|done..].
  split; [lia|]. intros ? [= <-]. lia.
Qed.

Lemma object_step fuel : item_safe fuel → object_safe fuel → object_safe (S fuel).
Proof.
  intros Hi Ho ptr items σ [_ Hb] Hok Hmem. cbn [amf_read_object].
  assert (∀ q, 0 ≤ q → kept q σ (if q <? endp then b ← ld m q;
     Ok (if AMF_OBJECT_END =? b then Some (q + 1) else None, σ) else Ok (None, σ))) as Hfin.
  { intros q Hq. destruct (Z.ltb_spec q endp); [|by apply kept_null].
    rewrite ld_ok by lia. run. destruct (_ =? _); [apply kept_ret; [done|lia]|by apply kept_null]. }
  destruct (has_room_cases ptr 2) as [(p & -> & ? & ->)| ->];
    [|destruct ptr; [apply Hfin; destruct (Hb z eq_refl); lia|by apply kept_null]].
  destruct (Hb p eq_refl) as [Hp Hfu]. cbn [kept_from]. rewrite (ld_ok m p) by lia. run. rewrite (ld_ok m (p + 1)) by lia. run.
  set (len := Z.lor _ _). assert (0 ≤ len) by (apply shiftl_lor_nonneg; apply byte_nonneg).
  destruct (0 =? len).
  { apply (kept_weaken p (p + 2) σ σ); [|lia|done]. by apply Hfin; lia. }
  destruct (Z.gtb_spec (p + 2 + len + 1) endp); [by apply kept_null|].
  rewrite ld_ok by lia. run. set (type := m !!! Z.to_nat (p + 2 + len)).
  destruct (amf_find_item_ok (shape σ) (Z.to_nat (zlen items)) 0 items m (p + 2) len type)
    as (it & -> & Hit); [done|done|lia|unfold zlen; lia|lia|done|lia|].
  run. destruct (Hi (p + 2 + len + 1) type it σ) as (ptr & σ' & -> & Hs & Hq); [|done|].
  { split; [lia|]. intros ? [= <-]. lia. }
  run. assert (budget 2 fuel ptr) as Hb2.
  { split; [lia|]. intros q Hqq. specialize (Hq q Hqq). lia. }
  specialize (Ho ptr items σ' Hb2 ltac:(by rewrite (same_shape _ _ Hs)) Hmem).
  destruct ptr as [q|]; cbn [kept_from] in Ho.
  - specialize (Hq q eq_refl). apply (kept_weaken p q σ σ'); [done|lia|done].
  - destruct fuel as [|fuel]; [lia|]. cbn [amf_read_object has_room]. by apply kept_null.
Qed.

Lemma readers_safe fuel : item_safe fuel ∧ strict_safe fuel ∧ loop_safe fuel ∧ ecma_safe fuel ∧
  object_safe fuel.
Proof.
  induction fuel as [|fuel (Hi & Hs & Hl & He & Ho)].
  { assert (∀ k ptr, ¬ budget k 0 ptr) as Hno by (intros ? ? [? _]; lia).
    split_and!; unfold item_safe, strict_safe, loop_safe, ecma_safe, object_safe; intros;
      exfalso; naive_solver. }
  split_and!; [by apply item_step|by apply strict_step|by apply loop_step|by apply ecma_step|
               by apply object_step].
Qed.

(** [amf_read_items] on any input: it returns, in bounds. *)
Lemma amf_read_items_kept n : ∀ i items ptr σ, 0 ≤ i → i + Z.of_nat n ≤ zlen items →
  Forall (item_ok (shape σ)) items → (∀ p, ptr = Some p → 0 ≤ p ≤ endp) →
  kept_from ptr σ (amf_read_items_loop indeterminate n i m ptr endp items σ).
Proof.
  induction n as [|n IH]; intros i items ptr σ Hi Hn Hok Hp.
  { cbn [amf_read_items_loop]. destruct ptr as [p|]; cbn [kept_from]; [|by apply kept_null].
    apply kept_ret; [done|]. specialize (Hp p eq_refl). lia. }
  cbn [amf_read_items_loop]. destruct ptr as [p|]; [|by apply kept_null]. cbn [kept_from].
  specialize (Hp p eq_refl). destruct (Z.ltb_spec p endp); [|apply kept_ret; [done|lia]].
  rewrite (ld_ok m p) by lia. run.
  destruct (lookup_lt_is_Some_2 items (Z.to_nat i)) as [it Hit]; [unfold zlen in *; lia|].
  pose proof (proj1 (Forall_lookup _ _) Hok _ _ Hit) as Hitok.
  rewrite (ld_lookup items i it) by done. run.
  assert (∃ ty, item_type it = Ok ty) as [ty Hty] by (destruct Hitok; eauto).
  rewrite Hty. run. destruct (amf_read_item_type_check _ ty) eqn:E; [|by apply kept_null]. cbn [negb].
  destruct (proj1 (readers_safe (amf_fuel (p + 1) endp)) (p + 1) (m !!! Z.to_nat p) (Some it) σ)
    as (ptr & σ' & -> & Hs & Hq).
  { unfold amf_fuel. split; [lia|]. intros ? [= <-]. lia. }
  { intros ? [= <-]. split; [done|]. by exists ty. }
  run. specialize (IH (i + 1) items ptr σ' ltac:(lia) ltac:(lia) ltac:(by rewrite (same_shape _ _ Hs))).
  destruct ptr as [q|]; cbn [kept_from] in IH.
  - specialize (Hq q eq_refl). apply (kept_weaken p q σ σ'); [|lia|done].
    apply IH. intros ? [= <-]. lia.
  - destruct n; cbn [amf_read_items_loop]; by apply kept_null.
Qed.
End Safe.

(** * Properties *)

(** C28: reading back an encoded AMF0 value, of any nesting, consumes exactly its
    encoding and stores through the item what the value holds. *)
Theorem amf_read_item_correct indeterminate v m p endp it σ :
  amf_ok v → holds m p (amf_body v) → p + zlen (amf_body v) ≤ endp →
  amf_read_item indeterminate (amf_fuel p endp) m (Some p) endp (amf_type v) it σ =
    (σ ← amf_put v it σ; Ok (Some (p + zlen (amf_body v)), σ)).
Proof.
  intros. apply amf_read_item_encoded; [done..|]. unfold amf_fuel.
  pose proof (zlen_nonneg (amf_body v)). lia.
Qed.

(** An object with a string, a number the reader has no variable for, and an
    array. *)
Definition demo_value : amf :=
  AObject [(chars "app", AString (chars "live")); (chars "fpad", ABoolean 1);
           (chars "list", AStrictArray [ANumber 0; ANull])].
Definition demo_items : list amf_object_item_t :=
  [AmfItem AMF_STRING (Some (lit "app")) (ValueVar 0) 8].

Lemma amf_read_item_correct_witness :
  amf_read_item 0 (amf_fuel 0 (zlen (amf_body demo_value))) (amf_body demo_value) (Some 0)
    (zlen (amf_body demo_value)) AMF_OBJECT
    (Some (AmfItem AMF_OBJECT None (ValueItems demo_items) 1)) [replicate 8 0]
  = Ok (Some (zlen (amf_body demo_value)), [chars "live" ++ [0; 0; 0; 0]]).
Proof.
  refine (eq_trans (amf_read_item_correct 0 demo_value (amf_body demo_value) 0
    (zlen (amf_body demo_value)) (Some (AmfItem AMF_OBJECT None (ValueItems demo_items) 1))
    [replicate 8 0] _ _ _) _); [|apply holds_whole|reflexivity|reflexivity].
  cbn -[zlen bytes_ok is_uint].
  repeat split; first [by_eval | reflexivity | lia].
Defined.

(** C34: [amf_read_items] on any bytes terminates within its fuel without reading
    outside the message or storing outside a variable, and ends inside the
    message or reports an error, and leaves every string variable with a
    terminating zero, provided each item names a variable of the size it
    states. *)
Theorem amf_read_items_safe indeterminate m data endp items σ :
  bytes_ok m → 0 ≤ data ≤ endp → endp ≤ zlen m → Forall (item_ok (map zlen σ)) items →
  ∃ ptr σ', amf_read_items indeterminate m data endp items (zlen items) σ = Ok (ptr, σ') ∧
    map zlen σ' = map zlen σ ∧ (Forall terminated σ → Forall terminated σ') ∧
    (∀ q, ptr = Some q → data ≤ q ≤ endp).
Proof.
  intros Hm Hd He Hok. unfold amf_read_items.
  pose proof (zlen_nonneg items).
  destruct (amf_read_items_kept indeterminate m endp He Hm (Z.to_nat (zlen items)) 0 items (Some data) σ)
    as (ptr & σ' & H1 & [H2 H2'] & H3); [lia|lia|done|intros ? [= <-]; lia|].
  by exists ptr, σ'.
Qed.

(** A truncated object: the name of its first member runs past the end. *)
Lemma amf_read_items_safe_witness :
  ∃ ptr σ', amf_read_items 0 [3; 0; 200; 97] 0 4
      [AmfItem AMF_OBJECT None (ValueItems demo_items) 1] 1 [replicate 8 0] = Ok (ptr, σ') ∧
    map zlen σ' = [8] ∧ (Forall terminated [replicate 8 0] → Forall terminated σ') ∧
    (∀ q, ptr = Some q → 0 ≤ q ≤ 4).
Proof.
  apply (amf_read_items_safe 0 [3; 0; 200; 97] 0 4
    [AmfItem AMF_OBJECT None (ValueItems demo_items) 1] [replicate 8 0]); [by_eval|lia|done|].
  apply Forall_singleton, item_ok_members; [by left|done| |].
  - apply Forall_singleton. by apply (item_ok_string _ _ _ 0 8); [left|..].
  - apply Forall_singleton. exists AMF_STRING, (lit "app"), (ValueVar 0), 8. split; [done|by_eval].
Defined.
