(* ===== verification/RtmpCommand.v ===== *)
(** Building RTMP command messages:
    src/third/ireader/librtmp/source/rtmp-netconnection.c and
    rtmp-netstream.c.

    Every function writes into the [bytes] cells at [out] of the buffer [m] and
    returns the buffer with the pointer after the message, or null.  A
    [const char*] argument is a buffer with a terminating zero; where the code
    accepts a null pointer the argument is an option.  A double constant is
    its 64-bit pattern. *)
From stdpp Require Import strings.
From S2P Require Import Prelude Amf0.
Open Scope Z_scope.

(** * rtmp-netconnection.h *)

Record rtmp_connect_t := RtmpConnect {
  c_app : list Z;          (* [128] *)
  c_flashver : list Z;     (* [32] *)
  c_swfUrl : list Z;       (* [256] *)
  c_tcUrl : list Z;        (* [256] *)
  c_fpad : Z;
  c_capabilities : Z;
  c_audioCodecs : Z;
  c_videoCodecs : Z;
  c_videoFunction : Z;
  c_encoding : Z;
  c_pageUrl : list Z;      (* [256] *)
  c_capsEx : Z;
  c_fourCcList : list (list Z)  (* [16][5] *)
}.

(** 1.0 and 302.0 *)
Definition RTMP_CAPSEX_RECONNECT : Z := 4607182418800017408.
Definition DOUBLE_302 : Z := 4644020456377024512.

Section Writers.
Implicit Types (m : list Z) (out : option Z) (endp : Z).

(** [AMFWriteString(out, end, s, strlen(s))] *)
Definition write_string m out endp (s : list Z) : outcome (list Z * option Z) :=
  n ← strlen s; AMFWriteString m out endp s n.
(** [AMFWriteNamedString(out, end, name, length, s, strlen(s))] *)
Definition write_named m out endp (name : list Z) (length : Z) (s : list Z)
  : outcome (list Z * option Z) :=
  n ← strlen s; AMFWriteNamedString m out endp name length s n.
(** The same after a test of the first character. *)
Definition write_named_if m out endp (name : list Z) (length : Z) (s : list Z)
  : outcome (list Z * option Z) :=
  c ← ld s 0;
  if truth c then write_named m out endp name length s else Ok (m, out).

Definition RTMP_LEVEL_STATUS : list Z := lit "status".
Definition RTMP_LEVEL_ERROR : list Z := lit "error".

(** * rtmp-netconnection.c *)

Definition rtmp_netconnection_connect m (out bytes transactionId : Z) (connect : rtmp_connect_t)
  : outcome (list Z * option Z) :=
  let endp := out + bytes in
  '(m, out) ← write_string m (Some out) endp (lit "connect");
  '(m, out) ← AMFWriteDouble m out endp transactionId;
  '(m, out) ← AMFWriteObject m out endp;
  '(m, out) ← write_named m out endp (lit "app") 3 (c_app connect);
  '(m, out) ← write_named m out endp (lit "flashVer") 8 (c_flashver connect);
  '(m, out) ← write_named_if m out endp (lit "tcUrl") 5 (c_tcUrl connect);
  '(m, out) ← write_named_if m out endp (lit "swfUrl") 6 (c_swfUrl connect);
  '(m, out) ← write_named_if m out endp (lit "pageUrl") 7 (c_pageUrl connect);
  '(m, out) ← AMFWriteNamedBoolean m out endp (lit "fpad") 4 (c_fpad connect);
  '(m, out) ← AMFWriteNamedDouble m out endp (lit "capabilities") 12 (c_capabilities connect);
  '(m, out) ← AMFWriteNamedDouble m out endp (lit "audioCodecs") 11 (c_audioCodecs connect);
  '(m, out) ← AMFWriteNamedDouble m out endp (lit "videoCodecs") 11 (c_videoCodecs connect);
  '(m, out) ← AMFWriteNamedDouble m out endp (lit "videoFunction") 13 (c_videoFunction connect);
  '(m, out) ← AMFWriteNamedDouble m out endp (lit "objectEncoding") 14 (c_encoding connect);
  '(m, out) ← AMFWriteNamedDouble m out endp (lit "capsEx") 6 RTMP_CAPSEX_RECONNECT;
  AMFWriteObjectEnd m out endp.

Definition rtmp_netconnection_connect_reply m (out bytes transactionId : Z) (fmsver : list Z) (capabilities : Z) (code level description : list Z) (encoding : Z)
  : outcome (list Z * option Z) :=
  let endp := out + bytes in
  '(m, out) ← write_string m (Some out) endp (lit "_result");
  '(m, out) ← AMFWriteDouble m out endp transactionId;
  '(m, out) ← AMFWriteObject m out endp;
  '(m, out) ← write_named m out endp (lit "fmsVer") 6 fmsver;
  '(m, out) ← AMFWriteNamedDouble m out endp (lit "capabilities") 12 capabilities;
  '(m, out) ← AMFWriteObjectEnd m out endp;
  '(m, out) ← AMFWriteObject m out endp;
  '(m, out) ← write_named m out endp (lit "level") 5 level;
  '(m, out) ← write_named m out endp (lit "code") 4 code;
  '(m, out) ← write_named m out endp (lit "description") 11 description;
  '(m, out) ← AMFWriteNamedDouble m out endp (lit "objectEncoding") 14 encoding;
  '(m, out) ← AMFWriteNamedDouble m out endp (lit "capsEx") 6 RTMP_CAPSEX_RECONNECT;
  AMFWriteObjectEnd m out endp.

Definition rtmp_netconnection_create_stream m (out bytes transactionId : Z)
  : outcome (list Z * option Z) :=
  let endp := out + bytes in
  '(m, out) ← write_string m (Some out) endp (lit "createStream");
  '(m, out) ← AMFWriteDouble m out endp transactionId;
  AMFWriteNull m out endp.

Definition rtmp_netconnection_create_stream_reply m (out bytes transactionId : Z) (stream_id : Z)
  : outcome (list Z * option Z) :=
  let endp := out + bytes in
  '(m, out) ← write_string m (Some out) endp (lit "_result");
  '(m, out) ← AMFWriteDouble m out endp transactionId;
  '(m, out) ← AMFWriteNull m out endp;
  AMFWriteDouble m out endp stream_id.

Definition rtmp_netconnection_get_stream_length m (out bytes transactionId : Z) (stream_name : list Z)
  : outcome (list Z * option Z) :=
  let endp := out + bytes in
  '(m, out) ← write_string m (Some out) endp (lit "getStreamLength");
  '(m, out) ← AMFWriteDouble m out endp transactionId;
  '(m, out) ← AMFWriteNull m out endp;
  write_string m out endp stream_name.

Definition rtmp_netconnection_get_stream_length_reply m (out bytes transactionId : Z) (duration : Z)
  : outcome (list Z * option Z) :=
  let endp := out + bytes in
  '(m, out) ← write_string m (Some out) endp (lit "_result");
  '(m, out) ← AMFWriteDouble m out endp transactionId;
  '(m, out) ← AMFWriteNull m out endp;
  AMFWriteDouble m out endp duration.

Definition rtmp_netconnection_error m (out bytes transactionId : Z) (code level description : list Z)
  : outcome (list Z * option Z) :=
  let endp := out + bytes in
  '(m, out) ← write_string m (Some out) endp (lit "_error");
  '(m, out) ← AMFWriteDouble m out endp transactionId;
  '(m, out) ← AMFWriteNull m out endp;
  '(m, out) ← AMFWriteObject m out endp;
  '(m, out) ← write_named m out endp (lit "code") 4 code;
  '(m, out) ← write_named m out endp (lit "level") 5 level;
  '(m, out) ← write_named m out endp (lit "description") 11 description;
  AMFWriteObjectEnd m out endp.

(** * rtmp-netstream.c *)

Definition rtmp_netstream_play m (out bytes transactionId : Z) (name : option (list Z)) (start duration reset : Z)
  : outcome (list Z * option Z) :=
  let endp := out + bytes in
  match name with
  | Some name =>
    '(m, out) ← write_string m (Some out) endp (lit "play");
    '(m, out) ← AMFWriteDouble m out endp transactionId;
    '(m, out) ← AMFWriteNull m out endp;
    '(m, out) ← write_string m out endp name;
    '(m, out) ← AMFWriteDouble m out endp start;
    '(m, out) ← AMFWriteDouble m out endp duration;
    AMFWriteBoolean m out endp (u8 reset)
  | _ => Ok (m, None)
  end.

Definition rtmp_netstream_delete_stream m (out bytes transactionId : Z) (streamId : Z)
  : outcome (list Z * option Z) :=
  let endp := out + bytes in
  '(m, out) ← write_string m (Some out) endp (lit "deleteStream");
  '(m, out) ← AMFWriteDouble m out endp transactionId;
  '(m, out) ← AMFWriteNull m out endp;
  AMFWriteDouble m out endp streamId.

Definition rtmp_netconnection_close_stream m (out bytes transactionId : Z) (streamId : Z)
  : outcome (list Z * option Z) :=
  let endp := out + bytes in
  '(m, out) ← write_string m (Some out) endp (lit "closeStream");
  '(m, out) ← AMFWriteDouble m out endp transactionId;
  '(m, out) ← AMFWriteNull m out endp;
  AMFWriteDouble m out endp streamId.

Definition rtmp_netstream_receive_audio m (out bytes transactionId : Z) (enable : Z)
  : outcome (list Z * option Z) :=
  let endp := out + bytes in
  '(m, out) ← write_string m (Some out) endp (lit "receiveAudio");
  '(m, out) ← AMFWriteDouble m out endp transactionId;
  '(m, out) ← AMFWriteNull m out endp;
  AMFWriteBoolean m out endp (u8 enable).

Definition rtmp_netstream_receive_video m (out bytes transactionId : Z) (enable : Z)
  : outcome (list Z * option Z) :=
  let endp := out + bytes in
  '(m, out) ← write_string m (Some out) endp (lit "receiveVideo");
  '(m, out) ← AMFWriteDouble m out endp transactionId;
  '(m, out) ← AMFWriteNull m out endp;
  AMFWriteBoolean m out endp (u8 enable).

Definition rtmp_netstream_publish m (out bytes transactionId : Z) (stream_name stream_type : option (list Z))
  : outcome (list Z * option Z) :=
  let endp := out + bytes in
  match stream_name, stream_type with
  | Some stream_name, Some stream_type =>
    '(m, out) ← write_string m (Some out) endp (lit "publish");
    '(m, out) ← AMFWriteDouble m out endp transactionId;
    '(m, out) ← AMFWriteNull m out endp;
    '(m, out) ← write_string m out endp stream_name;
    write_string m out endp stream_type
  | _, _ => Ok (m, None)
  end.

Definition rtmp_netstream_seek m (out bytes transactionId : Z) (ms : Z)
  : outcome (list Z * option Z) :=
  let endp := out + bytes in
  '(m, out) ← write_string m (Some out) endp (lit "seek");
  '(m, out) ← AMFWriteDouble m out endp transactionId;
  '(m, out) ← AMFWriteNull m out endp;
  AMFWriteDouble m out endp ms.

Definition rtmp_netstream_pause m (out bytes transactionId : Z) (pause ms : Z)
  : outcome (list Z * option Z) :=
  let endp := out + bytes in
  '(m, out) ← write_string m (Some out) endp (lit "pause");
  '(m, out) ← AMFWriteDouble m out endp transactionId;
  '(m, out) ← AMFWriteNull m out endp;
  '(m, out) ← AMFWriteBoolean m out endp (u8 pause);
  AMFWriteDouble m out endp ms.

Definition rtmp_netstream_release_stream m (out bytes transactionId : Z) (stream_name : list Z)
  : outcome (list Z * option Z) :=
  let endp := out + bytes in
  '(m, out) ← write_string m (Some out) endp (lit "releaseStream");
  '(m, out) ← AMFWriteDouble m out endp transactionId;
  '(m, out) ← AMFWriteNull m out endp;
  write_string m out endp stream_name.

Definition rtmp_netstream_fcpublish m (out bytes transactionId : Z) (stream_name : list Z)
  : outcome (list Z * option Z) :=
  let endp := out + bytes in
  '(m, out) ← write_string m (Some out) endp (lit "FCPublish");
  '(m, out) ← AMFWriteDouble m out endp transactionId;
  '(m, out) ← AMFWriteNull m out endp;
  write_string m out endp stream_name.

Definition rtmp_netstream_fcunpublish m (out bytes transactionId : Z) (stream_name : list Z)
  : outcome (list Z * option Z) :=
  let endp := out + bytes in
  '(m, out) ← write_string m (Some out) endp (lit "FCUnpublish");
  '(m, out) ← AMFWriteDouble m out endp transactionId;
  '(m, out) ← AMFWriteNull m out endp;
  write_string m out endp stream_name.

Definition rtmp_netstream_fcsubscribe m (out bytes transactionId : Z) (subscribepath : list Z)
  : outcome (list Z * option Z) :=
  let endp := out + bytes in
  '(m, out) ← write_string m (Some out) endp (lit "FCSubscribe");
  '(m, out) ← AMFWriteDouble m out endp transactionId;
  '(m, out) ← AMFWriteNull m out endp;
  write_string m out endp subscribepath.

Definition rtmp_netstream_fcunsubscribe m (out bytes transactionId : Z) (subscribepath : list Z)
  : outcome (list Z * option Z) :=
  let endp := out + bytes in
  '(m, out) ← write_string m (Some out) endp (lit "FCUnsubscribe");
  '(m, out) ← AMFWriteDouble m out endp transactionId;
  '(m, out) ← AMFWriteNull m out endp;
  write_string m out endp subscribepath.

Definition rtmp_netstream_onbwdone m (out bytes transactionId : Z) (bandwidth : Z)
  : outcome (list Z * option Z) :=
  let endp := out + bytes in
  '(m, out) ← write_string m (Some out) endp (lit "onBWDone");
  '(m, out) ← AMFWriteDouble m out endp transactionId;
  '(m, out) ← AMFWriteNull m out endp;
  AMFWriteDouble m out endp bandwidth.

Definition rtmp_netstream_checkbw m (out bytes transactionId : Z)
  : outcome (list Z * option Z) :=
  let endp := out + bytes in
  '(m, out) ← write_string m (Some out) endp (lit "_checkbw");
  '(m, out) ← AMFWriteDouble m out endp transactionId;
  AMFWriteNull m out endp.

Definition rtmp_netstream_onstatus m (out bytes transactionId : Z) (level code description : option (list Z))
  : outcome (list Z * option Z) :=
  let endp := out + bytes in
  match level, code, description with
  | Some level, Some code, Some description =>
    '(m, out) ← write_string m (Some out) endp (lit "onStatus");
    '(m, out) ← AMFWriteDouble m out endp transactionId;
    '(m, out) ← AMFWriteNull m out endp;
    '(m, out) ← AMFWriteObject m out endp;
    '(m, out) ← write_named m out endp (lit "level") 5 level;
    '(m, out) ← write_named m out endp (lit "code") 4 code;
    '(m, out) ← write_named m out endp (lit "description") 11 description;
    AMFWriteObjectEnd m out endp
  | _, _, _ => Ok (m, None)
  end.

(** A null string stands for the empty one. *)
Definition or_empty (s : option (list Z)) : list Z := default [0] s.

Definition rtmp_netstream_onreconnect m (out bytes transactionId : Z) (tcurl description : option (list Z))
  : outcome (list Z * option Z) :=
  let endp := out + bytes in
  '(m, out) ← write_string m (Some out) endp (lit "onStatus");
  '(m, out) ← AMFWriteDouble m out endp transactionId;
  '(m, out) ← AMFWriteNull m out endp;
  '(m, out) ← AMFWriteObject m out endp;
  '(m, out) ← write_named m out endp (lit "level") 5 RTMP_LEVEL_STATUS;
  '(m, out) ← AMFWriteNamedString m out endp (lit "code") 4
      (lit "NetConnection.Connect.ReconnectRequest") 39;
  '(m, out) ← write_named m out endp (lit "description") 11 (or_empty description);
  '(m, out) ← write_named m out endp (lit "tcUrl") 5 (or_empty tcurl);
  AMFWriteObjectEnd m out endp.

Definition rtmp_netstream_onconnect_rejected m (out bytes transactionId : Z) (tcurl description : option (list Z))
  : outcome (list Z * option Z) :=
  let endp := out + bytes in
  '(m, out) ← write_string m (Some out) endp (lit "_error");
  '(m, out) ← AMFWriteDouble m out endp transactionId;
  '(m, out) ← AMFWriteNull m out endp;
  '(m, out) ← AMFWriteObject m out endp;
  '(m, out) ← write_named m out endp (lit "level") 5 RTMP_LEVEL_ERROR;
  '(m, out) ← AMFWriteNamedString m out endp (lit "code") 4
      (lit "NetConnection.Connect.Rejected") 31;
  '(m, out) ← write_named m out endp (lit "description") 11 (or_empty description);
  '(m, out) ← AMFWriteNamed m out endp (lit "ex") 2;
  '(m, out) ← AMFWriteObject m out endp;
  '(m, out) ← AMFWriteNamedDouble m out endp (lit "code") 4 DOUBLE_302;
  '(m, out) ← write_named m out endp (lit "redirect") 8 (or_empty tcurl);
  '(m, out) ← AMFWriteObjectEnd m out endp;
  AMFWriteObjectEnd m out endp.

Definition rtmp_netstream_rtmpsampleaccess m (out bytes : Z)
  : outcome (list Z * option Z) :=
  let endp := out + bytes in
  '(m, out) ← write_string m (Some out) endp (lit "|RtmpSampleAccess");
  '(m, out) ← AMFWriteBoolean m out endp 1;
  AMFWriteBoolean m out endp 1.
End Writers.
