(* ===== verification/RtmpCommandSpec.v ===== *)
(** What the command writers of [RtmpCommand] emit.

    [command] lists the messages with their arguments; [command_values] is the
    sequence of AMF0 values each consists of.  The writer of every command
    emits exactly the encoding of its values when the buffer has room. *)
From stdpp Require Import strings.
From S2P Require Import Prelude Amf0 Amf0Spec RtmpCommand.
Open Scope Z_scope.

(** * Strings *)

(** [buf] holds the string [s] and its terminator. *)
Definition is_cstr (s buf : list Z) : Prop := ∃ rest, buf = s ++ 0 :: rest ∧ 0 ∉ s.

Lemma strlen_cstr s buf : is_cstr s buf → strlen buf = Ok (zlen s).
Proof.
  intros (rest & -> & Hs). induction s as [|c s IH]; [done|]. cbn [app strlen].
  apply not_elem_of_cons in Hs as [Hc Hs]. destruct (Z.eqb_spec c 0); [done|].
  rewrite IH by done. run. rewrite zlen_cons. f_equal. lia.
Qed.

Lemma slice_cstr s buf : is_cstr s buf → slice buf 0 (zlen s) = Ok s.
Proof.
  intros (rest & -> & _). pose proof (zlen_nonneg s).
  apply holds_slice; [|done]. apply holds_app_r, holds_whole.
Qed.

Lemma is_cstr_lit s : is_cstr s (s ++ [0]) ↔ 0 ∉ s.
Proof. split; [|intros ?; by exists []]. intros (r & H & Hs). done. Qed.

Lemma lit_cstr s : forallb (λ c, negb (c =? 0)) (chars s) = true → is_cstr (chars s) (lit s).
Proof.
  intros H. exists []. split; [done|]. intros Hin. rewrite forallb_forall in H.
  apply list_elem_of_In, H in Hin. done.
Qed.

(** * Appending to a message

    [at_end m p endp b]: the message at [p] has room for [b]. *)

Definition at_end (m : list Z) (p endp : Z) (b : list Z) : Prop :=
  0 ≤ p ∧ endp ≤ zlen m ∧ p + zlen b ≤ endp.

(** The state of a writer: the bytes [b] were written at [p]. *)
Abbreviation wrote m p b := (put m p b, Some (p + zlen b)).

(** [w], given a pointer into a buffer with room, writes [bs] there. *)
Definition emits (w : list Z → option Z → Z → outcome (list Z * option Z)) (bs : list Z) : Prop :=
  ∀ m p endp, at_end m p endp bs → w m (Some p) endp = Ok (wrote m p bs).

Lemma emits_step w bs (k : list Z * option Z → outcome (list Z * option Z)) R m p endp b :
  emits w bs → at_end m p endp (b ++ bs) → k (wrote m p (b ++ bs)) = R →
  w (put m p b) (Some (p + zlen b)) endp ≫= k = R.
Proof.
  intros Hw (Hp & He & Hr) <-. rewrite zlen_app in Hr.
  pose proof (zlen_nonneg b). pose proof (zlen_nonneg bs).
  rewrite Hw.
  - run. by rewrite put_app, zlen_app, Z.add_assoc by lia.
  - unfold at_end. rewrite zlen_put by lia. lia.
Qed.

Lemma emits_weaken w w' bs : (∀ m p endp, w m p endp = w' m p endp) → emits w bs → emits w' bs.
Proof. intros Hw He m p endp Hm. rewrite <- Hw. by apply He. Qed.

Section Emits.
Ltac room := match goal with H : at_end _ _ _ _ |- _ => destruct H as (? & ? & ?) end.

Lemma with_room_emits m p endp n k bs : at_end m p endp bs → n = zlen bs →
  with_room m (Some p) endp n k = k p.
Proof. intros (? & ? & ?) ->. unfold with_room. destruct (Z.gtb_spec (p + zlen bs) endp); done || lia. Qed.

Lemma AMFWriteNull_emits : emits AMFWriteNull (amf_bytes ANull).
Proof.
  intros m p endp H. unfold AMFWriteNull. rewrite (with_room_emits _ _ _ 1 _ _ H) by done.
  room. change (zlen (amf_bytes ANull)) with 1 in *. by rewrite st_ok by (cbn; llia).
Qed.

Lemma AMFWriteObject_emits : emits AMFWriteObject [AMF_OBJECT].
Proof.
  intros m p endp H. unfold AMFWriteObject. rewrite (with_room_emits _ _ _ 1 _ _ H) by done.
  room. change (zlen [AMF_OBJECT]) with 1 in *. by rewrite st_ok by (cbn; llia).
Qed.

Lemma AMFWriteObjectEnd_emits : emits AMFWriteObjectEnd [0; 0; AMF_OBJECT_END].
Proof.
  intros m p endp H. unfold AMFWriteObjectEnd. rewrite (with_room_emits _ _ _ 3 _ _ H) by done.
  room. change (zlen [0; 0; AMF_OBJECT_END]) with 3 in *. by rewrite st_ok by (cbn; llia).
Qed.

(** [value ? 1 : 0] *)
Definition norm_bool (v : Z) : Z := if 0 =? v then 0 else 1.

Lemma AMFWriteBoolean_emits v : emits (λ m p e, AMFWriteBoolean m p e v) (amf_bytes (ABoolean (norm_bool v))).
Proof.
  intros m p endp H. unfold AMFWriteBoolean. rewrite (with_room_emits _ _ _ 2 _ _ H) by done.
  room. change (zlen (amf_bytes _)) with 2 in *. by rewrite st_ok by (cbn; llia).
Qed.

Lemma double_bytes v : [double_byte v 7; double_byte v 6; double_byte v 5; double_byte v 4;
  double_byte v 3; double_byte v 2; double_byte v 1; double_byte v 0] = be_bytes 8 v.
Proof.
  unfold double_byte, u8. cbn [be_bytes].
  rewrite !Z.shiftr_div_pow2 by lia. by_cells ltac:(reflexivity).
Qed.

Lemma AMFWriteDouble_emits v : emits (λ m p e, AMFWriteDouble m p e v) (amf_bytes (ANumber v)).
Proof.
  intros m p endp H. unfold AMFWriteDouble. rewrite (with_room_emits _ _ _ 9 _ _ H) by done.
  room. change (zlen (amf_bytes _)) with 9 in *. rewrite double_bytes.
  rewrite st_ok by (cbn; llia). run. rewrite st_ok by llia. run. f_equal. f_equal.
  by apply (put_app m p [AMF_NUMBER]); [|cbn; llia].
Qed.

(** The length word and the characters. *)
Lemma AMFWriteString16_emits string n s : slice string 0 n = Ok s → n = zlen s → n < 65536 →
  emits (λ m p e, AMFWriteString16 m p e string n) (be_bytes 2 n ++ s).
Proof.
  intros Hs -> Hn m p endp H. unfold AMFWriteString16, AMFWriteInt16. cbn [deref]. run.
  room. rewrite zlen_app, zlen_be_bytes in *. pose proof (zlen_nonneg s).
  destruct (Z.gtb_spec (p + 2 + zlen s) endp); [lia|]. destruct (Z.gtb_spec (p + 2) endp); [lia|].
  assert ([u8 (Z.shiftr (u16 (zlen s)) 8); u8 (Z.land (u16 (zlen s)) 255)] = be_bytes 2 (zlen s)) as ->.
  { rewrite be_bytes_2, u16_id by (unfold is_uint; dlia). by_cells ltac:(masks; unfold u8; dlia). }
  rewrite st_ok by llia. run. cbn [deref]. run. rewrite Hs. run.
  rewrite st_ok by llia. run. f_equal. f_equal; [by apply (put_app_at m p (p + 2)); llia|f_equal; llia].
Qed.

Lemma AMFWriteString_emits string n s : slice string 0 n = Ok s → n = zlen s → n < 65536 →
  emits (λ m p e, AMFWriteString m p e string n) (amf_bytes (AString s)).
Proof.
  intros Hs Hn Hlt m p endp H. unfold AMFWriteString. pose proof (zlen_nonneg s).
  destruct (Z.ltb_spec n 65536); [|lia].
  change (amf_bytes (AString s)) with ([AMF_STRING] ++ be_bytes 2 (zlen s) ++ s) in *.
  rewrite (with_room_emits _ _ _ _ _ _ H) by llia. unfold UINT32_MAX.
  destruct (Z.gtb_spec n 4294967295); [lia|]. room.
  rewrite !zlen_app, zlen_be_bytes in *. change (zlen [AMF_STRING]) with 1 in *.
  rewrite st_ok by (cbn; llia). run.
  rewrite (AMFWriteString16_emits string n s Hs Hn Hlt) by (unfold at_end; subst n; llia). run.
  subst n. f_equal. f_equal; [|f_equal; llia].
  by apply (put_app m p [AMF_STRING]); [|cbn; llia].
Qed.

Lemma write_string_emits buf s : is_cstr s buf → zlen s < 65536 →
  emits (λ m p e, write_string m p e buf) (amf_bytes (AString s)).
Proof.
  intros Hb Hn m p endp H. unfold write_string. rewrite (strlen_cstr _ _ Hb). run.
  by apply AMFWriteString_emits; [apply slice_cstr|..].
Qed.

(** A named value. *)
Definition prop_of (k : list Z) (v : amf) : list Z := prop_bytes k (amf_type v) (amf_body v).

Lemma prop_of_app k v : prop_of k v = (be_bytes 2 (zlen k) ++ k) ++ amf_bytes v.
Proof. unfold prop_of, prop_bytes. by rewrite <- app_assoc. Qed.

Lemma named_emits name n k v w test : slice name 0 n = Ok k → n = zlen k → n < 65536 →
  test ≤ zlen (amf_bytes v) → emits w (amf_bytes v) →
  emits (λ m ptr endp, p ← deref ptr;
      if p + n + 2 + test >? endp then Ok (m, None) else
      '(m, ptr) ← AMFWriteString16 m ptr endp name n;
      match ptr with Some _ => w m ptr endp | None => Ok (m, None) end) (prop_of k v).
Proof.
  intros Hk Hn Hlt Ht Hw m p endp H. cbn [deref]. run. rewrite prop_of_app in *.
  pose proof H as (? & ? & Hr). rewrite !zlen_app, zlen_be_bytes in Hr.
  pose proof (zlen_nonneg k). pose proof (zlen_nonneg (amf_bytes v)).
  destruct (Z.gtb_spec (p + n + 2 + test) endp); [lia|].
  rewrite (AMFWriteString16_emits name n k) by (done || (unfold at_end; llia)). run.
  rewrite Hn, Hw; [|unfold at_end; rewrite zlen_put by llia; llia].
  f_equal. f_equal; [apply put_app; llia|f_equal; llia].
Qed.

Lemma AMFWriteNamedDouble_emits name n k v : slice name 0 n = Ok k → n = zlen k → n < 65536 →
  emits (λ m p e, AMFWriteNamedDouble m p e name n v) (prop_of k (ANumber v)).
Proof.
  intros. eapply emits_weaken; [|eapply (named_emits name n k (ANumber v) _ 9);
    [done|done|done|by change (zlen _) with 9|apply AMFWriteDouble_emits]].
  intros m [p|] endp; [|done]. unfold AMFWriteNamedDouble. cbn [deref]. run.
  by replace (p + n + 2 + 8 + 1) with (p + n + 2 + 9) by lia.
Qed.

Lemma AMFWriteNamedBoolean_emits name n k v : slice name 0 n = Ok k → n = zlen k → n < 65536 →
  emits (λ m p e, AMFWriteNamedBoolean m p e name n v) (prop_of k (ABoolean (norm_bool v))).
Proof.
  intros. eapply (named_emits name n k (ABoolean (norm_bool v)) _ 2);
    [done|done|done|by change (zlen _) with 2|apply AMFWriteBoolean_emits].
Qed.

Lemma AMFWriteNamedString_emits name n k string n2 s : slice name 0 n = Ok k → n = zlen k →
  n < 65536 → slice string 0 n2 = Ok s → n2 = zlen s → n2 < 65536 →
  emits (λ m p e, AMFWriteNamedString m p e name n string n2) (prop_of k (AString s)).
Proof.
  intros Hk Hn Hlt Hs Hn2 Hlt2.
  eapply emits_weaken; [|eapply (named_emits name n k (AString s) _ (n2 + 3));
    [done|done|done| |by apply (AMFWriteString_emits string n2 s)]].
  - intros m [p|] endp; [|done]. unfold AMFWriteNamedString. cbn [deref]. run.
    by replace (p + n + 2 + (n2 + 3)) with (p + n + 2 + n2 + 3) by lia.
  - change (amf_bytes (AString s)) with ([AMF_STRING] ++ be_bytes 2 (zlen s) ++ s). cbn. llia.
Qed.

Lemma write_named_emits name n k buf s : slice name 0 n = Ok k → n = zlen k → n < 65536 →
  is_cstr s buf → zlen s < 65536 →
  emits (λ m p e, write_named m p e name n buf) (prop_of k (AString s)).
Proof.
  intros Hk Hn Hlt Hb Hs m p endp H. unfold write_named. rewrite (strlen_cstr _ _ Hb). run.
  by apply (AMFWriteNamedString_emits name n k); [..|apply slice_cstr|done|done|done].
Qed.

(** A member that is written unless it is empty. *)
Definition opt_prop (k s : list Z) : list (list Z * amf) :=
  match s with [] => [] | _ => [(k, AString s)] end.
Definition props_of (props : list (list Z * amf)) : list Z :=
  concat (map (λ '(k, v), prop_of k v) props).

Lemma write_named_if_emits name n k buf s : slice name 0 n = Ok k → n = zlen k → n < 65536 →
  is_cstr s buf → zlen s < 65536 →
  emits (λ m p e, write_named_if m p e name n buf) (props_of (opt_prop k s)).
Proof.
  intros Hk Hn Hlt Hb Hs m p endp H. unfold write_named_if.
  pose proof Hb as (rest & -> & Hz). destruct s as [|c s].
  - change (ld ([] ++ 0 :: rest) 0) with (Ok 0). run. cbn [truth Z.eqb negb].
    change (props_of (opt_prop k [])) with (@nil Z). change (zlen (@nil Z)) with 0.
    unfold put. cbn [app length]. by rewrite Nat.add_0_r, take_drop, Z.add_0_r.
  - change (ld ((c :: s) ++ 0 :: rest) 0) with (Ok c). run.
    apply not_elem_of_cons in Hz as [? _]. unfold truth. destruct (Z.eqb_spec c 0); [done|]. cbn [negb].
    unfold props_of, opt_prop in *. cbn [map concat] in *. rewrite app_nil_r in *.
    by apply (write_named_emits name n k ((c :: s) ++ 0 :: rest) (c :: s)).
Qed.
End Emits.

(** * The commands *)

(** The characters before the terminator. *)
Fixpoint cstr (buf : list Z) : list Z :=
  match buf with
  | [] => []
  | c :: buf => if c =? 0 then [] else c :: cstr buf
  end.

Lemma cstr_spec buf : 0 ∈ buf → is_cstr (cstr buf) buf.
Proof.
  induction buf as [|c buf IH]; [by intros ?%elem_of_nil|]. intros H. cbn [cstr].
  destruct (Z.eqb_spec c 0) as [->|Hc]; [by exists buf; split; [|apply not_elem_of_nil]|].
  apply elem_of_cons in H as [?|H]; [congruence|]. destruct (IH H) as (rest & He & Hn).
  exists rest. split; [by cbn; rewrite <- He|]. by apply not_elem_of_cons.
Qed.

(** A string argument: terminated, bytes, and short enough for its length
    field. *)
Definition string_ok (buf : list Z) : Prop := 0 ∈ buf ∧ bytes_ok buf ∧ zlen (cstr buf) < 65536.

(** Messages by their arguments; a string argument is its buffer. *)
Inductive command :=
  | Connect (connect : rtmp_connect_t)
  | ConnectReply (fmsver : list Z) (capabilities : Z) (code level description : list Z) (encoding : Z)
  | CreateStream
  | CreateStreamReply (stream_id : Z)
  | GetStreamLength (stream_name : list Z)
  | GetStreamLengthReply (duration : Z)
  | Error (code level description : list Z)
  | Play (name : list Z) (start duration reset : Z)
  | DeleteStream (stream_id : Z)
  | CloseStream (stream_id : Z)
  | ReceiveAudio (enable : Z)
  | ReceiveVideo (enable : Z)
  | Publish (stream_name stream_type : list Z)
  | Seek (ms : Z)
  | Pause (pause ms : Z)
  | ReleaseStream (stream_name : list Z)
  | FCPublish (stream_name : list Z)
  | FCUnpublish (stream_name : list Z)
  | FCSubscribe (subscribepath : list Z)
  | FCUnsubscribe (subscribepath : list Z)
  | OnBWDone (bandwidth : Z)
  | CheckBW
  | OnStatus (level code description : list Z).

Definition write_message (c : command) (m : list Z) (out bytes tid : Z)
  : outcome (list Z * option Z) :=
  match c with
  | Connect connect => rtmp_netconnection_connect m out bytes tid connect
  | ConnectReply fmsver capabilities code level description encoding =>
      rtmp_netconnection_connect_reply m out bytes tid fmsver capabilities code level description encoding
  | CreateStream => rtmp_netconnection_create_stream m out bytes tid
  | CreateStreamReply id => rtmp_netconnection_create_stream_reply m out bytes tid id
  | GetStreamLength name => rtmp_netconnection_get_stream_length m out bytes tid name
  | GetStreamLengthReply d => rtmp_netconnection_get_stream_length_reply m out bytes tid d
  | Error code level description => rtmp_netconnection_error m out bytes tid code level description
  | Play name start duration reset => rtmp_netstream_play m out bytes tid (Some name) start duration reset
  | DeleteStream id => rtmp_netstream_delete_stream m out bytes tid id
  | CloseStream id => rtmp_netconnection_close_stream m out bytes tid id
  | ReceiveAudio enable => rtmp_netstream_receive_audio m out bytes tid enable
  | ReceiveVideo enable => rtmp_netstream_receive_video m out bytes tid enable
  | Publish name type => rtmp_netstream_publish m out bytes tid (Some name) (Some type)
  | Seek ms => rtmp_netstream_seek m out bytes tid ms
  | Pause pause ms => rtmp_netstream_pause m out bytes tid pause ms
  | ReleaseStream name => rtmp_netstream_release_stream m out bytes tid name
  | FCPublish name => rtmp_netstream_fcpublish m out bytes tid name
  | FCUnpublish name => rtmp_netstream_fcunpublish m out bytes tid name
  | FCSubscribe path => rtmp_netstream_fcsubscribe m out bytes tid path
  | FCUnsubscribe path => rtmp_netstream_fcunsubscribe m out bytes tid path
  | OnBWDone bandwidth => rtmp_netstream_onbwdone m out bytes tid bandwidth
  | CheckBW => rtmp_netstream_checkbw m out bytes tid
  | OnStatus level code description =>
      rtmp_netstream_onstatus m out bytes tid (Some level) (Some code) (Some description)
  end.

(** The values of a message after its name and transaction id. *)
Definition str (buf : list Z) : amf := AString (cstr buf).
Definition bool_value (v : Z) : amf := ABoolean (norm_bool (u8 v)).
Definition info_object (level code description : list Z) : amf :=
  AObject [(chars "level", str level); (chars "code", str code); (chars "description", str description)].
Definition connect_object (c : rtmp_connect_t) : amf :=
  AObject ([(chars "app", str (c_app c)); (chars "flashVer", str (c_flashver c))]
    ++ opt_prop (chars "tcUrl") (cstr (c_tcUrl c)) ++ opt_prop (chars "swfUrl") (cstr (c_swfUrl c))
    ++ opt_prop (chars "pageUrl") (cstr (c_pageUrl c))
    ++ [(chars "fpad", ABoolean (norm_bool (c_fpad c)));
        (chars "capabilities", ANumber (c_capabilities c));
        (chars "audioCodecs", ANumber (c_audioCodecs c));
        (chars "videoCodecs", ANumber (c_videoCodecs c));
        (chars "videoFunction", ANumber (c_videoFunction c));
        (chars "objectEncoding", ANumber (c_encoding c));
        (chars "capsEx", ANumber RTMP_CAPSEX_RECONNECT)]).

Definition command_name (c : command) : string :=
  match c with
  | Connect _ => "connect"
  | ConnectReply _ _ _ _ _ _ | CreateStreamReply _ | GetStreamLengthReply _ => "_result"
  | CreateStream => "createStream"
  | GetStreamLength _ => "getStreamLength"
  | Error _ _ _ => "_error"
  | Play _ _ _ _ => "play"
  | DeleteStream _ => "deleteStream"
  | CloseStream _ => "closeStream"
  | ReceiveAudio _ => "receiveAudio"
  | ReceiveVideo _ => "receiveVideo"
  | Publish _ _ => "publish"
  | Seek _ => "seek"
  | Pause _ _ => "pause"
  | ReleaseStream _ => "releaseStream"
  | FCPublish _ => "FCPublish"
  | FCUnpublish _ => "FCUnpublish"
  | FCSubscribe _ => "FCSubscribe"
  | FCUnsubscribe _ => "FCUnsubscribe"
  | OnBWDone _ => "onBWDone"
  | CheckBW => "_checkbw"
  | OnStatus _ _ _ => "onStatus"
  end%string.

Definition command_args (c : command) : list amf :=
  match c with
  | Connect connect => [connect_object connect]
  | ConnectReply fmsver capabilities code level description encoding =>
      [AObject [(chars "fmsVer", str fmsver); (chars "capabilities", ANumber capabilities)];
       AObject [(chars "level", str level); (chars "code", str code);
                (chars "description", str description);
                (chars "objectEncoding", ANumber encoding);
                (chars "capsEx", ANumber RTMP_CAPSEX_RECONNECT)]]
  | CreateStream | CheckBW => [ANull]
  | CreateStreamReply v | GetStreamLengthReply v | DeleteStream v | CloseStream v | Seek v
  | OnBWDone v => [ANull; ANumber v]
  | GetStreamLength s | ReleaseStream s | FCPublish s | FCUnpublish s | FCSubscribe s
  | FCUnsubscribe s => [ANull; str s]
  | Error code level description =>
      [ANull; AObject [(chars "code", str code); (chars "level", str level);
                       (chars "description", str description)]]
  | Play name start duration reset =>
      [ANull; str name; ANumber start; ANumber duration; bool_value reset]
  | ReceiveAudio enable | ReceiveVideo enable => [ANull; bool_value enable]
  | Publish name type => [ANull; str name; str type]
  | Pause pause ms => [ANull; bool_value pause; ANumber ms]
  | OnStatus level code description => [ANull; info_object level code description]
  end.

Definition command_values (tid : Z) (c : command) : list amf :=
  AString (chars (command_name c)) :: ANumber tid :: command_args c.

(** The string arguments of a message. *)
Definition command_strings (c : command) : list (list Z) :=
  match c with
  | Connect c => [c_app c; c_flashver c; c_tcUrl c; c_swfUrl c; c_pageUrl c]
  | ConnectReply fmsver _ code level description _ => [fmsver; code; level; description]
  | GetStreamLength s | ReleaseStream s | FCPublish s | FCUnpublish s | FCSubscribe s
  | FCUnsubscribe s | Play s _ _ _ => [s]
  | Error a b c | OnStatus a b c => [a; b; c]
  | Publish a b => [a; b]
  | _ => []
  end.

Definition emits_message (c : command) : Prop := ∀ m out bytes tid,
  at_end m out (out + bytes) (amf_seq (command_values tid c)) →
  write_message c m out bytes tid = Ok (wrote m out (amf_seq (command_values tid c))).

Lemma at_end_prefix m p endp total b rest : at_end m p endp total → total = b ++ rest →
  at_end m p endp b.
Proof.
  intros (? & ? & ?) ->. pose proof (zlen_nonneg rest). rewrite zlen_app in *. unfold at_end. lia.
Qed.

Lemma emits_last w bs R m p endp b : emits w bs → at_end m p endp (b ++ bs) →
  Ok (wrote m p (b ++ bs)) = R → w (put m p b) (Some (p + zlen b)) endp = R.
Proof.
  intros Hw He HR. rewrite <- (emits_step w bs Ok R m p endp b Hw He HR).
  by destruct (w _ _ _).
Qed.

Lemma emits_start w bs (k : list Z * option Z → outcome (list Z * option Z)) R m p endp :
  emits w bs → at_end m p endp bs → k (wrote m p bs) = R → w m (Some p) endp ≫= k = R.
Proof. intros Hw He <-. by rewrite Hw. Qed.

Lemma amf_object_bytes props :
  amf_bytes (AObject props) = [AMF_OBJECT] ++ props_of props ++ [0; 0; AMF_OBJECT_END].
Proof. done. Qed.
Lemma props_of_app a b : props_of (a ++ b) = props_of a ++ props_of b.
Proof. unfold props_of. by rewrite map_app, concat_app. Qed.
Lemma props_of_cons k v a : props_of ((k, v) :: a) = prop_of k v ++ props_of a.
Proof. done. Qed.

(** Room for what is written next, out of the room for the whole message. *)
Ltac room_from H := eapply at_end_prefix; [exact H|rewrite <- ?app_assoc; reflexivity].

Ltac cstring := first [by apply lit_cstr | by apply cstr_spec].
Ltac writer := first
  [ eapply AMFWriteNull_emits | eapply AMFWriteObject_emits | eapply AMFWriteObjectEnd_emits
  | eapply AMFWriteDouble_emits | eapply AMFWriteBoolean_emits
  | eapply AMFWriteNamedDouble_emits; reflexivity
  | eapply AMFWriteNamedBoolean_emits; reflexivity
  | eapply write_string_emits; [cstring|done]
  | eapply write_named_emits; [reflexivity|reflexivity|done|cstring|done]
  | eapply write_named_if_emits; [reflexivity|reflexivity|done|cstring|done] ].

(** The writer at the head of the goal, as a function of the buffer. *)
Ltac writer_fun x tac := lazymatch x with
  | write_string _ _ _ ?b => tac (λ m p e, write_string m p e b)
  | write_named _ _ _ ?k ?n ?b => tac (λ m p e, write_named m p e k n b)
  | write_named_if _ _ _ ?k ?n ?b => tac (λ m p e, write_named_if m p e k n b)
  | AMFWriteBoolean _ _ _ ?v => tac (λ m p e, AMFWriteBoolean m p e v)
  | AMFWriteDouble _ _ _ ?v => tac (λ m p e, AMFWriteDouble m p e v)
  | AMFWriteNamedDouble _ _ _ ?k ?n ?v => tac (λ m p e, AMFWriteNamedDouble m p e k n v)
  | AMFWriteNamedBoolean _ _ _ ?k ?n ?v => tac (λ m p e, AMFWriteNamedBoolean m p e k n v)
  | ?f _ _ _ => tac f
  end.

Ltac emit H := lazymatch goal with
  | |- ?x ≫= _ = _ => writer_fun x ltac:(fun w => first
      [ eapply (emits_step w); [writer|room_from H|]
      | eapply (emits_start w); [writer|room_from H|] ])
  | |- ?x = _ => writer_fun x ltac:(fun w =>
      eapply (emits_last w);
        [writer|rewrite <- ?app_assoc; exact H|rewrite <- ?app_assoc; reflexivity])
  end.

Lemma write_message_emits c : Forall string_ok (command_strings c) → emits_message c.
Proof.
  intros Hs m out bytes tid H. unfold command_values, amf_seq in *.
  destruct c; cbn [command_args command_name map concat] in *;
    unfold connect_object, info_object, bool_value, str in *;
    rewrite ?amf_object_bytes, ?props_of_cons, ?props_of_app, ?props_of_cons in *;
    change (props_of []) with (@nil Z) in *; rewrite ?app_nil_r, <- ?app_assoc in *;
    cbn [command_strings] in Hs;
    repeat match type of Hs with Forall _ (_ :: _) => apply Forall_cons_1 in Hs as [(? & ? & ?) Hs] end;
    cbn [write_message].
  all: [> unfold rtmp_netconnection_connect | unfold rtmp_netconnection_connect_reply
    | unfold rtmp_netconnection_create_stream | unfold rtmp_netconnection_create_stream_reply
    | unfold rtmp_netconnection_get_stream_length | unfold rtmp_netconnection_get_stream_length_reply
    | unfold rtmp_netconnection_error | unfold rtmp_netstream_play | unfold rtmp_netstream_delete_stream
    | unfold rtmp_netconnection_close_stream | unfold rtmp_netstream_receive_audio
    | unfold rtmp_netstream_receive_video | unfold rtmp_netstream_publish | unfold rtmp_netstream_seek
    | unfold rtmp_netstream_pause | unfold rtmp_netstream_release_stream
    | unfold rtmp_netstream_fcpublish | unfold rtmp_netstream_fcunpublish
    | unfold rtmp_netstream_fcsubscribe | unfold rtmp_netstream_fcunsubscribe
    | unfold rtmp_netstream_onbwdone | unfold rtmp_netstream_checkbw | unfold rtmp_netstream_onstatus ].
  all: repeat emit H.
Qed.

(** The message that tells a player it may read the samples. *)
Lemma rtmpsampleaccess_emits m out bytes :
  let values := [AString (chars "|RtmpSampleAccess"); ABoolean 1; ABoolean 1] in
  at_end m out (out + bytes) (amf_seq values) →
  rtmp_netstream_rtmpsampleaccess m out bytes = Ok (wrote m out (amf_seq values)).
Proof.
  intros values H. unfold values, amf_seq in *. cbn [map concat] in *. rewrite ?app_nil_r in *.
  unfold rtmp_netstream_rtmpsampleaccess. repeat emit H.
Qed.
