(* ===== verification/RtmpInvoke.v ===== *)
(** RTMP command messages received:
    src/third/ireader/librtmp/source/rtmp-invoke-handler.c and
    include/rtmp-client-invoke-handler.h.

    A handler declares its variables as a store, reads the message into them
    with [amf_read_items] and calls back.  A callback receives the session
    itself, because [param] is the object that contains it; a null function
    pointer is [None].  [indeterminate] is the value of an uninitialized
    variable. *)
From stdpp Require Import strings.
From S2P Require Import Prelude RtmpInternal Amf0 RtmpCommand.
Open Scope Z_scope.

(** * The callbacks of [struct rtmp_t] *)

Record rtmp_callbacks (P : Type) := RtmpCallbacks {
  onaudio : rtmp_t P → list Z → Z → outcome (Z * rtmp_t P);
  onvideo : rtmp_t P → list Z → Z → outcome (Z * rtmp_t P);
  onscript : rtmp_t P → list Z → Z → outcome (Z * rtmp_t P);
  onabort : rtmp_t P → Z → outcome (rtmp_t P);
  server_onconnect : option (rtmp_t P → Z → Z → rtmp_connect_t → outcome (Z * rtmp_t P));
  server_oncreate_stream : option (rtmp_t P → Z → Z → outcome (Z * rtmp_t P));
  server_onplay : option (rtmp_t P → Z → Z → list Z → Z → Z → Z → outcome (Z * rtmp_t P));
  server_ondelete_stream : option (rtmp_t P → Z → Z → Z → outcome (Z * rtmp_t P));
  server_onreceive_audio : option (rtmp_t P → Z → Z → Z → outcome (Z * rtmp_t P));
  server_onreceive_video : option (rtmp_t P → Z → Z → Z → outcome (Z * rtmp_t P));
  server_onpublish : option (rtmp_t P → Z → Z → list Z → list Z → outcome (Z * rtmp_t P));
  server_onseek : option (rtmp_t P → Z → Z → Z → outcome (Z * rtmp_t P));
  server_onpause : option (rtmp_t P → Z → Z → Z → Z → outcome (Z * rtmp_t P));
  server_onget_stream_length : option (rtmp_t P → Z → Z → list Z → outcome (Z * rtmp_t P));
  client_onconnect : option (rtmp_t P → outcome (Z * rtmp_t P));
  client_oncreate_stream : option (rtmp_t P → Z → outcome (Z * rtmp_t P));
  client_onnotify : option (rtmp_t P → Z → outcome (Z * rtmp_t P));
  client_oneof : option (rtmp_t P → Z → outcome (Z * rtmp_t P));
  client_onping : option (rtmp_t P → Z → outcome (Z * rtmp_t P));
  client_onbandwidth : option (rtmp_t P → outcome (Z * rtmp_t P));
  client_onreconnect : option (rtmp_t P → list Z → list Z → outcome (Z * rtmp_t P))
}.
Arguments onaudio {P}. Arguments onvideo {P}. Arguments onscript {P}. Arguments onabort {P}.
Arguments server_onconnect {P}. Arguments server_oncreate_stream {P}. Arguments server_onplay {P}.
Arguments server_ondelete_stream {P}. Arguments server_onreceive_audio {P}.
Arguments server_onreceive_video {P}. Arguments server_onpublish {P}. Arguments server_onseek {P}.
Arguments server_onpause {P}. Arguments server_onget_stream_length {P}.
Arguments client_onconnect {P}. Arguments client_oncreate_stream {P}.
Arguments client_onnotify {P}. Arguments client_oneof {P}. Arguments client_onping {P}.
Arguments client_onbandwidth {P}. Arguments client_onreconnect {P}.

Definition RTMP_ENCODING_AMF_0 : Z := 0.
Definition N_STREAM_NAME : Z := 256.
Definition RTMP_NOTIFY_START : Z := 1.
Definition RTMP_NOTIFY_STOP : Z := 2.
Definition RTMP_NOTIFY_PAUSE : Z := 3.
Definition RTMP_NOTIFY_SEEK : Z := 4.
Definition RTMP_TRANSACTION_CONNECT : Z := 1.
Definition RTMP_TRANSACTION_CREATE_STREAM : Z := 2.
Definition RTMP_TRANSACTION_GET_STREAM_LENGTH : Z := 3.

(** * Variables *)

(** Double constants: -1.0, -2.0 and 0.0. *)
Definition DOUBLE_M1 : Z := 13830554455654793216.
Definition DOUBLE_M2 : Z := 13835058055282163712.
Definition DOUBLE_0 : Z := 0.

Definition char_var (n : Z) : list Z := replicate (Z.to_nat n) 0.
Definition double_var (bits : Z) : list Z := rev (be_bytes 8 bits).
Definition u8_var (v : Z) : list Z := [v].

Definition get_double (σ : store) (k : Z) : outcome Z :=
  v ← ld σ k; Ok (be_val (rev v)).
Definition get_u8 (σ : store) (k : Z) : outcome Z :=
  v ← ld σ k; ld v 0.

(** The integer part of a finite double. *)
Definition double_trunc (bits : Z) : option Z :=
  let e := Z.land (Z.shiftr bits 52) 2047 in
  let f := Z.land bits (2 ^ 52 - 1) in
  if e =? 2047 then None else
  let m := if e =? 0 then f else f + 2 ^ 52 in
  let ex := (if e =? 0 then 1 else e) - 1075 in
  let a := if ex >=? 0 then m * 2 ^ ex else m / 2 ^ (- ex) in
  Some (if Z.testbit bits 63 then - a else a).

(** Conversion to an integer type of the range [lo, hi]: undefined outside. *)
Definition double_to_int (lo hi bits : Z) : outcome Z :=
  match double_trunc bits with
  | Some v => if (lo <=? v) && (v <=? hi) then Ok v else Ub
  | None => Ub
  end.

(** The double equal to an integer below 2^53. *)
Definition double_of_uint (v : Z) : Z :=
  if v =? 0 then 0 else
  let e := Z.log2 v in (e + 1023) * 2 ^ 52 + (v - 2 ^ e) * 2 ^ (52 - e).

(** [0 == strcasecmp(a, b)] *)
Definition tolower (c : Z) : Z := if (65 <=? c) && (c <=? 90) then c + 32 else c.
Fixpoint strcaseeq (a b : list Z) : outcome bool :=
  match a, b with
  | x :: a, y :: b =>
      if tolower x =? tolower y then if x =? 0 then Ok true else strcaseeq a b else Ok false
  | _, _ => Ub
  end.

(** [0 == strcasecmp(a, b1) || 0 == strcasecmp(a, b2) || ...] *)
Fixpoint strcase_any (a : list Z) (l : list (list Z)) : outcome bool :=
  match l with
  | [] => Ok false
  | b :: l => e ← strcaseeq a b; if (e : bool) then Ok true else strcase_any a l
  end.

Definition item (type : Z) (name : string) (value : amf_value_t) (size : Z) : amf_object_item_t :=
  AmfItem type (Some (lit name)) value size.
Definition command_item : amf_object_item_t := item AMF_OBJECT "command" ValueNull 0.

(** [f ? f(...) : otherwise] *)
Definition call {F A} (f : option F) (otherwise : Z) (t : A) (run : F → outcome (Z * A))
  : outcome (Z * A) :=
  match f with Some f => run f | None => Ok (otherwise, t) end.

Section Invoke.
Context {P : Type}.
Variable indeterminate : Z.
Variable cb : rtmp_callbacks P.

(** [amf_read_items(data, data + bytes, items, count) ? 0 : -1] *)
Definition read_args (error : Z) (m : list Z) (data bytes : Z) (items : list amf_object_item_t)
    (σ : store) : outcome (Z * store) :=
  '(ptr, σ) ← amf_read_items indeterminate m data (data + bytes) items (zlen items) σ;
  Ok (match ptr with Some _ => 0 | None => error end, σ).

(** * rtmp-invoke-handler.c *)

Definition connect_fourccs : list amf_object_item_t :=
  map (λ i, AmfItem AMF_STRING None (ValueVar (9 + Z.of_nat i)) 5) (seq 0 16).
Definition connect_commands : list amf_object_item_t :=
  [item AMF_STRING "app" (ValueVar 0) 128;
   item AMF_STRING "flashver" (ValueVar 1) 32;
   item AMF_STRING "tcUrl" (ValueVar 2) 256;
   item AMF_BOOLEAN "fpad" (ValueVar 3) 1;
   item AMF_NUMBER "audioCodecs" (ValueVar 4) 8;
   item AMF_NUMBER "videoCodecs" (ValueVar 5) 8;
   item AMF_NUMBER "videoFunction" (ValueVar 6) 8;
   item AMF_NUMBER "objectEncoding" (ValueVar 7) 8;
   item AMF_NUMBER "capsEx" (ValueVar 8) 8;
   item AMF_STRICT_ARRAY "fourCcList" (ValueItems connect_fourccs) 16].
Definition connect_items : list amf_object_item_t :=
  [item AMF_OBJECT "command" (ValueItems connect_commands) 10].
Definition connect_vars : store :=
  [char_var 128; char_var 32; char_var 256; u8_var 0; double_var DOUBLE_0; double_var DOUBLE_0;
   double_var DOUBLE_0; double_var RTMP_ENCODING_AMF_0; double_var DOUBLE_0]
  ++ replicate 16 (char_var 5).

Definition rtmp_command_onconnect (t : rtmp_t P) (transaction : Z) (m : list Z) (data bytes : Z)
  : outcome (Z * rtmp_t P) :=
  '(r, σ) ← read_args (-1) m data bytes connect_items connect_vars;
  app ← ld σ 0; flashver ← ld σ 1; tcUrl ← ld σ 2; fpad ← get_u8 σ 3;
  audioCodecs ← get_double σ 4; videoCodecs ← get_double σ 5; videoFunction ← get_double σ 6;
  encoding ← get_double σ 7; capsEx ← get_double σ 8;
  fourCcList ← slice σ 9 16;
  let connect := RtmpConnect app flashver (char_var 256) tcUrl fpad DOUBLE_0 audioCodecs
    videoCodecs videoFunction encoding (char_var 256) capsEx fourCcList in
  call (server_onconnect cb) (-1) t (λ f, f t r transaction connect).

Definition rtmp_command_oncreate_stream (t : rtmp_t P) (transaction : Z) (m : list Z)
    (data bytes : Z) : outcome (Z * rtmp_t P) :=
  '(r, _) ← read_args (-1) m data bytes [command_item] [];
  call (server_oncreate_stream cb) (-1) t (λ f, f t r transaction).

Definition rtmp_command_onplay (t : rtmp_t P) (transaction : Z) (m : list Z) (data bytes : Z)
  : outcome (Z * rtmp_t P) :=
  '(r, σ) ← read_args (-1) m data bytes
    [command_item;
     item AMF_STRING "stream" (ValueVar 0) N_STREAM_NAME;
     item AMF_NUMBER "start" (ValueVar 1) 8;
     item AMF_NUMBER "duration" (ValueVar 2) 8;
     item AMF_BOOLEAN "reset" (ValueVar 3) 1]
    [char_var N_STREAM_NAME; double_var DOUBLE_M2; double_var DOUBLE_M1; u8_var 0];
  stream_name ← ld σ 0; start ← get_double σ 1; duration ← get_double σ 2; reset ← get_u8 σ 3;
  call (server_onplay cb) (-1) t (λ f, f t r transaction stream_name start duration reset).

Definition rtmp_command_ondelete_stream (t : rtmp_t P) (transaction : Z) (m : list Z)
    (data bytes : Z) : outcome (Z * rtmp_t P) :=
  '(r, σ) ← read_args (-1) m data bytes
    [command_item; item AMF_NUMBER "streamId" (ValueVar 0) 8] [double_var DOUBLE_0];
  stream_id ← get_double σ 0;
  call (server_ondelete_stream cb) (-1) t (λ f, f t r transaction stream_id).

Definition rtmp_command_onreceive_audio (t : rtmp_t P) (transaction : Z) (m : list Z)
    (data bytes : Z) : outcome (Z * rtmp_t P) :=
  '(r, σ) ← read_args (-1) m data bytes
    [command_item; item AMF_BOOLEAN "receiveAudio" (ValueVar 0) 1] [u8_var 1];
  receiveAudio ← get_u8 σ 0;
  call (server_onreceive_audio cb) (-1) t (λ f, f t r transaction receiveAudio).

Definition rtmp_command_onreceive_video (t : rtmp_t P) (transaction : Z) (m : list Z)
    (data bytes : Z) : outcome (Z * rtmp_t P) :=
  '(r, σ) ← read_args (-1) m data bytes
    [command_item; item AMF_BOOLEAN "receiveVideo" (ValueVar 0) 1] [u8_var 1];
  receiveVideo ← get_u8 σ 0;
  call (server_onreceive_video cb) (-1) t (λ f, f t r transaction receiveVideo).

Definition rtmp_command_onpublish (t : rtmp_t P) (transaction : Z) (m : list Z) (data bytes : Z)
  : outcome (Z * rtmp_t P) :=
  '(r, σ) ← read_args (-1) m data bytes
    [command_item;
     item AMF_STRING "name" (ValueVar 0) N_STREAM_NAME;
     item AMF_STRING "type" (ValueVar 1) 18]
    [char_var N_STREAM_NAME; char_var 18];
  stream_name ← ld σ 0; stream_type ← ld σ 1;
  call (server_onpublish cb) (-1) t (λ f, f t r transaction stream_name stream_type).

Definition rtmp_command_onseek (t : rtmp_t P) (transaction : Z) (m : list Z) (data bytes : Z)
  : outcome (Z * rtmp_t P) :=
  '(r, σ) ← read_args (-1) m data bytes
    [command_item; item AMF_NUMBER "milliSeconds" (ValueVar 0) 8] [double_var DOUBLE_0];
  milliSeconds ← get_double σ 0;
  call (server_onseek cb) (-1) t (λ f, f t r transaction milliSeconds).

Definition rtmp_command_onpause (t : rtmp_t P) (transaction : Z) (m : list Z) (data bytes : Z)
  : outcome (Z * rtmp_t P) :=
  '(r, σ) ← read_args (-1) m data bytes
    [command_item;
     item AMF_BOOLEAN "pause" (ValueVar 0) 1;
     item AMF_NUMBER "milliSeconds" (ValueVar 1) 8]
    [u8_var 0; double_var DOUBLE_0];
  pause ← get_u8 σ 0; milliSeconds ← get_double σ 1;
  call (server_onpause cb) (-1) t (λ f, f t r transaction pause milliSeconds).

(** [items] has three elements, of which two are assigned. *)
Definition rtmp_command_onget_stream_length (t : rtmp_t P) (transaction : Z) (m : list Z)
    (data bytes : Z) : outcome (Z * rtmp_t P) :=
  '(r, σ) ← read_args (-1) m data bytes
    [command_item; item AMF_STRING "playpath" (ValueVar 0) N_STREAM_NAME; AmfUninit]
    [char_var N_STREAM_NAME];
  stream_name ← ld σ 0;
  call (server_onget_stream_length cb) (-1) t (λ f, f t r transaction stream_name).

(** * rtmp-client-invoke-handler.h *)

(** [struct rtmp_result_t]: code, level and description are the variables 0, 1
    and 2. *)
Definition result_vars : store := [char_var 64; char_var 8; char_var 256].
Definition result_items : list amf_object_item_t :=
  [item AMF_STRING "code" (ValueVar 0) 64;
   item AMF_STRING "level" (ValueVar 1) 8;
   item AMF_STRING "description" (ValueVar 2) 256].

Definition rtmp_command_onconnect_reply (m : list Z) (data bytes : Z) : outcome Z :=
  '(r, _) ← read_args EINVAL m data bytes
    [item AMF_OBJECT "Properties"
       (ValueItems [item AMF_STRING "fmsVer" (ValueVar 3) 64;
                    item AMF_NUMBER "capabilities" (ValueVar 4) 8]) 2;
     item AMF_OBJECT "Information" (ValueItems result_items) 3]
    (result_vars ++ [char_var 64; double_var DOUBLE_0]);
  Ok r.

Definition rtmp_command_oncreate_stream_reply (m : list Z) (data bytes : Z) : outcome (Z * Z) :=
  '(r, σ) ← read_args EINVAL m data bytes
    [command_item; item AMF_NUMBER "streamId" (ValueVar 0) 8] [double_var DOUBLE_0];
  stream_id ← get_double σ 0;
  Ok (r, stream_id).

Definition rtmp_command_onresult (t : rtmp_t P) (transaction : Z) (m : list Z) (data bytes : Z)
  : outcome (Z * rtmp_t P) :=
  id ← double_to_int 0 UINT32_MAX transaction;
  if id =? RTMP_TRANSACTION_CONNECT then
    r ← rtmp_command_onconnect_reply m data bytes;
    if 0 =? r then call (client_onconnect cb) (-1) t (λ f, f t) else Ok (r, t)
  else if id =? RTMP_TRANSACTION_CREATE_STREAM then
    '(r, stream_id) ← rtmp_command_oncreate_stream_reply m data bytes;
    if 0 =? r then call (client_oncreate_stream cb) (-1) t (λ f, f t stream_id) else Ok (r, t)
  else if id =? RTMP_TRANSACTION_GET_STREAM_LENGTH then
    '(r, _) ← rtmp_command_oncreate_stream_reply m data bytes;
    Ok (r, t)
  else Ok (0, t).

(** [sizeof(struct amf_object_item_t)] *)
Definition SIZEOF_AMF_ITEM : Z := 32.

(** The size given for "ex" is [sizeof(redirect)], the bytes of its two items. *)
Definition onstatus_items : list amf_object_item_t :=
  [command_item;
   item AMF_OBJECT "information"
     (ValueItems (result_items ++
        [item AMF_STRING "tcUrl" (ValueVar 3) 256;
         item AMF_OBJECT "ex"
           (ValueItems [item AMF_NUMBER "code" (ValueVar 4) 8;
                        item AMF_STRING "redirect" (ValueVar 3) 256]) (2 * SIZEOF_AMF_ITEM)])) 5].
Definition onstatus_vars : store := result_vars ++ [char_var 256; double_var DOUBLE_0].

(** A notification, whose result is ignored. *)
Definition notify (t : rtmp_t P) (event : Z) : outcome (rtmp_t P) :=
  '(_, t) ← call (client_onnotify cb) 0 t (λ f, f t event); Ok t.

Definition rtmp_command_onstatus (t : rtmp_t P) (transaction : Z) (m : list Z) (data bytes : Z)
  : outcome (Z * rtmp_t P) :=
  '(ptr, σ) ← amf_read_items indeterminate m data (data + bytes) onstatus_items 2 onstatus_vars;
  match ptr with
  | None => Ok (- EINVAL, t)
  | Some _ =>
      code ← ld σ 0; level ← ld σ 1; description ← ld σ 2; tcurl ← ld σ 3;
      status ← get_double σ 4;
      let finish (t : rtmp_t P) :=
        e ← streq RTMP_LEVEL_ERROR level; Ok (if e : bool then -1 else 0, t) in
      start ← strcase_any code
        [lit "NetStream.Play.Start"; lit "NetStream.Record.Start"; lit "NetStream.Publish.Start"];
      if (start : bool) then (t ← notify t RTMP_NOTIFY_START; finish t) else
      seek ← strcaseeq code (lit "NetStream.Seek.Notify");
      if (seek : bool) then (t ← notify t RTMP_NOTIFY_SEEK; finish t) else
      pause ← strcaseeq code (lit "NetStream.Pause.Notify");
      if (pause : bool) then (t ← notify t RTMP_NOTIFY_PAUSE; finish t) else
      unpause ← strcaseeq code (lit "NetStream.Unpause.Notify");
      if (unpause : bool) then (t ← notify t RTMP_NOTIFY_START; finish t) else
      reset ← strcaseeq code (lit "NetStream.Play.Reset");
      if (reset : bool) then finish t else
      stop ← strcase_any code
        [lit "NetStream.Play.Stop"; lit "NetStream.Record.Stop"; lit "NetStream.Play.Complete"];
      if (stop : bool) then (t ← notify t RTMP_NOTIFY_STOP; finish t) else
      publish ← strcase_any code
        [lit "NetStream.Play.PublishNotify"; lit "NetStream.Play.UnpublishNotify"];
      if (publish : bool) then finish t else
      failed ← strcase_any code
        [lit "NetConnection.Connect.InvalidApp"; lit "NetStream.Connect.IllegalApplication";
         lit "NetStream.Publish.AlreadyExistStream"; lit "NetStream.Failed";
         lit "NetStream.Play.Failed"; lit "NetStream.Play.StreamNotFound"];
      if (failed : bool) then Ok (-1, t) else
      reconnect ← strcaseeq code (lit "NetConnection.Connect.ReconnectRequest");
      redirected ←
        (if (reconnect : bool) then Ok true else
           v ← double_to_int (- 2 ^ 31) (2 ^ 31 - 1) status;
           if 302 =? v then strcaseeq code (lit "NetConnection.Connect.Rejected") else Ok false);
      if (redirected : bool) then
        call (client_onreconnect cb) 0 t (λ f, f t tcurl description)
      else Ok (0, t)
  end.

(** * The dispatcher *)

Definition s_command_handler
  : list (list Z * (rtmp_t P → Z → list Z → Z → Z → outcome (Z * rtmp_t P))) :=
  [(lit "_result", rtmp_command_onresult);
   (lit "_error", rtmp_command_onstatus);
   (lit "onStatus", rtmp_command_onstatus);
   (lit "connect", rtmp_command_onconnect);
   (lit "createStream", rtmp_command_oncreate_stream);
   (lit "play", rtmp_command_onplay);
   (lit "deleteStream", rtmp_command_ondelete_stream);
   (lit "receiveAudio", rtmp_command_onreceive_audio);
   (lit "receiveVideo", rtmp_command_onreceive_video);
   (lit "publish", rtmp_command_onpublish);
   (lit "seek", rtmp_command_onseek);
   (lit "pause", rtmp_command_onpause);
   (lit "getStreamLength", rtmp_command_onget_stream_length)].

Fixpoint dispatch
    (l : list (list Z * (rtmp_t P → Z → list Z → Z → Z → outcome (Z * rtmp_t P))))
    (command : list Z) (t : rtmp_t P) (transaction : Z) (m : list Z) (data bytes : Z)
  : outcome (Z * rtmp_t P) :=
  match l with
  | [] => Ok (0, t)
  | (name, handler) :: l =>
      same ← streq command name;
      if (same : bool) then handler t transaction m data bytes
      else dispatch l command t transaction m data bytes
  end.

Definition invoke_items : list amf_object_item_t :=
  [item AMF_STRING "command" (ValueVar 0) 64; item AMF_NUMBER "transactionId" (ValueVar 1) 8].
Definition invoke_vars : store := [char_var 64; double_var DOUBLE_M1].

(** [data] is an offset into the message [m]. *)
Definition rtmp_invoke_handler (t : rtmp_t P) (header : rtmp_chunk_header_t) (m : list Z)
    (data : Z) : outcome (Z * rtmp_t P) :=
  let endp := data + h_length header in
  '(ptr, σ) ← amf_read_items indeterminate m data endp invoke_items 2 invoke_vars;
  match ptr with
  | None => Ok (- EINVAL, t)
  | Some data =>
      command ← ld σ 0; transaction ← get_double σ 1;
      if DOUBLE_M1 =? transaction then Ok (0, t)
      else dispatch s_command_handler command t transaction m data (u32 (s32 (endp - data)))
  end.
End Invoke.
