(* ===== verification/RtmpInvokeSpec.v ===== *)
(** Command messages end to end: what a command built by [RtmpCommand] makes
    [rtmp_invoke_handler] do at the other side. *)
From stdpp Require Import strings.
From S2P Require Import Prelude RtmpInternal Amf0 Amf0Spec RtmpCommand RtmpCommandSpec RtmpInvoke.
Open Scope Z_scope.

(** * Variables after reading *)

(** A [char[n]] that was zero, after reading the string [s]: a string that
    does not fit leaves it empty. *)
Definition string_var (n : Z) (s : list Z) : list Z :=
  if zlen s <? n then put (char_var n) 0 (s ++ [0]) else char_var n.

Lemma zlen_char_var n : 0 ≤ n → zlen (char_var n) = n.
Proof. intros. unfold zlen, char_var. rewrite length_replicate. lia. Qed.

Lemma poke_at (σ : store) k o bs v : 0 ≤ k → σ !! Z.to_nat k = Some v → 0 ≤ o →
  o + zlen bs ≤ zlen v → poke σ k o bs = Ok (<[Z.to_nat k := put v o bs]> σ).
Proof.
  intros Hk Hv Ho Hb. unfold poke. rewrite (ld_lookup σ k v) by done. run.
  rewrite st_ok by done. run. pose proof (lookup_lt_Some _ _ _ Hv).
  rewrite st_ok by (change (zlen [put v o bs]) with 1; unfold zlen; lia). f_equal.
  unfold put at 1. by rewrite insert_take_drop, Nat.add_1_r by done.
Qed.

Lemma put_string_var (σ : store) k n s : 0 ≤ k → 0 < n → σ !! Z.to_nat k = Some (char_var n) →
  put_string σ (Some k) n s = Ok (<[Z.to_nat k := string_var n s]> σ).
Proof.
  intros Hk Hn Hv. pose proof (zlen_nonneg s). pose proof (lookup_lt_Some _ _ _ Hv).
  pose proof (zlen_char_var n). unfold put_string, string_var.
  destruct (Z.gtb_spec n (zlen s)), (Z.ltb_spec (zlen s) n); try lia.
  - rewrite (poke_at σ k 0 s _ Hk Hv) by lia. run.
    erewrite poke_at; [|done|by rewrite list_lookup_insert_eq|done|rewrite zlen_put by lia; llia].
    f_equal. rewrite list_insert_insert_eq. f_equal. apply (put_app_at _ 0); lia.
  - destruct (Z.gtb_spec n 0); [|lia]. rewrite (poke_at σ k 0 [0] _ Hk Hv) by (cbn; llia).
    f_equal. f_equal. unfold char_var. destruct (Z.to_nat n) eqn:E; [lia|done].
Qed.

Lemma assign_double (σ : store) k bits w : 0 ≤ k → σ !! Z.to_nat k = Some (double_var w) →
  assign σ (Some k) 0 (rev (be_bytes 8 bits)) = Ok (<[Z.to_nat k := double_var bits]> σ).
Proof. intros Hk Hv. cbn [assign]. by rewrite (poke_at σ k 0 _ _ Hk Hv). Qed.

Lemma assign_u8 (σ : store) k b w : 0 ≤ k → σ !! Z.to_nat k = Some (u8_var w) →
  assign σ (Some k) 0 [b] = Ok (<[Z.to_nat k := u8_var b]> σ).
Proof. intros Hk Hv. cbn [assign]. by rewrite (poke_at σ k 0 _ _ Hk Hv). Qed.

Lemma get_double_var (σ : store) k bits : ld σ k = Ok (double_var bits) → is_uint 64 bits →
  get_double σ k = Ok bits.
Proof.
  intros Hk Hb. unfold get_double. rewrite Hk. run. unfold double_var.
  rewrite rev_involutive, be_val_bytes by done. done.
Qed.

Lemma get_u8_var (σ : store) k v : ld σ k = Ok (u8_var v) → get_u8 σ k = Ok v.
Proof. intros Hk. unfold get_u8. by rewrite Hk. Qed.

(** The values of a command at the items of its handler. *)
Lemma put_number i items count σ bits vs name k n w :
  ld items i = Ok (AmfItem AMF_NUMBER name (ValueVar k) n) → 0 ≤ k →
  σ !! Z.to_nat k = Some (double_var w) →
  put_values i items (S count) (ANumber bits :: vs) σ =
  put_values (i + 1) items count vs (<[Z.to_nat k := double_var bits]> σ).
Proof.
  intros Hi Hk Hv. cbn [put_values]. rewrite Hi. cbn -[rev be_bytes assign put_values Z.add].
  by rewrite (assign_double σ k bits w).
Qed.

Lemma put_boolean i items count σ b vs name k n w :
  ld items i = Ok (AmfItem AMF_BOOLEAN name (ValueVar k) n) → 0 ≤ k →
  σ !! Z.to_nat k = Some (u8_var w) →
  put_values i items (S count) (ABoolean b :: vs) σ =
  put_values (i + 1) items count vs (<[Z.to_nat k := u8_var b]> σ).
Proof.
  intros Hi Hk Hv. cbn [put_values]. rewrite Hi. cbn -[assign put_values Z.add].
  by rewrite (assign_u8 σ k b w).
Qed.

Lemma put_text i items count σ s vs name k n :
  ld items i = Ok (AmfItem AMF_STRING name (ValueVar k) n) → 0 ≤ k → 0 < n →
  σ !! Z.to_nat k = Some (char_var n) →
  put_values i items (S count) (AString s :: vs) σ =
  put_values (i + 1) items count vs (<[Z.to_nat k := string_var n s]> σ).
Proof.
  intros Hi Hk Hn Hv. cbn [put_values]. rewrite Hi. cbn -[put_string put_values Z.add].
  by rewrite (put_string_var σ k n s).
Qed.

Lemma put_null i items count σ vs name n :
  ld items i = Ok (AmfItem AMF_OBJECT name ValueNull n) →
  put_values i items (S count) (ANull :: vs) σ = put_values (i + 1) items count vs σ.
Proof. intros Hi. cbn [put_values]. by rewrite Hi. Qed.

(** Members of the connect object at the items of its handler: [find] is the
    search of the name among the items. *)
Section Members.
Variables (items : list amf_object_item_t) (n : Z).
Abbreviation find k type := (amf_find_item (Z.to_nat n) 0 items k 0 (zlen k) type).
Abbreviation put_all := (put_props amf_put items n).

Lemma put_member_number k bits props σ name j sz w :
  find k AMF_NUMBER = Ok (Some (AmfItem AMF_NUMBER name (ValueVar j) sz)) → 0 ≤ j →
  σ !! Z.to_nat j = Some (double_var w) →
  put_all ((k, ANumber bits) :: props) σ = put_all props (<[Z.to_nat j := double_var bits]> σ).
Proof.
  intros Hf Hj Hv. cbn [put_props amf_type]. rewrite Hf. cbn -[put_props assign rev be_bytes].
  by rewrite (assign_double σ j bits w).
Qed.

Lemma put_member_boolean k b props σ name j sz w :
  find k AMF_BOOLEAN = Ok (Some (AmfItem AMF_BOOLEAN name (ValueVar j) sz)) → 0 ≤ j →
  σ !! Z.to_nat j = Some (u8_var w) →
  put_all ((k, ABoolean b) :: props) σ = put_all props (<[Z.to_nat j := u8_var b]> σ).
Proof.
  intros Hf Hj Hv. cbn [put_props amf_type]. rewrite Hf. cbn -[put_props assign].
  by rewrite (assign_u8 σ j b w).
Qed.

Lemma put_member_text k s props σ name j sz :
  find k AMF_STRING = Ok (Some (AmfItem AMF_STRING name (ValueVar j) sz)) → 0 ≤ j → 0 < sz →
  σ !! Z.to_nat j = Some (char_var sz) →
  put_all ((k, AString s) :: props) σ = put_all props (<[Z.to_nat j := string_var sz s]> σ).
Proof.
  intros Hf Hj Hsz Hv. cbn [put_props amf_type]. rewrite Hf. cbn -[put_props put_string].
  by rewrite (put_string_var σ j sz s).
Qed.

(** An empty string is not sent, and its variable is empty all the same. *)
Lemma put_member_opt k s props σ name j sz :
  find k AMF_STRING = Ok (Some (AmfItem AMF_STRING name (ValueVar j) sz)) → 0 ≤ j → 0 < sz →
  σ !! Z.to_nat j = Some (char_var sz) →
  put_all (opt_prop k s ++ props) σ = put_all props (<[Z.to_nat j := string_var sz s]> σ).
Proof.
  intros Hf Hj Hsz Hv. destruct s as [|c s].
  - cbn [opt_prop app]. f_equal. symmetry. apply list_insert_id.
    rewrite Hv. f_equal. unfold string_var. change (zlen []) with 0.
    destruct (Z.ltb_spec 0 sz); [|lia]. unfold char_var.
    destruct (Z.to_nat sz) eqn:E; [lia|done].
  - by apply (put_member_text k (c :: s) props σ name).
Qed.

Lemma put_member_skip k v props σ : find k (amf_type v) = Ok None →
  (∀ σ, amf_put v None σ = Ok σ) → put_all ((k, v) :: props) σ = put_all props σ.
Proof. intros Hf Hv. cbn [put_props]. rewrite Hf. run. by rewrite Hv. Qed.

Lemma put_opt_skip k s props σ : find k AMF_STRING = Ok None →
  put_all (opt_prop k s ++ props) σ = put_all props σ.
Proof.
  intros Hf. destruct s as [|c s]; [done|]. by apply (put_member_skip k (AString (c :: s))).
Qed.
End Members.

(** The handler chosen for the name. *)
Ltac eval_dispatch := repeat match goal with
  | |- context [streq ?a ?b] =>
      let v := eval vm_compute in (streq a b) in change (streq a b) with v; run
  end.

Section Commands.
Context {P : Type}.
Variables (indeterminate : Z) (cb : rtmp_callbacks P).

Lemma read_args_values error m data args items σ σ' matched : Forall amf_ok args →
  holds m data (amf_seq args) →
  put_values 0 items (length items) args σ = Ok (matched, σ') →
  read_args indeterminate error m data (zlen (amf_seq args)) items σ
  = Ok (if matched then 0 else error, σ').
Proof.
  intros Hok Hm Hp. unfold read_args, amf_read_items.
  change (Z.to_nat (zlen items)) with (Z.to_nat (Z.of_nat (length items))). rewrite Nat2Z.id.
  rewrite (read_items_loop_values indeterminate items args) by done. rewrite Hp. run.
  by destruct matched.
Qed.

(** A well-formed command message is dispatched by its name. *)
Lemma invoke_dispatch t header name tid args m : Forall amf_ok args →
  zlen name < 64 → bytes_ok name → is_uint 64 tid → tid ≠ DOUBLE_M1 →
  m = amf_seq (AString name :: ANumber tid :: args) → zlen m < 2 ^ 31 → h_length header = zlen m →
  rtmp_invoke_handler indeterminate cb t header m 0
  = dispatch (s_command_handler indeterminate cb) (string_var 64 name) t tid m
      (zlen m - zlen (amf_seq args)) (zlen (amf_seq args)).
Proof.
  intros Hok Hn Hnb Htid Hne Hm Hlen Hh. unfold rtmp_invoke_handler, amf_read_items.
  pose proof (zlen_nonneg name). pose proof (zlen_nonneg (amf_seq args)).
  set (vs := AString name :: ANumber tid :: args). fold vs in Hm.
  assert (Forall amf_ok vs) as Hvs.
  { subst vs. do 2 (constructor; [cbn; first [done|split; [lia|done]]|]). done. }
  rewrite (read_items_loop_values indeterminate invoke_items vs);
    [|done|rewrite Hm; apply holds_whole|rewrite <- Hm; lia|cbn; lia].
  subst vs. change (Z.to_nat 2) with 2%nat.
  rewrite (put_text 0 _ _ _ _ _ (Some (lit "command")) 0 64) by done.
  rewrite (put_number (0 + 1) _ _ _ _ _ (Some (lit "transactionId")) 1 8 DOUBLE_M1) by done.
  cbn [put_values]. run. change (Z.to_nat 0) with 0%nat. change (Z.to_nat 1) with 1%nat.
  cbn [insert list_insert invoke_vars].
  change (ld [string_var 64 name; double_var tid] 0) with (Ok (string_var 64 name)). run.
  rewrite (get_double_var [string_var 64 name; double_var tid] 1 tid) by done. run.
  destruct (Z.eqb_spec DOUBLE_M1 tid); [congruence|].
  assert (zlen m = zlen (amf_seq (take 2 (AString name :: ANumber tid :: args)))
                   + zlen (amf_seq args)) as Hz.
  { subst m. cbn [take]. rewrite !amf_seq_cons. change (amf_seq []) with (@nil Z).
    change (zlen (amf_seq (@nil amf))) with 0. llia. }
  f_equal; [lia|]. rewrite Hh, Hz.
  replace (0 + (_ + _) - _) with (zlen (amf_seq args)) by lia.
  pose proof (zlen_nonneg (amf_seq (take 2 (AString name :: ANumber tid :: args)))).
  unfold u32, s32. dlia.
Qed.

(** * What a server does with a command *)

(** The connect request as the server receives it. *)
Definition received_connect (c : rtmp_connect_t) : rtmp_connect_t :=
  RtmpConnect (string_var 128 (cstr (c_app c))) (char_var 32) (char_var 256)
    (string_var 256 (cstr (c_tcUrl c))) (norm_bool (c_fpad c)) DOUBLE_0 (c_audioCodecs c)
    (c_videoCodecs c) (c_videoFunction c) (c_encoding c) (char_var 256) RTMP_CAPSEX_RECONNECT
    (replicate 16 (char_var 5)).

(** What a string variable of [n] bytes holds after a string has been read into it:
    the string, or nothing when it does not fit. *)
Definition fitted (n : Z) (s : list Z) : list Z := if zlen s <? n then s else [].

Lemma cstr_app s k : 0 ∉ s → cstr (s ++ 0 :: k) = s.
Proof.
  induction s as [|b s IH]; [done|]. intros [Hb Hs]%not_elem_of_cons. cbn [app cstr]. destruct (Z.eqb_spec b 0); [congruence|]. by rewrite IH.
Qed.
Lemma cstr_char_var n : 0 < n → cstr (char_var n) = [].
Proof. intros Hn. unfold char_var. destruct (Z.to_nat n) eqn:E; [lia|done]. Qed.
Lemma cstr_no_zero buf : 0 ∉ cstr buf.
Proof.
  induction buf as [|b buf IH]; [apply not_elem_of_nil|]. cbn [cstr]. destruct (Z.eqb_spec b 0); [apply not_elem_of_nil|]. by apply not_elem_of_cons.
Qed.
Lemma string_var_holds n buf : 0 < n → cstr (string_var n (cstr buf)) = fitted n (cstr buf).
Proof.
  intros Hn. unfold string_var, fitted. destruct (zlen (cstr buf) <? n); [|by apply cstr_char_var].
  unfold put. change (Z.to_nat 0) with 0%nat. rewrite take_0. cbn [app]. rewrite <- app_assoc. apply cstr_app, cstr_no_zero.
Qed.

(** Of a connect request the application, the URL, the numbers and the flag arrive;
    its other strings and the capabilities do not: the name "flashVer" is not the
    one the server looks for, and it looks for no "swfUrl", "pageUrl" and
    "capabilities". *)
Definition connect_arrives (c c' : rtmp_connect_t) : Prop :=
  cstr (c_app c') = fitted 128 (cstr (c_app c)) ∧ cstr (c_tcUrl c') = fitted 256 (cstr (c_tcUrl c)) ∧
  c_fpad c' = norm_bool (c_fpad c) ∧ c_audioCodecs c' = c_audioCodecs c ∧ c_videoCodecs c' = c_videoCodecs c ∧
  c_videoFunction c' = c_videoFunction c ∧ c_encoding c' = c_encoding c ∧ c_capsEx c' = RTMP_CAPSEX_RECONNECT ∧
  cstr (c_flashver c') = [] ∧ cstr (c_swfUrl c') = [] ∧ cstr (c_pageUrl c') = [] ∧ c_capabilities c' = DOUBLE_0.

Lemma received_arrives c : connect_arrives c (received_connect c).
Proof. unfold connect_arrives, received_connect. cbn. rewrite !string_var_holds by done. by split_and!. Qed.

(** The callback a command leads to; messages the server has no handler for
    are ignored. *)
Definition server_call (t : rtmp_t P) (tid : Z) (c : command)
  : option (outcome (Z * rtmp_t P)) :=
  match c with
  | Connect connect => Some (call (server_onconnect cb) (-1) t (λ f, f t 0 tid (received_connect connect)))
  | CreateStream => Some (call (server_oncreate_stream cb) (-1) t (λ f, f t 0 tid))
  | GetStreamLength name =>
      Some (call (server_onget_stream_length cb) (-1) t (λ f, f t 0 tid (string_var 256 (cstr name))))
  | Play name start duration reset =>
      Some (call (server_onplay cb) (-1) t
        (λ f, f t 0 tid (string_var 256 (cstr name)) start duration (norm_bool (u8 reset))))
  | DeleteStream id => Some (call (server_ondelete_stream cb) (-1) t (λ f, f t 0 tid id))
  | ReceiveAudio v => Some (call (server_onreceive_audio cb) (-1) t (λ f, f t 0 tid (norm_bool (u8 v))))
  | ReceiveVideo v => Some (call (server_onreceive_video cb) (-1) t (λ f, f t 0 tid (norm_bool (u8 v))))
  | Publish name type =>
      Some (call (server_onpublish cb) (-1) t
        (λ f, f t 0 tid (string_var 256 (cstr name)) (string_var 18 (cstr type))))
  | Seek ms => Some (call (server_onseek cb) (-1) t (λ f, f t 0 tid ms))
  | Pause pause ms =>
      Some (call (server_onpause cb) (-1) t (λ f, f t 0 tid (norm_bool (u8 pause)) ms))
  | CloseStream _ | ReleaseStream _ | FCPublish _ | FCUnpublish _ | FCSubscribe _ | FCUnsubscribe _
  | OnBWDone _ | CheckBW => Some (Ok (0, t))
  | _ => None
  end.

Definition delivers (c : command) : Prop := ∀ t header tid m result,
  Forall amf_ok (command_values tid c) → tid ≠ DOUBLE_M1 →
  m = amf_seq (command_values tid c) → zlen m < 2 ^ 31 → h_length header = zlen m →
  server_call t tid c = Some result →
  rtmp_invoke_handler indeterminate cb t header m 0 = result.

Lemma invoke_args t header name tid args m handler :
  zlen name < 64 → bytes_ok name → is_uint 64 tid → tid ≠ DOUBLE_M1 → Forall amf_ok args →
  m = amf_seq (AString name :: ANumber tid :: args) → zlen m < 2 ^ 31 → h_length header = zlen m →
  (∀ data, holds m data (amf_seq args) →
     dispatch (s_command_handler indeterminate cb) (string_var 64 name) t tid m
       data (zlen (amf_seq args)) = handler) →
  rtmp_invoke_handler indeterminate cb t header m 0 = handler.
Proof.
  intros Hn Hnb Htid Hne Hok Hm Hlen Hh Hd.
  rewrite (invoke_dispatch t header name tid args m) by done.
  apply Hd. assert (m = (amf_bytes (AString name) ++ amf_bytes (ANumber tid)) ++ amf_seq args) as ->.
  { rewrite Hm. unfold amf_seq. cbn [map concat]. by rewrite app_assoc. }
  pose proof (holds_whole ((amf_bytes (AString name) ++ amf_bytes (ANumber tid)) ++ amf_seq args)) as H.
  apply holds_app in H as [_ H]. by rewrite zlen_app, Z.add_simpl_r.
Qed.

Lemma invoke_arguments t header tid c m handler : Forall amf_ok (command_values tid c) →
  tid ≠ DOUBLE_M1 → m = amf_seq (command_values tid c) → zlen m < 2 ^ 31 →
  h_length header = zlen m →
  (∀ data, holds m data (amf_seq (command_args c)) →
     dispatch (s_command_handler indeterminate cb) (string_var 64 (chars (command_name c))) t tid m
       data (zlen (amf_seq (command_args c))) = handler) →
  rtmp_invoke_handler indeterminate cb t header m 0 = handler.
Proof.
  intros Hok Hne Hm Hlen Hh Hd. apply Forall_cons_1 in Hok as [Hname Hok].
  apply Forall_cons_1 in Hok as [Htid Hok].
  apply (invoke_args t header (chars (command_name c)) tid (command_args c) m); try done.
  - by destruct c.
  - apply Hname.
Qed.

(** The store after reading a connect object. *)
Definition connect_store (c : rtmp_connect_t) : store :=
  [string_var 128 (cstr (c_app c)); char_var 32; string_var 256 (cstr (c_tcUrl c));
   u8_var (norm_bool (c_fpad c)); double_var (c_audioCodecs c); double_var (c_videoCodecs c);
   double_var (c_videoFunction c); double_var (c_encoding c); double_var RTMP_CAPSEX_RECONNECT]
  ++ replicate 16 (char_var 5).

Lemma put_connect c :
  put_values 0 connect_items 1 [connect_object c] connect_vars = Ok (true, connect_store c).
Proof.
  cbn [put_values connect_items]. change (ld _ 0) with (Ok (item AMF_OBJECT "command" (ValueItems connect_commands) 10)).
  run. change (item_type _) with (Ok AMF_OBJECT). run.
  change (amf_read_item_type_check (amf_type (connect_object c)) AMF_OBJECT) with true. cbn [negb].
  unfold connect_object, str. cbn [amf_put item item_items item_size]. run. cbn [app].
  erewrite put_member_text by first [reflexivity | done].
  rewrite put_member_skip by first [reflexivity | done].
  erewrite put_member_opt by first [reflexivity | done].
  do 2 rewrite put_opt_skip by reflexivity.
  erewrite put_member_boolean by first [reflexivity | done].
  rewrite put_member_skip by first [reflexivity | done].
  do 5 erewrite put_member_number by first [reflexivity | done].
  reflexivity.
Qed.

(** The numbers of a connect object are doubles. *)
Lemma connect_numbers c : amf_ok (connect_object c) →
  is_uint 64 (c_audioCodecs c) ∧ is_uint 64 (c_videoCodecs c) ∧ is_uint 64 (c_videoFunction c) ∧
  is_uint 64 (c_encoding c).
Proof.
  intros H. unfold connect_object in H. apply props_ok_forall in H.
  do 4 apply Forall_app in H as [_ H].
  do 2 apply Forall_cons_1 in H as [_ H].
  apply Forall_cons_1 in H as [(_ & _ & H1) H]. apply Forall_cons_1 in H as [(_ & _ & H2) H].
  apply Forall_cons_1 in H as [(_ & _ & H3) H]. apply Forall_cons_1 in H as [(_ & _ & H4) H].
  done.
Qed.

Lemma read_connect c t tid m data : amf_ok (connect_object c) →
  holds m data (amf_seq [connect_object c]) →
  rtmp_command_onconnect indeterminate cb t tid m data (zlen (amf_seq [connect_object c]))
  = call (server_onconnect cb) (-1) t (λ f, f t 0 tid (received_connect c)).
Proof.
  intros Hok Hd. destruct (connect_numbers c Hok) as (? & ? & ? & ?).
  unfold rtmp_command_onconnect.
  rewrite (read_args_values _ _ _ _ _ _ (connect_store c) true); [|by apply Forall_singleton|done|apply put_connect].
  run. change (ld (connect_store c) 0) with (Ok (string_var 128 (cstr (c_app c)))).
  change (ld (connect_store c) 1) with (Ok (char_var 32)).
  change (ld (connect_store c) 2) with (Ok (string_var 256 (cstr (c_tcUrl c)))). run.
  rewrite (get_u8_var _ 3 (norm_bool (c_fpad c))) by reflexivity. run.
  rewrite (get_double_var _ 4 (c_audioCodecs c)) by done. run.
  rewrite (get_double_var _ 5 (c_videoCodecs c)) by done. run.
  rewrite (get_double_var _ 6 (c_videoFunction c)) by done. run.
  rewrite (get_double_var _ 7 (c_encoding c)) by done. run.
  rewrite (get_double_var _ 8 RTMP_CAPSEX_RECONNECT) by done. run.
  change (slice (connect_store c) 9 16) with (Ok (replicate 16 (char_var 5))). done.
Qed.

(** One value of [put_values] at its item. *)
Ltac put_step := first
  [ erewrite put_null by reflexivity
  | erewrite put_text by first [reflexivity | done]
  | erewrite put_number by first [reflexivity | done]
  | erewrite put_boolean by first [reflexivity | done] ].
(** The arguments of a handler, read. *)
Ltac read_arguments Hargs Hd :=
  erewrite read_args_values; [|exact Hargs|exact Hd|];
  [|cbn [length map]; repeat put_step; cbn [put_values]; reflexivity];
  run.
Ltac read_variables :=
  repeat first
    [ erewrite get_double_var by first [reflexivity | done]
    | erewrite get_u8_var by reflexivity
    | match goal with |- context [ld ?σ ?k] =>
        let H := fresh in eassert (ld σ k = Ok _) as H by reflexivity; rewrite H; clear H
      end ]; run.

Lemma command_delivered c : delivers c.
Proof.
  intros t header tid m result Hok Hne Hm Hlen Hh Hcall.
  assert (Forall amf_ok (command_args c)) as Hargs by (by do 2 apply Forall_cons_1, proj2 in Hok).
  eapply invoke_arguments; [done..|]. intros data Hd. clear Hok Hm Hlen Hh.
  destruct c; cbn [server_call] in Hcall; try done; apply Some_inj in Hcall; subst result;
    cbn [command_name command_args dispatch s_command_handler] in *; eval_dispatch; try done;
    pose proof Hargs as Hargs'; unfold str, bool_value in *;
    repeat match type of Hargs' with Forall _ (_ :: _) => apply Forall_cons_1 in Hargs' as [? Hargs'] end;
    [> by apply read_connect | unfold rtmp_command_oncreate_stream | unfold rtmp_command_onget_stream_length
     | unfold rtmp_command_onplay | unfold rtmp_command_ondelete_stream
     | unfold rtmp_command_onreceive_audio | unfold rtmp_command_onreceive_video
     | unfold rtmp_command_onpublish | unfold rtmp_command_onseek | unfold rtmp_command_onpause ];
    read_arguments Hargs Hd; read_variables; done.
Qed.
End Commands.

(** * Arguments the handlers are not ready for *)

Lemma read_args_ub indeterminate error m data args items σ : Forall amf_ok args →
  holds m data (amf_seq args) → (length args < length items → False)%nat →
  put_values 0 items (length items) args σ = Ub →
  read_args indeterminate error m data (zlen (amf_seq args)) items σ = Ub.
Proof.
  intros Hok Hm Hlen Hp. unfold read_args, amf_read_items.
  change (Z.to_nat (zlen items)) with (Z.to_nat (Z.of_nat (length items))). rewrite Nat2Z.id.
  rewrite (read_items_loop_values indeterminate items args) by done. by rewrite Hp.
Qed.

(** An item of another name is passed over. *)
Lemma amf_find_item_skip n i items k type ty nm v sz name len :
  ld items i = Ok (AmfItem ty (Some nm) v sz) → strlen nm = Ok len → slice nm 0 len = Ok name →
  name ≠ k →
  amf_find_item (S n) i items k 0 (zlen k) type = amf_find_item n (i + 1) items k 0 (zlen k) type.
Proof.
  intros Hi Hs Hn Hne. cbn [amf_find_item]. rewrite Hi. run. cbn [item_name deref]. run. rewrite Hs. run.
  destruct (Z.eqb_spec len (zlen k)) as [->|]; [|done]. rewrite Hn. run.
  rewrite slice_ok by (pose proof (zlen_nonneg k); lia). run. rewrite sub_full.
  by rewrite bool_decide_eq_false_2 by done.
Qed.

(** The table for "ex" has two entries and is given as sixty-four. *)
Lemma put_redirect_overrun k v props σ : k ≠ chars "code" → k ≠ chars "redirect" →
  put_props amf_put
    [item AMF_NUMBER "code" (ValueVar 4) 8; item AMF_STRING "redirect" (ValueVar 3) 256]
    (2 * SIZEOF_AMF_ITEM) ((k, v) :: props) σ = Ub.
Proof.
  intros H1 H2. cbn [put_props]. change (Z.to_nat (2 * SIZEOF_AMF_ITEM)) with 64%nat.
  by do 2 (erewrite amf_find_item_skip; [|reflexivity..|done]).
Qed.

Lemma put_information_overrun k v more rest σ : k ≠ chars "code" → k ≠ chars "redirect" →
  put_values (0 + 1) onstatus_items 1 [AObject ((chars "ex", AObject ((k, v) :: more)) :: rest)] σ = Ub.
Proof.
  intros H1 H2. cbn [put_values]. unfold onstatus_items.
  match goal with |- context [ld ?l (0 + 1)] =>
    let H := fresh in eassert (ld l (0 + 1) = Ok _) as H by reflexivity; rewrite H; clear H end.
  run. cbn [item item_type]. run.
  change (amf_read_item_type_check _ AMF_OBJECT) with true. cbn [negb].
  cbn [amf_put item_items item_size item]. run. cbn [put_props].
  match goal with |- context [amf_find_item ?n 0 ?l ?k' 0 ?len ?ty] =>
    let H := fresh in eassert (amf_find_item n 0 l k' 0 len ty = Ok (Some _)) as H by reflexivity;
    rewrite H; clear H end.
  run. cbn [amf_put item_items item_size item]. run. by rewrite put_redirect_overrun.
Qed.

(** * Properties *)

Section Properties.
Context {P : Type}.
Variables (indeterminate : Z) (cb : rtmp_callbacks P).
Implicit Types (t : rtmp_t P) (header : rtmp_chunk_header_t).

(** C21: a command that a client writes with the functions of rtmp-netconnection.c
    and rtmp-netstream.c, given a buffer with room, makes the server's
    [rtmp_invoke_handler] call the callback of that command, or ignore it if it has
    none, with what arrives of the arguments: the numbers as they are, the flags as
    0 or 1, a string if it fits the server's variable and an empty one otherwise;
    and of a connect request the application, the URL, the flag, the codecs, the
    video function and the encoding, but no flashVer, swfUrl, pageUrl or
    capabilities. *)
Theorem rtmp_command_delivered t header tid c bytes result :
  Forall string_ok (command_strings c) → Forall amf_ok (command_values tid c) → tid ≠ DOUBLE_M1 →
  bytes < 2 ^ 31 → zlen (amf_seq (command_values tid c)) ≤ bytes →
  server_call cb t tid c = Some result →
  ∃ m n, write_message c (char_var bytes) 0 bytes tid = Ok (m, Some n) ∧
    (h_length header = n →
     rtmp_invoke_handler indeterminate cb t header (sub m 0 n) 0 = result) ∧
    (∀ connect, c = Connect connect → connect_arrives connect (received_connect connect)) ∧
    ∀ size buf, 0 < size → cstr (string_var size (cstr buf)) = fitted size (cstr buf).
Proof.
  intros Hs Hok Htid Hb Hroom Hcall.
  pose proof (zlen_nonneg (amf_seq (command_values tid c))) as H0.
  pose proof (zlen_char_var bytes ltac:(lia)) as Hz.
  rewrite (write_message_emits c Hs) by (unfold at_end; lia).
  do 2 eexists. split; [done|]. split; [|split; [intros; apply received_arrives|intros; by apply string_var_holds]].
  intros Hh. rewrite Z.add_0_l in *. rewrite sub_put by lia.
  apply (command_delivered indeterminate cb c t header tid _ result); (done || lia).
Qed.

(** GetStreamLength with a third argument makes the handler read the third
    element of its item table, which was never assigned. *)
Theorem rtmp_command_getStreamLength_uninitialized t header tid name v rest m :
  is_uint 64 tid → tid ≠ DOUBLE_M1 → zlen name < 65536 → bytes_ok name → amf_ok v →
  Forall amf_ok rest →
  m = amf_seq (AString (chars "getStreamLength") :: ANumber tid :: ANull :: AString name :: v :: rest) →
  zlen m < 2 ^ 31 → h_length header = zlen m →
  rtmp_invoke_handler indeterminate cb t header m 0 = Ub.
Proof.
  intros Ht Hne Hn Hnb Hv Hr Hm Hlen Hh.
  apply (invoke_args indeterminate cb t header (chars "getStreamLength") tid
    (ANull :: AString name :: v :: rest)); [by_eval|by_eval|done|done| |done..|].
  { by repeat (constructor; [done|]). }
  intros data Hd. cbn [dispatch s_command_handler]. eval_dispatch.
  unfold rtmp_command_onget_stream_length. rewrite read_args_ub; [done| |done|cbn; lia|].
  { by repeat (constructor; [done|]). }
  cbn [length]. erewrite put_null by reflexivity. by erewrite put_text by first [reflexivity | done].
Qed.

(** A status or error message whose "ex" object has a member other than "code"
    and "redirect" makes the handler, of clients and servers alike, search
    past the end of its two-element item table: its size is given in bytes. *)
Theorem rtmp_command_onstatus_overrun t header tid name k v more rest m :
  name = "onStatus"%string ∨ name = "_error"%string →
  is_uint 64 tid → tid ≠ DOUBLE_M1 → amf_ok (AObject ((chars "ex", AObject ((k, v) :: more)) :: rest)) →
  k ≠ chars "code" → k ≠ chars "redirect" →
  m = amf_seq [AString (chars name); ANumber tid; ANull;
               AObject ((chars "ex", AObject ((k, v) :: more)) :: rest)] →
  zlen m < 2 ^ 31 → h_length header = zlen m →
  rtmp_invoke_handler indeterminate cb t header m 0 = Ub.
Proof.
  intros Hname Ht Hne Hv Hk1 Hk2 Hm Hlen Hh.
  set (info := AObject _) in *.
  apply (invoke_args indeterminate cb t header (chars name) tid [ANull; info]);
    [destruct Hname; subst; by_eval|destruct Hname; subst; by_eval|done|done| |done..|].
  { by repeat (constructor; [done|]). }
  intros data Hd.
  assert (∀ t, rtmp_command_onstatus indeterminate cb t tid m data (zlen (amf_seq [ANull; info])) = Ub) as Hub.
  { intros t'. unfold rtmp_command_onstatus, amf_read_items.
    rewrite (read_items_loop_values indeterminate onstatus_items [ANull; info]);
      [|by repeat (constructor; [done|])|done|lia|cbn; lia].
    change (Z.to_nat 2) with 2%nat. erewrite put_null by reflexivity.
    subst info. by rewrite put_information_overrun. }
  cbn [dispatch s_command_handler]. destruct Hname; subst name; eval_dispatch; apply Hub.
Qed.
End Properties.

(** A server that answers every callback with its code and logs the names of the
    streams played. *)
Definition demo_callbacks : rtmp_callbacks (list (list Z)) :=
  RtmpCallbacks _ (λ t _ _, Ok (0, t)) (λ t _ _, Ok (0, t)) (λ t _ _, Ok (0, t)) (λ t _, Ok t)
    None None (Some (λ t r _ name _ _ _, Ok (r, rtmp_create [name]))) None None None None None None None
    None None None None None None None.
Definition demo_play : command := Play (lit "live/room1") DOUBLE_M2 DOUBLE_M1 1.
Definition demo_length : Z := zlen (amf_seq (command_values DOUBLE_0 demo_play)).
Definition demo_header (n : Z) : rtmp_chunk_header_t := RtmpChunkHeader 3 0 0 n 20 0.

Lemma rtmp_command_delivered_witness :
  ∃ m n, write_message demo_play (char_var 100) 0 100 DOUBLE_0 = Ok (m, Some n) ∧
    (h_length (demo_header demo_length) = n →
     rtmp_invoke_handler 0 demo_callbacks (rtmp_create []) (demo_header demo_length) (sub m 0 n) 0
     = Ok (0, rtmp_create [string_var 256 (chars "live/room1")])) ∧
    (∀ connect, demo_play = Connect connect → connect_arrives connect (received_connect connect)) ∧
    ∀ size buf, 0 < size → cstr (string_var size (cstr buf)) = fitted size (cstr buf).
Proof.
  apply (rtmp_command_delivered 0 demo_callbacks (rtmp_create []) (demo_header demo_length) DOUBLE_0
    demo_play 100).
  - apply Forall_singleton. split; [by_eval|split; by_eval].
  - repeat (apply Forall_cons_2; [first [exact I | split; by_eval | by_eval]|]). apply Forall_nil_2.
  - done.
  - lia.
  - by_eval.
  - vm_compute. reflexivity.
Defined.

Definition demo_stream_length : list Z := amf_seq
  [AString (chars "getStreamLength"); ANumber DOUBLE_0; ANull; AString (chars "movie"); ANull].

Lemma rtmp_command_getStreamLength_uninitialized_witness :
  rtmp_invoke_handler 0 demo_callbacks (rtmp_create []) (demo_header (zlen demo_stream_length))
    demo_stream_length 0 = Ub.
Proof.
  apply (rtmp_command_getStreamLength_uninitialized 0 demo_callbacks (rtmp_create [])
    (demo_header (zlen demo_stream_length)) DOUBLE_0 (chars "movie") ANull [] demo_stream_length);
    first [by_eval | reflexivity | exact I | apply Forall_nil_2 | done].
Defined.

Definition demo_ex : amf := AObject [(chars "ex", AObject [(chars "x", ANull)])].
Definition demo_status : list Z := amf_seq [AString (chars "onStatus"); ANumber DOUBLE_0; ANull; demo_ex].

Lemma rtmp_command_onstatus_overrun_witness :
  rtmp_invoke_handler 0 demo_callbacks (rtmp_create []) (demo_header (zlen demo_status)) demo_status 0
  = Ub.
Proof.
  apply (rtmp_command_onstatus_overrun 0 demo_callbacks (rtmp_create []) (demo_header (zlen demo_status))
    DOUBLE_0 "onStatus" (chars "x") ANull [] [] demo_status);
    [by left|by_eval|done| |done|done|reflexivity|by_eval|reflexivity].
  cbn -[zlen bytes_ok]. repeat split; by_eval.
Defined.
