(* ===== verification/RtmpHandler.v ===== *)
(** RTMP messages received and the control messages sent:
    src/third/ireader/librtmp/source/rtmp-handler.c, rtmp-control-handler.c,
    rtmp-control-message.c and rtmp-event.c.

    [rtmp_handler] is the function that [rtmp_chunk_read] calls with every
    complete message; a message is the list of its [length] bytes, so that an
    access beyond them is undefined behaviour. *)
From S2P Require Import Prelude RtmpInternal Amf0 RtmpCommand RtmpInvoke.

(** * rtmp-msgtypeid.h and rtmp-event.h *)

Definition RTMP_TYPE_SET_CHUNK_SIZE : Z := 1.
Definition RTMP_TYPE_ABORT : Z := 2.
Definition RTMP_TYPE_ACKNOWLEDGEMENT : Z := 3.
Definition RTMP_TYPE_EVENT : Z := 4.
Definition RTMP_TYPE_WINDOW_ACKNOWLEDGEMENT_SIZE : Z := 5.
Definition RTMP_TYPE_SET_PEER_BANDWIDTH : Z := 6.
Definition RTMP_TYPE_AUDIO : Z := 8.
Definition RTMP_TYPE_VIDEO : Z := 9.
Definition RTMP_TYPE_FLEX_STREAM : Z := 15.
Definition RTMP_TYPE_FLEX_OBJECT : Z := 16.
Definition RTMP_TYPE_FLEX_MESSAGE : Z := 17.
Definition RTMP_TYPE_DATA : Z := 18.
Definition RTMP_TYPE_SHARED_OBJECT : Z := 19.
Definition RTMP_TYPE_INVOKE : Z := 20.
Definition RTMP_TYPE_METADATA : Z := 22.

Definition RTMP_EVENT_STREAM_BEGIN : Z := 0.
Definition RTMP_EVENT_STREAM_EOF : Z := 1.
Definition RTMP_EVENT_STREAM_DRY : Z := 2.
Definition RTMP_EVENT_SET_BUFFER_LENGTH : Z := 3.
Definition RTMP_EVENT_STREAM_IS_RECORD : Z := 4.
Definition RTMP_EVENT_PING : Z := 6.
Definition RTMP_EVENT_PONG : Z := 7.

(** * Sending: rtmp-control-message.c *)

Definition N_CHUNK_HEADER : Z := 12.

Definition rtmp_protocol_control_message_header (m : list Z) (out id payload : Z)
  : outcome (list Z) :=
  m ← st m out [Z.lor (Z.shiftl 0 6) 2];
  m ← st m (out + 1) [0; 0; 0];
  m ← st m (out + 4) [u8 (Z.shiftr payload 16); u8 (Z.shiftr payload 8); u8 payload];
  m ← st m (out + 7) [id];
  st m (out + 8) [0; 0; 0; 0].

(** The bytes written, 0 when [size] is too small, and the buffer. *)
Definition rtmp_set_chunk_size (m : list Z) (out size chunkSize : Z) : outcome (Z * list Z) :=
  if size <? N_CHUNK_HEADER + 4 then Ok (0, m) else
  m ← rtmp_protocol_control_message_header m out RTMP_TYPE_SET_CHUNK_SIZE 4;
  m ← be_write_uint32 m (out + N_CHUNK_HEADER) (Z.land chunkSize 2147483647);
  Ok (N_CHUNK_HEADER + 4, m).

Definition rtmp_abort_message (m : list Z) (out size chunkStreamId : Z) : outcome (Z * list Z) :=
  if size <? N_CHUNK_HEADER + 4 then Ok (0, m) else
  m ← rtmp_protocol_control_message_header m out RTMP_TYPE_ABORT 4;
  m ← be_write_uint32 m (out + N_CHUNK_HEADER) chunkStreamId;
  Ok (N_CHUNK_HEADER + 4, m).

Definition rtmp_acknowledgement (m : list Z) (out size sequenceNumber : Z) : outcome (Z * list Z) :=
  if size <? N_CHUNK_HEADER + 4 then Ok (0, m) else
  m ← rtmp_protocol_control_message_header m out RTMP_TYPE_ACKNOWLEDGEMENT 4;
  m ← be_write_uint32 m (out + N_CHUNK_HEADER) sequenceNumber;
  Ok (N_CHUNK_HEADER + 4, m).

Definition rtmp_window_acknowledgement_size (m : list Z) (out size windowSize : Z)
  : outcome (Z * list Z) :=
  if size <? N_CHUNK_HEADER + 4 then Ok (0, m) else
  m ← rtmp_protocol_control_message_header m out RTMP_TYPE_WINDOW_ACKNOWLEDGEMENT_SIZE 4;
  m ← be_write_uint32 m (out + N_CHUNK_HEADER) windowSize;
  Ok (N_CHUNK_HEADER + 4, m).

Definition rtmp_set_peer_bandwidth (m : list Z) (out size windowSize limitType : Z)
  : outcome (Z * list Z) :=
  if size <? N_CHUNK_HEADER + 5 then Ok (0, m) else
  m ← rtmp_protocol_control_message_header m out RTMP_TYPE_SET_PEER_BANDWIDTH 5;
  m ← be_write_uint32 m (out + N_CHUNK_HEADER) windowSize;
  m ← st m (out + N_CHUNK_HEADER + 4) [limitType];
  Ok (N_CHUNK_HEADER + 5, m).

(** * Sending: rtmp-event.c *)

Definition rtmp_user_control_message_header (m : list Z) (out payload : Z) : outcome (list Z) :=
  m ← st m out [Z.lor (Z.shiftl 0 6) 2];
  m ← st m (out + 1) [0; 0; 0];
  m ← st m (out + 4) [u8 (Z.shiftr payload 16); u8 (Z.shiftr payload 8); u8 payload];
  m ← st m (out + 7) [RTMP_TYPE_EVENT];
  st m (out + 8) [0; 0; 0; 0].

(** The body the six events with one word share. *)
Definition rtmp_event_word (event : Z) (m : list Z) (data bytes value : Z) : outcome (Z * list Z) :=
  if bytes <? N_CHUNK_HEADER + 6 then Ok (0, m) else
  m ← rtmp_user_control_message_header m data 6;
  m ← be_write_uint16 m (N_CHUNK_HEADER + data) event;
  m ← be_write_uint32 m (N_CHUNK_HEADER + data + 2) value;
  Ok (N_CHUNK_HEADER + 6, m).

Definition rtmp_event_stream_begin := rtmp_event_word RTMP_EVENT_STREAM_BEGIN.
Definition rtmp_event_stream_eof := rtmp_event_word RTMP_EVENT_STREAM_EOF.
Definition rtmp_event_stream_dry := rtmp_event_word RTMP_EVENT_STREAM_DRY.
Definition rtmp_event_stream_is_record := rtmp_event_word RTMP_EVENT_STREAM_IS_RECORD.
Definition rtmp_event_ping := rtmp_event_word RTMP_EVENT_PING.
Definition rtmp_event_pong := rtmp_event_word RTMP_EVENT_PONG.

Definition rtmp_event_set_buffer_length (m : list Z) (data bytes streamId ms : Z)
  : outcome (Z * list Z) :=
  if bytes <? N_CHUNK_HEADER + 10 then Ok (0, m) else
  m ← rtmp_user_control_message_header m data 10;
  m ← be_write_uint16 m (N_CHUNK_HEADER + data) RTMP_EVENT_SET_BUFFER_LENGTH;
  m ← be_write_uint32 m (N_CHUNK_HEADER + data + 2) streamId;
  m ← be_write_uint32 m (N_CHUNK_HEADER + data + 6) ms;
  Ok (N_CHUNK_HEADER + 10, m).

Section Handler.
Context {P : Type}.
Variable indeterminate : Z.
Variable cb : rtmp_callbacks P.
Implicit Types t : rtmp_t P.

(** * Receiving: rtmp-control-handler.c *)

Definition RTMP_CHUNK_SIZE_MINIMUM : Z := 64.
Definition RTMP_CHUNK_SIZE_MAXIMUM : Z := 8388608.

(** The result and the new value: [chunkSize] is assigned before it is
    tested. *)
Definition rtmp_read_chunk_size (out : list Z) (size chunkSize : Z) : outcome (Z * Z) :=
  if size >=? 4 then
    chunkSize ← be_read_uint32 out 0;
    if (chunkSize <? RTMP_CHUNK_SIZE_MINIMUM) || (chunkSize >? RTMP_CHUNK_SIZE_MAXIMUM)
    then Ok (0, chunkSize) else Ok (4, chunkSize)
  else Ok (0, chunkSize).

(** [rtmp_read_abort_message], [rtmp_read_acknowledgement] and
    [rtmp_read_window_acknowledgement_size] have the same body. *)
Definition rtmp_read_word (out : list Z) (size value : Z) : outcome (Z * Z) :=
  if size >=? 4 then value ← be_read_uint32 out 0; Ok (4, value) else Ok (0, value).
Definition rtmp_read_abort_message := rtmp_read_word.
Definition rtmp_read_acknowledgement := rtmp_read_word.
Definition rtmp_read_window_acknowledgement_size := rtmp_read_word.

Definition rtmp_read_set_peer_bandwidth (out : list Z) (size windowSize limitType : Z)
  : outcome (Z * Z * Z) :=
  if size >=? 5 then
    windowSize ← be_read_uint32 out 0; limitType ← ld out 4; Ok (5, windowSize, limitType)
  else Ok (0, windowSize, limitType).

Definition set_in_chunk_size t v :=
  set_control t v (sequence_number t) (window_size t) (peer_bandwidth t) (buffer_length_ms t)
    (limit_type t).
Definition set_sequence_number t v :=
  set_control t (in_chunk_size t) v (window_size t) (peer_bandwidth t) (buffer_length_ms t)
    (limit_type t).
Definition set_window_size t v :=
  set_control t (in_chunk_size t) (sequence_number t) v (peer_bandwidth t) (buffer_length_ms t)
    (limit_type t).
Definition set_peer_bandwidth t v lt :=
  set_control t (in_chunk_size t) (sequence_number t) (window_size t) v (buffer_length_ms t) lt.
Definition set_buffer_length_ms t v :=
  set_control t (in_chunk_size t) (sequence_number t) (window_size t) (peer_bandwidth t) v
    (limit_type t).

(** The bytes read, 0 for an error, and the session. *)
Definition rtmp_control_handler t (header : rtmp_chunk_header_t) (data : list Z)
  : outcome (Z * rtmp_t P) :=
  if h_type header =? RTMP_TYPE_SET_CHUNK_SIZE then
    '(r, v) ← rtmp_read_chunk_size data (h_length header) (in_chunk_size t);
    Ok (r, set_in_chunk_size t v)
  else if h_type header =? RTMP_TYPE_ABORT then
    '(r, chunk_stream_id) ← rtmp_read_abort_message data (h_length header) 0;
    if 4 =? r then t ← onabort cb t chunk_stream_id; Ok (4, t) else Ok (0, t)
  else if h_type header =? RTMP_TYPE_ACKNOWLEDGEMENT then
    '(r, v) ← rtmp_read_acknowledgement data (h_length header) (sequence_number t);
    Ok (r, set_sequence_number t v)
  else if h_type header =? RTMP_TYPE_WINDOW_ACKNOWLEDGEMENT_SIZE then
    '(r, v) ← rtmp_read_window_acknowledgement_size data (h_length header) (window_size t);
    Ok (r, set_window_size t v)
  else if h_type header =? RTMP_TYPE_SET_PEER_BANDWIDTH then
    '(r, v, lt) ← rtmp_read_set_peer_bandwidth data (h_length header) (peer_bandwidth t)
                    (limit_type t);
    let t := set_peer_bandwidth t v lt in
    if 5 =? r then '(_, t) ← call (client_onbandwidth cb) 0 t (λ f, f t); Ok (5, t)
    else Ok (0, t)
  else Ok (0, t).

(** * Receiving: rtmp-event.c *)

Definition rtmp_event_handler t (header : rtmp_chunk_header_t) (data : list Z)
  : outcome (Z * rtmp_t P) :=
  if h_length header <? 6 then Ok (0, t) else
  event ← be_read_uint16 data 0;
  streamId ← be_read_uint32 data 2;
  if (event =? RTMP_EVENT_STREAM_BEGIN) || (event =? RTMP_EVENT_STREAM_DRY)
     || (event =? RTMP_EVENT_STREAM_IS_RECORD) then Ok (6, t)
  else if event =? RTMP_EVENT_STREAM_EOF then
    '(_, t) ← call (client_oneof cb) 0 t (λ f, f t streamId); Ok (6, t)
  else if event =? RTMP_EVENT_SET_BUFFER_LENGTH then
    if h_length header <? 10 then Ok (0, t) else
    v ← be_read_uint32 data 6;
    Ok (10, set_buffer_length_ms t v)
  else if event =? RTMP_EVENT_PING then
    '(_, t) ← call (client_onping cb) 0 t (λ f, f t streamId); Ok (6, t)
  else if event =? RTMP_EVENT_PONG then Ok (6, t)
  else Ok (s32 (h_length header), t).

(** * rtmp-handler.c *)

Definition RTMP_MESSAGE_HEADER_LENGTH : Z := 11.

Definition rtmp_audio t (payload : list Z) (timestamp : Z) : outcome (Z * rtmp_t P) :=
  onaudio cb t payload timestamp.
Definition rtmp_video t (payload : list Z) (timestamp : Z) : outcome (Z * rtmp_t P) :=
  onvideo cb t payload timestamp.

(** The string "@setDataFrame" with its marker and length. *)
Definition s_setFrameData : list Z :=
  [2; 0; 13; 64; 115; 101; 116; 68; 97; 116; 97; 70; 114; 97; 109; 101].

Definition rtmp_script t (payload : list Z) (bytes timestamp : Z) : outcome (Z * rtmp_t P) :=
  found ← (if bytes >? zlen s_setFrameData then
             p ← slice payload 0 (zlen s_setFrameData); Ok (bool_decide (p = s_setFrameData))
           else Ok false);
  if (found : bool) then
    p ← slice payload (zlen s_setFrameData) (bytes - zlen s_setFrameData);
    onscript cb t p timestamp
  else
    p ← slice payload 0 bytes;
    onscript cb t p timestamp.

(** The loop of [rtmp_aggregate] from offset [i]: a tag has a header of 11
    bytes and a trailer of 4, so [length / 15 + 1] iterations are enough. *)
Fixpoint rtmp_aggregate_loop (fuel : nat) t (length : Z) (payload : list Z) (i t0 timestamp r : Z)
  : outcome (Z * rtmp_t P) :=
  if (u32 (i + RTMP_MESSAGE_HEADER_LENGTH + 4) <? length) && (0 =? r) then
    match fuel with
    | O => Ub
    | S fuel =>
        b1 ← ld payload (i + 1); b2 ← ld payload (i + 2); b3 ← ld payload (i + 3);
        let n := Z.lor (Z.lor (Z.shiftl b1 16) (Z.shiftl b2 8)) b3 in
        b4 ← ld payload (i + 4); b5 ← ld payload (i + 5); b6 ← ld payload (i + 6);
        b7 ← ld payload (i + 7);
        let ts := Z.lor (Z.lor (Z.lor (Z.shiftl b4 16) (Z.shiftl b5 8)) b6) (Z.shiftl b7 24) in
        if u32 (i + n + RTMP_MESSAGE_HEADER_LENGTH + 4) >? length then Ok (0, t) else
        let timestamp := if negb (0 =? i) then u32 (timestamp + u32 (ts - t0)) else timestamp in
        ty ← ld payload i;
        data ← slice payload (i + RTMP_MESSAGE_HEADER_LENGTH) n;
        '(r, t) ←
          (if ty =? RTMP_TYPE_AUDIO then rtmp_audio t data timestamp
           else if ty =? RTMP_TYPE_VIDEO then rtmp_video t data timestamp
           else if ty =? RTMP_TYPE_DATA then rtmp_script t data n timestamp
           else Ok (0, t));
        rtmp_aggregate_loop fuel t length payload
          (u32 (i + u32 (n + RTMP_MESSAGE_HEADER_LENGTH + 4))) ts timestamp r
    end
  else Ok (r, t).

Definition rtmp_aggregate t (header : rtmp_chunk_header_t) (payload : list Z)
  : outcome (Z * rtmp_t P) :=
  rtmp_aggregate_loop (Z.to_nat (h_length header / 15 + 1)) t (h_length header) payload 0 0
    (h_timestamp header) 0.

(** [0 == x ? -1 : 0] *)
Definition nonzero_ok (x : Z * rtmp_t P) : Z * rtmp_t P :=
  (if 0 =? fst x then -1 else 0, snd x).

Definition rtmp_handler t (header : rtmp_chunk_header_t) (payload : list Z)
  : outcome (Z * rtmp_t P) :=
  let type := h_type header in
  if type =? RTMP_TYPE_FLEX_MESSAGE then
    let k := if h_length header >? 0 then 1 else 0 in
    rtmp_invoke_handler indeterminate cb t
      (RtmpChunkHeader (h_fmt header) (h_cid header) (h_timestamp header) (h_length header - k)
         (h_type header) (h_stream_id header)) payload k
  else if type =? RTMP_TYPE_INVOKE then rtmp_invoke_handler indeterminate cb t header payload 0
  else if type =? RTMP_TYPE_VIDEO then
    p ← slice payload 0 (h_length header); rtmp_video t p (h_timestamp header)
  else if type =? RTMP_TYPE_AUDIO then
    p ← slice payload 0 (h_length header); rtmp_audio t p (h_timestamp header)
  else if type =? RTMP_TYPE_EVENT then
    x ← rtmp_event_handler t header payload; Ok (nonzero_ok x)
  else if (type =? RTMP_TYPE_SET_CHUNK_SIZE) || (type =? RTMP_TYPE_ABORT)
     || (type =? RTMP_TYPE_ACKNOWLEDGEMENT) || (type =? RTMP_TYPE_WINDOW_ACKNOWLEDGEMENT_SIZE)
     || (type =? RTMP_TYPE_SET_PEER_BANDWIDTH) then
    x ← rtmp_control_handler t header payload; Ok (nonzero_ok x)
  else if (type =? RTMP_TYPE_DATA) || (type =? RTMP_TYPE_FLEX_STREAM) then
    rtmp_script t payload (h_length header) (h_timestamp header)
  else if (type =? RTMP_TYPE_SHARED_OBJECT) || (type =? RTMP_TYPE_FLEX_OBJECT) then Ok (0, t)
  else if type =? RTMP_TYPE_METADATA then rtmp_aggregate t header payload
  else Ok (0, t).
End Handler.
