(* ===== verification/RtmpHandlerSpec.v ===== *)
(** Messages received, for any peer: every message is handled without undefined
    behaviour and leaves the reader's state alone, for callbacks that keep an
    invariant of the session.  Commands are the subject of [RtmpInvokeSpec] and
    of the second half of this file. *)
From stdpp Require Import strings.
From S2P Require Import Prelude RtmpInternal RtmpChunk RtmpChunkRead Amf0 Amf0Spec RtmpCommand RtmpInvoke.
From S2P Require Import RtmpHandler.
Open Scope Z_scope.

(** * What the application's callbacks keep *)

Section Contract.
Context {P : Type} {Inv : SessionInvariant P}.

(** A call that returns and keeps what the reader needs. *)
Definition handled (t : rtmp_t P) (x : outcome (Z * rtmp_t P)) : Prop := ∃ r t', x = Ok (r, t') ∧
  in_packets t' = in_packets t ∧ parser t' = parser t ∧ in_chunk_size t' = in_chunk_size t ∧
  session_inv t'.

Lemma handled_ret r (t : rtmp_t P) : session_inv t → handled t (Ok (r, t)).
Proof. intros. by exists r, t. Qed.

(** One call after another. *)
Lemma handled_bind t x (f : Z * rtmp_t P → outcome (Z * rtmp_t P)) : handled t x →
  (∀ r t', session_inv t' → in_packets t' = in_packets t → parser t' = parser t →
     in_chunk_size t' = in_chunk_size t → handled t' (f (r, t'))) → handled t (x ≫= f).
Proof.
  intros (r & t' & -> & H1 & H2 & H3 & Hi) Hf. run.
  destruct (Hf r t' Hi H1 H2 H3) as (r' & t'' & -> & H4 & H5 & H6 & Hi').
  exists r', t''. split_and!; congruence || done.
Qed.

Lemma handled_call {F} (f : option F) otherwise t (body : F → outcome (Z * rtmp_t P)) :
  session_inv t → (∀ g, f = Some g → handled t (body g)) → handled t (call f otherwise t body).
Proof. intros Hi Hf. destruct f; cbn [call]; [by apply Hf|by apply handled_ret]. Qed.

Class MediaCallbacks (cb : rtmp_callbacks P) := {
  keeps_control t ics sn ws pb bl lt : session_inv t → session_inv (set_control t ics sn ws pb bl lt);
  keeps_audio t m ts : session_inv t → bytes_ok m → handled t (onaudio cb t m ts);
  keeps_video t m ts : session_inv t → bytes_ok m → handled t (onvideo cb t m ts);
  keeps_script t m ts : session_inv t → bytes_ok m → handled t (onscript cb t m ts);
  keeps_abort t c : session_inv t → handled t (t ← onabort cb t c; Ok (0, t));
  keeps_oneof t f v : client_oneof cb = Some f → session_inv t → handled t (f t v);
  keeps_onping t f v : client_onping cb = Some f → session_inv t → handled t (f t v);
  keeps_onbandwidth t f : client_onbandwidth cb = Some f → session_inv t → handled t (f t)
}.
End Contract.

(** * Everything but commands *)

Section Media.
Context {P : Type} {Inv : SessionInvariant P} (indeterminate : Z) (cb : rtmp_callbacks P).
Context {Hcb : MediaCallbacks cb}.
Variables (h : rtmp_chunk_header_t) (m : list Z).
Hypothesis Hm : bytes_ok m.
Hypothesis Hlen : zlen m = h_length h.
Hypothesis Hmax : h_length h < 2 ^ 24.

(** What the reader asks of its handler. *)
Definition answered (t : rtmp_t P) (x : outcome (Z * rtmp_t P)) : Prop := ∃ r t', x = Ok (r, t') ∧
  in_packets t' = in_packets t ∧ parser t' = parser t ∧ (r = 0 → 0 < in_chunk_size t' ∧ session_inv t').

Lemma handled_answered t x : 0 < in_chunk_size t → handled t x → answered t x.
Proof. intros Ht (r & t' & -> & H1 & H2 & H3 & Hi). exists r, t'. split_and!; [done..|]. by rewrite H3. Qed.

Lemma bytes_ok_ld_nonneg p b : ld m p = Ok b → 0 ≤ b < 256.
Proof. intros H. apply ld_byte in H; [|done]. unfold is_uint in H. lia. Qed.

Lemma rtmp_script_handled t payload bytes ts : session_inv t → bytes_ok payload →
  0 ≤ bytes ≤ zlen payload → handled t (rtmp_script cb t payload bytes ts).
Proof.
  intros Hi Hp Hb. unfold rtmp_script. pose proof (zlen_nonneg s_setFrameData).
  rewrite (slice_ok payload 0 bytes) by lia.
  destruct (Z.gtb_spec bytes (zlen s_setFrameData)) as [Hgt|Hle]; run.
  - rewrite !slice_ok by lia. run.
    destruct (bool_decide _); run; apply keeps_script; auto using bytes_ok_sub.
  - apply keeps_script; auto using bytes_ok_sub.
Qed.

(** The loop over the tags of an aggregate message. *)
Lemma rtmp_aggregate_loop_handled fuel : ∀ t i t0 ts r, session_inv t → 0 ≤ i ≤ zlen m →
  zlen m - i < 15 * Z.of_nat fuel →
  handled t (rtmp_aggregate_loop cb fuel t (zlen m) m i t0 ts r).
Proof.
  induction fuel as [|fuel IH]; intros t i t0 ts r Hi Hr Hf; cbn [rtmp_aggregate_loop]; [lia|].
  unfold RTMP_MESSAGE_HEADER_LENGTH. rewrite <- Hlen in Hmax.
  assert (u32 (i + 11 + 4) = i + 15) as -> by (unfold u32; dlia).
  destruct (Z.ltb_spec (i + 15) (zlen m)); [|by apply handled_ret]. cbn [andb].
  destruct (0 =? r); [|by apply handled_ret].
  assert (∀ k, 0 ≤ k < 15 → ∃ b, ld m (i + k) = Ok b ∧ 0 ≤ b < 256) as Hld.
  { intros k Hk. rewrite (ld_ok m (i + k)) by lia. eexists. split; [done|].
    pose proof (bytes_ok_lookup m (Z.to_nat (i + k)) Hm) as Hb. unfold is_uint in Hb. lia. }
  destruct (Hld 1) as (b1 & -> & ?); [lia|]. destruct (Hld 2) as (b2 & -> & ?); [lia|].
  destruct (Hld 3) as (b3 & -> & ?); [lia|]. destruct (Hld 4) as (b4 & -> & ?); [lia|].
  destruct (Hld 5) as (b5 & -> & ?); [lia|]. destruct (Hld 6) as (b6 & -> & ?); [lia|].
  destruct (Hld 7) as (b7 & -> & ?); [lia|]. run.
  set (n := Z.lor (Z.lor (Z.shiftl b1 16) (Z.shiftl b2 8)) b3).
  assert (0 ≤ n < 2 ^ 24) as Hn.
  { unfold n. rewrite be_val_3 by (unfold is_uint; lia).
    pose proof (be_val_range [b1; b2; b3]) as Hv. unfold zlen in Hv. cbn in Hv.
    apply Hv. repeat constructor; unfold is_uint; lia. }
  assert (u32 (i + n + 11 + 4) = i + n + 15) as -> by (unfold u32; dlia).
  assert (u32 (i + u32 (n + 11 + 4)) = i + n + 15) as -> by (unfold u32; dlia).
  destruct (Z.gtb_spec (i + n + 15) (zlen m)); [by apply handled_ret|].
  destruct (Hld 0) as (ty & Hty & _); [lia|]. rewrite Z.add_0_r in Hty. rewrite Hty. run.
  rewrite slice_ok by lia. run.
  assert (bytes_ok (sub m (i + 11) n)) as Hsub by by apply bytes_ok_sub.
  assert (zlen (sub m (i + 11) n) = n) as Hz by (apply zlen_sub; lia).
  apply handled_bind.
  - unfold rtmp_audio, rtmp_video. destruct (ty =? RTMP_TYPE_AUDIO); [by apply keeps_audio|].
    destruct (ty =? RTMP_TYPE_VIDEO); [by apply keeps_video|].
    destruct (ty =? RTMP_TYPE_DATA); [apply rtmp_script_handled; (done || lia)|by apply handled_ret].
  - intros r' t' Hi' _ _ _. apply IH; [done|lia|lia].
Qed.

(** A message that is handled and whose code is only compared with zero. *)
Lemma nonzero_answered t x : 0 < in_chunk_size t → handled t x →
  answered t (y ← x; Ok (nonzero_ok y)).
Proof.
  intros Ht (r & t' & -> & H1 & H2 & H3 & Hi). run. eexists _, t'. split; [done|].
  split_and!; [done..|]. by rewrite H3.
Qed.

(** A call whose code is replaced. *)
Lemma handled_then t x r : handled t x → handled t ('(_, t) ← x; Ok (r, t)).
Proof. intros. apply handled_bind; [done|]. intros. by apply handled_ret. Qed.

Lemma rtmp_event_handler_handled t : session_inv t → handled t (rtmp_event_handler cb t h m).
Proof.
  intros Hi. unfold rtmp_event_handler. destruct (Z.ltb_spec (h_length h) 6); [by apply handled_ret|].
  rewrite (be_read_uint16_spec m 0) by (done || lia). run.
  rewrite (be_read_uint32_spec m 2) by (done || lia). run.
  set (event := be_val (sub m 0 2)). set (id := be_val (sub m 2 4)).
  destruct (_ || _ || _); [by apply handled_ret|].
  destruct (event =? RTMP_EVENT_STREAM_EOF).
  { apply handled_then, handled_call; [done|]. intros g Hg. by apply (keeps_oneof t g id). }
  destruct (event =? RTMP_EVENT_SET_BUFFER_LENGTH).
  { destruct (Z.ltb_spec (h_length h) 10); [by apply handled_ret|].
    rewrite be_read_uint32_spec by (done || lia). run.
    eexists _, _. split; [reflexivity|]. split_and!; [done..|]. by apply keeps_control. }
  destruct (event =? RTMP_EVENT_PING).
  { apply handled_then, handled_call; [done|]. intros g Hg. by apply (keeps_onping t g id). }
  destruct (event =? RTMP_EVENT_PONG); by apply handled_ret.
Qed.

(** The control messages that change nothing the reader uses. *)
Lemma handled_control t ics sn ws pb bl lt r : session_inv t → ics = in_chunk_size t →
  handled t (Ok (r, set_control t ics sn ws pb bl lt)).
Proof. intros Hi ->. eexists _, _. split; [reflexivity|]. split_and!; [done..|]. by apply keeps_control. Qed.

Lemma rtmp_control_handler_answered t : 0 < in_chunk_size t → session_inv t →
  answered t (x ← rtmp_control_handler cb t h m; Ok (nonzero_ok x)).
Proof.
  intros Ht Hi. unfold rtmp_control_handler, rtmp_read_abort_message, rtmp_read_acknowledgement,
    rtmp_read_window_acknowledgement_size, rtmp_read_word, rtmp_read_chunk_size,
    rtmp_read_set_peer_bandwidth.
  destruct (h_type h =? RTMP_TYPE_SET_CHUNK_SIZE).
  { destruct (Z.geb_spec (h_length h) 4); run.
    2: { eexists _, _. split; [reflexivity|]. by split_and!. }
    rewrite be_read_uint32_spec by (done || lia). run. set (v := be_val (sub m 0 4)).
    destruct ((v <? RTMP_CHUNK_SIZE_MINIMUM) || (v >? RTMP_CHUNK_SIZE_MAXIMUM)) eqn:E; run;
      (eexists _, _; split; [reflexivity|]; split_and!; [done..|]); cbn; [done|].
    intros _. split; [|by apply keeps_control].
    apply orb_false_elim in E as [E _]. unfold RTMP_CHUNK_SIZE_MINIMUM in E. lia. }
  apply nonzero_answered; [done|].
  destruct (h_type h =? RTMP_TYPE_ABORT).
  { destruct (Z.geb_spec (h_length h) 4); run; [|by apply handled_ret].
    rewrite be_read_uint32_spec by (done || lia). run. cbn [Z.eqb Pos.eqb].
    destruct (keeps_abort t (be_val (sub m 0 4)) Hi) as (r & t' & Ho & H1 & H2 & H3 & H4).
    destruct (onabort cb t _) as [| |t2]; run; [done..|]. cbn in Ho. apply Ok_inj in Ho. simplify_eq.
    by exists 4, t'. }
  destruct (h_type h =? RTMP_TYPE_ACKNOWLEDGEMENT).
  { destruct (Z.geb_spec (h_length h) 4); run; [rewrite be_read_uint32_spec by (done || lia); run|];
      by apply handled_control. }
  destruct (h_type h =? RTMP_TYPE_WINDOW_ACKNOWLEDGEMENT_SIZE).
  { destruct (Z.geb_spec (h_length h) 4); run; [rewrite be_read_uint32_spec by (done || lia); run|];
      by apply handled_control. }
  destruct (h_type h =? RTMP_TYPE_SET_PEER_BANDWIDTH); [|by apply handled_ret].
  destruct (Z.geb_spec (h_length h) 5); run; [|by apply handled_control].
  rewrite be_read_uint32_spec by (done || lia). run. rewrite ld_ok by lia. run. cbn [Z.eqb Pos.eqb].
  set (t1 := set_peer_bandwidth _ _ _).
  assert (session_inv t1) as Hi1 by (by apply keeps_control).
  destruct (handled_then t1 (call (client_onbandwidth cb) 0 t1 (λ f, f t1)) 5) as (r & t' & E & H1 & H2 & H3 & H4).
  { apply handled_call; [done|]. intros g Hg. by apply (keeps_onbandwidth t1 g). }
  rewrite E. by exists r, t'.
Qed.

Lemma rtmp_media_answered t : 0 < in_chunk_size t → session_inv t →
  h_type h ≠ RTMP_TYPE_FLEX_MESSAGE → h_type h ≠ RTMP_TYPE_INVOKE →
  answered t (rtmp_handler indeterminate cb t h m).
Proof.
  intros Ht Hi H1 H2. unfold rtmp_handler. pose proof (zlen_nonneg m).
  destruct (Z.eqb_spec (h_type h) RTMP_TYPE_FLEX_MESSAGE), (Z.eqb_spec (h_type h) RTMP_TYPE_INVOKE); try done.
  rewrite slice_ok by lia. run. unfold rtmp_video, rtmp_audio.
  assert (bytes_ok (sub m 0 (h_length h))) by by apply bytes_ok_sub.
  destruct (h_type h =? RTMP_TYPE_VIDEO); [by apply handled_answered, keeps_video|].
  destruct (h_type h =? RTMP_TYPE_AUDIO); [by apply handled_answered, keeps_audio|].
  destruct (h_type h =? RTMP_TYPE_EVENT); [by apply nonzero_answered, rtmp_event_handler_handled|].
  destruct (_ || _ || _ || _ || _); [by apply rtmp_control_handler_answered|].
  destruct (_ || _); [apply handled_answered, rtmp_script_handled; (done || lia)|].
  destruct (_ || _); [by apply handled_answered, handled_ret|].
  destruct (h_type h =? RTMP_TYPE_METADATA); [|by apply handled_answered, handled_ret].
  apply handled_answered; [done|]. unfold rtmp_aggregate. rewrite <- Hlen.
  apply rtmp_aggregate_loop_handled; [done|lia|].
  rewrite Z2Nat.id by (apply Z.add_nonneg_nonneg; [apply Z.div_pos|]; lia). dlia.
Qed.
End Media.

(** * Commands *)

(** The variables of a handler after reading: a cell of the given size, with a
    terminating zero when it is a string. *)
#[global] Instance terminated_dec v : Decision (terminated v).
Proof. unfold terminated. apply _. Defined.

Lemma var_after (σ σ' : store) k n : same_vars σ σ' → Forall terminated σ → 0 ≤ k →
  shape σ !! Z.to_nat k = Some n →
  ∃ v, ld σ' k = Ok v ∧ zlen v = n ∧ (n ≠ 1 → n ≠ 8 → n ≠ 10 → 0 ∈ v).
Proof.
  intros [Hs Ht] Hσ Hk Hn. rewrite <- Hs, list_lookup_fmap in Hn.
  destruct (σ' !! Z.to_nat k) as [v|] eqn:E; [|done]. apply Some_inj in Hn. exists v.
  split_and!; [by apply ld_lookup|done|]. intros H1 H2 H3.
  destruct (Forall_lookup_1 _ _ _ _ (Ht Hσ) E) as [?|[?|[?|Hl]]]; [congruence..|].
  by apply list_elem_of_lookup_2 in Hl.
Qed.

Lemma string_after (σ σ' : store) k n : same_vars σ σ' → Forall terminated σ → 0 ≤ k →
  shape σ !! Z.to_nat k = Some n → n ≠ 1 → n ≠ 8 → n ≠ 10 → ∃ v, ld σ' k = Ok v ∧ 0 ∈ v ∧ zlen v = n.
Proof. intros. destruct (var_after σ σ' k n) as (v & ? & ? & ?); [done..|]. exists v. auto. Qed.

Lemma double_after (σ σ' : store) k n : same_vars σ σ' → Forall terminated σ → 0 ≤ k →
  shape σ !! Z.to_nat k = Some n → ∃ v, get_double σ' k = Ok v.
Proof.
  intros. destruct (var_after σ σ' k n) as (v & Hv & _); [done..|]. unfold get_double. rewrite Hv.
  by eexists.
Qed.

Lemma u8_after (σ σ' : store) k n : same_vars σ σ' → Forall terminated σ → 0 ≤ k →
  shape σ !! Z.to_nat k = Some n → 1 ≤ n → ∃ v, get_u8 σ' k = Ok v.
Proof.
  intros. destruct (var_after σ σ' k n) as (v & Hv & Hz & _); [done..|]. unfold get_u8. rewrite Hv. run.
  rewrite ld_ok by lia. by eexists.
Qed.

(** Items that name variables of the store, checked by evaluation. *)
Ltac item_oks := repeat first
  [ apply Forall_nil_2 | apply Forall_cons_2
  | apply item_ok_null; done
  | eapply item_ok_boolean; [reflexivity|done|by vm_compute]
  | eapply item_ok_number; [reflexivity|done|by vm_compute]
  | eapply item_ok_string; [by left|reflexivity|done|by vm_compute]
  | apply item_ok_members; [by left|reflexivity| |]
  | apply item_ok_elements; [reflexivity|]
  | eexists _, _, _, _; split; [reflexivity|by_eval] ].

(** The commands a server may be given: the others run into undefined behaviour
    on some arguments ([RtmpInvokeSpec]) or convert a double to an integer that
    may not hold it. *)
Definition fragile_commands : list (list Z) :=
  map lit ["_result"; "_error"; "onStatus"; "deleteStream"; "seek"; "pause"; "getStreamLength"].

Section Commands.
Context {P : Type} {Inv : SessionInvariant P} (indeterminate : Z) (cb : rtmp_callbacks P).

(** The fields of a connect request are strings. *)
Definition connect_strings (c : rtmp_connect_t) : Prop :=
  Forall (λ s, 0 ∈ s) ([c_app c; c_flashver c; c_swfUrl c; c_tcUrl c; c_pageUrl c] ++ c_fourCcList c).

Class CommandCallbacks := {
  keeps_onconnect t f r tid c : server_onconnect cb = Some f → session_inv t → connect_strings c →
    handled t (f t r tid c);
  keeps_oncreate_stream t f r tid : server_oncreate_stream cb = Some f → session_inv t →
    handled t (f t r tid);
  keeps_onplay t f r tid name start duration reset : server_onplay cb = Some f → session_inv t →
    0 ∈ name → handled t (f t r tid name start duration reset);
  keeps_onreceive_audio t f r tid v : server_onreceive_audio cb = Some f → session_inv t →
    handled t (f t r tid v);
  keeps_onreceive_video t f r tid v : server_onreceive_video cb = Some f → session_inv t →
    handled t (f t r tid v);
  keeps_onpublish t f r tid name type : server_onpublish cb = Some f → session_inv t →
    0 ∈ name → 0 ∈ type → handled t (f t r tid name type)
}.

Context {Hcb : CommandCallbacks}.
Variables (m : list Z) (data bytes : Z).
Hypothesis Hm : bytes_ok m.
Hypothesis Hdata : 0 ≤ data.
Hypothesis Hbytes : 0 ≤ bytes.
Hypothesis Hend : data + bytes ≤ zlen m.

Lemma read_args_safe error items σ : Forall (item_ok (shape σ)) items →
  ∃ r σ', read_args indeterminate error m data bytes items σ = Ok (r, σ') ∧ same_vars σ σ'.
Proof.
  intros Hok. unfold read_args, amf_read_items.
  pose proof (zlen_nonneg items).
  destruct (amf_read_items_kept indeterminate m (data + bytes) Hend Hm (Z.to_nat (zlen items)) 0 items
    (Some data) σ) as (ptr & σ' & -> & Hs & _); [lia|lia|done|intros ? [= <-]; lia|].
  run. by eexists _, σ'.
Qed.

(** The arguments are read; the variables are then looked at. *)
Ltac read_safely Hs := match goal with
  | |- context [read_args _ ?e _ _ _ ?items ?σ] =>
      let H := fresh in let r := fresh "r" in let σ' := fresh "σ'" in
      destruct (read_args_safe e items σ) as (r & σ' & H & Hs);
        [solve [item_oks]|]; rewrite H; run;
      let Hσ := fresh "Hσ" in assert (Forall terminated σ) as Hσ by by_eval
  end.
Ltac string_var k Hs Hσ := match type of Hs with same_vars ?σ ?σ' =>
  let v := fresh "v" in let E := fresh in
  destruct (string_after σ σ' k _ Hs Hσ ltac:(done) eq_refl ltac:(done) ltac:(done) ltac:(done))
    as (v & E & ? & ?); rewrite E; run; clear E end.
Ltac double_var k Hs Hσ := match type of Hs with same_vars ?σ ?σ' =>
  let v := fresh "v" in let E := fresh in
  destruct (double_after σ σ' k _ Hs Hσ ltac:(done) eq_refl) as (v & E); rewrite E; run; clear E end.
Ltac u8_var k Hs Hσ := match type of Hs with same_vars ?σ ?σ' =>
  let v := fresh "v" in let E := fresh in
  destruct (u8_after σ σ' k _ Hs Hσ ltac:(done) eq_refl ltac:(done)) as (v & E); rewrite E; run; clear E end.

Lemma onconnect_handled t tid : session_inv t →
  handled t (rtmp_command_onconnect indeterminate cb t tid m data bytes).
Proof.
  intros Hi. unfold rtmp_command_onconnect. read_safely Hs.
  string_var 0 Hs Hσ. string_var 1 Hs Hσ. string_var 2 Hs Hσ. u8_var 3 Hs Hσ.
  double_var 4 Hs Hσ. double_var 5 Hs Hσ. double_var 6 Hs Hσ. double_var 7 Hs Hσ. double_var 8 Hs Hσ.
  assert (length σ' = 25%nat) as Hl.
  { pose proof (same_shape _ _ Hs) as Hsh. apply (f_equal length) in Hsh.
    rewrite !length_map in Hsh. exact Hsh. }
  rewrite slice_ok by (unfold zlen; lia). run.
  apply handled_call; [done|]. intros g Hg. apply keeps_onconnect; [done|done|].
  unfold connect_strings. cbn [c_app c_flashver c_swfUrl c_tcUrl c_pageUrl c_fourCcList].
  assert (0 ∈ char_var 256) by by_eval. apply Forall_app. split; [by repeat constructor|].
  apply Forall_lookup. intros i s Hx. apply lookup_lt_Some in Hx as Hlt.
  unfold sub in Hlt. rewrite length_take, length_drop in Hlt. rewrite lookup_sub in Hx by lia.
  assert (shape connect_vars !! (Z.to_nat 9 + i)%nat = Some 5) as Hsh.
  { unfold connect_vars. rewrite map_app, lookup_app_r by (cbn; lia). cbn [length map].
    rewrite list_lookup_fmap. rewrite lookup_replicate_2 by lia. done. }
  destruct (string_after connect_vars σ' (9 + Z.of_nat i) 5) as (v' & Hv & Hz & _); [done|done|lia| |done|done|done|].
  { rewrite <- Hsh. f_equal. lia. }
  unfold ld in Hv. destruct (Z.ltb_spec (9 + Z.of_nat i) 0); [lia|].
  replace (Z.to_nat (9 + Z.of_nat i)) with (Z.to_nat 9 + i)%nat in Hv by lia. rewrite Hx in Hv.
  apply Ok_inj in Hv. by subst.
Qed.

Lemma oncreate_stream_handled t tid : session_inv t →
  handled t (rtmp_command_oncreate_stream indeterminate cb t tid m data bytes).
Proof.
  intros Hi. unfold rtmp_command_oncreate_stream. read_safely Hs.
  apply handled_call; [done|]. intros g Hg. by apply keeps_oncreate_stream.
Qed.

Lemma onplay_handled t tid : session_inv t →
  handled t (rtmp_command_onplay indeterminate cb t tid m data bytes).
Proof.
  intros Hi. unfold rtmp_command_onplay. read_safely Hs.
  string_var 0 Hs Hσ. double_var 1 Hs Hσ. double_var 2 Hs Hσ. u8_var 3 Hs Hσ.
  apply handled_call; [done|]. intros g Hg. by apply keeps_onplay.
Qed.

Lemma onreceive_audio_handled t tid : session_inv t →
  handled t (rtmp_command_onreceive_audio indeterminate cb t tid m data bytes).
Proof.
  intros Hi. unfold rtmp_command_onreceive_audio. read_safely Hs. u8_var 0 Hs Hσ.
  apply handled_call; [done|]. intros g Hg. by apply keeps_onreceive_audio.
Qed.

Lemma onreceive_video_handled t tid : session_inv t →
  handled t (rtmp_command_onreceive_video indeterminate cb t tid m data bytes).
Proof.
  intros Hi. unfold rtmp_command_onreceive_video. read_safely Hs. u8_var 0 Hs Hσ.
  apply handled_call; [done|]. intros g Hg. by apply keeps_onreceive_video.
Qed.

Lemma onpublish_handled t tid : session_inv t →
  handled t (rtmp_command_onpublish indeterminate cb t tid m data bytes).
Proof.
  intros Hi. unfold rtmp_command_onpublish. read_safely Hs. string_var 0 Hs Hσ. string_var 1 Hs Hσ.
  apply handled_call; [done|]. intros g Hg. by apply keeps_onpublish.
Qed.

(** Comparing two strings. *)
Lemma streq_ok a : ∀ b, 0 ∈ a → 0 ∈ b → ∃ e, streq a b = Ok e.
Proof.
  induction a as [|x a IH]; intros b Ha Hb; [by apply elem_of_nil in Ha|].
  destruct b as [|y b]; [by apply elem_of_nil in Hb|]. cbn [streq].
  destruct (Z.eqb_spec x y) as [<-|]; [|by eexists]. destruct (Z.eqb_spec x 0); [by eexists|].
  apply elem_of_cons in Ha as [?|Ha]; [congruence|]. apply elem_of_cons in Hb as [?|Hb]; [congruence|].
  by apply IH.
Qed.

(** Dispatching a command that is not fragile. *)
Lemma dispatch_handled t tid name : session_inv t → 0 ∈ name →
  Forall (λ c, streq name c = Ok false) fragile_commands →
  handled t (dispatch (s_command_handler indeterminate cb) name t tid m data bytes).
Proof.
  intros Hi Hn Hf. unfold fragile_commands in Hf. cbn [map] in Hf.
  repeat match type of Hf with Forall _ (_ :: _) => apply Forall_cons_1 in Hf as [? Hf] end.
  cbn [dispatch s_command_handler].
  repeat match goal with
  | H : streq name ?c = Ok false |- context [streq name ?c] => rewrite H; run
  | |- context [streq name ?c] =>
      let e := fresh in destruct (streq_ok name c Hn ltac:(by_eval)) as [[] e]; rewrite e; run
  end.
  all: first [ by apply onconnect_handled | by apply oncreate_stream_handled | by apply onplay_handled
             | by apply onreceive_audio_handled | by apply onreceive_video_handled
             | by apply onpublish_handled | by apply handled_ret ].
Qed.
End Commands.

(** * Every message *)

(** The name of a command message, cut to the handler's variable. *)
Definition message_command (indeterminate : Z) (h : rtmp_chunk_header_t) (m : list Z) (data : Z)
  : outcome (option (list Z)) :=
  '(ptr, σ) ← amf_read_items indeterminate m data (data + h_length h) invoke_items 2 invoke_vars;
  match ptr with
  | None => Ok None
  | Some _ => name ← ld σ 0; Ok (Some name)
  end.

Definition is_fragile (x : outcome (option (list Z))) : bool :=
  match x with
  | Ok (Some name) => existsb (λ c, match streq name c with Ok b => b | _ => false end) fragile_commands
  | _ => false
  end.

(** The message is one of the fragile commands. *)
Definition fragile_message (indeterminate : Z) (h : rtmp_chunk_header_t) (m : list Z) : bool :=
  if h_type h =? RTMP_TYPE_FLEX_MESSAGE then
    let k := if h_length h >? 0 then 1 else 0 in
    is_fragile (message_command indeterminate
      (RtmpChunkHeader (h_fmt h) (h_cid h) (h_timestamp h) (h_length h - k) (h_type h) (h_stream_id h)) m k)
  else if h_type h =? RTMP_TYPE_INVOKE then is_fragile (message_command indeterminate h m 0)
  else false.

Section Everything.
Context {P : Type} {Inv : SessionInvariant P} (indeterminate : Z) (cb : rtmp_callbacks P).
Context {Hmedia : MediaCallbacks cb} {Hcommands : CommandCallbacks cb}.

Lemma rtmp_invoke_handler_handled t h m data : session_inv t → bytes_ok m → 0 ≤ data →
  0 ≤ h_length h < 2 ^ 24 → data + h_length h ≤ zlen m →
  is_fragile (message_command indeterminate h m data) = false →
  handled t (rtmp_invoke_handler indeterminate cb t h m data).
Proof.
  intros Hi Hm Hd Hl He. unfold rtmp_invoke_handler, message_command, amf_read_items.
  destruct (amf_read_items_kept indeterminate m (data + h_length h) He Hm (Z.to_nat 2) 0 invoke_items
    (Some data) invoke_vars) as (ptr & σ' & -> & Hs & Hq);
    [lia|done|item_oks|intros ? [= <-]; lia|]. run.
  destruct ptr as [q|]; [|intros _; by apply handled_ret]. specialize (Hq q eq_refl).
  assert (Forall terminated invoke_vars) as Hσ by by_eval.
  destruct (string_after invoke_vars σ' 0 64 Hs Hσ) as (name & -> & Hn & _); [done..|]. run.
  destruct (double_after invoke_vars σ' 1 8 Hs Hσ) as (tid & ->); [done..|]. run.
  intros Hf. destruct (DOUBLE_M1 =? tid); [by apply handled_ret|].
  assert (u32 (s32 (data + h_length h - q)) = data + h_length h - q) as ->.
  { unfold u32, s32. dlia. }
  apply dispatch_handled; [done|done|lia|lia|lia|done|done|].
  apply Forall_forall. intros c Hc. cbn [is_fragile] in Hf.
  destruct (streq_ok name c Hn) as [e He'].
  { revert c Hc. apply Forall_forall. by_eval. }
  rewrite He'. destruct e; [|done]. exfalso.
  assert (existsb (λ c, match streq name c with Ok b => b | _ => false end) fragile_commands = true) as Ht;
    [|congruence].
  apply existsb_exists. exists c. rewrite He'. done.
Qed.

(** A message that is not one of the fragile commands. *)
Lemma rtmp_handler_answered t h m : 0 < in_chunk_size t → session_inv t → bytes_ok m →
  zlen m = h_length h → h_length h < 2 ^ 24 → fragile_message indeterminate h m = false →
  answered t (rtmp_handler indeterminate cb t h m).
Proof.
  intros Ht Hi Hm Hl Hmax Hf. pose proof (zlen_nonneg m).
  destruct (decide (h_type h = RTMP_TYPE_FLEX_MESSAGE)) as [E1|E1],
    (decide (h_type h = RTMP_TYPE_INVOKE)) as [E2|E2].
  - rewrite E1 in E2. done.
  - unfold rtmp_handler, fragile_message in *. rewrite E1 in *. cbn [Z.eqb Pos.eqb] in *.
    change (RTMP_TYPE_FLEX_MESSAGE =? RTMP_TYPE_FLEX_MESSAGE) with true in *. cbv iota in *.
    apply handled_answered; [done|]. set (k := if _ >? _ then 1 else 0) in *.
    assert (0 ≤ k ≤ 1 ∧ k ≤ h_length h) as Hk by (unfold k; destruct (Z.gtb_spec (h_length h) 0); lia).
    apply rtmp_invoke_handler_handled; cbn [h_length]; try done; lia.
  - unfold rtmp_handler, fragile_message in *. rewrite E2 in *.
    change (RTMP_TYPE_INVOKE =? RTMP_TYPE_FLEX_MESSAGE) with false in *.
    change (RTMP_TYPE_INVOKE =? RTMP_TYPE_INVOKE) with true in *. cbv iota in *.
    apply handled_answered; [done|]. apply rtmp_invoke_handler_handled; try done; lia.
  - by apply rtmp_media_answered.
Qed.

(** The message handler with the fragile commands answered by the code [stop],
    as the reader's client. *)
Definition screened_handler (stop : Z) (t : rtmp_t P) (h : rtmp_chunk_header_t) (m : list Z)
  : outcome (Z * rtmp_t P) :=
  if fragile_message indeterminate h m then Ok (stop, t) else rtmp_handler indeterminate cb t h m.

Lemma screened_message_handler stop : stop ≠ 0 → MessageHandler (screened_handler stop).
Proof.
  intros Hs t h m Ht Hi Hm Hl Hmax. unfold screened_handler.
  destruct (fragile_message indeterminate h m) eqn:E; [|by apply rtmp_handler_answered].
  by exists stop, t.
Qed.

(** Reading with every message handled: up to the first fragile command the
    handler itself is no different. *)
Lemma screened_read realloc stop t data : stop ≠ 0 → running t → bytes_ok data →
  ∃ r t', rtmp_chunk_read realloc (screened_handler stop) t data (zlen data) = Ok (r, t') ∧
    (r = 0 → running t') ∧
    (r ≠ stop → rtmp_chunk_read realloc (rtmp_handler indeterminate cb) t data (zlen data) = Ok (r, t')).
Proof.
  intros Hs Ht Hd. pose proof (screened_message_handler stop Hs) as Hh.
  destruct (rtmp_chunk_read_ok realloc (screened_handler stop) t data Ht Hd) as (r & t' & E & Hr).
  exists r, t'. split_and!; [done..|]. intros Hne.
  eapply (rtmp_chunk_read_agree realloc _ (screened_handler stop) stop); [exact Hs| |exact E|done].
  intros t1 h m r1 t2. unfold screened_handler. destruct (fragile_message _ _ _); [|by intros].
  intros Eq ?. apply Ok_inj in Eq. by simplify_eq.
Qed.
End Everything.
