(* ===== verification/RtmpControlSpec.v ===== *)
(** Protocol control and user control messages end to end: the bytes the
    functions of rtmp-control-message.c and rtmp-event.c write, and what
    [rtmp_handler] does with them at the other side. *)
From S2P Require Import Prelude RtmpInternal Amf0 RtmpCommand RtmpInvoke RtmpHandler.

(** * The messages *)

Inductive control :=
  | SetChunkSize (size : Z)
  | AbortMessage (chunk_stream_id : Z)
  | Acknowledgement (sequence_number : Z)
  | WindowAcknowledgementSize (size : Z)
  | SetPeerBandwidth (size limit_type : Z)
  | StreamBegin (id : Z) | StreamEof (id : Z) | StreamDry (id : Z) | StreamIsRecord (id : Z)
  | Ping (time : Z) | Pong (time : Z)
  | SetBufferLength (id ms : Z).

Definition write_control (c : control) (m : list Z) (out size : Z) : outcome (Z * list Z) :=
  match c with
  | SetChunkSize v => rtmp_set_chunk_size m out size v
  | AbortMessage v => rtmp_abort_message m out size v
  | Acknowledgement v => rtmp_acknowledgement m out size v
  | WindowAcknowledgementSize v => rtmp_window_acknowledgement_size m out size v
  | SetPeerBandwidth v l => rtmp_set_peer_bandwidth m out size v l
  | StreamBegin v => rtmp_event_stream_begin m out size v
  | StreamEof v => rtmp_event_stream_eof m out size v
  | StreamDry v => rtmp_event_stream_dry m out size v
  | StreamIsRecord v => rtmp_event_stream_is_record m out size v
  | Ping v => rtmp_event_ping m out size v
  | Pong v => rtmp_event_pong m out size v
  | SetBufferLength id ms => rtmp_event_set_buffer_length m out size id ms
  end.

Definition control_type (c : control) : Z :=
  match c with
  | SetChunkSize _ => RTMP_TYPE_SET_CHUNK_SIZE
  | AbortMessage _ => RTMP_TYPE_ABORT
  | Acknowledgement _ => RTMP_TYPE_ACKNOWLEDGEMENT
  | WindowAcknowledgementSize _ => RTMP_TYPE_WINDOW_ACKNOWLEDGEMENT_SIZE
  | SetPeerBandwidth _ _ => RTMP_TYPE_SET_PEER_BANDWIDTH
  | _ => RTMP_TYPE_EVENT
  end.

Definition control_body (c : control) : list Z :=
  let event e v := be_bytes 2 e ++ be_bytes 4 v in
  match c with
  | SetChunkSize v => be_bytes 4 (Z.land v 2147483647)
  | AbortMessage v | Acknowledgement v | WindowAcknowledgementSize v => be_bytes 4 v
  | SetPeerBandwidth v l => be_bytes 4 v ++ [l]
  | StreamBegin v => event RTMP_EVENT_STREAM_BEGIN v
  | StreamEof v => event RTMP_EVENT_STREAM_EOF v
  | StreamDry v => event RTMP_EVENT_STREAM_DRY v
  | StreamIsRecord v => event RTMP_EVENT_STREAM_IS_RECORD v
  | Ping v => event RTMP_EVENT_PING v
  | Pong v => event RTMP_EVENT_PONG v
  | SetBufferLength id ms => event RTMP_EVENT_SET_BUFFER_LENGTH id ++ be_bytes 4 ms
  end.

(** A chunk of format 0 on chunk stream 2, with time and stream 0. *)
Definition control_head (c : control) : list Z :=
  [2; 0; 0; 0] ++ be_bytes 3 (zlen (control_body c)) ++ [control_type c; 0; 0; 0; 0].
Definition control_bytes (c : control) : list Z := control_head c ++ control_body c.

(** The arguments as the code types them. *)
Definition control_ok (c : control) : Prop :=
  match c with
  | SetPeerBandwidth v l => is_uint 32 v ∧ is_byte l
  | SetBufferLength id ms => is_uint 32 id ∧ is_uint 32 ms
  | SetChunkSize v | AbortMessage v | Acknowledgement v | WindowAcknowledgementSize v | StreamBegin v
  | StreamEof v | StreamDry v | StreamIsRecord v | Ping v | Pong v => is_uint 32 v
  end.

(** * Writing *)

Lemma control_header_ok m out id n : 0 ≤ out → out + 12 ≤ zlen m →
  rtmp_protocol_control_message_header m out id n
  = Ok (put m out ([2; 0; 0; 0] ++ be_bytes 3 n ++ [id; 0; 0; 0; 0])).
Proof.
  intros Ho Hm. unfold rtmp_protocol_control_message_header. change (Z.lor (Z.shiftl 0 6) 2) with 2.
  assert ([u8 (Z.shiftr n 16); u8 (Z.shiftr n 8); u8 n] = be_bytes 3 n) as ->.
  { rewrite be_bytes_3. by_cells ltac:(masks; unfold u8; dlia). }
  repeat (rewrite st_ok by llia; run). rewrite (put_app_at m out (out + 1)) by llia.
  rewrite (put_app_at m out (out + 4)) by llia. rewrite (put_app_at m out (out + 7)) by llia.
  rewrite (put_app_at m out (out + 8)) by llia. by rewrite <- !app_assoc.
Qed.

Lemma user_control_header_ok m out n : 0 ≤ out → out + 12 ≤ zlen m →
  rtmp_user_control_message_header m out n
  = Ok (put m out ([2; 0; 0; 0] ++ be_bytes 3 n ++ [RTMP_TYPE_EVENT; 0; 0; 0; 0])).
Proof. intros. by apply (control_header_ok m out RTMP_TYPE_EVENT n). Qed.

Lemma zlen_control_head c : zlen (control_head c) = 12.
Proof. unfold control_head. llia. Qed.

Lemma zlen_control_bytes c : zlen (control_bytes c) = 12 + zlen (control_body c).
Proof. unfold control_bytes. by rewrite zlen_app, zlen_control_head. Qed.

Lemma write_control_ok c m out size : 0 ≤ out → out + size ≤ zlen m →
  12 + zlen (control_body c) ≤ size →
  write_control c m out size = Ok (zlen (control_bytes c), put m out (control_bytes c)).
Proof.
  intros Ho Hm Hs. rewrite zlen_control_bytes. unfold control_bytes.
  pose proof (zlen_control_head c) as Hh. set (hdr := control_head c) in *.
  destruct c; cbn [write_control control_body control_type] in *;
    unfold rtmp_set_chunk_size, rtmp_abort_message, rtmp_acknowledgement,
      rtmp_window_acknowledgement_size, rtmp_set_peer_bandwidth, rtmp_event_stream_begin,
      rtmp_event_stream_eof, rtmp_event_stream_dry, rtmp_event_stream_is_record, rtmp_event_ping,
      rtmp_event_pong, rtmp_event_word, rtmp_event_set_buffer_length, N_CHUNK_HEADER;
    autorewrite with zlen in Hs |- *; cbn [Z.of_nat Pos.of_succ_nat Pos.succ] in Hs;
    (match goal with |- context [size <? ?k] => destruct (Z.ltb_spec size k); [lia|] end);
    rewrite ?control_header_ok, ?user_control_header_ok by lia;
    change (zlen (be_bytes _ _)) with 4 in *; run;
    (match goal with |- context [put m out ?h] => change h with hdr end);
    repeat (rewrite ?be_write_uint16_spec, ?be_write_uint32_spec; rewrite st_ok by llia; run;
      rewrite (put_app_at m out) by llia);
    by rewrite <- ?app_assoc.
Qed.

(** A buffer that is too small is left alone. *)
Lemma write_control_short c m out size : size < 12 + zlen (control_body c) →
  write_control c m out size = Ok (0, m).
Proof.
  intros Hs. destruct c; cbn [write_control control_body] in *; autorewrite with zlen in Hs;
    cbn [Z.of_nat Pos.of_succ_nat Pos.succ] in Hs;
    unfold rtmp_set_chunk_size, rtmp_abort_message, rtmp_acknowledgement,
      rtmp_window_acknowledgement_size, rtmp_set_peer_bandwidth, rtmp_event_stream_begin,
      rtmp_event_stream_eof, rtmp_event_stream_dry, rtmp_event_stream_is_record, rtmp_event_ping,
      rtmp_event_pong, rtmp_event_word, rtmp_event_set_buffer_length, N_CHUNK_HEADER;
    (match goal with |- context [size <? ?k] => destruct (Z.ltb_spec size k); [done|lia] end).
Qed.

(** * Handling *)

Section Effect.
Context {P : Type} (indeterminate : Z) (cb : rtmp_callbacks P).

(** What a peer's session makes of the message. *)
Definition control_effect (c : control) (t : rtmp_t P) : outcome (Z * rtmp_t P) :=
  match c with
  | SetChunkSize v =>
      let v := Z.land v 2147483647 in
      Ok (if (v <? RTMP_CHUNK_SIZE_MINIMUM) || (v >? RTMP_CHUNK_SIZE_MAXIMUM) then -1 else 0,
          set_in_chunk_size t v)
  | AbortMessage v => t ← onabort cb t v; Ok (0, t)
  | Acknowledgement v => Ok (0, set_sequence_number t v)
  | WindowAcknowledgementSize v => Ok (0, set_window_size t v)
  | SetPeerBandwidth v l =>
      let t := set_peer_bandwidth t v l in
      '(_, t) ← call (client_onbandwidth cb) 0 t (λ f, f t); Ok (0, t)
  | StreamBegin _ | StreamDry _ | StreamIsRecord _ | Pong _ => Ok (0, t)
  | StreamEof v => '(_, t) ← call (client_oneof cb) 0 t (λ f, f t v); Ok (0, t)
  | Ping v => '(_, t) ← call (client_onping cb) 0 t (λ f, f t v); Ok (0, t)
  | SetBufferLength _ ms => Ok (0, set_buffer_length_ms t ms)
  end.

Lemma be_read_uint32_body a v b : is_uint 32 v → bytes_ok a → bytes_ok b →
  be_read_uint32 (a ++ be_bytes 4 v ++ b) (zlen a) = Ok v.
Proof.
  intros Hv Ha Hb. pose proof (zlen_nonneg a). pose proof (zlen_nonneg b).
  rewrite be_read_uint32_spec; [|rewrite !bytes_ok_app; split_and!; auto with cint|lia|llia].
  rewrite sub_mid by (rewrite ?zlen_be_bytes; done). f_equal. by apply be_val_bytes.
Qed.

Lemma be_read_uint16_body v b : is_uint 16 v → bytes_ok b →
  be_read_uint16 (be_bytes 2 v ++ b) 0 = Ok v.
Proof.
  intros Hv Hb. pose proof (zlen_nonneg b).
  rewrite be_read_uint16_spec; [|rewrite !bytes_ok_app; split_and!; auto with cint|lia|llia].
  rewrite sub_head by (rewrite ?zlen_be_bytes; done). f_equal. by apply be_val_bytes.
Qed.

Lemma be_read_first v b : is_uint 32 v → bytes_ok b → be_read_uint32 (be_bytes 4 v ++ b) 0 = Ok v.
Proof. intros. apply (be_read_uint32_body [] v b); auto using bytes_ok_nil. Qed.

(** The words of an event message. *)
Lemma read_event e v b : is_uint 16 e → is_uint 32 v → bytes_ok b →
  be_read_uint16 ((be_bytes 2 e ++ be_bytes 4 v) ++ b) 0 = Ok e ∧
  be_read_uint32 ((be_bytes 2 e ++ be_bytes 4 v) ++ b) 2 = Ok v.
Proof.
  intros He Hv Hb. rewrite <- app_assoc. split.
  - apply be_read_uint16_body; [done|]. rewrite bytes_ok_app. split; auto with cint.
  - apply (be_read_uint32_body (be_bytes 2 e) v b); auto with cint.
Qed.

(** A message that is one word. *)
Lemma be_read_whole v : is_uint 32 v → be_read_uint32 (be_bytes 4 v) 0 = Ok v.
Proof. intros. rewrite <- (app_nil_r (be_bytes 4 v)). by apply be_read_first, bytes_ok_nil. Qed.

Lemma land_chunk_size v : is_uint 32 v → is_uint 32 (Z.land v 2147483647).
Proof. intros. masks. unfold_ints. dlia. Qed.

(** Comparisons of the lengths. *)
Ltac eval_order :=
  try change (Z.of_nat 4 + zlen [_]) with 5; try change (Z.of_nat 2 + Z.of_nat 4 + Z.of_nat 4) with 10;
  try change (Z.of_nat 2 + Z.of_nat 4) with 6; try change (Z.of_nat 4) with 4;
  repeat match goal with
  | |- context [Z.pos ?a <? Z.pos ?b] => let v := eval vm_compute in (Z.pos a <? Z.pos b) in
      change (Z.pos a <? Z.pos b) with v; cbv iota
  | |- context [Z.pos ?a >=? Z.pos ?b] => let v := eval vm_compute in (Z.pos a >=? Z.pos b) in
      change (Z.pos a >=? Z.pos b) with v; cbv iota
  end.
(** A callback is called the same way on both sides. *)
Ltac same_call := match goal with
  | |- context [call ?a ?b ?c ?d] => destruct (call a b c d) as [| |[? ?]]; done
  end.

Lemma control_handled c t header : control_ok c → h_type header = control_type c →
  h_length header = zlen (control_body c) →
  rtmp_handler indeterminate cb t header (control_body c) = control_effect c t.
Proof.
  intros Hok Hty Hl. unfold rtmp_handler, rtmp_control_handler, rtmp_event_handler. rewrite Hty, Hl.
  destruct c; cbn [control_type control_ok control_body control_effect] in *;
    rewrite ?zlen_app, ?zlen_be_bytes; eval_tests; cbn [orb negb];
    unfold rtmp_read_chunk_size, rtmp_read_abort_message, rtmp_read_acknowledgement,
      rtmp_read_window_acknowledgement_size, rtmp_read_word, rtmp_read_set_peer_bandwidth; eval_order.
  1: rewrite be_read_whole by (by apply land_chunk_size); run; by destruct (_ || _).
  1: rewrite be_read_whole by done; run; by destruct (onabort _ _ _).
  1,2: by rewrite be_read_whole.
  1: destruct Hok as [Hv Hlt]; rewrite be_read_first by (done || by apply Forall_singleton); run;
     rewrite (ld_ok _ 4) by llia; run;
     change ((be_bytes 4 size ++ [limit_type]) !!! Z.to_nat 4) with limit_type; run; eval_tests; same_call.
  7: destruct Hok as [Hv Hms];
     destruct (read_event RTMP_EVENT_SET_BUFFER_LENGTH id (be_bytes 4 ms)) as [-> ->]; auto with cint;
       [by_eval|]; run; eval_tests; cbn [orb]; eval_order;
     pose proof (be_read_uint32_body (be_bytes 2 RTMP_EVENT_SET_BUFFER_LENGTH ++ be_bytes 4 id) ms []) as H;
     rewrite app_nil_r in H;
     change (zlen (be_bytes 2 RTMP_EVENT_SET_BUFFER_LENGTH ++ be_bytes 4 id)) with 6 in H;
     rewrite H by (done || rewrite ?bytes_ok_app; auto with cint || apply bytes_ok_nil); run; done.
  all: match goal with |- context [be_bytes 2 ?e ++ be_bytes 4 ?v] =>
      destruct (read_event e v []) as [H1 H2]; [by_eval|done|apply bytes_ok_nil|] end;
    rewrite app_nil_r in H1, H2; rewrite H1; run; rewrite H2; run; eval_tests; cbn [orb]; run;
    first [done|same_call].
Qed.
End Effect.

(** * Properties *)

(** C35: a protocol control or user control message written into a buffer with room
    has a 12-byte header and the message's body, touches nothing else, and makes
    the peer's [rtmp_handler] store the value sent or call the callback of the
    event; a buffer without room is left alone and 0 is returned. *)
Theorem rtmp_control_delivered {P} indeterminate (cb : rtmp_callbacks P) t header c m out size :
  control_ok c → 0 ≤ out → out + size ≤ zlen m →
  if size <? 12 + zlen (control_body c) then write_control c m out size = Ok (0, m) else
  ∃ n, write_control c m out size = Ok (n, put m out (control_bytes c)) ∧
    n = 12 + zlen (control_body c) ∧
    (h_type header = control_type c → h_length header = zlen (control_body c) →
     rtmp_handler indeterminate cb t header (sub (put m out (control_bytes c)) (out + 12) (n - 12))
     = control_effect cb c t).
Proof.
  intros Hok Ho Hm. destruct (Z.ltb_spec size (12 + zlen (control_body c))) as [Hs|Hs].
  { by apply write_control_short. }
  pose proof (zlen_control_bytes c) as Hz. pose proof (zlen_nonneg (control_body c)).
  exists (12 + zlen (control_body c)). rewrite write_control_ok, Hz by lia. split_and!; [done..|].
  intros Hty Hl. rewrite <- (control_handled indeterminate cb c t header Hok Hty Hl). f_equal.
  replace (12 + zlen (control_body c) - 12) with (zlen (control_body c)) by lia.
  unfold control_bytes. pose proof (zlen_control_head c) as Hh.
  rewrite <- (put_app m out (control_head c)) by lia. rewrite Hh. apply sub_put; [lia|].
  rewrite zlen_put; lia.
Qed.

Definition demo_control : rtmp_callbacks unit :=
  RtmpCallbacks _ (λ t _ _, Ok (0, t)) (λ t _ _, Ok (0, t)) (λ t _ _, Ok (0, t)) (λ t _, Ok t)
    None None None None None None None None None None None None None None None None None.

Lemma rtmp_control_delivered_witness :
  ∃ n, write_control (SetChunkSize 4096) (char_var 20) 2 18
    = Ok (n, put (char_var 20) 2 (control_bytes (SetChunkSize 4096))) ∧ n = 16 ∧
    (1 = 1 → 4 = 4 →
     rtmp_handler 0 demo_control (rtmp_create ()) (RtmpChunkHeader 0 2 0 4 1 0)
       (sub (put (char_var 20) 2 (control_bytes (SetChunkSize 4096))) 14 (n - 12))
     = Ok (0, set_in_chunk_size (rtmp_create ()) 4096)).
Proof.
  apply (rtmp_control_delivered 0 demo_control (rtmp_create ()) (RtmpChunkHeader 0 2 0 4 1 0)
    (SetChunkSize 4096) (char_var 20) 2 18); [by_eval|lia|by_eval].
Defined.

(** A chunk size outside the accepted range is answered with an error, but is
    stored all the same. *)
Theorem rtmp_control_rejected_size_stored {P} indeterminate (cb : rtmp_callbacks P) t header v :
  is_uint 31 v → v < RTMP_CHUNK_SIZE_MINIMUM ∨ RTMP_CHUNK_SIZE_MAXIMUM < v →
  h_type header = RTMP_TYPE_SET_CHUNK_SIZE → h_length header = 4 →
  rtmp_handler indeterminate cb t header (be_bytes 4 v) = Ok (-1, set_in_chunk_size t v).
Proof.
  intros Hv Hr Hty Hl.
  assert (Z.land v 2147483647 = v) as Hland by (masks; unfold_ints; dlia).
  pose proof (control_handled indeterminate cb (SetChunkSize v) t header) as H.
  cbn [control_ok control_type control_body control_effect] in H. rewrite Hland in H.
  rewrite H; [|unfold_ints; dlia|done|done].
  destruct (Z.ltb_spec v RTMP_CHUNK_SIZE_MINIMUM), (Z.gtb_spec v RTMP_CHUNK_SIZE_MAXIMUM);
    cbn [orb]; done || lia.
Qed.

Lemma rtmp_control_rejected_size_stored_witness :
  rtmp_handler 0 demo_control (rtmp_create ()) (RtmpChunkHeader 0 2 0 4 1 0) (be_bytes 4 0)
  = Ok (-1, set_in_chunk_size (rtmp_create ()) 0).
Proof.
  apply (rtmp_control_rejected_size_stored 0 demo_control (rtmp_create ()) (RtmpChunkHeader 0 2 0 4 1 0) 0);
    [by_eval|by left|done|done].
Defined.
