(* ===== verification/RtmpHandshake.v ===== *)
(** The RTMP handshake: src/third/ireader/librtmp/source/rtmp-handshake.c in
    the configuration the project builds, without the digest handshake of
    _FLASH_HANDSHAKE_.

    [rand seed i] is the [i]-th value of rand() after srand(seed). *)
From S2P Require Import Prelude RtmpInternal.

Definition RTMP_VERSION : Z := 3.
Definition RTMP_HANDSHAKE_SIZE : Z := 1536.

Definition RTMP_HANDSHAKE_UNINIT : Z := 0.
Definition RTMP_HANDSHAKE_0 : Z := 1.
Definition RTMP_HANDSHAKE_1 : Z := 2.
Definition RTMP_HANDSHAKE_2 : Z := 3.

Section Handshake.
Variable rand : Z → Z → Z.

(** The loop of [rtmp_handshake_random] from [i]; a value is copied as the
    four bytes of the machine, the lowest first. *)
Fixpoint rtmp_handshake_random_loop (fuel : nat) (i : Z) (m : list Z) (p timestamp : Z)
  : outcome (list Z) :=
  if i * 4 <? RTMP_HANDSHAKE_SIZE - 8 then
    match fuel with
    | O => Ub
    | S fuel =>
        m ← st m (p + i * 4) (le_bytes4 (u32 (rand timestamp i)));
        rtmp_handshake_random_loop fuel (i + 1) m p timestamp
    end
  else Ok m.

(** 382 values. *)
Definition rtmp_handshake_random (m : list Z) (p timestamp : Z) : outcome (list Z) :=
  rtmp_handshake_random_loop 382 0 m p timestamp.

(** Every function returns the number of bytes with the buffer. *)
Definition rtmp_handshake_c0 (m : list Z) (c0 version : Z) : outcome (Z * list Z) :=
  m ← st m c0 [u8 version]; Ok (1, m).

Definition rtmp_handshake_c1 (m : list Z) (c1 timestamp : Z) : outcome (Z * list Z) :=
  m ← be_write_uint32 m c1 timestamp;
  m ← be_write_uint32 m (c1 + 4) 0;
  m ← rtmp_handshake_random m (c1 + 8) timestamp;
  Ok (RTMP_HANDSHAKE_SIZE, m).

(** [s1] is the offset of the peer's message in the same buffer. *)
Definition rtmp_handshake_c2 (m : list Z) (c2 timestamp s1 bytes : Z) : outcome (Z * list Z) :=
  b ← slice m s1 bytes;
  m ← st m c2 b;
  m ← be_write_uint32 m (c2 + 4) timestamp;
  Ok (bytes, m).

Definition rtmp_handshake_s0 (m : list Z) (s0 version : Z) : outcome (Z * list Z) :=
  m ← st m s0 [u8 version]; Ok (1, m).

Definition rtmp_handshake_s1 (m : list Z) (s1 timestamp : Z) : outcome (Z * list Z) :=
  m ← be_write_uint32 m s1 timestamp;
  m ← be_write_uint32 m (s1 + 4) 0;
  m ← rtmp_handshake_random m (s1 + 8) timestamp;
  Ok (RTMP_HANDSHAKE_SIZE, m).

(** [c1] is the peer's message, in another buffer. *)
Definition rtmp_handshake_s2 (m : list Z) (s2 : Z) (c1 : list Z) (bytes : Z) : outcome (Z * list Z) :=
  b ← slice c1 0 bytes;
  m ← st m s2 b;
  Ok (RTMP_HANDSHAKE_SIZE, m).

(** * The messages as byte lists *)

Definition random_words (timestamp i : Z) (n : nat) : list Z :=
  concat (map (λ k, le_bytes4 (u32 (rand timestamp (i + Z.of_nat k)))) (seq 0 n)).

(** C1 and S1: the time, a zero and random bytes. *)
Definition handshake_1 (timestamp : Z) : list Z :=
  be_bytes 4 timestamp ++ be_bytes 4 0 ++ random_words timestamp 0 382.
End Handshake.
