(* ===== verification/RtmpServer.v ===== *)
(** The RTMP server: src/third/ireader/librtmp/source/rtmp-server.c.

    The session is the [rtmp_t] whose [param] is the rest of
    [struct rtmp_server_t]; the application's own object is its field [app].
    The application's callbacks are arguments.  They take the session because
    they may call the server again, as the code expects of onplay and
    onpublish; the send callback only has the application's object. *)
From stdpp Require Import strings.
From S2P Require Import Prelude RtmpInternal RtmpChunk Amf0 RtmpCommand RtmpInvoke RtmpHandler.
From S2P Require Import RtmpHandshake.
Open Scope Z_scope.

Definition RTMP_FMSVER : list Z := lit "FMS/3,0,1,123".
(** 31.0 *)
Definition RTMP_CAPABILITIES : Z := 4629418941960159232.
Definition RTMP_OUTPUT_CHUNK_SIZE : Z := 4096.
Definition RTMP_BANDWIDTH_LIMIT_DYNAMIC : Z := 2.
Definition RTMP_STREAM_LIVE : list Z := lit "live".
Definition RTMP_STREAM_RECORD : list Z := lit "record".

Definition RTMP_SERVER_ONPLAY : Z := 1.
Definition RTMP_SERVER_ONPUBLISH : Z := 2.
Definition RTMP_SERVER_ASYNC_START : Z := 305419896.
Definition RTMP_SERVER_START_RECONNECT : Z := 1.

(** sizeof(ctx->payload) and sizeof(ctx->handshake) *)
Definition PAYLOAD_SIZE : Z := 2 * 1024.
Definition HANDSHAKE_BUFFER : Z := 2 * RTMP_HANDSHAKE_SIZE + 1.

(** [start] *)
Record server_start_t := ServerStart {
  st_transaction : Z;
  st_reset : Z;
  st_play : Z
}.

Record rtmp_server_t (U : Type) := RtmpServer {
  sv_recv_bytes : Z * Z;
  sv_app : U;
  sv_payload : list Z;    (* [2 * 1024] *)
  sv_handshake : list Z;  (* [2 * RTMP_HANDSHAKE_SIZE + 1] *)
  sv_handshake_bytes : Z;
  sv_handshake_state : Z;
  sv_info : rtmp_connect_t;
  sv_stream_name : list Z;  (* [256] *)
  sv_stream_type : list Z;  (* [18] *)
  sv_stream_id : Z;
  sv_receiveAudio : Z;
  sv_receiveVideo : Z;
  sv_start : server_start_t
}.
Arguments RtmpServer {U}. Arguments sv_recv_bytes {U}. Arguments sv_app {U}. Arguments sv_payload {U}.
Arguments sv_handshake {U}. Arguments sv_handshake_bytes {U}. Arguments sv_handshake_state {U}.
Arguments sv_info {U}. Arguments sv_stream_name {U}. Arguments sv_stream_type {U}. Arguments sv_stream_id {U}.
Arguments sv_receiveAudio {U}. Arguments sv_receiveVideo {U}. Arguments sv_start {U}.

(** [struct rtmp_t rtmp] with the server around it. *)
Abbreviation session U := (rtmp_t (rtmp_server_t U)).

(** * Assignments to the fields *)

Section Fields.
Context {U : Type}.
Implicit Types s : rtmp_server_t U.

Definition set_recv_bytes s v := RtmpServer v (sv_app s) (sv_payload s) (sv_handshake s) (sv_handshake_bytes s)
  (sv_handshake_state s) (sv_info s) (sv_stream_name s) (sv_stream_type s) (sv_stream_id s) (sv_receiveAudio s)
  (sv_receiveVideo s) (sv_start s).
Definition set_app s (v : U) := RtmpServer (sv_recv_bytes s) v (sv_payload s) (sv_handshake s) (sv_handshake_bytes s)
  (sv_handshake_state s) (sv_info s) (sv_stream_name s) (sv_stream_type s) (sv_stream_id s) (sv_receiveAudio s)
  (sv_receiveVideo s) (sv_start s).
Definition set_payload s v := RtmpServer (sv_recv_bytes s) (sv_app s) v (sv_handshake s) (sv_handshake_bytes s)
  (sv_handshake_state s) (sv_info s) (sv_stream_name s) (sv_stream_type s) (sv_stream_id s) (sv_receiveAudio s)
  (sv_receiveVideo s) (sv_start s).
Definition set_handshake s v := RtmpServer (sv_recv_bytes s) (sv_app s) (sv_payload s) v (sv_handshake_bytes s)
  (sv_handshake_state s) (sv_info s) (sv_stream_name s) (sv_stream_type s) (sv_stream_id s) (sv_receiveAudio s)
  (sv_receiveVideo s) (sv_start s).
Definition set_handshake_state s bytes state := RtmpServer (sv_recv_bytes s) (sv_app s) (sv_payload s)
  (sv_handshake s) bytes state (sv_info s) (sv_stream_name s) (sv_stream_type s) (sv_stream_id s) (sv_receiveAudio s)
  (sv_receiveVideo s) (sv_start s).
Definition set_info s v := RtmpServer (sv_recv_bytes s) (sv_app s) (sv_payload s) (sv_handshake s)
  (sv_handshake_bytes s) (sv_handshake_state s) v (sv_stream_name s) (sv_stream_type s) (sv_stream_id s)
  (sv_receiveAudio s) (sv_receiveVideo s) (sv_start s).
Definition set_stream_names s name type := RtmpServer (sv_recv_bytes s) (sv_app s) (sv_payload s)
  (sv_handshake s) (sv_handshake_bytes s) (sv_handshake_state s) (sv_info s) name type (sv_stream_id s)
  (sv_receiveAudio s) (sv_receiveVideo s) (sv_start s).
Definition set_stream_id s v := RtmpServer (sv_recv_bytes s) (sv_app s) (sv_payload s) (sv_handshake s)
  (sv_handshake_bytes s) (sv_handshake_state s) (sv_info s) (sv_stream_name s) (sv_stream_type s) v
  (sv_receiveAudio s) (sv_receiveVideo s) (sv_start s).
Definition set_receive s audio video := RtmpServer (sv_recv_bytes s) (sv_app s) (sv_payload s) (sv_handshake s)
  (sv_handshake_bytes s) (sv_handshake_state s) (sv_info s) (sv_stream_name s) (sv_stream_type s) (sv_stream_id s)
  audio video (sv_start s).
Definition set_start s v := RtmpServer (sv_recv_bytes s) (sv_app s) (sv_payload s) (sv_handshake s)
  (sv_handshake_bytes s) (sv_handshake_state s) (sv_info s) (sv_stream_name s) (sv_stream_type s) (sv_stream_id s)
  (sv_receiveAudio s) (sv_receiveVideo s) v.
Definition set_play s v :=
  set_start s (ServerStart (st_transaction (sv_start s)) (st_reset (sv_start s)) v).

(** The same through the session. *)
Definition upd (f : rtmp_server_t U → rtmp_server_t U) (t : session U) : session U :=
  set_param t (f (param t)).
End Fields.

Definition set_out_chunk_size {P} (t : rtmp_t P) (v : Z) : rtmp_t P :=
  Rtmp (in_chunk_size t) v (sequence_number t) (window_size t) (peer_bandwidth t)
    (buffer_length_ms t) (limit_type t) (in_packets t) (out_packets t) (parser t)
    (chunk_write_header t) (param t).

(** [snprintf(m, n, ...)] of the string [s] into an array of at least [n] cells. *)
Definition snprintf_s (m : list Z) (n : Z) (s : list Z) : outcome (list Z) :=
  k ← strlen s;
  st m 0 (sub s 0 (Z.min k (n - 1)) ++ [0]).

(** * The application *)

(** [struct rtmp_server_handler_t]; the callbacks the code tests for null are
    options. *)
Record rtmp_server_handler_t (U : Type) := RtmpServerHandler {
  h_send : U → list Z → list Z → Z * U;
  h_ondelete_stream : option (session U → Z → outcome (Z * session U));
  h_onplay : session U → list Z → list Z → Z → Z → Z → outcome (Z * session U);
  h_onpause : session U → Z → Z → outcome (Z * session U);
  h_onseek : session U → Z → outcome (Z * session U);
  h_onpublish : session U → list Z → list Z → list Z → outcome (Z * session U);
  h_onvideo : session U → list Z → Z → outcome (Z * session U);
  h_onaudio : session U → list Z → Z → outcome (Z * session U);
  h_onscript : session U → list Z → Z → outcome (Z * session U);
  (** The code, and the value stored through [duration]. *)
  h_ongetduration : option (session U → list Z → list Z → Z → outcome (Z * Z * session U))
}.
Arguments h_send {U}. Arguments h_ondelete_stream {U}. Arguments h_onplay {U}.
Arguments h_onpause {U}. Arguments h_onseek {U}. Arguments h_onpublish {U}. Arguments h_onvideo {U}.
Arguments h_onaudio {U}. Arguments h_onscript {U}. Arguments h_ongetduration {U}.

(** [r = 0 == r ? next : r] *)
Definition and_then {A} (r : Z) (t : A) (next : A → outcome (Z * A)) : outcome (Z * A) :=
  if 0 =? r then next t else Ok (r, t).

Definition UINT32 (bits : Z) : outcome Z := double_to_int 0 UINT32_MAX bits.

Section Server.
Context {U : Type}.
Variable realloc : Z → bool.
Variable indeterminate : Z.
Variable rand : Z → Z → Z.
(** time(NULL) *)
Variable now : Z.
Variable handler : rtmp_server_handler_t U.
Implicit Types t : session U.

(** [rtmp->send]: [rtmp_server_send] *)
Definition rtmp_server_send (s : rtmp_server_t U) (header payload : list Z) : Z * rtmp_server_t U :=
  let '(r, u) := h_send handler (sv_app s) header payload in
  (if r =? s32 (zlen payload + zlen header) then 0 else -1, set_app s u).

(** [ctx->handler.send(ctx->param, m, n, NULL, 0)] *)
Definition handler_send t (m : list Z) (n : Z) : outcome (Z * session U) :=
  b ← slice m 0 n;
  let '(r, u) := h_send handler (sv_app (param t)) b [] in
  Ok (r, upd (λ s, set_app s u) t).

(** The sending half of a function that has written [n] bytes to
    [ctx->payload]. *)
Definition send_payload t (written : outcome (Z * list Z)) : outcome (Z * session U) :=
  '(n, m) ← written;
  let t := upd (λ s, set_payload s m) t in
  '(r, t) ← handler_send t m n;
  Ok (if n =? r then 0 else r, t).

(** [(int)(write(ctx->payload, sizeof(ctx->payload), ...) - ctx->payload)] *)
Definition build_payload t (write : list Z → Z → Z → outcome (list Z * option Z))
  : outcome (Z * session U) :=
  '(m, ptr) ← write (sv_payload (param t)) 0 PAYLOAD_SIZE;
  n ← deref ptr;
  Ok (n, upd (λ s, set_payload s m) t).

(** [rtmp_chunk_write(rtmp, &header, data)] with a header of the [length] bytes
    at [data]. *)
Definition write_message_from t (fmt cid timestamp length type stream_id : Z) (data : list Z)
  : outcome (Z * session U) :=
  b ← slice data 0 length;
  rtmp_chunk_write realloc rtmp_server_send t (RtmpChunkHeader fmt cid timestamp length type stream_id) b.

Definition rtmp_server_send_control t (bytes stream_id : Z) : outcome (Z * session U) :=
  write_message_from t RTMP_CHUNK_TYPE_0 RTMP_CHANNEL_INVOKE 0 (u32 bytes) RTMP_TYPE_INVOKE stream_id
    (sv_payload (param t)).

Definition rtmp_server_send_onstatus t (transaction r : Z) (success fail description : list Z)
  : outcome (Z * session U) :=
  '(n, t) ← build_payload t (λ m out bytes, rtmp_netstream_onstatus m out bytes transaction
              (Some (if 0 =? r then RTMP_LEVEL_STATUS else RTMP_LEVEL_ERROR))
              (Some (if 0 =? r then success else fail)) (Some description));
  rtmp_server_send_control t n (sv_stream_id (param t)).

Definition rtmp_server_send_handshake t : outcome (Z * session U) :=
  '(n, m) ← rtmp_handshake_s0 (sv_handshake (param t)) 0 RTMP_VERSION;
  '(k, m) ← rtmp_handshake_s1 rand m n now;
  let n := n + k in
  '(k, m) ← rtmp_handshake_s2 m n (sv_payload (param t)) RTMP_HANDSHAKE_SIZE;
  let n := n + k in
  let t := upd (λ s, set_handshake s m) t in
  '(r, t) ← handler_send t m n;
  Ok (if n =? r then 0 else r, t).

Definition rtmp_server_send_set_chunk_size t : outcome (Z * session U) :=
  '(r, t) ← send_payload t
    (rtmp_set_chunk_size (sv_payload (param t)) 0 PAYLOAD_SIZE RTMP_OUTPUT_CHUNK_SIZE);
  Ok (r, set_out_chunk_size t RTMP_OUTPUT_CHUNK_SIZE).

Definition rtmp_server_send_acknowledgement t (size : Z) : outcome (Z * session U) :=
  let '(n0, n1) := sv_recv_bytes (param t) in
  let n0 := u32 (n0 + u32 size) in
  let t := upd (λ s, set_recv_bytes s (n0, n1)) t in
  if truth (window_size t) && (u32 (n0 - n1) >? window_size t) then
    '(r, t) ← send_payload t (rtmp_acknowledgement (sv_payload (param t)) 0 PAYLOAD_SIZE n0);
    Ok (r, upd (λ s, set_recv_bytes s (n0, n0)) t)
  else Ok (0, t).

Definition rtmp_server_send_server_bandwidth t : outcome (Z * session U) :=
  send_payload t
    (rtmp_window_acknowledgement_size (sv_payload (param t)) 0 PAYLOAD_SIZE (window_size t)).

Definition rtmp_server_send_client_bandwidth t : outcome (Z * session U) :=
  send_payload t (rtmp_set_peer_bandwidth (sv_payload (param t)) 0 PAYLOAD_SIZE (peer_bandwidth t)
    RTMP_BANDWIDTH_LIMIT_DYNAMIC).

Definition rtmp_server_send_stream_is_record t : outcome (Z * session U) :=
  send_payload t
    (rtmp_event_stream_is_record (sv_payload (param t)) 0 PAYLOAD_SIZE (sv_stream_id (param t))).

Definition rtmp_server_send_stream_begin t : outcome (Z * session U) :=
  send_payload t
    (rtmp_event_stream_begin (sv_payload (param t)) 0 PAYLOAD_SIZE (sv_stream_id (param t))).

Definition rtmp_server_rtmp_sample_access t : outcome (Z * session U) :=
  '(n, t) ← build_payload t rtmp_netstream_rtmpsampleaccess;
  write_message_from t RTMP_CHUNK_TYPE_0 RTMP_CHANNEL_INVOKE 0 (u32 n) RTMP_TYPE_DATA
    (sv_stream_id (param t)) (sv_payload (param t)).

(** [msg && *msg ? msg : otherwise] *)
Definition message_or (msg : option (list Z)) (otherwise : list Z) : outcome (list Z) :=
  match msg with
  | None => Ok otherwise
  | Some s => c ← ld s 0; Ok (if truth c then s else otherwise)
  end.

Definition rtmp_server_start t (r : Z) (msg : option (list Z)) : outcome (Z * session U) :=
  let done '(r, t) := Ok (r, upd (λ s, set_play s 0) t) in
  let play := st_play (sv_start (param t)) in
  let transaction := st_transaction (sv_start (param t)) in
  if RTMP_SERVER_START_RECONNECT =? r then
    capsEx ← UINT32 (c_capsEx (sv_info (param t)));
    '(n, t) ← build_payload t (λ m out bytes,
                if truth (Z.land capsEx 1)
                then rtmp_netstream_onreconnect m out bytes DOUBLE_0 msg (Some (lit ""))
                else rtmp_netstream_onconnect_rejected m out bytes DOUBLE_0 msg (Some (lit "")));
    rtmp_server_send_control t n (sv_stream_id (param t)) ≫= done
  else if RTMP_SERVER_ONPLAY =? play then
    '(r, t, stop) ←
      (if 0 =? r then
         '(r, t) ← rtmp_server_send_stream_begin t;
         '(r, t) ←
           (if truth (st_reset (sv_start (param t))) then
              and_then r t (λ t, rtmp_server_send_onstatus t (st_transaction (sv_start (param t))) 0
                (lit "NetStream.Play.Reset") (lit "NetStream.Play.Failed") (lit ""))
            else Ok (r, t));
         Ok (r, t, negb (0 =? r))
       else Ok (r, t, false));
    if (stop : bool) then Ok (r, t) else
    fail ← message_or msg (lit "NetStream.Play.Failed");
    '(r, t) ← rtmp_server_send_onstatus t (st_transaction (sv_start (param t))) r
                (lit "NetStream.Play.Start") fail (lit "Start video on demand");
    '(r, t) ← and_then r t rtmp_server_send_stream_is_record;
    and_then r t rtmp_server_rtmp_sample_access ≫= done
  else if RTMP_SERVER_ONPUBLISH =? play then
    '(r, t, stop) ←
      (if 0 =? r then
         '(r, t) ← rtmp_server_send_stream_begin t; Ok (r, t, negb (0 =? r))
       else Ok (r, t, false));
    if (stop : bool) then Ok (r, t) else
    fail ← message_or msg (lit "NetStream.Publish.BadName");
    rtmp_server_send_onstatus t transaction r (lit "NetStream.Publish.Start") fail (lit "") ≫= done
  else done (r, t).

(** * The callbacks of the session *)

Definition rtmp_server_onabort t (chunk_stream_id : Z) : outcome (session U) := Ok t.

Definition rtmp_server_onconnect t (r transaction : Z) (connect : rtmp_connect_t)
  : outcome (Z * session U) :=
  '(r, t) ←
    (if 0 =? r then
       let t := upd (λ s, set_info s connect) t in
       '(r, t) ← rtmp_server_send_server_bandwidth t;
       '(r, t) ← and_then r t rtmp_server_send_client_bandwidth;
       and_then r t rtmp_server_send_set_chunk_size
     else Ok (r, t));
  and_then r t (λ t,
    '(n, t) ← build_payload t (λ m out bytes, rtmp_netconnection_connect_reply m out bytes transaction
                RTMP_FMSVER RTMP_CAPABILITIES (lit "NetConnection.Connect.Success")
                RTMP_LEVEL_STATUS (lit "Connection Succeeded.") (c_encoding connect));
    rtmp_server_send_control t n 0).

Definition rtmp_server_oncreate_stream t (r transaction : Z) : outcome (Z * session U) :=
  and_then r t (λ t,
    let t := upd (λ s, set_stream_id s 1) t in
    '(n, t) ← build_payload t (λ m out bytes,
                rtmp_netconnection_create_stream_reply m out bytes transaction
                  (double_of_uint (sv_stream_id (param t))));
    rtmp_server_send_control t n 0).

Definition rtmp_server_ondelete_stream t (r transaction stream : Z) : outcome (Z * session U) :=
  and_then r t (λ t,
    deleted_stream_id ← UINT32 stream;
    if negb (deleted_stream_id =? sv_stream_id (param t)) then Ok (-1, t) else
    let t := upd (λ s, set_play (set_stream_id s 0) 0) t in
    match h_ondelete_stream handler with
    | Some f => f t deleted_stream_id
    | None => Ok (0, t)
    end).

Definition rtmp_server_onget_stream_length t (r transaction : Z) (name : list Z)
  : outcome (Z * session U) :=
  match h_ongetduration handler with
  | Some f =>
      and_then r t (λ t,
        '(r, duration, t) ← f t (c_app (sv_info (param t))) name DOUBLE_M1;
        and_then r t (λ t,
          '(n, t) ← build_payload t (λ m out bytes,
                      rtmp_netconnection_get_stream_length_reply m out bytes transaction duration);
          rtmp_server_send_control t n (sv_stream_id (param t))))
  | None => Ok (r, t)
  end.

(** The end shared by [rtmp_server_onpublish] and [rtmp_server_onplay]: reply
    unless the application does it later or has done it already. *)
Definition rtmp_server_reply t (r : Z) : outcome (Z * session U) :=
  if (RTMP_SERVER_ASYNC_START =? r) || (0 =? st_play (sv_start (param t))) then
    Ok (if RTMP_SERVER_ASYNC_START =? r then 0 else r, t)
  else
    '(r', t) ← rtmp_server_start t r None;
    Ok (if negb (0 =? r) then r else r', t).

Definition rtmp_server_onpublish t (r transaction : Z) (name type : list Z)
  : outcome (Z * session U) :=
  and_then r t (λ t,
      sname ← snprintf_s (sv_stream_name (param t)) (256 - 1) name;
    stype ← snprintf_s (sv_stream_type (param t)) (18 - 1) type;
    let t := upd (λ s, set_stream_names
      (set_start s (ServerStart transaction (st_reset (sv_start s)) RTMP_SERVER_ONPUBLISH)) sname stype) t in
    '(r, t) ← h_onpublish handler t (c_app (sv_info (param t))) name type;
    rtmp_server_reply t r).

Definition rtmp_server_onplay t (r transaction : Z) (name : list Z) (start duration reset : Z)
  : outcome (Z * session U) :=
  and_then r t (λ t,
      sname ← snprintf_s (sv_stream_name (param t)) (256 - 1) name;
    stype ← snprintf_s (sv_stream_type (param t)) (18 - 1)
              (if start =? DOUBLE_M1 then RTMP_STREAM_LIVE else RTMP_STREAM_RECORD);
    let t := upd (λ s, set_stream_names
      (set_start s (ServerStart transaction reset RTMP_SERVER_ONPLAY)) sname stype) t in
    '(r, t) ← h_onplay handler t (c_app (sv_info (param t))) name start duration reset;
    rtmp_server_reply t r).

Definition rtmp_server_onpause t (r transaction pause milliSeconds : Z) : outcome (Z * session U) :=
  and_then r t (λ t,
    ms ← UINT32 milliSeconds;
    '(r, t) ← h_onpause handler t pause ms;
    rtmp_server_send_onstatus t transaction r
      (if truth pause then lit "NetStream.Pause.Notify" else lit "NetStream.Unpause.Notify")
      (lit "NetStream.Pause.Failed") (lit "")).

Definition rtmp_server_onseek t (r transaction milliSeconds : Z) : outcome (Z * session U) :=
  and_then r t (λ t,
    ms ← UINT32 milliSeconds;
    '(r, t) ← h_onseek handler t ms;
    rtmp_server_send_onstatus t transaction r (lit "NetStream.Seek.Notify")
      (lit "NetStream.Seek.Failed") (lit "")).

(** The two messages after receiveAudio or receiveVideo. *)
Definition rtmp_server_send_resumed t (transaction r : Z) : outcome (Z * session U) :=
  '(r, t) ← rtmp_server_send_onstatus t transaction r (lit "NetStream.Seek.Notify")
              (lit "NetStream.Seek.Failed") (lit "");
  rtmp_server_send_onstatus t transaction r (lit "NetStream.Play.Start")
    (lit "NetStream.Play.Failed") (lit "").

Definition rtmp_server_onreceive_audio t (r transaction audio : Z) : outcome (Z * session U) :=
  and_then r t (λ t,
    let t := upd (λ s, set_receive s audio (sv_receiveVideo s)) t in
    if truth audio then rtmp_server_send_resumed t transaction r else Ok (r, t)).

Definition rtmp_server_onreceive_video t (r transaction video : Z) : outcome (Z * session U) :=
  and_then r t (λ t,
    let t := upd (λ s, set_receive s (sv_receiveAudio s) video) t in
    if truth video then rtmp_server_send_resumed t transaction r else Ok (r, t)).

Definition server_callbacks : rtmp_callbacks (rtmp_server_t U) :=
  RtmpCallbacks _ (h_onaudio handler) (h_onvideo handler) (h_onscript handler) rtmp_server_onabort
    (Some rtmp_server_onconnect) (Some rtmp_server_oncreate_stream) (Some rtmp_server_onplay)
    (Some rtmp_server_ondelete_stream) (Some rtmp_server_onreceive_audio)
    (Some rtmp_server_onreceive_video) (Some rtmp_server_onpublish) (Some rtmp_server_onseek)
    (Some rtmp_server_onpause) (Some rtmp_server_onget_stream_length)
    None None None None None None None.

(** * The interface *)

Definition zero_connect : rtmp_connect_t :=
  RtmpConnect (char_var 128) (char_var 32) (char_var 256) (char_var 256) 0 DOUBLE_0 DOUBLE_0 DOUBLE_0
    DOUBLE_0 DOUBLE_0 (char_var 256) DOUBLE_0 (replicate 16 (char_var 5)).

Definition rtmp_server_create (u : U) : session U :=
  rtmp_create (RtmpServer (0, 0) u (char_var PAYLOAD_SIZE) (char_var HANDSHAKE_BUFFER) 0
    RTMP_HANDSHAKE_UNINIT zero_connect (char_var 256) (char_var 18) 0 1 1
    (ServerStart DOUBLE_0 0 0)).

(** The blocks passed to free, besides the session itself: the payloads and the
    header buffer when it is no longer the array of the session. *)
Definition rtmp_server_destroy t : list (list Z) :=
  omap p_payload (in_packets t) ++
  (if wh_capacity (chunk_write_header t) =? MAX_CHUNK_HEADER + 5 * 20 then []
   else [wh_ptr (chunk_write_header t)]).

Definition rtmp_server_getstate t : Z := sv_handshake_state (param t).

Fixpoint peer_supports (list_ : list (list Z)) (fourcc : list Z) : outcome Z :=
  match list_ with
  | [] => Ok 0
  | f :: rest =>
      any ← streq f (lit "*");
      same ← (if any : bool then Ok true else streq f fourcc);
      if (same : bool) then Ok 1 else peer_supports rest fourcc
  end.
Definition rtmp_server_peer_supports_fourcc t (fourcc : list Z) : outcome Z :=
  peer_supports (c_fourCcList (sv_info (param t))) fourcc.

(** Up to [RTMP_HANDSHAKE_SIZE] bytes of C1 or C2 into [ctx->payload]: the
    session, the bytes taken and whether the message is complete. *)
Definition receive_handshake t (data : list Z) (p bytes : Z) : outcome (session U * Z * bool) :=
  let have := sv_handshake_bytes (param t) in
  let n := u64 (RTMP_HANDSHAKE_SIZE - have) in
  let n := if n <=? bytes then n else bytes in
  b ← slice data p n;
  m ← st (sv_payload (param t)) have b;
  let t := upd (λ s, set_handshake_state (set_payload s m) (have + n) (sv_handshake_state s)) t in
  Ok (t, n, have + n =? RTMP_HANDSHAKE_SIZE).

(** [while (bytes > 0)] with [bytes] left at [p] of the input; every iteration
    takes at least one byte or returns. *)
Fixpoint rtmp_server_input_loop (fuel : nat) t (data : list Z) (p bytes : Z) : outcome (Z * session U) :=
  if bytes >? 0 then
    match fuel with
    | O => Ub
    | S fuel =>
        let state := sv_handshake_state (param t) in
        if state =? RTMP_HANDSHAKE_UNINIT then
          let t := upd (λ s, set_handshake_state s 0 RTMP_HANDSHAKE_0) t in
          rtmp_server_input_loop fuel t data (p + 1) (bytes - 1)
        else if state =? RTMP_HANDSHAKE_0 then
          '(t, n, complete) ← receive_handshake t data p bytes;
          if (complete : bool) then
            let t := upd (λ s, set_handshake_state s 0 RTMP_HANDSHAKE_1) t in
            '(r, t) ← rtmp_server_send_handshake t;
            if negb (0 =? r) then Ok (r, t)
            else rtmp_server_input_loop fuel t data (p + n) (bytes - n)
          else rtmp_server_input_loop fuel t data (p + n) (bytes - n)
        else if state =? RTMP_HANDSHAKE_1 then
          '(t, n, complete) ← receive_handshake t data p bytes;
          let t := if (complete : bool)
                   then upd (λ s, set_handshake_state s 0 RTMP_HANDSHAKE_2) t else t in
          rtmp_server_input_loop fuel t data (p + n) (bytes - n)
        else
          '(_, t) ← rtmp_server_send_acknowledgement t bytes;
          b ← slice data p bytes;
          rtmp_chunk_read realloc (rtmp_handler indeterminate server_callbacks) t b bytes
    end
  else Ok (0, t).

Definition rtmp_server_input t (data : list Z) (bytes : Z) : outcome (Z * session U) :=
  rtmp_server_input_loop (Z.to_nat bytes) t data 0 bytes.

(** The body of the three sending functions. *)
Definition server_send_message t (cid type : Z) (data : list Z) (bytes timestamp : Z)
  : outcome (Z * session U) :=
  write_message_from t RTMP_CHUNK_TYPE_1 cid timestamp (u32 bytes) type (sv_stream_id (param t)) data.

Definition rtmp_server_send_audio t (data : list Z) (bytes timestamp : Z) : outcome (Z * session U) :=
  if 0 =? sv_receiveAudio (param t) then Ok (0, t)
  else server_send_message t RTMP_CHANNEL_AUDIO RTMP_TYPE_AUDIO data bytes timestamp.
Definition rtmp_server_send_video t (data : list Z) (bytes timestamp : Z) : outcome (Z * session U) :=
  if 0 =? sv_receiveVideo (param t) then Ok (0, t)
  else server_send_message t RTMP_CHANNEL_VIDEO RTMP_TYPE_VIDEO data bytes timestamp.
Definition rtmp_server_send_script t (data : list Z) (bytes timestamp : Z) : outcome (Z * session U) :=
  server_send_message t RTMP_CHANNEL_INVOKE RTMP_TYPE_DATA data bytes timestamp.
End Server.
