(* ===== verification/RtmpServerSpec.v ===== *)
(** The server's handshake and its replies: what [RtmpServer] sends and the
    states it goes through. *)
From stdpp Require Import strings.
From S2P Require Import Prelude RtmpInternal RtmpChunk Amf0 RtmpCommand RtmpInvoke RtmpHandler.
From S2P Require Import RtmpHandshake RtmpServer.
Open Scope Z_scope.

(** * The handshake messages *)

Section HandshakeBytes.
Variable rand : Z → Z → Z.

Lemma random_words_S ts i n :
  random_words rand ts i (S n) = le_bytes4 (u32 (rand ts i)) ++ random_words rand ts (i + 1) n.
Proof.
  unfold random_words. cbn [seq map concat]. rewrite Z.add_0_r. f_equal.
  rewrite <- seq_shift, map_map. f_equal. apply map_ext. intros k. do 2 f_equal.
  f_equal. lia.
Qed.

Lemma zlen_random_words ts n : ∀ i, zlen (random_words rand ts i n) = 4 * Z.of_nat n.
Proof.
  induction n as [|n IH]; intros i; [done|].
  rewrite random_words_S, zlen_app, zlen_le_bytes4, IH. lia.
Qed.

Lemma rtmp_handshake_random_loop_ok n : ∀ i m p ts, 0 ≤ p → 0 ≤ i → i + Z.of_nat n = 382 →
  p + 1528 ≤ zlen m →
  rtmp_handshake_random_loop rand n i m p ts = Ok (put m (p + i * 4) (random_words rand ts i n)).
Proof.
  induction n as [|n IH]; intros i m p ts Hp Hi Hn Hm; cbn [rtmp_handshake_random_loop];
    unfold RTMP_HANDSHAKE_SIZE.
  - destruct (Z.ltb_spec (i * 4) (1536 - 8)); [lia|]. f_equal. symmetry.
    unfold random_words. cbn [seq map concat]. unfold put. cbn [app length].
    rewrite Nat.add_0_r. apply take_drop.
  - destruct (Z.ltb_spec (i * 4) (1536 - 8)); [|lia].
    rewrite st_ok by (rewrite ?zlen_le_bytes4; lia). run.
    rewrite IH by (rewrite ?zlen_put, ?zlen_le_bytes4 by (rewrite ?zlen_le_bytes4; lia); lia).
    f_equal. rewrite random_words_S. apply put_app_at; rewrite ?zlen_le_bytes4; lia.
Qed.

Lemma zlen_handshake_1 ts : zlen (handshake_1 rand ts) = 1536.
Proof.
  unfold handshake_1. rewrite !zlen_app, zlen_random_words, !zlen_be_bytes. done.
Qed.

(** S1 and C1. *)
Lemma rtmp_handshake_s1_ok m p ts : 0 ≤ p → p + 1536 ≤ zlen m → is_uint 32 ts →
  rtmp_handshake_s1 rand m p ts = Ok (1536, put m p (handshake_1 rand ts)).
Proof.
  intros Hp Hm Hts. unfold rtmp_handshake_s1. rewrite !be_write_uint32_spec.
  rewrite st_ok by llia. run. rewrite be_write_uint32_spec.
  rewrite st_ok by llia. run.
  rewrite (put_app_at m p (p + 4)) by llia.
  unfold rtmp_handshake_random. rewrite rtmp_handshake_random_loop_ok;
    [|lia|lia|lia|llia]. run.
  do 2 f_equal. unfold handshake_1. rewrite app_assoc.
  apply put_app_at; llia.
Qed.
End HandshakeBytes.

#[export] Hint Rewrite zlen_random_words zlen_handshake_1 : zlen.

(** * The handshake of the server *)

(** The transport takes everything; [sent] is what it makes of the bytes. *)
Class Accepts {U} (handler : rtmp_server_handler_t U) (sent : U → list Z → U) :=
  accepts : ∀ u h p, h_send handler u h p = (zlen h + zlen p, sent u (h ++ p)).

Section ServerHandshake.
Context {U : Type} (realloc : Z → bool) (indeterminate : Z) (rand : Z → Z → Z) (now : Z).
Context (handler : rtmp_server_handler_t U) (sent : U → list Z → U) `{!Accepts handler sent}.
Hypothesis Hnow : is_uint 32 now.
Variable u : U.

(** S0, S1 and S2 after the bytes [fed]: the echo is C1. *)
Definition server_hello (fed : list Z) : list Z :=
  [RTMP_VERSION] ++ handshake_1 rand now ++ sub fed 1 1536.

(** The server that has received the bytes [fed] of C0, C1 and C2. *)
Definition server_fields (u : U) (payload handshake : list Z) (n state : Z) : rtmp_server_t U :=
  RtmpServer (0, 0) u payload handshake n state zero_connect (char_var 256) (char_var 18) 0 1 1
    (ServerStart DOUBLE_0 0 0).
Definition awaiting (fed : list Z) : session U :=
  let n := zlen fed in
  set_param (rtmp_server_create u)
    (if n =? 0 then server_fields u (char_var PAYLOAD_SIZE) (char_var HANDSHAKE_BUFFER) 0 RTMP_HANDSHAKE_UNINIT
     else if n <? 1537 then
       server_fields u (put (char_var PAYLOAD_SIZE) 0 (sub fed 1 (n - 1))) (char_var HANDSHAKE_BUFFER)
         (n - 1) RTMP_HANDSHAKE_0
     else
       server_fields (sent u (server_hello fed))
         (put (put (char_var PAYLOAD_SIZE) 0 (sub fed 1 1536)) 0 (sub fed 1537 (n - 1537)))
         (put (char_var HANDSHAKE_BUFFER) 0 (server_hello fed))
         (if n <? 3073 then n - 1537 else 0)
         (if n <? 3073 then RTMP_HANDSHAKE_1 else RTMP_HANDSHAKE_2)).

(** What the server does with more bytes: they complete the handshake, and the
    rest is read as chunks. *)
Definition input_after (fed data : list Z) : outcome (Z * session U) :=
  let all := fed ++ data in
  if zlen all <=? 3073 then Ok (0, awaiting all) else
  '(_, t) ← rtmp_server_send_acknowledgement handler (awaiting (sub all 0 3073)) (zlen all - 3073);
  rtmp_chunk_read realloc (rtmp_handler indeterminate (server_callbacks realloc handler)) t
    (sub all 3073 (zlen all - 3073)) (zlen all - 3073).

Abbreviation input_loop := (rtmp_server_input_loop realloc indeterminate rand now handler).

(** Taking [k] more bytes of [data]. *)
Lemma sub_grow (fed d : list Z) q n : 0 ≤ q ≤ zlen fed → n = zlen fed - q + zlen d →
  sub (fed ++ d) q n = sub fed q (zlen fed - q) ++ d.
Proof.
  intros Hq ->. pose proof (zlen_nonneg d). rewrite sub_sub_app by llia. f_equal.
  - by rewrite sub_app_l by lia.
  - rewrite sub_app_r by lia. replace (q + (zlen fed - q) - zlen fed) with 0 by lia.
    apply sub_full.
Qed.

Lemma put_grow (m a b : list Z) k : k = zlen a → zlen a ≤ zlen m → put (put m 0 a) k b = put m 0 (a ++ b).
Proof. intros -> ?. apply (put_app_at m 0 (zlen a)); lia. Qed.

Lemma awaiting_0 fed : zlen fed = 0 → awaiting fed = rtmp_server_create u.
Proof. intros H. unfold awaiting. rewrite H. done. Qed.

Lemma awaiting_1 fed : 1 ≤ zlen fed < 1537 → awaiting fed = set_param (rtmp_server_create u)
  (server_fields u (put (char_var PAYLOAD_SIZE) 0 (sub fed 1 (zlen fed - 1))) (char_var HANDSHAKE_BUFFER)
         (zlen fed - 1) RTMP_HANDSHAKE_0).
Proof.
  intros H. unfold awaiting. destruct (Z.eqb_spec (zlen fed) 0); [lia|].
  by destruct (Z.ltb_spec (zlen fed) 1537); [|lia].
Qed.

Lemma awaiting_2 fed : 1537 ≤ zlen fed → awaiting fed = set_param (rtmp_server_create u)
  (server_fields (sent u (server_hello fed))
         (put (put (char_var PAYLOAD_SIZE) 0 (sub fed 1 1536)) 0 (sub fed 1537 (zlen fed - 1537)))
         (put (char_var HANDSHAKE_BUFFER) 0 (server_hello fed))
         (if zlen fed <? 3073 then zlen fed - 1537 else 0)
         (if zlen fed <? 3073 then RTMP_HANDSHAKE_1 else RTMP_HANDSHAKE_2)).
Proof.
  intros H. unfold awaiting. destruct (Z.eqb_spec (zlen fed) 0); [lia|].
  by destruct (Z.ltb_spec (zlen fed) 1537); [lia|].
Qed.

Lemma zlen_server_hello fed : 1537 ≤ zlen fed → zlen (server_hello fed) = 3073.
Proof. intros. unfold server_hello. rewrite !zlen_app, zlen_handshake_1, zlen_sub by lia. done. Qed.

(** The handshake is answered when C1 is complete. *)
Lemma send_handshake_ok (t : session U) c1 m hs : sv_payload (param t) = put m 0 c1 → zlen c1 = 1536 →
  zlen m = PAYLOAD_SIZE → sv_handshake (param t) = hs → zlen hs = HANDSHAKE_BUFFER →
  rtmp_server_send_handshake rand now handler t =
    let hello := [RTMP_VERSION] ++ handshake_1 rand now ++ c1 in
    Ok (0, upd (λ s, set_app s (sent (sv_app s) hello))
             (upd (λ s, set_handshake s (put hs 0 hello)) t)).
Proof.
  intros Hp Hc Hm Hh Hz. unfold rtmp_server_send_handshake, PAYLOAD_SIZE, HANDSHAKE_BUFFER, RTMP_HANDSHAKE_SIZE in *.
  rewrite Hp, Hh. unfold rtmp_handshake_s0. rewrite st_ok by llia. run.
  change (u8 RTMP_VERSION) with RTMP_VERSION.
  rewrite rtmp_handshake_s1_ok by (done || llia). run.
  rewrite (put_grow hs [RTMP_VERSION]) by llia.
  unfold rtmp_handshake_s2, RTMP_HANDSHAKE_SIZE. rewrite slice_ok by llia. run.
  assert (sub (put m 0 c1) 0 1536 = c1) as -> by (rewrite <- Hc; apply sub_put; lia).
  rewrite st_ok by (rewrite ?zlen_put; llia). run.
  rewrite put_grow by llia. rewrite <- app_assoc. change (1 + 1536 + 1536) with 3073.
  set (hello := _ ++ _ ++ c1). assert (zlen hello = 3073) as Hl by (unfold hello; llia).
  unfold handler_send. rewrite slice_ok by llia. run. assert (sub (put hs 0 hello) 0 3073 = hello) as -> by (rewrite <- Hl; apply sub_put; lia).
  rewrite accepts, app_nil_r. rewrite Hl. done.
Qed.

Lemma receive_handshake_ok (t : session U) data p bytes have m :
  sv_handshake_bytes (param t) = have → sv_payload (param t) = m → zlen m = PAYLOAD_SIZE →
  0 ≤ have < 1536 → 0 ≤ p → 0 < bytes → p + bytes ≤ zlen data →
  let n := Z.min (1536 - have) bytes in
  receive_handshake t data p bytes =
    Ok (upd (λ s, set_handshake_state (set_payload s (put m have (sub data p n))) (have + n)
                    (sv_handshake_state s)) t, n, have + n =? 1536).
Proof.
  intros Hh Hm Hz Hr Hp Hb Hd n. unfold receive_handshake. rewrite Hh, Hm.
  unfold RTMP_HANDSHAKE_SIZE in *. assert (u64 (1536 - have) = 1536 - have) as -> by (unfold u64; dlia).
  assert ((if 1536 - have <=? bytes then 1536 - have else bytes) = n) as ->
    by (unfold n; destruct (Z.leb_spec (1536 - have) bytes); lia).
  rewrite slice_ok by lia. run. rewrite st_ok by (rewrite ?zlen_sub by lia; unfold PAYLOAD_SIZE in *; lia). run.
  done.
Qed.
Lemma input_after_app fed a b : input_after (fed ++ a) b = input_after fed (a ++ b).
Proof. unfold input_after. by rewrite app_assoc. Qed.

Lemma input_after_eq fed d fed' d' : fed ++ d = fed' ++ d' → input_after fed d = input_after fed' d'.
Proof. unfold input_after. by intros ->. Qed.

Lemma zlen_payload_buffer : zlen (char_var PAYLOAD_SIZE) = PAYLOAD_SIZE.
Proof. reflexivity. Qed.
Lemma zlen_handshake_buffer : zlen (char_var HANDSHAKE_BUFFER) = HANDSHAKE_BUFFER.
Proof. reflexivity. Qed.

(** One iteration up to C1. *)
Lemma input_c0 fuel data p bytes : 0 < bytes → 0 ≤ p → p + bytes ≤ zlen data →
  input_loop (S fuel) (awaiting []) data p bytes =
  input_loop fuel (awaiting (sub data p 1)) data (p + 1) (bytes - 1).
Proof.
  intros Hb Hp Hd. cbn [rtmp_server_input_loop]. rewrite Z.gtb_ltb.
  destruct (Z.ltb_spec 0 bytes); [|lia]. rewrite awaiting_0 by done.
  rewrite (awaiting_1 (sub data p 1)) by (rewrite zlen_sub; lia). rewrite zlen_sub by lia.
  reflexivity.
Qed.

Lemma input_c1 fuel fed data p bytes : 0 < bytes → 0 ≤ p → p + bytes ≤ zlen data →
  1 ≤ zlen fed < 1537 → let n := Z.min (1537 - zlen fed) bytes in
  input_loop (S fuel) (awaiting fed) data p bytes =
  input_loop fuel (awaiting (fed ++ sub data p n)) data (p + n) (bytes - n).
Proof.
  intros Hb Hp Hd Hf n. cbn [rtmp_server_input_loop]. rewrite Z.gtb_ltb.
  destruct (Z.ltb_spec 0 bytes); [|lia]. rewrite (awaiting_1 fed) by done.
  cbn [param set_param server_fields sv_handshake_state].
  change (RTMP_HANDSHAKE_0 =? RTMP_HANDSHAKE_UNINIT) with false.
  change (RTMP_HANDSHAKE_0 =? RTMP_HANDSHAKE_0) with true. cbn [negb].
  pose proof zlen_payload_buffer as Hz.
  assert (zlen (sub fed 1 (zlen fed - 1)) = zlen fed - 1) as Hl by (apply zlen_sub; lia).
  assert (zlen (sub data p n) = n) as Hl2 by (apply zlen_sub; lia).
  assert (sub fed 1 (zlen fed - 1) ++ sub data p n = sub (fed ++ sub data p n) 1 (zlen fed + n - 1)) as Hg
    by (symmetry; apply sub_grow; lia).
  rewrite (receive_handshake_ok _ data p bytes (zlen fed - 1)
    (put (char_var PAYLOAD_SIZE) 0 (sub fed 1 (zlen fed - 1)))); [|reflexivity|reflexivity| |lia..].
  2: { unfold PAYLOAD_SIZE in *. rewrite zlen_put; lia. }
  replace (Z.min (1536 - (zlen fed - 1)) bytes) with n by (unfold n; lia).
  run. cbn [param set_param server_fields sv_handshake_state upd set_handshake_state set_payload].
  rewrite put_grow by (unfold PAYLOAD_SIZE in *; lia). rewrite Hg.
  destruct (Z.eqb_spec (zlen fed - 1 + n) 1536) as [E|E].
  - assert (zlen (fed ++ sub data p n) = 1537) as Hz2 by llia.
    erewrite send_handshake_ok;
      [|reflexivity|rewrite zlen_sub; lia|apply Hz|reflexivity|apply zlen_handshake_buffer].
    cbv zeta. run. cbn [Z.eqb negb].
    rewrite (awaiting_2 (fed ++ sub data p n)) by lia. rewrite Hz2.
    replace (zlen fed + n - 1) with 1536 by lia. f_equal.
  - rewrite (awaiting_1 (fed ++ sub data p n)) by llia.
    assert (zlen (fed ++ sub data p n) = zlen fed + n) as -> by llia.
    replace (zlen fed - 1 + n) with (zlen fed + n - 1) by lia. reflexivity.
Qed.

(** While C2 arrives C1 stays as it is. *)
Lemma sub_c1 (fed d : list Z) : 1537 ≤ zlen fed → sub (fed ++ d) 1 1536 = sub fed 1 1536.
Proof. intros. apply sub_app_l; lia. Qed.

Lemma input_c2 fuel fed data p bytes : 0 < bytes → 0 ≤ p → p + bytes ≤ zlen data →
  1537 ≤ zlen fed < 3073 → let n := Z.min (3073 - zlen fed) bytes in
  input_loop (S fuel) (awaiting fed) data p bytes =
  input_loop fuel (awaiting (fed ++ sub data p n)) data (p + n) (bytes - n).
Proof.
  intros Hb Hp Hd Hf n. cbn [rtmp_server_input_loop]. rewrite Z.gtb_ltb.
  destruct (Z.ltb_spec 0 bytes); [|lia]. rewrite (awaiting_2 fed) by lia.
  destruct (Z.ltb_spec (zlen fed) 3073); [|lia].
  cbn [param set_param server_fields sv_handshake_state].
  change (RTMP_HANDSHAKE_1 =? RTMP_HANDSHAKE_UNINIT) with false.
  change (RTMP_HANDSHAKE_1 =? RTMP_HANDSHAKE_0) with false.
  change (RTMP_HANDSHAKE_1 =? RTMP_HANDSHAKE_1) with true. cbn [negb].
  pose proof zlen_payload_buffer as Hz.
  set (m1 := put (char_var PAYLOAD_SIZE) 0 (sub fed 1 1536)).
  assert (zlen (sub fed 1 1536) = 1536) as Hl1 by (apply zlen_sub; lia).
  assert (zlen m1 = PAYLOAD_SIZE) as Hm1 by (unfold m1, PAYLOAD_SIZE in *; rewrite zlen_put; lia).
  assert (zlen (sub fed 1537 (zlen fed - 1537)) = zlen fed - 1537) as Hl by (apply zlen_sub; lia).
  assert (zlen (sub data p n) = n) as Hl2 by (apply zlen_sub; lia).
  assert (sub fed 1537 (zlen fed - 1537) ++ sub data p n
          = sub (fed ++ sub data p n) 1537 (zlen fed + n - 1537)) as Hg
    by (symmetry; apply sub_grow; lia).
  rewrite (receive_handshake_ok _ data p bytes (zlen fed - 1537)
    (put m1 0 (sub fed 1537 (zlen fed - 1537)))); [|reflexivity|reflexivity| |lia..].
  2: { unfold PAYLOAD_SIZE in *. rewrite zlen_put; lia. }
  replace (Z.min (1536 - (zlen fed - 1537)) bytes) with n by (unfold n; lia).
  run. cbn [param set_param server_fields sv_handshake_state upd set_handshake_state set_payload].
  rewrite put_grow by (unfold PAYLOAD_SIZE in *; lia). rewrite Hg.
  rewrite (awaiting_2 (fed ++ sub data p n)) by llia. unfold server_hello. rewrite sub_c1 by lia.
  assert (zlen (fed ++ sub data p n) = zlen fed + n) as -> by llia. fold m1.
  destruct (Z.eqb_spec (zlen fed - 1537 + n) 1536) as [E|E], (Z.ltb_spec (zlen fed + n) 3073); try lia.
  - reflexivity.
  - replace (zlen fed - 1537 + n) with (zlen fed + n - 1537) by lia. reflexivity.
Qed.

Lemma input_chunks fuel fed data p bytes : 0 < bytes → 0 ≤ p → p + bytes ≤ zlen data →
  zlen fed = 3073 →
  input_loop (S fuel) (awaiting fed) data p bytes = input_after fed (sub data p bytes).
Proof.
  intros Hb Hp Hd Hf. cbn [rtmp_server_input_loop]. rewrite Z.gtb_ltb.
  destruct (Z.ltb_spec 0 bytes); [|lia]. unfold input_after.
  assert (zlen (sub data p bytes) = bytes) as Hl by (apply zlen_sub; lia).
  rewrite zlen_app, Hl, Hf. destruct (Z.leb_spec (3073 + bytes) 3073); [lia|].
  rewrite (sub_head fed) by lia. rewrite (sub_app_r fed) by lia. rewrite Hf, Z.sub_diag.
  replace (3073 + bytes - 3073) with bytes by lia.
  assert (sub (sub data p bytes) 0 bytes = sub data p bytes) as -> by (rewrite <- Hl at 2; apply sub_full).
  assert (sv_handshake_state (param (awaiting fed)) = RTMP_HANDSHAKE_2) as ->.
  { rewrite awaiting_2 by lia. by rewrite Hf. }
  change (RTMP_HANDSHAKE_2 =? RTMP_HANDSHAKE_UNINIT) with false.
  change (RTMP_HANDSHAKE_2 =? RTMP_HANDSHAKE_0) with false.
  change (RTMP_HANDSHAKE_2 =? RTMP_HANDSHAKE_1) with false. cbv iota.
  destruct (rtmp_server_send_acknowledgement _ _ _) as [| |[r t]]; run; try done.
  by rewrite slice_ok by lia.
Qed.

Lemma input_loop_ok fuel : ∀ fed data p bytes, zlen fed ≤ 3073 → 0 ≤ p → p + bytes ≤ zlen data →
  0 ≤ bytes ≤ Z.of_nat fuel →
  input_loop fuel (awaiting fed) data p bytes = input_after fed (sub data p bytes).
Proof.
  induction fuel as [|fuel IH]; intros fed data p bytes Hf Hp Hd Hb.
  { assert (bytes = 0) as -> by lia. unfold input_after, sub. cbn [Z.to_nat take]. rewrite app_nil_r.
    cbn [rtmp_server_input_loop Z.gtb Z.compare]. by destruct (Z.leb_spec (zlen fed) 3073); [|lia]. }
  destruct (decide (bytes = 0)) as [->|Hb0].
  { unfold input_after, sub. cbn [Z.to_nat take]. rewrite app_nil_r.
    cbn [rtmp_server_input_loop Z.gtb Z.compare]. by destruct (Z.leb_spec (zlen fed) 3073); [|lia]. }
  pose proof (zlen_nonneg fed).
  assert (∀ n, 0 < n ≤ bytes → zlen fed + n ≤ 3073 →
    input_loop (S fuel) (awaiting fed) data p bytes =
      input_loop fuel (awaiting (fed ++ sub data p n)) data (p + n) (bytes - n) →
    input_loop (S fuel) (awaiting fed) data p bytes = input_after fed (sub data p bytes)) as Hstep.
  { intros n Hn Hle ->. pose proof (zlen_sub data p n ltac:(lia) ltac:(lia) ltac:(lia)).
    rewrite IH by llia. rewrite input_after_app. f_equal. rewrite sub_join by lia. f_equal. lia. }
  destruct (decide (zlen fed = 0)) as [Hz|].
  { apply (Hstep 1); [lia|lia|]. assert (fed = []) as -> by (destruct fed; [done|]; unfold zlen in Hz; cbn in Hz; lia).
    by apply input_c0; [lia..|]. }
  destruct (decide (zlen fed < 1537)); [eapply Hstep; [| |apply input_c1; lia]; lia|].
  destruct (decide (zlen fed < 3073)); [eapply Hstep; [| |apply input_c2; lia]; lia|].
  apply input_chunks; lia.
Qed.

Lemma rtmp_server_input_ok fed data : zlen fed ≤ 3073 →
  rtmp_server_input realloc indeterminate rand now handler (awaiting fed) data (zlen data)
  = input_after fed data.
Proof.
  intros Hf. unfold rtmp_server_input. pose proof (zlen_nonneg data).
  rewrite input_loop_ok by lia. by rewrite sub_full.
Qed.

(** Several calls, as long as none reports an error. *)
Fixpoint input_all (t : session U) (frags : list (list Z)) : outcome (Z * session U) :=
  match frags with
  | [] => Ok (0, t)
  | d :: frags =>
      '(r, t) ← rtmp_server_input realloc indeterminate rand now handler t d (zlen d);
      if 0 =? r then input_all t frags else Ok (r, t)
  end.

Lemma input_all_app frags frags' : ∀ t, input_all t (frags ++ frags') =
  '(r, t) ← input_all t frags; if 0 =? r then input_all t frags' else Ok (r, t).
Proof.
  induction frags as [|d frags IH]; intros t; cbn [app input_all]; [done|].
  destruct (rtmp_server_input _ _ _ _ _ _ _ _) as [| |[r t1]]; run; try done.
  destruct (0 =? r) eqn:E; [apply IH|]. run. by rewrite E.
Qed.

Lemma input_all_handshake frags : ∀ fed, zlen fed + zlen (concat frags) ≤ 3073 →
  input_all (awaiting fed) frags = Ok (0, awaiting (fed ++ concat frags)).
Proof.
  induction frags as [|d frags IH]; intros fed Hf; cbn [input_all concat] in *.
  - by rewrite app_nil_r.
  - rewrite zlen_app in Hf. pose proof (zlen_nonneg d). pose proof (zlen_nonneg (concat frags)).
    rewrite rtmp_server_input_ok by lia. unfold input_after.
    rewrite zlen_app. destruct (Z.leb_spec (zlen fed + zlen d) 3073); [|lia]. run. cbn [Z.eqb].
    rewrite IH by llia. by rewrite <- app_assoc.
Qed.
End ServerHandshake.
