(* ===== verification/RtmpServerSafe.v ===== *)
(** The server keeps the contract of its session: its callbacks return on every
    input, write only inside their buffers and leave the reader's state alone,
    for any transport.  So input from any peer is handled without undefined
    behaviour, as long as it has none of the fragile commands. *)
From stdpp Require Import strings.
From S2P Require Import Prelude RtmpInternal RtmpChunk RtmpChunkRead RtmpChunkWrite RtmpSession.
From S2P Require Import Amf0 Amf0Spec RtmpCommand RtmpCommandSpec RtmpInvoke RtmpHandler RtmpHandlerSpec RtmpControlSpec.
From S2P Require Import RtmpHandshake RtmpServer RtmpServerSpec.
Open Scope Z_scope.

(** * The invariant of the session *)

(** The arrays have their sizes, and the handshake is done. *)
Record fields_ok {U} (s : rtmp_server_t U) : Prop := {
  fo_payload : zlen (sv_payload s) = PAYLOAD_SIZE;
  fo_handshake : zlen (sv_handshake s) = HANDSHAKE_BUFFER;
  fo_handshake_bytes : 0 ≤ sv_handshake_bytes s < RTMP_HANDSHAKE_SIZE;
  fo_stream_name : zlen (sv_stream_name s) = 256;
  fo_stream_type : zlen (sv_stream_type s) = 18;
  fo_stream_id : is_uint 32 (sv_stream_id s);
  fo_established : sv_handshake_state s = RTMP_HANDSHAKE_2
}.

Definition server_ok {U} (t : session U) : Prop := writer_wf t ∧ fields_ok (param t).

Lemma writer_wf_same {P} (t t' : rtmp_t P) : writer_wf t → out_packets t' = out_packets t →
  out_chunk_size t' = out_chunk_size t → chunk_write_header t' = chunk_write_header t → writer_wf t'.
Proof. intros [] H1 H2 H3. constructor; rewrite ?H1, ?H2, ?H3; done. Qed.

#[global] Program Instance server_invariant U : SessionInvariant (rtmp_server_t U) | 0 :=
  {| session_inv := server_ok |}.
Next Obligation. intros U t pkts ps [Hw Hf]. split; [by apply (writer_wf_same t)|done]. Qed.

Section ServerSafe.
Context {U : Type} (realloc : Z → bool) (indeterminate : Z) (rand : Z → Z → Z) (now : Z).
Context (handler : rtmp_server_handler_t U).
Hypothesis Hnow : is_uint 32 now.
Implicit Types t : session U.

(** What the server asks of the application: its callbacks may call the server
    again, but leave the reader's state alone; the answer to onplay and onpublish
    is not the code that is reserved for later. *)
Class Application := {
  app_onaudio t m ts : server_ok t → bytes_ok m → handled t (h_onaudio handler t m ts);
  app_onvideo t m ts : server_ok t → bytes_ok m → handled t (h_onvideo handler t m ts);
  app_onscript t m ts : server_ok t → bytes_ok m → handled t (h_onscript handler t m ts);
  app_onplay t app name start duration reset : server_ok t →
    handled t (h_onplay handler t app name start duration reset) ∧
    ∀ t', h_onplay handler t app name start duration reset ≠ Ok (RTMP_SERVER_START_RECONNECT, t');
  app_onpublish t app name type : server_ok t →
    handled t (h_onpublish handler t app name type) ∧
    ∀ t', h_onpublish handler t app name type ≠ Ok (RTMP_SERVER_START_RECONNECT, t')
}.
Context {Happ : Application}.

(** Assignments to the fields keep the rest. *)
Lemma upd_ok t f : server_ok t → fields_ok (f (param t)) → server_ok (upd f t).
Proof. intros [Hw _] Hf. split; [by apply (writer_wf_same t)|done]. Qed.

Lemma handled_upd t f x : handled (upd f t) x → handled t x.
Proof. done. Qed.

Ltac fields H := destruct H as [_ []]; constructor; cbn; done.

Lemma set_app_ok t u : server_ok t → server_ok (upd (λ s, set_app s u) t).
Proof. intros H. apply upd_ok; [done|]. fields H. Qed.

Lemma set_payload_ok t m : server_ok t → zlen m = PAYLOAD_SIZE → server_ok (upd (λ s, set_payload s m) t).
Proof. intros H Hm. apply upd_ok; [done|]. fields H. Qed.

Lemma handler_send_handled t m n : server_ok t → 0 ≤ n ≤ zlen m →
  handled t (handler_send handler t m n).
Proof.
  intros Hi Hn. unfold handler_send. rewrite slice_ok by lia. run.
  destruct (h_send handler _ _ _) as [r u]. eexists _, _. split; [reflexivity|].
  split_and!; [done..|]. by apply set_app_ok.
Qed.

Lemma send_payload_handled t c : server_ok t →
  handled t (send_payload handler t (write_control c (sv_payload (param t)) 0 PAYLOAD_SIZE)).
Proof.
  intros Hi. pose proof (fo_payload _ (proj2 Hi)) as Hz. unfold send_payload.
  assert (12 + zlen (control_body c) ≤ PAYLOAD_SIZE) as Hr by (destruct c; by vm_compute).
  pose proof (zlen_nonneg (control_body c)).
  rewrite write_control_ok by lia. run. rewrite zlen_control_bytes.
  set (m := put _ _ _). assert (zlen m = PAYLOAD_SIZE) as Hm
    by (unfold m; rewrite zlen_put; [done|lia|rewrite zlen_control_bytes; lia]).
  apply (handled_upd t (λ s, set_payload s m)). apply handled_bind.
  - apply handler_send_handled; [by apply set_payload_ok|lia].
  - intros. by apply handled_ret.
Qed.

Lemma build_payload_ok t bs write : server_ok t →
  (∀ m, at_end m 0 (0 + PAYLOAD_SIZE) bs → write m 0 PAYLOAD_SIZE = Ok (put m 0 bs, Some (0 + zlen bs))) →
  zlen bs ≤ PAYLOAD_SIZE →
  ∃ t', build_payload t write = Ok (zlen bs, t') ∧ server_ok t' ∧ 
    t' = upd (λ s, set_payload s (put (sv_payload s) 0 bs)) t.
Proof.
  intros Hi Hw Hb. pose proof (fo_payload _ (proj2 Hi)) as Hz. unfold build_payload.
  rewrite Hw by (unfold at_end; lia). run. cbn [deref]. run. eexists. split; [reflexivity|].
  split; [|done]. apply (set_payload_ok t); [done|]. rewrite zlen_put; lia.
Qed.

Lemma rtmp_server_send_keeps s a b : fields_ok s → fields_ok (snd (rtmp_server_send handler s a b)).
Proof.
  intros H. unfold rtmp_server_send. destruct (h_send handler _ _ _) as [r u]. cbn [snd].
  destruct H. by constructor.
Qed.

Lemma write_message_from_handled t fmt cid ts n type id data : server_ok t →
  is_channel cid → is_uint 32 ts → is_byte type → is_uint 32 id →
  0 ≤ n ≤ zlen data → n < 16777215 →
  handled t (write_message_from realloc handler t fmt cid ts n type id data).
Proof.
  intros [Hw Hf] Hc Hts Hty Hid Hn Hmax. unfold write_message_from. rewrite slice_ok by lia. run.
  destruct (ww_channel _ Hw cid Hc) as (pkt & Hx & Hp).
  destruct (rtmp_chunk_write_safe realloc (rtmp_server_send handler) fields_ok t
    (RtmpChunkHeader fmt cid ts n type id) (sub data 0 n) pkt) as (r & t' & -> & Hwr & Hk);
    [apply rtmp_server_send_keeps|done|done|by constructor; cbn; (done || lia)| |done|done|].
  { cbn. symmetry. apply zlen_sub; lia. }
  destruct Hwr as (Hw' & _ & _ & H1 & H2 & H3). by exists r, t'.
Qed.

Lemma send_control_handled t n id : server_ok t → 0 ≤ n ≤ PAYLOAD_SIZE → is_uint 32 id →
  handled t (rtmp_server_send_control realloc handler t n id).
Proof.
  intros Hi Hn Hid. unfold rtmp_server_send_control. pose proof (fo_payload _ (proj2 Hi)) as Hz.
  unfold PAYLOAD_SIZE in *.
  rewrite u32_id by (unfold is_uint; lia).
  apply write_message_from_handled; [done|unfold is_channel; by_eval|by_eval|by_eval|done|lia|lia].
Qed.

Lemma handled_build t bs write (k : Z * session U → outcome (Z * session U)) : server_ok t →
  (∀ m, at_end m 0 (0 + PAYLOAD_SIZE) bs → write m 0 PAYLOAD_SIZE = Ok (put m 0 bs, Some (0 + zlen bs))) →
  zlen bs ≤ PAYLOAD_SIZE →
  (∀ t', server_ok t' → sv_stream_id (param t') = sv_stream_id (param t) → handled t' (k (zlen bs, t'))) →
  handled t (build_payload t write ≫= k).
Proof.
  intros Hi Hw Hb Hk. destruct (build_payload_ok t bs write Hi Hw Hb) as (t' & -> & Hi' & ->). run.
  by apply (handled_upd t (λ s, set_payload s (put (sv_payload s) 0 bs))), Hk.
Qed.
(** The writers of the replies, on a buffer of [PAYLOAD_SIZE]. *)
Lemma cstr_lit s : 0 ∉ chars s → cstr (lit s) = chars s.
Proof.
  unfold lit. induction (chars s) as [|c l IH]; [done|]. intros [Hc Hl]%not_elem_of_cons.
  cbn [app cstr]. destruct (Z.eqb_spec c 0); [congruence|]. by rewrite IH.
Qed.

Lemma string_ok_lit s : bytes_ok (chars s) → 0 ∉ chars s → zlen (chars s) < 65536 → string_ok (lit s).
Proof.
  intros Hb Hn Hz. split; [|split].
  - unfold lit. apply elem_of_app. right. by left.
  - unfold lit. apply Forall_app. split; [done|]. by apply Forall_singleton.
  - by rewrite cstr_lit.
Qed.

Ltac literal := apply string_ok_lit; by_eval.

Lemma build_message_handled t c (k : Z * session U → outcome (Z * session U)) tid : server_ok t →
  Forall string_ok (command_strings c) → zlen (amf_seq (command_values tid c)) ≤ PAYLOAD_SIZE →
  (∀ n t', 0 ≤ n ≤ PAYLOAD_SIZE → server_ok t' → sv_stream_id (param t') = sv_stream_id (param t) →
     handled t' (k (n, t'))) →
  handled t (build_payload t (λ m out bytes, write_message c m out bytes tid) ≫= k).
Proof.
  intros Hi Hs Hz Hk. apply (handled_build t (amf_seq (command_values tid c))); [done| |done|].
  - intros m Hm. by rewrite write_message_emits.
  - intros t' Hi' Hid. apply Hk; [|done|done]. pose proof (zlen_nonneg (amf_seq (command_values tid c))). lia.
Qed.

Lemma send_onstatus_handled t tid r (success fail description : string) : server_ok t →
  (let c := OnStatus (if 0 =? r then RTMP_LEVEL_STATUS else RTMP_LEVEL_ERROR)
              (if 0 =? r then lit success else lit fail) (lit description) in
   Forall string_ok (command_strings c) ∧ zlen (amf_seq (command_values tid c)) ≤ PAYLOAD_SIZE) →
  handled t (rtmp_server_send_onstatus realloc handler t tid r (lit success) (lit fail) (lit description)).
Proof.
  intros Hi [Hs Hz]. unfold rtmp_server_send_onstatus.
  apply (build_message_handled t _ _ tid Hi Hs Hz). intros n t' Hn Hi' _.
  apply send_control_handled; [done|done|]. apply (fo_stream_id _ (proj2 Hi')).
Qed.
Ltac onstatus := apply send_onstatus_handled;
  [done|match goal with |- context [0 =? ?r] => destruct (0 =? r) end;
    (split; [repeat (apply Forall_cons_2; [literal|]); apply Forall_nil_2|by vm_compute])].

Lemma and_then_handled r t next : server_ok t → (0 = r → handled t (next t)) →
  handled t (and_then r t next).
Proof. intros Hi Hn. unfold and_then. destruct (Z.eqb_spec 0 r); [auto|by apply handled_ret]. Qed.

Lemma stream_begin_handled t : server_ok t → handled t (rtmp_server_send_stream_begin handler t).
Proof. intros. by apply (send_payload_handled t (StreamBegin (sv_stream_id (param t)))). Qed.

Lemma stream_is_record_handled t : server_ok t → handled t (rtmp_server_send_stream_is_record handler t).
Proof. intros. by apply (send_payload_handled t (StreamIsRecord (sv_stream_id (param t)))). Qed.

Lemma sample_access_handled t : server_ok t → handled t (rtmp_server_rtmp_sample_access realloc handler t).
Proof.
  intros Hi. unfold rtmp_server_rtmp_sample_access.
  apply (handled_build t (amf_seq [AString (chars "|RtmpSampleAccess"); ABoolean 1; ABoolean 1]));
    [done|intros m; apply rtmpsampleaccess_emits|by vm_compute|].
  intros t' Hi' _. destruct Hi' as [Hw' Hf']. pose proof (fo_payload _ Hf') as Hz.
  apply write_message_from_handled; [done|unfold is_channel; by_eval|by_eval|by_eval| |rewrite Hz; by_eval|by_eval].
  apply (fo_stream_id _ Hf').
Qed.

Lemma set_play_ok t v : server_ok t → server_ok (upd (λ s, set_play s v) t).
Proof. intros H. apply upd_ok; [done|]. fields H. Qed.

(** The end of [rtmp_server_start]. *)
Lemma start_done_handled t x : handled t x →
  handled t (x ≫= λ '(r, t), Ok (r, upd (λ s, set_play s 0) t)).
Proof.
  intros Hx. apply handled_bind; [done|]. intros r t' Hi' _ _ _.
  apply (handled_upd t' (λ s, set_play s 0)), handled_ret. by apply set_play_ok.
Qed.

Lemma rtmp_server_start_handled t r : server_ok t → r ≠ RTMP_SERVER_START_RECONNECT →
  handled t (rtmp_server_start realloc handler t r None).
Proof.
  intros Hi Hr. unfold rtmp_server_start, message_or.
  destruct (Z.eqb_spec RTMP_SERVER_START_RECONNECT r); [congruence|].
  destruct (RTMP_SERVER_ONPLAY =? _); [|destruct (RTMP_SERVER_ONPUBLISH =? _)].
  - destruct (Z.eqb_spec 0 r) as [<-|Hr0]; run.
    + rewrite bind_assoc. apply handled_bind; [by apply stream_begin_handled|].
      intros r1 t1 Hi1 _ _ _. rewrite bind_assoc.
      apply handled_bind.
      { destruct (truth _); [|by apply handled_ret].
        apply and_then_handled; [done|]. intros _. onstatus. }
      intros r2 t2 Hi2 _ _ _. run. destruct (Z.eqb_spec 0 r2) as [<-|]; cbn [negb]; [|by apply handled_ret].
      apply handled_bind; [onstatus|]. intros r3 t3 Hi3 _ _ _.
      apply handled_bind; [by apply and_then_handled; [|intros; apply stream_is_record_handled]|].
      intros r4 t4 Hi4 _ _ _. apply start_done_handled.
      by apply and_then_handled; [|intros; apply sample_access_handled].
    + apply handled_bind; [onstatus|]. intros r3 t3 Hi3 _ _ _.
      apply handled_bind; [by apply and_then_handled; [|intros; apply stream_is_record_handled]|].
      intros r4 t4 Hi4 _ _ _. apply start_done_handled.
      by apply and_then_handled; [|intros; apply sample_access_handled].
  - destruct (Z.eqb_spec 0 r) as [<-|Hr0]; run.
    + rewrite bind_assoc. apply handled_bind; [by apply stream_begin_handled|].
      intros r1 t1 Hi1 _ _ _. run. destruct (Z.eqb_spec 0 r1) as [<-|]; cbn [negb]; [|by apply handled_ret].
      apply start_done_handled. onstatus.
    + apply start_done_handled. onstatus.
  - apply (handled_upd t (λ s, set_play s 0)), handled_ret. by apply set_play_ok.
Qed.

(** A call made after others. *)
Lemma handled_from t t' x : in_packets t' = in_packets t → parser t' = parser t →
  in_chunk_size t' = in_chunk_size t → handled t' x → handled t x.
Proof.
  intros H1 H2 H3 (r & t2 & -> & H4 & H5 & H6 & Hi). exists r, t2. split_and!; congruence || done.
Qed.

Lemma reply_handled t r : server_ok t → r ≠ RTMP_SERVER_START_RECONNECT →
  handled t (rtmp_server_reply realloc handler t r).
Proof.
  intros Hi Hr. unfold rtmp_server_reply. destruct (_ || _); [by apply handled_ret|].
  apply handled_bind; [by apply rtmp_server_start_handled|]. intros. by apply handled_ret.
Qed.
(** * The callbacks *)

Lemma set_chunk_size_handled t : server_ok t → handled t (rtmp_server_send_set_chunk_size handler t).
Proof.
  intros Hi. unfold rtmp_server_send_set_chunk_size.
  apply handled_bind; [by apply (send_payload_handled t (SetChunkSize RTMP_OUTPUT_CHUNK_SIZE))|].
  intros r t' [Hw Hf] _ _ _. eexists _, _. split; [reflexivity|]. split_and!; [done..|].
  split; [|done]. destruct Hw. by constructor.
Qed.

Lemma onconnect_safe t r tid c : server_ok t →
  handled t (rtmp_server_onconnect realloc handler t r tid c).
Proof.
  intros Hi. unfold rtmp_server_onconnect. apply handled_bind.
  - destruct (0 =? r); [|by apply handled_ret].
    apply (handled_upd t (λ s, set_info s c)). set (t1 := upd _ t).
    assert (server_ok t1) as Hi1 by (apply upd_ok; [done|]; fields Hi).
    apply handled_bind;
      [by apply (send_payload_handled t1 (WindowAcknowledgementSize (window_size t1)))|].
    intros r2 t2 Hi2 _ _ _. apply handled_bind.
    + apply and_then_handled; [done|]. intros _.
      by apply (send_payload_handled t2 (SetPeerBandwidth (peer_bandwidth t2) RTMP_BANDWIDTH_LIMIT_DYNAMIC)).
    + intros r3 t3 Hi3 _ _ _. apply and_then_handled; [done|]. intros _. by apply set_chunk_size_handled.
  - intros r2 t2 Hi2 _ _ _. apply and_then_handled; [done|]. intros _.
    apply (build_message_handled t2 (ConnectReply RTMP_FMSVER RTMP_CAPABILITIES
      (lit "NetConnection.Connect.Success") RTMP_LEVEL_STATUS (lit "Connection Succeeded.") (c_encoding c)));
      [done| |by vm_compute|].
    + unfold RTMP_FMSVER, RTMP_LEVEL_STATUS. repeat (apply Forall_cons_2; [literal|]). apply Forall_nil_2.
    + intros n t3 Hn Hi3 _. apply send_control_handled; [done|done|by_eval].
Qed.

Lemma oncreate_stream_safe t r tid : server_ok t →
  handled t (rtmp_server_oncreate_stream realloc handler t r tid).
Proof.
  intros Hi. unfold rtmp_server_oncreate_stream. apply and_then_handled; [done|]. intros _.
  apply (handled_upd t (λ s, set_stream_id s 1)). set (t1 := upd _ t).
  assert (server_ok t1) as Hi1.
  { apply upd_ok; [done|]. destruct Hi as [_ []]. constructor; cbn; try done. }
  apply (build_message_handled t1 (CreateStreamReply (double_of_uint (sv_stream_id (param t1)))));
    [done|apply Forall_nil_2|by vm_compute|].
  intros n t2 Hn Hi2 _. apply send_control_handled; [done|done|by_eval].
Qed.

(** [snprintf] of a string into an array. *)
Lemma snprintf_s_ok m n s : 0 ∈ s → 0 < n ≤ zlen m → ∃ m', snprintf_s m n s = Ok m' ∧ zlen m' = zlen m.
Proof.
  intros Hs Hn. unfold snprintf_s. destruct (strlen_ok s Hs) as (k & -> & Hk & Hlt). run.
  set (b := sub s 0 (Z.min k (n - 1))). assert (zlen b = Z.min k (n - 1)) as Hb by (apply zlen_sub; lia).
  assert (zlen (b ++ [0]) ≤ zlen m) by llia.
  eexists. split; [apply st_ok; [lia|]|rewrite zlen_put]; lia.
Qed.

Lemma onpublish_safe t r tid name type : server_ok t → 0 ∈ name → 0 ∈ type →
  handled t (rtmp_server_onpublish realloc handler t r tid name type).
Proof.
  intros Hi Hn Hty. unfold rtmp_server_onpublish. apply and_then_handled; [done|]. intros _.
  pose proof (fo_stream_name _ (proj2 Hi)) as Hz1. pose proof (fo_stream_type _ (proj2 Hi)) as Hz2.
  destruct (snprintf_s_ok (sv_stream_name (param t)) (256 - 1) name) as (m1 & -> & Hm1); [done|lia|]. run.
  destruct (snprintf_s_ok (sv_stream_type (param t)) (18 - 1) type) as (m2 & -> & Hm2); [done|lia|]. run.
  match goal with |- handled _ (h_onpublish _ ?t1 _ _ _ ≫= _) => set (t' := t1) end.
  assert (server_ok t') as Hi1.
  { unfold t'. apply upd_ok; [done|]. destruct Hi as [_ []]. constructor; cbn; congruence || done. }
  apply (handled_from t t'); [done..|].
  destruct (app_onpublish t' (c_app (sv_info (param t'))) name type Hi1) as [(r' & t2 & E & H1 & H2 & H3 & Hi2) Hne].
  rewrite E. run. apply (handled_from t' t2); try done. apply reply_handled; [done|].
  intros ->. by apply (Hne t2).
Qed.

Lemma onplay_safe t r tid name start duration reset : server_ok t → 0 ∈ name →
  handled t (rtmp_server_onplay realloc handler t r tid name start duration reset).
Proof.
  intros Hi Hn. unfold rtmp_server_onplay. apply and_then_handled; [done|]. intros _.
  pose proof (fo_stream_name _ (proj2 Hi)) as Hz1. pose proof (fo_stream_type _ (proj2 Hi)) as Hz2.
  destruct (snprintf_s_ok (sv_stream_name (param t)) (256 - 1) name) as (m1 & -> & Hm1); [done|lia|]. run.
  match goal with |- context [snprintf_s _ _ ?s] => assert (0 ∈ s) as Hs end.
  { destruct (_ =? _); by_eval. }
  destruct (snprintf_s_ok (sv_stream_type (param t)) (18 - 1) _ Hs) as (m2 & -> & Hm2); [lia|]. run.
  match goal with |- handled _ (h_onplay _ ?t1 _ _ _ _ _ ≫= _) => set (t' := t1) end.
  assert (server_ok t') as Hi1.
  { unfold t'. apply upd_ok; [done|]. destruct Hi as [_ []]. constructor; cbn; congruence || done. }
  apply (handled_from t t'); [done..|].
  destruct (app_onplay t' (c_app (sv_info (param t'))) name start duration reset Hi1)
    as [(r' & t2 & E & H1 & H2 & H3 & Hi2) Hne].
  rewrite E. run. apply (handled_from t' t2); try done. apply reply_handled; [done|].
  intros ->. by apply (Hne t2).
Qed.

Lemma send_resumed_handled t tid r : server_ok t →
  handled t (rtmp_server_send_resumed realloc handler t tid r).
Proof.
  intros Hi. unfold rtmp_server_send_resumed. apply handled_bind; [onstatus|].
  intros r1 t1 Hi1 _ _ _. onstatus.
Qed.

Lemma onreceive_audio_safe t r tid v : server_ok t →
  handled t (rtmp_server_onreceive_audio realloc handler t r tid v).
Proof.
  intros Hi. unfold rtmp_server_onreceive_audio. apply and_then_handled; [done|]. intros _.
  match goal with |- context [upd ?f t] => apply (handled_upd t f); set (t1 := upd f t) end.
  assert (server_ok t1) by (apply upd_ok; [done|]; fields Hi).
  destruct (truth v); [by apply send_resumed_handled|by apply handled_ret].
Qed.

Lemma onreceive_video_safe t r tid v : server_ok t →
  handled t (rtmp_server_onreceive_video realloc handler t r tid v).
Proof.
  intros Hi. unfold rtmp_server_onreceive_video. apply and_then_handled; [done|]. intros _.
  match goal with |- context [upd ?f t] => apply (handled_upd t f); set (t1 := upd f t) end.
  assert (server_ok t1) by (apply upd_ok; [done|]; fields Hi).
  destruct (truth v); [by apply send_resumed_handled|by apply handled_ret].
Qed.

(** * The contract *)

#[global] Instance server_media : MediaCallbacks (server_callbacks realloc handler).
Proof.
  split; cbn [server_callbacks onaudio onvideo onscript onabort client_oneof client_onping client_onbandwidth].
  - intros t ics sn ws pb bl lt [Hw Hf]. split; [by apply (writer_wf_same t)|done].
  - intros. by apply app_onaudio.
  - intros. by apply app_onvideo.
  - intros. by apply app_onscript.
  - intros. unfold rtmp_server_onabort. run. by apply handled_ret.
  - done.
  - done.
  - done.
Qed.

#[global] Instance server_commands : CommandCallbacks (server_callbacks realloc handler).
Proof.
  split; cbn [server_callbacks server_onconnect server_oncreate_stream server_onplay
    server_onreceive_audio server_onreceive_video server_onpublish]; intros * E; apply Some_inj in E; subst.
  - intros. by apply onconnect_safe.
  - intros. by apply oncreate_stream_safe.
  - intros. by apply onplay_safe.
  - intros. by apply onreceive_audio_safe.
  - intros. by apply onreceive_video_safe.
  - intros. by apply onpublish_safe.
Qed.

(** * Input *)

Lemma acknowledgement_handled t size : server_ok t →
  handled t (rtmp_server_send_acknowledgement handler t size).
Proof.
  intros Hi. unfold rtmp_server_send_acknowledgement. destruct (sv_recv_bytes (param t)) as [n0 n1].
  set (n := u32 (n0 + u32 size)).
  assert (∀ v t, server_ok t → server_ok (upd (λ s, set_recv_bytes s v) t)) as Hrecv
    by (intros v t0 H; apply upd_ok; [done|]; fields H).
  apply (handled_upd t (λ s, set_recv_bytes s (n, n1))). set (t1 := upd _ t).
  assert (server_ok t1) as Hi1 by (by apply Hrecv).
  change (window_size t) with (window_size t1). destruct (_ && _); [|by apply handled_ret].
  apply handled_bind; [by apply (send_payload_handled t1 (Acknowledgement n))|].
  intros r t2 Hi2 _ _ _. apply (handled_upd t2 (λ s, set_recv_bytes s (n, n))), handled_ret. by apply Hrecv.
Qed.

(** What an established session does with input: the acknowledgement, then the
    chunks; the fragile commands are answered by [stop]. *)
Definition screened_input (stop : Z) t (data : list Z) : outcome (Z * session U) :=
  '(_, t) ← rtmp_server_send_acknowledgement handler t (zlen data);
  rtmp_chunk_read realloc (screened_handler indeterminate (server_callbacks realloc handler) stop) t data
    (zlen data).

Lemma input_established t data : sv_handshake_state (param t) = RTMP_HANDSHAKE_2 → data ≠ [] →
  rtmp_server_input realloc indeterminate rand now handler t data (zlen data) =
  '(_, t) ← rtmp_server_send_acknowledgement handler t (zlen data);
  rtmp_chunk_read realloc (rtmp_handler indeterminate (server_callbacks realloc handler)) t data (zlen data).
Proof.
  intros Hs Hd. unfold rtmp_server_input. destruct data as [|x d]; [done|]. set (data := x :: d).
  assert (0 < zlen data) as Hz by (unfold data; rewrite zlen_cons; pose proof (zlen_nonneg d); lia).
  destruct (Z.to_nat (zlen data)) as [|f] eqn:E; [lia|]. cbn [rtmp_server_input_loop].
  destruct (Z.gtb_spec (zlen data) 0); [|lia]. rewrite Hs. cbn [Z.eqb].
  change (RTMP_HANDSHAKE_2 =? RTMP_HANDSHAKE_UNINIT) with false.
  change (RTMP_HANDSHAKE_2 =? RTMP_HANDSHAKE_0) with false.
  change (RTMP_HANDSHAKE_2 =? RTMP_HANDSHAKE_1) with false. cbv iota.
  destruct (rtmp_server_send_acknowledgement _ _ _) as [| |[r t1]]; run; try done.
  rewrite slice_ok by lia. run. by rewrite sub_full.
Qed.

Lemma screened_input_ok stop t data : stop ≠ 0 → running t → bytes_ok data → data ≠ [] →
  ∃ r t', screened_input stop t data = Ok (r, t') ∧ (r = 0 → running t') ∧
    (r ≠ stop → rtmp_server_input realloc indeterminate rand now handler t data (zlen data) = Ok (r, t')).
Proof.
  intros Hst (Hw & Hc & Hi) Hd Hne. rewrite input_established by (done || apply (fo_established _ (proj2 Hi))).
  unfold screened_input.
  destruct (acknowledgement_handled t (zlen data) Hi) as (r0 & t1 & -> & H1 & H2 & H3 & Hi1). run.
  apply (screened_read indeterminate (server_callbacks realloc handler)); [done| |done]. split; [|split; [by rewrite H3|done]].
  destruct Hw. constructor; rewrite ?H1, ?H2; done.
Qed.
End ServerSafe.

(** * Properties *)

(** The server that has received the three handshake messages. *)
Lemma awaiting_done {U} rand now (sent : U → list Z → U) u hs : zlen hs = 3073 →
  let t := awaiting rand now sent u hs in
  running t ∧ sv_handshake_state (param t) = RTMP_HANDSHAKE_2 ∧
  sv_app (param t) = sent u ([RTMP_VERSION] ++ handshake_1 rand now ++ sub hs 1 1536) ∧
  set_param t (param (rtmp_server_create u)) = rtmp_server_create u.
Proof.
  intros Hz t. unfold t. rewrite awaiting_2 by lia. rewrite Hz. pose proof zlen_payload_buffer as Hp.
  assert (zlen (sub hs 1 1536) = 1536) by (apply zlen_sub; lia).
  assert (zlen (sub hs 1537 (3073 - 1537)) = 1536) by (rewrite zlen_sub; lia).
  split; [|done]. split; [destruct (create_running (P := rtmp_server_t U)
    (param (rtmp_server_create u))) as [[] _]; by constructor|].
  split; [done|]. split; [apply (writer_wf_same (rtmp_server_create u)); [apply create_writer_wf|done..]|].
  unfold PAYLOAD_SIZE in *. constructor; cbn [param set_param server_fields sv_payload sv_handshake
    sv_handshake_bytes sv_stream_name sv_stream_type sv_stream_id sv_handshake_state]; try done.
  - rewrite !zlen_put; [done|lia..| |]; rewrite ?zlen_put; lia.
  - rewrite zlen_put; [apply zlen_handshake_buffer|lia|].
    rewrite zlen_server_hello, zlen_handshake_buffer by lia. by vm_compute.
Qed.

(** C17: the handshake completes however C0, C1 and C2 are cut: the server sends
    S0, S1 and an echo of C1, once, and reaches the established state with a
    well-formed session that is otherwise as it was created; bytes that follow C2
    in the same call are read as chunks, after the acknowledgement. *)
Theorem rtmp_server_handshake {U} realloc indeterminate rand now handler (sent : U → list Z → U)
    `{!Accepts handler sent} u hs : is_uint 32 now → zlen hs = 3073 →
  let input := input_all realloc indeterminate rand now handler in
  ∃ t, running t ∧ sv_handshake_state (param t) = RTMP_HANDSHAKE_2 ∧
    sv_app (param t) = sent u ([RTMP_VERSION] ++ handshake_1 rand now ++ sub hs 1 1536) ∧
    set_param t (param (rtmp_server_create u)) = rtmp_server_create u ∧
    ∀ frags, (concat frags = hs → input (rtmp_server_create u) frags = Ok (0, t)) ∧
      ∀ d rest, concat frags ++ d = hs ++ rest → zlen (concat frags) ≤ 3073 → rest ≠ [] →
        input (rtmp_server_create u) (frags ++ [d]) = input t [rest].
Proof.
  intros Hnow Hz input. exists (awaiting rand now sent u hs).
  destruct (awaiting_done rand now sent u hs Hz) as (H1 & H2 & H3 & H4).
  split_and!; [done..|]. intros frags.
  pose proof (input_all_handshake realloc indeterminate rand now handler sent Hnow u) as Hall.
  rewrite <- (awaiting_0 rand now sent u []) by done. split.
  - intros <-. apply (Hall frags []). llia.
  - intros d rest Heq Hle Hne. unfold input. rewrite input_all_app, (Hall frags []) by llia. run.
    cbn [Z.eqb input_all app]. rewrite !rtmp_server_input_ok by (done || lia).
    by rewrite (input_after_eq realloc indeterminate rand now handler sent u (concat frags) d hs rest Heq).
Qed.

(** C19: input to an established session returns for any bytes and leaves a
    well-formed session unless it reports an error, whatever the transport, the
    allocator and an application that keeps its side: up to the first command
    among deleteStream, seek, pause, getStreamLength, _result, _error and
    onStatus, whose handlers have undefined behaviour on some arguments ([stop]
    marks it). *)
Theorem rtmp_server_input_safe {U} realloc indeterminate rand now (handler : rtmp_server_handler_t U)
    stop t data :
  Application handler → stop ≠ 0 → running t → bytes_ok data → data ≠ [] →
  ∃ r t', screened_input realloc indeterminate handler stop t data = Ok (r, t') ∧ (r = 0 → running t') ∧
    (r ≠ stop → rtmp_server_input realloc indeterminate rand now handler t data (zlen data) = Ok (r, t')).
Proof. intros. by apply screened_input_ok. Qed.

(** A control message on a transport that takes everything. *)
Lemma send_control_payload_ok {U} handler (sent : U → list Z → U) `{!Accepts handler sent} (t : session U) c :
  zlen (sv_payload (param t)) = PAYLOAD_SIZE →
  ∃ m, zlen m = PAYLOAD_SIZE ∧
    send_payload handler t (write_control c (sv_payload (param t)) 0 PAYLOAD_SIZE) =
    Ok (0, upd (λ s, set_app s (sent (sv_app (param t)) (control_bytes c))) (upd (λ s, set_payload s m) t)).
Proof.
  intros Hz. set (p := sv_payload (param t)) in *.
  assert (12 + zlen (control_body c) ≤ PAYLOAD_SIZE) as Hr by (destruct c; by vm_compute).
  pose proof (zlen_nonneg (control_body c)). pose proof (zlen_control_bytes c) as Hc.
  unfold send_payload. rewrite write_control_ok by lia. run.
  assert (zlen (put p 0 (control_bytes c)) = PAYLOAD_SIZE) as Hm by (rewrite zlen_put; lia).
  exists (put p 0 (control_bytes c)). split; [done|]. unfold handler_send.
  rewrite slice_ok by lia. run. rewrite sub_put by lia.
  rewrite accepts, app_nil_r. run. by rewrite zlen_nil, Z.add_0_r, Z.eqb_refl.
Qed.

(** C37: the bytes received but not acknowledged never exceed the window: the
    call counts the input modulo 2^32, and sends an acknowledgement of the count
    exactly when the window has been passed. *)
Theorem rtmp_server_acknowledges {U} handler (sent : U → list Z → U) `{!Accepts handler sent} t size :
  server_ok t →
  let '(n0, n1) := sv_recv_bytes (param t) in
  let n := u32 (n0 + u32 size) in
  let due := negb (window_size t =? 0) && (window_size t <? u32 (n - n1)) in
  ∃ t', rtmp_server_send_acknowledgement handler t size = Ok (0, t') ∧ server_ok t' ∧
    sv_recv_bytes (param t') = (n, if due then n else n1) ∧
    sv_app (param t') =
      (if due then sent (sv_app (param t)) (control_bytes (Acknowledgement n)) else sv_app (param t)) ∧
    (0 < window_size t → u32 (fst (sv_recv_bytes (param t')) - snd (sv_recv_bytes (param t'))) ≤ window_size t).
Proof.
  intros Hi. destruct (sv_recv_bytes (param t)) as [n0 n1] eqn:E. intros n due.
  destruct (acknowledgement_handled handler t size Hi) as (r & t' & Ht' & _ & _ & _ & Hi').
  exists t'. revert Ht'. unfold rtmp_server_send_acknowledgement. rewrite E. fold n.
  change (window_size (upd ?f t)) with (window_size t).
  assert (truth (window_size t) && (u32 (n - n1) >? window_size t) = due) as ->.
  { unfold due, truth. by rewrite Z.gtb_ltb. }
  destruct due eqn:D.
  - set (t1 := upd _ t).
    change (rtmp_acknowledgement ?m ?o ?k n) with (write_control (Acknowledgement n) m o k).
    destruct (send_control_payload_ok handler sent t1 (Acknowledgement n)) as (m & Hm & ->);
      [apply (fo_payload _ (proj2 Hi))|]. run.
    intros [= <- <-]. split_and!; [done..|]. intros Hw. cbn [upd param set_param set_recv_bytes sv_recv_bytes fst snd].
    rewrite Z.sub_diag. change (u32 0) with 0. lia.
  - intros [= <- <-]. split_and!; [done..|]. intros Hw. cbn [upd param set_param set_recv_bytes sv_recv_bytes fst snd].
    unfold due in D. destruct (Z.eqb_spec (window_size t) 0); [lia|].
    by destruct (Z.ltb_spec (window_size t) (u32 (n - n1))).
Qed.

(** * Witnesses *)

(** An application that keeps what is sent and agrees to everything. *)
Definition demo_app : rtmp_server_handler_t (list Z) :=
  RtmpServerHandler _ (λ u h p, (zlen h + zlen p, u ++ h ++ p))
    None (λ t _ _ _ _ _, Ok (0, t)) (λ t _ _, Ok (0, t)) (λ t _, Ok (0, t)) (λ t _ _ _, Ok (0, t))
    (λ t _ _, Ok (0, t)) (λ t _ _, Ok (0, t)) (λ t _ _, Ok (0, t)) None.

#[local] Instance demo_accepts : Accepts demo_app app.
Proof. by intros u h p. Qed.

#[local] Instance demo_application : Application demo_app.
Proof. split; intros; cbn [demo_app h_onaudio h_onvideo h_onscript h_onplay h_onpublish];
  first [by apply handled_ret | split; [by apply handled_ret|by intros]].
Qed.

Lemma rtmp_server_handshake_witness :
  let hs := replicate (Z.to_nat 3073) 3 in
  ∃ t, running t ∧ sv_handshake_state (param t) = RTMP_HANDSHAKE_2 ∧
    sv_app (param t) = [] ++ ([RTMP_VERSION] ++ handshake_1 (λ _ i, i) 7 ++ sub hs 1 1536) ∧
    set_param t (param (rtmp_server_create [])) = rtmp_server_create [] ∧
    ∀ frags,
      (concat frags = hs →
       input_all (λ _, true) 0 (λ _ i, i) 7 demo_app (rtmp_server_create []) frags = Ok (0, t)) ∧
      ∀ d rest, concat frags ++ d = hs ++ rest → zlen (concat frags) ≤ 3073 → rest ≠ [] →
        input_all (λ _, true) 0 (λ _ i, i) 7 demo_app (rtmp_server_create []) (frags ++ [d]) =
        input_all (λ _, true) 0 (λ _ i, i) 7 demo_app t [rest].
Proof.
  apply (rtmp_server_handshake (λ _, true) 0 (λ _ i, i) 7 demo_app app []); [done|].
  by vm_compute.
Defined.

Definition demo_established : session (list Z) :=
  upd (λ s, set_handshake_state s 0 RTMP_HANDSHAKE_2) (rtmp_server_create []).

Lemma demo_established_running : running demo_established.
Proof.
  split; [|split; [done|split; [|by constructor]]].
  - destruct (create_running (P := rtmp_server_t (list Z)) (param (rtmp_server_create []))) as [[] _].
    by constructor.
  - by apply (writer_wf_same (rtmp_server_create [])); [apply create_writer_wf|..].
Qed.

Lemma rtmp_server_input_safe_witness :
  ∃ r t', screened_input (λ _, true) 0 demo_app 1000 demo_established [3; 0; 0; 9] = Ok (r, t') ∧
    (r = 0 → running t') ∧
    (r ≠ 1000 → rtmp_server_input (λ _, true) 0 (λ _ i, i) 7 demo_app demo_established [3; 0; 0; 9] 4 = Ok (r, t')).
Proof.
  apply (rtmp_server_input_safe (λ _, true) 0 (λ _ i, i) 7 demo_app 1000 demo_established [3; 0; 0; 9]);
    [apply _|lia|apply demo_established_running|by_eval|done].
Defined.

Lemma rtmp_server_acknowledges_witness :
  ∃ t', rtmp_server_send_acknowledgement demo_app demo_established 6000000 = Ok (0, t') ∧ server_ok t' ∧
    sv_recv_bytes (param t') = (6000000, 6000000) ∧
    sv_app (param t') = [] ++ control_bytes (Acknowledgement 6000000) ∧
    (0 < 5000000 → u32 (fst (sv_recv_bytes (param t')) - snd (sv_recv_bytes (param t'))) ≤ 5000000).
Proof.
  apply (rtmp_server_acknowledges demo_app app demo_established 6000000).
  apply demo_established_running.
Defined.
