(* ===== verification/RtmpClient.v ===== *)
(** The client of a session: rtmp-client.c, completely.  The application is a
    record of functions over the session, [now] is what time(NULL) returns. *)
From stdpp Require Import strings.
From S2P Require Import Prelude RtmpInternal RtmpChunk Amf0 RtmpCommand RtmpInvoke RtmpHandler.
From S2P Require Import RtmpHandshake RtmpServer.
Open Scope Z_scope.

(** * The state of the client *)

Definition FLASHVER : list Z := lit "LNX 9,0,124,2".
Definition RTMP_PUBLISH_CHUNK_SIZE : Z := 4000.
Definition SUPPORT_VID_CLIENT_SEEK : Z := 1.

Definition RTMP_STATE_UNINIT : Z := 0.
Definition RTMP_STATE_HANDSHAKE : Z := 1.
Definition RTMP_STATE_CONNECTED : Z := 2.
Definition RTMP_STATE_CREATE_STREAM : Z := 3.
Definition RTMP_STATE_START : Z := 4.
Definition RTMP_STATE_STOP : Z := 5.

(** [struct rtmp_client_t] without the session in it; [cl_app] is the state of
    the application behind [param]. *)
Record rtmp_client_t (U : Type) := RtmpClient {
  cl_connect : rtmp_connect_t;
  cl_stream_id : Z;
  cl_stream_name : list Z;  (* [256] *)
  cl_state : Z;
  cl_recv_bytes : Z * Z;
  cl_app : U;
  cl_payload : list Z;      (* [2 * 1024] *)
  cl_handshake_bytes : Z;
  cl_handshake_state : Z;
  cl_publish : Z
}.
Arguments RtmpClient {U}. Arguments cl_connect {U}. Arguments cl_stream_id {U}.
Arguments cl_stream_name {U}. Arguments cl_state {U}. Arguments cl_recv_bytes {U}. Arguments cl_app {U}.
Arguments cl_payload {U}. Arguments cl_handshake_bytes {U}. Arguments cl_handshake_state {U}.
Arguments cl_publish {U}.

(** [struct rtmp_t rtmp] with the client around it. *)
Abbreviation client_session U := (rtmp_t (rtmp_client_t U)).

(** * Assignments to the fields *)

Section Fields.
Context {U : Type}.
Implicit Types c : rtmp_client_t U.

Definition cl_set_stream_id c v := RtmpClient (cl_connect c) v (cl_stream_name c) (cl_state c)
  (cl_recv_bytes c) (cl_app c) (cl_payload c) (cl_handshake_bytes c) (cl_handshake_state c) (cl_publish c).
Definition cl_set_state c v := RtmpClient (cl_connect c) (cl_stream_id c) (cl_stream_name c) v
  (cl_recv_bytes c) (cl_app c) (cl_payload c) (cl_handshake_bytes c) (cl_handshake_state c) (cl_publish c).
Definition cl_set_recv_bytes c v := RtmpClient (cl_connect c) (cl_stream_id c) (cl_stream_name c)
  (cl_state c) v (cl_app c) (cl_payload c) (cl_handshake_bytes c) (cl_handshake_state c) (cl_publish c).
Definition cl_set_app c (v : U) := RtmpClient (cl_connect c) (cl_stream_id c) (cl_stream_name c)
  (cl_state c) (cl_recv_bytes c) v (cl_payload c) (cl_handshake_bytes c) (cl_handshake_state c) (cl_publish c).
Definition cl_set_payload c v := RtmpClient (cl_connect c) (cl_stream_id c) (cl_stream_name c)
  (cl_state c) (cl_recv_bytes c) (cl_app c) v (cl_handshake_bytes c) (cl_handshake_state c) (cl_publish c).
Definition cl_set_handshake c bytes state := RtmpClient (cl_connect c) (cl_stream_id c) (cl_stream_name c)
  (cl_state c) (cl_recv_bytes c) (cl_app c) (cl_payload c) bytes state (cl_publish c).
Definition cl_set_publish c v := RtmpClient (cl_connect c) (cl_stream_id c) (cl_stream_name c)
  (cl_state c) (cl_recv_bytes c) (cl_app c) (cl_payload c) (cl_handshake_bytes c) (cl_handshake_state c) v.

(** The same through the session. *)
Definition cl_upd (f : rtmp_client_t U → rtmp_client_t U) (t : client_session U) : client_session U :=
  set_param t (f (param t)).
End Fields.

(** [struct rtmp_client_handler_t] *)
Record rtmp_client_handler_t (U : Type) := RtmpClientHandler {
  ch_send : U → list Z → list Z → Z * U;
  ch_onvideo : client_session U → list Z → Z → outcome (Z * client_session U);
  ch_onaudio : client_session U → list Z → Z → outcome (Z * client_session U);
  ch_onscript : client_session U → list Z → Z → outcome (Z * client_session U)
}.
Arguments ch_send {U}. Arguments ch_onvideo {U}. Arguments ch_onaudio {U}. Arguments ch_onscript {U}.

Section Client.
Context {U : Type}.
Variable realloc : Z → bool.
Variable indeterminate : Z.
Variable rand : Z → Z → Z.
(** time(NULL) *)
Variable now : Z.
Variable handler : rtmp_client_handler_t U.
Implicit Types t : client_session U.

(** * Sending *)

(** [rtmp->send]: [rtmp_client_send] *)
Definition rtmp_client_send (c : rtmp_client_t U) (header payload : list Z) : Z * rtmp_client_t U :=
  let '(r, u) := ch_send handler (cl_app c) header payload in
  (if r =? s32 (zlen payload + zlen header) then 0 else -1, cl_set_app c u).

(** [ctx->handler.send(ctx->param, ctx->payload, n, NULL, 0)] *)
Definition client_transmit t (n : Z) : outcome (Z * client_session U) :=
  b ← slice (cl_payload (param t)) 0 n;
  let '(r, u) := ch_send handler (cl_app (param t)) b [] in
  Ok (r, cl_upd (λ c, cl_set_app c u) t).

(** The functions that write [n] bytes to [ctx->payload] and send them. *)
Definition client_send_payload t (written : outcome (Z * list Z)) : outcome (Z * client_session U) :=
  '(n, m) ← written;
  '(r, t) ← client_transmit (cl_upd (λ c, cl_set_payload c m) t) n;
  Ok (if n =? r then 0 else r, t).

(** [rtmp_chunk_write(&ctx->rtmp, &header, data)] for the [length] bytes at [data]. *)
Definition client_write_message t (fmt cid timestamp length type stream_id : Z) (data : list Z)
  : outcome (Z * client_session U) :=
  b ← slice data 0 length;
  rtmp_chunk_write realloc rtmp_client_send t (RtmpChunkHeader fmt cid timestamp length type stream_id) b.

Definition rtmp_client_send_control t (bytes stream_id : Z) : outcome (Z * client_session U) :=
  client_write_message t RTMP_CHUNK_TYPE_0 RTMP_CHANNEL_INVOKE 0 (u32 bytes) RTMP_TYPE_INVOKE stream_id
    (cl_payload (param t)).

(** [r = (int)(write(ctx->payload, sizeof(ctx->payload), ...) - ctx->payload);
    return rtmp_client_send_control(&ctx->rtmp, ctx->payload, r, stream_id)] *)
Definition client_command t (stream_id : Z) (write : list Z → Z → Z → outcome (list Z * option Z))
  : outcome (Z * client_session U) :=
  '(m, ptr) ← write (cl_payload (param t)) 0 PAYLOAD_SIZE;
  n ← deref ptr;
  rtmp_client_send_control (cl_upd (λ c, cl_set_payload c m) t) n stream_id.

Definition rtmp_client_send_c2 t : outcome (Z * client_session U) :=
  '(_, m) ← rtmp_handshake_c2 (cl_payload (param t)) 0 now 0 RTMP_HANDSHAKE_SIZE;
  '(r, t) ← client_transmit (cl_upd (λ c, cl_set_payload c m) t) RTMP_HANDSHAKE_SIZE;
  Ok (if RTMP_HANDSHAKE_SIZE =? r then 0 else -1, t).

Definition rtmp_client_send_connect t : outcome (Z * client_session U) :=
  client_command t 0 (λ m out bytes,
    rtmp_netconnection_connect m out bytes (double_of_uint RTMP_TRANSACTION_CONNECT) (cl_connect (param t))).

Definition rmtp_client_send_release_stream t : outcome (Z * client_session U) :=
  client_command t (cl_stream_id (param t)) (λ m out bytes,
    rtmp_netstream_release_stream m out bytes DOUBLE_0 (cl_stream_name (param t))).

Definition rtmp_client_send_fcpublish t : outcome (Z * client_session U) :=
  client_command t 0 (λ m out bytes,
    rtmp_netstream_fcpublish m out bytes DOUBLE_0 (cl_stream_name (param t))).

Definition rtmp_client_send_fcunpublish t : outcome (Z * client_session U) :=
  client_command t (cl_stream_id (param t)) (λ m out bytes,
    rtmp_netstream_fcunpublish m out bytes DOUBLE_0 (cl_stream_name (param t))).

Definition rtmp_client_send_create_stream t : outcome (Z * client_session U) :=
  client_command t 0 (λ m out bytes,
    rtmp_netconnection_create_stream m out bytes (double_of_uint RTMP_TRANSACTION_CREATE_STREAM)).

Definition rtmp_client_send_delete_stream t : outcome (Z * client_session U) :=
  client_command t (cl_stream_id (param t)) (λ m out bytes,
    rtmp_netstream_delete_stream m out bytes DOUBLE_0 (double_of_uint (cl_stream_id (param t)))).

Definition rtmp_client_send_publish t : outcome (Z * client_session U) :=
  client_command t (cl_stream_id (param t)) (λ m out bytes,
    rtmp_netstream_publish m out bytes DOUBLE_0 (Some (cl_stream_name (param t))) (Some RTMP_STREAM_LIVE)).

Definition rtmp_client_send_play t : outcome (Z * client_session U) :=
  client_command t (cl_stream_id (param t)) (λ m out bytes,
    rtmp_netstream_play m out bytes DOUBLE_0 (Some (cl_stream_name (param t))) DOUBLE_M2 DOUBLE_M1 1).

Definition rtmp_client_send_get_stream_length t : outcome (Z * client_session U) :=
  client_command t (cl_stream_id (param t)) (λ m out bytes,
    rtmp_netconnection_get_stream_length m out bytes (double_of_uint RTMP_TRANSACTION_GET_STREAM_LENGTH)
      (cl_stream_name (param t))).

Definition rtmp_client_send_set_chunk_size t (size : Z) : outcome (Z * client_session U) :=
  client_send_payload t (rtmp_set_chunk_size (cl_payload (param t)) 0 PAYLOAD_SIZE (u32 size)).

Definition rtmp_client_send_acknowledgement t (size : Z) : outcome (Z * client_session U) :=
  let '(n0, n1) := cl_recv_bytes (param t) in
  let n0 := u32 (n0 + u32 size) in
  let t := cl_upd (λ c, cl_set_recv_bytes c (n0, n1)) t in
  if truth (window_size t) && (u32 (n0 - n1) >? window_size t) then
    '(r, t) ← client_send_payload t (rtmp_acknowledgement (cl_payload (param t)) 0 PAYLOAD_SIZE n0);
    Ok (r, cl_upd (λ c, cl_set_recv_bytes c (n0, n0)) t)
  else Ok (0, t).

Definition rtmp_client_send_server_bandwidth t : outcome (Z * client_session U) :=
  client_send_payload t
    (rtmp_window_acknowledgement_size (cl_payload (param t)) 0 PAYLOAD_SIZE (window_size t)).

Definition rtmp_client_send_set_buffer_length t : outcome (Z * client_session U) :=
  client_send_payload t
    (rtmp_event_set_buffer_length (cl_payload (param t)) 0 PAYLOAD_SIZE (cl_stream_id (param t))
       (buffer_length_ms t)).

(** * The callbacks of the session *)

Definition rtmp_client_onconnect t : outcome (Z * client_session U) :=
  let t := cl_upd (λ c, cl_set_state c RTMP_STATE_CONNECTED) t in
  '(r, t) ← (if 0 =? cl_publish (param t) then
               '(r, t) ← rmtp_client_send_release_stream t;
               and_then r t rtmp_client_send_fcpublish
             else Ok (0, t));
  and_then r t rtmp_client_send_create_stream.

Definition rtmp_client_oncreate_stream t (stream_id : Z) : outcome (Z * client_session U) :=
  let t := cl_upd (λ c, cl_set_state c RTMP_STATE_CREATE_STREAM) t in
  id ← UINT32 stream_id;
  let t := cl_upd (λ c, cl_set_stream_id c id) t in
  if 0 =? cl_publish (param t) then
    '(r, t) ← rtmp_client_send_publish t;
    '(r, t) ← and_then r t (λ t, rtmp_client_send_set_chunk_size t RTMP_PUBLISH_CHUNK_SIZE);
    Ok (r, if 0 =? r then set_out_chunk_size t RTMP_PUBLISH_CHUNK_SIZE else t)
  else
    '(r, t) ← (if 3 =? cl_publish (param t) then rtmp_client_send_get_stream_length t else Ok (0, t));
    '(r, t) ← and_then r t rtmp_client_send_play;
    and_then r t rtmp_client_send_set_buffer_length.

Definition rtmp_client_onnotify t (notify : Z) : outcome (Z * client_session U) :=
  Ok (0, if notify =? RTMP_NOTIFY_START then cl_upd (λ c, cl_set_state c RTMP_STATE_START) t
         else if notify =? RTMP_NOTIFY_STOP then cl_upd (λ c, cl_set_state c RTMP_STATE_STOP) t
         else t).

Definition rtmp_client_oneof t (streamId : Z) : outcome (Z * client_session U) :=
  rtmp_client_onnotify t RTMP_NOTIFY_STOP.

Definition rtmp_client_onping t (seqNo : Z) : outcome (Z * client_session U) :=
  client_send_payload t (rtmp_event_pong (cl_payload (param t)) 0 PAYLOAD_SIZE seqNo).

Definition rtmp_client_onbandwidth t : outcome (Z * client_session U) :=
  rtmp_client_send_server_bandwidth t.

Definition rtmp_client_onabort t (chunk_stream_id : Z) : outcome (client_session U) := Ok t.

Definition client_callbacks : rtmp_callbacks (rtmp_client_t U) :=
  RtmpCallbacks _ (ch_onaudio handler) (ch_onvideo handler) (ch_onscript handler) rtmp_client_onabort
    None None None None None None None None None None
    (Some rtmp_client_onconnect) (Some rtmp_client_oncreate_stream) (Some rtmp_client_onnotify)
    (Some rtmp_client_oneof) (Some rtmp_client_onping) (Some rtmp_client_onbandwidth) None.

(** * The interface *)

(** [None] for a null [tcurl]. *)
Definition rtmp_client_create (appname playpath : list Z) (tcurl : option (list Z)) (u : U)
  : outcome (client_session U) :=
  name ← snprintf_s (char_var 256) (256 - 1) playpath;
  app ← snprintf_s (char_var 128) (128 - 1) appname;
  url ← (match tcurl with Some url => snprintf_s (char_var 256) (256 - 1) url | None => Ok (char_var 256) end);
  flash ← snprintf_s (char_var 32) (32 - 1) FLASHVER;
  let connect := RtmpConnect app flash (char_var 256) url 0 (double_of_uint 15) (double_of_uint 3191)
    (double_of_uint 252) (double_of_uint SUPPORT_VID_CLIENT_SEEK) (double_of_uint RTMP_ENCODING_AMF_0)
    (char_var 256) DOUBLE_0 (replicate 16 (char_var 5)) in
  let t := rtmp_create (RtmpClient connect 0 name RTMP_STATE_UNINIT (0, 0) u (char_var PAYLOAD_SIZE) 0
    RTMP_HANDSHAKE_UNINIT 0) in
  Ok (set_peer_bandwidth (set_window_size t 2500000) 2500000 (limit_type t)).

(** The blocks passed to free, besides the session itself. *)
Definition rtmp_client_destroy t : list (list Z) :=
  omap p_payload (in_packets t) ++
  (if wh_capacity (chunk_write_header t) =? MAX_CHUNK_HEADER + 5 * 20 then []
   else [wh_ptr (chunk_write_header t)]).

(** The bytes of S1 or S2 into [ctx->payload]: the session, the bytes taken and
    whether the message is complete. *)
Definition client_receive t (data : list Z) (p bytes : Z) : outcome (client_session U * Z * bool) :=
  let have := cl_handshake_bytes (param t) in
  let complete := negb (bytes + have <? RTMP_HANDSHAKE_SIZE) in
  let n := if complete then u64 (RTMP_HANDSHAKE_SIZE - have) else bytes in
  b ← slice data p n;
  m ← st (cl_payload (param t)) have b;
  let t := cl_upd (λ c, cl_set_handshake (cl_set_payload c m) (have + n) (cl_handshake_state c)) t in
  Ok (t, n, complete).

(** [while (bytes > 0)] with [bytes] left at [p] of the input. *)
Fixpoint rtmp_client_input_loop (fuel : nat) t (data : list Z) (p bytes : Z)
  : outcome (Z * client_session U) :=
  if bytes >? 0 then
    match fuel with
    | O => Ub
    | S fuel =>
        let state := cl_handshake_state (param t) in
        if state =? RTMP_HANDSHAKE_UNINIT then
          let t := cl_upd (λ c, cl_set_handshake c 0 RTMP_HANDSHAKE_0) t in
          rtmp_client_input_loop fuel t data (p + 1) (bytes - 1)
        else if state =? RTMP_HANDSHAKE_0 then
          '(t, n, complete) ← client_receive t data p bytes;
          if (complete : bool) then
            let t := cl_upd (λ c, cl_set_handshake c 0 RTMP_HANDSHAKE_1) t in
            '(r, t) ← rtmp_client_send_c2 t;
            if negb (0 =? r) then Ok (r, t)
            else rtmp_client_input_loop fuel t data (p + n) (bytes - n)
          else rtmp_client_input_loop fuel t data (p + n) (bytes - n)
        else if state =? RTMP_HANDSHAKE_1 then
          '(t, n, complete) ← client_receive t data p bytes;
          if (complete : bool) then
            let t := cl_upd (λ c, cl_set_state (cl_set_handshake c 0 RTMP_HANDSHAKE_2) RTMP_STATE_HANDSHAKE) t in
            '(r, t) ← rtmp_client_send_connect t;
            if negb (0 =? r) then Ok (r, t)
            else rtmp_client_input_loop fuel t data (p + n) (bytes - n)
          else rtmp_client_input_loop fuel t data (p + n) (bytes - n)
        else
          '(_, t) ← rtmp_client_send_acknowledgement t bytes;
          b ← slice data p bytes;
          rtmp_chunk_read realloc (rtmp_handler indeterminate client_callbacks) t b bytes
    end
  else Ok (0, t).

Definition rtmp_client_input t (data : list Z) (bytes : Z) : outcome (Z * client_session U) :=
  rtmp_client_input_loop (Z.to_nat bytes) t data 0 bytes.

Definition rtmp_client_start t (publish : Z) : outcome (Z * client_session U) :=
  let t := cl_upd (λ c, cl_set_handshake (cl_set_publish c publish) (cl_handshake_bytes c) RTMP_HANDSHAKE_UNINIT) t in
  '(n, m) ← rtmp_handshake_c0 (cl_payload (param t)) 0 RTMP_VERSION;
  '(k, m) ← rtmp_handshake_c1 rand m n now;
  let n := n + k in
  '(r, t) ← client_transmit (cl_upd (λ c, cl_set_payload c m) t) n;
  Ok (if n =? r then 0 else -1, t).

Definition rtmp_client_stop t : outcome (Z * client_session U) :=
  '(r, t) ← (if 0 =? cl_publish (param t) then rtmp_client_send_fcunpublish t else Ok (0, t));
  and_then r t rtmp_client_send_delete_stream.

(** The largest time of the messages received. *)
Definition latest_timestamp (pkts : list rtmp_packet_t) : Z :=
  fold_left (λ timestamp pkt,
    if 0 =? h_cid (p_header pkt) then timestamp
    else if timestamp <? h_timestamp (p_header pkt) then h_timestamp (p_header pkt) else timestamp)
    pkts 0.

Definition rtmp_client_pause t (pause : Z) : outcome (Z * client_session U) :=
  client_command t (cl_stream_id (param t)) (λ m out bytes,
    rtmp_netstream_pause m out bytes DOUBLE_0 pause (double_of_uint (latest_timestamp (in_packets t)))).

Definition rtmp_client_seek t (timestamp : Z) : outcome (Z * client_session U) :=
  client_command t (cl_stream_id (param t)) (λ m out bytes,
    rtmp_netstream_seek m out bytes DOUBLE_0 timestamp).

Definition rtmp_client_getstate t : Z := cl_state (param t).

(** The body of the three functions that push media. *)
Definition client_push t (cid type : Z) (data : list Z) (bytes timestamp : Z)
  : outcome (Z * client_session U) :=
  client_write_message t RTMP_CHUNK_TYPE_1 cid timestamp (u32 bytes) type (cl_stream_id (param t)) data.

Definition rtmp_client_push_video t (data : list Z) (bytes timestamp : Z) : outcome (Z * client_session U) :=
  client_push t RTMP_CHANNEL_VIDEO RTMP_TYPE_VIDEO data bytes timestamp.
Definition rtmp_client_push_audio t (data : list Z) (bytes timestamp : Z) : outcome (Z * client_session U) :=
  client_push t RTMP_CHANNEL_AUDIO RTMP_TYPE_AUDIO data bytes timestamp.
Definition rtmp_client_push_script t (data : list Z) (bytes timestamp : Z) : outcome (Z * client_session U) :=
  client_push t RTMP_CHANNEL_INVOKE RTMP_TYPE_DATA data bytes timestamp.
End Client.
