(* ===== verification/MpegCrc32.v ===== *)
(** The checksum of the sections of a transport stream: mpeg-crc32.c. *)
From S2P Require Import Prelude.

Definition crc32table : list Z := [
  0x00000000; 0xb71dc104; 0x6e3b8209; 0xd926430d; 0xdc760413; 0x6b6bc517;
  0xb24d861a; 0x0550471e; 0xb8ed0826; 0x0ff0c922; 0xd6d68a2f; 0x61cb4b2b;
  0x649b0c35; 0xd386cd31; 0x0aa08e3c; 0xbdbd4f38; 0x70db114c; 0xc7c6d048;
  0x1ee09345; 0xa9fd5241; 0xacad155f; 0x1bb0d45b; 0xc2969756; 0x758b5652;
  0xc836196a; 0x7f2bd86e; 0xa60d9b63; 0x11105a67; 0x14401d79; 0xa35ddc7d;
  0x7a7b9f70; 0xcd665e74; 0xe0b62398; 0x57abe29c; 0x8e8da191; 0x39906095;
  0x3cc0278b; 0x8bdde68f; 0x52fba582; 0xe5e66486; 0x585b2bbe; 0xef46eaba;
  0x3660a9b7; 0x817d68b3; 0x842d2fad; 0x3330eea9; 0xea16ada4; 0x5d0b6ca0;
  0x906d32d4; 0x2770f3d0; 0xfe56b0dd; 0x494b71d9; 0x4c1b36c7; 0xfb06f7c3;
  0x2220b4ce; 0x953d75ca; 0x28803af2; 0x9f9dfbf6; 0x46bbb8fb; 0xf1a679ff;
  0xf4f63ee1; 0x43ebffe5; 0x9acdbce8; 0x2dd07dec; 0x77708634; 0xc06d4730;
  0x194b043d; 0xae56c539; 0xab068227; 0x1c1b4323; 0xc53d002e; 0x7220c12a;
  0xcf9d8e12; 0x78804f16; 0xa1a60c1b; 0x16bbcd1f; 0x13eb8a01; 0xa4f64b05;
  0x7dd00808; 0xcacdc90c; 0x07ab9778; 0xb0b6567c; 0x69901571; 0xde8dd475;
  0xdbdd936b; 0x6cc0526f; 0xb5e61162; 0x02fbd066; 0xbf469f5e; 0x085b5e5a;
  0xd17d1d57; 0x6660dc53; 0x63309b4d; 0xd42d5a49; 0x0d0b1944; 0xba16d840;
  0x97c6a5ac; 0x20db64a8; 0xf9fd27a5; 0x4ee0e6a1; 0x4bb0a1bf; 0xfcad60bb;
  0x258b23b6; 0x9296e2b2; 0x2f2bad8a; 0x98366c8e; 0x41102f83; 0xf60dee87;
  0xf35da999; 0x4440689d; 0x9d662b90; 0x2a7bea94; 0xe71db4e0; 0x500075e4;
  0x892636e9; 0x3e3bf7ed; 0x3b6bb0f3; 0x8c7671f7; 0x555032fa; 0xe24df3fe;
  0x5ff0bcc6; 0xe8ed7dc2; 0x31cb3ecf; 0x86d6ffcb; 0x8386b8d5; 0x349b79d1;
  0xedbd3adc; 0x5aa0fbd8; 0xeee00c69; 0x59fdcd6d; 0x80db8e60; 0x37c64f64;
  0x3296087a; 0x858bc97e; 0x5cad8a73; 0xebb04b77; 0x560d044f; 0xe110c54b;
  0x38368646; 0x8f2b4742; 0x8a7b005c; 0x3d66c158; 0xe4408255; 0x535d4351;
  0x9e3b1d25; 0x2926dc21; 0xf0009f2c; 0x471d5e28; 0x424d1936; 0xf550d832;
  0x2c769b3f; 0x9b6b5a3b; 0x26d61503; 0x91cbd407; 0x48ed970a; 0xfff0560e;
  0xfaa01110; 0x4dbdd014; 0x949b9319; 0x2386521d; 0x0e562ff1; 0xb94beef5;
  0x606dadf8; 0xd7706cfc; 0xd2202be2; 0x653deae6; 0xbc1ba9eb; 0x0b0668ef;
  0xb6bb27d7; 0x01a6e6d3; 0xd880a5de; 0x6f9d64da; 0x6acd23c4; 0xddd0e2c0;
  0x04f6a1cd; 0xb3eb60c9; 0x7e8d3ebd; 0xc990ffb9; 0x10b6bcb4; 0xa7ab7db0;
  0xa2fb3aae; 0x15e6fbaa; 0xccc0b8a7; 0x7bdd79a3; 0xc660369b; 0x717df79f;
  0xa85bb492; 0x1f467596; 0x1a163288; 0xad0bf38c; 0x742db081; 0xc3307185;
  0x99908a5d; 0x2e8d4b59; 0xf7ab0854; 0x40b6c950; 0x45e68e4e; 0xf2fb4f4a;
  0x2bdd0c47; 0x9cc0cd43; 0x217d827b; 0x9660437f; 0x4f460072; 0xf85bc176;
  0xfd0b8668; 0x4a16476c; 0x93300461; 0x242dc565; 0xe94b9b11; 0x5e565a15;
  0x87701918; 0x306dd81c; 0x353d9f02; 0x82205e06; 0x5b061d0b; 0xec1bdc0f;
  0x51a69337; 0xe6bb5233; 0x3f9d113e; 0x8880d03a; 0x8dd09724; 0x3acd5620;
  0xe3eb152d; 0x54f6d429; 0x7926a9c5; 0xce3b68c1; 0x171d2bcc; 0xa000eac8;
  0xa550add6; 0x124d6cd2; 0xcb6b2fdf; 0x7c76eedb; 0xc1cba1e3; 0x76d660e7;
  0xaff023ea; 0x18ede2ee; 0x1dbda5f0; 0xaaa064f4; 0x738627f9; 0xc49be6fd;
  0x09fdb889; 0xbee0798d; 0x67c63a80; 0xd0dbfb84; 0xd58bbc9a; 0x62967d9e;
  0xbbb03e93; 0x0cadff97; 0xb110b0af; 0x060d71ab; 0xdf2b32a6; 0x6836f3a2;
  0x6d66b4bc; 0xda7b75b8; 0x035d36b5; 0xb440f7b1].

(** The loop of [mpeg_crc32]: [n] bytes are left, the next is at [p]. *)
Fixpoint mpeg_crc32_loop (crc : Z) (buffer : list Z) (p : Z) (n : nat) : outcome Z :=
  match n with
  | O => Ok crc
  | S n =>
      b ← ld buffer p;
      t ← ld crc32table (Z.land (Z.lxor crc b) 255);
      mpeg_crc32_loop (Z.lxor t (Z.shiftr crc 8)) buffer (p + 1) n
  end.
Definition mpeg_crc32 (crc : Z) (buffer : list Z) (size : Z) : outcome Z :=
  mpeg_crc32_loop crc buffer 0 (Z.to_nat size).

(** * The checksum of the standard

    CRC-32/MPEG-2 divides the message, bit by bit from the high bit of each byte, by
    the polynomial 04C11DB7.  The code keeps the register with its bytes swapped. *)
Definition polynomial : Z := 0x04c11db7.
Definition shift_bit (r : Z) : Z :=
  Z.lxor (Z.land (Z.shiftl r 1) 0xffffffff) (if Z.testbit r 31 then polynomial else 0).
Definition shift_byte (r : Z) : Z := Nat.iter 8 shift_bit r.
Definition crc_byte (r b : Z) : Z := shift_byte (Z.lxor r (Z.shiftl b 24)).
Definition crc_bytes (r : Z) (l : list Z) : Z := fold_left crc_byte l r.

Definition byte_swap (c : Z) : Z :=
  Z.lxor (Z.shiftl (Z.land c 255) 24)
    (Z.lxor (Z.shiftl (Z.land (Z.shiftr c 8) 255) 16)
      (Z.lxor (Z.shiftl (Z.land (Z.shiftr c 16) 255) 8) (Z.land (Z.shiftr c 24) 255))).

(** * Both are linear *)

Lemma land_lxor a b m : Z.land (Z.lxor a b) m = Z.lxor (Z.land a m) (Z.land b m).
Proof. apply Z.bits_inj'; intros i _. rewrite Z.land_spec, !Z.lxor_spec, !Z.land_spec. by destruct (Z.testbit a i), (Z.testbit b i), (Z.testbit m i). Qed.

Lemma shift_bit_lxor r s : shift_bit (Z.lxor r s) = Z.lxor (shift_bit r) (shift_bit s).
Proof.
  unfold shift_bit. rewrite Z.shiftl_lxor, land_lxor, Z.lxor_spec.
  apply Z.bits_inj'; intros i _. rewrite !Z.lxor_spec.
  destruct (Z.testbit r 31), (Z.testbit s 31); cbn [xorb]; rewrite ?Z.bits_0;
    destruct (Z.testbit (Z.land (Z.shiftl r 1) _) i), (Z.testbit (Z.land (Z.shiftl s 1) _) i), (Z.testbit polynomial i); done.
Qed.

Lemma iter_lxor n r s : Nat.iter n shift_bit (Z.lxor r s) = Z.lxor (Nat.iter n shift_bit r) (Nat.iter n shift_bit s).
Proof. induction n as [|n IH]; [done|]. cbn [Nat.iter nat_rect]. change (nat_rect _ ?a (λ _, ?f) n) with (Nat.iter n f a). by rewrite IH, shift_bit_lxor. Qed.

Lemma byte_swap_lxor c d : byte_swap (Z.lxor c d) = Z.lxor (byte_swap c) (byte_swap d).
Proof.
  unfold byte_swap. rewrite !Z.shiftr_lxor, !land_lxor, !Z.shiftl_lxor.
  apply Z.bits_inj'; intros i _. rewrite !Z.lxor_spec.
  repeat match goal with |- context [Z.testbit ?a ?b] => destruct (Z.testbit a b) end; done.
Qed.

Lemma lxor_add a b n : 0 ≤ n → 0 ≤ b < 2 ^ n → Z.lxor (a * 2 ^ n) b = a * 2 ^ n + b.
Proof.
  intros Hn Hb. rewrite <- lor_shiftl_add, Z.shiftl_mul_pow2 by lia.
  apply Z.bits_inj'; intros i Hi. rewrite Z.lxor_spec, Z.lor_spec.
  destruct (Z_lt_dec i n); [rewrite Z.mul_pow2_bits_low by lia; by destruct (Z.testbit b i)|].
  rewrite (testbit_small b n i) by lia. by destruct (Z.testbit _ i).
Qed.

(** What [byte_swap] is on the four bytes of the register. *)
Lemma byte_swap_val c :
  byte_swap c = (c mod 256) * 2 ^ 24 + ((c / 2 ^ 8) mod 256 * 2 ^ 16 + ((c / 2 ^ 16) mod 256 * 2 ^ 8 + (c / 2 ^ 24) mod 256)).
Proof. unfold byte_swap. masks. by rewrite (lxor_add _ _ 8), (lxor_add _ _ 16), (lxor_add _ _ 24) by dlia. Qed.

Lemma byte_swap_range c : is_uint 32 (byte_swap c).
Proof. rewrite byte_swap_val. unfold is_uint. dlia. Qed.

Definition word (b3 b2 b1 b0 : Z) : Z := b3 * 2 ^ 24 + b2 * 2 ^ 16 + b1 * 2 ^ 8 + b0.

Lemma crc_word_bytes c : is_uint 32 c → ∃ b3 b2 b1 b0, is_byte b3 ∧ is_byte b2 ∧ is_byte b1 ∧ is_byte b0 ∧ c = word b3 b2 b1 b0.
Proof.
  intros Hc. exists (c / 2 ^ 24), (c / 2 ^ 16 mod 256), (c / 2 ^ 8 mod 256), (c mod 256).
  unfold is_uint, word in *. dlia.
Qed.

Lemma byte_swap_word b3 b2 b1 b0 : is_byte b3 → is_byte b2 → is_byte b1 → is_byte b0 →
  byte_swap (word b3 b2 b1 b0) = word b0 b1 b2 b3.
Proof. intros. rewrite byte_swap_val. unfold is_uint, word in *. dlia. Qed.

Lemma word_shiftr b3 b2 b1 b0 : is_byte b0 → Z.shiftr (word b3 b2 b1 b0) 8 = word 0 b3 b2 b1.
Proof. intros. rewrite Z.shiftr_div_pow2 by lia. unfold is_uint, word in *. dlia. Qed.

Lemma byte_swap_involutive c : is_uint 32 c → byte_swap (byte_swap c) = c.
Proof. intros (b3 & b2 & b1 & b0 & H3 & H2 & H1 & H0 & ->)%crc_word_bytes. by rewrite !byte_swap_word. Qed.

Lemma byte_swap_shiftr c : is_uint 32 c → byte_swap (Z.shiftr c 8) = Z.shiftl (byte_swap c mod 2 ^ 24) 8.
Proof.
  intros (b3 & b2 & b1 & b0 & H3 & H2 & H1 & H0 & ->)%crc_word_bytes.
  rewrite word_shiftr, !byte_swap_word, Z.shiftl_mul_pow2 by done || lia.
  unfold is_uint, word in *. dlia.
Qed.

Lemma byte_swap_byte b : is_byte b → byte_swap b = Z.shiftl b 24.
Proof. intros Hb. rewrite byte_swap_val, Z.shiftl_mul_pow2 by lia. unfold is_uint in Hb. dlia. Qed.

Lemma shift_bit_low r : 0 ≤ r < 2 ^ 31 → shift_bit r = 2 * r.
Proof.
  intros Hr. unfold shift_bit. rewrite (testbit_small r 31), Z.lxor_0_r by lia.
  masks. rewrite Z.mod_small; lia.
Qed.

Lemma shift_byte_low r : 0 ≤ r < 2 ^ 24 → shift_byte r = Z.shiftl r 8.
Proof.
  intros Hr. unfold shift_byte. cbn [Nat.iter nat_rect].
  rewrite (shift_bit_low r) by lia. rewrite (shift_bit_low (2 * r)) by lia.
  do 6 (match goal with |- context [shift_bit (2 * ?a)] => rewrite (shift_bit_low (2 * a)) by lia end).
  rewrite Z.shiftl_mul_pow2; lia.
Qed.

Lemma split_top r : Z.lxor (Z.shiftl (r / 2 ^ 24) 24) (r mod 2 ^ 24) = r.
Proof. rewrite Z.shiftl_mul_pow2, lxor_add by dlia. dlia. Qed.

Lemma shift_byte_lxor r s : shift_byte (Z.lxor r s) = Z.lxor (shift_byte r) (shift_byte s).
Proof. apply iter_lxor. Qed.

Lemma shift_byte_split r : shift_byte r = Z.lxor (shift_byte (Z.shiftl (r / 2 ^ 24) 24)) (Z.shiftl (r mod 2 ^ 24) 8).
Proof.
  transitivity (shift_byte (Z.lxor (Z.shiftl (r / 2 ^ 24) 24) (r mod 2 ^ 24))); [by rewrite split_top|].
  rewrite shift_byte_lxor, (shift_byte_low (r mod 2 ^ 24)); [done|dlia].
Qed.

#[global] Opaque shift_byte.

(** The table has what one byte does to the register. *)
Lemma crc32table_ok b : is_byte b →
  ∃ t, ld crc32table b = Ok t ∧ is_uint 32 t ∧ byte_swap t = shift_byte (Z.shiftl b 24).
Proof.
  intros Hb.
  pose proof (byte_cases (λ b, match ld crc32table b with
    | Ok t => (0 <=? t) && (t <? 2 ^ 32) && (byte_swap t =? shift_byte (Z.shiftl b 24)) | _ => false end)) as H.
  specialize (H ltac:(vm_compute; done) b Hb). cbn beta in H.
  destruct (ld crc32table b) as [| |t]; try done. exists t. split; [done|].
  apply andb_prop in H as [H E]. unfold is_uint. split; lia.
Qed.

Lemma uint_lxor w a b : 0 ≤ w → is_uint w a → is_uint w b → is_uint w (Z.lxor a b).
Proof.
  intros Hw Ha Hb. unfold is_uint in *. rewrite <- (Z.mod_small a (2 ^ w)), <- (Z.mod_small b (2 ^ w)) by done.
  rewrite <- !land_ones_mod, <- land_lxor, land_ones_mod by done. apply Z.mod_pos_bound. lia.
Qed.

Lemma uint_shiftr c : is_uint 32 c → is_uint 32 (Z.shiftr c 8).
Proof. intros Hc. rewrite shiftr_div by lia. unfold is_uint in *. dlia. Qed.

(** One step of the code is one byte of the division. *)
Lemma crc_step c b : is_uint 32 c → is_byte b →
  ∃ t, ld crc32table (Z.land (Z.lxor c b) 255) = Ok t ∧ is_uint 32 (Z.lxor t (Z.shiftr c 8)) ∧
    byte_swap (Z.lxor t (Z.shiftr c 8)) = crc_byte (byte_swap c) b.
Proof.
  intros Hc Hb.
  assert (Z.land b 255 = b) as Eb by (masks; unfold is_uint in Hb; dlia).
  rewrite land_lxor, Eb.
  assert (is_byte (Z.land c 255)) as Ha by (masks; unfold is_uint; dlia).
  destruct (crc32table_ok (Z.lxor (Z.land c 255) b)) as (t & -> & Ht & Hs); [by apply uint_lxor|].
  exists t. split; [done|]. split; [apply uint_lxor; [lia|done|by apply uint_shiftr]|].
  rewrite byte_swap_lxor, byte_swap_shiftr, Hs by done. unfold crc_byte.
  rewrite Z.shiftl_lxor, !shift_byte_lxor.
  rewrite (shift_byte_split (byte_swap c)).
  assert (byte_swap c / 2 ^ 24 = Z.land c 255) as ->.
  { rewrite byte_swap_val. masks. dlia. }
  rewrite !Z.lxor_assoc. f_equal. apply Z.lxor_comm.
Qed.

Lemma crc_loop l : bytes_ok l → ∀ c m p, is_uint 32 c → holds m p l →
  ∃ c', mpeg_crc32_loop c m p (length l) = Ok c' ∧ is_uint 32 c' ∧ byte_swap c' = crc_bytes (byte_swap c) l.
Proof.
  induction 1 as [|b l Hb _ IH]; intros c m p Hc Hm; [by exists c|].
  apply holds_cons in Hm as [Hm Hl]. destruct (crc_step c b) as (t & Ht & Hu & Hs); [done..|].
  destruct (IH (Z.lxor t (Z.shiftr c 8)) m (p + 1)) as (c' & E & Hc' & Hs'); [done..|].
  exists c'. split; [|split; [done|by rewrite Hs', Hs]].
  cbn [length mpeg_crc32_loop]. rewrite Hm. run. rewrite Ht. run. done.
Qed.

(** The four bytes that end a section, and the check of a receiver. *)
Definition crc_field (l : list Z) : list Z := be_bytes 4 (crc_bytes 0xffffffff l).
Definition section_valid (l : list Z) : bool := crc_bytes 0xffffffff l =? 0.

Lemma zlen_crc_field l : zlen (crc_field l) = 4.
Proof. apply zlen_be_bytes. Qed.
Lemma bytes_ok_crc_field l : bytes_ok (crc_field l).
Proof. apply bytes_ok_be_bytes. Qed.

Lemma crc_byte_top b3 b2 b1 b0 : is_byte b3 → is_byte b2 → is_byte b1 → is_byte b0 →
  crc_byte (word b3 b2 b1 b0) b3 = word b2 b1 b0 0.
Proof.
  intros. unfold crc_byte.
  assert (word b3 b2 b1 b0 = Z.lxor (Z.shiftl b3 24) (word 0 b2 b1 b0)) as ->.
  { rewrite Z.shiftl_mul_pow2, lxor_add by (unfold word, is_uint in *; lia). unfold word. lia. }
  rewrite Z.lxor_comm, <- Z.lxor_assoc, Z.lxor_nilpotent, Z.lxor_0_l.
  rewrite shift_byte_low, Z.shiftl_mul_pow2 by (unfold word, is_uint in *; lia). unfold word. lia.
Qed.

Lemma crc_residue r : is_uint 32 r → crc_bytes r (be_bytes 4 r) = 0.
Proof.
  intros (b3 & b2 & b1 & b0 & H3 & H2 & H1 & H0 & ->)%crc_word_bytes.
  assert (be_bytes 4 (word b3 b2 b1 b0) = [b3; b2; b1; b0]) as ->.
  { change 4%nat with (length [b3; b2; b1; b0]).
    replace (word b3 b2 b1 b0) with (be_val [b3; b2; b1; b0]) by (unfold be_val, word; cbn; lia).
    apply be_bytes_val. do 4 (constructor; [done|]). constructor. }
  unfold crc_bytes. cbn [fold_left]. by rewrite !crc_byte_top.
Qed.

Lemma crc_bytes_range l r : is_uint 32 r → bytes_ok l → is_uint 32 (crc_bytes r l).
Proof.
  intros Hr Hl. destruct (crc_loop l Hl (byte_swap r) l 0) as (c & _ & Hc & E); [apply byte_swap_range|apply holds_whole|].
  rewrite byte_swap_involutive in E by done. rewrite <- E. apply byte_swap_range.
Qed.

Lemma crc_field_valid l : bytes_ok l → section_valid (l ++ crc_field l) = true.
Proof.
  intros Hl. unfold section_valid, crc_field, crc_bytes. rewrite fold_left_app.
  apply Z.eqb_eq, crc_residue, (crc_bytes_range l); [unfold is_uint; lia|done].
Qed.

(** What the writers of sections store, low byte of the register first. *)
Lemma mpeg_crc32_ok l m n : bytes_ok l → holds m 0 l → n = zlen l →
  ∃ c, mpeg_crc32 0xffffffff m n = Ok c ∧
    [Z.land c 255; Z.land (Z.shiftr c 8) 255; Z.land (Z.shiftr c 16) 255; Z.land (Z.shiftr c 24) 255] = crc_field l.
Proof.
  intros Hl Hm ->. destruct (crc_loop l Hl 0xffffffff m 0) as (c & E & Hc & Hs); [unfold is_uint; lia|done|].
  exists c. split; [unfold mpeg_crc32, zlen; by rewrite Nat2Z.id|].
  unfold crc_field. change 0xffffffff with (byte_swap 0xffffffff). rewrite <- Hs.
  apply crc_word_bytes in Hc as (b3 & b2 & b1 & b0 & H3 & H2 & H1 & H0 & ->).
  rewrite byte_swap_word, be_bytes_4 by done. masks. unfold u8, is_uint, word in *. do 4 (apply (f_equal2 cons); [dlia|]). done.
Qed.

(** The checksum of sections, computed with a table of reflected remainders in a
    register whose bytes are swapped, is the CRC-32 of the standard, that is, the bitwise
    division by 0x04C11DB7 from a register of ones, high bit first, of any bytes.  The
    four bytes that the writers store, low byte of the register first, are that remainder
    in network order, and with them the division comes out at 0, which is what a receiver
    checks. *)
Theorem mpeg_crc32_standard l : bytes_ok l →
  ∃ c, mpeg_crc32 0xffffffff l (zlen l) = Ok c ∧
    let stored := [Z.land c 0xff; Z.land (Z.shiftr c 8) 0xff; Z.land (Z.shiftr c 16) 0xff; Z.land (Z.shiftr c 24) 0xff] in
    stored = be_bytes 4 (crc_bytes 0xffffffff l) ∧ crc_bytes 0xffffffff (l ++ stored) = 0.
Proof.
  intros Hl. destruct (mpeg_crc32_ok l l (zlen l)) as (c & E & Hs); [done|apply holds_whole|done|].
  exists c. split; [done|]. cbv zeta. rewrite Hs. split; [done|]. by apply Z.eqb_eq, crc_field_valid.
Qed.
Lemma mpeg_crc32_standard_witness : ∃ c, mpeg_crc32 0xffffffff [0x31; 0x32; 0x33; 0x34; 0x35; 0x36; 0x37; 0x38; 0x39] 9 = Ok c ∧
  let stored := [Z.land c 0xff; Z.land (Z.shiftr c 8) 0xff; Z.land (Z.shiftr c 16) 0xff; Z.land (Z.shiftr c 24) 0xff] in
  stored = [0x03; 0x76; 0xe6; 0xe7] ∧ crc_bytes 0xffffffff ([0x31; 0x32; 0x33; 0x34; 0x35; 0x36; 0x37; 0x38; 0x39] ++ stored) = 0.
Proof. apply (mpeg_crc32_standard [0x31; 0x32; 0x33; 0x34; 0x35; 0x36; 0x37; 0x38; 0x39]). repeat (apply Forall_cons_2; [done|]). constructor. Defined.
