(* ===== verification/MpegPes.v ===== *)
(** The headers of PES packets (mpeg-pes.c), with the bit reader (mpeg-util.h), the
    clock reference (mpeg-util.c) and the search for access unit delimiters
    (mpeg-ts-h264.c, mpeg-ts-h265.c, mpeg-ts-h266.c).

    The header that is written is the header that is read. *)
From S2P Require Import Prelude.

Definition PTS_NO_VALUE : Z := - 2 ^ 63.

(** * Stores *)

(** [m[p] |= v] and [m[p] += v] on bytes. *)
Definition or_at (m : list Z) (p v : Z) : outcome (list Z) := b ← ld m p; st m p [Z.lor b v].
Definition add_at (m : list Z) (p v : Z) : outcome (list Z) := b ← ld m p; st m p [u8 (b + v)].

Definition nbo_w16 (m : list Z) (p v : Z) : outcome (list Z) :=
  st m p [Z.land (Z.shiftr v 8) 0xff; Z.land v 0xff].
Definition nbo_w32 (m : list Z) (p v : Z) : outcome (list Z) :=
  st m p [Z.land (Z.shiftr v 24) 0xff; Z.land (Z.shiftr v 16) 0xff; Z.land (Z.shiftr v 8) 0xff; Z.land v 0xff].

(** The bytes [pcr_write] stores. *)
Definition pcr_write (m : list Z) (p pcr : Z) : outcome (list Z) :=
  let pcr_base := Z.quot pcr 300 in
  let pcr_ext := Z.rem pcr 300 in
  st m p [Z.land (Z.shiftr pcr_base 25) 0xff; Z.land (Z.shiftr pcr_base 17) 0xff;
          Z.land (Z.shiftr pcr_base 9) 0xff; Z.land (Z.shiftr pcr_base 1) 0xff;
          Z.lor (Z.lor (Z.shiftl (Z.land pcr_base 1) 7) 0x7e) (Z.land (Z.shiftr pcr_ext 8) 1);
          Z.land pcr_ext 0xff].

(** * The bit reader *)

(** A reader over one block ([mpeg_bits_init]). *)
Record mpeg_bits_t := Bits { bits_data : list Z; off : Z; err : Z }.
Definition mpeg_bits_init (data : list Z) : mpeg_bits_t := Bits data 0 0.
Definition mpeg_bits_tell (r : mpeg_bits_t) : Z := off r.
Definition mpeg_bits_length (r : mpeg_bits_t) : Z := zlen (bits_data r).
Definition mpeg_bits_error (r : mpeg_bits_t) : Z := err r.
Definition mpeg_bits_seek (r : mpeg_bits_t) (n : Z) : mpeg_bits_t :=
  Bits (bits_data r) n (if n >? mpeg_bits_length r then 1 else err r).
Definition mpeg_bits_read8 (r : mpeg_bits_t) : outcome (Z * mpeg_bits_t) :=
  if (err r =? 0) && (off r <? mpeg_bits_length r) then
    b ← ld (bits_data r) (off r); Ok (b, Bits (bits_data r) (off r + 1) 0)
  else Ok (0, Bits (bits_data r) (off r) 1).
Definition mpeg_bits_read16 (r : mpeg_bits_t) : outcome (Z * mpeg_bits_t) :=
  '(h, r) ← mpeg_bits_read8 r; '(l, r) ← mpeg_bits_read8 r; Ok (Z.lor (Z.shiftl h 8) l, r).
Definition mpeg_bits_read32 (r : mpeg_bits_t) : outcome (Z * mpeg_bits_t) :=
  '(h, r) ← mpeg_bits_read16 r; '(l, r) ← mpeg_bits_read16 r; Ok (Z.lor (Z.shiftl h 16) l, r).
Fixpoint mpeg_bits_readn (r : mpeg_bits_t) (v : Z) (n : nat) : outcome (Z * mpeg_bits_t) :=
  match n with
  | O => Ok (v, r)
  | S n => '(b, r) ← mpeg_bits_read8 r; mpeg_bits_readn r (u64 (Z.lor (Z.shiftl v 8) b)) n
  end.
Definition mpeg_bits_read15 (r : mpeg_bits_t) : outcome (Z * mpeg_bits_t) :=
  '(h, r) ← mpeg_bits_read8 r; '(l, r) ← mpeg_bits_read8 r;
  Ok (u16 (Z.lor (Z.shiftl h 7) (Z.land (Z.shiftr l 1) 0x7f)), r).
Definition mpeg_bits_read30 (r : mpeg_bits_t) : outcome (Z * mpeg_bits_t) :=
  '(h, r) ← mpeg_bits_read15 r; '(l, r) ← mpeg_bits_read15 r; Ok (u32 (Z.lor (Z.shiftl h 15) l), r).

(** * PES headers *)

(** [struct pes_t]; what the reader of a stream keeps besides is below. *)
Record pes_t := Pes {
  es_pid : Z; sid : Z; es_codecid : Z; es_cc : Z;
  esinfo : option (list Z); esinfo_len : Z;
  data_alignment_indicator : Z; pts : Z; dts : Z
}.
Implicit Types s : pes_t.

Definition set_cc s v := Pes (es_pid s) (sid s) (es_codecid s) v (esinfo s) (esinfo_len s) (data_alignment_indicator s) (pts s) (dts s).
Definition set_times s align p d := Pes (es_pid s) (sid s) (es_codecid s) (es_cc s) (esinfo s) (esinfo_len s) align p d.

(** The five bytes of a time stamp, after its four bit prefix. *)
Definition timestamp_bytes (prefix v : Z) : list Z :=
  let v := u64 v in
  [Z.lor (Z.lor prefix (Z.shiftl (Z.land (Z.shiftr v 30) 7) 1)) 1; Z.land (Z.shiftr v 22) 0xff;
   Z.lor (Z.land (Z.shiftr v 14) 0xfe) 1; Z.land (Z.shiftr v 7) 0xff; Z.lor (Z.land (u64 (Z.shiftl v 1)) 0xfe) 1].

(** The header is written to [data] at [p], where [bytes] bytes are left. *)
Definition pes_write_header s (data : list Z) (p bytes : Z) : outcome (Z * list Z) :=
  if bytes <? 9 then Ok (0, data) else
  data ← st data p [0; 0; 1; sid s];
  data ← st data (p + 6) [0x80];
  data ← (if truth (data_alignment_indicator s) then or_at data (p + 6) 4 else Ok data);
  let has_pts := negb (PTS_NO_VALUE =? pts s) in
  let has_dts := negb (PTS_NO_VALUE =? dts s) && negb (dts s =? pts s) in
  let flags := Z.lor (if has_pts then 0x80 else 0) (if has_dts then 0x40 else 0) in
  let len := (if has_pts then 5 else 0) + (if has_dts then 5 else 0) in
  data ← st data (p + 7) [flags];
  data ← st data (p + 8) [len];
  if len + 9 >? bytes then Ok (0, data) else
  let q := p + 9 in
  '(q, data) ← (if truth (Z.land flags 0x80) then
    data ← st data q (timestamp_bytes (Z.land (Z.shiftr flags 2) 0x30) (pts s)); Ok (q + 5, data) else Ok (q, data));
  '(q, data) ← (if truth (Z.land flags 0x40) then
    data ← st data q (timestamp_bytes 0x10 (dts s)); Ok (q + 5, data) else Ok (q, data));
  Ok (q - p, data).

(** What [pes_read_header] finds: the fields it sets in [struct pes_t].  The time
    stamps keep their old values when the header has none. *)
Record pes_header_t := PesHeader {
  len : Z; PES_scrambling_control : Z; PES_priority : Z; h_alignment : Z; copyright : Z; original_or_copy : Z;
  PTS_DTS_flags : Z; ESCR_flag : Z; ES_rate_flag : Z; DSM_trick_mode_flag : Z; additional_copy_info_flag : Z;
  PES_CRC_flag : Z; PES_extension_flag : Z; PES_header_data_length : Z;
  h_pts : Z; h_dts : Z; ESCR_base : Z; ESCR_extension : Z; ES_rate : Z
}.
Definition MPEG_ERROR_NEED_MORE_DATA : Z := 0.
Definition MPEG_ERROR_OK : Z := 1.
Definition MPEG_ERROR_INVALID_DATA : Z := 2.

Definition read_timestamp (r : mpeg_bits_t) : outcome (Z * mpeg_bits_t) :=
  '(v8, r) ← mpeg_bits_read8 r; '(v, r) ← mpeg_bits_read30 r;
  Ok (Z.lor (Z.shiftl (Z.land (Z.shiftr v8 1) 7) 30) v, r).
Definition read_escr (r : mpeg_bits_t) : outcome (Z * Z * mpeg_bits_t) :=
  '(v32, r) ← mpeg_bits_read32 r; '(v16, r) ← mpeg_bits_read16 r;
  Ok (Z.lor (Z.lor (Z.lor (Z.shiftl (Z.land (Z.shiftr v32 27) 7) 30) (Z.shiftl (Z.land (Z.shiftr v32 11) 0x7fff) 15))
        (Z.shiftl (Z.land v32 0x3ff) 5)) (Z.land (Z.shiftr v16 11) 0x1f),
      Z.land (Z.shiftr v16 1) 0x1ff, r).
Definition read_es_rate (r : mpeg_bits_t) : outcome (Z * mpeg_bits_t) :=
  '(v8, r) ← mpeg_bits_read8 r; '(v, r) ← mpeg_bits_read15 r; Ok (Z.lor (Z.shiftl (Z.land v8 0x7f) 15) v, r).

(** [h] has what the fields were before. *)
Definition pes_read_header (h : pes_header_t) (r : mpeg_bits_t) : outcome (Z * pes_header_t * mpeg_bits_t) :=
  '(n, r) ← mpeg_bits_read16 r;
  '(a, r) ← mpeg_bits_read8 r;
  '(b, r) ← mpeg_bits_read8 r;
  '(k, r) ← mpeg_bits_read8 r;
  let bit v i := Z.land (Z.shiftr v i) 1 in
  let fields n p d e x rate :=
    PesHeader n (Z.land (Z.shiftr a 4) 3) (bit a 3) (bit a 2) (bit a 1) (Z.land a 1)
      (Z.land (Z.shiftr b 6) 3) (bit b 5) (bit b 4) (bit b 3) (bit b 2) (bit b 1) (Z.land b 1) k p d e x rate in
  let h := fields n (h_pts h) (h_dts h) (ESCR_base h) (ESCR_extension h) (ES_rate h) in
  if (n >? 0) && (n <? k + 3) then Ok (MPEG_ERROR_INVALID_DATA, h, r) else
  let fin := mpeg_bits_tell r + k in
  if truth (mpeg_bits_error r) || (fin >? mpeg_bits_length r) then Ok (MPEG_ERROR_NEED_MORE_DATA, h, r) else
  '(p, r) ← (if truth (Z.land 2 (PTS_DTS_flags h)) then read_timestamp r else Ok (h_pts h, r));
  '(d, r) ← (if truth (Z.land 1 (PTS_DTS_flags h)) then read_timestamp r
             else Ok (if truth (Z.land 2 (PTS_DTS_flags h)) then p else h_dts h, r));
  '(e, x, r) ← (if truth (ESCR_flag h) then read_escr r else Ok (ESCR_base h, ESCR_extension h, r));
  '(rate, r) ← (if truth (ES_rate_flag h) then read_es_rate r else Ok (ES_rate h, r));
  let h := fields (if n >? 0 then n - (k + 3) else n) p d e x rate in
  let r := mpeg_bits_seek r fin in
  Ok (if truth (mpeg_bits_error r) then MPEG_ERROR_INVALID_DATA else MPEG_ERROR_OK, h, r).

(** * Access unit delimiters *)

Definition H264_NAL_AUD : Z := 9.
Definition H265_NAL_AUD : Z := 35.
Definition H266_NAL_AUD : Z := 20.

(** The unit after the next start code of the [bytes] bytes at [p], or -1; a byte
    must follow the one with its type.  The second number is [leading]. *)
Fixpoint find_nalu_loop (m : list Z) (p bytes i zeros : Z) (fuel : nat) : outcome (Z * Z) :=
  if i + 2 <? bytes then
    match fuel with
    | O => Ub
    | S fuel =>
        b ← ld m (p + i);
        if (1 =? b) && (zeros >=? 2) then Ok (s32 (i + 1), (if zeros >? 2 then 3 else zeros) + 1)
        else find_nalu_loop m p bytes (i + 1) (if negb (0 =? b) then 0 else zeros + 1) fuel
    end
  else Ok (-1, 0).
Definition mpeg_h264_find_nalu (m : list Z) (p bytes : Z) : outcome (Z * Z) :=
  find_nalu_loop m p bytes 0 0 (Z.to_nat bytes).

Fixpoint h264_aud_loop (m : list Z) (off bytes : Z) (fuel : nat) : outcome Z :=
  if off <? bytes then
    match fuel with
    | O => Ub
    | S fuel =>
        '(i, _) ← mpeg_h264_find_nalu m off (bytes - off);
        if i =? -1 then Ok 0 else
        b ← ld m (i + off);
        let nalu := Z.land b 0x1f in
        if 0 =? nalu then h264_aud_loop m (off + i) bytes fuel
        else Ok (if H264_NAL_AUD =? nalu then 1 else 0)
    end
  else Ok 0.
Definition mpeg_h264_start_with_access_unit_delimiter (m : list Z) (bytes : Z) : outcome Z :=
  h264_aud_loop m 0 bytes (Z.to_nat bytes).

Definition mpeg_h265_start_with_access_unit_delimiter (m : list Z) (bytes : Z) : outcome Z :=
  '(i, _) ← mpeg_h264_find_nalu m 0 bytes;
  if i =? -1 then Ok 0 else
  b ← ld m i;
  Ok (if H265_NAL_AUD =? Z.land (Z.shiftr b 1) 0x3f then 1 else 0).

Definition mpeg_h266_start_with_access_unit_delimiter (m : list Z) (bytes : Z) : outcome Z :=
  '(i, _) ← mpeg_h264_find_nalu m 0 bytes;
  if i =? -1 then Ok 0 else
  b ← ld m (i + 1);
  Ok (if H266_NAL_AUD =? Z.land (Z.shiftr b 3) 0x1f then 1 else 0).

Implicit Types (m pre tail : list Z).

(** * Stores behind a prefix *)

Lemma st_shift pre m k bs : 0 ≤ k → st (pre ++ m) (zlen pre + k) bs = (l ← st m k bs; Ok (pre ++ l)).
Proof.
  intros Hk. unfold st. rewrite zlen_app. pose proof (zlen_nonneg pre).
  destruct (Z.leb_spec 0 (zlen pre + k)), (Z.leb_spec 0 k); try lia.
  destruct (Z.leb_spec (zlen pre + k + zlen bs) (zlen pre + zlen m)), (Z.leb_spec (k + zlen bs) (zlen m)); try lia; [|done].
  cbn. unfold put. f_equal.
  rewrite take_app_ge, drop_app_ge by (unfold zlen in *; lia).
  replace (Z.to_nat (zlen pre + k) - length pre)%nat with (Z.to_nat k) by (unfold zlen; lia).
  replace (Z.to_nat (zlen pre + k) + length bs - length pre)%nat with (Z.to_nat k + length bs)%nat by (unfold zlen; lia).
  by rewrite <- !app_assoc.
Qed.

Lemma st_here pre m bs : st (pre ++ m) (zlen pre) bs = (l ← st m 0 bs; Ok (pre ++ l)).
Proof. rewrite <- st_shift by lia. by rewrite Z.add_0_r. Qed.

Lemma ld_shift pre m k : 0 ≤ k → ld (pre ++ m) (zlen pre + k) = ld m k.
Proof.
  intros Hk. unfold ld. pose proof (zlen_nonneg pre).
  destruct (Z.ltb_spec (zlen pre + k) 0), (Z.ltb_spec k 0); try lia.
  rewrite lookup_app_r by (unfold zlen in *; lia).
  by replace (Z.to_nat (zlen pre + k) - length pre)%nat with (Z.to_nat k) by (unfold zlen; lia).
Qed.

Lemma st_at pre tail bs p : p = zlen pre → zlen bs ≤ zlen tail →
  st (pre ++ tail) p bs = Ok ((pre ++ bs) ++ drop (length bs) tail).
Proof.
  intros -> Hb. replace (zlen pre) with (zlen pre + 0) by lia. rewrite st_shift by lia.
  rewrite st_ok by (cbn; lia). run. unfold put. cbn. by rewrite <- app_assoc.
Qed.

(** A buffer as its first cells and the rest. *)
Lemma split_cells (k : nat) m : (k ≤ length m)%nat → ∃ l tail, m = l ++ tail ∧ length l = k.
Proof. intros Hk. exists (take k m), (drop k m). by rewrite take_drop, length_take_le. Qed.

(** * The bytes of a header *)

Definition has_pts s : bool := negb (PTS_NO_VALUE =? pts s).
Definition has_dts s : bool := negb (PTS_NO_VALUE =? dts s) && negb (dts s =? pts s).
Definition stamps s : list Z :=
  (if has_pts s then timestamp_bytes (if has_dts s then 0x30 else 0x20) (pts s) else []) ++
  (if has_dts s then timestamp_bytes 0x10 (dts s) else []).
(** [l] is the length of what follows it. *)
Definition pes_head s (l : list Z) : list Z :=
  [0; 0; 1; sid s] ++ l ++
  [if truth (data_alignment_indicator s) then 0x84 else 0x80;
   Z.lor (if has_pts s then 0x80 else 0) (if has_dts s then 0x40 else 0); zlen (stamps s)] ++ stamps s.

Lemma zlen_stamps s : zlen (stamps s) = (if has_pts s then 5 else 0) + (if has_dts s then 5 else 0).
Proof. unfold stamps. by destruct (has_pts s), (has_dts s). Qed.

Lemma zlen_pes_head s l : zlen (pes_head s l) = 7 + zlen l + zlen (stamps s).
Proof. unfold pes_head. rewrite !zlen_app, !zlen_cons, zlen_nil. lia. Qed.

Lemma uint_lor w a b : 0 ≤ w → is_uint w a → is_uint w b → is_uint w (Z.lor a b).
Proof.
  intros Hw Ha Hb. unfold is_uint in *. rewrite <- (Z.mod_small a (2 ^ w)), <- (Z.mod_small b (2 ^ w)) by done.
  rewrite <- !land_ones_mod, <- Z.land_lor_distr_l, land_ones_mod by done. apply Z.mod_pos_bound. lia.
Qed.

Lemma uint_land w v (m : Z) : 0 ≤ w → is_uint w m → is_uint w (Z.land v m).
Proof.
  intros Hw Hm. unfold is_uint in *. rewrite <- (Z.mod_small m (2 ^ w)) by done.
  rewrite <- land_ones_mod, Z.land_assoc, land_ones_mod by done. apply Z.mod_pos_bound. lia.
Qed.

Lemma bytes_ok_timestamp prefix v : is_byte prefix → bytes_ok (timestamp_bytes prefix v).
Proof.
  intros Hp. unfold timestamp_bytes.
  repeat first [apply Forall_nil_2 | apply Forall_cons_2].
  - repeat apply uint_lor; [lia..|done| |done]. masks. unfold is_uint. dlia.
  - by apply uint_land.
  - apply uint_lor; [lia|by apply uint_land|done].
  - by apply uint_land.
  - apply uint_lor; [lia|by apply uint_land|done].
Qed.

(** Loads and stores in the first cells of a buffer whose cells are named. *)
Ltac closed_nats := repeat match goal with
  | |- context [Z.to_nat ?z] =>
      let v := eval vm_compute in (Z.to_nat z) in
      match v with O => idtac | S _ => idtac end; change (Z.to_nat z) with v
  end.
Ltac store := rewrite st_ok by (cbn [app]; llia); run; unfold put; closed_nats; cbn [Nat.add take drop app length]; rewrite ?drop_0.
Ltac load := erewrite (ld_lookup _ _ _) by (lia || reflexivity); run.

Ltac eval_truths := repeat match goal with
  | |- context [truth ?c] =>
      let v := eval vm_compute in (truth c) in
      match v with true => idtac | false => idtac end; change (truth c) with v; cbv iota
  end.

Lemma pes_write_header_ok s pre c0 c1 c2 c3 c4 c5 c6 c7 c8 tail bytes p :
  p = zlen pre → 19 ≤ bytes → 10 ≤ zlen tail →
  pes_write_header s (pre ++ [c0; c1; c2; c3; c4; c5; c6; c7; c8] ++ tail) p bytes
  = Ok (zlen (pes_head s [c4; c5]), (pre ++ pes_head s [c4; c5]) ++ drop (length (stamps s)) tail).
Proof.
  intros -> Hb Ht. unfold pes_write_header.
  destruct (Z.ltb_spec bytes 9); [lia|].
  rewrite st_here. store.
  rewrite st_shift by lia. store.
  match goal with |- context [if truth (data_alignment_indicator s) then or_at ?m ?p 4 else Ok ?m] =>
    assert ((if truth (data_alignment_indicator s) then or_at m p 4 else Ok m)
      = Ok (pre ++ [0; 0; 1; sid s; c4; c5; if truth (data_alignment_indicator s) then 0x84 else 0x80; c7; c8] ++ tail)) as -> end.
  { destruct (truth _); [|done]. unfold or_at. rewrite ld_shift by lia.
    load. rewrite st_shift by lia. by store. }
  run. fold (has_pts s) (has_dts s).
  rewrite st_shift by lia. store. rewrite st_shift by lia. store.
  rewrite zlen_pes_head. unfold pes_head. rewrite zlen_stamps.
  assert ((if has_pts s then 5 else 0) + (if has_dts s then 5 else 0) ≤ 10) by (destruct (has_pts s), (has_dts s); lia).
  destruct (Z.gtb_spec ((if has_pts s then 5 else 0) + (if has_dts s then 5 else 0) + 9) bytes); [lia|].
  unfold stamps. clear - Ht.
  do 10 (destruct tail as [|? tail]; [autorewrite with zlen in Ht; lia|]).
  destruct (has_pts s), (has_dts s); eval_truths; run; unfold timestamp_bytes;
    rewrite <- ?Z.add_assoc; repeat (rewrite st_shift by lia; store); run;
    rewrite <- ?app_assoc; (apply f_equal, f_equal2; [change (zlen [c4; c5]) with 2; lia|done]).
Qed.

(** * Reading it back *)

Lemma read8_ok d k b : ld d k = Ok b → mpeg_bits_read8 (Bits d k 0) = Ok (b, Bits d (k + 1) 0).
Proof.
  intros E. pose proof (ld_inv _ _ _ E) as [H _]. unfold mpeg_bits_read8, mpeg_bits_length. cbn [err off bits_data].
  destruct (Z.ltb_spec k (zlen d)); [|lia]. cbn. by rewrite E.
Qed.

Lemma odd_byte y : Z.lor (Z.land y 0xfe) 1 = 2 * (y / 2 mod 128) + 1.
Proof.
  replace (Z.land y 0xfe) with (Z.land (y mod 256) 0xfe).
  2: { change 256 with (2 ^ 8). rewrite <- land_ones_mod, <- Z.land_assoc by lia. done. }
  assert (y / 2 mod 128 = y mod 256 / 2) as -> by dlia.
  apply Z.eqb_eq, (byte_cases (λ z, Z.lor (Z.land z 0xfe) 1 =? 2 * (z / 2) + 1)); [by vm_compute|]. unfold is_uint. dlia.
Qed.

Lemma first_byte prefix a : prefix ∈ [0x10; 0x20; 0x30] → 0 ≤ a < 8 →
  Z.land (Z.shiftr (Z.lor (Z.lor prefix (Z.shiftl a 1)) 1) 1) 7 = a.
Proof.
  intros Hp Ha. assert (a ∈ [0; 1; 2; 3; 4; 5; 6; 7]) as Ha' by (repeat rewrite elem_of_cons; lia).
  repeat (apply elem_of_cons in Hp as [->|Hp]; [repeat (apply elem_of_cons in Ha' as [->|Ha']; [done|]); by apply elem_of_nil in Ha'|]).
  by apply elem_of_nil in Hp.
Qed.

Lemma odd_half y : (2 * (y mod 128) + 1) / 2 ^ 1 mod 2 ^ 7 = y mod 128.
Proof. dlia. Qed.

Lemma lor_mul_add a b n : 0 ≤ n → 0 ≤ b < 2 ^ n → Z.lor (a * 2 ^ n) b = a * 2 ^ n + b.
Proof. intros. by rewrite <- Z.shiftl_mul_pow2, lor_shiftl_add, Z.shiftl_mul_pow2 by done. Qed.

Lemma timestamp_join w :
  (w / 2 ^ 30) mod 2 ^ 3 * 2 ^ 30 + (((w / 2 ^ 22) mod 2 ^ 8 * 2 ^ 7 + (w / 2 ^ 14 / 2) mod 128) * 2 ^ 15
    + ((w / 2 ^ 7) mod 2 ^ 8 * 2 ^ 7 + w mod 128)) = w mod 2 ^ 33.
Proof.
  rewrite Z.div_div by lia. change (2 ^ 14 * 2) with (2 ^ 15).
  assert (∀ a b c, 0 ≤ a → 0 ≤ b → c = a + b → w mod 2 ^ c = (w / 2 ^ a) mod 2 ^ b * 2 ^ a + w mod 2 ^ a) as H.
  { intros a b c Ha Hb ->. rewrite Z.pow_add_r, Z.rem_mul_r by lia. lia. }
  change 128 with (2 ^ 7).
  rewrite (H 30 3 33), (H 22 8 30), (H 15 7 22), (H 7 8 15) by lia. lia.
Qed.

Lemma read_timestamp_ok d k prefix v : holds d k (timestamp_bytes prefix v) → prefix ∈ [0x10; 0x20; 0x30] →
  read_timestamp (Bits d k 0) = Ok (v mod 2 ^ 33, Bits d (k + 5) 0).
Proof.
  intros Hd Hp. unfold timestamp_bytes in Hd.
  apply holds_cons in Hd as [H0 Hd]. apply holds_cons in Hd as [H1 Hd]. apply holds_cons in Hd as [H2 Hd].
  apply holds_cons in Hd as [H3 Hd]. apply holds_cons in Hd as [H4 Hd].
  unfold read_timestamp, mpeg_bits_read30, mpeg_bits_read15.
  do 5 (erewrite read8_ok by eassumption; run).
  rewrite first_byte by (done || (masks; dlia)).
  rewrite !odd_byte. apply f_equal, f_equal2; [|f_equal; lia].
  masks. rewrite !odd_half. set (w := u64 v).
  assert (w mod 2 ^ 33 = v mod 2 ^ 33) as <- by (unfold w, u64; dlia).
  assert (u64 (w * 2 ^ 1) / 2 mod 128 = w mod 128) as -> by (unfold u64; dlia).
  rewrite !(lor_mul_add _ _ 7) by dlia. unfold u16, u32.
  rewrite (Z.mod_small (_ * 2 ^ 7 + (w / 2 ^ 14 / 2) mod 128)), (Z.mod_small (_ * 2 ^ 7 + w mod 128)) by dlia.
  rewrite !(lor_mul_add _ _ 15) by dlia. rewrite (Z.mod_small _ (2 ^ 32)) by dlia.
  rewrite (lor_mul_add _ _ 30) by dlia. apply timestamp_join.
Qed.

(** What a reader makes of the header: the time stamps keep 33 bits, those that are
    not there stay as they were ([h]). *)
Definition seen s (h : pes_header_t) (n : Z) (h' : pes_header_t) : Prop :=
  h_alignment h' = (if truth (data_alignment_indicator s) then 1 else 0) ∧
  h_pts h' = (if has_pts s then pts s mod 2 ^ 33 else h_pts h) ∧
  h_dts h' = (if has_dts s then dts s mod 2 ^ 33 else if has_pts s then pts s mod 2 ^ 33 else h_dts h) ∧
  len h' = (if n =? 0 then 0 else n - (zlen (stamps s) + 3)).

Lemma pes_read_header_ok s h d k n : is_uint 16 n → n = 0 ∨ zlen (stamps s) + 3 ≤ n →
  holds d k (drop 4 (pes_head s (be_bytes 2 n))) →
  ∃ h', pes_read_header h (Bits d k 0) = Ok (MPEG_ERROR_OK, h', Bits d (k + 5 + zlen (stamps s)) 0) ∧ seen s h n h'.
Proof.
  intros Hn Hlen Hd. unfold pes_head in Hd. rewrite be_bytes_2 in Hd. cbn [drop app] in Hd.
  apply holds_cons in Hd as [H0 Hd]. apply holds_cons in Hd as [H1 Hd]. apply holds_cons in Hd as [H2 Hd].
  apply holds_cons in Hd as [H3 Hd]. apply holds_cons in Hd as [H4 Hd].
  unfold pes_read_header, mpeg_bits_read16.
  do 5 (erewrite read8_ok by eassumption; run).
  assert (Z.lor (Z.shiftl (u8 (Z.shiftr n 8)) 8) (u8 n) = n) as ->.
  { rewrite be_val_2 by apply u8_range. rewrite <- be_bytes_2. by apply be_bytes_range2. }
  replace (k + 1 + 1 + 1 + 1 + 1) with (k + 5) in * by lia.
  assert ((n >? 0) && (n <? zlen (stamps s) + 3) = false) as ->.
  { destruct (Z.gtb_spec n 0), (Z.ltb_spec n (zlen (stamps s) + 3)); try done. lia. }
  unfold mpeg_bits_tell, mpeg_bits_error, mpeg_bits_length. cbn [off err bits_data].
  change (truth 0) with false. cbn [orb].
  pose proof (proj1 (proj2 Hd)) as Hend. unfold seen, mpeg_bits_seek, mpeg_bits_length.
  destruct (Z.gtb_spec (k + 5 + zlen (stamps s)) (zlen d)) as [|_]; [lia|].
  destruct (truth (data_alignment_indicator s)), (has_pts s) eqn:Ep, (has_dts s) eqn:Ed;
    unfold stamps in Hd; rewrite Ep, Ed in Hd; try apply holds_app in Hd as [Hd Hd2];
    change (zlen (timestamp_bytes _ _)) with 5 in *; rewrite ?zlen_nil, ?Z.add_0_r in *;
    cbn [PTS_DTS_flags ESCR_flag ES_rate_flag]; eval_truths; run;
    repeat (erewrite read_timestamp_ok by (eassumption || (rewrite !elem_of_cons; tauto)); run);
    run; cbn [bits_data err];
    (destruct (Z.gtb_spec (k + 5 + zlen (stamps s)) (zlen d)) as [|_]; [lia|]);
    change (truth 0) with false; (eexists; split; [reflexivity|]; cbn [h_alignment h_pts h_dts len]; repeat split);
    (destruct (Z.gtb_spec n 0), (Z.eqb_spec n 0); unfold is_uint in Hn; lia).
Qed.
