(* ===== verification/MpegTs.v ===== *)
(** The muxer of transport streams: mpeg-ts-enc.c with the tables of mpeg-pat.c,
    mpeg-pmt.c and mpeg-sdt.c.

    Packets are handed to a callback.  [alloc] gives the block of a packet, with
    whatever it holds.  The pointer of the table of programs is null exactly when
    its capacity is 0. *)
From stdpp Require Import strings.
From S2P Require Import Prelude Amf0 MpegCrc32 MpegPes.
Open Scope Z_scope.

Definition PSI_STREAM_PRIVATE_DATA : Z := 0x06.
Definition PSI_STREAM_AAC : Z := 0x0f.
Definition PSI_STREAM_H264 : Z := 0x1b.
Definition PSI_STREAM_H265 : Z := 0x24.
Definition PSI_STREAM_H266 : Z := 0x33.
Definition PSI_STREAM_AUDIO_OPUS : Z := 0x9c.
Definition PES_SID_PRIVATE_1 : Z := 0xbd.
Definition PES_SID_AUDIO : Z := 0xc0.
Definition PES_SID_VIDEO : Z := 0xe0.
Definition MPEG_FLAG_IDR_FRAME : Z := 0x0001.
Definition MPEG_FLAG_H264_H265_WITH_AUD : Z := 0x8000.
Definition TS_PACKET_SIZE : Z := 188.
Definition TS_PID_PAT : Z := 0x00.
Definition TS_PID_SDT : Z := 0x11.
Definition PAT_PERIOD : Z := 400 * 90.
Definition PAT_CYCLE : Z := 50.
Definition AF_FLAG_PCR : Z := 0x10.
Definition AF_FLAG_RANDOM_ACCESS_INDICATOR : Z := 0x40.
Definition ENOENT : Z := 2.

Definition mpeg_stream_type_video (codecid : Z) : bool :=
  existsb (Z.eqb codecid) [0x1b; 0x24; 0x33; 0x01; 0x02; 0x10; 0xea; 0x80; 0xd1; 0x42; 0xd4; 0x9d; 0x9e; 0x9f].
Definition mpeg_stream_type_audio (codecid : Z) : bool :=
  existsb (Z.eqb codecid) [0x0f; 0x1c; 0x11; 0x03; 0x04; 0x81; 0x8a; 0x87; 0x9b; 0x90; 0x91; 0x92; 0x93; 0x99; 0x9c].

(** [struct pmt_t], [struct pat_t] and [mpeg_ts_enc_context_t]. *)
Record pmt_t := Pmt {
  pmt_pid : Z; pn : Z; ver : Z; pmt_cc : Z; PCR_PID : Z;
  pminfo_len : Z; pminfo : option (list Z); streams : list pes_t
}.
Record pat_t := Pat { tsid : Z; pat_ver : Z; pat_cc : Z; pmts : list pmt_t; pmt_capacity : Z }.
Record mpeg_ts_enc_context_t := Ts {
  pat : pat_t; h26x_with_aud : bool; sdt_period : Z; pat_period : Z; pcr_period : Z; pcr_clock : Z;
  pat_cycle : Z; pid : Z; payload : list Z
}.
Implicit Types (t : mpeg_ts_enc_context_t) (pm : pmt_t) (s : pes_t).

Definition set_pmt_cc pm v := Pmt (pmt_pid pm) (pn pm) (ver pm) v (PCR_PID pm) (pminfo_len pm) (pminfo pm) (streams pm).
Definition set_PCR_PID pm v := Pmt (pmt_pid pm) (pn pm) (ver pm) (pmt_cc pm) v (pminfo_len pm) (pminfo pm) (streams pm).
Definition set_streams pm v := Pmt (pmt_pid pm) (pn pm) (ver pm) (pmt_cc pm) (PCR_PID pm) (pminfo_len pm) (pminfo pm) v.
Definition set_ver pm v := Pmt (pmt_pid pm) (pn pm) v (pmt_cc pm) (PCR_PID pm) (pminfo_len pm) (pminfo pm) (streams pm).
Definition set_pat_cc (p : pat_t) v := Pat (tsid p) (pat_ver p) v (pmts p) (pmt_capacity p).
Definition set_pmts (p : pat_t) v := Pat (tsid p) (pat_ver p) (pat_cc p) v (pmt_capacity p).
Definition set_pat t v := Ts v (h26x_with_aud t) (sdt_period t) (pat_period t) (pcr_period t) (pcr_clock t) (pat_cycle t) (pid t) (payload t).
Definition set_aud t v := Ts (pat t) v (sdt_period t) (pat_period t) (pcr_period t) (pcr_clock t) (pat_cycle t) (pid t) (payload t).
Definition set_periods t sdt p c n := Ts (pat t) (h26x_with_aud t) sdt p (pcr_period t) c n (pid t) (payload t).
Definition set_pid t v := Ts (pat t) (h26x_with_aud t) (sdt_period t) (pat_period t) (pcr_period t) (pcr_clock t) (pat_cycle t) v (payload t).
Definition set_payload t v := Ts (pat t) (h26x_with_aud t) (sdt_period t) (pat_period t) (pcr_period t) (pcr_clock t) (pat_cycle t) (pid t) v.

(** * The tables *)

(** The four bytes of the checksum of the [n] bytes before it. *)
Definition put_crc (data : list Z) (n : Z) : outcome (list Z) :=
  crc ← mpeg_crc32 0xffffffff data n;
  st data n [Z.land crc 0xff; Z.land (Z.shiftr crc 8) 0xff; Z.land (Z.shiftr crc 16) 0xff; Z.land (Z.shiftr crc 24) 0xff].

Fixpoint pat_programs (l : list pmt_t) (data : list Z) (p : Z) : outcome (list Z) :=
  match l with
  | [] => Ok data
  | pm :: l =>
      data ← nbo_w16 data p (u16 (pn pm));
      data ← nbo_w16 data (p + 2) (u16 (Z.lor 0xE000 (pmt_pid pm)));
      pat_programs l data (p + 4)
  end.
Definition pat_write (p : pat_t) (data : list Z) : outcome (Z * list Z) :=
  let len := u32 (zlen (pmts p) * 4 + 5 + 4) in
  data ← st data 0 [0];
  data ← nbo_w16 data 1 (u16 (Z.lor 0xb000 len));
  data ← nbo_w16 data 3 (u16 (tsid p));
  data ← st data 5 [u8 (Z.lor 0xC1 (Z.shiftl (pat_ver p) 1)); 0; 0];
  data ← pat_programs (pmts p) data 8;
  data ← put_crc data (len - 1);
  Ok (len + 3, data).

Definition OPUS_EXTENSION_DESCRIPTOR_TAG : Z := 0x80.
Definition pmt_write_descriptor s (data : list Z) (p bytes : Z) : outcome (Z * list Z) :=
  if (PSI_STREAM_AUDIO_OPUS =? es_codecid s) && (bytes >? 2 + 4 + 4) then
    data ← st data p ([0x05; 4] ++ chars "Opus"%string);
    channels ← (if esinfo_len s >? 8 then match esinfo s with Some m => ld m 9 | None => Ub end else Ok 2);
    data ← st data (p + 6) [0x7f; 2; OPUS_EXTENSION_DESCRIPTOR_TAG; channels];
    Ok (10, data)
  else Ok (0, data).

Fixpoint pmt_streams (l : list pes_t) (data : list Z) (p : Z) : outcome (Z * list Z) :=
  match l with
  | [] => Ok (p, data)
  | s :: l =>
      if p <? 1021 - 4 - 5 - esinfo_len s then
        data ← st data p [if PSI_STREAM_AUDIO_OPUS =? es_codecid s then PSI_STREAM_PRIVATE_DATA else es_codecid s];
        data ← nbo_w16 data (p + 1) (Z.lor 0xE000 (es_pid s));
        '(len, data) ← pmt_write_descriptor s data (p + 5) (1021 - (p + 5));
        data ← nbo_w16 data (p + 3) (Z.lor 0xF000 (u16 len));
        pmt_streams l data (p + (5 + len))
      else Ok (p, data)
  end.
Definition pmt_write pm (data : list Z) : outcome (Z * list Z) :=
  data ← st data 0 [2];
  data ← nbo_w16 data 3 (u16 (pn pm));
  data ← st data 5 [u8 (Z.lor 0xC1 (Z.shiftl (ver pm) 1)); 0; 0];
  data ← nbo_w16 data 8 (u16 (Z.lor 0xE000 (PCR_PID pm)));
  data ← nbo_w16 data 10 (u16 (Z.lor 0xF000 (pminfo_len pm)));
  data ← (if (pminfo_len pm >? 0) && (pminfo_len pm <? 0x400) then
    match pminfo pm with Some m => l ← slice m 0 (pminfo_len pm); st data 12 l | None => Ub end
  else Ok data);
  '(p, data) ← pmt_streams (streams pm) data (12 + pminfo_len pm);
  data ← nbo_w16 data 1 (u16 (Z.lor 0xb000 (p + 4 - 3)));
  data ← put_crc data p;
  Ok (p + 4, data).

Definition SERVICE_ENCODER : list Z := chars "encoder"%string.
Definition SERVICE_NAME : list Z := chars "ireader/media-server"%string.
Definition sdt_write (p : pat_t) (data : list Z) : outcome (Z * list Z) :=
  let n1 := zlen SERVICE_ENCODER in
  let v1 := zlen SERVICE_NAME in
  let s1 := 3 + 1 + n1 + 1 + v1 in
  let len := 3 + s1 + 5 + 5 + 4 in
  data ← st data 0 [0x42];
  data ← nbo_w16 data 1 (u16 (Z.lor 0xf000 len));
  data ← nbo_w16 data 3 (u16 (tsid p));
  data ← st data 5 [u8 (Z.lor 0xC1 (Z.shiftl (pat_ver p) 1)); 0; 0];
  data ← nbo_w16 data 8 (u16 (tsid p));
  data ← st data 10 [0xff];
  let j := 11 in
  data ← nbo_w16 data j (u16 (tsid p));
  data ← st data (j + 2) [0xfc];
  data ← nbo_w16 data (j + 3) (u16 (Z.lor 0x8000 s1));
  data ← st data (j + 5) [0x48; u8 (3 + n1 + v1); 1; u8 n1];
  name ← slice SERVICE_NAME 0 n1;
  data ← st data (j + 9) name;
  data ← st data (j + 9 + n1) [u8 v1];
  data ← st data (j + 10 + n1) SERVICE_NAME;
  let j := j + 10 + v1 + n1 in
  data ← put_crc data j;
  Ok (j + 4, data).

Section Muxer.
Context {A : Type}.
Record mpeg_ts_func_t := Func { alloc : A → Z → option (list Z); write : A → list Z → Z * A }.
Variable func : mpeg_ts_func_t.

(** A packet with a section; [cc] is the counter of its PID. *)
Definition mpeg_ts_write_section_header (pid cc : Z) (payload : list Z) (len : Z) (x : A) : outcome (Z * Z * A) :=
  match alloc func x TS_PACKET_SIZE with
  | None => Ok (- ENOMEM, cc, x)
  | Some data =>
      data ← st data 0 [0x47; Z.lor 0x40 (Z.land (Z.shiftr pid 8) 0x1f); Z.land pid 0xff; Z.lor 0x10 (Z.land cc 0x0f)];
      let cc := u32 (cc + 1) mod 16 in
      data ← st data 4 [0];
      l ← slice payload 0 len;
      data ← st data 5 l;
      data ← st data (5 + len) (replicate (Z.to_nat (TS_PACKET_SIZE - len - 5)) 0xff);
      packet ← slice data 0 TS_PACKET_SIZE;
      let '(r, x) := write func x packet in
      Ok (r, cc, x)
  end.

(** * Elementary streams *)

Definition mpeg_ts_write_aud (with_aud : bool) s (payload : list Z) (bytes : Z) (data : list Z) (p : Z) : outcome (Z * list Z) :=
  h264 ← (if (PSI_STREAM_H264 =? es_codecid s) && negb with_aud
          then n ← mpeg_h264_start_with_access_unit_delimiter payload bytes; Ok (n =? 0) else Ok false);
  if (h264 : bool) then
    data ← nbo_w32 data p 1;
    data ← st data (p + 4) [0x09; 0xF0];
    Ok (p + 6, data)
  else
  h265 ← (if (PSI_STREAM_H265 =? es_codecid s) && negb with_aud
          then n ← mpeg_h265_start_with_access_unit_delimiter payload bytes; Ok (n =? 0) else Ok false);
  if (h265 : bool) then
    data ← nbo_w32 data p 1;
    data ← st data (p + 4) [0x46; 0x01; 0x50];
    Ok (p + 7, data)
  else
  h266 ← (if (PSI_STREAM_H266 =? es_codecid s) && negb with_aud
          then n ← mpeg_h266_start_with_access_unit_delimiter payload bytes; Ok (n =? 0) else Ok false);
  if (h266 : bool) then
    data ← nbo_w32 data p 1;
    data ← st data (p + 4) [0x00; 0xA1; 0x28];
    Ok (p + 7, data)
  else Ok (p, data).

(** The header and the adaptation field of a packet, and where they end. *)
Definition ts_header (pcr_pid : Z) s (start : bool) (data : list Z) : outcome (Z * list Z) :=
  data ← st data 0 [0x47; Z.lor 0 (Z.land (Z.shiftr (es_pid s) 8) 0x1f); Z.land (es_pid s) 0xff; Z.lor 0x10 (Z.land (es_cc s) 0x0f)];
  data ← st data 4 [0];
  data ← st data 5 [0];
  data ← (if start && (es_pid s =? pcr_pid)
    then data ← or_at data 3 0x20; or_at data 5 AF_FLAG_PCR else Ok data);
  data ← (if start && truth (data_alignment_indicator s) && negb (PTS_NO_VALUE =? pts s)
    then data ← or_at data 3 0x20; or_at data 5 AF_FLAG_RANDOM_ACCESS_INDICATOR else Ok data);
  control ← ld data 3;
  if truth (Z.land control 0x20) then
    data ← st data 4 [1];
    flags ← ld data 5;
    data ← (if truth (Z.land flags AF_FLAG_PCR) then
      let pcr := if PTS_NO_VALUE =? dts s then pts s else dts s in
      v ← int64 (pcr * 300);
      data ← pcr_write data 6 v;
      add_at data 4 6
    else Ok data);
    l ← ld data 4;
    Ok (4 + 1 + l, data)
  else Ok (4, data).

(** The rest of a turn of the loop, up to the call of the callback: the header of
    the PES packet is written at [header], the [bytes] bytes of [payload] from [q]
    on are what is left of the frame.  The result is the number taken. *)
Definition ts_pes_start (with_aud : bool) s (header : Z) (payload : list Z) (bytes : Z) (data : list Z) : outcome (Z * list Z) :=
  data ← or_at data 1 0x40;
  '(n, data) ← pes_write_header s data header (TS_PACKET_SIZE - header);
  '(p, data) ← mpeg_ts_write_aud with_aud s payload bytes data (header + n);
  let n := p - header - 6 + bytes in
  data ← nbo_w16 data (header + 4) (if n >? 0xFFFF then 0 else n);
  Ok (p, data).

Definition ts_stuffing (header p bytes : Z) (data : list Z) : outcome (Z * list Z) :=
  let n := TS_PACKET_SIZE - (p + bytes) in
  data ← (if p - header >? 0 then l ← slice data header (p - header); st data (TS_PACKET_SIZE - bytes - (p - header)) l else Ok data);
  control ← ld data 3;
  data ← (if truth (Z.land control 0x20) then
    k ← ld data 4;
    data ← st data (4 + 1 + k) (replicate (Z.to_nat n) 0xff);
    add_at data 4 (u8 n)
  else
    data ← or_at data 3 0x20;
    data ← st data 4 [u8 (n - 1)];
    k ← ld data 4;
    data ← (if k >? 0 then st data 5 [0] else Ok data);
    if k >? 1 then st data 6 (replicate (Z.to_nat (n - 2)) 0xff) else Ok data);
  k ← ld data 4;
  Ok (5 + k + (p - header), data).

Definition ts_fill (header p : Z) (payload : list Z) (q bytes : Z) (data : list Z) : outcome (Z * list Z) :=
  '(p, len, data) ← (if p + bytes <? TS_PACKET_SIZE then
    '(p, data) ← ts_stuffing header p bytes data; Ok (p, bytes, data)
  else Ok (p, TS_PACKET_SIZE - p, data));
  l ← slice payload q len;
  data ← st data p l;
  Ok (len, data).

Fixpoint ts_write_pes_loop (with_aud : bool) (pcr_pid : Z) s (payload : list Z) (q bytes : Z) (start : bool) (x : A) (fuel : nat)
    : outcome (Z * pes_t * A) :=
  if bytes >? 0 then
    match fuel with
    | O => Ub
    | S fuel =>
        match alloc func x TS_PACKET_SIZE with
        | None => Ok (- ENOMEM, s, x)
        | Some data =>
            '(header, data) ← ts_header pcr_pid s start data;
            let s := set_cc s ((es_cc s + 1) mod 16) in
            '(p, data) ← (if start then ts_pes_start with_aud s header payload bytes data else Ok (header, data));
            '(len, data) ← ts_fill header p payload q bytes data;
            packet ← slice data 0 TS_PACKET_SIZE;
            let '(r, x) := write func x packet in
            if r =? 0 then ts_write_pes_loop with_aud pcr_pid s payload (q + len) (bytes - len) false x fuel
            else Ok (r, s, x)
        end
    end
  else Ok (0, s, x).
Definition ts_write_pes (with_aud : bool) (pcr_pid : Z) s (payload : list Z) (bytes : Z) (x : A) : outcome (Z * pes_t * A) :=
  ts_write_pes_loop with_aud pcr_pid s payload 0 bytes true x (Z.to_nat bytes).

(** The place of a stream: its program and its index there. *)
Fixpoint find_stream (pid : Z) (l : list pes_t) (j : nat) : option (nat * pes_t) :=
  match l with
  | [] => None
  | s :: l => if pid =? es_pid s then Some (j, s) else find_stream pid l (S j)
  end.
Fixpoint find_program (pid : Z) (l : list pmt_t) (i : nat) : option (nat * nat * pmt_t * pes_t) :=
  match l with
  | [] => None
  | pm :: l =>
      match find_stream pid (streams pm) 0 with
      | Some (j, s) => Some (i, j, pm, s)
      | None => find_program pid l (S i)
      end
  end.
Definition mpeg_ts_find t (pid : Z) : option (nat * nat * pmt_t * pes_t) := find_program pid (pmts (pat t)) 0.

Definition put_pmt t (i : nat) pm : mpeg_ts_enc_context_t := set_pat t (set_pmts (pat t) (<[i := pm]> (pmts (pat t)))).
Definition put_stream t (i j : nat) pm s : mpeg_ts_enc_context_t := put_pmt t i (set_streams pm (<[j := s]> (streams pm))).

(** The tables are written to [payload], then to a packet. *)
Definition write_sdt t (x : A) : outcome (Z * mpeg_ts_enc_context_t * A) :=
  '(n, m) ← sdt_write (pat t) (payload t);
  '(r, cc, x) ← mpeg_ts_write_section_header TS_PID_SDT (pat_cc (pat t)) m n x;
  Ok (r, set_payload (set_pat t (set_pat_cc (pat t) cc)) m, x).
Definition write_pat t (x : A) : outcome (Z * mpeg_ts_enc_context_t * A) :=
  '(n, m) ← pat_write (pat t) (payload t);
  '(r, cc, x) ← mpeg_ts_write_section_header TS_PID_PAT (pat_cc (pat t)) m n x;
  Ok (r, set_payload (set_pat t (set_pat_cc (pat t) cc)) m, x).
(** The programs from the [i]th on, of which there are [n]. *)
Fixpoint write_pmts t (i n : nat) (x : A) : outcome (Z * mpeg_ts_enc_context_t * A) :=
  match n with
  | O => Ok (0, t, x)
  | S n =>
      pm ← match pmts (pat t) !! i with Some pm => Ok pm | None => Ub end;
      '(k, m) ← pmt_write pm (payload t);
      '(r, cc, x) ← mpeg_ts_write_section_header (pmt_pid pm) (pmt_cc pm) m k x;
      let t := put_pmt (set_payload t m) i (set_pmt_cc pm cc) in
      if r =? 0 then write_pmts t (S i) n x else Ok (r, t, x)
  end.

Definition write_tables t (dts : Z) (x : A) : outcome (Z * mpeg_ts_enc_context_t * A) :=
  let t := set_periods t (sdt_period t) dts (pcr_clock t) 0 in
  '(r, t, x) ← (if 0 =? sdt_period t then write_sdt (set_periods t dts (pat_period t) (pcr_clock t) (pat_cycle t)) x else Ok (0, t, x));
  if negb (0 =? r) then Ok (r, t, x) else
  '(r, t, x) ← write_pat t x;
  if negb (0 =? r) then Ok (r, t, x) else
  write_pmts t 0 (length (pmts (pat t))) x.

Definition mpeg_ts_write t (pid flags p d : Z) (data : list Z) (bytes : Z) (x : A) : outcome (Z * mpeg_ts_enc_context_t * A) :=
  match mpeg_ts_find t pid with
  | None => Ok (- ENOENT, t, x)
  | Some (i, j, pm, s) =>
      let s := set_times s (if truth (Z.land flags MPEG_FLAG_IDR_FRAME) then 1 else 0) p d in
      let t := set_aud t (truth (Z.land flags MPEG_FLAG_H264_H265_WITH_AUD)) in
      let video := PES_SID_VIDEO =? Z.land (sid s) PES_SID_VIDEO in
      let set_pcr := (0x1FFF =? PCR_PID pm) || (video && negb (PCR_PID pm =? es_pid s)) in
      let pm := if set_pcr then set_PCR_PID pm (es_pid s) else pm in
      let t := if set_pcr then set_periods t (sdt_period t) 0 (pcr_clock t) 0 else t in
      clock ← (if PCR_PID pm =? es_pid s then int64 (pcr_clock t + 1) else Ok (pcr_clock t));
      cycle ← int (pat_cycle t + 1);
      let t := put_stream (set_periods t (sdt_period t) (pat_period t) clock cycle) i j pm s in
      due ← (if (0 =? Z.rem cycle PAT_CYCLE) || (0 =? pat_period t) then Ok true else
        next ← int64 (pat_period t + PAT_PERIOD);
        Ok ((next <=? d) || (video && truth (Z.land flags MPEG_FLAG_IDR_FRAME))));
      '(r, t, x) ← (if (due : bool) then write_tables t d x else Ok (0, t, x));
      if negb (0 =? r) then Ok (r, t, x) else
      match pmts (pat t) !! i with
      | Some pm =>
          '(r, s, x) ← ts_write_pes (h26x_with_aud t) (PCR_PID pm) s data bytes x;
          Ok (r, put_stream t i j pm s, x)
      | None => Ub
      end
  end.

End Muxer.
Arguments mpeg_ts_func_t : clear implicits.

(** * The muxer's streams *)

Definition mpeg_ts_reset t : mpeg_ts_enc_context_t :=
  Ts (pat t) (h26x_with_aud t) (sdt_period t) 0 (80 * 90) 0 0 (pid t) (payload t).

(** [calloc] is whether the allocation succeeds. *)
Definition mpeg_ts_create (calloc : bool) : option mpeg_ts_enc_context_t :=
  if calloc then
    let t := mpeg_ts_reset (Ts (Pat 0 0 0 [] 0) false 0 0 0 0 0 0 (replicate 1024 0)) in
    Some (set_pid (set_pat t (Pat 1 0 0 [] 0)) 0x100)
  else None.

Definition pat_alloc_pmt (realloc : Z → bool) (p : pat_t) : option pat_t :=
  let capacity := if pmt_capacity p =? 0 then 1 else pmt_capacity p in
  if zlen (pmts p) >=? capacity then
    if zlen (pmts p) + 1 >? 65535 then None else
    let n := u32 (capacity + capacity / 4 + 4) in
    if realloc n then Some (Pat (tsid p) (pat_ver p) (pat_cc p) (pmts p) n) else None
  else Some (Pat (tsid p) (pat_ver p) (pat_cc p) (pmts p) capacity).

(** [info] is [None] for a null pointer. *)
Definition mpeg_ts_add_program (realloc malloc : Z → bool) t (n : Z) (info : option (list Z)) (bytes : Z) : outcome (Z * mpeg_ts_enc_context_t) :=
  if (n <? 1) || (bytes <? 0) || (bytes >=? 4096) then Ok (-1, t) else
  if existsb (λ pm, pn pm =? n) (pmts (pat t)) then Ok (-1, t) else
  match pat_alloc_pmt realloc (pat t) with
  | None => Ok (-1, t)
  | Some p =>
      let pm := Pmt (pid t) n 0 0 0x1FFF 0 None [] in
      let t := set_pat (set_pid t (u16 (pid t + 1))) p in
      let add pm := (0, mpeg_ts_reset (set_pat t (set_pmts p (pmts p ++ [pm])))) in
      match info with
      | Some m =>
          if bytes >? 0 then
            if malloc bytes then
              l ← slice m 0 bytes;
              Ok (add (Pmt (pmt_pid pm) n 0 0 0x1FFF bytes (Some l) []))
            else Ok (-1, t)
          else Ok (add pm)
      | None => Ok (add pm)
      end
  end.

Definition mpeg_ts_remove_program t (n : Z) : Z * mpeg_ts_enc_context_t :=
  match list_find (λ pm, pn pm = n) (pmts (pat t)) with
  | Some (i, _) => (0, mpeg_ts_reset (set_pat t (set_pmts (pat t) (delete i (pmts (pat t))))))
  | None => (-1, t)
  end.

Definition mpeg_ts_pmt_add_stream (malloc : Z → bool) t (i : nat) pm (codecid : Z) (extra : option (list Z)) (size : Z) : outcome (Z * mpeg_ts_enc_context_t) :=
  if zlen (streams pm) >=? 4 then Ok (-1, t) else
  let stream_id := if mpeg_stream_type_video codecid then PES_SID_VIDEO
                   else if mpeg_stream_type_audio codecid then PES_SID_AUDIO else PES_SID_PRIVATE_1 in
  let s := Pes (pid t) stream_id (u8 codecid) 0 None 0 0 0 0 in
  let t := set_pid t (u16 (pid t + 1)) in
  let add s := (es_pid s, mpeg_ts_reset (put_pmt t i (set_ver (set_streams pm (streams pm ++ [s])) (u32 (ver pm + 1) mod 32)))) in
  match extra with
  | Some m =>
      if size >? 0 then
        if malloc size then
          l ← slice m 0 size;
          Ok (add (Pes (es_pid s) (sid s) (es_codecid s) 0 (Some l) (u16 size) 0 0 0))
        else Ok (- ENOMEM, t)
      else Ok (add s)
  | None => Ok (add s)
  end.

Definition mpeg_ts_add_stream (realloc malloc : Z → bool) t (codecid : Z) (extra : option (list Z)) (size : Z) : outcome (Z * mpeg_ts_enc_context_t) :=
  '(r, t) ← (match pmts (pat t) with [] => mpeg_ts_add_program realloc malloc t 1 None 0 | _ => Ok (0, t) end);
  if negb (0 =? r) then Ok (-1, t) else
  match pmts (pat t) with
  | pm :: _ => mpeg_ts_pmt_add_stream malloc t 0 pm codecid extra size
  | [] => Ub
  end.

Definition mpeg_ts_add_program_stream (malloc : Z → bool) t (n codecid : Z) (extra : option (list Z)) (size : Z) : outcome (Z * mpeg_ts_enc_context_t) :=
  match list_find (λ pm, pn pm = n) (pmts (pat t)) with
  | Some (i, pm) => mpeg_ts_pmt_add_stream malloc t i pm codecid extra size
  | None => Ok (-1, t)
  end.
