(* ===== verification/MpegTsSpec.v ===== *)
(** What the muxer of transport streams sends, and what a receiver makes of it. *)
From S2P Require Import Prelude MpegCrc32 MpegPes MpegTs.

Implicit Types (t : mpeg_ts_enc_context_t) (pm : pmt_t) (s : pes_t) (m pre tail payload pkt head junk rest : list Z).

(** * Access unit delimiters *)

Lemma find_nalu_loop_ok m p bytes fuel : ∀ i zeros, 0 ≤ i → 0 ≤ p → p + bytes ≤ zlen m → bytes < 2 ^ 31 → bytes - i ≤ Z.of_nat fuel →
  ∃ n l, find_nalu_loop m p bytes i zeros fuel = Ok (n, l) ∧ (n = -1 ∨ 1 ≤ n ∧ n + 1 < bytes).
Proof.
  induction fuel as [|fuel IH]; intros i zeros Hi Hp Hm Hb Hf; cbn [find_nalu_loop];
    (destruct (Z.ltb_spec (i + 2) bytes); [|exists (-1), 0; auto]); [lia|].
  rewrite ld_ok by lia. run. destruct (_ && _).
  - rewrite s32_small by lia. eexists _, _. split; [done|lia].
  - apply IH; lia.
Qed.

Lemma mpeg_h264_find_nalu_ok m p bytes : 0 ≤ p → p + bytes ≤ zlen m → bytes < 2 ^ 31 →
  ∃ n l, mpeg_h264_find_nalu m p bytes = Ok (n, l) ∧ (n = -1 ∨ 1 ≤ n ∧ n + 1 < bytes).
Proof. intros. apply find_nalu_loop_ok; lia. Qed.

Lemma h264_aud_loop_ok m bytes fuel : ∀ off, 0 ≤ off → bytes ≤ zlen m → bytes < 2 ^ 31 → bytes - off ≤ Z.of_nat fuel →
  ∃ n, h264_aud_loop m off bytes fuel = Ok n.
Proof.
  induction fuel as [|fuel IH]; intros off Ho Hm Hb Hf; cbn [h264_aud_loop];
    (destruct (Z.ltb_spec off bytes); [|by exists 0]); [lia|].
  destruct (mpeg_h264_find_nalu_ok m off (bytes - off)) as (i & l & -> & Hn); [lia..|]. run.
  destruct (Z.eqb_spec i (-1)); [by exists 0|]. rewrite ld_ok by lia. run.
  destruct (_ =? _); [apply IH; lia|eauto].
Qed.

(** What is put before the data of an access unit. *)
Definition delimiter (with_aud : bool) s payload (bytes : Z) : list Z :=
  if with_aud then [] else
  if PSI_STREAM_H264 =? es_codecid s then
    match mpeg_h264_start_with_access_unit_delimiter payload bytes with Ok 0 => [0; 0; 0; 1; 0x09; 0xf0] | _ => [] end
  else if PSI_STREAM_H265 =? es_codecid s then
    match mpeg_h265_start_with_access_unit_delimiter payload bytes with Ok 0 => [0; 0; 0; 1; 0x46; 0x01; 0x50] | _ => [] end
  else if PSI_STREAM_H266 =? es_codecid s then
    match mpeg_h266_start_with_access_unit_delimiter payload bytes with Ok 0 => [0; 0; 0; 1; 0x00; 0xa1; 0x28] | _ => [] end
  else [].

Lemma zlen_delimiter w s payload bytes : zlen (delimiter w s payload bytes) ≤ 7.
Proof.
  unfold delimiter. destruct w; [done|].
  repeat match goal with |- context [if ?b then _ else _] => destruct b | |- context [match ?x with _ => _ end] => destruct x end; done.
Qed.

Lemma h264_total payload bytes : bytes ≤ zlen payload → bytes < 2 ^ 31 → ∃ n, mpeg_h264_start_with_access_unit_delimiter payload bytes = Ok n.
Proof. intros. apply h264_aud_loop_ok; lia. Qed.
Lemma h265_total payload bytes : bytes ≤ zlen payload → bytes < 2 ^ 31 → ∃ n, mpeg_h265_start_with_access_unit_delimiter payload bytes = Ok n.
Proof.
  intros. unfold mpeg_h265_start_with_access_unit_delimiter.
  destruct (mpeg_h264_find_nalu_ok payload 0 bytes) as (i & l & -> & Hn); [lia..|]. run.
  destruct (Z.eqb_spec i (-1)); [eauto|]. rewrite ld_ok by lia. run. eauto.
Qed.
Lemma h266_total payload bytes : bytes ≤ zlen payload → bytes < 2 ^ 31 → ∃ n, mpeg_h266_start_with_access_unit_delimiter payload bytes = Ok n.
Proof.
  intros. unfold mpeg_h266_start_with_access_unit_delimiter.
  destruct (mpeg_h264_find_nalu_ok payload 0 bytes) as (i & l & -> & Hn); [lia..|]. run.
  destruct (Z.eqb_spec i (-1)); [eauto|]. rewrite ld_ok by lia. run. eauto.
Qed.

Local Ltac aud_case n H := run; destruct n; cbn [Z.eqb]; run; [|apply H..];
  rewrite st_here; store; rewrite st_shift by lia; store; by rewrite <- app_assoc.

Lemma mpeg_ts_write_aud_ok w s payload bytes pre tail p :
  p = zlen pre → 7 ≤ zlen tail → bytes ≤ zlen payload → bytes < 2 ^ 31 →
  let d := delimiter w s payload bytes in
  mpeg_ts_write_aud w s payload bytes (pre ++ tail) p = Ok (p + zlen d, (pre ++ d) ++ drop (length d) tail).
Proof.
  intros -> Ht Hp Hb d. unfold d, mpeg_ts_write_aud, delimiter, nbo_w32. clear d.
  destruct (h264_total payload bytes) as [n4 E4]; [done..|].
  destruct (h265_total payload bytes) as [n5 E5]; [done..|].
  destruct (h266_total payload bytes) as [n6 E6]; [done..|].
  do 7 (destruct tail as [|? tail]; [autorewrite with zlen in Ht; lia|]).
  assert (∀ m, Ok (zlen pre, pre ++ m) = Ok (zlen pre + zlen (@nil Z), (pre ++ []) ++ drop (@length Z []) m)) as Hnone.
  { intros m. by rewrite app_nil_r, Z.add_0_r. }
  destruct w; [rewrite !andb_false_r; apply Hnone|].
  rewrite E4, E5, E6, !andb_true_r.
  destruct (Z.eqb_spec PSI_STREAM_H264 (es_codecid s)) as [<-|_].
  { change (PSI_STREAM_H265 =? PSI_STREAM_H264) with false. change (PSI_STREAM_H266 =? PSI_STREAM_H264) with false. aud_case n4 Hnone. }
  destruct (Z.eqb_spec PSI_STREAM_H265 (es_codecid s)) as [<-|_].
  { change (PSI_STREAM_H266 =? PSI_STREAM_H265) with false. aud_case n5 Hnone. }
  destruct (Z.eqb_spec PSI_STREAM_H266 (es_codecid s)) as [_|_]; [aud_case n6 Hnone|apply Hnone].
Qed.

(** * Packets *)

(** The bytes before the payload of a packet; [af] is its adaptation field. *)
Definition ts_head (first : bool) s (af : option (list Z)) : list Z :=
  [0x47; Z.lor (Z.land (Z.shiftr (es_pid s) 8) 0x1f) (if first then 0x40 else 0); Z.land (es_pid s) 0xff;
   Z.lor (Z.lor 0x10 (Z.land (es_cc s) 0x0f)) (match af with Some _ => 0x20 | None => 0 end)] ++
  match af with Some l => zlen l :: l | None => [] end.

(** The clock reference of a stream's packets. *)
Definition pcr_of s : Z := (if PTS_NO_VALUE =? dts s then pts s else dts s) * 300.
Definition pcr_bytes (pcr : Z) : list Z :=
  let pcr_base := Z.quot pcr 300 in
  let pcr_ext := Z.rem pcr 300 in
  [Z.land (Z.shiftr pcr_base 25) 0xff; Z.land (Z.shiftr pcr_base 17) 0xff;
   Z.land (Z.shiftr pcr_base 9) 0xff; Z.land (Z.shiftr pcr_base 1) 0xff;
   Z.lor (Z.lor (Z.shiftl (Z.land pcr_base 1) 7) 0x7e) (Z.land (Z.shiftr pcr_ext 8) 1); Z.land pcr_ext 0xff].

(** The adaptation field of the first packet of a frame: the clock, when the stream
    carries it, and whether one can start here. *)
Definition first_field (pcr_pid : Z) s : option (list Z) :=
  let clock := es_pid s =? pcr_pid in
  let random := truth (data_alignment_indicator s) && has_pts s in
  if clock || random then
    Some (Z.lor (if clock then AF_FLAG_PCR else 0) (if random then AF_FLAG_RANDOM_ACCESS_INDICATOR else 0)
          :: if clock then pcr_bytes (pcr_of s) else [])
  else None.

Lemma land_control_set x : truth (Z.land (Z.lor x 0x20) 0x20) = true.
Proof.
  rewrite Z.land_lor_distr_l, Z.land_diag. unfold truth. destruct (Z.eqb_spec (Z.lor (Z.land x 32) 32) 0) as [E|]; [|done].
  apply (f_equal (λ z, Z.testbit z 5)) in E. rewrite Z.lor_spec, Z.bits_0, orb_comm in E. done.
Qed.
Lemma land_control_clear x : truth (Z.land (Z.lor 0x10 (Z.land x 0x0f)) 0x20) = false.
Proof. by rewrite !Z.land_lor_distr_l, <- Z.land_assoc, Z.land_0_r. Qed.

Definition clock_ok s : Prop := - 2 ^ 63 ≤ pcr_of s < 2 ^ 63.

Lemma ts_header_ok pcr_pid s (start : bool) data : zlen data = TS_PACKET_SIZE → clock_ok s →
  let head := ts_head false s (if start then first_field pcr_pid s else None) in
  ∃ tail, zlen head + zlen tail = TS_PACKET_SIZE ∧ ts_header pcr_pid s start data = Ok (zlen head, head ++ tail).
Proof.
  intros Hd Hc head. unfold head, ts_head, first_field, ts_header, has_pts, clock_ok, pcr_of in *. clear head.
  set (v := (if PTS_NO_VALUE =? dts s then pts s else dts s) * 300) in *. unfold TS_PACKET_SIZE in *.
  do 12 (destruct data as [|? data]; [autorewrite with zlen in Hd; lia|]).
  rewrite Z.lor_0_l. store. store. store. unfold or_at.
  destruct start; cbn [andb].
  2: { run. load. rewrite !Z.lor_0_r, land_control_clear.
       eexists. split; [|done]. autorewrite with zlen in *. lia. }
  destruct (es_pid s =? pcr_pid), (truth (data_alignment_indicator s)), (PTS_NO_VALUE =? pts s); cbn [orb andb negb]; run;
    repeat (load; store); run; load.
  all: rewrite ?Z.lor_0_r, ?land_control_clear, ?land_control_set; eval_truths; run.
  all: try (eexists; split; [|done]; autorewrite with zlen in *; lia).
  all: rewrite <- ?Z.lor_assoc; change (Z.lor 0x20 0x20) with 0x20.
  all: try (rewrite int64_ok by exact Hc; run; unfold pcr_write, add_at; cbv zeta; store; load; store).
  all: load; eexists; (split; [|reflexivity]); unfold pcr_bytes; autorewrite with zlen in *; lia.
Qed.

(** The header of the PES packet of a frame, with the delimiter. *)
Definition first_header (w : bool) s payload (bytes : Z) : list Z :=
  let d := delimiter w s payload bytes in
  let n := zlen (stamps s) + 3 + zlen d + bytes in
  pes_head s (be_bytes 2 (if n >? 0xFFFF then 0 else n)) ++ d.

Lemma zlen_stamps_le s : 0 ≤ zlen (stamps s) ≤ 10.
Proof. rewrite zlen_stamps. destruct (has_pts s), (has_dts s); lia. Qed.

Lemma zlen_first_header w s payload bytes : 9 ≤ zlen (first_header w s payload bytes) ≤ 26.
Proof.
  unfold first_header. rewrite zlen_app, zlen_pes_head, zlen_be_bytes.
  pose proof (zlen_stamps_le s). pose proof (zlen_delimiter w s payload bytes). pose proof (zlen_nonneg (delimiter w s payload bytes)). lia.
Qed.

Lemma zlen_ts_head first s af : zlen (ts_head first s af) = 4 + match af with Some l => 1 + zlen l | None => 0 end.
Proof. unfold ts_head. destruct af; autorewrite with zlen; lia. Qed.

Lemma zlen_first_field pcr_pid s : match first_field pcr_pid s with Some l => 1 ≤ zlen l ≤ 7 | None => True end.
Proof. unfold first_field. destruct (es_pid s =? pcr_pid), (_ && _); cbn [orb]; unfold pcr_bytes; autorewrite with zlen; lia. Qed.

Lemma be_bytes_2_land v : [Z.land (Z.shiftr v 8) 0xff; Z.land v 0xff] = be_bytes 2 v.
Proof. rewrite be_bytes_2. by masks. Qed.

Lemma ts_pes_start_ok w s af payload bytes tail :
  let head := ts_head false s af in let h := first_header w s payload bytes in
  zlen head + zlen tail = TS_PACKET_SIZE → zlen head ≤ 12 → 0 ≤ bytes ≤ zlen payload → bytes < 2 ^ 31 →
  ∃ tail', zlen head + zlen h + zlen tail' = TS_PACKET_SIZE ∧
    ts_pes_start w s (zlen head) payload bytes (head ++ tail) = Ok (zlen head + zlen h, ts_head true s af ++ h ++ tail').
Proof.
  intros head h Ht Hh Hb Hb'. unfold ts_pes_start, or_at. unfold TS_PACKET_SIZE in *.
  assert (zlen head = zlen (ts_head true s af)) as El by (unfold head; by rewrite !zlen_ts_head).
  assert (∃ b, ld (head ++ tail) 1 = Ok b ∧ st (head ++ tail) 1 [Z.lor b 0x40] = Ok (ts_head true s af ++ tail)) as (b & -> & E).
  { unfold head, ts_head. eexists. split; [apply ld_lookup; [lia|reflexivity]|]. rewrite Z.lor_0_r. cbn [app].
    pose proof (zlen_nonneg tail). destruct af as [l|]; [pose proof (zlen_nonneg l)|]; store; done. }
  run. rewrite E. run. rewrite El in *. clear E El head. set (head := ts_head true s af) in *.
  do 9 (destruct tail as [|? tail]; [autorewrite with zlen in Ht; lia|]). autorewrite with zlen in Ht.
  rewrite (pes_write_header_ok s head z z0 z1 z2 z3 z4 z5 z6 z7 tail) by lia. run.
  rewrite <- zlen_app. pose proof (zlen_stamps_le s) as Hst.
  rewrite mpeg_ts_write_aud_ok by (rewrite ?zlen_app, ?zlen_drop by (unfold zlen in *; lia); unfold zlen in *; lia). run.
  set (d := delimiter w s payload bytes) in *. set (rest := drop (length d) _).
  replace (zlen head + zlen (pes_head s [z3; z4]) + zlen d - zlen head - 6 + bytes) with (zlen (stamps s) + 3 + zlen d + bytes)
    by (rewrite zlen_pes_head; change (zlen [z3; z4]) with 2; lia).
  set (n := if _ >? _ then _ else _). exists rest.
  assert (zlen (head ++ h) = zlen head + zlen (pes_head s [z3; z4]) + zlen d) as El.
  { unfold h, first_header. fold d. rewrite !zlen_app, !zlen_pes_head, zlen_be_bytes. change (zlen [z3; z4]) with 2. lia. }
  split.
  { rewrite El, zlen_pes_head. unfold rest. change (zlen [z3; z4]) with 2.
    pose proof (zlen_delimiter w s payload bytes) as Hd. fold d in Hd.
    rewrite !zlen_drop by (rewrite ?length_drop; unfold zlen in *; lia). unfold zlen in *. lia. }
  unfold nbo_w16. rewrite be_bytes_2_land, be_bytes_2, <- !app_assoc, st_shift by lia.
  pose proof (zlen_nonneg d). pose proof (zlen_nonneg rest). rewrite <- El. unfold pes_head at 1. cbn [app].
  store.
  unfold h, first_header. fold d n. unfold pes_head. rewrite be_bytes_2. by rewrite <- !app_assoc.
Qed.

(** The adaptation field that fills a packet in which [n] bytes are free. *)
Definition stuff (af : option (list Z)) (n : Z) : option (list Z) :=
  if n <=? 0 then af else
  match af with
  | Some l => Some (l ++ replicate (Z.to_nat n) 0xff)
  | None => Some (take (Z.to_nat (n - 1)) (0 :: replicate (Z.to_nat n) 0xff))
  end.

Lemma ts_memmove_ok head junk (h : list Z) rest bytes : zlen head + zlen junk + zlen h + bytes = TS_PACKET_SIZE → zlen rest = zlen junk + bytes →
  0 ≤ bytes →
  ∃ junk' rest', zlen junk' = zlen junk ∧ zlen rest' = bytes ∧
    (if zlen head + zlen h - zlen head >? 0 then
       l ← slice (head ++ h ++ rest) (zlen head) (zlen head + zlen h - zlen head);
       st (head ++ h ++ rest) (TS_PACKET_SIZE - bytes - (zlen head + zlen h - zlen head)) l
     else Ok (head ++ h ++ rest)) = Ok (head ++ junk' ++ h ++ rest').
Proof.
  unfold TS_PACKET_SIZE. intros Hs Hr Hb. replace (zlen head + zlen h - zlen head) with (zlen h) by lia.
  destruct (Z.gtb_spec (zlen h) 0) as [Hh|Hh].
  2: { assert (h = []) as -> by (destruct h; [done|autorewrite with zlen in Hh; pose proof (zlen_nonneg h); lia]).
       exists (take (length junk) rest), (drop (length junk) rest).
       rewrite zlen_take, zlen_drop by (unfold zlen in *; lia). cbn [app]. rewrite take_drop. unfold zlen in *. repeat split; lia. }
  assert (slice (head ++ h ++ rest) (zlen head) (zlen h) = Ok h) as ->.
  { rewrite slice_ok by (autorewrite with zlen; pose proof (zlen_nonneg head); pose proof (zlen_nonneg rest); lia).
    f_equal. by apply sub_mid. }
  run. replace (188 - bytes - zlen h) with (zlen head + zlen junk) by lia.
  pose proof (zlen_nonneg junk). rewrite st_shift by lia. rewrite st_ok by (autorewrite with zlen; lia). run.
  exists (take (length junk) (h ++ rest)), (drop (length junk + length h) (h ++ rest)).
  rewrite zlen_take, zlen_drop by (rewrite length_app; unfold zlen in *; lia). autorewrite with zlen.
  split; [done|]. split; [unfold zlen in *; lia|]. unfold put.
  by replace (Z.to_nat (zlen junk)) with (length junk) by (unfold zlen; lia).
Qed.

#[local] Hint Rewrite @zlen_replicate : zlen.
Local Ltac load_at i := erewrite (ld_lookup _ i _) by (lia || reflexivity); run.

Lemma zlen_stuff first s af n : zlen (ts_head first s (stuff af n)) = zlen (ts_head first s af) + Z.max n 0.
Proof.
  rewrite !zlen_ts_head. unfold stuff. destruct (Z.leb_spec n 0); [lia|].
  destruct af as [l|]; [rewrite zlen_app, zlen_replicate; lia|].
  rewrite zlen_take by (cbn [length]; rewrite length_replicate; lia). lia.
Qed.

Lemma stuff_some first s l n junk tail : zlen junk = n → 0 < n → zlen l + n < 256 →
  (data ← st (ts_head first s (Some l) ++ junk ++ tail) (4 + 1 + zlen l) (replicate (Z.to_nat n) 0xff); add_at data 4 (u8 n))
  = Ok (ts_head first s (Some (l ++ replicate (Z.to_nat n) 0xff)) ++ tail).
Proof.
  intros Hj Hn Hl. pose proof (zlen_nonneg l). pose proof (zlen_nonneg tail).
  rewrite st_at by (rewrite ?zlen_ts_head; autorewrite with zlen; lia). run.
  replace (length (replicate (Z.to_nat n) 0xff)) with (length junk) by (rewrite length_replicate; unfold zlen in Hj; lia).
  rewrite drop_app_length. unfold add_at, ts_head. cbn [app]. load_at 4. store.
  autorewrite with zlen. rewrite Z2Nat.id by lia.
  assert (u8 (zlen l + u8 n) = zlen l + n) as -> by (unfold u8; dlia). by rewrite <- app_assoc.
Qed.

Lemma stuff_none first s n junk tail : zlen junk = n → 0 < n → n < 256 →
  (data ← or_at (ts_head first s None ++ junk ++ tail) 3 0x20;
   data ← st data 4 [u8 (n - 1)];
   k ← ld data 4;
   data ← (if k >? 0 then st data 5 [0] else Ok data);
   if k >? 1 then st data 6 (replicate (Z.to_nat (n - 2)) 0xff) else Ok data)
  = Ok (ts_head first s (Some (take (Z.to_nat (n - 1)) (0 :: replicate (Z.to_nat n) 0xff))) ++ tail).
Proof.
  intros Hj Hn Hl. pose proof (zlen_nonneg tail). unfold or_at, ts_head. cbn [app].
  destruct junk as [|j0 junk]; [autorewrite with zlen in Hj; lia|]. pose proof (zlen_nonneg junk).
  load_at 3. rewrite Z.lor_0_r. store. store. load_at 4.
  assert (u8 (n - 1) = n - 1) as -> by (unfold u8; dlia). rewrite zlen_cons in Hj.
  destruct (Z.gtb_spec (n - 1) 0).
  2: { replace n with 1 in * by lia. assert (junk = []) as -> by (destruct junk; [done|autorewrite with zlen in Hj; pose proof (zlen_nonneg junk); lia]).
       run. done. }
  destruct junk as [|j1 junk]; [autorewrite with zlen in Hj; lia|]. rewrite zlen_cons in Hj. pose proof (zlen_nonneg junk).
  cbn [app]. store. rewrite zlen_take by (cbn [length]; rewrite length_replicate; lia). rewrite Z2Nat.id by lia.
  replace (Z.to_nat (n - 1)) with (S (Z.to_nat (n - 2))) by lia. cbn [take]. rewrite take_replicate, Nat.min_l by lia.
  destruct (Z.gtb_spec (n - 1) 1).
  2: { replace n with 2 in * by lia. assert (junk = []) as -> by (destruct junk; [done|autorewrite with zlen in Hj; pose proof (zlen_nonneg junk); lia]). done. }
  change (?a :: ?b :: ?c :: ?d :: ?e :: ?f :: junk ++ tail) with ([a; b; c; d; e; f] ++ junk ++ tail).
  rewrite st_at by (autorewrite with zlen; lia).
  replace (length (replicate (Z.to_nat (n - 2)) 0xff)) with (length junk) by (rewrite length_replicate; unfold zlen in Hj; lia).
  rewrite drop_app_length. by rewrite <- app_assoc.
Qed.

Lemma ld_control first s af tail : ld (ts_head first s af ++ tail) 3 =
  Ok (Z.lor (Z.lor 0x10 (Z.land (es_cc s) 0x0f)) (match af with Some _ => 0x20 | None => 0 end)).
Proof. by apply ld_lookup. Qed.
Lemma ld_field_length first s l tail : ld (ts_head first s (Some l) ++ tail) 4 = Ok (zlen l).
Proof. by apply ld_lookup. Qed.

Lemma ts_stuffing_ok first s af (h : list Z) rest bytes n :
  zlen (ts_head first s af) + zlen h + bytes + n = TS_PACKET_SIZE →
  zlen h + zlen rest + zlen (ts_head first s af) = TS_PACKET_SIZE → 0 ≤ bytes → 0 < n →
  ∃ rest', zlen rest' = bytes ∧
    ts_stuffing (zlen (ts_head first s af)) (zlen (ts_head first s af) + zlen h) bytes (ts_head first s af ++ h ++ rest)
    = Ok (zlen (ts_head first s (stuff af n)) + zlen h, ts_head first s (stuff af n) ++ h ++ rest').
Proof.
  intros Hs Hr Hb Hn.
  destruct (ts_memmove_ok (ts_head first s af) (replicate (Z.to_nat n) 0) h rest bytes) as (junk & rest' & Hj & Hr' & E);
    [autorewrite with zlen; lia..|].
  autorewrite with zlen in Hj. rewrite Z2Nat.id in Hj by lia. exists rest'. split; [done|].
  unfold ts_stuffing. rewrite E. run. clear E. rewrite ld_control. run.
  replace (TS_PACKET_SIZE - _) with n by lia.
  pose proof (zlen_nonneg h). pose proof (zlen_stuff first s af n) as Hl. rewrite !zlen_ts_head in *. unfold TS_PACKET_SIZE in *.
  unfold stuff in *. destruct (Z.leb_spec n 0); [lia|]. destruct af as [l|].
  - pose proof (zlen_nonneg l). rewrite land_control_set, ld_field_length. run.
    rewrite stuff_some by (done || lia). run. rewrite ld_field_length. run. apply f_equal, f_equal2; [lia|done].
  - rewrite Z.lor_0_r, land_control_clear, stuff_none by (done || lia). run. rewrite ld_field_length. run.
    apply f_equal, f_equal2; [lia|done].
Qed.

(** The turn of the loop: the packet has as much of the frame as fits. *)
Lemma ts_fill_ok first s af (h : list Z) rest payload q bytes :
  let room := TS_PACKET_SIZE - (zlen (ts_head first s af) + zlen h) in
  let len := Z.min bytes room in
  zlen rest = room → 0 < room → 0 ≤ bytes → 0 ≤ q → q + bytes ≤ zlen payload →
  ts_fill (zlen (ts_head first s af)) (zlen (ts_head first s af) + zlen h) payload q bytes (ts_head first s af ++ h ++ rest)
  = Ok (len, ts_head first s (stuff af (room - bytes)) ++ h ++ sub payload q len).
Proof.
  intros room len Hr Hroom Hb Hq Hp. unfold ts_fill.
  destruct (Z.ltb_spec (zlen (ts_head first s af) + zlen h + bytes) TS_PACKET_SIZE) as [Hlt|Hge].
  - assert (len = bytes) as -> by (unfold len, room; lia).
    destruct (ts_stuffing_ok first s af h rest bytes (room - bytes)) as (rest' & Hl & ->); [unfold room in *; lia..|].
    run. rewrite slice_ok by lia. run. rewrite app_assoc.
    assert (zlen (sub payload q bytes) = bytes) as Hsub by (apply zlen_sub; lia).
    rewrite st_at by (autorewrite with zlen; lia). run.
    rewrite drop_ge by (unfold zlen in *; lia). by rewrite app_nil_r, <- app_assoc.
  - assert (len = room) as -> by (unfold len, room in *; lia). run.
    replace (TS_PACKET_SIZE - _) with room by done. rewrite slice_ok by (unfold room in *; lia). run. rewrite app_assoc.
    assert (zlen (sub payload q room) = room) as Hsub by (apply zlen_sub; unfold room in *; lia).
    rewrite st_at by (autorewrite with zlen; lia). run.
    rewrite drop_ge by (unfold zlen in *; lia). rewrite app_nil_r, <- app_assoc.
    unfold stuff. destruct (Z.leb_spec (room - bytes) 0); [done|unfold room in *; lia].
Qed.

(** * Frames *)

(** The packets of what is left of a frame. *)
Fixpoint packets_from (first : bool) s (af : option (list Z)) (h : list Z) (l : list Z) (fuel : nat) : list (list Z) :=
  match l, fuel with
  | [], _ | _, O => []
  | _, S fuel =>
      let room := TS_PACKET_SIZE - (zlen (ts_head first s af) + zlen h) in
      (ts_head first s (stuff af (room - zlen l)) ++ h ++ take (Z.to_nat room) l)
      :: packets_from false (set_cc s ((es_cc s + 1) mod 16)) None [] (drop (Z.to_nat room) l) fuel
  end.
Definition frame_packets (w : bool) (pcr_pid : Z) s (l : list Z) : list (list Z) :=
  packets_from true s (first_field pcr_pid s) (first_header w s l (zlen l)) l (length l).

Section Send.
Context {A : Type} (func : mpeg_ts_func_t A).

(** Packets given to the callback one by one, until it refuses one or there is no
    block for the next: the result and how many it was given. *)
Fixpoint send (l : list (list Z)) (x : A) : Z * nat * A :=
  match l with
  | [] => (0, O, x)
  | pkt :: l =>
      match alloc func x TS_PACKET_SIZE with
      | None => (- ENOMEM, O, x)
      | Some _ =>
          let '(r, x) := write func x pkt in
          if r =? 0 then let '(r, n, x) := send l x in (r, S n, x) else (r, 1%nat, x)
      end
  end.

(** The blocks are as large as they were asked to be. *)
Definition blocks_ok : Prop := ∀ x b, alloc func x TS_PACKET_SIZE = Some b → zlen b = TS_PACKET_SIZE.
Hypothesis Hblocks : blocks_ok.

(** [send l x], as a result of the code that has the counter [cc]. *)
Definition advanced s (l : list (list Z)) (x : A) : outcome (Z * pes_t * A) :=
  let '(r, n, x) := send l x in Ok (r, set_cc s ((es_cc s + Z.of_nat n) mod 16), x).

Lemma set_cc_same s : is_uint 4 (es_cc s) → set_cc s ((es_cc s + 0) mod 16) = s.
Proof. intros Hc. rewrite Z.add_0_r, Z.mod_small by exact Hc. by destruct s. Qed.

Lemma advanced_cons s pkt l x : is_uint 4 (es_cc s) →
  advanced s (pkt :: l) x =
  match alloc func x TS_PACKET_SIZE with
  | None => Ok (- ENOMEM, s, x)
  | Some _ =>
      let '(r, x) := write func x pkt in
      if r =? 0 then advanced (set_cc s ((es_cc s + 1) mod 16)) l x else Ok (r, set_cc s ((es_cc s + 1) mod 16), x)
  end.
Proof.
  intros Hc. unfold advanced. cbn [send]. destruct (alloc func x TS_PACKET_SIZE); [|by rewrite set_cc_same].
  destruct (write func x pkt) as [r x']. destruct (r =? 0); [|done].
  destruct (send l x') as [[r' n] x'']. cbn [es_cc set_cc]. unfold set_cc. cbn [es_cc es_pid sid es_codecid esinfo esinfo_len data_alignment_indicator pts dts].
  assert ((es_cc s + Z.of_nat (S n)) mod 16 = ((es_cc s + 1) mod 16 + Z.of_nat n) mod 16) as ->; [|done].
  rewrite Z.add_mod_idemp_l by lia. f_equal. lia.
Qed.

Lemma packets_from_cons first s af h l fuel : 0 < zlen l →
  let room := TS_PACKET_SIZE - (zlen (ts_head first s af) + zlen h) in
  packets_from first s af h l (S fuel) =
  (ts_head first s (stuff af (room - zlen l)) ++ h ++ take (Z.to_nat room) l)
  :: packets_from false (set_cc s ((es_cc s + 1) mod 16)) None [] (drop (Z.to_nat room) l) fuel.
Proof. destruct l; [intros H; by vm_compute in H|done]. Qed.

Lemma packets_from_nil first s af h fuel : packets_from first s af h [] fuel = [].
Proof. by destruct fuel. Qed.

(** One packet: what [ts_fill] leaves is all of it. *)
Lemma filled_packet first s af (h : list Z) payload q bytes rest :
  let room := TS_PACKET_SIZE - (zlen (ts_head first s af) + zlen h) in
  let len := Z.min bytes room in
  zlen rest = room → 0 < room → 0 ≤ bytes → 0 ≤ q → q + bytes ≤ zlen payload →
  let pkt := ts_head first s (stuff af (room - zlen (sub payload q bytes))) ++ h ++ take (Z.to_nat room) (sub payload q bytes) in
  ts_fill (zlen (ts_head first s af)) (zlen (ts_head first s af) + zlen h) payload q bytes (ts_head first s af ++ h ++ rest) = Ok (len, pkt)
  ∧ slice pkt 0 TS_PACKET_SIZE = Ok pkt
  ∧ sub payload (q + len) (bytes - len) = drop (Z.to_nat room) (sub payload q bytes).
Proof.
  intros room len Hr Hroom Hb Hq Hp pkt.
  assert (zlen (sub payload q bytes) = bytes) as Hs by (apply zlen_sub; lia).
  assert (take (Z.to_nat room) (sub payload q bytes) = sub payload q len) as Et.
  { unfold sub. rewrite take_take. f_equal. unfold len. lia. }
  unfold pkt. rewrite Hs, Et. split; [by apply ts_fill_ok|].
  assert (zlen (sub payload q len) = len) as Hl by (apply zlen_sub; unfold len; lia). split.
  - pose proof (zlen_stuff first s af (room - bytes)) as Hst.
    assert (zlen (ts_head first s (stuff af (room - bytes)) ++ h ++ sub payload q len) = TS_PACKET_SIZE) as E.
    { autorewrite with zlen. unfold len, room in *. lia. }
    rewrite slice_ok by (unfold TS_PACKET_SIZE in *; lia). by rewrite <- E, sub_full.
  - destruct (Z_le_gt_dec room bytes).
    + assert (len = room) as -> by (unfold len; lia). unfold sub.
      rewrite skipn_firstn_comm, drop_drop. f_equal; [lia|]. f_equal. lia.
    + assert (len = bytes) as -> by (unfold len; lia). rewrite Z.sub_diag, sub_0.
      rewrite drop_ge; [done|]. unfold zlen in Hs. lia.
Qed.

Lemma ts_write_pes_rest w pcr_pid payload fuel : ∀ s q bytes x, is_uint 4 (es_cc s) → clock_ok s →
  0 ≤ q → q + bytes ≤ zlen payload → 0 ≤ bytes ≤ Z.of_nat fuel →
  ts_write_pes_loop func w pcr_pid s payload q bytes false x fuel
  = advanced s (packets_from false s None [] (sub payload q bytes) fuel) x.
Proof.
  induction fuel as [|fuel IH]; intros s q bytes x Hc Hk Hq Hp Hf; cbn [ts_write_pes_loop].
  { assert (bytes = 0) as -> by lia. rewrite sub_0. unfold advanced. cbn. by rewrite set_cc_same. }
  destruct (Z.gtb_spec bytes 0).
  2: { assert (bytes = 0) as -> by lia. rewrite sub_0, packets_from_nil. unfold advanced. cbn. by rewrite set_cc_same. }
  assert (zlen (sub payload q bytes) = bytes) as Hs by (apply zlen_sub; lia).
  rewrite packets_from_cons, advanced_cons by (done || lia).
  destruct (alloc func x TS_PACKET_SIZE) as [data|] eqn:Ea; [|done].
  destruct (ts_header_ok pcr_pid s false data) as (tail & Ht & ->); [by eapply Hblocks|done|]. run.
  cbn [es_cc set_cc]. set (s' := set_cc s ((es_cc s + 1) mod 16)).
  pose proof (zlen_ts_head false s None) as Hh. unfold TS_PACKET_SIZE in *.
  destruct (filled_packet false s None [] payload q bytes tail) as (E & Esl & Enext); [change (zlen []) with 0; unfold TS_PACKET_SIZE in *; lia..|].
  change (zlen []) with 0 in *; rewrite !Z.add_0_r in *. cbn [app] in E, Esl. rewrite E. run. cbn [app]. unfold TS_PACKET_SIZE in *. rewrite Esl. run.
  destruct (write func x _) as [r x']. destruct (r =? 0); [|done].
  rewrite IH, Enext; [done| |done|lia..]. unfold is_uint. cbn. dlia.
Qed.

Lemma ts_write_pes_ok w pcr_pid s payload x : is_uint 4 (es_cc s) → clock_ok s → zlen payload < 2 ^ 31 →
  ts_write_pes func w pcr_pid s payload (zlen payload) x = advanced s (frame_packets w pcr_pid s payload) x.
Proof.
  intros Hc Hk Hp. unfold ts_write_pes, frame_packets. pose proof (zlen_nonneg payload) as Hp0.
  replace (Z.to_nat (zlen payload)) with (length payload) by (unfold zlen; lia).
  destruct (length payload) as [|fuel] eqn:El.
  { assert (payload = []) as -> by (by destruct payload). unfold advanced. cbn. by rewrite set_cc_same. }
  assert (zlen payload = Z.of_nat (S fuel)) as El' by (unfold zlen; lia).
  rewrite packets_from_cons, advanced_cons by (done || lia). cbn [ts_write_pes_loop].
  destruct (Z.gtb_spec (zlen payload) 0); [|lia].
  destruct (alloc func x TS_PACKET_SIZE) as [data|] eqn:Ea; [|done].
  destruct (ts_header_ok pcr_pid s true data) as (tail & Ht & ->); [by eapply Hblocks|done|]. run.
  assert (zlen (ts_head false s (first_field pcr_pid s)) ≤ 12) as Hh.
  { rewrite zlen_ts_head. pose proof (zlen_first_field pcr_pid s). destruct (first_field pcr_pid s); lia. }
  destruct (ts_pes_start_ok w s (first_field pcr_pid s) payload (zlen payload) tail) as (tail' & Ht' & E); [done|done|lia|lia|].
  change (ts_pes_start w (set_cc s ((es_cc s + 1) mod 16))) with (ts_pes_start w s). rewrite E. run. clear E.
  assert (zlen (ts_head false s (first_field pcr_pid s)) = zlen (ts_head true s (first_field pcr_pid s))) as E by (by rewrite !zlen_ts_head).
  rewrite E in *. clear E. pose proof (zlen_first_header w s payload (zlen payload)).
  destruct (filled_packet true s (first_field pcr_pid s) (first_header w s payload (zlen payload)) payload 0 (zlen payload) tail')
    as (E & Esl & Enext); [unfold TS_PACKET_SIZE in *; lia..|].
  assert (sub payload 0 (zlen payload) = payload) as Es by apply sub_full. rewrite Es in *.
  rewrite E. run. rewrite Esl. run. destruct (write func x _) as [r x']. destruct (r =? 0); [|done].
  rewrite ts_write_pes_rest, Enext; [done| |done|unfold TS_PACKET_SIZE in *; lia..]. unfold is_uint. cbn. dlia.
Qed.

End Send.

(** * The tables *)

(** A store at the end of what has been written of a buffer of [N] bytes. *)
Lemma st_grow N pre tail bs p : zlen (pre ++ tail) = N → p = zlen pre → zlen pre + zlen bs ≤ N →
  ∃ tail', st (pre ++ tail) p bs = Ok ((pre ++ bs) ++ tail') ∧ zlen ((pre ++ bs) ++ tail') = N.
Proof.
  intros HN -> Hb. rewrite zlen_app in HN. exists (drop (length bs) tail).
  rewrite st_at by lia. split; [done|]. rewrite !zlen_app, zlen_drop by (unfold zlen in *; lia). unfold zlen in *. lia.
Qed.

Lemma nbo_w16_grow N pre tail v p : zlen (pre ++ tail) = N → p = zlen pre → zlen pre + 2 ≤ N →
  ∃ tail', nbo_w16 (pre ++ tail) p v = Ok ((pre ++ be_bytes 2 v) ++ tail') ∧ zlen ((pre ++ be_bytes 2 v) ++ tail') = N.
Proof. intros. unfold nbo_w16. rewrite be_bytes_2_land. apply st_grow; rewrite ?zlen_be_bytes; done || lia. Qed.

Lemma put_crc_grow N pre tail p : zlen (pre ++ tail) = N → p = zlen pre → zlen pre + 4 ≤ N → bytes_ok pre →
  ∃ tail', put_crc (pre ++ tail) p = Ok ((pre ++ crc_field pre) ++ tail') ∧ zlen ((pre ++ crc_field pre) ++ tail') = N.
Proof.
  intros HN -> Hp Hb. unfold put_crc.
  destruct (mpeg_crc32_ok pre (pre ++ tail) (zlen pre)) as (c & -> & E); [done|by apply holds_app_r, holds_whole|done|]. run. rewrite E.
  apply st_grow; [done|done|rewrite zlen_crc_field; lia].
Qed.

(** The section of the programs. *)
Definition program_entry pm : list Z := be_bytes 2 (u16 (pn pm)) ++ be_bytes 2 (u16 (Z.lor 0xE000 (pmt_pid pm))).
Definition pat_body (p : pat_t) : list Z :=
  [0] ++ be_bytes 2 (u16 (Z.lor 0xb000 (u32 (zlen (pmts p) * 4 + 5 + 4)))) ++ be_bytes 2 (u16 (tsid p)) ++
  [u8 (Z.lor 0xC1 (Z.shiftl (pat_ver p) 1)); 0; 0] ++ concat (map program_entry (pmts p)).
Definition section (body : list Z) : list Z := body ++ crc_field body.

Lemma zlen_section body : zlen (section body) = zlen body + 4.
Proof. unfold section. by rewrite zlen_app, zlen_crc_field. Qed.

Lemma zlen_programs (l : list pmt_t) : zlen (concat (map program_entry l)) = 4 * zlen l.
Proof.
  induction l as [|pm l IH]; [done|]. cbn [map concat]. rewrite zlen_app, IH, zlen_cons.
  unfold program_entry. rewrite zlen_app, !zlen_be_bytes. lia.
Qed.

Lemma pat_programs_ok N (l : list pmt_t) : ∀ pre tail p, zlen (pre ++ tail) = N → p = zlen pre → zlen pre + 4 * zlen l ≤ N →
  ∃ tail', pat_programs l (pre ++ tail) p = Ok ((pre ++ concat (map program_entry l)) ++ tail') ∧
    zlen ((pre ++ concat (map program_entry l)) ++ tail') = N.
Proof.
  induction l as [|pm l IH]; intros pre tail p HN -> Hl; cbn [pat_programs map concat].
  { exists tail. by rewrite app_nil_r. }
  rewrite zlen_cons in Hl. pose proof (zlen_nonneg l).
  destruct (nbo_w16_grow N pre tail (u16 (pn pm)) (zlen pre)) as (t1 & -> & H1); [done|done|lia|]. run.
  edestruct (nbo_w16_grow N) as (t2 & -> & H2); [exact H1|rewrite zlen_app, zlen_be_bytes; reflexivity|rewrite zlen_app, zlen_be_bytes; lia|]. run.
  edestruct (IH) as (t3 & -> & H3); [exact H2|rewrite !zlen_app, !zlen_be_bytes; lia|rewrite !zlen_app, !zlen_be_bytes; lia|].
  exists t3. unfold program_entry. rewrite <- !app_assoc in *. done.
Qed.

Lemma bytes_ok_programs (l : list pmt_t) : bytes_ok (concat (map program_entry l)).
Proof.
  induction l as [|pm l IH]; [constructor|]. cbn [map concat]. unfold program_entry.
  rewrite !bytes_ok_app. repeat split; try apply bytes_ok_be_bytes. done.
Qed.

Lemma bytes_ok_version v : bytes_ok [u8 v; 0; 0].
Proof. repeat first [apply Forall_nil_2 | apply Forall_cons_2]; [apply u8_range|done..]. Qed.

Lemma zlen_pat_body (p : pat_t) : zlen (pat_body p) = 8 + 4 * zlen (pmts p).
Proof. unfold pat_body. rewrite !zlen_app, zlen_programs, !zlen_be_bytes, !zlen_cons, !zlen_nil. lia. Qed.
Lemma bytes_ok_pat_body (p : pat_t) : bytes_ok (pat_body p).
Proof. unfold pat_body. rewrite !bytes_ok_app. repeat split; try apply bytes_ok_be_bytes; [by constructor|apply bytes_ok_version|apply bytes_ok_programs]. Qed.

(** One more store, behind what is written already. *)
Ltac lengths := cbn [app] in *; autorewrite with zlen in *; lia.
Ltac next := first
  [ edestruct (st_grow 1024) as (? & -> & ?); [eassumption|lengths|lengths|]
  | edestruct (nbo_w16_grow 1024) as (? & -> & ?); [eassumption|lengths|lengths|] ]; run.
Lemma pat_write_ok (p : pat_t) m : zlen m = 1024 → zlen (pmts p) ≤ 42 →
  ∃ tail, pat_write p m = Ok (zlen (section (pat_body p)), section (pat_body p) ++ tail) ∧ zlen (section (pat_body p) ++ tail) = 1024.
Proof.
  intros Hm Hp. pose proof (zlen_nonneg (pmts p)). unfold pat_write. change m with ([] ++ m) in Hm |- *.
  do 4 next.
  edestruct (pat_programs_ok 1024) as (t5 & -> & H5); [eassumption|lengths|lengths|]. run.
  match type of H5 with zlen (?b ++ t5) = _ => replace b with (pat_body p) in * by (unfold pat_body; by rewrite <- !app_assoc) end.
  assert (u32 (zlen (pmts p) * 4 + 5 + 4) = zlen (pat_body p) + 1) as -> by (rewrite zlen_pat_body, u32_id by (unfold is_uint; lia); lia).
  edestruct (put_crc_grow 1024) as (t6 & -> & H6); [exact H5|lia|rewrite zlen_pat_body; lia|apply bytes_ok_pat_body|]. run.
  exists t6. split; [|done]. rewrite zlen_section. apply f_equal, f_equal2; [lia|done].
Qed.

(** The section of a program. *)
Definition opus_descriptor : list Z := [0x05; 4; 0x4f; 0x70; 0x75; 0x73; 0x7f; 2; 0x80; 2].
Definition stream_entry s : list Z :=
  let opus := PSI_STREAM_AUDIO_OPUS =? es_codecid s in
  let d := if opus then opus_descriptor else [] in
  [if opus then PSI_STREAM_PRIVATE_DATA else es_codecid s] ++ be_bytes 2 (Z.lor 0xE000 (es_pid s)) ++
  be_bytes 2 (Z.lor 0xF000 (zlen d)) ++ d.
Definition pmt_body pm : list Z :=
  let entries := concat (map stream_entry (streams pm)) in
  [2] ++ be_bytes 2 (u16 (Z.lor 0xb000 (13 + zlen entries))) ++ be_bytes 2 (u16 (pn pm)) ++
  [u8 (Z.lor 0xC1 (Z.shiftl (ver pm) 1)); 0; 0] ++ be_bytes 2 (u16 (Z.lor 0xE000 (PCR_PID pm))) ++
  be_bytes 2 (u16 (Z.lor 0xF000 0)) ++ entries.

(** The streams the muxer's tables have room for. *)
Record es_ok s : Prop := {
  es_pid_ok : is_uint 13 (es_pid s);
  sid_ok : is_byte (sid s);
  es_codecid_ok : is_byte (es_codecid s);
  es_cc_ok : is_uint 4 (es_cc s);
  esinfo_ok : 0 ≤ esinfo_len s ≤ 8
}.

Lemma zlen_stream_entry s : 5 ≤ zlen (stream_entry s) ≤ 15.
Proof. unfold stream_entry. destruct (_ =? _); rewrite !zlen_app, !zlen_be_bytes; [change (zlen opus_descriptor) with 10|]; autorewrite with zlen; lia. Qed.

Lemma zlen_entries l : 0 ≤ zlen (concat (map stream_entry l)) ≤ 15 * zlen l.
Proof.
  induction l as [|s l IH]; [done|]. cbn [map concat]. rewrite zlen_app, zlen_cons. pose proof (zlen_stream_entry s). lia.
Qed.

Lemma bytes_ok_entries l : Forall es_ok l → bytes_ok (concat (map stream_entry l)).
Proof.
  induction 1 as [|s l Hs _ IH]; [constructor|]. cbn [map concat]. rewrite bytes_ok_app. split; [|done].
  unfold stream_entry. rewrite !bytes_ok_app. repeat split; try apply bytes_ok_be_bytes.
  - apply Forall_cons_2; [|constructor]. destruct (_ =? _); [done|apply (es_codecid_ok _ Hs)].
  - destruct (_ =? _); [|constructor]. unfold opus_descriptor. repeat (apply Forall_cons_2; [done|]). constructor.
Qed.

Lemma pmt_write_descriptor_ok s pre tail p : es_ok s → zlen (pre ++ tail) = 1024 → p = zlen pre → zlen pre ≤ 100 →
  let d := if PSI_STREAM_AUDIO_OPUS =? es_codecid s then opus_descriptor else [] in
  ∃ tail', pmt_write_descriptor s (pre ++ tail) p (1021 - p) = Ok (zlen d, (pre ++ d) ++ tail') ∧ zlen ((pre ++ d) ++ tail') = 1024.
Proof.
  intros Hs Hm -> Hp d. unfold d, pmt_write_descriptor. pose proof (esinfo_ok _ Hs).
  destruct (_ =? _); cbn [andb]; [|exists tail; by rewrite app_nil_r].
  destruct (Z.gtb_spec (1021 - zlen pre) (2 + 4 + 4)); [|lia]. match goal with |- context [Amf0.chars ?n] => change (Amf0.chars n) with [0x4f; 0x70; 0x75; 0x73] end.
  edestruct (st_grow 1024) as (t1 & -> & H1); [exact Hm|lengths|lengths|]. run.
  destruct (Z.gtb_spec (esinfo_len s) 8); [lia|]. run.
  edestruct (st_grow 1024) as (t2 & -> & Ht2); [exact H1|lengths|lengths|]. run.
  exists t2. unfold opus_descriptor. rewrite <- !app_assoc in *. done.
Qed.

Lemma pmt_streams_ok l : ∀ pre tail p, Forall es_ok l → zlen (pre ++ tail) = 1024 → p = zlen pre → zlen pre + 15 * zlen l ≤ 100 →
  let e := concat (map stream_entry l) in
  ∃ tail', pmt_streams l (pre ++ tail) p = Ok (p + zlen e, (pre ++ e) ++ tail') ∧ zlen ((pre ++ e) ++ tail') = 1024.
Proof.
  induction l as [|s l IH]; intros pre tail p Hl Hm -> Hp e; cbn [pmt_streams].
  { exists tail. unfold e. cbn. rewrite app_nil_r, Z.add_0_r. done. }
  apply Forall_cons_1 in Hl as [Hs Hl]. rewrite zlen_cons in Hp. pose proof (zlen_nonneg l) as Hl0. pose proof (esinfo_ok _ Hs) as Hi.
  destruct (Z.ltb_spec (zlen pre) (1021 - 4 - 5 - esinfo_len s)) as [_|]; [|lia].
  edestruct (st_grow 1024) as (t1 & -> & H1); [exact Hm|lengths|lengths|]. run.
  edestruct (nbo_w16_grow 1024) as (t2 & -> & H2); [exact H1|lengths|lengths|]. run.
  (* the length of the descriptor is stored after it *)
  set (pre2 := ((pre ++ _) ++ be_bytes 2 _)) in *. assert (zlen pre2 = zlen pre + 3) as Hp2 by (unfold pre2; lengths).
  destruct t2 as [|a [|b t2]]; [lengths|lengths|].
  change (pre2 ++ a :: b :: t2) with (pre2 ++ [a; b] ++ t2) in *. rewrite (app_assoc pre2 [a; b] t2) in *.
  destruct (pmt_write_descriptor_ok s (pre2 ++ [a; b]) t2 (zlen pre + 5)) as (t3 & -> & H3); [done|done|lengths|lengths|]. run.
  set (d := if PSI_STREAM_AUDIO_OPUS =? es_codecid s then opus_descriptor else []) in *.
  assert (zlen d = 0 ∨ zlen d = 10) as Hd by (unfold d; destruct (_ =? _); auto).
  assert (nbo_w16 (((pre2 ++ [a; b]) ++ d) ++ t3) (zlen pre + 3) (Z.lor 0xF000 (u16 (zlen d)))
    = Ok ((pre2 ++ be_bytes 2 (Z.lor 0xF000 (zlen d)) ++ d) ++ t3)) as ->.
  { rewrite u16_id by (unfold is_uint; lia). unfold nbo_w16. rewrite be_bytes_2_land, be_bytes_2, <- Hp2, <- !app_assoc, st_here. cbn [app]. pose proof (zlen_nonneg (d ++ t3)).
    store. by rewrite <- ?app_assoc. }
  run.
  assert (pre2 ++ be_bytes 2 (Z.lor 0xF000 (zlen d)) ++ d = pre ++ stream_entry s) as E.
  { unfold pre2, stream_entry. fold d. by rewrite <- !app_assoc. }
  rewrite E. assert (zlen (stream_entry s) = 5 + zlen d) as El.
  { unfold stream_entry. fold d. rewrite !zlen_app, !zlen_be_bytes. lengths. }
  destruct (IH (pre ++ stream_entry s) t3 (zlen pre + (5 + zlen d))) as (t4 & -> & H4);
    [done| |rewrite zlen_app; lia|rewrite zlen_app; lia|].
  { rewrite <- E. rewrite !zlen_app, zlen_be_bytes in *. change (zlen [a; b]) with 2 in H3. lia. }
  exists t4. unfold e. cbn [map concat]. rewrite <- !app_assoc in *. split; [|done].
  apply f_equal, f_equal2; [rewrite zlen_app; lia|done].
Qed.

(** The programs the muxer's tables have room for. *)
Record pm_ok pm : Prop := {
  pmt_pid_ok : is_uint 13 (pmt_pid pm);
  pmt_cc_ok : is_uint 4 (pmt_cc pm);
  pminfo_ok : pminfo_len pm = 0;
  streams_few : zlen (streams pm) ≤ 4;
  streams_ok : Forall es_ok (streams pm)
}.

Lemma zlen_pmt_body pm : zlen (pmt_body pm) = 12 + zlen (concat (map stream_entry (streams pm))).
Proof. unfold pmt_body. rewrite !zlen_app, !zlen_be_bytes. lengths. Qed.
Lemma bytes_ok_pmt_body pm : pm_ok pm → bytes_ok (pmt_body pm).
Proof.
  intros Hp. unfold pmt_body. rewrite !bytes_ok_app. repeat split; try apply bytes_ok_be_bytes;
    [by constructor|apply bytes_ok_version|apply bytes_ok_entries, Hp].
Qed.

Lemma pmt_write_ok pm m : zlen m = 1024 → pm_ok pm →
  ∃ tail, pmt_write pm m = Ok (zlen (section (pmt_body pm)), section (pmt_body pm) ++ tail) ∧ zlen (section (pmt_body pm) ++ tail) = 1024.
Proof.
  intros Hm Hp. unfold pmt_write. pose proof (streams_few _ Hp) as Hf. pose proof (zlen_entries (streams pm)) as He.
  do 3 (destruct m as [|? m]; [lengths|]). rewrite (pminfo_ok _ Hp). store.
  assert (zlen ([2; z0; z1] ++ m) = 1024) as H0 by lengths. change (2 :: z0 :: z1 :: m) with ([2; z0; z1] ++ m).
  do 4 next. cbn [Z.gtb Z.compare andb]. run.
  edestruct (pmt_streams_ok (streams pm)) as (t5 & -> & H5); [apply Hp|eassumption|lengths|lengths|]. run.
  set (e := concat (map stream_entry (streams pm))) in *.
  match goal with |- context [nbo_w16 (?b ++ t5) 1 ?v] =>
    assert (nbo_w16 (b ++ t5) 1 v = Ok (pmt_body pm ++ t5)) as -> end.
  { unfold nbo_w16. rewrite be_bytes_2_land. unfold pmt_body. fold e. rewrite <- !app_assoc. cbn [app].
    replace (12 + 0 + zlen e + 4 - 3) with (13 + zlen e) by lia.
    rewrite !be_bytes_2. pose proof (zlen_nonneg t5). store. done. }
  run. assert (zlen (pmt_body pm ++ t5) = 1024) as H6.
  { rewrite zlen_app, zlen_pmt_body. fold e. rewrite !zlen_app, !zlen_be_bytes in H5. lengths. }
  edestruct (put_crc_grow 1024) as (t6 & -> & H7); [exact H6|rewrite zlen_pmt_body; fold e; lia|rewrite zlen_pmt_body; fold e; lia|by apply bytes_ok_pmt_body|]. run.
  exists t6. split; [|done]. rewrite zlen_section, zlen_pmt_body. fold e. apply f_equal, f_equal2; [lia|done].
Qed.

(** The section that names the service; the provider's name is the beginning of the
    name of the service. *)
Definition sdt_body (p : pat_t) : list Z :=
  [0x42] ++ be_bytes 2 0xf031 ++ be_bytes 2 (u16 (tsid p)) ++ [u8 (Z.lor 0xC1 (Z.shiftl (pat_ver p) 1)); 0; 0] ++
  be_bytes 2 (u16 (tsid p)) ++ [0xff] ++ be_bytes 2 (u16 (tsid p)) ++ [0xfc] ++ be_bytes 2 0x8020 ++
  [0x48; 30; 1; 7] ++ take 7 SERVICE_NAME ++ [20] ++ SERVICE_NAME.

Lemma zlen_sdt_body (p : pat_t) : zlen (sdt_body p) = 48.
Proof. unfold sdt_body. by rewrite !zlen_app, !zlen_be_bytes. Qed.
Lemma bytes_ok_sdt_body (p : pat_t) : bytes_ok (sdt_body p).
Proof.
  unfold sdt_body. rewrite !bytes_ok_app. repeat split; try apply bytes_ok_be_bytes; try apply bytes_ok_version; unfold bytes_ok; by_eval.
Qed.

Lemma sdt_write_ok (p : pat_t) m : zlen m = 1024 →
  ∃ tail, sdt_write p m = Ok (zlen (section (sdt_body p)), section (sdt_body p) ++ tail) ∧ zlen (section (sdt_body p) ++ tail) = 1024.
Proof.
  intros Hm. unfold sdt_write. change (zlen SERVICE_ENCODER) with 7. change (zlen SERVICE_NAME) with 20.
  change (slice SERVICE_NAME 0 7) with (Ok (take 7 SERVICE_NAME)). change m with ([] ++ m) in Hm |- *.
  assert (zlen SERVICE_NAME = 20) as Hn by done. assert (zlen (take 7 SERVICE_NAME) = 7) as Hn7 by done.
  do 13 next.
  lazymatch goal with H : zlen (?b ++ ?t) = 1024 |- context [put_crc (?b ++ ?t)] => replace b with (sdt_body p) in * by (unfold sdt_body; by rewrite <- !app_assoc); rename H into H13 end.
  edestruct (put_crc_grow 1024) as (t14 & -> & H14); [exact H13|by rewrite zlen_sdt_body|by rewrite zlen_sdt_body|apply bytes_ok_sdt_body|]. run.
  exists t14. split; [|done]. by rewrite zlen_section, zlen_sdt_body.
Qed.
