(* ===== verification/MpegTsMux.v ===== *)
(** The muxer of transport streams as a whole: its invariant, what a frame sends,
    and that a receiver gets the frames back. *)
From S2P Require Import Prelude MpegCrc32 MpegPes MpegTs MpegTsSpec.

Implicit Types (t : mpeg_ts_enc_context_t) (pm : pmt_t) (s : pes_t) (m pkt : list Z) (pkts : list (list Z)).

(** * The invariant *)

(** The [j]th stream of the [i]th program. *)
Definition stream_at t (i j : nat) : option pes_t :=
  match pmts (pat t) !! i with Some pm => streams pm !! j | None => None end.

Record ts_ok t : Prop := {
  payload_ok : zlen (payload t) = 1024;
  programs_few : zlen (pmts (pat t)) ≤ 42;
  pat_cc_ok : is_uint 4 (pat_cc (pat t));
  programs_ok : Forall pm_ok (pmts (pat t));
  cycle_ok : 0 ≤ pat_cycle t < 50;
  period_ok : - 2 ^ 62 < pat_period t < 2 ^ 62;
  clock_nonneg : 0 ≤ pcr_clock t;
  pids_low : 0x100 ≤ pid t;
  pids_unique i j i' j' s s' : stream_at t i j = Some s → stream_at t i' j' = Some s' → es_pid s = es_pid s' → i = i' ∧ j = j';
  pids_apart i j s k pm : stream_at t i j = Some s → pmts (pat t) !! k = Some pm → pmt_pid pm ≠ es_pid s;
  pids_free i j s : stream_at t i j = Some s → 0x100 ≤ es_pid s < pid t;
  pmt_pids_free k pm : pmts (pat t) !! k = Some pm → 0x100 ≤ pmt_pid pm < pid t
}.

Lemma stream_at_inv t i j s : stream_at t i j = Some s → ∃ pm, pmts (pat t) !! i = Some pm ∧ streams pm !! j = Some s.
Proof. unfold stream_at. destruct (pmts (pat t) !! i) as [pm|]; [eauto|done]. Qed.

Lemma stream_ok t i j s : ts_ok t → stream_at t i j = Some s → es_ok s.
Proof.
  intros Ht (pm & Hi & Hj)%stream_at_inv. pose proof (proj1 (Forall_lookup _ _) (programs_ok _ Ht) _ _ Hi) as Hp.
  apply (proj1 (Forall_lookup _ _) (streams_ok _ Hp) _ _ Hj).
Qed.

Lemma find_stream_sound p l : ∀ k j s, find_stream p l k = Some (j, s) → ∃ j', j = (k + j')%nat ∧ l !! j' = Some s ∧ es_pid s = p.
Proof.
  induction l as [|s0 l IH]; intros k j s; cbn [find_stream]; [done|].
  destruct (Z.eqb_spec p (es_pid s0)).
  - intros [= <- <-]. exists O. by rewrite Nat.add_0_r.
  - intros (j' & -> & Hl & Hp)%IH. exists (S j'). split; [lia|done].
Qed.

Lemma find_stream_complete p l : ∀ k j s, l !! j = Some s → es_pid s = p → is_Some (find_stream p l k).
Proof.
  induction l as [|s0 l IH]; intros k j s Hl Hp; [done|]. cbn [find_stream].
  destruct (Z.eqb_spec p (es_pid s0)); [done|]. destruct j as [|j]; [by simplify_eq/=|]. by eapply IH.
Qed.

Lemma find_program_sound p l : ∀ k i j pm s, find_program p l k = Some (i, j, pm, s) →
  ∃ i', i = (k + i')%nat ∧ l !! i' = Some pm ∧ streams pm !! j = Some s ∧ es_pid s = p.
Proof.
  induction l as [|pm0 l IH]; intros k i j pm s; cbn [find_program]; [done|].
  destruct (find_stream p (streams pm0) 0) as [[j0 s0]|] eqn:E.
  - intros [= <- <- <- <-]. apply find_stream_sound in E as (j' & -> & Hj & Hp). exists O. by rewrite Nat.add_0_r.
  - intros (i' & -> & H)%IH. exists (S i'). split; [lia|done].
Qed.

Lemma find_program_complete p l : ∀ k i j pm s, l !! i = Some pm → streams pm !! j = Some s → es_pid s = p → is_Some (find_program p l k).
Proof.
  induction l as [|pm0 l IH]; intros k i j pm s Hl Hj Hp; [done|]. cbn [find_program].
  destruct (find_stream p (streams pm0) 0) as [[j0 s0]|] eqn:E; [done|]. destruct i as [|i].
  - simplify_eq/=. edestruct (find_stream_complete (es_pid s)) as [? E']; [done|done|]. by rewrite E' in E.
  - by eapply IH.
Qed.

Lemma mpeg_ts_find_sound t p i j pm s : mpeg_ts_find t p = Some (i, j, pm, s) →
  pmts (pat t) !! i = Some pm ∧ streams pm !! j = Some s ∧ es_pid s = p.
Proof. intros (i' & -> & H)%find_program_sound. done. Qed.

Lemma mpeg_ts_find_complete t i j s : ts_ok t → stream_at t i j = Some s →
  ∃ pm, mpeg_ts_find t (es_pid s) = Some (i, j, pm, s) ∧ pmts (pat t) !! i = Some pm ∧ streams pm !! j = Some s.
Proof.
  intros Ht Hs. pose proof Hs as (pm & Hi & Hj)%stream_at_inv.
  destruct (find_program_complete (es_pid s) (pmts (pat t)) 0 i j pm s) as [[[[i' j'] pm'] s'] E]; [done..|].
  pose proof E as (Hi' & Hj' & Hp)%mpeg_ts_find_sound.
  destruct (pids_unique _ Ht i j i' j' s s') as [-> ->]; [done|by unfold stream_at; rewrite Hi'|done|].
  exists pm. simplify_eq. done.
Qed.

(** * The packets of the tables *)

Definition section_packet (pid cc : Z) (sec : list Z) : list Z :=
  [0x47; Z.lor 0x40 (Z.land (Z.shiftr pid 8) 0x1f); Z.land pid 0xff; Z.lor 0x10 (Z.land cc 0x0f); 0] ++
  sec ++ replicate (Z.to_nat (183 - zlen sec)) 0xff.
Definition pmt_packet pm : list Z := section_packet (pmt_pid pm) (pmt_cc pm) (section (pmt_body pm)).
Definition table_packets t : list (list Z) :=
  let sdt := sdt_period t =? 0 in
  (if sdt then [section_packet TS_PID_SDT (pat_cc (pat t)) (section (sdt_body (pat t)))] else []) ++
  [section_packet TS_PID_PAT ((pat_cc (pat t) + if sdt then 1 else 0) mod 16) (section (pat_body (pat t)))] ++
  map pmt_packet (pmts (pat t)).

Definition bump pm : pmt_t := set_pmt_cc pm ((pmt_cc pm + 1) mod 16).

Section Mux.
Context {A : Type} (func : mpeg_ts_func_t A) (Hblocks : blocks_ok func).

Lemma send_app l k x : send func (l ++ k) x =
  let '(r, n, x) := send func l x in if r =? 0 then let '(r, n', x) := send func k x in (r, (n + n')%nat, x) else (r, n, x).
Proof.
  revert x. induction l as [|pkt l IH]; intros x; cbn [app send].
  - by destruct (send func k x) as [[r n] x'].
  - destruct (alloc func x TS_PACKET_SIZE); [|done]. destruct (write func x pkt) as [r x']. destruct (Z.eqb_spec r 0) as [->|Hr].
    + rewrite IH. destruct (send func l x') as [[r n] x'']. destruct (Z.eqb_spec r 0); [|done].
      by destruct (send func k x'') as [[r' n'] x'''].
    + by apply Z.eqb_neq in Hr as ->.
Qed.

(** A section goes out as one packet. *)
Lemma write_section_ok pid cc sec tail x : zlen sec ≤ 183 → is_uint 4 cc →
  mpeg_ts_write_section_header func pid cc (sec ++ tail) (zlen sec) x =
  let '(r, n, x) := send func [section_packet pid cc sec] x in Ok (r, (cc + Z.of_nat n) mod 16, x).
Proof.
  intros Hs Hc. unfold mpeg_ts_write_section_header. cbn [send]. pose proof (zlen_nonneg sec) as Hs0. pose proof (zlen_nonneg tail) as Ht0.
  assert ((cc + 0) mod 16 = cc) as Hcc by (rewrite Z.add_0_r; by apply Z.mod_small).
  destruct (alloc func x TS_PACKET_SIZE) as [data|] eqn:Ea; [|change (Z.of_nat 0) with 0; by rewrite Hcc].
  apply Hblocks in Ea. unfold TS_PACKET_SIZE in Ea |- *.
  do 5 (destruct data as [|? data]; [autorewrite with zlen in Ea; lia|]). autorewrite with zlen in Ea.
  store. store. rewrite slice_ok by lengths. run. rewrite sub_app_exact.
  change (71 :: ?a :: ?b :: ?c :: ?d :: data) with ([71; a; b; c; d] ++ data).
  rewrite st_at by (done || lia). run.
  rewrite st_at by (rewrite ?zlen_replicate, ?zlen_drop by (unfold zlen in *; lia); first [lengths|unfold zlen in *; lia]). run.
  assert (u32 (cc + 1) = cc + 1) as -> by (apply u32_id; unfold is_uint in *; lia).
  rewrite drop_drop, length_replicate, drop_ge by (unfold zlen in *; lia). rewrite app_nil_r.
  replace (Z.to_nat (188 - zlen sec - 5)) with (Z.to_nat (183 - zlen sec)) by lia.
  assert (zlen (section_packet pid cc sec) = 188) as Hl by (unfold section_packet; rewrite !zlen_app, zlen_replicate; lengths).
  assert (([71; Z.lor 64 (Z.land (Z.shiftr pid 8) 31); Z.land pid 255; Z.lor 16 (Z.land cc 15); 0] ++ sec) ++ replicate (Z.to_nat (183 - zlen sec)) 255
    = section_packet pid cc sec) as -> by (unfold section_packet; by rewrite <- app_assoc).
  rewrite slice_ok by lia. run. rewrite <- Hl, sub_full.
  destruct (write func x (section_packet pid cc sec)) as [r x']. destruct (Z.eqb_spec r 0) as [->|]; done.
Qed.

Lemma write_pmts_ok (B : list pmt_t) : ∀ (C : list pmt_t) t x, pmts (pat t) = map bump C ++ B → Forall pm_ok B → zlen (payload t) = 1024 →
  ∃ t', (let '(r, _, x') := send func (map pmt_packet B) x in write_pmts func t (length C) (length B) x = Ok (r, t', x')) ∧
    ((send func (map pmt_packet B) x).1.1 = 0 →
      ∃ m, zlen m = 1024 ∧ t' = set_payload (set_pat t (set_pmts (pat t) (map bump (C ++ B)))) m).
Proof.
  induction B as [|pm B IH]; intros C t x Hp Hok Hm; cbn [map length write_pmts].
  { exists t. split; [done|]. intros _. exists (payload t). split; [done|]. rewrite app_nil_r in *. rewrite <- Hp.
    by destruct t as [[] ? ? ? ? ? ? ? ?]. }
  apply Forall_cons_1 in Hok as [Hpm Hok]. rewrite Hp, lookup_app_r, length_map, Nat.sub_diag by (rewrite length_map; lia). cbn [lookup list_lookup]. run.
  destruct (pmt_write_ok pm (payload t)) as (tail & -> & Ht); [done|done|]. run.
  rewrite write_section_ok; [|rewrite zlen_section, zlen_pmt_body; pose proof (zlen_entries (streams pm)); pose proof (streams_few _ Hpm); lia|apply Hpm].
  cbn [send]. fold (pmt_packet pm).
  destruct (alloc func x TS_PACKET_SIZE); [|run; cbv beta iota; eexists; split; [reflexivity|done]].
  destruct (write func x (pmt_packet pm)) as [r x1]. destruct (Z.eqb_spec r 0) as [->|Hr].
  2: { run. apply Z.eqb_neq in Hr as E. rewrite E. run. eexists; split; [reflexivity|]. cbn [fst snd]. intros ->. done. }
  run. change (0 =? 0) with true. cbv iota.
  set (t1 := put_pmt _ _ _).
  assert (pmts (pat t1) = map bump (C ++ [pm]) ++ B) as Hp1.
  { unfold t1, put_pmt. cbn [pat pmts set_pat set_pmts set_payload]. rewrite Hp, map_app, <- app_assoc.
    rewrite insert_app_r_alt, length_map, Nat.sub_diag by (rewrite length_map; lia). done. }
  destruct (IH (C ++ [pm]) t1 x1) as (t' & E & Hm'); [done|done|done|].
  rewrite length_app, Nat.add_1_r in E. destruct (send func (map pmt_packet B) x1) as [[r n] x2].
  exists t'. split; [exact E|]. cbn [fst snd]. intros Hr. destruct (Hm' Hr) as (m & Hm1 & ->). exists m. split; [done|].
  rewrite <- app_assoc. done.
Qed.

(** The muxer after its tables. *)
Definition tables_sent t (d : Z) m : mpeg_ts_enc_context_t :=
  let sdt := sdt_period t =? 0 in
  Ts (Pat (tsid (pat t)) (pat_ver (pat t)) (((pat_cc (pat t) + if sdt then 1 else 0) mod 16 + 1) mod 16) (map bump (pmts (pat t))) (pmt_capacity (pat t)))
    (h26x_with_aud t) (if sdt then d else sdt_period t) d (pcr_period t) (pcr_clock t) 0 (pid t) m.

Lemma write_pat_ok t x : zlen (payload t) = 1024 → zlen (pmts (pat t)) ≤ 42 → is_uint 4 (pat_cc (pat t)) →
  ∃ m, zlen m = 1024 ∧ write_pat func t x =
    let '(r, n, x) := send func [section_packet TS_PID_PAT (pat_cc (pat t)) (section (pat_body (pat t)))] x in
    Ok (r, set_payload (set_pat t (set_pat_cc (pat t) ((pat_cc (pat t) + Z.of_nat n) mod 16))) m, x).
Proof.
  intros Hm Hp Hc. unfold write_pat. destruct (pat_write_ok (pat t) (payload t)) as (tail & -> & Ht); [done|done|]. run.
  rewrite write_section_ok by (done || (rewrite zlen_section, zlen_pat_body; lia)).
  exists (section (pat_body (pat t)) ++ tail). split; [done|]. by destruct (send func _ x) as [[r n] x'].
Qed.

Lemma write_sdt_ok t x : zlen (payload t) = 1024 → is_uint 4 (pat_cc (pat t)) →
  ∃ m, zlen m = 1024 ∧ write_sdt func t x =
    let '(r, n, x) := send func [section_packet TS_PID_SDT (pat_cc (pat t)) (section (sdt_body (pat t)))] x in
    Ok (r, set_payload (set_pat t (set_pat_cc (pat t) ((pat_cc (pat t) + Z.of_nat n) mod 16))) m, x).
Proof.
  intros Hm Hc. unfold write_sdt. destruct (sdt_write_ok (pat t) (payload t)) as (tail & -> & Ht); [done|]. run.
  rewrite write_section_ok by (done || (rewrite zlen_section, zlen_sdt_body; lia)).
  exists (section (sdt_body (pat t)) ++ tail). split; [done|]. by destruct (send func _ x) as [[r n] x'].
Qed.

(** One packet, sent whole. *)
Lemma send_one pkt x : (send func [pkt] x).1.1 = 0 → send func [pkt] x = (0, 1%nat, (send func [pkt] x).2).
Proof.
  cbn [send]. destruct (alloc func x TS_PACKET_SIZE); [|done]. destruct (write func x pkt) as [r x'].
  destruct (Z.eqb_spec r 0) as [->|]; cbn; [done|]. intros ->. done.
Qed.

Lemma mod16_uint v : is_uint 4 (v mod 16).
Proof. unfold is_uint. dlia. Qed.

Lemma write_programs_ok t x : zlen (payload t) = 1024 → zlen (pmts (pat t)) ≤ 42 → is_uint 4 (pat_cc (pat t)) → Forall pm_ok (pmts (pat t)) →
  let l := section_packet TS_PID_PAT (pat_cc (pat t)) (section (pat_body (pat t))) :: map pmt_packet (pmts (pat t)) in
  ∃ t', (let '(r, _, x') := send func l x in
      ('(r, t, x) ← write_pat func t x; if negb (0 =? r) then Ok (r, t, x) else write_pmts func t 0 (length (pmts (pat t))) x) = Ok (r, t', x')) ∧
    ((send func l x).1.1 = 0 → ∃ m, zlen m = 1024 ∧
      t' = set_payload (set_pat t (set_pmts (set_pat_cc (pat t) ((pat_cc (pat t) + 1) mod 16)) (map bump (pmts (pat t))))) m).
Proof.
  intros Hm Hp Hc Hok l. destruct (write_pat_ok t x) as (m & Hm1 & ->); [done..|].
  unfold l. set (pkt := section_packet TS_PID_PAT _ _).
  change (pkt :: map pmt_packet (pmts (pat t))) with ([pkt] ++ map pmt_packet (pmts (pat t))). rewrite send_app.
  destruct (send func [pkt] x) as [[r n] x1] eqn:E. destruct (Z.eqb_spec r 0) as [->|Hr].
  2: { run. rewrite (Z.eqb_sym 0 r). apply Z.eqb_neq in Hr as E0. rewrite E0. cbn [negb]. eexists. split; [reflexivity|done]. }
  pose proof (send_one _ x ltac:(by rewrite E)) as E1. rewrite E in E1. cbn [snd] in E1. injection E1 as ->.
  run. cbn [Z.eqb negb]. set (t1 := set_payload _ m).
  destruct (write_pmts_ok (pmts (pat t)) [] t1 x1) as (t' & E2 & Hm'); [done|done|done|]. cbn [length] in E2.
  destruct (send func (map pmt_packet (pmts (pat t))) x1) as [[r n'] x2]. exists t'. split; [exact E2|].
  cbn [fst]. intros Hr. destruct (Hm' Hr) as (m' & Hm2 & ->). exists m'. split; [done|]. done.
Qed.

Lemma write_tables_ok t d x : zlen (payload t) = 1024 → zlen (pmts (pat t)) ≤ 42 → is_uint 4 (pat_cc (pat t)) → Forall pm_ok (pmts (pat t)) →
  ∃ t', (let '(r, _, x') := send func (table_packets t) x in write_tables func t d x = Ok (r, t', x')) ∧
    ((send func (table_packets t) x).1.1 = 0 → ∃ m, zlen m = 1024 ∧ t' = tables_sent t d m).
Proof.
  intros Hm Hp Hc Hok. unfold write_tables, table_packets, tables_sent. cbn [sdt_period set_periods].
  rewrite (Z.eqb_sym 0 (sdt_period t)). destruct (sdt_period t =? 0).
  - set (t0 := set_periods _ d _ _ _).
    destruct (write_sdt_ok t0 x) as (m0 & Hm0 & ->); [done|done|].
    change (pat t0) with (pat t). set (pkt := section_packet TS_PID_SDT _ _). rewrite send_app.
    destruct (send func [pkt] x) as [[r n] x1] eqn:E. destruct (Z.eqb_spec r 0) as [->|Hr].
    2: { run. rewrite (Z.eqb_sym 0 r). apply Z.eqb_neq in Hr as E0. rewrite E0. cbn [negb]. eexists. split; [reflexivity|done]. }
    pose proof (send_one pkt x ltac:(by rewrite E)) as E1. rewrite E in E1. cbn [snd] in E1. injection E1 as ->.
    run. change (negb (0 =? 0)) with false. cbv iota. change (Z.of_nat 1) with 1.
    set (t1 := set_payload _ m0). destruct (write_programs_ok t1 x1) as (t' & E2 & Hm'); [done|done|apply mod16_uint|done|].
    change (pmts (pat t1)) with (pmts (pat t)) in *. change (pat_cc (pat t1)) with ((pat_cc (pat t) + 1) mod 16) in *.
    change (pat_body (pat t1)) with (pat_body (pat t)) in *. cbn [app].
    destruct (send func (_ :: _) x1) as [[r n'] x2]. exists t'. split; [exact E2|].
    cbn [fst]. intros Hr. destruct (Hm' Hr) as (m & Hm1 & ->). by exists m.
  - run. change (negb (0 =? 0)) with false. cbv iota. rewrite Z.add_0_r, (Z.mod_small (pat_cc (pat t)) 16) by exact Hc.
    set (t1 := set_periods _ _ _ _ _). destruct (write_programs_ok t1 x) as (t' & E2 & Hm'); [done|done|done|done|].
    change (pat t1) with (pat t) in *. cbn [app].
    destruct (send func (_ :: _) x) as [[r n'] x2]. exists t'. split; [exact E2|].
    cbn [fst]. intros Hr. destruct (Hm' Hr) as (m & Hm1 & ->). by exists m.
Qed.

Lemma send_all l x : (send func l x).1.1 = 0 → (send func l x).1.2 = length l.
Proof.
  revert x. induction l as [|pkt l IH]; intros x; [done|]. cbn [send].
  destruct (alloc func x TS_PACKET_SIZE); [|done]. destruct (write func x pkt) as [r x'].
  destruct (Z.eqb_spec r 0) as [->|Hr]; [|done]. specialize (IH x'). destruct (send func l x') as [[r n] x''].
  cbn [fst snd length] in *. intros E. by rewrite IH.
Qed.

End Mux.

(** A packet of the tables: a section with its checksum, on the PID of a table. *)
Definition table_packet t pkt : Prop := ∃ p cc body, pkt = section_packet p cc (section body) ∧ zlen (section body) ≤ 183 ∧ bytes_ok body ∧
  (p = TS_PID_PAT ∨ p = TS_PID_SDT ∨ ∃ k pm, pmts (pat t) !! k = Some pm ∧ p = pmt_pid pm).

(** The muxer [t'] after a frame of the [j]th stream of the [i]th program, which
    becomes [s']. *)
Record moved t t' (i j : nat) s' : Prop := {
  moved_stream i' j' : stream_at t' i' j' = if decide (i' = i ∧ j' = j) then Some s' else stream_at t i' j';
  moved_programs k : pmt_pid <$> (pmts (pat t') !! k) = pmt_pid <$> (pmts (pat t) !! k);
  moved_pid : pid t' = pid t;
  moved_clock : pcr_clock t ≤ pcr_clock t' ≤ pcr_clock t + 1
}.

Lemma stream_at_put t i j pm s i' j' : (i < length (pmts (pat t)))%nat → (j < length (streams pm))%nat →
  stream_at (put_stream t i j pm s) i' j' =
  if decide (i' = i ∧ j' = j) then Some s else if decide (i' = i) then streams pm !! j' else stream_at t i' j'.
Proof.
  intros Hi Hj. unfold stream_at, put_stream, put_pmt. cbn [pat pmts set_pat set_pmts].
  destruct (decide (i' = i)) as [->|Hne].
  - rewrite list_lookup_insert_eq by done. cbn [streams set_streams].
    destruct (decide (j' = j)) as [->|Hj'].
    + rewrite list_lookup_insert_eq by done. by destruct (decide (i = i ∧ j = j)) as [|[]].
    + rewrite list_lookup_insert_ne by done. by destruct (decide (i = i ∧ j' = j)) as [[]|].
  - rewrite list_lookup_insert_ne by done. by destruct (decide (i' = i ∧ j' = j)) as [[]|].
Qed.

(** The invariant of the tables, without the streams' PIDs. *)
Record tables_ok t : Prop := {
  t_payload : zlen (payload t) = 1024;
  t_few : zlen (pmts (pat t)) ≤ 42;
  t_cc : is_uint 4 (pat_cc (pat t));
  t_programs : Forall pm_ok (pmts (pat t));
  t_cycle : 0 ≤ pat_cycle t ≤ 50;
  t_period : - 2 ^ 62 < pat_period t < 2 ^ 62;
  t_clock : 0 ≤ pcr_clock t
}.

Lemma ts_tables_ok t : ts_ok t → tables_ok t.
Proof. intros []. constructor; done || lia. Qed.

Lemma ts_ok_moved t t' i j s s' : ts_ok t → tables_ok t' → pat_cycle t' < 50 → stream_at t i j = Some s → es_pid s' = es_pid s → moved t t' i j s' → ts_ok t'.
Proof.
  intros Ht [] Hcy Hs Hp [Hm1 Hm2 Hm3 Hm4].
  assert (∀ i1 j1 s1, stream_at t' i1 j1 = Some s1 → ∃ s0, stream_at t i1 j1 = Some s0 ∧ es_pid s0 = es_pid s1) as Hold.
  { intros i1 j1 s1. rewrite Hm1. destruct (decide _) as [[-> ->]|]; [|eauto]. intros [= <-]. eauto. }
  assert (∀ k pm, pmts (pat t') !! k = Some pm → ∃ pm0, pmts (pat t) !! k = Some pm0 ∧ pmt_pid pm0 = pmt_pid pm) as Hpm.
  { intros k pm Hk. specialize (Hm2 k). rewrite Hk in Hm2. cbn in Hm2. destruct (pmts (pat t) !! k) as [pm0|]; [|done]. injection Hm2 as ->. eauto. }
  pose proof (pids_low _ Ht). constructor; try (done || lia).
  - intros i1 j1 i2 j2 s1 s2 (? & H1 & E1)%Hold (? & H2 & E2)%Hold E. eapply (pids_unique _ Ht); [done|done|congruence].
  - intros i1 j1 s1 k pm (? & H1 & <-)%Hold (? & H2 & <-)%Hpm. by eapply (pids_apart _ Ht).
  - intros i1 j1 s1 (? & H1 & <-)%Hold. rewrite Hm3. by eapply (pids_free _ Ht).
  - intros k pm (? & H2 & <-)%Hpm. rewrite Hm3. by eapply (pmt_pids_free _ Ht).
Qed.

Lemma table_packets_ok t t0 : tables_ok t → (∀ k pm, pmts (pat t) !! k = Some pm → ∃ pm0, pmts (pat t0) !! k = Some pm0 ∧ pmt_pid pm0 = pmt_pid pm) →
  Forall (table_packet t0) (table_packets t).
Proof.
  intros Ht Hk. unfold table_packets. rewrite !Forall_app. pose proof (t_few _ Ht). split; [|split].
  - destruct (sdt_period t =? 0); [|constructor]. apply Forall_cons_2; [|constructor]. eexists _, _, _. split; [done|].
    rewrite zlen_section, zlen_sdt_body. split; [lia|]. split; [apply bytes_ok_sdt_body|auto].
  - apply Forall_cons_2; [|constructor]. eexists _, _, _. split; [done|].
    rewrite zlen_section, zlen_pat_body. split; [lia|]. split; [apply bytes_ok_pat_body|auto].
  - apply Forall_map, Forall_lookup. intros k pm Hpm. pose proof (proj1 (Forall_lookup _ _) (t_programs _ Ht) _ _ Hpm) as Hok.
    destruct (Hk _ _ Hpm) as (pm0 & H0 & E0). unfold compose, pmt_packet. eexists _, _, _. split; [done|].
    rewrite zlen_section, zlen_pmt_body. pose proof (zlen_entries (streams pm)). pose proof (streams_few _ Hok).
    split; [lia|]. split; [by apply bytes_ok_pmt_body|]. right; right. by exists k, pm0.
Qed.

Lemma pm_ok_stream pm j s : pm_ok pm → es_ok s → pm_ok (set_streams pm (<[j := s]> (streams pm))).
Proof.
  intros [] Hs. constructor; try done; cbn [streams set_streams].
  - unfold zlen in *. by rewrite length_insert.
  - by apply Forall_insert.
Qed.
Lemma pm_ok_bump pm : pm_ok pm → pm_ok (bump pm).
Proof. intros []. constructor; try done. apply mod16_uint. Qed.

(** The tables keep what the muxer needs. *)
Lemma tables_sent_ok t d m : tables_ok t → zlen m = 1024 → - 2 ^ 62 < d < 2 ^ 62 → tables_ok (tables_sent t d m).
Proof.
  intros [] Hm Hd. constructor; cbn [tables_sent payload pat pmts pat_cc pat_cycle pat_period pcr_clock]; try (done || lia).
  - unfold zlen in *. by rewrite length_map.
  - apply mod16_uint.
  - apply Forall_map. eapply list.Forall_impl; [done|]. intros pm. apply pm_ok_bump.
Qed.

Lemma tables_sent_lookup t d m k : pmts (pat (tables_sent t d m)) !! k = bump <$> (pmts (pat t) !! k).
Proof. apply list_lookup_fmap. Qed.

Lemma es_ok_times s align p d : es_ok s → es_ok (set_times s align p d).
Proof. by intros []. Qed.
Lemma es_ok_cc s v : es_ok s → es_ok (set_cc s (v mod 16)).
Proof. intros []. constructor; try done. apply mod16_uint. Qed.

Lemma put_stream_ok t i j pm s : tables_ok t → pm_ok pm → es_ok s → tables_ok (put_stream t i j pm s).
Proof.
  intros [] Hi Hs. constructor; cbn [put_stream put_pmt set_pat set_pmts payload pat pmts pat_cc pat_cycle pat_period pcr_clock]; try done.
  - unfold zlen in *. by rewrite length_insert.
  - apply Forall_insert; [done|]. by apply pm_ok_stream.
Qed.

(** The frame [data] of the stream [s], with its times, as [mpeg_ts_write] takes it. *)
Definition timed_stream s (flags p d : Z) : pes_t := set_times s (if truth (Z.land flags MPEG_FLAG_IDR_FRAME) then 1 else 0) p d.
Definition with_delimiter (flags : Z) : bool := truth (Z.land flags MPEG_FLAG_H264_H265_WITH_AUD).
Definition time_ok (v : Z) : Prop := - 2 ^ 53 < v < 2 ^ 53.

Lemma clock_ok_timed s flags p d : time_ok p → time_ok d → clock_ok (timed_stream s flags p d).
Proof. unfold time_ok, clock_ok, pcr_of, timed_stream. cbn [pts dts set_times]. intros. destruct (_ =? d); lia. Qed.

(** Whether the program takes its clock from the stream from now on. *)
Definition takes_clock pm s : bool :=
  (0x1FFF =? PCR_PID pm) || ((PES_SID_VIDEO =? Z.land (sid s) PES_SID_VIDEO) && negb (PCR_PID pm =? es_pid s)).
Definition with_clock pm s : pmt_t := if takes_clock pm s then set_PCR_PID pm (es_pid s) else pm.

Lemma with_clock_streams pm s : streams (with_clock pm s) = streams pm.
Proof. unfold with_clock. by destruct (takes_clock pm s). Qed.
Lemma with_clock_pid pm s : pmt_pid (with_clock pm s) = pmt_pid pm.
Proof. unfold with_clock. by destruct (takes_clock pm s). Qed.
Lemma with_clock_ok pm s : pm_ok pm → pm_ok (with_clock pm s).
Proof. unfold with_clock. destruct (takes_clock pm s); [by intros []|done]. Qed.

(** The state a frame finds: its stream is stored, the clock and the cycle have
    advanced, the program has a clock. *)
Definition readied t (i j : nat) pm s (flags p d : Z) (clock cycle : Z) : mpeg_ts_enc_context_t :=
  let t := set_aud t (with_delimiter flags) in
  let t := if takes_clock pm s then set_periods t (sdt_period t) 0 (pcr_clock t) 0 else t in
  put_stream (set_periods t (sdt_period t) (pat_period t) clock cycle) i j (with_clock pm s) (timed_stream s flags p d).

(** What a step of the muxer keeps, of where the streams are. *)
Definition same_programs t t' : Prop := ∀ k, pmt_pid <$> (pmts (pat t') !! k) = pmt_pid <$> (pmts (pat t) !! k).

Lemma same_programs_length t t' : same_programs t t' → zlen (pmts (pat t')) = zlen (pmts (pat t)).
Proof.
  intros H. assert (pmt_pid <$> pmts (pat t') = pmt_pid <$> pmts (pat t)) as E by (apply list_eq; intros k; rewrite !list_lookup_fmap; apply H).
  apply (f_equal length) in E. rewrite !length_fmap in E. unfold zlen. lia.
Qed.
Lemma zlen_table_packets t : zlen (table_packets t) ≤ 2 + zlen (pmts (pat t)).
Proof. unfold table_packets, zlen. rewrite !length_app, length_map. destruct (sdt_period t =? 0); cbn [length]; lia. Qed.

Section Readied.
Context (t : mpeg_ts_enc_context_t) (i j : nat) (pm : pmt_t) (s : pes_t) (flags p d clock cycle : Z).
Hypotheses (Ht : ts_ok t) (Hi : pmts (pat t) !! i = Some pm) (Hj : streams pm !! j = Some s).
Local Abbreviation t1 := (readied t i j pm s flags p d clock cycle).

Lemma readied_pmts : pmts (pat t1) = <[i := set_streams (with_clock pm s) (<[j := timed_stream s flags p d]> (streams (with_clock pm s)))]> (pmts (pat t)).
Proof. unfold readied. by destruct (takes_clock pm s). Qed.

Lemma readied_program : ∃ pm1, pmts (pat t1) !! i = Some pm1 ∧ PCR_PID pm1 = PCR_PID (with_clock pm s) ∧ (j < length (streams pm1))%nat.
Proof.
  rewrite readied_pmts. eexists. split; [apply list_lookup_insert_eq; by eapply lookup_lt_Some|]. split; [done|].
  cbn [streams set_streams]. rewrite length_insert, with_clock_streams. by eapply lookup_lt_Some.
Qed.

Lemma readied_stream i' j' : stream_at t1 i' j' = if decide (i' = i ∧ j' = j) then Some (timed_stream s flags p d) else stream_at t i' j'.
Proof.
  unfold readied. set (t0 := set_periods _ _ _ _ _). assert (pmts (pat t0) = pmts (pat t)) as Hp by (unfold t0; by destruct (takes_clock pm s)).
  rewrite stream_at_put by (rewrite ?Hp, ?with_clock_streams; by eapply lookup_lt_Some).
  destruct (decide (i' = i ∧ j' = j)); [done|]. destruct (decide (i' = i)) as [->|]; unfold stream_at; [by rewrite Hi, with_clock_streams|by rewrite Hp].
Qed.

Lemma readied_same : same_programs t t1.
Proof.
  intros k. rewrite readied_pmts. destruct (decide (k = i)) as [->|].
  - rewrite list_lookup_insert_eq, Hi by (by eapply lookup_lt_Some). cbn. by rewrite with_clock_pid.
  - by rewrite list_lookup_insert_ne.
Qed.

Lemma readied_fields : h26x_with_aud t1 = with_delimiter flags ∧ pid t1 = pid t ∧ pcr_clock t1 = clock ∧ pat_cycle t1 = cycle.
Proof. unfold readied. by destruct (takes_clock pm s). Qed.

Lemma readied_ok : 0 ≤ clock → 0 ≤ cycle ≤ 50 → tables_ok t1.
Proof.
  intros Hc Hcy. pose proof (ts_tables_ok _ Ht) as []. pose proof (proj1 (Forall_lookup _ _) t_programs0 _ _ Hi) as Hok.
  unfold readied. apply put_stream_ok.
  - by destruct (takes_clock pm s); constructor; cbn [set_periods set_aud payload pat pat_cycle pat_period pcr_clock].
  - by apply with_clock_ok.
  - apply es_ok_times. eapply (proj1 (Forall_lookup _ _) (streams_ok _ Hok)); exact Hj.
Qed.
End Readied.

Section Write.
Context {A : Type} (func : mpeg_ts_func_t A) (Hblocks : blocks_ok func).

(** The end of [mpeg_ts_write]: the tables when they are due, then the frame. *)
Definition write_readied t (i j : nat) s (flags d : Z) (due : bool) (data : list Z) (x : A) : outcome (Z * mpeg_ts_enc_context_t * A) :=
  '(r, t, x) ← (if due then write_tables func t d x else Ok (0, t, x));
  if negb (0 =? r) then Ok (r, t, x) else
  match pmts (pat t) !! i with
  | Some pm =>
      '(r, s, x) ← ts_write_pes func (h26x_with_aud t) (PCR_PID pm) s data (zlen data) x;
      Ok (r, put_stream t i j pm s, x)
  | None => Ub
  end.

Lemma mpeg_ts_write_readied t p flags pp d data x i j pm s :
  ts_ok t → mpeg_ts_find t p = Some (i, j, pm, s) → time_ok d → pcr_clock t < 2 ^ 62 →
  ∃ clock cycle due, pcr_clock t ≤ clock ≤ pcr_clock t + 1 ∧ 0 ≤ cycle ≤ 50 ∧ (due = false → cycle < 50) ∧ (pat_period t = 0 → due = true) ∧
    mpeg_ts_write func t p flags pp d data (zlen data) x
    = write_readied (readied t i j pm s flags pp d clock cycle) i j (timed_stream s flags pp d) flags d due data x.
Proof.
  intros Ht Hf Hd Hc. unfold mpeg_ts_write. rewrite Hf. cbv zeta.
  pose proof (clock_nonneg _ Ht). pose proof (cycle_ok _ Ht). pose proof (period_ok _ Ht).
  repeat match goal with |- context [(0x1FFF =? PCR_PID pm) || ?b] => change ((0x1FFF =? PCR_PID pm) || b) with (takes_clock pm s) end.
  unfold readied, with_clock, timed_stream, with_delimiter.
  set (t0 := if takes_clock pm s then set_periods _ _ _ _ _ else _).
  assert (pcr_clock t0 = pcr_clock t ∧ 0 ≤ pat_cycle t0 < 50 ∧ - 2 ^ 62 < pat_period t0 < 2 ^ 62) as (Ec & Hcy & Hp).
  { unfold t0. destruct (takes_clock pm s); cbn [pcr_clock pat_cycle pat_period set_periods set_aud]; repeat split; lia. }
  rewrite Ec. match goal with |- context [if ?b then int64 _ else _] => set (own := b) end.
  exists (if own then pcr_clock t + 1 else pcr_clock t), (pat_cycle t0 + 1).
  rewrite int64_ok by lia. replace (if own then Ok _ else Ok _) with (Ok (if own then pcr_clock t + 1 else pcr_clock t)) by (by destruct own).
  run. rewrite int_ok by lia. run.
  repeat match goal with |- context [pat_period (put_stream ?a ?b ?c ?e ?f)] => change (pat_period (put_stream a b c e f)) with (pat_period t0) end.
  destruct ((0 =? Z.rem (pat_cycle t0 + 1) PAT_CYCLE) || (0 =? pat_period t0)) eqn:E.
  - run. exists true. split; [destruct own; lia|]. split; [lia|]. split; [done|]. split; [done|reflexivity].
  - run. rewrite int64_ok by (unfold PAT_PERIOD; lia). run. eexists. split; [destruct own; lia|]. split; [lia|]. split; [|split; [|reflexivity]].
    + intros _. destruct (Z.eq_dec (pat_cycle t0 + 1) 50) as [E50|]; [|lia]. rewrite E50 in E. done.
    + intros Hz. assert (pat_period t0 = 0) as Ez by (unfold t0; by destruct (takes_clock pm s)). by rewrite Ez, orb_true_r in E.
Qed.

Lemma fmap_same_some t t' i pm : same_programs t t' → pmts (pat t') !! i = Some pm →
  ∃ pm0, pmts (pat t) !! i = Some pm0 ∧ pmt_pid pm0 = pmt_pid pm.
Proof.
  intros Hs Hi. specialize (Hs i). rewrite Hi in Hs. cbn in Hs.
  destruct (pmts (pat t) !! i) as [pm0|]; [|done]. injection Hs as ->. eauto.
Qed.

(** The tables, when they are due, then the frame; [t1] is the state before. *)
Lemma write_readied_ok t1 i j s1 flags d (due : bool) data x pm1 :
  tables_ok t1 → pmts (pat t1) !! i = Some pm1 → (j < length (streams pm1))%nat → es_ok s1 → clock_ok s1 → time_ok d →
  zlen data < 2 ^ 31 →
  let frame := frame_packets (h26x_with_aud t1) (PCR_PID pm1) s1 data in
  let pkts := (if due then table_packets t1 else []) ++ frame in
  ∃ t', (let '(r, _, x') := send func pkts x in write_readied t1 i j s1 flags d due data x = Ok (r, t', x')) ∧
    ((send func pkts x).1.1 = 0 →
      let s2 := set_cc s1 ((es_cc s1 + Z.of_nat (length frame)) mod 16) in
      ∃ t2 pm2, tables_ok t2 ∧ pmts (pat t2) !! i = Some pm2 ∧ streams pm2 = streams pm1 ∧ t' = put_stream t2 i j pm2 s2 ∧
        same_programs t1 t2 ∧ (∀ i' j', stream_at t2 i' j' = stream_at t1 i' j') ∧
        pid t2 = pid t1 ∧ pcr_clock t2 = pcr_clock t1 ∧ pat_cycle t2 = (if due then 0 else pat_cycle t1)).
Proof.
  intros Ht Hi Hj Hs Hk Hd Hdata frame pkts. unfold write_readied, pkts. rewrite send_app.
  assert (∀ t2 pm2 x1, pmts (pat t2) !! i = Some pm2 → PCR_PID pm2 = PCR_PID pm1 → h26x_with_aud t2 = h26x_with_aud t1 →
    (match pmts (pat t2) !! i with
     | Some pm => '(r, s, x) ← ts_write_pes func (h26x_with_aud t2) (PCR_PID pm) s1 data (zlen data) x1; Ok (r, put_stream t2 i j pm s, x)
     | None => Ub end) = let '(r, n, x2) := send func frame x1 in Ok (r, put_stream t2 i j pm2 (set_cc s1 ((es_cc s1 + Z.of_nat n) mod 16)), x2)) as Hframe.
  { intros t2 pm2 x1 E2 Ep Ew. rewrite E2, Ep, Ew. rewrite (ts_write_pes_ok func Hblocks) by (done || apply Hs). unfold advanced. fold frame.
    by destruct (send func frame x1) as [[r n] x2]. }
  destruct due.
  - destruct (write_tables_ok func Hblocks t1 d x) as (t2 & E & Hm); [apply Ht..|].
    destruct (send func (table_packets t1) x) as [[r n] x1]. rewrite E. run. rewrite (Z.eqb_sym 0 r). destruct (Z.eqb_spec r 0) as [->|Hr]; cbn [negb].
    2: { eexists. split; [reflexivity|done]. }
    destruct (Hm eq_refl) as (m & Hm1 & ->).
    rewrite (Hframe _ (bump pm1)) by (done || (rewrite tables_sent_lookup, Hi; done)).
    pose proof (send_all func frame x1) as Hall. destruct (send func frame x1) as [[r n'] x2]. eexists. split; [reflexivity|].
    cbn [fst snd] in *. intros Hr. rewrite <- (Hall Hr). exists (tables_sent t1 d m), (bump pm1).
    split_and!; try done.
    + apply tables_sent_ok; [done|done|unfold time_ok in Hd; lia].
    + by rewrite tables_sent_lookup, Hi.
    + intros k. rewrite tables_sent_lookup. by destruct (pmts (pat t1) !! k).
    + intros i' j'. unfold stream_at. rewrite tables_sent_lookup. by destruct (pmts (pat t1) !! i').
  - run. change (0 =? 0) with true. cbn [negb send]. change (0 =? 0) with true. cbv iota.
    rewrite (Hframe t1 pm1) by done.
    pose proof (send_all func frame x) as Hall. destruct (send func frame x) as [[r n'] x2]. eexists. split; [reflexivity|].
    cbn [fst snd] in *. intros Hr. rewrite <- (Hall Hr). exists t1, pm1. by split_and!.
Qed.

(** The tables tell of the programs of [t] and their streams. *)
Definition announced t tables : Prop :=
  ∃ t1, tables = table_packets t1 ∧ same_programs t t1 ∧
    ∀ i j s, stream_at t i j = Some s → ∃ s1, stream_at t1 i j = Some s1 ∧ es_pid s1 = es_pid s ∧ es_codecid s1 = es_codecid s.

(** What a frame sends, and the muxer after it. *)
Lemma mpeg_ts_write_ok t i j s flags p d data x :
  ts_ok t → stream_at t i j = Some s → time_ok p → time_ok d → pcr_clock t < 2 ^ 62 → zlen data < 2 ^ 31 →
  let s1 := timed_stream s flags p d in
  ∃ tables pcr_pid, let frame := frame_packets (with_delimiter flags) pcr_pid s1 data in
    Forall (table_packet t) tables ∧ zlen tables ≤ 2 + zlen (pmts (pat t)) ∧ (pat_period t = 0 → announced t tables) ∧
    ∃ t', (let '(r, _, x') := send func (tables ++ frame) x in mpeg_ts_write func t (es_pid s) flags p d data (zlen data) x = Ok (r, t', x')) ∧
      ((send func (tables ++ frame) x).1.1 = 0 →
        ts_ok t' ∧ moved t t' i j (set_cc s1 ((es_cc s + Z.of_nat (length frame)) mod 16))).
Proof.
  intros Ht Hs Hp Hd Hc Hdata s1.
  destruct (mpeg_ts_find_complete t i j s Ht Hs) as (pm & Hf & Hi & Hj).
  destruct (mpeg_ts_write_readied t (es_pid s) flags p d data x i j pm s) as (clock & cycle & due & Hclock & Hcycle & Hdue & Hfirst & ->); [done..|].
  pose proof (clock_nonneg _ Ht) as Hc0.
  pose proof (readied_ok t i j pm s flags p d clock cycle Ht Hi Hj ltac:(lia) Hcycle) as Hok1.
  pose proof (readied_stream t i j pm s flags p d clock cycle Hi Hj) as Hstream.
  pose proof (readied_same t i j pm s flags p d clock cycle Hi) as Hsame.
  destruct (readied_program t i j pm s flags p d clock cycle Hi Hj) as (pm1 & Hi1 & Hpcr & Hj1).
  destruct (readied_fields t i j pm s flags p d clock cycle) as (Hw & Hpid & Hclk & Hcyc).
  set (t1 := readied t i j pm s flags p d clock cycle) in *.
  pose proof (stream_ok _ _ _ _ Ht Hs) as Hes.
  destruct (write_readied_ok t1 i j s1 flags d due data x pm1) as (t' & E & Hafter);
    [done|done|done|by apply es_ok_times|by apply clock_ok_timed|done|done|]. rewrite Hw in *.
  exists (if due then table_packets t1 else []), (PCR_PID pm1). split.
  { destruct due; [|constructor]. apply table_packets_ok; [done|]. intros k pmk Hk. by eapply fmap_same_some. }
  split.
  { rewrite <- (same_programs_length _ _ Hsame). destruct due; [apply zlen_table_packets|]. change (zlen []) with 0. pose proof (zlen_nonneg (pmts (pat t1))). lia. }
  split.
  { intros Hz. rewrite (Hfirst Hz). exists t1. split_and!; [done|done|]. intros i' j' s' Hs'. rewrite Hstream.
    destruct (decide (i' = i ∧ j' = j)) as [[-> ->]|]; [|by exists s']. exists s1. rewrite Hs in Hs'. by injection Hs' as <-. }
  exists t'. split; [exact E|]. intros Hr. destruct (Hafter Hr) as (t2 & pm2 & Hok2 & Hi2 & Hst2 & -> & Hsame2 & Hs2 & Hpid2 & Hclk2 & Hcyc2). clear E Hafter.
  cbn [es_cc timed_stream set_times s1] in *. set (s2 := set_cc s1 _) in *.
  assert (es_ok s2) as Hes2 by (apply es_ok_cc; by apply es_ok_times).
  assert (moved t (put_stream t2 i j pm2 s2) i j s2) as Hmoved.
  { constructor.
    - intros i' j'. rewrite stream_at_put by (rewrite ?Hst2; done || by eapply lookup_lt_Some).
      destruct (decide (i' = i ∧ j' = j)) as [|Hne]; [done|]. destruct (decide (i' = i)) as [->|].
      + rewrite Hst2. specialize (Hstream i j'). destruct (decide (i = i ∧ j' = j)); [done|].
        rewrite <- Hstream. unfold stream_at. by rewrite Hi1.
      + rewrite Hs2, Hstream. by destruct (decide (i' = i ∧ j' = j)).
    - intros k. rewrite <- (Hsame k), <- (Hsame2 k). unfold put_stream, put_pmt. cbn [pat pmts set_pat set_pmts].
      destruct (decide (k = i)) as [->|]; [|by rewrite list_lookup_insert_ne].
      rewrite list_lookup_insert_eq by (by eapply lookup_lt_Some). by rewrite Hi2.
    - cbn [put_stream put_pmt set_pat pid]. congruence.
    - cbn [put_stream put_pmt set_pat pcr_clock]. lia. }
  split; [|done]. apply (ts_ok_moved t _ i j s s2); [exact Ht| | |exact Hs|reflexivity|exact Hmoved].
  - apply put_stream_ok; [done| |done]. by eapply (proj1 (Forall_lookup _ _) (t_programs _ Hok2)).
  - cbn [put_stream put_pmt set_pat pat_cycle]. rewrite Hcyc2. destruct due; [lia|]. rewrite Hcyc. by apply Hdue.
Qed.
End Write.
