(* ===== verification/MpegTsWf.v ===== *)
(** Every operation of the muxer keeps its invariant, and none has undefined
    behaviour, whatever the program calls. *)
From S2P Require Import Prelude MpegCrc32 MpegPes MpegTs MpegTsSpec MpegTsMux.

Implicit Types (t : mpeg_ts_enc_context_t) (pm : pmt_t) (s : pes_t) (pkt l : list Z).

(** * Operations on the tables *)

Lemma ts_ok_reset t : ts_ok t → ts_ok (mpeg_ts_reset t).
Proof. intros []. constructor; cbn [mpeg_ts_reset payload pat pat_cycle pat_period pcr_clock pid]; done || lia. Qed.

Lemma ts_ok_create t : mpeg_ts_create true = Some t → ts_ok t.
Proof.
  intros [= <-]. constructor; cbn [set_pid set_pat mpeg_ts_reset payload pat pmts pat_cc pat_cycle pat_period pcr_clock pid]; try done.
Qed.

(** More PIDs given out. *)
Lemma ts_ok_pid t v : ts_ok t → pid t ≤ v → ts_ok (set_pid t v).
Proof.
  intros Ht Hv. constructor; cbn [set_pid pid payload pat pat_cycle pat_period pcr_clock]; try apply Ht.
  - pose proof (pids_low _ Ht). lia.
  - intros i j s Hs. pose proof (pids_free _ Ht i j s Hs). lia.
  - intros k pm Hk. pose proof (pmt_pids_free _ Ht k pm Hk). lia.
Qed.

(** A longer array of programs. *)
Lemma ts_ok_capacity t p : ts_ok t → pmts p = pmts (pat t) → pat_cc p = pat_cc (pat t) → ts_ok (set_pat t p).
Proof.
  intros Ht Hp Hc.
  assert (∀ i j, stream_at (set_pat t p) i j = stream_at t i j) as E by (intros; unfold stream_at; cbn [set_pat pat]; by rewrite Hp).
  constructor; cbn [set_pat payload pat pat_cycle pat_period pcr_clock pid]; rewrite ?Hp, ?Hc; try apply Ht; intros *; rewrite ?E; apply Ht.
Qed.

Lemma pat_alloc_pmt_ok realloc p p' : pat_alloc_pmt realloc p = Some p' → pmts p' = pmts p ∧ pat_cc p' = pat_cc p.
Proof. unfold pat_alloc_pmt. intros H. repeat (case_match; try done). all: by injection H as <-. Qed.

(** A program without streams is added. *)
Lemma stream_at_snoc t pm i j s : streams pm = [] →
  stream_at (set_pat t (set_pmts (pat t) (pmts (pat t) ++ [pm]))) i j = Some s → stream_at t i j = Some s.
Proof.
  intros Hpm. unfold stream_at. cbn [set_pat pat set_pmts pmts].
  destruct (decide (i < length (pmts (pat t)))%nat) as [Hi|Hi]; [by rewrite lookup_app_l|].
  rewrite lookup_app_r by lia. destruct (i - _)%nat; cbn; [by rewrite Hpm|done].
Qed.

Lemma ts_ok_new_program t pm : ts_ok t → pm_ok pm → streams pm = [] → zlen (pmts (pat t)) < 42 → pmt_pid pm = pid t →
  ts_ok (set_pid (set_pat t (set_pmts (pat t) (pmts (pat t) ++ [pm]))) (pid t + 1)).
Proof.
  intros Ht Hpm Hs Hn Hp. pose proof (pids_low _ Ht) as Hlow. set (t1 := set_pat _ _).
  assert (∀ k pm', pmts (pat t1) !! k = Some pm' → pmts (pat t) !! k = Some pm' ∨ pm' = pm) as Hk.
  { intros k pm' H. apply lookup_app_Some in H as [H|[_ H]]; [by left|]. destruct (k - _)%nat; [by injection H as <-; right|done]. }
  assert (∀ i j s, stream_at (set_pid t1 (pid t + 1)) i j = Some s → stream_at t i j = Some s) as Hst by (intros *; by apply stream_at_snoc).
  constructor; cbn [set_pid t1 set_pat set_pmts payload pat pmts pat_cc pat_cycle pat_period pcr_clock pid]; try apply Ht; try lia.
  - rewrite zlen_app. change (zlen [pm]) with 1. lia.
  - apply Forall_app. split; [apply Ht|]. by apply Forall_singleton.
  - intros i j i' j' s s' H1%Hst H2%Hst. by apply (pids_unique _ Ht).
  - intros i j s k pm' H1%Hst H2. apply Hk in H2 as [H2| ->]; [by eapply (pids_apart _ Ht)|].
    pose proof (pids_free _ Ht _ _ _ H1). lia.
  - intros i j s H1%Hst. pose proof (pids_free _ Ht _ _ _ H1). lia.
  - intros k pm' H2. apply Hk in H2 as [H2| ->]; [pose proof (pmt_pids_free _ Ht _ _ H2)|]; lia.
Qed.

(** A stream is added to a program. *)
Definition with_stream pm s v : pmt_t := set_ver (set_streams pm (streams pm ++ [s])) v.

Lemma stream_at_with_stream t i pm s v i' j' s' : pmts (pat t) !! i = Some pm →
  stream_at (put_pmt t i (with_stream pm s v)) i' j' = Some s' →
  stream_at t i' j' = Some s' ∨ (i' = i ∧ j' = length (streams pm) ∧ s' = s).
Proof.
  intros Hi. unfold stream_at, put_pmt. cbn [set_pat pat set_pmts pmts].
  destruct (decide (i' = i)) as [->|]; [|rewrite list_lookup_insert_ne by done; by left].
  rewrite list_lookup_insert_eq, Hi by (by eapply lookup_lt_Some). cbn [with_stream set_ver set_streams streams].
  intros [H|[Hj H]]%lookup_app_Some; [by left|right].
  destruct (j' - length (streams pm))%nat eqn:E; [|done]. injection H as <-. split_and!; [done|lia|done].
Qed.

Lemma put_pmt_pids t i pm pm' k pmk : pmts (pat t) !! i = Some pm → pmt_pid pm' = pmt_pid pm →
  pmts (pat (put_pmt t i pm')) !! k = Some pmk → ∃ pm0, pmts (pat t) !! k = Some pm0 ∧ pmt_pid pm0 = pmt_pid pmk.
Proof.
  intros Hi Hp. unfold put_pmt. cbn [set_pat pat set_pmts pmts].
  destruct (decide (k = i)) as [->|]; [|rewrite list_lookup_insert_ne by done; eauto].
  rewrite list_lookup_insert_eq by (by eapply lookup_lt_Some). intros [= <-]. eauto.
Qed.

Lemma ts_ok_new_stream t i pm s v : ts_ok t → pmts (pat t) !! i = Some pm → es_ok s → es_pid s = pid t → zlen (streams pm) < 4 →
  ts_ok (set_pid (put_pmt t i (with_stream pm s v)) (pid t + 1)).
Proof.
  intros Ht Hi Hs Hp Hn. pose proof (pids_low _ Ht) as Hlow. set (t1 := put_pmt _ _ _).
  pose proof (proj1 (Forall_lookup _ _) (programs_ok _ Ht) _ _ Hi) as Hpm.
  assert (∀ i j s0, stream_at (set_pid t1 (pid t + 1)) i j = Some s0 → stream_at t i j = Some s0 ∨ _) as Hst by (intros *; by apply stream_at_with_stream).
  assert (∀ k pmk, pmts (pat (set_pid t1 (pid t + 1))) !! k = Some pmk → ∃ pm0, pmts (pat t) !! k = Some pm0 ∧ pmt_pid pm0 = pmt_pid pmk) as Hk
    by (intros *; by eapply put_pmt_pids).
  constructor; cbn [set_pid t1 put_pmt set_pat set_pmts payload pat pat_cc pat_cycle pat_period pcr_clock pid] in *; try apply Ht; try lia.
  - cbn [set_pmts pmts]. unfold zlen. rewrite length_insert. apply (programs_few _ Ht).
  - cbn [set_pmts pmts]. apply Forall_insert; [apply Ht|]. destruct Hpm. constructor; try done; cbn [with_stream set_ver set_streams streams].
    + rewrite zlen_app. change (zlen [s]) with 1. lia.
    + apply Forall_app. split; [done|]. by apply Forall_singleton.
  - intros i1 j1 i2 j2 s1 s2 [H1|(-> & -> & ->)]%Hst [H2|(-> & -> & ->)]%Hst E; try done.
    + by eapply (pids_unique _ Ht).
    + pose proof (pids_free _ Ht _ _ _ H1). lia.
    + pose proof (pids_free _ Ht _ _ _ H2). lia.
  - intros i1 j1 s1 k pmk [H1|(-> & -> & ->)]%Hst (pm0 & H2 & <-)%Hk; [by eapply (pids_apart _ Ht)|].
    pose proof (pmt_pids_free _ Ht _ _ H2). lia.
  - intros i1 j1 s1 [H1|(-> & -> & ->)]%Hst; [|lia]. pose proof (pids_free _ Ht _ _ _ H1). lia.
  - intros k pmk (pm0 & H2 & <-)%Hk. pose proof (pmt_pids_free _ Ht _ _ H2). lia.
Qed.

(** A program is removed. *)
Definition skip (n k : nat) : nat := if decide (k < n)%nat then k else S k.
Lemma lookup_delete_skip {X} (l : list X) n k : delete n l !! k = l !! skip n k.
Proof. unfold skip. destruct (decide (k < n)%nat); [by apply list.list_lookup_delete_lt|apply list.list_lookup_delete_ge; lia]. Qed.
Lemma skip_inj n k k' : skip n k = skip n k' → k = k'.
Proof. unfold skip. destruct (decide (k < n)%nat), (decide (k' < n)%nat); lia. Qed.

Lemma ts_ok_delete t n : ts_ok t → ts_ok (set_pat t (set_pmts (pat t) (delete n (pmts (pat t))))).
Proof.
  intros Ht. set (t1 := set_pat _ _).
  assert (∀ i j, stream_at t1 i j = stream_at t (skip n i) j) as E by (intros; unfold stream_at; cbn [t1 set_pat pat set_pmts pmts]; by rewrite lookup_delete_skip).
  assert (∀ k, pmts (pat t1) !! k = pmts (pat t) !! skip n k) as Ek by (intros; apply lookup_delete_skip).
  constructor; try apply Ht.
  - cbn [t1 set_pat set_pmts pat pmts]. pose proof (programs_few _ Ht). unfold zlen in *.
    rewrite delete_take_drop, length_app, length_take, length_drop. lia.
  - apply Forall_lookup. intros k pm. rewrite Ek. by apply (proj1 (Forall_lookup _ _) (programs_ok _ Ht)).
  - intros i j i' j' s s'. rewrite !E. intros H1 H2 Hp. destruct (pids_unique _ Ht _ _ _ _ _ _ H1 H2 Hp) as [?%skip_inj ->]. done.
  - intros i j s k pm. rewrite E, Ek. apply (pids_apart _ Ht).
  - intros i j s. rewrite E. apply (pids_free _ Ht).
  - intros k pm. rewrite Ek. apply (pmt_pids_free _ Ht).
Qed.

(** * The operations of a program that uses the muxer *)

Inductive ts_op :=
  | OpReset
  | OpAddProgram (n : Z)
  | OpRemoveProgram (n : Z)
  | OpAddStream (codecid : Z) (extra : option (list Z)) (size : Z)
  | OpAddProgramStream (n codecid : Z) (extra : option (list Z)) (size : Z)
  | OpWrite (p flags pts dts : Z) (data : list Z).
Implicit Types (op : ts_op) (ops : list ts_op).

(** The PIDs and the programs an operation can take. *)
Definition pids_taken op : Z :=
  match op with OpAddProgram _ | OpAddProgramStream _ _ _ _ => 1 | OpAddStream _ _ _ => 2 | _ => 0 end.
Definition programs_taken op : Z :=
  match op with OpAddProgram _ | OpAddStream _ _ _ => 1 | _ => 0 end.
Definition total (f : ts_op → Z) ops : Z := fold_right Z.add 0 (map f ops).

(** Codec data are at most the eight bytes the tables have room for, and blocks hold
    what is said of them. *)
Definition extra_ok (extra : option (list Z)) (size : Z) : Prop :=
  0 ≤ size ≤ 8 ∧ match extra with Some m => size ≤ zlen m | None => True end.
Definition op_ok op : Prop :=
  match op with
  | OpReset | OpAddProgram _ | OpRemoveProgram _ => True
  | OpAddStream _ extra size | OpAddProgramStream _ _ extra size => extra_ok extra size
  | OpWrite _ _ p d data => time_ok p ∧ time_ok d ∧ zlen data < 2 ^ 31
  end.

Section Operations.
Context {A : Type} (func : mpeg_ts_func_t A) (realloc malloc : Z → bool).

Definition ts_step t op (x : A) : outcome (Z * mpeg_ts_enc_context_t * A) :=
  match op with
  | OpReset => Ok (0, mpeg_ts_reset t, x)
  | OpAddProgram n => '(r, t) ← mpeg_ts_add_program realloc malloc t n None 0; Ok (r, t, x)
  | OpRemoveProgram n => let '(r, t) := mpeg_ts_remove_program t n in Ok (r, t, x)
  | OpAddStream c extra size => '(r, t) ← mpeg_ts_add_stream realloc malloc t c extra size; Ok (r, t, x)
  | OpAddProgramStream n c extra size => '(r, t) ← mpeg_ts_add_program_stream malloc t n c extra size; Ok (r, t, x)
  | OpWrite p flags pts dts data => mpeg_ts_write func t p flags pts dts data (zlen data) x
  end.

Fixpoint ts_run t ops (x : A) : outcome (list Z * mpeg_ts_enc_context_t * A) :=
  match ops with
  | [] => Ok ([], t, x)
  | op :: ops => '(r, t, x) ← ts_step t op x; '(l, t, x) ← ts_run t ops x; Ok (r :: l, t, x)
  end.

(** What an operation leaves: the invariant, and how far the counters can have gone. *)
Definition within t (p n c : Z) t' : Prop :=
  ts_ok t' ∧ pid t' ≤ pid t + p ∧ zlen (pmts (pat t')) ≤ zlen (pmts (pat t)) + n ∧ pcr_clock t' ≤ pcr_clock t + c.

Lemma mpeg_ts_reset_within t p n : 0 ≤ p → 0 ≤ n → ts_ok t → within t p n 0 (mpeg_ts_reset t).
Proof. intros Hp Hn Ht. split; [by apply ts_ok_reset|]. pose proof (clock_nonneg _ Ht). cbn [mpeg_ts_reset pid pat pcr_clock]. lia. Qed.

Lemma mpeg_ts_add_program_ok t n : ts_ok t → zlen (pmts (pat t)) < 42 → pid t < 2 ^ 13 →
  ∃ r t', mpeg_ts_add_program realloc malloc t n None 0 = Ok (r, t') ∧ within t 1 1 0 t' ∧ (r = 0 → pmts (pat t') ≠ []).
Proof.
  intros Ht Hn Hp. pose proof (clock_nonneg _ Ht) as Hc.
  assert (∀ p n, 0 ≤ p → 0 ≤ n → within t p n 0 t) as Hsame by (intros; unfold within; split; [done|lia]).
  unfold mpeg_ts_add_program. destruct (_ || _); [eexists _, _; split; [reflexivity|]; split; [by apply Hsame|done]|].
  destruct (existsb _ _); [eexists _, _; split; [reflexivity|]; split; [by apply Hsame|done]|].
  destruct (pat_alloc_pmt realloc (pat t)) as [p|] eqn:E; [|eexists _, _; split; [reflexivity|]; split; [by apply Hsame|done]].
  apply pat_alloc_pmt_ok in E as [Epm Ecc]. eexists _, _. split; [reflexivity|]. split; [|intros _; cbn; by destruct (pmts p)].
  pose proof (pids_low _ Ht). rewrite u16_id by (unfold is_uint; lia). split.
  - apply ts_ok_reset. cbn [pmt_pid set_pid pid].
    pose proof (ts_ok_capacity t p Ht Epm Ecc) as Ht1. rewrite <- Epm in Hn.
    apply (ts_ok_new_program (set_pat t p) (Pmt (pid t) n 0 0 8191 0 None [])); [done| |done|done|done].
    constructor; try done. unfold is_uint. cbn [pmt_pid]. lia.
  - cbn [mpeg_ts_reset set_pat set_pid set_pmts pid pat pmts pcr_clock]. rewrite zlen_app, Epm. change (zlen [_]) with 1. lia.
Qed.

Lemma mpeg_ts_pmt_add_stream_ok t i pm c extra size : ts_ok t → pmts (pat t) !! i = Some pm → pid t < 2 ^ 13 → extra_ok extra size →
  ∃ r t', mpeg_ts_pmt_add_stream malloc t i pm c extra size = Ok (r, t') ∧ within t 1 0 0 t'.
Proof.
  intros Ht Hi Hp [Hsz Hex]. pose proof (clock_nonneg _ Ht) as Hc. pose proof (pids_low _ Ht) as Hlow.
  unfold mpeg_ts_pmt_add_stream. destruct (Z.geb_spec (zlen (streams pm)) 4) as [_|Hn]; [eexists _, _; split; [done|]; split; [done|lia]|].
  rewrite (u16_id (pid t + 1)) by (unfold is_uint; lia).
  set (stream_id := if mpeg_stream_type_video c then _ else _).
  assert (is_byte stream_id) as Hsid by (unfold stream_id; by destruct (mpeg_stream_type_video c), (mpeg_stream_type_audio c)).
  assert (∀ info n, 0 ≤ n ≤ 8 → within t 1 0 0 (mpeg_ts_reset (put_pmt (set_pid t (pid t + 1)) i
    (with_stream pm (Pes (pid t) stream_id (u8 c) 0 info n 0 0 0) (u32 (ver pm + 1) mod 32))))) as Hadd.
  { intros info n Hlen. split.
    - apply ts_ok_reset. apply (ts_ok_new_stream t i pm); [done|done| |done|done].
      constructor; cbn [es_pid sid es_codecid es_cc esinfo_len]; [unfold is_uint; lia|done|apply u8_range|done|done].
    - cbn [mpeg_ts_reset put_pmt set_pat set_pid set_pmts pid pat pmts pcr_clock]. unfold zlen. rewrite length_insert. lia. }
  assert (within t 1 0 0 (set_pid t (pid t + 1))) as Hfail.
  { split; [apply ts_ok_pid; [done|lia]|]. cbn [set_pid pid pat pcr_clock]. lia. }
  destruct extra as [m|]; [|eexists _, _; split; [reflexivity|by apply Hadd]].
  destruct (size >? 0); [|eexists _, _; split; [reflexivity|by apply Hadd]].
  destruct (malloc size); [|eexists _, _; split; [reflexivity|exact Hfail]].
  rewrite slice_ok by lia. run. rewrite u16_id by (unfold is_uint; lia).
  eexists _, _. split; [reflexivity|]. exact (Hadd (Some (sub m 0 size)) size ltac:(lia)).
Qed.

Lemma within_trans t t1 t2 p n c p' n' c' : within t p n c t1 → within t1 p' n' c' t2 → within t (p + p') (n + n') (c + c') t2.
Proof. intros (_ & ? & ? & ?) (Ht & ? & ? & ?). split; [done|lia]. Qed.
Lemma within_refl t p n c : ts_ok t → 0 ≤ p → 0 ≤ n → 0 ≤ c → within t p n c t.
Proof. intros. split; [done|lia]. Qed.

Lemma mpeg_ts_add_stream_ok t c extra size : ts_ok t → zlen (pmts (pat t)) < 42 → pid t + 1 < 2 ^ 13 → extra_ok extra size →
  ∃ r t', mpeg_ts_add_stream realloc malloc t c extra size = Ok (r, t') ∧ within t 2 1 0 t'.
Proof.
  intros Ht Hn Hp Hex. unfold mpeg_ts_add_stream.
  assert (∃ r t1, (match pmts (pat t) with [] => mpeg_ts_add_program realloc malloc t 1 None 0 | _ => Ok (0, t) end) = Ok (r, t1) ∧
    within t 1 1 0 t1 ∧ (r = 0 → pmts (pat t1) ≠ [])) as (r & t1 & -> & Hw & Hne).
  { destruct (pmts (pat t)) eqn:E; [apply mpeg_ts_add_program_ok; rewrite ?E; [done|done|lia]|].
    exists 0, t. split; [done|]. split; [by apply within_refl|by rewrite E]. }
  run. destruct (Z.eqb_spec 0 r) as [<-|Hr]; cbn [negb].
  2: { exists (-1), t1. split; [done|]. destruct Hw as (? & ? & ? & ?). split; [done|lia]. }
  destruct (pmts (pat t1)) as [|pm l] eqn:E; [by destruct Hne|].
  destruct (mpeg_ts_pmt_add_stream_ok t1 0 pm c extra size) as (r' & t2 & -> & Hw2); [apply Hw|by rewrite E|destruct Hw as (_ & ? & _); lia|done|].
  exists r', t2. split; [done|]. exact (within_trans _ _ _ _ _ _ _ _ _ Hw Hw2).
Qed.

Lemma mpeg_ts_add_program_stream_ok t n c extra size : ts_ok t → pid t < 2 ^ 13 → extra_ok extra size →
  ∃ r t', mpeg_ts_add_program_stream malloc t n c extra size = Ok (r, t') ∧ within t 1 0 0 t'.
Proof.
  intros Ht Hp Hex. unfold mpeg_ts_add_program_stream. destruct (list_find _ _) as [[i pm]|] eqn:E.
  - apply list_find_Some in E as (Hi & _ & _). by apply mpeg_ts_pmt_add_stream_ok.
  - exists (-1), t. split; [done|]. by apply within_refl.
Qed.

Lemma mpeg_ts_remove_program_ok t n : ts_ok t → within t 0 0 0 (mpeg_ts_remove_program t n).2.
Proof.
  intros Ht. pose proof (clock_nonneg _ Ht) as Hc. unfold mpeg_ts_remove_program. destruct (list_find _ _) as [[i pm]|] eqn:E.
  - split; [by apply ts_ok_reset, ts_ok_delete|]. cbn [snd mpeg_ts_reset set_pat set_pmts pid pat pmts pcr_clock].
    rewrite delete_take_drop. unfold zlen. rewrite length_app, length_take, length_drop. lia.
  - by apply within_refl.
Qed.

(** A callback that has memory and never fails. *)
Definition reliable : Prop :=
  blocks_ok func ∧ (∀ x, is_Some (alloc func x TS_PACKET_SIZE)) ∧ ∀ x pkt, (write func x pkt).1 = 0.
Hypothesis Hfunc : reliable.

Lemma send_reliable (l : list (list Z)) x : (send func l x).1.1 = 0.
Proof.
  destruct Hfunc as (_ & Ha & Hw). revert x. induction l as [|pkt l IH]; intros x; [done|]. cbn [send].
  destruct (Ha x) as [b ->]. specialize (Hw x pkt). destruct (write func x pkt) as [r x']. cbn [fst] in Hw. subst r.
  change (0 =? 0) with true. cbv iota. specialize (IH x'). by destruct (send func l x') as [[r n] x''].
Qed.

Lemma mpeg_ts_write_wf t p flags pts dts data x : ts_ok t → time_ok pts → time_ok dts → zlen data < 2 ^ 31 → pcr_clock t < 2 ^ 62 →
  ∃ r t' x', mpeg_ts_write func t p flags pts dts data (zlen data) x = Ok (r, t', x') ∧ within t 0 0 1 t'.
Proof.
  intros Ht Hp Hd Hl Hc. destruct (mpeg_ts_find t p) as [[[[i j] pm] s]|] eqn:E.
  - apply mpeg_ts_find_sound in E as (Hi & Hj & <-).
    assert (stream_at t i j = Some s) as Hs by (unfold stream_at; by rewrite Hi).
    destruct (mpeg_ts_write_ok func (proj1 Hfunc) t i j s flags pts dts data x) as (tables & pcr_pid & _ & _ & _ & t' & E & Hafter); [done..|].
    destruct (Hafter (send_reliable _ _)) as [Ht' [Hm1 Hm2 Hm3 Hm4]].
    destruct (send func _ x) as [[r n] x']. exists r, t', x'. split; [exact E|]. split; [done|]. split; [lia|]. split; [|lia].
    rewrite (same_programs_length t t' Hm2). lia.
  - unfold mpeg_ts_write. rewrite E. eexists _, _, _. split; [reflexivity|by apply within_refl].
Qed.

Lemma ts_step_ok t op x : ts_ok t → op_ok op → pid t + pids_taken op ≤ 2 ^ 13 → zlen (pmts (pat t)) + programs_taken op ≤ 42 → pcr_clock t < 2 ^ 62 →
  ∃ r t' x', ts_step t op x = Ok (r, t', x') ∧ within t (pids_taken op) (programs_taken op) 1 t'.
Proof.
  intros Ht Hop Hp Hn Hc.
  assert (∀ (r : Z) t1 p n, within t p n 0 t1 → ∃ r' t' (x' : A), Ok (r, t1, x) = Ok (r', t', x') ∧ within t p n 1 t') as Hdone.
  { intros r t1 p n (? & ? & ? & ?). eexists _, _, _. split; [done|]. split; [done|lia]. }
  destruct op; cbn [ts_step op_ok pids_taken programs_taken] in *.
  - by apply Hdone, mpeg_ts_reset_within.
  - destruct (mpeg_ts_add_program_ok t n) as (r & t1 & -> & Hw & _); [done|lia|lia|]. by apply Hdone.
  - pose proof (mpeg_ts_remove_program_ok t n Ht). destruct (mpeg_ts_remove_program t n) as [r t1]. by apply Hdone.
  - destruct (mpeg_ts_add_stream_ok t codecid extra size) as (r & t1 & -> & Hw); [done|lia|lia|done|]. by apply Hdone.
  - destruct (mpeg_ts_add_program_stream_ok t n codecid extra size) as (r & t1 & -> & Hw); [done|lia|done|]. by apply Hdone.
  - destruct Hop as (? & ? & ?). by apply mpeg_ts_write_wf.
Qed.

Lemma ts_run_ok ops : ∀ t x, ts_ok t → Forall op_ok ops → pid t + total pids_taken ops ≤ 2 ^ 13 →
  zlen (pmts (pat t)) + total programs_taken ops ≤ 42 → pcr_clock t + zlen ops < 2 ^ 62 →
  ∃ rs t' x', ts_run t ops x = Ok (rs, t', x') ∧ length rs = length ops ∧ ts_ok t' ∧ pcr_clock t' ≤ pcr_clock t + zlen ops.
Proof.
  assert (∀ l : list ts_op, 0 ≤ total pids_taken l ∧ 0 ≤ total programs_taken l) as Hpos.
  { unfold total. induction l as [|op l IH]; [cbn; lia|]. cbn [map fold_right]. destruct op; cbn [pids_taken programs_taken]; lia. }
  induction ops as [|op ops IH]; intros t x Ht Hops Hp Hn Hc.
  { change (zlen (@nil ts_op)) with 0 in *. exists [], t, x. split_and!; done || lia. }
  apply Forall_cons_1 in Hops as [Hop Hops]. pose proof (Hpos ops). pose proof (zlen_nonneg ops). rewrite zlen_cons in *.
  unfold total in *. cbn [map fold_right] in *. cbn [ts_run].
  destruct (ts_step_ok t op x) as (r & t1 & x1 & -> & Hw1 & Hw2 & Hw3 & Hw4); [done|done|lia|lia|lia|]. run.
  destruct (IH t1 x1) as (rs & t2 & x2 & -> & Hl & Ht2 & Hc2); [done|done|lia|lia|lia|]. run.
  exists (r :: rs), t2, x2. split_and!; [done|cbn; by rewrite Hl|done|lia].
Qed.
End Operations.

(** C16: used within its limits the muxer keeps its invariant through any sequence
    of calls.  The limits: programs without program information, at most 42 of them
    and as many streams as there are PIDs of 13 bits; codec data of at most 8 bytes;
    frames of less than 2 GB with time stamps of less than 53 bits; and a callback
    that has a block for each packet and accepts it.  Then, from the moment the muxer
    is created, whatever resets, programs and streams added and removed and frames
    written follow, each call returns (none has undefined behaviour, no access of its
    buffers fails) and the muxer that results is well formed: the tables fit their
    buffers, counters have 4 bits, no PID is used twice, by two streams or a stream
    and a table, and all lie between 0x100 and the next to be given out.  Beyond the
    limits the code does overflow its buffers. *)
Theorem ts_muxer_wf {A} (func : mpeg_ts_func_t A) realloc malloc ops x :
  reliable func → Forall op_ok ops → total pids_taken ops ≤ 2 ^ 13 - 0x100 → total programs_taken ops ≤ 42 → zlen ops < 2 ^ 62 →
  ∃ t rs t' x', mpeg_ts_create true = Some t ∧ ts_run func realloc malloc t ops x = Ok (rs, t', x') ∧ length rs = length ops ∧ ts_ok t'.
Proof.
  intros Hf Hops Hp Hn Hc. destruct (mpeg_ts_create true) as [t|] eqn:E; [|done].
  pose proof (ts_ok_create t E) as Ht. injection E as <-.
  destruct (ts_run_ok func realloc malloc Hf ops _ x Ht Hops) as (rs & t' & x' & E & Hl & Ht' & _); [cbn; lia|change (zlen (pmts (pat _))) with 0; lia|cbn; lia|].
  by eexists _, rs, t', x'.
Qed.

(** A callback that keeps the packets it is given. *)
Definition keep : mpeg_ts_func_t (list (list Z)) := Func (λ _ n, Some (replicate (Z.to_nat n) 0)) (λ x pkt, (0, x ++ [pkt])).
Lemma keep_reliable : reliable keep.
Proof. split_and!; [|eauto|done]. intros x b [= <-]. done. Qed.

Definition demo_ops : list ts_op :=
  [OpAddStream PSI_STREAM_H264 None 0; OpAddStream PSI_STREAM_AAC None 0; OpWrite 0x101 MPEG_FLAG_IDR_FRAME 3600 0 [0; 0; 1; 0x65; 7];
   OpWrite 0x102 0 4000 4000 [1; 2; 3]; OpWrite 0x105 0 0 0 [1]; OpAddProgram 1; OpAddProgram 2; OpRemoveProgram 1; OpReset].

Lemma ts_muxer_wf_witness : ∃ t rs t' x',
  mpeg_ts_create true = Some t ∧ ts_run keep (λ _, true) (λ _, true) t demo_ops [] = Ok (rs, t', x') ∧ length rs = 9%nat ∧ ts_ok t'.
Proof.
  apply (ts_muxer_wf keep (λ _, true) (λ _, true) demo_ops []).
  - apply keep_reliable.
  - unfold demo_ops. repeat apply Forall_cons_2; try apply Forall_nil_2; cbn [op_ok]; unfold extra_ok, time_ok; repeat split; try done; vm_compute; done.
  - by vm_compute.
  - by vm_compute.
  - by vm_compute.
Defined.
