(* ===== verification/MpegTsLossless.v ===== *)
(** A receiver of transport streams, and what it gets from the muxer. *)
From S2P Require Import Prelude MpegCrc32 MpegPes MpegTs MpegTsSpec MpegTsMux MpegTsWf.

Implicit Types (t : mpeg_ts_enc_context_t) (pm : pmt_t) (s : pes_t) (m pkt l : list Z) (pkts : list (list Z)).

(** * The receiver

    It looks at packets as the standard describes them, and reads the headers of PES
    packets with the reader of the library. *)
Definition ts_pid pkt : Z := Z.lor (Z.shiftl (Z.land (pkt !!! 1%nat) 0x1f) 8) (pkt !!! 2%nat).
Definition ts_start pkt : bool := Z.testbit (pkt !!! 1%nat) 6.
Definition ts_cc pkt : Z := Z.land (pkt !!! 3%nat) 0x0f.
Definition ts_payload pkt : list Z :=
  if truth (Z.land (pkt !!! 3%nat) 0x20) then drop (5 + Z.to_nat (pkt !!! 4%nat)) pkt else drop 4 pkt.

(** The PES packets of the packets of a PID, and what comes before the first. *)
Definition unit_step pkt (r : list Z * list (list Z)) : list Z * list (list Z) :=
  let l := ts_payload pkt ++ r.1 in if ts_start pkt then ([], l :: r.2) else (l, r.2).
Definition units pkts : list Z * list (list Z) := fold_right unit_step ([], []) pkts.

(** The counters of the packets, from [c] on. *)
Fixpoint numbered (c : Z) pkts : Prop :=
  match pkts with [] => True | pkt :: pkts => ts_cc pkt = c ∧ numbered ((c + 1) mod 16) pkts end.

(** Stream id, time stamps, whether decoding can start here, and the data. *)
Definition no_header : pes_header_t := PesHeader 0 0 0 0 0 0 0 0 0 0 0 0 0 0 0 0 0 0 0.
Definition read_pes (u : list Z) : outcome (Z * Z * Z * Z * list Z) :=
  '(start, r) ← mpeg_bits_readn (mpeg_bits_init u) 0 3;
  '(id, r) ← mpeg_bits_read8 r;
  '(e, h, r) ← pes_read_header no_header r;
  if (start =? 1) && (e =? MPEG_ERROR_OK)
  then Ok (id, h_pts h, h_dts h, h_alignment h, drop (Z.to_nat (mpeg_bits_tell r)) u)
  else Fail e.

(** * Packets of a stream *)

Lemma pid_bytes p x : is_uint 13 p → Z.land x 0x1f = 0 →
  Z.lor (Z.shiftl (Z.land (Z.lor (Z.land (Z.shiftr p 8) 0x1f) x) 0x1f) 8) (Z.land p 0xff) = p.
Proof.
  intros Hp Hx. rewrite Z.land_lor_distr_l, Hx, Z.lor_0_r, <- Z.land_assoc. change (Z.land 31 31) with 31.
  rewrite lor_shiftl_add by (masks; dlia). masks. unfold is_uint in Hp. dlia.
Qed.

Lemma ts_pid_head first s af l : is_uint 13 (es_pid s) → ts_pid (ts_head first s af ++ l) = es_pid s.
Proof. intros Hp. unfold ts_pid, ts_head. cbn [app]. change ((?a :: ?b :: ?c :: ?k) !!! 1%nat) with b. change ((?a :: ?b :: ?c :: ?k) !!! 2%nat) with c. apply pid_bytes; [done|]. by destruct first. Qed.

Lemma ts_start_head first s af l : ts_start (ts_head first s af ++ l) = first.
Proof.
  unfold ts_start, ts_head. cbn [app]. change ((?a :: ?b :: ?k) !!! 1%nat) with b. rewrite Z.lor_spec, Z.land_spec. change (Z.testbit 31 6) with false.
  rewrite andb_false_r. by destruct first.
Qed.

Lemma ts_cc_head first s af l : is_uint 4 (es_cc s) → ts_cc (ts_head first s af ++ l) = es_cc s.
Proof.
  intros Hc. unfold ts_cc, ts_head. cbn [app]. change ((?a :: ?b :: ?c :: ?d :: ?k) !!! 3%nat) with d. rewrite !Z.land_lor_distr_l, <- Z.land_assoc.
  change (Z.land 16 15) with 0. change (Z.land 15 15) with 15. rewrite Z.lor_0_l.
  replace (Z.land (match af with Some _ => 32 | None => 0 end) 15) with 0 by (by destruct af).
  rewrite Z.lor_0_r. masks. by apply Z.mod_small.
Qed.

Lemma ts_payload_head first s af l : ts_payload (ts_head first s af ++ l) = l.
Proof.
  unfold ts_payload, ts_head. destruct af as [f|]; cbn [app].
  - change ((?a :: ?b :: ?c :: ?d :: ?e :: ?k) !!! 3%nat) with d. rewrite land_control_set.
    change ((?a :: ?b :: ?c :: ?d :: ?e :: ?k) !!! 4%nat) with e. cbn [Nat.add drop].
    unfold zlen. by rewrite Nat2Z.id, drop_app_length.
  - change ((?a :: ?b :: ?c :: ?d :: ?k) !!! 3%nat) with d. by rewrite Z.lor_0_r, land_control_clear.
Qed.

Definition well_formed pkt : Prop := zlen pkt = TS_PACKET_SIZE ∧ pkt !! 0%nat = Some 0x47.

Lemma packets_from_forall fuel : ∀ first s af h l, is_uint 13 (es_pid s) → 0 < TS_PACKET_SIZE - (zlen (ts_head first s af) + zlen h) →
  Forall (λ pkt, well_formed pkt ∧ ts_pid pkt = es_pid s) (packets_from first s af h l fuel).
Proof.
  induction fuel as [|fuel IH]; intros first s af h l Hp Hr; [by destruct l|].
  destruct l as [|b l]; [constructor|]. cbn [packets_from]. set (room := _ - (_ + _)) in *. set (k := b :: l).
  apply Forall_cons_2.
  - split; [split|by rewrite ts_pid_head]; [|done].
    rewrite !zlen_app, zlen_stuff. assert (zlen (take (Z.to_nat room) k) = Z.min room (zlen k)) as ->.
    { unfold zlen. rewrite length_take. lia. }
    unfold room. lia.
  - apply (IH false (set_cc s ((es_cc s + 1) mod 16)) None []); [done|]. rewrite zlen_ts_head. change (zlen (@nil Z)) with 0. unfold TS_PACKET_SIZE. lia.
Qed.

Lemma packets_from_numbered fuel : ∀ first s af h l, is_uint 4 (es_cc s) → numbered (es_cc s) (packets_from first s af h l fuel).
Proof.
  induction fuel as [|fuel IH]; intros first s af h l Hc; [by destruct l|].
  destruct l as [|b l]; [done|]. cbn [packets_from numbered]. split; [by apply ts_cc_head|].
  apply (IH false (set_cc s ((es_cc s + 1) mod 16))). apply mod16_uint.
Qed.

(** What follows the first packet of a frame continues it. *)
Lemma packets_from_units fuel : ∀ s l (us : list (list Z)) c, (length l ≤ fuel)%nat →
  fold_right unit_step (c, us) (packets_from false s None [] l fuel) = (l ++ c, us).
Proof.
  induction fuel as [|fuel IH]; intros s l us c Hl; [by destruct l; [|cbn in Hl; lia]|].
  destruct l as [|b l]; [done|]. cbn [packets_from fold_right]. set (room := _ - (_ + _)). set (k := b :: l).
  assert (1 ≤ Z.to_nat room)%nat by (unfold room; rewrite zlen_ts_head; change (zlen (@nil Z)) with 0; unfold TS_PACKET_SIZE; lia).
  rewrite IH by (unfold k; rewrite length_drop; cbn in *; lia). unfold unit_step. rewrite ts_start_head, ts_payload_head.
  cbn [app fst snd]. by rewrite app_assoc, take_drop.
Qed.

Lemma frame_units w pcr_pid s l us : l ≠ [] → zlen (ts_head true s (first_field pcr_pid s)) + zlen (first_header w s l (zlen l)) < TS_PACKET_SIZE →
  fold_right unit_step ([], us) (frame_packets w pcr_pid s l) = ([], (first_header w s l (zlen l) ++ l) :: us).
Proof.
  intros Hl Hr. unfold frame_packets. destruct l as [|b l]; [done|]. cbn [length packets_from fold_right].
  set (k := b :: l) in *. set (room := _ - (_ + _)).
  assert (1 ≤ Z.to_nat room)%nat by (unfold room; lia).
  rewrite packets_from_units by (unfold k; rewrite length_drop; cbn; lia).
  unfold unit_step. rewrite ts_start_head, ts_payload_head. cbn [fst snd].
  by rewrite app_nil_r, <- app_assoc, take_drop.
Qed.

Lemma first_room w pcr_pid s l n : zlen (ts_head true s (first_field pcr_pid s)) + zlen (first_header w s l n) < TS_PACKET_SIZE.
Proof.
  pose proof (zlen_first_header w s l n). pose proof (zlen_first_field pcr_pid s). rewrite zlen_ts_head. unfold TS_PACKET_SIZE.
  destruct (first_field pcr_pid s); lia.
Qed.

Lemma numbered_app c (l k : list (list Z)) : is_uint 4 c → numbered c l → numbered ((c + zlen l) mod 16) k → numbered c (l ++ k).
Proof.
  revert c. induction l as [|pkt l IH]; intros c Hc Hl Hk.
  - change (zlen []) with 0 in Hk. rewrite Z.add_0_r, Z.mod_small in Hk by exact Hc. done.
  - destruct Hl as [Hp Hl]. split; [done|]. apply IH; [apply mod16_uint|done|].
    rewrite Z.add_mod_idemp_l by lia. rewrite zlen_cons in Hk. by replace (c + 1 + zlen l) with (c + (1 + zlen l)) by lia.
Qed.

(** * Reading a PES packet *)

Lemma read_first_header w s data : is_byte (sid s) → has_pts s = true → has_dts s = negb (dts s =? pts s) →
  read_pes (first_header w s data (zlen data) ++ data)
  = Ok (sid s, pts s mod 2 ^ 33, dts s mod 2 ^ 33, if truth (data_alignment_indicator s) then 1 else 0,
        delimiter w s data (zlen data) ++ data).
Proof.
  intros Hsid Hp Hd. unfold first_header. set (d := delimiter w s data (zlen data)). set (n := if _ >? _ then _ else _).
  set (u := (pes_head s (be_bytes 2 n) ++ d) ++ data).
  assert (is_uint 16 n ∧ (n = 0 ∨ zlen (stamps s) + 3 ≤ n)) as [Hn Hlen].
  { pose proof (zlen_nonneg d). pose proof (zlen_nonneg data). pose proof (zlen_stamps_le s). unfold n, is_uint.
    destruct (Z.gtb_spec (zlen (stamps s) + 3 + zlen d + zlen data) 65535); lia. }
  assert (u = [0; 0; 1; sid s] ++ drop 4 (pes_head s (be_bytes 2 n)) ++ d ++ data) as Eu by (unfold u; by rewrite <- app_assoc).
  unfold read_pes, mpeg_bits_init. cbn [mpeg_bits_readn].
  erewrite (read8_ok u 0) by (rewrite Eu; by apply ld_lookup). run.
  erewrite (read8_ok u (0 + 1)) by (rewrite Eu; by apply ld_lookup). run.
  erewrite (read8_ok u (0 + 1 + 1)) by (rewrite Eu; by apply ld_lookup). run.
  erewrite (read8_ok u (0 + 1 + 1 + 1)) by (rewrite Eu; by apply ld_lookup). run.
  destruct (pes_read_header_ok s no_header u 4 n) as (h & E & Hh1 & Hh2 & Hh3 & _); [done|done| |].
  { pose proof (holds_whole u) as Hw. rewrite Eu in Hw at 2. apply holds_app in Hw as [_ Hw]. by apply holds_app in Hw as [Hw _]. }
  change (0 + 1 + 1 + 1 + 1) with 4. rewrite E. run.
  match goal with |- context [?a =? 1] => change (a =? 1) with true end. cbn [andb Z.eqb MPEG_ERROR_OK Pos.eqb].
  rewrite Hh1, Hh2, Hh3, Hp, Hd. unfold mpeg_bits_tell. cbn [off].
  assert (drop (Z.to_nat (4 + 5 + zlen (stamps s))) u = d ++ data) as ->.
  { unfold u. rewrite <- app_assoc. apply drop_app_length'.
    pose proof (zlen_pes_head s (be_bytes 2 n)) as Hl. rewrite zlen_be_bytes in Hl. unfold zlen in *. lia. }
  repeat f_equal. destruct (Z.eqb_spec (dts s) (pts s)) as [->|]; done.
Qed.

(** * Sessions *)

Record ts_frame := TsFrame { f_pid : Z; f_flags : Z; f_pts : Z; f_dts : Z; f_data : list Z }.
Implicit Types (f : ts_frame) (fs : list ts_frame).

(** Frames written one after the other: the results, the muxer and what the
    callback made of the packets. *)
Fixpoint write_frames {A} (func : mpeg_ts_func_t A) t fs (x : A) : outcome (list Z * mpeg_ts_enc_context_t * A) :=
  match fs with
  | [] => Ok ([], t, x)
  | f :: fs =>
      '(r, t, x) ← mpeg_ts_write func t (f_pid f) (f_flags f) (f_pts f) (f_dts f) (f_data f) (zlen (f_data f)) x;
      '(l, t, x) ← write_frames func t fs x;
      Ok (r :: l, t, x)
  end.

(** A callback that keeps every packet. *)
Definition collector (block : list (list Z) → list Z) : mpeg_ts_func_t (list (list Z)) :=
  Func (λ x _, Some (block x)) (λ x pkt, (0, x ++ [pkt])).

Lemma send_collector block (l x : list (list Z)) : send (collector block) l x = (0, length l, x ++ l).
Proof.
  revert x. induction l as [|pkt l IH]; intros x; cbn [send]; [by rewrite app_nil_r|].
  cbn [alloc write collector]. change (0 =? 0) with true. cbv iota. rewrite IH. by rewrite <- app_assoc.
Qed.

(** A frame for a stream of the muxer. *)
Definition frame_ok t f : Prop :=
  (∃ i j s, stream_at t i j = Some s ∧ es_pid s = f_pid f) ∧ time_ok (f_pts f) ∧ time_ok (f_dts f) ∧
  0 < zlen (f_data f) < 2 ^ 31.

(** What the receiver is to read: time stamps have 33 bits, and H.264, H.265 or H.266
    that does not begin with an access unit delimiter gets one unless the flags say
    that it does. *)
Definition frame_seen s f : outcome (Z * Z * Z * Z * list Z) :=
  Ok (sid s, f_pts f mod 2 ^ 33, f_dts f mod 2 ^ 33, (if truth (Z.land (f_flags f) MPEG_FLAG_IDR_FRAME) then 1 else 0),
      delimiter (with_delimiter (f_flags f)) s (f_data f) (zlen (f_data f)) ++ f_data f).

Definition of_pid (p : Z) pkts : list (list Z) := filter (λ pkt, ts_pid pkt = p) pkts.
Definition frames_of (p : Z) fs : list ts_frame := filter (λ f, f_pid f = p) fs.

Lemma table_packet_pid t pkt i j s : ts_ok t → table_packet t pkt → stream_at t i j = Some s → ts_pid pkt ≠ es_pid s.
Proof.
  intros Ht (p & cc & body & -> & _ & _ & Hp) Hs.
  assert (is_uint 13 p ∧ p ≠ es_pid s) as [H13 Hne].
  { pose proof (pids_free _ Ht _ _ _ Hs). destruct Hp as [->|[->|(k & pm & Hk & ->)]].
    - unfold TS_PID_PAT. split; [done|lia].
    - unfold TS_PID_SDT. split; [done|lia].
    - split; [|by eapply (pids_apart _ Ht)]. pose proof (proj1 (Forall_lookup _ _) (programs_ok _ Ht) _ _ Hk) as Hok. apply Hok. }
  unfold ts_pid, section_packet. cbn [app]. change ((?a :: ?b :: ?c :: ?k) !!! 1%nat) with b. change ((?a :: ?b :: ?c :: ?k) !!! 2%nat) with c.
  rewrite (Z.lor_comm 64), pid_bytes by done. done.
Qed.

Lemma table_packet_well_formed t pkt : table_packet t pkt → well_formed pkt.
Proof.
  intros (p & cc & body & -> & Hl & _ & _). split; [|done]. unfold section_packet.
  rewrite !zlen_app, zlen_replicate. pose proof (zlen_nonneg (section body)). unfold TS_PACKET_SIZE. cbn [length]. lengths.
Qed.

Lemma of_pid_all p pkts : Forall (λ pkt, ts_pid pkt = p) pkts → of_pid p pkts = pkts.
Proof. unfold of_pid. induction 1 as [|pkt l Hp _ IH]; [done|]. by rewrite filter_cons_True, IH. Qed.
Lemma of_pid_none p pkts : Forall (λ pkt, ts_pid pkt ≠ p) pkts → of_pid p pkts = [].
Proof. unfold of_pid. induction 1 as [|pkt l Hp _ IH]; [done|]. by rewrite filter_cons_False. Qed.

(** A stream after a frame of [f]: only its counter has moved, by its packets among
    [new], which make the PES packet of [f] when it is the stream's. *)
Record carried s s' f (new : list (list Z)) : Prop := {
  c_pid : es_pid s' = es_pid s;
  c_sid : sid s' = sid s;
  c_codecid : es_codecid s' = es_codecid s;
  c_numbered : numbered (es_cc s) (of_pid (es_pid s) new);
  c_cc : es_cc s' = (es_cc s + zlen (of_pid (es_pid s) new)) mod 16;
  c_units us : ∃ u, fold_right unit_step ([], us) (of_pid (es_pid s) new) = ([], u ++ us) ∧
    map read_pes u = if decide (f_pid f = es_pid s) then [frame_seen s f] else []
}.

Lemma frame_read pcr_pid s f us : es_ok s → time_ok (f_pts f) → time_ok (f_dts f) → 0 < zlen (f_data f) →
  let s1 := timed_stream s (f_flags f) (f_pts f) (f_dts f) in
  ∃ u, fold_right unit_step ([], us) (frame_packets (with_delimiter (f_flags f)) pcr_pid s1 (f_data f)) = ([], u :: us) ∧
    read_pes u = frame_seen s f.
Proof.
  intros Hs Hp Hd Hl s1. eexists. split; [apply frame_units; [|apply first_room]|].
  { intros E. rewrite E in Hl. by change (zlen []) with 0 in Hl. }
  rewrite read_first_header.
  - unfold s1, timed_stream, frame_seen. cbn [sid pts dts data_alignment_indicator set_times].
    f_equal. f_equal. f_equal. by destruct (truth (Z.land (f_flags f) MPEG_FLAG_IDR_FRAME)).
  - apply Hs.
  - unfold has_pts, s1, timed_stream, time_ok, PTS_NO_VALUE in *. cbn [pts set_times]. destruct (Z.eqb_spec (- 2 ^ 63) (f_pts f)); [lia|done].
  - unfold has_dts, s1, timed_stream, time_ok, PTS_NO_VALUE in *. cbn [dts pts set_times]. destruct (Z.eqb_spec (- 2 ^ 63) (f_dts f)); [lia|done].
Qed.

Lemma frame_packets_pid w pcr_pid s l : is_uint 13 (es_pid s) →
  Forall (λ pkt, well_formed pkt ∧ ts_pid pkt = es_pid s) (frame_packets w pcr_pid s l).
Proof. intros Hp. apply packets_from_forall; [done|]. pose proof (first_room w pcr_pid s l (zlen l)). unfold TS_PACKET_SIZE in *. lia. Qed.

(** Packets of a frame that begin a stream: the tables come first. *)
Definition begins t (new : list (list Z)) : Prop := ∃ tables rest, new = tables ++ rest ∧ announced t tables.

Lemma zlen_frame_packets w pcr_pid s l : 184 * zlen (frame_packets w pcr_pid s l) ≤ 368 + zlen l.
Proof.
  assert (∀ fuel s l, 184 * zlen (packets_from false s None [] l fuel) ≤ 183 + zlen l) as Hrest.
  { induction fuel as [|fuel IH]; intros s0 k; [destruct k; unfold zlen; cbn [packets_from length]; lia|].
    destruct k as [|b k]; [unfold zlen; cbn [packets_from length]; lia|].
    cbn [packets_from]. set (room := _ - (_ + _)). set (k' := b :: k). rewrite zlen_cons.
    assert (room = 184) as Er by (unfold room; rewrite zlen_ts_head; change (zlen (@nil Z)) with 0; unfold TS_PACKET_SIZE; lia).
    specialize (IH (set_cc s0 ((es_cc s0 + 1) mod 16)) (drop (Z.to_nat room) k')). rewrite Er in *.
    unfold zlen in *. rewrite length_drop in IH. assert (1 <= length k')%nat by (cbn; lia). unfold k' in *. cbn [length] in *.
    destruct (decide (length k < 184)%nat); [|lia]. rewrite drop_ge by (cbn; lia).
    replace (packets_from false _ None [] [] fuel) with (@nil (list Z)) by (by destruct fuel). cbn. lia. }
  unfold frame_packets. destruct l as [|b l]; [unfold zlen; cbn [length packets_from]; lia|].
  cbn [length packets_from]. set (room := _ - (_ + _)). rewrite zlen_cons. specialize (Hrest (length l) (set_cc s ((es_cc s + 1) mod 16)) (drop (Z.to_nat room) (b :: l))).
  assert (zlen (drop (Z.to_nat room) (b :: l)) ≤ zlen (b :: l)) by (unfold zlen; rewrite length_drop; lia). lia.
Qed.

Lemma write_frame_ok {A} (func : mpeg_ts_func_t A) t f x : blocks_ok func → ts_ok t → frame_ok t f → pcr_clock t < 2 ^ 62 →
  ∃ r t' x' new n, mpeg_ts_write func t (f_pid f) (f_flags f) (f_pts f) (f_dts f) (f_data f) (zlen (f_data f)) x = Ok (r, t', x') ∧
    send func new x = (r, n, x') ∧ Forall well_formed new ∧ new ≠ [] ∧ 184 * zlen new ≤ 184 * (4 + zlen (pmts (pat t))) + zlen (f_data f) ∧
    (pat_period t = 0 → begins t new) ∧
    (r = 0 → ts_ok t' ∧ pcr_clock t' ≤ pcr_clock t + 1 ∧ zlen (pmts (pat t')) = zlen (pmts (pat t)) ∧
      ∀ i j s, stream_at t i j = Some s → ∃ s', stream_at t' i j = Some s' ∧ carried s s' f new).
Proof.
  intros Hblocks Ht ((i & j & s & Hs & Ep) & Hp & Hd & Hl) Hc.
  pose proof (stream_ok _ _ _ _ Ht Hs) as Hes.
  destruct (mpeg_ts_write_ok func Hblocks t i j s (f_flags f) (f_pts f) (f_dts f) (f_data f) x)
    as (tables & pcr_pid & Htables & Hcount & Hfirst & t' & E & Hafter); [done|done|done|done|done|lia|].
  set (s1 := timed_stream s (f_flags f) (f_pts f) (f_dts f)) in *. set (frame := frame_packets _ pcr_pid s1 (f_data f)) in *.
  pose proof (frame_packets_pid (with_delimiter (f_flags f)) pcr_pid s1 (f_data f) ltac:(apply Hes)) as Hframe. fold frame in Hframe.
  pose proof (zlen_frame_packets (with_delimiter (f_flags f)) pcr_pid s1 (f_data f)) as Hn. fold frame in Hn.
  destruct (send func (tables ++ frame) x) as [[r n] x'] eqn:Es. cbn [fst] in Hafter.
  exists r, t', x', (tables ++ frame), n. rewrite <- Ep. split; [exact E|]. split; [done|]. split.
  { apply Forall_app. split; eapply list.Forall_impl; [exact Htables| |exact Hframe|]; [apply table_packet_well_formed|by intros ? []]. }
  split.
  { intros E0. apply app_eq_nil in E0 as [_ E0]. unfold frame, frame_packets in E0. destruct (f_data f) as [|b l]; [change (zlen []) with 0 in Hl; lia|done]. }
  split; [rewrite zlen_app; lia|]. split; [intros Hz; exists tables, frame; split; [done|by apply Hfirst]|].
  intros ->. destruct (Hafter eq_refl) as [Ht' [Hm1 Hm2 _ Hm4]]. split; [done|]. split; [lia|]. split; [exact (same_programs_length t t' Hm2)|].
  intros i' j' s' Hs'. rewrite Hm1.
  assert (of_pid (es_pid s') (tables ++ frame) = of_pid (es_pid s') frame) as Eo.
  { unfold of_pid at 1. rewrite list.filter_app. fold (of_pid (es_pid s') tables) (of_pid (es_pid s') frame). rewrite of_pid_none; [done|].
    eapply list.Forall_impl; [exact Htables|]. intros pkt Hpkt. exact (table_packet_pid t pkt i' j' s' Ht Hpkt Hs'). }
  destruct (decide (i' = i ∧ j' = j)) as [[-> ->]|Hne].
  - rewrite Hs in Hs'. injection Hs' as <-. eexists. split; [reflexivity|].
    assert (of_pid (es_pid s) frame = frame) as Ef by (apply of_pid_all; eapply list.Forall_impl; [exact Hframe|by intros ? []]).
    rewrite Ef in Eo. constructor; rewrite ?Eo; try done.
    + apply (packets_from_numbered _ true s1). apply Hes.
    + intros us. destruct (frame_read pcr_pid s f us) as (u & Hu & Hr); [done|done|done|lia|].
      exists [u]. split; [exact Hu|]. rewrite decide_True by done. cbn [map]. by rewrite Hr.
  - exists s'. split; [done|]. assert (es_pid s' ≠ es_pid s) as Hpne.
    { intros Epid. apply Hne. destruct (pids_unique _ Ht i' j' i j s' s Hs' Hs Epid). done. }
    rewrite (of_pid_none (es_pid s') frame) in Eo.
    2: { eapply list.Forall_impl; [exact Hframe|]. intros pkt [_ Hk]. cbn [es_pid s1 timed_stream set_times] in Hk. rewrite Hk. done. }
    constructor; rewrite ?Eo; try done.
    + change (zlen []) with 0. rewrite Z.add_0_r, Z.mod_small; [done|]. apply (es_cc_ok _ (stream_ok _ _ _ _ Ht Hs')).
    + intros us. exists []. split; [done|]. rewrite decide_False by congruence. done.
Qed.

(** * A session *)

Lemma frame_seen_stable s s' f : sid s' = sid s → es_codecid s' = es_codecid s → frame_seen s' f = frame_seen s f.
Proof. intros E1 E2. unfold frame_seen, delimiter. by rewrite E1, E2. Qed.

Lemma frame_ok_moves t t' f : (∀ i j s, stream_at t i j = Some s → ∃ s', stream_at t' i j = Some s' ∧ es_pid s' = es_pid s) →
  frame_ok t f → frame_ok t' f.
Proof. intros Hm ((i & j & s & Hs & Ep) & H). split; [|done]. destruct (Hm _ _ _ Hs) as (s' & ? & ?). exists i, j, s'. split; congruence. Qed.

Lemma units_app (l k : list (list Z)) c us : fold_right unit_step (c, us) (l ++ k) = fold_right unit_step (fold_right unit_step (c, us) k) l.
Proof. apply fold_right_app. Qed.

(** What a stream gets of frames: its packets, counted on, are the PES packets of its
    frames. *)
Record delivered s fs pkts : Prop := {
  d_numbered : numbered (es_cc s) (of_pid (es_pid s) pkts);
  d_units us : ∃ u, fold_right unit_step ([], us) (of_pid (es_pid s) pkts) = ([], u ++ us) ∧
    map read_pes u = map (frame_seen s) (frames_of (es_pid s) fs)
}.
Lemma delivered_nil s : delivered s [] [].
Proof. split; [exact I|]. intros us. by exists []. Qed.

Lemma of_pid_app p (l k : list (list Z)) : of_pid p (l ++ k) = of_pid p l ++ of_pid p k.
Proof. apply list.filter_app. Qed.

(** One more frame at the end. *)
Lemma delivered_snoc s0 s s' f fs new pkts : is_uint 4 (es_cc s0) →
  es_pid s = es_pid s0 → sid s = sid s0 → es_codecid s = es_codecid s0 → es_cc s = (es_cc s0 + zlen (of_pid (es_pid s0) pkts)) mod 16 →
  delivered s0 fs pkts → carried s s' f new → delivered s0 (fs ++ [f]) (pkts ++ new).
Proof.
  intros Hs E1 E2 E3 Ecc [Hn Hu] [_ _ _ Hn' _ Hu']. rewrite E1 in Hn', Hu'. constructor; rewrite of_pid_app.
  - apply numbered_app; [done|done|]. by rewrite <- Ecc.
  - intros us. rewrite units_app. destruct (Hu' us) as (u' & -> & Hr'). destruct (Hu (u' ++ us)) as (u & -> & Hr).
    exists (u ++ u'). rewrite app_assoc. split; [done|]. rewrite map_app, Hr, Hr'. unfold frames_of. rewrite list.filter_app, map_app. f_equal.
    destruct (decide (f_pid f = es_pid s0)) as [E|E]; [rewrite filter_cons_True by done|by rewrite filter_cons_False].
    cbn [filter list_filter map]. f_equal. by apply frame_seen_stable.
Qed.

(** Where a stream is after frames: only its counter has moved. *)
Record session t0 t fs pkts : Prop := {
  session_ok : ts_ok t;
  session_clock : pcr_clock t ≤ pcr_clock t0 + zlen fs;
  session_programs : zlen (pmts (pat t)) = zlen (pmts (pat t0));
  session_packets : Forall well_formed pkts;
  session_streams i j s0 : stream_at t0 i j = Some s0 → ∃ s, stream_at t i j = Some s ∧ es_pid s = es_pid s0 ∧ sid s = sid s0 ∧
    es_codecid s = es_codecid s0 ∧ es_cc s = (es_cc s0 + zlen (of_pid (es_pid s0) pkts)) mod 16 ∧ delivered s0 fs pkts
}.

Lemma session_start t : ts_ok t → session t t [] [].
Proof.
  intros Ht. constructor; [done|change (zlen (@nil ts_frame)) with 0; lia|done|constructor|].
  intros i j s Hs. exists s. split_and!; try done; [|apply delivered_nil].
  change (zlen []) with 0. rewrite Z.add_0_r, Z.mod_small; [done|]. apply (es_cc_ok _ (stream_ok _ _ _ _ Ht Hs)).
Qed.

Lemma session_frame_ok t0 t fs pkts f : session t0 t fs pkts → frame_ok t0 f → frame_ok t f.
Proof. intros H. apply frame_ok_moves. intros i j s Hs. destruct (session_streams _ _ _ _ H i j s Hs) as (s' & ? & ? & _). by exists s'. Qed.

(** A frame more, through any callback: the packets it sends continue the session
    when they all go out. *)
Lemma session_write {A} (func : mpeg_ts_func_t A) t0 t fs pkts f x : blocks_ok func → ts_ok t0 → session t0 t fs pkts → frame_ok t0 f → pcr_clock t < 2 ^ 62 →
  ∃ r t' x' new n, mpeg_ts_write func t (f_pid f) (f_flags f) (f_pts f) (f_dts f) (f_data f) (zlen (f_data f)) x = Ok (r, t', x') ∧
    send func new x = (r, n, x') ∧ Forall well_formed new ∧ new ≠ [] ∧ 184 * zlen new ≤ 184 * (4 + zlen (pmts (pat t))) + zlen (f_data f) ∧
    (pat_period t = 0 → begins t new) ∧ (r = 0 → session t0 t' (fs ++ [f]) (pkts ++ new)).
Proof.
  intros Hb Ht0 Hs Hf Hc. pose proof Hs as [Ht Hclk Hprog Hpk Hst].
  destruct (write_frame_ok func t f x) as (r & t' & x' & new & n & E & Es & Hwf & Hne & Hn & Hfirst & Hafter);
    [done|done|by eapply session_frame_ok|done|].
  exists r, t', x', new, n. split_and!; try done. intros Hr. destruct (Hafter Hr) as (Ht' & Hc' & Hprog' & Hcar). constructor; [done| |congruence| |].
  - rewrite zlen_app. change (zlen [f]) with 1. lia.
  - by apply Forall_app.
  - intros i j s0 Hs0. destruct (Hst i j s0 Hs0) as (s & Hsi & E1 & E2 & E3 & E4 & Hd). destruct (Hcar i j s Hsi) as (s' & Hs' & Hca).
    exists s'. destruct (Hca) as [C1 C2 C3 _ C5 _]. split_and!; try done; try congruence.
    + rewrite of_pid_app, zlen_app, C5, E4, E1, Z.add_mod_idemp_l by lia. by rewrite Z.add_assoc.
    + eapply delivered_snoc; [apply (es_cc_ok _ (stream_ok _ _ _ _ Ht0 Hs0))|exact E1|done|done|done|done|exact Hca].
Qed.

Lemma write_frames_ok block fs : (∀ x, zlen (block x) = TS_PACKET_SIZE) → ∀ t0 t done pkts x, ts_ok t0 → session t0 t done pkts →
  Forall (frame_ok t0) fs → pcr_clock t0 + zlen done + zlen fs < 2 ^ 62 →
  ∃ t' new, write_frames (collector block) t fs x = Ok (replicate (length fs) 0, t', x ++ new) ∧ session t0 t' (done ++ fs) (pkts ++ new).
Proof.
  intros Hb. induction fs as [|f fs IH]; intros t0 t old pkts x Ht0 Hs Hfs Hc.
  { exists t, []. by rewrite !app_nil_r. }
  apply Forall_cons_1 in Hfs as [Hf Hfs]. pose proof (zlen_nonneg fs). rewrite zlen_cons in Hc. pose proof (session_clock _ _ _ _ Hs).
  destruct (session_write (collector block) t0 t old pkts f x) as (r & t1 & x1 & new & n & E & Es & _ & _ & _ & _ & Hafter);
    [intros y b [= <-]; apply Hb|done|done|done|lia|].
  rewrite send_collector in Es. injection Es as <- <- <-. specialize (Hafter eq_refl).
  cbn [write_frames length replicate]. rewrite E. run.
  destruct (IH t0 t1 (old ++ [f]) (pkts ++ new) (x ++ new)) as (t2 & more & -> & Hs2); [done|done|done| |].
  { rewrite zlen_app. change (zlen [f]) with 1. lia. }
  run. exists t2, (new ++ more). rewrite <- !app_assoc in *. done.
Qed.

(** C3: The muxer of transport streams loses nothing.  Whatever frames are written, of
    whatever streams of a well-formed muxer in whatever order, every write succeeds, and
    a receiver that separates the packets by PID finds, on the PID of each stream: packets
    of 188 bytes with sync bytes, continuity counters that go on from the stream's
    without a gap (mod 16), whether or not tables go out in between, and, put together
    and read by the library's own reader of PES headers, exactly the frames of that
    stream, in order, each with its stream id, its time stamps (mod 2^33), the mark of
    where decoding can start and its data, before which only an access unit delimiter is
    put when H.264, H.265 or H.266 has none and does not say otherwise. *)
Theorem ts_mux_lossless block t fs : (∀ x, zlen (block x) = TS_PACKET_SIZE) → ts_ok t → Forall (frame_ok t) fs → pcr_clock t + zlen fs < 2 ^ 62 →
  ∃ t' pkts, write_frames (collector block) t fs [] = Ok (replicate (length fs) 0, t', pkts) ∧ Forall well_formed pkts ∧
    ∀ i j s, stream_at t i j = Some s →
      numbered (es_cc s) (of_pid (es_pid s) pkts) ∧
      (units (of_pid (es_pid s) pkts)).1 = [] ∧
      map read_pes (units (of_pid (es_pid s) pkts)).2 = map (frame_seen s) (frames_of (es_pid s) fs).
Proof.
  intros Hb Ht Hfs Hc. destruct (write_frames_ok block fs Hb t t [] [] []) as (t' & pkts & E & Hs); [done|by apply session_start|done|change (zlen (@nil ts_frame)) with 0; lia|].
  cbn [app] in Hs. exists t', pkts. split_and!; [exact E|apply Hs|]. intros i j s Hi. destruct (session_streams _ _ _ _ Hs i j s Hi) as (_ & _ & _ & _ & _ & _ & [Hn Hu]).
  destruct (Hu []) as (u & Eu & Hr). rewrite app_nil_r in Eu. unfold units. by rewrite Eu.
Qed.

(** A muxer of one program with H.264 and AAC. *)
Definition demo_blank (x : list (list Z)) : list Z := replicate 188 0.
Definition demo_streams : list ts_op := [OpAddStream PSI_STREAM_H264 None 0; OpAddStream PSI_STREAM_AAC None 0].
Definition demo_muxer : mpeg_ts_enc_context_t :=
  let t0 := Ts (Pat 0 0 0 [] 0) false 0 0 0 0 0 0 [] in
  match mpeg_ts_create true with
  | Some t => match ts_run keep (λ _, true) (λ _, true) t demo_streams [] with Ok (_, t, _) => t | _ => t0 end
  | None => t0
  end.
Lemma demo_muxer_ok : ts_ok demo_muxer.
Proof.
  unfold demo_muxer. destruct (mpeg_ts_create true) as [t|] eqn:E; [|done]. pose proof (ts_ok_create t E) as Ht.
  assert (Forall op_ok demo_streams) as Hops.
  { unfold demo_streams. repeat apply Forall_cons_2; try apply Forall_nil_2; cbn [op_ok]; unfold extra_ok; repeat split; done. }
  injection E as <-.
  edestruct (ts_run_ok keep (λ _, true) (λ _, true) keep_reliable demo_streams) as (rs & t' & x' & -> & _ & Ht' & _);
    [exact Ht|exact Hops|by vm_compute..|exact Ht'].
Qed.
Definition demo_frames : list ts_frame :=
  [TsFrame 0x101 (Z.lor MPEG_FLAG_IDR_FRAME MPEG_FLAG_H264_H265_WITH_AUD) 7200 3600 (0 :: 0 :: 1 :: 0x65 :: replicate 300 7); TsFrame 0x102 0 4000 4000 [1; 2; 3];
   TsFrame 0x101 0 10800 7200 [0; 0; 1; 0x41; 9]].

Lemma ts_mux_lossless_witness : ∃ t' pkts, write_frames (collector demo_blank) demo_muxer demo_frames [] = Ok ([0; 0; 0], t', pkts) ∧ Forall well_formed pkts ∧
  ∀ i j s, stream_at demo_muxer i j = Some s →
    numbered (es_cc s) (of_pid (es_pid s) pkts) ∧ (units (of_pid (es_pid s) pkts)).1 = [] ∧
    map read_pes (units (of_pid (es_pid s) pkts)).2 = map (frame_seen s) (frames_of (es_pid s) demo_frames).
Proof.
  apply (ts_mux_lossless demo_blank demo_muxer demo_frames); [done|exact demo_muxer_ok| |by vm_compute].
  unfold demo_frames. repeat apply Forall_cons_2; try apply Forall_nil_2; unfold frame_ok, time_ok; cbn [f_pid f_pts f_dts f_data]; (split; [|vm_compute; repeat split; done]).
  - exists 0%nat, 0%nat. eexists. split; [vm_compute; reflexivity|reflexivity].
  - exists 0%nat, 1%nat. eexists. split; [vm_compute; reflexivity|reflexivity].
  - exists 0%nat, 0%nat. eexists. split; [vm_compute; reflexivity|reflexivity].
Defined.
