(* ===== verification/HlsSegmenter.v ===== *)
(** The segments of a stream for HLS: src/media/hls/hls_segmenter.cpp and the
    constants of hls.h.

    An operation runs under the mutex of the segmenter.  What memory there is and
    what the time is while it runs are in an [environment].  A duration is the
    quotient of its nanoseconds by 10^9 in doubles; it is kept as the nanoseconds.
    The text of the playlist is not modelled. *)
From stdpp Require Import gmap strings.
From S2P Require Import Prelude MpegPes MpegTs SinkDispatcher MediaStream CodecUtils.
Open Scope Z_scope.

Definition max_segment_bytes : Z := 16 * 1024 * 1024.
Definition target_duration_ns : Z := 2 * 1000000000.
Definition segment_window_size : nat := 6.
Definition ENOBUFS : Z := 105.

(** [block x] is the block malloc gives for a packet when the segment holds [x]. *)
Record environment := Environment {
  calloc : bool;
  realloc : Z → bool;
  malloc : Z → bool;
  block : list Z → option (list Z);
  now : Z
}.

Record track_state := TrackState { state_track : media_track; state_stream_id : Z }.
Record segment := Segment { sequence : Z; duration : Z; segment_data : list Z }.

(** [tracks_] is a map: its entries in the order of their keys. *)
Record hls_segmenter := HlsSegmenter {
  tracks_ : list (Z * track_state);
  segments_ : list segment;
  current_segment_ : list Z;
  muxer_ : option mpeg_ts_enc_context_t;
  next_sequence_ : Z;
  segment_start_pts_ns_ : option Z;
  segment_max_pts_ns_ : Z;
  ended_at_ : option Z;
  waiting_for_key_frame_ : bool;
  has_video_ : bool
}.
Implicit Types (e : environment) (self : hls_segmenter) (l : list (Z * track_state)).

Definition new_segmenter : hls_segmenter := HlsSegmenter [] [] [] None 0 None 0 None false false.

Definition set_tracks_ self v := HlsSegmenter v (segments_ self) (current_segment_ self) (muxer_ self) (next_sequence_ self) (segment_start_pts_ns_ self) (segment_max_pts_ns_ self) (ended_at_ self) (waiting_for_key_frame_ self) (has_video_ self).
Definition set_current self c := HlsSegmenter (tracks_ self) (segments_ self) c (muxer_ self) (next_sequence_ self) (segment_start_pts_ns_ self) (segment_max_pts_ns_ self) (ended_at_ self) (waiting_for_key_frame_ self) (has_video_ self).
Definition set_muxer self m := HlsSegmenter (tracks_ self) (segments_ self) (current_segment_ self) m (next_sequence_ self) (segment_start_pts_ns_ self) (segment_max_pts_ns_ self) (ended_at_ self) (waiting_for_key_frame_ self) (has_video_ self).
Definition set_start self s m := HlsSegmenter (tracks_ self) (segments_ self) (current_segment_ self) (muxer_ self) (next_sequence_ self) s m (ended_at_ self) (waiting_for_key_frame_ self) (has_video_ self).
Definition set_ended self v := HlsSegmenter (tracks_ self) (segments_ self) (current_segment_ self) (muxer_ self) (next_sequence_ self) (segment_start_pts_ns_ self) (segment_max_pts_ns_ self) v (waiting_for_key_frame_ self) (has_video_ self).
Definition set_waiting self v := HlsSegmenter (tracks_ self) (segments_ self) (current_segment_ self) (muxer_ self) (next_sequence_ self) (segment_start_pts_ns_ self) (segment_max_pts_ns_ self) (ended_at_ self) v (has_video_ self).
Definition set_segments self v n := HlsSegmenter (tracks_ self) v (current_segment_ self) (muxer_ self) n (segment_start_pts_ns_ self) (segment_max_pts_ns_ self) (ended_at_ self) (waiting_for_key_frame_ self) (has_video_ self).

(** * The callbacks of the muxer *)

Definition ts_write (current : list Z) (packet : list Z) : Z * list Z :=
  if zlen packet >? u64 (max_segment_bytes - zlen current) then (- ENOBUFS, current) else (0, current ++ packet).
Definition functions e : mpeg_ts_func_t (list Z) := Func (λ current _, block e current) ts_write.

Definition add_track_to_muxer e (muxer : mpeg_ts_enc_context_t) (t : media_track) : outcome (Z * mpeg_ts_enc_context_t) :=
  match codec t with
  | h264 => mpeg_ts_add_stream (realloc e) (malloc e) muxer PSI_STREAM_H264 None 0
  | h265 => mpeg_ts_add_stream (realloc e) (malloc e) muxer PSI_STREAM_H265 None 0
  | aac => mpeg_ts_add_stream (realloc e) (malloc e) muxer PSI_STREAM_AAC None 0
  | g711a | g711u | opus => Ok (-1, muxer)
  end.

(** The loop over the tracks, which stores their numbers. *)
Fixpoint add_tracks e (muxer : mpeg_ts_enc_context_t) l : outcome (bool * mpeg_ts_enc_context_t * list (Z * track_state)) :=
  match l with
  | [] => Ok (true, muxer, [])
  | (k, s) :: l =>
      '(id, muxer) ← add_track_to_muxer e muxer (state_track s);
      let s := TrackState (state_track s) id in
      if id <=? 0 then Ok (false, muxer, (k, s) :: l) else
      '(ok, muxer, l) ← add_tracks e muxer l;
      Ok ((ok : bool), muxer, (k, s) :: l)
  end.

(** The new muxer, and the tracks with their numbers in it. *)
Definition recreate_muxer e l (muxer : option mpeg_ts_enc_context_t) : outcome (bool * option mpeg_ts_enc_context_t * list (Z * track_state)) :=
  match mpeg_ts_create (calloc e) with
  | None => Ok (false, muxer, l)
  | Some m =>
      '(ok, m, l) ← add_tracks e m l;
      Ok (if (ok : bool) then (true, Some m, l) else (false, muxer, l))
  end.

(** * Segments *)

Definition finish_segment self (end_pts_ns : Z) : outcome hls_segmenter :=
  match current_segment_ self with
  | [] => Ok self
  | _ =>
      d ← (match segment_start_pts_ns_ self with
           | Some start => if end_pts_ns >=? start then int64 (end_pts_ns - start) else Ok target_duration_ns
           | None => Ok target_duration_ns
           end);
      let d := if d <=? 0 then target_duration_ns else d in
      let l := segments_ self ++ [Segment (next_sequence_ self) d (current_segment_ self)] in
      Ok (set_current (set_segments self (drop (length l - segment_window_size) l) (u64 (next_sequence_ self + 1))) [])
  end.

(** The muxer and the tracks after [recreate_muxer]; without a new muxer the
    segmenter ends. *)
Definition renew e self : outcome (bool * hls_segmenter) :=
  '(ok, m, l) ← recreate_muxer e (tracks_ self) (muxer_ self);
  let self := set_tracks_ (set_muxer self m) l in
  Ok (if (ok : bool) then (true, self) else (false, set_ended (set_muxer self None) (Some (now e)))).

Definition discard_segment e self : outcome hls_segmenter :=
  '(_, self) ← renew e self;
  Ok (set_waiting (set_start (set_current self []) None 0) (has_video_ self)).

Fixpoint find_state (id : Z) l : option track_state :=
  match l with
  | [] => None
  | (k, s) :: l => if k =? id then Some s else find_state id l
  end.

Definition is_video (t : media_track) : bool := match kind t with video => true | audio => false end.

(** The end of [on_frame]: the frame goes to the muxer. *)
Definition mux_frame e self (frame : media_frame) : outcome hls_segmenter :=
  match find_state (track frame) (tracks_ self), muxer_ self, frame_payload frame with
  | Some s, Some muxer, Some payload =>
      p ← ns_to_90khz (pts_ns frame);
      d ← ns_to_90khz (dts_ns frame);
      '(r, m, x) ← mpeg_ts_write (functions e) muxer (state_stream_id s) (if key_frame frame then 1 else 0) p d payload (zlen payload) (current_segment_ self);
      let self := set_current (set_muxer self (Some m)) x in
      if negb (r =? 0) then discard_segment e self else
      Ok (set_start self (segment_start_pts_ns_ self) (Z.max (segment_max_pts_ns_ self) (pts_ns frame)))
  | _, _, _ => Ub
  end.

Definition on_frame e self (frame : media_frame) : outcome hls_segmenter :=
  match ended_at_ self with
  | Some _ => Ok self
  | None =>
      match find_state (track frame) (tracks_ self) with
      | None => Ok self
      | Some s =>
          let key_video := is_video (state_track s) && key_frame frame in
          if waiting_for_key_frame_ self && negb key_video then Ok self else
          let self := set_waiting self false in
          let start := match segment_start_pts_ns_ self with Some start => start | None => pts_ns frame end in
          let self := match segment_start_pts_ns_ self with Some _ => self | None => set_start self (Some (pts_ns frame)) (pts_ns frame) end in
          elapsed_ns ← int64 (pts_ns frame - start);
          let segment_boundary := (negb (has_video_ self) || key_video) && (elapsed_ns >=? target_duration_ns) in
          if segment_boundary && negb (Nat.eqb (length (current_segment_ self)) 0) then
            self ← finish_segment self (pts_ns frame);
            '(ok, self) ← renew e self;
            if (ok : bool) then mux_frame e (set_start self (Some (pts_ns frame)) (pts_ns frame)) frame else Ok self
          else mux_frame e self frame
      end
  end.

Definition finish self (now : Z) : outcome hls_segmenter :=
  match ended_at_ self with
  | Some _ => Ok self
  | None =>
      self ← finish_segment self (segment_max_pts_ns_ self);
      Ok (set_ended (set_muxer self None) (Some now))
  end.
Definition on_end self (now : Z) : outcome hls_segmenter := finish self now.

(** [std::map::emplace]: an entry with the key stays. *)
Fixpoint emplace (k : Z) (s : track_state) l : list (Z * track_state) :=
  match l with
  | [] => [(k, s)]
  | (k', s') :: l' => if k <? k' then (k, s) :: l else if k =? k' then l else (k', s') :: emplace k s l'
  end.
Fixpoint collect_tracks (ts : list media_track) l (has_video : bool) : list (Z * track_state) * bool :=
  match ts with
  | [] => (l, has_video)
  | t :: ts =>
      match codec t with
      | opus | g711a | g711u => collect_tracks ts l has_video
      | _ => collect_tracks ts (emplace (track_id t) (TrackState t 0) l) (has_video || is_video t)
      end
  end.

(** [ts] are the tracks of the source; the result is whether it was added to its
    consumers. *)
Definition startup e self (ts : list media_track) : outcome (bool * hls_segmenter) :=
  let '(l, has_video) := collect_tracks ts [] false in
  match l with
  | [] => Ok (false, self)
  | _ =>
      '(ok, m, l) ← recreate_muxer e l (muxer_ self);
      Ok (if (ok : bool)
          then (true, HlsSegmenter l (segments_ self) (current_segment_ self) m (next_sequence_ self) (segment_start_pts_ns_ self)
                        (segment_max_pts_ns_ self) (ended_at_ self) has_video has_video)
          else (false, set_muxer self m))
  end.

Definition segment_buffer self (k : Z) : option (list Z) :=
  segment_data <$> (list_find (λ s, sequence s = k) (segments_ self) ≫= λ '(_, s), Some s).
Definition has_segments self : bool := negb (Nat.eqb (length (segments_ self)) 0).
(** The sequence number at the head of the playlist. *)
Definition first_sequence self : Z := match segments_ self with [] => next_sequence_ self | s :: _ => sequence s end.
