(* ===== verification/HlsSpec.v ===== *)
(** The muxer a segment is written with: the tracks of the source in the order of
    their numbers, on the PIDs from 0x101 on.

    What the segmenter promises: an abstract segmenter that cuts the frames of a
    stream into runs, what a segment holds, and that the code implements it. *)
From stdpp Require Import gmap strings.
From S2P Require Import Prelude SinkDispatcher MediaStream CodecUtils MpegPes MpegTs MpegTsSpec MpegTsMux MpegTsWf MpegTsLossless HlsSegmenter.
Open Scope Z_scope.

Implicit Types (e : environment) (l : list (Z * track_state)).

Definition supported (t : media_track) : bool := match codec t with h264 | h265 | aac => true | _ => false end.
Definition psi_of (t : media_track) : Z :=
  match codec t with h264 => PSI_STREAM_H264 | h265 => PSI_STREAM_H265 | _ => PSI_STREAM_AAC end.
Definition sid_of (t : media_track) : Z := if mpeg_stream_type_video (psi_of t) then PES_SID_VIDEO else PES_SID_AUDIO.

Definition first_pid : Z := 0x101.
Definition new_stream (t : media_track) (i : Z) : pes_t := Pes (first_pid + i) (sid_of t) (psi_of t) 0 None 0 0 0 0.

(** The muxer with these streams. *)
Definition muxer_with (ss : list pes_t) : mpeg_ts_enc_context_t :=
  match ss with
  | [] => Ts (Pat 1 0 0 [] 0) false 0 0 (80 * 90) 0 0 0x100 (replicate 1024 0)
  | _ => Ts (Pat 1 0 0 [Pmt 0x100 1 (zlen ss) 0 0x1FFF 0 None ss] 1) false 0 0 (80 * 90) 0 0 (first_pid + zlen ss) (replicate 1024 0)
  end.

(** The streams and the numbers of tracks, from the [i]th on. *)
Fixpoint streams_from (i : Z) l : list pes_t :=
  match l with [] => [] | (_, s) :: l => new_stream (state_track s) i :: streams_from (i + 1) l end.
Fixpoint number (i : Z) l : list (Z * track_state) :=
  match l with [] => [] | (k, s) :: l => (k, TrackState (state_track s) (first_pid + i)) :: number (i + 1) l end.
Definition all_supported l : Prop := Forall (λ x : Z * track_state, supported (state_track x.2) = true) l.

Lemma create_muxer : mpeg_ts_create true = Some (muxer_with []).
Proof. reflexivity. Qed.

Lemma new_stream_eq t : supported t = true →
  (if mpeg_stream_type_video (psi_of t) then PES_SID_VIDEO else if mpeg_stream_type_audio (psi_of t) then PES_SID_AUDIO else PES_SID_PRIVATE_1) = sid_of t ∧
  u8 (psi_of t) = psi_of t.
Proof. unfold supported, psi_of, sid_of, psi_of. by destruct (codec t). Qed.

Lemma add_track_first e t : supported t = true → add_track_to_muxer e (muxer_with []) t = Ok (first_pid, muxer_with [new_stream t 0]).
Proof. intros Hs. unfold add_track_to_muxer, supported in *. unfold new_stream, sid_of, psi_of. by destruct (codec t). Qed.

Lemma add_stream_next e ss t : ss ≠ [] → zlen ss < 4 → supported t = true →
  mpeg_ts_add_stream (realloc e) (malloc e) (muxer_with ss) (psi_of t) None 0 = Ok (first_pid + zlen ss, muxer_with (ss ++ [new_stream t (zlen ss)])).
Proof.
  intros Hne Hn Ht. destruct (new_stream_eq t Ht) as [E1 E2]. destruct ss as [|s ss]; [done|]. set (k := s :: ss) in *.
  assert (0 < zlen k) as Hpos by (unfold k; rewrite zlen_cons; pose proof (zlen_nonneg ss); lia).
  assert (muxer_with (k ++ [new_stream t (zlen k)]) = Ts (Pat 1 0 0 [Pmt 0x100 1 (zlen k + 1) 0 0x1FFF 0 None (k ++ [new_stream t (zlen k)])] 1) false 0 0 (80 * 90) 0 0
    (first_pid + (zlen k + 1)) (replicate 1024 0)) as -> by (unfold muxer_with; rewrite zlen_app; done).
  change (muxer_with k) with (Ts (Pat 1 0 0 [Pmt 0x100 1 (zlen k) 0 0x1FFF 0 None k] 1) false 0 0 (80 * 90) 0 0 (first_pid + zlen k) (replicate 1024 0)).
  unfold mpeg_ts_add_stream. cbn [pat pmts]. run. cbn [pat pmts Z.eqb negb]. unfold mpeg_ts_pmt_add_stream. cbn [streams].
  destruct (Z.geb_spec (zlen k) 4); [lia|]. cbv zeta. rewrite E1, E2. cbn [pid set_pid set_pat pat ver].
  rewrite u16_id by (unfold is_uint, first_pid; lia). rewrite (u32_id (zlen k + 1)) by (unfold is_uint; lia). rewrite (Z.mod_small (zlen k + 1) 32) by lia.
  unfold new_stream. cbn [es_pid]. by rewrite Z.add_assoc.
Qed.

Lemma add_stream_full e ss c : zlen ss = 4 → mpeg_ts_add_stream (realloc e) (malloc e) (muxer_with ss) c None 0 = Ok (-1, muxer_with ss).
Proof.
  intros Hn. destruct ss as [|s ss]; [done|]. unfold mpeg_ts_add_stream, muxer_with. cbn [pat pmts]. run. cbn [pat pmts Z.eqb negb].
  unfold mpeg_ts_pmt_add_stream. cbn [streams]. by rewrite Hn.
Qed.

Lemma add_track_add_stream e m t : supported t = true → add_track_to_muxer e m t = mpeg_ts_add_stream (realloc e) (malloc e) m (psi_of t) None 0.
Proof. unfold supported, add_track_to_muxer, psi_of. by destruct (codec t). Qed.

Lemma add_track_ok e ss t : zlen ss < 4 → supported t = true →
  add_track_to_muxer e (muxer_with ss) t = Ok (first_pid + zlen ss, muxer_with (ss ++ [new_stream t (zlen ss)])).
Proof.
  intros Hn Ht. destruct ss as [|s ss]; [by apply add_track_first|]. rewrite add_track_add_stream by done. by apply add_stream_next.
Qed.

Lemma add_tracks_ok e l : ∀ ss, all_supported l → zlen ss + zlen l ≤ 4 →
  add_tracks e (muxer_with ss) l = Ok (true, muxer_with (ss ++ streams_from (zlen ss) l), number (zlen ss) l).
Proof.
  induction l as [|[k s] l IH]; intros ss Hs Hn; cbn [add_tracks streams_from number]; [by rewrite app_nil_r|].
  apply Forall_cons_1 in Hs as [Hs Hl]. rewrite zlen_cons in Hn. pose proof (zlen_nonneg l). pose proof (zlen_nonneg ss).
  rewrite add_track_ok by (done || lia). run. destruct (Z.leb_spec (first_pid + zlen ss) 0); [unfold first_pid in *; lia|].
  rewrite IH by (done || (rewrite zlen_app; change (zlen [_]) with 1; lia)). run.
  rewrite zlen_app. change (zlen [_]) with 1. by rewrite <- app_assoc.
Qed.

Lemma add_tracks_full e l : ∀ ss, all_supported l → zlen ss ≤ 4 → 4 < zlen ss + zlen l → ∃ m l', add_tracks e (muxer_with ss) l = Ok (false, m, l').
Proof.
  induction l as [|[k s] l IH]; intros ss Hs Hn Hf; [change (zlen (@nil (Z * track_state))) with 0 in Hf; lia|].
  apply Forall_cons_1 in Hs as [Hs Hl]. rewrite zlen_cons in Hf. cbn [add_tracks].
  destruct (Z.eq_dec (zlen ss) 4) as [E|].
  - rewrite add_track_add_stream, add_stream_full by done. run. change (-1 <=? 0) with true. cbv iota. eauto.
  - rewrite add_track_ok by (done || lia). run. pose proof (zlen_nonneg ss). destruct (Z.leb_spec (first_pid + zlen ss) 0); [unfold first_pid in *; lia|].
    destruct (IH (ss ++ [new_stream (state_track s) (zlen ss)])) as (m & l' & ->); [done|rewrite zlen_app; change (zlen [_]) with 1; lia..|].
    run. eauto.
Qed.

(** The muxer of the tracks [l] and their numbers in it. *)
Definition fresh l : mpeg_ts_enc_context_t := muxer_with (streams_from 0 l).

Lemma recreate_muxer_ok e l m : calloc e = true → all_supported l → zlen l ≤ 4 → recreate_muxer e l m = Ok (true, Some (fresh l), number 0 l).
Proof.
  intros Hc Hs Hn. unfold recreate_muxer. rewrite Hc, create_muxer. rewrite (add_tracks_ok e l []) by (done || (change (zlen (@nil pes_t)) with 0; lia)). done.
Qed.
Lemma recreate_muxer_fails e l m : calloc e = false → recreate_muxer e l m = Ok (false, m, l).
Proof. intros Hc. unfold recreate_muxer. by rewrite Hc. Qed.

Lemma state_tracks_number l : ∀ i, map (λ x, (x.1, state_track x.2)) (number i l) = map (λ x, (x.1, state_track x.2)) l.
Proof. induction l as [|[k s] l IH]; intros i; [done|]. cbn [number map fst snd state_track]. by rewrite IH. Qed.

(** Numbering again changes nothing. *)
Lemma number_number l : ∀ i j, number i (number j l) = number i l.
Proof. induction l as [|[k s] l IH]; intros i j; [done|]. cbn [number state_track]. by rewrite IH. Qed.
Lemma streams_from_number l : ∀ i j, streams_from i (number j l) = streams_from i l.
Proof. induction l as [|[k s] l IH]; intros i j; [done|]. cbn [number streams_from state_track]. by rewrite IH. Qed.
Lemma zlen_number i l : zlen (number i l) = zlen l.
Proof. revert i. induction l as [|[k s] l IH]; intros i; [done|]. cbn [number]. by rewrite !zlen_cons, IH. Qed.
Lemma all_supported_number i l : all_supported l → all_supported (number i l).
Proof. intros H. revert i. induction H as [|[k s] l Hs _ IH]; intros i; [constructor|]. constructor; [done|apply IH]. Qed.

(** * The muxer is well formed *)

Lemma streams_from_lookup l : ∀ i j s, streams_from i l !! j = Some s → ∃ k st, l !! j = Some (k, st) ∧ s = new_stream (state_track st) (i + Z.of_nat j).
Proof.
  induction l as [|[k st] l IH]; intros i j s Hs; [done|]. destruct j as [|j].
  - injection Hs as <-. exists k, st. by rewrite Z.add_0_r.
  - apply IH in Hs as (k' & st' & Hl & ->). exists k', st'. split; [done|]. f_equal. lia.
Qed.

Lemma fresh_ok l : l ≠ [] → all_supported l → zlen l ≤ 4 → ts_ok (fresh l).
Proof.
  intros Hl Hs Hn. destruct (mpeg_ts_create true) as [t|] eqn:E; [|done]. pose proof (ts_ok_create t E) as Ht. rewrite create_muxer in E. injection E as <-.
  assert (∀ k ss, all_supported k → ts_ok (muxer_with ss) → zlen ss + zlen k ≤ 4 → ts_ok (muxer_with (ss ++ streams_from (zlen ss) k))) as H.
  { induction k as [|[i s] k IH]; intros ss Hk Hss Hlen; cbn [streams_from]; [by rewrite app_nil_r|].
    apply Forall_cons_1 in Hk as [Hsk Hk]. rewrite zlen_cons in Hlen. pose proof (zlen_nonneg k). pose proof (zlen_nonneg ss).
    set (e := Environment true (λ _, true) (λ _, true) (λ _, None) 0).
    pose proof (add_track_ok e ss (state_track s) ltac:(lia) Hsk) as E.
    rewrite add_track_add_stream in E by done.
    destruct (mpeg_ts_add_stream_ok (realloc e) (malloc e) (muxer_with ss) (psi_of (state_track s)) None 0) as (r & t' & E' & Hok & _); [done| | |by repeat split|].
    { by destruct ss. } { unfold muxer_with. destruct ss; cbn [pid]; unfold first_pid; lia. }
    rewrite E in E'. injection E' as <- <-.
    specialize (IH (ss ++ [new_stream (state_track s) (zlen ss)]) Hk Hok). rewrite zlen_app, <- app_assoc in IH. apply IH. change (zlen [_]) with 1. lia. }
  apply (H l []); [done|done|]. change (zlen (@nil pes_t)) with 0. lia.
Qed.

Lemma fresh_stream l i j s : stream_at (fresh l) i j = Some s ↔ i = 0%nat ∧ streams_from 0 l !! j = Some s.
Proof.
  unfold fresh, stream_at, muxer_with. destruct (streams_from 0 l) as [|s0 ss]; cbn [pat pmts].
  - split; [by destruct i|by intros [-> ?]].
  - destruct i as [|i]; cbn [lookup list_lookup streams]; [by intuition|]. split; [by destruct i|by intros []].
Qed.

Lemma fresh_fields l : pat_period (fresh l) = 0 ∧ pcr_clock (fresh l) = 0 ∧ zlen (pmts (pat (fresh l))) ≤ 1.
Proof. unfold fresh, muxer_with. by destruct (streams_from 0 l). Qed.

Implicit Types (self : hls_segmenter) (f : media_frame) (run : list media_frame).

(** * The abstract segmenter

    [l] are the tracks of the stream, numbered, [hv] whether one is video. *)
Record timeline := Timeline {
  runs : list (list media_frame);
  cur : list media_frame;
  key_wait : bool;
  start_at : option Z;
  over : bool
}.
Implicit Types (a : timeline).

Section Spec.
Context (l : list (Z * track_state)) (hv : bool).

Definition key_video f : bool :=
  match find_state (track f) l with Some s => is_video (state_track s) && key_frame f | None => false end.
Definition admitted a f : bool :=
  match find_state (track f) l with Some _ => negb (key_wait a && negb (key_video f)) | None => false end.

(** The run the frame goes to: a new one when two seconds are over and, with video,
    the frame is a key frame. *)
Definition cuts a f : bool :=
  (negb hv || key_video f) && (pts_ns f - default (pts_ns f) (start_at a) >=? target_duration_ns) && negb (Nat.eqb (length (cur a)) 0).
Definition cut a f : timeline :=
  if cuts a f then Timeline (runs a ++ [cur a]) [] false (Some (pts_ns f)) false
  else Timeline (runs a) (cur a) false (Some (default (pts_ns f) (start_at a))) false.
Definition extend a f : timeline := Timeline (runs a) (cur a ++ [f]) (key_wait a) (start_at a) (over a).
Definition drop_run a : timeline := Timeline (runs a) [] hv None false.

Definition payload_of f : list Z := default [] (frame_payload f).
(** At most the bytes of the packets of a run: each frame has tables of at most three
    packets, and a packet holds 184 bytes. *)
Definition room_needed run : Z := foldr (λ f n, 188 * (5 + zlen (payload_of f) / 184) + n) 0 run.

Definition has_memory e : Prop := calloc e = true ∧ ∀ x, is_Some (block e x).

(** A frame passes: it is ignored, or it goes to its run, or the run is thrown away,
    which happens only when memory fails or the run may be larger than a segment.  The
    segmenter is over only when memory fails. *)
Inductive step : timeline → environment * media_frame → timeline → Prop :=
  | step_over a e f : over a = true → step a (e, f) a
  | step_ignored a e f : over a = false → admitted a f = false → step a (e, f) a
  | step_kept a e f : over a = false → admitted a f = true → step a (e, f) (extend (cut a f) f)
  | step_dropped a e f : over a = false → admitted a f = true →
      (has_memory e → max_segment_bytes < room_needed (cur (cut a f) ++ [f])) → step a (e, f) (drop_run (cut a f))
  | step_failed a a' e f : over a = false → admitted a f = true → ¬ has_memory e → over a' = true → runs a' = runs (cut a f) →
      cur a' = [] → step a (e, f) a'.

Inductive steps : timeline → list (environment * media_frame) → timeline → Prop :=
  | steps_nil a : steps a [] a
  | steps_cons a ev a1 evs a2 : step a ev a1 → steps a1 evs a2 → steps a (ev :: evs) a2.
End Spec.

Definition initial (hv : bool) : timeline := Timeline [] [] hv None false.

(** * What a segment holds *)

Definition ninety (v : Z) : Z := Z.quot (v * 90000) ns_per_second.
(** A frame as the muxer is given it. *)
Definition muxed l f : ts_frame :=
  TsFrame (match find_state (track f) l with Some s => state_stream_id s | None => 0 end) (if key_frame f then 1 else 0)
    (ninety (pts_ns f)) (ninety (dts_ns f)) (payload_of f).

(** What a player reads of a frame of the track: an access unit delimiter is put
    before video that has none. *)
Definition frame_read_as (t : media_track) f : outcome (Z * Z * Z * Z * list Z) :=
  frame_seen (new_stream t 0) (muxed [] f).

(** The bytes [data] are a transport stream of its own: whole packets, which begin
    with the tables, and on the PID of each track its frames of the run. *)
Definition plays l run (data : list Z) : Prop :=
  ∃ pkts, data = concat pkts ∧ Forall well_formed pkts ∧ begins (fresh l) pkts ∧
    Forall (λ x : Z * track_state, let p := state_stream_id x.2 in
      numbered 0 (of_pid p pkts) ∧ (units (of_pid p pkts)).1 = [] ∧
      map read_pes (units (of_pid p pkts)).2 = map (frame_read_as (state_track x.2)) (filter (λ f, track f = x.1) run)) l.

(** * The tracks *)

Lemma find_state_number l k : ∀ i s, find_state k (number i l) = Some s →
  ∃ j s0, l !! j = Some (k, s0) ∧ s = TrackState (state_track s0) (first_pid + i + Z.of_nat j).
Proof.
  induction l as [|[k0 s0] l IH]; intros i s; cbn [number find_state]; [done|].
  destruct (Z.eqb_spec k0 k) as [->|].
  - intros [= <-]. exists 0%nat, s0. split; [done|]. by rewrite Z.add_0_r.
  - intros (j & s1 & Hj & ->)%IH. exists (S j), s1. split; [done|]. f_equal. lia.
Qed.

Lemma number_lookup l : ∀ i j k s, number i l !! j = Some (k, s) →
  ∃ s0, l !! j = Some (k, s0) ∧ s = TrackState (state_track s0) (first_pid + i + Z.of_nat j).
Proof.
  induction l as [|[k0 s0] l IH]; intros i j k s Hj; [done|]. destruct j as [|j].
  - injection Hj as <- <-. exists s0. split; [done|]. by rewrite Z.add_0_r.
  - apply IH in Hj as (s1 & Hj & ->). exists s1. split; [done|]. f_equal. lia.
Qed.

Lemma find_state_lookup l j k s : NoDup (l.*1) → l !! j = Some (k, s) → find_state k l = Some s.
Proof.
  revert j. induction l as [|[k0 s0] l IH]; intros j Hn Hj; [done|]. cbn [fmap list_fmap] in Hn. apply list.NoDup_cons in Hn as [Hk Hn].
  cbn [find_state]. destruct j as [|j]; [injection Hj as -> ->; by rewrite Z.eqb_refl|].
  destruct (Z.eqb_spec k0 k) as [->|]; [|by eapply IH].
  destruct Hk. apply list_elem_of_fmap. exists (k, s). split; [done|]. by eapply list_elem_of_lookup_2.
Qed.

Lemma streams_from_number_lookup l j k s : ∀ i, number i l !! j = Some (k, s) → streams_from i (number i l) !! j = Some (new_stream (state_track s) (i + Z.of_nat j)).
Proof.
  revert j. induction l as [|[k0 s0] l IH]; intros j i Hj; [done|]. cbn [number streams_from] in *. destruct j as [|j].
  - injection Hj as <- <-. by rewrite Z.add_0_r.
  - cbn [lookup list_lookup] in *. rewrite streams_from_number. specialize (IH j (i + 1) Hj). rewrite streams_from_number in IH.
    etransitivity; [exact IH|]. f_equal. f_equal. lia.
Qed.

Lemma number_keys l i : (number i l).*1 = l.*1.
Proof. revert i. induction l as [|[k s] l IH]; intros i; [done|]. cbn [number fmap list_fmap fst]. by rewrite IH. Qed.

(** What the segmenter is given. *)
Definition good_frame f : Prop :=
  is_Some (frame_payload f) ∧ 0 < zlen (payload_of f) < 2 ^ 31 ∧ - 2 ^ 62 < pts_ns f < 2 ^ 62 ∧ - 2 ^ 63 ≤ dts_ns f < 2 ^ 63.
Definition good_environment e : Prop := ∀ x b, block e x = Some b → zlen b = TS_PACKET_SIZE.

Lemma ninety_ok v : - 2 ^ 63 ≤ v < 2 ^ 63 → ns_to_90khz v = Ok (ninety v) ∧ time_ok (ninety v).
Proof.
  intros Hv. split; [by apply ns_to_90khz_ok|]. unfold time_ok, ninety, ns_per_second.
  pose proof (Z.quot_rem' (v * 90000) 1000000000). pose proof (Z.rem_bound_abs (v * 90000) 1000000000 ltac:(lia)). lia.
Qed.

Section Tracks.
Context (l0 : list (Z * track_state)) (Hkeys : NoDup (l0.*1)) (Hsup : all_supported l0) (Hne : l0 ≠ []) (Hfew : zlen l0 ≤ 4).
Local Abbreviation l := (number 0 l0).

Lemma fresh_track j k s : l !! j = Some (k, s) → stream_at (fresh l) 0 j = Some (new_stream (state_track s) (Z.of_nat j)) ∧ state_stream_id s = first_pid + Z.of_nat j ∧
  find_state k l = Some s.
Proof.
  intros Hj. split_and!.
  - apply fresh_stream. split; [done|]. rewrite (streams_from_number_lookup l0 j k s 0 Hj). f_equal.
  - apply number_lookup in Hj as (s0 & _ & ->). cbn [state_stream_id]. lia.
  - apply (find_state_lookup l j); [by rewrite number_keys|done].
Qed.

Lemma l_fresh_ok : ts_ok (fresh l).
Proof. apply fresh_ok; [|by apply all_supported_number|by rewrite zlen_number]. by destruct l0 as [|[]]. Qed.

Lemma muxed_ok f s : find_state (track f) l = Some s → good_frame f → frame_ok (fresh l) (muxed l f).
Proof.
  intros Hs (_ & Hlen & Hp & Hd). unfold muxed. rewrite Hs. split_and!; cbn [f_pts f_dts f_data f_pid]; [|apply ninety_ok; lia|by apply ninety_ok|lia|lia].
  pose proof Hs as (j & s0 & Hj & Es)%find_state_number.
  destruct (lookup_lt_is_Some_2 l j) as [[k1 s1] Hj1].
  { pose proof (lookup_lt_Some _ _ _ Hj). pose proof (zlen_number 0 l0) as E. unfold zlen in E. lia. }
  destruct (fresh_track j k1 s1 Hj1) as (Hst & Hid & _). exists 0%nat, j. eexists. split; [exact Hst|].
  cbn [es_pid new_stream]. by rewrite Es.
Qed.

Lemma muxed_pid j k s f : l !! j = Some (k, s) → f_pid (muxed l f) = state_stream_id s ↔ track f = k.
Proof.
  intros Hj. destruct (fresh_track j k s Hj) as (_ & Hid & Hfind). unfold muxed. cbn [f_pid]. split.
  - destruct (find_state (track f) l) as [s'|] eqn:E; [|unfold first_pid in Hid; lia].
    apply find_state_number in E as (j' & s0 & Hj' & ->). cbn [state_stream_id]. rewrite Hid. intros Eid. assert (j' = j) as -> by lia.
    apply number_lookup in Hj as (s1 & Hj & _). rewrite Hj' in Hj. by injection Hj.
  - intros ->. by rewrite Hfind.
Qed.

(** What was written for a run is what a segment is to hold. *)
Lemma session_plays t run pkts : session (fresh l) t (map (muxed l) run) pkts → begins (fresh l) pkts → plays l run (concat pkts).
Proof.
  intros Hs Hb. exists pkts. split_and!; [done|apply Hs|done|]. apply Forall_lookup. intros j [k s] Hj. cbn [fst snd].
  destruct (fresh_track j k s Hj) as (Hst & Hid & _).
  destruct (session_streams _ _ _ _ Hs _ _ _ Hst) as (_ & _ & _ & _ & _ & _ & [Hn Hu]).
  cbn [es_pid es_cc new_stream] in Hn, Hu. rewrite <- Hid in Hn, Hu. split; [done|].
  destruct (Hu []) as (u & Eu & Hr). rewrite app_nil_r in Eu. unfold units. rewrite Eu. split; [done|]. cbn [snd]. rewrite Hr. clear Hr Eu u Hu Hn Hs Hb.
  unfold frames_of. induction run as [|f run IH]; [done|]. cbn [map].
  destruct (decide (track f = k)) as [E|E].
  - rewrite (filter_cons_True _ (muxed l f)) by (by eapply muxed_pid). rewrite filter_cons_True by done. cbn [map]. rewrite IH. done.
  - rewrite (filter_cons_False _ (muxed l f)) by (intros Hp; apply E; by eapply muxed_pid). by rewrite filter_cons_False.
Qed.
End Tracks.

(** * The callback of the segmenter *)

Lemma zlen_concat_packets (pkts : list (list Z)) : Forall well_formed pkts → zlen (concat pkts) = TS_PACKET_SIZE * zlen pkts.
Proof. induction 1 as [|pkt pkts [Hp _] _ IH]; [done|]. cbn [concat]. rewrite zlen_app, zlen_cons, IH, Hp. lia. Qed.

Lemma send_functions e new : Forall well_formed new → ∀ x, zlen x ≤ max_segment_bytes →
  let '(r, n, x') := send (functions e) new x in
  (r = 0 → x' = x ++ concat new ∧ zlen x' ≤ max_segment_bytes) ∧ (r ≠ 0 → has_memory e → max_segment_bytes < zlen x + zlen (concat new)).
Proof.
  induction 1 as [|pkt new Hp Hnew IH]; intros x Hx; cbn [send].
  - cbn [concat]. rewrite app_nil_r. done.
  - cbn [alloc write functions]. pose proof (zlen_concat_packets new Hnew) as Hc. pose proof (zlen_nonneg new). pose proof (zlen_nonneg x).
    cbn [concat]. rewrite zlen_app, (proj1 Hp). unfold TS_PACKET_SIZE, max_segment_bytes in *.
    destruct (block e x) eqn:Eb; [|split; [done|intros _ [_ Hm]; specialize (Hm x); rewrite Eb in Hm; by destruct Hm]].
    unfold ts_write. rewrite (proj1 Hp). unfold TS_PACKET_SIZE, max_segment_bytes. unfold u64. rewrite Z.mod_small by lia.
    destruct (Z.gtb_spec 188 (16 * 1024 * 1024 - zlen x)); [split; [done|lia]|]. change (0 =? 0) with true. cbv iota.
    specialize (IH (x ++ pkt)). rewrite zlen_app, (proj1 Hp) in IH. unfold TS_PACKET_SIZE in IH. specialize (IH ltac:(lia)).
    destruct (send (functions e) new (x ++ pkt)) as [[r n] x']. destruct IH as [IH1 IH2]. split.
    + intros Hr. destruct (IH1 Hr) as [E ?]. split; [by rewrite E, <- app_assoc|done].
    + intros Hr Hm. specialize (IH2 Hr Hm). lia.
Qed.
