(* ===== verification/HlsRefine.v ===== *)
(** The segmenter implements the abstract one. *)
From stdpp Require Import gmap strings sorting.
From S2P Require Import Prelude MpegPes MpegTs MpegTsSpec MpegTsMux MpegTsWf MpegTsLossless SinkDispatcher MediaStream CodecUtils HlsSegmenter HlsSpec.
Open Scope Z_scope.

Implicit Types (e : environment) (self : hls_segmenter) (f : media_frame) (run : list media_frame) (a : timeline) (pub : list segment) (pkts : list (list Z)).

Fixpoint feed self (evs : list (environment * media_frame)) : outcome hls_segmenter :=
  match evs with [] => Ok self | (e, f) :: evs => self ← on_frame e self f; feed self evs end.

(** The run that is published at the end. *)
Definition last_run a : list (list media_frame) := match cur a with [] => [] | _ => [cur a] end.

Section Refinement.
Context (l0 : list (Z * track_state)) (hv : bool).
Hypotheses (Hkeys : NoDup (l0.*1)) (Hsup : all_supported l0) (Hne : l0 ≠ []) (Hfew : zlen l0 ≤ 4).
Local Abbreviation l := (number 0 l0).

Definition holds_run run (seg : segment) : Prop := plays l run (segment_data seg) ∧ 0 < zlen (segment_data seg) ≤ max_segment_bytes.

(** What does not depend on the segment being written: [pub] are all segments that
    were ever published. *)
Record static self (rs : list (list media_frame)) pub : Prop := {
  st_tracks : tracks_ self = l;
  st_video : has_video_ self = hv;
  st_runs : Forall2 holds_run rs pub;
  st_numbers k seg : pub !! k = Some seg → sequence seg = Z.of_nat k;
  st_window : segments_ self = drop (length pub - segment_window_size) pub;
  st_next : next_sequence_ self = zlen pub
}.

(** The segment being written, in [t] and [pkts]. *)
Record live self a t pkts : Prop := {
  lv_ended : ended_at_ self = None;
  lv_muxer : muxer_ self = Some t;
  lv_session : session (fresh l) t (map (muxed l) (cur a)) pkts;
  lv_current : current_segment_ self = concat pkts;
  lv_room : TS_PACKET_SIZE * zlen pkts ≤ room_needed (cur a);
  lv_max : TS_PACKET_SIZE * zlen pkts ≤ max_segment_bytes;
  lv_count : zlen (cur a) ≤ zlen pkts;
  lv_begins : cur a ≠ [] → begins (fresh l) pkts;
  lv_empty : cur a = [] → pkts = [] ∧ t = fresh l;
  lv_wait : waiting_for_key_frame_ self = key_wait a;
  lv_start : segment_start_pts_ns_ self = start_at a;
  lv_range s : start_at a = Some s → - 2 ^ 62 < s < 2 ^ 62;
  lv_high : - 2 ^ 62 < segment_max_pts_ns_ self < 2 ^ 62
}.

Record implements self a pub : Prop := {
  im_static : static self (runs a) pub;
  im_live : over a = false → ∃ t pkts, live self a t pkts;
  im_over : over a = true → is_Some (ended_at_ self)
}.

Lemma renew_ok e self : tracks_ self = l → calloc e = true → renew e self = Ok (true, set_tracks_ (set_muxer self (Some (fresh l))) l).
Proof.
  intros Ht Hc. unfold renew. rewrite Ht, recreate_muxer_ok by (done || by apply all_supported_number || by rewrite zlen_number). run. by rewrite number_number.
Qed.
Lemma renew_fails e self : calloc e = false → renew e self = Ok (false, set_ended (set_muxer (set_tracks_ (set_muxer self (muxer_ self)) (tracks_ self)) None) (Some (now e))).
Proof. intros Hc. unfold renew. by rewrite recreate_muxer_fails. Qed.

Lemma session_fresh : session (fresh l) (fresh l) [] [].
Proof. apply session_start. by apply l_fresh_ok. Qed.

(** An empty segment in a new muxer. *)
Lemma live_fresh self a : ended_at_ self = None → muxer_ self = Some (fresh l) → current_segment_ self = [] → cur a = [] →
  waiting_for_key_frame_ self = key_wait a → segment_start_pts_ns_ self = start_at a → (∀ s, start_at a = Some s → - 2 ^ 62 < s < 2 ^ 62) →
  - 2 ^ 62 < segment_max_pts_ns_ self < 2 ^ 62 → live self a (fresh l) [].
Proof.
  intros. constructor; try done.
  - rewrite H2. apply session_fresh.
  - rewrite H2. done.
  - rewrite H2. done.
Qed.

(** What may become of a frame that goes to the run of [a]. *)
Definition outcome_of e a f a' : Prop :=
  a' = extend a f ∨
  (a' = drop_run hv a ∧ (has_memory e → max_segment_bytes < room_needed (cur a ++ [f]))) ∨
  (¬ has_memory e ∧ over a' = true ∧ runs a' = runs a ∧ cur a' = []).

Lemma discard_ok e self a f pub : static self (runs a) pub → ended_at_ self = None →
  (has_memory e → max_segment_bytes < room_needed (cur a ++ [f])) →
  ∃ self' a', discard_segment e self = Ok self' ∧ outcome_of e a f a' ∧ implements self' a' pub.
Proof.
  intros Hs He Hf. pose proof Hs as []. unfold discard_segment. destruct (calloc e) eqn:Ec.
  - rewrite renew_ok by done. run. eexists _, (drop_run hv a). split; [reflexivity|]. split; [right; left; done|].
    constructor; [by constructor| |done]. intros _. eexists _, _. apply live_fresh; try done.
  - rewrite renew_fails by done. run. eexists _, (Timeline (runs a) [] hv None true). split; [reflexivity|].
    split; [right; right; split_and!; [intros [E _]; congruence|done..]|].
    constructor; [by constructor|done|]. intros _. by eexists.
Qed.

Lemma room_needed_snoc run f : room_needed (run ++ [f]) = room_needed run + 188 * (5 + zlen (payload_of f) / 184).
Proof. unfold room_needed. induction run as [|g run IH]; cbn [app foldr]; [lia|]. rewrite IH. lia. Qed.

Lemma begins_app t pkts new : begins t pkts → begins t (pkts ++ new).
Proof. intros (tables & rest & -> & H). exists tables, (rest ++ new). by rewrite app_assoc. Qed.

(** A frame that goes to the run of [a]. *)
Lemma mux_frame_ok e self a f s t pkts pub : good_environment e → good_frame f → find_state (track f) l = Some s → over a = false →
  static self (runs a) pub → live self a t pkts → ∃ self' a', mux_frame e self f = Ok self' ∧ outcome_of e a f a' ∧ implements self' a' pub.
Proof.
  intros He Hf Hfind Hov Hs [L1 L2 L3 L4 L5 L6 L7 L8 L9 L10 L11 L12 L13]. pose proof Hs as [S1 S2 S3 S4 S5 S6]. pose proof Hf as ([payload Ep] & Hlen & Hp & Hd).
  destruct (ninety_ok (pts_ns f) ltac:(lia)) as [E1 _]. destruct (ninety_ok (dts_ns f) Hd) as [E2 _].
  assert (payload_of f = payload) as Epl by (unfold payload_of; by rewrite Ep).
  destruct (fresh_fields l) as (Hf1 & Hf2 & Hf3).
  destruct (session_write (functions e) (fresh l) t (map (muxed l) (cur a)) pkts (muxed l f) (current_segment_ self))
    as (r & t' & x' & new & n & E & Es & Hwf & Hnew & Hcount & Hfirst & Hafter).
  { intros x b Hb. by apply (He x). } { by apply l_fresh_ok. } { done. } { by eapply muxed_ok. }
  { pose proof (session_clock _ _ _ _ L3) as Hc. unfold max_segment_bytes, TS_PACKET_SIZE in *. unfold zlen in Hc at 1. rewrite length_map in Hc. unfold zlen in *. lia. }
  rewrite (session_programs _ _ _ _ L3) in Hcount.
  unfold muxed in E. rewrite Hfind in E. cbn [f_pid f_flags f_pts f_dts f_data] in E.
  unfold mux_frame. rewrite S1, Hfind, L2, Ep, E1. run. rewrite E2. run. rewrite <- Epl, E. run.
  pose proof (zlen_concat_packets pkts (session_packets _ _ _ _ L3)) as Hcp. pose proof (zlen_concat_packets new Hwf) as Hcn.
  pose proof (send_functions e new Hwf (current_segment_ self)) as Hsend. rewrite Es, L4, Hcp in Hsend. specialize (Hsend L6) as [Hok Hfail].
  cbn [f_data muxed] in Hcount.
  assert (TS_PACKET_SIZE * zlen new ≤ 188 * (5 + zlen (payload_of f) / 184)) as Hroom by (unfold TS_PACKET_SIZE; dlia).
  destruct (Z.eqb_spec r 0) as [->|Hr]; cbn [negb].
  - destruct (Hok eq_refl) as [-> Hmax]. specialize (Hafter eq_refl). eexists _, (extend a f). split; [reflexivity|]. split; [by left|].
    constructor; [by constructor| |intros Ho; cbn [over extend] in Ho; congruence].
    intros _. exists t', (pkts ++ new). rewrite zlen_app, Hcp, Hcn in Hmax. constructor; cbn [ended_at_ muxer_ current_segment_ waiting_for_key_frame_ segment_start_pts_ns_ segment_max_pts_ns_ set_start set_current set_muxer extend cur key_wait start_at]; try done.
    + rewrite map_app. exact Hafter.
    + by rewrite concat_app.
    + rewrite zlen_app, room_needed_snoc. lia.
    + rewrite zlen_app. lia.
    + rewrite !zlen_app. change (zlen [f]) with 1. destruct new; [done|]. rewrite zlen_cons. pose proof (zlen_nonneg new). lia.
    + intros _. destruct (cur a) eqn:Ec; [|apply begins_app, L8; done]. destruct (L9 eq_refl) as [-> ->]. apply Hfirst. apply Hf1.
    + by intros E0%app_eq_nil%proj2.
    + lia.
  - apply discard_ok; [by constructor|done|]. intros Hm. specialize (Hfail Hr Hm). rewrite Hcn in Hfail. rewrite room_needed_snoc. unfold TS_PACKET_SIZE in *. lia.
Qed.

(** The segment being written is published. *)
Lemma finish_segment_ok self a t pkts pub last : static self (runs a) pub → live self a t pkts → cur a ≠ [] → - 2 ^ 62 < last < 2 ^ 62 → zlen pub < 2 ^ 63 →
  ∃ seg self', finish_segment self last = Ok self' ∧ static self' (runs a ++ [cur a]) (pub ++ [seg]) ∧ current_segment_ self' = [] ∧
    ended_at_ self' = None ∧ has_video_ self' = hv ∧ muxer_ self' = muxer_ self ∧ waiting_for_key_frame_ self' = key_wait a.
Proof.
  intros [S1 S2 S3 S4 S5 S6] [L1 L2 L3 L4 L5 L6 L7 L8 L9 L10 L11 L12 L13] Hc Hlast Hpub.
  pose proof (session_packets _ _ _ _ L3) as Hwf. pose proof (zlen_concat_packets pkts Hwf) as Hcp.
  assert (0 < zlen (concat pkts)) as Hpos.
  { destruct (cur a) as [|g run] eqn:Eg; [done|]. rewrite zlen_cons in L7. pose proof (zlen_nonneg run). rewrite Hcp. unfold TS_PACKET_SIZE. lia. }
  unfold finish_segment. rewrite L4.
  assert (∃ d, (match segment_start_pts_ns_ self with Some start => if last >=? start then int64 (last - start) else Ok target_duration_ns | None => Ok target_duration_ns end) = Ok d) as [d Ed].
  { rewrite L11. destruct (start_at a) as [start|] eqn:E; [|eauto]. pose proof (L12 start eq_refl). destruct (last >=? start); [|eauto]. rewrite int64_ok by lia. eauto. }
  rewrite Ed. run. destruct (concat pkts) as [|b data] eqn:Ec; [done|]. rewrite <- Ec in *. clear Ed.
  exists (Segment (next_sequence_ self) (if d <=? 0 then target_duration_ns else d) (concat pkts)). eexists. split; [reflexivity|]. split_and!; [|done..].
  constructor; cbn [tracks_ has_video_ segments_ next_sequence_ set_current set_segments]; try done.
  - apply Forall2_app; [done|]. constructor; [|constructor]. split; [|cbn [segment_data]; unfold TS_PACKET_SIZE in *; lia].
    apply (session_plays l0 Hkeys t); [done|by apply L8].
  - intros k seg [Hk|[Hk E]]%lookup_app_Some; [by apply S4|]. destruct (k - length pub)%nat eqn:Ek; [|done]. injection E as <-. cbn [sequence]. rewrite S6. unfold zlen. lia.
  - rewrite S5, !length_app, length_drop. cbn [length]. unfold segment_window_size. rewrite <- (drop_app_le pub) by lia. rewrite drop_drop. f_equal. lia.
  - rewrite S6, zlen_app. change (zlen [_]) with 1. unfold u64. apply Z.mod_small. pose proof (zlen_nonneg pub). lia.
Qed.

Lemma live_current_empty self a t pkts : live self a t pkts → (length (current_segment_ self) =? 0)%nat = (length (cur a) =? 0)%nat.
Proof.
  intros [_ _ L3 L4 _ _ L7 _ L9 _ _ _ _]. pose proof (zlen_concat_packets pkts (session_packets _ _ _ _ L3)) as Hc. rewrite L4.
  destruct (cur a) as [|g run] eqn:E; [by destruct (L9 eq_refl) as [-> _]|]. rewrite zlen_cons in L7. pose proof (zlen_nonneg run).
  unfold TS_PACKET_SIZE, zlen in *. cbn [length]. apply Nat.eqb_neq. lia.
Qed.

(** A frame that is admitted starts a segment that has not started. *)
Definition prepared self f : hls_segmenter :=
  let self := set_waiting self false in
  match segment_start_pts_ns_ self with Some _ => self | None => set_start self (Some (pts_ns f)) (pts_ns f) end.
Definition begun a f : timeline := Timeline (runs a) (cur a) false (Some (default (pts_ns f) (start_at a))) false.

Lemma prepared_live self a t pkts f : good_frame f → live self a t pkts → live (prepared self f) (begun a f) t pkts.
Proof.
  intros (_ & _ & Hp & _) [L1 L2 L3 L4 L5 L6 L7 L8 L9 L10 L11 L12 L13]. unfold prepared. cbn [segment_start_pts_ns_ set_waiting]. rewrite L11.
  destruct (start_at a) as [s|] eqn:E; constructor; cbn [begun cur key_wait start_at]; rewrite ?E; try done; cbn [default from_option id]; try (intros s0 [= <-]; first [by apply L12|lia]).
Qed.
Lemma prepared_static self rs pub f : static self rs pub → static (prepared self f) rs pub.
Proof. intros []. unfold prepared. cbn [segment_start_pts_ns_ set_waiting]. by destruct (segment_start_pts_ns_ self). Qed.

Lemma outcome_step e a f a' : over a = false → admitted l a f = true → outcome_of e (cut l hv a f) f a' → step l hv a (e, f) a'.
Proof.
  intros Ho Ha [->|[[-> H]|(H1 & H2 & H3 & H4)]]; [by apply step_kept|by apply step_dropped|by apply step_failed].
Qed.

(** A frame more. *)
Lemma on_frame_ok e self a f pub : good_environment e → good_frame f → implements self a pub → zlen pub < 2 ^ 63 →
  ∃ self' a' new, on_frame e self f = Ok self' ∧ step l hv a (e, f) a' ∧ implements self' a' (pub ++ new) ∧ zlen new ≤ 1.
Proof.
  intros He Hf Him Hpub. pose proof Him as [Hs Hl Ho]. unfold on_frame.
  assert (∀ self' a' new, implements self' a' (pub ++ new) → zlen new ≤ 1 → step l hv a (e, f) a' → ∃ self0 a0 new0, Ok self' = Ok self0 ∧ step l hv a (e, f) a0 ∧
    implements self0 a0 (pub ++ new0) ∧ zlen new0 ≤ 1) as Hdone by (intros self' a' new; by exists self', a', new).
  assert (implements self a (pub ++ [])) as Him0 by (by rewrite app_nil_r).
  destruct (over a) eqn:Eo.
  { destruct (Ho eq_refl) as [x ->]. apply (Hdone self a []); [done|done|by apply step_over]. }
  destruct (Hl eq_refl) as (t & pkts & Hlive). rewrite (lv_ended _ _ _ _ Hlive), (st_tracks _ _ _ Hs).
  destruct (find_state (track f) l) as [s|] eqn:Ef.
  2: { apply (Hdone self a []); [done|done|]. apply step_ignored; [done|]. unfold admitted. by rewrite Ef. }
  assert (is_video (state_track s) && key_frame f = key_video l f) as Ek by (unfold key_video; by rewrite Ef). rewrite Ek, (lv_wait _ _ _ _ Hlive).
  destruct (key_wait a && negb (key_video l f)) eqn:Ew.
  { apply (Hdone self a []); [done|done|]. apply step_ignored; [done|]. unfold admitted. by rewrite Ef, Ew. }
  assert (admitted l a f = true) as Hadm by (unfold admitted; by rewrite Ef, Ew).
  pose proof (prepared_live self a t pkts f Hf Hlive) as Hlive1. pose proof (prepared_static self _ _ f Hs) as Hs1.
  fold (prepared self f). cbn [set_waiting segment_start_pts_ns_]. rewrite (lv_start _ _ _ _ Hlive).
  change (match start_at a with Some start => start | None => pts_ns f end) with (default (pts_ns f) (start_at a)).
  assert (- 2 ^ 62 < default (pts_ns f) (start_at a) < 2 ^ 62) as Hst by (apply (lv_range _ _ _ _ Hlive1); done).
  rewrite int64_ok by (destruct Hf as (_ & _ & ? & _); lia). run.
  rewrite (st_video _ _ _ Hs1).
  assert (negb (Nat.eqb (length (current_segment_ (prepared self f))) 0) = negb (Nat.eqb (length (cur a)) 0)) as ->.
  { f_equal. exact (live_current_empty _ _ _ _ Hlive1). }
  change ((negb hv || key_video l f) && (pts_ns f - default (pts_ns f) (start_at a) >=? target_duration_ns) && negb (length (cur a) =? 0)%nat) with (cuts l hv a f).
  assert (∀ self1 a1 t1 pkts1 pub1, a1 = cut l hv a f → static self1 (runs a1) (pub ++ pub1) → live self1 a1 t1 pkts1 → zlen pub1 ≤ 1 →
    ∃ self' a' new, mux_frame e self1 f = Ok self' ∧ step l hv a (e, f) a' ∧ implements self' a' (pub ++ new) ∧ zlen new ≤ 1) as Hmux.
  { intros self1 a1 t1 pkts1 pub1 E1 Hs2 Hlive2 H1. assert (over a1 = false) as Ho1 by (rewrite E1; unfold cut; by destruct (cuts l hv a f)).
    destruct (mux_frame_ok e self1 a1 f s t1 pkts1 (pub ++ pub1)) as (self' & a' & E & Hout & Him'); [done..|].
    exists self', a', pub1. split_and!; try done. apply outcome_step; [done|done|]. by rewrite <- E1. }
  destruct (cuts l hv a f) eqn:Ecut.
  2: { apply (Hmux _ (begun a f) t pkts []); [unfold cut; by rewrite Ecut|by rewrite app_nil_r|done|done]. }
  assert (cur a ≠ []) as Hcur by (intros E0; unfold cuts in Ecut; rewrite E0, andb_false_r in Ecut; done).
  destruct (finish_segment_ok (prepared self f) (begun a f) t pkts pub (pts_ns f)) as (seg & self2 & -> & Hs2 & Hc2 & He2 & Hv2 & Hm2 & Hw2); [done..|apply Hf|done|].
  run. destruct (calloc e) eqn:Ec.
  - rewrite renew_ok by (done || apply (st_tracks _ _ _ Hs2)). run.
    apply (Hmux _ (cut l hv a f) (fresh l) [] [seg]); [done| | |done].
    + unfold cut. rewrite Ecut. cbn [runs]. by destruct Hs2.
    + unfold cut. rewrite Ecut. apply live_fresh; try done. cbn [start_at]. intros s0 [= <-]. apply Hf. apply Hf.
  - rewrite renew_fails by done. run. eexists _, (Timeline (runs a ++ [cur a]) [] false (Some (pts_ns f)) true), [seg]. split; [reflexivity|]. split.
    { apply step_failed; try done; [intros [? _]; congruence|]. unfold cut. by rewrite Ecut. }
    split; [|done]. constructor; [|done|intros _; by eexists]. destruct Hs2. by constructor.
Qed.

(** Frames one after the other. *)
Lemma segmenter_feed_ok evs : ∀ self a pub, Forall (λ ev : environment * media_frame, good_environment ev.1 ∧ good_frame ev.2) evs → implements self a pub →
  zlen pub + zlen evs < 2 ^ 63 →
  ∃ self' a' new, feed self evs = Ok self' ∧ steps l hv a evs a' ∧ implements self' a' (pub ++ new) ∧ zlen new ≤ zlen evs.
Proof.
  induction evs as [|[e f] evs IH]; intros self a pub Hevs Him Hn.
  { exists self, a, []. rewrite app_nil_r. split_and!; [done|constructor|done|done]. }
  apply Forall_cons_1 in Hevs as [[He Hf] Hevs]. rewrite zlen_cons in *. pose proof (zlen_nonneg evs).
  destruct (on_frame_ok e self a f pub) as (self1 & a1 & new1 & E1 & H1 & Him1 & Hn1); [done|done|done|lia|].
  destruct (IH self1 a1 (pub ++ new1)) as (self2 & a2 & new2 & E2 & H2 & Him2 & Hn2); [done|done|rewrite zlen_app; lia|].
  exists self2, a2, (new1 ++ new2). cbn [feed]. rewrite E1. run. split_and!; [exact E2| |by rewrite app_assoc|rewrite zlen_app; lia].
  by eapply steps_cons.
Qed.

(** The end of the stream. *)
Lemma finish_ok self a pub now : implements self a pub → zlen pub < 2 ^ 63 →
  ∃ self' new, on_end self now = Ok self' ∧ is_Some (ended_at_ self') ∧ (over a = true → self' = self ∧ new = []) ∧
    (over a = false → static self' (runs a ++ last_run a) (pub ++ new)).
Proof.
  intros Him Hn. pose proof Him as [Hs Hl Ho]. unfold on_end, finish. destruct (over a) eqn:Eo.
  - destruct (Ho eq_refl) as [x Ex]. rewrite Ex. exists self, []. by split_and!; eauto.
  - destruct (Hl eq_refl) as (t & pkts & Hlive). rewrite (lv_ended _ _ _ _ Hlive). unfold last_run.
    destruct (decide (cur a = [])) as [Ec|Ec].
    + assert (current_segment_ self = []) as E0.
      { rewrite (lv_current _ _ _ _ Hlive). by destruct (lv_empty _ _ _ _ Hlive Ec) as [-> _]. }
      unfold finish_segment. rewrite E0. run. eexists _, []. split; [reflexivity|]. split; [by eexists|]. split; [done|]. intros _.
      rewrite Ec, !app_nil_r. by destruct Hs.
    + destruct (finish_segment_ok self a t pkts pub (segment_max_pts_ns_ self)) as (seg & self2 & -> & Hs2 & _); [done|done|done|exact (lv_high _ _ _ _ Hlive)|done|].
      run. eexists _, [seg]. split; [reflexivity|]. split; [by eexists|]. split; [done|]. intros _.
      destruct (cur a) eqn:E; [done|]. rewrite <- E in *. by destruct Hs2.
Qed.
End Refinement.

(** * Starting *)

Lemma emplace_keys k s (l : list (Z * track_state)) x : x ∈ (emplace k s l).*1 → x = k ∨ x ∈ l.*1.
Proof.
  induction l as [|[k' s'] l IH]; cbn [emplace fmap list_fmap fst]; [set_solver|].
  destruct (k <? k'); [set_solver|]. destruct (k =? k'); [set_solver|]. cbn [fmap list_fmap fst]. set_solver.
Qed.
Lemma emplace_sorted k s (l : list (Z * track_state)) : StronglySorted Z.lt (l.*1) → StronglySorted Z.lt ((emplace k s l).*1).
Proof.
  induction l as [|[k' s'] l IH]; intros Hl; cbn [emplace fmap list_fmap fst] in *; [repeat constructor|].
  apply StronglySorted_inv in Hl as [Hl Hk].
  destruct (Z.ltb_spec k k'); cbn [fmap list_fmap fst].
  - constructor; [by constructor|]. constructor; [done|]. eapply list.Forall_impl; [exact Hk|]. intros y Hy. cbn in Hy. lia.
  - destruct (Z.eqb_spec k k'); cbn [fmap list_fmap fst]; [by constructor|]. constructor; [by apply IH|].
    apply list.Forall_forall. intros x [->|Hx]%emplace_keys; [lia|]. by eapply (proj1 (list.Forall_forall _ _) Hk).
Qed.
Lemma emplace_supported k s l : supported (state_track s) = true → all_supported l → all_supported (emplace k s l).
Proof.
  intros Hs. induction 1 as [|[k' s'] l Hs' Hl IH]; cbn [emplace]; [by repeat constructor|].
  destruct (k <? k'); [by repeat constructor|]. by destruct (k =? k'); constructor.
Qed.

Lemma collect_tracks_ok ts : ∀ l hv, StronglySorted Z.lt (l.*1) → all_supported l →
  StronglySorted Z.lt ((collect_tracks ts l hv).1.*1) ∧ all_supported (collect_tracks ts l hv).1.
Proof.
  induction ts as [|t ts IH]; intros l hv Hl Hs; [done|]. cbn [collect_tracks].
  destruct (codec t) eqn:E; apply IH; try done; try (by apply emplace_sorted); apply emplace_supported; try done; unfold supported; cbn [state_track]; by rewrite E.
Qed.

Lemma sorted_nodup (l : list Z) : StronglySorted Z.lt l → NoDup l.
Proof.
  induction 1 as [|x l _ IH Hx]; [constructor|]. apply list.NoDup_cons. split; [|done].
  intros Hin. pose proof (proj1 (list.Forall_forall _ _) Hx x Hin). cbn in *. lia.
Qed.

(** A segmenter that has started. *)
Lemma startup_ok e ts self : startup e new_segmenter ts = Ok (true, self) →
  ∃ l0, NoDup (l0.*1) ∧ all_supported l0 ∧ l0 ≠ [] ∧ zlen l0 ≤ 4 ∧ tracks_ self = number 0 l0 ∧ implements l0 (has_video_ self) self (initial (has_video_ self)) [].
Proof.
  unfold startup. destruct (collect_tracks ts [] false) as [l0 hv] eqn:E.
  destruct (collect_tracks_ok ts [] false) as [Hsort Hsup]; [constructor|constructor|]. rewrite E in Hsort, Hsup. cbn [fst] in *.
  apply sorted_nodup in Hsort. destruct l0 as [|x l]; [done|]. set (l0 := x :: l) in *. intros H.
  destruct (calloc e) eqn:Ec; [|by rewrite recreate_muxer_fails in H].
  destruct (decide (zlen l0 ≤ 4)) as [Hn|Hn].
  - rewrite recreate_muxer_ok in H by done. injection H as <-. exists l0. split_and!; try done. cbn [has_video_].
    constructor; [constructor; try done; by constructor| |done]. intros _. exists (fresh (number 0 l0)), [].
    apply live_fresh; try done. cbn [muxer_]. unfold fresh. by rewrite streams_from_number.
  - exfalso. unfold recreate_muxer in H. rewrite Ec, create_muxer in H.
    destruct (add_tracks_full e l0 []) as (m & l' & E'); [done|done|change (zlen (@nil pes_t)) with 0; lia|]. rewrite E' in H. done.
Qed.
