(* ===== verification/HlsPublish.v ===== *)
(** What the segmenter publishes, from its start to the end of the stream. *)
From stdpp Require Import gmap strings.
From S2P Require Import Prelude MpegPes MpegTs MpegTsSpec MpegTsMux MpegTsWf MpegTsLossless SinkDispatcher MediaStream CodecUtils HlsSegmenter HlsSpec HlsRefine.
Open Scope Z_scope.

Implicit Types (e : environment) (self : hls_segmenter) (f : media_frame) (run : list media_frame) (a : timeline) (pub : list segment) (l : list (Z * track_state)).

(** [pub] are the segments of the runs [rs], numbered from 0; the last six are there. *)
Record publishes l self (rs : list (list media_frame)) pub : Prop := {
  pb_runs : Forall2 (λ run seg, plays l run (segment_data seg) ∧ 0 < zlen (segment_data seg) ≤ max_segment_bytes) rs pub;
  pb_numbers k seg : pub !! k = Some seg → sequence seg = Z.of_nat k;
  pb_window : segments_ self = drop (length pub - segment_window_size) pub;
  pb_next : next_sequence_ self = zlen pub
}.

Lemma static_publishes l0 hv self rs pub : static l0 hv self rs pub → publishes (number 0 l0) self rs pub.
Proof. intros []. by constructor. Qed.

(** * The runs of the abstract segmenter *)

Definition run_ok l (hv : bool) run : Prop := ∃ f run', run = f :: run' ∧ (hv = true → key_video l f = true).
Definition runs_ok l (hv : bool) a (old : list media_frame) : Prop :=
  concat (runs a) ++ cur a `sublist_of` old ∧ Forall (run_ok l hv) (runs a) ∧ (cur a ≠ [] → run_ok l hv (cur a)) ∧
  (over a = false → cur a = [] → key_wait a = hv).

Lemma cut_runs l hv a f : concat (runs (cut l hv a f)) ++ cur (cut l hv a f) = concat (runs a) ++ cur a.
Proof. unfold cut. destruct (cuts l hv a f); [|done]. cbn [runs cur]. by rewrite concat_app, app_nil_r; cbn; rewrite app_nil_r. Qed.
Lemma cut_runs_ok l hv a f old : runs_ok l hv a old → Forall (run_ok l hv) (runs (cut l hv a f)).
Proof.
  intros (_ & Hr & Hc & _). unfold cut. destruct (cuts l hv a f) eqn:E; [|done]. cbn [runs]. apply Forall_app. split; [done|]. constructor; [|done].
  apply Hc. intros E0. unfold cuts in E. by rewrite E0, andb_false_r in E.
Qed.
Lemma cut_head l hv a f old : over a = false → runs_ok l hv a old → admitted l a f = true → run_ok l hv (cur (cut l hv a f) ++ [f]).
Proof.
  intros Ho (_ & _ & Hc & Hw) Ha. destruct (cur (cut l hv a f)) as [|g run] eqn:E.
  - exists f, []. split; [done|]. intros ->. unfold cut in E. destruct (cuts l true a f) eqn:Ec.
    + unfold cuts in Ec. cbn [negb orb] in Ec. by destruct (key_video l f).
    + cbn [cur] in E. unfold admitted in Ha. rewrite (Hw Ho E) in Ha. destruct (find_state (track f) l); [|done]. by destruct (key_video l f).
  - assert (cur a = g :: run) as Ea by (unfold cut in E; by destruct (cuts l hv a f)).
    destruct Hc as (f0 & run' & E' & Hk); [by rewrite Ea|]. rewrite Ea in E'. injection E' as -> ->. by exists f0, (run' ++ [f]).
Qed.

Lemma step_runs l hv a e f a' old : runs_ok l hv a old → step l hv a (e, f) a' → runs_ok l hv a' (old ++ [f]).
Proof.
  intros Hok Hs. pose proof Hok as (H1 & H2 & H3 & H4). pose proof (cut_runs l hv a f) as Hcut. pose proof (cut_runs_ok l hv a f old Hok) as Hr.
  assert (concat (runs (cut l hv a f)) `sublist_of` old ++ [f]) as Hsub.
  { apply sublist_inserts_r. etransitivity; [|exact H1]. rewrite <- Hcut. by apply sublist_inserts_r. }
  inversion Hs; subst.
  - split_and!; try done; by apply sublist_inserts_r.
  - split_and!; try done; by apply sublist_inserts_r.
  - split_and!; [|done| |].
    + cbn [runs cur extend]. rewrite app_assoc, Hcut. by apply sublist_app.
    + intros _. by eapply cut_head.
    + cbn [cur extend]. by intros _ E%app_eq_nil%proj2.
  - split_and!; cbn [runs cur drop_run over key_wait]; [by rewrite app_nil_r|done|done|done].
  - match goal with Er : runs a' = _, Ec : cur a' = _, Eo : over a' = _ |- _ => unfold runs_ok; rewrite Er, Ec, Eo, ?app_nil_r end. by split_and!.
Qed.

Lemma steps_runs l hv evs : ∀ a a' old, runs_ok l hv a old → steps l hv a evs a' → runs_ok l hv a' (old ++ map snd evs).
Proof.
  induction evs as [|[e f] evs IH]; intros a a' old Ha Hs; inversion Hs; subst; cbn [map].
  - by rewrite app_nil_r.
  - rewrite cons_middle, app_assoc. eapply IH; [|done]. by eapply step_runs.
Qed.

Lemma initial_runs l hv : runs_ok l hv (initial hv) [].
Proof. by split_and!. Qed.

(** * The segments there are *)

Lemma buffer_lookup l self rs pub k d : publishes l self rs pub →
  segment_buffer self k = Some d ↔ ∃ seg, pub !! Z.to_nat k = Some seg ∧ segment_data seg = d ∧ 0 ≤ k ∧ zlen pub - 6 ≤ k.
Proof.
  intros [_ Hn Hw _]. unfold segment_buffer. rewrite Hw. set (n := (length pub - segment_window_size)%nat). split.
  - destruct (list_find _ _) as [[i seg]|] eqn:E; [|done]. intros [= <-]. apply list_find_Some in E as (Hi & Hk & _).
    rewrite lookup_drop in Hi. pose proof (Hn _ _ Hi) as Hs. exists seg. replace (Z.to_nat k) with (n + i)%nat by lia. split_and!; try done; try lia.
    unfold n, segment_window_size, zlen in *. lia.
  - intros (seg & Hk & <- & H0 & Hlow). pose proof (Hn _ _ Hk) as Hs. rewrite Z2Nat.id in Hs by done.
    destruct (list_find (λ s, sequence s = k) (drop n pub)) as [[i seg']|] eqn:E.
    + apply list_find_Some in E as (Hi & Hk' & _). rewrite lookup_drop in Hi. pose proof (Hn _ _ Hi). replace (n + i)%nat with (Z.to_nat k) in Hi by lia.
      rewrite Hk in Hi. by injection Hi as ->.
    + apply list_find_None in E. exfalso. pose proof (lookup_lt_Some _ _ _ Hk) as Hlt.
      assert (drop n pub !! (Z.to_nat k - n)%nat = Some seg) as Hd by (rewrite lookup_drop; unfold n, segment_window_size, zlen in *; replace (_ + _)%nat with (Z.to_nat k) by lia; done).
      by apply (proj1 (list.Forall_lookup _ _) E _ _ Hd).
Qed.

(** * The theorems *)

Definition good_events (evs : list (environment * media_frame)) : Prop := Forall (λ ev, good_environment ev.1 ∧ good_frame ev.2) evs.

Lemma implements_publishes l0 hv self a pub : implements l0 hv self a pub → publishes (number 0 l0) self (runs a) pub ∧ (over a = true ↔ is_Some (ended_at_ self)).
Proof.
  intros [Hs Hl Ho]. split; [by eapply static_publishes|]. split; [done|]. destruct (over a); [done|].
  destruct (Hl eq_refl) as (t & pkts & Hlive). rewrite (lv_ended _ _ _ _ _ Hlive). by intros [].
Qed.

(** C4: The segmenter implements an abstract one that knows nothing of transport
    streams: it takes frames of known tracks from the first key frame on, puts them into
    a run, begins a new run with a key frame (with any frame, without video) once two
    seconds are over, and throws a run away only when memory fails or its packets may not
    fit into 16 MiB.  Whatever frames come and whatever memory does, no call has undefined
    behaviour, and each finished run is published as a segment with the next number: a
    transport stream of its own, whole packets that begin with the tables, with counters
    that begin at 0, from which a player reads on the PID of each track exactly the frames
    of the run, with their times in 90 kHz.  The last six segments can be fetched; at the
    end of the stream the run being written is published too. *)
Theorem hls_segmenter_refines e0 ts self0 evs :
  startup e0 new_segmenter ts = Ok (true, self0) → good_events evs → zlen evs < 2 ^ 62 →
  let l := tracks_ self0 in let hv := has_video_ self0 in
  ∃ self a pub, feed self0 evs = Ok self ∧ steps l hv (initial hv) evs a ∧ publishes l self (runs a) pub ∧
    (over a = true ↔ is_Some (ended_at_ self)) ∧
    ∀ now, ∃ self' pub', on_end self now = Ok self' ∧ is_Some (ended_at_ self') ∧
      publishes l self' (runs a ++ if over a then [] else last_run a) (pub ++ pub').
Proof.
  intros Hstart Hevs Hn l hv. destruct (startup_ok _ _ _ Hstart) as (l0 & Hk & Hs & Hne & Hfew & Hl & Him).
  subst l. rewrite Hl.
  destruct (segmenter_feed_ok l0 hv Hk Hs Hne Hfew evs self0 (initial hv) []) as (self & a & pub & E & Hsteps & Him' & Hp); [done|done|change (zlen (@nil segment)) with 0; lia|].
  destruct (implements_publishes _ _ _ _ _ Him') as [Hpub Hover]. cbn [app] in *. exists self, a, pub. split_and!; try done; [apply Hover..|].
  intros now. destruct (finish_ok l0 hv Hk self a pub now) as (self' & pub' & E' & Hend & Hdone & Hlive); [done|lia|].
  exists self', pub'. split_and!; try done. destruct (over a) eqn:Eo.
  - destruct (Hdone eq_refl) as [-> ->]. by rewrite !app_nil_r.
  - eapply static_publishes. by apply Hlive.
Qed.

(** C15: What players see is stable.  At any time at most six segments can be fetched,
    each of at most 16 MiB, with the consecutive numbers before the next one to be given;
    each holds a run of the frames that came, in their order, which with video begins
    with a key frame.  A number that has been seen keeps its bytes as long as it can be
    fetched, and cannot be fetched again once six newer segments exist. *)
Theorem hls_window e0 ts self0 evs1 evs2 :
  startup e0 new_segmenter ts = Ok (true, self0) → good_events (evs1 ++ evs2) → zlen (evs1 ++ evs2) < 2 ^ 62 →
  ∃ self1 self2, feed self0 evs1 = Ok self1 ∧ feed self1 evs2 = Ok self2 ∧ zlen (segments_ self2) ≤ 6 ∧
    (∀ i seg, segments_ self2 !! i = Some seg → sequence seg = next_sequence_ self2 - zlen (segments_ self2) + Z.of_nat i ∧
      zlen (segment_data seg) ≤ max_segment_bytes ∧
      ∃ f run, plays (tracks_ self0) (f :: run) (segment_data seg) ∧ (f :: run) `sublist_of` map snd (evs1 ++ evs2) ∧
        (has_video_ self0 = true → key_video (tracks_ self0) f = true)) ∧
    ∀ k d, segment_buffer self1 k = Some d → segment_buffer self2 k = if decide (k < next_sequence_ self2 - 6) then None else Some d.
Proof.
  intros Hstart [Hevs1 Hevs2]%Forall_app Hn. rewrite zlen_app in Hn. pose proof (zlen_nonneg evs1). pose proof (zlen_nonneg evs2).
  destruct (startup_ok _ _ _ Hstart) as (l0 & Hk & Hs & Hne & Hfew & Hl & Him). set (hv := has_video_ self0) in *. rewrite Hl.
  destruct (segmenter_feed_ok l0 hv Hk Hs Hne Hfew evs1 self0 (initial hv) []) as (self1 & a1 & pub1 & E1 & Hsteps1 & Him1 & Hp1); [done|done|change (zlen (@nil segment)) with 0; lia|].
  destruct (segmenter_feed_ok l0 hv Hk Hs Hne Hfew evs2 self1 a1 pub1) as (self2 & a2 & new & E2 & Hsteps2 & Him2 & Hp2); [done|done|lia|].
  destruct (implements_publishes _ _ _ _ _ Him1) as [Hpub1 _]. destruct (implements_publishes _ _ _ _ _ Him2) as [Hpub2 _]. cbn [app] in *.
  pose proof (steps_runs _ _ _ _ _ _ (steps_runs _ _ _ _ _ _ (initial_runs _ hv) Hsteps1) Hsteps2) as (Hsub & Hruns & _). cbn [app] in Hsub.
  exists self1, self2. split_and!; [done|done| | |].
  - rewrite (pb_window _ _ _ _ Hpub2). unfold zlen, segment_window_size. rewrite length_drop. lia.
  - intros i seg Hi. rewrite (pb_next _ _ _ _ Hpub2). pose proof Hi as Hi'. rewrite (pb_window _ _ _ _ Hpub2) in Hi |- *. rewrite lookup_drop in Hi.
    split; [rewrite (pb_numbers _ _ _ _ Hpub2 _ _ Hi); apply lookup_lt_Some in Hi; unfold zlen, segment_window_size in *; rewrite length_drop; lia|].
    destruct (Forall2_lookup_r _ _ _ _ _ (pb_runs _ _ _ _ Hpub2) Hi) as (run & Hrun & Hplays & Hsize). split; [lia|].
    pose proof (proj1 (list.Forall_lookup _ _) Hruns _ _ Hrun) as (f & run' & -> & Hkey). exists f, run'. split_and!; try done.
    rewrite map_app. etransitivity; [|exact Hsub]. apply sublist_inserts_r. apply list_elem_of_lookup_2 in Hrun.
    apply list_elem_of_split in Hrun as (r1 & r2 & ->). rewrite concat_app. cbn [concat]. apply sublist_inserts_l. by apply sublist_inserts_r.
  - intros k d. rewrite (buffer_lookup _ _ _ _ _ _ Hpub1). intros (seg & Hk1 & <- & Hpos & Hlow).
    assert ((pub1 ++ new) !! Z.to_nat k = Some seg) as Hk2 by (by apply lookup_app_l_Some).
    rewrite (pb_next _ _ _ _ Hpub2). destruct (decide (k < zlen (pub1 ++ new) - 6)) as [Hlt|Hge].
    + destruct (segment_buffer self2 k) as [d|] eqn:E; [|done]. apply (buffer_lookup _ _ _ _ _ _ Hpub2) in E as (? & _ & _ & _ & ?). lia.
    + apply (buffer_lookup _ _ _ _ _ _ Hpub2). exists seg. split_and!; try done. lia.
Qed.

(** H.264 and AAC; key frames at 0 and 2.1 s. *)
Definition demo_tracks : list media_track := [MediaTrack 2 audio aac 44100 2 []; MediaTrack 1 video h264 90000 0 []].
Definition demo_environment : environment := Environment true (λ _, true) (λ _, true) (λ _, Some (replicate 188 0)) 0.
Definition demo_segmenter : hls_segmenter :=
  match startup demo_environment new_segmenter demo_tracks with Ok (_, self) => self | _ => new_segmenter end.
Definition demo_frame (track ms : Z) (key : bool) : environment * media_frame :=
  (demo_environment, MediaFrame track (ms * 1000000) (ms * 1000000) key (Some [0; 0; 1; 0x65; 7; 8; 9]) false).
Definition demo_events : list (environment * media_frame) := [demo_frame 2 0 true; demo_frame 1 0 true; demo_frame 2 10 true; demo_frame 1 40 false].
Definition demo_more : list (environment * media_frame) := [demo_frame 1 2100 true; demo_frame 2 2110 true].

Lemma demo_started : startup demo_environment new_segmenter demo_tracks = Ok (true, demo_segmenter).
Proof. by vm_compute. Qed.
Lemma demo_good (evs : list (environment * media_frame)) : Forall (λ ev, ev.1 = demo_environment ∧ ∃ track ms key, ev = demo_frame track ms key ∧ 0 ≤ ms < 10000) evs → good_events evs.
Proof.
  intros H. eapply list.Forall_impl; [exact H|]. intros ev [He (track & ms & key & -> & Hms)]. rewrite He. split; [by intros x b [= <-]|].
  unfold good_frame, demo_frame. cbn [snd frame_payload pts_ns dts_ns]. split; [eauto|]. split; [done|]. lia.
Qed.

Ltac demo_events_good := apply demo_good; repeat apply Forall_cons_2; try apply Forall_nil_2; (split; [reflexivity|]); eexists _, _, _; (split; [reflexivity|lia]).

Lemma hls_segmenter_refines_witness :
  let l := tracks_ demo_segmenter in let hv := has_video_ demo_segmenter in
  ∃ self a pub, feed demo_segmenter (demo_events ++ demo_more) = Ok self ∧ steps l hv (initial hv) (demo_events ++ demo_more) a ∧ publishes l self (runs a) pub ∧
    (over a = true ↔ is_Some (ended_at_ self)) ∧
    ∀ now, ∃ self' pub', on_end self now = Ok self' ∧ is_Some (ended_at_ self') ∧
      publishes l self' (runs a ++ if over a then [] else last_run a) (pub ++ pub').
Proof.
  apply (hls_segmenter_refines demo_environment demo_tracks demo_segmenter (demo_events ++ demo_more)); [exact demo_started| |by vm_compute].
  unfold demo_events, demo_more. cbn [app]. demo_events_good.
Defined.

Lemma hls_window_witness :
  ∃ self1 self2, feed demo_segmenter demo_events = Ok self1 ∧ feed self1 demo_more = Ok self2 ∧ zlen (segments_ self2) ≤ 6 ∧
    (∀ i seg, segments_ self2 !! i = Some seg → sequence seg = next_sequence_ self2 - zlen (segments_ self2) + Z.of_nat i ∧
      zlen (segment_data seg) ≤ max_segment_bytes ∧
      ∃ f run, plays (tracks_ demo_segmenter) (f :: run) (segment_data seg) ∧ (f :: run) `sublist_of` map snd (demo_events ++ demo_more) ∧
        (has_video_ demo_segmenter = true → key_video (tracks_ demo_segmenter) f = true)) ∧
    ∀ k d, segment_buffer self1 k = Some d → segment_buffer self2 k = if decide (k < next_sequence_ self2 - 6) then None else Some d.
Proof.
  apply (hls_window demo_environment demo_tracks demo_segmenter demo_events demo_more); [exact demo_started| |by vm_compute].
  unfold demo_events, demo_more. cbn [app]. demo_events_good.
Defined.
